(* ===== verification/_CoqProject ===== *)
-Q . S2P
Prelude.v
Tensor.v
Codec.v
BlockFirst.v
DirectIO.v
World.v
WorldIO.v
HipFile.v
XdsFiles.v
XdsLoad.v
XdsPaths.v
XdsMeta.v
Dict.v
XdsIndex.v
DeviceTensor.v
XdsStaged.v
XdsCpuStore.v
XdsGpuStage.v
XdsChunkIO.v
XdsStagedFacts.v
XdsStagedExamples.v
CuFile.v
GdsMeta.v
GdsFiles.v
GdsDirect.v
GdsAccounts.v
GdsStaged.v
GdsIndex.v
GdsFacts.v
GdsLegacy.v
GdsPuts.v
GdsChunks.v
GdsExamples.v
KvKernels.v
KvKernelFacts.v
GpuConnector.v
GpuLayouts.v
GpuTransfers.v
GpuFacts.v
GpuRoundtrip.v
GpuStore.v
GpuExamples.v
Allocator.v
AllocatorFacts.v
XdsPreflight.v
XdsLifecycle.v
XdsLifecycleFacts.v
XdsCloseFacts.v
LifecycleExamples.v
XdsDirect.v
StorageManager.v
Prefetch.v
Scheduler.v
GdsLifecycle.v
GdsLifecycleFacts.v
GdsLifecycleExamples.v
EngineApi.v
Engine.v
EngineBuilder.v
EngineRetrieve.v
EngineFacts.v
EngineLayers.v
Worker.v
EngineWorker.v
EngineExamples.v
LocalDisk.v
LocalDiskIO.v
LocalDiskFacts.v
LocalDiskBatch.v
LocalDiskExamples.v
