(* ===== verification/Prelude.v ===== *)
(** * LMCache-HCU: a verification library

    A shallow embedding of the core of LMCache-HCU ([src/lmcache_hcu]), the port of LMCache
    that keeps the KV caches of an inference server (vLLM) in slower tiers: CPU memory, local
    disk and XDS files written straight from device memory. Every definition is a
    translation of the Python code it names; the theorems are about those definitions.

    ** The program

    vLLM's scheduler asks its connector ([vllm_v1_adapter.py]) how many tokens of a request
    are cached, and sends the workers one step's metadata. A worker loads cached chunks into
    vLLM's paged cache and stores new ones, through the cache engine ([cache_engine.py]). The
    engine splits tokens into chunks, finds and pins them in the tiers, moves objects between
    GPU and tiers, and releases them, through the storage manager ([storage_manager.py]). One
    tier is the XDS backend ([xds_backend.py]): an index of files with an eviction policy,
    whose files are either written from CPU memory or by direct I/O ([direct_io.py],
    [hipfile.py]) in the block-first layout ([block_first_disk.py]). The GDS backend
    ([gds_backend.py]) is the same tier over NVIDIA's cuFile package.

    ** The files, bottom up

    - [Prelude]: exceptions, the result and state monads ([ST S A] is a method on the state
      [S]: a raised exception keeps the mutations before it), Python's slices, indexing and
      integer printing, Hoare-style [triple] and [preserves] rules with their hints.
    - [Tensor], [Codec]: what is used of PyTorch, [struct], [zlib], JSON and SHA-256, as
      interfaces with laws and one instance each.
    - [World]: files, descriptors and device memory, with an oracle for failures and short
      transfers; [WorldIO]: the lemmas on its operations.
    - [BlockFirst] ([block_first_disk.py]): layout, metadata record and checksummed header.
    - [DirectIO] ([direct_io.py]): descriptors, their validation and the three planners.
    - [HipFile] ([hipfile.py], [HyFileDDS]): the driver, its buffers, DMA and the fallback.
    - [XdsFiles], [XdsLoad]: one direct store and one direct retrieve ([_save_direct_xds],
      [_load_direct_xds]) on [World].
    - [DeviceTensor]: tensors in device memory, permutations and casts by address;
      [XdsStaged]: the stores and loads that are not direct (through the GPU staging buffer,
      from CPU memory, through the registered buffer, POSIX), with kernels pending in a
      stream; [XdsCpuStore], [XdsGpuStage], [XdsChunkIO]: what each does; [XdsStagedFacts]:
      what they promise together; [XdsStagedExamples]: concrete chunks.
    - [KvKernels] ([csrc/mem_kernels.cu]): the kernels that move rows between chunks and the
      paged cache, in machine arithmetic; [KvKernelFacts]: their offsets and effects.
      [GpuConnector] ([gpu_connectors.py], [VLLMPagedMemGPUConnectorV2]): format discovery,
      pointer tables, gathers and scatters on CUDA streams; [GpuLayouts]: the five layouts of
      the cache; [GpuTransfers], [GpuFacts]: one kernel, one chunk, one batch;
      [GpuRoundtrip], [GpuStore]: the theorems; [GpuExamples]: concrete caches.
    - [XdsPaths], [XdsMeta]: path names, the start-up scan, legacy metadata; [XdsIndex]:
      [hot_cache], reservations, eviction, the put worker, pins; [XdsDirect]: batches of
      direct puts and gets, pipelined and parallel.
    - [Allocator] ([memory_management.py], the allocator patch of [__init__.py]): the pools of
      registered device memory and the driver they share; [AllocatorFacts]: its invariant.
      [XdsPreflight]: the round trip that decides whether a driver is trusted; [XdsLifecycle]:
      [XdsBackend.__init__] and [close]; [XdsLifecycleFacts], [XdsCloseFacts]: what they make
      and give back; [LifecycleExamples]: one process with its pools and backends.
    - [CuFile]: the cufile package, as an interface with laws and an instance; [GdsMeta],
      [GdsFiles], [GdsIndex] ([gds_backend.py]): the 4 KiB metadata blocks, the transfers
      (direct, staged, legacy) and the index with its put coroutines; [GdsDirect], [GdsFacts]:
      direct I/O; [GdsStaged]: the staging buffer; [GdsLegacy], [GdsPuts], [GdsChunks]: puts,
      gets and restarts; [GdsExamples]: concrete chunks. [GdsAccounts]: the registrations and
      pools the backend holds against those of others; [GdsLifecycle]: options, modes,
      [__init__] and [close]; [GdsLifecycleFacts], [GdsLifecycleExamples].
    - [Dict]: Python's ordered dictionaries and the eviction-policy interface.
    - [StorageManager]: all operations over the tiers and their life cycle, against the
      interface [StorageBackend]; [Prefetch]: the lookup-and-prefetch coroutine as a step
      relation, and the admission semaphore with its condition variable.
    - [Scheduler]: request trackers, step metadata and the connector's scheduler side.
    - [EngineApi]: the interface [CacheEngine]; [Engine]: the engine itself; [EngineBuilder]:
      the registry of engines; [EngineRetrieve], [EngineFacts], [EngineLayers]: its loads, its
      pins and stores, its generators.
    - [Worker]: the connector's worker side, proved against [CacheEngine]; [EngineWorker]:
      [Engine] as an instance of it; [EngineExamples]: a concrete engine.
    - [LocalDisk] ([local_disk_backend.py]): the disk tier, its index, eviction, files and
      batched loads; [LocalDiskIO], [LocalDiskFacts], [LocalDiskBatch]: its theorems;
      [LocalDiskExamples]: a concrete tier.

    State corresponds field by field: a [Record] has the attributes of the Python object that
    the modelled methods read or write, under their names; a method is a [Definition] of the
    same name, with the object's state passed through. Dictionaries whose order matters are
    [Dict.odict], others [gmap]; objects that several parts share (the disaggregation spec,
    memory objects) are references into a store. Threads and tasks are interleavings of
    steps: each await, or each critical section under its lock, is one step.

    ** What is shown

    - Direct I/O: a store followed by a retrieve returns every block's bytes
      ([XdsLoad.direct_roundtrip]); a store replaces its file atomically whatever fails
      ([XdsFiles.save_direct_xds_atomic]); a retrieve writes exactly its own addresses
      ([XdsLoad.load_direct_xds_correct]); planners map every token's slot to the right bytes
      ([DirectIO]); header and layout round trips ([BlockFirst]); DMA or its fallback moves
      the same bytes ([HipFile]).
    - Staged transfers: a chunk stored and loaded in any mode comes back byte for byte
      ([XdsChunkIO.store_load_roundtrip]); a staged store publishes the whole file or nothing,
      the same file from CPU memory, through the staging buffer, and directly
      ([XdsStagedFacts]).
    - The GPU connector: a batch puts every row in its place and touches nothing else, in
      every layout and for every order in which the device runs a kernel's copies; rows
      survive the trip through the chunks; pointer tables are never stale; offsets do not wrap
      within stated bounds ([GpuRoundtrip]); gathering and storing from CPU memory publishes
      the file of a direct store ([GpuStore]).
    - The life cycle: the driver is open while a pool is counted, over any history and any
      refusal ([AllocatorFacts.pools_share_driver]); the preflight fails closed
      ([XdsPreflight]); a constructed backend is in one of four modes, a failed construction is
      undone, closing gives everything back and can be retried (of others a direct backend can
      take the driver, and only that), and the staging buffer that is made is the one the
      staged transfers assume ([XdsCloseFacts]). The interface to the
      driver is in two classes, [HipFile.HyFileFrames] (what a call may touch) and
      [HipFile.HyFileLibLaws] (what a complete transfer moved): the life cycle needs the first
      only, so it also covers drivers that misreport.
    - The disk tier: what was saved is loaded or the load fails, accounting, batched loads are
      prefixes ([LocalDiskFacts], [LocalDiskBatch]).
    - The XDS index: accounting invariant over every operation and fault, capacity, eviction,
      outcome of puts, batches, and order independence of parallel retrieves ([XdsIndex],
      [XdsDirect]).
    - The GDS backend: direct stores and retrieves round-trip ([GdsFacts]); puts end with the
      index, the references and the files as they should be, or leak in the cases stated,
      legacy chunks come back with the bytes they were stored with, also after a restart
      ([GdsPuts]); block-first chunks come back whichever way they were written and are read,
      staged or direct, also after a restart ([GdsChunks]); construction is typed, and a backend
      constructed, used and closed, however often the close is interrupted, leaves exactly the
      registrations and pools that were there before ([GdsLifecycleFacts]).
    - The tiers: which tier serves which chunk is the greedy assignment, copies stay aligned
      with their keys, derived references are consistent ([StorageManager]); the scheduler is
      answered at most once and with a retrieved prefix, prefetches terminate, the semaphore
      excludes, loses no wake-up and serves every request ([Prefetch]).
    - The connector: saves are contiguous, slots and block tables follow vLLM, promises are
      accepted ([Scheduler]); failed loads are reported, saving is total ([Worker]).
    - The engine: what a blocking load delivers and claims, who is released how often
      ([EngineRetrieve]), that pins are undone and stores are aligned ([EngineFacts]), how
      often generators yield ([EngineLayers]), the registry ([EngineBuilder]), and a failed
      load followed from the connector to the GPU ([EngineWorker]).

    Several theorems state a defect exactly: [EngineWorker.lost_chunk_end_to_end],
    [EngineRetrieve.async_release_twice], [EngineLayers.retrieve_layer_yields],
    [EngineLayers.store_layer_yields], [Worker.failed_load_reported],
    [Prefetch.prefetch_gap_unanswered], [LifecycleExamples.direct_close_takes_driver],
    [GdsPuts.gds_put_outcome] and the examples of [GdsLifecycleExamples].

    ** Bounds and fuel

    Integers are Python's, unbounded ([Z]); fields of fixed width are checked where [struct]
    checks them; the kernels' offsets are [int] and [int64_t], wrapping around. Loops are
    structural but for a few: [XdsIndex.evict_loop] gets one step more than the index has
    entries and is shown to finish ([XdsIndex.eviction_correct]), [XdsMeta.replace_fuel] gets
    the length of the string, and a thread's strided loop ([KvKernels.strided]) the number of
    scalars. The drivers in [Prefetch] and [EngineLayers] step a run a given number of times;
    the theorems about them say when it has ended.

    ** Not modelled

    - The other GPU connectors ([gpu_connectors.py] from [VLLMPagedMemGPUConnectorV3] on, and
      [hcu_connector.py], whose V2 connector is replaced by the one modelled) and the kernels
      only they use. [Engine] is stated against its parameters [batched_from_gpu],
      [batched_to_gpu] and the layer steps of [Engine.EngineParts], for any connector.
    - Of [XdsBackend], the I/O profile, and the cuFile interface, which PyTorch for this hardware
      never selects (it is a parameter, [XdsLifecycle.CuFileOps]). Of [GdsBackend], the listing
      of directories, which the scan is given.
    - [observability.py], [config.py], [manager.py] and the patching code of [__init__.py] and
      [integration/patch]: metrics, configuration tables, wiring and monkey patches.
    - LMCache itself (token database, CPU backend, cache policies, event manager, memory
      objects): not under [src/], hence parameters with their documented behaviour as laws.
    - [ci/hcu] and [setup.py]: build and test automation. *)

From Stdlib Require Export ZArith Lia.
From stdpp Require Export base list list_numbers strings pretty gmap sets option.

#[export] Set Default Goal Selector "!".

Declare Scope py_scope.
Delimit Scope py_scope with py.
Open Scope py_scope.
Open Scope Z_scope.

(** ** Exceptions and the result monad

    A Python function that may raise is a function into [result]; the
    constructors of [exn] are the exception classes the modelled code raises or
    catches, with the text of the message where the code reads it. *)

Inductive exn : Type :=
  | ValueError (msg : string)
  | BlockFirstFormatError (msg : string)
  | OSError (msg : string)
  | FileNotFoundError
  | RuntimeError (msg : string)
  | KeyError
  | ZeroDivisionError
  | IndexError
  | TypeError
  | AssertionError
  | UnsupportedMetadataVersion (msg : string)
  | OverflowError
  | AttributeError
  | HIPfileException (code : Z)
  | StopIteration
  | UnboundLocalError
  | StructError.

Inductive result (A : Type) : Type :=
  | Ok (a : A)
  | Raise (e : exn).

Arguments Ok {A} a.
Arguments Raise {A} e.

#[global] Instance result_ret : MRet result := fun A a => Ok a.

#[global] Instance result_bind : MBind result := fun A B f m =>
  match m with Ok a => f a | Raise e => Raise e end.

#[global] Instance exn_eq_dec : EqDecision exn.
Proof. solve_decision. Defined.

#[global] Instance result_eq_dec {A} `{EqDecision A} : EqDecision (result A).
Proof. solve_decision. Defined.

(** [if b: raise e] *)
Definition raise_if (b : bool) (e : exn) : result unit :=
  if b then Raise e else Ok tt.

(** [assert b] *)
Definition py_assert (b : bool) : result unit :=
  raise_if (negb b) AssertionError.

Definition is_Ok {A} (r : result A) : bool :=
  match r with Ok _ => true | Raise _ => false end.

Definition result_of_option {A} (e : exn) (o : option A) : result A :=
  match o with Some a => Ok a | None => Raise e end.

(** A [for] loop that appends one result per item and lets exceptions out. *)
Fixpoint mapR {A B} (f : A -> result B) (l : list A) : result (list B) :=
  match l with
  | [] => Ok []
  | x :: l' =>
      y ← f x;
      ys ← mapR f l';
      mret (y :: ys)
  end.

(** ** Python values *)

(** [str(n)] of an int *)
Definition str_int (z : Z) : string := pretty z.

Fixpoint join_str (sep : string) (l : list string) : string :=
  match l with
  | [] => ""
  | [s] => s
  | s :: l' => (s +:+ sep +:+ join_str sep l')%string
  end.

(** [str(t)] of a tuple of ints *)
Definition str_tuple (t : list Z) : string :=
  match t with
  | [x] => ("(" +:+ str_int x +:+ ",)")%string
  | _ => ("(" +:+ join_str ", " (str_int <$> t) +:+ ")")%string
  end.

(** Python's slice bounds: a negative bound counts from the end, and both are
    clamped to the sequence. *)
Definition slice_bound (len : nat) (i : Z) : nat :=
  if i <? 0 then Z.to_nat (Z.max 0 (i + Z.of_nat len))
  else Nat.min (Z.to_nat i) len.

(** [l[i:j]] *)
Definition py_slice {A} (l : list A) (i j : Z) : list A :=
  let a := slice_bound (length l) i in
  let b := slice_bound (length l) j in
  take (b - a) (drop a l).

(** [l[i]], which raises [IndexError] out of range *)
Definition py_index {A} (l : list A) (i : Z) : result A :=
  let k := if i <? 0 then i + Z.of_nat (length l) else i in
  if k <? 0 then Raise IndexError
  else result_of_option IndexError (l !! Z.to_nat k).

Definition lenZ {A} (l : list A) : Z := Z.of_nat (length l).

Definition sumZ (l : list Z) : Z := foldr Z.add 0 l.

(** [math.prod] *)
Definition prodZ (l : list Z) : Z := foldr Z.mul 1 l.

(** [range(a, a + n)] *)
Definition rangeZ (a : Z) (n : nat) : list Z := seqZ a (Z.of_nat n).

(** [tensor.reshape(-1, n)] of a one-dimensional tensor, as its list of rows *)
Definition rows {A} (n : nat) (l : list A) : list (list A) :=
  reshape (replicate (length l `div` n) n) l.

(** [sorted(l, key=key)]: a stable sort on an integer key *)
Fixpoint insert_by {A} (key : A → Z) (x : A) (l : list A) : list A :=
  match l with
  | [] => [x]
  | y :: l' => if key x <=? key y then x :: l else y :: insert_by key x l'
  end.

Definition py_sorted {A} (key : A → Z) (l : list A) : list A :=
  foldr (insert_by key) [] l.

(** [min(l)] and [max(l)] of a non-empty list *)
Definition py_min (x : Z) (l : list Z) : Z := foldr Z.min x l.
Definition py_max (x : Z) (l : list Z) : Z := foldr Z.max x l.

(** ** State with exceptions

    A method of a mutable object is a function from the object's state to an
    outcome and the new state: a raised exception keeps the mutations made
    before it. *)

Definition ST (S A : Type) : Type := S -> result A * S.

#[global] Instance ST_ret {S} : MRet (ST S) := fun A a s => (Ok a, s).

#[global] Instance ST_bind {S} : MBind (ST S) := fun A B f m s =>
  match m s with
  | (Ok a, s') => f a s'
  | (Raise e, s') => (Raise e, s')
  end.

Definition st_get {S} : ST S S := fun s => (Ok s, s).
Definition st_put {S} (s : S) : ST S unit := fun _ => (Ok tt, s).
Definition st_modify {S} (f : S -> S) : ST S unit := fun s => (Ok tt, f s).
Definition st_gets {S A} (f : S -> A) : ST S A := fun s => (Ok (f s), s).
Definition st_raise {S A} (e : exn) : ST S A := fun s => (Raise e, s).
Definition st_lift {S A} (r : result A) : ST S A := fun s => (r, s).

(** [try: m except e if p e: h e] *)
Definition st_catch {S A} (p : exn -> bool) (m : ST S A) (h : exn -> ST S A) : ST S A :=
  fun s =>
    match m s with
    | (Ok a, s') => (Ok a, s')
    | (Raise e, s') => if p e then h e s' else (Raise e, s')
    end.

(** [try: m finally: f]: [f] runs on both outcomes, and its own exception
    replaces the outcome *)
Definition st_finally {S A} (m : ST S A) (f : ST S unit) : ST S A :=
  fun s =>
    let '(r, s') := m s in
    match f s' with
    | (Ok _, s'') => (r, s'')
    | (Raise e, s'') => (Raise e, s'')
    end.

(** A task that has run: its outcome is a value, raised by whoever asks for the result. *)
Definition st_future {S A} (m : ST S A) : ST S (result A) :=
  fun s => let '(r, s') := m s in (Ok r, s').

(** [for x in l: f x] *)
Fixpoint st_iter {S A} (f : A -> ST S unit) (l : list A) : ST S unit :=
  match l with
  | [] => mret tt
  | x :: l' => f x ≫= fun _ => st_iter f l'
  end.

(** The state after a run and its outcome. *)
Definition run_st {S A} (m : ST S A) (s : S) : S := (m s).2.
Definition run_res {S A} (m : ST S A) (s : S) : result A := (m s).1.

(** ** Lemmas and automation *)

Create HintDb py.

Lemma raise_if_Ok b e u : raise_if b e = Ok u ↔ b = false.
Proof. destruct u, b; simpl; naive_solver. Qed.

Lemma raise_if_Raise b e e' : raise_if b e = Raise e' ↔ b = true ∧ e = e'.
Proof. destruct b; simpl; naive_solver. Qed.

Lemma bind_Ok {A B} (m : result A) (f : A → result B) b :
  (m ≫= f) = Ok b ↔ ∃ a, m = Ok a ∧ f a = Ok b.
Proof. destruct m; cbn; naive_solver. Qed.

Lemma bind_Raise {A B} (m : result A) (f : A → result B) e :
  (m ≫= f) = Raise e ↔ m = Raise e ∨ ∃ a, m = Ok a ∧ f a = Raise e.
Proof. destruct m; cbn; naive_solver. Qed.

Lemma raise_if_bind_Ok {B} b e (f : unit → result B) x :
  (raise_if b e ≫= f) = Ok x ↔ b = false ∧ f tt = Ok x.
Proof. destruct b; cbn; naive_solver. Qed.

Lemma py_assert_bind_Ok {B} b (f : unit → result B) x :
  (py_assert b ≫= f) = Ok x ↔ b = true ∧ f tt = Ok x.
Proof. destruct b; cbn; naive_solver. Qed.

Lemma result_of_option_Ok {A} e (o : option A) a :
  result_of_option e o = Ok a ↔ o = Some a.
Proof. destruct o; cbn; naive_solver. Qed.

Lemma is_Ok_true {A} (r : result A) : is_Ok r = true ↔ ∃ a, r = Ok a.
Proof. destruct r; naive_solver. Qed.

(** [res_inv]: split every hypothesis that says a monadic run returned. *)
Ltac res_inv1 :=
  match goal with
  | H : (raise_if _ _ ≫= _) = Ok _ |- _ =>
      apply raise_if_bind_Ok in H; destruct H as [? H]; cbn beta in H
  | H : (py_assert _ ≫= _) = Ok _ |- _ =>
      apply py_assert_bind_Ok in H; destruct H as [? H]; cbn beta in H
  | H : (_ ≫= _) = Ok _ |- _ =>
      apply bind_Ok in H; destruct H as [? [? H]]; cbn beta in H
  | H : raise_if _ _ = Ok _ |- _ => apply raise_if_Ok in H
  | H : result_of_option _ _ = Ok _ |- _ => apply result_of_option_Ok in H
  | H : Ok _ = Ok _ |- _ => injection H as H
  | H : mret _ = Ok _ |- _ => injection H as H
  | H : Raise _ = Ok _ |- _ => discriminate H
  | H : Ok _ = Raise _ |- _ => discriminate H
  end.
Ltac res_inv := repeat res_inv1.

(** [res_simpl]: reduce the result monad only. *)
Ltac res_simpl :=
  cbn [mbind result_bind mret result_ret raise_if py_assert result_of_option
       negb orb andb].

(** [bool_prop]: turn boolean guards into propositions. *)
Ltac bool_prop :=
  repeat match goal with
  | H : (_ && _)%bool = true |- _ => apply andb_true_iff in H as [? ?]
  | H : (_ || _)%bool = false |- _ => apply orb_false_iff in H as [? ?]
  | H : (_ || _)%bool = true |- _ => apply orb_true_iff in H
  | H : (_ && _)%bool = false |- _ => apply andb_false_iff in H
  | H : negb _ = true |- _ => apply negb_true_iff in H
  | H : negb _ = false |- _ => apply negb_false_iff in H
  | H : bool_decide _ = true |- _ => apply bool_decide_eq_true in H
  | H : bool_decide _ = false |- _ => apply bool_decide_eq_false in H
  | H : (_ =? _)%Z = true |- _ => apply Z.eqb_eq in H
  | H : (_ =? _)%Z = false |- _ => apply Z.eqb_neq in H
  | H : (_ <? _)%Z = true |- _ => apply Z.ltb_lt in H
  | H : (_ <? _)%Z = false |- _ => apply Z.ltb_ge in H
  | H : (_ <=? _)%Z = true |- _ => apply Z.leb_le in H
  | H : (_ <=? _)%Z = false |- _ => apply Z.leb_gt in H
  end.

(** [pass_guard]: step over a leading [raise_if] whose condition is false. *)
Ltac pass_guard :=
  match goal with
  | |- context [raise_if ?b _ ≫= _] =>
      let H := fresh in
      assert (b = false) as H by
        first [ done | lia | apply bool_decide_false; tauto ];
      rewrite H; clear H; res_simpl
  end.

(** Linear arithmetic with division and remainder *)
Ltac div_lia := Z.to_euclidean_division_equations; lia.

(** [Forall P] of a literal list of integers *)
Ltac forall_nia :=
  repeat first [ apply List.Forall_nil | apply List.Forall_cons; [nia|] ].

Lemma mapR_Ok {A B} (f : A → result B) l ys :
  mapR f l = Ok ys ↔ Forall2 (fun x y => f x = Ok y) l ys.
Proof.
  revert ys. induction l as [|x l IH]; intros ys; simpl.
  - split; [intros [= <-]; constructor | by inversion 1].
  - rewrite bind_Ok. split.
    + intros (y & Hy & H). res_inv. subst. constructor; [done|]. by apply IH.
    + inversion 1 as [|? y ? ys' Hy Hys]; subst. exists y. split; [done|].
      apply bind_Ok. exists ys'. split; [by apply IH|done].
Qed.

Lemma mapR_total {A B} (f : A → result B) l :
  (∀ x, x ∈ l → ∃ y, f x = Ok y) → ∃ ys, mapR f l = Ok ys.
Proof.
  induction l as [|x l IH]; intros Hf; [by exists []|].
  destruct (Hf x) as [y Hy]; [set_solver|].
  destruct IH as [ys Hys]; [intros; apply Hf; set_solver|].
  exists (y :: ys). simpl. rewrite Hy. cbn. by rewrite Hys.
Qed.

Lemma mapR_length {A B} (f : A → result B) l ys :
  mapR f l = Ok ys → length ys = length l.
Proof. intros H%mapR_Ok. symmetry. by eapply Forall2_length. Qed.

Lemma sumZ_app l1 l2 : sumZ (l1 ++ l2) = sumZ l1 + sumZ l2.
Proof. unfold sumZ. induction l1; simpl; lia. Qed.

Lemma sumZ_cons x l : sumZ (x :: l) = x + sumZ l.
Proof. done. Qed.

Lemma sumZ_nonneg l : Forall (Z.le 0) l → 0 ≤ sumZ l.
Proof. unfold sumZ. induction 1; simpl; lia. Qed.

#[global] Instance sumZ_proper : Proper (Permutation ==> eq) sumZ.
Proof. unfold sumZ. induction 1; simpl; lia. Qed.

#[global] Instance prodZ_proper : Proper (Permutation ==> eq) prodZ.
Proof. unfold prodZ. induction 1; simpl; lia. Qed.

Lemma prodZ_pos l : Forall (Z.lt 0) l → 0 < prodZ l.
Proof. unfold prodZ. induction 1; simpl; [lia|]. by apply Z.mul_pos_pos. Qed.

Lemma lenZ_app {A} (l1 l2 : list A) : lenZ (l1 ++ l2) = lenZ l1 + lenZ l2.
Proof. unfold lenZ. rewrite length_app. lia. Qed.

Lemma lenZ_cons {A} (x : A) l : lenZ (x :: l) = 1 + lenZ l.
Proof. unfold lenZ. simpl. lia. Qed.

Lemma lenZ_nonneg {A} (l : list A) : 0 ≤ lenZ l.
Proof. unfold lenZ. lia. Qed.

(** In range, Python slicing is [take] after [drop]. *)
Lemma py_slice_eq {A} (l : list A) i j :
  0 ≤ i → i ≤ j → j ≤ lenZ l →
  py_slice l i j = take (Z.to_nat (j - i)) (drop (Z.to_nat i) l).
Proof.
  unfold py_slice, slice_bound, lenZ. intros Hi Hij Hj.
  destruct (i <? 0) eqn:E1, (j <? 0) eqn:E2; bool_prop; try lia.
  rewrite !Nat.min_l by lia. f_equal. lia.
Qed.

(** Slicing out the middle of a concatenation *)
Lemma py_slice_mid {A} (a b c : list A) i j :
  i = lenZ a → j = i + lenZ b → py_slice (a ++ b ++ c) i j = b.
Proof.
  intros -> ->. pose proof (lenZ_nonneg a). pose proof (lenZ_nonneg b).
  pose proof (lenZ_nonneg c).
  rewrite py_slice_eq by (rewrite ?lenZ_app; lia). unfold lenZ in *.
  rewrite drop_app_length', take_app_length' by lia. done.
Qed.

Lemma py_slice_length {A} (l : list A) i j :
  0 ≤ i → i ≤ j → j ≤ lenZ l → lenZ (py_slice l i j) = j - i.
Proof.
  intros Hi Hij Hj. rewrite py_slice_eq by done. unfold lenZ in *.
  rewrite length_take, length_drop. lia.
Qed.

Lemma py_slice_lookup {A} (l : list A) i j k :
  0 ≤ i → i ≤ j → j ≤ lenZ l → Z.of_nat k < j - i →
  py_slice l i j !! k = l !! (Z.to_nat i + k)%nat.
Proof.
  intros Hi Hij Hj Hk. rewrite py_slice_eq by done.
  rewrite lookup_take_lt by lia. by rewrite lookup_drop.
Qed.

Lemma py_index_nonneg {A} (l : list A) i x :
  0 ≤ i → py_index l i = Ok x ↔ l !! Z.to_nat i = Some x.
Proof.
  intros Hi. unfold py_index. replace (i <? 0) with false by lia. simpl.
  replace (i <? 0) with false by lia. apply result_of_option_Ok.
Qed.

Lemma length_rows {A} (n : nat) (l : list A) :
  length (rows n l) = (length l `div` n)%nat.
Proof. unfold rows. by rewrite length_reshape, length_replicate. Qed.

Lemma reshape_replicate_lookup {A} (n m : nat) (l : list A) (i : nat) :
  (i < m)%nat →
  reshape (replicate m n) l !! i = Some (take n (drop (i * n) l)).
Proof.
  revert l i. induction m as [|m IH]; intros l i Hi; [lia|].
  destruct i as [|i]; simpl; [done|].
  rewrite IH by lia. by rewrite drop_drop.
Qed.

(** Row [i] of a reshape is the [i]-th run of [n] elements. *)
Lemma rows_lookup {A} (n : nat) (l : list A) (i : nat) r :
  rows n l !! i = Some r → r = take n (drop (i * n) l) ∧ (i < length l `div` n)%nat.
Proof.
  intros H. assert (i < length l `div` n)%nat as Hi.
  { rewrite <- length_rows. by eapply lookup_lt_Some. }
  unfold rows in H. rewrite reshape_replicate_lookup in H by done. naive_solver.
Qed.

Lemma rows_lookup_elem {A} (n : nat) (l : list A) (i j : nat) r :
  rows n l !! i = Some r → (j < n)%nat → r !! j = l !! (i * n + j)%nat.
Proof.
  intros [-> Hi]%rows_lookup Hj. rewrite lookup_take_lt by done.
  by rewrite lookup_drop.
Qed.

Lemma length_rangeZ a n : length (rangeZ a n) = n.
Proof. unfold rangeZ. rewrite length_seqZ. lia. Qed.

Lemma lookup_rangeZ a n i :
  (i < n)%nat → rangeZ a n !! i = Some (a + Z.of_nat i).
Proof. intros Hi. unfold rangeZ. apply lookup_seqZ. lia. Qed.

Lemma rangeZ_S a n : rangeZ a (S n) = rangeZ a n ++ [a + Z.of_nat n].
Proof.
  unfold rangeZ. rewrite Nat2Z.inj_succ, <- Z.add_1_r.
  by rewrite seqZ_app, (seqZ_cons (a + _)) by lia.
Qed.

Lemma rangeZ_cons a n : rangeZ a (S n) = a :: rangeZ (a + 1) n.
Proof.
  unfold rangeZ. rewrite seqZ_cons by lia. f_equal; f_equal; lia.
Qed.

#[export] Hint Resolve lenZ_nonneg Z.div_pos : py.
Create Rewrite HintDb pyrw.

#[export] Hint Rewrite @lenZ_app @lenZ_cons sumZ_app : pyrw.

Lemma insert_by_perm {A} (key : A → Z) x l : Permutation (insert_by key x l) (x :: l).
Proof.
  induction l as [|y l IH]; simpl; [done|]. case_match; [done|].
  rewrite IH. apply Permutation_swap.
Qed.

(** Sorting permutes the list. *)
Lemma py_sorted_perm {A} (key : A → Z) l : Permutation (py_sorted key l) l.
Proof. induction l as [|x l IH]; simpl; [done|]. by rewrite insert_by_perm, IH. Qed.

Lemma py_sorted_head {A} (key : A → Z) x l :
  Forall (fun y => key x ≤ key y) l → insert_by key x l = x :: l.
Proof.
  destruct l as [|y l]; simpl; [done|]. intros [Hy _]%list.Forall_cons.
  by rewrite (proj2 (Z.leb_le _ _) Hy).
Qed.

Lemma py_min_le x l : Forall (Z.le (py_min x l)) (x :: l).
Proof.
  unfold py_min. apply list.Forall_forall. intros y Hy. induction l as [|z l IH]; simpl.
  - apply list_elem_of_singleton in Hy. lia.
  - apply elem_of_cons in Hy as [->|[->|Hy]%elem_of_cons].
    + specialize (IH ltac:(by left)). lia.
    + lia.
    + specialize (IH ltac:(by right)). lia.
Qed.

Lemma py_max_ge x l : Forall (Z.ge (py_max x l)) (x :: l).
Proof.
  unfold py_max. apply list.Forall_forall. intros y Hy. induction l as [|z l IH]; simpl.
  - apply list_elem_of_singleton in Hy. lia.
  - apply elem_of_cons in Hy as [->|[->|Hy]%elem_of_cons].
    + specialize (IH ltac:(by left)). lia.
    + lia.
    + specialize (IH ltac:(by right)). lia.
Qed.

Lemma py_min_glb n x l : n ≤ x → (∀ y, y ∈ l → n ≤ y) → n ≤ py_min x l.
Proof.
  unfold py_min. intros Hx. induction l as [|z l IH]; simpl; [done|]. intros Hl.
  pose proof (Hl z ltac:(by left)). specialize (IH ltac:(intros; apply Hl; by right)). lia.
Qed.

Lemma py_max_lub n x l : x ≤ n → (∀ y, y ∈ l → y ≤ n) → py_max x l ≤ n.
Proof.
  unfold py_max. intros Hx. induction l as [|z l IH]; simpl; [done|]. intros Hl.
  pose proof (Hl z ltac:(by left)). specialize (IH ltac:(intros; apply Hl; by right)). lia.
Qed.

(** *** Counting occurrences *)

Section uses.
Context {A : Type} `{!EqDecision A}.

(** How often [o] is in a list *)
Definition uses (o : A) (l : list A) : Z := lenZ (filter (fun x => x = o) l).

Lemma uses_cons o x l : uses o (x :: l) = (if decide (x = o) then 1 else 0) + uses o l.
Proof.
  unfold uses. destruct (decide (x = o)); [rewrite filter_cons_True by done; apply lenZ_cons|].
  by rewrite filter_cons_False.
Qed.

Lemma uses_app o l1 l2 : uses o (l1 ++ l2) = uses o l1 + uses o l2.
Proof. unfold uses. by rewrite list.filter_app, lenZ_app. Qed.

Lemma uses_none l o : o ∉ l -> uses o l = 0.
Proof.
  intros Ho. unfold uses. destruct (filter _ l) as [|y l'] eqn:E; [done|]. exfalso. apply Ho.
  assert (y ∈ y :: l') as Hy by by left. rewrite <- E in Hy. by apply list_elem_of_filter in Hy as [-> Hy].
Qed.

Lemma uses_one l o : NoDup l -> o ∈ l -> uses o l = 1.
Proof.
  induction 1 as [|x l Hx Hnd IH]; [by intros ?%not_elem_of_nil|]. intros Hin. rewrite uses_cons.
  destruct (decide (x = o)) as [->|Hne]; [by rewrite uses_none|].
  apply elem_of_cons in Hin as [->|Hin]; [done|]. by rewrite IH.
Qed.

End uses.

(** *** State-monad rules *)

Lemma st_bind_Ok {S A B} (m : ST S A) (f : A → ST S B) s b s' :
  (m ≫= f) s = (Ok b, s') ↔
  ∃ a s1, m s = (Ok a, s1) ∧ f a s1 = (Ok b, s').
Proof.
  unfold mbind, ST_bind. destruct (m s) as [[a|e] s1]; naive_solver.
Qed.

(** Running a step whose outcome is known *)
Lemma run_bind {S A B} (m : ST S A) (f : A → ST S B) s a s' : m s = (Ok a, s') → (m ≫= f) s = f a s'.
Proof. intros H. unfold mbind, ST_bind. by rewrite H. Qed.

Lemma run_bind_raise {S A B} (m : ST S A) (f : A → ST S B) s e s' :
  m s = (Raise e, s') → (m ≫= f) s = (Raise e, s').
Proof. intros H. unfold mbind, ST_bind. by rewrite H. Qed.

Lemma run_catch {S A} p (m : ST S A) h s a s' : m s = (Ok a, s') → st_catch p m h s = (Ok a, s').
Proof. intros H. unfold st_catch. by rewrite H. Qed.

Lemma run_catch_raise {S A} p (m : ST S A) h s e s' :
  m s = (Raise e, s') → p e = true → st_catch p m h s = h e s'.
Proof. intros H Hp. unfold st_catch. by rewrite H, Hp. Qed.

Lemma run_lift_bind {S A B} (r : result A) (f : A → ST S B) s a : r = Ok a → (st_lift r ≫= f) s = f a s.
Proof. by intros ->. Qed.

Lemma run_raise_if_bind {S B} b e (f : unit → ST S B) s :
  b = false → (st_lift (raise_if b e) ≫= f) s = f tt s.
Proof. by intros ->. Qed.

(** A step that returns at once *)
Ltac run_step := first
  [ erewrite run_lift_bind by (first [reflexivity | eassumption])
  | erewrite run_bind by reflexivity
  | rewrite Z.eqb_refl ].

(** Of a dictionary's items, all but the first *)
Lemma filter_others {A B} `{EqDecision A} (x : A * B) l :
  NoDup (x :: l).*1 → filter (λ y, y.1 ≠ x.1) (x :: l) = l.
Proof.
  intros Hnd. rewrite filter_cons_False by (intros H; by apply H).
  apply NoDup_cons_1_1 in Hnd. induction l as [|y l IH]; [done|].
  simpl in Hnd. apply not_elem_of_cons in Hnd as [Hne Hnd]. rewrite filter_cons_True by (intros E; by apply Hne).
  f_equal. by apply IH.
Qed.

(** A state predicate kept by a method on every outcome. *)
Definition preserves {S A} (P : S → Prop) (m : ST S A) : Prop :=
  ∀ s, P s → P (m s).2.

Lemma preserves_ret {S A} (P : S → Prop) (a : A) : preserves P (mret a).
Proof. by intros s. Qed.

Lemma preserves_raise {S A} (P : S → Prop) e : preserves P (@st_raise S A e).
Proof. by intros s. Qed.

Lemma preserves_lift {S A} (P : S → Prop) (r : result A) : preserves P (st_lift r).
Proof. by intros s. Qed.

Lemma preserves_gets {S A} (P : S → Prop) (f : S → A) : preserves P (st_gets f).
Proof. by intros s. Qed.

Lemma preserves_modify {S} (P : S → Prop) f :
  (∀ s, P s → P (f s)) → preserves P (st_modify f).
Proof. intros Hf s Hs. by apply Hf. Qed.

Lemma preserves_bind {S A B} (P : S → Prop) (m : ST S A) (f : A → ST S B) :
  preserves P m → (∀ a, preserves P (f a)) → preserves P (m ≫= f).
Proof.
  intros Hm Hf s Hs. unfold mbind, ST_bind. specialize (Hm s Hs).
  destruct (m s) as [[a|e] s1]; [by apply Hf|done].
Qed.

Lemma preserves_finally {S A} (P : S → Prop) (m : ST S A) f :
  preserves P m → preserves P f → preserves P (st_finally m f).
Proof.
  intros Hm Hf s Hs. unfold st_finally. specialize (Hm s Hs).
  destruct (m s) as [r s1]. specialize (Hf s1 Hm).
  by destruct (f s1) as [[u|e] s2].
Qed.

Lemma preserves_catch {S A} (P : S → Prop) p (m : ST S A) h :
  preserves P m → (∀ e, preserves P (h e)) → preserves P (st_catch p m h).
Proof.
  intros Hm Hh s Hs. unfold st_catch. specialize (Hm s Hs).
  destruct (m s) as [[a|e] s1]; [done|]. destruct (p e); [by apply Hh|done].
Qed.

Lemma preserves_iter {S A} (P : S → Prop) (f : A → ST S unit) l :
  (∀ x, preserves P (f x)) → preserves P (st_iter f l).
Proof.
  intros Hf. induction l as [|x l IH]; simpl; [apply preserves_ret|].
  apply preserves_bind; [done|]. intros _. exact IH.
Qed.

#[export] Hint Resolve preserves_ret preserves_raise preserves_lift
  preserves_gets preserves_modify preserves_bind preserves_finally
  preserves_catch preserves_iter : py.

(** *** Triples

    [triple P m Q E]: from a state in [P], [m] ends in [Q] when it returns and in [E]
    when it raises. *)
Definition triple {S A} (P : S → Prop) (m : ST S A) (Q : A → S → Prop) (E : exn → S → Prop)
    : Prop :=
  ∀ s, P s → match m s with (Ok a, s') => Q a s' | (Raise e, s') => E e s' end.

Lemma triple_ret {S A} (a : A) (Q : A → S → Prop) (E : exn → S → Prop) : triple (Q a) (mret a) Q E.
Proof. by intros s. Qed.

Lemma triple_bind {S A B} P (m : ST S A) (f : A → ST S B) R Q E :
  triple P m R E → (∀ a, triple (R a) (f a) Q E) → triple P (m ≫= f) Q E.
Proof.
  intros Hm Hf s Hs. specialize (Hm s Hs). unfold mbind, ST_bind.
  destruct (m s) as [[a|e] s1]; [by apply Hf|done].
Qed.

Lemma triple_conseq {S A} (P P' : S → Prop) (m : ST S A) (Q Q' : A → S → Prop)
    (E E' : exn → S → Prop) :
  triple P' m Q' E' → (∀ s, P s → P' s) → (∀ a s, Q' a s → Q a s) →
  (∀ e s, E' e s → E e s) → triple P m Q E.
Proof.
  intros Hm HP HQ HE s Hs. specialize (Hm s (HP s Hs)).
  destruct (m s) as [[a|e] s1]; auto.
Qed.

Lemma triple_catch {S A} (P : S → Prop) (p : exn → bool) (m : ST S A) (h : exn → ST S A) (Q : A → S → Prop)
    (E E' : exn → S → Prop) :
  triple P m Q E' → (∀ e : exn, triple (E' e) (if p e then h e else st_raise e) Q E) →
  triple P (st_catch p m h) Q E.
Proof.
  intros Hm Hh s Hs. specialize (Hm s Hs). unfold st_catch.
  destruct (m s) as [[a|e] s1]; [done|]. specialize (Hh e s1 Hm).
  by destruct (p e).
Qed.

Lemma triple_finally {S A} P (m : ST S A) f (Q Q' : A → S → Prop) (E E' : exn → S → Prop) :
  triple P m Q' E' → (∀ a, triple (Q' a) f (λ _, Q a) E) → (∀ e, triple (E' e) f (λ _, E e) E) →
  triple P (st_finally m f) Q E.
Proof.
  intros Hm Hq He s Hs. specialize (Hm s Hs). unfold st_finally.
  destruct (m s) as [[a|e] s1].
  - specialize (Hq a s1 Hm). by destruct (f s1) as [[u|e'] s2].
  - specialize (He e s1 Hm). by destruct (f s1) as [[u|e'] s2].
Qed.

Lemma triple_pre {S A} (P P' : S → Prop) (m : ST S A) (Q : A → S → Prop) (E : exn → S → Prop) :
  triple P' m Q E → (∀ s, P s → P' s) → triple P m Q E.
Proof. intros Hm HP. by eapply triple_conseq. Qed.

Lemma triple_exn {S A} (P : S → Prop) (m : ST S A) (Q : A → S → Prop) (E E' : exn → S → Prop) :
  triple P m Q E' → (∀ e s, E' e s → E e s) → triple P m Q E.
Proof. intros Hm HE. by eapply triple_conseq. Qed.

Lemma triple_lift {S A} (r : result A) (P : S → Prop) (Q : A → S → Prop) (E : exn → S → Prop) :
  (∀ a, r = Ok a → ∀ s, P s → Q a s) → (∀ e, r = Raise e → ∀ s, P s → E e s) →
  triple P (st_lift r) Q E.
Proof. intros HQ HE s Hs. unfold st_lift. destruct r; auto. Qed.

Lemma triple_raise {S A} e (Q : A → S → Prop) (E : exn → S → Prop) :
  triple (E e) (st_raise e) Q E.
Proof. by intros s. Qed.

(** Facts that do not mention the state move out of the precondition. *)
Lemma triple_pure {S A} (φ : Prop) P (m : ST S A) Q E :
  (φ → triple P m Q E) → triple (λ s, φ ∧ P s) m Q E.
Proof. intros Hm s [Hφ Hs]. by apply Hm. Qed.

Lemma triple_exists {S A X} (P : X → S → Prop) (m : ST S A) Q E :
  (∀ x, triple (P x) m Q E) → triple (λ s, ∃ x, P x s) m Q E.
Proof. intros Hm s [x Hs]. by apply (Hm x). Qed.

(** An unchanged predicate is a triple with itself everywhere. *)
Lemma preserves_triple {S A} P (m : ST S A) :
  preserves P m ↔ triple P m (λ _, P) (λ _, P).
Proof.
  unfold preserves, triple. split; intros H s Hs; specialize (H s Hs);
    by destruct (m s) as [[a|e] s1].
Qed.
