(* ===== verification/Tensor.v ===== *)
(** * Tensors

    The storage code rearranges KV chunks with four PyTorch operations: [view],
    [permute], [copy_] and [empty].  PyTorch is not part of the repository, so
    this file states them as an interface: [TorchOps] holds the operations and
    [TorchLaws] the documented facts about them the layout code relies on.
    Memory is explicit because [copy_] writes through a view that shares its
    storage with another tensor.  [Strided] is a concrete strided memory which
    satisfies every law, so theorems proved from the laws are not vacuous. *)

From S2P Require Import Prelude.

(** [tensor.shape[i]] ranges for an index vector *)
Definition valid_idx (sh idx : list Z) : Prop :=
  Forall2 (fun d i => 0 ≤ i < d) sh idx.

(** Row-major position of an index in a contiguous tensor of shape [sh] *)
Fixpoint ravel (sh idx : list Z) : Z :=
  match sh, idx with
  | _ :: sh', i :: idx' => i * prodZ sh' + ravel sh' idx'
  | _, _ => 0
  end.

(** Pick the dimensions of [l] in the order [p]. *)
Definition pick (p : list nat) (l : list Z) : list Z :=
  (fun k => nth k l 0) <$> p.

Class TorchOps (M T Dt Dv A : Type) := {
  t_shape : T → list Z;
  t_dtype : T → Dt;
  t_device : T → Dv;
  t_contiguous : T → bool;
  t_storage : T → nat;
  t_alive : M → T → Prop;
  t_read : M → T → list Z → option A;
  t_view : T → list Z → result T;
  t_permute : T → list nat → T;
  t_copy : M → T → T → M;
  t_empty : M → list Z → Dt → Dv → T * M;
}.

Class TorchLaws (M T Dt Dv A : Type) `{!TorchOps M T Dt Dv A} := {
  view_contiguous : ∀ t sh,
    t_contiguous t = true →
    prodZ sh = prodZ (t_shape t) →
    ∃ v, t_view t sh = Ok v ∧ t_shape v = sh ∧ t_contiguous v = true ∧
      t_storage v = t_storage t ∧
      ∀ m idx idx', valid_idx sh idx → valid_idx (t_shape t) idx' →
        ravel sh idx = ravel (t_shape t) idx' →
        t_read m v idx = t_read m t idx';
  permute_shape : ∀ t p,
    Permutation p (seq 0 (length (t_shape t))) →
    t_shape (t_permute t p) = pick p (t_shape t);
  permute_storage : ∀ t p, t_storage (t_permute t p) = t_storage t;
  permute_read : ∀ m t p idx,
    Permutation p (seq 0 (length (t_shape t))) →
    length idx = length p →
    t_read m (t_permute t p) (pick p idx) = t_read m t idx;
  copy_read : ∀ m dst src idx,
    t_contiguous dst = true →
    t_storage dst ≠ t_storage src →
    t_shape dst = t_shape src →
    valid_idx (t_shape dst) idx →
    t_read (t_copy m dst src) dst idx = t_read m src idx;
  copy_frame : ∀ m dst src t idx,
    t_storage t ≠ t_storage dst →
    t_read (t_copy m dst src) t idx = t_read m t idx;
  copy_alive : ∀ m dst src t, t_alive m t → t_alive (t_copy m dst src) t;
  empty_shape : ∀ m sh dt dv, t_shape (t_empty m sh dt dv).1 = sh;
  empty_dtype : ∀ m sh dt dv, t_dtype (t_empty m sh dt dv).1 = dt;
  empty_device : ∀ m sh dt dv, t_device (t_empty m sh dt dv).1 = dv;
  empty_contiguous : ∀ m sh dt dv, t_contiguous (t_empty m sh dt dv).1 = true;
  empty_alive : ∀ m sh dt dv, t_alive (t_empty m sh dt dv).2 (t_empty m sh dt dv).1;
  empty_fresh : ∀ m sh dt dv t, t_alive m t →
    t_storage t ≠ t_storage (t_empty m sh dt dv).1 ∧
    t_alive (t_empty m sh dt dv).2 t ∧
    ∀ idx, t_read (t_empty m sh dt dv).2 t idx = t_read m t idx;
}.

(** [torch.dtype]: its [str], the attribute lookup [getattr(torch, name)] when it
    gives a dtype, and [itemsize]. *)
Class TorchDtype (Dt : Type) := {
  dtype_eq_dec :: EqDecision Dt;
  dtype_str : Dt → string;
  torch_getattr : string → option Dt;
  itemsize : Dt → Z;
}.

Class TorchDtypeLaws (Dt : Type) `{!TorchDtype Dt} := {
  dtype_str_torch : ∀ d, ∃ name, dtype_str d = ("torch." +:+ name)%string;
  getattr_str : ∀ d name,
    dtype_str d = ("torch." +:+ name)%string → torch_getattr name = Some d;
  itemsize_pos : ∀ d, 0 < itemsize d;
}.

(** Three dtypes, for the concrete examples. *)
Inductive ex_dtype := Float16 | BFloat16 | Float32.

#[global] Program Instance ex_torch_dtype : TorchDtype ex_dtype := {
  dtype_str d := match d with
    | Float16 => "torch.float16" | BFloat16 => "torch.bfloat16"
    | Float32 => "torch.float32" end%string;
  torch_getattr name :=
    if decide (name = "float16"%string) then Some Float16
    else if decide (name = "half"%string) then Some Float16
    else if decide (name = "bfloat16"%string) then Some BFloat16
    else if decide (name = "float32"%string) then Some Float32
    else None;
  itemsize d := match d with Float16 | BFloat16 => 2 | Float32 => 4 end;
}.
Next Obligation. solve_decision. Defined.

(** ** A strided memory *)

Module Strided.

Section strided.
Context {Dt Dv A : Type}.

Record tensor := Tensor {
  storage : nat;
  offset : Z;
  shape : list Z;
  strides : list Z;
  dtype : Dt;
  device : Dv;
}.

Record memory := Memory { next : nat; data : gmap (nat * Z) A }.

Fixpoint contiguous_strides (sh : list Z) : list Z :=
  match sh with
  | [] => []
  | _ :: sh' => prodZ sh' :: contiguous_strides sh'
  end.

Definition dot (l1 l2 : list Z) : Z := sumZ (zip_with Z.mul l1 l2).

Definition address (t : tensor) (idx : list Z) : Z :=
  offset t + dot idx (strides t).

Fixpoint indices (sh : list Z) : list (list Z) :=
  match sh with
  | [] => [[]]
  | d :: sh' =>
      i ← seqZ 0 d;
      (fun idx => i :: idx) <$> indices sh'
  end.

Definition read (m : memory) (t : tensor) (idx : list Z) : option A :=
  data m !! (storage t, address t idx).

Definition contiguous (t : tensor) : bool :=
  bool_decide (strides t = contiguous_strides (shape t)).

Definition view (t : tensor) (sh : list Z) : result tensor :=
  if contiguous t && (prodZ sh =? prodZ (shape t)) then
    Ok (Tensor (storage t) (offset t) sh (contiguous_strides sh) (dtype t) (device t))
  else Raise (RuntimeError "view size is not compatible").

Definition permute (t : tensor) (p : list nat) : tensor :=
  Tensor (storage t) (offset t) (pick p (shape t)) (pick p (strides t))
    (dtype t) (device t).

Definition copy_cell (m : memory) (dst src : tensor)
    (acc : gmap (nat * Z) A) (idx : list Z) : gmap (nat * Z) A :=
  partial_alter (fun _ => read m src idx) (storage dst, address dst idx) acc.

Definition copy (m : memory) (dst src : tensor) : memory :=
  Memory (next m) (foldl (copy_cell m dst src) (data m) (indices (shape dst))).

Definition empty (m : memory) (sh : list Z) (dt : Dt) (dv : Dv) : tensor * memory :=
  (Tensor (next m) 0 sh (contiguous_strides sh) dt dv,
   Memory (S (next m)) (data m)).

#[global] Instance ops : TorchOps memory tensor Dt Dv A := {
  t_shape := shape;
  t_dtype := dtype;
  t_device := device;
  t_contiguous := contiguous;
  t_storage := storage;
  t_alive m t := (storage t < next m)%nat;
  t_read := read;
  t_view := view;
  t_permute := permute;
  t_copy := copy;
  t_empty := empty;
}.

End strided.

Arguments tensor : clear implicits.
Arguments memory : clear implicits.

End Strided.

(** ** Lemmas about indices *)

Lemma valid_idx_length sh idx : valid_idx sh idx → length idx = length sh.
Proof. intros H. symmetry. by eapply Forall2_length. Qed.

Lemma valid_idx_cons d i sh idx :
  valid_idx (d :: sh) (i :: idx) ↔ 0 ≤ i < d ∧ valid_idx sh idx.
Proof.
  unfold valid_idx. split; [by inversion 1|]. intros [? ?]. by constructor.
Qed.

Lemma ravel_bounds sh idx : valid_idx sh idx → 0 ≤ ravel sh idx < prodZ sh.
Proof.
  unfold valid_idx, prodZ. induction 1 as [|d i sh idx Hd _ IH]; simpl; [lia|].
  fold (prodZ sh) in *. nia.
Qed.

Lemma ravel_inj sh idx idx' :
  valid_idx sh idx → valid_idx sh idx' → ravel sh idx = ravel sh idx' → idx = idx'.
Proof.
  intros H. revert idx'. induction H as [|d i sh idx Hd Hv IH]; intros idx' H' E.
  - by inversion H'.
  - inversion H' as [|? j ? idx2 Hj Hv2]; subst. simpl in E.
    pose proof (ravel_bounds _ _ Hv). pose proof (ravel_bounds _ _ Hv2).
    assert (i = j) as -> by nia. f_equal. apply IH; [done|nia].
Qed.

Module StridedFacts.
Import Strided.

Lemma dot_contiguous sh idx :
  length idx = length sh → dot idx (contiguous_strides sh) = ravel sh idx.
Proof.
  unfold dot, sumZ. revert idx. induction sh as [|d sh IH]; intros [|i idx] H;
    simpl in *; try lia. rewrite IH by lia. lia.
Qed.

Lemma length_contiguous_strides sh : length (contiguous_strides sh) = length sh.
Proof. induction sh; simpl; congruence. Qed.

Lemma elem_of_indices sh idx : idx ∈ indices sh ↔ valid_idx sh idx.
Proof.
  unfold valid_idx. revert idx. induction sh as [|d sh IH]; intros idx; simpl.
  - rewrite list_elem_of_singleton. split; [by intros ->|by inversion 1].
  - rewrite list_elem_of_bind. split.
    + intros (i & Hin & Hi). apply list_elem_of_fmap in Hin as (idx' & -> & Hin).
      constructor; [apply elem_of_seqZ in Hi; lia|]. by apply IH.
    + inversion 1 as [|? i ? idx' Hi Hv]; subst. exists i. split.
      * apply list_elem_of_fmap. exists idx'. split; [done|]. by apply IH.
      * apply elem_of_seqZ. lia.
Qed.

Lemma dot_pick p l1 l2 :
  dot (pick p l1) (pick p l2) = sumZ ((fun k => nth k l1 0 * nth k l2 0) <$> p).
Proof.
  unfold dot. f_equal. unfold pick. induction p as [|k p IH]; simpl; [done|].
  by f_equal.
Qed.

Lemma sumZ_zeros l : Forall (eq 0) l → sumZ l = 0.
Proof. unfold sumZ. induction 1; simpl; lia. Qed.

Lemma dot_seq l1 l2 k :
  sumZ ((fun j => nth (j - k) l1 0 * nth (j - k) l2 0) <$> seq k (length l1))
  = dot l1 l2.
Proof.
  revert l2 k. induction l1 as [|x l1 IH]; intros l2 k; [done|].
  destruct l2 as [|y l2].
  - apply sumZ_zeros, Forall_fmap, list.Forall_forall. intros j _. simpl.
    destruct (j - k)%nat; lia.
  - cbn [length seq]. rewrite fmap_cons. unfold dot, sumZ in *. cbn [foldr zip_with].
    rewrite Nat.sub_diag. simpl. f_equal. rewrite <- (IH l2 (S k)). f_equal.
    apply list_fmap_ext. intros i j Hj%lookup_seq.
    replace (j - k)%nat with (S (j - S k)) by lia. done.
Qed.

(** Permuting indices and strides alike leaves the address unchanged. *)
Lemma dot_permute p l1 l2 :
  Permutation p (seq 0 (length l1)) → dot (pick p l1) (pick p l2) = dot l1 l2.
Proof.
  intros Hp. rewrite dot_pick, (Permutation_map _ Hp), <- (dot_seq l1 l2 0).
  f_equal. apply map_ext. intros j. by rewrite Nat.sub_0_r.
Qed.

Section copy.
Context {Dt Dv A : Type}.
Implicit Types (m : memory A) (t dst src : tensor Dt Dv).

Lemma copy_cells_frame m dst src l acc s a :
  s ≠ storage dst →
  foldl (copy_cell m dst src) acc l !! (s, a) = acc !! (s, a).
Proof.
  intros Hs. revert acc. induction l as [|idx l IH]; intros acc; simpl; [done|].
  rewrite IH. unfold copy_cell. apply lookup_partial_alter_ne. intros E; injection E; done.
Qed.

Lemma copy_cells_skip m dst src l acc a :
  Forall (fun idx => address dst idx ≠ a) l →
  foldl (copy_cell m dst src) acc l !! (storage dst, a) = acc !! (storage dst, a).
Proof.
  intros Hl. revert acc. induction Hl as [|idx l Ha Hl IH]; intros acc; simpl; [done|].
  rewrite IH. unfold copy_cell. apply lookup_partial_alter_ne. intros E; injection E; done.
Qed.

Lemma copy_cells_hit m dst src l acc idx :
  (∀ idx', idx' ∈ l → address dst idx' = address dst idx → idx' = idx) →
  idx ∈ l →
  foldl (copy_cell m dst src) acc l !! (storage dst, address dst idx) = read m src idx.
Proof.
  revert acc. induction l as [|i l IH]; intros acc Hinj Hin; [set_solver|]. simpl.
  destruct (decide (idx ∈ l)) as [Hl|Hl].
  - apply IH; [|done]. intros idx' ??. apply Hinj; [by right|done].
  - assert (i = idx) as -> by (apply elem_of_cons in Hin; naive_solver).
    rewrite copy_cells_skip.
    + unfold copy_cell. by rewrite lookup_partial_alter_eq.
    + apply list.Forall_forall. intros idx' Hin' E. apply Hl.
      assert (idx' = idx) as -> by (apply Hinj; [by right|done]). done.
Qed.

End copy.

#[global] Instance laws {Dt Dv A} :
  TorchLaws (memory A) (tensor Dt Dv) Dt Dv A.
Proof.
  constructor; simpl.
  - intros t sh Hc Hp. unfold view. rewrite Hc, Hp, Z.eqb_refl. simpl.
    eexists. split; [done|]. repeat split; simpl; [by apply bool_decide_eq_true|].
    intros m idx idx' Hv Hv' E. unfold read, address. simpl.
    apply bool_decide_eq_true in Hc. rewrite Hc.
    rewrite !dot_contiguous by (by apply valid_idx_length). by rewrite E.
  - done.
  - done.
  - intros m t p idx Hp Hl. unfold read, address. simpl. do 3 f_equal.
    apply dot_permute. rewrite Hl, (Permutation_length Hp), length_seq. done.
  - intros m dst src idx Hc Hs Hsh Hv. unfold read at 1, copy. simpl.
    apply copy_cells_hit.
    + intros idx' Hin%elem_of_indices E. unfold address in E.
      apply bool_decide_eq_true in Hc. rewrite Hc in E.
      rewrite !dot_contiguous in E by (by apply valid_idx_length).
      eapply ravel_inj; [done..|lia].
    + by apply elem_of_indices.
  - intros m dst src t idx Hs. unfold read, copy. simpl. by apply copy_cells_frame.
  - done.
  - done.
  - done.
  - done.
  - intros. by apply bool_decide_eq_true.
  - intros. lia.
  - intros m sh dt dv t Ht. repeat split; lia.
Qed.

End StridedFacts.

#[global] Instance ex_torch_dtype_laws : TorchDtypeLaws ex_dtype.
Proof.
  constructor.
  - intros []; eexists; simpl; reflexivity.
  - intros [] name E; cbv in E; injection E as <-; reflexivity.
  - intros []; simpl; lia.
Qed.
