(* ===== verification/Codec.v ===== *)
(** * Byte-level encodings

    What the disk formats use of Python's standard library: little-endian
    [struct] fields, [zlib.crc32], string prefixes, and the interface
    [JsonCodec] to [json.dumps]/[json.loads] and [hashlib.sha256].  Bytes are
    integers in [0, 255].  [crc32] and [struct] are executable definitions; JSON
    and SHA-256 are used through the one fact the format relies on, that parsing
    inverts printing.  [CountableCodec] is an instance. *)

From S2P Require Import Prelude.

Definition is_byte (b : Z) : Prop := 0 ≤ b < 256.

(** [struct.pack("<I", x)] and ["<Q"]: [n] little-endian bytes *)
Fixpoint le_bytes (n : nat) (x : Z) : list Z :=
  match n with
  | O => []
  | S n' => x mod 256 :: le_bytes n' (x / 256)
  end.

(** [struct.unpack] of a little-endian field *)
Fixpoint le_value (l : list Z) : Z :=
  match l with
  | [] => 0
  | b :: l' => b + 256 * le_value l'
  end.

(** One bit of the reflected CRC-32 shift register *)
Definition crc_bit (c : Z) : Z :=
  if Z.odd c then Z.lxor (Z.shiftr c 1) 0xEDB88320 else Z.shiftr c 1.

Definition crc_byte (c b : Z) : Z := Nat.iter 8 crc_bit (Z.lxor c b).

(** [zlib.crc32(data)] *)
Definition crc32 (data : list Z) : Z :=
  Z.lxor (foldl crc_byte 0xFFFFFFFF data) 0xFFFFFFFF.

(** [s.removeprefix(p)] when [s.startswith(p)], [None] otherwise *)
Fixpoint strip_prefix (p s : string) : option string :=
  match p, s with
  | EmptyString, _ => Some s
  | String a p', String b s' =>
      if decide (a = b) then strip_prefix p' s' else None
  | String _ _, EmptyString => None
  end.

(** First binding of a key in a list of fields *)
Fixpoint assoc {V} (k : string) (l : list (string * V)) : option V :=
  match l with
  | [] => None
  | (k', v) :: l' => if String.eqb k k' then Some v else assoc k l'
  end.

(** The JSON values the headers contain: integers, strings and arrays of
    integers. *)
Inductive jval : Type :=
  | JInt (z : Z)
  | JStr (s : string)
  | JInts (l : list Z).

Inductive json_doc : Type :=
  | JsonError                             (* not UTF-8, or not JSON *)
  | JsonOther                             (* JSON, but not an object *)
  | JsonDict (d : gmap string jval).

#[global] Instance jval_eq_dec : EqDecision jval.
Proof. solve_decision. Defined.

Definition jval_enc (v : jval) : Z + (string + list Z) :=
  match v with JInt z => inl z | JStr s => inr (inl s) | JInts l => inr (inr l) end.

Definition jval_dec (v : Z + (string + list Z)) : jval :=
  match v with inl z => JInt z | inr (inl s) => JStr s | inr (inr l) => JInts l end.

#[global] Program Instance jval_countable : Countable jval :=
  inj_countable' jval_enc jval_dec _.
Next Obligation. by intros []. Qed.

(** [json_dumps d] is [json.dumps(d, sort_keys=True, separators=(",", ":"))]
    encoded as UTF-8; [json_loads b] is [json.loads(b.decode("utf-8"))]. *)
Class JsonCodec := {
  json_dumps : gmap string jval → list Z;
  json_loads : list Z → json_doc;
  sha256_hex : list Z → string;
}.

Class JsonCodecLaws `{!JsonCodec} := {
  json_loads_dumps : ∀ d, json_loads (json_dumps d) = JsonDict d;
  json_dumps_bytes : ∀ d, Forall is_byte (json_dumps d);
  json_dumps_nonempty : ∀ d, json_dumps d ≠ [];
}.

(** ** An instance *)

Module CountableCodec.

Fixpoint pos_bits (p : positive) : list Z :=
  match p with
  | xH => [2]
  | xO p' => 0 :: pos_bits p'
  | xI p' => 1 :: pos_bits p'
  end.

Fixpoint bits_pos (l : list Z) : option positive :=
  match l with
  | [2] => Some xH
  | 0 :: l' => xO <$> bits_pos l'
  | 1 :: l' => xI <$> bits_pos l'
  | _ => None
  end.

(** Pack bits eight (base 3 digits: five) to a byte. *)
Fixpoint pack5 (l : list Z) : list Z :=
  match l with
  | a :: b :: c :: d :: e :: l' =>
      (a + 3 * (b + 3 * (c + 3 * (d + 3 * e)))) :: pack5 l'
  | _ => 255 :: l
  end.

Fixpoint digits3 (n : nat) (x : Z) : list Z :=
  match n with
  | O => []
  | S n' => x mod 3 :: digits3 n' (x / 3)
  end.

Fixpoint unpack5 (l : list Z) : list Z :=
  match l with
  | [] => []
  | x :: l' =>
      if x =? 255 then l' else digits3 5 x ++ unpack5 l'
  end.

Definition dumps (d : gmap string jval) : list Z := pack5 (pos_bits (encode d)).

Definition loads (l : list Z) : json_doc :=
  match bits_pos (unpack5 l) ≫= decode with
  | Some d => JsonDict d
  | None => JsonError
  end.

(** A stand-in digest: the checksum, in decimal. *)
Definition digest (l : list Z) : string := str_int (crc32 l).

#[global] Instance codec : JsonCodec := {
  json_dumps := dumps;
  json_loads := loads;
  sha256_hex := digest;
}.

End CountableCodec.

(** ** Lemmas *)

Lemma lookup_list_to_map_assoc {V} (l : list (string * V)) k :
  (list_to_map l : gmap string V) !! k = assoc k l.
Proof.
  induction l as [|[k' v] l IH]; simpl; [done|].
  destruct (String.eqb_spec k k') as [->|Hne].
  - by rewrite lookup_insert_eq.
  - by rewrite lookup_insert_ne.
Qed.

Lemma length_le_bytes n x : length (le_bytes n x) = n.
Proof. revert x. induction n as [|n IH]; intros x; simpl; [done|]. by rewrite IH. Qed.

Lemma le_bytes_byte n x : Forall is_byte (le_bytes n x).
Proof.
  revert x. induction n as [|n IH]; intros x; cbn [le_bytes]; constructor; [|done].
  unfold is_byte. apply Z.mod_pos_bound. lia.
Qed.

(** Packing a value that fits, then unpacking it, gives it back. *)
Lemma le_value_bytes n x : 0 ≤ x < 256 ^ Z.of_nat n → le_value (le_bytes n x) = x.
Proof.
  revert x. induction n as [|n IH]; intros x Hx; cbn [le_bytes le_value]; [simpl in Hx; lia|].
  rewrite Nat2Z.inj_succ, Z.pow_succ_r in Hx by lia. rewrite IH; [pose proof (Z.div_mod x 256); lia|].
  split; [apply Z.div_pos; lia|]. apply Z.div_lt_upper_bound; lia.
Qed.

Lemma le_value_bounds l : Forall is_byte l → 0 ≤ le_value l < 256 ^ lenZ l.
Proof.
  unfold is_byte. induction 1 as [|b l Hb _ IH]; [done|].
  rewrite lenZ_cons, Z.pow_add_r by (pose proof (lenZ_nonneg l); lia). simpl. lia.
Qed.

Lemma strip_prefix_app p s : strip_prefix p (p +:+ s) = Some s.
Proof. induction p; simpl; [done|]. by rewrite decide_True. Qed.

Lemma strip_prefix_Some p s s' : strip_prefix p s = Some s' → s = p +:+ s'.
Proof.
  revert s. induction p as [|a p IH]; intros s H; simpl in *; [naive_solver|].
  destruct s as [|b s]; [done|]. case_decide; [|done]. subst. by rewrite (IH _ H).
Qed.

(** A 32-bit register stays a 32-bit register. *)
Lemma lxor_bound n a b :
  0 ≤ n → 0 ≤ a < 2 ^ n → 0 ≤ b < 2 ^ n → 0 ≤ Z.lxor a b < 2 ^ n.
Proof.
  intros Hn Ha Hb.
  assert (0 ≤ Z.lxor a b) as Hx by (apply Z.lxor_nonneg; lia).
  split; [done|]. destruct (decide (Z.lxor a b = 0)) as [->|Hne]; [lia|].
  apply Z.log2_lt_pow2; [lia|].
  eapply Z.le_lt_trans; [apply Z.log2_lxor; lia|].
  assert (∀ c, 0 ≤ c < 2 ^ n → 0 < n → Z.log2 c < n) as Hl.
  { intros c Hc Hn0. destruct (decide (c = 0)) as [->|]; [done|].
    apply Z.log2_lt_pow2; lia. }
  destruct (decide (n = 0)) as [->|].
  - assert (a = 0) as -> by lia. assert (b = 0) as -> by lia. by rewrite Z.lxor_0_l in Hne.
  - apply Z.max_lub_lt; apply Hl; lia.
Qed.

Lemma crc_bit_bound c : 0 ≤ c < 2 ^ 32 → 0 ≤ crc_bit c < 2 ^ 32.
Proof.
  intros Hc. assert (0 ≤ Z.shiftr c 1 < 2 ^ 32).
  { rewrite Z.shiftr_div_pow2, Z.pow_1_r by lia.
    split; [apply Z.div_pos; lia|apply Z.div_lt_upper_bound; lia]. }
  unfold crc_bit. destruct (Z.odd c); [|done]. apply lxor_bound; lia.
Qed.

Lemma crc_byte_bound c b : 0 ≤ c < 2 ^ 32 → is_byte b → 0 ≤ crc_byte c b < 2 ^ 32.
Proof.
  unfold is_byte. intros Hc Hb. unfold crc_byte.
  assert (0 ≤ Z.lxor c b < 2 ^ 32) as H by (apply lxor_bound; lia).
  generalize 8%nat. intros n. revert H. generalize (Z.lxor c b). intros x Hx.
  induction n as [|n IH]; simpl; [done|]. by apply crc_bit_bound.
Qed.

Lemma crc32_bound l : Forall is_byte l → 0 ≤ crc32 l < 2 ^ 32.
Proof.
  intros Hl. unfold crc32. apply lxor_bound; [lia| |lia].
  assert (0 ≤ 0xFFFFFFFF < 2 ^ 32) as H by lia. revert H.
  generalize 0xFFFFFFFF. induction Hl as [|b l Hb _ IH]; intros c Hc; simpl; [done|].
  apply IH. by apply crc_byte_bound.
Qed.

(** The published check value of CRC-32. *)
Example crc32_check : crc32 [49; 50; 51; 52; 53; 54; 55; 56; 57] = 0xCBF43926.
Proof. vm_compute. reflexivity. Qed.

Lemma json_dumps_inj `{JsonCodecLaws} d d' :
  json_dumps d = json_dumps d' → d = d'.
Proof.
  intros E. pose proof (json_loads_dumps d) as Hd.
  rewrite E, json_loads_dumps in Hd. by injection Hd.
Qed.

Module CountableCodecFacts.
Import CountableCodec.

Definition digit (z : Z) : Prop := 0 ≤ z < 3.

Lemma pos_bits_digits p : Forall digit (pos_bits p).
Proof. unfold digit. induction p; simpl; constructor; lia || done. Qed.

Lemma bits_pos_bits p : bits_pos (pos_bits p) = Some p.
Proof. induction p; simpl; [|by rewrite IHp|done]. by rewrite IHp. Qed.

Lemma list5_ind (P : list Z → Prop) :
  (∀ l, (length l < 5)%nat → P l) →
  (∀ a b c d e l, P l → P (a :: b :: c :: d :: e :: l)) → ∀ l, P l.
Proof.
  intros Hs Hc l. remember (length l) as n eqn:Hn.
  revert l Hn. induction n as [n IH] using lt_wf_ind. intros l ->.
  do 5 (destruct l as [|? l]; [apply Hs; simpl; lia|]).
  apply Hc. eapply IH; [|done]. simpl. lia.
Qed.

Lemma pack5_short l : (length l < 5)%nat → pack5 l = 255 :: l.
Proof. do 5 (destruct l as [|? l]; [done|]). simpl. lia. Qed.

Lemma digits3_step n a x : digit a → digits3 (S n) (a + 3 * x) = a :: digits3 n x.
Proof.
  unfold digit. intros Ha. simpl. rewrite Z.mul_comm, Z.mod_add, Z.mod_small by lia.
  rewrite Z.div_add, Z.div_small by lia. done.
Qed.

Lemma digits3_last a : digit a → digits3 1 a = [a].
Proof. unfold digit. intros Ha. simpl. by rewrite Z.mod_small by lia. Qed.

Lemma unpack5_pack5 l : Forall digit l → unpack5 (pack5 l) = l.
Proof.
  induction l as [l Hl|a b c d e l IH] using list5_ind; intros H.
  - by rewrite pack5_short.
  - rewrite !list.Forall_cons in H. destruct H as (?&?&?&?&?&H).
    cbn [pack5 unpack5]. rewrite (IH H).
    replace (_ =? 255) with false by (unfold digit in *; lia).
    by rewrite !digits3_step, digits3_last by done.
Qed.

Lemma pack5_bytes l : Forall digit l → Forall is_byte (pack5 l).
Proof.
  unfold is_byte, digit.
  induction l as [l Hl|a b c d e l IH] using list5_ind; intros H.
  - rewrite pack5_short by done. constructor; [lia|].
    apply (list.Forall_impl _ _ _ H). simpl. lia.
  - rewrite !list.Forall_cons in H. destruct H as (?&?&?&?&?&H). cbn [pack5].
    constructor; [lia|]. by apply IH.
Qed.

#[global] Instance codec_laws : JsonCodecLaws.
Proof.
  constructor; simpl.
  - intros d. unfold loads, dumps. rewrite unpack5_pack5 by apply pos_bits_digits.
    rewrite bits_pos_bits. simpl. by rewrite decode_encode.
  - intros d. apply pack5_bytes, pos_bits_digits.
  - intros d. unfold dumps. generalize (pos_bits (encode d)). intros l.
    do 5 (destruct l as [|? l]; [done|]). done.
Qed.

End CountableCodecFacts.
