(* ===== verification/BlockFirst.v ===== *)
(** * Block-first disk layout

    [lmcache_hcu/v1/storage_backend/block_first_disk.py]: the layout that stores
    one KV chunk as [CB, NL, 2, BS, D] (block first), its self-describing
    metadata record, and the checksummed 4 KiB header in front of the payload. *)

From S2P Require Import Prelude Tensor Codec.

Open Scope string_scope.
Open Scope list_scope.
Open Scope Z_scope.

Definition BLOCK_FIRST_ALIGNMENT : Z := 4096.
Definition BLOCK_FIRST_HEADER_SIZE : Z := 4096.
Definition BLOCK_FIRST_LAYOUT : string := "block_first_v1".
Definition BLOCK_FIRST_VERSION : Z := 1.

(** [b"LMCBFV1\0"] *)
Definition HEADER_MAGIC : list Z := [76; 77; 67; 66; 70; 86; 49; 0].
(** [struct.Struct("<8sII").size] *)
Definition HEADER_PREFIX_SIZE : Z := 16.

Definition align_up (size alignment : Z) : result Z :=
  raise_if (size <? 0)
    (BlockFirstFormatError ("size must be non-negative, got " +:+ str_int size));;
  raise_if (alignment <=? 0)
    (BlockFirstFormatError ("alignment must be positive, got " +:+ str_int alignment));;
  mret ((size + alignment - 1) / alignment * alignment).

Definition block_first_shape (logical_shape : list Z) (block_size : Z)
    : result (list Z) :=
  match logical_shape with
  | [kv; num_layers; num_tokens; hidden_dim] =>
      raise_if (negb (kv =? 2)) (BlockFirstFormatError
        ("logical KV shape must be [2, NL, T, D], got " +:+ str_tuple logical_shape));;
      raise_if (existsb (fun dim => dim <=? 0) logical_shape) (BlockFirstFormatError
        ("logical KV dimensions must be positive: " +:+ str_tuple logical_shape));;
      raise_if (block_size <=? 0) (BlockFirstFormatError
        ("block_size must be positive, got " +:+ str_int block_size));;
      raise_if (negb (num_tokens mod block_size =? 0)) (BlockFirstFormatError
        ("token count " +:+ str_int num_tokens +:+ " is not divisible by block size "
         +:+ str_int block_size));;
      mret [num_tokens / block_size; num_layers; 2; block_size; hidden_dim]
  | _ => Raise (BlockFirstFormatError
        ("logical KV shape must be [2, NL, T, D], got " +:+ str_tuple logical_shape))
  end.

Section dtype.
Context {Dt : Type} `{!TorchDtype Dt}.

Definition dtype_name (dtype : Dt) : result string :=
  let name := dtype_str dtype in
  match strip_prefix "torch." name with
  | Some rest => Ok rest
  | None => Raise (BlockFirstFormatError ("Unsupported dtype representation: " +:+ name))
  end.

Definition parse_dtype (name : string) : result Dt :=
  result_of_option (BlockFirstFormatError ("Unsupported dtype name: " +:+ name))
    (torch_getattr name).

End dtype.

(** ** Layout conversion *)

Section convert.
Context {M T Dt Dv A : Type} `{!TorchOps M T Dt Dv A} `{!EqDecision Dt, !EqDecision Dv}.

(** The output tensor and the memory after writing it. *)
Definition logical_to_block_first (m : M) (logical : T) (block_size : Z)
    (out : option T) : result (T * M) :=
  target_shape ← block_first_shape (t_shape logical) block_size;
  raise_if (negb (t_contiguous logical))
    (BlockFirstFormatError "logical KV tensor must be contiguous");;
  let '(out, m) :=
    match out with
    | Some o => (o, m)
    | None => t_empty m target_shape (t_dtype logical) (t_device logical)
    end in
  raise_if (bool_decide (t_shape out ≠ target_shape)) (BlockFirstFormatError
    ("block-first output shape must be " +:+ str_tuple target_shape +:+ ", got "
     +:+ str_tuple (t_shape out)));;
  raise_if (bool_decide (t_dtype out ≠ t_dtype logical)
            || bool_decide (t_device out ≠ t_device logical))
    (BlockFirstFormatError
      "block-first output must have the same dtype and device as the input");;
  match target_shape with
  | [num_blocks; num_layers; _; _; hidden_dim] =>
      source ← t_view logical [2; num_layers; num_blocks; block_size; hidden_dim];
      mret (out, t_copy m out (t_permute source [2; 1; 0; 3; 4]%nat))
  | _ => Raise (ValueError "unpack")
  end.

Definition block_first_to_logical (m : M) (physical : T) (out : option T)
    : result (T * M) :=
  match t_shape physical with
  | [num_blocks; num_layers; kv; block_size; hidden_dim] =>
      raise_if (negb (kv =? 2)) (BlockFirstFormatError
        ("block-first KV shape must be [CB, NL, 2, BS, D], got "
         +:+ str_tuple (t_shape physical)));;
      raise_if (negb (t_contiguous physical))
        (BlockFirstFormatError "block-first KV tensor must be contiguous");;
      let logical_shape := [2; num_layers; num_blocks * block_size; hidden_dim] in
      let '(out, m) :=
        match out with
        | Some o => (o, m)
        | None => t_empty m logical_shape (t_dtype physical) (t_device physical)
        end in
      raise_if (bool_decide (t_shape out ≠ logical_shape)) (BlockFirstFormatError
        ("logical output shape must be " +:+ str_tuple logical_shape +:+ ", got "
         +:+ str_tuple (t_shape out)));;
      raise_if (bool_decide (t_dtype out ≠ t_dtype physical)
                || bool_decide (t_device out ≠ t_device physical))
        (BlockFirstFormatError
          "logical output must have the same dtype and device as the input");;
      target ← t_view out [2; num_layers; num_blocks; block_size; hidden_dim];
      mret (out, t_copy m target (t_permute physical [2; 1; 0; 3; 4]%nat))
  | _ => Raise (BlockFirstFormatError
        ("block-first KV shape must be [CB, NL, 2, BS, D], got "
         +:+ str_tuple (t_shape physical)))
  end.

End convert.

(** ** Metadata *)

Record BlockFirstDiskMetadata := MkBlockFirstDiskMetadata {
  layout : string;
  version : Z;
  logical_shape : list Z;
  payload_shape : list Z;
  dtype : string;
  valid_tokens : Z;
  num_layers : Z;
  block_size : Z;
  hidden_dim : Z;
  payload_nbytes : Z;
  io_nbytes : Z;
  model_name : string;
  world_size : Z;
  worker_id : Z;
  tensor_parallel_size : Z;
  pipeline_parallel_size : Z;
  layout_signature : string;
}.

#[global] Instance BlockFirstDiskMetadata_eq_dec : EqDecision BlockFirstDiskMetadata.
Proof. solve_decision. Defined.

(** The engine fields a signature covers besides the chunk's geometry. *)
Record engine_layout := EngineLayout {
  el_model_name : string;
  el_world_size : Z;
  el_worker_id : Z;
  el_tensor_parallel_size : Z;
  el_pipeline_parallel_size : Z;
}.

Section metadata.
Context {Dt : Type} `{!TorchDtype Dt} {JC : JsonCodec}.

Definition signature_fields (e : engine_layout) (num_layers block_size hidden_dim : Z)
    (dtype_nm : string) : gmap string jval :=
  list_to_map [
    ("block_size", JInt block_size);
    ("dtype", JStr dtype_nm);
    ("hidden_dim", JInt hidden_dim);
    ("layout", JStr BLOCK_FIRST_LAYOUT);
    ("model_name", JStr (el_model_name e));
    ("num_layers", JInt num_layers);
    ("pipeline_parallel_size", JInt (el_pipeline_parallel_size e));
    ("tensor_parallel_size", JInt (el_tensor_parallel_size e));
    ("worker_id", JInt (el_worker_id e));
    ("world_size", JInt (el_world_size e))].

Definition make_layout_signature (e : engine_layout)
    (num_layers block_size hidden_dim : Z) (dtype : Dt) : result string :=
  name ← dtype_name dtype;
  mret (sha256_hex (json_dumps (signature_fields e num_layers block_size hidden_dim name))).

Definition engine_of (m : BlockFirstDiskMetadata) : engine_layout :=
  EngineLayout (model_name m) (world_size m) (worker_id m)
    (tensor_parallel_size m) (pipeline_parallel_size m).

Definition torch_dtype (m : BlockFirstDiskMetadata) : result Dt := parse_dtype (dtype m).

Definition validate (m : BlockFirstDiskMetadata) : result unit :=
  raise_if (bool_decide (layout m ≠ BLOCK_FIRST_LAYOUT)
            || negb (version m =? BLOCK_FIRST_VERSION))
    (BlockFirstFormatError ("unsupported layout/version: " +:+ layout m +:+ "/"
      +:+ str_int (version m)));;
  expected_payload_shape ← block_first_shape (logical_shape m) (block_size m);
  raise_if (bool_decide (payload_shape m ≠ expected_payload_shape))
    (BlockFirstFormatError ("payload shape does not match logical coordinates: "
      +:+ str_tuple (payload_shape m) +:+ " != " +:+ str_tuple expected_payload_shape));;
  tokens ← py_index (logical_shape m) 2;
  raise_if (negb (valid_tokens m =? tokens))
    (BlockFirstFormatError ("block_first_v1 only accepts complete chunks: valid_tokens="
      +:+ str_int (valid_tokens m) +:+ ", tokens=" +:+ str_int tokens));;
  layers ← py_index (logical_shape m) 1;
  raise_if (negb (num_layers m =? layers))
    (BlockFirstFormatError "num_layers does not match logical shape");;
  hidden ← py_index (logical_shape m) 3;
  raise_if (negb (hidden_dim m =? hidden))
    (BlockFirstFormatError "hidden_dim does not match logical shape");;
  raise_if (Z.min (world_size m)
              (Z.min (tensor_parallel_size m) (pipeline_parallel_size m)) <=? 0)
    (BlockFirstFormatError "parallel sizes must be positive");;
  raise_if ((worker_id m <? 0) || (world_size m <=? worker_id m))
    (BlockFirstFormatError ("worker_id " +:+ str_int (worker_id m)
      +:+ " is outside world_size " +:+ str_int (world_size m)));;
  dt ← torch_dtype m;
  let expected_nbytes := prodZ (payload_shape m) * itemsize dt in
  raise_if (negb (payload_nbytes m =? expected_nbytes))
    (BlockFirstFormatError ("payload size " +:+ str_int (payload_nbytes m)
      +:+ " != expected " +:+ str_int expected_nbytes));;
  aligned ← align_up (payload_nbytes m) BLOCK_FIRST_ALIGNMENT;
  raise_if (negb (io_nbytes m =? aligned))
    (BlockFirstFormatError ("I/O size " +:+ str_int (io_nbytes m)
      +:+ " is not the aligned payload size"));;
  expected_signature ←
    make_layout_signature (engine_of m) (num_layers m) (block_size m) (hidden_dim m) dt;
  raise_if (bool_decide (layout_signature m ≠ expected_signature))
    (BlockFirstFormatError "layout signature mismatch").

(** [BlockFirstDiskMetadata.create(logical, ...)]: of the tensor it reads the
    shape and the dtype. *)
Definition create (shape : list Z) (dt : Dt) (block_size : Z) (e : engine_layout)
    : result BlockFirstDiskMetadata :=
  payload ← block_first_shape shape block_size;
  let nbytes := prodZ shape * itemsize dt in
  name ← dtype_name dt;
  tokens ← py_index shape 2;
  layers ← py_index shape 1;
  hidden ← py_index shape 3;
  io ← align_up nbytes BLOCK_FIRST_ALIGNMENT;
  signature ← make_layout_signature e layers block_size hidden dt;
  let metadata := {|
    layout := BLOCK_FIRST_LAYOUT;
    version := BLOCK_FIRST_VERSION;
    logical_shape := shape;
    payload_shape := payload;
    dtype := name;
    valid_tokens := tokens;
    num_layers := layers;
    block_size := block_size;
    hidden_dim := hidden;
    payload_nbytes := nbytes;
    io_nbytes := io;
    model_name := el_model_name e;
    world_size := el_world_size e;
    worker_id := el_worker_id e;
    tensor_parallel_size := el_tensor_parallel_size e;
    pipeline_parallel_size := el_pipeline_parallel_size e;
    layout_signature := signature |} in
  validate metadata;;
  mret metadata.

Definition validate_runtime (m : BlockFirstDiskMetadata) (shape : list Z) (dt : Dt)
    (e : engine_layout) (bs : Z) : result unit :=
  validate m;;
  layers ← py_index shape 1;
  hidden ← py_index shape 3;
  expected_signature ← make_layout_signature e layers bs hidden dt;
  raise_if (bool_decide (logical_shape m ≠ shape))
    (BlockFirstFormatError ("logical shape mismatch: " +:+ str_tuple (logical_shape m)
      +:+ " != " +:+ str_tuple shape));;
  own ← torch_dtype m;
  raise_if (bool_decide (own ≠ dt))
    (BlockFirstFormatError ("dtype mismatch: " +:+ dtype_str own +:+ " != "
      +:+ dtype_str dt));;
  raise_if (bool_decide (layout_signature m ≠ expected_signature))
    (BlockFirstFormatError "runtime layout signature mismatch").

(** [dataclasses.asdict] *)
Definition asdict (m : BlockFirstDiskMetadata) : gmap string jval :=
  list_to_map [
    ("layout", JStr (layout m));
    ("version", JInt (version m));
    ("logical_shape", JInts (logical_shape m));
    ("payload_shape", JInts (payload_shape m));
    ("dtype", JStr (dtype m));
    ("valid_tokens", JInt (valid_tokens m));
    ("num_layers", JInt (num_layers m));
    ("block_size", JInt (block_size m));
    ("hidden_dim", JInt (hidden_dim m));
    ("payload_nbytes", JInt (payload_nbytes m));
    ("io_nbytes", JInt (io_nbytes m));
    ("model_name", JStr (model_name m));
    ("world_size", JInt (world_size m));
    ("worker_id", JInt (worker_id m));
    ("tensor_parallel_size", JInt (tensor_parallel_size m));
    ("pipeline_parallel_size", JInt (pipeline_parallel_size m));
    ("layout_signature", JStr (layout_signature m))].

Definition invalid_metadata : exn :=
  BlockFirstFormatError "invalid block-first metadata".

Definition field_names : list string :=
  ["layout"; "version"; "logical_shape"; "payload_shape"; "dtype"; "valid_tokens";
   "num_layers"; "block_size"; "hidden_dim"; "payload_nbytes"; "io_nbytes";
   "model_name"; "world_size"; "worker_id"; "tensor_parallel_size";
   "pipeline_parallel_size"; "layout_signature"].

(** The dataclass fields are typed here; a JSON value of another type is a
    [TypeError] of the model. *)
Definition int_field (d : gmap string jval) (k : string) : result Z :=
  match d !! k with Some (JInt z) => Ok z | _ => Raise TypeError end.

Definition str_field (d : gmap string jval) (k : string) : result string :=
  match d !! k with Some (JStr s) => Ok s | _ => Raise TypeError end.

(** [tuple(data[k])], with [KeyError] and [TypeError] turned into a format error *)
Definition tuple_field (d : gmap string jval) (k : string) : result (list Z) :=
  match d !! k with Some (JInts l) => Ok l | _ => Raise invalid_metadata end.

Definition from_mapping (d : gmap string jval) : result BlockFirstDiskMetadata :=
  ls ← tuple_field d "logical_shape";
  ps ← tuple_field d "payload_shape";
  (* the dataclass constructor: a missing or an unexpected keyword argument *)
  raise_if (bool_decide (dom d ≠ list_to_set field_names)) invalid_metadata;;
  la ← str_field d "layout";
  ve ← int_field d "version";
  dt ← str_field d "dtype";
  vt ← int_field d "valid_tokens";
  nl ← int_field d "num_layers";
  bs ← int_field d "block_size";
  hd ← int_field d "hidden_dim";
  pn ← int_field d "payload_nbytes";
  io ← int_field d "io_nbytes";
  mn ← str_field d "model_name";
  ws ← int_field d "world_size";
  wi ← int_field d "worker_id";
  tp ← int_field d "tensor_parallel_size";
  pp ← int_field d "pipeline_parallel_size";
  sg ← str_field d "layout_signature";
  let metadata :=
    MkBlockFirstDiskMetadata la ve ls ps dt vt nl bs hd pn io mn ws wi tp pp sg in
  validate metadata;;
  mret metadata.

(** ** Header *)

Definition pack_block_first_header (m : BlockFirstDiskMetadata) : result (list Z) :=
  validate m;;
  let payload := json_dumps (asdict m) in
  let max_payload := BLOCK_FIRST_HEADER_SIZE - HEADER_PREFIX_SIZE in
  raise_if (max_payload <? lenZ payload)
    (BlockFirstFormatError ("metadata is too large for the 4 KiB header: "
      +:+ str_int (lenZ payload) +:+ " bytes"));;
  let checksum := Z.land (crc32 payload) 0xFFFFFFFF in
  let prefix := HEADER_MAGIC ++ le_bytes 4 (lenZ payload) ++ le_bytes 4 checksum in
  let padding_size := BLOCK_FIRST_HEADER_SIZE - lenZ prefix - lenZ payload in
  mret (prefix ++ payload ++ replicate (Z.to_nat padding_size) 0).

Definition unpack_block_first_header (buffer : list Z)
    : result BlockFirstDiskMetadata :=
  raise_if (lenZ buffer <? BLOCK_FIRST_HEADER_SIZE)
    (BlockFirstFormatError ("short block-first header: " +:+ str_int (lenZ buffer)
      +:+ "/" +:+ str_int BLOCK_FIRST_HEADER_SIZE +:+ " bytes"));;
  let magic := take 8 buffer in
  let payload_len := le_value (py_slice buffer 8 12) in
  let checksum := le_value (py_slice buffer 12 16) in
  raise_if (bool_decide (magic ≠ HEADER_MAGIC))
    (BlockFirstFormatError "block-first header magic mismatch");;
  let max_payload := BLOCK_FIRST_HEADER_SIZE - HEADER_PREFIX_SIZE in
  raise_if ((payload_len <=? 0) || (max_payload <? payload_len))
    (BlockFirstFormatError ("invalid metadata length: " +:+ str_int payload_len));;
  let payload := py_slice buffer HEADER_PREFIX_SIZE (HEADER_PREFIX_SIZE + payload_len) in
  raise_if (negb (Z.land (crc32 payload) 0xFFFFFFFF =? checksum))
    (BlockFirstFormatError "block-first header checksum mismatch");;
  match json_loads payload with
  | JsonError => Raise (BlockFirstFormatError "invalid block-first JSON")
  | JsonOther => Raise (BlockFirstFormatError "block-first metadata must be a JSON object")
  | JsonDict values => from_mapping values
  end.

End metadata.

(** ** Alignment *)

Lemma align_up_Ok size alignment n :
  align_up size alignment = Ok n ↔
  0 ≤ size ∧ 0 < alignment ∧ n = (size + alignment - 1) / alignment * alignment.
Proof.
  unfold align_up. split.
  - intros H. res_inv. bool_prop. by subst.
  - intros (? & ? & ->).
    rewrite (proj2 (Z.ltb_ge size 0)), (proj2 (Z.leb_gt alignment 0)) by lia. done.
Qed.

Lemma align_up_total size alignment :
  0 ≤ size → 0 < alignment → ∃ n, align_up size alignment = Ok n.
Proof. intros. eexists. by apply align_up_Ok. Qed.

(** [align_up] returns the least multiple of the alignment that is not
    below the size, for every size and alignment it accepts. *)
Theorem align_up_least size alignment n :
  align_up size alignment = Ok n →
  n mod alignment = 0 ∧ size ≤ n < size + alignment ∧
  ∀ n', n' mod alignment = 0 → size ≤ n' → n ≤ n'.
Proof.
  intros (Hs & Ha & ->)%align_up_Ok.
  set (q := (size + alignment - 1) / alignment).
  assert (q * alignment ≤ size + alignment - 1 < (q + 1) * alignment) as Hq.
  { subst q. pose proof (Z.div_mod (size + alignment - 1) alignment).
    pose proof (Z.mod_pos_bound (size + alignment - 1) alignment). nia. }
  split_and!; [by rewrite Z.mod_mul by lia|nia|nia|].
  intros n' Hn' Hle. apply Z.div_exact in Hn'; [|lia].
  assert (q < n' / alignment + 1) as Hlt.
  { apply (Z.mul_lt_mono_pos_r alignment); [lia|]. lia. }
  apply Z.lt_succ_r in Hlt. rewrite Hn', (Z.mul_comm alignment).
  by apply Z.mul_le_mono_nonneg_r; [lia|].
Qed.

Lemma align_up_least_witness : align_up 4097 4096 = Ok 8192 ∧ 8192 mod 4096 = 0.
Proof.
  split; [reflexivity|]. destruct (align_up_least 4097 4096 8192) as [H _]; [reflexivity|].
  exact H.
Defined.

(** ** Shapes *)

Lemma block_first_shape_Ok ls bs ps :
  block_first_shape ls bs = Ok ps ↔
  ∃ nl nb d, 0 < nl ∧ 0 < nb ∧ 0 < bs ∧ 0 < d ∧
    ls = [2; nl; nb * bs; d] ∧ ps = [nb; nl; 2; bs; d].
Proof.
  unfold block_first_shape. split.
  - intros H. destruct ls as [|kv [|nl [|t [|d [|]]]]]; try discriminate H.
    res_inv. cbn in *. bool_prop. subst.
    assert (t = t / bs * bs) as Ht.
    { pose proof (Z.div_mod t bs). lia. }
    assert (0 < t / bs) by (revert Ht; generalize (t / bs); nia).
    exists nl, (t / bs), d. split_and!; try lia; [|done]. by rewrite <- Ht.
  - intros (nl & nb & d & ? & ? & ? & ? & -> & ->). cbn.
    rewrite (proj2 (Z.leb_gt nl 0)), (proj2 (Z.leb_gt (nb * bs) 0)),
      (proj2 (Z.leb_gt d 0)), (proj2 (Z.leb_gt bs 0)) by nia. cbn.
    rewrite Z.mod_mul, Z.div_mul by lia. done.
Qed.

Lemma block_first_shape_prod ls bs ps :
  block_first_shape ls bs = Ok ps → prodZ ps = prodZ ls ∧ 0 < prodZ ls.
Proof.
  intros (nl & nb & d & ? & ? & ? & ? & -> & ->)%block_first_shape_Ok.
  unfold prodZ. simpl. split; [lia|]. repeat apply Z.mul_pos_pos; lia.
Qed.

(** ** Layout conversion *)

Section convert_facts.
Context {M T Dt Dv A : Type} `{!TorchOps M T Dt Dv A, !TorchLaws M T Dt Dv A}.
Context `{!EqDecision Dt, !EqDecision Dv}.
Implicit Types (m : M) (t : T).

(** A destination [copy_] can fill from [src]: the preallocated [out] of the
    callers, or none. *)
Definition out_ok m (src : T) (sh : list Z) (out : option T) : Prop :=
  match out with
  | None => t_alive m src
  | Some o => t_shape o = sh ∧ t_contiguous o = true ∧ t_dtype o = t_dtype src ∧
      t_device o = t_device src ∧ t_storage src ≠ t_storage o
  end.

Lemma perm_21034 : Permutation [2; 1; 0; 3; 4]%nat (seq 0 5).
Proof. apply (bool_decide_unpack _). vm_compute. done. Qed.

(** What both conversions prepare: the output tensor and the memory in which the
    source still reads as before. *)
Lemma out_ok_prepare m src sh out o m' :
  out_ok m src sh out →
  (match out with
   | Some o => (o, m) | None => t_empty m sh (t_dtype src) (t_device src)
   end) = (o, m') →
  t_shape o = sh ∧ t_contiguous o = true ∧ t_dtype o = t_dtype src ∧
  t_device o = t_device src ∧ t_storage src ≠ t_storage o ∧
  (t_alive m src → t_alive m' src ∧ (out = None → t_alive m' o)) ∧
  ∀ idx, t_read m' src idx = t_read m src idx.
Proof.
  destruct out as [o'|]; simpl; intros H E.
  - injection E as -> ->. naive_solver.
  - destruct (t_empty m sh (t_dtype src) (t_device src)) as [o2 m2] eqn:Ee.
    injection E as -> ->.
    pose proof (empty_shape m sh (t_dtype src) (t_device src)) as H1.
    pose proof (empty_contiguous m sh (t_dtype src) (t_device src)) as H2.
    pose proof (empty_dtype m sh (t_dtype src) (t_device src)) as H3.
    pose proof (empty_device m sh (t_dtype src) (t_device src)) as H4.
    pose proof (empty_alive m sh (t_dtype src) (t_device src)) as H5.
    destruct (empty_fresh m sh (t_dtype src) (t_device src) src H) as (H6 & H7 & H8).
    rewrite Ee in *. simpl in *. naive_solver.
Qed.

Lemma logical_to_block_first_spec m logical bs out nl nb d :
  t_shape logical = [2; nl; nb * bs; d] →
  0 < nl → 0 < nb → 0 < bs → 0 < d →
  t_contiguous logical = true →
  out_ok m logical [nb; nl; 2; bs; d] out →
  ∃ o m', logical_to_block_first m logical bs out = Ok (o, m') ∧
    t_shape o = [nb; nl; 2; bs; d] ∧ t_contiguous o = true ∧
    t_dtype o = t_dtype logical ∧ t_device o = t_device logical ∧
    t_storage logical ≠ t_storage o ∧
    (t_alive m logical → t_alive m' logical ∧ (out = None → t_alive m' o)) ∧
    (∀ idx, t_read m' logical idx = t_read m logical idx) ∧
    ∀ cb l kv b x, valid_idx [nb; nl; 2; bs; d] [cb; l; kv; b; x] →
      t_read m' o [cb; l; kv; b; x] = t_read m logical [kv; l; cb * bs + b; x].
Proof.
  intros Hsh Hnl Hnb Hbs Hd Hc Hout. unfold logical_to_block_first. rewrite Hsh.
  rewrite (proj2 (block_first_shape_Ok [2; nl; nb * bs; d] bs [nb; nl; 2; bs; d]))
    by eauto 10. cbn [mbind result_bind]. rewrite Hc. cbn [negb raise_if].
  destruct (match out with Some _ => _ | None => _ end) as [o m1] eqn:Eo.
  destruct (out_ok_prepare _ _ _ _ _ _ Hout Eo) as (Hos & Hoc & Hod & Hov & Hst & Hal & Hrd).
  rewrite Hos, Hod, Hov. rewrite !bool_decide_false by tauto. cbn.
  destruct (view_contiguous logical [2; nl; nb; bs; d] Hc) as (v & -> & Hvs & Hvc & Hvt & Hvr).
  { rewrite Hsh. unfold prodZ. simpl. lia. }
  cbn. eexists _, _. split; [done|]. split_and!; try done.
  - intros Ha. destruct (Hal Ha). split; [by apply copy_alive|].
    intros Hn. apply copy_alive. naive_solver.
  - intros idx. rewrite copy_frame by done. apply Hrd.
  - intros cb l kv b x Hv.
    assert (Permutation [2; 1; 0; 3; 4]%nat (seq 0 (length (t_shape v)))) as Hp.
    { rewrite Hvs. apply perm_21034. }
    rewrite copy_read; [|done|by rewrite permute_storage, Hvt; apply not_eq_sym| |by rewrite Hos].
    2: { rewrite permute_shape, Hos, Hvs by done. done. }
    change [cb; l; kv; b; x] with (pick [2; 1; 0; 3; 4]%nat [kv; l; cb; b; x]).
    rewrite permute_read by done.
    rewrite !valid_idx_cons in Hv. destruct Hv as (?&?&?&?&?&_).
    rewrite <- Hrd. apply Hvr; rewrite ?Hsh; unfold valid_idx.
    + repeat constructor; lia.
    + repeat constructor; nia.
    + unfold prodZ. simpl. ring.
Qed.

Lemma block_first_to_logical_spec m physical out nl nb bs d :
  t_shape physical = [nb; nl; 2; bs; d] →
  0 < nl → 0 < nb → 0 < bs → 0 < d →
  t_contiguous physical = true →
  out_ok m physical [2; nl; nb * bs; d] out →
  ∃ o m', block_first_to_logical m physical out = Ok (o, m') ∧
    t_shape o = [2; nl; nb * bs; d] ∧
    ∀ kv l cb b x, valid_idx [nb; nl; 2; bs; d] [cb; l; kv; b; x] →
      t_read m' o [kv; l; cb * bs + b; x] = t_read m physical [cb; l; kv; b; x].
Proof.
  intros Hsh Hnl Hnb Hbs Hd Hc Hout. unfold block_first_to_logical. rewrite Hsh, Hc.
  cbn [negb Z.eqb Pos.eqb raise_if mbind result_bind].
  destruct (match out with Some _ => _ | None => _ end) as [o m1] eqn:Eo.
  destruct (out_ok_prepare _ _ _ _ _ _ Hout Eo) as (Hos & Hoc & Hod & Hov & Hst & Hal & Hrd).
  rewrite Hos, Hod, Hov. rewrite !bool_decide_false by tauto. cbn.
  destruct (view_contiguous o [2; nl; nb; bs; d] Hoc) as (v & -> & Hvs & Hvc & Hvt & Hvr).
  { rewrite Hos. unfold prodZ. simpl. lia. }
  cbn. eexists _, _. split; [done|]. split; [done|].
  intros kv l cb b x Hv.
  rewrite !valid_idx_cons in Hv. destruct Hv as (?&?&?&?&?&_).
  assert (Permutation [2; 1; 0; 3; 4]%nat (seq 0 (length (t_shape physical)))) as Hp.
  { rewrite Hsh. apply perm_21034. }
  rewrite <- (Hvr _ [kv; l; cb; b; x]).
  - rewrite copy_read; [|done|rewrite permute_storage, Hvt; by apply not_eq_sym| |].
    + change [kv; l; cb; b; x] with (pick [2; 1; 0; 3; 4]%nat [cb; l; kv; b; x]).
      by rewrite permute_read.
    + by rewrite permute_shape, Hsh, Hvs by done.
    + rewrite Hvs. repeat constructor; lia.
  - repeat constructor; lia.
  - rewrite Hos. repeat constructor; nia.
  - rewrite Hos. unfold prodZ. simpl. ring.
Qed.

End convert_facts.

Section layout_theorems.
Context {M T Dt Dv A : Type} `{!TorchOps M T Dt Dv A, !TorchLaws M T Dt Dv A}.
Context `{!EqDecision Dt, !EqDecision Dv}.

(** C4: converting a contiguous chunk to block-first and back, each time into a
    fresh output, returns a tensor of the original shape that reads the same
    element at every index. *)
Theorem block_first_roundtrip (m : M) (logical : T) (nl nb bs d : Z) :
  t_shape logical = [2; nl; nb * bs; d] →
  0 < nl → 0 < nb → 0 < bs → 0 < d →
  t_contiguous logical = true →
  t_alive m logical →
  ∃ p m1 l2 m2,
    logical_to_block_first m logical bs None = Ok (p, m1) ∧
    block_first_to_logical m1 p None = Ok (l2, m2) ∧
    t_shape l2 = t_shape logical ∧
    ∀ idx, valid_idx (t_shape logical) idx → t_read m2 l2 idx = t_read m logical idx.
Proof.
  intros Hsh Hnl Hnb Hbs Hd Hc Ha.
  destruct (logical_to_block_first_spec m logical bs None nl nb d)
    as (p & m1 & E1 & Hps & Hpc & _ & _ & _ & Hal & _ & Hr1); [done..|].
  destruct (block_first_to_logical_spec m1 p None nl nb bs d)
    as (l2 & m2 & E2 & Hs2 & Hr2); [done..|by apply Hal|].
  exists p, m1, l2, m2. split_and!; [done..|by rewrite Hs2, Hsh|].
  intros idx Hv. rewrite Hsh in Hv.
  destruct idx as [|kv [|l [|t [|x [|]]]]]; try by apply valid_idx_length in Hv.
  rewrite !valid_idx_cons in Hv. destruct Hv as (?&?&?&?&_).
  pose proof (Z.div_mod t bs ltac:(lia)) as Ht.
  pose proof (Z.mod_pos_bound t bs ltac:(lia)).
  assert (0 ≤ t / bs < nb).
  { split; [apply Z.div_pos; lia|apply Z.div_lt_upper_bound; lia]. }
  replace t with (t / bs * bs + t mod bs) by lia.
  assert (valid_idx [nb; nl; 2; bs; d] [t / bs; l; kv; t mod bs; x]).
  { rewrite !valid_idx_cons. split_and!; try lia. constructor. }
  by rewrite Hr2, Hr1.
Qed.

End layout_theorems.

(** Example tensors: [2, 1, 4, 2] in a strided memory, in blocks of 2. *)
Module BlockFirstExamples.
Import Strided StridedFacts.

Definition ex_logical : tensor ex_dtype Z :=
  Tensor 0 0 [2; 1; 4; 2] (contiguous_strides [2; 1; 4; 2]) Float16 0.

Definition ex_memory : memory Z :=
  Memory 1 (list_to_map ((fun i => ((0%nat, i), 100 + i)) <$> seqZ 0 16)).

Definition ex_engine : engine_layout := EngineLayout "model" 2 1 2 1.

End BlockFirstExamples.

Lemma block_first_roundtrip_witness :
  Strided.shape BlockFirstExamples.ex_logical = [2; 1; 4; 2] ∧
  ∃ p m1 l2 m2,
    logical_to_block_first BlockFirstExamples.ex_memory
      BlockFirstExamples.ex_logical 2 None = Ok (p, m1) ∧
    block_first_to_logical m1 p None = Ok (l2, m2) ∧
    Strided.shape l2 = [2; 1; 4; 2] ∧
    ∀ idx, valid_idx [2; 1; 4; 2] idx →
      t_read m2 l2 idx = t_read BlockFirstExamples.ex_memory BlockFirstExamples.ex_logical idx.
Proof.
  split; [reflexivity|].
  exact (block_first_roundtrip BlockFirstExamples.ex_memory
    BlockFirstExamples.ex_logical 1 2 2 2 eq_refl ltac:(lia) ltac:(lia) ltac:(lia)
    ltac:(lia) eq_refl ltac:(simpl; lia)).
Defined.

(** Block 1 of the converted chunk holds K then V of tokens 2 and 3. *)
Example block_first_layout_example :
  (fun idx => '(p, m1) ← logical_to_block_first BlockFirstExamples.ex_memory
                BlockFirstExamples.ex_logical 2 None;
     mret (t_read m1 p idx)) <$> [[1; 0; 0; 0; 0]; [1; 0; 0; 1; 1]; [1; 0; 1; 0; 0]]
  = [Ok (Some 104); Ok (Some 107); Ok (Some 112)].
Proof. vm_compute. reflexivity. Qed.

(** ** Metadata *)

Section metadata_facts.
Context {Dt : Type} `{!TorchDtype Dt, !TorchDtypeLaws Dt} {JC : JsonCodec} {JL : JsonCodecLaws}.
Implicit Types (m : BlockFirstDiskMetadata) (dt : Dt).

(** An engine description with positive sizes and a rank inside the world *)
Definition engine_ok (e : engine_layout) : Prop :=
  0 < el_world_size e ∧ 0 < el_tensor_parallel_size e ∧
  0 < el_pipeline_parallel_size e ∧ 0 ≤ el_worker_id e < el_world_size e.

Lemma dtype_name_Ok dt name :
  dtype_name dt = Ok name ↔ dtype_str dt = ("torch." +:+ name)%string.
Proof.
  unfold dtype_name. destruct (strip_prefix _ _) as [rest|] eqn:E.
  - apply strip_prefix_Some in E. rewrite E. split; [by intros [= ->]|].
    intros H. apply (f_equal (strip_prefix "torch.")) in H.
    rewrite !strip_prefix_app in H. by injection H as ->.
  - split; [done|]. intros H. by rewrite H, strip_prefix_app in E.
Qed.

Lemma dtype_name_total dt :
  ∃ name, dtype_name dt = Ok name ∧ parse_dtype name = Ok dt.
Proof.
  destruct (dtype_str_torch dt) as [name Hn]. exists name. split.
  - by apply dtype_name_Ok.
  - unfold parse_dtype. by rewrite (getattr_str dt name).
Qed.

Lemma make_layout_signature_Ok e nl bs d dt sig :
  make_layout_signature e nl bs d dt = Ok sig ↔
  ∃ name, dtype_name dt = Ok name ∧
    sig = sha256_hex (json_dumps (signature_fields e nl bs d name)).
Proof.
  unfold make_layout_signature. rewrite bind_Ok. split.
  - intros (name & Hn & Hs). res_inv. by exists name.
  - intros (name & Hn & ->). by exists name.
Qed.

Lemma validate_Ok m :
  validate m = Ok tt ↔
  layout m = BLOCK_FIRST_LAYOUT ∧ version m = BLOCK_FIRST_VERSION ∧
  0 < num_layers m ∧ 0 < block_size m ∧ 0 < hidden_dim m ∧ engine_ok (engine_of m) ∧
  ∃ nb (dt : Dt), 0 < nb ∧
    logical_shape m = [2; num_layers m; nb * block_size m; hidden_dim m] ∧
    payload_shape m = [nb; num_layers m; 2; block_size m; hidden_dim m] ∧
    valid_tokens m = nb * block_size m ∧
    parse_dtype (dtype m) = Ok dt ∧
    payload_nbytes m = prodZ (payload_shape m) * itemsize dt ∧
    align_up (payload_nbytes m) BLOCK_FIRST_ALIGNMENT = Ok (io_nbytes m) ∧
    make_layout_signature (engine_of m) (num_layers m) (block_size m) (hidden_dim m) dt
      = Ok (layout_signature m).
Proof.
  unfold validate, torch_dtype, engine_ok. split.
  - intros H. res_inv. bool_prop.
    match goal with H : block_first_shape _ _ = Ok _ |- _ =>
      apply block_first_shape_Ok in H; destruct H as (nl & nb & d & ? & ? & ? & ? & Hls & ?) end.
    rewrite Hls in *.
    repeat match goal with H : py_index _ _ = Ok _ |- _ =>
      apply py_index_nonneg in H; [injection H as <-|lia] end.
    repeat match goal with H : ¬ _ ≠ _ |- _ => apply dec_stable in H end.
    subst. simpl in *. split_and!; try done; try lia.
    eexists nb, _. split_and!; try done; congruence.
  - intros (-> & -> & Hnl & Hbs & Hd & (He1&He2&He3&He4) & nb & dt & Hnb & Hls & Hps & Hvt
      & Hdt & Hpn & Hio & Hsig). simpl in He1, He2, He3, He4.
    rewrite bool_decide_false by tauto. change (BLOCK_FIRST_VERSION =? BLOCK_FIRST_VERSION) with true.
    res_simpl. rewrite Hls, (proj2 (block_first_shape_Ok _ _ [nb; num_layers m; 2; block_size m; hidden_dim m]))
      by eauto 10.
    res_simpl. rewrite Hps, bool_decide_false by tauto. res_simpl.
    set (ls := [2; num_layers m; nb * block_size m; hidden_dim m]).
    assert (py_index ls 2 = Ok (nb * block_size m)) as -> by done.
    assert (py_index ls 1 = Ok (num_layers m)) as -> by done.
    assert (py_index ls 3 = Ok (hidden_dim m)) as -> by done. res_simpl.
    rewrite Hvt, !Z.eqb_refl, (proj2 (Z.leb_gt (Z.min _ _) 0)) by lia. res_simpl.
    rewrite (proj2 (Z.ltb_ge _ 0)), (proj2 (Z.leb_gt _ (worker_id m))) by lia. res_simpl.
    rewrite Hdt. res_simpl. rewrite Hps in Hpn. rewrite <- Hpn, Z.eqb_refl. res_simpl.
    rewrite Hio. res_simpl. rewrite Z.eqb_refl. res_simpl. rewrite Hsig. res_simpl.
    by rewrite bool_decide_false by tauto.
Qed.

(** The record [create] builds, and that its own [validate] call never fails. *)
Lemma create_spec nl nb bs d dt e :
  0 < nl → 0 < nb → 0 < bs → 0 < d → engine_ok e →
  ∃ m, create [2; nl; nb * bs; d] dt bs e = Ok m ∧ validate m = Ok tt ∧
    logical_shape m = [2; nl; nb * bs; d] ∧ payload_shape m = [nb; nl; 2; bs; d] ∧
    valid_tokens m = nb * bs ∧ num_layers m = nl ∧ block_size m = bs ∧
    hidden_dim m = d ∧ engine_of m = e ∧
    dtype_name dt = Ok (dtype m) ∧ parse_dtype (dtype m) = Ok dt ∧
    payload_nbytes m = 2 * nl * (nb * bs) * d * itemsize dt ∧
    align_up (payload_nbytes m) BLOCK_FIRST_ALIGNMENT = Ok (io_nbytes m) ∧
    layout m = BLOCK_FIRST_LAYOUT ∧ version m = BLOCK_FIRST_VERSION ∧
    make_layout_signature e nl bs d dt = Ok (layout_signature m).
Proof.
  intros Hnl Hnb Hbs Hd He. unfold create.
  rewrite (proj2 (block_first_shape_Ok _ _ [nb; nl; 2; bs; d])) by eauto 10.
  destruct (dtype_name_total dt) as (name & Hn & Hp). res_simpl. rewrite Hn. res_simpl.
  assert (py_index [2; nl; nb * bs; d] 2 = Ok (nb * bs)) as -> by done.
  assert (py_index [2; nl; nb * bs; d] 1 = Ok nl) as -> by done.
  assert (py_index [2; nl; nb * bs; d] 3 = Ok d) as -> by done. res_simpl.
  pose proof (itemsize_pos dt) as Hi.
  assert (prodZ [2; nl; nb * bs; d] = 2 * nl * (nb * bs) * d) as Hpr.
  { unfold prodZ. simpl. ring. }
  assert (0 < prodZ [2; nl; nb * bs; d]) as Hpos.
  { apply prodZ_pos. forall_nia. }
  destruct (align_up_total (prodZ [2; nl; nb * bs; d] * itemsize dt) BLOCK_FIRST_ALIGNMENT)
    as [io Hio]; [nia|done|]. rewrite Hio. res_simpl.
  unfold make_layout_signature. rewrite Hn. res_simpl.
  match goal with |- context [validate ?x] => set (m := x) end.
  assert (validate m = Ok tt) as Hv.
  { apply validate_Ok. subst m. cbn. destruct e. split_and!; try done.
    exists nb, dt. split_and!; try done.
    - unfold prodZ. simpl. ring.
    - apply make_layout_signature_Ok. by exists name. }
  rewrite Hv. res_simpl. exists m. split_and!; try done.
  - subst m. by destruct e.
  - subst m. cbn [payload_nbytes]. by rewrite Hpr.
Qed.

(** A validated header names the bytes of its payload exactly. *)
Lemma validate_sizes m :
  validate m = Ok tt →
  ∃ nb dt, 0 < nb ∧ valid_tokens m = nb * block_size m ∧
    parse_dtype (Dt := Dt) (dtype m) = Ok dt ∧
    payload_nbytes m = 2 * num_layers m * valid_tokens m * hidden_dim m * itemsize dt ∧
    0 < payload_nbytes m ∧ payload_nbytes m ≤ io_nbytes m < payload_nbytes m + 4096 ∧
    io_nbytes m mod 4096 = 0.
Proof.
  intros (_ & _ & Hnl & Hbs & Hd & _ & nb & dt & Hnb & Hls & Hps & Hvt & Hdt & Hpn & Hio & _)
    %validate_Ok.
  pose proof (itemsize_pos dt) as Hi.
  rewrite Hps in Hpn.
  assert (0 < payload_nbytes m).
  { rewrite Hpn. apply Z.mul_pos_pos; [|done]. apply prodZ_pos. forall_nia. }
  unfold prodZ in Hpn. simpl in Hpn.
  apply align_up_Ok in Hio as (_ & _ & Hio). unfold BLOCK_FIRST_ALIGNMENT in Hio.
  exists nb, dt. split_and!; try done; [rewrite Hvt, Hpn; ring| | |]; rewrite Hio.
  - clear. div_lia.
  - clear. div_lia.
  - by rewrite Z.mod_mul.
Qed.

Local Ltac field E k :=
  let H := fresh "Hf" in
  pose proof (f_equal (lookup k) E) as H;
  rewrite !lookup_list_to_map_assoc in H; simpl in H.

Lemma signature_fields_inj e nl bs d name e' nl' bs' d' name' :
  signature_fields e nl bs d name = signature_fields e' nl' bs' d' name' →
  e = e' ∧ nl = nl' ∧ bs = bs' ∧ d = d' ∧ name = name'.
Proof.
  intros E.
  unfold signature_fields in E.
  field E "block_size". field E "dtype". field E "hidden_dim". field E "model_name".
  field E "num_layers". field E "pipeline_parallel_size".
  field E "tensor_parallel_size". field E "worker_id". field E "world_size".
  destruct e, e'. simpl in *. repeat split; congruence.
Qed.

Lemma asdict_lookup m k :
  asdict m !! k = assoc k [
    ("layout", JStr (layout m)); ("version", JInt (version m));
    ("logical_shape", JInts (logical_shape m)); ("payload_shape", JInts (payload_shape m));
    ("dtype", JStr (dtype m)); ("valid_tokens", JInt (valid_tokens m));
    ("num_layers", JInt (num_layers m)); ("block_size", JInt (block_size m));
    ("hidden_dim", JInt (hidden_dim m)); ("payload_nbytes", JInt (payload_nbytes m));
    ("io_nbytes", JInt (io_nbytes m)); ("model_name", JStr (model_name m));
    ("world_size", JInt (world_size m)); ("worker_id", JInt (worker_id m));
    ("tensor_parallel_size", JInt (tensor_parallel_size m));
    ("pipeline_parallel_size", JInt (pipeline_parallel_size m));
    ("layout_signature", JStr (layout_signature m))].
Proof. apply lookup_list_to_map_assoc. Qed.

Lemma from_mapping_asdict m :
  validate m = Ok tt → from_mapping (Dt := Dt) (asdict m) = Ok m.
Proof.
  intros Hv. unfold from_mapping, tuple_field, str_field, int_field.
  rewrite !asdict_lookup. cbn [assoc String.eqb Ascii.eqb Bool.eqb]. res_simpl.
  rewrite bool_decide_false.
  - res_simpl. match goal with |- context [validate ?x] =>
      replace x with m by (by destruct m) end. by rewrite Hv.
  - intros Hne. apply Hne. unfold asdict. rewrite dom_list_to_map_L. done.
Qed.

Lemma from_mapping_valid d m :
  from_mapping (Dt := Dt) d = Ok m → validate m = Ok tt.
Proof.
  unfold from_mapping. intros H. res_inv. subst.
  by match goal with x : unit |- _ => destruct x end.
Qed.

End metadata_facts.

Section header_facts.
Context {Dt : Type} `{!TorchDtype Dt, !TorchDtypeLaws Dt} {JC : JsonCodec} {JL : JsonCodecLaws}.
Implicit Types (m : BlockFirstDiskMetadata).

Lemma crc32_masked p : Forall is_byte p → Z.land (crc32 p) 0xFFFFFFFF = crc32 p.
Proof.
  intros Hp. change 0xFFFFFFFF with (Z.ones 32). rewrite Z.land_ones by lia.
  by apply Z.mod_small, crc32_bound.
Qed.

(** The bytes of a packed header *)
Lemma pack_header_Ok m h :
  pack_block_first_header (Dt := Dt) m = Ok h ↔
  validate (Dt := Dt) m = Ok tt ∧ lenZ (json_dumps (asdict m)) ≤ 4080 ∧
  h = HEADER_MAGIC ++ le_bytes 4 (lenZ (json_dumps (asdict m)))
      ++ le_bytes 4 (crc32 (json_dumps (asdict m)))
      ++ json_dumps (asdict m)
      ++ replicate (Z.to_nat (4080 - lenZ (json_dumps (asdict m)))) 0.
Proof.
  unfold pack_block_first_header. set (p := json_dumps (asdict m)).
  rewrite (crc32_masked p (json_dumps_bytes _)), <- !app_assoc.
  assert (lenZ (HEADER_MAGIC ++ le_bytes 4 (lenZ p) ++ le_bytes 4 (crc32 p)) = 16) as Hpre.
  { rewrite !lenZ_app. unfold lenZ. by rewrite !length_le_bytes. }
  rewrite Hpre. unfold BLOCK_FIRST_HEADER_SIZE, HEADER_PREFIX_SIZE.
  change (4096 - 16) with 4080.
  split.
  - intros H. res_inv. bool_prop. subst.
    match goal with x : unit |- _ => destruct x end. done.
  - intros (-> & Hle & ->). res_simpl. by rewrite (proj2 (Z.ltb_ge _ _)) by lia.
Qed.

Lemma payload_length_pos m : 0 < lenZ (json_dumps (asdict m)).
Proof.
  pose proof (json_dumps_nonempty (asdict m)).
  destruct (json_dumps (asdict m)) as [|b l]; [done|].
  rewrite lenZ_cons. pose proof (lenZ_nonneg l). lia.
Qed.

Lemma pack_header_length m h :
  pack_block_first_header (Dt := Dt) m = Ok h → lenZ h = BLOCK_FIRST_HEADER_SIZE.
Proof.
  intros (_ & Hle & ->)%pack_header_Ok. rewrite !lenZ_app. unfold lenZ in *.
  rewrite !length_le_bytes, length_replicate. unfold BLOCK_FIRST_HEADER_SIZE. simpl. lia.
Qed.

(** The fields [unpack] reads out of a packed header, whatever follows it. *)
Lemma pack_header_fields m h rest :
  pack_block_first_header (Dt := Dt) m = Ok h →
  let p := json_dumps (asdict m) in
  take 8 (h ++ rest) = HEADER_MAGIC ∧
  le_value (py_slice (h ++ rest) 8 12) = lenZ p ∧
  le_value (py_slice (h ++ rest) 12 16) = crc32 p ∧
  py_slice (h ++ rest) 16 (16 + lenZ p) = p.
Proof.
  intros (_ & Hle & ->)%pack_header_Ok p. fold p in Hle |- *.
  pose proof (lenZ_nonneg p) as Hp. rewrite <- !app_assoc.
  set (pad := replicate _ 0).
  assert (∀ n x, lenZ (le_bytes n x) = Z.of_nat n) as Hle4
    by (intros; unfold lenZ; by rewrite length_le_bytes).
  split_and!; [done|..].
  - rewrite py_slice_mid, le_value_bytes; [done| |done|by rewrite Hle4].
    split; [done|]. eapply Z.le_lt_trans; [exact Hle|]. done.
  - rewrite (app_assoc HEADER_MAGIC), py_slice_mid, le_value_bytes; [done| | |by rewrite Hle4].
    + apply crc32_bound, json_dumps_bytes.
    + by rewrite lenZ_app, Hle4.
  - rewrite (app_assoc (le_bytes 4 _) (le_bytes 4 _)), (app_assoc HEADER_MAGIC).
    rewrite py_slice_mid; [done| |done]. by rewrite !lenZ_app, !Hle4.
Qed.

End header_facts.

Section metadata_theorems.
Context {Dt : Type} `{!TorchDtype Dt, !TorchDtypeLaws Dt} {JC : JsonCodec} {JL : JsonCodecLaws}.
Implicit Types (m : BlockFirstDiskMetadata) (dt : Dt).

(** A header accepted against the running engine is the record that engine
    would itself create for the chunk, field by field, provided SHA-256 does not
    collide on the two canonical signature texts; only the spelling of the dtype
    (an alias such as half for float16) may differ. *)
Theorem validate_runtime_is_create m shape dt e bs :
  engine_ok e →
  validate_runtime m shape dt e bs = Ok tt →
  (∀ name,
    let own := signature_fields (engine_of m) (num_layers m) (block_size m) (hidden_dim m) name in
    let run := signature_fields e (num_layers m) bs (hidden_dim m) name in
    sha256_hex (json_dumps own) = sha256_hex (json_dumps run) →
    json_dumps own = json_dumps run) →
  ∃ m', create shape dt bs e = Ok m' ∧
    asdict m' = <["dtype" := JStr (dtype m')]> (asdict m) ∧
    parse_dtype (dtype m) = Ok dt.
Proof.
  intros He H Hcoll. unfold validate_runtime in H.
  apply bind_Ok in H as ([] & Hv & H). res_inv. bool_prop.
  apply validate_Ok in Hv as (Hl & Hve & Hnl & Hbs & Hd & He' & nb & dt' & Hnb & Hls & Hps
    & Hvt & Hdt & Hpn & Hio & Hsig).
  repeat match goal with H : ¬ _ ≠ _ |- _ => apply dec_stable in H end.
  unfold torch_dtype in *. rewrite Hdt in *. res_inv. subst dt' shape.
  match goal with E : ?x = dt |- _ => subst x end.
  rewrite Hls in *.
  repeat match goal with H : py_index _ _ = Ok _ |- _ =>
    apply py_index_nonneg in H; [injection H as <-|lia] end.
  apply make_layout_signature_Ok in Hsig as (n1 & Hn1 & Hs1).
  match goal with H : make_layout_signature e _ _ _ _ = Ok _ |- _ =>
    apply make_layout_signature_Ok in H as (n2 & Hn2 & Hs2) end.
  assert (n2 = n1) as -> by congruence.
  assert (engine_of m = e ∧ block_size m = bs) as [Heq Hbeq].
  { pose proof (Hcoll n1 ltac:(congruence)) as E. apply json_dumps_inj in E.
    apply signature_fields_inj in E. tauto. }
  subst bs.
  destruct (create_spec (num_layers m) nb (block_size m) (hidden_dim m) dt e) as (m' & Hc & _ & C1 & C2
    & C3 & C4 & C5 & C6 & C7 & C8 & C9 & C10 & C11 & C12 & C13 & C14); [done..|].
  exists m'. split; [done|]. split; [|done].
  apply make_layout_signature_Ok in C14 as (n3 & Hn3 & Hs3).
  assert (n3 = n1) as -> by congruence.
  rewrite Hps in Hpn. unfold prodZ in Hpn. simpl in Hpn.
  assert (payload_nbytes m' = payload_nbytes m) as Hpe by (rewrite C10, Hpn; ring).
  rewrite Hpe, Hio in C11. injection C11 as C11.
  rewrite <- C7 in Heq. unfold engine_of in Heq. injection Heq as E1 E2 E3 E4 E5.
  apply map_eq. intros k. destruct (decide (k = "dtype")) as [->|Hk].
  - by rewrite lookup_insert_eq, asdict_lookup.
  - rewrite lookup_insert_ne, !asdict_lookup by done. simpl.
    repeat case_match; try congruence; [].
    match goal with H : (k =? "dtype")%string = true |- _ => by apply String.eqb_eq in H end.
Qed.

(** Unpacking a packed header, whatever payload bytes follow it *)
Lemma unpack_packed_header m h rest :
  pack_block_first_header (Dt := Dt) m = Ok h →
  unpack_block_first_header (Dt := Dt) (h ++ rest) = Ok m.
Proof.
  intros Hpack. destruct (pack_header_fields _ _ rest Hpack) as (H1 & H2 & H3 & H4).
  pose proof (payload_length_pos m) as Hpos.
  pose proof (pack_header_length _ _ Hpack) as Hlen.
  apply pack_header_Ok in Hpack as (Hv & Hle & _).
  unfold unpack_block_first_header. unfold HEADER_PREFIX_SIZE. rewrite H1, H2, H3, H4.
  rewrite lenZ_app, Hlen. pose proof (lenZ_nonneg rest).
  rewrite crc32_masked by apply json_dumps_bytes. unfold BLOCK_FIRST_HEADER_SIZE in *.
  pass_guard. pass_guard. pass_guard. pass_guard.
  rewrite json_loads_dumps. by apply from_mapping_asdict.
Qed.

(** Unpacking a packed header returns the metadata that was packed, whatever
    payload bytes follow the header. *)
Theorem header_roundtrip m h rest :
  pack_block_first_header (Dt := Dt) m = Ok h →
  unpack_block_first_header (Dt := Dt) (h ++ rest) = Ok m.
Proof. apply unpack_packed_header. Qed.

(** Every accepted header is long enough, starts with the magic bytes,
    carries the CRC-32 of its own metadata text, and yields validated metadata;
    so a flipped checksum or text is an error, never a wrong record. *)
Theorem header_accept_sound buffer m :
  unpack_block_first_header (Dt := Dt) buffer = Ok m →
  BLOCK_FIRST_HEADER_SIZE ≤ lenZ buffer ∧ take 8 buffer = HEADER_MAGIC ∧
  (let n := le_value (py_slice buffer 8 12) in
   let payload := py_slice buffer 16 (16 + n) in
   0 < n ≤ 4080 ∧ Z.land (crc32 payload) 0xFFFFFFFF = le_value (py_slice buffer 12 16) ∧
   ∃ d, json_loads payload = JsonDict d ∧ from_mapping (Dt := Dt) d = Ok m) ∧
  validate (Dt := Dt) m = Ok tt.
Proof.
  unfold unpack_block_first_header, HEADER_PREFIX_SIZE. intros H. res_inv. bool_prop.
  match goal with H : ¬ _ ≠ _ |- _ => apply dec_stable in H end.
  destruct (json_loads _) as [| |d] eqn:Hd; [done..|].
  unfold BLOCK_FIRST_HEADER_SIZE in *. split_and!; try done; try lia; [by eauto|].
  by eapply from_mapping_valid.
Qed.

End metadata_theorems.

(** Concrete metadata, in the example codec. *)
Module HeaderExamples.
Import CountableCodec CountableCodecFacts BlockFirstExamples.

Definition dummy_meta : BlockFirstDiskMetadata :=
  MkBlockFirstDiskMetadata "" 0 [] [] "" 0 0 0 0 0 0 "" 0 0 0 0 "".

Definition ex_meta : BlockFirstDiskMetadata :=
  Eval vm_compute in
    match create [2; 1; 4; 2] Float16 2 ex_engine with Ok m => m | Raise _ => dummy_meta end.

Definition ex_header : list Z :=
  match pack_block_first_header (Dt := ex_dtype) ex_meta with Ok h => h | Raise _ => [] end.

End HeaderExamples.

Lemma validate_runtime_is_create_witness :
  @validate_runtime ex_dtype _ CountableCodec.codec HeaderExamples.ex_meta [2; 1; 4; 2]
    Float16 BlockFirstExamples.ex_engine 2 = Ok tt ∧
  ∃ m', @create ex_dtype _ CountableCodec.codec [2; 1; 4; 2] Float16 2
          BlockFirstExamples.ex_engine = Ok m' ∧
    asdict m' = <["dtype" := JStr (dtype m')]> (asdict HeaderExamples.ex_meta) ∧
    parse_dtype (dtype HeaderExamples.ex_meta) = Ok Float16.
Proof.
  assert (@validate_runtime ex_dtype _ CountableCodec.codec HeaderExamples.ex_meta
    [2; 1; 4; 2] Float16 BlockFirstExamples.ex_engine 2 = Ok tt) as Hv
    by (vm_compute; reflexivity).
  split; [exact Hv|].
  apply (validate_runtime_is_create (JC := CountableCodec.codec)
    (JL := CountableCodecFacts.codec_laws) HeaderExamples.ex_meta [2; 1; 4; 2] Float16
    BlockFirstExamples.ex_engine 2); [split_and!; simpl; lia|exact Hv|].
  intros name own run _. reflexivity.
Defined.

Lemma header_roundtrip_witness :
  @pack_block_first_header ex_dtype _ CountableCodec.codec HeaderExamples.ex_meta
    = Ok HeaderExamples.ex_header ∧
  @unpack_block_first_header ex_dtype _ CountableCodec.codec
    (HeaderExamples.ex_header ++ [7; 7]) = Ok HeaderExamples.ex_meta.
Proof.
  assert (@pack_block_first_header ex_dtype _ CountableCodec.codec HeaderExamples.ex_meta
    = Ok HeaderExamples.ex_header) as Hp by (vm_compute; reflexivity).
  split; [exact Hp|].
  apply (header_roundtrip (JC := CountableCodec.codec)
    (JL := CountableCodecFacts.codec_laws) HeaderExamples.ex_meta _ [7; 7] Hp).
Defined.

Lemma header_accept_sound_witness :
  @unpack_block_first_header ex_dtype _ CountableCodec.codec HeaderExamples.ex_header
    = Ok HeaderExamples.ex_meta ∧
  @validate ex_dtype _ CountableCodec.codec HeaderExamples.ex_meta = Ok tt.
Proof.
  assert (@unpack_block_first_header ex_dtype _ CountableCodec.codec
    HeaderExamples.ex_header = Ok HeaderExamples.ex_meta) as Hu by (vm_compute; reflexivity).
  split; [exact Hu|].
  destruct (header_accept_sound (JC := CountableCodec.codec) _ _ Hu) as (_ & _ & _ & H).
  exact H.
Defined.

(** A header with one corrupted metadata byte is refused. *)
Example header_corrupt_example :
  @unpack_block_first_header ex_dtype _ CountableCodec.codec
    (<[20%nat := 3]> HeaderExamples.ex_header)
  = Raise (BlockFirstFormatError "block-first header checksum mismatch").
Proof. vm_compute. reflexivity. Qed.
