(* ===== verification/DirectIO.v ===== *)
(** * Direct-I/O plans

    [lmcache_hcu/v1/storage_backend/direct_io.py]: descriptors that map the
    blocks of one block-first file onto ranges of device allocations, their
    validation, and the three builders that translate a slot mapping into
    descriptors: one allocation in block-first order, one allocation per layer,
    and asymmetric key/value caches. *)

From S2P Require Import Prelude Tensor BlockFirst.

Open Scope string_scope.
Open Scope list_scope.
Open Scope Z_scope.

Inductive DirectIODirection := STORE | RETRIEVE.

#[global] Instance DirectIODirection_eq_dec : EqDecision DirectIODirection.
Proof. solve_decision. Defined.

(** [torch.device]: its type and optional index *)
Record torch_device := TorchDevice { dev_type : string; dev_index : option Z }.

#[global] Instance torch_device_eq_dec : EqDecision torch_device.
Proof. solve_decision. Defined.

Definition str_device (d : torch_device) : string :=
  match dev_index d with
  | None => dev_type d
  | Some i => dev_type d +:+ ":" +:+ str_int i
  end.

Record DirectIOBlockRun := BlockRun {
  run_logical_block_start : Z;
  run_physical_block_start : Z;
  run_block_count : Z;
}.

Record DirectIOLeadingEdge := LeadingEdge {
  edge_logical_block : Z;
  edge_physical_block : Z;
  edge_token_offset : Z;
  edge_token_count : Z;
}.

(** A lifetime token is the tuple of objects it keeps alive, [None] for [None];
    objects are named by integers. *)
Definition lifetime : Type := option (list Z).

Record DirectIOAllocation := Allocation {
  alloc_device : torch_device;
  alloc_base : Z;
  alloc_nbytes : Z;
  alloc_lifetime_token : lifetime;
}.

Definition alloc_identity (a : DirectIOAllocation) : string * Z * Z :=
  (str_device (alloc_device a), alloc_base a, alloc_nbytes a).

Record DirectIOByteSegment := ByteSegment {
  seg_file_offset : Z;
  seg_allocation_index : Z;
  seg_allocation_offset : Z;
  seg_nbytes : Z;
}.

Record DirectIODescriptor := Descriptor {
  direction : DirectIODirection;
  device : torch_device;
  allocation_base : Z;
  allocation_nbytes : Z;
  engine_group_id : Z;
  block_nbytes : Z;
  desc_block_size : Z;
  logical_block_start : Z;
  logical_block_count : Z;
  valid_token_start : Z;
  valid_token_count : Z;
  runs : list DirectIOBlockRun;
  leading_edge : option DirectIOLeadingEdge;
  file_payload_offset : Z;
  synchronous : bool;
  lifetime_token : lifetime;
  allocations : list DirectIOAllocation;
  byte_segments : list DirectIOByteSegment;
  physical_block_ids : list Z;
}.

Definition registration_identity (d : DirectIODescriptor) : string * Z * Z :=
  (str_device (device d), allocation_base d, allocation_nbytes d).

Definition registration_allocations (d : DirectIODescriptor) : list DirectIOAllocation :=
  match allocations d with
  | [] => [Allocation (device d) (allocation_base d) (allocation_nbytes d) (lifetime_token d)]
  | l => l
  end.

Definition transferred_nbytes (d : DirectIODescriptor) : Z :=
  match byte_segments d with
  | [] => logical_block_count d * block_nbytes d
  | l => sumZ (seg_nbytes <$> l)
  end.

Definition is_nil {A} (l : list A) : bool := match l with [] => true | _ => false end.

Definition is_none {A} (o : option A) : bool := match o with None => true | _ => false end.

Definition unaligned (v : Z) : bool := negb (v mod BLOCK_FIRST_ALIGNMENT =? 0).

(** ** [DirectIODescriptor.validate] *)

(** One allocation of [_validate_byte_segments] *)
Definition validate_allocation (require_cuda require_alignment : bool)
    (dev : torch_device) (a : DirectIOAllocation) : result unit :=
  raise_if (require_cuda && bool_decide (dev_type (alloc_device a) ≠ "cuda"))
    (ValueError ("direct I/O requires CUDA allocations, got "
      +:+ str_device (alloc_device a)));;
  raise_if (bool_decide (alloc_device a ≠ dev))
    (ValueError "direct I/O allocations must use one device");;
  raise_if ((alloc_base a <=? 0) || (alloc_nbytes a <=? 0))
    (ValueError "direct I/O allocation range must be positive");;
  raise_if (is_none (alloc_lifetime_token a))
    (ValueError "direct I/O allocation must retain its lifetime");;
  raise_if (require_alignment && (unaligned (alloc_base a) || unaligned (alloc_nbytes a)))
    (ValueError "direct I/O allocation is not 4 KiB aligned").

(** The loop over the sorted segments; returns the final expected offset. *)
Fixpoint validate_segments (require_alignment : bool) (allocs : list DirectIOAllocation)
    (expected_file_offset : Z) (segs : list DirectIOByteSegment) : result Z :=
  match segs with
  | [] => Ok expected_file_offset
  | s :: rest =>
      raise_if (negb (seg_file_offset s =? expected_file_offset))
        (ValueError "direct I/O byte segments do not exactly cover the file");;
      raise_if ((seg_allocation_index s <? 0) || (lenZ allocs <=? seg_allocation_index s))
        (ValueError "direct I/O segment references an unknown allocation");;
      allocation ← py_index allocs (seg_allocation_index s);
      raise_if ((seg_allocation_offset s <? 0) || (seg_nbytes s <=? 0)
                || (alloc_nbytes allocation <? seg_allocation_offset s + seg_nbytes s))
        (ValueError "direct I/O segment exceeds its registered allocation");;
      raise_if (require_alignment
                && existsb unaligned
                     [seg_file_offset s; seg_allocation_offset s; seg_nbytes s])
        (ValueError "direct I/O byte segment is not 4 KiB aligned");;
      validate_segments require_alignment allocs
        (expected_file_offset + seg_nbytes s) rest
  end.

Definition validate_byte_segments (d : DirectIODescriptor)
    (require_cuda require_alignment : bool) : result unit :=
  raise_if (bool_decide (direction d ≠ RETRIEVE))
    (ValueError "byte-segment direct I/O only supports retrieve");;
  raise_if (negb (is_nil (runs d)) || negb (is_none (leading_edge d)))
    (ValueError "byte-segment direct I/O cannot contain block runs or edges");;
  raise_if (is_nil (allocations d) || is_nil (byte_segments d))
    (ValueError "byte-segment direct I/O requires allocations and segments");;
  raise_if (negb (valid_token_start d =? logical_block_start d * desc_block_size d))
    (ValueError "byte-segment direct I/O requires a block-aligned token start");;
  raise_if (negb (valid_token_count d =? logical_block_count d * desc_block_size d))
    (ValueError "byte-segment direct I/O token count is inconsistent");;
  _ ← mapR (validate_allocation require_cuda require_alignment (device d)) (allocations d);
  final ← validate_segments require_alignment (allocations d)
    (file_payload_offset d + logical_block_start d * block_nbytes d)
    (py_sorted seg_file_offset (byte_segments d));
  let expected_end := file_payload_offset d
    + (logical_block_start d + logical_block_count d) * block_nbytes d in
  raise_if (negb (final =? expected_end))
    (ValueError "direct I/O byte segments do not cover the declared blocks").

(** The loop over the runs; returns the blocks transferred. *)
Fixpoint validate_runs (capacity expected_logical transferred : Z)
    (l : list DirectIOBlockRun) : result Z :=
  match l with
  | [] => Ok transferred
  | r :: rest =>
      raise_if (negb (run_logical_block_start r =? expected_logical)
                || (run_physical_block_start r <? 0) || (run_block_count r <=? 0))
        (ValueError "direct I/O runs are invalid or not logically contiguous");;
      raise_if (capacity <? run_physical_block_start r + run_block_count r)
        (ValueError "direct I/O run exceeds the registered allocation");;
      validate_runs capacity (expected_logical + run_block_count r)
        (transferred + run_block_count r) rest
  end.

(** The valid tokens the ranges account for *)
Definition validate_edge (d : DirectIODescriptor) (capacity : Z) : result Z :=
  match leading_edge d with
  | None =>
      raise_if (negb (valid_token_start d =? logical_block_start d * desc_block_size d))
        (ValueError "valid token start does not match the logical block range");;
      mret (logical_block_count d * desc_block_size d)
  | Some edge =>
      raise_if (bool_decide (direction d ≠ RETRIEVE))
        (ValueError "only direct retrieve can contain a leading edge");;
      raise_if ((edge_logical_block edge <? 0) || (edge_physical_block edge <? 0)
                || (capacity <=? edge_physical_block edge)
                || (edge_token_offset edge <=? 0)
                || (desc_block_size d <=? edge_token_offset edge)
                || negb (edge_token_count edge =? desc_block_size d - edge_token_offset edge))
        (ValueError "direct I/O leading edge is invalid");;
      raise_if (negb (logical_block_start d =? edge_logical_block edge + 1))
        (ValueError "direct I/O full runs must follow the leading edge");;
      raise_if (negb (valid_token_start d
                  =? edge_logical_block edge * desc_block_size d + edge_token_offset edge))
        (ValueError "valid token start does not match the leading edge");;
      mret (edge_token_count edge + logical_block_count d * desc_block_size d)
  end.

Definition validate_alignment (named : string * Z) : result unit :=
  let '(name, value) := named in
  raise_if (unaligned value)
    (ValueError ("direct I/O " +:+ name +:+ " is not 4 KiB aligned: " +:+ str_int value)).

Definition validate (d : DirectIODescriptor) (require_cuda require_alignment : bool)
    : result unit :=
  raise_if (require_cuda && bool_decide (dev_type (device d) ≠ "cuda"))
    (ValueError ("direct I/O requires a CUDA allocation, got " +:+ str_device (device d)));;
  raise_if ((allocation_base d <=? 0) || (allocation_nbytes d <=? 0))
    (ValueError "direct I/O allocation address and size must be positive");;
  raise_if (engine_group_id d <? 0) (ValueError "engine_group_id must be non-negative");;
  raise_if ((block_nbytes d <=? 0) || (desc_block_size d <=? 0))
    (ValueError "direct I/O block sizes must be positive");;
  raise_if ((logical_block_start d <? 0) || (logical_block_count d <? 0))
    (ValueError "direct I/O logical block range is invalid");;
  raise_if ((logical_block_count d =? 0) && is_none (leading_edge d))
    (ValueError "direct I/O descriptor has no transferable blocks");;
  raise_if (is_none (lifetime_token d))
    (ValueError "direct I/O descriptor must hold its allocation lifetime");;
  raise_if (negb (synchronous d))
    (ValueError "0.4.2 direct I/O only supports synchronous completion");;
  raise_if (negb (file_payload_offset d =? BLOCK_FIRST_HEADER_SIZE))
    (ValueError "unexpected block_first_v1 payload offset");;
  if negb (is_nil (byte_segments d)) then
    validate_byte_segments d require_cuda require_alignment
  else
    let physical_block_capacity := allocation_nbytes d / block_nbytes d in
    transferred_blocks ←
      validate_runs physical_block_capacity (logical_block_start d) 0 (runs d);
    raise_if (negb (transferred_blocks =? logical_block_count d))
      (ValueError "direct I/O runs do not cover the declared logical range");;
    raise_if (negb (Bool.eqb (negb (is_nil (runs d))) (0 <? logical_block_count d)))
      (ValueError "direct I/O runs do not match the declared block count");;
    expected_valid_tokens ← validate_edge d physical_block_capacity;
    raise_if (negb (valid_token_count d =? expected_valid_tokens))
      (ValueError "valid token count does not match the direct I/O ranges");;
    if require_alignment then
      _ ← mapR validate_alignment
        [("allocation base", allocation_base d);
         ("allocation size", allocation_nbytes d);
         ("block bytes", block_nbytes d);
         ("file payload offset", file_payload_offset d)];
      mret tt
    else mret tt.

Record DirectIOPlan := Plan {
  plan_descriptor : option DirectIODescriptor;
  plan_fallback_reason : option string;
}.

Definition fallback (reason : string) : DirectIOPlan := Plan None (Some reason).

(** ** Plan builders *)

(** What the builders observe of a KV cache tensor *)
Record kv_tensor {Dt : Type} := KvTensor {
  kt_id : Z;                       (* object identity *)
  kt_shape : list Z;
  kt_strides : list Z;
  kt_contiguous : bool;
  kt_dtype : Dt;
  kt_device : torch_device;
  kt_data_ptr : Z;
  kt_storage_ptr : Z;
  kt_storage_nbytes : Z;
}.
Arguments kv_tensor : clear implicits.

(** [starts], [ends] and the slot mapping must describe token ranges. *)
Definition check_ranges {A} (slot_mapping starts ends : list Z) (go : result (list A))
    : result (list A) :=
  raise_if (negb (lenZ starts =? lenZ ends))
    (ValueError "starts and ends must have the same length");;
  match starts, ends with
  | s0 :: _, e0 :: _ =>
      raise_if ((py_min s0 starts <? 0)
                || existsb (fun '(s, e) => e <=? s) (zip starts ends))
        (ValueError "direct I/O token ranges must be non-empty and non-negative");;
      raise_if (lenZ slot_mapping <? py_max e0 ends)
        (ValueError "slot mapping is shorter than the requested token range");;
      go
  | _, _ => Ok []
  end.

(** [physical_block * block_size + torch.arange(lo, block_size)] *)
Definition expected_slots (physical_block block_size lo : Z) : list Z :=
  (fun o => physical_block * block_size + o) <$> rangeZ lo (Z.to_nat (block_size - lo)).

(** [slots.reshape(-1, block_size)] *)
Definition reshape_blocks (block_size : Z) (slots : list Z) : result (list (list Z)) :=
  raise_if (negb (lenZ slots mod block_size =? 0)) (RuntimeError "shape is invalid");;
  mret (rows (Z.to_nat block_size) slots).

(** The loop that reads one physical block per row, or the reason it stopped *)
Fixpoint scan_blocks (block_size num_blocks : Z) (slot_blocks : list (list Z))
    : result (string + list Z) :=
  match slot_blocks with
  | [] => Ok (inr [])
  | slot_block :: rest =>
      first_slot ← py_index slot_block 0;
      if (first_slot <? 0) || negb (first_slot mod block_size =? 0) then
        Ok (inl "physical block does not start at slot offset zero")
      else
        let physical_block := first_slot / block_size in
        if num_blocks <=? physical_block then
          Ok (inl "slot mapping references a block outside the allocation")
        else if bool_decide (slot_block ≠ expected_slots physical_block block_size 0) then
          Ok (inl "tokens do not cover one complete physical block")
        else
          r ← scan_blocks block_size num_blocks rest;
          mret (match r with inl reason => inl reason | inr l => inr (physical_block :: l) end)
  end.

(** The asymmetric builder reports one reason for every failure. *)
Fixpoint scan_blocks_asymmetric (block_size num_blocks : Z) (slot_blocks : list (list Z))
    : result (string + list Z) :=
  match slot_blocks with
  | [] => Ok (inr [])
  | slot_block :: rest =>
      first_slot ← py_index slot_block 0;
      let physical_block := first_slot / block_size in
      if (first_slot <? 0) || negb (first_slot mod block_size =? 0)
         || (num_blocks <=? physical_block)
         || bool_decide (slot_block ≠ expected_slots physical_block block_size 0) then
        Ok (inl "tokens do not cover one complete physical block")
      else
        r ← scan_blocks_asymmetric block_size num_blocks rest;
        mret (match r with inl reason => inl reason | inr l => inr (physical_block :: l) end)
  end.

(** The coalescing loop over [enumerate(physical_blocks[1:], start=1)]: [cur] is
    the open run, [offset] the enumeration index. *)
Fixpoint extend_runs (logical_start offset : Z) (cur : DirectIOBlockRun)
    (blocks : list Z) : list DirectIOBlockRun :=
  match blocks with
  | [] => [cur]
  | physical_block :: rest =>
      if physical_block =? run_physical_block_start cur + run_block_count cur then
        extend_runs logical_start (offset + 1)
          (BlockRun (run_logical_block_start cur) (run_physical_block_start cur)
             (run_block_count cur + 1)) rest
      else
        cur :: extend_runs logical_start (offset + 1)
                 (BlockRun (logical_start + offset) physical_block 1) rest
  end.

Definition coalesce_runs (logical_start : Z) (physical_blocks : list Z)
    : list DirectIOBlockRun :=
  match physical_blocks with
  | [] => []
  | p :: rest => extend_runs logical_start 1 (BlockRun logical_start p 1) rest
  end.

(** A layer's key and value caches with their allocation indices and offsets *)
Definition cache_layer (Dt : Type) : Type :=
  (kv_tensor Dt * (Z * Z)) * (kv_tensor Dt * (Z * Z)).

Section builders.
Context {Dt : Type} `{!TorchDtype Dt}.
Implicit Types (kv_cache : kv_tensor Dt).

Definition element_size kv_cache : Z := itemsize (kt_dtype kv_cache).

Definition dim kv_cache (i : nat) : Z := nth i (kt_shape kv_cache) 0.

(** The leading edge of one chunk: [Ok (inl reason)] falls back. *)
Definition plan_edge (slot_mapping : list Z) (num_physical_blocks block_size start
    skip_tokens : Z) : result (string + option DirectIOLeadingEdge) :=
  let edge_offset := skip_tokens mod block_size in
  if edge_offset =? 0 then Ok (inr None)
  else
    let edge_logical_block := skip_tokens / block_size in
    let edge_token_count := block_size - edge_offset in
    let edge_slots :=
      py_slice slot_mapping (start + skip_tokens) (start + skip_tokens + edge_token_count) in
    first_slot ← py_index edge_slots 0;
    let physical_block := first_slot / block_size in
    if (first_slot <? 0) || negb (first_slot mod block_size =? edge_offset)
       || (num_physical_blocks <=? physical_block)
       || bool_decide (edge_slots ≠ expected_slots physical_block block_size edge_offset) then
      Ok (inl "leading edge does not map one physical block")
    else
      Ok (inr (Some (LeadingEdge edge_logical_block physical_block edge_offset
                       edge_token_count))).

Definition block_first_block_nbytes kv_cache : Z :=
  dim kv_cache 1 * dim kv_cache 2 * dim kv_cache 3 * dim kv_cache 4 * dim kv_cache 5
  * element_size kv_cache.

(** Uncached tokens are skipped on retrieve only. *)
Definition skip_tokens_of (dir : DirectIODirection) (skip_before start chunk_tokens : Z) : Z :=
  match dir with
  | RETRIEVE => Z.min chunk_tokens (Z.max 0 (skip_before - start))
  | STORE => 0
  end.

(** The body of the chunk loop of [build_block_first_direct_plans] *)
Definition plan_block_first_chunk kv_cache (slot_mapping : list Z)
    (dir : DirectIODirection) (block_size skip_before : Z) (range : Z * Z)
    : result DirectIOPlan :=
  let '(start, end_) := range in
  let chunk_tokens := end_ - start in
  if negb (chunk_tokens mod block_size =? 0) then
    Ok (fallback "chunk is not a whole number of blocks")
  else
    let skip_tokens := skip_tokens_of dir skip_before start chunk_tokens in
    if skip_tokens =? chunk_tokens then Ok (fallback "no uncached physical blocks remain")
    else
      edge ← plan_edge slot_mapping (dim kv_cache 0) block_size start skip_tokens;
      match edge with
      | inl reason => Ok (fallback reason)
      | inr leading =>
          let full_start_tokens := skip_tokens +
            match leading with None => 0 | Some e => edge_token_count e end in
          let slots := py_slice slot_mapping (start + full_start_tokens) end_ in
          if negb (lenZ slots mod block_size =? 0) then
            Ok (fallback "slot range is not block aligned")
          else
            slot_blocks ← reshape_blocks block_size slots;
            scanned ← scan_blocks block_size (dim kv_cache 0) slot_blocks;
            match scanned with
            | inl reason => Ok (fallback reason)
            | inr physical_blocks =>
                let logical_start := full_start_tokens / block_size in
                let descriptor := {|
                  direction := dir;
                  device := kt_device kv_cache;
                  allocation_base := kt_data_ptr kv_cache;
                  allocation_nbytes := prodZ (kt_shape kv_cache) * element_size kv_cache;
                  engine_group_id := 0;
                  block_nbytes := block_first_block_nbytes kv_cache;
                  desc_block_size := block_size;
                  logical_block_start := logical_start;
                  logical_block_count := lenZ physical_blocks;
                  valid_token_start := skip_tokens;
                  valid_token_count := chunk_tokens - skip_tokens;
                  runs := coalesce_runs logical_start physical_blocks;
                  leading_edge := leading;
                  file_payload_offset := BLOCK_FIRST_HEADER_SIZE;
                  synchronous := true;
                  lifetime_token := Some [kt_id kv_cache];
                  allocations := [];
                  byte_segments := [];
                  physical_block_ids := physical_blocks |} in
                validate descriptor false false;;
                mret (Plan (Some descriptor) None)
            end
      end.

Definition build_block_first_direct_plans kv_cache (slot_mapping starts ends : list Z)
    (dir : DirectIODirection) (block_size skip_before : Z) : result (list DirectIOPlan) :=
  if negb (lenZ (kt_shape kv_cache) =? 6) || negb (dim kv_cache 2 =? 2) then
    Ok (replicate (length starts)
      (fallback "KV allocation is not [NB, NL, 2, BS, NH, HS]"))
  else if negb (kt_contiguous kv_cache) then
    Ok (replicate (length starts) (fallback "KV allocation is not contiguous"))
  else if (block_size <=? 0) || negb (dim kv_cache 3 =? block_size) then
    Ok (replicate (length starts) (fallback "KV block size mismatch"))
  else
    check_ranges slot_mapping starts ends
      (mapR (plan_block_first_chunk kv_cache slot_mapping dir block_size skip_before)
         (zip starts ends)).

(** *** One allocation per layer *)

Definition storage_identity (t : kv_tensor Dt) : string * Z * Z :=
  (str_device (kt_device t), kt_storage_ptr t, kt_storage_nbytes t).

(** [allocation_indices.get(identity)]: the index of the first allocation with
    this identity *)
Definition find_allocation (id : string * Z * Z) (allocs : list DirectIOAllocation)
    : option nat :=
  fst <$> list_find (fun a => alloc_identity a = id) allocs.

(** Register the storage of a tensor once; its index and the tensor's offset *)
Definition add_allocation (allocs : list DirectIOAllocation) (t : kv_tensor Dt)
    : list DirectIOAllocation * (Z * Z) :=
  let offset := kt_data_ptr t - kt_storage_ptr t in
  match find_allocation (storage_identity t) allocs with
  | Some i => (allocs, (Z.of_nat i, offset))
  | None =>
      (allocs ++ [Allocation (kt_device t) (kt_storage_ptr t) (kt_storage_nbytes t)
                    (Some [kt_id t])],
       (lenZ allocs, offset))
  end.

Fixpoint add_allocations (allocs : list DirectIOAllocation) (ts : list (kv_tensor Dt))
    : list DirectIOAllocation * list (Z * Z) :=
  match ts with
  | [] => (allocs, [])
  | t :: rest =>
      let '(allocs1, p) := add_allocation allocs t in
      let '(allocs2, ps) := add_allocations allocs1 rest in
      (allocs2, p :: ps)
  end.

(** Segments of one block: every layer's K then V region, in file order *)
Definition layer_segments (block_file_offset layer_block_nbytes num_blocks physical_block : Z)
    (layer_index : Z) (layer : Z * Z) : list DirectIOByteSegment :=
  let '(allocation_index, tensor_offset) := layer in
  (fun kv_index =>
     ByteSegment
       (block_file_offset + (layer_index * 2 + kv_index) * layer_block_nbytes)
       allocation_index
       (tensor_offset + (kv_index * num_blocks + physical_block) * layer_block_nbytes)
       layer_block_nbytes) <$> [0; 1].

Fixpoint block_segments (block_file_offset layer_block_nbytes num_blocks physical_block : Z)
    (layer_index : Z) (layers : list (Z * Z)) : list DirectIOByteSegment :=
  match layers with
  | [] => []
  | l :: rest =>
      layer_segments block_file_offset layer_block_nbytes num_blocks physical_block
        layer_index l
      ++ block_segments block_file_offset layer_block_nbytes num_blocks physical_block
           (layer_index + 1) rest
  end.

Fixpoint chunk_segments (block_nbytes layer_block_nbytes num_blocks : Z)
    (layers : list (Z * Z)) (logical_block : Z) (physical_blocks : list Z)
    : list DirectIOByteSegment :=
  match physical_blocks with
  | [] => []
  | p :: rest =>
      block_segments (BLOCK_FIRST_HEADER_SIZE + logical_block * block_nbytes)
        layer_block_nbytes num_blocks p 0 layers
      ++ chunk_segments block_nbytes layer_block_nbytes num_blocks layers
           (logical_block + 1) rest
  end.

(** The descriptor shared by the two segment builders *)
Definition segment_descriptor (dir : DirectIODirection) (dev : torch_device)
    (first_allocation : DirectIOAllocation) (block_nbytes block_size logical_start
    chunk_tokens skip_tokens : Z) (life : lifetime) (allocs : list DirectIOAllocation)
    (segments : list DirectIOByteSegment) (physical_blocks : list Z) : DirectIODescriptor := {|
  direction := dir;
  device := dev;
  allocation_base := alloc_base first_allocation;
  allocation_nbytes := alloc_nbytes first_allocation;
  engine_group_id := 0;
  block_nbytes := block_nbytes;
  desc_block_size := block_size;
  logical_block_start := logical_start;
  logical_block_count := lenZ physical_blocks;
  valid_token_start := skip_tokens;
  valid_token_count := chunk_tokens - skip_tokens;
  runs := [];
  leading_edge := None;
  file_payload_offset := BLOCK_FIRST_HEADER_SIZE;
  synchronous := true;
  lifetime_token := life;
  allocations := allocs;
  byte_segments := segments;
  physical_block_ids := physical_blocks |}.

Definition layer_block_nbytes (first : kv_tensor Dt) : Z :=
  dim first 2 * dim first 3 * dim first 4 * element_size first.

(** The body of the chunk loop of [build_per_layer_direct_plans] *)
Definition plan_per_layer_chunk (kv_caches : list (kv_tensor Dt)) (first : kv_tensor Dt)
    (allocs : list DirectIOAllocation) (layers : list (Z * Z)) (slot_mapping : list Z)
    (dir : DirectIODirection) (block_size skip_before : Z) (range : Z * Z)
    : result DirectIOPlan :=
  let '(start, end_) := range in
  let chunk_tokens := end_ - start in
  raise_if (block_size =? 0) ZeroDivisionError;;
  if negb (chunk_tokens mod block_size =? 0) then
    Ok (fallback "chunk is not a whole number of blocks")
  else
    let skip_tokens := Z.min chunk_tokens (Z.max 0 (skip_before - start)) in
    if skip_tokens =? chunk_tokens then Ok (fallback "no uncached physical blocks remain")
    else if negb (skip_tokens mod block_size =? 0) then
      Ok (fallback "per-layer direct retrieve does not support a partial leading block")
    else
      slot_blocks ← reshape_blocks block_size
        (py_slice slot_mapping (start + skip_tokens) end_);
      scanned ← scan_blocks block_size (dim first 1) slot_blocks;
      match scanned with
      | inl reason => Ok (fallback reason)
      | inr physical_blocks =>
          let logical_start := skip_tokens / block_size in
          let block_nbytes := lenZ kv_caches * 2 * layer_block_nbytes first in
          first_allocation ← py_index allocs 0;
          let descriptor := segment_descriptor dir (kt_device first) first_allocation
            block_nbytes block_size logical_start chunk_tokens skip_tokens
            (Some (kt_id <$> kv_caches)) allocs
            (chunk_segments block_nbytes (layer_block_nbytes first) (dim first 1) layers
               logical_start physical_blocks)
            physical_blocks in
          validate descriptor false false;;
          mret (Plan (Some descriptor) None)
      end.

Definition same_layout (first t : kv_tensor Dt) : bool :=
  (lenZ (kt_shape t) =? 5) && bool_decide (kt_shape t = kt_shape first)
  && bool_decide (kt_dtype t = kt_dtype first)
  && bool_decide (kt_device t = kt_device first) && kt_contiguous t.

Definition build_per_layer_direct_plans (kv_caches : list (kv_tensor Dt))
    (slot_mapping starts ends : list Z) (dir : DirectIODirection)
    (block_size skip_before : Z) : result (list DirectIOPlan) :=
  let all reason := replicate (length starts) (fallback reason) in
  if bool_decide (dir ≠ RETRIEVE) then
    Ok (all "per-layer direct I/O only supports retrieve")
  else
    match kv_caches with
    | [] => Ok (all "vLLM per-layer KV cache is empty")
    | first :: _ =>
        check_ranges slot_mapping starts ends
          (if negb (lenZ (kt_shape first) =? 5) || negb (dim first 0 =? 2) then
             Ok (all "per-layer KV cache is not [2, NB, BS, NH, HS]")
           else if negb (dim first 2 =? block_size) then Ok (all "KV block size mismatch")
           else if negb (forallb (same_layout first) kv_caches) then
             Ok (all "per-layer KV allocations are non-uniform or non-contiguous")
           else
             let '(allocs, layers) := add_allocations [] kv_caches in
             mapR (plan_per_layer_chunk kv_caches first allocs layers slot_mapping dir
                     block_size skip_before) (zip starts ends))
    end.

(** *** Asymmetric key/value caches *)

Definition stride (t : kv_tensor Dt) (i : nat) : Z := nth i (kt_strides t) 0.

(** [append_segment]: extend the last segment when file and device ranges are both
    adjacent. *)
Definition append_segment (head_nbytes : Z) (segments : list DirectIOByteSegment)
    (file_offset allocation_index allocation_offset : Z) : list DirectIOByteSegment :=
  match list.last segments with
  | Some previous =>
      if (seg_allocation_index previous =? allocation_index)
         && (seg_file_offset previous + seg_nbytes previous =? file_offset)
         && (seg_allocation_offset previous + seg_nbytes previous =? allocation_offset)
      then
        take (length segments - 1) segments
        ++ [ByteSegment (seg_file_offset previous) (seg_allocation_index previous)
              (seg_allocation_offset previous) (seg_nbytes previous + head_nbytes)]
      else segments ++ [ByteSegment file_offset allocation_index allocation_offset head_nbytes]
  | None => segments ++ [ByteSegment file_offset allocation_index allocation_offset head_nbytes]
  end.

(** One call of [append_segment], as the loops issue them: the file offset, the
    allocation index and the allocation offset. *)
Definition segment_call : Type := Z * Z * Z.

Definition append_call (head_nbytes : Z) (segments : list DirectIOByteSegment)
    (c : segment_call) : list DirectIOByteSegment :=
  let '(f, i, o) := c in append_segment head_nbytes segments f i o.

(** One cache region: every token, every head *)
Definition region_calls (cache : kv_tensor Dt) (allocation_index tensor_base : Z)
    (token_dim : nat) (region_offset block_size num_heads head_nbytes elem_nbytes
    physical_block : Z)
    : list segment_call :=
  token_offset ← rangeZ 0 (Z.to_nat block_size);
  head_index ← rangeZ 0 (Z.to_nat num_heads);
  let element_offset :=
    physical_block * stride cache 0 + head_index * stride cache 1
    + token_offset * stride cache token_dim in
  [(region_offset + (token_offset * num_heads + head_index) * head_nbytes,
    allocation_index,
    tensor_base + element_offset * elem_nbytes)].

(** The K and V regions of one layer of one block *)
Definition asym_layer_calls (layer_block_nbytes block_size num_heads head_nbytes
    elem_nbytes physical_block block_file_offset layer_index : Z)
    (layer : cache_layer Dt) : list segment_call :=
  let '((key_cache, (key_index, key_base)), (value_cache, (value_index, value_base))) := layer in
  region_calls key_cache key_index key_base 2
    (block_file_offset + (layer_index * 2 + 0) * layer_block_nbytes)
    block_size num_heads head_nbytes elem_nbytes physical_block
  ++ region_calls value_cache value_index value_base 3
       (block_file_offset + (layer_index * 2 + 1) * layer_block_nbytes)
       block_size num_heads head_nbytes elem_nbytes physical_block.

Fixpoint asym_block_calls (layer_block_nbytes block_size num_heads head_nbytes
    elem_nbytes physical_block block_file_offset layer_index : Z)
    (layers : list (cache_layer Dt))
    : list segment_call :=
  match layers with
  | [] => []
  | l :: rest =>
      asym_layer_calls layer_block_nbytes block_size num_heads head_nbytes elem_nbytes physical_block
        block_file_offset layer_index l
      ++ asym_block_calls layer_block_nbytes block_size num_heads head_nbytes elem_nbytes physical_block
           block_file_offset (layer_index + 1) rest
  end.

Fixpoint asym_chunk_calls (block_nbytes layer_block_nbytes block_size num_heads head_nbytes
    elem_nbytes : Z)
    (layers : list (cache_layer Dt))
    (logical_block : Z) (physical_blocks : list Z) : list segment_call :=
  match physical_blocks with
  | [] => []
  | p :: rest =>
      asym_block_calls layer_block_nbytes block_size num_heads head_nbytes elem_nbytes p
        (BLOCK_FIRST_HEADER_SIZE + logical_block * block_nbytes) 0 layers
      ++ asym_chunk_calls block_nbytes layer_block_nbytes block_size num_heads head_nbytes
           elem_nbytes layers (logical_block + 1) rest
  end.

Fixpoint add_asym_allocations (allocs : list DirectIOAllocation)
    (kvs : list (kv_tensor Dt * kv_tensor Dt))
    : list DirectIOAllocation
      * list (cache_layer Dt) :=
  match kvs with
  | [] => (allocs, [])
  | (k, v) :: rest =>
      let '(allocs1, pk) := add_allocation allocs k in
      let '(allocs2, pv) := add_allocation allocs1 v in
      let '(allocs3, ps) := add_asym_allocations allocs2 rest in
      (allocs3, ((k, pk), (v, pv)) :: ps)
  end.

(** [str(exc)] of the errors [validate] raises *)
Definition error_text (e : exn) : string :=
  match e with ValueError msg => msg | _ => "" end.

Definition is_value_error (e : exn) : bool :=
  match e with ValueError _ | BlockFirstFormatError _ => true | _ => false end.

Definition plan_asymmetric_chunk (kv_caches : list (kv_tensor Dt * kv_tensor Dt))
    (first_key : kv_tensor Dt) (allocs : list DirectIOAllocation)
    (layers : list (cache_layer Dt))
    (slot_mapping : list Z) (dir : DirectIODirection) (block_size skip_before : Z)
    (range : Z * Z) : result DirectIOPlan :=
  let '(start, end_) := range in
  let chunk_tokens := end_ - start in
  let num_blocks := dim first_key 0 in
  let num_heads := dim first_key 1 in
  let head_nbytes := dim first_key 3 * element_size first_key in
  let layer_block_nbytes := block_size * num_heads * head_nbytes in
  let block_nbytes := lenZ kv_caches * 2 * layer_block_nbytes in
  raise_if (block_size =? 0) ZeroDivisionError;;
  if negb (chunk_tokens mod block_size =? 0) then
    Ok (fallback "chunk is not a whole number of blocks")
  else
    let skip_tokens := Z.min chunk_tokens (Z.max 0 (skip_before - start)) in
    if skip_tokens =? chunk_tokens then Ok (fallback "no uncached physical blocks remain")
    else if negb (skip_tokens mod block_size =? 0) then
      Ok (fallback "asymmetric direct retrieve does not support a partial leading block")
    else
      slot_blocks ← reshape_blocks block_size
        (py_slice slot_mapping (start + skip_tokens) end_);
      scanned ← scan_blocks_asymmetric block_size num_blocks slot_blocks;
      match scanned with
      | inl reason => Ok (fallback reason)
      | inr physical_blocks =>
          let logical_start := skip_tokens / block_size in
          first_allocation ← py_index allocs 0;
          let descriptor := segment_descriptor dir (kt_device first_key) first_allocation
            block_nbytes block_size logical_start chunk_tokens skip_tokens
            (Some (kv_caches ≫= fun kv => [kt_id kv.1; kt_id kv.2])) allocs
            (foldl (append_call head_nbytes) []
               (asym_chunk_calls block_nbytes layer_block_nbytes block_size num_heads
                  head_nbytes (element_size first_key) layers logical_start physical_blocks))
            physical_blocks in
          match validate descriptor false true with
          | Ok _ => Ok (Plan (Some descriptor) None)
          | Raise e => if is_value_error e then Ok (fallback (error_text e)) else Raise e
          end
      end.

Definition asymmetric_pair_ok (first_key : kv_tensor Dt) (expected_value_shape : list Z)
    (kv : kv_tensor Dt * kv_tensor Dt) : bool :=
  let '(key_cache, value_cache) := kv in
  (lenZ (kt_shape key_cache) =? 4) && (lenZ (kt_shape value_cache) =? 4)
  && bool_decide (kt_shape key_cache = kt_shape first_key)
  && bool_decide (kt_shape value_cache = expected_value_shape)
  && bool_decide (kt_dtype key_cache = kt_dtype first_key)
  && bool_decide (kt_dtype value_cache = kt_dtype first_key)
  && bool_decide (kt_device key_cache = kt_device first_key)
  && bool_decide (kt_device value_cache = kt_device first_key)
  && (stride key_cache 3 =? 1) && (stride value_cache 2 =? 1).

Definition build_asymmetric_per_layer_direct_plans
    (kv_caches : list (kv_tensor Dt * kv_tensor Dt)) (slot_mapping starts ends : list Z)
    (dir : DirectIODirection) (block_size skip_before : Z) : result (list DirectIOPlan) :=
  let all reason := replicate (length starts) (fallback reason) in
  if bool_decide (dir ≠ RETRIEVE) then
    Ok (all "asymmetric per-layer direct I/O only supports retrieve")
  else
    match kv_caches with
    | [] => Ok (all "asymmetric per-layer KV cache is empty")
    | (first_key, first_value) :: _ =>
        check_ranges slot_mapping starts ends
          (if negb (lenZ (kt_shape first_key) =? 4) || negb (lenZ (kt_shape first_value) =? 4)
              || negb (dim first_key 2 =? block_size)
              || negb (dim first_value 3 =? block_size) then
             Ok (all "asymmetric KV cache is not K=[NB, NH, BS, HS], V=[NB, NH, HS, BS]")
           else
             let expected_value_shape :=
               [dim first_key 0; dim first_key 1; dim first_key 3; block_size] in
             if bool_decide (kt_shape first_value ≠ expected_value_shape) then
               Ok (all "asymmetric K/V cache shapes do not match")
             else if bool_decide (kt_dtype first_key ≠ kt_dtype first_value)
                || bool_decide (kt_device first_key ≠ kt_device first_value)
                || negb (stride first_key 3 =? 1) || negb (stride first_value 2 =? 1) then
               Ok (all "asymmetric K/V cache head vectors are not contiguous in storage")
             else if negb (forallb (asymmetric_pair_ok first_key expected_value_shape)
                             kv_caches) then
               Ok (all "asymmetric per-layer K/V allocations are non-uniform or unsupported")
             else
               let '(allocs, layers) := add_asym_allocations [] kv_caches in
               mapR (plan_asymmetric_chunk kv_caches first_key allocs layers slot_mapping dir
                       block_size skip_before) (zip starts ends))
    end.

End builders.

(** ** What a descriptor transfers *)

(** The physical block the runs give logical block [b] *)
Fixpoint runs_block (l : list DirectIOBlockRun) (b : Z) : option Z :=
  match l with
  | [] => None
  | r :: rest =>
      if (run_logical_block_start r <=? b)
         && (b <? run_logical_block_start r + run_block_count r)
      then Some (run_physical_block_start r + (b - run_logical_block_start r))
      else runs_block rest b
  end.

(** The physical block of logical block [b], the leading edge included *)
Definition descriptor_block (d : DirectIODescriptor) (b : Z) : option Z :=
  match leading_edge d with
  | Some e => if b =? edge_logical_block e then Some (edge_physical_block e)
              else runs_block (runs d) b
  | None => runs_block (runs d) b
  end.

(** Token [t] of the chunk at [start] sits in block [blk (t / block_size)], at
    its own offset. *)
Definition maps_tokens (slot_mapping : list Z) (start block_size num_blocks lo hi : Z)
    (blk : Z -> option Z) : Prop :=
  forall t, lo <= t < hi -> exists p, blk (t / block_size) = Some p /\ 0 <= p < num_blocks
    /\ slot_mapping !! Z.to_nat (start + t) = Some (p * block_size + t mod block_size).

(** The byte of file offset [x]: the allocation and offset it is read to *)
Fixpoint seg_lookup (segs : list DirectIOByteSegment) (x : Z) : option (Z * Z) :=
  match segs with
  | [] => None
  | s :: rest =>
      if (seg_file_offset s <=? x) && (x <? seg_file_offset s + seg_nbytes s)
      then Some (seg_allocation_index s, seg_allocation_offset s + (x - seg_file_offset s))
      else seg_lookup rest x
  end.

(** The device address the byte-segment descriptor [d] gives file offset [x] *)
Definition byte_address (d : DirectIODescriptor) (x : Z) : option Z :=
  '(i, o) ← seg_lookup (byte_segments d) x;
  a ← allocations d !! Z.to_nat i;
  Some (alloc_base a + o).

(** Segments that follow each other in the file from [lo] to [hi] *)
Fixpoint tiles (lo : Z) (segs : list DirectIOByteSegment) (hi : Z) : Prop :=
  match segs with
  | [] => lo = hi
  | s :: rest => seg_file_offset s = lo /\ 0 < seg_nbytes s /\ tiles (lo + seg_nbytes s) rest hi
  end.

Definition seg_in_bounds (require_alignment : bool) (allocs : list DirectIOAllocation)
    (s : DirectIOByteSegment) : Prop :=
  exists a, 0 <= seg_allocation_index s
    /\ allocs !! Z.to_nat (seg_allocation_index s) = Some a
    /\ 0 <= seg_allocation_offset s /\ 0 < seg_nbytes s
    /\ seg_allocation_offset s + seg_nbytes s <= alloc_nbytes a
    /\ (require_alignment = true ->
        existsb unaligned [seg_file_offset s; seg_allocation_offset s; seg_nbytes s] = false).

(** ** Lemmas: block runs *)

Definition run_end (r : DirectIOBlockRun) : Z := run_logical_block_start r + run_block_count r.

Lemma extend_runs_block logical_start blocks : forall offset cur b,
  0 < run_block_count cur -> run_end cur = logical_start + offset ->
  runs_block (extend_runs logical_start offset cur blocks) b =
    if (run_logical_block_start cur <=? b) && (b <? run_end cur)
    then Some (run_physical_block_start cur + (b - run_logical_block_start cur))
    else if b <? run_end cur then None
    else blocks !! Z.to_nat (b - run_end cur).
Proof.
  unfold run_end. induction blocks as [|p rest IH]; intros offset [l ph n] b Hn Hend; simpl in *.
  - destruct (l <=? b), (b <? l + n); done.
  - case_match eqn:E; bool_prop; [rewrite IH by (simpl; lia)|simpl; rewrite IH by (simpl; lia)];
      simpl; destruct (l <=? b) eqn:E1, (b <? l + n) eqn:E2; simpl; bool_prop;
      repeat match goal with
      | |- context [?x <=? ?y] => destruct (Z.leb_spec x y); try lia
      | |- context [?x <? ?y] => destruct (Z.ltb_spec x y); try lia
      end; simpl; try done.
    all: try (f_equal; lia).
    all: try (replace (Z.to_nat (b - (l + n))) with 0%nat by lia; simpl; f_equal; lia).
    all: replace (Z.to_nat (b - (l + n))) with (S (Z.to_nat (b - (l + n) - 1))) by lia;
      simpl; f_equal; lia.
Qed.

(** The coalesced runs give back every block. *)
Lemma coalesce_runs_block logical_start blocks b :
  runs_block (coalesce_runs logical_start blocks) b =
    if b <? logical_start then None else blocks !! Z.to_nat (b - logical_start).
Proof.
  destruct blocks as [|p rest]; simpl; [by destruct (b <? logical_start)|].
  rewrite extend_runs_block by (unfold run_end; simpl; lia). unfold run_end. simpl.
  repeat match goal with
  | |- context [?x <=? ?y] => destruct (Z.leb_spec x y); try lia
  | |- context [?x <? ?y] => destruct (Z.ltb_spec x y); try lia
  end; simpl; try done.
  - replace (Z.to_nat (b - logical_start)) with 0%nat by lia. simpl. f_equal. lia.
  - replace (Z.to_nat (b - logical_start)) with (S (Z.to_nat (b - (logical_start + 1)))) by lia.
    done.
Qed.

Lemma extend_runs_valid capacity logical_start blocks : forall offset cur tr,
  0 < run_block_count cur -> run_end cur = logical_start + offset ->
  0 <= run_physical_block_start cur ->
  run_physical_block_start cur + run_block_count cur <= capacity ->
  Forall (fun p => 0 <= p < capacity) blocks ->
  validate_runs capacity (run_logical_block_start cur) tr
    (extend_runs logical_start offset cur blocks)
  = Ok (tr + run_block_count cur + lenZ blocks).
Proof.
  unfold run_end.
  induction blocks as [|p rest IH]; intros offset [l ph n] tr Hn Hend Hp Hc Hb; simpl in *.
  - rewrite Z.eqb_refl. do 2 pass_guard. unfold lenZ. f_equal. simpl. lia.
  - apply list.Forall_cons in Hb as [Hp0 Hb]. rewrite lenZ_cons.
    case_match eqn:E; bool_prop.
    + specialize (IH (offset + 1) (BlockRun l ph (n + 1)) tr). simpl in IH.
      rewrite IH by (done || lia). f_equal. lia.
    + simpl. rewrite Z.eqb_refl. do 2 pass_guard.
      specialize (IH (offset + 1) (BlockRun (logical_start + offset) p 1) (tr + n)).
      simpl in IH. replace (l + n) with (logical_start + offset) by lia.
      rewrite IH by (done || lia). f_equal. lia.
Qed.

Lemma extend_runs_not_nil logical_start blocks : forall offset cur,
  is_nil (extend_runs logical_start offset cur blocks) = false.
Proof.
  induction blocks as [|p rest IH]; intros offset cur; simpl; [done|].
  destruct (p =? _); [apply IH|done].
Qed.

Lemma coalesce_runs_valid capacity logical_start blocks :
  Forall (fun p => 0 <= p < capacity) blocks ->
  validate_runs capacity logical_start 0 (coalesce_runs logical_start blocks)
  = Ok (lenZ blocks).
Proof.
  destruct blocks as [|p rest]; [done|]. intros [Hp Hb]%list.Forall_cons. simpl.
  rewrite lenZ_cons.
  pose proof (extend_runs_valid capacity logical_start rest 1 (BlockRun logical_start p 1) 0)
    as H. unfold run_end in H. simpl in H. rewrite H by (done || lia). f_equal.
Qed.

(** ** Lemmas: reading a slot mapping block by block *)

Lemma expected_slots_length p bs lo : length (expected_slots p bs lo) = Z.to_nat (bs - lo).
Proof. unfold expected_slots. by rewrite length_fmap, length_rangeZ. Qed.

Lemma expected_slots_lookup p bs lo j :
  (j < Z.to_nat (bs - lo))%nat ->
  expected_slots p bs lo !! j = Some (p * bs + (lo + Z.of_nat j)).
Proof.
  intros Hj. unfold expected_slots. by rewrite list_lookup_fmap, lookup_rangeZ by done.
Qed.

Definition block_row (bs nb : Z) (row : list Z) (p : Z) : Prop :=
  row = expected_slots p bs 0 /\ 0 <= p < nb.

Lemma block_row_head bs nb row p :
  0 < bs -> block_row bs nb row p -> py_index row 0 = Ok (p * bs).
Proof.
  intros Hbs [-> Hp]. apply py_index_nonneg; [lia|].
  rewrite expected_slots_lookup by lia. f_equal. lia.
Qed.

Lemma scan_blocks_sound bs nb rws pbs :
  0 < bs -> scan_blocks bs nb rws = Ok (inr pbs) -> Forall2 (block_row bs nb) rws pbs.
Proof.
  intros Hbs. revert pbs. induction rws as [|row rest IH]; intros pbs H; simpl in H.
  - injection H as <-. constructor.
  - res_inv. repeat (case_match; [discriminate|]).
    res_inv. case_match; [discriminate|]. injection H as <-. subst. bool_prop.
    constructor; [|by apply IH]. split; [by apply dec_stable|].
    pose proof (Z.div_pos x bs). lia.
Qed.

Lemma scan_blocks_complete bs nb rws pbs :
  0 < bs -> Forall2 (block_row bs nb) rws pbs -> scan_blocks bs nb rws = Ok (inr pbs).
Proof.
  intros Hbs. induction 1 as [|row p rest pbs Hrow _ IH]; [done|].
  simpl. rewrite (block_row_head _ _ _ _ Hbs Hrow). res_simpl.
  destruct Hrow as [Hrow Hp].
  rewrite Z.mod_mul, Z.div_mul by lia.
  replace (p * bs <? 0) with false by nia. replace (nb <=? p) with false by lia. simpl.
  rewrite bool_decide_false by tauto. by rewrite IH.
Qed.

(** The asymmetric scan accepts the same rows. *)
Lemma scan_blocks_asymmetric_eq bs nb rws pbs :
  scan_blocks_asymmetric bs nb rws = Ok (inr pbs) <-> scan_blocks bs nb rws = Ok (inr pbs).
Proof.
  revert pbs. induction rws as [|row rest IH]; intros pbs; simpl; [done|].
  destruct (py_index row 0) as [x|e]; res_simpl; [|done].
  destruct ((x <? 0) || negb (x mod bs =? 0)); simpl; [by split|].
  destruct (nb <=? x / bs); simpl; [by split|]. case_bool_decide; [by split|].
  destruct (scan_blocks_asymmetric bs nb rest) as [[|l]|],
    (scan_blocks bs nb rest) as [[|l']|]; res_simpl; try done;
    specialize (IH l) || specialize (IH l');
    try (destruct IH as [IH1 IH2]; split; intros [=]; subst;
         (rewrite IH1 || rewrite IH2); done).
  all: destruct IH as [IH1 IH2]; try discriminate (IH1 eq_refl); try discriminate (IH2 eq_refl).
  specialize (IH1 eq_refl). by injection IH1 as ->.
Qed.

(** Scanning never raises: every row of a reshape holds [bs] slots. *)
Lemma scan_blocks_total bs nb rws :
  Forall (fun row => row <> []) rws -> exists r, scan_blocks bs nb rws = Ok r.
Proof.
  induction 1 as [|row rest Hrow _ [r IH]]; [by eexists|]. simpl.
  destruct row as [|x row]; [done|]. unfold py_index; simpl.
  repeat (case_match; [by eexists|]). rewrite IH. by eexists.
Qed.

Lemma scan_blocks_asymmetric_total bs nb rws :
  Forall (fun row => row <> []) rws -> exists r, scan_blocks_asymmetric bs nb rws = Ok r.
Proof.
  induction 1 as [|row rest Hrow _ [r IH]]; [by eexists|]. simpl.
  destruct row as [|x row]; [done|]. unfold py_index; simpl.
  case_match; [by eexists|]. rewrite IH. by eexists.
Qed.

Section slot_rows.
Context (sm : list Z) (start bs nb lo hi : Z).
Context (Hbs : 0 < bs) (Hstart : 0 <= start) (Hlo : 0 <= lo) (Hlohi : lo <= hi)
  (Hhi : start + hi <= lenZ sm) (Hlo0 : lo mod bs = 0) (Hhi0 : hi mod bs = 0).

Let slots := py_slice sm (start + lo) (start + hi).

Lemma slots_length : lenZ slots = hi - lo.
Proof. unfold slots. rewrite py_slice_length; lia. Qed.

Lemma slots_rows : Z.of_nat (length (rows (Z.to_nat bs) slots)) = (hi - lo) / bs.
Proof.
  rewrite length_rows. pose proof slots_length as H. unfold lenZ in H.
  rewrite Nat2Z.inj_div, H. f_equal. lia.
Qed.

Lemma slots_aligned : (hi - lo) mod bs = 0.
Proof. rewrite Zminus_mod, Hlo0, Hhi0. apply Z.mod_0_l. lia. Qed.

Lemma reshape_slots : reshape_blocks bs slots = Ok (rows (Z.to_nat bs) slots).
Proof. unfold reshape_blocks. rewrite slots_length, slots_aligned. done. Qed.

Lemma slots_row_elem i j row :
  rows (Z.to_nat bs) slots !! i = Some row -> (j < Z.to_nat bs)%nat ->
  row !! j = sm !! Z.to_nat (start + (lo + Z.of_nat i * bs + Z.of_nat j)).
Proof.
  intros Hrow Hj. assert (i < length (rows (Z.to_nat bs) slots))%nat as Hi
    by (by eapply lookup_lt_Some).
  erewrite rows_lookup_elem by done. pose proof slots_rows as Hr.
  pose proof slots_aligned as Ha. apply Z.mod_divide in Ha as [q Hq]; [|lia].
  rewrite Hq, Z.div_mul in Hr by lia.
  unfold slots. rewrite py_slice_lookup by nia. f_equal. nia.
Qed.

Lemma slots_row_length i row :
  rows (Z.to_nat bs) slots !! i = Some row -> length row = Z.to_nat bs.
Proof.
  intros [-> Hi]%rows_lookup. rewrite length_take, length_drop.
  pose proof (Nat.Div0.mul_div_le (length slots) (Z.to_nat bs)). nia.
Qed.

Lemma slots_rows_nonempty : Forall (fun row => row <> []) (rows (Z.to_nat bs) slots).
Proof.
  apply Forall_lookup_2. intros i row Hrow%slots_row_length ->. simpl in Hrow. lia.
Qed.

(** The rows are physical blocks exactly when the blocks map every token. *)
Lemma slots_blocks pbs :
  Forall2 (block_row bs nb) (rows (Z.to_nat bs) slots) pbs <->
  lenZ pbs = (hi - lo) / bs /\
  maps_tokens sm start bs nb lo hi (fun b => pbs !! Z.to_nat (b - lo / bs)).
Proof.
  pose proof slots_rows as Hr. pose proof slots_aligned as Ha.
  apply Z.mod_divide in Ha as [q Hq]; [|lia].
  destruct (proj1 (Z.mod_divide lo bs ltac:(lia)) Hlo0) as [l Hl].
  rewrite Hq, Z.div_mul in Hr by lia. unfold maps_tokens. rewrite Hq, Z.div_mul by lia.
  rewrite Forall2_lookup. unfold lenZ.
  assert (lo / bs = l) as -> by (rewrite Hl; apply Z.div_mul; lia). split.
  - intros HF. assert (length pbs = length (rows (Z.to_nat bs) slots)) as Hlen.
    { symmetry. by eapply Forall2_length, Forall2_lookup. }
    split; [lia|]. intros t Ht.
    assert (l <= t / bs < l + q) as Htb
      by (split; [apply Z.div_le_lower_bound; nia | apply Z.div_lt_upper_bound; nia]).
    destruct (lookup_lt_is_Some_2 pbs (Z.to_nat (t / bs - l))) as [p Hp]; [lia|].
    specialize (HF (Z.to_nat (t / bs - l))). rewrite Hp in HF.
    inversion HF as [row p' [Hrow Hpb] Hl1|]; subst p'. symmetry in Hl1.
    exists p. split; [done|]. split; [done|].
    pose proof (Z.mod_pos_bound t bs Hbs).
    pose proof (slots_row_elem _ (Z.to_nat (t mod bs)) _ Hl1 ltac:(lia)) as He.
    rewrite Hrow, expected_slots_lookup in He by lia.
    replace (start + t) with (start + (lo + Z.of_nat (Z.to_nat (t / bs - l)) * bs
      + Z.of_nat (Z.to_nat (t mod bs)))) by (pose proof (Z.div_mod t bs); nia).
    rewrite <- He. f_equal. lia.
  - intros [Hlen Hmap] i.
    destruct (rows (Z.to_nat bs) slots !! i) as [row|] eqn:Hrow.
    + assert (i < length (rows (Z.to_nat bs) slots))%nat as Hi by (by eapply lookup_lt_Some).
      destruct (Hmap (lo + Z.of_nat i * bs)) as (p & Hp & Hpb & _); [nia|].
      rewrite Hl, <- Z.mul_add_distr_r, Z.div_mul in Hp by lia.
      replace (Z.to_nat (l + Z.of_nat i - l)) with i in Hp by lia.
      rewrite Hp. constructor. split; [|done].
      apply list_eq_same_length with (n := Z.to_nat bs).
      * rewrite expected_slots_length. lia.
      * by eapply slots_row_length.
      * intros j x y Hj Hx Hy. rewrite expected_slots_lookup in Hy by lia.
        rewrite (slots_row_elem _ _ _ Hrow Hj) in Hx.
        destruct (Hmap (lo + Z.of_nat i * bs + Z.of_nat j)) as (p' & Hp' & _ & Hs); [nia|].
        rewrite Hs in Hx. replace (lo + Z.of_nat i * bs + Z.of_nat j)
          with (Z.of_nat j + (l + Z.of_nat i) * bs) in Hp', Hx by lia.
        rewrite Z.div_add, Z.div_small in Hp' by lia.
        rewrite Z.mod_add, Z.mod_small in Hx by lia.
        replace (Z.to_nat (0 + (l + Z.of_nat i) - l)) with i in Hp' by lia.
        simplify_eq. lia.
    + assert (length (rows (Z.to_nat bs) slots) <= i)%nat by (by apply lookup_ge_None).
      rewrite lookup_ge_None_2 by lia. constructor.
Qed.

End slot_rows.

(** ** Lemmas: the leading edge *)

Section edge.
Context (sm : list Z) (start bs nb skip : Z).
Context (Hbs : 0 < bs) (Hstart : 0 <= start) (Hskip : 0 <= skip)
  (Hlen : start + (skip / bs + 1) * bs <= lenZ sm).

Definition edge_ok (leading : option DirectIOLeadingEdge) : Prop :=
  match leading with
  | None => skip mod bs = 0
  | Some e =>
      skip mod bs <> 0 /\ edge_logical_block e = skip / bs
      /\ edge_token_offset e = skip mod bs /\ edge_token_count e = bs - skip mod bs
      /\ 0 <= edge_physical_block e < nb
      /\ py_slice sm (start + skip) (start + skip + (bs - skip mod bs))
         = expected_slots (edge_physical_block e) bs (skip mod bs)
  end.

Lemma skip_div_mod : skip = skip / bs * bs + skip mod bs /\ 0 <= skip mod bs < bs.
Proof. pose proof (Z.div_mod skip bs). pose proof (Z.mod_pos_bound skip bs). nia. Qed.

Lemma edge_slots_lookup j :
  (j < Z.to_nat (bs - skip mod bs))%nat ->
  py_slice sm (start + skip) (start + skip + (bs - skip mod bs)) !! j
  = sm !! Z.to_nat (start + (skip + Z.of_nat j)).
Proof.
  intros Hj. pose proof skip_div_mod. rewrite py_slice_lookup by nia. f_equal. lia.
Qed.

Lemma edge_slots_length :
  length (py_slice sm (start + skip) (start + skip + (bs - skip mod bs)))
  = Z.to_nat (bs - skip mod bs).
Proof.
  pose proof skip_div_mod as H.
  pose proof (py_slice_length sm (start + skip) (start + skip + (bs - skip mod bs))
    ltac:(lia) ltac:(lia) ltac:(nia)) as Hl.
  unfold lenZ in Hl. lia.
Qed.

(** The edge slots are one physical block exactly when they map the edge tokens. *)
Lemma edge_slots_maps p :
  py_slice sm (start + skip) (start + skip + (bs - skip mod bs))
    = expected_slots p bs (skip mod bs) <->
  (forall t, skip <= t < (skip / bs + 1) * bs ->
     sm !! Z.to_nat (start + t) = Some (p * bs + t mod bs)).
Proof.
  pose proof skip_div_mod as [Hd Hm].
  assert (forall j, (j < Z.to_nat (bs - skip mod bs))%nat ->
    (skip + Z.of_nat j) mod bs = skip mod bs + Z.of_nat j) as Hmod.
  { intros j Hj. replace (skip + Z.of_nat j)
      with (skip mod bs + Z.of_nat j + skip / bs * bs) by lia.
    rewrite Z.mod_add, Z.mod_small by lia. done. }
  split.
  - intros Heq t Ht. specialize (Hmod (Z.to_nat (t - skip))).
    pose proof (edge_slots_lookup (Z.to_nat (t - skip)) ltac:(lia)) as Hl.
    rewrite Heq, expected_slots_lookup in Hl by lia.
    replace (skip + Z.of_nat (Z.to_nat (t - skip))) with t in Hmod, Hl by lia.
    rewrite <- Hl, Hmod by lia. done.
  - intros Hmap. apply list_eq_same_length with (n := Z.to_nat (bs - skip mod bs)).
    + by rewrite expected_slots_length.
    + by rewrite edge_slots_length.
    + intros j x y Hj Hx Hy. rewrite edge_slots_lookup in Hx by done.
      rewrite expected_slots_lookup in Hy by done.
      rewrite (Hmap (skip + Z.of_nat j)), Hmod in Hx by (done || nia).
      simplify_eq. lia.
Qed.

Lemma plan_edge_ok leading :
  plan_edge sm nb bs start skip = Ok (inr leading) <-> edge_ok leading.
Proof.
  pose proof skip_div_mod as [Hd Hm]. unfold plan_edge, edge_ok.
  destruct (Z.eqb_spec (skip mod bs) 0) as [E|E].
  { split; [by intros [= <-]|]. destruct leading; [tauto|done]. }
  assert (exists x, py_index (py_slice sm (start + skip) (start + skip + (bs - skip mod bs))) 0
    = Ok x) as [x Hx].
  { destruct (lookup_lt_is_Some_2
      (py_slice sm (start + skip) (start + skip + (bs - skip mod bs))) 0) as [x Hx].
    - rewrite edge_slots_length. lia.
    - exists x. by apply py_index_nonneg. }
  rewrite Hx. res_simpl.
  assert (forall p, py_slice sm (start + skip) (start + skip + (bs - skip mod bs))
    = expected_slots p bs (skip mod bs) -> x = p * bs + skip mod bs) as Hhead.
  { intros p Hp. rewrite Hp in Hx. apply py_index_nonneg in Hx; [|lia].
    rewrite expected_slots_lookup in Hx by lia. simplify_eq. lia. }
  split.
  - case_match eqn:E2; intros [= <-]. bool_prop. simpl.
    pose proof (Z.div_pos x bs). repeat split; try lia. by apply dec_stable.
  - destruct leading as [e|]; [|done]. destruct e as [lb p off cnt]; simpl.
    intros (_ & -> & -> & -> & Hp & Hsl). rewrite (Hhead _ Hsl).
    rewrite Z.add_comm, Z.div_add, Z.div_small, Z.mod_add, Z.mod_mod, Z.eqb_refl by lia.
    replace (skip mod bs + p * bs <? 0) with false by nia.
    replace (nb <=? 0 + p) with false by lia. simpl.
    rewrite bool_decide_false by tauto. done.
Qed.

Lemma plan_edge_total : exists r, plan_edge sm nb bs start skip = Ok r.
Proof.
  unfold plan_edge. case_match; [by eexists|]. bool_prop.
  pose proof edge_slots_length. pose proof skip_div_mod.
  destruct (py_slice sm (start + skip) (start + skip + (bs - skip mod bs))) as [|x l] eqn:E.
  - simpl in *. lia.
  - unfold py_index. simpl. case_match; by eexists.
Qed.

End edge.

(** ** Lemmas: the block-first builder *)

Lemma skip_retrieve dir skip_before start chunk bs :
  skip_tokens_of dir skip_before start chunk mod bs <> 0 -> dir = RETRIEVE.
Proof. destruct dir; simpl; [|done]. intros H. by rewrite Zmod_0_l in H. Qed.

Section block_first_chunk.
Context {Dt : Type} {TD : TorchDtype Dt} (kv : kv_tensor Dt) (sm : list Z).
Context (nb nl bs nh hs : Z).

Record block_first_kv : Prop := {
  bf_shape : kt_shape kv = [nb; nl; 2; bs; nh; hs];
  bf_pos : 0 < nb /\ 0 < nl /\ 0 < bs /\ 0 < nh /\ 0 < hs;
  bf_contiguous : kt_contiguous kv = true;
  bf_ptr : 0 < kt_data_ptr kv;
  bf_itemsize : 0 < itemsize (kt_dtype kv);
}.

Context (Hkv : block_first_kv) (dir : DirectIODirection) (skip_before start end_ : Z).
Context (Hstart : 0 <= start) (Hend : start < end_) (Hlen : end_ <= lenZ sm).

Let chunk := end_ - start.
Let skip := skip_tokens_of dir skip_before start chunk.

Lemma skip_bounds : 0 <= skip <= chunk.
Proof. unfold skip, skip_tokens_of, chunk. destruct dir; lia. Qed.

Lemma bf_block_nbytes_pos : 0 < block_first_block_nbytes kv.
Proof.
  destruct Hkv as [Hs Hp _ _ Hi]. unfold block_first_block_nbytes, dim, element_size.
  rewrite Hs. simpl. destruct Hp as (? & ? & ? & ? & ?).
  repeat apply Z.mul_pos_pos; lia.
Qed.

Lemma bf_nbytes : prodZ (kt_shape kv) * element_size kv = nb * block_first_block_nbytes kv.
Proof.
  unfold block_first_block_nbytes, dim. rewrite (bf_shape Hkv). simpl. lia.
Qed.

Definition bf_descriptor (leading : option DirectIOLeadingEdge) (physical_blocks : list Z)
    : DirectIODescriptor :=
  let full_start := skip + match leading with None => 0 | Some e => edge_token_count e end in {|
  direction := dir;
  device := kt_device kv;
  allocation_base := kt_data_ptr kv;
  allocation_nbytes := prodZ (kt_shape kv) * element_size kv;
  engine_group_id := 0;
  block_nbytes := block_first_block_nbytes kv;
  desc_block_size := bs;
  logical_block_start := full_start / bs;
  logical_block_count := lenZ physical_blocks;
  valid_token_start := skip;
  valid_token_count := chunk - skip;
  runs := coalesce_runs (full_start / bs) physical_blocks;
  leading_edge := leading;
  file_payload_offset := BLOCK_FIRST_HEADER_SIZE;
  synchronous := true;
  lifetime_token := Some [kt_id kv];
  allocations := [];
  byte_segments := [];
  physical_block_ids := physical_blocks |}.

(** First token after the leading edge *)
Definition full_start (leading : option DirectIOLeadingEdge) : Z :=
  skip + match leading with None => 0 | Some e => edge_token_count e end.

Lemma full_start_aligned leading :
  skip < chunk -> chunk mod bs = 0 -> edge_ok sm start bs nb skip leading ->
  full_start leading mod bs = 0 /\ skip <= full_start leading <= chunk
  /\ full_start leading / bs = skip / bs + match leading with None => 0 | Some _ => 1 end.
Proof.
  intros Hsc Hc He. destruct (bf_pos Hkv) as (_ & _ & Hbs & _). unfold full_start.
  pose proof (skip_div_mod bs skip Hbs) as [Hd Hm]. pose proof skip_bounds.
  apply Z.mod_divide in Hc as [q Hq]; [|lia].
  assert (skip / bs < q) by (apply Z.div_lt_upper_bound; lia).
  destruct leading as [e|]; simpl in He.
  - destruct He as (_ & _ & _ & -> & _).
    replace (skip + (bs - skip mod bs)) with ((skip / bs + 1) * bs) by lia.
    rewrite Z.mod_mul, Z.div_mul by lia. repeat split; nia.
  - rewrite !Z.add_0_r. lia.
Qed.

Lemma bf_capacity : prodZ (kt_shape kv) * element_size kv / block_first_block_nbytes kv = nb.
Proof. rewrite bf_nbytes. apply Z.div_mul. pose proof bf_block_nbytes_pos. lia. Qed.

Lemma bf_descriptor_valid leading pbs :
  skip < chunk -> chunk mod bs = 0 -> edge_ok sm start bs nb skip leading ->
  lenZ pbs = (chunk - full_start leading) / bs -> Forall (fun p => 0 <= p < nb) pbs ->
  validate (bf_descriptor leading pbs) false false = Ok tt.
Proof.
  intros Hsc Hc He Hl Hp.
  destruct (full_start_aligned leading Hsc Hc He) as (Ha & Hfs & Hdiv).
  destruct (bf_pos Hkv) as (Hnb & _ & Hbs & _).
  pose proof bf_block_nbytes_pos as Hbn. pose proof skip_bounds.
  pose proof (skip_div_mod bs skip Hbs) as [Hd Hm].
  apply Z.mod_divide in Ha as [f Hf]; [|lia]. apply Z.mod_divide in Hc as [q Hq]; [|lia].
  rewrite Hq, Hf, <- Z.mul_sub_distr_r, Z.div_mul in Hl by lia.
  rewrite Hf, Z.div_mul in Hdiv by lia.
  assert (0 < prodZ (kt_shape kv) * element_size kv) by (rewrite bf_nbytes; nia).
  unfold validate, bf_descriptor. cbn [device direction allocation_base allocation_nbytes
    engine_group_id block_nbytes desc_block_size logical_block_start logical_block_count
    valid_token_start valid_token_count runs leading_edge file_payload_offset synchronous
    lifetime_token allocations byte_segments is_nil is_none].
  fold (full_start leading). rewrite bf_capacity, Hf, Z.div_mul by lia.
  pose proof (bf_ptr Hkv).
  assert (0 <= f) by nia.
  replace (kt_data_ptr kv <=? 0) with false by lia.
  replace (prodZ (kt_shape kv) * element_size kv <=? 0) with false by lia.
  res_simpl. replace (block_first_block_nbytes kv <=? 0) with false by lia.
  replace (bs <=? 0) with false by lia. replace (f <? 0) with false by lia.
  pose proof (lenZ_nonneg pbs). replace (lenZ pbs <? 0) with false by lia. res_simpl.
  assert ((lenZ pbs =? 0) && is_none leading = false) as ->.
  { destruct leading; simpl; [by rewrite andb_false_r|]. simpl in *. nia. }
  res_simpl. rewrite coalesce_runs_valid by done. res_simpl. rewrite Z.eqb_refl. res_simpl.
  assert (Bool.eqb (negb (is_nil (coalesce_runs f pbs))) (0 <? lenZ pbs) = true) as ->.
  { destruct pbs as [|p rest]; [done|]. simpl. rewrite lenZ_cons. pose proof (lenZ_nonneg rest).
    replace (0 <? 1 + lenZ rest) with true by lia. by rewrite extend_runs_not_nil. }
  res_simpl. unfold validate_edge. simpl.
  destruct leading as [e|]; simpl in *.
  - destruct He as (Hne & -> & -> & Hcnt & Hpb & _). unfold full_start in Hf.
    assert (dir = RETRIEVE) as Hdir.
    { by eapply skip_retrieve. }
    rewrite bool_decide_false by tauto. res_simpl. rewrite Hcnt, Z.eqb_refl.
    replace (skip / bs <? 0) with false by nia.
    replace (edge_physical_block e <? 0) with false by lia.
    replace (nb <=? edge_physical_block e) with false by lia.
    replace (skip mod bs <=? 0) with false by lia.
    replace (bs <=? skip mod bs) with false by lia. res_simpl.
    rewrite Hdiv, Z.eqb_refl. res_simpl.
    replace (skip =? skip / bs * bs + skip mod bs) with true by lia. res_simpl.
    replace (chunk - skip =? _) with true by nia. done.
  - unfold full_start in Hf. replace (skip =? f * bs) with true by lia. res_simpl.
    replace (chunk - skip =? _) with true by nia. done.
Qed.

Lemma plan_chunk_unfold :
  plan_block_first_chunk kv sm dir bs skip_before (start, end_) =
  if negb (chunk mod bs =? 0) then Ok (fallback "chunk is not a whole number of blocks")
  else if skip =? chunk then Ok (fallback "no uncached physical blocks remain")
  else
    edge ← plan_edge sm nb bs start skip;
    match edge with
    | inl reason => Ok (fallback reason)
    | inr leading =>
        let slots := py_slice sm (start + full_start leading) end_ in
        if negb (lenZ slots mod bs =? 0) then Ok (fallback "slot range is not block aligned")
        else
          slot_blocks ← reshape_blocks bs slots;
          scanned ← scan_blocks bs nb slot_blocks;
          match scanned with
          | inl reason => Ok (fallback reason)
          | inr pbs =>
              validate (bf_descriptor leading pbs) false false;;
              mret (Plan (Some (bf_descriptor leading pbs)) None)
          end
    end.
Proof.
  assert (dim kv 0 = nb) as Hdim by (unfold dim; by rewrite (bf_shape Hkv)).
  unfold plan_block_first_chunk. rewrite Hdim. reflexivity.
Qed.

Definition bf_rows (leading : option DirectIOLeadingEdge) : list (list Z) :=
  rows (Z.to_nat bs) (py_slice sm (start + full_start leading) (start + chunk)).

Lemma start_chunk : start + chunk = end_.
Proof. unfold chunk. lia. Qed.

Lemma bf_rows_blocks leading pbs :
  skip < chunk -> chunk mod bs = 0 -> edge_ok sm start bs nb skip leading ->
  Forall2 (block_row bs nb) (bf_rows leading) pbs <->
  lenZ pbs = (chunk - full_start leading) / bs /\
  maps_tokens sm start bs nb (full_start leading) chunk
    (fun b => pbs !! Z.to_nat (b - full_start leading / bs)).
Proof.
  intros Hsc Hc He. destruct (full_start_aligned leading Hsc Hc He) as (Ha & Hfs & _).
  destruct (bf_pos Hkv) as (_ & _ & Hbs & _). pose proof skip_bounds.
  apply slots_blocks; try done; rewrite ?start_chunk; lia.
Qed.

Lemma skip_block_end : skip < chunk -> chunk mod bs = 0 -> (skip / bs + 1) * bs <= chunk.
Proof.
  intros Hsc Hc. destruct (bf_pos Hkv) as (_ & _ & Hbs & _).
  apply Z.mod_divide in Hc as [q Hq]; [|lia].
  assert (skip / bs < q) by (apply Z.div_lt_upper_bound; lia). nia.
Qed.

Lemma bf_reshape leading :
  skip < chunk -> chunk mod bs = 0 -> edge_ok sm start bs nb skip leading ->
  lenZ (py_slice sm (start + full_start leading) end_) mod bs = 0 /\
  reshape_blocks bs (py_slice sm (start + full_start leading) end_) = Ok (bf_rows leading).
Proof.
  intros Hsc Hc He. destruct (full_start_aligned leading Hsc Hc He) as (Ha & Hfs & _).
  destruct (bf_pos Hkv) as (_ & _ & Hbs & _). pose proof skip_bounds.
  rewrite <- start_chunk. split.
  - rewrite slots_length by (rewrite ?start_chunk; lia). by apply slots_aligned.
  - apply reshape_slots; rewrite ?start_chunk; done || lia.
Qed.

(** A chunk gets a descriptor exactly when edge and rows are physical blocks. *)
Lemma plan_chunk_iff d r :
  plan_block_first_chunk kv sm dir bs skip_before (start, end_) = Ok (Plan (Some d) r) <->
  r = None /\ skip < chunk /\ chunk mod bs = 0 /\
  exists leading pbs, d = bf_descriptor leading pbs
    /\ edge_ok sm start bs nb skip leading /\ Forall2 (block_row bs nb) (bf_rows leading) pbs.
Proof.
  destruct (bf_pos Hkv) as (_ & _ & Hbs & _). pose proof skip_bounds as Hsb.
  rewrite plan_chunk_unfold. destruct (Z.eqb_spec (chunk mod bs) 0) as [Hc|Hc]; simpl;
    [|split; [done|lia]].
  destruct (Z.eqb_spec skip chunk) as [Hsc|Hsc]; [split; [done|lia]|].
  assert (skip < chunk) as Hlt by lia.
  pose proof (skip_block_end Hlt Hc) as Hse.
  assert (start + (skip / bs + 1) * bs <= lenZ sm) as Hsm by (unfold chunk in *; lia).
  split.
  - intros H. res_inv. destruct x as [reason|leading]; [discriminate|].
    assert (edge_ok sm start bs nb skip leading) as He
      by (apply (plan_edge_ok sm start bs nb skip); done || lia).
    destruct (bf_reshape leading Hlt Hc He) as [Hal Hre].
    cbv zeta in H. rewrite Hal, Hre in H. cbn [Z.eqb negb] in H. res_inv.
    destruct x0 as [reason|pbs]; [discriminate|]. res_inv. subst.
    repeat split; try done. exists leading, pbs. repeat split; try done.
    by apply scan_blocks_sound.
  - intros (-> & _ & _ & leading & pbs & -> & He & Hpbs).
    rewrite (proj2 (plan_edge_ok _ _ _ _ _ Hbs Hstart (proj1 Hsb) Hsm leading) He).
    res_simpl. destruct (bf_reshape leading Hlt Hc He) as [Hal Hre].
    cbv zeta. rewrite Hal, Hre. cbn [Z.eqb]. res_simpl.
    rewrite (scan_blocks_complete bs nb _ pbs) by done. res_simpl.
    apply bf_rows_blocks in Hpbs as Hm; try done. destruct Hm as [Hl _].
    rewrite bf_descriptor_valid; try done.
    eapply Forall2_Forall_r; [exact Hpbs|]. apply list.Forall_forall.
    by intros row _ p [_ Hp].
Qed.

Lemma bf_descriptor_block leading pbs b :
  descriptor_block (bf_descriptor leading pbs) b =
  match leading with
  | Some e => if b =? edge_logical_block e then Some (edge_physical_block e)
              else runs_block (coalesce_runs (full_start leading / bs) pbs) b
  | None => runs_block (coalesce_runs (full_start leading / bs) pbs) b
  end.
Proof. by destruct leading. Qed.

(** The descriptor's blocks are the blocks of the slot mapping. *)
Lemma bf_descriptor_maps leading pbs :
  skip < chunk -> chunk mod bs = 0 -> edge_ok sm start bs nb skip leading ->
  Forall2 (block_row bs nb) (bf_rows leading) pbs ->
  maps_tokens sm start bs nb skip chunk (descriptor_block (bf_descriptor leading pbs)).
Proof.
  intros Hsc Hc He Hp. destruct (full_start_aligned leading Hsc Hc He) as (Ha & Hfs & Hdiv).
  apply bf_rows_blocks in Hp as [_ Hp]; try done.
  destruct (bf_pos Hkv) as (_ & _ & Hbs & _). pose proof skip_bounds as Hsb.
  pose proof (skip_block_end Hsc Hc) as Hse.
  pose proof (skip_div_mod bs skip Hbs) as [Hd Hm].
  apply Z.mod_divide in Ha as [f Hf]; [|lia].
  assert (forall t, full_start leading <= t -> full_start leading / bs <= t / bs) as Hge
    by (intros; apply Z.div_le_mono; lia).
  assert (forall t, full_start leading <= t < chunk -> exists p,
    runs_block (coalesce_runs (full_start leading / bs) pbs) (t / bs) = Some p
    /\ 0 <= p < nb /\ sm !! Z.to_nat (start + t) = Some (p * bs + t mod bs)) as Hruns.
  { intros t Ht. destruct (Hp t Ht) as (p & Hb & Hpb). exists p. split; [|done].
    specialize (Hge t ltac:(lia)). rewrite coalesce_runs_block.
    by replace (t / bs <? full_start leading / bs) with false by lia. }
  intros t Ht. rewrite bf_descriptor_block. destruct leading as [e|].
  - destruct He as (Hne & Hlb & _ & Hcnt & Hpe & Hsl). rewrite Hlb in *.
    destruct (Z.eqb_spec (t / bs) (skip / bs)) as [Heq|Hneq].
    + exists (edge_physical_block e). repeat split; try lia.
      assert (start + (skip / bs + 1) * bs <= lenZ sm) as Hsm by (unfold chunk in *; lia).
      apply (edge_slots_maps sm start bs skip Hbs Hstart (proj1 Hsb) Hsm); [done|].
      split; [lia|]. pose proof (Z.div_mod t bs). pose proof (Z.mod_pos_bound t bs). nia.
    + apply Hruns. split; [|lia]. unfold full_start in *. rewrite Hcnt in *.
      assert (skip / bs <= t / bs) by (apply Z.div_le_mono; lia).
      pose proof (Z.div_mod t bs). pose proof (Z.mod_pos_bound t bs). nia.
  - apply Hruns. unfold full_start in *. lia.
Qed.

(** Conversely a mapped chunk has a leading edge and rows. *)
Lemma maps_bf_descriptor blk :
  skip < chunk -> chunk mod bs = 0 -> maps_tokens sm start bs nb skip chunk blk ->
  exists leading pbs, edge_ok sm start bs nb skip leading
    /\ Forall2 (block_row bs nb) (bf_rows leading) pbs.
Proof.
  intros Hsc Hc Hmap. destruct (bf_pos Hkv) as (_ & _ & Hbs & _).
  pose proof skip_bounds as Hsb. pose proof (skip_block_end Hsc Hc) as Hse.
  pose proof (skip_div_mod bs skip Hbs) as [Hd Hm].
  assert (exists leading, edge_ok sm start bs nb skip leading) as [leading He].
  { destruct (decide (skip mod bs = 0)) as [E|E]; [by exists None|].
    destruct (Hmap skip) as (p & Hb & Hp & Hs); [lia|].
    exists (Some (LeadingEdge (skip / bs) p (skip mod bs) (bs - skip mod bs))).
    simpl. repeat split; try lia.
    assert (start + (skip / bs + 1) * bs <= lenZ sm) as Hsm by (unfold chunk in *; lia).
    apply (edge_slots_maps sm start bs skip Hbs Hstart (proj1 Hsb) Hsm).
    intros t Ht. destruct (Hmap t) as (p' & Hb' & _ & Hs'); [lia|].
    assert (t / bs = skip / bs) as Heq.
    { symmetry. apply Z.div_unique with (t - skip / bs * bs); nia. }
    rewrite Heq in Hb'. by simplify_eq. }
  exists leading. destruct (full_start_aligned leading Hsc Hc He) as (Ha & Hfs & _).
  apply Z.mod_divide in Ha as [f Hf]; [|lia]. apply Z.mod_divide in Hc as Hq; [|lia].
  destruct Hq as [q Hq].
  exists ((fun b => default 0 (blk b)) <$> rangeZ f (Z.to_nat (q - f))).
  split; [done|]. apply bf_rows_blocks; try done.
  rewrite Hq, Hf, <- Z.mul_sub_distr_r, !Z.div_mul by lia. split.
  { unfold lenZ. rewrite length_fmap, length_rangeZ. nia. }
  intros t Ht. destruct (Hmap t) as (p & Hb & Hp & Hs); [lia|]. exists p. split; [|done].
  assert (f <= t / bs < q)
    by (split; [apply Z.div_le_lower_bound; nia | apply Z.div_lt_upper_bound; nia]).
  rewrite list_lookup_fmap, lookup_rangeZ by lia. simpl.
  replace (f + Z.of_nat (Z.to_nat (t / bs - f))) with (t / bs) by lia. by rewrite Hb.
Qed.

(** The chunk body returns on every input. *)
Lemma plan_chunk_total :
  exists p, plan_block_first_chunk kv sm dir bs skip_before (start, end_) = Ok p.
Proof.
  destruct (bf_pos Hkv) as (_ & _ & Hbs & _). pose proof skip_bounds as Hsb.
  destruct (decide (skip < chunk)) as [Hlt|Hlt]; [|].
  2: { rewrite plan_chunk_unfold. case_match; [by eexists|].
       replace (skip =? chunk) with true by lia. by eexists. }
  destruct (Z.eq_dec (chunk mod bs) 0) as [Hc|Hc].
  2: { rewrite plan_chunk_unfold. rewrite (proj2 (Z.eqb_neq _ _) Hc). by eexists. }
  pose proof (skip_block_end Hlt Hc) as Hse.
  assert (start + (skip / bs + 1) * bs <= lenZ sm) as Hsm by (unfold chunk in *; lia).
  destruct (plan_edge_total sm start bs nb skip Hbs Hstart (proj1 Hsb) Hsm) as [[reason|leading] Hpe].
  { rewrite plan_chunk_unfold. rewrite (proj2 (Z.eqb_eq _ _) Hc), Hpe. simpl.
    case_match; by eexists. }
  assert (edge_ok sm start bs nb skip leading) as He
      by (apply (plan_edge_ok sm start bs nb skip); done || lia).
  destruct (bf_reshape leading Hlt Hc He) as [Hal Hre].
  destruct (scan_blocks_total bs nb (bf_rows leading)) as [[reason|pbs] Hscan].
  { apply slots_rows_nonempty; try done; try lia. }
  - rewrite plan_chunk_unfold. rewrite (proj2 (Z.eqb_eq _ _) Hc), Hpe. simpl.
    replace (skip =? chunk) with false by lia. rewrite Hal, Hre. simpl. rewrite Hscan.
    by eexists.
  - exists (Plan (Some (bf_descriptor leading pbs)) None). apply plan_chunk_iff.
    repeat split; try done. exists leading, pbs. repeat split; try done.
    by apply scan_blocks_sound.
Qed.

End block_first_chunk.

(** ** Lemmas: the range checks of the builders *)

Definition ranges_ok (sm starts ends : list Z) : Prop :=
  Forall2 (fun s e => 0 <= s < e /\ e <= lenZ sm) starts ends.

Lemma check_ranges_pass {A} sm starts ends (go : result (list A)) :
  ranges_ok sm starts ends -> starts <> [] -> check_ranges sm starts ends go = go.
Proof.
  intros Hr Hne. unfold check_ranges.
  assert (lenZ starts = lenZ ends) as -> by (unfold lenZ; by rewrite (Forall2_length Hr)).
  rewrite Z.eqb_refl. res_simpl. assert (forall x, x ∈ starts -> 0 <= x) as Hs.
  { intros x Hx. apply list_elem_of_lookup in Hx as [i Hi].
    destruct (Forall2_lookup_l _ _ _ _ _ Hr Hi) as (e & _ & H). lia. }
  assert (forall x, x ∈ ends -> x <= lenZ sm) as He.
  { intros x Hx. apply list_elem_of_lookup in Hx as [i Hi].
    destruct (Forall2_lookup_r _ _ _ _ _ Hr Hi) as (e & _ & H). lia. }
  assert (existsb (fun '(s, e) => e <=? s) (zip starts ends) = false) as Hz.
  { clear -Hr. induction Hr as [|s e starts ends Hse _ IH]; [done|]. simpl. rewrite IH.
    by replace (e <=? s) with false by lia. }
  destruct Hr as [|s0 e0 starts ends]; [done|].
  replace (py_min s0 (s0 :: starts) <? 0) with false.
  2: { symmetry. apply Z.ltb_ge. apply py_min_glb; [apply Hs; by left|done]. }
  rewrite Hz. res_simpl.
  replace (lenZ sm <? py_max e0 (e0 :: ends)) with false; [done|].
  symmetry. apply Z.ltb_ge. apply py_max_lub; [apply He; by left|done].
Qed.

Lemma check_ranges_Ok {A} sm starts ends (go : result (list A)) l :
  check_ranges sm starts ends go = Ok l ->
  (starts = [] /\ ends = [] /\ l = []) \/ (ranges_ok sm starts ends /\ go = Ok l).
Proof.
  unfold check_ranges. intros H. res_inv. bool_prop.
  assert (length starts = length ends) as Hlen by (unfold lenZ in *; lia).
  destruct starts as [|s0 starts], ends as [|e0 ends]; try discriminate.
  { left. by simplify_eq. }
  right. res_inv. bool_prop. split; [|done]. unfold ranges_ok. apply Forall2_same_length_lookup.
  split; [done|]. intros i s e Hs He.
  pose proof (py_min_le s0 (s0 :: starts)) as Hmin.
  pose proof (py_max_ge e0 (e0 :: ends)) as Hmax.
  apply list_elem_of_lookup_2 in Hs as Hs'. apply list_elem_of_lookup_2 in He as He'.
  pose proof (proj1 (list.Forall_forall _ _) Hmin s ltac:(by right)).
  pose proof (proj1 (list.Forall_forall _ _) Hmax e ltac:(by right)).
  assert (s < e); [|lia]. destruct (Z.lt_ge_cases s e) as [|Hge]; [done|].
  exfalso. match goal with Hx : existsb _ _ = false |- _ => rename Hx into Hex end.
  assert (existsb (fun '(s, e) => e <=? s) (zip (s0 :: starts) (e0 :: ends)) = true) as Ht.
  { apply existsb_exists. exists (s, e). split; [|lia]. apply list_elem_of_In.
    apply list_elem_of_lookup. exists i. apply lookup_zip_with_Some. eauto. }
  congruence.
Qed.

(** The plan of one range among the plans of all *)
Lemma mapR_zip_lookup {B} (f : Z * Z -> result B) starts ends plans i s e :
  mapR f (zip starts ends) = Ok plans -> starts !! i = Some s -> ends !! i = Some e ->
  exists p, plans !! i = Some p /\ f (s, e) = Ok p.
Proof.
  intros H%mapR_Ok Hs He.
  assert (zip starts ends !! i = Some (s, e)) as Hz by (apply lookup_zip_with_Some; eauto).
  destruct (Forall2_lookup_l _ _ _ _ _ H Hz) as (p & Hp & Hf). eauto.
Qed.

Lemma build_block_first_eq {Dt} {TD : TorchDtype Dt} (kv : kv_tensor Dt) nb nl bs nh hs
    sm starts ends dir skip_before :
  block_first_kv kv nb nl bs nh hs ->
  build_block_first_direct_plans kv sm starts ends dir bs skip_before =
  check_ranges sm starts ends
    (mapR (plan_block_first_chunk kv sm dir bs skip_before) (zip starts ends)).
Proof.
  intros [Hs Hp Hc _ _]. unfold build_block_first_direct_plans.
  assert (dim kv 2 = 2 /\ dim kv 3 = bs) as [-> ->] by (unfold dim; by rewrite Hs).
  rewrite Hs, Hc. replace (bs <=? 0) with false by lia. by rewrite !Z.eqb_refl.
Qed.

(** ** Properties: the block-first builder *)

(** Every descriptor the block-first builder returns passes
    [DirectIODescriptor.validate], covers exactly the uncached tokens of its chunk,
    and its runs and leading edge name for every token [t] of the chunk the
    physical block that the slot mapping gives that token, at the token's own
    offset inside the block. *)
Theorem block_first_plans_sound {Dt} {TD : TorchDtype Dt} (kv : kv_tensor Dt) nb nl bs nh hs
    sm starts ends dir skip_before plans i start end_ d r :
  block_first_kv kv nb nl bs nh hs ->
  build_block_first_direct_plans kv sm starts ends dir bs skip_before = Ok plans ->
  starts !! i = Some start -> ends !! i = Some end_ ->
  plans !! i = Some (Plan (Some d) r) ->
  let skip := skip_tokens_of dir skip_before start (end_ - start) in
  validate d false false = Ok tt
  /\ valid_token_start d = skip /\ valid_token_start d + valid_token_count d = end_ - start
  /\ maps_tokens sm start bs nb skip (end_ - start) (descriptor_block d).
Proof.
  intros Hkv H Hs He Hp skip. rewrite (build_block_first_eq _ _ _ _ _ _ _ _ _ _ _ Hkv) in H.
  apply check_ranges_Ok in H as [(-> & _)|[Hr H]]; [done|].
  destruct (mapR_zip_lookup _ _ _ _ _ _ _ H Hs He) as (p & Hp' & Hf).
  rewrite Hp in Hp'. injection Hp' as <-.
  destruct (Forall2_lookup_lr _ _ _ _ _ _ Hr Hs He) as [[Hs0 Hse] Hlen].
  pose proof Hf as Hf'.
  apply (plan_chunk_iff _ _ _ _ _ _ _ Hkv) in Hf as (_ & Hsc & Hc & le & pbs & -> & Hedge & Hb);
    try done.
  repeat split; simpl; try lia.
  - apply (bf_rows_blocks _ _ _ _ _ _ _ Hkv) in Hb as Hl; try done. destruct Hl as [Hl _].
    eapply bf_descriptor_valid; try done.
    eapply Forall2_Forall_r; [exact Hb|]. apply list.Forall_forall. by intros row _ p [_ Hpb].
  - by eapply bf_descriptor_maps.
Qed.

(** On a contiguous block-first allocation with well-formed ranges the builder
    always returns, one plan per chunk, and it plans direct I/O for a chunk exactly
    when the chunk is whole blocks, some token is uncached, and the uncached tokens
    lie in physical blocks of the allocation at their own offsets. *)
Theorem block_first_plans_complete {Dt} {TD : TorchDtype Dt} (kv : kv_tensor Dt) nb nl bs nh hs
    sm starts ends dir skip_before :
  block_first_kv kv nb nl bs nh hs -> ranges_ok sm starts ends ->
  exists plans, build_block_first_direct_plans kv sm starts ends dir bs skip_before = Ok plans
    /\ length plans = length starts
    /\ forall i start end_ p, starts !! i = Some start -> ends !! i = Some end_ ->
         plans !! i = Some p ->
         let skip := skip_tokens_of dir skip_before start (end_ - start) in
         is_Some (plan_descriptor p) <->
         skip < end_ - start /\ (end_ - start) mod bs = 0
         /\ exists blk, maps_tokens sm start bs nb skip (end_ - start) blk.
Proof.
  intros Hkv Hr. rewrite (build_block_first_eq _ _ _ _ _ _ _ _ _ _ _ Hkv).
  destruct (decide (starts = [])) as [->|Hne].
  { inversion Hr; subst. by exists []. }
  rewrite check_ranges_pass by done.
  assert (exists plans, mapR (plan_block_first_chunk kv sm dir bs skip_before) (zip starts ends)
    = Ok plans) as [plans Hplans].
  { apply mapR_total. intros [s e] Hin. apply list_elem_of_lookup in Hin as [i Hi].
    apply lookup_zip_with_Some in Hi as (s' & e' & [= <- <-] & Hs & He).
    destruct (Forall2_lookup_lr _ _ _ _ _ _ Hr Hs He) as [[Hs0 Hse] Hlen].
    by eapply plan_chunk_total. }
  exists plans. split; [done|]. split.
  { rewrite (mapR_length _ _ _ Hplans), length_zip_with, (Forall2_length Hr). lia. }
  intros i s e p Hs He Hp skip.
  destruct (mapR_zip_lookup _ _ _ _ _ _ _ Hplans Hs He) as (p' & Hp' & Hf).
  rewrite Hp in Hp'. injection Hp' as <-.
  destruct (Forall2_lookup_lr _ _ _ _ _ _ Hr Hs He) as [[Hs0 Hse] Hlen].
  split.
  - intros [d Hd]. destruct p as [d' r]. simpl in Hd. subst d'.
    apply (plan_chunk_iff _ _ _ _ _ _ _ Hkv) in Hf as (_ & Hsc & Hc & le & pbs & -> & Hedge & Hb);
      try done.
    split; [done|]. split; [done|]. eexists. by eapply bf_descriptor_maps.
  - intros (Hsc & Hc & blk & Hmap).
    destruct (maps_bf_descriptor kv sm nb nl bs nh hs Hkv dir skip_before s e Hs0 Hse Hlen
      blk Hsc Hc Hmap) as (le & pbs & Hedge & Hb).
    assert (plan_block_first_chunk kv sm dir bs skip_before (s, e) = Ok (Plan (Some
      (bf_descriptor kv bs dir skip_before s e le pbs)) None)) as Hf'.
    { eapply plan_chunk_iff; try done. repeat split; try done. by exists le, pbs. }
    rewrite Hf in Hf'. injection Hf' as ->. by eexists.
Qed.

(** A contiguous allocation [4, 1, 2, 2, 1, 1] and two chunks of four tokens *)
Definition ex_kv : kv_tensor ex_dtype :=
  KvTensor _ 7 [4; 1; 2; 2; 1; 1] [] true Float16 (TorchDevice "cuda" (Some 0)) 4096 4096 32.

Definition ex_slots : list Z := [4; 5; 6; 7; 2; 3; 0; 1].

Lemma ex_kv_ok : block_first_kv ex_kv 4 1 2 1 1.
Proof. by constructor. Qed.

Lemma block_first_plans_sound_witness :
  exists d, validate d false false = Ok tt
    /\ maps_tokens ex_slots 0 2 4 1 4 (descriptor_block d) /\ is_Some (leading_edge d).
Proof.
  eexists.
  destruct (block_first_plans_sound ex_kv 4 1 2 1 1 ex_slots [0; 4] [4; 8] RETRIEVE 1
    _ 0 0 4 _ None ex_kv_ok eq_refl eq_refl eq_refl eq_refl) as (Hv & _ & _ & Hm).
  split; [exact Hv|]. split; [exact Hm|]. eexists. reflexivity.
Defined.

Lemma block_first_plans_complete_witness :
  exists plans, build_block_first_direct_plans ex_kv ex_slots [0; 4] [4; 8] STORE 2 0 = Ok plans
    /\ length plans = 2%nat.
Proof.
  destruct (block_first_plans_complete ex_kv 4 1 2 1 1 ex_slots [0; 4] [4; 8] STORE 0 ex_kv_ok)
    as (plans & Hp & Hl & _); [by repeat constructor|].
  exists plans. split; [exact Hp|exact Hl].
Defined.

(** ** Lemmas: byte segments *)

Lemma tiles_app lo l1 l2 hi :
  tiles lo (l1 ++ l2) hi <-> exists mid, tiles lo l1 mid /\ tiles mid l2 hi.
Proof.
  revert lo. induction l1 as [|s l1 IH]; intros lo; simpl.
  - split; [eauto|]. by intros (mid & -> & H).
  - rewrite IH. split.
    + intros (H1 & H2 & mid & H3 & H4). exists mid. tauto.
    + intros (mid & (H1 & H2 & H3) & H4). eauto 10.
Qed.

Lemma tiles_le lo segs hi : tiles lo segs hi -> lo <= hi.
Proof.
  revert lo. induction segs as [|s segs IH]; intros lo; simpl; [lia|].
  intros (_ & Hn & H%IH). lia.
Qed.

Lemma tiles_sum lo segs hi : tiles lo segs hi -> sumZ (seg_nbytes <$> segs) = hi - lo.
Proof.
  revert lo. induction segs as [|s segs IH]; intros lo; cbn [tiles].
  - intros ->. simpl. lia.
  - intros (_ & Hn & H%IH). rewrite fmap_cons. unfold sumZ in *. cbn [foldr]. lia.
Qed.

Lemma tiles_offsets lo segs hi s :
  tiles lo segs hi -> s ∈ segs ->
  lo <= seg_file_offset s /\ 0 < seg_nbytes s /\ seg_file_offset s + seg_nbytes s <= hi.
Proof.
  revert lo. induction segs as [|s' segs IH]; intros lo; simpl; [by intros _ ?%not_elem_of_nil|].
  intros (Ho & Hn & H) [->|Hin]%elem_of_cons.
  - apply tiles_le in H. lia.
  - destruct (IH _ H Hin). lia.
Qed.

(** Tiling segments are already in file order. *)
Lemma tiles_sorted lo segs hi : tiles lo segs hi -> py_sorted seg_file_offset segs = segs.
Proof.
  revert lo. induction segs as [|s segs IH]; intros lo; simpl; [done|].
  intros (Ho & Hn & H). change (insert_by seg_file_offset s (py_sorted seg_file_offset segs)
    = s :: segs). rewrite (IH _ H). apply py_sorted_head. apply list.Forall_forall.
  intros s' Hin. pose proof (tiles_offsets _ _ _ _ H Hin). lia.
Qed.

(** In a tiling every byte of a segment is read to that segment's range. *)
Lemma tiles_lookup lo segs hi s x :
  tiles lo segs hi -> s ∈ segs ->
  seg_file_offset s <= x < seg_file_offset s + seg_nbytes s ->
  seg_lookup segs x
  = Some (seg_allocation_index s, seg_allocation_offset s + (x - seg_file_offset s)).
Proof.
  revert lo. induction segs as [|s' segs IH]; intros lo; simpl; [by intros _ ?%not_elem_of_nil|].
  intros (Ho & Hn & H) [->|Hin]%elem_of_cons Hx.
  - by replace ((seg_file_offset s' <=? x) && (x <? seg_file_offset s' + seg_nbytes s'))
      with true by lia.
  - pose proof (tiles_offsets _ _ _ _ H Hin).
    replace ((seg_file_offset s' <=? x) && (x <? seg_file_offset s' + seg_nbytes s'))
      with false by lia. by eapply IH.
Qed.

(** The loop of [_validate_byte_segments] accepts exactly the in-bounds tilings. *)
Lemma validate_segments_Ok ra allocs lo segs hi :
  validate_segments ra allocs lo segs = Ok hi <->
  tiles lo segs hi /\ Forall (seg_in_bounds ra allocs) segs.
Proof.
  revert lo. induction segs as [|s segs IH]; intros lo; cbn [validate_segments tiles].
  - split; [by intros [= ->]|by intros [-> _]].
  - split.
    + intros H. res_inv. bool_prop. apply IH in H as [Ht Hf].
      apply py_index_nonneg in H2; [|lia]. repeat split; try done; try lia.
      constructor; [|done]. exists x. repeat split; try done; try lia.
      intros Hra. match goal with H : _ \/ existsb _ _ = false |- _ => destruct H end;
        [congruence|assumption].
    + intros [(Ho & Hn & Ht) Hf]. inversion Hf as [|? ? Hs Hf']; subst.
      destruct Hs as (a & Hi & Ha & Hao & _ & Hb & Hal).
      rewrite Z.eqb_refl. res_simpl.
      assert (seg_allocation_index s < lenZ allocs)
        by (apply lookup_lt_Some in Ha; unfold lenZ; lia).
      replace (seg_allocation_index s <? 0) with false by lia.
      replace (lenZ allocs <=? seg_allocation_index s) with false by lia. res_simpl.
      rewrite (proj2 (py_index_nonneg _ _ _ Hi) Ha). res_simpl.
      replace (seg_allocation_offset s <? 0) with false by lia.
      replace (seg_nbytes s <=? 0) with false by lia.
      replace (alloc_nbytes a <? _) with false by lia. res_simpl.
      assert (ra && existsb unaligned
        [seg_file_offset s; seg_allocation_offset s; seg_nbytes s] = false) as ->.
      { destruct ra; [by apply Hal|done]. }
      res_simpl. by apply IH.
Qed.

Definition alloc_ok (rc ra : bool) (dev : torch_device) (a : DirectIOAllocation) : Prop :=
  validate_allocation rc ra dev a = Ok tt.

Lemma validate_allocations_Ok rc ra dev allocs us :
  mapR (validate_allocation rc ra dev) allocs = Ok us -> Forall (alloc_ok rc ra dev) allocs.
Proof.
  intros H%mapR_Ok. induction H as [|a [] allocs us Ha _ IH]; by constructor.
Qed.

Lemma validate_allocations_pass rc ra dev allocs :
  Forall (alloc_ok rc ra dev) allocs ->
  exists us, mapR (validate_allocation rc ra dev) allocs = Ok us.
Proof.
  intros H. apply mapR_total. intros a Ha. exists tt.
  by apply (proj1 (list.Forall_forall _ _) H).
Qed.

(** Byte-segment descriptors that pass validation *)
Lemma validate_byte_segments_Ok d rc ra :
  validate_byte_segments d rc ra = Ok tt <->
  direction d = RETRIEVE /\ runs d = [] /\ leading_edge d = None
  /\ allocations d <> [] /\ byte_segments d <> []
  /\ valid_token_start d = logical_block_start d * desc_block_size d
  /\ valid_token_count d = logical_block_count d * desc_block_size d
  /\ Forall (alloc_ok rc ra (device d)) (allocations d)
  /\ tiles (file_payload_offset d + logical_block_start d * block_nbytes d)
       (py_sorted seg_file_offset (byte_segments d))
       (file_payload_offset d + (logical_block_start d + logical_block_count d) * block_nbytes d)
  /\ Forall (seg_in_bounds ra (allocations d)) (byte_segments d).
Proof.
  unfold validate_byte_segments. split.
  - intros H. res_inv. bool_prop.
    apply validate_segments_Ok in H6 as [Ht Hb]. apply validate_allocations_Ok in H5.
    rewrite (py_sorted_perm seg_file_offset (byte_segments d)) in Hb. subst.
    destruct (runs d); [|done]. destruct (leading_edge d); [done|].
    destruct (allocations d); [done|]. destruct (byte_segments d); [done|].
    apply dec_stable in H0. repeat split; try done; lia.
  - intros (-> & -> & -> & Ha & Hb & -> & -> & Hal & Ht & Hs).
    rewrite bool_decide_false by tauto. res_simpl. cbn [is_nil is_none]. res_simpl.
    assert (is_nil (allocations d) || is_nil (byte_segments d) = false) as ->
      by (destruct (allocations d), (byte_segments d); done).
    rewrite !Z.eqb_refl. res_simpl.
    destruct (validate_allocations_pass _ _ _ _ Hal) as [us ->]. res_simpl.
    rewrite <- (py_sorted_perm seg_file_offset (byte_segments d)) in Hs.
    rewrite (proj2 (validate_segments_Ok _ _ _ _ _) (conj Ht Hs)). res_simpl.
    by rewrite Z.eqb_refl.
Qed.

Definition covers (s : DirectIOByteSegment) (x : Z) : Prop :=
  seg_file_offset s <= x < seg_file_offset s + seg_nbytes s.

Lemma tiles_cover lo segs hi x :
  tiles lo segs hi -> lo <= x < hi -> exists s, s ∈ segs /\ covers s x.
Proof.
  revert lo. induction segs as [|s segs IH]; intros lo; simpl; [lia|].
  intros (Ho & Hn & H) Hx. unfold covers in *.
  destruct (Z.lt_ge_cases x (lo + seg_nbytes s)).
  - exists s. split; [by left|lia].
  - destruct (IH _ H ltac:(lia)) as (s' & Hin & Hc). exists s'. split; [by right|done].
Qed.

Lemma tiles_unique lo segs hi s s' x :
  tiles lo segs hi -> s ∈ segs -> s' ∈ segs -> covers s x -> covers s' x -> s = s'.
Proof.
  revert lo. induction segs as [|s0 segs IH]; intros lo; simpl; [by intros _ ?%not_elem_of_nil|].
  unfold covers in *. intros (Ho & Hn & H) [->|Hin]%elem_of_cons [->|Hin']%elem_of_cons Hc Hc'.
  - done.
  - pose proof (tiles_offsets _ _ _ _ H Hin'). lia.
  - pose proof (tiles_offsets _ _ _ _ H Hin). lia.
  - by eapply IH.
Qed.

Lemma validate_runs_Ok capacity l : forall expected tr n,
  validate_runs capacity expected tr l = Ok n ->
  tr <= n /\ forall b, expected <= b < expected + (n - tr) ->
    exists p, runs_block l b = Some p /\ 0 <= p < capacity.
Proof.
  induction l as [|r l IH]; intros expected tr n; simpl.
  - intros [= ->]. split; [lia|]. lia.
  - intros H. res_inv. bool_prop. apply IH in H as [Hle H]. split; [lia|]. intros b Hb.
    destruct (Z.ltb_spec b (run_logical_block_start r + run_block_count r)).
    + replace (run_logical_block_start r <=? b) with true by lia. simpl.
      eexists. split; [done|lia].
    + rewrite andb_false_r. apply H. lia.
Qed.

(** ** Properties: validation *)

(** A descriptor [DirectIODescriptor.validate] accepts moves exactly the bytes of
    its declared block range, inside memory it registered: without byte segments every
    declared block has a run giving it a physical block that fits the allocation; with
    byte segments every file byte of the range has exactly one segment, whose device
    byte lies inside the allocation the segment names. *)
Theorem validate_in_bounds d require_cuda require_alignment :
  validate d require_cuda require_alignment = Ok tt ->
  transferred_nbytes d = logical_block_count d * block_nbytes d
  /\ (byte_segments d = [] -> forall b,
        logical_block_start d <= b < logical_block_start d + logical_block_count d ->
        exists p, runs_block (runs d) b = Some p
          /\ 0 <= p * block_nbytes d /\ (p + 1) * block_nbytes d <= allocation_nbytes d)
  /\ (byte_segments d <> [] -> forall x,
        BLOCK_FIRST_HEADER_SIZE + logical_block_start d * block_nbytes d <= x
          < BLOCK_FIRST_HEADER_SIZE
            + (logical_block_start d + logical_block_count d) * block_nbytes d ->
        exists s a, s ∈ byte_segments d /\ covers s x
          /\ (forall s', s' ∈ byte_segments d -> covers s' x -> s' = s)
          /\ 0 <= seg_allocation_index s
          /\ allocations d !! Z.to_nat (seg_allocation_index s) = Some a
          /\ 0 <= seg_allocation_offset s + (x - seg_file_offset s) < alloc_nbytes a).
Proof.
  unfold validate. intros H. res_inv. bool_prop.
  destruct (byte_segments d) as [|s0 segs] eqn:Hsegs; cbn [is_nil negb] in H.
  - unfold transferred_nbytes. rewrite Hsegs. split; [done|]. split; [|done]. intros _ b Hb.
    res_inv. bool_prop. match goal with Hv : validate_runs _ _ _ _ = _ |- _ => apply validate_runs_Ok in Hv as [_ Hr] end.
    destruct (Hr b) as (p & Hp & Hpb); [lia|]. exists p. split; [done|].
    assert ((p + 1) * block_nbytes d <= allocation_nbytes d / block_nbytes d * block_nbytes d)
      by nia.
    pose proof (Z.mul_div_le (allocation_nbytes d) (block_nbytes d)). nia.
  - rewrite <- Hsegs in *. apply validate_byte_segments_Ok in H
      as (_ & _ & _ & _ & _ & _ & _ & _ & Ht & Hb).
    match goal with Hf : file_payload_offset d = _ |- _ => rewrite Hf in Ht end. split; [|split; [by rewrite Hsegs|]].
    + unfold transferred_nbytes. rewrite Hsegs, <- Hsegs.
      rewrite <- (py_sorted_perm seg_file_offset (byte_segments d)).
      rewrite (tiles_sum _ _ _ Ht). lia.
    + intros _ x Hx. destruct (tiles_cover _ _ _ x Ht Hx) as (s & Hin & Hc).
      assert (forall s, s ∈ py_sorted seg_file_offset (byte_segments d)
        <-> s ∈ byte_segments d) as Hmem by (intros; by rewrite py_sorted_perm).
      apply Hmem in Hin as Hin'.
      destruct (proj1 (list.Forall_forall _ _) Hb s Hin') as (a & Hi & Ha & Ho & Hn & Hlim & _).
      exists s, a. repeat split; try done; unfold covers in *; try lia.
      intros s' Hs' Hc'. eapply tiles_unique; [exact Ht|..]; by try apply Hmem.
Qed.

(** ** Lemmas: registered allocations *)

Section allocations.
Context {Dt : Type} {TD : TorchDtype Dt}.
Implicit Types (t : kv_tensor Dt) (allocs : list DirectIOAllocation).

(** The registered index and offset lead back to the tensor's data. *)
Definition alloc_entry allocs t (p : Z * Z) : Prop :=
  exists a, 0 <= p.1 /\ allocs !! Z.to_nat p.1 = Some a
    /\ alloc_base a = kt_storage_ptr t /\ alloc_nbytes a = kt_storage_nbytes t
    /\ p.2 = kt_data_ptr t - kt_storage_ptr t.

Definition tensor_allocation t : DirectIOAllocation :=
  Allocation (kt_device t) (kt_storage_ptr t) (kt_storage_nbytes t) (Some [kt_id t]).

Lemma alloc_entry_mono allocs extra t p :
  alloc_entry allocs t p -> alloc_entry (allocs ++ extra) t p.
Proof.
  intros (a & Hi & Ha & H). exists a. repeat split; try tauto. by apply lookup_app_l_Some.
Qed.

Lemma add_allocation_spec allocs t allocs' p :
  add_allocation allocs t = (allocs', p) ->
  alloc_entry allocs' t p
  /\ exists extra, allocs' = allocs ++ extra /\ Forall (eq (tensor_allocation t)) extra.
Proof.
  unfold add_allocation, find_allocation.
  destruct (list_find _ allocs) as [[i a]|] eqn:E; simpl; intros [= <- <-].
  - apply list_find_Some in E as (Hi & Hid & _). split; [|by exists []; rewrite app_nil_r].
    unfold alloc_identity, storage_identity in Hid.
    exists a. simpl. rewrite Nat2Z.id. simplify_eq. repeat split; done || lia.
  - split; [|by exists [tensor_allocation t]; split; [done|repeat constructor]].
    exists (tensor_allocation t). simpl. unfold lenZ. rewrite Nat2Z.id.
    repeat split; try done; [lia|]. by apply list_lookup_middle.
Qed.

Lemma add_allocations_spec ts : forall allocs allocs' ps,
  add_allocations allocs ts = (allocs', ps) ->
  Forall2 (alloc_entry allocs') ts ps
  /\ exists extra, allocs' = allocs ++ extra
       /\ Forall (fun a => exists t, t ∈ ts /\ a = tensor_allocation t) extra.
Proof.
  induction ts as [|t ts IH]; intros allocs allocs' ps; simpl.
  - intros [= <- <-]. split; [constructor|]. exists []. by rewrite app_nil_r.
  - destruct (add_allocation allocs t) as [allocs1 p] eqn:E1.
    destruct (add_allocations allocs1 ts) as [allocs2 ps'] eqn:E2. intros [= <- <-].
    apply add_allocation_spec in E1 as [He (ex1 & -> & Hex1)].
    apply IH in E2 as [Hes (ex2 & -> & Hex2)]. split.
    + constructor; [|done]. by apply alloc_entry_mono.
    + exists (ex1 ++ ex2). rewrite <- app_assoc. split; [done|]. apply Forall_app. split.
      * eapply list.Forall_impl; [exact Hex1|]. intros a <-. exists t. split; [by left|done].
      * eapply list.Forall_impl; [exact Hex2|]. intros a (t' & Hin & ->).
        exists t'. split; [by right|done].
Qed.

(** The key and value caches are registered in one pass over the flattened pairs. *)
Lemma add_asym_allocations_flat (kvs : list (kv_tensor Dt * kv_tensor Dt)) : forall allocs,
  let '(allocs', ps) := add_allocations allocs (kvs ≫= fun kv => [kv.1; kv.2]) in
  exists layers, add_asym_allocations allocs kvs = (allocs', layers)
    /\ ps = (layers ≫= fun l => [l.1.2; l.2.2]) /\ kvs = ((fun l => (l.1.1, l.2.1)) <$> layers).
Proof.
  induction kvs as [|[k v] kvs IH]; intros allocs; simpl; [by exists []|].
  destruct (add_allocation allocs k) as [allocs1 pk].
  destruct (add_allocation allocs1 v) as [allocs2 pv]. specialize (IH allocs2).
  destruct (add_allocations allocs2 _) as [allocs3 ps].
  destruct IH as (layers & -> & -> & ->). by eexists.
Qed.

End allocations.

(** ** Lemmas: per-layer segments *)

Section per_layer_segments.
Context (lbn nb : Z) (Hlbn : 0 < lbn).

Lemma layer_segments_tiles bfo p li l :
  tiles (bfo + li * 2 * lbn) (layer_segments bfo lbn nb p li l) (bfo + (li + 1) * 2 * lbn).
Proof. destruct l as [i o]. simpl. repeat split; lia. Qed.

Lemma block_segments_tiles bfo p layers : forall li,
  tiles (bfo + li * 2 * lbn) (block_segments bfo lbn nb p li layers)
    (bfo + (li + lenZ layers) * 2 * lbn).
Proof.
  induction layers as [|l layers IH]; intros li; cbn [block_segments].
  - simpl. unfold lenZ. simpl. lia.
  - apply tiles_app. eexists. split; [apply layer_segments_tiles|].
    rewrite lenZ_cons. replace (li + (1 + lenZ layers)) with (li + 1 + lenZ layers) by lia.
    apply IH.
Qed.

Lemma chunk_segments_tiles layers pbs : forall lb,
  let bn := lenZ layers * 2 * lbn in
  tiles (BLOCK_FIRST_HEADER_SIZE + lb * bn) (chunk_segments bn lbn nb layers lb pbs)
    (BLOCK_FIRST_HEADER_SIZE + (lb + lenZ pbs) * bn).
Proof.
  induction pbs as [|p pbs IH]; intros lb bn; cbn [chunk_segments].
  - simpl. unfold lenZ. simpl. lia.
  - apply tiles_app. exists (BLOCK_FIRST_HEADER_SIZE + (lb + 1) * bn). split.
    + pose proof (block_segments_tiles (BLOCK_FIRST_HEADER_SIZE + lb * bn) p layers 0) as H.
      subst bn. replace (BLOCK_FIRST_HEADER_SIZE + (lb + 1) * (lenZ layers * 2 * lbn))
        with (BLOCK_FIRST_HEADER_SIZE + lb * (lenZ layers * 2 * lbn)
              + (0 + lenZ layers) * 2 * lbn) by lia.
      replace (BLOCK_FIRST_HEADER_SIZE + lb * (lenZ layers * 2 * lbn) + 0 * 2 * lbn) with
        (BLOCK_FIRST_HEADER_SIZE + lb * (lenZ layers * 2 * lbn)) in H by lia. exact H.
    + rewrite lenZ_cons. replace (lb + (1 + lenZ pbs)) with (lb + 1 + lenZ pbs) by lia. apply IH.
Qed.

(** The K ([k = 0]) or V ([k = 1]) segment of one layer of one block *)
Definition region_segment (bfo li : Z) (l : Z * Z) (p k : Z) : DirectIOByteSegment :=
  ByteSegment (bfo + (li * 2 + k) * lbn) l.1 (l.2 + (k * nb + p) * lbn) lbn.

Lemma block_segments_elem bfo p layers l k (i : nat) : forall li,
  layers !! i = Some l -> k = 0 \/ k = 1 ->
  region_segment bfo (li + Z.of_nat i) l p k ∈ block_segments bfo lbn nb p li layers.
Proof.
  revert i. induction layers as [|l' layers IH]; intros i li Hl Hk; [done|].
  cbn [block_segments]. apply elem_of_app. destruct i as [|i]; simpl in Hl.
  - left. injection Hl as ->. destruct l as [a o]. unfold region_segment. simpl.
    rewrite Z.add_0_r. destruct Hk as [-> | ->]; [by left|by right; left].
  - right. replace (li + Z.of_nat (S i)) with (li + 1 + Z.of_nat i) by lia. by apply IH.
Qed.

Lemma chunk_segments_elem bn layers pbs l p k (i j : nat) : forall lb,
  pbs !! j = Some p -> layers !! i = Some l -> k = 0 \/ k = 1 ->
  region_segment (BLOCK_FIRST_HEADER_SIZE + (lb + Z.of_nat j) * bn) (Z.of_nat i) l p k
    ∈ chunk_segments bn lbn nb layers lb pbs.
Proof.
  revert j. induction pbs as [|p' pbs IH]; intros j lb Hp Hl Hk; [done|].
  cbn [chunk_segments]. apply elem_of_app. destruct j as [|j]; simpl in Hp.
  - left. injection Hp as ->. rewrite Z.add_0_r.
    pose proof (block_segments_elem (BLOCK_FIRST_HEADER_SIZE + lb * bn) p layers l k i 0 Hl Hk)
      as H. by rewrite Z.add_0_l in H.
  - right. replace (lb + Z.of_nat (S j)) with (lb + 1 + Z.of_nat j) by lia. by apply IH.
Qed.

Lemma chunk_segments_Forall (P : DirectIOByteSegment -> Prop) bn layers pbs :
  (forall bfo li l p k, l ∈ layers -> p ∈ pbs -> k = 0 \/ k = 1 ->
     P (region_segment bfo li l p k)) ->
  forall lb, Forall P (chunk_segments bn lbn nb layers lb pbs).
Proof.
  assert (forall bfo p, (forall li l k, l ∈ layers -> k = 0 \/ k = 1 ->
    P (region_segment bfo li l p k)) ->
    forall li, Forall P (block_segments bfo lbn nb p li layers)) as Hblock.
  { intros bfo p. induction layers as [|l layers' IH]; intros HP li; [constructor|].
    cbn [block_segments]. apply Forall_app. split; [|apply IH; intros; apply HP; [by right|done]].
    pose proof (HP li l 0 ltac:(by left) ltac:(by left)).
    pose proof (HP li l 1 ltac:(by left) ltac:(by right)).
    destruct l as [a o]. by repeat constructor. }
  intros HP. induction pbs as [|p pbs IH]; intros lb; [constructor|]. cbn [chunk_segments].
  apply Forall_app. split; [|apply IH; intros; apply HP; [done|by right|done]].
  apply Hblock. intros. apply HP; [done|by left|done].
Qed.

End per_layer_segments.

(** ** Lemmas: the per-layer builder *)

Section per_layer.
Context {Dt : Type} {TD : TorchDtype Dt} {TDL : TorchDtypeLaws Dt}.

(** A tensor inside its storage *)
Definition in_storage (t : kv_tensor Dt) (nbytes : Z) : Prop :=
  0 < kt_storage_ptr t /\ kt_storage_ptr t <= kt_data_ptr t
  /\ kt_data_ptr t + nbytes <= kt_storage_ptr t + kt_storage_nbytes t.

Context (kvs : list (kv_tensor Dt)) (first : kv_tensor Dt) (nb bs nh hs : Z).

Record per_layer_kv : Prop := {
  pl_first : exists rest, kvs = first :: rest;
  pl_shape : kt_shape first = [2; nb; bs; nh; hs];
  pl_pos : 0 < nb /\ 0 < bs /\ 0 < nh /\ 0 < hs /\ 0 < element_size first;
  pl_same : Forall (fun t => same_layout first t = true) kvs;
  pl_storage : Forall (fun t => in_storage t (prodZ (kt_shape t) * element_size t)) kvs;
}.

Context (Hkv : per_layer_kv) (sm : list Z) (skip_before start end_ : Z).
Context (Hstart : 0 <= start) (Hend : start < end_) (Hlen : end_ <= lenZ sm).
Context (allocs : list DirectIOAllocation) (layers : list (Z * Z))
  (Hadd : add_allocations [] kvs = (allocs, layers)).

Let lbn := layer_block_nbytes first.
Let chunk := end_ - start.
Let skip := Z.min chunk (Z.max 0 (skip_before - start)).

Lemma pl_lbn : lbn = bs * nh * hs * element_size first /\ 0 < lbn.
Proof.
  unfold lbn, layer_block_nbytes, dim. rewrite (pl_shape Hkv). simpl.
  destruct (pl_pos Hkv) as (? & ? & ? & ? & ?). split; [done|]. repeat apply Z.mul_pos_pos; done.
Qed.

Lemma pl_tensor t :
  t ∈ kvs -> kt_device t = kt_device first
    /\ in_storage t (2 * nb * lbn).
Proof.
  intros Hin.
  pose proof (proj1 (list.Forall_forall _ _) (pl_same Hkv) t Hin) as Hs.
  pose proof (proj1 (list.Forall_forall _ _) (pl_storage Hkv) t Hin) as Hst. simpl in Hst.
  unfold same_layout in Hs. bool_prop. split; [done|].
  destruct pl_lbn as [-> _]. unfold element_size in *.
  match goal with Hs : kt_shape t = _, Hd : kt_dtype t = _ |- _ => rewrite Hs, Hd in Hst end.
  rewrite (pl_shape Hkv) in Hst.
  replace (2 * nb * (bs * nh * hs * itemsize (kt_dtype first)))
    with (prodZ [2; nb; bs; nh; hs] * itemsize (kt_dtype first)); [done|].
  unfold prodZ. simpl. lia.
Qed.

Lemma pl_allocs :
  allocs <> [] /\ Forall (alloc_ok false false (kt_device first)) allocs
  /\ Forall2 (alloc_entry allocs) kvs layers
  /\ exists a, py_index allocs 0 = Ok a /\ 0 < alloc_base a /\ 0 < alloc_nbytes a.
Proof.
  destruct (add_allocations_spec _ _ _ _ Hadd) as [He (extra & Ha & Hf)]. simpl in Ha. subst extra.
  destruct (pl_first Hkv) as [rest Hrest]. pose proof pl_lbn as [_ Hlbn].
  destruct (pl_pos Hkv) as (Hnb & _).
  assert (allocs <> []) as Hne.
  { rewrite Hrest in He. inversion He as [|? ? ? ? (a & Hi & Hl & _)]; subst.
    intros ->. by rewrite lookup_nil in Hl. }
  assert (forall a, a ∈ allocs -> kt_device first = alloc_device a /\ 0 < alloc_base a
    /\ 0 < alloc_nbytes a /\ alloc_lifetime_token a <> None) as Hall.
  { intros a Ha. destruct (proj1 (list.Forall_forall _ _) Hf a Ha) as (t & Ht & ->).
    destruct (pl_tensor t Ht) as [Hd (Hp & Hle & Hn)]. simpl. rewrite Hd.
    repeat split; try done; nia. }
  repeat split; try done.
  - apply list.Forall_forall. intros a Ha. destruct (Hall a Ha) as (Hd & Hb & Hn & Hl).
    unfold alloc_ok, validate_allocation. cbn [andb]. res_simpl. rewrite <- Hd.
    rewrite bool_decide_false by tauto. res_simpl.
    replace (alloc_base a <=? 0) with false by lia.
    replace (alloc_nbytes a <=? 0) with false by lia. res_simpl.
    destruct (alloc_lifetime_token a); [done|]. done.
  - destruct allocs as [|a rest']; [done|]. exists a. split; [done|].
    destruct (Hall a ltac:(by left)) as (_ & Hb & Hn & _). done.
Qed.

Definition pl_descriptor (a0 : DirectIOAllocation) (pbs : list Z) : DirectIODescriptor :=
  let bn := lenZ kvs * 2 * lbn in
  segment_descriptor RETRIEVE (kt_device first) a0 bn bs (skip / bs) chunk skip
    (Some (kt_id <$> kvs)) allocs (chunk_segments bn lbn nb layers (skip / bs) pbs) pbs.

(** Any descriptor with tiling in-bounds segments passes validation. *)
Lemma segment_descriptor_valid ra dev a0 bn ls ct sk life segs pbs :
  0 < alloc_base a0 -> 0 < alloc_nbytes a0 -> 0 < bn -> 0 < bs -> 0 <= ls ->
  sk = ls * bs -> ct - sk = lenZ pbs * bs -> pbs <> [] -> allocs <> [] ->
  Forall (alloc_ok false ra dev) allocs ->
  tiles (BLOCK_FIRST_HEADER_SIZE + ls * bn) segs
    (BLOCK_FIRST_HEADER_SIZE + (ls + lenZ pbs) * bn) ->
  Forall (seg_in_bounds ra allocs) segs ->
  validate (segment_descriptor RETRIEVE dev a0 bn bs ls ct sk (Some life) allocs segs pbs)
    false ra = Ok tt.
Proof.
  intros Hb Hn Hbn Hbs Hls Hsk Hct Hpbs Ha Hal Ht Hsegs.
  assert (0 < lenZ pbs) as Hlen0 by (destruct pbs; [done|rewrite lenZ_cons; pose proof (lenZ_nonneg pbs); lia]).
  assert (segs <> []) as Hne by (intros ->; simpl in Ht; nia).
  unfold validate, segment_descriptor. cbn [device direction allocation_base allocation_nbytes
    engine_group_id block_nbytes desc_block_size logical_block_start logical_block_count
    valid_token_start valid_token_count runs leading_edge file_payload_offset synchronous
    lifetime_token allocations byte_segments is_nil is_none].
  res_simpl. replace (alloc_base a0 <=? 0) with false by lia.
  replace (alloc_nbytes a0 <=? 0) with false by lia. res_simpl.
  replace (bn <=? 0) with false by lia. replace (bs <=? 0) with false by lia. res_simpl.
  replace (ls <? 0) with false by lia. replace (lenZ pbs <? 0) with false by lia. res_simpl.
  replace (lenZ pbs =? 0) with false by lia. res_simpl. rewrite Z.eqb_refl. res_simpl.
  destruct segs as [|s segs]; [done|]. cbn [is_nil]. res_simpl.
  apply validate_byte_segments_Ok. simpl. repeat split; try done.
  change (tiles (BLOCK_FIRST_HEADER_SIZE + ls * bn) (py_sorted seg_file_offset (s :: segs))
    (BLOCK_FIRST_HEADER_SIZE + (ls + lenZ pbs) * bn)).
  by rewrite (tiles_sorted _ _ _ Ht).
Qed.

Lemma pl_skip_bounds : 0 <= skip <= chunk.
Proof. unfold skip, chunk. lia. Qed.

Lemma pl_bs : 0 < bs.
Proof. by destruct (pl_pos Hkv) as (_ & ? & _). Qed.

Lemma pl_layers_length : lenZ layers = lenZ kvs.
Proof. destruct pl_allocs as (_ & _ & H & _). unfold lenZ. by rewrite (Forall2_length H). Qed.

Definition pl_rows : list (list Z) :=
  rows (Z.to_nat bs) (py_slice sm (start + skip) (start + chunk)).

Lemma pl_rows_blocks pbs :
  chunk mod bs = 0 -> skip mod bs = 0 ->
  Forall2 (block_row bs nb) pl_rows pbs <->
  lenZ pbs = (chunk - skip) / bs
  /\ maps_tokens sm start bs nb skip chunk (fun b => pbs !! Z.to_nat (b - skip / bs)).
Proof.
  intros Hc Hs. pose proof pl_skip_bounds. pose proof pl_bs.
  apply slots_blocks; try done; unfold chunk in *; lia.
Qed.

Lemma pl_reshape :
  chunk mod bs = 0 -> skip mod bs = 0 ->
  reshape_blocks bs (py_slice sm (start + skip) end_) = Ok pl_rows.
Proof.
  intros Hc Hs. pose proof pl_skip_bounds. pose proof pl_bs. unfold pl_rows.
  assert (start + chunk = end_) as He by (unfold chunk; lia). rewrite <- He at 1.
  apply reshape_slots; done || lia.
Qed.

Lemma pl_valid a0 pbs :
  skip < chunk -> chunk mod bs = 0 -> skip mod bs = 0 -> py_index allocs 0 = Ok a0 ->
  Forall2 (block_row bs nb) pl_rows pbs ->
  validate (pl_descriptor a0 pbs) false false = Ok tt.
Proof.
  intros Hsc Hc Hs Ha0 Hp. destruct pl_lbn as [_ Hlbn].
  destruct pl_allocs as (Hne & Hal & He & (a & Ha & Hab & Han)). rewrite Ha0 in Ha.
  injection Ha as <-. pose proof pl_layers_length as Hll. pose proof pl_bs as Hbs.
  pose proof pl_skip_bounds. apply pl_rows_blocks in Hp as [Hl Hm]; try done.
  apply Z.mod_divide in Hc as [q Hq]; [|lia]. apply Z.mod_divide in Hs as [f Hf]; [|lia].
  rewrite Hq, Hf, <- Z.mul_sub_distr_r, Z.div_mul in Hl by lia.
  assert (0 < lenZ kvs).
  { destruct (pl_first Hkv) as [rest ->]. rewrite lenZ_cons. pose proof (lenZ_nonneg rest). lia. }
  assert (skip / bs = f) as Hfs by (rewrite Hf; apply Z.div_mul; lia).
  assert (forall p, p ∈ pbs -> 0 <= p < nb) as Hpb.
  { intros p Hp. apply list_elem_of_lookup in Hp as [i Hi].
    assert (Z.of_nat i < q - f) by (apply lookup_lt_Some in Hi; unfold lenZ in *; lia).
    destruct (Hm ((f + Z.of_nat i) * bs)) as (p' & Hp' & Hb & _); [nia|].
    rewrite Z.div_mul, Hfs in Hp' by lia.
    replace (Z.to_nat (f + Z.of_nat i - f)) with i in Hp' by lia. by simplify_eq. }
  unfold pl_descriptor. rewrite Hfs, <- Hll. apply segment_descriptor_valid; try done; try nia.
  - intros ->. unfold lenZ in Hl. simpl in Hl. nia.
  - by apply chunk_segments_tiles.
  - apply chunk_segments_Forall. intros bfo li l p k Hlin Hpin Hk. specialize (Hpb p Hpin).
    apply list_elem_of_lookup in Hlin as [i Hi].
    destruct (Forall2_lookup_r _ _ _ _ _ He Hi) as (t & Ht & a & Hai & Haa & Hbase & Hnb & Hoff).
    apply list_elem_of_lookup_2 in Ht. destruct (pl_tensor t Ht) as [_ (Hs1 & Hs2 & Hs3)].
    exists a. simpl. repeat split; try done; try nia.
Qed.

(** A chunk gets a descriptor exactly when its rows are physical blocks. *)
Lemma pl_chunk_iff d r :
  plan_per_layer_chunk kvs first allocs layers sm RETRIEVE bs skip_before (start, end_)
    = Ok (Plan (Some d) r) <->
  r = None /\ skip < chunk /\ chunk mod bs = 0 /\ skip mod bs = 0 /\
  exists a0 pbs, py_index allocs 0 = Ok a0 /\ d = pl_descriptor a0 pbs
    /\ Forall2 (block_row bs nb) pl_rows pbs.
Proof.
  pose proof pl_bs as Hbs. pose proof pl_skip_bounds.
  assert (dim first 1 = nb) as Hdim by (unfold dim; by rewrite (pl_shape Hkv)).
  unfold plan_per_layer_chunk. rewrite Hdim. fold chunk. fold skip.
  replace (bs =? 0) with false by lia. res_simpl.
  destruct (Z.eqb_spec (chunk mod bs) 0) as [Hc|Hc]; res_simpl; [|split; [done|tauto]].
  destruct (Z.eqb_spec skip chunk) as [Hsc|Hsc]; [split; [done|lia]|].
  destruct (Z.eqb_spec (skip mod bs) 0) as [Hs|Hs]; res_simpl; [|split; [done|tauto]].
  rewrite pl_reshape by done. res_simpl. split.
  - intros H'. res_inv. destruct x as [reason|pbs]; [discriminate|]. res_inv. subst.
    repeat split; try lia. exists x, pbs. repeat split; try done. by apply scan_blocks_sound.
  - intros (-> & _ & _ & _ & a0 & pbs & Ha0 & -> & Hp).
    rewrite (scan_blocks_complete bs nb _ pbs) by done. res_simpl. rewrite Ha0. res_simpl.
    pose proof (pl_valid a0 pbs ltac:(lia) Hc Hs Ha0 Hp) as Hv.
    unfold pl_descriptor, lbn in Hv. rewrite Hv. done.
Qed.

Lemma pl_chunk_total :
  exists p, plan_per_layer_chunk kvs first allocs layers sm RETRIEVE bs skip_before
    (start, end_) = Ok p.
Proof.
  pose proof pl_bs as Hbs. pose proof pl_skip_bounds.
  destruct (decide (skip < chunk /\ chunk mod bs = 0 /\ skip mod bs = 0)) as [(Hsc & Hc & Hs)|Hn].
  - destruct (scan_blocks_total bs nb pl_rows) as [[reason|pbs] Hscan].
    { apply slots_rows_nonempty; try done; unfold chunk in *; lia. }
    + unfold plan_per_layer_chunk. fold chunk. fold skip.
      assert (dim first 1 = nb) as -> by (unfold dim; by rewrite (pl_shape Hkv)).
      replace (bs =? 0) with false by lia. rewrite Hc, Hs. simpl.
      rewrite pl_reshape by done. simpl. rewrite Hscan. case_match; by eexists.
    + destruct pl_allocs as (_ & _ & _ & a0 & Ha0 & _).
      exists (Plan (Some (pl_descriptor a0 pbs)) None). apply pl_chunk_iff.
      repeat split; try done. exists a0, pbs. repeat split; try done. by apply scan_blocks_sound.
  - unfold plan_per_layer_chunk. fold chunk. fold skip. replace (bs =? 0) with false by lia.
    res_simpl. destruct (Z.eqb_spec (chunk mod bs) 0) as [Hc|Hc]; res_simpl; [|by eexists].
    destruct (Z.eqb_spec skip chunk) as [Hsc|Hsc]; [by eexists|].
    destruct (Z.eqb_spec (skip mod bs) 0) as [Hs|Hs]; res_simpl; [|by eexists].
    exfalso. apply Hn. repeat split; done || lia.
Qed.

(** File byte [c] of layer [l]'s K or V region of logical block [b] is read to the
    same byte of that layer's physical block. *)
Lemma pl_byte_address a0 pbs (i j : nat) t p k c :
  py_index allocs 0 = Ok a0 -> kvs !! i = Some t -> pbs !! j = Some p ->
  k = 0 \/ k = 1 -> 0 <= c < lbn ->
  byte_address (pl_descriptor a0 pbs)
    (BLOCK_FIRST_HEADER_SIZE + (skip / bs + Z.of_nat j) * (lenZ kvs * 2 * lbn)
     + (Z.of_nat i * 2 + k) * lbn + c)
  = Some (kt_data_ptr t + (k * nb + p) * lbn + c).
Proof.
  intros Ha0 Ht Hp Hk Hc. destruct pl_lbn as [_ Hlbn].
  destruct pl_allocs as (_ & _ & He & _). pose proof pl_layers_length as Hll.
  destruct (Forall2_lookup_l _ _ _ _ _ He Ht) as (l & Hl & a & Hi & Ha & Hbase & Hnb & Hoff).
  unfold byte_address, pl_descriptor. simpl. rewrite <- Hll.
  pose proof (chunk_segments_tiles lbn nb Hlbn layers pbs (skip / bs)) as Ht2.
  pose proof (chunk_segments_elem lbn nb (lenZ layers * 2 * lbn) layers pbs l p k i j
    (skip / bs) Hp Hl Hk) as Hin.
  rewrite (tiles_lookup _ _ _ _ _ Ht2 Hin) by (unfold region_segment; simpl; lia).
  simpl. rewrite Ha. simpl. f_equal. lia.
Qed.

End per_layer.

(** ** Properties: the per-layer builder *)

(** Over per-layer allocations that lie inside their storages the builder always
    returns one plan per range, and each descriptor passes validation and reads every
    byte of the block-first file to its place: byte [c] of the K ([k = 0]) or V
    ([k = 1]) region of layer [i] of logical block [b] goes to byte [c] of region
    [k], block [p] of that layer's tensor, where [p] is the physical block the slot
    mapping gives the tokens of [b]. *)
Theorem per_layer_plans_correct {Dt} {TD : TorchDtype Dt}
    (kvs : list (kv_tensor Dt)) first nb bs nh hs sm starts ends skip_before :
  per_layer_kv kvs first nb bs nh hs -> ranges_ok sm starts ends ->
  exists plans,
    build_per_layer_direct_plans kvs sm starts ends RETRIEVE bs skip_before = Ok plans
    /\ length plans = length starts
    /\ forall n start end_ d r, starts !! n = Some start -> ends !! n = Some end_ ->
         plans !! n = Some (Plan (Some d) r) ->
         let skip := Z.min (end_ - start) (Z.max 0 (skip_before - start)) in
         validate d false false = Ok tt
         /\ forall t (i : nat) layer k c,
              skip <= t < end_ - start -> kvs !! i = Some layer -> k = 0 \/ k = 1 ->
              0 <= c < layer_block_nbytes first ->
              exists p, sm !! Z.to_nat (start + t) = Some (p * bs + t mod bs)
                /\ byte_address d
                     (BLOCK_FIRST_HEADER_SIZE + t / bs * block_nbytes d
                      + (Z.of_nat i * 2 + k) * layer_block_nbytes first + c)
                   = Some (kt_data_ptr layer + (k * nb + p) * layer_block_nbytes first + c).
Proof.
  intros Hkv Hr. destruct (pl_first _ _ _ _ _ _ Hkv) as [rest Hrest].
  assert (build_per_layer_direct_plans kvs sm starts ends RETRIEVE bs skip_before =
    check_ranges sm starts ends
      (let '(allocs, layers) := add_allocations [] kvs in
       mapR (plan_per_layer_chunk kvs first allocs layers sm RETRIEVE bs skip_before)
         (zip starts ends))) as ->.
  { unfold build_per_layer_direct_plans. rewrite bool_decide_false by tauto.
    rewrite Hrest at 1. f_equal.
    assert (dim first 0 = 2 /\ dim first 2 = bs) as [-> ->]
      by (unfold dim; by rewrite (pl_shape _ _ _ _ _ _ Hkv)).
    rewrite (pl_shape _ _ _ _ _ _ Hkv), !Z.eqb_refl. cbn [lenZ length Z.of_nat].
    assert (forallb (same_layout first) kvs = true) as ->; [|done].
    apply forallb_forall. intros t Ht%list_elem_of_In.
    by apply (proj1 (list.Forall_forall _ _) (pl_same _ _ _ _ _ _ Hkv)). }
  destruct (decide (starts = [])) as [->|Hne].
  { inversion Hr; subst. by exists []. }
  rewrite check_ranges_pass by done.
  destruct (add_allocations [] kvs) as [allocs layers] eqn:Hadd.
  assert (exists plans, mapR (plan_per_layer_chunk kvs first allocs layers sm RETRIEVE bs
    skip_before) (zip starts ends) = Ok plans) as [plans Hplans].
  { apply mapR_total. intros [s e] Hin. apply list_elem_of_lookup in Hin as [i Hi].
    apply lookup_zip_with_Some in Hi as (s' & e' & [= <- <-] & Hs & He).
    destruct (Forall2_lookup_lr _ _ _ _ _ _ Hr Hs He) as [[Hs0 Hse] Hlen].
    by eapply pl_chunk_total. }
  exists plans. split; [done|]. split.
  { rewrite (mapR_length _ _ _ Hplans), length_zip_with, (Forall2_length Hr). lia. }
  intros n s e d r Hs He Hp skip.
  destruct (mapR_zip_lookup _ _ _ _ _ _ _ Hplans Hs He) as (p' & Hp' & Hf).
  rewrite Hp in Hp'. injection Hp' as <-.
  destruct (Forall2_lookup_lr _ _ _ _ _ _ Hr Hs He) as [[Hs0 Hse] Hlen].
  eapply pl_chunk_iff in Hf; try done. destruct Hf as (_ & Hsc & Hc & Hs1 & a0 & pbs & Ha0 & -> & Hb).
  split; [by eapply pl_valid|]. intros t i layer k c Ht Hi Hk Hcb.
  eapply pl_rows_blocks in Hb as [_ Hm]; try done.
  destruct (Hm t Ht) as (p & Hpb & _ & Hsm). exists p. split; [done|].
  pose proof (pl_byte_address _ _ _ _ _ _ Hkv skip_before s e Hs0 Hse allocs layers Hadd a0 pbs i
    (Z.to_nat (t / bs - skip / bs)) layer p k c Ha0 Hi Hpb Hk Hcb) as Hba.
  fold skip in Hba. pose proof (pl_bs _ _ _ _ _ _ Hkv). assert (skip / bs <= t / bs) by (apply Z.div_le_mono; lia).
  replace (skip / bs + Z.of_nat (Z.to_nat (t / bs - skip / bs))) with (t / bs) in Hba by lia.
  exact Hba.
Qed.

Definition ex_layer (id ptr : Z) : kv_tensor ex_dtype :=
  KvTensor _ id [2; 4; 2; 1; 1] [] true Float16 (TorchDevice "cuda" (Some 0)) ptr ptr 32.

Lemma ex_layers_ok :
  per_layer_kv [ex_layer 1 4096; ex_layer 2 8192] (ex_layer 1 4096) 4 2 1 1.
Proof.
  constructor; [by eexists|done|done| |]; repeat constructor; done.
Qed.

Lemma per_layer_plans_correct_witness :
  exists d, validate d false false = Ok tt /\ byte_address d (4096 + 16 + 4 + 1) = Some (4096 + 28 + 1).
Proof.
  destruct (per_layer_plans_correct [ex_layer 1 4096; ex_layer 2 8192] (ex_layer 1 4096) 4 2 1 1
    ex_slots [0; 4] [4; 8] 2 ex_layers_ok ltac:(by repeat constructor)) as (plans & Hp & _ & H).
  vm_compute in Hp. injection Hp as <-. destruct (H 0%nat 0 4 _ _ eq_refl eq_refl eq_refl) as [Hv _].
  eexists. split; [exact Hv|vm_compute; reflexivity].
Defined.

(** ** Lemmas: coalescing [append_segment] calls *)

(** The segment one call stands for *)
Definition call_segment (hn : Z) (c : segment_call) : DirectIOByteSegment :=
  let '(f, i, o) := c in ByteSegment f i o hn.

Lemma seg_lookup_app l1 l2 x :
  seg_lookup (l1 ++ l2) x =
  match seg_lookup l1 x with Some r => Some r | None => seg_lookup l2 x end.
Proof.
  induction l1 as [|s l1 IH]; simpl; [done|].
  by destruct ((seg_file_offset s <=? x) && (x <? seg_file_offset s + seg_nbytes s)).
Qed.

Lemma tiles_lookup_past lo segs hi x : tiles lo segs hi -> hi <= x -> seg_lookup segs x = None.
Proof.
  revert lo. induction segs as [|s segs IH]; intros lo; simpl; [done|].
  intros (Ho & Hn & H) Hx. pose proof (tiles_le _ _ _ H).
  replace ((seg_file_offset s <=? x) && (x <? seg_file_offset s + seg_nbytes s))
    with false by lia. by eapply IH.
Qed.

(** One call after a tiling: the tiling grows by [hn] and only the new bytes gain a
    target. *)
Lemma append_call_spec hn lo segs mid c :
  0 < hn -> tiles lo segs mid -> c.1.1 = mid ->
  tiles lo (append_call hn segs c) (mid + hn)
  /\ forall x, seg_lookup (append_call hn segs c) x
       = seg_lookup (segs ++ [call_segment hn c]) x.
Proof.
  intros Hn Ht Hc. destruct c as [[f i] o]. simpl in Hc. subst f.
  assert (tiles lo (segs ++ [ByteSegment mid i o hn]) (mid + hn)) as Happ
    by (apply tiles_app; exists mid; split; [done|simpl; lia]).
  unfold append_call, append_segment, call_segment.
  destruct (list.last segs) as [prev|] eqn:Hl; [|by split].
  apply last_Some in Hl as [init ->]. case_match eqn:E; [|by split]. bool_prop. subst.
  rewrite length_app. simpl. replace (length init + 1 - 1)%nat with (length init) by lia.
  rewrite take_app_length. apply tiles_app in Ht as (m & Hi & Ho & Hp & Hm).
  simpl in Hm. subst. split.
  - apply tiles_app. exists (seg_file_offset prev). split; [done|]. simpl. repeat split; lia.
  - intros x. rewrite !seg_lookup_app. destruct (seg_lookup init x); [done|]. simpl.
    destruct (Z.leb_spec (seg_file_offset prev) x); simpl;
      [|replace (seg_file_offset prev + seg_nbytes prev <=? x) with false by lia; done].
    destruct (Z.ltb_spec x (seg_file_offset prev + seg_nbytes prev)).
    + by replace (x <? _) with true by lia.
    + replace (seg_file_offset prev + seg_nbytes prev <=? x) with true by lia. simpl.
      replace (x <? seg_file_offset prev + (seg_nbytes prev + hn))
        with (x <? seg_file_offset prev + seg_nbytes prev + hn) by (f_equal; lia).
      case_match; [|done]. do 2 f_equal. lia.
Qed.

Lemma append_calls_spec hn calls lo hi :
  0 < hn -> tiles lo (call_segment hn <$> calls) hi ->
  tiles lo (foldl (append_call hn) [] calls) hi
  /\ forall x, seg_lookup (foldl (append_call hn) [] calls) x
       = seg_lookup (call_segment hn <$> calls) x.
Proof.
  intros Hn. revert hi. induction calls as [|c calls IH] using rev_ind; intros hi; [done|].
  rewrite fmap_app, foldl_snoc. intros (mid & Ht & Hc)%tiles_app.
  destruct (IH _ Ht) as [Ht' Hlk]. destruct c as [[f i] o]. simpl in Hc.
  destruct Hc as (-> & _ & <-).
  destruct (append_call_spec hn lo _ mid (mid, i, o) Hn Ht' eq_refl) as [H1 H2].
  split; [exact H1|]. intros x. rewrite H2, !seg_lookup_app, Hlk. done.
Qed.

(** ** Lemmas: the calls of the asymmetric builder *)

(** A loop over [range(n)] whose body tiles [w] bytes tiles [n * w] bytes. *)
Lemma range_calls_tiles hn lo w (f : Z -> list segment_call) (n : nat) :
  (forall i, 0 <= i < Z.of_nat n ->
     tiles (lo + i * w) (call_segment hn <$> f i) (lo + (i + 1) * w)) ->
  tiles lo (call_segment hn <$> (rangeZ 0 n ≫= f)) (lo + Z.of_nat n * w).
Proof.
  induction n as [|n IH]; intros Hf; [simpl; lia|].
  rewrite rangeZ_S, bind_app, fmap_app. apply tiles_app.
  exists (lo + Z.of_nat n * w). split; [apply IH; intros; apply Hf; lia|].
  simpl. rewrite app_nil_r. specialize (Hf (Z.of_nat n) ltac:(lia)).
  replace (lo + Z.of_nat (S n) * w) with (lo + (Z.of_nat n + 1) * w) by lia. exact Hf.
Qed.

Section asym_calls.
Context {Dt : Type} (bs nh hn es : Z) (Hbs : 0 <= bs) (Hnh : 0 <= nh) (Hhn : 0 < hn).

Let lbn := bs * nh * hn.

Lemma region_calls_tiles (cache : kv_tensor Dt) ai tb td ro p :
  tiles ro (call_segment hn <$> region_calls cache ai tb td ro bs nh hn es p) (ro + lbn).
Proof.
  unfold region_calls.
  replace (ro + lbn) with (ro + Z.of_nat (Z.to_nat bs) * (nh * hn)) by (unfold lbn; lia).
  apply range_calls_tiles. intros t Ht.
  replace (ro + (t + 1) * (nh * hn)) with (ro + t * (nh * hn) + Z.of_nat (Z.to_nat nh) * hn) by lia.
  apply range_calls_tiles. intros h Hh. simpl. repeat split; lia.
Qed.

Lemma asym_layer_calls_tiles p bfo li (l : cache_layer Dt) :
  tiles (bfo + li * 2 * lbn) (call_segment hn <$> asym_layer_calls lbn bs nh hn es p bfo li l)
    (bfo + (li + 1) * 2 * lbn).
Proof.
  destruct l as [[kc [ki kb]] [vc [vi vb]]]. cbn [asym_layer_calls]. rewrite fmap_app.
  apply tiles_app. exists (bfo + (li * 2 + 1) * lbn). split.
  - replace (bfo + li * 2 * lbn) with (bfo + (li * 2 + 0) * lbn) by lia.
    replace (bfo + (li * 2 + 1) * lbn) with (bfo + (li * 2 + 0) * lbn + lbn) by lia.
    apply region_calls_tiles.
  - replace (bfo + (li + 1) * 2 * lbn) with (bfo + (li * 2 + 1) * lbn + lbn) by lia.
    apply region_calls_tiles.
Qed.

Lemma asym_block_calls_tiles p bfo (layers : list (cache_layer Dt)) : forall li,
  tiles (bfo + li * 2 * lbn)
    (call_segment hn <$> asym_block_calls lbn bs nh hn es p bfo li layers)
    (bfo + (li + lenZ layers) * 2 * lbn).
Proof.
  induction layers as [|l layers IH]; intros li; cbn [asym_block_calls].
  - simpl. unfold lenZ. simpl. lia.
  - rewrite fmap_app. apply tiles_app. eexists. split; [apply asym_layer_calls_tiles|].
    rewrite lenZ_cons. replace (li + (1 + lenZ layers)) with (li + 1 + lenZ layers) by lia.
    apply IH.
Qed.

Lemma asym_chunk_calls_tiles (layers : list (cache_layer Dt)) pbs : forall lb,
  let bn := lenZ layers * 2 * lbn in
  tiles (BLOCK_FIRST_HEADER_SIZE + lb * bn)
    (call_segment hn <$> asym_chunk_calls bn lbn bs nh hn es layers lb pbs)
    (BLOCK_FIRST_HEADER_SIZE + (lb + lenZ pbs) * bn).
Proof.
  induction pbs as [|p pbs IH]; intros lb bn; cbn [asym_chunk_calls].
  - simpl. unfold lenZ. simpl. lia.
  - rewrite fmap_app. apply tiles_app. exists (BLOCK_FIRST_HEADER_SIZE + (lb + 1) * bn). split.
    + pose proof (asym_block_calls_tiles p (BLOCK_FIRST_HEADER_SIZE + lb * bn) layers 0) as H.
      rewrite Z.mul_0_l, Z.add_0_r in H.
      replace (BLOCK_FIRST_HEADER_SIZE + (lb + 1) * bn)
        with (BLOCK_FIRST_HEADER_SIZE + lb * bn + (0 + lenZ layers) * 2 * lbn)
        by (subst bn; lia). exact H.
    + rewrite lenZ_cons. replace (lb + (1 + lenZ pbs)) with (lb + 1 + lenZ pbs) by lia. apply IH.
Qed.

Lemma region_calls_elem (cache : kv_tensor Dt) ai tb td ro p t h :
  0 <= t < bs -> 0 <= h < nh ->
  (ro + (t * nh + h) * hn, ai,
   tb + (p * stride cache 0 + h * stride cache 1 + t * stride cache td) * es)
  ∈ region_calls cache ai tb td ro bs nh hn es p.
Proof.
  intros Ht Hh. unfold region_calls. apply list_elem_of_bind. exists t. split.
  - apply list_elem_of_bind. exists h. split; [by left|].
    unfold rangeZ. apply elem_of_seqZ. lia.
  - unfold rangeZ. apply elem_of_seqZ. lia.
Qed.

(** The region [k] of a layer: its cache, allocation entry and token dimension *)
Definition layer_region (l : cache_layer Dt) (v : bool) : kv_tensor Dt * (Z * Z) * nat :=
  if v then (l.2, 3%nat) else (l.1, 2%nat).

Definition region_call bfo li (l : cache_layer Dt) (v : bool) p t h : segment_call :=
  let '(cache, (ai, tb), td) := layer_region l v in
  (bfo + (li * 2 + (if v then 1 else 0)) * lbn + (t * nh + h) * hn, ai,
   tb + (p * stride cache 0 + h * stride cache 1 + t * stride cache td) * es).

Lemma asym_block_calls_elem p bfo (layers : list (cache_layer Dt)) l v t h (i : nat) : forall li,
  layers !! i = Some l -> 0 <= t < bs -> 0 <= h < nh ->
  region_call bfo (li + Z.of_nat i) l v p t h
    ∈ asym_block_calls lbn bs nh hn es p bfo li layers.
Proof.
  revert i. induction layers as [|l' layers IH]; intros i li Hl Ht Hh; [done|].
  cbn [asym_block_calls]. apply elem_of_app. destruct i as [|i]; simpl in Hl.
  - left. injection Hl as ->. destruct l as [[kc [ki kb]] [vc [vi vb]]].
    cbn [asym_layer_calls]. apply elem_of_app. rewrite Z.add_0_r.
    destruct v; [right|left]; by apply region_calls_elem.
  - right. replace (li + Z.of_nat (S i)) with (li + 1 + Z.of_nat i) by lia. by apply IH.
Qed.

Lemma asym_chunk_calls_elem bn (layers : list (cache_layer Dt)) pbs l v p t h (i j : nat) : forall lb,
  pbs !! j = Some p -> layers !! i = Some l -> 0 <= t < bs -> 0 <= h < nh ->
  region_call (BLOCK_FIRST_HEADER_SIZE + (lb + Z.of_nat j) * bn) (Z.of_nat i) l v p t h
    ∈ asym_chunk_calls bn lbn bs nh hn es layers lb pbs.
Proof.
  revert j. induction pbs as [|p' pbs IH]; intros j lb Hp Hl Ht Hh; [done|].
  cbn [asym_chunk_calls]. apply elem_of_app. destruct j as [|j]; simpl in Hp.
  - left. injection Hp as ->. rewrite Z.add_0_r.
    pose proof (asym_block_calls_elem p (BLOCK_FIRST_HEADER_SIZE + lb * bn) layers l v t h i 0
      Hl Ht Hh) as H. by rewrite Z.add_0_l in H.
  - right. replace (lb + Z.of_nat (S j)) with (lb + 1 + Z.of_nat j) by lia. by apply IH.
Qed.

End asym_calls.

(** ** Lemmas: [validate] raises [ValueError] only *)

Definition value_error_only {A} (r : result A) : Prop :=
  match r with Ok _ => True | Raise e => is_value_error e = true end.

Lemma veo_bind {A B} (m : result A) (f : A -> result B) :
  value_error_only m -> (forall a, m = Ok a -> value_error_only (f a)) ->
  value_error_only (m ≫= f).
Proof. destruct m; simpl; auto. Qed.

Lemma veo_raise_if b msg : value_error_only (raise_if b (ValueError msg)).
Proof. by destruct b. Qed.

Lemma veo_mapR {A B} (f : A -> result B) l :
  (forall a, value_error_only (f a)) -> value_error_only (mapR f l).
Proof.
  intros Hf. induction l as [|a l IH]; simpl; [done|].
  apply veo_bind; [apply Hf|]. intros y _. apply veo_bind; [exact IH|done].
Qed.

Create HintDb veo.
#[export] Hint Resolve veo_raise_if veo_mapR : veo.

Ltac veo :=
  repeat first [ solve [auto with veo] | apply veo_bind; [solve [auto with veo]|intros] ].

Lemma veo_validate_segments ra allocs segs : forall lo,
  value_error_only (validate_segments ra allocs lo segs).
Proof.
  induction segs as [|s segs IH]; intros lo; cbn [validate_segments]; [done|].
  apply veo_bind; [auto with veo|intros [] _].
  apply veo_bind; [auto with veo|intros [] Hi%raise_if_Ok]. bool_prop.
  apply veo_bind.
  - destruct (lookup_lt_is_Some_2 allocs (Z.to_nat (seg_allocation_index s))) as [a Ha];
      [unfold lenZ in *; lia|].
    apply (py_index_nonneg allocs) in Ha; [|done]. by rewrite Ha.
  - intros a _. veo.
Qed.

Lemma veo_validate_allocation rc ra dev a : value_error_only (validate_allocation rc ra dev a).
Proof. unfold validate_allocation. veo. Qed.

Lemma veo_validate_runs cap l : forall e tr, value_error_only (validate_runs cap e tr l).
Proof. induction l as [|r l IH]; intros e tr; simpl; [done|]. veo. Qed.

#[export] Hint Resolve veo_validate_segments veo_validate_allocation veo_validate_runs : veo.

Lemma veo_validate_edge d cap : value_error_only (validate_edge d cap).
Proof. unfold validate_edge. destruct (leading_edge d); veo; done. Qed.

Lemma veo_validate_alignment nv : value_error_only (validate_alignment nv).
Proof. destruct nv. apply veo_raise_if. Qed.

#[export] Hint Resolve veo_validate_edge veo_validate_alignment : veo.

Lemma veo_validate d rc ra : value_error_only (validate d rc ra).
Proof.
  unfold validate. veo. destruct (negb (is_nil (byte_segments d))).
  - unfold validate_byte_segments. veo.
  - veo. destruct ra; [|done]. apply veo_bind; [auto with veo|done].
Qed.

(** ** Lemmas: the asymmetric builder *)

Section asymmetric.
Context {Dt : Type} {TD : TorchDtype Dt}.
Context (kvs : list (kv_tensor Dt * kv_tensor Dt)) (first_key : kv_tensor Dt) (nb nh bs hs : Z).

Definition asym_value_shape : list Z := [nb; nh; hs; bs].

Record asymmetric_kv : Prop := {
  as_first : exists first_value rest, kvs = (first_key, first_value) :: rest;
  as_shape : kt_shape first_key = [nb; nh; bs; hs];
  as_pos : 0 < nb /\ 0 < nh /\ 0 < bs /\ 0 < hs /\ 0 < element_size first_key;
  as_same : Forall (fun kv => asymmetric_pair_ok first_key asym_value_shape kv = true) kvs;
}.

Context (Hkv : asymmetric_kv) (sm : list Z) (skip_before start end_ : Z).
Context (Hstart : 0 <= start) (Hend : start < end_) (Hlen : end_ <= lenZ sm).
Context (allocs : list DirectIOAllocation) (layers : list (cache_layer Dt))
  (Hadd : add_asym_allocations [] kvs = (allocs, layers)).

Let hn := hs * element_size first_key.
Let lbn := bs * nh * hn.
Let chunk := end_ - start.
Let skip := Z.min chunk (Z.max 0 (skip_before - start)).

Lemma as_hn : 0 < hn /\ 0 < lbn.
Proof.
  destruct (as_pos Hkv) as (? & ? & ? & ? & ?). unfold lbn, hn.
  split; repeat apply Z.mul_pos_pos; done.
Qed.

Lemma as_skip_bounds : 0 <= skip <= chunk.
Proof. unfold skip, chunk. lia. Qed.

(** Layers in step with the caches, each entry leading to its tensor *)
Lemma as_layers :
  allocs <> [] /\ kvs = ((fun l => (l.1.1, l.2.1)) <$> layers)
  /\ forall l (v : bool), l ∈ layers ->
       alloc_entry allocs (if v then l.2.1 else l.1.1) (if v then l.2.2 else l.1.2).
Proof.
  pose proof (add_asym_allocations_flat kvs []) as H.
  destruct (add_allocations [] _) as [allocs' ps] eqn:E.
  destruct H as (layers' & Ha & Hps & Hk). rewrite Hadd in Ha. injection Ha as <- <-.
  apply add_allocations_spec in E as [He _].
  assert (forall l (v : bool), l ∈ layers ->
    alloc_entry allocs (if v then l.2.1 else l.1.1) (if v then l.2.2 else l.1.2)) as Hent.
  { intros l v Hl. rewrite Hps, Hk in He. clear -He Hl.
    induction layers as [|l' rest IH]; [by apply not_elem_of_nil in Hl|].
    simpl in He. inversion He as [|? ? ? ? H1 He1]; subst.
    inversion He1 as [|? ? ? ? H2 He2]; subst.
    apply elem_of_cons in Hl as [->|Hl]; [by destruct v|by apply IH]. }
  split; [|by split]. destruct (as_first Hkv) as (fv & rest & Hf). rewrite Hf in Hk.
  destruct layers as [|l layers']; [done|]. intros ->.
  destruct (Hent l false ltac:(by left)) as (a & _ & Hl & _). by rewrite lookup_nil in Hl.
Qed.

Definition as_descriptor (a0 : DirectIOAllocation) (pbs : list Z) : DirectIODescriptor :=
  let bn := lenZ kvs * 2 * lbn in
  segment_descriptor RETRIEVE (kt_device first_key) a0 bn bs (skip / bs) chunk skip
    (Some (kvs ≫= fun kv => [kt_id kv.1; kt_id kv.2])) allocs
    (foldl (append_call hn) []
       (asym_chunk_calls bn lbn bs nh hn (element_size first_key) layers (skip / bs) pbs)) pbs.

Definition as_rows : list (list Z) :=
  rows (Z.to_nat bs) (py_slice sm (start + skip) (start + chunk)).

Lemma as_bs : 0 < bs.
Proof. by destruct (as_pos Hkv) as (_ & _ & ? & _). Qed.

Lemma as_rows_blocks pbs :
  chunk mod bs = 0 -> skip mod bs = 0 -> Forall2 (block_row bs nb) as_rows pbs ->
  maps_tokens sm start bs nb skip chunk (fun b => pbs !! Z.to_nat (b - skip / bs)).
Proof.
  intros Hc Hs Hp. pose proof as_skip_bounds. pose proof as_bs.
  eapply slots_blocks in Hp; try done; unfold chunk in *; lia || tauto.
Qed.

Lemma as_chunk_Some d r :
  plan_asymmetric_chunk kvs first_key allocs layers sm RETRIEVE bs skip_before (start, end_)
    = Ok (Plan (Some d) r) ->
  skip < chunk /\ chunk mod bs = 0 /\ skip mod bs = 0 /\ validate d false true = Ok tt /\
  exists a0 pbs, d = as_descriptor a0 pbs /\ Forall2 (block_row bs nb) as_rows pbs.
Proof.
  pose proof as_bs as Hbs. pose proof as_skip_bounds.
  assert (dim first_key 0 = nb /\ dim first_key 1 = nh /\ dim first_key 3 = hs) as (Hd0 & Hd1 & Hd3)
    by (unfold dim; by rewrite (as_shape Hkv)).
  unfold plan_asymmetric_chunk. rewrite Hd0, Hd1, Hd3. fold chunk. fold skip.
  replace (bs =? 0) with false by lia. res_simpl.
  destruct (Z.eqb_spec (chunk mod bs) 0) as [Hc|Hc]; res_simpl; [|done].
  destruct (Z.eqb_spec skip chunk) as [Hsc|Hsc]; [done|].
  destruct (Z.eqb_spec (skip mod bs) 0) as [Hs|Hs]; res_simpl; [|done].
  assert (start + chunk = end_) as He by (unfold chunk; lia). rewrite <- He.
  rewrite reshape_slots by (done || lia). res_simpl. fold as_rows.
  intros H'. res_inv. destruct x as [reason|pbs]; [discriminate|]. res_inv.
  destruct (validate _ false true) as [[]|e] eqn:Hv; [|by destruct (is_value_error e)].
  injection H' as <- _. repeat split; try done; try lia. exists x, pbs. split; [done|].
  apply scan_blocks_sound; [done|]. by apply scan_blocks_asymmetric_eq.
Qed.

Lemma as_chunk_total :
  exists p, plan_asymmetric_chunk kvs first_key allocs layers sm RETRIEVE bs skip_before
    (start, end_) = Ok p.
Proof.
  pose proof as_bs as Hbs. pose proof as_skip_bounds.
  unfold plan_asymmetric_chunk. fold chunk. fold skip. replace (bs =? 0) with false by lia.
  res_simpl. destruct (Z.eqb_spec (chunk mod bs) 0) as [Hc|Hc]; res_simpl; [|by eexists].
  destruct (Z.eqb_spec skip chunk) as [Hsc|Hsc]; [by eexists|].
  destruct (Z.eqb_spec (skip mod bs) 0) as [Hs|Hs]; res_simpl; [|by eexists].
  assert (start + chunk = end_) as He by (unfold chunk; lia). rewrite <- He.
  rewrite reshape_slots by (done || lia). res_simpl. fold as_rows.
  destruct (scan_blocks_asymmetric_total bs (dim first_key 0) as_rows) as [[reason|pbs] ->].
  { apply slots_rows_nonempty; done || lia. }
  { by eexists. }
  res_simpl. destruct as_layers as (Hne & _). destruct allocs as [|a0 rest]; [done|].
  change (py_index (a0 :: rest) 0) with (Ok a0). res_simpl.
  match goal with |- context [validate ?d false true] =>
    pose proof (veo_validate d false true) as Hv; destruct (validate d false true) as [u|e] end;
    [by eexists|]. simpl in Hv. rewrite Hv. by eexists.
Qed.

(** File byte [c] of head [h] of token [t] of a K or V region is read to the same head
    vector of the cache, through the cache's own strides. *)
Lemma as_byte_address a0 pbs (i j : nat) key value p (v : bool) t h c :
  kvs !! i = Some (key, value) -> pbs !! j = Some p ->
  0 <= t < bs -> 0 <= h < nh -> 0 <= c < hn ->
  let cache := if v then value else key in
  byte_address (as_descriptor a0 pbs)
    (BLOCK_FIRST_HEADER_SIZE + (skip / bs + Z.of_nat j) * (lenZ kvs * 2 * lbn)
     + (Z.of_nat i * 2 + (if v then 1 else 0)) * lbn + (t * nh + h) * hn + c)
  = Some (kt_data_ptr cache
          + (p * stride cache 0 + h * stride cache 1 + t * stride cache (if v then 3 else 2))
            * element_size first_key + c).
Proof.
  intros Hi Hp Ht Hh Hc cache. destruct as_hn as [Hhn Hlbn].
  destruct as_layers as (_ & Hk & Hent).
  assert (exists l, layers !! i = Some l /\ l.1.1 = key /\ l.2.1 = value) as (l & Hl & Hlk & Hlv).
  { rewrite Hk in Hi. apply list_lookup_fmap_Some in Hi as (l & ? & ?).
    simplify_eq. eauto. }
  assert (lenZ kvs = lenZ layers) as Hlen' by (rewrite Hk; unfold lenZ; by rewrite length_fmap).
  destruct (Hent l v) as (a & Hidx & Ha & Hbase & Hnb & Hoff); [by eapply list_elem_of_lookup_2|].
  destruct (as_pos Hkv) as (_ & Hnh & Hbs & _).
  unfold byte_address, as_descriptor. simpl. rewrite Hlen'.
  pose proof (asym_chunk_calls_tiles bs nh hn (element_size first_key) ltac:(lia) ltac:(lia) Hhn
    layers pbs (skip / bs)) as Htile.
  destruct (append_calls_spec hn _ _ _ Hhn Htile) as [_ Hlk2]. fold lbn in Hlk2.
  rewrite Hlk2. clear Hlk2.
  pose proof (asym_chunk_calls_elem bs nh hn (element_size first_key) (lenZ layers * 2 * lbn)
    layers pbs l v p t h i j (skip / bs) Hp Hl Ht Hh) as Hin.
  apply (list_elem_of_fmap_2 (call_segment hn)) in Hin.
  fold lbn in Htile, Hin.
  rewrite (tiles_lookup _ _ _ _ _ Htile Hin).
  - destruct l as [[kc [ki kb]] [vc [vi vb]]]. unfold cache.
    destruct v; simpl in *; rewrite Ha; simpl; subst; f_equal; lia.
  - destruct l as [[kc [ki kb]] [vc [vi vb]]]. destruct v; simpl; lia.
Qed.

End asymmetric.

(** ** Properties: the asymmetric builder *)

(** Over asymmetric key/value caches [K = [NB, NH, BS, HS]],
    [V = [NB, NH, HS, BS]] the builder always returns one plan per range; each
    descriptor passes validation with 4 KiB alignment required, and after adjacent
    segments are coalesced every byte of the token-major file still goes to its head
    vector: byte [c] of head [h] of token [t] of layer [i]'s key (value) region is read
    to byte [c] of that head vector of the key (value) cache, through the cache's own
    strides, in the physical block the slot mapping gives the token. *)
Theorem asymmetric_plans_correct {Dt} {TD : TorchDtype Dt}
    (kvs : list (kv_tensor Dt * kv_tensor Dt)) first_key nb nh bs hs sm starts ends skip_before :
  asymmetric_kv kvs first_key nb nh bs hs -> ranges_ok sm starts ends ->
  exists plans,
    build_asymmetric_per_layer_direct_plans kvs sm starts ends RETRIEVE bs skip_before = Ok plans
    /\ length plans = length starts
    /\ forall n start end_ d r, starts !! n = Some start -> ends !! n = Some end_ ->
         plans !! n = Some (Plan (Some d) r) ->
         let skip := Z.min (end_ - start) (Z.max 0 (skip_before - start)) in
         let hn := hs * element_size first_key in
         validate d false true = Ok tt
         /\ forall t (i : nat) key value (v : bool) h c,
              skip <= t < end_ - start -> kvs !! i = Some (key, value) ->
              0 <= h < nh -> 0 <= c < hn ->
              let cache := if v then value else key in
              exists p, sm !! Z.to_nat (start + t) = Some (p * bs + t mod bs)
                /\ byte_address d
                     (BLOCK_FIRST_HEADER_SIZE + t / bs * block_nbytes d
                      + (Z.of_nat i * 2 + (if v then 1 else 0)) * (bs * nh * hn)
                      + (t mod bs * nh + h) * hn + c)
                   = Some (kt_data_ptr cache
                           + (p * stride cache 0 + h * stride cache 1
                              + t mod bs * stride cache (if v then 3 else 2))
                             * element_size first_key + c).
Proof.
  intros Hkv Hr. destruct (as_first _ _ _ _ _ _ Hkv) as (fv & rest & Hrest).
  assert (build_asymmetric_per_layer_direct_plans kvs sm starts ends RETRIEVE bs skip_before =
    check_ranges sm starts ends
      (let '(allocs, layers) := add_asym_allocations [] kvs in
       mapR (plan_asymmetric_chunk kvs first_key allocs layers sm RETRIEVE bs skip_before)
         (zip starts ends))) as ->.
  { pose proof (as_same _ _ _ _ _ _ Hkv) as Hsame.
    assert (asymmetric_pair_ok first_key (asym_value_shape nb nh bs hs) (first_key, fv) = true)
      as Hf by (rewrite Hrest in Hsame; by inversion Hsame).
    assert (dim first_key 0 = nb /\ dim first_key 1 = nh /\ dim first_key 2 = bs
      /\ dim first_key 3 = hs) as (Hd0 & Hd1 & Hd2 & Hd3)
      by (unfold dim; by rewrite (as_shape _ _ _ _ _ _ Hkv)).
    unfold asymmetric_pair_ok in Hf. bool_prop.
    unfold build_asymmetric_per_layer_direct_plans. rewrite bool_decide_false by tauto.
    rewrite Hrest at 1. f_equal.
    assert (dim fv 3 = bs) as -> by (unfold dim; by match goal with H : kt_shape fv = _ |- _ => rewrite H end).
    rewrite Hd0, Hd1, Hd2, Hd3, Z.eqb_refl.
    rewrite (as_shape _ _ _ _ _ _ Hkv).
    match goal with Hs : kt_shape fv = _, Hd : kt_dtype fv = _, Hv : kt_device fv = _ |- _ =>
      rewrite Hs, Hd, Hv end.
    rewrite !bool_decide_false by tauto. unfold asym_value_shape.
    match goal with Hs : stride first_key 3 = _, Hv : stride fv 2 = _ |- _ =>
      rewrite Hs, Hv, Z.eqb_refl end.
    assert (forallb (asymmetric_pair_ok first_key [nb; nh; hs; bs]) kvs = true) as ->; [|done].
    apply forallb_forall. intros kv Hin%list_elem_of_In.
    by apply (proj1 (list.Forall_forall _ _) Hsame). }
  destruct (decide (starts = [])) as [->|Hne].
  { inversion Hr; subst. by exists []. }
  rewrite check_ranges_pass by done.
  destruct (add_asym_allocations [] kvs) as [allocs layers] eqn:Hadd.
  assert (exists plans, mapR (plan_asymmetric_chunk kvs first_key allocs layers sm RETRIEVE bs
    skip_before) (zip starts ends) = Ok plans) as [plans Hplans].
  { apply mapR_total. intros [s e] Hin. apply list_elem_of_lookup in Hin as [i Hi].
    apply lookup_zip_with_Some in Hi as (s' & e' & [= <- <-] & Hs & He).
    destruct (Forall2_lookup_lr _ _ _ _ _ _ Hr Hs He) as [[Hs0 Hse] Hlen].
    by eapply as_chunk_total. }
  exists plans. split; [done|]. split.
  { rewrite (mapR_length _ _ _ Hplans), length_zip_with, (Forall2_length Hr). lia. }
  intros n s e d r Hs He Hp skip hn.
  destruct (mapR_zip_lookup _ _ _ _ _ _ _ Hplans Hs He) as (p' & Hp' & Hf).
  rewrite Hp in Hp'. injection Hp' as <-.
  destruct (Forall2_lookup_lr _ _ _ _ _ _ Hr Hs He) as [[Hs0 Hse] Hlen].
  eapply as_chunk_Some in Hf; try done.
  destruct Hf as (Hsc & Hc & Hs1 & Hv & a0 & pbs & -> & Hb).
  split; [done|]. intros t i key value v h c Ht Hi Hh Hcb cache.
  eapply as_rows_blocks in Hb as Hm; try done.
  pose proof (as_bs _ _ _ _ _ _ Hkv) as Hbs.
  destruct (Hm t Ht) as (p & Hpb & _ & Hsm). exists p. split; [done|].
  assert (skip / bs <= t / bs) by (apply Z.div_le_mono; lia).
  replace (t / bs) with (skip / bs + Z.of_nat (Z.to_nat (t / bs - skip / bs))) by lia.
  eapply as_byte_address; try done. by apply Z.mod_pos_bound.
Qed.

Definition ex_pair : kv_tensor ex_dtype * kv_tensor ex_dtype :=
  (KvTensor _ 1 [4; 2; 2; 2048] [8192; 4096; 2048; 1] true Float16 (TorchDevice "cuda" (Some 0))
     4096 4096 65536,
   KvTensor _ 2 [4; 2; 2048; 2] [8192; 4096; 1; 2048] true Float16 (TorchDevice "cuda" (Some 0))
     131072 131072 65536).

Lemma ex_pair_ok : asymmetric_kv [ex_pair] (fst ex_pair) 4 2 2 2048.
Proof.
  constructor; [by eexists _, _|done|done|]. by repeat constructor.
Qed.

Lemma asymmetric_plans_correct_witness :
  exists d, validate d false true = Ok tt
    /\ byte_address d (4096 + 32768 + 12288 + 5) = Some (4096 + (3 * 8192 + 4096 + 2048) * 2 + 5).
Proof.
  destruct (asymmetric_plans_correct [ex_pair] (fst ex_pair) 4 2 2 2048 ex_slots [0] [4] 2
    ex_pair_ok ltac:(by repeat constructor)) as (plans & Hp & _ & H).
  vm_compute in Hp. injection Hp as <-.
  destruct (H 0%nat 0 4 _ _ eq_refl eq_refl eq_refl) as [Hv _].
  eexists. split; [exact Hv|vm_compute; reflexivity].
Defined.

(** A leading-edge retrieve planned from [ex_slots] *)
Definition ex_descriptor : option DirectIODescriptor :=
  match build_block_first_direct_plans ex_kv ex_slots [0; 4] [4; 8] RETRIEVE 2 1 with
  | Ok (Plan d _ :: _) => d
  | _ => None
  end.

Lemma validate_in_bounds_witness :
  exists d, ex_descriptor = Some d /\ transferred_nbytes d = 8
    /\ exists p, runs_block (runs d) 1 = Some p.
Proof.
  eexists. split; [reflexivity|].
  match goal with |- transferred_nbytes ?d = _ /\ _ =>
    destruct (validate_in_bounds d false false eq_refl) as (Ht & Hb & _) end.
  split; [exact Ht|]. destruct (Hb eq_refl 1) as (p & Hp & _); [vm_compute; split; [discriminate|reflexivity]|].
  exists p. exact Hp.
Defined.
