(* ===== verification/World.v ===== *)
(** * Files and device memory

    What the storage backends use of the operating system: regular files by path,
    open descriptors, [os.open]/[os.write]/[os.pread]/[os.replace]/[os.remove] and
    their failures, and the bytes of device memory that DMA moves. Failures and short
    transfers come from an oracle that every operation consults, so a theorem about
    all worlds covers every fault. *)

From S2P Require Import Prelude.

Open Scope string_scope.
Open Scope list_scope.
Open Scope Z_scope.

(** What the next system call does: all of it, a short transfer, or [OSError] *)
Inductive io_event := IoDone | IoShort (n : nat) | IoFault (n : nat).

Record file := File {
  ino : Z;             (* identity: device and inode *)
  bytes : list Z;
}.

Record open_file := OpenFile {
  of_path : string;
  of_ino : Z;
  of_pos : Z;
  of_size : Z;         (* size when opened *)
}.

(** The [HIPFile] class attributes: [_lib_instance], [_driver_opened],
    [_global_registered_buffers]; [lib_calls] records what reached the library. *)
Inductive lib_call := LibRegister (ptr : Z) | LibDeregister (ptr : Z).

Record hip_class := HipClass {
  lib_loaded : bool;
  driver_opened : bool;
  global_buffers : gmap Z (Z * Z);   (* size and reference count by address *)
  lib_calls : list lib_call;         (* the successful library calls, newest first *)
}.

Record world := World {
  files : gmap string file;
  fds : gmap Z open_file;
  fresh : Z;           (* next descriptor and inode number *)
  mem : Z -> Z;        (* device memory, a byte per address *)
  oracle : list io_event;
  hip : hip_class;
}.

Definition with_files (w : world) (fs : gmap string file) : world :=
  World fs (fds w) (fresh w) (mem w) (oracle w) (hip w).
Definition with_fds (w : world) (d : gmap Z open_file) : world :=
  World (files w) d (fresh w) (mem w) (oracle w) (hip w).
Definition with_mem (w : world) (m : Z -> Z) : world :=
  World (files w) (fds w) (fresh w) m (oracle w) (hip w).
Definition with_oracle (w : world) (o : list io_event) : world :=
  World (files w) (fds w) (fresh w) (mem w) o (hip w).
Definition with_hip (w : world) (h : hip_class) : world :=
  World (files w) (fds w) (fresh w) (mem w) (oracle w) h.
Definition bump (w : world) : world :=
  World (files w) (fds w) (fresh w + 1) (mem w) (oracle w) (hip w).

Definition content (w : world) (path : string) : option (list Z) := bytes <$> files w !! path.

(** ** Bytes *)

(** [data] written at offset [off]; a gap before it reads as zeros *)
Definition write_at (old : list Z) (off : nat) (data : list Z) : list Z :=
  take off (old ++ replicate (off - length old) 0) ++ data ++ drop (off + length data) old.

(** The [n] bytes of device memory at [a] *)
Definition mem_slice (m : Z -> Z) (a : Z) (n : nat) : list Z := m <$> rangeZ a n.

(** Device memory with [data] at [a] *)
Definition mem_write (m : Z -> Z) (a : Z) (data : list Z) : Z -> Z := fun x =>
  if (a <=? x) && (x <? a + lenZ data) then nth (Z.to_nat (x - a)) data 0 else m x.

(** ** System calls *)

Definition next_event : ST world io_event := fun w =>
  match oracle w with
  | [] => (Ok IoDone, w)
  | e :: rest => (Ok e, with_oracle w rest)
  end.

(** A call that succeeds or raises [OSError] *)
Definition may_fail : ST world unit :=
  e ← next_event;
  match e with IoFault _ => st_raise (OSError "") | _ => mret tt end.

Inductive open_mode := O_RDONLY | O_WRITE_TRUNC | O_RDWR | O_CREAT_APPEND | O_CREAT_WRONLY.

Definition creates (m : open_mode) : bool :=
  match m with O_WRITE_TRUNC | O_CREAT_APPEND | O_CREAT_WRONLY => true | _ => false end.

(** Content after opening *)
Definition opened_bytes (m : open_mode) (old : list Z) : list Z :=
  match m with O_WRITE_TRUNC => [] | _ => old end.

(** [os.open]: the descriptor *)
Definition os_open (path : string) (mode : open_mode) : ST world Z :=
  may_fail;;
  w ← st_get;
  let fd := fresh w in
  match files w !! path with
  | None =>
      if creates mode then
        st_put (with_fds (with_files (bump w) (<[path := File fd []]> (files w)))
          (<[fd := OpenFile path fd 0 0]> (fds w)));;
        mret fd
      else st_raise FileNotFoundError
  | Some f =>
      let bs := opened_bytes mode (bytes f) in
      let pos := match mode with O_CREAT_APPEND => lenZ bs | _ => 0 end in
      st_put (with_fds (with_files (bump w) (<[path := File (ino f) bs]> (files w)))
        (<[fd := OpenFile path (ino f) pos (lenZ bs)]> (fds w)));;
      mret fd
  end.

(** [os.close]: the descriptor is gone even when the call fails. *)
Definition os_close (fd : Z) : ST world unit :=
  st_modify (fun w => with_fds w (delete fd (fds w)));;
  may_fail.

(** The file a descriptor names while its path still does *)
Definition fd_file (w : world) (fd : Z) : option (open_file * file) :=
  o ← fds w !! fd;
  f ← files w !! of_path o;
  if ino f =? of_ino o then Some (o, f) else None.

(** [os.write]: the count, at most the data's length *)
Definition os_write (fd : Z) (data : list Z) : ST world Z :=
  e ← next_event;
  w ← st_get;
  match fd_file w fd with
  | None => st_raise (OSError "bad file descriptor")
  | Some (o, f) =>
      match e with
      | IoFault _ => st_raise (OSError "")
      | _ =>
          let n := match e with IoShort n => Nat.min n (length data) | _ => length data end in
          st_put (with_fds
            (with_files w (<[of_path o := File (ino f)
              (write_at (bytes f) (Z.to_nat (of_pos o)) (take n data))]> (files w)))
            (<[fd := OpenFile (of_path o) (of_ino o) (of_pos o + Z.of_nat n) (of_size o)]>
               (fds w)));;
          mret (Z.of_nat n)
      end
  end.

(** [open(path, "wb").write(data)] and close: a buffered write keeps a prefix when it
    fails *)
Definition py_write_file (path : string) (data : list Z) : ST world Z :=
  fd ← os_open path O_WRITE_TRUNC;
  e ← next_event;
  st_modify (fun w =>
    let n := match e with IoFault n => Nat.min n (length data) | _ => length data end in
    match fd_file w fd with
    | Some (o, f) => with_files w (<[path := File (ino f) (take n data)]> (files w))
    | None => w
    end);;
  st_modify (fun w => with_fds w (delete fd (fds w)));;
  match e with IoFault _ => st_raise (OSError "") | _ => mret (lenZ data) end.

Definition os_exists (path : string) : ST world bool :=
  st_gets (fun w => bool_decide (is_Some (files w !! path))).

Definition os_getsize (path : string) : ST world Z :=
  may_fail;;
  w ← st_get;
  match files w !! path with
  | Some f => mret (lenZ (bytes f))
  | None => st_raise FileNotFoundError
  end.

(** [os.stat(path)]: identity and size *)
Definition os_stat (path : string) : ST world (Z * Z) :=
  may_fail;;
  w ← st_get;
  match files w !! path with
  | Some f => mret (ino f, lenZ (bytes f))
  | None => st_raise FileNotFoundError
  end.

(** [os.fstat(fd)] *)
Definition os_fstat (fd : Z) : ST world (Z * Z) :=
  may_fail;;
  w ← st_get;
  match fds w !! fd with
  | None => st_raise (OSError "bad file descriptor")
  | Some o =>
      mret (of_ino o, match fd_file w fd with
                      | Some (_, f) => lenZ (bytes f)
                      | None => of_size o
                      end)
  end.

(** [os.pread(fd, n, 0)] and [os.read(fd, n)] of a fresh descriptor *)
Definition os_pread (fd n : Z) : ST world (list Z) :=
  may_fail;;
  w ← st_get;
  match fd_file w fd with
  | Some (_, f) => mret (take (Z.to_nat n) (bytes f))
  | None => st_raise (OSError "bad file descriptor")
  end.

(** [os.replace(src, dst)] and [os.rename] on POSIX: atomic *)
Definition os_replace (src dst : string) : ST world unit :=
  may_fail;;
  w ← st_get;
  match files w !! src with
  | Some f => st_put (with_files w (<[dst := f]> (delete src (files w))))
  | None => st_raise FileNotFoundError
  end.

Definition os_remove (path : string) : ST world unit :=
  w ← st_get;
  match files w !! path with
  | Some _ => may_fail;; st_modify (fun w => with_files w (delete path (files w)))
  | None => st_raise FileNotFoundError
  end.

Definition os_ftruncate (fd n : Z) : ST world unit :=
  may_fail;;
  w ← st_get;
  match fd_file w fd with
  | None => st_raise (OSError "bad file descriptor")
  | Some (o, f) =>
      st_put (with_files w (<[of_path o := File (ino f)
        (take (Z.to_nat n) (bytes f ++ replicate (Z.to_nat n - length (bytes f)) 0))]> (files w)))
  end.

(** [os.makedirs(d, exist_ok=True)]: directories are not modelled. *)
Definition os_makedirs : ST world unit := may_fail.

Definition is_file_not_found (e : exn) : bool :=
  match e with FileNotFoundError => true | _ => false end.

(** [FileNotFoundError] is an [OSError]. *)
Definition is_os_error (e : exn) : bool :=
  match e with OSError _ | FileNotFoundError => true | _ => false end.

Definition any_exn (e : exn) : bool := true.

(** ** Lemmas: bytes *)

Lemma length_write_at old off data :
  length (write_at old off data) = Nat.max (length old) (off + length data).
Proof.
  unfold write_at. rewrite !length_app, length_take, length_drop, length_app, length_replicate.
  lia.
Qed.

Lemma write_at_below old off data i :
  (i < off)%nat -> (i < length old)%nat -> write_at old off data !! i = old !! i.
Proof.
  intros Hi Hl. unfold write_at. rewrite lookup_app_l
    by (rewrite length_take, length_app, length_replicate; lia).
  rewrite lookup_take_lt by done. by rewrite lookup_app_l.
Qed.

Lemma write_at_inside old off data i :
  (i < length data)%nat -> write_at old off data !! (off + i)%nat = data !! i.
Proof.
  intros Hi. unfold write_at.
  assert (length (take off (old ++ replicate (off - length old) 0)) = off) as Hl
    by (rewrite length_take, length_app, length_replicate; lia).
  rewrite lookup_app_r by lia. rewrite Hl.
  replace (off + i - off)%nat with i by lia. by rewrite lookup_app_l.
Qed.

(** Writing at the end appends. *)
Lemma write_at_end old data : write_at old (length old) data = old ++ data.
Proof.
  unfold write_at. rewrite Nat.sub_diag. simpl. rewrite app_nil_r.
  rewrite firstn_all, (drop_ge old) by lia. by rewrite app_nil_r.
Qed.

Lemma length_mem_slice m a n : length (mem_slice m a n) = n.
Proof. unfold mem_slice. by rewrite length_fmap, length_rangeZ. Qed.

Lemma mem_slice_lookup m a n i :
  (i < n)%nat -> mem_slice m a n !! i = Some (m (a + Z.of_nat i)).
Proof. intros Hi. unfold mem_slice. by rewrite list_lookup_fmap, lookup_rangeZ by done. Qed.

Lemma mem_slice_ext m m' a n : (forall x, m x = m' x) -> mem_slice m a n = mem_slice m' a n.
Proof. intros H. unfold mem_slice. apply list_fmap_ext. intros. apply H. Qed.

Lemma mem_write_outside m a data x :
  ~ (a <= x < a + lenZ data) -> mem_write m a data x = m x.
Proof.
  intros H. unfold mem_write.
  by replace ((a <=? x) && (x <? a + lenZ data)) with false by lia.
Qed.

Lemma mem_write_inside m a data i v :
  data !! i = Some v -> mem_write m a data (a + Z.of_nat i) = v.
Proof.
  intros Hi. pose proof (lookup_lt_Some _ _ _ Hi). unfold mem_write, lenZ.
  replace ((a <=? a + Z.of_nat i) && (a + Z.of_nat i <? a + Z.of_nat (length data)))
    with true by lia.
  replace (Z.to_nat (a + Z.of_nat i - a)) with i by lia.
  by apply nth_lookup_Some.
Qed.

(** ** Lemmas: predicates on files and device memory *)

(** A predicate that only reads files and device memory *)
Definition io_closed (P : world -> Prop) : Prop :=
  forall w w', files w' = files w -> (forall a, mem w' a = mem w a) -> P w -> P w'.

(** The open descriptors are [d] and descriptor numbers below [n] are taken. *)
Definition fds_at (d : gmap Z open_file) (n : Z) (w : world) : Prop :=
  fds w = d /\ n <= fresh w.

Definition os_error (P : world -> Prop) (e : exn) (w : world) : Prop :=
  is_os_error e = true /\ P w.

Lemma next_event_triple P d n :
  io_closed P ->
  triple (fun w => P w /\ fds_at d n w) next_event (fun _ w => P w /\ fds_at d n w)
    (fun _ _ => False).
Proof.
  intros HP w [Hw [Hd Hn]]. unfold next_event. destruct (oracle w); simpl.
  - by repeat split.
  - split; [by apply (HP w)|done].
Qed.

Lemma may_fail_triple P d n :
  io_closed P ->
  triple (fun w => P w /\ fds_at d n w) may_fail (fun _ w => P w /\ fds_at d n w)
    (os_error (fun w => P w /\ fds_at d n w)).
Proof.
  intros HP. unfold may_fail. eapply triple_bind.
  { eapply triple_conseq; [by apply (next_event_triple P d n)|done|done|intros ? ? []]. }
  intros [|k|k] w Hw; simpl; [done|done|by split].
Qed.

Lemma os_open_triple path mode P P' d n :
  io_closed P -> io_closed P' ->
  (forall w i, P w -> creates mode = true \/ is_Some (files w !! path) ->
     i = match files w !! path with Some f => ino f | None => fresh w end ->
     P' (with_files w (<[path := File i (opened_bytes mode (default [] (content w path)))]>
                         (files w)))) ->
  triple (fun w => P w /\ fds_at d n w) (os_open path mode)
    (fun fd w => P' w /\ n <= fd /\ n <= fresh w /\ exists o, of_path o = path
       /\ (exists f, files w !! path = Some f /\ of_ino o = ino f
           /\ (mode <> O_CREAT_APPEND -> of_pos o = 0))
       /\ fds w = <[fd := o]> d)
    (os_error (fun w => P w /\ fds_at d n w)).
Proof.
  intros HP HP' Hopen. unfold os_open. eapply triple_bind; [by apply may_fail_triple|].
  intros _ w [Hw [Hd Hn]]. unfold st_get, mbind, ST_bind. simpl.
  destruct (files w !! path) as [f|] eqn:Hf; simpl.
  - split.
    + eapply HP'; [| |apply (Hopen w (ino f)); [done|right; by eexists|by rewrite Hf]]; [|done].
      simpl. unfold content. by rewrite Hf.
    + repeat split; simpl; try lia. eexists. split; [|split; [|by rewrite Hd]]; [done|].
      eexists. rewrite lookup_insert_eq. split; [done|]. split; [done|]. by destruct mode.
  - destruct (creates mode) eqn:Hc; simpl; [|by repeat split].
    split.
    + eapply HP'; [| |apply (Hopen w (fresh w)); [done|by left|by rewrite Hf]]; [|done].
      simpl. unfold content. rewrite Hf. simpl. by destruct mode.
    + repeat split; simpl; try lia. eexists. split; [|split; [|by rewrite Hd]]; [done|].
      eexists. rewrite lookup_insert_eq. done.
Qed.

Lemma os_close_triple P d n fd o :
  io_closed P -> d !! fd = None ->
  triple (fun w => P w /\ fds_at (<[fd := o]> d) n w) (os_close fd)
    (fun _ w => P w /\ fds_at d n w) (os_error (fun w => P w /\ fds_at d n w)).
Proof.
  intros HP Hfd. unfold os_close.
  apply (triple_bind _ _ _ (fun _ w => P w /\ fds_at d n w));
    [|intros _; by apply may_fail_triple].
  intros w [Hw [Hd Hn]]. simpl. split; [by apply (HP w)|]. split; simpl; [|done].
  by rewrite Hd, delete_insert_id.
Qed.

Lemma io_closed_conj P Q : io_closed P -> io_closed Q -> io_closed (fun w => P w /\ Q w).
Proof. intros HP HQ w w' Hf Hm [H1 H2]. split; [by apply (HP w)|by apply (HQ w)]. Qed.

Lemma io_closed_True : io_closed (fun _ => True).
Proof. by intros w w' _ _ _. Qed.

(** Files outside [ps] and all device memory are those of [w0]. *)
Definition keeps_files (ps : list string) (w0 w : world) : Prop :=
  (forall q, q ∉ ps -> files w !! q = files w0 !! q) /\ forall a, mem w a = mem w0 a.

Lemma keeps_files_closed ps w0 : io_closed (keeps_files ps w0).
Proof. intros w w' Hf Hm [H1 H2]. split; intros; [by rewrite Hf; apply H1|by rewrite Hm]. Qed.

Lemma keeps_files_refl ps w : keeps_files ps w w.
Proof. done. Qed.

Lemma content_closed path (C : option (list Z) -> Prop) :
  io_closed (fun w => C (content w path)).
Proof. intros w w' Hf _ H. unfold content in *. by rewrite Hf. Qed.

#[export] Hint Resolve io_closed_conj io_closed_True keeps_files_closed content_closed : py.

Lemma os_ftruncate_triple path P Q d n fd o sz :
  io_closed P -> d !! fd = Some o -> of_path o = path ->
  (forall w f, P w -> files w !! path = Some f ->
     Q (with_files w (<[path := File (ino f)
       (take (Z.to_nat sz) (bytes f ++ replicate (Z.to_nat sz - length (bytes f)) 0))]>
       (files w)))) ->
  triple (fun w => P w /\ fds_at d n w) (os_ftruncate fd sz)
    (fun _ w => Q w /\ fds_at d n w) (os_error (fun w => P w /\ fds_at d n w)).
Proof.
  intros HP Hfd Hpath HQ. unfold os_ftruncate. eapply triple_bind; [by apply may_fail_triple|].
  intros _ w [Hw [Hd Hn]]. unfold st_get, mbind, ST_bind. simpl.
  unfold fd_file. rewrite Hd, Hfd. simpl. rewrite Hpath.
  destruct (files w !! path) as [f|] eqn:Hf; simpl; [|by repeat split].
  destruct (ino f =? of_ino o); simpl; [|by repeat split].
  rewrite Hpath. split; [by apply HQ|by split].
Qed.

Lemma keeps_files_insert ps w0 path w i b :
  path ∈ ps -> keeps_files ps w0 w ->
  keeps_files ps w0 (with_files w (<[path := File i b]> (files w))).
Proof.
  intros Hp [Hf Hm]. split; [|done]. intros q Hq. simpl.
  rewrite lookup_insert_ne; [by apply Hf|]. by intros ->.
Qed.

Lemma content_insert path w i b :
  content (with_files w (<[path := File i b]> (files w))) path = Some b.
Proof. unfold content. simpl. by rewrite lookup_insert_eq. Qed.

(** *** More system-call triples *)

Lemma st_get_bind_triple {S A} P (f : S -> ST S A) Q E :
  (forall s, P s -> triple (eq s) (f s) Q E) -> triple P (st_get ≫= f) Q E.
Proof. intros Hf s Hs. by apply (Hf s Hs s). Qed.

(** An operation that succeeds or raises [OSError], then reads the state *)
Lemma may_fail_then_triple {A} P d n (k : ST world A) Q (E : exn -> world -> Prop) :
  io_closed P ->
  (forall w, P w /\ fds_at d n w -> match k w with (Ok a, w') => Q a w' | (Raise e, w') => E e w' end) ->
  (forall e w, is_os_error e = true -> P w /\ fds_at d n w -> E e w) ->
  triple (fun w => P w /\ fds_at d n w) (may_fail;; k) Q E.
Proof.
  intros HP Hk HE. eapply triple_bind.
  - eapply triple_exn; [by apply (may_fail_triple P d n)|]. intros e w [He Hw]. by apply HE.
  - intros [] w Hw. by apply Hk.
Qed.

Lemma os_getsize_triple path P d n :
  io_closed P ->
  triple (fun w => P w /\ fds_at d n w) (os_getsize path)
    (fun sz w => (P w /\ exists f, content w path = Some f /\ sz = lenZ f) /\ fds_at d n w)
    (os_error (fun w => P w /\ fds_at d n w)).
Proof.
  intros HP. apply may_fail_then_triple; [done| |done].
  intros w [Hw Hf]. unfold st_get, mbind, ST_bind. simpl.
  destruct (files w !! path) as [f|] eqn:E; simpl; [|done].
  split; [|done]. split; [done|]. exists (bytes f). unfold content. by rewrite E.
Qed.

Lemma os_replace_triple src dst P Q d n :
  io_closed P ->
  (forall w f, P w -> files w !! src = Some f ->
     Q (with_files w (<[dst := f]> (delete src (files w))))) ->
  triple (fun w => P w /\ fds_at d n w) (os_replace src dst)
    (fun _ w => Q w /\ fds_at d n w) (os_error (fun w => P w /\ fds_at d n w)).
Proof.
  intros HP HQ. apply may_fail_then_triple; [done| |done].
  intros w [Hw Hf]. unfold st_get, mbind, ST_bind. simpl.
  destruct (files w !! src) as [f|] eqn:E; simpl; [|done].
  split; [by apply HQ|done].
Qed.

(** A removal that fails raises [FileNotFoundError] only when the file is not there. *)
Lemma os_remove_triple path P Q d n :
  io_closed P -> io_closed Q ->
  (forall w, P w -> Q (with_files w (delete path (files w)))) ->
  triple (fun w => P w /\ fds_at d n w) (os_remove path)
    (fun _ w => Q w /\ fds_at d n w)
    (fun e w => is_os_error e = true /\ (P w /\ fds_at d n w)
       /\ (is_file_not_found e = true -> files w !! path = None)).
Proof.
  intros HP HQc HQ w [Hw Hf]. unfold os_remove, st_get, mbind at 1, ST_bind. simpl.
  destruct (files w !! path) as [f|] eqn:E; simpl; [|done].
  unfold may_fail, next_event, st_modify, mbind, ST_bind.
  destruct (oracle w) as [|[|k|k] rest]; simpl.
  - split; [by apply HQ|done].
  - split; [|done]. by apply (HQc (with_files w (delete path (files w)))), HQ.
  - split; [|done]. by apply (HQc (with_files w (delete path (files w)))), HQ.
  - split; [done|]. split; [|done]. split; [by apply (HP w)|done].
Qed.

Lemma py_write_file_triple path data P (Pdata : list Z -> world -> Prop) d n :
  (forall fd, is_Some (d !! fd) -> fd < n) ->
  io_closed P -> (forall b, io_closed (Pdata b)) ->
  (forall w i b, P w -> Pdata b (with_files w (<[path := File i b]> (files w)))) ->
  (forall b w, Pdata b w -> P w) ->
  triple (fun w => P w /\ fds_at d n w) (py_write_file path data)
    (fun r w => (Pdata data w /\ r = lenZ data) /\ fds_at d n w)
    (os_error (fun w => P w /\ fds_at d n w)).
Proof.
  intros Hd HP HPd Hset Hback. unfold py_write_file.
  eapply triple_bind.
  { apply (os_open_triple path O_WRITE_TRUNC P P d n); try done.
    intros w i Hw _ _. eapply Hback, Hset, Hw. }
  intros fd w (Hw & Hfd & Hn & o & Hp & (f & Hf & Hino & _) & Hfds).
  assert (d !! fd = None) as Hnone.
  { destruct (d !! fd) eqn:E'; [|done]. assert (fd < n) by (apply Hd; by eexists). lia. }
  assert (forall w', files w' = files w -> fds w' = fds w ->
    fd_file w' fd = Some (o, f)) as Hff.
  { intros w' H1 H2. unfold fd_file. rewrite H2, Hfds, lookup_insert_eq. simpl.
    rewrite Hp, H1, Hf. simpl. by rewrite <- Hino, Z.eqb_refl. }
  unfold next_event, st_modify, mbind, ST_bind.
  destruct (oracle w) as [|ev rest]; simpl; rewrite Hff by done.
  - split; [split; [|done]|split; simpl; [by rewrite Hfds, delete_insert_id|done]].
    rewrite firstn_all. apply (HPd _ (with_files w (<[path := File (ino f) data]> (files w))));
      [done|done|by apply Hset].
  - destruct ev as [|k|k]; simpl.
    1,2: split; [split; [|done]|split; simpl; [by rewrite Hfds, delete_insert_id|done]];
      rewrite firstn_all; apply (HPd _ (with_files w (<[path := File (ino f) data]> (files w))));
      [done|done|by apply Hset].
    split; [done|]. split; [|split; simpl; [by rewrite Hfds, delete_insert_id|done]].
    eapply Hback. apply (HPd (take (Nat.min k (length data)) data) (with_files w
      (<[path := File (ino f) (take (Nat.min k (length data)) data)]> (files w))));
      [done|done|by apply Hset].
Qed.
