(* ===== verification/WorldIO.v ===== *)
(** * System calls by cases

    What each operation of [World] does to files, device memory, descriptors and the oracle,
    case by case: the lemmas the file code of the backends shares. *)

From S2P Require Import Prelude World.

Open Scope string_scope.
Open Scope list_scope.
Open Scope Z_scope.

(** ** Lemmas: descriptors and buffers *)

(** Files, device memory and open descriptors are unchanged. *)
Definition quiet_io (w w' : world) : Prop :=
  files w' = files w /\ mem w' = mem w /\ fds w' = fds w /\ fresh w <= fresh w'.

(** Every open descriptor's number has been used. *)
Definition fds_below (w : world) : Prop := forall fd, is_Some (fds w !! fd) -> fd < fresh w.

Lemma quiet_io_refl w : quiet_io w w.
Proof. repeat split; lia. Qed.

Lemma quiet_io_trans w1 w2 w3 : quiet_io w1 w2 -> quiet_io w2 w3 -> quiet_io w1 w3.
Proof. intros (?&?&?&?) (?&?&?&?). repeat split; etrans; done. Qed.

Lemma quiet_io_below w w' : quiet_io w w' -> fds_below w -> fds_below w'.
Proof. intros (_&_&Hf&Hn) Hw fd Hfd. rewrite Hf in Hfd. apply Hw in Hfd. lia. Qed.

#[global] Instance quiet_io_preorder : PreOrder quiet_io.
Proof. split; red; eauto using quiet_io_refl, quiet_io_trans. Qed.

#[export] Hint Resolve quiet_io_refl quiet_io_trans quiet_io_below : py.

Lemma next_event_quiet w : exists e w', next_event w = (Ok e, w') /\ quiet_io w w'.
Proof. unfold next_event. destruct (oracle w); eexists _, _; split; try done; repeat split; simpl; lia. Qed.

Lemma may_fail_quiet w :
  match may_fail w with
  | (Ok _, w') => quiet_io w w'
  | (Raise e, w') => is_os_error e = true /\ quiet_io w w' /\ oracle w <> []
  end.
Proof.
  unfold may_fail, next_event, mbind, ST_bind. destruct (oracle w) as [|[|n|n] r]; simpl;
    repeat split; simpl; first [done|lia].
Qed.

Lemma os_close_quiet w fd :
  let '(r, w') := os_close fd w in
  quiet_io (with_fds w (delete fd (fds w))) w'
  /\ match r with Ok _ => True | Raise e => is_os_error e = true /\ oracle w <> [] end.
Proof.
  unfold os_close, st_modify, mbind at 1, ST_bind at 1. simpl.
  pose proof (may_fail_quiet (with_fds w (delete fd (fds w)))) as H.
  destruct (may_fail _) as [[u|e] w']; [done|]. by destruct H as (?&?&?).
Qed.

Lemma os_open_read w path :
  match os_open path O_RDONLY w with
  | (Ok fd, w') => fd = fresh w /\ exists f, files w !! path = Some f /\ files w' = files w
      /\ mem w' = mem w /\ fresh w' = fresh w + 1
      /\ fds w' = <[fd := OpenFile path (ino f) 0 (lenZ (bytes f))]> (fds w)
  | (Raise e, w') => is_os_error e = true /\ quiet_io w w'
      /\ (oracle w = [] -> files w !! path = None)
  end.
Proof.
  unfold os_open, may_fail, next_event, mbind, ST_bind.
  destruct w as [fs d n m orc h]. destruct orc as [|[|k|k] r]; cbn;
    [| | |repeat split; cbn; first [done|lia]];
    (destruct (fs !! path) as [[i b]|] eqn:E; cbn; [|repeat split; cbn; first [done|lia]]);
    (split; [done|]; exists (File i b); cbn; rewrite insert_id by done; repeat split).
Qed.

Lemma os_remove_cases w path :
  match os_remove path w with
  | (Ok _, w') => quiet_io (with_files w (delete path (files w))) w'
  | (Raise e, w') => quiet_io w w' /\ is_os_error e = true
      /\ (is_file_not_found e = true <-> files w !! path = None)
  end.
Proof.
  unfold os_remove, st_get, mbind at 1, ST_bind at 1. destruct (files w !! path) eqn:E;
    [|by repeat split; try done; lia].
  unfold may_fail, next_event, st_modify, mbind, ST_bind.
  destruct w as [fs d n m orc h]. simpl in *.
  destruct orc as [|[|k|k] r]; cbn; repeat split; simpl; try done; lia.
Qed.

(** Only [path]'s file differs; descriptors are as before. *)
Definition only_file path (w w' : world) : Prop :=
  (forall q, q <> path -> files w' !! q = files w !! q) /\ mem w' = mem w /\ fds w' = fds w
  /\ fresh w <= fresh w'.

#[export] Instance only_file_preorder path : PreOrder (only_file path).
Proof.
  split; [intros w; repeat split; lia|]. intros w1 w2 w3 (A1&A2&A3&A4) (B1&B2&B3&B4).
  repeat split; [intros q Hq; rewrite B1, A1; done|congruence|congruence|lia].
Qed.

Lemma quiet_only path w w' : quiet_io w w' -> only_file path w w'.
Proof. intros (H1&H2&H3&H4). repeat split; [intros; by rewrite H1|done|done|done]. Qed.

Lemma os_open_write w path mode :
  mode = O_WRITE_TRUNC \/ mode = O_CREAT_WRONLY ->
  match os_open path mode w with
  | (Ok fd, w') => fd = fresh w /\ exists i n,
      files w' = <[path := File i (opened_bytes mode (default [] (content w path)))]> (files w)
      /\ mem w' = mem w /\ oracle w' = tl (oracle w) /\ fresh w' = fresh w + 1
      /\ fds w' = <[fd := OpenFile path i 0 n]> (fds w)
  | (Raise e, w') => is_os_error e = true /\ quiet_io w w' /\ oracle w <> []
  end.
Proof.
  intros Hm. unfold os_open, may_fail, next_event, mbind, ST_bind, content.
  destruct w as [fs d n m orc h]. destruct orc as [|[|k|k] r]; cbn;
    [| | |by repeat split; cbn; first [done|lia]];
    destruct Hm as [-> | ->]; (destruct (fs !! path) as [[i b]|] eqn:E; cbn; (split; [done|]));
    eexists _, _; repeat split.
Qed.

Lemma below_fresh w : fds_below w -> fds w !! fresh w = None.
Proof.
  intros Hb. destruct (fds w !! fresh w) eqn:E; [|done].
  assert (fresh w < fresh w) by (apply Hb; by eexists). lia.
Qed.

(** Reading and parsing through a descriptor opened in [w], then closing it *)
Lemma read_opened_cases {A} (parse : list Z -> result A) path n w w1 f :
  fds_below w -> files w !! path = Some f ->
  files w1 = files w /\ mem w1 = mem w /\ fresh w1 = fresh w + 1
    /\ fds w1 = <[fresh w := OpenFile path (ino f) 0 (lenZ (bytes f))]> (fds w) ->
  let '(r, w') := st_finally (b ← os_pread (fresh w) n; st_lift (parse b)) (os_close (fresh w)) w1 in
  quiet_io w w'
  /\ match r with
     | Ok a => parse (take (Z.to_nat n) (bytes f)) = Ok a
     | Raise ex => is_os_error ex = true \/ parse (take (Z.to_nat n) (bytes f)) = Raise ex
     end.
Proof.
  intros Hfds Hf (H1 & H2 & H3 & H4).
  assert (forall w2, quiet_io w1 w2 -> quiet_io w (with_fds w2 (delete (fresh w) (fds w2)))) as Hdel.
  { intros w2 (Q1&Q2&Q3&Q4). split; [by rewrite <- H1|]. split; [simpl; congruence|].
    split; [|simpl; lia]. simpl. rewrite Q3, H4. apply delete_insert_id. by apply below_fresh. }
  unfold st_finally.
  assert (let '(r, w2) := (b ← os_pread (fresh w) n; st_lift (parse b)) w1 in quiet_io w1 w2
    /\ match r with
       | Ok a => parse (take (Z.to_nat n) (bytes f)) = Ok a
       | Raise ex => is_os_error ex = true \/ parse (take (Z.to_nat n) (bytes f)) = Raise ex
       end) as Hr.
  { unfold os_pread, mbind, ST_bind. pose proof (may_fail_quiet w1) as Hm.
    destruct (may_fail w1) as [[u|e] w2]; [|destruct Hm as (? & ? & _); split; [done|by left]].
    unfold st_get, fd_file. destruct Hm as (Q1&Q2&Q3&Q4). rewrite Q3, H4, lookup_insert_eq. simpl.
    rewrite Q1, H1, Hf. simpl. rewrite Z.eqb_refl. split; [done|]. unfold st_lift.
    destruct (parse _); simpl; [done|by right]. }
  match type of Hr with context [?body w1] => destruct (body w1) as [r w2] end.
  destruct Hr as [Hq Hr].
  pose proof (os_close_quiet w2 (fresh w)) as Hc. destruct (os_close (fresh w) w2) as [rc w3].
  destruct Hc as [Hc Hrc]. assert (quiet_io w w3) as Hw3 by (etrans; [by apply Hdel|done]).
  destruct r as [a|e], rc as [u|e']; (split; [done|]); try done; by left; apply Hrc.
Qed.

Lemma read_file_cases {A} (parse : list Z -> result A) path n w :
  fds_below w ->
  let '(r, w') := (fd ← os_open path O_RDONLY;
    st_finally (b ← os_pread fd n; st_lift (parse b)) (os_close fd)) w in
  quiet_io w w'
  /\ match r with
     | Ok a => exists f, content w path = Some f /\ parse (take (Z.to_nat n) f) = Ok a
     | Raise _ => True
     end.
Proof.
  intros Hfds. unfold mbind at 1, ST_bind at 1. pose proof (os_open_read w path) as Ho.
  destruct (os_open path O_RDONLY w) as [[fd|e] w1]; [|by destruct Ho as (_ & ? & _)].
  destruct Ho as (-> & f & Hf & Hw1).
  pose proof (read_opened_cases parse path n w w1 f Hfds Hf Hw1) as H.
  destruct (st_finally _ _ w1) as [[a|e] w2]; destruct H as [Hq Hr]; (split; [done|]); [|done].
  exists (bytes f). split; [unfold content; by rewrite Hf|done].
Qed.

(** [open(path, "wb")] replaces the content, and may leave a prefix when it fails. *)
Lemma py_write_file_cases path data w :
  fds_below w ->
  let '(r, w') := py_write_file path data w in
  only_file path w w'
  /\ match r with
     | Ok _ => content w' path = Some data
     | Raise e => is_os_error e = true /\ oracle w <> []
     end.
Proof.
  intros Hb%below_fresh. unfold py_write_file, mbind at 1, ST_bind at 1.
  pose proof (os_open_write w path O_WRITE_TRUNC (or_introl eq_refl)) as Ho.
  destruct (os_open path O_WRITE_TRUNC w) as [[fd|e] w1] eqn:Eo.
  2:{ destruct Ho as (He & Hq & Hne). split; [by apply quiet_only|done]. }
  destruct Ho as (-> & i & n & H1 & H2 & Hor & H3 & H4). cbn [opened_bytes] in H1.
  assert (forall ev w2, quiet_io w1 w2 ->
    let w3 := with_files w2 (<[path := File i ev]> (files w2)) in
    only_file path w (with_fds w3 (delete (fresh w) (fds w3)))
    /\ content (with_fds w3 (delete (fresh w) (fds w3))) path = Some ev) as Hw.
  { intros ev w2 (Q1&Q2&Q3&Q4). simpl. split.
    - repeat split; simpl; [|congruence| |lia].
      + intros q Hq. rewrite lookup_insert_ne, Q1, H1, lookup_insert_ne by done. done.
      + rewrite Q3, H4. by rewrite delete_insert_id.
    - unfold content. simpl. by rewrite lookup_insert_eq. }
  assert (forall w2, quiet_io w1 w2 -> fd_file w2 (fresh w)
    = Some (OpenFile path i 0 n, File i [])) as Hfd.
  { intros w2 (Q1&_&Q3&_). unfold fd_file. rewrite Q3, H4, lookup_insert_eq. simpl.
    rewrite Q1, H1, lookup_insert_eq. simpl. by rewrite Z.eqb_refl. }
  unfold mbind at 1, ST_bind at 1. unfold next_event.
  destruct (oracle w1) as [|ev r] eqn:Ew1; unfold mbind, ST_bind, st_modify; cbv beta iota zeta.
  - rewrite Hfd by done. destruct (Hw (take (length data) data) w1) as [Ha Hc]; [done|].
    split; [done|]. cbn. cbn in Hc. by rewrite Hc, firstn_all.
  - rewrite Hfd by done.
    destruct (Hw (take (match ev with IoFault n => Nat.min n (length data) | _ => length data end) data)
      (with_oracle w1 r)) as [Ha Hc]; [done|].
    destruct ev; cbn in *; (split; [done|]); try by rewrite Hc, firstn_all.
    split; [done|]. intros Hw0. by rewrite Hw0 in Hor.
Qed.

Lemma os_write_cases fd data w path i sz old :
  fd_file w fd = Some (OpenFile path i 0 sz, File i old) ->
  match os_write fd data w with
  | (Ok count, w') => exists n (h : open_file), count = Z.of_nat n /\ (n <= length data)%nat
      /\ files w' = <[path := File i (write_at old 0 (take n data))]> (files w)
      /\ mem w' = mem w /\ fds w' = <[fd := h]> (fds w) /\ fresh w' = fresh w
      /\ oracle w' = tl (oracle w) /\ (oracle w = [] -> n = length data)
  | (Raise e, w') => is_os_error e = true /\ quiet_io w w' /\ oracle w <> []
  end.
Proof.
  intros Hfd. unfold os_write, next_event, mbind, ST_bind, st_get.
  assert (forall r, fd_file (with_oracle w r) fd = Some (OpenFile path i 0 sz, File i old)) as Hfd'
    by done.
  destruct (oracle w) as [|ev r] eqn:E; cbn [mret]; [rewrite Hfd|rewrite Hfd'];
    [|destruct ev as [|k|k]]; cbn; [| | |by repeat split; simpl; first [done|lia]];
    [exists (length data)|exists (length data)|exists (Nat.min k (length data))];
    eexists; split_and!; first [lia|reflexivity|done|by rewrite E].
Qed.

(** [os.open] without truncation and one [os.write]: the count *)
Lemma direct_write_count path data w :
  fds_below w ->
  let '(r, w') := (fd ← os_open path O_CREAT_WRONLY;
    st_finally (os_write fd data) (os_close fd)) w in
  only_file path w w'
  /\ match r with
     | Ok count => exists n, count = Z.of_nat n /\ (n <= length data)%nat
         /\ content w' path = Some (write_at (default [] (content w path)) 0 (take n data))
         /\ (oracle w = [] -> n = length data)
     | Raise e => is_os_error e = true /\ oracle w <> []
     end.
Proof.
  intros Hb%below_fresh. unfold mbind at 1, ST_bind at 1.
  pose proof (os_open_write w path O_CREAT_WRONLY (or_intror eq_refl)) as Ho.
  destruct (os_open path O_CREAT_WRONLY w) as [[fd|e] w1].
  2:{ destruct Ho as (He & Hq & Hne). split; [by apply quiet_only|done]. }
  destruct Ho as (-> & i & sz & H1 & H2 & Hor & H3 & H4). cbn [opened_bytes] in H1.
  set (old := default [] (content w path)) in *.
  unfold st_finally, mbind, ST_bind.
  assert (fd_file w1 (fresh w) = Some (OpenFile path i 0 sz, File i old)) as Hfd.
  { unfold fd_file. rewrite H4, lookup_insert_eq. simpl. rewrite H1, lookup_insert_eq. simpl.
    by rewrite Z.eqb_refl. }
  pose proof (os_write_cases (fresh w) data w1 path i sz old Hfd) as Hw.
  destruct (os_write (fresh w) data w1) as [[c|e] w2].
  - destruct Hw as (n & h & Hcn & Hn & F1 & F2 & F3 & F4 & F5 & F6).
    pose proof (os_close_quiet w2 (fresh w)) as Hc.
    destruct (os_close (fresh w) w2) as [rc w3]. destruct Hc as [(C1&C2&C3&C4) Hrc]. simpl in *.
    assert (only_file path w w3) as Hof.
    { repeat split; [|congruence| |lia].
      - intros q Hq. by rewrite C1, F1, H1, !lookup_insert_ne.
      - by rewrite C3, F3, H4, insert_insert_eq, delete_insert_id. }
    destruct rc as [[]|e]; (split; [done|]).
    + exists n. split; [done|]. split; [done|]. split.
      * unfold content. by rewrite C1, F1, lookup_insert_eq.
      * intros Hw. apply F6. by rewrite Hor, Hw.
    + destruct Hrc as [He Hne]. split; [done|]. intros Hw. by rewrite F5, Hor, Hw in Hne.
  - destruct Hw as (He & (Q1&Q2&Q3&Q4) & Hne).
    pose proof (os_close_quiet w2 (fresh w)) as Hc.
    destruct (os_close (fresh w) w2) as [rc w3]. destruct Hc as [Hc Hrc].
    assert (only_file path w w3) as Hof.
    { etrans; [|by apply quiet_only]. repeat split; simpl; [|congruence| |lia].
      - intros q Hq. by rewrite Q1, H1, lookup_insert_ne.
      - by rewrite Q3, H4, delete_insert_id. }
    assert (oracle w <> []) by (intros Hw; by rewrite Hor, Hw in Hne).
    destruct rc as [[]|e']; (split; [done|]); [done|]. by destruct Hrc.
Qed.

