(* ===== verification/HipFile.v ===== *)
(** * HyFile DMA

    [lmcache_hcu/v1/hipfile.py]: the [HIPFile] handle, its driver and its
    reference-counted global buffers, and [HyFileDDS] of [xds_backend.py], which
    reads and writes through it with a CPU-copy fallback under a reader/writer
    guard. [libhyfile.so] and [hipMemcpy] are an interface, [HyFileLib]. *)

From S2P Require Import Prelude World.

Open Scope string_scope.
Open Scope list_scope.
Open Scope Z_scope.

(** ** The native libraries *)

(** Calls of [libhyfile.so] by the file's path, and [hipMemcpy] to and from a mapped
    file; results are the C return values. *)
Class HyFileLib := {
  libhyfile_present : bool;
  hipFileDriverOpen : world -> Z * world;
  hipFileDriverClose : world -> Z * world;
  hipFileHandleRegister : Z -> world -> Z * world;
  hipFileHandleDeregister : Z -> world -> result unit * world;
  hipFileBufRegister : Z -> Z -> world -> Z * world;
  hipFileBufDeregister : Z -> world -> Z * world;
  hipFileRead : string -> Z -> Z -> Z -> Z -> world -> Z * world;
  hipFileWrite : string -> Z -> Z -> Z -> Z -> world -> Z * world;
  hipMemcpyDtoH : string -> Z -> Z -> Z -> world -> Z * world;
  hipMemcpyHtoD : Z -> string -> Z -> Z -> world -> Z * world;
  libgalaxyhip_present : bool;
  hipMemcpyDtoD : Z -> Z -> Z -> world -> Z * world;      (* destination, source, size *)
  cuda_synchronize : world -> result unit * world;        (* torch.cuda.synchronize *)
  torch_empty : Z -> world -> result Z * world;           (* data_ptr of torch.empty(n) *)
}.

Definition lib {A} (f : world -> A * world) : ST world A := fun w =>
  let '(a, w') := f w in (Ok a, w').

(** Nothing the program sees changes but the oracle. *)
Definition quiet (w w' : world) : Prop :=
  files w' = files w /\ fds w' = fds w /\ fresh w' = fresh w /\ hip w' = hip w
  /\ forall a, mem w' a = mem w a.

(** Only the content of [path] changes. *)
Definition writes_only (path : string) (w w' : world) : Prop :=
  (forall q, q <> path -> files w' !! q = files w !! q)
  /\ (ino <$> files w' !! path) = (ino <$> files w !! path)
  /\ fds w' = fds w /\ fresh w' = fresh w /\ hip w' = hip w /\ forall a, mem w' a = mem w a.

(** Only device memory in [[lo, lo + n)] changes. *)
Definition stores_only (lo n : Z) (w w' : world) : Prop :=
  files w' = files w /\ fds w' = fds w /\ fresh w' = fresh w /\ hip w' = hip w
  /\ forall a, ~ lo <= a < lo + n -> mem w' a = mem w a.

(** Documented behaviour: the state each call touches *)
Class HyFileFrames `{!HyFileLib} := {
  driver_open_quiet w : quiet w (hipFileDriverOpen w).2;
  driver_close_quiet w : quiet w (hipFileDriverClose w).2;
  handle_register_quiet fd w : quiet w (hipFileHandleRegister fd w).2;
  handle_deregister_quiet fd w : quiet w (hipFileHandleDeregister fd w).2;
  buf_register_quiet p n w : quiet w (hipFileBufRegister p n w).2;
  buf_deregister_quiet p w : quiet w (hipFileBufDeregister p w).2;
  write_frame path p n fo dof w : writes_only path w (hipFileWrite path p n fo dof w).2;
  read_frame path p n fo dof w : stores_only (p + dof) n w (hipFileRead path p n fo dof w).2;
  dtoh_frame path fo a n w : writes_only path w (hipMemcpyDtoH path fo a n w).2;
  htod_frame a path fo n w : stores_only a n w (hipMemcpyHtoD a path fo n w).2;
  dtod_frame dst src n w : stores_only dst n w (hipMemcpyDtoD dst src n w).2;
  synchronize_quiet w : quiet w (cuda_synchronize w).2;
  torch_empty_quiet n w : quiet w (torch_empty n w).2;
}.

(** And what a complete transfer moved *)
Class HyFileLibLaws `{!HyFileLib} := {
  laws_frames :: HyFileFrames;
  write_below path p n fo dof w f : 0 <= fo <= lenZ f -> content w path = Some f ->
    exists f', content (hipFileWrite path p n fo dof w).2 path = Some f'
      /\ take (Z.to_nat fo) f' = take (Z.to_nat fo) f;
  write_complete path p n fo dof w f :
    0 <= fo -> 0 <= n -> content w path = Some f -> (hipFileWrite path p n fo dof w).1 = n ->
    content (hipFileWrite path p n fo dof w).2 path
      = Some (write_at f (Z.to_nat fo) (mem_slice (mem w) (p + dof) (Z.to_nat n)));
  read_complete path p n fo dof w f :
    0 <= fo -> content w path = Some f -> (hipFileRead path p n fo dof w).1 = n ->
    forall i, 0 <= i < n ->
      f !! Z.to_nat (fo + i) = Some (mem (hipFileRead path p n fo dof w).2 (p + dof + i));
  dtoh_below path fo a n w f : 0 <= fo <= lenZ f -> content w path = Some f ->
    exists f', content (hipMemcpyDtoH path fo a n w).2 path = Some f'
      /\ take (Z.to_nat fo) f' = take (Z.to_nat fo) f;
  dtoh_complete path fo a n w f :
    0 <= fo -> 0 <= n -> content w path = Some f -> fo + n <= lenZ f ->
    (hipMemcpyDtoH path fo a n w).1 = 0 ->
    content (hipMemcpyDtoH path fo a n w).2 path
      = Some (write_at f (Z.to_nat fo) (mem_slice (mem w) a (Z.to_nat n)));
  htod_complete a path fo n w f :
    0 <= fo -> content w path = Some f -> fo + n <= lenZ f ->
    (hipMemcpyHtoD a path fo n w).1 = 0 ->
    forall i, 0 <= i < n ->
      f !! Z.to_nat (fo + i) = Some (mem (hipMemcpyHtoD a path fo n w).2 (a + i));
  dtod_complete dst src n w : (hipMemcpyDtoD dst src n w).1 = 0 ->
    (src + n <= dst \/ dst + n <= src) ->
    forall i, 0 <= i < n -> mem (hipMemcpyDtoD dst src n w).2 (dst + i) = mem w (src + i);
}.

Definition HIPFILEOP_BASE_ERR : Z := 5000.

Section hipfile.
Context {HL : HyFileLib}.

(** ** [HIPFileLib] *)

Definition check_err (err : Z) : ST world unit :=
  if err =? 0 then mret tt else st_raise (HIPfileException err).

Definition driver_open : ST world unit := err ← lib hipFileDriverOpen; check_err err.
Definition driver_close : ST world unit := err ← lib hipFileDriverClose; check_err err.

Definition register_file_handle (fd : Z) : ST world unit :=
  err ← lib (hipFileHandleRegister fd); check_err err.

Definition deregister_file_handle (fd : Z) : ST world unit :=
  r ← lib (hipFileHandleDeregister fd); st_lift r.

Definition log_call (c : lib_call) : ST world unit := st_modify (fun w =>
  with_hip w (HipClass (lib_loaded (hip w)) (driver_opened (hip w)) (global_buffers (hip w))
    (c :: lib_calls (hip w)))).

Definition lib_register_buffer (ptr size : Z) : ST world unit :=
  err ← lib (hipFileBufRegister ptr size); check_err err;; log_call (LibRegister ptr).

Definition lib_deregister_buffer (ptr : Z) : ST world unit :=
  err ← lib (hipFileBufDeregister ptr); check_err err;; log_call (LibDeregister ptr).

(** Negative results become exceptions. *)
Definition check_count (ret : Z) : ST world Z :=
  if ret <? 0 then
    if ret <? - HIPFILEOP_BASE_ERR then st_raise (HIPfileException (Z.abs ret))
    else st_raise (OSError (str_int (Z.abs ret)))
  else mret ret.

Definition lib_read (path : string) (dev_ptr size file_offset dev_offset : Z) : ST world Z :=
  ret ← lib (hipFileRead path dev_ptr size file_offset dev_offset); check_count ret.

Definition lib_write (path : string) (dev_ptr size file_offset dev_offset : Z) : ST world Z :=
  ret ← lib (hipFileWrite path dev_ptr size file_offset dev_offset); check_count ret.

(** ** [HIPFile]: the class *)

Definition get_hip : ST world hip_class := st_gets hip.
Definition set_hip (h : hip_class) : ST world unit := st_modify (fun w => with_hip w h).

Definition set_buffers (b : gmap Z (Z * Z)) : ST world unit := st_modify (fun w =>
  with_hip w (HipClass (lib_loaded (hip w)) (driver_opened (hip w)) b (lib_calls (hip w)))).

Definition set_driver (b : bool) : ST world unit := st_modify (fun w =>
  with_hip w (HipClass (lib_loaded (hip w)) b (global_buffers (hip w)) (lib_calls (hip w)))).

(** [if cls._lib_instance is None: cls._lib_instance = HIPFileLib()] *)
Definition load_lib : ST world unit :=
  h ← get_hip;
  if lib_loaded h then mret tt
  else if libhyfile_present then
    set_hip (HipClass true (driver_opened h) (global_buffers h) (lib_calls h))
  else st_raise FileNotFoundError.

Definition register_global_buffer (dev_ptr size : Z) : ST world unit :=
  load_lib;;
  h ← get_hip;
  if negb (driver_opened h) then
    st_raise (RuntimeError "Driver not opened. Call HIPFile.init_driver() first.")
  else
    match global_buffers h !! dev_ptr with
    | Some (old_size, refcount) =>
        if negb (old_size =? size) then
          st_raise (ValueError "Buffer already registered with different size")
        else set_buffers (<[dev_ptr := (size, refcount + 1)]> (global_buffers h))
    | None =>
        lib_register_buffer dev_ptr size;;
        set_buffers (<[dev_ptr := (size, 1)]> (global_buffers h))
    end.

Definition deregister_global_buffer (dev_ptr : Z) : ST world unit :=
  h ← get_hip;
  match global_buffers h !! dev_ptr with
  | None => mret tt
  | Some (size, refcount) =>
      if 1 <? refcount then
        set_buffers (<[dev_ptr := (size, refcount - 1)]> (global_buffers h))
      else
        (if lib_loaded h then lib_deregister_buffer dev_ptr else mret tt);;
        set_buffers (delete dev_ptr (global_buffers h))
  end.

Definition is_buffer_registered (h : hip_class) (dev_ptr : Z) : bool :=
  bool_decide (is_Some (global_buffers h !! dev_ptr))
  || existsb (fun '(base_ptr, (size, _)) => (base_ptr <=? dev_ptr) && (dev_ptr <? base_ptr + size))
       (map_to_list (global_buffers h)).

Definition init_driver : ST world unit :=
  load_lib;;
  h ← get_hip;
  if driver_opened h then mret tt else driver_open;; set_driver true.

Definition close_driver : ST world unit :=
  h ← get_hip;
  if driver_opened h && lib_loaded h then driver_close;; set_driver false else mret tt.

(** ** [HIPFile]: one handle *)

Definition open_flags (mode : string) : result open_mode :=
  if String.eqb mode "r" then Ok O_RDONLY
  else if String.eqb mode "w" then Ok O_WRITE_TRUNC
  else if String.eqb mode "r+" then Ok O_RDWR
  else if String.eqb mode "a" then Ok O_CREAT_APPEND
  else Raise (ValueError ("Unsupported mode: " +:+ mode)).

(** [HIPFile.open]: a failed handle registration closes the descriptor. *)
Definition hip_open (path mode : string) : ST world Z :=
  h ← get_hip;
  (if driver_opened h then mret tt else driver_open;; set_driver true);;
  flags ← st_lift (open_flags mode);
  fd ← os_open path flags;
  st_catch any_exn (register_file_handle fd) (fun e => os_close fd;; st_raise e);;
  mret fd.

(** [HIPFile.close]: the descriptor is closed whatever deregistration does, then its
    error is raised. *)
Definition hip_close (fd : Z) : ST world unit :=
  deregister_error ← st_catch any_exn (deregister_file_handle fd;; mret None)
                       (fun e => mret (Some e));
  os_close fd;;
  match deregister_error with None => mret tt | Some e => st_raise e end.

(** [HIPFile(path, mode)] constructed, then [with hip_file as f: body f] *)
Definition with_hip_file {A} (path mode : string) (body : Z -> ST world A) : ST world A :=
  load_lib;;
  fd ← hip_open path mode;
  st_finally (body fd) (hip_close fd).

(** ** [HyFileDDS] *)

Record HyFileDDS := MkHyFileDDS {
  allow_cpu_fallback : bool;
  hiprt : bool;              (* whether libhiprtc.so was loaded *)
}.

Definition close_file_descriptor (fd : Z) : ST world unit :=
  st_catch is_os_error (os_close fd) (fun _ => mret tt).

(** [os.open], the given preparation, [mmap], [os.close]; a failure closes the descriptor
    again. *)
Definition with_mapped_file (path : string) (mode : open_mode) (prepare : Z -> ST world unit)
    : ST world unit :=
  fd ← os_open path mode;
  st_catch any_exn (prepare fd;; may_fail;; os_close fd)
    (fun e => close_file_descriptor fd;; st_raise e).

Definition write_fallback (path : string) (gpu_address size file_offset dev_offset : Z)
    : ST world Z :=
  with_mapped_file path O_RDWR (fun fd =>
    os_ftruncate fd (file_offset + size);;
    st_lift (raise_if (file_offset + size =? 0) (ValueError "cannot mmap an empty file")));;
  res ← lib (hipMemcpyDtoH path file_offset (gpu_address + dev_offset) size);
  mret (if negb (res =? 0) then -1 else size).

Definition read_fallback (path : string) (gpu_address size file_offset dev_offset : Z)
    : ST world Z :=
  with_mapped_file path O_RDONLY (fun fd =>
    st ← os_fstat fd;
    st_lift (raise_if (st.2 =? 0) (ValueError "cannot mmap an empty file")));;
  res ← lib (hipMemcpyHtoD (gpu_address + dev_offset) path file_offset size);
  mret (if negb (res =? 0) then -1 else size).

(** The fallback, when it is allowed and the runtime is there *)
Definition cpu_copy (dds : HyFileDDS) (fallback : ST world Z) : ST world Z :=
  if negb (allow_cpu_fallback dds) then mret (-1)
  else if negb (hiprt dds) then mret (-1)
  else st_catch any_exn fallback (fun _ => mret (-1)).

Definition dds_write (dds : HyFileDDS) (path : string)
    (gpu_address size file_offset dev_offset : Z) : ST world Z :=
  let mode := if file_offset =? 0 then "w" else "r+" in
  ret ← st_catch any_exn
    (r ← with_hip_file path mode
           (fun _ => lib_write path gpu_address size file_offset dev_offset);
     mret (Some r))
    (fun _ => mret None);
  if bool_decide (ret = Some size) then mret size
  else cpu_copy dds (write_fallback path gpu_address size file_offset dev_offset).

Definition dds_read (dds : HyFileDDS) (path : string)
    (gpu_address size file_offset dev_offset : Z) : ST world Z :=
  exists_ ← os_exists path;
  if negb exists_ then mret (-1)
  else
    ret ← st_catch any_exn
      (r ← with_hip_file path "r"
             (fun _ => lib_read path gpu_address size file_offset dev_offset);
       mret (Some r))
      (fun _ => mret None);
    if bool_decide (ret = Some size) then mret size
    else cpu_copy dds (read_fallback path gpu_address size file_offset dev_offset).

End hipfile.

(** ** The reader/writer guard of the driver *)

Inductive phase := Idle | Reading | Writing.

#[global] Instance phase_eq_dec : EqDecision phase.
Proof. solve_decision. Defined.

(** [_driver_readers], [_driver_writer] and what each thread is doing *)
Record driver_guard := DriverGuard {
  driver_readers : Z;
  driver_writer : bool;
  threads : list phase;
}.

(** One atomic step of thread [i], under the condition's lock: entering waits until its
    condition holds. *)
Inductive guard_step : driver_guard -> driver_guard -> Prop :=
  | read_enter g i :
      threads g !! i = Some Idle -> driver_writer g = false ->
      guard_step g (DriverGuard (driver_readers g + 1) (driver_writer g) (<[i := Reading]> (threads g)))
  | read_leave g i :
      threads g !! i = Some Reading ->
      guard_step g (DriverGuard (driver_readers g - 1) (driver_writer g) (<[i := Idle]> (threads g)))
  | write_enter g i :
      threads g !! i = Some Idle -> driver_writer g || negb (driver_readers g =? 0) = false ->
      guard_step g (DriverGuard (driver_readers g) true (<[i := Writing]> (threads g)))
  | write_leave g i :
      threads g !! i = Some Writing ->
      guard_step g (DriverGuard (driver_readers g) false (<[i := Idle]> (threads g))).

Definition guard_init (n : nat) : driver_guard := DriverGuard 0 false (replicate n Idle).

(** The condition a thread waits for is met. *)
Definition can_read (g : driver_guard) : bool := negb (driver_writer g).
Definition can_write (g : driver_guard) : bool :=
  negb (driver_writer g) && (driver_readers g =? 0).

(** ** Lemmas: the guard *)

Definition count_phase (p : phase) (l : list phase) : Z := sumZ ((fun q => if decide (q = p) then 1 else 0) <$> l).

Lemma count_phase_cons p q l :
  count_phase p (q :: l) = (if decide (q = p) then 1 else 0) + count_phase p l.
Proof. done. Qed.

Lemma count_phase_insert p q r l i :
  l !! i = Some q ->
  count_phase p (<[i := r]> l)
  = count_phase p l - (if decide (q = p) then 1 else 0) + (if decide (r = p) then 1 else 0).
Proof.
  revert i. induction l as [|x l IH]; intros [|i] Hi; [done..| |].
  - injection Hi as ->. change (<[0%nat := r]> (q :: l)) with (r :: l).
    rewrite !count_phase_cons. lia.
  - change (<[S i := r]> (x :: l)) with (x :: <[i := r]> l).
    rewrite !count_phase_cons, IH by done. lia.
Qed.

Lemma count_phase_nonneg p l : 0 <= count_phase p l.
Proof. induction l as [|x l IH]; [done|]. rewrite count_phase_cons. case_decide; lia. Qed.

Lemma count_phase_pos p l i : l !! i = Some p -> 1 <= count_phase p l.
Proof.
  revert i. induction l as [|x l IH]; intros [|i] Hi; [done..| |]; rewrite count_phase_cons.
  - injection Hi as ->. rewrite decide_True by done. pose proof (count_phase_nonneg p l). lia.
  - specialize (IH i Hi). case_decide; lia.
Qed.

Lemma count_phase_two p l i j :
  l !! i = Some p -> l !! j = Some p -> i <> j -> 2 <= count_phase p l.
Proof.
  revert i j. induction l as [|x l IH]; intros [|i] [|j] Hi Hj Hne; try done;
    rewrite count_phase_cons.
  - injection Hi as ->. rewrite decide_True by done. pose proof (count_phase_pos p l j Hj). lia.
  - injection Hj as ->. rewrite decide_True by done. pose proof (count_phase_pos p l i Hi). lia.
  - specialize (IH i j Hi Hj ltac:(lia)). case_decide; lia.
Qed.

Lemma count_phase_idle p l : p <> Idle -> Forall (eq Idle) l -> count_phase p l = 0.
Proof.
  intros Hp. induction 1 as [|x l <- _ IH]; [done|].
  rewrite count_phase_cons, IH, decide_False by congruence. done.
Qed.

Definition guard_inv (g : driver_guard) : Prop :=
  driver_readers g = count_phase Reading (threads g)
  /\ (if driver_writer g then 1 else 0) = count_phase Writing (threads g)
  /\ (driver_writer g = true -> driver_readers g = 0).

Lemma guard_step_inv g g' : guard_inv g -> guard_step g g' -> guard_inv g'.
Proof.
  intros (Hr & Hw & Hx) Hs. destruct Hs as [g i Hi Hc|g i Hi|g i Hi Hc|g i Hi];
    unfold guard_inv; simpl; rewrite !(count_phase_insert _ _ _ _ _ Hi), <- Hr, <- Hw; simpl.
  - rewrite Hc in *. repeat split; lia || done.
  - repeat split; try lia. intros Hw'. rewrite (Hx Hw') in *.
    pose proof (count_phase_pos _ _ _ Hi). lia.
  - apply orb_false_iff in Hc as [-> Hc]. apply negb_false_iff, Z.eqb_eq in Hc.
    repeat split; lia.
  - destruct (driver_writer g) eqn:E; [repeat split; lia || done|].
    pose proof (count_phase_pos _ _ _ Hi). lia.
Qed.

Lemma guard_init_inv n : guard_inv (guard_init n).
Proof.
  unfold guard_inv, guard_init. simpl.
  assert (Forall (eq Idle) (replicate n Idle)) as H by (by apply Forall_replicate).
  by rewrite !count_phase_idle by done.
Qed.

(** ** Properties: the guard *)

(** In every reachable state of the driver guard, for any number of threads, a
    thread writing excludes every other reader and writer, and a thread can always
    proceed once the others have left: with all threads idle both conditions hold. *)
Theorem driver_guard_exclusive n g :
  rtc guard_step (guard_init n) g ->
  (forall i j, threads g !! i = Some Writing -> threads g !! j <> Some Idle ->
     is_Some (threads g !! j) -> i = j)
  /\ (Forall (eq Idle) (threads g) -> can_read g = true /\ can_write g = true).
Proof.
  intros Hr. assert (guard_inv g) as (Hrd & Hw & Hx).
  { refine (rtc_ind_r guard_inv (guard_init n) (guard_init_inv n) _ g Hr).
    intros g1 g2 _ Hs Hi. by eapply guard_step_inv. }
  split.
  - intros i j Hi Hj [p Hp]. destruct (decide (i = j)) as [|Hne]; [done|]. exfalso.
    pose proof (count_phase_pos _ _ _ Hi) as H1.
    destruct (driver_writer g) eqn:E; [|lia]. specialize (Hx eq_refl).
    destruct p; [by rewrite Hp in Hj| |].
    + pose proof (count_phase_pos _ _ _ Hp). lia.
    + pose proof (count_phase_two _ _ _ _ Hi Hp Hne). lia.
  - intros Hall. unfold can_read, can_write. rewrite count_phase_idle in Hrd, Hw by done.
    rewrite Hrd.
    by destruct (driver_writer g).
Qed.

Lemma driver_guard_exclusive_witness :
  exists g, rtc guard_step (guard_init 3) g /\ threads g !! 1%nat = Some Writing
    /\ threads g !! 0%nat = Some Idle.
Proof.
  assert (rtc guard_step (guard_init 3) (DriverGuard 0 true [Idle; Writing; Idle])) as H.
  { eapply rtc_l; [apply (read_enter _ 0); reflexivity|]. simpl.
    eapply rtc_l; [apply (read_leave _ 0); reflexivity|]. simpl.
    eapply rtc_l; [apply (write_enter _ 1); reflexivity|]. simpl. apply rtc_refl. }
  destruct (driver_guard_exclusive 3 _ H) as [Hex _].
  exists (DriverGuard 0 true [Idle; Writing; Idle]). split; [exact H|]. split; reflexivity.
Defined.

(** ** Lemmas: handles *)

Section handle_facts.
Context {HL : HyFileLib} {HLF : HyFileFrames}.

Lemma lib_quiet_triple {A} (f : world -> A * world) P d n :
  io_closed P -> (forall w, quiet w (f w).2) ->
  triple (fun w => P w /\ fds_at d n w) (lib f) (fun _ w => P w /\ fds_at d n w)
    (fun _ _ => False).
Proof.
  intros HP Hq w [Hw [Hd Hn]]. specialize (Hq w). unfold lib.
  destruct (f w) as [a w']. destruct Hq as (Hf & Hfd & Hfr & _ & Hm). simpl in *.
  split; [by apply (HP w)|]. split; [by rewrite Hfd|by rewrite Hfr].
Qed.

Lemma check_err_triple err (P : world -> Prop) :
  triple P (check_err err) (fun _ => P) (fun _ => P).
Proof. unfold check_err. intros w Hw. by destruct (err =? 0). Qed.

Lemma lib_call_triple (f : world -> Z * world) P d n :
  io_closed P -> (forall w, quiet w (f w).2) ->
  triple (fun w => P w /\ fds_at d n w) (err ← lib f; check_err err)
    (fun _ w => P w /\ fds_at d n w) (fun _ w => P w /\ fds_at d n w).
Proof.
  intros HP Hq. eapply triple_bind; [|intros err; apply check_err_triple].
  eapply triple_conseq; [by apply (lib_quiet_triple f P d n)|done|done|intros ? ? []].
Qed.

Lemma hip_state_triple (g : world -> world) P d n :
  io_closed P -> (forall w, files (g w) = files w /\ fds (g w) = fds w /\ fresh (g w) = fresh w
    /\ mem (g w) = mem w) ->
  triple (fun w => P w /\ fds_at d n w) (st_modify g) (fun _ w => P w /\ fds_at d n w)
    (fun _ w => P w /\ fds_at d n w).
Proof.
  intros HP Hg w [Hw [Hd Hn]]. destruct (Hg w) as (Hf & Hfd & Hfr & Hm). simpl.
  split; [apply (HP w); [done|by intros; rewrite Hm|done]|].
  split; [by rewrite Hfd|by rewrite Hfr].
Qed.

Lemma load_lib_triple P d n :
  io_closed P ->
  triple (fun w => P w /\ fds_at d n w) load_lib (fun _ w => P w /\ fds_at d n w)
    (fun _ w => P w /\ fds_at d n w).
Proof.
  intros HP w Hw. unfold load_lib, get_hip, st_gets, mbind, ST_bind. simpl.
  destruct (lib_loaded (hip w)); [done|]. destruct libhyfile_present; [|done].
  by apply (hip_state_triple _ P d n).
Qed.

Lemma hip_close_triple P d n fd o :
  io_closed P -> d !! fd = None ->
  triple (fun w => P w /\ fds_at (<[fd := o]> d) n w) (hip_close fd)
    (fun _ w => P w /\ fds_at d n w) (fun _ w => P w /\ fds_at d n w).
Proof.
  intros HP Hfd. unfold hip_close.
  apply (triple_bind _ _ _ (fun _ w => P w /\ fds_at (<[fd := o]> d) n w)).
  - apply triple_catch with (E' := fun _ w => P w /\ fds_at (<[fd := o]> d) n w);
      [|by intros e w Hw].
    eapply triple_bind; [|intros u w Hw; exact Hw].
    unfold deregister_file_handle. eapply triple_bind.
    + eapply triple_conseq; [apply (lib_quiet_triple _ P (<[fd := o]> d) n HP)|done|done|intros ? ? []].
      apply handle_deregister_quiet.
    + intros r. by apply triple_lift.
  - intros derr. eapply triple_bind.
    + eapply triple_conseq; [by apply (os_close_triple P d n fd o)|done|done|by intros e w [_ Hw]].
    + intros u. destruct derr; by intros w Hw.
Qed.

(** [with HIPFile(path, mode) as f] leaves no descriptor behind on any outcome. *)
Lemma with_hip_file_triple {A} path mode m (body : Z -> ST world A) (P P' E : world -> Prop)
    (Q : A -> world -> Prop) d n :
  open_flags mode = Ok m -> (forall fd, is_Some (d !! fd) -> fd < n) ->
  io_closed P -> io_closed P' -> io_closed E -> (forall a, io_closed (Q a)) ->
  (forall w i, P w -> creates m = true \/ is_Some (files w !! path) ->
     i = match files w !! path with Some f => ino f | None => fresh w end ->
     P' (with_files w (<[path := File i (opened_bytes m (default [] (content w path)))]>
                         (files w)))) ->
  (forall fd d', triple (fun w => P' w /\ fds_at d' n w) (body fd)
     (fun a w => Q a w /\ fds_at d' n w) (fun _ w => E w /\ fds_at d' n w)) ->
  (forall w, P w -> E w) -> (forall w, P' w -> E w) -> (forall a w, Q a w -> E w) ->
  triple (fun w => P w /\ fds_at d n w) (with_hip_file path mode body)
    (fun a w => Q a w /\ fds_at d n w) (fun _ w => E w /\ fds_at d n w).
Proof.
  intros Hm Hd HP HP' HE HQ Hopen Hbody HPE HPE' HQE. unfold with_hip_file.
  apply (triple_bind _ _ _ (fun _ w => P w /\ fds_at d n w)).
  { eapply triple_conseq; [by apply (load_lib_triple P d n)|done|done|].
    intros e w [Hw Hf]. auto. }
  intros [].
  apply (triple_bind _ _ _ (fun fd w => d !! fd = None /\ exists o, P' w /\ fds_at (<[fd := o]> d) n w)).
  - apply (triple_bind _ _ _ (fun _ w => P w /\ fds_at d n w)); [by intros w Hw|]. intros h.
    apply (triple_bind _ _ _ (fun _ w => P w /\ fds_at d n w)).
    { destruct (driver_opened h); [by intros w Hw|].
      apply (triple_bind _ _ _ (fun _ w => P w /\ fds_at d n w)); [|intros []].
      - eapply triple_exn; [apply (lib_call_triple _ P d n HP driver_open_quiet)|].
        intros e w [Hw Hf]. auto.
      - eapply triple_exn; [by apply (hip_state_triple _ P d n)|]. intros e w [Hw Hf]. auto. }
    intros []. rewrite Hm.
    apply (triple_bind _ _ _ (fun m' w => m' = m /\ P w /\ fds_at d n w));
      [by intros w Hw|].
    intros m'. apply triple_pure. intros ->.
    eapply triple_bind.
    { eapply triple_conseq; [apply (os_open_triple path m P P' d n); done|done|done|].
      intros e w [_ [Hw Hf]]. auto. }
    intros fd. intros w (Hw & Hfd & Hn & o & Ho & _ & Hfds).
    assert (d !! fd = None) as Hnone.
    { destruct (d !! fd) eqn:E'; [|done]. assert (fd < n) by (apply Hd; by eexists). lia. }
    pose proof (triple_bind (fun w => P' w /\ fds_at (<[fd := o]> d) n w)
      (st_catch any_exn (register_file_handle fd) (fun e => os_close fd;; st_raise e))
      (fun _ => mret fd)
      (fun _ w => P' w /\ fds_at (<[fd := o]> d) n w)
      (fun fd w => d !! fd = None /\ exists o, P' w /\ fds_at (<[fd := o]> d) n w)
      (fun _ w => E w /\ fds_at d n w)) as Hb.
    apply Hb; [| |done].
    + apply triple_catch with (E' := fun _ w => P' w /\ fds_at (<[fd := o]> d) n w).
      { apply lib_call_triple; [done|]. apply handle_register_quiet. }
      intros e. simpl. eapply triple_bind.
      { eapply triple_conseq; [by apply (os_close_triple P' d n fd o)|done|done|].
        intros e' w' [_ [Hw' Hf]]. auto. }
      intros [] w' [Hw' Hf]. simpl. auto.
    + intros [] w' [Hw' Hf]. simpl. split; [done|]. by exists o.
  - intros fd. apply triple_pure. intros Hnone. apply triple_exists. intros o.
    eapply triple_finally; [apply Hbody| |].
    + intros a. eapply triple_conseq; [apply (hip_close_triple (Q a) d n fd o); done|done|done|].
      intros e w [Hw Hf]. split; [by eapply HQE|done].
    + intros e. apply (hip_close_triple E d n fd o); done.
Qed.

(** Mapping a file leaves no descriptor behind either. *)
Lemma with_mapped_file_triple path mode prepare (P P' Q E : world -> Prop) d n :
  (forall fd, is_Some (d !! fd) -> fd < n) -> mode <> O_CREAT_APPEND ->
  io_closed P -> io_closed P' -> io_closed Q -> io_closed E ->
  (forall w i, P w -> creates mode = true \/ is_Some (files w !! path) ->
     i = match files w !! path with Some f => ino f | None => fresh w end ->
     P' (with_files w (<[path := File i (opened_bytes mode (default [] (content w path)))]>
                         (files w)))) ->
  (forall w, P w -> E w) -> (forall w, P' w -> E w) -> (forall w, Q w -> E w) ->
  (forall fd o, of_path o = path ->
     triple (fun w => P' w /\ fds_at (<[fd := o]> d) n w) (prepare fd)
       (fun _ w => Q w /\ fds_at (<[fd := o]> d) n w)
       (fun _ w => P' w /\ fds_at (<[fd := o]> d) n w)) ->
  triple (fun w => P w /\ fds_at d n w) (with_mapped_file path mode prepare)
    (fun _ w => Q w /\ fds_at d n w) (fun _ w => E w /\ fds_at d n w).
Proof.
  intros Hd Hmode HP HP' HQ HE Hopen HPP HPE HQP Hprep. unfold with_mapped_file.
  eapply triple_bind.
  { eapply triple_exn; [apply (os_open_triple path mode P P' d n); done|].
    intros e w [_ [Hw Hf]]. auto. }
  intros fd w (Hw & Hfd & Hn & o & Ho & _ & Hfds).
  assert (d !! fd = None) as Hnone.
  { destruct (d !! fd) eqn:E'; [|done]. assert (fd < n) by (apply Hd; by eexists). lia. }
  assert (triple (fun w => P' w /\ fds_at (<[fd := o]> d) n w)
    (st_catch any_exn (prepare fd;; may_fail;; os_close fd)
      (fun e => close_file_descriptor fd;; st_raise e))
    (fun _ w => Q w /\ fds_at d n w) (fun _ w => E w /\ fds_at d n w)) as Hc; [|by apply Hc].
  apply triple_catch with
    (E' := fun _ w => E w /\ exists d', (d' = d \/ d' = <[fd := o]> d) /\ fds_at d' n w).
  - eapply triple_bind.
    { eapply triple_exn; [by apply Hprep|]. intros e w' [Hw' Hf]. split; [by apply HPE|]. eauto. }
    intros []. eapply triple_bind.
    { eapply triple_exn; [apply (may_fail_triple Q (<[fd := o]> d) n HQ)|].
      intros e w' [_ [Hw' Hf]]. split; [by apply HQP|]. eauto. }
    intros []. eapply triple_exn; [by apply os_close_triple|].
    intros e w' [_ [Hw' Hf]]. split; [by apply HQP|]. eauto.
  - intros e. simpl. eapply (triple_bind _ _ _ (fun _ w => E w /\ fds_at d n w));
      [|by intros [] w' Hw'].
    unfold close_file_descriptor.
    apply triple_catch with (E' := os_error (fun w => E w /\ fds_at d n w)).
    + unfold os_close. apply (triple_bind _ _ _ (fun _ w => E w /\ fds_at d n w));
        [|intros _; by apply may_fail_triple].
      intros w' (Hw' & d' & Hd' & Hf & Hn'). simpl. split; [by apply (HE w')|].
      split; [|done]. simpl. rewrite Hf. destruct Hd' as [-> | ->].
      * by apply delete_id.
      * by apply delete_insert_id.
    + intros e'. destruct (is_os_error e') eqn:Eos.
      * intros w' [_ Hw']. done.
      * intros w' [Hw' _]. congruence.
Qed.

End handle_facts.

Section hipfile_facts.
Context {HL : HyFileLib} {HLL : HyFileLibLaws}.

(** *** Writing *)

Section dds_write.
Context (w0 : world) (path : string) (gpu size fo dof : Z).
Context (Hsize : 0 <= size) (Hfo : 0 <= fo)
  (Hlen : forall f, content w0 path = Some f -> fo <= lenZ f).

Let f0 := default [] (content w0 path).

(** Only [path] changes, and its first [fo] bytes stay. *)
Definition kept (w : world) : Prop :=
  keeps_files [path] w0 w
  /\ match content w path with
     | None => content w0 path = None
     | Some f => fo <= lenZ f /\ take (Z.to_nat fo) f = take (Z.to_nat fo) f0
     end.

Definition kept_some (w : world) : Prop := kept w /\ is_Some (content w path).

(** The [size] bytes at [fo] are those of device memory. *)
Definition written (w : world) : Prop :=
  exists f, content w path = Some f /\ take (Z.to_nat fo) f = take (Z.to_nat fo) f0
    /\ forall i, 0 <= i < size -> f !! Z.to_nat (fo + i) = Some (mem w0 (gpu + dof + i)).

Lemma kept_closed : io_closed kept.
Proof.
  apply io_closed_conj; [apply keeps_files_closed|].
  apply (content_closed path (fun c => match c with
     | None => content w0 path = None
     | Some f => fo <= lenZ f /\ take (Z.to_nat fo) f = take (Z.to_nat fo) f0 end)).
Qed.

Lemma kept_some_closed : io_closed kept_some.
Proof. apply io_closed_conj; [apply kept_closed|]. apply content_closed. Qed.

Lemma kept_ret_closed (ret : Z) : io_closed (fun w => kept w /\ (ret = size -> written w)).
Proof.
  apply io_closed_conj; [apply kept_closed|].
  apply (content_closed path (fun c => ret = size -> exists f, c = Some f
    /\ take (Z.to_nat fo) f = take (Z.to_nat fo) f0
    /\ forall i, 0 <= i < size -> f !! Z.to_nat (fo + i) = Some (mem w0 (gpu + dof + i)))).
Qed.

Lemma kept_writes_only w w' :
  keeps_files [path] w0 w -> writes_only path w w' -> keeps_files [path] w0 w'.
Proof.
  intros [Hf Hm] (Hq & _ & _ & _ & _ & Hm'). split.
  - intros q Hn. rewrite Hq; [by apply Hf|]. intros ->. apply Hn. by left.
  - intros a. by rewrite Hm'.
Qed.

(** Bytes of the written range, and the bytes below it *)
Lemma write_at_written f :
  fo <= lenZ f -> take (Z.to_nat fo) f = take (Z.to_nat fo) f0 ->
  let f' := write_at f (Z.to_nat fo) (mem_slice (mem w0) (gpu + dof) (Z.to_nat size)) in
  fo <= lenZ f' /\ take (Z.to_nat fo) f' = take (Z.to_nat fo) f0
  /\ forall i, 0 <= i < size -> f' !! Z.to_nat (fo + i) = Some (mem w0 (gpu + dof + i)).
Proof.
  intros Hle Ht f'. unfold lenZ in Hle. split; [|split].
  - unfold f', lenZ. rewrite length_write_at, length_mem_slice. lia.
  - rewrite <- Ht. unfold f', write_at.
    rewrite take_app_length' by (rewrite length_take, length_app; lia).
    by rewrite take_app_le by lia.
  - intros i Hi. unfold f'. rewrite Z2Nat.inj_add by lia.
    rewrite write_at_inside by (rewrite length_mem_slice; lia).
    rewrite mem_slice_lookup by lia. do 2 f_equal. lia.
Qed.

(** A device call that writes the file, as [hipFileWrite] and [hipMemcpyDtoH] do *)
Lemma device_write_triple (f : world -> Z * world) okval d n :
  (forall w, writes_only path w (f w).2) ->
  (forall w b, content w path = Some b -> fo <= lenZ b ->
     exists b', content (f w).2 path = Some b' /\ take (Z.to_nat fo) b' = take (Z.to_nat fo) b) ->
  (forall w b, content w path = Some b -> fo <= lenZ b -> (f w).1 = okval ->
     (okval = size \/ fo + size <= lenZ b) ->
     content (f w).2 path
     = Some (write_at b (Z.to_nat fo) (mem_slice (mem w) (gpu + dof) (Z.to_nat size)))) ->
  triple (fun w => (kept_some w /\ (okval = size \/ forall b, content w path = Some b ->
      fo + size <= lenZ b)) /\ fds_at d n w) (lib f)
    (fun r w => (kept w /\ (r = okval -> written w)) /\ fds_at d n w) (fun _ _ => False).
Proof.
  intros Hframe Hbelow Hok w [[[[Hk Hc] [b Hb]] Hsz] [Hd Hn]]. rewrite Hb in Hc.
  destruct Hc as [Hle Ht]. specialize (Hframe w). specialize (Hbelow w b Hb Hle).
  specialize (Hok w b Hb Hle). unfold lib. destruct (f w) as [r w']. simpl in *.
  destruct Hframe as (Hq & Hi & Hfd & Hfr & Hh & Hm). destruct Hbelow as (b' & Hb' & Ht').
  assert (fo <= lenZ b') as Hle'.
  { unfold lenZ in *. apply (f_equal length) in Ht'. rewrite !length_take in Ht'. lia. }
  split; [|split; [by rewrite Hfd|by rewrite Hfr]]. split.
  - split; [by eapply kept_writes_only|]. rewrite Hb'. split; [done|]. by rewrite Ht'.
  - intros ->. pose proof (write_at_written b Hle Ht) as (_ & H1 & H2).
    eexists. split; [|split; [exact H1|exact H2]].
    rewrite Hok by (done || (destruct Hsz as [?|Hsz]; [by left|right; by apply Hsz])).
    by rewrite (mem_slice_ext (mem w) (mem w0)) by apply Hk.
Qed.

Lemma open_kept w i m :
  (m = O_RDWR \/ (m = O_WRITE_TRUNC /\ fo = 0)) -> kept w ->
  creates m = true \/ is_Some (files w !! path) ->
  kept_some (with_files w (<[path := File i (opened_bytes m (default [] (content w path)))]>
    (files w))).
Proof.
  intros Hm [Hk Hc] Hex. unfold kept_some, kept. rewrite content_insert.
  split; [|by eexists]. split; [apply keeps_files_insert; [by left|done]|].
  destruct Hm as [-> | [-> Hz]]; simpl.
  - destruct Hex as [?|[f Hf]]; [done|]. unfold content in *. by rewrite Hf in *.
  - split; [unfold lenZ; simpl; lia|]. by rewrite Hz.
Qed.

Lemma kept_some_kept w : kept_some w -> kept w.
Proof. by intros [? _]. Qed.

(** The DMA attempt *)
Lemma dma_write_triple d n :
  (forall fd, is_Some (d !! fd) -> fd < n) ->
  triple (fun w => kept w /\ fds_at d n w)
    (with_hip_file path (if fo =? 0 then "w" else "r+")
       (fun _ => lib_write path gpu size fo dof))
    (fun r w => (kept w /\ (r = size -> written w)) /\ fds_at d n w)
    (fun _ w => kept w /\ fds_at d n w).
Proof.
  intros Hd. apply with_hip_file_triple with
    (m := if fo =? 0 then O_WRITE_TRUNC else O_RDWR) (P := kept) (P' := kept_some)
    (Q := fun r w => kept w /\ (r = size -> written w)); try done.
  - by destruct (fo =? 0).
  - apply kept_closed.
  - apply kept_some_closed.
  - apply kept_closed.
  - apply kept_ret_closed.
  - intros w i Hk Hex _. apply open_kept; [|done|done].
    destruct (Z.eqb_spec fo 0); [by right|by left].
  - intros _ d'. unfold lib_write. eapply triple_bind.
    + eapply triple_conseq; [apply (device_write_triple (hipFileWrite path gpu size fo dof) size d' n)| | |].
      * intros w. apply write_frame.
      * intros w b Hb Hle. by apply write_below.
      * intros w b Hb Hle Hr _. by apply write_complete.
      * intros w [Hk Hf]. simpl. auto.
      * intros r w Hw. exact Hw.
      * intros e w [].
    + intros r. unfold check_count. destruct (r <? 0).
      * intros w [[Hk _] Hf]. by destruct (r <? _).
      * by intros w Hw.
  - intros w Hk. by apply kept_some_kept.
  - by intros a w [Hk _].
Qed.

(** Truncating to [fo + size] keeps the bytes below [fo]. *)
Lemma fallback_write_triple d n :
  (forall fd, is_Some (d !! fd) -> fd < n) ->
  triple (fun w => kept w /\ fds_at d n w) (write_fallback path gpu size fo dof)
    (fun r w => (kept w /\ (r = size -> written w)) /\ fds_at d n w)
    (fun _ w => kept w /\ fds_at d n w).
Proof.
  intros Hd. unfold write_fallback.
  set (Q := fun w => kept_some w /\ exists b, content w path = Some b /\ fo + size <= lenZ b).
  assert (io_closed Q) as HQ.
  { apply io_closed_conj; [apply kept_some_closed|]. apply (content_closed path (fun c =>
      exists b, c = Some b /\ fo + size <= lenZ b)). }
  assert (forall w f, kept_some w -> files w !! path = Some f ->
    Q (with_files w (<[path := File (ino f) (take (Z.to_nat (fo + size))
      (bytes f ++ replicate (Z.to_nat (fo + size) - length (bytes f)) 0))]> (files w)))) as Htrunc.
  { intros w f [[Hk Hc] _] Hf. unfold Q, kept_some, kept. rewrite content_insert.
    unfold content in Hc. rewrite Hf in Hc. simpl in Hc. destruct Hc as [Hle Ht].
    unfold lenZ in *. split; [split; [split; [apply keeps_files_insert; [by left|done]|]|by eexists]|].
    - split; [rewrite length_take, length_app, length_replicate; lia|]. rewrite <- Ht.
      rewrite take_take, Nat.min_l by lia. by rewrite take_app_le by lia.
    - eexists. split; [done|]. rewrite length_take, length_app, length_replicate. lia. }
  apply (triple_bind _ _ _ (fun _ w => Q w /\ fds_at d n w)).
  - eapply triple_exn;
      [apply (with_mapped_file_triple path O_RDWR _ kept kept_some Q kept d n)|]; try done.
    + apply kept_closed.
    + apply kept_some_closed.
    + apply kept_closed.
    + intros w i Hk Hex _. apply open_kept; [by left|done|done].
    + intros w Hk. by apply kept_some_kept.
    + intros w [Hk _]. by apply kept_some_kept.
    + intros fd o Ho. eapply triple_bind.
      * eapply triple_exn; [apply (os_ftruncate_triple path kept_some Q (<[fd := o]> d) n fd o);
          [apply kept_some_closed|apply lookup_insert_eq|done|exact Htrunc]|].
        intros e w [_ Hw]. done.
      * intros []. apply triple_lift; [by intros a _ w Hw|].
        intros e _ w [[Hk _] Hf]. done.
  - intros []. eapply triple_bind.
    + eapply triple_conseq;
        [apply (device_write_triple (hipMemcpyDtoH path fo (gpu + dof) size) 0 d n)| | |].
      * intros w. apply dtoh_frame.
      * intros w b Hb Hle. by apply dtoh_below.
      * intros w b Hb Hle Hr Hsz. apply dtoh_complete; try done. destruct Hsz; lia.
      * intros w [[Hk (b & Hb & Hsz)] Hf]. split; [|done]. split; [done|]. right.
        intros b' Hb'. by simplify_eq.
      * intros r w Hw. exact Hw.
      * intros e w [].
    + intros r w [[Hk Hr] Hf]. simpl. split; [|done]. split; [done|].
      destruct (Z.eqb_spec r 0); simpl; [by intros _; apply Hr|lia].
Qed.

(** [HyFileDDS.write] never raises and leaves no descriptor behind; a return equal to
    [size] means the bytes are there. *)
Lemma dds_write_triple dds d n :
  (forall fd, is_Some (d !! fd) -> fd < n) ->
  triple (fun w => kept w /\ fds_at d n w) (dds_write dds path gpu size fo dof)
    (fun r w => (kept w /\ (r = size -> written w)) /\ fds_at d n w) (fun _ _ => False).
Proof.
  intros Hd. unfold dds_write.
  apply (triple_bind _ _ _ (fun r w => (kept w /\ (r = Some size -> written w)) /\ fds_at d n w)).
  - apply triple_catch with (E' := fun _ w => kept w /\ fds_at d n w).
    + eapply triple_bind; [by apply dma_write_triple|]. intros r w [[Hk Hr] Hf]. simpl.
      split; [|done]. split; [done|]. intros [= ->]. by apply Hr.
    + intros e w [Hk Hf]. done.
  - intros r. case_bool_decide as Hr.
    + intros w [[Hk Hw] Hf]. simpl. split; [|done]. split; [done|]. auto.
    + unfold cpu_copy. destruct (allow_cpu_fallback dds), (hiprt dds); simpl;
        try (intros w [[Hk _] Hf]; simpl; split; [split; [done|lia]|done]).
      apply triple_catch with (E' := fun _ w => kept w /\ fds_at d n w).
      * eapply triple_conseq; [by apply fallback_write_triple| | |]; try done.
        by intros w [[Hk _] Hf].
      * intros e w [Hk Hf]. simpl. split; [split; [done|lia]|done].
Qed.

End dds_write.

(** *** Reading *)

Section dds_read.
Context (w0 : world) (path : string) (gpu size fo dof : Z).
Context (Hsize : 0 <= size) (Hfo : 0 <= fo).

(** Files stay; only the destination range of device memory changes. *)
Definition read_kept (w : world) : Prop :=
  files w = files w0
  /\ forall a, ~ gpu + dof <= a < gpu + dof + size -> mem w a = mem w0 a.

(** The destination holds the bytes of the file at [fo]. *)
Definition read_done (w : world) : Prop :=
  forall f, content w0 path = Some f -> fo + size <= lenZ f ->
    forall i, 0 <= i < size -> f !! Z.to_nat (fo + i) = Some (mem w (gpu + dof + i)).

Lemma read_kept_closed : io_closed read_kept.
Proof.
  intros w w' Hf Hm [H1 H2]. split; [congruence|]. intros a Ha. rewrite Hm. by apply H2.
Qed.

Lemma read_ret_closed (ret : Z) : io_closed (fun w => read_kept w /\ (ret = size -> read_done w)).
Proof.
  apply io_closed_conj; [apply read_kept_closed|]. intros w w' _ Hm H Hr f Hf Hl i Hi.
  rewrite Hm. by apply (H Hr).
Qed.

Lemma read_kept_content w : read_kept w -> content w path = content w0 path.
Proof. intros [Hf _]. unfold content. by rewrite Hf. Qed.

Lemma device_read_triple (f : world -> Z * world) okval d n :
  (forall w, stores_only (gpu + dof) size w (f w).2) ->
  (forall w b, content w path = Some b -> fo + size <= lenZ b -> (f w).1 = okval ->
     forall i, 0 <= i < size -> b !! Z.to_nat (fo + i) = Some (mem (f w).2 (gpu + dof + i))) ->
  triple (fun w => read_kept w /\ fds_at d n w) (lib f)
    (fun r w => (read_kept w /\ (r = okval -> read_done w)) /\ fds_at d n w)
    (fun _ _ => False).
Proof.
  intros Hframe Hok w [Hk [Hd Hn]]. pose proof (read_kept_content w Hk) as Hc.
  destruct Hk as [Hf Hm]. specialize (Hframe w). specialize (Hok w). unfold lib.
  destruct (f w) as [r w']. destruct Hframe as (Hf' & Hfd & Hfr & _ & Hm'). simpl in *.
  split; [|split; [by rewrite Hfd|by rewrite Hfr]]. split.
  - split; [congruence|]. intros a Ha. rewrite Hm' by done. by apply Hm.
  - intros -> b Hb Hl. rewrite <- Hc in Hb. by apply Hok.
Qed.

Lemma open_read_kept w i :
  read_kept w -> creates O_RDONLY = true \/ is_Some (files w !! path) ->
  i = match files w !! path with Some f => ino f | None => fresh w end ->
  read_kept (with_files w (<[path := File i (opened_bytes O_RDONLY (default [] (content w path)))]>
    (files w))).
Proof.
  intros [Hf Hm] [|[f Hfile]] ->; [done|]. split; [|done]. simpl. rewrite <- Hf.
  apply insert_id. unfold content. rewrite Hfile. simpl. by destruct f.
Qed.

Lemma dma_read_triple d n :
  (forall fd, is_Some (d !! fd) -> fd < n) ->
  triple (fun w => read_kept w /\ fds_at d n w)
    (with_hip_file path "r" (fun _ => lib_read path gpu size fo dof))
    (fun r w => (read_kept w /\ (r = size -> read_done w)) /\ fds_at d n w)
    (fun _ w => read_kept w /\ fds_at d n w).
Proof.
  intros Hd. apply with_hip_file_triple with (m := O_RDONLY) (P := read_kept) (P' := read_kept)
    (Q := fun r w => read_kept w /\ (r = size -> read_done w)); try done;
    try apply read_kept_closed.
  - apply read_ret_closed.
  - intros w i Hk Hex Hi. by apply open_read_kept.
  - intros _ d'. unfold lib_read. eapply triple_bind.
    + eapply triple_conseq; [apply (device_read_triple (hipFileRead path gpu size fo dof) size d' n)| | |].
      * intros w. apply read_frame.
      * intros w b Hb _ Hr. by apply read_complete.
      * intros w Hw. exact Hw.
      * intros r w Hw. exact Hw.
      * intros e w [].
    + intros r. unfold check_count. destruct (r <? 0).
      * intros w [[Hk _] Hf]. by destruct (r <? _).
      * by intros w Hw.
  - by intros a w [Hk _].
Qed.

Lemma fallback_read_triple d n :
  (forall fd, is_Some (d !! fd) -> fd < n) ->
  triple (fun w => read_kept w /\ fds_at d n w) (read_fallback path gpu size fo dof)
    (fun r w => (read_kept w /\ (r = size -> read_done w)) /\ fds_at d n w)
    (fun _ w => read_kept w /\ fds_at d n w).
Proof.
  intros Hd. unfold read_fallback.
  apply (triple_bind _ _ _ (fun _ w => read_kept w /\ fds_at d n w)).
  - apply (with_mapped_file_triple path O_RDONLY _ read_kept read_kept read_kept read_kept d n);
      try done; try apply read_kept_closed.
    + intros w i Hk Hex Hi. by apply open_read_kept.
    + intros fd o Ho. apply (triple_bind _ _ _ (fun _ w => read_kept w /\ fds_at (<[fd := o]> d) n w)).
      * unfold os_fstat. eapply triple_bind.
        { eapply triple_exn; [apply (may_fail_triple read_kept (<[fd := o]> d) n read_kept_closed)|].
          by intros e w [_ Hw]. }
        intros []. intros w Hw. unfold st_get, mbind, ST_bind. simpl.
        by destruct (fds w !! fd).
      * intros st. by apply triple_lift.
  - intros []. eapply triple_bind.
    + eapply triple_conseq;
        [apply (device_read_triple (hipMemcpyHtoD (gpu + dof) path fo size) 0 d n)| | |].
      * intros w. apply htod_frame.
      * intros w b Hb Hl Hr. by apply htod_complete.
      * intros w Hw. exact Hw.
      * intros r w Hw. exact Hw.
      * intros e w [].
    + intros r w [[Hk Hr] Hf]. simpl. split; [|done]. split; [done|].
      destruct (Z.eqb_spec r 0); simpl; [by intros _; apply Hr|lia].
Qed.

(** [HyFileDDS.read] never raises and leaves no descriptor behind; a return equal to
    [size] of a range inside the file means the destination holds its bytes. *)
Lemma dds_read_triple dds d n :
  (forall fd, is_Some (d !! fd) -> fd < n) ->
  triple (fun w => read_kept w /\ fds_at d n w) (dds_read dds path gpu size fo dof)
    (fun r w => (read_kept w /\ (r = size -> read_done w)) /\ fds_at d n w)
    (fun _ _ => False).
Proof.
  intros Hd. unfold dds_read.
  apply (triple_bind _ _ _ (fun _ w => read_kept w /\ fds_at d n w)); [by intros w Hw|].
  intros [|]; simpl; [|intros w [Hk Hf]; simpl; split; [split; [done|lia]|done]].
  apply (triple_bind _ _ _
    (fun r w => (read_kept w /\ (r = Some size -> read_done w)) /\ fds_at d n w)).
  - apply triple_catch with (E' := fun _ w => read_kept w /\ fds_at d n w).
    + eapply triple_bind; [by apply dma_read_triple|]. intros r w [[Hk Hr] Hf]. simpl.
      split; [|done]. split; [done|]. intros [= ->]. by apply Hr.
    + intros e w [Hk Hf]. done.
  - intros r. case_bool_decide as Hr.
    + intros w [[Hk Hw] Hf]. simpl. split; [|done]. split; [done|]. auto.
    + unfold cpu_copy. destruct (allow_cpu_fallback dds), (hiprt dds); simpl;
        try (intros w [[Hk _] Hf]; simpl; split; [split; [done|lia]|done]).
      apply triple_catch with (E' := fun _ w => read_kept w /\ fds_at d n w).
      * eapply triple_conseq; [by apply fallback_read_triple| | |]; try done.
        by intros w [[Hk _] Hf].
      * intros e w [Hk Hf]. simpl. split; [split; [done|lia]|done].
Qed.

End dds_read.

End hipfile_facts.

(** ** A library that behaves as documented *)

Module SimHyFile.

(** Short transfers and errors as the oracle says *)
Definition sim_count (e : io_event) (n : Z) : Z :=
  match e with
  | IoDone => n
  | IoShort k => Z.min (Z.of_nat k) n
  | IoFault k => - Z.of_nat k - 1
  end.

Definition sim_pop (w : world) : io_event * world :=
  match oracle w with
  | [] => (IoDone, w)
  | e :: rest => (e, with_oracle w rest)
  end.

Definition sim_write (path : string) (addr n fo : Z) (w : world) : Z * world :=
  let '(e, w1) := sim_pop w in
  match files w1 !! path with
  | Some f =>
      if n <? 0 then (-22, w1)
      else
        let k := sim_count e n in
        (k, with_files w1 (<[path := File (ino f)
              (write_at (bytes f) (Z.to_nat fo) (mem_slice (mem w1) addr (Z.to_nat k)))]>
              (files w1)))
  | None => (-9, w1)
  end.

Definition sim_read (path : string) (addr n fo : Z) (w : world) : Z * world :=
  let '(e, w1) := sim_pop w in
  match files w1 !! path with
  | Some f =>
      if (n <? 0) || (fo <? 0) then (-22, w1)
      else
        let data := take (Z.to_nat (sim_count e n)) (drop (Z.to_nat fo) (bytes f)) in
        (lenZ data, with_mem w1 (mem_write (mem w1) addr data))
  | None => (-9, w1)
  end.

Definition sim_status (r : Z) (n : Z) : Z := if r =? n then 0 else 1.

#[global] Instance sim_lib : HyFileLib := {
  libhyfile_present := true;
  hipFileDriverOpen w := (0, w);
  hipFileDriverClose w := (0, w);
  hipFileHandleRegister fd w := (0, w);
  hipFileHandleDeregister fd w := (Ok tt, w);
  hipFileBufRegister p n w := (if n <? 0 then 5022 else 0, w);
  hipFileBufDeregister p w := (0, w);
  hipFileRead path p n fo dof w := sim_read path (p + dof) n fo w;
  hipFileWrite path p n fo dof w := sim_write path (p + dof) n fo w;
  hipMemcpyDtoH path fo a n w := let '(r, w') := sim_write path a n fo w in (sim_status r n, w');
  hipMemcpyHtoD a path fo n w := let '(r, w') := sim_read path a n fo w in (sim_status r n, w');
  libgalaxyhip_present := true;
  hipMemcpyDtoD dst src n w :=
    (0, with_mem w (mem_write (mem w) dst (mem_slice (mem w) src (Z.to_nat n))));
  cuda_synchronize w := (Ok tt, w);
  torch_empty n w := (Ok 1000000, w);
}.

Lemma sim_pop_spec w : let '(e, w1) := sim_pop w in
  files w1 = files w /\ fds w1 = fds w /\ fresh w1 = fresh w /\ mem w1 = mem w /\ hip w1 = hip w.
Proof. unfold sim_pop. by destruct (oracle w). Qed.

Lemma quiet_refl w : quiet w w.
Proof. done. Qed.

Lemma sim_write_frame path a n fo w : writes_only path w (sim_write path a n fo w).2.
Proof.
  unfold sim_write. pose proof (sim_pop_spec w) as Hp. destruct (sim_pop w) as [e w1].
  destruct Hp as (Hf & Hd & Hr & Hm & Hh). destruct (files w1 !! path) as [f|] eqn:E.
  - destruct (n <? 0); simpl; unfold writes_only; simpl;
      rewrite ?Hf, ?Hd, ?Hr, ?Hm, ?Hh; repeat split; try done.
    + intros q Hq. by rewrite lookup_insert_ne.
    + rewrite lookup_insert_eq. rewrite Hf in E. by rewrite E.
  - unfold writes_only; simpl. rewrite Hf, Hd, Hr, Hm, Hh. done.
Qed.

Lemma sim_write_below path a n fo w f :
  0 <= fo <= lenZ f -> content w path = Some f ->
  exists f', content (sim_write path a n fo w).2 path = Some f'
    /\ take (Z.to_nat fo) f' = take (Z.to_nat fo) f.
Proof.
  intros Hfo Hc. unfold sim_write. pose proof (sim_pop_spec w) as Hp.
  destruct (sim_pop w) as [e w1]. destruct Hp as (Hf & _). unfold content in *.
  rewrite <- Hf in Hc. destruct (files w1 !! path) as [g|] eqn:E; [|done].
  injection Hc as <-. destruct (n <? 0); simpl; [rewrite E; by eexists|].
  rewrite lookup_insert_eq. eexists. split; [done|]. simpl. unfold write_at, lenZ in *.
  rewrite take_app_length' by (rewrite length_take, length_app; lia).
  by rewrite take_app_le by lia.
Qed.

Lemma sim_write_complete path a n fo w f :
  0 <= n -> content w path = Some f -> (sim_write path a n fo w).1 = n ->
  content (sim_write path a n fo w).2 path
  = Some (write_at f (Z.to_nat fo) (mem_slice (mem w) a (Z.to_nat n))).
Proof.
  intros Hn Hc. unfold sim_write. pose proof (sim_pop_spec w) as Hp.
  destruct (sim_pop w) as [e w1]. destruct Hp as (Hf & _ & _ & Hm & _). unfold content in *.
  rewrite <- Hf in Hc. destruct (files w1 !! path) as [g|] eqn:E; [|done].
  injection Hc as <-. replace (n <? 0) with false by lia. simpl. intros ->.
  rewrite lookup_insert_eq, Hm. done.
Qed.

Lemma sim_read_frame path a n fo w : stores_only a n w (sim_read path a n fo w).2.
Proof.
  unfold sim_read. pose proof (sim_pop_spec w) as Hp. destruct (sim_pop w) as [e w1].
  destruct Hp as (Hf & Hd & Hr & Hm & Hh). unfold stores_only.
  destruct (files w1 !! path) as [f|]; [|simpl; by rewrite Hf, Hd, Hr, Hm, Hh].
  destruct ((n <? 0) || (fo <? 0)) eqn:E; simpl; rewrite Hf, Hd, Hr, Hm, Hh; [done|].
  bool_prop. repeat split; try done. intros x Hx. apply mem_write_outside. intros Hx'.
  apply Hx. unfold lenZ in Hx'. rewrite length_take in Hx'.
  assert (sim_count e n <= n) by (destruct e; simpl; lia). lia.
Qed.

Lemma sim_read_complete path a n fo w f :
  0 <= fo -> content w path = Some f -> (sim_read path a n fo w).1 = n ->
  forall i, 0 <= i < n -> f !! Z.to_nat (fo + i) = Some (mem (sim_read path a n fo w).2 (a + i)).
Proof.
  intros Hfo Hc. unfold sim_read. pose proof (sim_pop_spec w) as Hp.
  destruct (sim_pop w) as [e w1]. destruct Hp as (Hf & _ & _ & Hm & _). unfold content in *.
  rewrite <- Hf in Hc. destruct (files w1 !! path) as [g|] eqn:E; [|done].
  injection Hc as <-. destruct ((n <? 0) || (fo <? 0)) eqn:E2; simpl; [lia|].
  intros Hl i Hi. unfold lenZ in Hl.
  set (data := take (Z.to_nat (sim_count e n)) (drop (Z.to_nat fo) (bytes g))) in *.
  destruct (lookup_lt_is_Some_2 data (Z.to_nat i)) as [v Hv]; [lia|].
  replace (a + i) with (a + Z.of_nat (Z.to_nat i)) by lia.
  rewrite (mem_write_inside _ _ _ _ v Hv). unfold data in Hv.
  apply lookup_take_Some in Hv as [Hv _]. rewrite lookup_drop in Hv.
  rewrite <- Hv. f_equal. lia.
Qed.

#[global] Instance sim_lib_frames : HyFileFrames.
Proof.
  constructor; simpl; intros; try apply quiet_refl.
  - apply sim_write_frame.
  - apply sim_read_frame.
  - pose proof (sim_write_frame path a n fo w) as H. by destruct (sim_write path a n fo w).
  - pose proof (sim_read_frame path a n fo w) as Hw. by destruct (sim_read path a n fo w).
  - repeat split; try done. simpl. intros x Hx. apply mem_write_outside.
    unfold lenZ. rewrite length_mem_slice. lia.
Qed.

#[global] Instance sim_lib_laws : HyFileLibLaws.
Proof.
  constructor; simpl; intros; [apply _|..].
  - by apply sim_write_below.
  - by apply sim_write_complete.
  - by eapply sim_read_complete.
  - pose proof (sim_write_below path a n fo w f H H0) as Hw.
    by destruct (sim_write path a n fo w).
  - pose proof (sim_write_complete path a n fo w f H0 H1) as Hw.
    destruct (sim_write path a n fo w) as [r w']. simpl in *. apply Hw.
    unfold sim_status in *. by destruct (Z.eqb_spec r n).
  - pose proof (sim_read_complete path a n fo w f H H0) as Hw.
    destruct (sim_read path a n fo w) as [r w']. simpl in *. apply Hw; [|done].
    unfold sim_status in *. by destruct (Z.eqb_spec r n).
  - replace (dst + i) with (dst + Z.of_nat (Z.to_nat i)) by lia.
    rewrite (mem_write_inside _ _ _ _ (mem w (src + i))); [done|].
    rewrite mem_slice_lookup by lia. do 2 f_equal. lia.
Qed.

End SimHyFile.

(** ** Lemmas: global buffers *)

Inductive class_op :=
  | OpRegister (ptr size : Z) | OpDeregister (ptr : Z) | OpInit | OpClose.

Section buffers.
Context {HL : HyFileLib} {HLF : HyFileFrames}.

Definition run_class_op (o : class_op) : ST world unit :=
  match o with
  | OpRegister p n => register_global_buffer p n
  | OpDeregister p => deregister_global_buffer p
  | OpInit => init_driver
  | OpClose => close_driver
  end.

(** Callers catch what an operation raises and go on. *)
Definition run_class_ops (ops : list class_op) : ST world unit :=
  st_iter (fun o => st_catch any_exn (run_class_op o) (fun _ => mret tt)) ops.

(** Library registrations of [ptr] minus deregistrations *)
Definition live (calls : list lib_call) (ptr : Z) : Z :=
  sumZ ((fun c => match c with
                  | LibRegister p => if p =? ptr then 1 else 0
                  | LibDeregister p => if p =? ptr then -1 else 0
                  end) <$> calls).

Definition buffers_inv (h : hip_class) : Prop :=
  (forall ptr, live (lib_calls h) ptr = match global_buffers h !! ptr with Some _ => 1 | None => 0 end)
  /\ (forall ptr sz rc, global_buffers h !! ptr = Some (sz, rc) -> 1 <= rc)
  /\ (global_buffers h <> ∅ -> lib_loaded h = true).

Definition hip_inv (w : world) : Prop := buffers_inv (hip w).

Lemma live_cons c calls ptr :
  live (c :: calls) ptr = (match c with
                  | LibRegister p => if p =? ptr then 1 else 0
                  | LibDeregister p => if p =? ptr then -1 else 0
                  end) + live calls ptr.
Proof. done. Qed.

(** The class attributes after a quiet library call *)
Lemma lib_call_hip (f : world -> Z * world) h :
  (forall w, quiet w (f w).2) ->
  triple (fun w => hip w = h) (err ← lib f; check_err err) (fun _ w => hip w = h)
    (fun _ w => hip w = h).
Proof.
  intros Hq. eapply triple_bind; [|intros err; apply check_err_triple].
  intros w Hw. specialize (Hq w). unfold lib. destruct (f w) as [r w'].
  destruct Hq as (_ & _ & _ & Hh & _). simpl in *. congruence.
Qed.

Lemma inv_register p sz h :
  buffers_inv h -> lib_loaded h = true -> global_buffers h !! p = None ->
  buffers_inv (HipClass (lib_loaded h) (driver_opened h) (<[p := (sz, 1)]> (global_buffers h))
    (LibRegister p :: lib_calls h)).
Proof.
  intros (Hl & Hr & _) Hlib Hp. unfold buffers_inv. simpl. split; [|split; [|done]].
  - intros q. rewrite live_cons, Hl. destruct (Z.eqb_spec p q) as [->|Hne].
    + rewrite lookup_insert_eq, Hp. lia.
    + rewrite lookup_insert_ne by done. lia.
  - intros q s rc. destruct (decide (p = q)) as [->|Hne].
    + rewrite lookup_insert_eq. intros [= <- <-]. lia.
    + rewrite lookup_insert_ne by done. apply Hr.
Qed.

Lemma inv_count p sz rc h :
  buffers_inv h -> is_Some (global_buffers h !! p) -> 1 <= rc ->
  buffers_inv (HipClass (lib_loaded h) (driver_opened h) (<[p := (sz, rc)]> (global_buffers h))
    (lib_calls h)).
Proof.
  intros (Hl & Hr & Hn) [x Hp] Hrc. unfold buffers_inv. simpl. split; [|split].
  - intros q. rewrite Hl. destruct (decide (p = q)) as [->|Hne].
    + by rewrite lookup_insert_eq, Hp.
    + by rewrite lookup_insert_ne.
  - intros q s rc'. destruct (decide (p = q)) as [->|Hne].
    + rewrite lookup_insert_eq. by intros [= <- <-].
    + rewrite lookup_insert_ne by done. apply Hr.
  - intros _. apply Hn. intros He. by rewrite He, lookup_empty in Hp.
Qed.

Lemma inv_deregister p h :
  buffers_inv h -> is_Some (global_buffers h !! p) ->
  buffers_inv (HipClass (lib_loaded h) (driver_opened h) (delete p (global_buffers h))
    (LibDeregister p :: lib_calls h)).
Proof.
  intros (Hl & Hr & Hn) [x Hp]. unfold buffers_inv. simpl. split; [|split].
  - intros q. rewrite live_cons, Hl. destruct (Z.eqb_spec p q) as [->|Hne].
    + rewrite lookup_delete_eq, Hp. lia.
    + rewrite lookup_delete_ne by done. lia.
  - intros q s rc. intros [_ Hq]%lookup_delete_Some. by eapply Hr.
  - intros _. apply Hn. intros He. by rewrite He, lookup_empty in Hp.
Qed.

Lemma inv_flags b1 b2 h :
  buffers_inv h -> (lib_loaded h = true -> b1 = true) ->
  buffers_inv (HipClass b1 b2 (global_buffers h) (lib_calls h)).
Proof. intros (Hl & Hr & Hn) Hb. unfold buffers_inv. simpl. repeat split; auto. Qed.

Lemma load_lib_inv :
  triple hip_inv load_lib (fun _ w => hip_inv w /\ lib_loaded (hip w) = true) (fun _ => hip_inv).
Proof.
  intros w Hw. unfold load_lib, get_hip, st_gets, mbind, ST_bind. simpl.
  destruct (lib_loaded (hip w)) eqn:E; [done|]. destruct libhyfile_present; [|done].
  simpl. split; [|done]. unfold hip_inv. simpl. by apply inv_flags.
Qed.

Lemma register_inv p n : preserves hip_inv (register_global_buffer p n).
Proof.
  apply preserves_triple. unfold register_global_buffer.
  eapply triple_bind; [apply load_lib_inv|]. intros [] w [Hw Hlib].
  unfold get_hip, st_gets, mbind at 1, ST_bind. simpl.
  destruct (driver_opened (hip w)); simpl; [|done].
  destruct (global_buffers (hip w) !! p) as [[sz rc]|] eqn:E.
  - destruct (sz =? n) eqn:En; simpl; [|done]. unfold hip_inv. simpl.
    apply inv_count; [done|by eexists|]. destruct Hw as (_ & Hr & _). specialize (Hr _ _ _ E). lia.
  - assert (triple (fun w' => hip w' = hip w)
      (lib_register_buffer p n;; set_buffers (<[p := (n, 1)]> (global_buffers (hip w))))
      (fun _ => hip_inv) (fun _ => hip_inv)) as Ht; [|by apply Ht].
    unfold lib_register_buffer.
    apply (triple_bind _ _ _ (fun _ w' => hip w' = HipClass (lib_loaded (hip w))
      (driver_opened (hip w)) (global_buffers (hip w)) (LibRegister p :: lib_calls (hip w)))).
    + intros w' Hw'. pose proof (lib_call_hip (hipFileBufRegister p n) (hip w)
        ltac:(intros; apply buf_register_quiet) w' Hw') as Hc.
      unfold mbind, ST_bind in *. destruct (lib _ w') as [[err|e] w1]; simpl in *;
        [|unfold hip_inv; by rewrite Hc].
      destruct (check_err err w1) as [[u|e] w2]; simpl; [by rewrite Hc|].
      unfold hip_inv. by rewrite Hc.
    + intros [] w' Hw'. unfold hip_inv. simpl. rewrite Hw'. simpl.
      by apply inv_register.
Qed.

Lemma deregister_inv p : preserves hip_inv (deregister_global_buffer p).
Proof.
  apply preserves_triple. unfold deregister_global_buffer.
  intros w Hw. unfold get_hip, st_gets, mbind at 1, ST_bind. simpl.
  destruct (global_buffers (hip w) !! p) as [[sz rc]|] eqn:E; [|done].
  destruct (Z.ltb_spec 1 rc).
  - simpl. unfold hip_inv. simpl. apply inv_count; [done|by eexists|lia].
  - assert (lib_loaded (hip w) = true) as ->.
    { destruct Hw as (_ & _ & Hn). apply Hn. intros He. by rewrite He, lookup_empty in E. }
    assert (triple (fun w' => hip w' = hip w)
      (lib_deregister_buffer p;; set_buffers (delete p (global_buffers (hip w))))
      (fun _ => hip_inv) (fun _ => hip_inv)) as Ht; [|by apply Ht].
    unfold lib_deregister_buffer.
    apply (triple_bind _ _ _ (fun _ w' => hip w' = HipClass (lib_loaded (hip w))
      (driver_opened (hip w)) (global_buffers (hip w)) (LibDeregister p :: lib_calls (hip w)))).
    + intros w' Hw'. pose proof (lib_call_hip (hipFileBufDeregister p) (hip w)
        ltac:(intros; apply buf_deregister_quiet) w' Hw') as Hc.
      unfold mbind, ST_bind in *. destruct (lib _ w') as [[err|e] w1]; simpl in *;
        [|unfold hip_inv; by rewrite Hc].
      destruct (check_err err w1) as [[u|e] w2]; simpl; [by rewrite Hc|].
      unfold hip_inv. by rewrite Hc.
    + intros [] w' Hw'. unfold hip_inv. simpl. rewrite Hw'. simpl.
      apply inv_deregister; [done|by eexists].
Qed.

Lemma driver_call_inv (f : world -> Z * world) b :
  (forall w, quiet w (f w).2) ->
  triple hip_inv ((err ← lib f; check_err err);; set_driver b) (fun _ => hip_inv)
    (fun _ => hip_inv).
Proof.
  intros Hq w Hw. eapply (triple_bind (fun w' => hip w' = hip w) _ _ (fun _ w' => hip w' = hip w)).
  - eapply triple_exn; [by apply lib_call_hip|]. intros e w' Hw'. unfold hip_inv. by rewrite Hw'.
  - intros [] w' Hw'. unfold hip_inv. simpl. rewrite Hw'. by apply inv_flags.
  - done.
Qed.

Lemma class_op_inv o : preserves hip_inv (run_class_op o).
Proof.
  destruct o as [p n|p| |]; simpl; [apply register_inv|apply deregister_inv|..];
    apply preserves_triple.
  - unfold init_driver. eapply triple_bind; [apply load_lib_inv|]. intros [] w [Hw _].
    unfold get_hip, st_gets, mbind at 1, ST_bind. simpl.
    destruct (driver_opened (hip w)); [done|].
    by apply (driver_call_inv hipFileDriverOpen true driver_open_quiet).
  - intros w Hw. unfold close_driver, get_hip, st_gets, mbind at 1, ST_bind. simpl.
    destruct (driver_opened (hip w) && lib_loaded (hip w)); [|done].
    by apply (driver_call_inv hipFileDriverClose false driver_close_quiet).
Qed.

End buffers.

Definition hip_fresh : hip_class := HipClass false false ∅ [].

(** ** Properties *)

(** Whatever sequence of [init_driver], [close_driver], [register_global_buffer] and
    [deregister_global_buffer] runs, raising or not, the library holds exactly one
    registration of each address in [_global_registered_buffers] and none of any other,
    and every entry's reference count is at least one. *)
Theorem buffers_registered_once {HL : HyFileLib} {HLL : HyFileLibLaws} ops w :
  hip w = hip_fresh ->
  let h := hip (run_st (run_class_ops ops) w) in
  forall ptr,
    live (lib_calls h) ptr = (match global_buffers h !! ptr with Some _ => 1 | None => 0 end)
    /\ forall sz rc, global_buffers h !! ptr = Some (sz, rc) -> 1 <= rc.
Proof.
  intros Hw. assert (hip_inv (run_st (run_class_ops ops) w)) as (Hl & Hr & _).
  { assert (preserves hip_inv (run_class_ops ops)) as Hp.
    { apply preserves_iter. intros o. apply preserves_catch; [apply class_op_inv|].
      intros e. apply preserves_ret. }
    apply Hp. unfold hip_inv, buffers_inv. rewrite Hw. simpl.
    split; [|split; [|done]]; intros ptr; [by rewrite lookup_empty|].
    intros ? ? ?. by rewrite lookup_empty in *. }
  intros h ptr. split; [apply Hl|]. intros sz rc. apply Hr.
Qed.

Definition ex_world : world :=
  World {[ "a" := File 0 [10; 11; 12; 13] ]} ∅ 5 (fun a => a) [] hip_fresh.

Lemma buffers_registered_once_witness :
  live (lib_calls (hip (run_st (run_class_ops
    [OpInit; OpRegister 4096 8; OpRegister 4096 8; OpDeregister 4096; OpRegister 4096 9])
    ex_world))) 4096 = 1.
Proof.
  destruct (buffers_registered_once
    [OpInit; OpRegister 4096 8; OpRegister 4096 8; OpDeregister 4096; OpRegister 4096 9]
    ex_world eq_refl 4096) as [H _].
  rewrite H. vm_compute. reflexivity.
Defined.

(** [HyFileDDS.write] and [HyFileDDS.read] never raise, on any fault of the
    driver, the file system or the fallback, and leave no descriptor open and no other
    file changed; when a write and a later read of the same range both report [size]
    bytes, the read's destination holds the bytes the write's source held, and no other
    device memory changed. *)
Theorem dds_write_read {HL : HyFileLib} {HLL : HyFileLibLaws} dds path a b size fo da db w :
  (forall fd, is_Some (fds w !! fd) -> fd < fresh w) -> 0 <= size -> 0 <= fo ->
  (forall f, content w path = Some f -> fo <= lenZ f) ->
  exists r w1 r' w2,
    dds_write dds path a size fo da w = (Ok r, w1)
    /\ dds_read dds path b size fo db w1 = (Ok r', w2)
    /\ fds w1 = fds w /\ fds w2 = fds w
    /\ (forall q, q <> path -> files w2 !! q = files w !! q)
    /\ (forall x, ~ b + db <= x < b + db + size -> mem w2 x = mem w x)
    /\ (r = size -> r' = size -> forall i, 0 <= i < size ->
          mem w2 (b + db + i) = mem w (a + da + i)).
Proof.
  intros Hfds Hsize Hfo Hlen.
  assert (kept w path fo w /\ fds_at (fds w) (fresh w) w) as Hpre.
  { split; [split; [apply keeps_files_refl|]|done].
    destruct (content w path) as [f|] eqn:E; [|done]. split; [by apply Hlen|done]. }
  pose proof (dds_write_triple w path a size fo da Hsize Hfo dds (fds w) (fresh w) Hfds w Hpre)
    as Hw.
  destruct (dds_write dds path a size fo da w) as [[r|e] w1] eqn:E1; [|done].
  destruct Hw as [[Hk Hr] [Hd Hn]].
  pose proof (dds_read_triple w1 path b size fo db Hsize Hfo dds (fds w) (fresh w) Hfds w1)
    as Hrd.
  destruct (dds_read dds path b size fo db w1) as [[r'|e] w2] eqn:E2;
    (assert (read_kept w1 b size db w1 /\ fds_at (fds w) (fresh w) w1) as Hpre1 by done);
    specialize (Hrd Hpre1); [|done].
  destruct Hrd as [[[Hf2 Hm2] Hr2] [Hd2 _]]. destruct Hk as [[Hq Hm] _].
  exists r, w1, r', w2. repeat split; try done.
  - intros q Hne. rewrite Hf2. apply Hq. by intros ?%list_elem_of_singleton.
  - intros x Hx. by rewrite Hm2, Hm.
  - intros -> -> i Hi. destruct (Hr eq_refl) as (f & Hf & _ & Hbytes).
    assert (fo + size <= lenZ f) as Hl.
    { pose proof (lookup_lt_Some _ _ _ (Hbytes (size - 1) ltac:(lia))). unfold lenZ. lia. }
    pose proof (Hr2 eq_refl f Hf Hl i Hi) as H1. rewrite Hbytes in H1 by done. congruence.
Qed.

Lemma dds_write_read_witness :
  exists w1 w2, dds_write (MkHyFileDDS true true) "a" 100 2 4 0 ex_world = (Ok 2, w1)
    /\ dds_read (MkHyFileDDS true true) "a" 200 2 4 1 w1 = (Ok 2, w2)
    /\ mem w2 201 = 100.
Proof.
  destruct (dds_write_read (MkHyFileDDS true true) "a" 100 200 2 4 0 1 ex_world)
    as (r & w1 & r' & w2 & Hw & Hr & _ & _ & _ & _ & Hm).
  - intros fd [o Ho]. vm_compute in Ho. destruct fd; discriminate Ho.
  - lia.
  - lia.
  - intros f Hf. vm_compute in Hf. injection Hf as <-. vm_compute. discriminate.
  - assert (r = 2) as -> by (vm_compute in Hw; injection Hw as <- _; reflexivity).
    assert (r' = 2) as ->.
    { vm_compute in Hw. injection Hw as <-. vm_compute in Hr. injection Hr as <- _. reflexivity. }
    exists w1, w2. split; [exact Hw|]. split; [exact Hr|].
    exact (Hm eq_refl eq_refl 0 ltac:(lia)).
Defined.
