(* ===== verification/XdsFiles.v ===== *)
(** * XDS file transactions

    The file operations of [XdsBackend] ([xds_backend.py]): the descriptor checks and
    registrations of direct I/O, [_save_direct_xds] and [_load_direct_xds], the
    block-first file written from CPU memory, and the legacy metadata sidecar. *)

From S2P Require Import Prelude Tensor Codec BlockFirst DirectIO World HipFile.

Open Scope string_scope.
Open Scope list_scope.
Open Scope Z_scope.

Definition METADATA_FILE_SUFFIX : string := ".metadata".
Definition DATA_FILE_SUFFIX : string := ".kvdata".
Definition METADATA_FILE_SUFFIX_TMP : string := ".METADATA".
Definition DATA_FILE_SUFFIX_TMP : string := ".KVDATA".
Definition BLOCK_FIRST_DATA_FILE_SUFFIX : string := ".block_first_v1.kvdata".
Definition BLOCK_FIRST_DATA_FILE_SUFFIX_TMP : string := ".BLOCK_FIRST_V1_TMP".
Definition METADATA_VERSION : Z := 1.
Definition METADATA_MAX_SIZE : Z := 72.

(** ** What the backend knows of the engine *)

(** The fields of [LMCacheMetadata] and of the backend that the operations read;
    [xe_shapes] and [xe_dtypes] are [get_shapes(chunk_size)] and [get_dtypes()]. *)
Record xds_engine {Dt : Type} := XdsEngine {
  xe_chunk_size : Z;
  xe_block_size : option Z;
  xe_shapes : list (list Z);
  xe_dtypes : list Dt;
  xe_layout : engine_layout;
  xe_direct_enabled : bool;
  xe_dst_device : torch_device;
  xe_dds : HyFileDDS;
}.
Arguments xds_engine : clear implicits.

(** ** State: the world and the registrations the backend holds *)

Definition registration : Type := string * Z * Z.

Record xds_io := XdsIO {
  io_world : world;
  registrations : list (registration * lifetime);
  edge_tensor : option (Z * Z);      (* the edge staging tensor: data_ptr and size *)
}.

(** An operation on the world only *)
Definition on_world {A} (m : ST world A) : ST xds_io A := fun s =>
  let '(r, w) := m (io_world s) in (r, XdsIO w (registrations s) (edge_tensor s)).

Section files.
Context {Dt : Type} `{!TorchDtype Dt} {JC : JsonCodec} {HL : HyFileLib}.
Implicit Types (e : xds_engine Dt) (d : DirectIODescriptor).

(** [_devices_match]: an expected device without index matches every index. *)
Definition devices_match (expected actual : torch_device) : bool :=
  String.eqb (dev_type expected) (dev_type actual)
  && match dev_index expected with
     | None => true
     | Some _ => bool_decide (dev_index expected = dev_index actual)
     end.

Definition make_block_first_metadata e (shape : list Z) (dt : Dt)
    : result BlockFirstDiskMetadata :=
  match xe_block_size e with
  | None => Raise AssertionError
  | Some bs => create shape dt bs (xe_layout e)
  end.

(** The one KV layer group, or [None] *)
Definition one_group e : option (list Z * Dt) :=
  match xe_shapes e, xe_dtypes e with
  | [shape], [dt] => Some (shape, dt)
  | _, _ => None
  end.

Definition make_direct_block_first_metadata e : result BlockFirstDiskMetadata :=
  match one_group e with
  | None => Raise (BlockFirstFormatError "direct XDS requires one KV layer group")
  | Some (shape, dt) => make_block_first_metadata e shape dt
  end.

Definition validate_direct_descriptor e d (dir : DirectIODirection) : result unit :=
  raise_if (negb (xe_direct_enabled e)) (ValueError "direct XDS is disabled");;
  raise_if (bool_decide (direction d <> dir)) (ValueError "direct I/O direction mismatch");;
  DirectIO.validate d true true;;
  raise_if (negb (engine_group_id d =? 0))
    (ValueError "0.4.2 direct XDS only supports engine group 0");;
  raise_if (bool_decide (xe_block_size e <> Some (desc_block_size d)))
    (ValueError "direct I/O block size does not match engine metadata");;
  raise_if (negb (devices_match (xe_dst_device e) (device d)))
    (ValueError "direct I/O allocation is on the wrong CUDA device");;
  match one_group e with
  | None => Raise (ValueError "direct XDS requires one KV layer group")
  | Some (logical_shape, dt) =>
      s0 ← py_index logical_shape 0;
      s1 ← py_index logical_shape 1;
      s3 ← py_index logical_shape 3;
      raise_if (negb (block_nbytes d =? s0 * s1 * desc_block_size d * s3 * itemsize dt))
        (ValueError "direct I/O block byte size does not match KV metadata");;
      let chunk_blocks := xe_chunk_size e / desc_block_size d in
      raise_if (chunk_blocks <? logical_block_start d + logical_block_count d)
        (ValueError "direct I/O logical range exceeds one LMCache chunk");;
      match leading_edge d with
      | Some edge =>
          raise_if (chunk_blocks <=? edge_logical_block edge)
            (ValueError "direct I/O leading edge exceeds one LMCache chunk")
      | None => Ok tt
      end
  end.

(** ** Registrations *)

Definition registered (s : xds_io) (id : registration) : bool :=
  existsb (fun '(id', _) => bool_decide (id' = id)) (registrations s).

Definition add_registration (id : registration) (token : lifetime) : ST xds_io unit :=
  st_modify (fun s => XdsIO (io_world s) (registrations s ++ [(id, token)])
    (edge_tensor s)).

Definition ensure_allocation (a : DirectIOAllocation) : ST xds_io unit :=
  s ← st_get;
  if registered s (alloc_identity a) then mret tt
  else
    on_world (register_global_buffer (alloc_base a) (alloc_nbytes a));;
    add_registration (alloc_identity a) (alloc_lifetime_token a).

Definition ensure_direct_registration d : ST xds_io unit :=
  st_iter ensure_allocation (registration_allocations d).

Definition close_registration (r : registration * lifetime) : ST xds_io unit :=
  on_world (deregister_global_buffer r.1.1.2);;
  st_modify (fun s => XdsIO (io_world s)
    (filter (fun r' => r'.1 <> r.1) (registrations s)) (edge_tensor s)).

Definition close_direct_registrations : ST xds_io unit :=
  s ← st_get; st_iter close_registration (registrations s).

(** ** Direct store *)

(** [os.remove(tmp_path)] ignoring a missing file, then re-raise *)
Definition discard_tmp {A} (tmp : string) (exc : exn) : ST world A :=
  st_catch is_file_not_found (os_remove tmp) (fun _ => mret tt);;
  st_raise exc.

Definition synchronize : ST world unit := r ← lib cuda_synchronize; st_lift r.

Definition store_run (dds : HyFileDDS) (tmp : string) d (run : DirectIOBlockRun) : ST world unit :=
  let size := run_block_count run * block_nbytes d in
  ret ← dds_write dds tmp (allocation_base d) size
          (file_payload_offset d + run_logical_block_start run * block_nbytes d)
          (run_physical_block_start run * block_nbytes d);
  if negb (ret =? size) then st_raise (RuntimeError "direct XDS write incomplete") else mret tt.

(** The file transaction: header, one DMA per run, size check, atomic rename *)
Definition write_direct_file (dds : HyFileDDS) (path : string) d (m : BlockFirstDiskMetadata)
    : ST world unit :=
  let tmp := path +:+ BLOCK_FIRST_DATA_FILE_SUFFIX_TMP in
  st_catch any_exn
    (header ← st_lift (pack_block_first_header m);
     written ← py_write_file tmp header;
     st_lift (raise_if (negb (written =? BLOCK_FIRST_HEADER_SIZE))
       (RuntimeError "block-first header write incomplete"));;
     synchronize;;
     st_iter (store_run dds tmp d) (runs d);;
     actual_size ← os_getsize tmp;
     st_lift (raise_if (negb (actual_size =? BLOCK_FIRST_HEADER_SIZE + io_nbytes m))
       (RuntimeError "direct XDS file size mismatch"));;
     os_replace tmp path)
    (discard_tmp tmp).

Definition check_direct_store e d : result BlockFirstDiskMetadata :=
  validate_direct_descriptor e d STORE;;
  m ← make_direct_block_first_metadata e;
  raise_if (block_size m =? 0) ZeroDivisionError;;
  let chunk_blocks := valid_tokens m / block_size m in
  raise_if (negb (logical_block_start d =? 0) || negb (logical_block_count d =? chunk_blocks))
    (ValueError "direct store must cover the complete LMCache chunk");;
  raise_if (negb (transferred_nbytes d =? payload_nbytes m))
    (ValueError "direct store byte count does not match the file payload");;
  raise_if (negb (payload_nbytes m =? io_nbytes m))
    (ValueError "direct store payload requires unsupported tail padding");;
  mret m.

Definition save_direct_xds e (path : string) d : ST xds_io BlockFirstDiskMetadata :=
  m ← st_lift (check_direct_store e d);
  ensure_direct_registration d;;
  on_world (write_direct_file (xe_dds e) path d m);;
  mret m.

(** ** Direct retrieve *)

(** [_read_direct_header_and_size]: [env] is what other threads do to the files between
    opening the file and comparing the two stats. *)
Definition read_direct_header_and_size (env : world -> world) (path : string)
    : ST world (BlockFirstDiskMetadata * Z) :=
  fd ← os_open path O_RDONLY;
  '(header, size) ← st_finally
    (header ← os_pread fd BLOCK_FIRST_HEADER_SIZE;
     st_modify env;;
     fd_stat ← os_fstat fd;
     path_stat ← os_stat path;
     st_lift (raise_if (bool_decide (fd_stat <> path_stat))
       (BlockFirstFormatError "block-first file changed while its header was read"));;
     mret (header, fd_stat.2))
    (os_close fd);
  m ← st_lift (unpack_block_first_header header);
  mret (m, size).

Definition prepare_direct_xds e (env : world -> world) (path : string)
    (disk_metadata : BlockFirstDiskMetadata) d : ST world unit :=
  st_lift (validate_direct_descriptor e d RETRIEVE);;
  '(current_metadata, actual_size) ← read_direct_header_and_size env path;
  st_lift (raise_if (bool_decide (current_metadata <> disk_metadata))
    (BlockFirstFormatError "block-first header changed after indexing"));;
  st_lift (raise_if (negb (actual_size =? BLOCK_FIRST_HEADER_SIZE + io_nbytes disk_metadata))
    (BlockFirstFormatError "block-first payload size changed after indexing"));;
  match xe_shapes e, xe_dtypes e with
  | shape :: _, dt :: _ =>
      st_lift (validate_runtime disk_metadata shape dt (xe_layout e) (desc_block_size d))
  | _, _ => st_raise IndexError
  end.

(** One [xds.read] that must be complete: base address, size, file offset, device offset *)
Definition read_exact (dds : HyFileDDS) (path msg : string) (r : Z * Z * Z * Z) : ST world unit :=
  let '(base, size, fo, dof) := r in
  ret ← dds_read dds path base size fo dof;
  if negb (ret =? size) then st_raise (RuntimeError msg) else mret tt.

Definition run_read d (run : DirectIOBlockRun) : Z * Z * Z * Z :=
  (allocation_base d, run_block_count run * block_nbytes d,
   file_payload_offset d + run_logical_block_start run * block_nbytes d,
   run_physical_block_start run * block_nbytes d).

Definition read_segment (dds : HyFileDDS) (path : string) d (s : DirectIOByteSegment)
    : ST world unit :=
  allocation ← st_lift (py_index (registration_allocations d) (seg_allocation_index s));
  read_exact dds path "direct XDS segment read incomplete"
    (alloc_base allocation, seg_nbytes s, seg_file_offset s, seg_allocation_offset s).

Definition device_to_device_copy (dst src size : Z) : ST world unit :=
  if negb libgalaxyhip_present then st_raise (OSError "libgalaxyhip.so.5")
  else
    res ← lib (hipMemcpyDtoD dst src size);
    if negb (res =? 0) then st_raise (RuntimeError "hipMemcpyDeviceToDevice failed") else mret tt.

(** [_copy_direct_leading_edge]: the rows of every layer's K and V from the token offset on *)
Definition copy_direct_leading_edge e d (edge : DirectIOLeadingEdge) (scratch_base : Z)
    : ST world unit :=
  m ← st_lift (make_direct_block_first_metadata e);
  dt ← st_lift (torch_dtype (Dt := Dt) m);
  let row_nbytes := hidden_dim m * itemsize dt in
  let copy_nbytes := edge_token_count edge * row_nbytes in
  st_iter (fun '(layer, kv_index) =>
      let row_index := (layer * 2 + kv_index) * desc_block_size d in
      let edge_offset := (row_index + edge_token_offset edge) * row_nbytes in
      device_to_device_copy
        (allocation_base d + edge_physical_block edge * block_nbytes d + edge_offset)
        (scratch_base + edge_offset) copy_nbytes)
    (layer ← rangeZ 0 (Z.to_nat (num_layers m)); kv ← [0; 1]; [(layer, kv)]).

Definition get_direct_edge_staging (block_nbytes : Z) : ST xds_io Z :=
  s ← st_get;
  match edge_tensor s with
  | Some (ptr, nbytes) =>
      if negb (nbytes =? block_nbytes) then
        st_raise (RuntimeError "direct edge block size changed at runtime")
      else mret ptr
  | None =>
      data_ptr ← on_world (r ← lib (torch_empty (block_nbytes + BLOCK_FIRST_ALIGNMENT - 1));
                           st_lift r);
      let byte_offset := (- data_ptr) mod BLOCK_FIRST_ALIGNMENT in
      let ptr := data_ptr + byte_offset in
      on_world (register_global_buffer ptr block_nbytes);;
      st_modify (fun s => XdsIO (io_world s) (registrations s) (Some (ptr, block_nbytes)));;
      mret ptr
  end.

Definition close_direct_edge_staging : ST xds_io unit :=
  s ← st_get;
  match edge_tensor s with
  | Some (ptr, _) => on_world (deregister_global_buffer ptr)
  | None => mret tt
  end;;
  st_modify (fun s => XdsIO (io_world s) (registrations s) None).

Definition transfer_edge e (path : string) d (edge : DirectIOLeadingEdge) : ST xds_io unit :=
  scratch ← get_direct_edge_staging (block_nbytes d);
  on_world (
    read_exact (xe_dds e) path "direct XDS edge read incomplete"
      (scratch, block_nbytes d,
       file_payload_offset d + edge_logical_block edge * block_nbytes d, 0);;
    copy_direct_leading_edge e d edge scratch).

Definition transfer_direct_xds e (path : string) d : ST xds_io unit :=
  ensure_direct_registration d;;
  on_world synchronize;;
  if negb (is_nil (byte_segments d)) then
    on_world (st_iter (read_segment (xe_dds e) path d) (byte_segments d);; synchronize)
  else
    match leading_edge d with
    | Some edge => transfer_edge e path d edge
    | None => mret tt
    end;;
    on_world (
      st_iter (fun run => read_exact (xe_dds e) path "direct XDS read incomplete" (run_read d run))
        (runs d);;
      synchronize).

Definition load_direct_xds e (env : world -> world) (path : string) (disk_metadata : BlockFirstDiskMetadata) d : ST xds_io unit :=
  on_world (prepare_direct_xds e env path disk_metadata d);;
  transfer_direct_xds e path d.

End files.

(** ** What the files and descriptors hold *)

(** The source byte of payload position [j]: block [j / block_nbytes] of the file is the
    descriptor's physical block of that logical block. *)
Definition source_address (d : DirectIODescriptor) (j : Z) : Z :=
  allocation_base d
  + default 0 (runs_block (runs d) (j / block_nbytes d)) * block_nbytes d + j mod block_nbytes d.

Definition direct_payload (w : world) (d : DirectIODescriptor) : list Z :=
  (fun j => mem w (source_address d j))
    <$> rangeZ 0 (Z.to_nat (logical_block_count d * block_nbytes d)).

(** A byte of a stored file after its header *)
Lemma payload_byte header w d j v :
  lenZ header = BLOCK_FIRST_HEADER_SIZE -> 0 <= j < logical_block_count d * block_nbytes d ->
  (header ++ direct_payload w d) !! Z.to_nat (BLOCK_FIRST_HEADER_SIZE + j) = Some v ->
  v = mem w (source_address d j).
Proof.
  unfold lenZ, BLOCK_FIRST_HEADER_SIZE. intros Hl Hj. rewrite lookup_app_r by lia.
  replace (Z.to_nat (4096 + j) - length header)%nat with (Z.to_nat j) by lia.
  unfold direct_payload. rewrite list_lookup_fmap, lookup_rangeZ by lia. simpl.
  rewrite Z2Nat.id by lia. by intros [= <-].
Qed.

(** Every open descriptor has a number already given out. *)
Definition fds_ok (w : world) : Prop := forall fd, is_Some (fds w !! fd) -> fd < fresh w.

(** Distinct blocks of the range have distinct physical blocks. *)
Definition blocks_distinct (d : DirectIODescriptor) : Prop := forall b b' p,
  runs_block (runs d) b = Some p -> runs_block (runs d) b' = Some p -> b = b'.

(** ** Lemmas *)

Lemma append_neq (s t : string) : t <> "" -> s +:+ t <> s.
Proof.
  intros Ht H. assert (forall u, String.length (u +:+ t) = (String.length u + String.length t)%nat)
    as Hl.
  { intros u. induction u as [|c u IH]; [done|].
    change (String c u +:+ t) with (String c (u +:+ t)). simpl. congruence. }
  apply (f_equal String.length) in H. rewrite Hl in H. destruct t; [done|]. simpl in H. lia.
Qed.

Lemma on_world_triple {A} (P : world -> Prop) (m : ST world A) Q E R :
  triple P m Q E ->
  triple (fun s => P (io_world s) /\ R (registrations s) (edge_tensor s)) (on_world m)
    (fun a s => Q a (io_world s) /\ R (registrations s) (edge_tensor s))
    (fun e s => E e (io_world s) /\ R (registrations s) (edge_tensor s)).
Proof.
  intros Hm [w rg ed] [Hw Hr]. unfold on_world. simpl in *. specialize (Hm w Hw).
  by destruct (m w) as [[a|ex] w'].
Qed.

Lemma on_world_triple' {A} (P : world -> Prop) (m : ST world A) Q E :
  triple P m Q E ->
  triple (fun s => P (io_world s)) (on_world m) (fun a s => Q a (io_world s))
    (fun e s => E e (io_world s)).
Proof.
  intros Hm [w rg ed] Hw. unfold on_world. simpl in *. specialize (Hm w Hw).
  by destruct (m w) as [[a|ex] w'].
Qed.

Lemma st_iter_triple {S X} (P : S -> Prop) (f : X -> ST S unit) l E :
  (forall x, triple P (f x) (fun _ => P) E) -> triple P (st_iter f l) (fun _ => P) E.
Proof.
  intros Hf. induction l as [|x l IH]; simpl; [by intros s Hs|].
  eapply triple_bind; [apply Hf|]. intros []. exact IH.
Qed.

Section file_facts.
Context {Dt : Type} `{!TorchDtype Dt} {JC : JsonCodec} {HL : HyFileLib} {HLL : HyFileLibLaws}.
Implicit Types (e : xds_engine Dt) (d : DirectIODescriptor).

Lemma register_global_buffer_triple p n P fs k :
  io_closed P ->
  triple (fun w => P w /\ fds_at fs k w) (register_global_buffer p n)
    (fun _ w => P w /\ fds_at fs k w) (fun _ w => P w /\ fds_at fs k w).
Proof.
  intros HP. unfold register_global_buffer. eapply triple_bind.
  { by apply (load_lib_triple P fs k). }
  intros []. apply (triple_bind _ _ _ (fun _ w => P w /\ fds_at fs k w)); [by intros w Hw|].
  intros h. destruct (negb (driver_opened h)); [by intros w Hw|].
  destruct (global_buffers h !! p) as [[sz rc]|].
  - destruct (negb (sz =? n)); [by intros w Hw|]. by apply hip_state_triple.
  - apply (triple_bind _ _ _ (fun _ w => P w /\ fds_at fs k w)).
    + unfold lib_register_buffer. eapply triple_bind.
      { eapply triple_conseq; [apply (lib_quiet_triple (hipFileBufRegister p n) P fs k HP)|done|done|intros ? ? []].
        apply buf_register_quiet. }
      intros err. eapply triple_bind; [apply check_err_triple|].
      intros []. by apply hip_state_triple.
    + intros []. by apply hip_state_triple.
Qed.

(** Registering memory touches no file and no device memory. *)
Lemma ensure_direct_registration_triple d P fs k :
  io_closed P ->
  triple (fun s => P (io_world s) /\ fds_at fs k (io_world s)) (ensure_direct_registration d)
    (fun _ s => P (io_world s) /\ fds_at fs k (io_world s))
    (fun _ s => P (io_world s) /\ fds_at fs k (io_world s)).
Proof.
  intros HP. apply st_iter_triple. intros a. unfold ensure_allocation.
  apply (triple_bind _ _ _ (fun _ s => P (io_world s) /\ fds_at fs k (io_world s)));
    [by intros s Hs|]. intros s0. destruct (registered s0 _); [by intros s Hs|].
  apply (triple_bind _ _ _ (fun _ s => P (io_world s) /\ fds_at fs k (io_world s)));
    [|by intros [] s Hs].
  apply (on_world_triple' (fun w => P w /\ fds_at fs k w) _ (fun _ w => P w /\ fds_at fs k w)
    (fun _ w => P w /\ fds_at fs k w)).
  by apply register_global_buffer_triple.
Qed.

Lemma synchronize_triple P fs k :
  io_closed P ->
  triple (fun w => P w /\ fds_at fs k w) synchronize (fun _ w => P w /\ fds_at fs k w)
    (fun _ w => P w /\ fds_at fs k w).
Proof.
  intros HP. unfold synchronize. eapply triple_bind.
  - eapply triple_conseq; [apply (lib_quiet_triple cuda_synchronize P fs k HP synchronize_quiet)
      |done|done|intros ? ? []].
  - intros r. by apply triple_lift.
Qed.

Lemma runs_block_below l : forall cap expected tr n b,
  validate_runs cap expected tr l = Ok n -> b < expected -> runs_block l b = None.
Proof.
  induction l as [|r l IH]; intros cap expected tr n b; simpl; [done|].
  intros H Hb. res_inv. bool_prop. replace (run_logical_block_start r <=? b) with false by lia.
  simpl. eapply IH; [done|lia].
Qed.

(** *** Writing the runs *)

Section store.
Context (w0 : world) (tmp : string) (d : DirectIODescriptor) (header : list Z).
Context (Hbn : 0 < block_nbytes d) (Hoff : file_payload_offset d = BLOCK_FIRST_HEADER_SIZE)
  (Hheader : lenZ header = BLOCK_FIRST_HEADER_SIZE).

Let bn := block_nbytes d.

(** The header and the first [L] blocks are in the temporary file. *)
Definition staged (L : Z) (w : world) : Prop :=
  keeps_files [tmp] w0 w
  /\ exists f, content w tmp = Some f /\ BLOCK_FIRST_HEADER_SIZE + L * bn <= lenZ f
     /\ take (Z.to_nat BLOCK_FIRST_HEADER_SIZE) f = header
     /\ forall j, 0 <= j < L * bn ->
          f !! Z.to_nat (BLOCK_FIRST_HEADER_SIZE + j) = Some (mem w0 (source_address d j)).

Lemma staged_closed L : io_closed (staged L).
Proof.
  apply io_closed_conj; [apply keeps_files_closed|].
  apply (content_closed tmp (fun c => exists f, c = Some f
    /\ BLOCK_FIRST_HEADER_SIZE + L * bn <= lenZ f
    /\ take (Z.to_nat BLOCK_FIRST_HEADER_SIZE) f = header
    /\ forall j, 0 <= j < L * bn ->
         f !! Z.to_nat (BLOCK_FIRST_HEADER_SIZE + j) = Some (mem w0 (source_address d j)))).
Qed.

(** The blocks of the run at logical block [L] *)
Lemma run_source L ph count i :
  0 <= L -> 0 <= i < count * bn ->
  (forall b, L <= b < L + count -> runs_block (runs d) b = Some (ph + (b - L))) ->
  source_address d (L * bn + i) = allocation_base d + ph * bn + i.
Proof.
  intros HL0 Hi Hruns. unfold source_address. fold bn.
  replace (L * bn + i) with (i + L * bn) by lia. rewrite Z.div_add, Z.mod_add by (unfold bn; lia).
  assert (0 <= i / bn < count)
    by (split; [apply Z.div_pos; unfold bn; lia|apply Z.div_lt_upper_bound; unfold bn in *; nia]).
  rewrite Hruns by lia. simpl. pose proof (Z.div_mod i bn ltac:(unfold bn; lia)). nia.
Qed.

(** A file that keeps what was staged and has the run's bytes after it *)
Lemma stage_run L r w w1 f f1 :
  let size := run_block_count r * bn in
  let fo := BLOCK_FIRST_HEADER_SIZE + L * bn in
  0 <= L -> 0 < run_block_count r ->
  (forall b, L <= b < L + run_block_count r ->
     runs_block (runs d) b = Some (run_physical_block_start r + (b - L))) ->
  staged L w -> content w tmp = Some f ->
  keeps_files [tmp] w0 w1 -> content w1 tmp = Some f1 ->
  take (Z.to_nat fo) f1 = take (Z.to_nat fo) f ->
  (forall i, 0 <= i < size ->
     f1 !! Z.to_nat (fo + i)
     = Some (mem w0 (allocation_base d + run_physical_block_start r * bn + i))) ->
  staged (L + run_block_count r) w1.
Proof.
  intros size fo HL0 Hc Hruns [_ (f' & Hf' & Hlen & Hhd & Hblk)] Hf Hkeep Hf1 Htk Hbytes.
  rewrite Hf in Hf'. injection Hf' as <-. split; [done|]. exists f1. split; [done|].
  assert (forall i, (i < Z.to_nat fo)%nat -> f1 !! i = f !! i) as Hbelow.
  { intros i Hi. rewrite <- (lookup_take_lt f1 (Z.to_nat fo)), Htk by done.
    by rewrite lookup_take_lt. }
  assert (0 < size) by (unfold size, bn; nia).
  pose proof (lookup_lt_Some _ _ _ (Hbytes (size - 1) ltac:(lia))) as Hlast.
  split; [|split].
  - unfold fo, size, lenZ in *. lia.
  - rewrite <- Hhd. assert (Z.to_nat BLOCK_FIRST_HEADER_SIZE <= Z.to_nat fo)%nat by (unfold fo, bn; nia).
    apply (f_equal (take (Z.to_nat BLOCK_FIRST_HEADER_SIZE))) in Htk.
    by rewrite !take_take, Nat.min_l in Htk by done.
  - intros j Hj. destruct (Z.lt_ge_cases j (L * bn)) as [Hlt|Hge].
    + rewrite Hbelow by (unfold fo, BLOCK_FIRST_HEADER_SIZE in *; lia). apply Hblk; lia.
    + replace (BLOCK_FIRST_HEADER_SIZE + j) with (fo + (j - L * bn)) by (unfold fo; lia).
      rewrite Hbytes by (unfold size; lia).
      replace j with (L * bn + (j - L * bn)) at 2 by lia.
      rewrite (run_source L (run_physical_block_start r) (run_block_count r));
        [done|done|unfold bn in *; lia|done].
Qed.

Lemma store_run_triple dds L r fs k :
  (forall fd, is_Some (fs !! fd) -> fd < k) ->
  0 <= L -> run_logical_block_start r = L -> 0 < run_block_count r ->
  (forall b, L <= b < L + run_block_count r ->
     runs_block (runs d) b = Some (run_physical_block_start r + (b - L))) ->
  triple (fun w => staged L w /\ fds_at fs k w) (store_run dds tmp d r)
    (fun _ w => staged (L + run_block_count r) w /\ fds_at fs k w)
    (fun _ w => keeps_files [tmp] w0 w /\ fds_at fs k w).
Proof.
  intros Hfs HL0 Hr Hc Hruns w [Hst Hfd].
  pose proof Hst as [[Hq Hm] (f & Hf & Hlen & _)].
  unfold store_run. rewrite Hoff, Hr. fold bn.
  set (size := run_block_count r * bn). set (fo := BLOCK_FIRST_HEADER_SIZE + L * bn).
  assert (0 <= size) by (unfold size, bn; nia).
  assert (0 <= fo) by (unfold fo, bn, BLOCK_FIRST_HEADER_SIZE; nia).
  pose proof (dds_write_triple w tmp (allocation_base d) size fo
    (run_physical_block_start r * bn) ltac:(lia) ltac:(lia) dds fs k Hfs w) as Hw.
  assert (kept w tmp fo w) as Hk.
  { split; [apply keeps_files_refl|]. rewrite Hf. split; [unfold fo; lia|done]. }
  specialize (Hw (conj Hk Hfd)). unfold mbind, ST_bind.
  destruct (dds_write _ _ _ _ _ _ w) as [[ret|ex] w1]; [|done].
  destruct Hw as [[[[Hq1 Hm1] Hk1] Hret] Hfd1].
  assert (keeps_files [tmp] w0 w1) as Hkeep.
  { split; [intros q Hne; rewrite Hq1 by done; by apply Hq|intros a; by rewrite Hm1]. }
  destruct (Z.eqb_spec ret size) as [->|Hne]; simpl; [|done].
  split; [|done]. destruct (Hret eq_refl) as (f1 & Hf1 & Htk & Hbytes).
  rewrite Hf in Htk. apply (stage_run L r w w1 f f1); try done.
  intros i Hi. rewrite Hbytes by done. by rewrite Hm.
Qed.

(** Runs of a validated descriptor, written in order by [step], stage every block. *)
Lemma stage_runs_triple (step : DirectIOBlockRun -> ST world unit) fs k l : forall cap L tr n,
  (forall L r, 0 <= L -> run_logical_block_start r = L -> 0 < run_block_count r ->
     (forall b, L <= b < L + run_block_count r ->
        runs_block (runs d) b = Some (run_physical_block_start r + (b - L))) ->
     triple (fun w => staged L w /\ fds_at fs k w) (step r)
       (fun _ w => staged (L + run_block_count r) w /\ fds_at fs k w)
       (fun _ w => keeps_files [tmp] w0 w /\ fds_at fs k w)) ->
  0 <= L -> validate_runs cap L tr l = Ok n ->
  (forall b, L <= b -> runs_block (runs d) b = runs_block l b) ->
  triple (fun w => staged L w /\ fds_at fs k w) (st_iter step l)
    (fun _ w => staged (L + (n - tr)) w /\ fds_at fs k w)
    (fun _ w => keeps_files [tmp] w0 w /\ fds_at fs k w).
Proof.
  induction l as [|r l IH]; intros cap L tr n Hstep HL0 Hv Hb; simpl in *.
  - injection Hv as <-. replace (L + (tr - tr)) with L by lia. by intros w Hw.
  - res_inv. bool_prop. eapply triple_bind.
    + apply (Hstep L r); try done; try lia. intros b Hbr. rewrite Hb by lia.
      replace ((run_logical_block_start r <=? b) && (b <? run_logical_block_start r + run_block_count r))
        with true by lia. do 2 f_equal. lia.
    + intros []. replace (L + (n - tr))
        with (L + run_block_count r + (n - (tr + run_block_count r))) by lia.
      eapply IH; try done; [lia|]. intros b Hge. rewrite Hb by lia.
      by replace ((run_logical_block_start r <=? b) && (b <? run_logical_block_start r + run_block_count r))
        with false by lia.
Qed.

(** Once all blocks are staged and the size is right, the file is complete. *)
Lemma staged_complete w f :
  0 <= logical_block_count d -> staged (logical_block_count d) w -> content w tmp = Some f ->
  lenZ f = BLOCK_FIRST_HEADER_SIZE + logical_block_count d * bn ->
  f = header ++ direct_payload w0 d.
Proof.
  intros Hlc [_ (f' & Hf' & _ & Hhd & Hblk)] Hf Hlen. rewrite Hf in Hf'. injection Hf' as <-.
  rewrite <- (take_drop (Z.to_nat BLOCK_FIRST_HEADER_SIZE) f). f_equal; [done|].
  apply list_eq_same_length with (n := Z.to_nat (logical_block_count d * bn)).
  - unfold direct_payload. by rewrite length_fmap, length_rangeZ.
  - rewrite length_drop. unfold lenZ, BLOCK_FIRST_HEADER_SIZE, bn in *. nia.
  - intros i x y Hi Hx Hy. rewrite lookup_drop in Hx.
    unfold direct_payload in Hy. rewrite list_lookup_fmap, lookup_rangeZ in Hy by done.
    injection Hy as <-. pose proof (Hblk (Z.of_nat i) ltac:(lia)) as Hb.
    replace (Z.to_nat (BLOCK_FIRST_HEADER_SIZE + Z.of_nat i))
      with (Z.to_nat BLOCK_FIRST_HEADER_SIZE + i)%nat in Hb
      by (unfold BLOCK_FIRST_HEADER_SIZE; lia).
    rewrite Hb in Hx. by injection Hx as <-.
Qed.

End store.
(** *** The store transaction *)

Lemma validate_store_runs d rc ra :
  DirectIO.validate d rc ra = Ok tt -> direction d = STORE ->
  byte_segments d = [] /\ leading_edge d = None /\ 0 < block_nbytes d
  /\ 0 <= logical_block_count d /\ 0 <= logical_block_start d
  /\ file_payload_offset d = BLOCK_FIRST_HEADER_SIZE
  /\ validate_runs (allocation_nbytes d / block_nbytes d) (logical_block_start d) 0 (runs d)
     = Ok (logical_block_count d).
Proof.
  unfold DirectIO.validate. intros H Hdir. res_inv. bool_prop.
  destruct (byte_segments d) as [|s l]; cbn [is_nil negb] in H.
  - res_inv. bool_prop. repeat split; try lia; try done.
    + unfold validate_edge in *. destruct (leading_edge d); [|done]. exfalso.
      match goal with Hx : (raise_if _ _ ≫= _) = Ok _ |- _ => rewrite Hdir in Hx end.
      res_inv. bool_prop.
      match goal with Hx : ¬ (STORE <> RETRIEVE) |- _ => by apply Hx end.
    + congruence.
  - exfalso. unfold validate_byte_segments in H. res_inv. bool_prop. rewrite Hdir in *.
    match goal with Hx : ¬ (STORE <> RETRIEVE) |- _ => by apply Hx end.
Qed.

Definition tmp_of (path : string) : string := path +:+ BLOCK_FIRST_DATA_FILE_SUFFIX_TMP.

Lemma tmp_of_neq path : tmp_of path <> path.
Proof. by apply append_neq. Qed.

(** What a failed transaction leaves: only the temporary file may differ, and it is gone
    unless removing it failed too. *)
Definition rolled_back (w0 : world) (tmp : string) (ex : exn) (w : world) : Prop :=
  keeps_files [tmp] w0 w /\ (files w !! tmp = None \/ is_os_error ex = true).

Lemma discard_tmp_triple {A} tmp ex (w0 : world) fs k :
  triple (fun w => keeps_files [tmp] w0 w /\ fds_at fs k w) (discard_tmp (A := A) tmp ex)
    (fun _ _ => False) (fun ex' w => rolled_back w0 tmp ex' w /\ fds_at fs k w).
Proof.
  unfold discard_tmp.
  apply (triple_bind _ _ _ (fun _ w => (keeps_files [tmp] w0 w /\ files w !! tmp = None)
    /\ fds_at fs k w)).
  - eapply triple_catch.
    + apply (os_remove_triple tmp (keeps_files [tmp] w0)
        (fun w => keeps_files [tmp] w0 w /\ files w !! tmp = None)).
      * apply keeps_files_closed.
      * intros w w' Hf Hm [H1 H2]. split; [by apply (keeps_files_closed _ _ w)|by rewrite Hf].
      * intros w [Hq Hm]. split; [split; [|done]|simpl; apply lookup_delete_eq].
        intros q Hne. simpl. rewrite lookup_delete_ne by (intros ->; apply Hne; by left).
        by apply Hq.
    + intros e. destruct (is_file_not_found e) eqn:E.
      * intros w (_ & [Hk Hf] & Hn). simpl. split; [|done]. split; [done|by apply Hn].
      * intros w (He & [Hk Hf] & _). simpl. split; [|done]. split; [done|by right].
  - intros [] w [[Hk Hn] Hf]. simpl. split; [|done]. split; [done|by left].
Qed.

(** Packing the header and writing it to the temporary file *)
Lemma write_header_triple {A} path d m (w0 : world) fs k (rest : Z -> ST world A) Q :
  let tmp := tmp_of path in
  let E := fun (_ : exn) w => keeps_files [tmp] w0 w /\ fds_at fs k w in
  (forall fd, is_Some (fs !! fd) -> fd < k) ->
  (forall h, pack_block_first_header m = Ok h -> lenZ h = BLOCK_FIRST_HEADER_SIZE) ->
  (forall header written, pack_block_first_header m = Ok header ->
     triple (fun w => staged w0 tmp d header 0 w /\ fds_at fs k w) (rest written) Q E) ->
  triple (fun w => keeps_files [] w0 w /\ fds_at fs k w)
    (header ← st_lift (pack_block_first_header m);
     written ← py_write_file tmp header;
     rest written) Q E.
Proof.
  intros tmp E Hfs Hpack Hrest.
  apply (triple_bind _ _ _ (fun header w => pack_block_first_header m = Ok header
    /\ (keeps_files [tmp] w0 w /\ fds_at fs k w))).
  { apply triple_lift.
    - intros h Hh w [[Hq Hm] Hf]. split; [done|]. split; [|done]. split; [|done].
      intros q _. apply Hq. by intros ?%not_elem_of_nil.
    - intros ex _ w [[Hq Hm] Hf]. split; [|done]. split; [|done].
      intros q _. apply Hq. by intros ?%not_elem_of_nil. }
  intros header. apply triple_pure. intros Hh. specialize (Hpack header Hh).
  apply (triple_bind _ _ _ (fun _ w => staged w0 tmp d header 0 w /\ fds_at fs k w)).
  { eapply triple_conseq; [apply (py_write_file_triple tmp header (keeps_files [tmp] w0)
      (fun b w => keeps_files [tmp] w0 w /\ content w tmp = Some b) fs k Hfs)| | |].
    - apply keeps_files_closed.
    - intros b. apply io_closed_conj;
        [apply keeps_files_closed|exact (content_closed tmp (fun c => c = Some b))].
    - intros w i b Hw. split; [apply keeps_files_insert; [by left|done]|apply content_insert].
    - by intros b w [Hw _].
    - done.
    - intros r w [[[Hw Hc] _] Hf]. split; [|done]. split; [done|]. exists header.
      split; [done|]. split; [lia|]. split; [|lia].
      rewrite firstn_all2; [done|unfold lenZ in Hpack; lia].
    - by intros ex w [_ Hw]. }
  intros written. by apply Hrest.
Qed.

(** A check before the transfer *)
Lemma staged_lift w0 tmp d header L (r : result unit) fs k :
  triple (fun w => staged w0 tmp d header L w /\ fds_at fs k w) (st_lift r)
    (fun _ w => staged w0 tmp d header L w /\ fds_at fs k w)
    (fun _ w => keeps_files [tmp] w0 w /\ fds_at fs k w).
Proof. apply triple_lift; [by intros a _ w Hw|]. by intros ex _ w [[Hw _] Hf]. Qed.

(** The size check and the rename *)
Lemma finish_staged_triple path d header m (w0 : world) msg fs k :
  let tmp := tmp_of path in
  0 < block_nbytes d -> 0 <= logical_block_count d -> lenZ header = BLOCK_FIRST_HEADER_SIZE ->
  io_nbytes m = logical_block_count d * block_nbytes d ->
  triple (fun w => staged w0 tmp d header (logical_block_count d) w /\ fds_at fs k w)
    (actual_size ← os_getsize tmp;
     st_lift (raise_if (negb (actual_size =? BLOCK_FIRST_HEADER_SIZE + io_nbytes m)) msg);;
     os_replace tmp path)
    (fun _ w => (keeps_files [tmp; path] w0 w /\ files w !! tmp = None
       /\ content w path = Some (header ++ direct_payload w0 d)) /\ fds_at fs k w)
    (fun _ w => keeps_files [tmp] w0 w /\ fds_at fs k w).
Proof.
  intros tmp Hbn Hlc Hpack Hio. eapply triple_bind.
  { eapply triple_exn; [apply (os_getsize_triple tmp (staged w0 tmp d header (logical_block_count d))
      fs k), staged_closed|]. by intros ex w [_ [[Hw _] Hf]]. }
  intros size. apply (triple_bind _ _ _ (fun _ w => (keeps_files [tmp] w0 w
    /\ content w tmp = Some (header ++ direct_payload w0 d)) /\ fds_at fs k w)).
  { apply triple_lift.
    - intros u Hu w [[Hst (f & Hf & Hsz)] Hfd]. apply raise_if_Ok in Hu. bool_prop.
      split; [|done]. split; [apply Hst|]. rewrite Hf. f_equal.
      refine (staged_complete w0 tmp d header Hbn Hpack w f Hlc Hst Hf _); done || lia.
    - by intros ex _ w [[[Hw _] _] Hf]. }
  intros []. eapply triple_conseq; [apply (os_replace_triple tmp path
      (fun w => keeps_files [tmp] w0 w /\ content w tmp = Some (header ++ direct_payload w0 d))
      (fun w => keeps_files [tmp; path] w0 w /\ files w !! tmp = None
         /\ content w path = Some (header ++ direct_payload w0 d)) fs k)| | |].
  - apply io_closed_conj; [apply keeps_files_closed|exact (content_closed tmp
      (fun c => c = Some (header ++ direct_payload w0 d)))].
  - intros w f [[Hq Hm] Hc] Hf. split; [|split].
    + split; [|done]. intros q Hne. simpl.
      rewrite lookup_insert_ne by (intros ->; apply Hne; right; by left).
      rewrite lookup_delete_ne by (intros ->; apply Hne; by left).
      apply Hq. intros ->%list_elem_of_singleton. apply Hne. by left.
    + simpl. rewrite lookup_insert_ne by (intros Heq; symmetry in Heq; by apply (tmp_of_neq path)).
      apply lookup_delete_eq.
    + unfold content in *. simpl. rewrite lookup_insert_eq. by rewrite Hf in Hc.
  - done.
  - done.
  - by intros ex w [_ [[Hw _] Hf]].
Qed.

Lemma write_direct_file_triple dds path d m (w0 : world) fs k :
  (forall fd, is_Some (fs !! fd) -> fd < k) ->
  DirectIO.validate d true true = Ok tt -> direction d = STORE -> logical_block_start d = 0 ->
  io_nbytes m = logical_block_count d * block_nbytes d ->
  (forall h, pack_block_first_header m = Ok h -> lenZ h = BLOCK_FIRST_HEADER_SIZE) ->
  triple (fun w => keeps_files [] w0 w /\ fds_at fs k w) (write_direct_file dds path d m)
    (fun _ w => (keeps_files [tmp_of path; path] w0 w /\ files w !! tmp_of path = None
       /\ exists header, pack_block_first_header m = Ok header
          /\ content w path = Some (header ++ direct_payload w0 d)) /\ fds_at fs k w)
    (fun ex w => rolled_back w0 (tmp_of path) ex w /\ fds_at fs k w).
Proof.
  intros Hfs Hv Hdir Hls Hio Hpack. unfold write_direct_file. fold (tmp_of path).
  destruct (validate_store_runs d true true Hv Hdir) as (_ & _ & Hbn & Hlc & _ & Hoff & Hruns).
  rewrite Hls in Hruns. set (tmp := tmp_of path).
  apply triple_catch with (E' := fun _ w => keeps_files [tmp] w0 w /\ fds_at fs k w);
    [|intros e; eapply triple_conseq;
      [apply (discard_tmp_triple tmp e w0 fs k)|done|intros ? ? []|done]].
  apply (write_header_triple path d m w0 fs k); [done..|]. intros header written Hh.
  specialize (Hpack header Hh). eapply triple_bind; [apply staged_lift|]. intros [].
  apply (triple_bind _ _ _ (fun _ w => staged w0 tmp d header 0 w /\ fds_at fs k w)).
  { eapply triple_exn; [apply synchronize_triple, staged_closed|]. by intros ex w [[Hw _] Hf]. }
  intros []. apply (triple_bind _ _ _
    (fun _ w => staged w0 tmp d header (logical_block_count d) w /\ fds_at fs k w)).
  { pose proof (stage_runs_triple w0 tmp d header (store_run dds tmp d) fs k (runs d) _ 0 0 _
      (fun L r => store_run_triple w0 tmp d header Hbn Hoff dds L r fs k Hfs)
      ltac:(lia) Hruns ltac:(done)) as Ht.
    by replace (0 + (logical_block_count d - 0)) with (logical_block_count d) in Ht by lia. }
  intros []. eapply triple_conseq; [by apply (finish_staged_triple path d header m w0)| | |].
  - intros w Hw. exact Hw.
  - intros u w [(H1 & H2 & H3) Hf]. split; [|done]. eauto.
  - intros ex w Hw. exact Hw.
Qed.

Lemma check_direct_store_Ok e d m :
  check_direct_store e d = Ok m ->
  DirectIO.validate d true true = Ok tt /\ direction d = STORE /\ logical_block_start d = 0
  /\ io_nbytes m = logical_block_count d * block_nbytes d
  /\ make_direct_block_first_metadata e = Ok m
  /\ logical_block_count d = valid_tokens m / block_size m.
Proof.
  unfold check_direct_store, validate_direct_descriptor. intros H. res_inv. subst. bool_prop.
  match goal with Hv : DirectIO.validate d true true = Ok ?u |- _ => destruct u end.
  match goal with Hd : ¬ (direction d <> STORE) |- _ => apply dec_stable in Hd; rename Hd into Hdir end.
  match goal with Hv : DirectIO.validate d true true = Ok tt |- _ =>
    destruct (validate_store_runs d true true Hv Hdir) as (Hseg & _) end.
  unfold transferred_nbytes in *. rewrite Hseg in *. repeat split; done || lia.
Qed.

Lemma save_direct_xds_triple e path d m (w0 : world) fs k :
  (forall fd, is_Some (fs !! fd) -> fd < k) -> check_direct_store e d = Ok m ->
  (forall h, pack_block_first_header m = Ok h -> lenZ h = BLOCK_FIRST_HEADER_SIZE) ->
  triple (fun s => keeps_files [] w0 (io_world s) /\ fds_at fs k (io_world s))
    (save_direct_xds e path d)
    (fun r s => r = m /\ (keeps_files [tmp_of path; path] w0 (io_world s)
       /\ files (io_world s) !! tmp_of path = None
       /\ exists header, pack_block_first_header m = Ok header
          /\ content (io_world s) path = Some (header ++ direct_payload w0 d))
       /\ fds_at fs k (io_world s))
    (fun ex s => (keeps_files [] w0 (io_world s) \/ rolled_back w0 (tmp_of path) ex (io_world s))
       /\ fds_at fs k (io_world s)).
Proof.
  intros Hfs Hck Hpack. unfold save_direct_xds. rewrite Hck.
  destruct (check_direct_store_Ok e d m Hck) as (Hv & Hdir & Hls & Hio & _).
  intros s Hs. unfold mbind at 1, ST_bind at 1. simpl. revert s Hs.
  apply (triple_bind _ _ _ (fun _ s => keeps_files [] w0 (io_world s) /\ fds_at fs k (io_world s))).
  { eapply triple_exn; [apply ensure_direct_registration_triple, keeps_files_closed|].
    intros ex s [Hk Hf]. split; [by left|done]. }
  intros []. eapply triple_bind.
  - eapply triple_exn; [apply (on_world_triple' (fun w => keeps_files [] w0 w /\ fds_at fs k w)),
      (write_direct_file_triple (xe_dds e) path d m w0 fs k); done|].
    intros ex s [Hr Hf]. split; [by right|done].
  - intros [] s Hs. simpl. done.
Qed.

End file_facts.

(** ** Property *)

Section atomic.
Context {Dt : Type} `{!TorchDtype Dt} {JC : JsonCodec} {HL : HyFileLib}.
Context {TL : TorchDtypeLaws Dt} {JL : JsonCodecLaws} {HLL : HyFileLibLaws}.

(** C2: a direct store is all or nothing. When it returns, the target file holds
    the header of the descriptor's metadata followed by the bytes the descriptor's
    physical blocks held, in logical order, and a scan reads that metadata back; when it
    raises, on any fault, the target file is what it was, and the temporary file
    is absent or as before unless removing it failed as well. Either way no other file,
    no device memory and no open descriptor changed. *)
Theorem save_direct_xds_atomic (e : xds_engine Dt) path d s :
  fds_ok (io_world s) ->
  match save_direct_xds e path d s with
  | (Ok m, s') =>
      check_direct_store e d = Ok m
      /\ (forall q, q <> path -> q <> tmp_of path ->
            files (io_world s') !! q = files (io_world s) !! q)
      /\ files (io_world s') !! tmp_of path = None
      /\ (exists header file, content (io_world s') path = Some file
            /\ file = header ++ direct_payload (io_world s) d
            /\ lenZ file = BLOCK_FIRST_HEADER_SIZE + io_nbytes m
            /\ unpack_block_first_header (Dt := Dt) file = Ok m)
      /\ fds (io_world s') = fds (io_world s)
      /\ forall a, mem (io_world s') a = mem (io_world s) a
  | (Raise ex, s') =>
      (forall q, q <> tmp_of path -> files (io_world s') !! q = files (io_world s) !! q)
      /\ (files (io_world s') !! tmp_of path = None
          \/ files (io_world s') !! tmp_of path = files (io_world s) !! tmp_of path
          \/ is_os_error ex = true)
      /\ fds (io_world s') = fds (io_world s)
      /\ forall a, mem (io_world s') a = mem (io_world s) a
  end.
Proof.
  intros Hfs. destruct (check_direct_store e d) as [m|ex] eqn:Hck.
  - pose proof (save_direct_xds_triple e path d m (io_world s) (fds (io_world s))
      (fresh (io_world s)) Hfs Hck ltac:(intros h; apply pack_header_length) s ltac:(done)) as H.
    destruct (check_direct_store_Ok e d m Hck) as (Hval & Hdir & _ & Hio & _).
    destruct (save_direct_xds e path d s) as [[m'|ex] s'].
    + destruct H as (-> & ([Hq Hm] & Hn & header & Hp & Hc) & [Hfd _]).
      split; [done|]. split; [|split; [done|split; [|done]]].
      { intros q H1 H2. apply Hq. set_unfold. tauto. }
      exists header, (header ++ direct_payload (io_world s) d). split; [done|]. split; [done|].
      split; [|by apply unpack_packed_header].
      rewrite lenZ_app, (pack_header_length _ _ Hp). unfold direct_payload, lenZ.
      rewrite length_fmap, length_rangeZ. destruct (validate_store_runs d true true Hval Hdir) as
        (_ & _ & Hbn & Hlc & _). nia.
    + destruct H as ([[Hq Hm]|[[Hq Hm] Ht]] & [Hfd _]).
      * split; [intros q _; apply Hq, not_elem_of_nil|]. split; [right; left; apply Hq, not_elem_of_nil|done].
      * split; [intros q Hne; apply Hq; set_solver|]. split; [destruct Ht; auto|done].
  - unfold save_direct_xds. rewrite Hck. simpl. unfold mbind, ST_bind. simpl. auto 10.
Qed.

End atomic.

(** A concrete engine: four-token chunks of two 4 KiB blocks *)
Module XdsExamples.
Import CountableCodec BlockFirstExamples.

Definition ex_xds : xds_engine ex_dtype :=
  XdsEngine _ 4 (Some 2) [[2; 1; 4; 512]] [Float16] ex_engine true
    (TorchDevice "cuda" None) (MkHyFileDDS false false).

Definition ex_gpu : torch_device := TorchDevice "cuda" (Some 0).

(** Blocks 0 and 1 of the chunk are the physical blocks 3 and 1. *)
Definition ex_store : DirectIODescriptor :=
  Descriptor STORE ex_gpu 8192 16384 0 4096 2 0 2 0 4 [BlockRun 0 3 1; BlockRun 1 1 1] None 4096
    true (Some [7]) [] [] [].

(** Retrieved into the blocks 0 and 2 *)
Definition ex_retrieve : DirectIODescriptor :=
  Descriptor RETRIEVE ex_gpu 8192 16384 0 4096 2 0 2 0 4 [BlockRun 0 0 1; BlockRun 1 2 1] None
    4096 true (Some [7]) [] [] [].

Definition ex_io : xds_io :=
  XdsIO (World ∅ ∅ 5 (fun a => a mod 251) [] (HipClass true true ∅ [])) [] None.

Definition ex_path : string := "chunk" +:+ BLOCK_FIRST_DATA_FILE_SUFFIX.

End XdsExamples.

Lemma save_direct_xds_atomic_witness :
  exists m s' file,
    save_direct_xds (Dt := ex_dtype) (JC := CountableCodec.codec) XdsExamples.ex_xds
      XdsExamples.ex_path XdsExamples.ex_store XdsExamples.ex_io = (Ok m, s')
    /\ content (io_world s') XdsExamples.ex_path = Some file /\ lenZ file = 12288
    /\ unpack_block_first_header (Dt := ex_dtype) (JC := CountableCodec.codec) file = Ok m.
Proof.
  assert (fds_ok (io_world XdsExamples.ex_io)) as Hfds.
  { intros fd [o Ho]. vm_compute in Ho. destruct fd; discriminate Ho. }
  pose proof (save_direct_xds_atomic (JC := CountableCodec.codec)
    (JL := CountableCodecFacts.codec_laws) XdsExamples.ex_xds XdsExamples.ex_path
    XdsExamples.ex_store XdsExamples.ex_io Hfds) as H.
  assert (exists m, (save_direct_xds (Dt := ex_dtype) (JC := CountableCodec.codec)
    XdsExamples.ex_xds XdsExamples.ex_path XdsExamples.ex_store XdsExamples.ex_io).1 = Ok m
    /\ io_nbytes m = 8192) as (m & Hm & Hio).
  { vm_compute. eexists. split; [reflexivity|reflexivity]. }
  destruct (save_direct_xds _ _ _ _) as [[m'|ex] s']; [|discriminate Hm].
  injection Hm as ->. destruct H as (_ & _ & _ & (header & file & Hc & _ & Hl & Hu) & _).
  exists m, s', file. split; [reflexivity|]. split; [exact Hc|].
  split; [rewrite Hl, Hio; reflexivity|exact Hu].
Defined.
