(* ===== verification/XdsLoad.v ===== *)
(** * Direct retrieve

    What [_load_direct_xds] of [XdsBackend] puts where: every file byte of the
    descriptor's range reaches its device address, and nothing else changes, for
    runs, byte segments and a leading edge; and a store followed by a
    retrieve moves blocks to blocks. *)

From S2P Require Import Prelude Tensor Codec BlockFirst DirectIO World HipFile XdsFiles.

Open Scope string_scope.
Open Scope list_scope.
Open Scope Z_scope.

(** ** Where a file byte belongs *)

(** The device address of payload byte [j], of block-first runs: its block's place, or
    the leading edge's block from its first token row on. [row_nbytes] is the size of a
    token's row. *)
Definition run_address (row_nbytes : Z) (d : DirectIODescriptor) (j : Z) : option Z :=
  let b := j / block_nbytes d in
  let off := j mod block_nbytes d in
  match runs_block (runs d) b with
  | Some p => Some (allocation_base d + p * block_nbytes d + off)
  | None =>
      match leading_edge d with
      | Some edge =>
          if (b =? edge_logical_block edge)
             && (edge_token_offset edge <=? (off / row_nbytes) mod desc_block_size d)
          then Some (allocation_base d + edge_physical_block edge * block_nbytes d + off)
          else None
      | None => None
      end
  end.

(** The device address of the file byte [x] *)
Definition device_address (row_nbytes : Z) (d : DirectIODescriptor) (x : Z) : option Z :=
  if negb (is_nil (byte_segments d)) then byte_address d x
  else if x <? BLOCK_FIRST_HEADER_SIZE then None
  else run_address row_nbytes d (x - BLOCK_FIRST_HEADER_SIZE).

(** No device byte is given two file bytes. *)
Definition addresses_distinct (rn : Z) (d : DirectIODescriptor) : Prop := forall x x' a,
  device_address rn d x = Some a -> device_address rn d x' = Some a -> x = x'.

(** What other threads may do to the world meanwhile: anything to other files *)
Definition others_elsewhere (path : string) (env : world -> world) : Prop := forall w,
  files (env w) !! path = files w !! path /\ fds (env w) = fds w /\ fresh w <= fresh (env w)
  /\ forall a, mem (env w) a = mem w a.

(** Covered by one of the transfers *)
Definition covered {X} (cov : X -> Z -> Prop) (xs : list X) (x : Z) : Prop :=
  exists r, r ∈ xs /\ cov r x.

Lemma covered_cons {X} (cov : X -> Z -> Prop) r rs x :
  covered cov (r :: rs) x <-> cov r x \/ covered cov rs x.
Proof.
  unfold covered. split.
  - intros (r' & [->|H]%elem_of_cons & Hx); eauto.
  - intros [H|(r' & H & Hx)]; eexists; (split; [|done]); [by left|by right].
Qed.

(** A loop of transfers, each adding the bytes it covers *)
Lemma iter_cover {X S} (L : (Z -> Prop) -> S -> Prop) E (step : X -> ST S unit)
    (cov : X -> Z -> Prop) xs :
  (forall D D' s, (forall x, D x <-> D' x) -> L D s -> L D' s) ->
  (forall x D, x ∈ xs -> triple (L D) (step x) (fun _ => L (fun y => D y \/ cov x y)) E) ->
  forall D, triple (L D) (st_iter step xs) (fun _ => L (fun y => D y \/ covered cov xs y)) E.
Proof.
  intros HL. induction xs as [|x xs IH]; intros Hs D; simpl.
  - intros s Hl. eapply HL; [|exact Hl].
    intros y. split; [by left|]. intros [H|(r & Hr & _)]; [exact H|by inversion Hr].
  - eapply triple_bind; [apply Hs; by left|]. intros [].
    eapply triple_conseq; [apply IH; intros y D' Hy; apply Hs; by right|intros s Hl; exact Hl| |done].
    intros [] s Hl. eapply HL; [|exact Hl]. intros y. rewrite covered_cons. tauto.
Qed.

Lemma elem_of_rangeZ x a n : x ∈ rangeZ a n <-> a <= x < a + Z.of_nat n.
Proof. unfold rangeZ. apply elem_of_seqZ. Qed.

Section load.
Context {HL : HyFileLib} {HLL : HyFileLibLaws}.

(** *** Reads into distinct addresses *)

Section reads.
Context (w0 : world) (path : string) (f : list Z) (addr : Z -> option Z) (scratch : Z -> Prop).
Context (Hf : content w0 path = Some f)
  (Hinj : forall x x' a, addr x = Some a -> addr x' = Some a -> x = x')
  (Hscr : forall x a, addr x = Some a -> ~ scratch a).

(** The file bytes of [D] are at their addresses; nothing else changed but scratch. *)
Definition loaded (D : Z -> Prop) (w : world) : Prop :=
  files w = files w0
  /\ (forall x a, D x -> addr x = Some a -> f !! Z.to_nat x = Some (mem w a))
  /\ (forall a, (forall x, D x -> addr x <> Some a) -> ~ scratch a -> mem w a = mem w0 a).

(** A read that failed somewhere *)
Definition part_loaded (w : world) : Prop :=
  files w = files w0
  /\ forall a, (forall x, addr x <> Some a) -> ~ scratch a -> mem w a = mem w0 a.

Lemma loaded_part D w : loaded D w -> part_loaded w.
Proof. intros (H1 & _ & H3). split; [done|]. intros a Ha. by apply H3. Qed.

Lemma loaded_closed D : io_closed (loaded D).
Proof.
  intros w w' Hw Hm (H1 & H2 & H3). split; [congruence|].
  split; intros; rewrite Hm; [by apply H2|by apply H3].
Qed.

Lemma part_loaded_closed : io_closed part_loaded.
Proof. intros w w' Hw Hm (H1 & H2). split; [congruence|]. intros. rewrite Hm. by apply H2. Qed.

Lemma loaded_iff D D' w : (forall x, D x <-> D' x) -> loaded D w -> loaded D' w.
Proof.
  intros Hx (H1 & H2 & H3). split; [done|]. split; [intros x a Hd; by apply H2, Hx|].
  intros a Ha. apply H3. intros x Hd. by apply Ha, Hx.
Qed.

(** A read of the file range [[fo, fo + size)] into its addresses *)
Definition read_ok (r : Z * Z * Z * Z) : Prop :=
  let '(base, size, fo, dof) := r in
  0 <= size /\ 0 <= fo /\ fo + size <= lenZ f
  /\ forall i, 0 <= i < size -> addr (fo + i) = Some (base + dof + i).

Definition read_covers (r : Z * Z * Z * Z) (x : Z) : Prop :=
  let '(base, size, fo, dof) := r in fo <= x < fo + size.

(** Only the destination of the read [r] changed. *)
Definition read_frame (r : Z * Z * Z * Z) (w w1 : world) : Prop :=
  let '(base, size, fo, dof) := r in
  files w1 = files w /\ forall a, ~ base + dof <= a < base + dof + size -> mem w1 a = mem w a.

Lemma read_part r D w w1 :
  read_ok r -> loaded D w -> read_frame r w w1 -> part_loaded w1.
Proof.
  destruct r as [[[base size] fo] dof]. intros (_ & _ & _ & Haddr) (H1 & _ & H3) [Hw1 Hm].
  split; [congruence|]. intros a Ha Hs. rewrite Hm; [apply H3; auto|].
  intros Hin. apply (Ha (fo + (a - (base + dof)))). rewrite Haddr by lia. f_equal. lia.
Qed.

(** A complete read adds its range. *)
Lemma read_adds r D w w1 :
  read_ok r -> loaded D w -> read_frame r w w1 ->
  (let '(base, size, fo, dof) := r in forall i, 0 <= i < size ->
     f !! Z.to_nat (fo + i) = Some (mem w1 (base + dof + i))) ->
  loaded (fun x => D x \/ read_covers r x) w1.
Proof.
  destruct r as [[[base size] fo] dof]. intros (Hsz & Hfo & Hlen & Haddr) (H1 & H2 & H3) [Hw1 Hm] Hret.
  split; [congruence|]. split.
  - intros x a Hd Ha.
    destruct (decide (fo <= x < fo + size)) as [Hin|Hout].
    + pose proof (Haddr (x - fo) ltac:(lia)) as Hx.
      replace (fo + (x - fo)) with x in Hx by lia. rewrite Ha in Hx. injection Hx as ->.
      rewrite <- Hret by lia. do 2 f_equal. lia.
    + destruct Hd as [Hd|Hd]; [|done]. rewrite Hm; [by apply H2|]. intros Hin.
      pose proof (Haddr (a - (base + dof)) ltac:(lia)) as Hx.
      replace (base + dof + (a - (base + dof))) with a in Hx by lia.
      pose proof (Hinj _ _ _ Ha Hx). lia.
  - intros a Ha Hs. rewrite Hm; [apply H3; auto|]. intros Hin.
    apply (Ha (fo + (a - (base + dof)))); [right; unfold read_covers; lia|].
    rewrite Haddr by lia. f_equal. lia.
Qed.

Lemma loaded_content D w : loaded D w -> content w path = Some f.
Proof. intros (H1 & _). unfold content in *. by rewrite H1. Qed.

Lemma read_exact_triple dds msg r D fs k :
  (forall fd, is_Some (fs !! fd) -> fd < k) -> read_ok r ->
  triple (fun w => loaded D w /\ fds_at fs k w) (read_exact dds path msg r)
    (fun _ w => loaded (fun x => D x \/ read_covers r x) w /\ fds_at fs k w)
    (fun _ w => part_loaded w /\ fds_at fs k w).
Proof.
  destruct r as [[[base size] fo] dof]. intros Hfs Hok w [Hl Hfd].
  pose proof Hok as (Hsz & Hfo & Hlen & _).
  pose proof (dds_read_triple w path base size fo dof Hsz Hfo dds fs k Hfs w) as Hr.
  specialize (Hr (conj (conj eq_refl (fun a _ => eq_refl)) Hfd)).
  unfold read_exact, mbind, ST_bind.
  destruct (dds_read dds path base size fo dof w) as [[ret|ex] w1]; [|done].
  destruct Hr as [[[Hw1 Hm] Hret] Hfd1].
  assert (read_frame (base, size, fo, dof) w w1) as Hfr by done.
  destruct (Z.eqb_spec ret size) as [->|Hne]; simpl; (split; [|done]); [|by eapply read_part].
  apply (read_adds (base, size, fo, dof) D w w1 Hok Hl Hfr).
  apply (Hret eq_refl f); [by eapply loaded_content|done].
Qed.

End reads.
(** *** The header *)

(** The file [path] and device memory are those of [w0]. *)
Definition same_file (path : string) (w0 w : world) : Prop :=
  files w !! path = files w0 !! path /\ forall a, mem w a = mem w0 a.

Lemma same_file_closed path w0 : io_closed (same_file path w0).
Proof. intros w w' Hf Hm [H1 H2]. split; intros; [by rewrite Hf|by rewrite Hm]. Qed.

Lemma open_same_file path w0 w i :
  same_file path w0 w -> creates O_RDONLY = true \/ is_Some (files w !! path) ->
  i = match files w !! path with Some f => ino f | None => fresh w end ->
  same_file path w0 (with_files w
    (<[path := File i (opened_bytes O_RDONLY (default [] (content w path)))]> (files w))).
Proof.
  intros [Hf Hm] [|[f Hfile]] ->; [done|]. split; [|done]. simpl. rewrite lookup_insert_eq.
  unfold content. rewrite <- Hf, Hfile. simpl. by destruct f.
Qed.

(** What a descriptor opened on [path] in [w0] sees while [path] names the same file *)
Definition opened_on (path : string) (w0 : world) (f : file) (fs : gmap Z open_file) (k fd : Z)
    (w : world) : Prop :=
  files w0 !! path = Some f /\ same_file path w0 w
  /\ exists o, of_path o = path /\ of_ino o = ino f /\ fds_at (<[fd := o]> fs) k w.

Lemma opened_on_closed path w0 f fs k fd w w' :
  opened_on path w0 f fs k fd w -> files w' !! path = files w !! path -> fds w' = fds w ->
  fresh w <= fresh w' -> (forall a, mem w' a = mem w a) -> opened_on path w0 f fs k fd w'.
Proof.
  intros (H1 & [H2 H3] & o & Hp & Hi & Hd & Hk) Hf Hfd Hfr Hm. split; [done|].
  split; [split; [congruence|intros; by rewrite Hm]|]. exists o. split; [done|]. split; [done|].
  split; [congruence|lia].
Qed.

Lemma opened_fd_file path w0 f fs k fd w :
  opened_on path w0 f fs k fd w -> exists o, fd_file w fd = Some (o, f) /\ fds w !! fd = Some o
    /\ of_ino o = ino f /\ files w !! path = Some f.
Proof.
  intros (H1 & [H2 _] & o & Hp & Hi & Hd & _). exists o. unfold fd_file.
  rewrite Hd, lookup_insert_eq. simpl. rewrite Hp, H2, H1. simpl. by rewrite Hi, Z.eqb_refl.
Qed.

Lemma may_fail_opened {A} path w0 f fs k fd (m : ST world A) Q E :
  (forall w, opened_on path w0 f fs k fd w ->
     match m w with (Ok a, w') => Q a w' | (Raise e, w') => E e w' end) ->
  (forall e w, opened_on path w0 f fs k fd w -> E e w) ->
  triple (opened_on path w0 f fs k fd) (may_fail;; m) Q E.
Proof.
  intros Hm HE w Hw. unfold may_fail, next_event, mbind, ST_bind.
  destruct (oracle w) as [|[|n|n] rest]; simpl.
  1: by apply Hm.
  all: assert (opened_on path w0 f fs k fd (with_oracle w rest)) as Hw'
    by (eapply opened_on_closed; [exact Hw|done..]).
  1,2: by apply Hm. by apply HE.
Qed.

Section header.
Context {Dt : Type} `{!TorchDtype Dt} {JC : JsonCodec}.

(** [_read_direct_header_and_size] while other threads leave this file alone *)
Lemma read_header_triple env path w0 fs k :
  (forall fd, is_Some (fs !! fd) -> fd < k) -> others_elsewhere path env ->
  triple (fun w => same_file path w0 w /\ fds_at fs k w)
    (read_direct_header_and_size (Dt := Dt) env path)
    (fun r w => (exists f, content w0 path = Some f /\ r.2 = lenZ f
         /\ unpack_block_first_header (Dt := Dt) (take (Z.to_nat BLOCK_FIRST_HEADER_SIZE) f)
            = Ok r.1)
       /\ same_file path w0 w /\ fds_at fs k w)
    (fun _ w => same_file path w0 w /\ fds_at fs k w).
Proof.
  intros Hfs Henv. unfold read_direct_header_and_size. eapply triple_bind.
  { eapply triple_exn; [apply (os_open_triple path O_RDONLY (same_file path w0) (same_file path w0)
      fs k); try apply same_file_closed|].
    - intros w i Hw Hc Hi. by apply open_same_file.
    - by intros e w [_ Hw]. }
  intros fd w (Hw & Hfd & Hk & o & Hpath & (f & Hf & Hino & _) & Hfds).
  assert (fs !! fd = None) as Hnone.
  { destruct (fs !! fd) eqn:E; [|done]. assert (fd < k) by (apply Hfs; by eexists). lia. }
  assert (opened_on path w0 f fs k fd w) as Hop.
  { split; [destruct Hw as [<- _]; done|]. split; [done|]. by exists o. }
  revert w Hop Hfds Hk Hw Hf. intros w Hop _ _ _ _. revert w Hop.
  apply (triple_bind _ _ _ (fun r w => (exists g, content w0 path = Some g /\ r.2 = lenZ g
      /\ r.1 = take (Z.to_nat BLOCK_FIRST_HEADER_SIZE) g)
      /\ same_file path w0 w /\ fds_at fs k w)).
  - assert (forall w, opened_on path w0 f fs k fd w -> exists o', same_file path w0 w
      /\ fds_at (<[fd := o']> fs) k w) as Hclose.
    { intros w (_ & Hs & o' & _ & _ & Hd). by exists o'. }
    apply (triple_finally _ _ _ _ (fun r w => (r.1 = take (Z.to_nat BLOCK_FIRST_HEADER_SIZE) (bytes f)
       /\ r.2 = lenZ (bytes f)) /\ opened_on path w0 f fs k fd w) _
      (fun _ w => opened_on path w0 f fs k fd w)).
    + apply (triple_bind _ _ _ (fun r w => r = take (Z.to_nat BLOCK_FIRST_HEADER_SIZE) (bytes f)
        /\ opened_on path w0 f fs k fd w)).
      { apply may_fail_opened; [|done]. intros w Hw.
        destruct (opened_fd_file _ _ _ _ _ _ _ Hw) as (o' & Hff & _).
        unfold st_get, mbind, ST_bind. rewrite Hff. done. }
      intros header. apply triple_pure. intros ->.
      apply (triple_bind _ _ _ (fun _ w => opened_on path w0 f fs k fd w)).
      { intros w Hw. destruct (Henv w) as (E1 & E2 & E3 & E4). simpl.
        by eapply opened_on_closed. }
      intros []. apply (triple_bind _ _ _ (fun r w => r = (ino f, lenZ (bytes f))
        /\ opened_on path w0 f fs k fd w)).
      { apply may_fail_opened; [|done]. intros w Hw.
        destruct (opened_fd_file _ _ _ _ _ _ _ Hw) as (o' & Hff & Ho & Hi & _).
        unfold st_get, mbind, ST_bind. rewrite Ho, Hff. simpl. by rewrite Hi. }
      intros st. apply triple_pure. intros ->.
      apply (triple_bind _ _ _ (fun _ w => opened_on path w0 f fs k fd w)).
      { apply may_fail_opened; [|done]. intros w Hw.
        destruct (opened_fd_file _ _ _ _ _ _ _ Hw) as (o' & _ & _ & _ & Hp).
        unfold st_get, mbind, ST_bind. by rewrite Hp. }
      intros st. apply (triple_bind _ _ _ (fun _ w => opened_on path w0 f fs k fd w)).
      { by apply triple_lift. }
      intros [] w Hw. simpl. done.
    + intros r w [[Hr1 Hr2] Hw]. destruct (Hclose w Hw) as (o' & Hc).
      pose proof (os_close_triple (same_file path w0) fs k fd o' (same_file_closed path w0) Hnone
        w Hc) as Ht. destruct (os_close fd w) as [[u|ex] w']; [|by destruct Ht].
      split; [|done]. exists (bytes f). destruct Hw as (Hf & _). unfold content. by rewrite Hf.
    + intros ex w Hw. destruct (Hclose w Hw) as (o' & Hc).
      pose proof (os_close_triple (same_file path w0) fs k fd o' (same_file_closed path w0) Hnone
        w Hc) as Ht. destruct (os_close fd w) as [[u|ex'] w']; [done|by destruct Ht].
  - intros [header size]. simpl. intros w [(g & Hg & Hs & Hh) Hw]. revert w Hw.
    eapply triple_bind.
    { apply (triple_lift _ _ (fun m w => unpack_block_first_header (Dt := Dt) header = Ok m
        /\ same_file path w0 w /\ fds_at fs k w)); [by intros m Hm w Hw|by intros ex _ w Hw]. }
    intros m w [Hm Hw]. simpl. split; [|done]. exists g. split; [done|]. split; [done|].
    by rewrite <- Hh.
Qed.

End header.
(** *** The reads of a validated descriptor *)

Lemma validate_runs_lookup l r b : forall cap expected tr n,
  validate_runs cap expected tr l = Ok n -> r ∈ l ->
  run_logical_block_start r <= b < run_logical_block_start r + run_block_count r ->
  runs_block l b = Some (run_physical_block_start r + (b - run_logical_block_start r))
  /\ expected <= run_logical_block_start r
  /\ run_logical_block_start r + run_block_count r <= expected + (n - tr).
Proof.
  induction l as [|r' l IH]; intros cap expected tr n; simpl; [by intros _ ?%not_elem_of_nil|].
  intros H Hin Hb. res_inv. bool_prop. pose proof (validate_runs_Ok _ _ _ _ _ H) as [Hle _].
  apply elem_of_cons in Hin as [->|Hin].
  - replace (_ && _) with true by lia. repeat split; lia.
  - destruct (IH _ _ _ _ H Hin Hb) as (Hr & Hr1 & Hr2).
    replace ((run_logical_block_start r' <=? b) && (b <? run_logical_block_start r' + run_block_count r'))
      with false by lia. repeat split; [done|lia|lia].
Qed.

Lemma validate_runs_positive l r : forall cap expected tr n,
  validate_runs cap expected tr l = Ok n -> r ∈ l -> 0 < run_block_count r.
Proof.
  induction l as [|r' l IH]; intros cap expected tr n; simpl; [by intros _ ?%not_elem_of_nil|].
  intros H Hin. res_inv. bool_prop. apply elem_of_cons in Hin as [->|Hin]; [done|by eapply IH].
Qed.

Lemma validate_runs_covers l b : forall cap expected tr n,
  validate_runs cap expected tr l = Ok n -> expected <= b < expected + (n - tr) ->
  exists r, r ∈ l /\ run_logical_block_start r <= b < run_logical_block_start r + run_block_count r.
Proof.
  induction l as [|r l IH]; intros cap expected tr n; simpl.
  - intros [= ->]. lia.
  - intros H Hb. res_inv. bool_prop.
    destruct (Z.lt_ge_cases b (expected + run_block_count r)).
    + exists r. split; [by left|lia].
    + destruct (IH _ _ _ _ H) as (r' & Hin & Hr); [lia|]. exists r'. split; [by right|done].
Qed.

Lemma seg_lookup_unique l s x :
  s ∈ l -> covers s x -> (forall s', s' ∈ l -> covers s' x -> s' = s) ->
  seg_lookup l x = Some (seg_allocation_index s, seg_allocation_offset s + (x - seg_file_offset s)).
Proof.
  unfold covers. induction l as [|s' l IH]; [by intros ?%not_elem_of_nil|].
  intros Hin Hx Hu. simpl. destruct (_ && _) eqn:E.
  - rewrite (Hu s'); [done|by left|lia].
  - apply IH; [|done|intros s'' H; apply Hu; by right].
    apply elem_of_cons in Hin as [->|Hin]; [|done]. lia.
Qed.

Lemma seg_lookup_covers l x r :
  seg_lookup l x = Some r -> exists s, s ∈ l /\ seg_file_offset s <= x < seg_file_offset s + seg_nbytes s.
Proof.
  induction l as [|s l IH]; simpl; [done|]. destruct (_ && _) eqn:E.
  - intros _. exists s. split; [by left|lia].
  - intros (s' & Hin & Hx)%IH. exists s'. split; [by right|done].
Qed.

Lemma runs_block_above l b : forall cap expected tr n,
  validate_runs cap expected tr l = Ok n -> expected + (n - tr) <= b -> runs_block l b = None.
Proof.
  induction l as [|r l IH]; intros cap expected tr n; simpl; [done|]. intros H Hb. res_inv. bool_prop.
  pose proof (validate_runs_Ok _ _ _ _ _ H) as [Hle _].
  replace (_ && _) with false by lia. eapply IH; [exact H|lia].
Qed.

Section plans.
Context (d : DirectIODescriptor) (rn : Z).
Context (Hv : DirectIO.validate d true true = Ok tt).

Let bn := block_nbytes d.
Let HS := BLOCK_FIRST_HEADER_SIZE.
Let lo := HS + logical_block_start d * bn.
Let hi := HS + (logical_block_start d + logical_block_count d) * bn.

Lemma validate_common :
  0 < bn /\ 0 < desc_block_size d /\ 0 <= logical_block_start d /\ 0 <= logical_block_count d
  /\ file_payload_offset d = HS.
Proof.
  unfold DirectIO.validate in Hv. pose proof Hv as H. res_inv. bool_prop. unfold bn, HS.
  repeat split; lia.
Qed.

(** Each run reads its blocks to their addresses. *)
Lemma run_read_ok f r cap n :
  byte_segments d = [] -> validate_runs cap (logical_block_start d) 0 (runs d) = Ok n ->
  n = logical_block_count d -> r ∈ runs d -> hi <= lenZ f ->
  read_ok f (device_address rn d) (run_read d r).
Proof.
  intros Hseg Hr -> Hin Hlen. destruct validate_common as (Hbn & _ & Hls & Hlc & Hoff).
  assert (0 < run_block_count r /\ 0 <= run_logical_block_start r
    /\ run_logical_block_start r + run_block_count r <= logical_block_start d + logical_block_count d)
    as (Hc & Hb1 & Hb2).
  { assert (0 < run_block_count r) as Hc.
    { by eapply validate_runs_positive. }
    destruct (validate_runs_lookup _ r (run_logical_block_start r) _ _ _ _ Hr Hin) as (_ & H1 & H2);
      lia. }
  unfold run_read, read_ok. rewrite Hoff. fold bn.
  split; [nia|]. split; [unfold HS, BLOCK_FIRST_HEADER_SIZE; nia|]. split; [unfold hi in Hlen; nia|].
  intros i Hi. unfold device_address. rewrite Hseg. cbn [is_nil negb].
  replace (HS + run_logical_block_start r * bn + i <? BLOCK_FIRST_HEADER_SIZE) with false
    by (unfold HS in *; nia).
  unfold run_address. fold bn HS.
  replace (HS + run_logical_block_start r * bn + i - HS) with (i + run_logical_block_start r * bn) by lia.
  rewrite Z.div_add, Z.mod_add by lia.
  assert (0 <= i / bn < run_block_count r)
    by (split; [apply Z.div_pos; lia|apply Z.div_lt_upper_bound; lia]).
  destruct (validate_runs_lookup _ r (i / bn + run_logical_block_start r) _ _ _ _ Hr Hin)
    as (-> & _); [lia|]. f_equal. pose proof (Z.div_mod i bn ltac:(lia)). nia.
Qed.

Lemma runs_covered cap n x :
  validate_runs cap (logical_block_start d) 0 (runs d) = Ok n -> n = logical_block_count d ->
  covered (fun r => read_covers (run_read d r)) (runs d) x <-> lo <= x < hi.
Proof.
  intros Hr ->. destruct validate_common as (Hbn & _ & Hls & Hlc & Hoff). unfold covered. split.
  - intros (r & Hin & Hx). unfold run_read, read_covers in Hx.
    rewrite Hoff in Hx. fold bn in Hx.
    assert (0 < run_block_count r) by nia.
    destruct (validate_runs_lookup _ r (run_logical_block_start r) _ _ _ _ Hr Hin) as (_ & H1 & H2);
      [lia|]. unfold lo, hi. nia.
  - intros Hx. set (b := (x - HS) / bn).
    assert (logical_block_start d <= b < logical_block_start d + logical_block_count d).
    { unfold b, lo, hi in *. split; [apply Z.div_le_lower_bound; lia|apply Z.div_lt_upper_bound; lia]. }
    destruct (validate_runs_covers _ b _ _ _ _ Hr) as (r & Hin & Hb); [lia|].
    exists r. split; [done|].
    unfold run_read, read_covers. rewrite Hoff. fold bn.
    pose proof (Z.div_mod (x - HS) bn ltac:(lia)) as Hdm. fold b in Hdm.
    pose proof (Z.mod_pos_bound (x - HS) bn ltac:(lia)). nia.
Qed.

Definition seg_read (s : DirectIOByteSegment) : Z * Z * Z * Z :=
  (match registration_allocations d !! Z.to_nat (seg_allocation_index s) with
   | Some a => alloc_base a | None => 0 end,
   seg_nbytes s, seg_file_offset s, seg_allocation_offset s).

Lemma seg_read_ok f s :
  byte_segments d <> [] -> s ∈ byte_segments d -> hi <= lenZ f ->
  (exists a, py_index (registration_allocations d) (seg_allocation_index s) = Ok a
     /\ alloc_base a = (seg_read s).1.1.1)
  /\ read_ok f (device_address rn d) (seg_read s).
Proof.
  intros Hne Hin Hlen. destruct validate_common as (Hbn & _ & Hls & Hlc & Hoff).
  assert (validate_byte_segments d true true = Ok tt) as H.
  { unfold DirectIO.validate in Hv. pose proof Hv as H. res_inv.
    by destruct (byte_segments d) as [|s0 l]. }
  apply validate_byte_segments_Ok in H as (_ & _ & _ & Hal & _ & _ & _ & _ & Ht & Hb).
  rewrite Hoff in Ht. fold bn HS lo hi in Ht.
  pose proof (proj1 (list.Forall_forall _ _) Hb s Hin) as (a & Hi & Ha & Ho & Hn & _).
  assert (registration_allocations d = allocations d) as Hra
    by (unfold registration_allocations; by destruct (allocations d)).
  unfold seg_read. rewrite Hra, Ha. split.
  { exists a. split; [by apply py_index_nonneg|done]. }
  assert (forall s', s' ∈ byte_segments d -> s' ∈ py_sorted seg_file_offset (byte_segments d))
    as Hs by (intros s' Hs'; by rewrite py_sorted_perm).
  pose proof (tiles_offsets _ _ _ _ Ht (Hs s Hin)) as (H1 & _ & H3).
  split; [lia|]. split; [unfold lo, HS, BLOCK_FIRST_HEADER_SIZE in *; nia|]. split; [lia|].
  intros i Hx. unfold device_address. replace (negb _) with true by (by destruct (byte_segments d)).
  unfold byte_address. rewrite (seg_lookup_unique _ s); [|done|unfold covers; lia|].
  - simpl. rewrite Ha. simpl. f_equal. lia.
  - intros s' Hin' Hc. eapply tiles_unique; [exact Ht|by apply Hs..| |]; [done|unfold covers; lia].
Qed.

Lemma segs_covered x :
  byte_segments d <> [] -> covered (fun s => read_covers (seg_read s)) (byte_segments d) x <-> lo <= x < hi.
Proof.
  intros Hne. destruct validate_common as (Hbn & _ & Hls & Hlc & Hoff).
  assert (validate_byte_segments d true true = Ok tt) as H.
  { unfold DirectIO.validate in Hv. pose proof Hv as H. res_inv.
    by destruct (byte_segments d) as [|s0 l]. }
  apply validate_byte_segments_Ok in H as (_ & _ & _ & Hal & _ & _ & _ & _ & Ht & _).
  rewrite Hoff in Ht. fold bn HS lo hi in Ht. unfold covered. split.
  - intros (s & Hin & Hx). unfold seg_read, read_covers in Hx.
    rewrite <- (py_sorted_perm seg_file_offset (byte_segments d)) in Hin.
    pose proof (tiles_offsets _ _ _ _ Ht Hin). lia.
  - intros Hx. destruct (tiles_cover _ _ _ _ Ht Hx) as (s & Hin & Hs).
    rewrite (py_sorted_perm seg_file_offset (byte_segments d)) in Hin.
    exists s. split; [done|exact Hs].
Qed.

End plans.
(** *** The leading edge *)

Lemma validate_edge_facts d edge :
  DirectIO.validate d true true = Ok tt -> byte_segments d = [] -> leading_edge d = Some edge ->
  0 <= edge_logical_block edge /\ 0 <= edge_physical_block edge /\ 0 < edge_token_offset edge
  /\ 0 < edge_token_count edge
  /\ edge_token_offset edge + edge_token_count edge = desc_block_size d
  /\ runs_block (runs d) (edge_logical_block edge) = None.
Proof.
  unfold DirectIO.validate. intros H Hseg Hedge. rewrite Hseg in H. res_inv. cbn [is_nil negb] in *.
  res_inv. bool_prop. unfold validate_edge in *. rewrite Hedge in *. res_inv. bool_prop.
  repeat split; try lia.
  match goal with Hx : validate_runs _ _ _ _ = Ok _ |- _ => eapply runs_block_below; [exact Hx|] end.
  lia.
Qed.

Section edge.
Context (w0 : world) (path : string) (f : list Z) (d : DirectIODescriptor)
  (edge : DirectIOLeadingEdge) (ptr nl rn : Z).
Context (Hf : content w0 path = Some f)
  (Hv : DirectIO.validate d true true = Ok tt)
  (Hseg : byte_segments d = []) (Hedge : leading_edge d = Some edge)
  (Hbn : block_nbytes d = nl * 2 * desc_block_size d * rn) (Hrn : 0 < rn) (Hnl : 0 < nl)
  (Hdist : addresses_distinct rn d)
  (Hlen : BLOCK_FIRST_HEADER_SIZE + (edge_logical_block edge + 1) * block_nbytes d <= lenZ f).

Let bn := block_nbytes d.
Let bs := desc_block_size d.
Let fo := BLOCK_FIRST_HEADER_SIZE + edge_logical_block edge * bn.
Let scratch (a : Z) : Prop := ptr <= a < ptr + bn.

Context (Hoff : forall x a, device_address rn d x = Some a -> ~ scratch a).

(** The staging buffer holds the edge's block. *)
Definition staging_holds (w : world) : Prop :=
  forall i, 0 <= i < bn -> f !! Z.to_nat (fo + i) = Some (mem w (ptr + i)).

(** The rows of layer and K/V plane [lk] from the edge's first token on *)
Definition row_offset (lk : Z * Z) : Z :=
  ((lk.1 * 2 + lk.2) * bs + edge_token_offset edge) * rn.
Definition row_covers (lk : Z * Z) (x : Z) : Prop :=
  fo + row_offset lk <= x < fo + row_offset lk + edge_token_count edge * rn.

Lemma row_bounds l kv :
  0 <= l < nl -> 0 <= kv < 2 ->
  0 <= row_offset (l, kv) /\ row_offset (l, kv) + edge_token_count edge * rn <= bn.
Proof.
  intros Hl Hkv. destruct (validate_edge_facts d edge Hv Hseg Hedge) as (H1 & H2 & H3 & H4 & H5 & _).
  unfold row_offset. simpl. fold bs in H5. set (r := l * 2 + kv).
  assert (0 <= r <= nl * 2 - 1) as Hr by (unfold r; lia).
  assert (0 <= r * bs <= (nl * 2 - 1) * bs) by nia.
  replace bn with (nl * 2 * bs * rn) by (unfold bn, bs; by rewrite Hbn). split; [nia|].
  rewrite <- Z.mul_add_distr_r. apply Z.mul_le_mono_nonneg_r; lia.
Qed.

Lemma row_address l kv i :
  0 <= l < nl -> 0 <= kv < 2 -> 0 <= i < edge_token_count edge * rn ->
  device_address rn d (fo + row_offset (l, kv) + i)
  = Some (allocation_base d + edge_physical_block edge * bn + row_offset (l, kv) + i).
Proof.
  intros Hl Hkv Hi. destruct (row_bounds l kv Hl Hkv) as [Hr1 Hr2].
  destruct (validate_edge_facts d edge Hv Hseg Hedge) as (H1 & H2 & H3 & H4 & H5 & Hnone).
  destruct (validate_common d Hv) as (Hb & Hbs & _). fold bn in Hb. fold bs in H5, Hbs.
  unfold device_address. rewrite Hseg. cbn [is_nil negb].
  set (off := row_offset (l, kv) + i). assert (0 <= off < bn) as Ho by (unfold off; lia).
  replace (fo + row_offset (l, kv) + i <? BLOCK_FIRST_HEADER_SIZE) with false
    by (unfold fo; nia).
  unfold run_address. fold bn bs.
  replace (fo + row_offset (l, kv) + i - BLOCK_FIRST_HEADER_SIZE)
    with (off + edge_logical_block edge * bn) by (unfold fo, off; lia).
  rewrite Z.div_add, Z.mod_add, (Z.div_small off), (Z.mod_small off) by lia.
  rewrite Z.add_0_l, Hnone, Hedge, Z.eqb_refl. simpl.
  assert ((off / rn) mod bs = edge_token_offset edge + i / rn) as ->.
  { unfold off, row_offset. simpl. rewrite Z.add_comm, Z.div_add by lia.
    assert (0 <= i / rn < edge_token_count edge)
      by (split; [apply Z.div_pos; lia|apply Z.div_lt_upper_bound; lia]).
    replace (i / rn + ((l * 2 + kv) * bs + edge_token_offset edge))
      with (edge_token_offset edge + i / rn + (l * 2 + kv) * bs) by lia.
    rewrite Z.mod_add by lia. apply Z.mod_small. lia. }
  assert (0 <= i / rn) by (apply Z.div_pos; lia).
  replace (edge_token_offset edge <=? _) with true by lia. f_equal. unfold off. lia.
Qed.

(** The copies cover the edge's rows and no others. *)
Lemma rows_covered x :
  covered row_covers (layer ← rangeZ 0 (Z.to_nat nl); kv ← [0; 1]; [(layer, kv)]) x
  <-> fo <= x < fo + bn /\ edge_token_offset edge <= ((x - fo) / rn) mod bs.
Proof.
  clear HLL HL.
  destruct (validate_edge_facts d edge Hv Hseg Hedge) as (H1 & H2 & H3 & H4 & H5 & _).
  destruct (validate_common d Hv) as (Hb & Hbs & _). fold bn in Hb. fold bs in H5, Hbs. unfold covered. split.
  - intros ([l kv] & Hin & Hx).
    apply list_elem_of_bind in Hin as (l' & Hin & Hl).
    apply list_elem_of_bind in Hin as (kv' & Hin & Hkv).
    apply list_elem_of_singleton in Hin. injection Hin as -> ->. 
    apply elem_of_rangeZ in Hl.
    assert (0 <= kv' < 2) by (set_unfold; lia).
    destruct (row_bounds l' kv' ltac:(lia) ltac:(lia)) as [Hr1 Hr2]. unfold row_covers in Hx.
    split; [lia|]. unfold row_offset in *. simpl in *.
    set (i := x - fo - ((l' * 2 + kv') * bs + edge_token_offset edge) * rn) in *.
    replace (x - fo) with (i + ((l' * 2 + kv') * bs + edge_token_offset edge) * rn) by (unfold i; lia).
    rewrite Z.div_add by lia.
    assert (0 <= i / rn < edge_token_count edge)
      by (split; [apply Z.div_pos; lia|apply Z.div_lt_upper_bound; lia]).
    replace (i / rn + ((l' * 2 + kv') * bs + edge_token_offset edge))
      with (edge_token_offset edge + i / rn + (l' * 2 + kv') * bs) by lia.
    rewrite Z.mod_add, Z.mod_small by lia. lia.
  - intros [Hx Ht]. set (row := (x - fo) / rn) in *.
    assert (0 <= row < nl * 2 * bs) as Hrow.
    { unfold row. split; [apply Z.div_pos; lia|apply Z.div_lt_upper_bound; [lia|]].
      unfold bn in Hx. rewrite Hbn in Hx. unfold bs. lia. }
    assert (0 <= row / bs < nl * 2)
      by (split; [apply Z.div_pos; lia|apply Z.div_lt_upper_bound; lia]).
    set (q := row / bs) in *.
    assert (0 <= q / 2 < nl)
      by (split; [apply Z.div_pos; lia|apply Z.div_lt_upper_bound; lia]).
    exists (q / 2, q mod 2). split.
    + apply list_elem_of_bind. exists (q / 2). split; [|apply elem_of_rangeZ; lia].
      apply list_elem_of_bind. exists (q mod 2). split; [by left|].
      pose proof (Z.mod_pos_bound q 2 ltac:(lia)).
      assert (q mod 2 = 0 \/ q mod 2 = 1) as [->| ->] by lia; set_solver.
    + unfold row_covers, row_offset. simpl.
      pose proof (Z.div_mod q 2 ltac:(lia)). pose proof (Z.div_mod row bs ltac:(lia)) as Hdr.
      fold q in Hdr. pose proof (Z.mod_pos_bound row bs ltac:(lia)).
      pose proof (Z.div_mod (x - fo) rn ltac:(lia)) as Hdx. fold row in Hdx.
      pose proof (Z.mod_pos_bound (x - fo) rn ltac:(lia)).
      replace (q / 2 * 2 + q mod 2) with q by lia. nia.
Qed.

Lemma staging_closed : io_closed staging_holds.
Proof. intros w w' _ Hm H i Hi. rewrite Hm. by apply H. Qed.

(** What only the staging buffer holds leaves the loaded bytes in place. *)
Lemma staging_only D w w1 :
  loaded w0 f (device_address rn d) scratch D w -> files w1 = files w ->
  (forall a, ~ scratch a -> mem w1 a = mem w a) ->
  loaded w0 f (device_address rn d) scratch D w1.
Proof.
  intros (Hw & HD & Hrest) Hw1 Hm. split; [congruence|]. split.
  - intros x a Hx Ha. rewrite Hm by (by eapply Hoff). by apply HD.
  - intros a Ha Hs. rewrite Hm by done. by apply Hrest.
Qed.

Lemma edge_range : 0 <= bn /\ 0 <= fo /\ fo + bn <= lenZ f.
Proof.
  destruct (validate_edge_facts d edge Hv Hseg Hedge) as (H1 & _).
  destruct (validate_common d Hv) as (Hb & _). fold bn in Hb, Hlen.
  unfold fo, BLOCK_FIRST_HEADER_SIZE in *. nia.
Qed.

(** The edge's block, read whole into the staging buffer *)
Lemma edge_read_triple dds msg fs k D :
  (forall fd, is_Some (fs !! fd) -> fd < k) ->
  triple (fun w => loaded w0 f (device_address rn d) scratch D w /\ fds_at fs k w)
    (read_exact dds path msg (ptr, bn, fo, 0))
    (fun _ w => (loaded w0 f (device_address rn d) scratch D w /\ staging_holds w) /\ fds_at fs k w)
    (fun _ w => part_loaded w0 (device_address rn d) scratch w /\ fds_at fs k w).
Proof.
  intros Hfs w [Hl Hfd]. destruct edge_range as (Hb & Hfo & Hend).
  pose proof (dds_read_triple w path ptr bn fo 0 Hb Hfo dds fs k Hfs w
    (conj (conj eq_refl (fun a _ => eq_refl)) Hfd)) as Hr.
  unfold read_exact, mbind, ST_bind.
  destruct (dds_read dds path ptr bn fo 0 w) as [[ret|ex] w1]; [|done].
  destruct Hr as [[[Hw1 Hm] Hret] Hfd1].
  assert (loaded w0 f (device_address rn d) scratch D w1) as Hl1
    by (eapply staging_only; [done..|]; intros a Ha; apply Hm; unfold scratch in Ha; lia).
  destruct (Z.eqb_spec ret bn) as [->|Hne]; simpl; [|split; [by eapply loaded_part|done]].
  split; [|done]. split; [done|]. intros i Hi.
  rewrite (Hret eq_refl f (loaded_content w0 path f _ _ Hf D w Hl) Hend i Hi). do 2 f_equal. lia.
Qed.

(** A device-to-device copy of one layer's K or V rows out of the staging buffer *)
Lemma row_copied l kv D w w1 :
  0 <= l < nl -> 0 <= kv < 2 ->
  let dst := allocation_base d + edge_physical_block edge * bn + row_offset (l, kv) in
  let src := ptr + row_offset (l, kv) in
  let n := edge_token_count edge * rn in
  loaded w0 f (device_address rn d) scratch D w -> staging_holds w ->
  files w1 = files w -> (forall a, ~ dst <= a < dst + n -> mem w1 a = mem w a) ->
  part_loaded w0 (device_address rn d) scratch w1
  /\ ((src + n <= dst \/ dst + n <= src ->
       forall i, 0 <= i < n -> mem w1 (dst + i) = mem w (src + i)) ->
     loaded w0 f (device_address rn d) scratch (fun x => D x \/ row_covers (l, kv) x) w1
     /\ staging_holds w1).
Proof.
  intros Hl Hkv dst src n (Hw & HD & Hrest) Hst Hf1 Hf4.
  destruct (row_bounds l kv Hl Hkv) as [Hr1 Hr2].
  pose proof (fun i => row_address l kv i Hl Hkv) as Haddr.
  set (ro := row_offset (l, kv)) in *.
  assert (0 < n) as Hn.
  { destruct (validate_edge_facts d edge Hv Hseg Hedge) as (_ & _ & _ & H4 & _). unfold n. nia. }
  assert (forall i, 0 <= i < n -> ~ scratch (dst + i)) as Hdst
    by (intros i Hi; eapply Hoff, Haddr, Hi).
  assert (forall a, (forall x, device_address rn d x <> Some a) -> mem w1 a = mem w a) as Hno.
  { intros a Ha. apply Hf4. intros Hin. apply (Ha (fo + ro + (a - dst))).
    rewrite Haddr by lia. f_equal. unfold dst. lia. }
  split.
  { split; [congruence|]. intros a Ha Hs. rewrite Hno by done. by apply Hrest. }
  intros Hdone. assert (src + n <= dst \/ dst + n <= src) as Hsep.
  { destruct (Z.le_gt_cases (src + n) dst) as [|H1]; [by left|].
    destruct (Z.le_gt_cases (dst + n) src) as [|H2]; [by right|]. exfalso.
    apply (Hdst (Z.max 0 (src - dst))); [lia|]. unfold scratch, src in *. lia. }
  specialize (Hdone Hsep).
  assert (forall a, scratch a -> mem w1 a = mem w a) as Hscr.
  { intros a Ha. apply Hf4. intros Hin. apply (Hdst (a - dst)); [lia|].
    by replace (dst + (a - dst)) with a by lia. }
  split.
  - split; [congruence|]. split.
    + intros x a Hx Ha. destruct (decide (fo + ro <= x < fo + ro + n)) as [Hin|Hout].
      * pose proof (Haddr (x - (fo + ro)) ltac:(lia)) as Hx'.
        replace (fo + ro + (x - (fo + ro))) with x in Hx' by lia.
        rewrite Ha in Hx'. injection Hx' as ->. fold dst. rewrite Hdone by lia.
        unfold src. rewrite <- Z.add_assoc, <- Hst by lia. f_equal. lia.
      * destruct Hx as [Hx|Hx]; [|done]. rewrite Hf4; [by apply HD|]. intros Hin.
        pose proof (Haddr (a - dst) ltac:(lia)) as Hx'. fold dst in Hx'.
        replace (dst + (a - dst)) with a in Hx' by lia. pose proof (Hdist _ _ _ Ha Hx'). lia.
    + intros a Ha Hs. rewrite Hf4; [apply Hrest; auto|]. intros Hin.
      apply (Ha (fo + ro + (a - dst))); [right; unfold row_covers; fold ro n; lia|].
      rewrite Haddr by lia. f_equal. unfold dst. lia.
  - intros i Hi. rewrite Hscr by (unfold scratch; lia). by apply Hst.
Qed.

(** One device-to-device copy moves its rows from the staging buffer to their places. *)
Lemma row_copy_triple l kv fs k D :
  0 <= l < nl -> 0 <= kv < 2 ->
  triple (fun w => (loaded w0 f (device_address rn d) scratch D w /\ staging_holds w) /\ fds_at fs k w)
    (device_to_device_copy
       (allocation_base d + edge_physical_block edge * bn + row_offset (l, kv))
       (ptr + row_offset (l, kv)) (edge_token_count edge * rn))
    (fun _ w => (loaded w0 f (device_address rn d) scratch (fun x => D x \/ row_covers (l, kv) x) w
       /\ staging_holds w) /\ fds_at fs k w)
    (fun _ w => part_loaded w0 (device_address rn d) scratch w /\ fds_at fs k w).
Proof.
  intros Hl Hkv w [[Hld Hst] [Hfd Hk]].
  pose proof (row_copied l kv D w) as Hcopied. unfold device_to_device_copy.
  destruct libgalaxyhip_present; simpl; [|split; [by eapply loaded_part|done]].
  unfold lib, mbind, ST_bind.
  set (dst := allocation_base d + edge_physical_block edge * bn + row_offset (l, kv)) in *.
  set (src := ptr + row_offset (l, kv)) in *. set (n := edge_token_count edge * rn) in *.
  pose proof (dtod_frame dst src n w) as (Hf1 & Hf2 & Hf3 & _ & Hf4).
  pose proof (dtod_complete dst src n w) as Hdone.
  destruct (hipMemcpyDtoD dst src n w) as [res w1]. simpl in *.
  assert (fds_at fs k w1) as Hfd1 by (split; [congruence|by rewrite Hf3]).
  destruct (Hcopied w1 Hl Hkv Hld Hst Hf1 Hf4) as [Hpart Hdone'].
  destruct (Z.eqb_spec res 0) as [->|Hne]; simpl; (split; [|exact Hfd1]); [|exact Hpart].
  apply Hdone'. by apply Hdone.
Qed.

End edge.
(** *** The whole transfer *)

(** The staging buffer *)
Definition in_scratch (t : option (Z * Z)) (a : Z) : Prop :=
  match t with Some (p, n) => p <= a < p + n | None => False end.

Section transfer.
Context {Dt : Type} `{!TorchDtype Dt} {JC : JsonCodec} {TL : TorchDtypeLaws Dt}.

(** The size of one token's row: [hidden_dim * dtype.itemsize] *)
Definition row_nbytes (e : xds_engine Dt) : Z :=
  match one_group e with
  | Some (shape, dt) => default 0 (shape !! 3%nat) * itemsize dt
  | None => 0
  end.

(** The staging buffer, in place or as [torch.empty] would give it, is not memory the
    descriptor reads into. *)
Definition staging_apart (e : xds_engine Dt) (d : DirectIODescriptor) (t : option (Z * Z)) : Prop :=
  match t with
  | Some (p, n) => forall x a, device_address (row_nbytes e) d x = Some a -> ~ p <= a < p + n
  | None => forall n w q, (torch_empty n w).1 = Ok q ->
      forall x a, device_address (row_nbytes e) d x = Some a -> ~ q <= a < q + n
  end.

(** [get_shapes(chunk_size)] describes chunks of [chunk_size] tokens. *)
Definition shapes_of_chunk (e : xds_engine Dt) : Prop :=
  Forall (fun shape : list Z => shape !! 2%nat = Some (xe_chunk_size e)) (xe_shapes e).

Record geometry (e : xds_engine Dt) (d : DirectIODescriptor) (nl : Z) (f : list Z) : Prop := {
  geo_valid : DirectIO.validate d true true = Ok tt;
  geo_block : block_nbytes d = nl * 2 * desc_block_size d * row_nbytes e;
  geo_row : 0 < row_nbytes e;
  geo_layers : 0 < nl;
  geo_layers_of : exists shape dt, one_group e = Some (shape, dt) /\ shape !! 1%nat = Some nl;
  geo_range : BLOCK_FIRST_HEADER_SIZE + (logical_block_start d + logical_block_count d) * block_nbytes d
    <= lenZ f;
  geo_edge : forall edge, leading_edge d = Some edge ->
    BLOCK_FIRST_HEADER_SIZE + (edge_logical_block edge + 1) * block_nbytes d <= lenZ f;
}.

Lemma validate_runtime_shape m shape (dt : Dt) le bs :
  validate_runtime m shape dt le bs = Ok tt ->
  exists nl nb h, shape = [2; nl; nb; h] /\ 0 < nl /\ 0 < nb /\ 0 < h
    /\ 2 * nl * nb * h * itemsize dt <= io_nbytes m.
Proof.
  unfold validate_runtime, torch_dtype. intros H. res_inv. bool_prop.
  match goal with Hv : BlockFirst.validate m = Ok ?u |- _ => destruct u;
    pose proof (validate_sizes m Hv) as (_ & dt2 & _ & _ & Hdt2 & Hpay & _ & [Hio _] & _);
    apply validate_Ok in Hv as
      (_ & _ & Hl & Hb & Hh & _ & nb & dt' & Hnb & Hls & _ & Hvt & Hdt & _) end.
  repeat match goal with Hx : ¬ _ <> _ |- _ => apply dec_stable in Hx end.
  assert (dt2 = dt) as -> by congruence.
  exists (num_layers m), (nb * block_size m), (hidden_dim m). split; [congruence|].
  split; [lia|]. split; [nia|]. split; [lia|].
  rewrite <- Hvt. lia.
Qed.

Lemma direct_geometry e d m shape dt f :
  validate_direct_descriptor e d RETRIEVE = Ok tt -> shapes_of_chunk e ->
  head (xe_shapes e) = Some shape -> head (xe_dtypes e) = Some dt ->
  validate_runtime m shape dt (xe_layout e) (desc_block_size d) = Ok tt ->
  lenZ f = BLOCK_FIRST_HEADER_SIZE + io_nbytes m ->
  exists nl, geometry e d nl f.
Proof.
  intros H Hch Hs Hd Hrt Hlen. apply validate_runtime_shape in Hrt
    as (nl & nb & h & -> & Hnl & Hnb & Hh & Hio).
  unfold validate_direct_descriptor in H. res_inv. bool_prop.
  match goal with Hx : DirectIO.validate d true true = Ok ?u |- _ => destruct u end.
  destruct (one_group e) as [[shape dt']|] eqn:Hg; [|done].
  pose proof Hg as Hg'. unfold one_group in Hg'.
  destruct (xe_shapes e) as [|s1 [|]] eqn:Hsh; [done| |done].
  destruct (xe_dtypes e) as [|d1 [|]]; [done| |done]. injection Hg' as -> ->.
  injection Hs as ->. injection Hd as ->.
  res_inv. bool_prop.
  unfold shapes_of_chunk in Hch. rewrite Hsh in Hch. apply list.Forall_cons in Hch as [Hch _].
  injection Hch as Hch.
  repeat match goal with Hx : py_index _ _ = Ok _ |- _ =>
    apply py_index_nonneg in Hx; [injection Hx as <-|lia] end.
  match goal with Hx : DirectIO.validate d true true = Ok tt |- _ => rename Hx into Hv end.
  destruct (validate_common d Hv) as (Hbn & Hbs & Hls & Hlc & _).
  pose proof (itemsize_pos dt) as Hi.
  match goal with Hx : block_nbytes d = _ |- _ => rename Hx into Hblk end.
  assert (row_nbytes e = h * itemsize dt) as Hrow by (unfold row_nbytes; by rewrite Hg).
  assert (xe_chunk_size e / desc_block_size d * block_nbytes d <= io_nbytes m) as Hcb.
  { pose proof (Z.mul_div_le (xe_chunk_size e) (desc_block_size d) ltac:(lia)).
    rewrite Hblk. rewrite Hch in Hio. set (q := xe_chunk_size e / desc_block_size d) in *.
    assert (q * desc_block_size d * (2 * nl * h * itemsize dt)
      <= xe_chunk_size e * (2 * nl * h * itemsize dt)) by (apply Z.mul_le_mono_nonneg_r; nia).
    lia. }
  exists nl. constructor; try done.
  - rewrite Hrow, Hblk. ring.
  - rewrite Hrow. nia.
  - by exists [2; nl; nb; h], dt.
  - rewrite Hlen. nia.
  - intros edge He. rewrite He in *. res_inv. bool_prop. rewrite Hlen. nia.
Qed.

(** The layers and the row size a direct retrieve's metadata gives *)
Lemma metadata_rows e m shape dt dt' nl :
  one_group e = Some (shape, dt) -> shape !! 1%nat = Some nl ->
  make_block_first_metadata e shape dt = Ok m -> torch_dtype m = Ok dt' ->
  num_layers m = nl /\ hidden_dim m * itemsize dt' = row_nbytes e.
Proof.
  intros Hg Hnl' Hm Hdt. unfold make_block_first_metadata in Hm.
  destruct (xe_block_size e); [|done].
  unfold create, torch_dtype in *. res_inv.
  destruct (dtype_name_total dt) as (name & Hn1 & Hn2). subst m. simpl in Hdt, Hnl' |- *.
  match goal with Hb : block_first_shape shape _ = Ok _ |- _ =>
    apply block_first_shape_Ok in Hb as (nl2 & nb2 & h2 & Hp1 & _ & _ & Hp4 & -> & _) end.
  repeat match goal with Hx : py_index _ _ = Ok _ |- _ =>
    apply py_index_nonneg in Hx; [injection Hx as <-|lia] end.
  injection Hnl' as <-. split; [done|]. unfold row_nbytes. rewrite Hg. simpl. congruence.
Qed.

Section run.
Context (e : xds_engine Dt) (path : string) (d : DirectIODescriptor) (nl : Z) (f : list Z)
  (w0 : world) (fs : gmap Z open_file) (k : Z).
Context (Hfs : forall fd, is_Some (fs !! fd) -> fd < k) (Hf : content w0 path = Some f)
  (Hgeo : geometry e d nl f) (Hdist : addresses_distinct (row_nbytes e) d).

Let addr := device_address (row_nbytes e) d.

(** The file bytes of [D] are in place, and the staging buffer is [t]. *)
Definition loaded_in (t : option (Z * Z)) (D : Z -> Prop) (s : xds_io) : Prop :=
  (loaded w0 f addr (in_scratch t) D (io_world s) /\ fds_at fs k (io_world s)) /\ edge_tensor s = t.

Definition part_in (s : xds_io) : Prop :=
  part_loaded w0 addr (in_scratch (edge_tensor s)) (io_world s) /\ fds_at fs k (io_world s).

Lemma on_world_loaded (m : ST world unit) t D D' :
  triple (fun w => loaded w0 f addr (in_scratch t) D w /\ fds_at fs k w) m
    (fun _ w => loaded w0 f addr (in_scratch t) D' w /\ fds_at fs k w)
    (fun _ w => part_loaded w0 addr (in_scratch t) w /\ fds_at fs k w) ->
  triple (loaded_in t D) (on_world m) (fun _ => loaded_in t D') (fun _ => part_in).
Proof.
  intros Hm. eapply triple_conseq; [apply (on_world_triple _ _ _ _ (fun _ t' => t' = t) Hm)| | |].
  - intros s [Hs Ht]. done.
  - intros [] s [Hs Ht]. done.
  - intros ex s [Hs <-]. done.
Qed.

Lemma synchronize_loaded t D :
  triple (fun w => loaded w0 f addr (in_scratch t) D w /\ fds_at fs k w) synchronize
    (fun _ w => loaded w0 f addr (in_scratch t) D w /\ fds_at fs k w)
    (fun _ w => part_loaded w0 addr (in_scratch t) w /\ fds_at fs k w).
Proof.
  eapply triple_exn; [apply synchronize_triple, loaded_closed|].
  intros ex w [Hl Hfd]. split; [by eapply loaded_part|done].
Qed.

Lemma registration_loaded t D :
  triple (loaded_in t D) (ensure_direct_registration d) (fun _ => loaded_in t D) (fun _ => part_in).
Proof.
  unfold ensure_direct_registration. apply st_iter_triple. intros a. unfold ensure_allocation.
  apply (triple_bind _ _ _ (fun _ => loaded_in t D)); [by intros s Hs|]. intros s0.
  destruct (registered s0 _); [by intros s Hs|].
  apply (triple_bind _ _ _ (fun _ => loaded_in t D)); [|by intros [] s Hs].
  apply on_world_loaded. eapply triple_exn; [apply register_global_buffer_triple, loaded_closed|].
  intros ex w [Hl Hfd]. split; [by eapply loaded_part|done].
Qed.

Lemma segments_loaded t D :
  byte_segments d <> [] ->
  triple (fun w => loaded w0 f addr (in_scratch t) D w /\ fds_at fs k w)
    (st_iter (read_segment (xe_dds e) path d) (byte_segments d))
    (fun _ w => loaded w0 f addr (in_scratch t)
       (fun x => D x \/ covered (fun s => read_covers (seg_read d s)) (byte_segments d) x) w
       /\ fds_at fs k w)
    (fun _ w => part_loaded w0 addr (in_scratch t) w /\ fds_at fs k w).
Proof.
  intros Hne. apply (iter_cover (fun D w => loaded w0 f addr (in_scratch t) D w /\ fds_at fs k w)).
  - intros D1 D2 w HD [Hl Hfd]. split; [by eapply loaded_iff|done].
  - intros s D' Hin. unfold read_segment.
    destruct (seg_read_ok d (row_nbytes e) (geo_valid _ _ _ _ Hgeo) f s Hne Hin
      (geo_range _ _ _ _ Hgeo)) as [(a & Ha & Hbase) Hok].
    rewrite Ha. apply (triple_bind _ _ _ (fun a' w => a' = a
      /\ (loaded w0 f addr (in_scratch t) D' w /\ fds_at fs k w))); [by intros w Hw|].
    intros a'. apply triple_pure. intros ->.
    replace (alloc_base a, seg_nbytes s, seg_file_offset s, seg_allocation_offset s)
      with (seg_read d s) by (unfold seg_read in *; simpl in *; by rewrite Hbase).
    by apply read_exact_triple.
Qed.

Lemma runs_loaded t D cap n :
  byte_segments d = [] -> validate_runs cap (logical_block_start d) 0 (runs d) = Ok n ->
  n = logical_block_count d ->
  triple (fun w => loaded w0 f addr (in_scratch t) D w /\ fds_at fs k w)
    (st_iter (fun run => read_exact (xe_dds e) path "direct XDS read incomplete" (run_read d run))
       (runs d))
    (fun _ w => loaded w0 f addr (in_scratch t)
       (fun x => D x \/ covered (fun r => read_covers (run_read d r)) (runs d) x) w
       /\ fds_at fs k w)
    (fun _ w => part_loaded w0 addr (in_scratch t) w /\ fds_at fs k w).
Proof.
  intros Hseg Hr Hn. apply (iter_cover (fun D w => loaded w0 f addr (in_scratch t) D w /\ fds_at fs k w)).
  - intros D1 D2 w HD [Hl Hfd]. split; [by eapply loaded_iff|done].
  - intros r D' Hin. apply read_exact_triple; try done.
    eapply run_read_ok; try done; apply Hgeo.
Qed.

(** Which file bytes the copies of the leading edge bring in *)
Definition edge_covered (edge : DirectIOLeadingEdge) (x : Z) : Prop :=
  let fo := BLOCK_FIRST_HEADER_SIZE + edge_logical_block edge * block_nbytes d in
  fo <= x < fo + block_nbytes d
  /\ edge_token_offset edge <= ((x - fo) / row_nbytes e) mod desc_block_size d.

Lemma copy_edge_loaded edge ptr D :
  byte_segments d = [] -> leading_edge d = Some edge ->
  (forall x a, addr x = Some a -> ~ ptr <= a < ptr + block_nbytes d) ->
  triple (fun w => loaded w0 f addr (in_scratch (Some (ptr, block_nbytes d))) D w /\ fds_at fs k w)
    (read_exact (xe_dds e) path "direct XDS edge read incomplete"
       (ptr, block_nbytes d, file_payload_offset d + edge_logical_block edge * block_nbytes d, 0);;
     copy_direct_leading_edge e d edge ptr)
    (fun _ w => loaded w0 f addr (in_scratch (Some (ptr, block_nbytes d)))
       (fun x => D x \/ edge_covered edge x) w /\ fds_at fs k w)
    (fun _ w => part_loaded w0 addr (in_scratch (Some (ptr, block_nbytes d))) w /\ fds_at fs k w).
Proof.
  intros Hseg Hedge Hoff. destruct Hgeo as [Hv Hbn Hrn Hnl (shape & dt & Hg & Hnl') _ Hlen].
  specialize (Hlen edge Hedge). destruct (validate_common d Hv) as (_ & _ & _ & _ & ->).
  eapply triple_bind; [by eapply (edge_read_triple w0 path f d edge ptr nl (row_nbytes e))|].
  intros []. unfold copy_direct_leading_edge, make_direct_block_first_metadata. rewrite Hg.
  set (L := fun D w => (loaded w0 f addr (in_scratch (Some (ptr, block_nbytes d))) D w
    /\ staging_holds f d edge ptr w) /\ fds_at fs k w).
  assert (forall ex : exn, forall D w, L D w ->
    part_loaded w0 addr (in_scratch (Some (ptr, block_nbytes d))) w /\ fds_at fs k w) as Hpart.
  { intros _ D' w [[Hl _] Hfd]. split; [by eapply loaded_part|done]. }
  eapply (triple_bind _ _ _ (fun m w => make_block_first_metadata e shape dt = Ok m /\ L D w)).
  { apply triple_lift; [by intros m Hm w Hw|]. intros ex _ w Hw. by eapply Hpart. }
  intros m. apply triple_pure. intros Hm.
  eapply (triple_bind _ _ _ (fun dt' w => torch_dtype m = Ok dt' /\ L D w)).
  { apply triple_lift; [by intros dt' Hm' w Hw|]. intros ex _ w Hw. by eapply Hpart. }
  intros dt'. apply triple_pure. intros Hdt.
  destruct (metadata_rows e m shape dt dt' nl Hg Hnl' Hm Hdt) as [Hl Hh].
  rewrite Hl, Hh. eapply triple_conseq.
  - apply (iter_cover L (fun _ w => part_loaded w0 addr (in_scratch (Some (ptr, block_nbytes d))) w
      /\ fds_at fs k w) _ (row_covers d edge (row_nbytes e))).
    + intros D1 D2 w HD [[Hld Hst] Hfd]. split; [split; [by eapply loaded_iff|done]|done].
    + intros [l kv] D' Hin.
      apply list_elem_of_bind in Hin as (l' & Hin & Hl').
      apply list_elem_of_bind in Hin as (kv' & Hin & Hkv).
      apply list_elem_of_singleton in Hin. injection Hin as -> ->. apply elem_of_rangeZ in Hl'.
      pose proof (row_copy_triple w0 f d edge ptr nl (row_nbytes e) Hv Hseg Hedge Hbn Hrn Hdist
        Hoff l' kv' fs k D' ltac:(lia) ltac:(set_unfold; lia)) as Ht.
      unfold row_offset in Ht. simpl in Ht. exact Ht.
  - intros w Hw. exact Hw.
  - intros [] w [[Hld _] Hfd]. split; [|done]. eapply loaded_iff; [|exact Hld].
    intros x. cbv beta. rewrite (rows_covered w0 path f d edge ptr nl (row_nbytes e)); done.
  - done.
Qed.

Lemma loaded_scratch (scr scr' : Z -> Prop) D w :
  (forall a, scr a -> scr' a) -> loaded w0 f addr scr D w -> loaded w0 f addr scr' D w.
Proof. intros Hs (H1 & H2 & H3). split; [done|]. split; [done|]. intros a Ha Hn. apply H3; auto. Qed.

(** The staging buffer is created on first use, registered, and kept. *)
Lemma staging_loaded t D :
  staging_apart e d t ->
  triple (loaded_in t D) (get_direct_edge_staging (block_nbytes d))
    (fun ptr s => (forall x a, addr x = Some a -> ~ ptr <= a < ptr + block_nbytes d)
       /\ loaded_in (Some (ptr, block_nbytes d)) D s)
    (fun _ => part_in).
Proof.
  intros Hap. unfold get_direct_edge_staging.
  apply (triple_bind _ _ _ (fun s' s => edge_tensor s' = t /\ loaded_in t D s)).
  { intros s Hs. simpl. split; [apply Hs|done]. }
  intros s'. apply triple_pure. intros ->. destruct t as [[p n]|].
  - destruct (Z.eqb_spec n (block_nbytes d)) as [->|Hne]; simpl.
    + intros s Hs. simpl. done.
    + intros s [[Hl Hfd] Ht]. simpl. split; [|done]. rewrite Ht. by eapply loaded_part.
  - eapply (triple_bind _ _ _ (fun q s => (forall x a, addr x = Some a ->
        ~ q <= a < q + (block_nbytes d + BLOCK_FIRST_ALIGNMENT - 1)) /\ loaded_in None D s)).
    + intros s [[Hl [Hfd Hk]] Ht]. unfold on_world, lib, st_lift, mbind, ST_bind.
      pose proof (torch_empty_quiet (block_nbytes d + BLOCK_FIRST_ALIGNMENT - 1) (io_world s))
        as (Q1 & Q2 & Q3 & _ & Q5).
      pose proof (Hap (block_nbytes d + BLOCK_FIRST_ALIGNMENT - 1) (io_world s)) as Hq.
      destruct (torch_empty _ (io_world s)) as [r w1]. simpl in *.
      assert (loaded w0 f addr (in_scratch None) D w1) as Hl1 by (eapply loaded_closed; done).
      assert (fds_at fs k w1) as Hfd1 by (split; [congruence|by rewrite Q3]).
      destruct r as [q|ex]; simpl.
      * split; [by apply Hq|]. done.
      * split; [|done]. simpl. rewrite Ht. by eapply loaded_part.
    + intros q. apply triple_pure. intros Hq. set (ptr := q + (- q) mod BLOCK_FIRST_ALIGNMENT).
      assert (forall x a, addr x = Some a -> ~ ptr <= a < ptr + block_nbytes d) as Hptr.
      { intros x a Ha Hin. apply (Hq x a Ha).
        pose proof (Z.mod_pos_bound (- q) BLOCK_FIRST_ALIGNMENT ltac:(done)). unfold ptr in Hin. lia. }
      apply (triple_bind _ _ _ (fun _ => loaded_in None D)).
      { apply on_world_loaded. eapply triple_exn; [apply register_global_buffer_triple, loaded_closed|].
        intros ex w [Hl Hfd]. split; [by eapply loaded_part|done]. }
      intros []. intros s [[Hl Hfd] Ht]. simpl. split; [done|]. split; [|done]. split; [|done].
      simpl. eapply loaded_scratch; [|exact Hl]. by intros a [].
Qed.

(** An address of a descriptor without segments is a run's or the leading edge's. *)
Lemma run_address_covered x a cap n :
  byte_segments d = [] -> validate_runs cap (logical_block_start d) 0 (runs d) = Ok n ->
  n = logical_block_count d -> addr x = Some a ->
  covered (fun r => read_covers (run_read d r)) (runs d) x
  \/ exists edge, leading_edge d = Some edge /\ edge_covered edge x.
Proof.
  intros Hseg Hr Hn. pose proof (geo_valid _ _ _ _ Hgeo) as Hv.
  destruct (validate_common d Hv) as (Hbn & _ & Hls & Hlc & _).
  rewrite (runs_covered d Hv _ _ x Hr Hn). unfold addr, device_address. rewrite Hseg.
  cbn [is_nil negb]. destruct (Z.ltb_spec x BLOCK_FIRST_HEADER_SIZE) as [|Hge]; [done|].
  unfold run_address. set (y := x - BLOCK_FIRST_HEADER_SIZE).
  pose proof (Z.div_mod y (block_nbytes d) ltac:(lia)).
  pose proof (Z.mod_pos_bound y (block_nbytes d) ltac:(lia)).
  set (b := y / block_nbytes d) in *. destruct (runs_block (runs d) b) as [p|] eqn:Hb.
  - intros _. left. destruct (Z.lt_ge_cases b (logical_block_start d)) as [Hlt|Hge'].
    { by rewrite (runs_block_below _ _ _ _ _ _ Hr Hlt) in Hb. }
    destruct (Z.lt_ge_cases b (logical_block_start d + logical_block_count d)) as [Hlt|Hgt];
      [unfold y in *; nia|]. by rewrite (runs_block_above _ _ _ _ _ _ Hr) in Hb by lia.
  - destruct (leading_edge d) as [edge|]; [|done]. destruct (_ && _) eqn:Hc; [|done].
    intros _. bool_prop. right. exists edge. split; [done|]. unfold edge_covered.
    split; [unfold y in *; nia|]. by replace (x - _) with (y mod block_nbytes d) by (unfold y in *; nia).
Qed.

Lemma loaded_all t D s :
  loaded_in t D s -> (forall x a, addr x = Some a -> D x) ->
  loaded_in t (fun x => is_Some (addr x)) s.
Proof.
  intros [[(H1 & H2 & H3) Hfd] Ht] HD. split; [split; [|done]|done].
  split; [done|]. split; [intros x a _ Ha; apply H2; [by eapply HD|done]|].
  intros a Ha. apply H3. intros x _ Hx. by apply (Ha x); [eexists|].
Qed.

(** [_transfer_direct_xds] puts every file byte of the range where it belongs. *)
Lemma transfer_loaded t :
  staging_apart e d t ->
  triple (loaded_in t (fun _ => False)) (transfer_direct_xds e path d)
    (fun _ s => exists t', loaded_in t' (fun x => is_Some (addr x)) s)
    (fun _ => part_in).
Proof.
  intros Hap. unfold transfer_direct_xds.
  apply (triple_bind _ _ _ (fun _ => loaded_in t (fun _ => False))); [apply registration_loaded|].
  intros []. apply (triple_bind _ _ _ (fun _ => loaded_in t (fun _ => False)));
    [apply on_world_loaded, synchronize_loaded|]. intros [].
  destruct (byte_segments d) as [|s0 segs] eqn:Hseg; cbn [is_nil negb].
  - assert (exists n, validate_runs (allocation_nbytes d / block_nbytes d) (logical_block_start d) 0
      (runs d) = Ok n /\ n = logical_block_count d) as (n & Hr & Hn).
    { pose proof (geo_valid _ _ _ _ Hgeo) as H. unfold DirectIO.validate in H. rewrite Hseg in H.
      res_inv. cbn [is_nil negb] in H. res_inv. bool_prop. eauto. }
    apply (triple_bind _ _ _ (fun _ s => exists t', loaded_in t' (fun x =>
      exists edge, leading_edge d = Some edge /\ edge_covered edge x) s)).
    + destruct (leading_edge d) as [edge|] eqn:Hedge.
      * unfold transfer_edge. eapply triple_bind; [by apply (staging_loaded t (fun _ => False))|].
        intros ptr. apply triple_pure. intros Hptr. eapply triple_conseq;
          [apply on_world_loaded; by apply (copy_edge_loaded edge ptr (fun _ => False))|done| |done].
        intros [] s [[Hl Hfd] Ht]. eexists. split; [split; [|done]|exact Ht].
        eapply loaded_iff; [|exact Hl]. intros x. simpl. split.
        -- intros [[]|Hx]. by exists edge.
        -- intros (? & [= <-] & Hx). by right.
      * intros s [[Hl Hfd] Ht]. simpl. exists t. split; [split; [|done]|done].
        eapply loaded_iff; [|exact Hl]. intros x. simpl. split; [done|by intros (? & ? & _)].
    + intros []. apply triple_exists. intros t'. eapply triple_conseq; [apply (on_world_loaded _ t'); 
        eapply triple_bind; [by eapply runs_loaded|intros []; apply synchronize_loaded]|done| |done].
      intros [] s Hs. exists t'. eapply loaded_all; [exact Hs|].
      intros x a Hx. simpl. destruct (run_address_covered _ _ _ _ Hseg Hr Hn Hx); auto.
  - rewrite <- Hseg. assert (byte_segments d <> []) as Hne by (by rewrite Hseg).
    eapply triple_conseq; [apply (on_world_loaded _ t (fun _ => False) (fun x => False \/
      covered (fun s => read_covers (seg_read d s)) (byte_segments d) x))|done| |done].
    + eapply triple_bind; [by apply segments_loaded|]. intros []. apply synchronize_loaded.
    + intros [] s Hs. exists t. eapply loaded_all; [exact Hs|]. intros x a Hx. simpl. right.
      unfold addr, device_address in Hx. rewrite Hseg in Hx. cbn [is_nil negb] in Hx.
      unfold byte_address in Hx. destruct (seg_lookup _ x) as [[i o]|] eqn:Hl; [|done].
      apply seg_lookup_covers in Hl as (s1 & Hin & Hc). by exists s1.
Qed.

End run.

(** What the program may change outside the addresses: the staging buffer only *)
Definition load_frame (e : xds_engine Dt) (path : string) (d : DirectIODescriptor) (s s' : xds_io) : Prop :=
  files (io_world s') !! path = files (io_world s) !! path
  /\ fds (io_world s') = fds (io_world s)
  /\ forall a, (forall x, device_address (row_nbytes e) d x <> Some a) ->
       ~ in_scratch (edge_tensor s') a -> mem (io_world s') a = mem (io_world s) a.

Definition load_done (e : xds_engine Dt) (path : string) (m : BlockFirstDiskMetadata)
    (d : DirectIODescriptor) (s s' : xds_io) : Prop :=
  exists f, content (io_world s) path = Some f
    /\ unpack_block_first_header (Dt := Dt) (take (Z.to_nat BLOCK_FIRST_HEADER_SIZE) f) = Ok m
    /\ lenZ f = BLOCK_FIRST_HEADER_SIZE + io_nbytes m
    /\ forall x a, device_address (row_nbytes e) d x = Some a ->
         f !! Z.to_nat x = Some (mem (io_world s') a).

(** Every byte of the declared range has an address. *)
Lemma address_total e d x :
  DirectIO.validate d true true = Ok tt ->
  BLOCK_FIRST_HEADER_SIZE + logical_block_start d * block_nbytes d <= x
    < BLOCK_FIRST_HEADER_SIZE + (logical_block_start d + logical_block_count d) * block_nbytes d ->
  is_Some (device_address (row_nbytes e) d x).
Proof.
  intros Hv Hx. set (f := replicate (Z.to_nat (BLOCK_FIRST_HEADER_SIZE
    + (logical_block_start d + logical_block_count d) * block_nbytes d)) 0).
  assert (BLOCK_FIRST_HEADER_SIZE + (logical_block_start d + logical_block_count d) * block_nbytes d
    <= lenZ f) as Hlen by (unfold f, lenZ; rewrite length_replicate; lia).
  assert (forall r, read_ok f (device_address (row_nbytes e) d) r -> read_covers r x ->
    is_Some (device_address (row_nbytes e) d x)) as Hok.
  { intros [[[base sz] fo] dof] (_ & _ & _ & Ha) Hc. unfold read_covers in Hc.
    replace x with (fo + (x - fo)) by lia. rewrite Ha by lia. by eexists. }
  destruct (byte_segments d) as [|s0 segs] eqn:Hseg.
  - pose proof Hv as H. unfold DirectIO.validate in H. rewrite Hseg in H. res_inv.
    cbn [is_nil negb] in H. res_inv. bool_prop.
    match goal with Hr : validate_runs _ _ _ _ = Ok _, Hn : _ = logical_block_count d |- _ =>
      destruct (proj2 (runs_covered d Hv _ _ x Hr Hn) Hx) as (r & Hin & Hc);
      apply (Hok (run_read d r)); [by eapply run_read_ok|done] end.
  - assert (byte_segments d <> []) as Hne by (by rewrite Hseg).
    destruct (proj2 (segs_covered d Hv x Hne) Hx) as (sg & Hin & Hc).
    apply (Hok (seg_read d sg)); [by apply seg_read_ok|done].
Qed.

(** What the checks of a retrieve establish *)
Definition prepared (e : xds_engine Dt) (w : world) (path : string) (m : BlockFirstDiskMetadata)
    (d : DirectIODescriptor) : Prop :=
  exists f nl, content w path = Some f
    /\ unpack_block_first_header (Dt := Dt) (take (Z.to_nat BLOCK_FIRST_HEADER_SIZE) f) = Ok m
    /\ lenZ f = BLOCK_FIRST_HEADER_SIZE + io_nbytes m /\ geometry e d nl f.

Lemma prepare_triple e env path m d w0 :
  fds_ok w0 -> others_elsewhere path env -> shapes_of_chunk e ->
  triple (fun w => same_file path w0 w /\ fds_at (fds w0) (fresh w0) w)
    (prepare_direct_xds e env path m d)
    (fun _ w => prepared e w0 path m d /\ same_file path w0 w /\ fds_at (fds w0) (fresh w0) w)
    (fun _ w => same_file path w0 w /\ fds_at (fds w0) (fresh w0) w).
Proof.
  intros Hfds Henv Hch. set (T := fun w => same_file path w0 w /\ fds_at (fds w0) (fresh w0) w).
  unfold prepare_direct_xds. eapply triple_bind.
  { apply (triple_lift _ _ (fun _ w => validate_direct_descriptor e d RETRIEVE = Ok tt /\ T w));
      [by intros [] Hv w Hw|done]. }
  intros u. apply triple_pure. intros Hv. eapply triple_bind; [by apply read_header_triple|].
  intros [m' size]. simpl. apply triple_pure. intros (f & Hf & -> & Hu).
  eapply triple_bind.
  { apply (triple_lift _ _ (fun _ w => m' = m /\ T w)); [|done].
    intros v Hm%raise_if_Ok w Hw. bool_prop. apply dec_stable in Hm. done. }
  intros v. apply triple_pure. intros ->. eapply triple_bind.
  { apply (triple_lift _ _ (fun _ w => lenZ f = BLOCK_FIRST_HEADER_SIZE + io_nbytes m /\ T w)); [|done].
    intros v' Hm%raise_if_Ok w Hw. bool_prop. done. }
  intros v'. apply triple_pure. intros Hlen.
  destruct (xe_shapes e) as [|shape l1] eqn:Hs; [by intros w Hw|].
  destruct (xe_dtypes e) as [|dt l2] eqn:Hd; [by intros w Hw|].
  apply triple_lift; [|done]. intros [] Hrt w Hw.
  split; [|done]. destruct (direct_geometry e d m shape dt f) as [nl Hg]; try done;
    [by rewrite Hs|by rewrite Hd|]. by exists f, nl.
Qed.

Lemma load_direct_xds_spec e env path m d s :
  fds_ok (io_world s) -> others_elsewhere path env -> shapes_of_chunk e ->
  addresses_distinct (row_nbytes e) d -> staging_apart e d (edge_tensor s) ->
  match load_direct_xds e env path m d s with
  | (Ok _, s') => load_done e path m d s s' /\ DirectIO.validate d true true = Ok tt
                  /\ load_frame e path d s s'
  | (Raise _, s') => load_frame e path d s s'
  end.
Proof.
  intros Hfds Henv Hch Hdist Hap. set (w0 := io_world s) in *.
  assert (triple (fun s' => (same_file path w0 (io_world s') /\ fds_at (fds w0) (fresh w0) (io_world s'))
      /\ edge_tensor s' = edge_tensor s)
    (load_direct_xds e env path m d)
    (fun _ s' => load_done e path m d s s' /\ DirectIO.validate d true true = Ok tt
                  /\ load_frame e path d s s')
    (fun _ s' => load_frame e path d s s')) as Ht; [|by apply Ht].
  assert (forall s', (same_file path w0 (io_world s') /\ fds_at (fds w0) (fresh w0) (io_world s'))
    -> load_frame e path d s s') as Hframe.
  { intros s' [[Hf Hm] [Hd _]]. split; [done|]. split; [done|]. intros a _ _. apply Hm. }
  unfold load_direct_xds. eapply (triple_bind _ _ _ (fun _ s' => prepared e w0 path m d
    /\ (same_file path w0 (io_world s') /\ fds_at (fds w0) (fresh w0) (io_world s'))
    /\ edge_tensor s' = edge_tensor s)).
  { set (T := fun w => same_file path w0 w /\ fds_at (fds w0) (fresh w0) w).
    eapply triple_conseq; [apply (on_world_triple T _ (fun _ w => prepared e w0 path m d /\ T w)
      (fun _ => T) (fun _ t => t = edge_tensor s)), (prepare_triple e env path m d w0 Hfds Henv Hch)|done| |].
    - intros u s' [[Hex HT] Hed]. done.
    - intros ex s' [HT _]. by apply Hframe. }
  intros u. apply triple_pure. intros (f & nl & Hf & Hu & Hlen & Hgeo).
  intros s1 [[Hsame Hfd] Hed]. rewrite <- Hed in Hap.
  pose proof (transfer_loaded e path d nl f (io_world s1) (fds w0) (fresh w0)) as Htr.
  assert (content (io_world s1) path = Some f) as Hf1.
  { unfold content in *. destruct Hsame as [-> _]. done. }
  specialize (Htr Hfds Hf1 Hgeo Hdist (edge_tensor s1) Hap s1).
  assert (loaded_in e d f (io_world s1) (fds w0) (fresh w0) (edge_tensor s1) (fun _ => False) s1)
    as Hpre by (split; [|done]; split; [|done]; by split).
  specialize (Htr Hpre). destruct Hsame as [Hsf Hsm].
  destruct (transfer_direct_xds e path d s1) as [[[]|ex] s2].
  - destruct Htr as (t' & [[(H1 & H2 & H3) [Hfd2 _]] Ht']). split; [|split; [apply Hgeo|]].
    + exists f. split; [done|]. split; [done|]. split; [done|]. intros x a Ha. apply H2; [by eexists|done].
    + split; [by rewrite H1|]. split; [done|]. intros a Ha Hs. rewrite <- Hsm. apply H3.
      * intros x _. apply Ha.
      * by rewrite Ht' in Hs.
  - destruct Htr as [[H1 H3] [Hfd2 _]]. split; [by rewrite H1|]. split; [done|].
    intros a Ha Hs. rewrite <- Hsm. by apply H3.
Qed.

(** Distinct physical blocks, the edge's own among them, give distinct addresses. *)
Lemma blocks_addresses_distinct e d :
  byte_segments d = [] -> 0 < block_nbytes d -> blocks_distinct d ->
  (forall edge b, leading_edge d = Some edge ->
     runs_block (runs d) b <> Some (edge_physical_block edge)) ->
  addresses_distinct (row_nbytes e) d.
Proof.
  intros Hseg Hbn Hd Hedge x x' a. unfold device_address. rewrite Hseg. cbn [is_nil negb].
  destruct (Z.ltb_spec x BLOCK_FIRST_HEADER_SIZE), (Z.ltb_spec x' BLOCK_FIRST_HEADER_SIZE); try done.
  unfold run_address. set (y := x - BLOCK_FIRST_HEADER_SIZE). set (y' := x' - BLOCK_FIRST_HEADER_SIZE).
  set (bn := block_nbytes d) in *.
  pose proof (Z.div_mod y bn ltac:(lia)). pose proof (Z.mod_pos_bound y bn ltac:(lia)).
  pose proof (Z.div_mod y' bn ltac:(lia)). pose proof (Z.mod_pos_bound y' bn ltac:(lia)).
  assert (forall p p', allocation_base d + p * bn + y mod bn = allocation_base d + p' * bn + y' mod bn ->
    p = p' /\ y mod bn = y' mod bn) as Hpp by (intros p p' Hp; apply (Z.div_mod_unique bn); lia).
  destruct (runs_block (runs d) (y / bn)) as [p|] eqn:E1,
    (runs_block (runs d) (y' / bn)) as [p'|] eqn:E2.
  - intros [= Ha] [= Ha']. destruct (Hpp p p' ltac:(lia)) as [-> Hm].
    pose proof (Hd _ _ _ E1 E2). unfold y, y' in *. nia.
  - destruct (leading_edge d) as [edge|] eqn:E; [|done]. destruct (_ && _); [|done].
    intros [= Ha] [= Ha']. destruct (Hpp p (edge_physical_block edge) ltac:(lia)) as [-> _].
    by destruct (Hedge edge (y / bn) eq_refl).
  - destruct (leading_edge d) as [edge|] eqn:E; [|done]. destruct (_ && _); [|done].
    intros [= Ha] [= Ha']. destruct (Hpp (edge_physical_block edge) p' ltac:(lia)) as [<- _].
    by destruct (Hedge edge (y' / bn) eq_refl).
  - destruct (leading_edge d) as [edge|] eqn:E; [|done].
    destruct (_ && _) eqn:C1; [|done]. destruct ((y' / bn =? _) && _) eqn:C2; [|done].
    intros [= Ha] [= Ha']. bool_prop. assert (y mod bn = y' mod bn) by lia.
    unfold y, y' in *. nia.
Qed.

End transfer.
End load.

(** ** Properties *)

Section properties.
Context {Dt : Type} `{!TorchDtype Dt} {JC : JsonCodec} {HL : HyFileLib}.
Context {TL : TorchDtypeLaws Dt} {JL : JsonCodecLaws} {HLL : HyFileLibLaws}.

(** C3: a direct retrieve that returns has checked that the file is the indexed one
    (same header, exact size), whatever other threads do to other files, and every file
    byte with a device address (of a run, a byte segment, or the leading edge's rows
    from its first token on) is at that address. Returning or raising, it changes no
    device byte without an address except in its staging buffer (so the tokens before
    the leading edge's offset keep theirs), leaves the file as it was and no
    descriptor open. *)
Theorem load_direct_xds_correct (e : xds_engine Dt) env path m d s :
  fds_ok (io_world s) -> others_elsewhere path env -> shapes_of_chunk e ->
  addresses_distinct (row_nbytes e) d -> staging_apart e d (edge_tensor s) ->
  match load_direct_xds e env path m d s with
  | (Ok _, s') =>
      load_done e path m d s s' /\ load_frame e path d s s'
      /\ forall b k, logical_block_start d <= b < logical_block_start d + logical_block_count d ->
           0 <= k < block_nbytes d ->
           is_Some (device_address (row_nbytes e) d
             (BLOCK_FIRST_HEADER_SIZE + b * block_nbytes d + k))
  | (Raise _, s') => load_frame e path d s s'
  end.
Proof.
  intros H1 H2 H3 H4 H5. pose proof (load_direct_xds_spec e env path m d s H1 H2 H3 H4 H5) as H.
  destruct (load_direct_xds e env path m d s) as [[u|ex] s']; [|done].
  destruct H as (Hd & Hv & Hf). split; [done|]. split; [done|].
  intros b k Hb Hk. apply address_total; [done|nia].
Qed.

(** C1: storing a chunk directly and retrieving it directly puts, at every device
    address of the retrieve descriptor, the byte the stored block held: logical block
    by logical block, whatever physical blocks the two descriptors use and whatever
    happened to other files and to memory in between. *)
Theorem direct_roundtrip (e : xds_engine Dt) env path m m' ds dr s s1 s2 s3 :
  fds_ok (io_world s) -> save_direct_xds e path ds s = (Ok m, s1) ->
  content (io_world s2) path = content (io_world s1) path ->
  fds_ok (io_world s2) -> others_elsewhere path env -> shapes_of_chunk e ->
  addresses_distinct (row_nbytes e) dr -> staging_apart e dr (edge_tensor s2) ->
  load_direct_xds e env path m' dr s2 = (Ok tt, s3) ->
  m' = m /\ forall j a, 0 <= j < logical_block_count ds * block_nbytes ds ->
    device_address (row_nbytes e) dr (BLOCK_FIRST_HEADER_SIZE + j) = Some a ->
    mem (io_world s3) a = mem (io_world s) (source_address ds j).
Proof.
  intros Hfds Hsave Hc Hfds2 Henv Hch Hd Hap Hload.
  assert (exists hd, pack_block_first_header (Dt := Dt) m = Ok hd
    /\ content (io_world s1) path = Some (hd ++ direct_payload (io_world s) ds)) as (hd & Hp & Hc1).
  { destruct (check_direct_store e ds) as [m0|ex] eqn:Hck.
    - pose proof (save_direct_xds_triple e path ds m0 (io_world s) (fds (io_world s))
        (fresh (io_world s)) Hfds Hck ltac:(intros h; apply pack_header_length) s ltac:(done)) as H.
      rewrite Hsave in H. destruct H as (-> & (_ & _ & hd & Hp & Hc1) & _). by exists hd.
    - unfold save_direct_xds in Hsave. rewrite Hck in Hsave. done. }
  pose proof (load_direct_xds_spec e env path m' dr s2 Hfds2 Henv Hch Hd Hap) as H.
  rewrite Hload in H. destruct H as ((f & Hf & Hu & _ & Hbytes) & _ & _).
  rewrite Hc, Hc1 in Hf. injection Hf as <-. pose proof (pack_header_length _ _ Hp) as Hlen.
  split.
  - rewrite take_app_length' in Hu by (unfold lenZ in Hlen; lia).
    pose proof (unpack_packed_header _ _ [] Hp) as Hu'. rewrite app_nil_r in Hu'. congruence.
  - intros j a Hj Ha. exact (payload_byte hd (io_world s) ds j _ Hlen Hj (Hbytes _ _ Ha)).
Qed.

End properties.

(** The example retrieve's blocks are distinct. *)
Lemma ex_retrieve_distinct :
  addresses_distinct (row_nbytes XdsExamples.ex_xds) XdsExamples.ex_retrieve.
Proof.
  apply blocks_addresses_distinct; [done|done| |done].
  intros b b' p. simpl.
  destruct ((0 <=? b) && (b <? 0 + 1)) eqn:E1; destruct ((0 <=? b') && (b' <? 0 + 1)) eqn:E2;
    destruct ((1 <=? b) && (b <? 1 + 1)) eqn:E3; destruct ((1 <=? b') && (b' <? 1 + 1)) eqn:E4;
    try done; intros [= <-] [= Hp]; bool_prop; lia.
Qed.

(** A retrieve with a leading edge: block 0's second token on, and block 1 *)
Definition ex_edge_retrieve : DirectIODescriptor :=
  Descriptor RETRIEVE XdsExamples.ex_gpu 8192 16384 0 4096 2 1 1 1 3 [BlockRun 1 0 1]
    (Some (LeadingEdge 0 2 1 1)) 4096 true (Some [7]) [] [] [].

Lemma ex_edge_distinct :
  addresses_distinct (row_nbytes XdsExamples.ex_xds) ex_edge_retrieve.
Proof.
  apply blocks_addresses_distinct; [done|done| |].
  - intros b b' p. simpl.
    destruct ((1 <=? b) && (b <? 1 + 1)) eqn:E3; destruct ((1 <=? b') && (b' <? 1 + 1)) eqn:E4;
      try done; intros [= <-] [= Hp]; bool_prop; lia.
  - intros edge b [= <-]. simpl. destruct (_ && _) eqn:E; [|done]. intros [= Hb]. bool_prop. lia.
Qed.

Definition ex_stored : result BlockFirstDiskMetadata * xds_io :=
  save_direct_xds (Dt := ex_dtype) (JC := CountableCodec.codec) XdsExamples.ex_xds
    XdsExamples.ex_path XdsExamples.ex_store XdsExamples.ex_io.

Definition ex_loaded (d : DirectIODescriptor) : result unit * xds_io :=
  match ex_stored with
  | (Ok m, s1) => load_direct_xds (Dt := ex_dtype) (JC := CountableCodec.codec) XdsExamples.ex_xds
      (fun w => w) XdsExamples.ex_path m d s1
  | (Raise ex, s1) => (Raise ex, s1)
  end.

Lemma ex_elsewhere : others_elsewhere XdsExamples.ex_path (fun w => w).
Proof. intros w. repeat split; try done. Qed.

Definition is_ok {A S} (r : result A * S) : bool :=
  match r with (Ok _, _) => true | (Raise _, _) => false end.

Lemma ex_loaded_ok d :
  is_ok (ex_loaded d) = true ->
  exists m s1 s3, ex_stored = (Ok m, s1) /\ s1 = ex_stored.2
    /\ load_direct_xds (Dt := ex_dtype) (JC := CountableCodec.codec) XdsExamples.ex_xds (fun w => w)
         XdsExamples.ex_path m d s1 = (Ok tt, s3).
Proof.
  unfold ex_loaded. destruct ex_stored as [[m|ex] s1]; [|done].
  destruct (load_direct_xds _ _ _ _ _ _) as [[[]|ex] s3] eqn:E; [|done].
  intros _. by exists m, s1, s3.
Qed.

Lemma ex_stored_edge : edge_tensor ex_stored.2 = None.
Proof. vm_compute. reflexivity. Qed.

Lemma ex_stored_fds : fds_ok (io_world ex_stored.2).
Proof.
  assert (fds (io_world ex_stored.2) = ∅) as Hs by (vm_compute; reflexivity).
  intros fd [o Ho]. rewrite Hs in Ho. discriminate Ho.
Qed.

Lemma ex_shapes : shapes_of_chunk XdsExamples.ex_xds.
Proof. by repeat constructor. Qed.

Lemma ex_fds : fds_ok (io_world XdsExamples.ex_io).
Proof. intros fd [o Ho]. vm_compute in Ho. destruct fd; discriminate Ho. Qed.

(** The staging buffer is far from the example's blocks. *)
Lemma ex_apart d :
  (forall x a, device_address (row_nbytes XdsExamples.ex_xds) d x = Some a -> a < 1000000) ->
  staging_apart XdsExamples.ex_xds d None.
Proof. intros Hd n w q Hq x a Ha Hin. injection Hq as <-. specialize (Hd x a Ha). lia. Qed.

Local Ltac ex_cases := repeat match goal with
  | |- context [if ?b then _ else _] => destruct b eqn:?; simpl
  end.

Lemma ex_retrieve_low x a :
  device_address (row_nbytes XdsExamples.ex_xds) XdsExamples.ex_retrieve x = Some a -> a < 1000000.
Proof.
  unfold device_address, run_address. simpl.
  pose proof (Z.mod_pos_bound (x - BLOCK_FIRST_HEADER_SIZE) 4096 eq_refl).
  destruct (x <? _); [done|]. revert H.
  generalize ((x - BLOCK_FIRST_HEADER_SIZE) / 4096), ((x - BLOCK_FIRST_HEADER_SIZE) mod 4096).
  intros q r Hr. ex_cases; intros Ha; inversion Ha; bool_prop; lia.
Qed.

Lemma ex_retrieve_apart : staging_apart XdsExamples.ex_xds XdsExamples.ex_retrieve None.
Proof. apply ex_apart, ex_retrieve_low. Qed.

Lemma ex_edge_apart : staging_apart XdsExamples.ex_xds ex_edge_retrieve None.
Proof.
  apply ex_apart. intros x a. unfold device_address, run_address. simpl.
  pose proof (Z.mod_pos_bound (x - BLOCK_FIRST_HEADER_SIZE) 4096 eq_refl).
  destruct (x <? _); [done|]. revert H.
  generalize ((x - BLOCK_FIRST_HEADER_SIZE) / 4096), ((x - BLOCK_FIRST_HEADER_SIZE) mod 4096).
  intros q r Hr. ex_cases; intros Ha; inversion Ha; bool_prop; lia.
Qed.

Lemma direct_roundtrip_witness :
  exists m s1 s3, ex_stored = (Ok m, s1)
    /\ load_direct_xds (Dt := ex_dtype) (JC := CountableCodec.codec) XdsExamples.ex_xds (fun w => w)
         XdsExamples.ex_path m XdsExamples.ex_retrieve s1 = (Ok tt, s3)
    /\ mem (io_world s3) (8192 + 5) = mem (io_world XdsExamples.ex_io) (8192 + 3 * 4096 + 5).
Proof.
  assert (is_ok (ex_loaded XdsExamples.ex_retrieve) = true) as Hok by (vm_compute; reflexivity).
  destruct (ex_loaded_ok _ Hok) as (m & s1 & s3 & H1 & Hs1 & H2).
  exists m, s1, s3. split; [exact H1|]. split; [exact H2|].
  destruct (direct_roundtrip (JC := CountableCodec.codec) (JL := CountableCodecFacts.codec_laws)
    XdsExamples.ex_xds (fun w => w) XdsExamples.ex_path m m XdsExamples.ex_store
    XdsExamples.ex_retrieve XdsExamples.ex_io s1 s1 s3 ex_fds H1 eq_refl
    (eq_ind_r (fun s => fds_ok (io_world s)) ex_stored_fds Hs1) ex_elsewhere
    ex_shapes ex_retrieve_distinct) as [_ H].
  - rewrite Hs1, ex_stored_edge. exact ex_retrieve_apart.
  - exact H2.
  - rewrite (H 5 (8192 + 5)); [reflexivity|vm_compute; split; [discriminate|reflexivity]|].
    vm_compute. reflexivity.
Defined.

Lemma load_direct_xds_correct_witness :
  exists m s1 s3, ex_stored = (Ok m, s1)
    /\ load_direct_xds (Dt := ex_dtype) (JC := CountableCodec.codec) XdsExamples.ex_xds (fun w => w)
         XdsExamples.ex_path m ex_edge_retrieve s1 = (Ok tt, s3)
    /\ mem (io_world s3) (8192 + 2 * 4096 + 7) = mem (io_world s1) (8192 + 2 * 4096 + 7).
Proof.
  assert (is_ok (ex_loaded ex_edge_retrieve) = true) as Hok by (vm_compute; reflexivity).
  destruct (ex_loaded_ok _ Hok) as (m & s1 & s3 & H1 & Hs1 & H2).
  exists m, s1, s3. split; [exact H1|]. split; [exact H2|].
  assert (staging_apart XdsExamples.ex_xds ex_edge_retrieve (edge_tensor s1)) as Hap
    by (rewrite Hs1, ex_stored_edge; exact ex_edge_apart).
  pose proof (load_direct_xds_correct (JC := CountableCodec.codec) XdsExamples.ex_xds (fun w => w)
    XdsExamples.ex_path m ex_edge_retrieve s1
    (eq_ind_r (fun s => fds_ok (io_world s)) ex_stored_fds Hs1) ex_elsewhere
    ex_shapes ex_edge_distinct Hap) as H.
  rewrite H2 in H. destruct H as (_ & (_ & _ & Hm) & _). apply Hm.
  - intros x Hx. revert Hx. unfold device_address, run_address. simpl.
    destruct (x <? _); [discriminate|].
    pose proof (Z.mod_pos_bound (x - BLOCK_FIRST_HEADER_SIZE) 4096 eq_refl) as Hr. revert Hr.
    generalize ((x - BLOCK_FIRST_HEADER_SIZE) / 4096), ((x - BLOCK_FIRST_HEADER_SIZE) mod 4096).
    intros q r Hr. ex_cases; intros Hx; inversion Hx; bool_prop; [lia|].
    assert (r = 7) as -> by lia. vm_compute in H3. by apply H3.
  - assert (edge_tensor s3 = Some (1003520, 4096)) as ->.
    { assert (edge_tensor (ex_loaded ex_edge_retrieve).2 = Some (1003520, 4096)) as He
        by (vm_compute; reflexivity).
      unfold ex_loaded in He. rewrite H1, H2 in He. exact He. }
    simpl. lia.
Defined.
