(* ===== verification/XdsPaths.v ===== *)
(** * File names of the XDS backend

    [_key_to_path] and the classification of directory entries by
    [_scan_metadata_subdir] ([xds_backend.py]), with [urllib.parse.quote] and
    [unquote] on bytes. A key's own printing and parsing is LMCache's
    ([CacheKey]). *)

From Stdlib Require Import Ascii.
From S2P Require Import Prelude World HipFile XdsFiles.

Open Scope string_scope.
Open Scope list_scope.
Open Scope Z_scope.

(** ** Strings *)

(** [s.removesuffix(suf)] when [s.endswith(suf)], [None] otherwise *)
Fixpoint strip_suffix (suf s : string) : option string :=
  if String.eqb s suf then Some "" else
  match s with
  | EmptyString => None
  | String c s' => String c <$> strip_suffix suf s'
  end.

Definition py_endswith (s suf : string) : bool := bool_decide (is_Some (strip_suffix suf s)).

(** [s[:n]] for [n >= 0] *)
Definition py_take (n : nat) (s : string) : string := String.substring 0 n s.

(** [s[i:j]] for [0 <= i <= j] *)
Definition py_sub (i j : nat) (s : string) : string := String.substring i (j - i) s.

(** [os.path.join(a, b)] *)
Definition path_join2 (a b : string) : string :=
  match b with
  | String "/"%char _ => b
  | _ => if String.eqb a "" || py_endswith a "/" then a +:+ b else a +:+ "/" +:+ b
  end.

Definition path_join (a : string) (l : list string) : string := foldl path_join2 a l.

(** The part after the last slash *)
Fixpoint basename_from (acc s : string) : string :=
  match s with
  | EmptyString => acc
  | String c s' => if Ascii.eqb c "/" then basename_from "" s' else basename_from (acc +:+ String c "") s'
  end.
Definition basename (s : string) : string := basename_from "" s.

(** ** [urllib.parse.quote(s, safe="")] and [unquote] *)

Definition in_range (lo hi : ascii) (c : ascii) : bool :=
  (Ascii.nat_of_ascii lo <=? Ascii.nat_of_ascii c)%nat
  && (Ascii.nat_of_ascii c <=? Ascii.nat_of_ascii hi)%nat.

Definition is_unreserved (c : ascii) : bool :=
  in_range "A" "Z" c || in_range "a" "z" c || in_range "0" "9" c
  || Ascii.eqb c "_" || Ascii.eqb c "." || Ascii.eqb c "-" || Ascii.eqb c "~".

Definition hex_digit (n : nat) : ascii :=
  if (n <? 10)%nat then Ascii.ascii_of_nat (48 + n) else Ascii.ascii_of_nat (55 + n).

Definition hex_value (c : ascii) : option nat :=
  let n := Ascii.nat_of_ascii c in
  if in_range "0" "9" c then Some (n - 48)%nat
  else if in_range "A" "F" c then Some (n - 55)%nat
  else if in_range "a" "f" c then Some (n - 87)%nat
  else None.

Definition quote_char (c : ascii) : string :=
  if is_unreserved c then String c ""
  else
    let n := Ascii.nat_of_ascii c in
    String "%" (String (hex_digit (n / 16)) (String (hex_digit (n mod 16)) "")).

Fixpoint quote (s : string) : string :=
  match s with
  | EmptyString => ""
  | String c s' => quote_char c +:+ quote s'
  end.

Fixpoint unquote (s : string) : string :=
  match s with
  | EmptyString => ""
  | String c s' =>
      if Ascii.eqb c "%" then
        match s' with
        | String a (String b rest) =>
            match hex_value a, hex_value b with
            | Some h, Some l => String (Ascii.ascii_of_nat (16 * h + l)) (unquote rest)
            | _, _ => String c (unquote s')
            end
        | _ => String c (unquote s')
        end
      else String c (unquote s')
  end.

(** ** Keys and paths *)

(** What the backend uses of [CacheEngineKey] *)
Class CacheKey (K : Type) := {
  key_eq_dec :: EqDecision K;
  key_string : K -> string;                 (* to_string() *)
  key_from_string : string -> option K;     (* from_string(), None for ValueError *)
  key_hash_str : K -> string;               (* str(chunk_hash) *)
  key_worker : K -> Z;
}.

Class CacheKeyLaws (K : Type) `{!CacheKey K} := {
  key_from_to : forall k : K, key_from_string (key_string k) = Some k;
}.

Definition DIR_SIZE : nat := 2.

(** The path, the key of [metadata_dirs] and the two directory names *)
Definition key_to_path {K} `{!CacheKey K} (xds_path : string) (key : K) (block_first : bool)
    : string * string * string * string :=
  let l1_dir := py_take DIR_SIZE (key_hash_str key) in
  let l2_dir := py_sub DIR_SIZE (DIR_SIZE * 2) (key_hash_str key) in
  let suffix := if block_first then BLOCK_FIRST_DATA_FILE_SUFFIX else DATA_FILE_SUFFIX in
  (path_join xds_path [l1_dir; l2_dir; quote (key_string key) +:+ suffix],
   l1_dir +:+ l2_dir, l1_dir, l2_dir).

(** ** The startup scan *)

Inductive scan_action {K : Type} :=
  | ScanSkip
  | ScanDelete                       (* os.remove *)
  | ScanBlockFirst (key : K)         (* _read_block_first_metadata *)
  | ScanLegacy (key : K).            (* _read_metadata *)
Arguments scan_action : clear implicits.

(** The key of a file name without its suffix, of this rank *)
Definition scan_key {K} `{!CacheKey K} (world_id : Z) (stem : string) : option K :=
  match key_from_string (unquote stem) with
  | Some key => if key_worker key =? world_id then Some key else None
  | None => None
  end.

(** What the scan does with the file [name] *)
Definition scan_entry {K} `{!CacheKey K} (block_first_enabled : bool) (world_id : Z)
    (name : string) : scan_action K :=
  match strip_suffix BLOCK_FIRST_DATA_FILE_SUFFIX name with
  | Some stem =>
      if negb block_first_enabled then ScanSkip
      else match scan_key world_id stem with
           | Some key => ScanBlockFirst key
           | None => ScanSkip
           end
  | None =>
      match strip_suffix (DATA_FILE_SUFFIX +:+ METADATA_FILE_SUFFIX) name with
      | None =>
          if py_endswith name DATA_FILE_SUFFIX_TMP || py_endswith name METADATA_FILE_SUFFIX_TMP
             || py_endswith name BLOCK_FIRST_DATA_FILE_SUFFIX_TMP
          then ScanSkip
          else if negb (py_endswith name DATA_FILE_SUFFIX) then ScanDelete else ScanSkip
      | Some stem =>
          match scan_key world_id stem with
          | Some key => ScanLegacy key
          | None => ScanSkip
          end
      end
  end.

(** ** Lemmas *)

Lemma append_cons c s t : String c s +:+ t = String c (s +:+ t).
Proof. done. Qed.

Lemma append_assoc (a b c : string) : (a +:+ b) +:+ c = a +:+ (b +:+ c).
Proof. induction a as [|x a IH]; [done|]. by rewrite !append_cons, IH. Qed.

Lemma append_nil_r (a : string) : a +:+ "" = a.
Proof. induction a as [|x a IH]; [done|]. by rewrite append_cons, IH. Qed.

Lemma length_append a b : String.length (a +:+ b) = (String.length a + String.length b)%nat.
Proof. induction a as [|x a IH]; [done|]. rewrite append_cons. simpl. by rewrite IH. Qed.

Lemma append_inj_l a b c : a +:+ b = a +:+ c -> b = c.
Proof. induction a as [|x a IH]; [done|]. rewrite !append_cons. intros [= H]. auto. Qed.

Lemma append_inj_r a b c : a +:+ c = b +:+ c -> a = b.
Proof.
  revert b. induction a as [|x a IH]; intros [|y b] H; [done| | |].
  - apply (f_equal String.length) in H. rewrite !length_append in H. simpl in H. lia.
  - apply (f_equal String.length) in H. rewrite !length_append in H. simpl in H. lia.
  - rewrite !append_cons in H. injection H as -> H. f_equal. by apply IH.
Qed.

Lemma strip_suffix_cons suf c s :
  strip_suffix suf (String c s)
  = if String.eqb (String c s) suf then Some "" else String c <$> strip_suffix suf s.
Proof. done. Qed.

Lemma strip_suffix_Some suf s a : strip_suffix suf s = Some a <-> s = a +:+ suf.
Proof.
  revert a. induction s as [|c s IH]; intros a.
  - destruct suf as [|x suf]; simpl.
    + split; [intros [= Ha]; by subst a|]. destruct a; [done|]. by rewrite append_cons.
    + split; [done|]. destruct a; [done|]. by rewrite append_cons.
  - rewrite strip_suffix_cons. destruct (String.eqb_spec (String c s) suf) as [<-|Hne].
    + split; [intros [= Ha]; by subst a|]. intros H. f_equal.
      apply (f_equal String.length) in H as Hl. rewrite length_append in Hl. destruct a; [done|].
      simpl in Hl. lia.
    + rewrite fmap_Some. split.
      * intros (a' & Ha & ->). rewrite append_cons. f_equal. by apply IH.
      * destruct a as [|x a]; [intros H; by destruct Hne|]. rewrite append_cons. intros [= -> H].
        exists a. split; [by apply IH|done].
Qed.

Lemma strip_suffix_app suf s : strip_suffix suf (s +:+ suf) = Some s.
Proof. by apply strip_suffix_Some. Qed.

Lemma endswith_app s suf : py_endswith (s +:+ suf) suf = true.
Proof. apply bool_decide_eq_true. rewrite strip_suffix_app. by eexists. Qed.

(** A suffix no longer than [t] is looked up in [t]. *)
Lemma strip_suffix_inside suf a t :
  (String.length suf <= String.length t)%nat ->
  strip_suffix suf (a +:+ t) = (fun x => a +:+ x) <$> strip_suffix suf t.
Proof.
  intros Hl. destruct (strip_suffix suf t) as [x|] eqn:E; simpl.
  - apply strip_suffix_Some in E as ->. apply strip_suffix_Some. by rewrite append_assoc.
  - destruct (strip_suffix suf (a +:+ t)) as [y|] eqn:E'; [|done].
    apply strip_suffix_Some in E'. exfalso. revert y E'.
    induction a as [|c a IH]; intros y E'.
    + change ("" +:+ t) with t in E'. subst t. by rewrite strip_suffix_app in E.
    + destruct y as [|c' y].
      * apply (f_equal String.length) in E'. rewrite !length_append in E'. simpl in E'. lia.
      * rewrite !append_cons in E'. injection E' as _ E'. by apply (IH y).
Qed.

(** Texts neither of which ends in the other are never both suffixes. *)
Lemma no_suffix suf a t :
  strip_suffix suf t = None -> strip_suffix t suf = None -> strip_suffix suf (a +:+ t) = None.
Proof.
  intros H1 H2. destruct (Nat.le_gt_cases (String.length suf) (String.length t)).
  - by rewrite strip_suffix_inside, H1.
  - destruct (strip_suffix suf (a +:+ t)) as [y|] eqn:E; [|done].
    apply strip_suffix_Some in E. pose proof (strip_suffix_app t a) as H3.
    rewrite E, strip_suffix_inside, H2 in H3 by lia. done.
Qed.

Lemma hex_byte : forallb (fun n =>
  let c := Ascii.ascii_of_nat n in
  match hex_value (hex_digit (n / 16)), hex_value (hex_digit (n mod 16)) with
  | Some h, Some l => Ascii.eqb (Ascii.ascii_of_nat (16 * h + l)) c
  | _, _ => false
  end) (seq 0 256) = true.
Proof. vm_compute. reflexivity. Qed.

Lemma unreserved_not_escape c : is_unreserved c = true -> Ascii.eqb c "%" = false.
Proof. destruct (Ascii.eqb_spec c "%") as [->|]; [|done]. intros H. discriminate H. Qed.

Lemma unquote_escape a b s :
  unquote (String "%"%char (String a (String b s)))
  = match hex_value a, hex_value b with
    | Some h, Some l => String (Ascii.ascii_of_nat (16 * h + l)) (unquote s)
    | _, _ => String "%"%char (unquote (String a (String b s)))
    end.
Proof. done. Qed.

Lemma unquote_quote_char c s : unquote (quote_char c +:+ s) = String c (unquote s).
Proof.
  unfold quote_char. destruct (is_unreserved c) eqn:E.
  - rewrite append_cons. simpl. rewrite unreserved_not_escape by done. done.
  - assert (In (Ascii.nat_of_ascii c) (seq 0 256)) as Hin
      by (apply in_seq; pose proof (Ascii.nat_ascii_bounded c); lia).
    pose proof (proj1 (forallb_forall _ _) hex_byte _ Hin) as H. cbv beta zeta in H.
    rewrite Ascii.ascii_nat_embedding in H.
    rewrite !append_cons, unquote_escape.
    destruct (hex_value (hex_digit (Ascii.nat_of_ascii c / 16))) as [h|]; [|done].
    destruct (hex_value (hex_digit (Ascii.nat_of_ascii c mod 16))) as [l|]; [|done].
    apply Ascii.eqb_eq in H. by rewrite H.
Qed.

Lemma unquote_quote s : unquote (quote s) = s.
Proof. induction s as [|c s IH]; [done|]. simpl. by rewrite unquote_quote_char, IH. Qed.

Lemma quote_app a b : quote (a +:+ b) = quote a +:+ quote b.
Proof.
  induction a as [|c a IH]; [done|]. rewrite append_cons. simpl. by rewrite IH, append_assoc.
Qed.

Lemma quote_inj a b : quote a = quote b -> a = b.
Proof. intros H. by rewrite <- (unquote_quote a), H, unquote_quote. Qed.

(** *** Base names *)

Fixpoint no_slash (s : string) : Prop :=
  match s with EmptyString => True | String c s' => c <> "/"%char /\ no_slash s' end.

Lemma no_slash_app a b : no_slash (a +:+ b) <-> no_slash a /\ no_slash b.
Proof.
  induction a as [|c a IH]; [change ("" +:+ b) with b; simpl; tauto|].
  rewrite append_cons. simpl. rewrite IH. tauto.
Qed.

Lemma hex_digit_no_slash n : (n < 16)%nat -> hex_digit n <> "/"%char.
Proof.
  intros Hn. assert (In n (seq 0 16)) as Hin by (apply in_seq; lia).
  assert (forallb (fun n => negb (Ascii.eqb (hex_digit n) "/")) (seq 0 16) = true) as H
    by (vm_compute; reflexivity).
  pose proof (proj1 (forallb_forall _ _) H _ Hin) as H'. intros E. cbv beta in H'. by rewrite E in H'.
Qed.

Lemma quote_no_slash s : no_slash (quote s).
Proof.
  induction s as [|c s IH]; simpl; [done|]. apply no_slash_app. split; [|done].
  unfold quote_char. destruct (is_unreserved c) eqn:E.
  - simpl. split; [|done]. intros ->. vm_compute in E. done.
  - pose proof (Ascii.nat_ascii_bounded c). simpl.
    assert (Ascii.nat_of_ascii c / 16 < 16)%nat by (apply Nat.Div0.div_lt_upper_bound; lia).
    pose proof (Nat.mod_upper_bound (Ascii.nat_of_ascii c) 16 ltac:(lia)).
    split; [done|]. split; [by apply hex_digit_no_slash|]. split; [by apply hex_digit_no_slash|done].
Qed.

Lemma basename_from_no_slash acc s : no_slash s -> basename_from acc s = acc +:+ s.
Proof.
  revert acc. induction s as [|c s IH]; intros acc; simpl; [by rewrite append_nil_r|].
  intros [Hc Hs]. destruct (Ascii.eqb_spec c "/") as [|_]; [done|].
  rewrite IH by done. by rewrite append_assoc.
Qed.

Lemma basename_from_slash acc p f : no_slash f -> basename_from acc (p +:+ "/" +:+ f) = f.
Proof.
  intros Hf. revert acc. induction p as [|c p IH]; intros acc.
  - change ("" +:+ "/" +:+ f) with (String "/" f). simpl. by rewrite basename_from_no_slash.
  - rewrite append_cons. simpl. destruct (Ascii.eqb c "/"); apply IH.
Qed.

Lemma basename_join p f : no_slash f -> basename (path_join2 p f) = f.
Proof.
  intros Hf. unfold basename.
  assert (path_join2 p f = if String.eqb p "" || py_endswith p "/" then p +:+ f else p +:+ "/" +:+ f)
    as ->.
  { unfold path_join2. destruct f as [|c f]; [done|]. destruct Hf as [Hc _].
    destruct c as [[] [] [] [] [] [] [] []]; done. }
  destruct (String.eqb_spec p "") as [->|Hp]; simpl.
  - change ("" +:+ f) with f. by rewrite basename_from_no_slash.
  - destruct (py_endswith p "/") eqn:E; [|by apply basename_from_slash].
    apply bool_decide_eq_true in E as [x ->%strip_suffix_Some]. rewrite append_assoc.
    by apply basename_from_slash.
Qed.

(** ** Properties *)

Section keys.
Context {K : Type} `{!CacheKey K, !CacheKeyLaws K}.

Lemma suffix_no_slash b :
  no_slash (if b : bool then BLOCK_FIRST_DATA_FILE_SUFFIX else DATA_FILE_SUFFIX).
Proof. destruct b; repeat split; done. Qed.

(** The file name [_key_to_path] gives a key *)
Lemma key_to_path_name xds_path (k : K) b :
  basename (key_to_path xds_path k b).1.1.1
  = quote (key_string k) +:+ (if b then BLOCK_FIRST_DATA_FILE_SUFFIX else DATA_FILE_SUFFIX).
Proof.
  unfold key_to_path, path_join. cbn [foldl fst]. apply basename_join, no_slash_app.
  split; [apply quote_no_slash|apply suffix_no_slash].
Qed.

Lemma key_string_inj (k k' : K) : key_string k = key_string k' -> k = k'.
Proof.
  intros H. pose proof (key_from_to k) as H1. rewrite H, key_from_to in H1. congruence.
Qed.

(** Two different chunks never share a data file: equal paths mean the same key and
    the same format, unless one key's text ends in the text [.block_first_v1]. *)
Theorem key_paths_distinct xds_path (k k' : K) b b' :
  (forall k0 : K, strip_suffix ".block_first_v1" (key_string k0) = None) ->
  (key_to_path xds_path k b).1.1.1 = (key_to_path xds_path k' b').1.1.1 -> k = k' /\ b = b'.
Proof.
  intros Hno Heq. apply (f_equal basename) in Heq. rewrite !key_to_path_name in Heq.
  assert (forall k k' : K, quote (key_string k) +:+ BLOCK_FIRST_DATA_FILE_SUFFIX
    <> quote (key_string k') +:+ DATA_FILE_SUFFIX) as Hmix.
  { intros k1 k2 H.
    change BLOCK_FIRST_DATA_FILE_SUFFIX with (quote ".block_first_v1" +:+ DATA_FILE_SUFFIX) in H.
    rewrite <- append_assoc in H. apply append_inj_r in H. rewrite <- quote_app in H.
    apply quote_inj in H. specialize (Hno k2). by rewrite <- H, strip_suffix_app in Hno. }
  destruct b, b'.
  - split; [|done]. by apply key_string_inj, quote_inj, (append_inj_r _ _ BLOCK_FIRST_DATA_FILE_SUFFIX).
  - by destruct (Hmix k k').
  - by destruct (Hmix k' k).
  - split; [|done]. by apply key_string_inj, quote_inj, (append_inj_r _ _ DATA_FILE_SUFFIX).
Qed.

Lemma scan_key_stem world_id (k : K) :
  scan_key world_id (quote (key_string k)) = if key_worker k =? world_id then Some k else None.
Proof. unfold scan_key. by rewrite unquote_quote, key_from_to. Qed.

(** The startup scan recovers exactly what was stored: the block-first file and
    the legacy sidecar of a key of this rank lead back to that key, another rank's are
    skipped, and neither a data file nor any temporary file of a running store is ever
    deleted by the scan. *)
Theorem scan_finds_stored enabled world_id (k : K) :
  let stem := quote (key_string k) in
  let mine := key_worker k =? world_id in
  scan_entry (K := K) true world_id (stem +:+ BLOCK_FIRST_DATA_FILE_SUFFIX)
    = (if mine then ScanBlockFirst k else ScanSkip)
  /\ scan_entry (K := K) enabled world_id (stem +:+ DATA_FILE_SUFFIX +:+ METADATA_FILE_SUFFIX)
    = (if mine then ScanLegacy k else ScanSkip)
  /\ scan_entry (K := K) enabled world_id (stem +:+ DATA_FILE_SUFFIX) <> ScanDelete
  /\ scan_entry (K := K) enabled world_id (stem +:+ BLOCK_FIRST_DATA_FILE_SUFFIX) <> ScanDelete
  /\ scan_entry (K := K) enabled world_id (stem +:+ DATA_FILE_SUFFIX_TMP) = ScanSkip
  /\ scan_entry (K := K) enabled world_id
       (stem +:+ DATA_FILE_SUFFIX_TMP +:+ METADATA_FILE_SUFFIX_TMP) = ScanSkip
  /\ scan_entry (K := K) enabled world_id
       (stem +:+ BLOCK_FIRST_DATA_FILE_SUFFIX +:+ BLOCK_FIRST_DATA_FILE_SUFFIX_TMP) = ScanSkip.
Proof.
  intros stem mine. unfold scan_entry. split_and!.
  - rewrite strip_suffix_app. simpl. unfold stem, mine. rewrite scan_key_stem.
    by destruct (key_worker k =? world_id).
  - rewrite no_suffix, strip_suffix_app by done. unfold stem, mine. rewrite scan_key_stem.
    by destruct (key_worker k =? world_id).
  - rewrite endswith_app. repeat case_match; done.
  - rewrite strip_suffix_app. repeat case_match; done.
  - rewrite !no_suffix by done. by rewrite endswith_app.
  - rewrite !no_suffix by done.
    by rewrite <- (append_assoc stem), (endswith_app _ METADATA_FILE_SUFFIX_TMP), orb_true_r.
  - rewrite !no_suffix by done.
    by rewrite <- (append_assoc stem), (endswith_app _ BLOCK_FIRST_DATA_FILE_SUFFIX_TMP), orb_true_r.
Qed.

End keys.

(** Keys that are texts, for the examples *)
Module TextKey.

#[global] Instance text_key : CacheKey string := {
  key_eq_dec := _;
  key_string k := k;
  key_from_string := Some;
  key_hash_str k := k;
  key_worker _ := 0;
}.

#[global] Instance text_key_laws : CacheKeyLaws string.
Proof. by constructor. Qed.

(** Keys whose text starts with a slash, so that none ends in [.block_first_v1] *)
Record slashed := Slashed { slashed_n : nat }.

#[global] Instance slashed_eq_dec : EqDecision slashed.
Proof. solve_decision. Defined.

Fixpoint slashes (n : nat) : string :=
  match n with O => "" | S n' => String "/" (slashes n') end.

#[global] Instance slashed_key : CacheKey slashed := {
  key_eq_dec := _;
  key_string k := slashes (slashed_n k);
  key_from_string s := Some (Slashed (String.length s));
  key_hash_str k := "0123";
  key_worker _ := 0;
}.

Lemma slashes_length n : String.length (slashes n) = n.
Proof. induction n; simpl; congruence. Qed.

#[global] Instance slashed_key_laws : CacheKeyLaws slashed.
Proof. constructor. intros [n]. simpl. by rewrite slashes_length. Qed.

Lemma slashed_no_suffix (k : slashed) : strip_suffix ".block_first_v1" (key_string k) = None.
Proof.
  destruct k as [n]. simpl. induction n as [|n IH]; [done|].
  change (slashes (S n)) with (String "/" (slashes n)). rewrite strip_suffix_cons, IH. done.
Qed.

End TextKey.

Lemma key_paths_distinct_witness :
  (key_to_path "/xds" (TextKey.Slashed 3) true).1.1.1 = "/xds/01/23/%2F%2F%2F.block_first_v1.kvdata"
  /\ (forall k b, (key_to_path "/xds" k b).1.1.1 = "/xds/01/23/%2F%2F%2F.block_first_v1.kvdata" ->
       k = TextKey.Slashed 3 /\ b = true).
Proof.
  split; [vm_compute; reflexivity|]. intros k b H.
  apply (key_paths_distinct "/xds" k (TextKey.Slashed 3) b true TextKey.slashed_no_suffix).
  rewrite H. vm_compute. reflexivity.
Defined.

(** A name with every kind of character survives the round trip. *)
Example scan_quoted_example :
  scan_entry (K := string) true 0 "m%2Fa%40b_c%25.block_first_v1.kvdata" = ScanBlockFirst "m/a@b_c%"
  /\ scan_entry (K := string) true 0 "core.12345" = ScanDelete.
Proof. vm_compute. split; reflexivity. Qed.

Lemma scan_finds_stored_witness :
  scan_entry (K := string) true 0 (quote "m/a@b_c%" +:+ BLOCK_FIRST_DATA_FILE_SUFFIX)
    = ScanBlockFirst "m/a@b_c%".
Proof. exact (proj1 (scan_finds_stored (K := string) true 0 "m/a@b_c%")). Defined.
