(* ===== verification/XdsMeta.v ===== *)
(** * Legacy metadata sidecars

    [pack_metadata], [unpack_metadata] and [save_metadata] of [xds_backend.py] and the
    file reads of [_read_metadata_info] and [_read_metadata]. *)

From S2P Require Import Prelude Tensor Codec World HipFile XdsFiles XdsPaths.

Open Scope string_scope.
Open Scope list_scope.
Open Scope Z_scope.

(** [s.replace(old, new)] for a non-empty [old]: leftmost occurrences first *)
Fixpoint replace_fuel (fuel : nat) (old new s : string) : string :=
  match fuel with
  | O => s
  | S fuel' =>
      match s with
      | EmptyString => ""
      | String c s' =>
          match strip_prefix old s with
          | Some rest => new +:+ replace_fuel fuel' old new rest
          | None => String c (replace_fuel fuel' old new s')
          end
      end
  end.

Definition py_replace (s old new : string) : string := replace_fuel (S (String.length s)) old new s.

(** [struct.pack("<Q", x)] *)
Definition pack_Q (x : Z) : result (list Z) :=
  if (0 <=? x) && (x <? 2 ^ 64) then Ok (le_bytes 8 x) else Raise StructError.

(** The value of a "Q" field; list elements count modulo 256, so that a field is a
    64-bit number whatever the list. *)
Definition unpack_Q (l : list Z) : Z := le_value ((fun b => b mod 256) <$> l).

(** [struct.unpack_from(n * "Q", buffer, offset)] *)
Fixpoint unpack_Qs (n : nat) (buffer : list Z) : result (list Z) :=
  match n with
  | O => Ok []
  | S n' =>
      if lenZ buffer <? 8 then Raise StructError
      else rest ← unpack_Qs n' (drop 8 buffer); mret (unpack_Q (take 8 buffer) :: rest)
  end.

(** [n * "Q"] needs an index-sized [n]; a format longer than the buffer is a
    [struct.error]. (A large but index-sized [n] may also exhaust memory; that is not
    modelled.) *)
Definition MAXSIZE : Z := 2 ^ 63 - 1.

Definition unpack_shape (ndim : Z) (buffer : list Z) : result (list Z) :=
  if MAXSIZE <? ndim then Raise OverflowError
  else if lenZ buffer <? 8 * ndim then Raise StructError
  else unpack_Qs (Z.to_nat ndim) buffer.

Section meta.
Context {Dt : Type} `{!TorchDtype Dt}.

(** [torch_dtypes], the list of the module; the objects are torch's. *)
Context (torch_dtypes : list Dt).

(** [dtype_to_idx[dtype]]: of equal dtypes the last index *)
Fixpoint dtype_index_from (i : Z) (l : list Dt) (dt : Dt) (found : option Z) : option Z :=
  match l with
  | [] => found
  | d :: l' => dtype_index_from (i + 1) l' dt (if decide (d = dt) then Some i else found)
  end.

Definition dtype_to_idx (dt : Dt) : result Z :=
  result_of_option KeyError (dtype_index_from 0 torch_dtypes dt None).

Definition pack_metadata (shape : list Z) (dt : Dt) (size : Z) : result (list Z) :=
  raise_if (METADATA_MAX_SIZE <? 8 * (4 + lenZ shape)) (ValueError "Metadata size exceeds max size");;
  idx ← dtype_to_idx dt;
  fields ← mapR pack_Q ([METADATA_VERSION; idx; size; lenZ shape] ++ shape);
  mret (concat fields).

(** A [struct.error] becomes [UnsupportedMetadataVersion]. *)
Definition catch_struct {A} (r : result A) : result A :=
  match r with
  | Raise StructError => Raise (UnsupportedMetadataVersion "corrupt metadata")
  | _ => r
  end.

Definition unpack_metadata (buffer : list Z) : result (list Z * Dt * Z) := catch_struct (
  fields ← unpack_Qs 4 buffer;
  match fields with
  | [version; dt_idx; size; ndim] =>
      raise_if (negb (version =? 1)) (UnsupportedMetadataVersion "Unsupported metadata version");;
      raise_if (lenZ torch_dtypes <=? dt_idx) (UnsupportedMetadataVersion "bad dtype code");;
      shape ← unpack_shape ndim (drop 32 buffer);
      dt ← py_index torch_dtypes dt_idx;
      mret (shape, dt, size)
  | _ => Raise StructError
  end).

(** The sidecar is written to a temporary name and renamed. *)
Definition save_metadata (path tmp : string) (metadata : list Z) : ST world unit :=
  let tmp_path := py_replace path DATA_FILE_SUFFIX DATA_FILE_SUFFIX_TMP +:+ tmp in
  _ ← py_write_file tmp_path metadata;
  os_replace tmp_path (path +:+ METADATA_FILE_SUFFIX).

(** [_read_metadata_info]: [O_NOATIME] once it has failed is not tried again; the flag is
    returned with the outcome. *)
Definition read_metadata_info (use_noatime : bool) (filename : string)
    : ST world (bool * (list Z * Dt * Z)) :=
  '(noatime, fd) ← (if use_noatime then
      st_catch is_os_error (fd ← os_open filename O_RDONLY; mret (true, fd))
        (fun _ => fd ← os_open filename O_RDONLY; mret (false, fd))
    else fd ← os_open filename O_RDONLY; mret (false, fd));
  buf ← st_finally (os_pread fd METADATA_MAX_SIZE) (os_close fd);
  info ← st_lift (unpack_metadata buf);
  mret (noatime, info).

(** The checks of [_read_metadata]: the recorded size against the shape and dtype *)
Definition check_metadata_size (xds_buffer_size : option Z) (shape : list Z) (dt : Dt) (size : Z)
    : result unit :=
  let raw := prodZ shape * itemsize dt in
  raise_if (size <? raw) (UnsupportedMetadataVersion "metadata size < raw payload");;
  match xds_buffer_size with
  | None => Ok tt
  | Some _ =>
      let expected := (raw + 4096 - 1) / 4096 * 4096 in
      raise_if (negb (size =? expected)) (UnsupportedMetadataVersion "metadata size != aligned")
  end.

(** ** Lemmas *)

Lemma dtype_index_from_Some i l dt found idx :
  0 <= i -> (forall j, found = Some j -> 0 <= j < i) ->
  dtype_index_from i l dt found = Some idx ->
  (found = Some idx /\ dt ∉ l) \/ (i <= idx /\ l !! Z.to_nat (idx - i) = Some dt).
Proof.
  revert i found. induction l as [|d l IH]; intros i found Hi Hf; simpl.
  - intros ->. left. split; [done|apply not_elem_of_nil].
  - intros H. apply IH in H; [|lia|].
    + destruct H as [[H Hn]|[H1 H2]].
      * destruct (decide (d = dt)) as [->|Hne].
        -- injection H as <-. right. split; [lia|]. by rewrite Z.sub_diag.
        -- left. split; [done|]. rewrite not_elem_of_cons. auto.
      * right. split; [lia|]. replace (Z.to_nat (idx - i)) with (S (Z.to_nat (idx - (i + 1)))) by lia.
        done.
    + intros j. destruct (decide (d = dt)); [intros [= <-]; lia|]. intros Hj. specialize (Hf j Hj). lia.
Qed.

Lemma dtype_to_idx_Ok dt idx :
  dtype_to_idx dt = Ok idx -> 0 <= idx < lenZ torch_dtypes /\ py_index torch_dtypes idx = Ok dt.
Proof.
  unfold dtype_to_idx. intros H%result_of_option_Ok.
  apply dtype_index_from_Some in H as [[? _]|[H1 H2]]; [done| |lia|done].
  rewrite Z.sub_0_r in H2. split; [|by apply py_index_nonneg].
  apply lookup_lt_Some in H2. unfold lenZ. lia.
Qed.

Lemma pack_Q_Ok x b : pack_Q x = Ok b -> 0 <= x < 2 ^ 64 /\ b = le_bytes 8 x.
Proof. unfold pack_Q. destruct (_ && _) eqn:E; [|done]. intros [= <-]. bool_prop. by split. Qed.

Lemma unpack_Qs_pack xs fields rest :
  mapR pack_Q xs = Ok fields -> unpack_Qs (length xs) (concat fields ++ rest) = Ok xs.
Proof.
  revert fields. induction xs as [|x xs IH]; intros fields; simpl; [by intros [= <-]|].
  intros H. res_inv. subst. apply pack_Q_Ok in H0 as [Hx ->].
  change (concat (?a :: ?l)) with (a ++ concat l). rewrite <- app_assoc.
  assert (length (le_bytes 8 x) = 8%nat) as Hl by apply length_le_bytes.
  rewrite drop_app_length', take_app_length' by done. unfold unpack_Q.
  assert ((fun b => b mod 256) <$> le_bytes 8 x = le_bytes 8 x) as Hmod.
  { rewrite <- (list_fmap_id (le_bytes 8 x)) at 2. apply list_fmap_ext. intros i b Hb.
    pose proof (proj1 (Forall_lookup _ _) (le_bytes_byte 8 x) i b Hb) as Hby.
    by apply Z.mod_small. }
  rewrite Hmod.
  replace (lenZ (le_bytes 8 x ++ concat x1 ++ rest) <? 8) with false
    by (symmetry; apply Z.ltb_ge; unfold lenZ; rewrite length_app, Hl; lia).
  rewrite (IH _ H1). res_simpl. rewrite le_value_bytes; [done|]. exact Hx.
Qed.

Lemma mapR_app {A B} (g : A -> result B) l1 l2 fs :
  mapR g (l1 ++ l2) = Ok fs -> exists f1 f2, mapR g l1 = Ok f1 /\ mapR g l2 = Ok f2 /\ fs = f1 ++ f2.
Proof.
  revert fs. induction l1 as [|x l1 IH]; intros fs; simpl; [by exists [], fs|].
  intros H. res_inv. subst. destruct (IH _ H1) as (f1 & f2 & E1 & E2 & ->).
  rewrite H0, E1. by exists (x0 :: f1), f2.
Qed.

Lemma pack_Qs_length xs fields :
  mapR pack_Q xs = Ok fields -> length (concat fields) = (8 * length xs)%nat.
Proof.
  revert fields. induction xs as [|x xs IH]; intros fields; simpl; [by intros [= <-]|].
  intros H. res_inv. subst. apply pack_Q_Ok in H0 as [_ ->].
  change (concat (?a :: ?l)) with (a ++ concat l).
  rewrite length_app, length_le_bytes, (IH _ H1). lia.
Qed.

Lemma mapR_elem {A B} (g : A -> result B) l fs x :
  mapR g l = Ok fs -> x ∈ l -> exists y, g x = Ok y.
Proof.
  revert fs. induction l as [|a l IH]; intros fs; simpl; [by intros _ ?%not_elem_of_nil|].
  intros H [->|Hin]%elem_of_cons; res_inv; [eauto|]. by eapply IH.
Qed.

Lemma unpack_Qs_Raise n buffer e : unpack_Qs n buffer = Raise e -> e = StructError.
Proof.
  revert buffer. induction n as [|n IH]; intros buffer; simpl; [done|].
  destruct (_ <? _); [by intros [= <-]|]. destruct (unpack_Qs n _) eqn:E; [done|].
  intros [= <-]. by eapply IH.
Qed.

Lemma unpack_Qs_S n buffer fields :
  unpack_Qs (S n) buffer = Ok fields ->
  exists rest, unpack_Qs n (drop 8 buffer) = Ok rest /\ fields = unpack_Q (take 8 buffer) :: rest.
Proof. simpl. destruct (_ <? _); [done|]. intros H. res_inv. eauto. Qed.

Lemma unpack_Qs_4 buffer fields :
  unpack_Qs 4 buffer = Ok fields ->
  exists v z, fields = [v; unpack_Q (take 8 (drop 8 buffer)); z; unpack_Q (take 8 (drop 24 buffer))].
Proof.
  intros H. do 4 (apply unpack_Qs_S in H as (? & H & ->)). rewrite !drop_drop in *.
  simpl in H. injection H as <-. eauto.
Qed.

Lemma unpack_Q_nonneg l : 0 <= unpack_Q l.
Proof.
  unfold unpack_Q. induction l as [|b l IH]; [done|]. rewrite fmap_cons. cbn [le_value].
  pose proof (Z.mod_pos_bound b 256 eq_refl). lia.
Qed.

Lemma unpack_Qs_nonneg n buffer l : unpack_Qs n buffer = Ok l -> Forall (Z.le 0) l.
Proof.
  revert buffer l. induction n as [|n IH]; intros buffer l; [by intros [= <-]|].
  intros (rest & H & ->)%unpack_Qs_S. constructor; [apply unpack_Q_nonneg|by eapply IH].
Qed.

Lemma catch_struct_Ok {A} (m : result A) x :
  catch_struct m = Ok x -> m = Ok x.
Proof. unfold catch_struct. destruct m as [y|[]]; congruence. Qed.

(** A recorded shape and size are natural numbers. *)
Lemma unpack_metadata_nonneg buffer shape dt size :
  unpack_metadata buffer = Ok (shape, dt, size) -> Forall (Z.le 0) shape.
Proof.
  unfold unpack_metadata. intros H%catch_struct_Ok. res_inv.
  match goal with H : unpack_Qs 4 _ = Ok _ |- _ => apply unpack_Qs_4 in H as (v & z & ->) end.
  res_inv. simplify_eq.
  match goal with H : unpack_shape _ _ = Ok _ |- _ => unfold unpack_shape in H; rename H into Es end.
  do 2 (destruct (_ <? _); [done|]).
  by eapply unpack_Qs_nonneg.
Qed.

(** ** Properties *)

(** The sidecar codec loses nothing: unpacking a packed sidecar, whatever follows
    it in the buffer, gives back its shape, dtype and size, and a packed sidecar
    always fits the 72 bytes the reader reads. *)
Theorem metadata_roundtrip shape dt size b rest :
  pack_metadata shape dt size = Ok b ->
  unpack_metadata (b ++ rest) = Ok (shape, dt, size) /\ lenZ b <= METADATA_MAX_SIZE.
Proof.
  unfold pack_metadata. intros H. res_inv. subst. bool_prop.
  match goal with Hd : dtype_to_idx dt = Ok ?i |- _ =>
    rename i into idx; apply dtype_to_idx_Ok in Hd as [Hidx Hdt] end.
  match goal with Hm : mapR pack_Q _ = Ok ?f |- _ => rename Hm into Hp; rename f into fields end.
  split; [|unfold lenZ; rewrite (pack_Qs_length _ _ Hp), length_app; unfold lenZ in *; simpl; lia].
  pose proof (mapR_app _ _ _ _ Hp) as (f1 & f2 & Hp1 & Hp2 & ->).
  rewrite concat_app, <- app_assoc. unfold unpack_metadata.
  pose proof (unpack_Qs_pack _ _ (concat f2 ++ rest) Hp1) as Hu.
  change (length [METADATA_VERSION; idx; size; lenZ shape]) with 4%nat in Hu. rewrite Hu.
  cbn [mbind result_bind]. change (METADATA_VERSION =? 1) with true.
  replace (lenZ torch_dtypes <=? idx) with false by lia. res_simpl.
  pose proof (pack_Qs_length _ _ Hp1) as Hl1. rewrite drop_app_length' by (rewrite Hl1; done).
  assert (0 <= lenZ shape < 2 ^ 64) as Hsh.
  { destruct (mapR_elem pack_Q _ _ (lenZ shape) Hp) as (y & Hy); [set_solver|].
    by apply pack_Q_Ok in Hy as [Hy _]. }
  unfold unpack_shape. replace (MAXSIZE <? lenZ shape) with false by (unfold METADATA_MAX_SIZE, MAXSIZE in *; lia).
  pose proof (pack_Qs_length _ _ Hp2) as Hl2.
  replace (lenZ (concat f2 ++ rest) <? 8 * lenZ shape) with false
    by (symmetry; apply Z.ltb_ge; unfold lenZ; rewrite length_app, Hl2; lia).
  unfold lenZ. rewrite Nat2Z.id, (unpack_Qs_pack _ _ _ Hp2). res_simpl. by rewrite Hdt.
Qed.

(** Whatever a crash left in a sidecar, reading it raises nothing but
    [UnsupportedMetadataVersion], the exception the startup scan catches, provided the
    dimension count it records is index-sized; a larger count raises
    [OverflowError], which the scan does not catch. *)
Theorem corrupt_metadata_caught buffer e :
  unpack_metadata buffer = Raise e ->
  (exists msg, e = UnsupportedMetadataVersion msg)
  \/ (e = OverflowError /\ MAXSIZE < unpack_Q (take 8 (drop 24 buffer))).
Proof.
  unfold unpack_metadata. intros H.
  destruct (unpack_Qs 4 buffer) as [fields|e0] eqn:Hu; cbn [mbind result_bind] in H.
  - apply unpack_Qs_4 in Hu as (v & z & ->). set (i := unpack_Q (take 8 (drop 8 buffer))) in *.
    assert (0 <= i) by apply unpack_Q_nonneg.
    destruct (negb (v =? 1)); [injection H as <-; eauto|]. cbn [raise_if mbind result_bind] in H.
    destruct (lenZ torch_dtypes <=? i) eqn:Ei; [injection H as <-; eauto|].
    cbn [raise_if mbind result_bind] in H. bool_prop.
    destruct (unpack_shape _ _) as [sh|e1] eqn:Hs.
    + cbn [mbind result_bind] in H. destruct (py_index torch_dtypes i) as [dt|e2] eqn:Hd; [done|].
      exfalso. destruct (lookup_lt_is_Some_2 torch_dtypes (Z.to_nat i)) as [dt Hi];
        [unfold lenZ in *; lia|]. apply py_index_nonneg in Hi; [|lia]. congruence.
    + cbn [mbind result_bind] in H. unfold unpack_shape in Hs.
      destruct (MAXSIZE <? _) eqn:Em; [injection Hs as <-; injection H as <-; right; split; [done|lia]|].
      destruct (lenZ (drop 32 buffer) <? _); [injection Hs as <-; injection H as <-; eauto|].
      apply unpack_Qs_Raise in Hs as ->. injection H as <-. eauto.
  - apply unpack_Qs_Raise in Hu as ->. injection H as <-. eauto.
Qed.

End meta.

(** Three dtypes and their indices, for the examples *)
Definition ex_dtypes : list ex_dtype := [Float16; Float16; BFloat16; Float32; Float32].

Lemma metadata_roundtrip_witness :
  exists b, pack_metadata ex_dtypes [2; 1; 4; 8] Float16 256 = Ok b /\ lenZ b = 64
    /\ unpack_metadata ex_dtypes (b ++ [9; 9]) = Ok ([2; 1; 4; 8], Float16, 256).
Proof.
  eexists. split; [vm_compute; reflexivity|]. split; [reflexivity|].
  apply (metadata_roundtrip ex_dtypes [2; 1; 4; 8] Float16 256). vm_compute. reflexivity.
Defined.

(** A sidecar of version 1 that records 2^63 dimensions *)
Definition ex_corrupt : list Z := le_bytes 8 1 ++ le_bytes 8 0 ++ le_bytes 8 4096 ++ le_bytes 8 (2 ^ 63).

Lemma corrupt_metadata_caught_witness :
  unpack_metadata ex_dtypes ex_corrupt = Raise OverflowError
  /\ MAXSIZE < unpack_Q (take 8 (drop 24 ex_corrupt)).
Proof.
  assert (unpack_metadata ex_dtypes ex_corrupt = Raise OverflowError) as H
    by (vm_compute; reflexivity).
  split; [exact H|]. destruct (corrupt_metadata_caught ex_dtypes ex_corrupt OverflowError) as [[m Hm]|[_ Hm]].
  - exact H.
  - discriminate Hm.
  - exact Hm.
Defined.
