(* ===== verification/Dict.v ===== *)
(** * Ordered dictionaries and cache policies

    A Python [OrderedDict] is an association list in insertion order without
    repeated keys; the eviction policy of a cache is an interface, since its
    implementations are LMCache's. *)

From S2P Require Import Prelude.

Open Scope string_scope.
Open Scope list_scope.
Open Scope Z_scope.

Section odict.
Context {K V : Type} `{EqDecision K}.

Definition odict : Type := list (K * V).

Fixpoint od_get (k : K) (d : odict) : option V :=
  match d with
  | [] => None
  | (k', v) :: d' => if decide (k' = k) then Some v else od_get k d'
  end.

(** [d[k] = v]: in place, or at the end *)
Fixpoint od_set (k : K) (v : V) (d : odict) : odict :=
  match d with
  | [] => [(k, v)]
  | (k', v') :: d' => if decide (k' = k) then (k', v) :: d' else (k', v') :: od_set k v d'
  end.

(** [d] without [k] *)
Fixpoint od_del (k : K) (d : odict) : odict :=
  match d with
  | [] => []
  | (k', v') :: d' => if decide (k' = k) then d' else (k', v') :: od_del k d'
  end.

(** [k in d] *)
Definition od_mem (k : K) (d : odict) : bool := bool_decide (is_Some (od_get k d)).

(** [d[k] = f(d[k])] where [k in d] *)
Definition od_alter (f : V -> V) (k : K) (d : odict) : odict :=
  match od_get k d with Some v => od_set k (f v) d | None => d end.

Definition od_keys (d : odict) : list K := d.*1.

(** The sum of [f] over the values *)
Definition od_sum (f : V -> Z) (d : odict) : Z := sumZ ((fun kv => f kv.2) <$> d).

Lemma od_get_elem k v d : NoDup (od_keys d) -> (k, v) ∈ d <-> od_get k d = Some v.
Proof.
  induction d as [|[k' v'] d IH]; simpl; [split; [by intros ?%not_elem_of_nil|done]|].
  intros [Hn Hd]%list.NoDup_cons. rewrite elem_of_cons, IH by done. destruct (decide (k' = k)) as [->|Hne].
  - split; [intros [[= ->]|H]; [done|]|intros [= ->]; by left].
    destruct Hn. apply list_elem_of_fmap. exists (k, v). split; [done|]. by apply IH.
  - split; [by intros [[= -> ->]|H]|by right].
Qed.

Lemma od_keys_get k d : k ∈ od_keys d <-> is_Some (od_get k d).
Proof.
  induction d as [|[k' v'] d IH]; simpl.
  - split; [by intros ?%not_elem_of_nil|by intros [? ?]].
  - change (od_keys ((k', v') :: d)) with (k' :: od_keys d). rewrite elem_of_cons, IH.
    destruct (decide (k' = k)) as [->|Hne]; [split; [by eexists|by left]|].
    split; [by intros [->|H]|by right].
Qed.

Lemma od_get_set k v k' d :
  od_get k' (od_set k v d) = if decide (k = k') then Some v else od_get k' d.
Proof.
  induction d as [|[k2 v2] d IH]; simpl; [done|].
  destruct (decide (k2 = k)) as [->|Hne]; simpl.
  - by destruct (decide (k = k')).
  - rewrite IH. destruct (decide (k2 = k')) as [->|], (decide (k = k')); congruence.
Qed.

Lemma od_mem_cons k k' v d :
  od_mem k ((k', v) :: d) = if decide (k' = k) then true else od_mem k d.
Proof. unfold od_mem. simpl. by destruct (decide (k' = k)). Qed.

Lemma od_mem_true k d : od_mem k d = true <-> is_Some (od_get k d).
Proof. apply bool_decide_eq_true. Qed.

Lemma od_keys_set k v d :
  od_keys (od_set k v d) = if od_mem k d then od_keys d else od_keys d ++ [k].
Proof.
  induction d as [|[k2 v2] d IH]; [done|]. rewrite od_mem_cons. simpl.
  destruct (decide (k2 = k)) as [->|Hne]; [done|].
  change (od_keys ((k2, v2) :: ?x)) with (k2 :: od_keys x). rewrite IH. by destruct (od_mem k d).
Qed.

Lemma od_set_fresh k v d : k ∉ od_keys d -> od_set k v d = d ++ [(k, v)].
Proof.
  induction d as [|[k2 v2] d IH]; [done|].
  change (od_keys ((k2, v2) :: d)) with (k2 :: od_keys d). intros [Hne Hn]%not_elem_of_cons.
  simpl. destruct (decide (k2 = k)) as [->|]; [done|]. by rewrite IH.
Qed.

Lemma od_nodup_set k v d : NoDup (od_keys d) -> NoDup (od_keys (od_set k v d)).
Proof.
  intros Hd. rewrite od_keys_set. destruct (od_mem k d) eqn:H; [done|]. apply bool_decide_eq_false in H.
  apply list.NoDup_app. split; [done|]. split; [|apply NoDup_singleton].
  intros x Hx ->%list_elem_of_singleton. by apply H, od_keys_get.
Qed.

Lemma od_del_sub k d x : x ∈ od_del k d -> x ∈ d.
Proof.
  induction d as [|[k2 v2] d IH]; simpl; [done|].
  destruct (decide (k2 = k)); [by right|]. rewrite !elem_of_cons. intros [->|H]; auto.
Qed.

Lemma od_nodup_del k d : NoDup (od_keys d) -> NoDup (od_keys (od_del k d)).
Proof.
  induction d as [|[k2 v2] d IH]; simpl; [done|]. intros [Hn Hd]%list.NoDup_cons.
  destruct (decide (k2 = k)); [done|]. apply list.NoDup_cons. split; [|by apply IH].
  intros ([k3 v3] & Heq & Hin)%list_elem_of_fmap. apply Hn. apply list_elem_of_fmap.
  exists (k3, v3). split; [done|]. by eapply od_del_sub.
Qed.

Lemma od_get_del k k' d :
  NoDup (od_keys d) -> od_get k' (od_del k d) = if decide (k = k') then None else od_get k' d.
Proof.
  induction d as [|[k2 v2] d IH]; simpl; [by destruct (decide _)|].
  intros [Hn Hd]%list.NoDup_cons. destruct (decide (k2 = k)) as [->|Hne]; simpl.
  - destruct (decide (k = k')) as [->|]; [|done].
    destruct (od_get k' d) eqn:E; [|done]. destruct Hn. apply od_keys_get. by eexists.
  - rewrite IH by done. destruct (decide (k2 = k')) as [->|], (decide (k = k')); congruence.
Qed.

Lemma od_sum_cons f k v d : od_sum f ((k, v) :: d) = f v + od_sum f d.
Proof. done. Qed.

Lemma od_sum_set f k v d :
  od_sum f (od_set k v d) = od_sum f d + f v - default 0 (f <$> od_get k d).
Proof.
  induction d as [|[k2 v2] d IH]; simpl; [unfold od_sum, sumZ; simpl; lia|].
  destruct (decide (k2 = k)) as [->|Hne]; rewrite ?od_sum_cons; simpl; lia.
Qed.

Lemma od_sum_del f k d : od_sum f (od_del k d) = od_sum f d - default 0 (f <$> od_get k d).
Proof.
  induction d as [|[k2 v2] d IH]; simpl; [unfold od_sum, sumZ; simpl; lia|].
  destruct (decide (k2 = k)) as [->|Hne]; rewrite ?od_sum_cons; simpl; lia.
Qed.

Lemma od_sum_perm f d d' : d ≡ₚ d' -> od_sum f d = od_sum f d'.
Proof.
  induction 1 as [|[k v] d d' _ IH|[k v] [k' v'] d|]; rewrite ?od_sum_cons; [done| | |]; lia.
Qed.

Lemma od_get_perm k d d' : NoDup (od_keys d) -> d ≡ₚ d' -> od_get k d = od_get k d'.
Proof.
  intros Hd Hp. assert (NoDup (od_keys d')) as Hd' by (unfold od_keys; by rewrite <- Hp).
  destruct (od_get k d) as [v|] eqn:E.
  - apply od_get_elem in E; [|done]. rewrite Hp in E. symmetry. by apply od_get_elem.
  - destruct (od_get k d') as [v|] eqn:E'; [|done].
    apply od_get_elem in E'; [|done]. rewrite <- Hp in E'. apply od_get_elem in E'; [|done].
    congruence.
Qed.

Lemma od_sum_nonneg f d : (forall k v, (k, v) ∈ d -> 0 <= f v) -> 0 <= od_sum f d.
Proof.
  induction d as [|[k v] d IH]; intros Hf; [done|]. rewrite od_sum_cons.
  assert (0 <= f v) by (apply (Hf k); by left).
  assert (0 <= od_sum f d) by (apply IH; intros k' v' Hin; apply (Hf k'); by right). lia.
Qed.

End odict.
Arguments odict : clear implicits.

(** ** The cache policy

    [update_on_hit] reorders the dictionary; candidates for eviction are entries the
    policy may evict. *)
Class CachePolicy (K V P : Type) `{EqDecision K} := {
  policy_hit : K -> P -> odict K V -> result (P * odict K V);
  policy_put : K -> P -> P;
  policy_force_evict : K -> P -> P;
  policy_candidates : P -> odict K V -> nat -> list K;
}.

Class CachePolicyLaws (K V P : Type) `{EqDecision K} `{!CachePolicy K V P}
    (can_evict : V -> bool) := {
  hit_perm : forall k p c p' c', policy_hit k p c = Ok (p', c') -> c' ≡ₚ c;
  hit_total : forall k p c, od_mem k c = true -> exists p' c', policy_hit k p c = Ok (p', c');
  candidates_evictable : forall p c n k, k ∈ policy_candidates p c n ->
    exists v, od_get k c = Some v /\ can_evict v = true;
  candidates_nodup : forall p c n, NoDup (policy_candidates p c n);
  candidates_length : forall p c n, (length (policy_candidates p c n) <= n)%nat;
}.

(** Least recently used first: the order of the dictionary itself *)
Module Lru.
Section lru.
Context {K V : Type} `{EqDecision K} (can_evict : V -> bool).

Definition lru_hit (k : K) (p : unit) (c : odict K V) : result (unit * odict K V) :=
  match od_get k c with
  | Some v => Ok (p, od_del k c ++ [(k, v)])
  | None => Raise KeyError
  end.

Definition lru_evictable (c : odict K V) (k : K) : bool :=
  match od_get k c with Some v => can_evict v | None => false end.

Definition lru_candidates (p : unit) (c : odict K V) (n : nat) : list K :=
  take n (filter (fun k => lru_evictable c k = true) (remove_dups (od_keys c))).

#[global] Instance lru_policy : CachePolicy K V unit := {
  policy_hit := lru_hit;
  policy_put _ p := p;
  policy_force_evict _ p := p;
  policy_candidates := lru_candidates;
}.

Lemma od_del_perm k v (c : odict K V) : od_get k c = Some v -> od_del k c ++ [(k, v)] ≡ₚ c.
Proof.
  induction c as [|[k2 v2] c IH]; simpl; [done|]. destruct (decide (k2 = k)) as [->|].
  - intros [= ->]. by rewrite Permutation_app_comm.
  - intros H. simpl. by rewrite IH.
Qed.

#[global] Instance lru_laws : CachePolicyLaws K V unit can_evict.
Proof.
  constructor; simpl.
  - intros k p c p' c'. unfold lru_hit. destruct (od_get k c) eqn:E; [|done].
    intros [= <- <-]. by apply od_del_perm.
  - intros k p c. unfold od_mem, lru_hit. intros [v ->]%bool_decide_eq_true. eauto.
  - intros p c n k Hin. unfold lru_candidates in Hin.
    apply (subseteq_take n) in Hin. apply list_elem_of_filter in Hin as [Hk _].
    unfold lru_evictable in Hk. destruct (od_get k c); [eauto|done].
  - intros p c n. unfold lru_candidates. eapply sublist_NoDup; [|apply sublist_take].
    apply list.NoDup_filter, list.NoDup_remove_dups.
  - intros p c n. unfold lru_candidates. rewrite length_take. lia.
Qed.

End lru.
End Lru.
