(* ===== verification/XdsIndex.v ===== *)
(** * The XDS index

    The in-memory state of [XdsBackend] ([xds_backend.py]): [hot_cache], its size
    accounting, the put tasks, eviction, pinning, and the operations that publish and
    drop entries. Every operation is atomic under [hot_lock] unless it is written as
    several. *)

From S2P Require Import Prelude Tensor Codec BlockFirst DirectIO World HipFile XdsFiles XdsPaths XdsMeta Dict.

Open Scope string_scope.
Open Scope list_scope.
Open Scope Z_scope.

(** ** Data *)

(** [XDSCacheMetadata] *)
Record XDSCacheMetadata {Dt : Type} := MkXDSCacheMetadata {
  xm_path : string;
  xm_size : Z;
  xm_shape : option (list Z);
  xm_dtype : option Dt;
  xm_fmt : option string;
  pin_count : Z;
  disk_metadata : option BlockFirstDiskMetadata;
}.
Arguments XDSCacheMetadata : clear implicits.

Definition KV_2LTD : string := "KV_2LTD".

(** What the backend reads of a [MemoryObj] with a tensor *)
Record memory_obj {Dt : Type} := MemoryObj {
  mo_id : Z;
  mo_tensor_shape : list Z;       (* tensor.shape *)
  mo_shape : list Z;              (* metadata.shape *)
  mo_dtype : Dt;
  mo_fmt : string;
  mo_size : Z;                    (* get_size() *)
  mo_physical_size : Z;           (* get_physical_size() *)
}.
Arguments memory_obj : clear implicits.

Section meta_ops.
Context {Dt : Type}.
Implicit Types m : XDSCacheMetadata Dt.

Definition set_pin_count (n : Z) m : XDSCacheMetadata Dt :=
  MkXDSCacheMetadata _ (xm_path m) (xm_size m) (xm_shape m) (xm_dtype m) (xm_fmt m) n
    (disk_metadata m).

Definition xm_pin m := set_pin_count (pin_count m + 1) m.
Definition xm_unpin m := set_pin_count (pin_count m - 1) m.
Definition is_pinned m : bool := 0 <? pin_count m.
Definition can_evict m : bool := negb (is_pinned m).

End meta_ops.

(** A queued put: the arguments of [_async_save_bytes_to_storage] *)
Record put_job {K Dt : Type} := PutJob {
  job_key : K;
  job_obj : memory_obj Dt;
  job_reserved : Z;
}.
Arguments put_job : clear implicits.

(** The configuration the operations read *)
Record xds_config {Dt : Type} := XdsConfig {
  xc_engine : xds_engine Dt;
  eviction : bool;
  max_xds_size : Z;
  block_first_enabled : bool;
  cpu_store_enabled : bool;
  direct_store_enabled : bool;
  has_allocator : bool;             (* memory_allocator is not None *)
  xds_buffer_size : option Z;
  xds_path : string;
  legacy_dtypes : list Dt;          (* torch_dtypes *)
}.
Arguments xds_config : clear implicits.

Record xds_state {K Dt P : Type} := XdsState {
  x_io : xds_io;
  hot_cache : odict K (XDSCacheMetadata Dt);
  current_cache_size : Z;
  put_tasks : list K;
  keys_in_request : list K;
  metadata_dirs : gset string;
  policy : P;
  put_queue : list (put_job K Dt);
  ref_counts : gmap Z Z;            (* by object, relative to the start *)
  use_noatime : bool;
}.
Arguments xds_state : clear implicits.

Section setters.
Context {K Dt P : Type}.
Implicit Types s : xds_state K Dt P.

Definition with_io (i : xds_io) s := XdsState _ _ _ i (hot_cache s) (current_cache_size s)
  (put_tasks s) (keys_in_request s) (metadata_dirs s) (policy s) (put_queue s) (ref_counts s)
  (use_noatime s).
Definition with_hot (h : odict K (XDSCacheMetadata Dt)) s := XdsState _ _ _ (x_io s) h
  (current_cache_size s) (put_tasks s) (keys_in_request s) (metadata_dirs s) (policy s)
  (put_queue s) (ref_counts s) (use_noatime s).
Definition with_size (n : Z) s := XdsState _ _ _ (x_io s) (hot_cache s) n (put_tasks s)
  (keys_in_request s) (metadata_dirs s) (policy s) (put_queue s) (ref_counts s) (use_noatime s).
Definition with_tasks (l : list K) s := XdsState _ _ _ (x_io s) (hot_cache s)
  (current_cache_size s) l (keys_in_request s) (metadata_dirs s) (policy s) (put_queue s)
  (ref_counts s) (use_noatime s).
Definition with_request (l : list K) s := XdsState _ _ _ (x_io s) (hot_cache s)
  (current_cache_size s) (put_tasks s) l (metadata_dirs s) (policy s) (put_queue s)
  (ref_counts s) (use_noatime s).
Definition with_dirs (d : gset string) s := XdsState _ _ _ (x_io s) (hot_cache s)
  (current_cache_size s) (put_tasks s) (keys_in_request s) d (policy s) (put_queue s)
  (ref_counts s) (use_noatime s).
Definition with_policy (p : P) s := XdsState _ _ _ (x_io s) (hot_cache s)
  (current_cache_size s) (put_tasks s) (keys_in_request s) (metadata_dirs s) p (put_queue s)
  (ref_counts s) (use_noatime s).
Definition with_queue (q : list (put_job K Dt)) s := XdsState _ _ _ (x_io s) (hot_cache s)
  (current_cache_size s) (put_tasks s) (keys_in_request s) (metadata_dirs s) (policy s) q
  (ref_counts s) (use_noatime s).
Definition with_refs (r : gmap Z Z) s := XdsState _ _ _ (x_io s) (hot_cache s)
  (current_cache_size s) (put_tasks s) (keys_in_request s) (metadata_dirs s) (policy s)
  (put_queue s) r (use_noatime s).
Definition with_noatime (b : bool) s := XdsState _ _ _ (x_io s) (hot_cache s)
  (current_cache_size s) (put_tasks s) (keys_in_request s) (metadata_dirs s) (policy s)
  (put_queue s) (ref_counts s) b.

(** An operation on the files and devices *)
Definition on_io {A} (m : ST xds_io A) : ST (xds_state K Dt P) A := fun s =>
  let '(r, i) := m (x_io s) in (r, with_io i s).

End setters.

(** ** The file layer's interface

    How a chunk's bytes reach its file and come back ([_save_xds], [_save_posix],
    [_save_block_first_xds], [_load_xds], ...), and the allocator. *)
Class ChunkIO (Dt : Type) := {
  store_chunk : xds_config Dt -> string -> memory_obj Dt -> bool ->
    ST xds_io (option BlockFirstDiskMetadata);
  load_chunk : xds_config Dt -> string -> XDSCacheMetadata Dt -> memory_obj Dt -> ST xds_io Z;
  allocate_obj : list Z -> Dt -> ST xds_io (option (memory_obj Dt));
}.

Section ops.
Context {K Dt P : Type} `{!CacheKey K, !TorchDtype Dt} {JC : JsonCodec} {HL : HyFileLib}.
Context `{!CachePolicy K (XDSCacheMetadata Dt) P} `{!ChunkIO Dt}.
Context (cfg : xds_config Dt).
Implicit Types (key : K) (mo : memory_obj Dt).

(** ** [XdsWorker] *)

Definition insert_put_task key : ST (xds_state K Dt P) unit :=
  st_modify (fun s => with_tasks (put_tasks s ++ [key]) s).

(** [list.remove]: the first occurrence *)
Fixpoint remove_first key (l : list K) : list K :=
  match l with
  | [] => []
  | k :: l' => if decide (k = key) then l' else k :: remove_first key l'
  end.

Definition remove_put_task key : ST (xds_state K Dt P) unit :=
  st_modify (fun s => with_tasks (remove_first key (put_tasks s)) s).

Definition exists_in_put_tasks key : ST (xds_state K Dt P) bool :=
  st_gets (fun s => bool_decide (key ∈ put_tasks s)).

(** ** The cache policy on the index *)

Definition update_on_hit key : ST (xds_state K Dt P) unit :=
  s ← st_get;
  '(p, h) ← st_lift (policy_hit key (policy s) (hot_cache s));
  st_put (with_policy p (with_hot h s)).

Definition update_on_put key : ST (xds_state K Dt P) unit :=
  st_modify (fun s => with_policy (policy_put key (policy s)) s).

Definition update_on_force_evict key : ST (xds_state K Dt P) unit :=
  st_modify (fun s => with_policy (policy_force_evict key (policy s)) s).

Definition add_size (n : Z) : ST (xds_state K Dt P) unit :=
  st_modify (fun s => with_size (current_cache_size s + n) s).

Definition hot_get key : ST (xds_state K Dt P) (option (XDSCacheMetadata Dt)) :=
  st_gets (fun s => od_get key (hot_cache s)).

Definition hot_set key (m : XDSCacheMetadata Dt) : ST (xds_state K Dt P) unit :=
  st_modify (fun s => with_hot (od_set key m (hot_cache s)) s).

Definition hot_del key : ST (xds_state K Dt P) unit :=
  st_modify (fun s => with_hot (od_del key (hot_cache s)) s).

(** ** Lookups and pins *)

Definition pin_entry key : ST (xds_state K Dt P) unit :=
  st_modify (fun s => with_hot (od_alter xm_pin key (hot_cache s)) s).

Definition request key : ST (xds_state K Dt P) unit :=
  st_modify (fun s => with_request (keys_in_request s ++ [key]) s).

Definition contains key (pin : bool) : ST (xds_state K Dt P) bool :=
  s ← st_get;
  if negb (od_mem key (hot_cache s)) then mret false
  else
    (if pin then pin_entry key;; request key else mret tt);;
    mret true.

Fixpoint batched_contains_from (pin : bool) (n : Z) (keys : list K) : ST (xds_state K Dt P) Z :=
  match keys with
  | [] => mret n
  | key :: rest =>
      found ← contains key pin;
      if negb found then mret n else batched_contains_from pin (n + 1) rest
  end.

(** The number of leading keys in the index *)
Definition batched_async_contains (keys : list K) (pin : bool) : ST (xds_state K Dt P) Z :=
  batched_contains_from pin 0 keys.

Definition touch_cache : ST (xds_state K Dt P) unit :=
  s ← st_get;
  st_iter update_on_hit (rev (keys_in_request s));;
  st_modify (with_request []).

Definition pin key : ST (xds_state K Dt P) bool :=
  s ← st_get;
  if od_mem key (hot_cache s) then pin_entry key;; mret true else mret false.

Definition unpin key : ST (xds_state K Dt P) bool :=
  s ← st_get;
  if od_mem key (hot_cache s)
  then st_modify (fun s => with_hot (od_alter xm_unpin key (hot_cache s)) s);; mret true
  else mret false.

(** ** Removal and eviction *)

(** [os.remove] of each path, ignoring [OSError] *)
Definition unlink_quietly (path : string) : ST (xds_state K Dt P) unit :=
  on_io (on_world (st_catch is_os_error (os_remove path) (fun _ => mret tt))).

Definition remove key : ST (xds_state K Dt P) bool :=
  entry ← hot_get key;
  match entry with
  | None => mret false
  | Some m =>
      hot_del key;;
      update_on_force_evict key;;
      add_size (- xm_size m);;
      st_iter unlink_quietly [xm_path m +:+ METADATA_FILE_SUFFIX; xm_path m];;
      mret true
  end.

(** [hot_cache.pop(evict_key)] and its accounting; the path to unlink later *)
Definition evict_key key : ST (xds_state K Dt P) string :=
  entry ← hot_get key;
  match entry with
  | None => st_raise KeyError
  | Some m =>
      hot_del key;;
      update_on_force_evict key;;
      add_size (- xm_size m);;
      mret (xm_path m)
  end.

Fixpoint evict_keys (keys : list K) : ST (xds_state K Dt P) (list string) :=
  match keys with
  | [] => mret []
  | key :: rest => p ← evict_key key; ps ← evict_keys rest; mret (p :: ps)
  end.

(** The loop of [_eviction]; each round drops an entry, so the number of entries
    bounds the rounds. *)
Fixpoint evict_loop (fuel : nat) (required_size : Z) (evicted : list string)
    : ST (xds_state K Dt P) (option (bool * list string)) :=
  match fuel with
  | O => mret None
  | S fuel' =>
      s ← st_get;
      if negb (max_xds_size cfg <? current_cache_size s + required_size)
      then mret (Some (true, evicted))
      else
        match policy_candidates (policy s) (hot_cache s) 1 with
        | [] => mret (Some (false, evicted))
        | keys => ps ← evict_keys keys; evict_loop fuel' required_size (evicted ++ ps)
        end
  end.

Definition evict (required_size : Z) : ST (xds_state K Dt P) bool :=
  s ← st_get;
  r ← evict_loop (S (length (hot_cache s))) required_size [];
  match r with
  | None => st_raise (RuntimeError "eviction did not end")
  | Some (success, evicted) =>
      (if success : bool then add_size required_size else mret tt);;
      st_iter unlink_quietly (p ← evicted; [p +:+ METADATA_FILE_SUFFIX; p]);;
      mret success
  end.

(** ** Publishing entries *)

(** A block-first file's entry *)
Definition block_first_entry (path : string) (dm : BlockFirstDiskMetadata)
    : result (XDSCacheMetadata Dt) :=
  dt ← torch_dtype (Dt := Dt) dm;
  mret (MkXDSCacheMetadata _ path (BLOCK_FIRST_HEADER_SIZE + io_nbytes dm)
    (Some (logical_shape dm)) (Some dt) (Some KV_2LTD) 0 (Some dm)).

Definition insert_direct_key key (path : string) (dm : BlockFirstDiskMetadata) : ST (xds_state K Dt P) unit :=
  m ← st_lift (block_first_entry path dm); hot_set key m.

Definition insert_key key mo (path : option string) (dm : option BlockFirstDiskMetadata)
    (stored_size : option Z) : ST (xds_state K Dt P) unit :=
  s ← st_get;
  if od_mem key (hot_cache s) then update_on_hit key
  else
    let path := match path with
                | Some p => p
                | None => (key_to_path (xds_path cfg) key false).1.1.1
                end in
    let size := match dm with
                | Some m => BLOCK_FIRST_HEADER_SIZE + io_nbytes m
                | None => default (mo_physical_size mo) stored_size
                end in
    hot_set key (MkXDSCacheMetadata _ path size (Some (mo_shape mo)) (Some (mo_dtype mo))
      (Some (mo_fmt mo)) 0 dm).

(** The index update shared by the two metadata readers *)
Definition index_entry key (subdir_key : string) (m : XDSCacheMetadata Dt) : ST (xds_state K Dt P) unit :=
  previous ← hot_get key;
  (match previous with Some p => add_size (- xm_size p) | None => mret tt end);;
  st_modify (fun s => with_dirs ({[ subdir_key ]} ∪ metadata_dirs s) s);;
  hot_set key m;;
  add_size (xm_size m).

(** The header and size of a block-first file, with or without direct I/O *)
Definition read_block_first_file (env : world -> world) (filename : string)
    : ST world (BlockFirstDiskMetadata * Z) :=
  if xe_direct_enabled (xc_engine cfg) then read_direct_header_and_size (Dt := Dt) env filename
  else
    fd ← os_open filename O_RDONLY;
    header ← st_finally (os_pread fd BLOCK_FIRST_HEADER_SIZE) (os_close fd);
    dm ← st_lift (unpack_block_first_header (Dt := Dt) header);
    st_modify env;;
    size ← os_getsize filename;
    mret (dm, size).

(** The checks of [_read_block_first_metadata] *)
Definition check_block_first_file (dm : BlockFirstDiskMetadata) (actual_size : Z) : result unit :=
  let e := xc_engine cfg in
  raise_if (negb (valid_tokens dm =? xe_chunk_size e))
    (BlockFirstFormatError "block_first_v1 file is not a complete LMCache chunk");;
  match one_group e with
  | None => Raise (BlockFirstFormatError "block_first_v1 requires exactly one active KV layer group")
  | Some (shape, dt) =>
      match xe_block_size e with
      | None => Raise AssertionError
      | Some bs =>
          validate_runtime dm shape dt (xe_layout e) bs;;
          raise_if (negb (actual_size =? BLOCK_FIRST_HEADER_SIZE + io_nbytes dm))
            (BlockFirstFormatError "block-first file size mismatch")
      end
  end.

Definition read_block_first_metadata (env : world -> world) key (filename subdir_key : string)
    : ST (xds_state K Dt P) (XDSCacheMetadata Dt) :=
  '(dm, actual_size) ← on_io (on_world (read_block_first_file env filename));
  st_lift (check_block_first_file dm actual_size);;
  m ← st_lift (block_first_entry filename dm);
  index_entry key subdir_key m;;
  mret m.

(** [filename.removesuffix(s)] *)
Definition removesuffix (s suf : string) : string := default s (strip_suffix suf s).

(** A legacy sidecar never replaces a block-first entry. *)
Definition read_metadata key (filename subdir_key : string) : ST (xds_state K Dt P) (XDSCacheMetadata Dt) :=
  s ← st_get;
  '(noatime, (shape, dt, size)) ←
    on_io (on_world (read_metadata_info (legacy_dtypes cfg) (use_noatime s) filename));
  st_modify (with_noatime noatime);;
  st_lift (check_metadata_size (xds_buffer_size cfg) shape dt size);;
  let m := MkXDSCacheMetadata _ (removesuffix filename METADATA_FILE_SUFFIX) size (Some shape)
             (Some dt) None 0 None in
  previous ← hot_get key;
  match previous with
  | Some p =>
      match disk_metadata p with
      | Some _ => mret p
      | None => index_entry key subdir_key m;; mret m
      end
  | None => index_entry key subdir_key m;; mret m
  end.

Definition is_format_error (e : exn) : bool :=
  match e with BlockFirstFormatError _ => true | e => is_os_error e end.
Definition is_unsupported (e : exn) : bool :=
  match e with UnsupportedMetadataVersion _ => true | _ => false end.

Definition try_to_read_metadata (env : world -> world) key : ST (xds_state K Dt P) (option (XDSCacheMetadata Dt)) :=
  first ← (if block_first_enabled cfg then
      let '(path, subdir_key, _, _) := key_to_path (xds_path cfg) key true in
      found ← on_io (on_world (os_exists path));
      if found : bool then
        st_catch is_format_error
          (m ← read_block_first_metadata env key path subdir_key; mret (Some m))
          (fun _ => mret None)
      else mret None
    else mret None);
  match first with
  | Some m => mret (Some m)
  | None =>
      let '(path, subdir_key, _, _) := key_to_path (xds_path cfg) key false in
      let path := path +:+ METADATA_FILE_SUFFIX in
      found ← on_io (on_world (os_exists path));
      if found : bool then
        st_catch is_unsupported (m ← read_metadata key path subdir_key; mret (Some m))
          (fun _ => mret None)
      else mret None
  end.

(** One directory entry of the startup scan *)
Definition scan_file (env : world -> world) (world_id : Z) (path name subdir_key : string) : ST (xds_state K Dt P) unit :=
  match scan_entry (K := K) (block_first_enabled cfg) world_id name with
  | ScanSkip => mret tt
  | ScanDelete => on_io (on_world (os_remove path))
  | ScanBlockFirst key =>
      st_catch is_format_error (_ ← read_block_first_metadata env key path subdir_key; mret tt)
        (fun _ => mret tt)
  | ScanLegacy key =>
      st_catch is_unsupported (_ ← read_metadata key path subdir_key; mret tt) (fun _ => mret tt)
  end.

(** ** Storing *)

(** [_use_block_first_for_tensor] *)
Definition use_block_first_for_tensor (shape : list Z) : result bool :=
  if negb (block_first_enabled cfg) then Ok false
  else match shape with
       | [two; _; tokens; _] =>
           raise_if (negb (two =? 2))
             (BlockFirstFormatError "block_first_v1 source must use logical [2, NL, T, D] layout");;
           mret (tokens =? xe_chunk_size (xc_engine cfg))
       | _ => Raise (BlockFirstFormatError
                "block_first_v1 source must use logical [2, NL, T, D] layout")
       end.

Definition required_store_size mo : result Z :=
  bf ← use_block_first_for_tensor (mo_tensor_shape mo);
  if bf : bool then
    padded ← align_up (mo_size mo) BLOCK_FIRST_ALIGNMENT;
    mret (BLOCK_FIRST_HEADER_SIZE + padded)
  else mret (mo_physical_size mo).

Definition ref_count_add (id d : Z) : ST (xds_state K Dt P) unit :=
  st_modify (fun s => with_refs (<[id := default 0 (ref_counts s !! id) + d]> (ref_counts s)) s).

Definition reserve (required_size : Z) : ST (xds_state K Dt P) bool :=
  if eviction cfg then evict required_size else add_size required_size;; mret true.

Definition submit_put_task key mo : ST (xds_state K Dt P) unit :=
  if negb (has_allocator cfg) && negb (cpu_store_enabled cfg) then mret tt
  else
    pending ← exists_in_put_tasks key;
    if pending : bool then mret tt
    else
      existing ← hot_get key;
      match existing ≫= disk_metadata with
      | Some _ => update_on_hit key
      | None =>
          insert_put_task key;;
          required_size ← st_lift (required_store_size mo);
          success ← reserve required_size;
          if negb success then remove_put_task key
          else
            update_on_put key;;
            ref_count_add (mo_id mo) 1;;
            st_modify (fun s => with_queue (put_queue s ++ [PutJob _ _ key mo required_size]) s)
      end.

Definition batched_submit_put_task (items : list (K * memory_obj Dt)) : ST (xds_state K Dt P) unit :=
  st_iter (fun '(key, mo) => submit_put_task key mo) items.

(** The files a failed store may have left *)
Definition cleanup_paths (path : string) (use_block_first : bool) : list string :=
  let tmp := py_replace path DATA_FILE_SUFFIX DATA_FILE_SUFFIX_TMP in
  [path +:+ BLOCK_FIRST_DATA_FILE_SUFFIX_TMP; tmp; tmp +:+ METADATA_FILE_SUFFIX_TMP;
   path +:+ METADATA_FILE_SUFFIX] ++ (if use_block_first then [] else [path]).

Definition unlink_if_exists (path : string) : ST (xds_state K Dt P) unit :=
  found ← on_io (on_world (os_exists path));
  if found : bool then unlink_quietly path else mret tt.

(** [_async_save_bytes_to_storage], run by the worker on a queued job *)
Definition async_save_bytes_to_storage (j : put_job K Dt) : ST (xds_state K Dt P) unit :=
  let key := job_key j in
  let mo := job_obj j in
  use_block_first ← st_lift (use_block_first_for_tensor (mo_tensor_shape mo));
  let path := (key_to_path (xds_path cfg) key use_block_first).1.1.1 in
  st_finally
    (st_catch any_exn
      (on_io (on_world os_makedirs);;
       dm ← (if cpu_store_enabled cfg && negb use_block_first then
               st_raise (BlockFirstFormatError "xds_cpu_store requires a complete chunk")
             else on_io (store_chunk cfg path mo use_block_first));
       insert_key key mo (Some path) dm (Some (job_reserved j)))
      (fun _ =>
       st_iter unlink_if_exists (cleanup_paths path use_block_first);;
       hot_del key;;
       add_size (- job_reserved j)))
    (ref_count_add (mo_id mo) (-1);; remove_put_task key).

(** The executor takes a job off its queue and runs it; the job's exception is logged. *)
Definition run_put_worker (i : nat) : ST (xds_state K Dt P) unit :=
  s ← st_get;
  match put_queue s !! i with
  | None => mret tt
  | Some j =>
      st_modify (with_queue (delete i (put_queue s)));;
      st_catch any_exn (async_save_bytes_to_storage j) (fun _ => mret tt)
  end.

(** ** Loading *)

(** The byte count a complete load returns *)
Definition expected_load_size (m : XDSCacheMetadata Dt) : result Z :=
  match disk_metadata m with
  | Some dm => Ok (io_nbytes dm)
  | None =>
      match xds_buffer_size cfg with
      | Some _ => Ok (xm_size m)
      | None =>
          match xm_shape m, xm_dtype m with
          | Some shape, Some dt => Ok (prodZ shape * itemsize dt)
          | _, _ => Raise AssertionError
          end
      end
  end.

Definition load_bytes_with_memory key (path : string) (memory : option (memory_obj Dt))
    : ST (xds_state K Dt P) (option (memory_obj Dt)) :=
  match memory with
  | None => mret None
  | Some mo =>
      entry ← hot_get key;
      match entry with
      | None => mret None
      | Some m =>
          size ← st_lift (expected_load_size m);
          ret ← (match disk_metadata m with
                 | Some _ => st_catch is_format_error (on_io (load_chunk cfg path m mo))
                               (fun _ => mret (-1))
                 | None => on_io (load_chunk cfg path m mo)
                 end);
          if negb (ret =? size) then
            current ← hot_get key;
            (match current with
             | Some c => hot_del key;; add_size (- xm_size c)
             | None => mret tt
             end);;
            ref_count_add (mo_id mo) (-1);;
            mret None
          else mret (Some mo)
      end
  end.

Definition load_bytes_with_allocation key (path : string) (dt : Dt) (shape : list Z)
    : ST (xds_state K Dt P) (option (memory_obj Dt)) :=
  memory ← on_io (allocate_obj shape dt);
  match memory with
  | None => mret None
  | Some mo => ref_count_add (mo_id mo) 1;; load_bytes_with_memory key path (Some mo)
  end.

Definition get_blocking key : ST (xds_state K Dt P) (option (memory_obj Dt)) :=
  if negb (has_allocator cfg) then mret None
  else
    entry ← hot_get key;
    match entry with
    | None => mret None
    | Some m =>
        update_on_hit key;;
        match xm_dtype m, xm_shape m with
        | Some dt, Some shape => load_bytes_with_allocation key (xm_path m) dt shape
        | _, _ => st_raise AssertionError
        end
    end.

(** ** The backend as a sequence of operations *)

Inductive index_op :=
  | OpContains key (pin : bool)
  | OpBatchedContains (keys : list K) (pin : bool)
  | OpTouch
  | OpPin key
  | OpUnpin key
  | OpRemove key
  | OpSubmit key mo
  | OpRunPut (i : nat)
  | OpGet key
  | OpScanFile (env : world -> world) (world_id : Z) (path name subdir : string)
  | OpTryRead (env : world -> world) key.

Definition forget {A} (m : ST (xds_state K Dt P) A) : ST (xds_state K Dt P) unit := _ ← m; mret tt.

Definition run_op (o : index_op) : ST (xds_state K Dt P) unit :=
  match o with
  | OpContains key b => forget (contains key b)
  | OpBatchedContains keys b => forget (batched_async_contains keys b)
  | OpTouch => touch_cache
  | OpPin key => forget (pin key)
  | OpUnpin key => forget (unpin key)
  | OpRemove key => forget (remove key)
  | OpSubmit key mo => submit_put_task key mo
  | OpRunPut i => run_put_worker i
  | OpGet key => forget (get_blocking key)
  | OpScanFile env w path name subdir => scan_file env w path name subdir
  | OpTryRead env key => forget (try_to_read_metadata env key)
  end.

(** Callers see exceptions and go on. *)
Definition run_ops (ops : list index_op) : ST (xds_state K Dt P) unit :=
  st_iter (fun o => st_catch any_exn (run_op o) (fun _ => mret tt)) ops.

Definition xds_initial (io : xds_io) (p : P) : xds_state K Dt P :=
  XdsState _ _ _ io [] 0 [] [] ∅ p [] ∅ true.

End ops.

(** A memory object is as large as its tensor. *)
Definition mo_sized {Dt : Type} `{!TorchDtype Dt} (mo : memory_obj Dt) : Prop :=
  mo_size mo = prodZ (mo_tensor_shape mo) * itemsize (mo_dtype mo).

(** What the file layer promises: a block-first store publishes the object's bytes padded
    to the alignment, a legacy one publishes no block-first metadata. *)
Class ChunkIOLaws (Dt : Type) `{!TorchDtype Dt, !ChunkIO Dt} := {
  store_size : forall cfg path mo bf i r i', mo_sized mo ->
    store_chunk cfg path mo bf i = (Ok r, i') ->
    match r with
    | Some dm => bf = true /\ align_up (mo_size mo) BLOCK_FIRST_ALIGNMENT = Ok (io_nbytes dm)
    | None => bf = false
    end;
}.

(** ** Lemmas: the invariant *)

Section facts.
Context {K Dt P : Type} `{!CacheKey K, !TorchDtype Dt, !TorchDtypeLaws Dt} {JC : JsonCodec}.
Context {HL : HyFileLib}.
Context `{!CachePolicy K (XDSCacheMetadata Dt) P, !CachePolicyLaws K (XDSCacheMetadata Dt) P can_evict}.
Context (cfg : xds_config Dt).
Implicit Types (key : K) (mo : memory_obj Dt) (s : xds_state K Dt P).

(** The limit the invariant is to keep, if any *)
Context (limit : option Z).

Definition within_limit (n : Z) : Prop := match limit with Some c => n <= c | None => True end.

Definition job_ok (j : put_job K Dt) : Prop :=
  required_store_size cfg (job_obj j) = Ok (job_reserved j) /\ 0 <= job_reserved j
  /\ mo_sized (job_obj j).

(** Entries and reservations, with [n] bytes to spare, are within the counted size. *)
Record index_ok (n : Z) s : Prop := {
  ix_nodup : NoDup (od_keys (hot_cache s));
  ix_sizes : forall k m, (k, m) ∈ hot_cache s -> 0 <= xm_size m;
  ix_jobs : Forall job_ok (put_queue s);
  ix_sum : od_sum xm_size (hot_cache s) + sumZ (job_reserved <$> put_queue s) + n
           <= current_cache_size s;
  ix_limit : within_limit (current_cache_size s);
}.

Lemma within_limit_le n n' : n' <= n -> within_limit n -> within_limit n'.
Proof. unfold within_limit. destruct limit; [lia|done]. Qed.

Lemma index_ok_weaken n n' s : n' <= n -> index_ok n s -> index_ok n' s.
Proof. intros Hn [H1 H2 H3 H4 H5]. split; try done. lia. Qed.

(** Only the index, the counter and the queue matter. *)
Lemma index_ok_ext n s s' :
  hot_cache s' = hot_cache s -> put_queue s' = put_queue s ->
  current_cache_size s' = current_cache_size s -> index_ok n s -> index_ok n s'.
Proof. intros E1 E2 E3 [H1 H2 H3 H4 H5]. split; rewrite ?E1, ?E2, ?E3; done. Qed.

Lemma on_io_ok {A} n (m : ST xds_io A) : preserves (index_ok n) (on_io m).
Proof.
  intros s Hs. unfold on_io. destruct (m (x_io s)) as [r i]. by eapply index_ok_ext; [..|exact Hs].
Qed.

Lemma modify_ok n (f : xds_state K Dt P -> xds_state K Dt P) :
  (forall s, hot_cache (f s) = hot_cache s /\ put_queue (f s) = put_queue s
     /\ current_cache_size (f s) = current_cache_size s) ->
  preserves (index_ok n) (st_modify f).
Proof. intros Hf s Hs. destruct (Hf s) as (E1 & E2 & E3). by eapply index_ok_ext; [..|exact Hs]. Qed.

Lemma perm_ok n s (h : odict K (XDSCacheMetadata Dt)) p :
  h ≡ₚ hot_cache s -> index_ok n s -> index_ok n (with_policy p (with_hot h s)).
Proof.
  intros Hp [H1 H2 H3 H4 H5]. split; simpl; try done.
  - unfold od_keys. by rewrite Hp.
  - intros k m Hin. rewrite Hp in Hin. by eapply H2.
  - by rewrite (od_sum_perm _ _ _ Hp).
Qed.

Lemma update_on_hit_ok n key : preserves (index_ok n) (update_on_hit key).
Proof.
  intros s Hs. unfold update_on_hit, st_get, st_lift, mbind, ST_bind.
  destruct (policy_hit key (policy s) (hot_cache s)) as [[p h]|e] eqn:E; [|done].
  simpl. apply perm_ok; [by eapply hit_perm|done].
Qed.

Lemma elem_of_od_set k m k' m' (d : odict K (XDSCacheMetadata Dt)) :
  (k', m') ∈ od_set k m d -> m' = m \/ (k', m') ∈ d.
Proof.
  induction d as [|[k2 m2] d IH]; simpl.
  - intros ?%list_elem_of_singleton. naive_solver.
  - destruct (decide (k2 = k)); rewrite !elem_of_cons; naive_solver.
Qed.

Lemma hot_set_ok n key (m : XDSCacheMetadata Dt) s :
  0 <= xm_size m -> index_ok n s ->
  index_ok (n - xm_size m + default 0 (xm_size <$> od_get key (hot_cache s)))
    (with_hot (od_set key m (hot_cache s)) s).
Proof.
  intros Hm [H1 H2 H3 H4 H5]. split; simpl; try done.
  - by apply od_nodup_set.
  - intros k m' [->|Hin]%elem_of_od_set; [done|by eapply H2].
  - rewrite od_sum_set. lia.
Qed.

Lemma hot_del_ok n key s :
  index_ok n s ->
  index_ok (n + default 0 (xm_size <$> od_get key (hot_cache s)))
    (with_hot (od_del key (hot_cache s)) s).
Proof.
  intros [H1 H2 H3 H4 H5]. split; simpl; try done.
  - by apply od_nodup_del.
  - intros k m' Hin%od_del_sub. by eapply H2.
  - rewrite od_sum_del. lia.
Qed.

Lemma with_size_ok n d s :
  within_limit (current_cache_size s + d) -> index_ok n s ->
  index_ok (n + d) (with_size (current_cache_size s + d) s).
Proof. intros Hl [H1 H2 H3 H4 H5]. split; simpl; try done. lia. Qed.

(** Giving bytes back *)
Lemma credit_ok n d s :
  0 <= d -> index_ok n s -> index_ok (n - d) (with_size (current_cache_size s + - d) s).
Proof.
  intros Hd Hs. apply with_size_ok; [|done]. eapply within_limit_le; [|by eapply ix_limit]. lia.
Qed.

Lemma ix_get_size n key m s : index_ok n s -> od_get key (hot_cache s) = Some m -> 0 <= xm_size m.
Proof. intros [H1 H2 _ _ _] Hg. by eapply H2, od_get_elem. Qed.

Lemma alter_ok n key f s :
  (forall m : XDSCacheMetadata Dt, xm_size (f m) = xm_size m) -> index_ok n s ->
  index_ok n (with_hot (od_alter f key (hot_cache s)) s).
Proof.
  intros Hf Hs. unfold od_alter. destruct (od_get key (hot_cache s)) as [m|] eqn:E.
  - pose proof (ix_get_size _ _ _ _ Hs E). pose proof (hot_set_ok n key (f m) s) as H1.
    rewrite E, Hf in H1. simpl in H1. eapply index_ok_weaken; [|apply H1; done]. lia.
  - by eapply index_ok_ext; [..|exact Hs].
Qed.

Lemma pin_entry_ok n key : preserves (index_ok n) (pin_entry key).
Proof. intros s Hs. simpl. by apply alter_ok. Qed.

Lemma contains_ok n key b : preserves (index_ok n) (contains key b).
Proof.
  unfold contains. apply preserves_bind; [by intros s Hs|]. intros s0.
  destruct (negb _); [apply preserves_ret|]. apply preserves_bind; [|intros; apply preserves_ret].
  destruct b; [|apply preserves_ret]. apply preserves_bind; [apply pin_entry_ok|].
  intros []. by apply modify_ok.
Qed.

Lemma batched_contains_ok n keys b : preserves (index_ok n) (batched_async_contains keys b).
Proof.
  unfold batched_async_contains. generalize 0. induction keys as [|k keys IH]; intros c; simpl;
    [apply preserves_ret|].
  apply preserves_bind; [apply contains_ok|]. intros found.
  destruct (negb found); [apply preserves_ret|apply IH].
Qed.

Lemma touch_ok n : preserves (index_ok n) touch_cache.
Proof.
  unfold touch_cache. apply preserves_bind; [by intros s Hs|]. intros s0.
  apply preserves_bind; [apply preserves_iter; intros k; apply update_on_hit_ok|].
  intros []. by apply modify_ok.
Qed.

Lemma unlink_quietly_ok n path : preserves (index_ok n) (unlink_quietly path).
Proof. apply on_io_ok. Qed.

(** Dropping an entry credits its size. *)
Lemma drop_ok n key m s :
  od_get key (hot_cache s) = Some m -> index_ok n s ->
  index_ok n (run_st (hot_del key;; update_on_force_evict key;; add_size (- xm_size m)) s).
Proof.
  intros Hg Hs. pose proof (hot_del_ok n key s Hs) as H. rewrite Hg in H. simpl in H.
  apply (credit_ok _ (xm_size m)) in H; [|by eapply (ix_get_size n key m s)].
  eapply index_ok_ext; [..|eapply index_ok_weaken; [|exact H]]; done || lia.
Qed.

Lemma remove_ok n key : preserves (index_ok n) (remove key).
Proof.
  intros s Hs. unfold remove, hot_get, st_gets, mbind at 1, ST_bind at 1. simpl.
  destruct (od_get key (hot_cache s)) as [m|] eqn:E; [|done].
  pose proof (drop_ok n key m s E Hs) as H. unfold run_st in H.
  unfold mbind, ST_bind in *. simpl in *.
  match goal with |- context [unlink_quietly ?p ?t] =>
    pose proof (unlink_quietly_ok n p t H) as H1; destruct (unlink_quietly p t) as [[u|e] t1]; [|done] end.
  simpl in *. match goal with |- context [unlink_quietly ?p ?t] =>
    pose proof (unlink_quietly_ok n p t H1) as H2; destruct (unlink_quietly p t) as [[u'|e] t2]; done end.
Qed.

(** *** Eviction *)

(** What an eviction leaves of the index [d]: some entries dropped, none changed. *)
Definition hot_subset (d' d : odict K (XDSCacheMetadata Dt)) : Prop :=
  d' ⊆+ d /\ forall k m, od_get k d = Some m -> is_pinned m = true -> od_get k d' = Some m.

Lemma evict_key_triple n key m s :
  od_get key (hot_cache s) = Some m -> index_ok n s ->
  exists s', evict_key key s = (Ok (xm_path m), s') /\ index_ok n s'
    /\ hot_cache s' = od_del key (hot_cache s)
    /\ current_cache_size s' = current_cache_size s - xm_size m
    /\ x_io s' = x_io s /\ put_tasks s' = put_tasks s /\ put_queue s' = put_queue s
    /\ ref_counts s' = ref_counts s.
Proof.
  intros Hg Hs. unfold evict_key, hot_get, st_gets, mbind at 1, ST_bind at 1. simpl.
  rewrite Hg. eexists. split; [reflexivity|]. split; [by apply (drop_ok n key m s)|]. done.
Qed.

Definition evicted_all (s s' : xds_state K Dt P) (paths : list string) : Prop :=
  x_io s' = x_io s /\ put_tasks s' = put_tasks s /\ put_queue s' = put_queue s
  /\ ref_counts s' = ref_counts s
  /\ (exists gone, hot_cache s ≡ₚ gone ++ hot_cache s' /\ paths = (fun kv => xm_path kv.2) <$> gone
       /\ Forall (fun kv => can_evict kv.2 = true) gone
       /\ current_cache_size s' = current_cache_size s - od_sum xm_size gone).

Lemma evicted_all_refl s : evicted_all s s [].
Proof.
  split_and!; try done. exists []. split_and!; [done|done|by constructor|].
  unfold od_sum, sumZ. simpl. lia.
Qed.

Lemma evicted_all_trans s1 s2 s3 ps1 ps2 :
  evicted_all s1 s2 ps1 -> evicted_all s2 s3 ps2 -> evicted_all s1 s3 (ps1 ++ ps2).
Proof.
  intros (A1 & A2 & A3 & A4 & g1 & P1 & E1 & F1 & C1) (B1 & B2 & B3 & B4 & g2 & P2 & E2 & F2 & C2).
  split_and!; try congruence. exists (g1 ++ g2). split_and!.
  - rewrite P1, P2. by rewrite app_assoc.
  - by rewrite fmap_app, E1, E2.
  - by apply list.Forall_app.
  - rewrite C2, C1. unfold od_sum. rewrite fmap_app, sumZ_app. lia.
Qed.

Lemma od_del_split key (m : XDSCacheMetadata Dt) d :
  od_get key d = Some m -> d ≡ₚ (key, m) :: od_del key d.
Proof.
  induction d as [|[k2 m2] d IH]; simpl; [done|]. destruct (decide (k2 = key)) as [->|].
  - by intros [= ->].
  - intros H. rewrite perm_swap. by constructor; apply IH.
Qed.

(** One round: the single candidate is dropped. *)
Lemma evict_round n s k ks :
  policy_candidates (policy s) (hot_cache s) 1 = k :: ks -> index_ok n s ->
  exists s' ps, evict_keys (k :: ks) s = (Ok ps, s') /\ index_ok n s' /\ evicted_all s s' ps
    /\ length (hot_cache s') = (length (hot_cache s) - 1)%nat /\ (0 < length (hot_cache s))%nat.
Proof.
  intros Hc Hs. pose proof (candidates_length (policy s) (hot_cache s) 1) as Hl. rewrite Hc in Hl.
  destruct ks; simpl in Hl; [|lia].
  destruct (candidates_evictable (policy s) (hot_cache s) 1 k) as (m & Hg & Hev);
    [rewrite Hc; by left|].
  destruct (evict_key_triple n k m s Hg Hs) as (s' & E & Hs' & Hh & Hsz & H1 & H2 & H3 & H4).
  pose proof (od_del_split k m _ Hg) as Hsplit.
  exists s', [xm_path m]. simpl. unfold mbind, ST_bind. rewrite E. split; [done|]. split; [done|].
  split; [|apply Permutation_length in Hsplit; rewrite Hh; simpl in Hsplit; lia].
  split_and!; try done. exists [(k, m)]. split_and!.
  - by rewrite Hh.
  - done.
  - by repeat constructor.
  - rewrite Hsz. unfold od_sum, sumZ. simpl. lia.
Qed.

(** The loop ends, within the bound, either with room or without candidates. *)
Lemma evict_loop_spec n required fuel : forall s acc,
  index_ok n s -> (length (hot_cache s) < fuel)%nat ->
  exists ok s' ps, evict_loop cfg fuel required acc s = (Ok (Some (ok, acc ++ ps)), s')
    /\ index_ok n s' /\ evicted_all s s' ps
    /\ (if ok : bool then current_cache_size s' + required <= max_xds_size cfg
        else max_xds_size cfg < current_cache_size s' + required
             /\ policy_candidates (policy s') (hot_cache s') 1 = []).
Proof.
  induction fuel as [|fuel IH]; intros s acc Hs Hf; [lia|]. simpl. unfold mbind, ST_bind, st_get.
  destruct (max_xds_size cfg <? current_cache_size s + required) eqn:Eroom; simpl.
  2:{ exists true, s, []. rewrite app_nil_r. split; [done|]. split; [done|].
      split; [apply evicted_all_refl|lia]. }
  destruct (policy_candidates (policy s) (hot_cache s) 1) as [|k ks] eqn:Ec.
  - exists false, s, []. rewrite app_nil_r. split; [done|]. split; [done|].
    split; [apply evicted_all_refl|]. split; [lia|done].
  - destruct (evict_round n s k ks Ec Hs) as (s1 & ps & E & Hs1 & Hev & Hl & Hpos).
    change (evict_key k ≫= ?c) with (evict_keys (k :: ks)). 
    destruct (IH s1 (acc ++ ps) Hs1 ltac:(lia)) as (ok & s2 & ps2 & E2 & Hs2 & Hev2 & Hok).
    exists ok, s2, (ps ++ ps2). simpl in E. unfold mbind, ST_bind in E. rewrite E.
    rewrite E2, <- app_assoc. split; [done|]. split; [done|].
    split; [by eapply evicted_all_trans|done].
Qed.

(** Everything but the files *)
Definition same_index (s s' : xds_state K Dt P) : Prop :=
  hot_cache s' = hot_cache s /\ current_cache_size s' = current_cache_size s
  /\ put_tasks s' = put_tasks s /\ keys_in_request s' = keys_in_request s
  /\ policy s' = policy s /\ put_queue s' = put_queue s /\ ref_counts s' = ref_counts s.

Definition removes_only (paths : list string) (w w' : world) : Prop :=
  (forall q, q ∉ paths -> files w' !! q = files w !! q) /\ fds w' = fds w
  /\ fresh w' = fresh w /\ forall a, mem w' a = mem w a.

Lemma unlink_spec path s :
  exists s', unlink_quietly path s = (Ok tt, s') /\ same_index s s'
    /\ removes_only [path] (io_world (x_io s)) (io_world (x_io s')).
Proof.
  unfold unlink_quietly, on_io, on_world, st_catch, os_remove, may_fail, next_event, st_get,
    mbind, ST_bind, mret, ST_ret, st_raise, st_modify. simpl.
  destruct (files (io_world (x_io s)) !! path) as [f|] eqn:E.
  - destruct (oracle (io_world (x_io s))) as [|[|n|n] rest]; simpl; eexists; (split; [reflexivity|]);
      (split; [done|]); split_and!; simpl; try done; intros q Hq;
      rewrite lookup_delete_ne by (intros ->; apply Hq; by left); done.
  - simpl. eexists. split; [reflexivity|]. done.
Qed.

Lemma same_index_trans s1 s2 s3 : same_index s1 s2 -> same_index s2 s3 -> same_index s1 s3.
Proof. unfold same_index. intros H1 H2. naive_solver congruence. Qed.

Lemma same_index_ok n s s' : same_index s s' -> index_ok n s -> index_ok n s'.
Proof. intros (E1 & E2 & _ & _ & _ & E3 & _). by apply index_ok_ext. Qed.

Lemma unlink_all_spec paths s :
  exists s', st_iter unlink_quietly paths s = (Ok tt, s') /\ same_index s s'
    /\ removes_only paths (io_world (x_io s)) (io_world (x_io s')).
Proof.
  revert s. induction paths as [|p paths IH]; intros s; simpl.
  - exists s. split; [done|]. by split.
  - destruct (unlink_spec p s) as (s1 & E1 & H1 & F1 & D1 & R1 & M1). unfold mbind, ST_bind. rewrite E1.
    destruct (IH s1) as (s2 & E2 & H2 & F2 & D2 & R2 & M2). exists s2. split; [done|].
    split; [by eapply same_index_trans|]. split_and!; [|congruence|congruence|intros; congruence].
    intros q Hq. rewrite F2, F1; [done|set_solver..].
Qed.

(** A limit is the capacity, and is kept by evicting. *)
Context (Hlimit : forall c, limit = Some c -> eviction cfg = true /\ c = max_xds_size cfg).

Lemma within_capacity n : n <= max_xds_size cfg -> within_limit n.
Proof. unfold within_limit. destruct limit as [c|]; [|done]. destruct (Hlimit c eq_refl). lia. Qed.

(** [_eviction], in full *)
Lemma evict_spec n required s :
  index_ok n s ->
  exists ok s' gone, evict cfg required s = (Ok ok, s')
    /\ index_ok (if ok : bool then n + required else n) s'
    /\ hot_cache s ≡ₚ gone ++ hot_cache s' /\ Forall (fun kv => can_evict kv.2 = true) gone
    /\ current_cache_size s'
       = current_cache_size s - od_sum xm_size gone + (if ok then required else 0)
    /\ (if ok then current_cache_size s' <= max_xds_size cfg
        else max_xds_size cfg < current_cache_size s' + required
             /\ policy_candidates (policy s') (hot_cache s') 1 = [])
    /\ removes_only (kv ← gone; [xm_path kv.2 +:+ METADATA_FILE_SUFFIX; xm_path kv.2])
         (io_world (x_io s)) (io_world (x_io s'))
    /\ put_tasks s' = put_tasks s /\ put_queue s' = put_queue s /\ ref_counts s' = ref_counts s.
Proof.
  intros Hs. unfold evict, st_get, mbind, ST_bind.
  destruct (evict_loop_spec n required (S (length (hot_cache s))) s [] Hs ltac:(lia))
    as (ok & s1 & ps & E & Hs1 & (I1 & T1 & Q1 & R1 & gone & Hp & -> & Hev & Hsz) & Hok).
  rewrite E. simpl. set (s2 := if ok then with_size (current_cache_size s1 + required) s1 else s1).
  assert ((if ok then add_size required else mret tt) s1 = (Ok tt, s2)) as -> by (by destruct ok).
  destruct (unlink_all_spec (p ← (fun kv : K * XDSCacheMetadata Dt => xm_path kv.2) <$> gone;
    [p +:+ METADATA_FILE_SUFFIX; p]) s2) as (s3 & E3 & (H1 & H2 & H3 & _ & H4 & H5 & H6) & Hrm).
  unfold mbind in E3. rewrite E3. exists ok, s3, gone. split; [done|].
  assert (index_ok (if ok then n + required else n) s2) as Hs2
    by (unfold s2; destruct ok; [apply with_size_ok; [by apply within_capacity|done]|done]).
  assert (x_io s2 = x_io s) as Hio by (unfold s2; destruct ok; simpl; congruence).
  assert (hot_cache s2 = hot_cache s1 /\ put_tasks s2 = put_tasks s1 /\ put_queue s2 = put_queue s1
    /\ ref_counts s2 = ref_counts s1 /\ policy s2 = policy s1
    /\ current_cache_size s2 = current_cache_size s1 + (if ok then required else 0))
    as (B1 & B2 & B3 & B4 & B5 & B6) by (unfold s2; destruct ok; split_and!; simpl; done || lia).
  split_and!; try congruence.
  - by eapply (index_ok_ext _ s2).
  - rewrite H1, H2, H4, B1, B5, B6. destruct ok; [lia|]. by rewrite Z.add_0_r.
  - rewrite <- Hio. destruct Hrm as [Hq Hr]. split; [|done]. intros q Hq'. apply Hq.
    intros Hin. apply Hq'. apply list_elem_of_bind in Hin as (p & Hin & (kv & -> & Hkv)%list_elem_of_fmap).
    apply list_elem_of_bind. by exists kv.
Qed.

(** *** Storing *)

Definition mo_ok mo : Prop := 0 <= mo_size mo /\ 0 <= mo_physical_size mo /\ mo_sized mo.

Lemma required_nonneg mo r : mo_ok mo -> required_store_size cfg mo = Ok r -> 0 <= r.
Proof.
  intros (Hs & Hp & _). unfold required_store_size. intros H. apply bind_Ok in H as (b & _ & H).
  destruct b; [|by injection H as <-]. res_inv.
  match goal with Ha : align_up _ _ = Ok ?p |- _ => apply align_up_Ok in Ha as (_ & _ & Ha) end.
  assert (0 <= (mo_size mo + BLOCK_FIRST_ALIGNMENT - 1) / BLOCK_FIRST_ALIGNMENT)
    by (apply Z.div_pos; unfold BLOCK_FIRST_ALIGNMENT; lia).
  unfold BLOCK_FIRST_HEADER_SIZE, BLOCK_FIRST_ALIGNMENT in *. lia.
Qed.

Lemma reserve_triple n r :
  triple (index_ok n) (reserve cfg r) (fun b => index_ok (if b : bool then n + r else n))
    (fun _ => index_ok n).
Proof.
  intros s Hs. unfold reserve. destruct (eviction cfg) eqn:Eev in |- *.
  - destruct (evict_spec n r s Hs) as (ok & s' & gone & -> & Hs' & _). done.
  - simpl. apply with_size_ok; [|done]. unfold within_limit.
    destruct limit as [c|] eqn:Ec in |- *; [|done].
    destruct (Hlimit c Ec). congruence.
Qed.

Lemma tasks_ok n f : preserves (index_ok n) (st_modify (fun s => with_tasks (f s) s)).
Proof. by apply modify_ok. Qed.

Lemma submit_ok key mo : mo_ok mo -> preserves (index_ok 0) (submit_put_task cfg key mo).
Proof.
  intros Hmo. apply preserves_triple. unfold submit_put_task.
  destruct (_ && _); [by intros s Hs|].
  apply (triple_bind _ _ _ (fun _ => index_ok 0)); [by intros s Hs|]. intros pending.
  destruct pending; [by intros s Hs|].
  apply (triple_bind _ _ _ (fun _ => index_ok 0)); [by intros s Hs|]. intros existing.
  destruct (existing ≫= disk_metadata); [apply preserves_triple, update_on_hit_ok|].
  apply (triple_bind _ _ _ (fun _ => index_ok 0)); [apply preserves_triple, tasks_ok|]. intros [].
  apply (triple_bind _ _ _ (fun r s => required_store_size cfg mo = Ok r /\ index_ok 0 s));
    [apply triple_lift; done|].
  intros r. apply triple_pure. intros Hr. pose proof (required_nonneg mo r Hmo Hr) as Hpos.
  eapply triple_bind; [apply (reserve_triple 0 r)|]. intros ok. destruct ok; simpl.
  2:{ apply preserves_triple, tasks_ok. }
  apply (triple_bind _ _ _ (fun _ => index_ok r)).
  { eapply triple_exn; [apply preserves_triple; by apply modify_ok|].
    intros e s. apply index_ok_weaken. lia. }
  intros []. apply (triple_bind _ _ _ (fun _ => index_ok r)).
  { eapply triple_exn; [apply preserves_triple; by apply modify_ok|].
    intros e s. apply index_ok_weaken. lia. }
  intros [] s [H1 H2 H3 H4 H5]. simpl. split; simpl; try done.
  - apply list.Forall_app. split; [done|]. constructor; [|by constructor].
    split; [done|]. split; [done|apply Hmo].
  - rewrite fmap_app, sumZ_app. unfold sumZ at 2. simpl. lia.
Qed.

Context `{!ChunkIO Dt, !ChunkIOLaws Dt}.

(** A finished job consumes its reservation. *)
Lemma insert_key_triple key mo path dm r bf :
  0 <= r -> use_block_first_for_tensor cfg (mo_tensor_shape mo) = Ok bf ->
  required_store_size cfg mo = Ok r ->
  match dm with
  | Some m => bf = true /\ align_up (mo_size mo) BLOCK_FIRST_ALIGNMENT = Ok (io_nbytes m)
  | None => bf = false
  end ->
  triple (index_ok r) (insert_key cfg key mo (Some path) dm (Some r)) (fun _ => index_ok 0)
    (fun _ => index_ok r).
Proof.
  intros Hr Hbf Hreq Hdm s Hs. unfold insert_key, st_get, mbind, ST_bind.
  assert ((match dm with Some m => BLOCK_FIRST_HEADER_SIZE + io_nbytes m
    | None => default (mo_physical_size mo) (Some r) end) = r) as Hsz.
  { destruct dm as [m|]; [|done]. destruct Hdm as [-> Ha]. unfold required_store_size in Hreq.
    rewrite Hbf in Hreq. cbn [mbind result_bind] in Hreq. rewrite Ha in Hreq.
    cbn [mbind result_bind] in Hreq. by injection Hreq. }
  destruct (od_mem key (hot_cache s)) eqn:E.
  - pose proof (update_on_hit_ok r key s Hs) as H. unfold preserves in H.
    destruct (update_on_hit key s) as [[u|e] s']; [|done]. eapply index_ok_weaken; [|exact H]. lia.
  - rewrite Hsz. simpl.
    pose proof (hot_set_ok r key (MkXDSCacheMetadata _ path r (Some (mo_shape mo)) (Some (mo_dtype mo))
      (Some (mo_fmt mo)) 0 dm) s Hr Hs) as H.
    assert (od_get key (hot_cache s) = None) as Hg.
    { destruct (od_get key (hot_cache s)) eqn:E'; [|done]. unfold od_mem in E. rewrite E' in E.
      by rewrite bool_decide_true in E by (by eexists). }
    rewrite Hg in H. simpl in H. eapply index_ok_weaken; [|exact H]. lia.
Qed.

Lemma unlink_if_exists_ok n path : preserves (index_ok n) (unlink_if_exists path).
Proof.
  unfold unlink_if_exists. apply preserves_bind; [apply on_io_ok|].
  intros [|]; [apply unlink_quietly_ok|apply preserves_ret].
Qed.

Lemma finish_ok n key mo :
  preserves (index_ok n) (ref_count_add (mo_id mo) (-1);; remove_put_task key).
Proof. apply preserves_bind; [by apply modify_ok|]. intros []. by apply modify_ok. Qed.

Lemma async_save_triple j :
  job_ok j ->
  triple (index_ok (job_reserved j)) (async_save_bytes_to_storage cfg j) (fun _ => index_ok 0)
    (fun _ => index_ok 0).
Proof.
  intros (Hreq & Hr & Hsized). unfold async_save_bytes_to_storage.
  apply (triple_bind _ _ _ (fun bf s => use_block_first_for_tensor cfg (mo_tensor_shape (job_obj j)) = Ok bf
    /\ index_ok (job_reserved j) s)).
  { apply triple_lift; [done|]. intros e _ s. apply index_ok_weaken. lia. }
  intros bf. apply triple_pure. intros Hbf.
  apply (triple_finally _ _ _ _ (fun _ => index_ok 0) _ (fun _ => index_ok 0));
    [|intros; apply preserves_triple, finish_ok|intros; apply preserves_triple, finish_ok].
  apply triple_catch with (E' := fun _ => index_ok (job_reserved j)).
  - apply (triple_bind _ _ _ (fun _ => index_ok (job_reserved j)));
      [apply preserves_triple, on_io_ok|]. intros [].
    eapply (triple_bind _ _ _ (fun dm s => match dm with
        | Some m => bf = true /\ align_up (mo_size (job_obj j)) BLOCK_FIRST_ALIGNMENT = Ok (io_nbytes m)
        | None => bf = false end /\ index_ok (job_reserved j) s)).
    + destruct (_ && _); [by intros s Hs|]. intros s Hs. unfold on_io.
      destruct (store_chunk _ _ _ _ (x_io s)) as [[r|e] i] eqn:E;
        (eapply index_ok_ext; [..|exact Hs]; done) || idtac.
      split; [by eapply store_size|]. by eapply index_ok_ext; [..|exact Hs].
    + intros dm. apply triple_pure. intros Hdm. by eapply insert_key_triple.
  - intros e. cbn [any_exn]. generalize (cleanup_paths (key_to_path (xds_path cfg) (job_key j) bf).1.1.1 bf).
    intros paths. apply (triple_bind _ _ _ (fun _ => index_ok (job_reserved j))).
    + eapply triple_exn; [apply (proj1 (preserves_triple (index_ok (job_reserved j)) _)), preserves_iter;
        intros p; apply unlink_if_exists_ok|].
      intros e' s. apply index_ok_weaken. lia.
    + intros [] s Hs. simpl. pose proof (hot_del_ok _ (job_key j) s Hs) as H.
      apply (credit_ok _ (job_reserved j)) in H; [|done]. eapply index_ok_weaken; [|exact H].
      destruct (od_get (job_key j) (hot_cache s)) as [m|] eqn:E; simpl; [|lia].
      pose proof (ix_get_size _ _ _ _ Hs E). lia.
Qed.

Lemma run_put_ok i : preserves (index_ok 0) (run_put_worker cfg i).
Proof.
  intros s Hs. unfold run_put_worker, st_get, mbind at 1, ST_bind at 1.
  destruct (put_queue s !! i) as [j|] eqn:E; [|done]. unfold mbind, ST_bind, st_modify, st_catch.
  destruct Hs as [H1 H2 H3 H4 H5].
  assert (index_ok (job_reserved j) (with_queue (delete i (put_queue s)) s)) as Hs'.
  { split; simpl; try done; [by apply Forall_delete|].
    pose proof (delete_Permutation _ _ _ E) as Hp. rewrite Hp in H4.
    rewrite fmap_cons, sumZ_cons in H4. lia. }
  pose proof (async_save_triple j (proj1 (Forall_lookup _ _) H3 _ _ E) _ Hs') as Ht.
  destruct (async_save_bytes_to_storage cfg j _) as [[u|e] s']; done.
Qed.

(** *** Loading and scanning *)

Lemma load_ok n key path memory : preserves (index_ok n) (load_bytes_with_memory cfg key path memory).
Proof.
  unfold load_bytes_with_memory. destruct memory as [mo|]; [|apply preserves_ret].
  apply preserves_bind; [by intros s Hs|]. intros [m|]; [|apply preserves_ret].
  apply preserves_bind; [apply preserves_lift|]. intros size. apply preserves_bind.
  { destruct (disk_metadata m); [|apply on_io_ok].
    apply preserves_catch; [apply on_io_ok|intros; apply preserves_ret]. }
  intros ret. destruct (negb _); [|apply preserves_ret].
  intros s Hs. unfold hot_get, st_gets, mbind, ST_bind. simpl.
  destruct (od_get key (hot_cache s)) as [c|] eqn:E; simpl.
  - pose proof (hot_del_ok n key s Hs) as H. rewrite E in H. apply (credit_ok _ (xm_size c)) in H;
      [|by eapply (ix_get_size n key c s)].
    eapply index_ok_ext; [..|eapply index_ok_weaken; [|exact H]]; done || (simpl; lia).
  - by eapply index_ok_ext; [..|exact Hs].
Qed.

Lemma get_blocking_ok n key : preserves (index_ok n) (get_blocking cfg key).
Proof.
  unfold get_blocking. destruct (negb _); [apply preserves_ret|].
  apply preserves_bind; [by intros s Hs|]. intros [m|]; [|apply preserves_ret].
  apply preserves_bind; [apply update_on_hit_ok|]. intros [].
  destruct (xm_dtype m), (xm_shape m); try apply preserves_raise.
  unfold load_bytes_with_allocation. apply preserves_bind; [apply on_io_ok|].
  intros [mo|]; [|apply preserves_ret]. apply preserves_bind; [by apply modify_ok|].
  intros []. apply load_ok.
Qed.

(** Replacing or adding an entry moves the counter by the difference. *)
Lemma index_entry_ok n key subdir (m : XDSCacheMetadata Dt) :
  0 <= xm_size m -> limit = None -> preserves (index_ok n) (index_entry key subdir m).
Proof.
  intros Hm Hlim s Hs. unfold index_entry, hot_get, st_gets, mbind, ST_bind. simpl.
  assert (forall s', hot_cache s' = hot_cache s -> put_queue s' = put_queue s ->
    current_cache_size s' = current_cache_size s - default 0 (xm_size <$> od_get key (hot_cache s)) ->
    index_ok n (with_size (current_cache_size s' + xm_size m)
      (with_hot (od_set key m (hot_cache s)) s'))) as Hset.
  { intros s' E1 E2 E3. pose proof (hot_set_ok n key m s Hm Hs) as [G1 G2 G3 G4 G5].
    split; simpl in *; rewrite ?E2, ?E3; try done; [lia|]. unfold within_limit. by rewrite Hlim. }
  destruct (od_get key (hot_cache s)) as [p|] eqn:E; simpl in *.
  - eapply index_ok_ext; [..|apply (Hset (with_size (current_cache_size s + - xm_size p) s))]; try done.
  - eapply index_ok_ext; [..|apply (Hset s)]; try done. simpl. lia.
Qed.

Lemma block_first_entry_size path dm m :
  block_first_entry (Dt := Dt) path dm = Ok m -> xm_size m = BLOCK_FIRST_HEADER_SIZE + io_nbytes dm.
Proof. unfold block_first_entry. intros H. res_inv. by subst. Qed.

Lemma check_file_io dm size : check_block_first_file cfg dm size = Ok tt -> 0 <= io_nbytes dm.
Proof.
  unfold check_block_first_file. intros H. res_inv.
  destruct (one_group _) as [[shape dt]|]; [|done]. destruct (xe_block_size _); [|done]. res_inv.
  match goal with Hr : validate_runtime _ _ _ _ _ = Ok ?u |- _ => destruct u;
    unfold validate_runtime in Hr; res_inv end.
  match goal with Hv : BlockFirst.validate dm = Ok ?u |- _ => destruct u;
    apply validate_sizes in Hv as (? & ? & ? & ? & ? & ? & ? & ? & _) end. lia.
Qed.

Lemma read_block_first_ok n env key filename subdir :
  limit = None -> preserves (index_ok n) (read_block_first_metadata cfg env key filename subdir).
Proof.
  intros Hlim. apply preserves_triple. unfold read_block_first_metadata.
  apply (triple_bind _ _ _ (fun _ => index_ok n)); [apply preserves_triple, on_io_ok|].
  intros [dm size]. apply (triple_bind _ _ _ (fun _ s => check_block_first_file cfg dm size = Ok tt
    /\ index_ok n s)).
  { apply triple_lift; [|done]. by intros [] Hc s Hs. }
  intros u. apply triple_pure. intros Hc. pose proof (check_file_io dm size Hc) as Hio.
  apply (triple_bind _ _ _ (fun m s => block_first_entry (Dt := Dt) filename dm = Ok m /\ index_ok n s)).
  { by apply triple_lift. }
  intros m. apply triple_pure. intros Hm. apply (triple_bind _ _ _ (fun _ => index_ok n)).
  - apply preserves_triple, index_entry_ok; [|done]. rewrite (block_first_entry_size _ _ _ Hm).
    unfold BLOCK_FIRST_HEADER_SIZE. lia.
  - by intros [] s Hs.
Qed.

Lemma prodZ_nonneg l : Forall (Z.le 0) l -> 0 <= prodZ l.
Proof. unfold prodZ. induction 1; simpl; [lia|]. by apply Z.mul_nonneg_nonneg. Qed.

(** Recorded shapes are non-negative, so an accepted size is. *)
Lemma accepted_size_nonneg dtypes xbs buffer shape (dt : Dt) size :
  unpack_metadata dtypes buffer = Ok (shape, dt, size) ->
  check_metadata_size xbs shape dt size = Ok tt -> 0 <= size.
Proof.
  intros Hu%unpack_metadata_nonneg Hc. apply prodZ_nonneg in Hu.
  unfold check_metadata_size in Hc. apply bind_Ok in Hc as ([] & Hc & _). res_inv. bool_prop.
  pose proof (itemsize_pos dt). nia.
Qed.

Lemma read_metadata_info_unpacks noatime filename w na (r : list Z * Dt * Z) w' :
  read_metadata_info (legacy_dtypes cfg) noatime filename w = (Ok (na, r), w') ->
  exists buffer, unpack_metadata (legacy_dtypes cfg) buffer = Ok r.
Proof.
  unfold read_metadata_info. unfold mbind at 1, ST_bind at 1.
  match goal with |- context [match ?m with (_, _) => _ end = _] => destruct m as [[[b fd]|e] w1]; [|done] end.
  unfold mbind at 1, ST_bind at 1.
  destruct (st_finally _ _ w1) as [[buf|e] w2]; [|done].
  unfold st_lift, mbind, ST_bind. destruct (unpack_metadata _ buf) eqn:E; [|done].
  intros [= <- <- <-]. by exists buf.
Qed.

Lemma read_metadata_ok n key filename subdir :
  limit = None -> preserves (index_ok n) (read_metadata cfg key filename subdir).
Proof.
  intros Hlim. apply preserves_triple. unfold read_metadata.
  apply (triple_bind _ _ _ (fun _ => index_ok n)); [by intros s Hs|]. intros s0.
  apply (triple_bind _ _ _ (fun r s => (exists buffer, unpack_metadata (legacy_dtypes cfg) buffer = Ok r.2)
     /\ index_ok n s)).
  { intros s Hs. pose proof (on_io_ok n (on_world (read_metadata_info (legacy_dtypes cfg)
      (use_noatime s0) filename)) s Hs) as H. unfold on_io, on_world in *.
    destruct (read_metadata_info _ _ _ _) as [[[na r]|e] w] eqn:E; [|exact H].
    split; [by eapply read_metadata_info_unpacks|exact H]. }
  intros [na [[shape dt] size]]. apply triple_pure. intros [buffer Hu].
  apply (triple_bind _ _ _ (fun _ => index_ok n)); [by apply preserves_triple, modify_ok|]. intros [].
  apply (triple_bind _ _ _ (fun u s => 0 <= size /\ index_ok n s)).
  { apply triple_lift; [|done]. intros [] Hc s Hs. split; [|done]. by eapply accepted_size_nonneg. }
  intros u. apply triple_pure. intros Hsz. apply preserves_triple. cbv zeta.
  apply preserves_bind; [by intros s Hs|]. intros [q|].
  - destruct (disk_metadata q); [apply preserves_ret|].
    apply preserves_bind; [by apply index_entry_ok|intros; apply preserves_ret].
  - apply preserves_bind; [by apply index_entry_ok|intros; apply preserves_ret].
Qed.

Lemma try_read_ok n env key : limit = None -> preserves (index_ok n) (try_to_read_metadata cfg env key).
Proof.
  intros Hlim. unfold try_to_read_metadata. apply preserves_bind.
  - destruct (block_first_enabled cfg); [|apply preserves_ret].
    destruct (key_to_path _ _ _) as [[[path subdir] ?] ?].
    apply preserves_bind; [apply on_io_ok|]. intros [|]; [|apply preserves_ret].
    apply preserves_catch; [|intros; apply preserves_ret].
    apply preserves_bind; [by apply read_block_first_ok|intros; apply preserves_ret].
  - intros [m|]; [apply preserves_ret|].
    destruct (key_to_path _ _ _) as [[[path subdir] ?] ?].
    apply preserves_bind; [apply on_io_ok|]. intros [|]; [|apply preserves_ret].
    apply preserves_catch; [|intros; apply preserves_ret].
    apply preserves_bind; [by apply read_metadata_ok|intros; apply preserves_ret].
Qed.

Lemma scan_file_ok n env w path name subdir : limit = None -> preserves (index_ok n) (scan_file cfg env w path name subdir).
Proof.
  intros Hlim. unfold scan_file. destruct (scan_entry _ _ _); [apply preserves_ret|apply on_io_ok|..];
    (apply preserves_catch; [|intros; apply preserves_ret]);
    (apply preserves_bind; [|intros; apply preserves_ret]).
  - by apply read_block_first_ok.
  - by apply read_metadata_ok.
Qed.

Definition op_ok (o : index_op (K := K) (Dt := Dt)) : Prop :=
  match o with
  | OpSubmit _ mo => mo_ok mo
  | OpScanFile _ _ _ _ _ | OpTryRead _ _ => limit = None     (* the scan adds what it finds *)
  | _ => True
  end.

Lemma run_op_ok o : op_ok o -> preserves (index_ok 0) (run_op cfg o).
Proof.
  destruct o; simpl; intros Ho;
    try (apply preserves_bind; [|intros; apply preserves_ret]).
  - apply contains_ok.
  - apply batched_contains_ok.
  - apply touch_ok.
  - intros s Hs. unfold pin, st_get, mbind, ST_bind. destruct (od_mem _ _); [|done]. by apply pin_entry_ok.
  - intros s Hs. unfold unpin, st_get, mbind, ST_bind. destruct (od_mem _ _); [|done]. by apply alter_ok.
  - apply remove_ok.
  - by apply submit_ok.
  - apply run_put_ok.
  - apply get_blocking_ok.
  - by apply scan_file_ok.
  - by apply try_read_ok.
Qed.

Lemma initial_ok io p : within_limit 0 -> index_ok 0 (xds_initial io p).
Proof.
  split; simpl; [constructor|by intros ? ? ?%elem_of_nil|constructor| |done].
  unfold od_sum, sumZ. simpl. lia.
Qed.

Lemma run_ops_ok ops io p :
  within_limit 0 -> Forall op_ok ops -> index_ok 0 (run_st (run_ops cfg ops) (xds_initial io p)).
Proof.
  intros Hl Hops. apply initial_ok with (io := io) (p := p) in Hl. revert Hl.
  generalize (@xds_initial K Dt P io p). unfold run_st, run_ops.
  induction Hops as [|o ops Ho Hops IH]; intros s Hs; [done|]. simpl. unfold mbind, ST_bind at 1.
  unfold st_catch at 1. pose proof (run_op_ok o Ho s Hs) as Hs'.
  destruct (run_op cfg o s) as [[[]|e] s']; simpl; by apply IH.
Qed.

End facts.

(** ** Lemmas: what a put leaves *)

Section outcomes.
Context {K Dt P : Type} `{!CacheKey K, !TorchDtype Dt, !TorchDtypeLaws Dt} {JC : JsonCodec}.
Context {HL : HyFileLib}.
Context `{!CachePolicy K (XDSCacheMetadata Dt) P, !CachePolicyLaws K (XDSCacheMetadata Dt) P can_evict}.
Context `{!ChunkIO Dt, !ChunkIOLaws Dt}.
Context (cfg : xds_config Dt).
Implicit Types (key : K) (mo : memory_obj Dt) (s t : xds_state K Dt P).

Lemma on_io_same {A} s (m : ST xds_io A) :
  triple (same_index s) (on_io m) (fun _ => same_index s) (fun _ => same_index s).
Proof. intros t Ht. unfold on_io. destruct (m (x_io t)) as [[a|e] i]; exact Ht. Qed.

Lemma unlink_if_exists_same s path :
  triple (same_index s) (unlink_if_exists path) (fun _ => same_index s) (fun _ _ => False).
Proof.
  apply (triple_bind _ _ _ (fun _ => same_index s)).
  - intros t Ht. exact Ht.
  - intros [|] t Ht; [|exact Ht]. destruct (unlink_spec path t) as (t' & E & Hs & _).
    rewrite E. by eapply same_index_trans.
Qed.

Lemma cleanup_same s paths :
  triple (same_index s) (st_iter unlink_if_exists paths) (fun _ => same_index s) (fun _ _ => False).
Proof.
  induction paths as [|p paths IH]; [by intros t Ht|].
  apply (triple_bind _ _ _ (fun _ => same_index s)); [apply unlink_if_exists_same|]. by intros [].
Qed.

Definition job_path (j : put_job K Dt) (bf : bool) : string :=
  (key_to_path (xds_path cfg) (job_key j) bf).1.1.1.

(** The state [t] after job [j] was stored in [s] and the key was not indexed: its new entry *)
Definition published (j : put_job K Dt) (bf : bool) s t : Prop :=
  current_cache_size t = current_cache_size s
  /\ od_get (job_key j) (hot_cache s) = None
  /\ exists m, od_get (job_key j) (hot_cache t) = Some m
     /\ xm_path m = job_path j bf /\ xm_size m = job_reserved j
     /\ xm_shape m = Some (mo_shape (job_obj j)) /\ xm_dtype m = Some (mo_dtype (job_obj j))
     /\ pin_count m = 0 /\ (is_Some (disk_metadata m) <-> bf = true).

(** The state [t] after job [j] was stored in [s] and the key was indexed already: the old
    entry, while the size reserved for the put stays counted *)
Definition already_indexed (j : put_job K Dt) s t : Prop :=
  current_cache_size t = current_cache_size s
  /\ is_Some (od_get (job_key j) (hot_cache s))
  /\ od_get (job_key j) (hot_cache t) = od_get (job_key j) (hot_cache s).

(** The state [t] after the store of job [j] failed in [s] *)
Definition store_failed (j : put_job K Dt) s t : Prop :=
  current_cache_size t = current_cache_size s - job_reserved j
  /\ od_get (job_key j) (hot_cache t) = None.

Definition other_entries (j : put_job K Dt) s t : Prop :=
  forall key, key <> job_key j -> od_get key (hot_cache t) = od_get key (hot_cache s).

Definition same_tasks s t : Prop :=
  put_tasks t = put_tasks s /\ put_queue t = put_queue s /\ ref_counts t = ref_counts s.

Lemma od_mem_get key (d : odict K (XDSCacheMetadata Dt)) :
  od_mem key d = false -> od_get key d = None.
Proof. intros H. destruct (od_get key d) eqn:E; [|done]. by rewrite (proj2 (od_mem_true key d)) in H. Qed.

(** What a store returned, by its layout *)
Definition store_returned mo (bf : bool) (dm : option BlockFirstDiskMetadata) : Prop :=
  match dm with
  | Some m => bf = true /\ align_up (mo_size mo) BLOCK_FIRST_ALIGNMENT = Ok (io_nbytes m)
  | None => bf = false
  end.

Lemma returned_size (j : put_job K Dt) bf dm :
  required_store_size cfg (job_obj j) = Ok (job_reserved j) ->
  use_block_first_for_tensor cfg (mo_tensor_shape (job_obj j)) = Ok bf ->
  store_returned (job_obj j) bf dm ->
  (match dm with Some m => BLOCK_FIRST_HEADER_SIZE + io_nbytes m
    | None => default (mo_physical_size (job_obj j)) (Some (job_reserved j)) end) = job_reserved j.
Proof.
  intros Hreq Hbf Hdm. destruct dm as [m|]; [|done]. destruct Hdm as [-> Ha].
  unfold required_store_size in Hreq. rewrite Hbf in Hreq. cbn [mbind result_bind] in Hreq.
  rewrite Ha in Hreq. cbn [mbind result_bind] in Hreq. by injection Hreq.
Qed.

Lemma insert_key_outcome s (j : put_job K Dt) bf dm :
  NoDup (od_keys (hot_cache s)) ->
  required_store_size cfg (job_obj j) = Ok (job_reserved j) ->
  use_block_first_for_tensor cfg (mo_tensor_shape (job_obj j)) = Ok bf ->
  store_returned (job_obj j) bf dm ->
  triple (same_index s)
    (insert_key cfg (job_key j) (job_obj j) (Some (job_path j bf)) dm (Some (job_reserved j)))
    (fun _ t => same_tasks s t /\ other_entries j s t /\ (published j bf s t \/ already_indexed j s t))
    (fun _ _ => False).
Proof.
  intros Hnd Hreq Hbf Hdm t (E1 & E2 & E3 & E4 & E5 & E6 & E7).
  unfold insert_key, st_get, mbind, ST_bind. rewrite E1.
  destruct (od_mem (job_key j) (hot_cache s)) eqn:E.
  - unfold update_on_hit, st_get, st_lift, mbind, ST_bind. rewrite E1.
    destruct (hit_total (job_key j) (policy t) (hot_cache s) E) as (p' & h & Eh). rewrite Eh. simpl.
    apply hit_perm in Eh. apply od_mem_true in E as [m Hm].
    assert (forall key, od_get key h = od_get key (hot_cache s)) as Hg.
    { intros key. symmetry. by apply od_get_perm. }
    split; [done|]. split; [by intros key _|]. right. split; [done|]. simpl. rewrite Hg, Hm. eauto.
  - apply od_mem_get in E. simpl. split; [done|]. split; [|left; split; [done|split; [done|]]].
    + intros key Hk. simpl. rewrite E1, od_get_set, decide_False by congruence. done.
    + simpl. rewrite E1, od_get_set, decide_True by done. eexists. split; [done|]. simpl.
      split; [done|]. split; [by eapply returned_size|]. split_and!; try done.
      destruct dm as [m|]; simpl in Hdm.
      * destruct Hdm as [-> _]. split; [done|by eexists].
      * subst bf. split; [by intros [? ?]|done].
Qed.

Lemma async_save_outcome s (j : put_job K Dt) bf :
  NoDup (od_keys (hot_cache s)) -> job_ok cfg j ->
  use_block_first_for_tensor cfg (mo_tensor_shape (job_obj j)) = Ok bf ->
  triple (same_index s) (async_save_bytes_to_storage cfg j)
    (fun _ t => put_tasks t = remove_first (job_key j) (put_tasks s) /\ put_queue t = put_queue s
       /\ ref_counts t = <[mo_id (job_obj j) := default 0 (ref_counts s !! mo_id (job_obj j)) - 1]>
            (ref_counts s)
       /\ other_entries j s t /\ (published j bf s t \/ already_indexed j s t \/ store_failed j s t))
    (fun _ _ => False).
Proof.
  intros Hnd (Hreq & Hr & Hsized) Hbf. unfold async_save_bytes_to_storage.
  apply (triple_bind _ _ _ (fun b t => b = bf /\ same_index s t)).
  { rewrite Hbf. by intros t Ht. }
  intros b. apply triple_pure. intros ->. cbv zeta.
  change ((key_to_path (xds_path cfg) (job_key j) bf).1.1.1) with (job_path j bf).
  apply (triple_finally _ _ _ _
    (fun _ t => same_tasks s t /\ other_entries j s t /\ (published j bf s t \/ already_indexed j s t \/ store_failed j s t)) _
    (fun _ _ => False)); [|intros []|by intros e t []].
  2:{ intros t ((T1 & T2 & T3) & Ho & Hd). simpl. rewrite T1, T2, T3. by split_and!. }
  apply triple_catch with (E' := fun _ => same_index s).
  - apply (triple_bind _ _ _ (fun _ => same_index s)); [apply on_io_same|]. intros [].
    apply (triple_bind _ _ _ (fun dm t => store_returned (job_obj j) bf dm /\ same_index s t)).
    + destruct (_ && _); [by intros t Ht|]. intros t Ht. unfold on_io.
      destruct (store_chunk _ _ _ _ (x_io t)) as [[r|e] i] eqn:E; [|exact Ht].
      split; [by eapply store_size|exact Ht].
    + intros dm. apply triple_pure. intros Hdm.
      eapply triple_conseq; [by apply insert_key_outcome|done| |by intros e t []].
      intros a t (H1 & H2 & H3). split_and!; tauto.
  - intros e. cbn [any_exn]. generalize (cleanup_paths (job_path j bf) bf). intros paths.
    apply (triple_bind _ _ _ (fun _ => same_index s)).
    + eapply triple_exn; [apply cleanup_same|by intros e' t []].
    + intros [] t (E1 & E2 & E3 & E4 & E5 & E6 & E7). simpl. split; [by split_and!|]. split.
      * intros key Hk. simpl. by rewrite E1, od_get_del, decide_False by (done || congruence).
      * do 2 right. split; simpl; [lia|]. by rewrite E1, od_get_del, decide_True.
Qed.

(** The index up to the order of its entries *)
Definition reordered s t : Prop :=
  hot_cache t ≡ₚ hot_cache s /\ current_cache_size t = current_cache_size s.

Definition refs_up (id d : Z) s t : Prop :=
  forall i, default 0 (ref_counts t !! i) = default 0 (ref_counts s !! i) + (if decide (i = id) then d else 0).

Lemma refs_up_add id d (r : gmap Z Z) i :
  default 0 (<[id := default 0 (r !! id) + d]> r !! i)
  = default 0 (r !! i) + (if decide (i = id) then d else 0).
Proof.
  destruct (decide (i = id)) as [->|Hne]; [by rewrite lookup_insert_eq|].
  rewrite lookup_insert_ne by congruence. lia.
Qed.

(** The entry dropped after a short load *)
Definition load_dropped key (m : XDSCacheMetadata Dt) s t : Prop :=
  od_get key (hot_cache t) = None /\ current_cache_size t = current_cache_size s - xm_size m
  /\ forall k, k <> key -> od_get k (hot_cache t) = od_get k (hot_cache s).

Lemma load_with_memory_outcome s t key m mo :
  NoDup (od_keys (hot_cache s)) -> od_get key (hot_cache s) = Some m ->
  (forall size, expected_load_size cfg m = Ok size -> 0 <= size) ->
  reordered s t -> refs_up (mo_id mo) 1 s t ->
  match load_bytes_with_memory cfg key (xm_path m) (Some mo) t with
  | (Ok (Some mo'), t') => mo' = mo /\ reordered s t' /\ refs_up (mo_id mo) 1 s t'
      /\ exists size i i', expected_load_size cfg m = Ok size
         /\ load_chunk cfg (xm_path m) m mo i = (Ok size, i')
  | (Ok None, t') => load_dropped key m s t' /\ forall i, default 0 (ref_counts t' !! i) = default 0 (ref_counts s !! i)
  | (Raise _, t') => reordered s t'
  end.
Proof.
  intros Hnd Hm Hpos [Hp Hsz] Hrefs. unfold load_bytes_with_memory, hot_get, st_gets, mbind, ST_bind at 1.
  assert (forall k, od_get k (hot_cache t) = od_get k (hot_cache s)) as Hg
    by (intros k; symmetry; by apply od_get_perm).
  rewrite Hg, Hm. destruct (expected_load_size cfg m) as [size|e] eqn:Es; [|done].
  unfold st_lift, ST_bind.
  assert (exists ret i, (match disk_metadata m with
     | Some _ => st_catch is_format_error (on_io (load_chunk cfg (xm_path m) m mo)) (fun _ => mret (-1))
     | None => on_io (load_chunk cfg (xm_path m) m mo) end) t = (ret, with_io i t)
     /\ forall z, ret = Ok z -> z = -1 \/ exists i', load_chunk cfg (xm_path m) m mo i' = (Ok z, i))
    as (ret & i & -> & Hret).
  { unfold st_catch, on_io. destruct (load_chunk cfg (xm_path m) m mo (x_io t)) as [[z|e] i] eqn:El.
    - exists (Ok z), i. split; [by destruct (disk_metadata m); rewrite El|]. intros ? [= <-]. eauto.
    - destruct (disk_metadata m); rewrite El; [destruct (is_format_error e)|].
      + exists (Ok (-1)), i. split; [done|]. intros ? [= <-]. by left.
      + exists (Raise e), i. by split.
      + exists (Raise e), i. by split. }
  destruct ret as [ret|e]; [|done].
  destruct (negb (ret =? size)) eqn:Eret; bool_prop.
  - cbn. rewrite Hg, Hm. cbn. split.
    + split_and!; simpl.
      * rewrite od_get_del, decide_True; [done..|]. unfold od_keys. by rewrite Hp.
      * lia.
      * intros k Hk. rewrite od_get_del, decide_False by (congruence || (unfold od_keys; by rewrite Hp)).
        apply Hg.
    + intros j. rewrite refs_up_add. rewrite (Hrefs j). destruct (decide _); lia.
  - cbn. split; [done|]. split; [done|]. split; [done|]. specialize (Hpos size eq_refl).
    destruct (Hret ret eq_refl) as [->|[i' El]]; [lia|]. subst. eauto.
Qed.

End outcomes.

(** ** Properties *)

Section properties.
Context {K Dt P : Type} `{!CacheKey K, !TorchDtype Dt, !TorchDtypeLaws Dt} {JC : JsonCodec}.
Context {HL : HyFileLib}.
Context `{!CachePolicy K (XDSCacheMetadata Dt) P, !CachePolicyLaws K (XDSCacheMetadata Dt) P can_evict}.
Context `{!ChunkIO Dt, !ChunkIOLaws Dt}.
Context (cfg : xds_config Dt).
Implicit Types (key : K) (mo : memory_obj Dt) (s : xds_state K Dt P).

(** C37: size accounting. Whatever operations run, in whatever order and however they
    fail, the index has one entry per key and the counted size covers the indexed
    files and the reservations of the queued puts. *)
Theorem index_accounting io p ops s :
  Forall (op_ok None) ops -> s = run_st (run_ops cfg ops) (xds_initial io p) ->
  NoDup (od_keys (hot_cache s))
  /\ (forall key m, od_get key (hot_cache s) = Some m -> 0 <= xm_size m)
  /\ od_sum xm_size (hot_cache s) + sumZ (job_reserved <$> put_queue s) <= current_cache_size s.
Proof.
  intros Hops ->.
  pose proof (run_ops_ok cfg None ltac:(done) ops io p I Hops) as H.
  split_and!; [by eapply ix_nodup|intros key m; by eapply ix_get_size|].
  destruct H as [_ _ _ H _]. lia.
Qed.

(** The capacity is never exceeded: with eviction on, no sequence of lookups,
    stores, loads, pins and removals takes the counted size, hence the indexed files,
    over [max_xds_size]. *)
Theorem capacity_respected io p ops s :
  eviction cfg = true -> 0 <= max_xds_size cfg ->
  Forall (op_ok (Some (max_xds_size cfg))) ops -> s = run_st (run_ops cfg ops) (xds_initial io p) ->
  current_cache_size s <= max_xds_size cfg /\ od_sum xm_size (hot_cache s) <= max_xds_size cfg.
Proof.
  intros Hev Hmax Hops ->.
  pose proof (run_ops_ok cfg (Some (max_xds_size cfg)) ltac:(by intros c [= <-]) ops io p Hmax Hops)
    as [_ _ Hj Hsum Hlim]. simpl in Hlim.
  assert (0 <= sumZ (job_reserved <$> put_queue (run_st (run_ops cfg ops) (xds_initial io p)))).
  { apply sumZ_nonneg. apply Forall_fmap. eapply Forall_impl; [|exact Hj]. intros j Hjob; apply Hjob. }
  lia.
Qed.

(** Eviction. It always ends; it drops only entries that are not pinned and keeps
    every other entry as it is; it unlinks the dropped entries' files and no other; on
    success the reservation fits, and on failure nothing is left that the policy may
    evict. *)
Theorem eviction_correct required s :
  index_ok cfg None 0 s ->
  exists ok s' gone, evict cfg required s = (Ok ok, s')
    /\ hot_cache s ≡ₚ gone ++ hot_cache s' /\ Forall (fun kv => is_pinned kv.2 = false) gone
    /\ (forall key m, od_get key (hot_cache s) = Some m -> is_pinned m = true ->
          od_get key (hot_cache s') = Some m)
    /\ current_cache_size s'
       = current_cache_size s - od_sum xm_size gone + (if ok then required else 0)
    /\ (if ok then current_cache_size s' <= max_xds_size cfg
        else max_xds_size cfg < current_cache_size s' + required
             /\ policy_candidates (policy s') (hot_cache s') 1 = [])
    /\ removes_only (kv ← gone; [xm_path kv.2 +:+ METADATA_FILE_SUFFIX; xm_path kv.2])
         (io_world (x_io s)) (io_world (x_io s'))
    /\ put_tasks s' = put_tasks s /\ put_queue s' = put_queue s /\ ref_counts s' = ref_counts s.
Proof.
  intros Hs. destruct (evict_spec cfg None ltac:(done) 0 required s Hs)
    as (ok & s' & gone & E & Hs' & Hp & Hg & Hsz & Hok & Hrm & H1 & H2 & H3).
  exists ok, s', gone. split_and!; try done.
  - eapply Forall_impl; [|exact Hg]. intros kv Hkv. unfold can_evict in Hkv. by destruct (is_pinned _).
  - intros key m Hm Hpin. destruct Hs as [Hnd _ _ _ _]. destruct Hs' as [Hnd' _ _ _ _].
    apply od_get_elem in Hm; [|done]. rewrite Hp in Hm. apply elem_of_app in Hm as [Hm|Hm].
    + rewrite list.Forall_forall in Hg. specialize (Hg _ Hm). unfold can_evict in Hg. simpl in Hg.
      by rewrite Hpin in Hg.
    + by apply od_get_elem.
Qed.

(** C38: a queued put that has run ends in one of three ways. The key was not indexed: its entry
    is published, with the reserved size and at the key's path. The key was indexed already, as
    by a legacy file, at which the submission does not stop ([legacy_hit_leaks]): the old entry
    stays as it was, no entry is made for the written file, and the reservation stays counted. Or
    the store failed: the key has no entry and the reservation is given back. In each case the
    key's task ends, the object's reference is dropped, and no other entry changes. *)
Theorem put_worker_outcome s i (j : put_job K Dt) bf :
  index_ok cfg None 0 s -> put_queue s !! i = Some j ->
  use_block_first_for_tensor cfg (mo_tensor_shape (job_obj j)) = Ok bf ->
  exists s', run_put_worker cfg i s = (Ok tt, s')
    /\ put_tasks s' = remove_first (job_key j) (put_tasks s)
    /\ put_queue s' = delete i (put_queue s)
    /\ ref_counts s' = <[mo_id (job_obj j) := default 0 (ref_counts s !! mo_id (job_obj j)) - 1]>
         (ref_counts s)
    /\ other_entries j s s' /\ (published cfg j bf s s' \/ already_indexed j s s' \/ store_failed j s s').
Proof.
  intros [Hnd _ Hj _ _] Hi Hbf. unfold run_put_worker, st_get, mbind, ST_bind, st_modify, st_catch.
  rewrite Hi. set (s1 := with_queue (delete i (put_queue s)) s).
  pose proof (async_save_outcome cfg s1 j bf Hnd (proj1 (Forall_lookup _ _) Hj _ _ Hi) Hbf s1
    ltac:(done)) as H.
  destruct (async_save_bytes_to_storage cfg j s1) as [[[]|e] s']; [|done].
  exists s'. by split.
Qed.

(** A load. The backend hands out an object only when the storage returned
    exactly the entry's byte count; a short load hands out nothing, drops the entry,
    credits its size and gives the object's reference back, so the key is not found
    again. *)
Theorem get_blocking_outcome s key :
  NoDup (od_keys (hot_cache s)) ->
  (forall m size, od_get key (hot_cache s) = Some m -> expected_load_size cfg m = Ok size -> 0 <= size) ->
  match get_blocking cfg key s with
  | (Ok (Some mo), s') => reordered s s' /\ refs_up (mo_id mo) 1 s s'
      /\ exists m size i i', od_get key (hot_cache s) = Some m /\ expected_load_size cfg m = Ok size
         /\ load_chunk cfg (xm_path m) m mo i = (Ok size, i')
  | (Ok None, s') => (forall i, default 0 (ref_counts s' !! i) = default 0 (ref_counts s !! i))
      /\ (reordered s s' \/ exists m, od_get key (hot_cache s) = Some m /\ load_dropped key m s s')
  | (Raise _, s') => reordered s s'
  end.
Proof.
  intros Hnd Hpos. unfold get_blocking, hot_get, st_gets, mbind, ST_bind.
  destruct (negb (has_allocator cfg)); [split; [done|by left]|].
  destruct (od_get key (hot_cache s)) as [m|] eqn:Hm; [|split; [done|by left]].
  unfold update_on_hit, st_get, st_lift, mbind, ST_bind.
  destruct (hit_total key (policy s) (hot_cache s)) as (p' & h & Eh); [apply od_mem_true; by eexists|].
  rewrite Eh. apply hit_perm in Eh. cbn [fst snd]. unfold st_put.
  set (s1 := with_policy p' (with_hot h s)). assert (reordered s s1) as Hs1 by done.
  destruct (xm_dtype m) as [dt|]; [|exact Hs1]. destruct (xm_shape m) as [shape|]; [|exact Hs1].
  unfold load_bytes_with_allocation, on_io, mbind, ST_bind.
  destruct (allocate_obj shape dt (x_io s1)) as [[[mo|]|e] i]; [|split; [done|by left]|done].
  pose proof (load_with_memory_outcome cfg s (run_st (ref_count_add (mo_id mo) 1) (with_io i s1))
    key m mo Hnd Hm ltac:(eauto) ltac:(done)) as H.
  assert (refs_up (mo_id mo) 1 s (run_st (ref_count_add (mo_id mo) 1) (with_io i s1))) as Hr.
  { intros k. apply (refs_up_add (mo_id mo) 1 (ref_counts s)). }
  specialize (H Hr). unfold ref_count_add, st_modify, run_st in *. cbn [snd fst] in *.
  destruct (load_bytes_with_memory _ _ _ _ _) as [[[mo'|]|e] s']; [| |exact H].
  - destruct H as (-> & H1 & H2 & size & i1 & i2 & H3 & H4). split; [done|]. split; [done|]. eauto 10.
  - destruct H as [H1 H2]. split; [done|]. eauto.
Qed.

End properties.

(** ** Concrete runs *)

(** A file layer for the examples: a store writes zeros, a load returns everything. *)
Module IndexExamples.
Import CountableCodec BlockFirstExamples.

Definition ex_disk_metadata (io : Z) : BlockFirstDiskMetadata :=
  MkBlockFirstDiskMetadata "block_first_v1" 1 [2; 1; 4; 512] [2; 1; 2; 2; 512] "torch.float16" 4 1 2
    512 io io "model" 1 0 1 1 "".

#[global] Instance ex_chunk_io : ChunkIO ex_dtype := {
  store_chunk cfg path mo bf :=
    io ← st_lift (align_up (mo_size mo) BLOCK_FIRST_ALIGNMENT);
    _ ← on_world (py_write_file path []);
    mret (if bf then Some (ex_disk_metadata io) else None);
  load_chunk cfg path m mo :=
    mret (match disk_metadata m with Some dm => io_nbytes dm | None => xm_size m end);
  allocate_obj shape dt :=
    mret (Some (MemoryObj _ 9 shape shape dt KV_2LTD (prodZ shape * itemsize dt)
      (prodZ shape * itemsize dt)));
}.

#[global] Instance ex_chunk_io_laws : ChunkIOLaws ex_dtype.
Proof.
  constructor. intros cfg path mo bf i r i' _. simpl. unfold st_lift, mbind, ST_bind.
  destruct (align_up _ _) as [io|e]; [|done]. destruct (on_world _ _) as [[n|e] w]; [|done].
  destruct bf; intros [= <- <-]; [|done]. by split.
Qed.

Definition ex_cfg (evict : bool) (capacity : Z) : xds_config ex_dtype :=
  XdsConfig _ XdsFiles.XdsExamples.ex_xds evict capacity true false true true (Some 4096) "root"
    [Float16; BFloat16; Float32].

(** A complete chunk and a partial one *)
Definition ex_chunk : memory_obj ex_dtype :=
  MemoryObj _ 1 [2; 1; 4; 512] [2; 1; 4; 512] Float16 KV_2LTD 8192 8192.
Definition ex_partial : memory_obj ex_dtype :=
  MemoryObj _ 2 [2; 1; 3; 512] [2; 1; 3; 512] Float16 KV_2LTD 6144 8192.

Definition ex_start : xds_state string ex_dtype unit := xds_initial XdsFiles.XdsExamples.ex_io tt.

#[global] Instance ex_policy : CachePolicy string (XDSCacheMetadata ex_dtype) unit :=
  Lru.lru_policy can_evict.
#[global] Instance ex_policy_laws : CachePolicyLaws string (XDSCacheMetadata ex_dtype) unit can_evict :=
  Lru.lru_laws can_evict.

(** A store of two chunks and a tail, a pin, a hit and a removal *)
Definition ex_ops : list (index_op (K := string) (Dt := ex_dtype)) :=
  [OpSubmit "a" ex_chunk; OpSubmit "b" ex_partial; OpSubmit "c" ex_chunk; OpRunPut 2; OpRunPut 0;
   OpContains "a" true; OpGet "c"; OpTouch; OpRunPut 0; OpSubmit "d" ex_chunk; OpRemove "c"].

Definition ex_run (evict : bool) (capacity : Z) : xds_state string ex_dtype unit :=
  run_st (run_ops (JC := codec) (ex_cfg evict capacity) ex_ops) ex_start.

End IndexExamples.

(** The invariant at the examples *)
Lemma ex_ops_ok limit :
  (forall c, limit = Some c -> True) -> Forall (op_ok limit) IndexExamples.ex_ops.
Proof. intros _. repeat constructor; simpl; lia. Qed.

Lemma ex_run_ok e c e' c' : index_ok (IndexExamples.ex_cfg e' c') None 0 (IndexExamples.ex_run e c).
Proof.
  assert (index_ok (IndexExamples.ex_cfg e c) None 0 (IndexExamples.ex_run e c)) as [H1 H2 H3 H4 H5]
    by (apply run_ops_ok; [done|apply _|done|]; by apply ex_ops_ok).
  by split.
Qed.

Lemma index_accounting_witness :
  od_keys (hot_cache (IndexExamples.ex_run false 100000)) = ["a"; "b"]
  /\ od_sum xm_size (hot_cache (IndexExamples.ex_run false 100000))
     + sumZ (job_reserved <$> put_queue (IndexExamples.ex_run false 100000))
     <= current_cache_size (IndexExamples.ex_run false 100000).
Proof.
  split; [vm_compute; reflexivity|].
  pose proof (index_accounting (JC := CountableCodec.codec) (IndexExamples.ex_cfg false 100000)
    XdsFiles.XdsExamples.ex_io tt IndexExamples.ex_ops (IndexExamples.ex_run false 100000)
    (ex_ops_ok None ltac:(done)) ltac:(unfold IndexExamples.ex_run; reflexivity)) as H.
  exact (proj2 (proj2 H)).
Defined.

Lemma capacity_respected_witness :
  current_cache_size (IndexExamples.ex_run true 26000) = 24576
  /\ current_cache_size (IndexExamples.ex_run true 26000) <= 26000.
Proof.
  split; [vm_compute; reflexivity|].
  pose proof (capacity_respected (JC := CountableCodec.codec) (IndexExamples.ex_cfg true 26000)
    XdsFiles.XdsExamples.ex_io tt IndexExamples.ex_ops (IndexExamples.ex_run true 26000)
    ltac:(reflexivity) ltac:(done) (ex_ops_ok (Some 26000) ltac:(done))
    ltac:(unfold IndexExamples.ex_run; reflexivity)) as H.
  exact (proj1 H).
Defined.

(** Making room for 20000 bytes in 26000 cannot be done with the pinned "a" there. *)
Lemma eviction_correct_witness :
  exists s', evict (IndexExamples.ex_cfg true 26000) 20000 (IndexExamples.ex_run false 100000)
    = (Ok false, s') /\ od_keys (hot_cache s') = ["a"]
    /\ (exists m, od_get "a" (hot_cache s') = Some m /\ is_pinned m = true).
Proof.
  destruct (eviction_correct (IndexExamples.ex_cfg true 26000) 20000 (IndexExamples.ex_run false 100000)
    (ex_run_ok false 100000 _ _)) as (ok & s' & gone & E & _ & _ & Hpin & _).
  assert ((evict (IndexExamples.ex_cfg true 26000) 20000 (IndexExamples.ex_run false 100000)).1 = Ok false
    /\ od_keys (hot_cache (evict (IndexExamples.ex_cfg true 26000) 20000
         (IndexExamples.ex_run false 100000)).2) = ["a"]) as [E1 E2]
    by (vm_compute; split; reflexivity).
  rewrite E in E1, E2. injection E1 as ->. exists s'. split; [exact E|]. split; [exact E2|].
  assert (exists m, od_get "a" (hot_cache (IndexExamples.ex_run false 100000)) = Some m
    /\ is_pinned m = true) as (m & Hm & Hp) by (vm_compute; eexists; split; reflexivity).
  exists m. split; [exact (Hpin "a" m Hm Hp)|exact Hp].
Defined.

Lemma put_worker_outcome_witness :
  exists j s', run_put_worker (IndexExamples.ex_cfg false 100000) 0 (IndexExamples.ex_run false 100000)
    = (Ok tt, s') /\ job_key j = "d" /\ put_tasks s' = []
    /\ published (IndexExamples.ex_cfg false 100000) j true (IndexExamples.ex_run false 100000) s'.
Proof.
  assert (exists j, put_queue (IndexExamples.ex_run false 100000) !! 0%nat = Some j /\ job_key j = "d"
    /\ use_block_first_for_tensor (IndexExamples.ex_cfg false 100000) (mo_tensor_shape (job_obj j)) = Ok true)
    as (j & Hj & Hk & Hbf) by (vm_compute; eexists; repeat split; reflexivity).
  destruct (put_worker_outcome (IndexExamples.ex_cfg false 100000) (IndexExamples.ex_run false 100000)
    0 j true (ex_run_ok false 100000 _ _) Hj Hbf) as (s' & E & Ht & _ & _ & _ & [H|[(_ & H & _)|[_ H]]]).
  - exists j, s'. split; [exact E|]. split; [exact Hk|]. split; [|exact H].
    rewrite Ht, Hk. vm_compute. reflexivity.
  - exfalso. rewrite Hk in H. vm_compute in H. by destruct H.
  - exfalso. assert (exists m, od_get "d" (hot_cache (run_put_worker (IndexExamples.ex_cfg false 100000) 0
      (IndexExamples.ex_run false 100000)).2) = Some m) as [m Hm] by (vm_compute; eexists; reflexivity).
    rewrite E in Hm. rewrite Hk in H.
    pose proof (eq_trans (eq_sym Hm) H) as Habs. discriminate Habs.
Defined.

Lemma get_blocking_outcome_witness :
  exists mo s', get_blocking (IndexExamples.ex_cfg false 100000) "a" (IndexExamples.ex_run false 100000)
    = (Ok (Some mo), s') /\ reordered (IndexExamples.ex_run false 100000) s'
    /\ od_keys (hot_cache s') = ["b"; "a"].
Proof.
  pose proof (get_blocking_outcome (IndexExamples.ex_cfg false 100000) (IndexExamples.ex_run false 100000)
    "a" (ix_nodup _ _ _ _ (ex_run_ok false 100000 false 100000))) as H.
  assert (exists mo, (get_blocking (IndexExamples.ex_cfg false 100000) "a"
    (IndexExamples.ex_run false 100000)).1 = Ok (Some mo)
    /\ od_keys (hot_cache (get_blocking (IndexExamples.ex_cfg false 100000) "a"
         (IndexExamples.ex_run false 100000)).2) = ["b"; "a"]) as (mo & E1 & E2)
    by (vm_compute; eexists; split; reflexivity).
  destruct (get_blocking _ _ _) as [r s'] eqn:E. simpl in E1, E2. subst r.
  exists mo, s'. split; [reflexivity|]. split; [|exact E2]. apply H.
  intros m size Hm Hs. vm_compute in Hm. injection Hm as <-. vm_compute in Hs. injection Hs as <-. done.
Defined.

(** A put of a key indexed by a legacy file: the worker only records the hit, and the
    reservation stays counted. *)
Example legacy_hit_leaks :
  let s := IndexExamples.ex_run false 100000 in
  let cfg := IndexExamples.ex_cfg false 100000 in
  let s' := run_st (submit_put_task cfg "b" IndexExamples.ex_partial;; run_put_worker cfg 1) s in
  od_sum xm_size (hot_cache s') = od_sum xm_size (hot_cache s)
  /\ put_queue s' = put_queue s
  /\ current_cache_size s' = current_cache_size s + 8192.
Proof. vm_compute. repeat split; reflexivity. Qed.
