(* ===== verification/DeviceTensor.v ===== *)
(** * Tensors in device memory

    The tensors of [Tensor] laid out in the byte-addressed memory of [World]: the strided
    views PyTorch gives of it, and what [logical_to_block_first] and [block_first_to_logical]
    of [BlockFirst] do to its bytes. *)

From S2P Require Import Prelude Tensor Codec BlockFirst World.

Open Scope string_scope.
Open Scope list_scope.
Open Scope Z_scope.

(** A tensor: [data_ptr()], shape, strides in elements, dtype and device *)
Record dtensor {Dt Dv : Type} := DTensor {
  dt_ptr : Z;
  dt_shape : list Z;
  dt_strides : list Z;
  dt_dtype : Dt;
  dt_device : Dv;
}.
Arguments dtensor : clear implicits.
Arguments DTensor {Dt Dv}.

Section device.
Context {Dt Dv : Type} `{!TorchDtype Dt}.
(** Where PyTorch's allocator puts [n] bytes *)
Context (cuda_malloc : (Z -> Z) -> Z -> Z).
Implicit Types (t src dst : dtensor Dt Dv) (m : Z -> Z).

Definition dt_contiguous t : bool :=
  bool_decide (dt_strides t = Strided.contiguous_strides (dt_shape t)).

(** The address of an element, and its bytes *)
Definition dt_address t (idx : list Z) : Z :=
  dt_ptr t + Strided.dot idx (dt_strides t) * itemsize (dt_dtype t).

Definition dt_read m t (idx : list Z) : list Z :=
  mem_slice m (dt_address t idx) (Z.to_nat (itemsize (dt_dtype t))).

Definition contiguous_at (p : Z) (sh : list Z) (dt : Dt) (dv : Dv) : dtensor Dt Dv :=
  DTensor p sh (Strided.contiguous_strides sh) dt dv.

Definition dt_view t (sh : list Z) : result (dtensor Dt Dv) :=
  if dt_contiguous t && (prodZ sh =? prodZ (dt_shape t))
  then Ok (contiguous_at (dt_ptr t) sh (dt_dtype t) (dt_device t))
  else Raise (RuntimeError "view size is not compatible").

Definition dt_permute t (p : list nat) : dtensor Dt Dv :=
  DTensor (dt_ptr t) (pick p (dt_shape t)) (pick p (dt_strides t)) (dt_dtype t) (dt_device t).

(** [dst.copy_(src)], element by element; the sources are read before any is written *)
Definition dt_copy m dst src : Z -> Z :=
  foldl (fun acc idx => mem_write acc (dt_address dst idx) (dt_read m src idx)) m
    (Strided.indices (dt_shape dst)).

#[global] Instance device_ops : TorchOps (Z -> Z) (dtensor Dt Dv) Dt Dv (list Z) := {
  t_shape := dt_shape;
  t_dtype := dt_dtype;
  t_device := dt_device;
  t_contiguous := dt_contiguous;
  t_storage t := Z.to_nat (dt_ptr t);
  t_alive m t := True;
  t_read m t idx := Some (dt_read m t idx);
  t_view := dt_view;
  t_permute := dt_permute;
  t_copy := dt_copy;
  t_empty m sh dt dv := (contiguous_at (cuda_malloc m (prodZ sh * itemsize dt)) sh dt dv, m);
}.

(** Two tensors of [n] bytes each that share no address *)
Definition apart (a b n : Z) : Prop := a + n <= b \/ b + n <= a.

(** ** Copying *)

Context {TL : TorchDtypeLaws Dt}.

Lemma length_dt_read m t idx : lenZ (dt_read m t idx) = itemsize (dt_dtype t).
Proof.
  unfold dt_read, lenZ. rewrite length_mem_slice. pose proof (itemsize_pos (dt_dtype t)). lia.
Qed.

Lemma dt_address_contiguous p sh dt (dv : Dv) idx :
  length idx = length sh ->
  dt_address (contiguous_at p sh dt dv) idx = p + ravel sh idx * itemsize dt.
Proof. intros H. unfold dt_address. simpl. by rewrite StridedFacts.dot_contiguous. Qed.

Lemma mem_write_read m m' t idx a x :
  a <= x < a + itemsize (dt_dtype t) ->
  mem_write m' a (dt_read m t idx) x = m (dt_address t idx + (x - a)).
Proof.
  intros Hx. replace x with (a + Z.of_nat (Z.to_nat (x - a))) by lia.
  erewrite mem_write_inside; [|apply mem_slice_lookup; lia]. f_equal. lia.
Qed.

(** Copying into a contiguous tensor writes each element at its place and nothing else. *)
Lemma copy_contiguous m dst src p sh l acc x :
  dst = contiguous_at p sh (dt_dtype src) (dt_device src) ->
  (forall idx, idx ∈ l -> valid_idx sh idx) ->
  let isz := itemsize (dt_dtype src) in
  let res := foldl (fun acc idx => mem_write acc (dt_address dst idx) (dt_read m src idx)) acc l in
  ((forall idx, idx ∈ l -> ~ p + ravel sh idx * isz <= x < p + ravel sh idx * isz + isz) ->
     res x = acc x)
  /\ (forall idx, idx ∈ l -> p + ravel sh idx * isz <= x < p + ravel sh idx * isz + isz ->
        res x = m (dt_address src idx + (x - (p + ravel sh idx * isz)))).
Proof.
  intros ->. cbv zeta. revert acc. induction l as [|i l IH]; intros acc Hv; simpl.
  - split; [done|]. by intros idx ?%not_elem_of_nil.
  - specialize (IH (mem_write acc
      (dt_address (contiguous_at p sh (dt_dtype src) (dt_device src)) i) (dt_read m src i))
      ltac:(intros idx Hi; apply Hv; by right)) as [IH1 IH2].
    assert (valid_idx sh i) as Hi by (apply Hv; by left).
    rewrite (dt_address_contiguous p sh _ _ i) in * by by apply valid_idx_length.
    set (isz := itemsize (dt_dtype src)) in *.
    assert (0 < isz) as Hpos by apply itemsize_pos. split.
    + intros Hx. rewrite IH1 by (intros idx Hin; apply Hx; by right).
      apply mem_write_outside. rewrite length_dt_read. apply Hx. by left.
    + intros idx Hin Hx. destruct (decide (idx ∈ l)) as [Hl|Hl]; [by apply IH2|].
      assert (idx = i) as -> by (apply elem_of_cons in Hin as [?|?]; done). rewrite IH1.
      * rewrite mem_write_read by done. done.
      * intros idx' Hin' Hx'. apply Hl.
        assert (valid_idx sh idx') as Hv' by (apply Hv; by right).
        replace i with idx'; [done|]. apply (ravel_inj sh); [done..|].
        assert (forall a b : Z, a * isz < b * isz + isz -> a <= b) as Hlt by (intros a b; nia).
        pose proof (Hlt (ravel sh idx') (ravel sh i)). pose proof (Hlt (ravel sh i) (ravel sh idx')).
        lia.
Qed.

End device.

(** ** The block-first layout in bytes

    A chunk [[2, NL, CB * BS, D]]: [g_run] bytes of one block, layer and K or V are
    contiguous in both layouts. *)
Record geometry := Geometry { g_nl : Z; g_cb : Z; g_bs : Z; g_d : Z; g_isz : Z }.

Definition geometry_ok (g : geometry) : Prop :=
  0 < g_nl g /\ 0 < g_cb g /\ 0 < g_bs g /\ 0 < g_d g /\ 0 < g_isz g.

Definition g_logical (g : geometry) : list Z := [2; g_nl g; g_cb g * g_bs g; g_d g].
Definition g_physical (g : geometry) : list Z := [g_cb g; g_nl g; 2; g_bs g; g_d g].

Definition g_run (g : geometry) : Z := g_bs g * g_d g * g_isz g.
Definition g_runs (g : geometry) : Z := g_cb g * g_nl g * 2.
Definition g_nbytes (g : geometry) : Z := g_runs g * g_run g.

(** Where the [q]-th run of the block-first layout is in the logical one *)
Definition run_logical (g : geometry) (q : Z) : Z :=
  ((q mod 2 * g_nl g + q / 2 mod g_nl g) * g_cb g + q / 2 / g_nl g) * g_run g.

(** The logical position of byte [j] of the block-first layout *)
Definition logical_source (g : geometry) (j : Z) : Z :=
  run_logical g (j / g_run g) + j mod g_run g.

(** [q * n + r] divides back. *)
Lemma div_mod_pair q n r : 0 <= r < n -> (q * n + r) / n = q /\ (q * n + r) mod n = r.
Proof.
  intros H. split; [rewrite Z.div_add_l, Z.div_small by lia; lia|].
  rewrite Z.add_comm, Z.mod_add, Z.mod_small by lia. done.
Qed.

Lemma mul_add_bounds q r n m : 0 <= q < m -> 0 <= r < n -> 0 <= q * n + r < m * n.
Proof. nia. Qed.

Section geometry_facts.
Context (g : geometry) (Hg : geometry_ok g).

(** The position of a run given by block, layer and K or V *)
Lemma run_logical_at b l kv :
  0 <= l < g_nl g -> 0 <= kv < 2 ->
  run_logical g ((b * g_nl g + l) * 2 + kv) = ((kv * g_nl g + l) * g_cb g + b) * g_run g.
Proof.
  intros Hl Hkv. unfold run_logical.
  destruct (div_mod_pair (b * g_nl g + l) 2 kv Hkv) as [-> ->].
  by destruct (div_mod_pair b (g_nl g) l Hl) as [-> ->].
Qed.

Lemma g_run_pos : 0 < g_run g.
Proof. destruct Hg as (?&?&?&?&?). unfold g_run. repeat apply Z.mul_pos_pos; lia. Qed.

Lemma logical_source_at q o :
  0 <= o < g_run g -> logical_source g (q * g_run g + o) = run_logical g q + o.
Proof. intros Ho. unfold logical_source. by destruct (div_mod_pair q (g_run g) o Ho) as [-> ->]. Qed.

(** Every position of the layout has a block, a layer, K or V, and an offset in its run. *)
Lemma run_split q : 0 <= q < g_runs g -> exists b l kv,
  0 <= b < g_cb g /\ 0 <= l < g_nl g /\ 0 <= kv < 2 /\ q = (b * g_nl g + l) * 2 + kv.
Proof.
  destruct Hg as (?&?&?&?&?). unfold g_runs. intros Hq.
  exists (q / 2 / g_nl g), (q / 2 mod g_nl g), (q mod 2).
  pose proof (Z.div_mod q 2 ltac:(lia)). pose proof (Z.mod_pos_bound q 2 ltac:(lia)).
  pose proof (Z.div_mod (q / 2) (g_nl g) ltac:(lia)).
  pose proof (Z.mod_pos_bound (q / 2) (g_nl g) ltac:(lia)).
  assert (0 <= q / 2 < g_cb g * g_nl g) by lia.
  split; [|split; [done|split; [done|lia]]].
  split; [apply Z.div_pos; lia|apply Z.div_lt_upper_bound; lia].
Qed.

Lemma pos_split j : 0 <= j < g_nbytes g -> exists q o,
  0 <= q < g_runs g /\ 0 <= o < g_run g /\ j = q * g_run g + o.
Proof.
  pose proof g_run_pos. unfold g_nbytes. intros Hj. exists (j / g_run g), (j mod g_run g).
  pose proof (Z.div_mod j (g_run g) ltac:(lia)). pose proof (Z.mod_pos_bound j (g_run g) ltac:(lia)).
  split; [split; [apply Z.div_pos; lia|apply Z.div_lt_upper_bound; lia]|]. split; [done|lia].
Qed.

Lemma run_logical_bounds q : 0 <= q < g_runs g ->
  0 <= run_logical g q /\ run_logical g q + g_run g <= g_nbytes g.
Proof.
  intros (b & l & kv & Hb & Hl & Hkv & ->)%run_split. rewrite run_logical_at by done.
  pose proof g_run_pos. pose proof (mul_add_bounds kv l (g_nl g) 2 Hkv Hl) as Hx.
  pose proof (mul_add_bounds _ b (g_cb g) _ Hx Hb) as Hy.
  unfold g_nbytes, g_runs. nia.
Qed.

Lemma logical_source_bounds j : 0 <= j < g_nbytes g -> 0 <= logical_source g j < g_nbytes g.
Proof.
  intros (q & o & Hq & Ho & ->)%pos_split. rewrite logical_source_at by done.
  pose proof (run_logical_bounds q Hq). lia.
Qed.

(** Every logical position is somewhere in the layout. *)
Lemma logical_source_onto i : 0 <= i < g_nbytes g -> exists j,
  0 <= j < g_nbytes g /\ logical_source g j = i.
Proof.
  intros (q & o & Hq & Ho & ->)%pos_split. destruct Hg as (Hnl&Hcb&?&?&?).
  assert (exists kv l b, 0 <= kv < 2 /\ 0 <= l < g_nl g /\ 0 <= b < g_cb g
    /\ q = (kv * g_nl g + l) * g_cb g + b) as (kv & l & b & Hkv & Hl & Hb & ->).
  { unfold g_runs in Hq. exists (q / g_cb g / g_nl g), (q / g_cb g mod g_nl g), (q mod g_cb g).
    pose proof (Z.div_mod q (g_cb g) ltac:(lia)). pose proof (Z.mod_pos_bound q (g_cb g) ltac:(lia)).
    pose proof (Z.div_mod (q / g_cb g) (g_nl g) ltac:(lia)).
    pose proof (Z.mod_pos_bound (q / g_cb g) (g_nl g) ltac:(lia)).
    assert (0 <= q / g_cb g < g_nl g * 2).
    { split; [apply Z.div_pos; lia|apply Z.div_lt_upper_bound; lia]. }
    split; [split; [apply Z.div_pos; lia|apply Z.div_lt_upper_bound; lia]|]. lia. }
  pose proof (mul_add_bounds b l (g_nl g) (g_cb g) Hb Hl) as Hx.
  pose proof (mul_add_bounds _ kv 2 _ Hx Hkv) as Hy.
  exists (((b * g_nl g + l) * 2 + kv) * g_run g + o).
  rewrite logical_source_at, run_logical_at by done. split; [|done].
  pose proof (mul_add_bounds _ o (g_run g) _ Hy Ho). unfold g_nbytes, g_runs. lia.
Qed.

(** The bytes of an element in both layouts *)
Lemma element_split j : 0 <= j < g_nbytes g -> exists b l kv t d r,
  valid_idx (g_physical g) [b; l; kv; t; d] /\ 0 <= r < g_isz g
  /\ j = ravel (g_physical g) [b; l; kv; t; d] * g_isz g + r
  /\ logical_source g j
     = ravel [2; g_nl g; g_cb g; g_bs g; g_d g] [kv; l; b; t; d] * g_isz g + r.
Proof.
  intros (q & o & Hq & Ho & ->)%pos_split. rewrite logical_source_at by done.
  destruct (run_split q Hq) as (b & l & kv & Hb & Hl & Hkv & ->).
  rewrite run_logical_at by done. destruct Hg as (?&?&?&?&?). unfold g_run in *.
  set (u := o / g_isz g).
  pose proof (Z.div_mod o (g_isz g) ltac:(lia)). pose proof (Z.mod_pos_bound o (g_isz g) ltac:(lia)).
  assert (0 <= u < g_bs g * g_d g) as Hu.
  { unfold u. split; [apply Z.div_pos; lia|apply Z.div_lt_upper_bound; lia]. }
  pose proof (Z.div_mod u (g_d g) ltac:(lia)). pose proof (Z.mod_pos_bound u (g_d g) ltac:(lia)).
  assert (0 <= u / g_d g < g_bs g).
  { split; [apply Z.div_pos; lia|apply Z.div_lt_upper_bound; lia]. }
  exists b, l, kv, (u / g_d g), (u mod g_d g), (o mod g_isz g).
  assert (o = (g_d g * (u / g_d g) + u mod g_d g) * g_isz g + o mod g_isz g) as Ho' by lia.
  set (t := u / g_d g) in *. set (d := u mod g_d g) in *. set (r := o mod g_isz g) in *.
  split; [|split; [done|]].
  - unfold valid_idx, g_physical. repeat constructor; lia.
  - unfold ravel, prodZ, g_physical. simpl. rewrite Ho'. split; ring.
Qed.

End geometry_facts.

(** ** The layout as a sequence of runs *)

Lemma rangeZ_app a m n : rangeZ a (m + n) = rangeZ a m ++ rangeZ (a + Z.of_nat m) n.
Proof. unfold rangeZ. rewrite Nat2Z.inj_add. by rewrite seqZ_app by lia. Qed.

Lemma rangeZ_shift a n : rangeZ a n = (fun y => a + y) <$> rangeZ 0 n.
Proof. unfold rangeZ. by rewrite fmap_add_seqZ, Z.add_0_r. Qed.

(** A range of products, as nested ranges *)
Lemma rangeZ_mul a b : 0 <= a -> 0 <= b ->
  rangeZ 0 (Z.to_nat (a * b))
  = (x ← rangeZ 0 (Z.to_nat a); (fun y => x * b + y) <$> rangeZ 0 (Z.to_nat b)).
Proof.
  intros Ha Hb. rewrite <- (Z2Nat.id a Ha) at 1. generalize (Z.to_nat a). clear a Ha.
  intros n. induction n as [|n IH]; [done|].
  rewrite Nat2Z.inj_succ, Z.mul_succ_l, Z2Nat.inj_add by nia. rewrite rangeZ_app, IH, rangeZ_S, bind_app. f_equal. simpl. rewrite app_nil_r.
  rewrite rangeZ_shift. apply list_fmap_ext. intros i x _. rewrite Z2Nat.id by nia. lia.
Qed.

Lemma bind_fmap_list {A B C} (f : A -> B) (k : B -> list C) (l : list A) :
  (f <$> l) ≫= k = l ≫= fun x => k (f x).
Proof. induction l as [|x l IH]; [done|]. cbn. by rewrite IH. Qed.

Lemma fmap_bind_list {A B C} (f : B -> C) (k : A -> list B) (l : list A) :
  f <$> (l ≫= k) = l ≫= fun x => f <$> k x.
Proof. induction l as [|x l IH]; [done|]. cbn. by rewrite fmap_app, IH. Qed.

Lemma bind_ext_list {A B} (k k' : A -> list B) (l : list A) :
  (forall x, x ∈ l -> k x = k' x) -> l ≫= k = l ≫= k'.
Proof.
  induction l as [|x l IH]; intros H; [done|]. cbn. rewrite H by by left. f_equal. apply IH.
  intros y Hy. apply H. by right.
Qed.

Lemma bind_assoc_list {A B C} (k : A -> list B) (k' : B -> list C) (l : list A) :
  (l ≫= k) ≫= k' = l ≫= fun x => k x ≫= k'.
Proof. induction l as [|x l IH]; [done|]. cbn. by rewrite bind_app, IH. Qed.

Section payload.
Context (g : geometry) (Hg : geometry_ok g).

(** The block-first payload of the chunk at [p] *)
Definition block_first_payload (m : Z -> Z) (p : Z) : list Z :=
  (fun j => m (p + logical_source g j)) <$> rangeZ 0 (Z.to_nat (g_nbytes g)).

Lemma length_payload m p : lenZ (block_first_payload m p) = g_nbytes g.
Proof.
  unfold block_first_payload, lenZ. rewrite length_fmap, length_rangeZ.
  pose proof (g_run_pos g Hg). destruct Hg as (?&?&?&?&?). unfold g_nbytes, g_runs in *. nia.
Qed.

Lemma payload_lookup m p j :
  0 <= j < g_nbytes g -> block_first_payload m p !! Z.to_nat j = Some (m (p + logical_source g j)).
Proof.
  intros Hj. unfold block_first_payload. rewrite list_lookup_fmap, lookup_rangeZ by lia.
  cbn [fmap option_fmap option_map]. by rewrite Z.add_0_l, Z2Nat.id by lia.
Qed.

(** Block by block, layer by layer, K then V *)
Lemma payload_runs m p :
  block_first_payload m p =
  b ← rangeZ 0 (Z.to_nat (g_cb g));
  l ← rangeZ 0 (Z.to_nat (g_nl g));
  kv ← [0; 1];
  mem_slice m (p + ((kv * g_nl g + l) * g_cb g + b) * g_run g) (Z.to_nat (g_run g)).
Proof.
  pose proof (g_run_pos g Hg) as Hr. pose proof Hg as (?&?&?&?&?).
  unfold block_first_payload, g_nbytes. rewrite rangeZ_mul by (unfold g_runs; nia).
  rewrite fmap_bind_list. unfold g_runs. rewrite rangeZ_mul by nia.
  rewrite rangeZ_mul, !bind_assoc_list by nia. apply bind_ext_list. intros b Hb.
  rewrite bind_fmap_list. apply bind_ext_list. intros l Hl.
  apply elem_of_seqZ in Hl. change (rangeZ 0 (Z.to_nat 2)) with [0; 1].
  rewrite bind_fmap_list. apply bind_ext_list. intros kv Hkv.
  assert (0 <= kv < 2) as Hkv' by (set_unfold in Hkv; lia).
  unfold mem_slice. rewrite (rangeZ_shift (p + _)), <- !list_fmap_compose.
  apply list_fmap_ext. intros i o Ho%list_elem_of_lookup_2. apply elem_of_seqZ in Ho. simpl.
  replace (((b * (g_nl g * 2) + (l * 2 + kv)) * g_run g + o))
    with (((b * g_nl g + l) * 2 + kv) * g_run g + o) by ring.
  rewrite logical_source_at, run_logical_at by lia. f_equal. lia.
Qed.

End payload.

(** ** The geometry of a metadata record *)

Section create_geometry.
Context {Dt : Type} `{!TorchDtype Dt, !TorchDtypeLaws Dt} {JC : JsonCodec}.

(** The record describes chunks of the geometry [g] and dtype [dt]. *)
Definition describes (m : BlockFirstDiskMetadata) (g : geometry) (dt : Dt) : Prop :=
  geometry_ok g /\ g_isz g = itemsize dt /\ logical_shape m = g_logical g
  /\ payload_shape m = g_physical g /\ num_layers m = g_nl g /\ block_size m = g_bs g
  /\ hidden_dim m = g_d g /\ payload_nbytes m = g_nbytes g
  /\ align_up (g_nbytes g) BLOCK_FIRST_ALIGNMENT = Ok (io_nbytes m).

Lemma create_geometry shape dt bs e m :
  create shape dt bs e = Ok m -> exists g, describes m g dt /\ shape = g_logical g /\ g_bs g = bs.
Proof.
  unfold create. intros H. res_inv. subst m.
  match goal with Hb : block_first_shape shape _ = Ok _ |- _ =>
    apply block_first_shape_Ok in Hb as (nl & nb & d & Hnl & Hnb & Hbs & Hd & -> & ->) end.
  repeat match goal with Hx : py_index _ _ = Ok _ |- _ =>
    apply py_index_nonneg in Hx; [injection Hx as <-|lia] end.
  pose proof (itemsize_pos dt) as Hi.
  exists (Geometry nl nb bs d (itemsize dt)). split; [|done].
  assert (prodZ [2; nl; nb * bs; d] * itemsize dt = g_nbytes (Geometry nl nb bs d (itemsize dt)))
    as Hn by (unfold g_nbytes, g_runs, g_run, prodZ; simpl; ring).
  split_and!; try done. cbn [io_nbytes]. by rewrite <- Hn.
Qed.

Lemma describes_sizes m g dt : describes m g dt ->
  0 < g_nbytes g <= io_nbytes m /\ io_nbytes m mod 4096 = 0.
Proof.
  intros (Hg & _ & _ & _ & _ & _ & _ & _ & Hio).
  apply align_up_Ok in Hio as (_ & _ & Hio). unfold BLOCK_FIRST_ALIGNMENT in Hio.
  pose proof (g_run_pos g Hg). destruct Hg as (?&?&?&?&?).
  assert (0 < g_nbytes g) by (unfold g_nbytes, g_runs; nia).
  rewrite Hio. split; [|by rewrite Z.mod_mul]. split; [done|]. clear. div_lia.
Qed.

End create_geometry.

(** ** The conversions in bytes *)

Section conversions.
Context {Dt Dv : Type} `{!TorchDtype Dt, !TorchDtypeLaws Dt, !EqDecision Dv}.
Context (cuda_malloc : (Z -> Z) -> Z -> Z).
#[local] Instance ops : TorchOps (Z -> Z) (dtensor Dt Dv) Dt Dv (list Z) := device_ops cuda_malloc.
Context (g : geometry) (Hg : geometry_ok g) (dt : Dt) (dv : Dv) (Hisz : g_isz g = itemsize dt).

Lemma contiguous_at_contiguous p sh : dt_contiguous (contiguous_at p sh dt dv) = true.
Proof. by apply bool_decide_eq_true. Qed.

Lemma physical_shape : block_first_shape (g_logical g) (g_bs g) = Ok (g_physical g).
Proof.
  destruct Hg as (?&?&?&?&?). apply block_first_shape_Ok.
  by exists (g_nl g), (g_cb g), (g_d g).
Qed.

Lemma nbytes_prod sh : prodZ sh = prodZ (g_physical g) -> prodZ sh * itemsize dt = g_nbytes g.
Proof.
  intros ->. unfold prodZ, g_physical, g_nbytes, g_runs, g_run. rewrite Hisz. simpl. ring.
Qed.

Lemma view_contiguous_at p sh sh' :
  prodZ sh' = prodZ sh ->
  t_view (contiguous_at p sh dt dv) sh' = Ok (contiguous_at p sh' dt dv).
Proof.
  intros Hp. unfold t_view, ops, device_ops, dt_view.
  rewrite contiguous_at_contiguous. cbn [contiguous_at dt_shape]. by rewrite Hp, Z.eqb_refl.
Qed.

(** The element of a permuted view [[2, 1, 0, 3, 4]] *)
Lemma permuted_address p sh b l kv t d :
  length sh = 5%nat ->
  dt_address (dt_permute (contiguous_at p sh dt dv) [2; 1; 0; 3; 4]%nat) [b; l; kv; t; d]
  = p + ravel sh [kv; l; b; t; d] * itemsize dt.
Proof.
  intros Hsh. rewrite <- (dt_address_contiguous p sh dt dv [kv; l; b; t; d]) by done.
  unfold dt_address. cbn [dt_permute contiguous_at dt_strides dt_ptr dt_dtype]. do 2 f_equal.
  change [b; l; kv; t; d] with (pick [2; 1; 0; 3; 4]%nat [kv; l; b; t; d]).
  apply StridedFacts.dot_permute, perm_21034.
Qed.

(** Every byte of a contiguous tensor filled element by element *)
Lemma copy_fills m src q sh :
  dt_dtype src = dt -> dt_device src = dv ->
  (forall idx r, valid_idx sh idx -> 0 <= r < itemsize dt ->
     dt_copy m (contiguous_at q sh dt dv) src (q + (ravel sh idx * itemsize dt + r))
     = m (dt_address src idx + r))
  /\ forall a, ~ q <= a < q + prodZ sh * itemsize dt ->
       dt_copy m (contiguous_at q sh dt dv) src a = m a.
Proof.
  intros <- <-. unfold dt_copy. cbn [contiguous_at dt_shape].
  pose proof (itemsize_pos (dt_dtype src)). split.
  - intros idx r Hv Hr.
    destruct (copy_contiguous m (contiguous_at q sh (dt_dtype src) (dt_device src)) src q sh
      (Strided.indices sh) m (q + (ravel sh idx * itemsize (dt_dtype src) + r)) eq_refl
      ltac:(intros i; apply StridedFacts.elem_of_indices)) as [_ Hc].
    rewrite (Hc idx); [f_equal; lia|by apply StridedFacts.elem_of_indices|lia].
  - intros a Ha.
    destruct (copy_contiguous m (contiguous_at q sh (dt_dtype src) (dt_device src)) src q sh
      (Strided.indices sh) m a eq_refl
      ltac:(intros i; apply StridedFacts.elem_of_indices)) as [Hc _].
    apply Hc. intros idx Hv%StridedFacts.elem_of_indices Hx. apply ravel_bounds in Hv. apply Ha. nia.
Qed.

(** Copying the permuted view into the block-first tensor *)
Lemma to_block_first_bytes m p q :
  exists m', logical_to_block_first m (contiguous_at p (g_logical g) dt dv)
      (g_bs g) (Some (contiguous_at q (g_physical g) dt dv))
    = Ok (contiguous_at q (g_physical g) dt dv, m')
  /\ (forall j, 0 <= j < g_nbytes g -> m' (q + j) = m (p + logical_source g j))
  /\ (forall a, ~ q <= a < q + g_nbytes g -> m' a = m a).
Proof.
  unfold logical_to_block_first. cbn [t_shape ops device_ops contiguous_at dt_shape].
  rewrite physical_shape. cbn [mbind result_bind].
  unfold t_contiguous, t_dtype, t_device, ops, device_ops at 1 2 3 4 5.
  fold (contiguous_at p (g_logical g) dt dv). rewrite contiguous_at_contiguous.
  rewrite !bool_decide_false by tauto. cbn [negb raise_if mbind result_bind orb].
  unfold g_physical at 1. fold ops. rewrite view_contiguous_at
    by (unfold prodZ, g_logical; simpl; ring).
  cbn [mbind result_bind]. eexists. split; [done|].
  destruct (copy_fills m (dt_permute (contiguous_at p [2; g_nl g; g_cb g; g_bs g; g_d g] dt dv)
    [2; 1; 0; 3; 4]%nat) q (g_physical g) eq_refl eq_refl) as [Hin Hout].
  unfold t_copy, t_permute, ops, device_ops. split.
  - intros j Hj. destruct (element_split g Hg j Hj) as (b & l & kv & t & d & r & Hv & Hr & -> & ->).
    rewrite Hisz in *. rewrite Hin by done. rewrite permuted_address by done. f_equal. lia.
  - intros a Ha. apply Hout. by rewrite nbytes_prod.
Qed.

(** Copying back into a view of the logical tensor *)
Lemma to_logical_bytes m p q :
  exists m', block_first_to_logical m (contiguous_at q (g_physical g) dt dv)
      (Some (contiguous_at p (g_logical g) dt dv))
    = Ok (contiguous_at p (g_logical g) dt dv, m')
  /\ (forall j, 0 <= j < g_nbytes g -> m' (p + logical_source g j) = m (q + j))
  /\ (forall a, ~ p <= a < p + g_nbytes g -> m' a = m a).
Proof.
  unfold block_first_to_logical. cbn [t_shape ops device_ops contiguous_at dt_shape].
  unfold g_physical at 1. cbn [Z.eqb Pos.eqb negb raise_if mbind result_bind].
  unfold t_contiguous, t_dtype, t_device, ops, device_ops at 1 2 3 4 5.
  fold (contiguous_at q (g_physical g) dt dv). rewrite contiguous_at_contiguous.
  change [2; g_nl g; g_cb g * g_bs g; g_d g] with (g_logical g).
  rewrite !bool_decide_false by tauto. cbn [negb raise_if mbind result_bind orb].
  fold ops. rewrite view_contiguous_at by (unfold prodZ, g_logical; simpl; ring).
  cbn [mbind result_bind]. eexists. split; [done|].
  set (sh := [2; g_nl g; g_cb g; g_bs g; g_d g]).
  destruct (copy_fills m (dt_permute (contiguous_at q (g_physical g) dt dv)
    [2; 1; 0; 3; 4]%nat) p sh eq_refl eq_refl) as [Hin Hout].
  unfold t_copy, t_permute, ops, device_ops. split.
  - intros j Hj. destruct (element_split g Hg j Hj) as (b & l & kv & t & d & r & Hv & Hr & -> & ->).
    rewrite Hisz in *. fold sh. rewrite Hin; [| |done].
    + rewrite permuted_address by done. f_equal. lia.
    + unfold g_physical, sh in *. rewrite !valid_idx_cons in Hv. rewrite !valid_idx_cons. tauto.
  - intros a Ha. apply Hout. by rewrite nbytes_prod by (unfold sh, prodZ, g_physical; simpl; ring).
Qed.

End conversions.
