(* ===== verification/XdsStaged.v ===== *)
(** * Staged transfers of the XDS backend

    How [xds_backend.py] moves a chunk between a memory object and its file when it is not
    direct I/O: through the registered GPU buffer ([_save_xds], [_load_xds]), through the
    block-first staging buffer ([_save_block_first_xds], [_load_block_first_xds]), from CPU
    memory ([_save_cpu_block_first_xds], [_save_cpu_xds]) and by POSIX I/O ([Posix]). GPU work
    is asynchronous: kernels wait in a stream until a synchronization. *)

From S2P Require Import Prelude Tensor Codec BlockFirst DirectIO World HipFile XdsFiles XdsPaths XdsMeta Dict XdsIndex DeviceTensor.

Open Scope string_scope.
Open Scope list_scope.
Open Scope Z_scope.

(** ** The GPU stream *)

(** A kernel, as what it does to memory *)
Definition kernel : Type := (Z -> Z) -> Z -> Z.

(** Launched kernels run in order, at the latest when the stream is synchronized;
    [schedule] is how many of them have run by each transfer that does not wait for them. *)
Record stream_state := StreamState {
  st_world : world;
  pending : list kernel;
  schedule : list nat;
}.

Definition run_kernels (ks : list kernel) (w : world) : world :=
  with_mem w (foldl (fun m k => k m) (mem w) ks).

Definition on_stream {A} (m : ST world A) : ST stream_state A := fun s =>
  let '(r, w) := m (st_world s) in (r, StreamState w (pending s) (schedule s)).

(** CPU tensors are written at once. *)
Definition launch (is_cuda : bool) (k : kernel) : ST stream_state unit := st_modify (fun s =>
  if is_cuda then StreamState (st_world s) (pending s ++ [k]) (schedule s)
  else StreamState (run_kernels [k] (st_world s)) (pending s) (schedule s)).

(** [torch.cuda.synchronize] *)
Definition stream_synchronize {HL : HyFileLib} : ST stream_state unit :=
  on_stream synchronize;;
  st_modify (fun s => StreamState (run_kernels (pending s) (st_world s)) [] (schedule s)).

Definition sync_if {HL : HyFileLib} (is_cuda : bool) : ST stream_state unit :=
  if is_cuda then stream_synchronize else mret tt.

(** A transfer outside the stream's order: it sees what the scheduled kernels have done. *)
Definition dma {A} (m : ST world A) : ST stream_state A :=
  st_modify (fun s =>
    let n := hd 0%nat (schedule s) in
    StreamState (run_kernels (take n (pending s)) (st_world s)) (drop n (pending s))
      (tl (schedule s)));;
  on_stream m.

(** A critical section of the stream; what is still pending completes after it. *)
Definition in_stream {A} (sched : list nat) (m : ST stream_state A) : ST world A := fun w =>
  let '(r, s) := m (StreamState w [] sched) in (r, run_kernels (pending s) (st_world s)).

(** A tensor operation: its arguments are checked now, its kernel is launched. *)
Definition tensor_op {T} (is_cuda : bool) (f : (Z -> Z) -> result (T * (Z -> Z)))
    : ST stream_state unit :=
  s ← st_get;
  match f (mem (st_world s)) with
  | Raise e => st_raise e
  | Ok _ => launch is_cuda (fun m => match f m with Ok (_, m') => m' | Raise _ => m end)
  end.

(** [buffer.zero_()] of [n] bytes *)
Definition zero_kernel (p n : Z) : kernel := fun m => mem_write m p (replicate (Z.to_nat n) 0).

(** ** Descriptors *)

(** [os.close] of a descriptor that may be closed already *)
Definition py_close (fd : Z) : ST world unit :=
  w ← st_get;
  match fds w !! fd with
  | None => st_raise (OSError "bad file descriptor")
  | Some _ => os_close fd
  end.

(** [while written < len(data): count = os.write(fd, data[written:])] *)
Fixpoint write_loop (fuel : nat) (fd : Z) (data : list Z) (written : Z) : ST world unit :=
  if written <? lenZ data then
    match fuel with
    | O => st_raise (RuntimeError "out of fuel")
    | S fuel =>
        count ← os_write fd (drop (Z.to_nat written) data);
        if count <=? 0 then st_raise (OSError "write made no progress")
        else write_loop fuel fd data (written + count)
    end
  else mret tt.

Definition write_all (fd : Z) (data : list Z) : ST world unit :=
  write_loop (length data) fd data 0.

(** [f.readinto(buffer)] of a fresh descriptor into the [n] bytes at [p]: the count. A
    buffered file ([raw] is [false]) reads on until the end of the file. *)
Definition read_into (raw : bool) (fd p n : Z) : ST world Z :=
  e ← next_event;
  w ← st_get;
  match fd_file w fd with
  | None => st_raise (OSError "bad file descriptor")
  | Some (_, f) =>
      let avail := take (Z.to_nat n) (bytes f) in
      let data := match e with
                  | IoDone => avail
                  | IoShort k => if raw then take k avail else avail
                  | IoFault k => take k avail
                  end in
      st_modify (fun w => with_mem w (mem_write (mem w) p data));;
      match e with IoFault _ => st_raise (OSError "") | _ => mret (lenZ data) end
  end.

(** A file written through a descriptor to a temporary name and renamed. The handler closes
    the descriptor unless it was closed, and removes the temporary file. *)
Definition publish (tmp path : string) (body : Z -> ST world unit) : ST world unit :=
  opened ← st_future (os_open tmp O_WRITE_TRUNC);
  match opened with
  | Raise e => discard_tmp tmp e
  | Ok fd =>
      done_ ← st_future (body fd;; py_close fd);
      match done_ with
      | Raise e => py_close fd;; discard_tmp tmp e
      | Ok _ => st_catch any_exn (os_replace tmp path) (discard_tmp tmp)
      end
  end.

(** [if os.path.exists(tmp): os.remove(tmp)] ignoring [OSError], then re-raise *)
Definition remove_and_raise {A} (tmp : string) (exc : exn) : ST world A :=
  found ← os_exists tmp;
  (if found : bool then st_catch is_os_error (os_remove tmp) (fun _ => mret tt) else mret tt);;
  st_raise exc.

(** ** What the backend transfers with *)

(** Where a memory object's bytes are: [tensor.data_ptr()], which is also where its
    [byte_array] starts, [metadata.address], the tensor's strides and device *)
Record placement := Placement {
  pl_ptr : Z;
  pl_address : Z;
  pl_strides : list Z;
  pl_device : torch_device;
  pl_nbytes : Z;              (* len(byte_array) *)
}.

(** [_block_first_staging_allocator] and [_block_first_staging_obj] *)
Record block_staging {Dt : Type} := BlockStaging {
  sg_base : Z;                (* base_pointer *)
  sg_size : Z;                (* tensor.numel() of the allocator's bytes *)
  sg_address : Z;             (* metadata.address of the object *)
  sg_tensor : dtensor Dt torch_device;
}.
Arguments block_staging : clear implicits.

Record file_layer {Dt : Type} := FileLayer {
  fl_base_pointer : option Z;
  fl_staging : option (block_staging Dt);
  os_disk_bs : Z;
  use_odirect : bool;
  fl_place : Z -> placement;  (* by object *)
  fl_schedule : list nat;
}.
Arguments file_layer : clear implicits.

Definition is_cuda_device (d : torch_device) : bool := String.eqb (dev_type d) "cuda".

Section staged.
Context {Dt : Type} `{!TorchDtype Dt} {JC : JsonCodec} {HL : HyFileLib}.
Context (cuda_malloc : (Z -> Z) -> Z -> Z).
#[local] Instance torch_ops : TorchOps (Z -> Z) (dtensor Dt torch_device) Dt torch_device (list Z) :=
  device_ops cuda_malloc.
Context (cfg : xds_config Dt) (fl : file_layer Dt).
Implicit Types (mo : memory_obj Dt) (t : dtensor Dt torch_device).

#[local] Abbreviation eng := (xc_engine cfg).

Definition obj_tensor mo : dtensor Dt torch_device :=
  let p := fl_place fl (mo_id mo) in
  DTensor (pl_ptr p) (mo_tensor_shape mo) (pl_strides p) (mo_dtype mo) (pl_device p).

(** [memory_obj.byte_array] *)
Definition byte_array mo : ST world (list Z) := st_gets (fun w =>
  let p := fl_place fl (mo_id mo) in mem_slice (mem w) (pl_ptr p) (Z.to_nat (pl_nbytes p))).

(** ** Block-first through the GPU staging buffer *)

(** The staging buffer, when it is there and has the chunk's shape *)
Definition check_staging (m : BlockFirstDiskMetadata) : result (block_staging Dt) :=
  match fl_staging fl with
  | None => Raise (RuntimeError "block_first_v1 staging buffer is unavailable")
  | Some sg =>
      raise_if (bool_decide (dt_shape (sg_tensor sg) <> payload_shape m))
        (BlockFirstFormatError "block-first staging shape mismatch");;
      mret sg
  end.

Definition save_block_first_xds (path : string) t : ST world BlockFirstDiskMetadata :=
  m ← st_lift (make_block_first_metadata eng (dt_shape t) (dt_dtype t));
  header ← st_lift (pack_block_first_header m);
  sg ← st_lift (check_staging m);
  let tmp := path +:+ BLOCK_FIRST_DATA_FILE_SUFFIX_TMP in
  let cuda := is_cuda_device (dt_device (sg_tensor sg)) in
  st_catch any_exn
    (in_stream (fl_schedule fl) (
      launch cuda (zero_kernel (sg_base sg) (sg_size sg));;
      bs ← st_lift (result_of_option AssertionError (xe_block_size eng));
      tensor_op cuda (fun mm => logical_to_block_first mm t bs (Some (sg_tensor sg)));;
      sync_if cuda;;
      written ← on_stream (py_write_file tmp header);
      st_lift (raise_if (negb (written =? BLOCK_FIRST_HEADER_SIZE))
        (RuntimeError "block-first header write incomplete"));;
      ret ← dma (dds_write (xe_dds eng) tmp (sg_base sg) (io_nbytes m) BLOCK_FIRST_HEADER_SIZE
                   (sg_address sg));
      st_lift (raise_if (negb (ret =? io_nbytes m))
        (RuntimeError "block-first XDS write incomplete"));;
      actual_size ← on_stream (os_getsize tmp);
      st_lift (raise_if (negb (actual_size =? BLOCK_FIRST_HEADER_SIZE + io_nbytes m))
        (RuntimeError "block-first file size mismatch"));;
      on_stream (os_replace tmp path)))
    (discard_tmp tmp);;
  mret m.

(** [_load_xds] *)
Definition load_xds (path : string) (file_offset gpu_pointer size dev_offset : Z) : ST world Z :=
  dds_read (xe_dds eng) path gpu_pointer size file_offset dev_offset.

Definition load_block_first_xds (path : string) (dm : BlockFirstDiskMetadata) (out : dtensor Dt torch_device)
    : ST world Z :=
  fd ← os_open path O_RDONLY;
  current ← st_finally
    (header ← os_pread fd BLOCK_FIRST_HEADER_SIZE; st_lift (unpack_block_first_header header))
    (os_close fd);
  st_lift (raise_if (bool_decide (current <> dm))
    (BlockFirstFormatError "block-first header changed after indexing"));;
  size ← os_getsize path;
  st_lift (raise_if (negb (size =? BLOCK_FIRST_HEADER_SIZE + io_nbytes dm))
    (BlockFirstFormatError "block-first payload size changed after indexing"));;
  sg ← st_lift (check_staging dm);
  let cuda := is_cuda_device (dt_device (sg_tensor sg)) in
  in_stream (fl_schedule fl) (
    launch cuda (zero_kernel (sg_base sg) (sg_size sg));;
    sync_if cuda;;
    ret ← dma (load_xds path BLOCK_FIRST_HEADER_SIZE (sg_base sg) (io_nbytes dm) (sg_address sg));
    if negb (ret =? io_nbytes dm) then mret ret
    else
      sync_if cuda;;
      tensor_op cuda (fun mm => block_first_to_logical mm (sg_tensor sg) (Some out));;
      sync_if (is_cuda_device (dt_device out));;
      mret ret).

(** ** The registered GPU buffer *)

Definition save_xds (path : string) t (size : Z) (base_pointer : option Z) (device_offset : Z)
    : ST world (list Z) :=
  let '(gpu_addr, dev_offset) := match base_pointer with
    | None => (dt_ptr t, 0)
    | Some b => (b, device_offset)
    end in
  let tmp := py_replace path DATA_FILE_SUFFIX DATA_FILE_SUFFIX_TMP in
  metadata ← st_lift (pack_metadata (legacy_dtypes cfg) (dt_shape t) (dt_dtype t) size);
  st_catch any_exn
    (fd ← os_open tmp O_WRITE_TRUNC;
     os_close fd;;
     ret ← dds_write (xe_dds eng) tmp gpu_addr size 0 dev_offset;
     st_lift (raise_if (ret <? 0) (RuntimeError "XDS write failed"));;
     st_lift (raise_if (negb (ret =? size)) (RuntimeError "XDS write incomplete"));;
     os_replace tmp path)
    (remove_and_raise tmp);;
  mret metadata.

(** ** POSIX *)

Definition posix_write (path : string) t (size : Z) (buffer : list Z) : ST world (list Z) :=
  st_lift (py_assert (lenZ buffer =? size));;
  let tmp := py_replace path DATA_FILE_SUFFIX DATA_FILE_SUFFIX_TMP in
  metadata ← st_lift (pack_metadata (legacy_dtypes cfg) (dt_shape t) (dt_dtype t) size);
  st_catch any_exn
    (st_lift (raise_if (os_disk_bs fl =? 0) ZeroDivisionError);;
     written ← (if negb (size mod os_disk_bs fl =? 0) || negb (use_odirect fl)
                then py_write_file tmp buffer
                else fd ← os_open tmp O_CREAT_WRONLY; st_finally (os_write fd buffer) (os_close fd));
     st_lift (raise_if (negb (written =? size)) (OSError "POSIX write incomplete"));;
     os_replace tmp path)
    (remove_and_raise tmp);;
  mret metadata.

(** [Posix.read] into the [size] bytes at [p] *)
Definition posix_read (path : string) (p size : Z) : ST world Z :=
  st_lift (raise_if (os_disk_bs fl =? 0) ZeroDivisionError);;
  let raw := (size mod os_disk_bs fl =? 0) && use_odirect fl in
  st_catch is_file_not_found
    (fd ← os_open path O_RDONLY;
     st_finally (read_into raw fd p size) (os_close fd))
    (fun _ => mret (-1)).

(** ** From CPU memory *)

(** The [memoryview] of [tensor[kv_index, layer, token_start:token_end]] *)
Definition slice_bytes (m : Z -> Z) t (kv_index layer token_start token_end : Z) : list Z :=
  match dt_shape t with
  | [_; nl; tokens; hidden] =>
      let a := Z.of_nat (slice_bound (Z.to_nat tokens) token_start) in
      let b := Z.of_nat (slice_bound (Z.to_nat tokens) token_end) in
      let row := hidden * itemsize (dt_dtype t) in
      mem_slice m (dt_ptr t + ((kv_index * nl + layer) * tokens + a) * row)
        (Z.to_nat ((b - a) * row))
  | _ => []
  end.

Definition check_file_size (fd expected : Z) : ST world unit :=
  st ← os_fstat fd;
  st_lift (raise_if (negb (st.2 =? expected)) (OSError "file size mismatch")).

Definition write_zeros (fd n : Z) : ST world unit :=
  if n =? 0 then mret tt else write_all fd (replicate (Z.to_nat n) 0).

(** One block, layer and K or V *)
Definition write_slice (fd : Z) t (m : BlockFirstDiskMetadata) (i : Z * Z * Z) : ST world unit :=
  let '(block, layer, kv_index) := i in
  w ← st_get;
  let token_start := block * block_size m in
  let source_bytes := slice_bytes (mem w) t kv_index layer token_start (token_start + block_size m) in
  st_lift (raise_if (negb (lenZ source_bytes
      =? block_size m * hidden_dim m * itemsize (dt_dtype t)))
    (BlockFirstFormatError "CPU block-first source slice has unexpected size"));;
  write_all fd source_bytes.

(** [for block ...: for layer ...: for kv_index in range(2)] *)
Definition slice_order (m : BlockFirstDiskMetadata) : list (Z * Z * Z) :=
  block ← rangeZ 0 (Z.to_nat (hd 0 (payload_shape m)));
  layer ← rangeZ 0 (Z.to_nat (num_layers m));
  kv_index ← [0; 1];
  [(block, layer, kv_index)].

Definition save_cpu_block_first_xds (path : string) mo : ST world BlockFirstDiskMetadata :=
  let t := obj_tensor mo in
  st_lift (raise_if (negb (String.eqb (dev_type (dt_device t)) "cpu"))
    (ValueError "CPU block-first store requires a CPU MemoryObj"));;
  st_lift (raise_if (negb (dt_contiguous t))
    (BlockFirstFormatError "CPU block-first source must be contiguous"));;
  m ← st_lift (make_block_first_metadata eng (dt_shape t) (dt_dtype t));
  header ← st_lift (pack_block_first_header m);
  publish (path +:+ BLOCK_FIRST_DATA_FILE_SUFFIX_TMP) path (fun fd =>
    write_all fd header;;
    st_iter (write_slice fd t m) (slice_order m);;
    write_zeros fd (io_nbytes m - payload_nbytes m);;
    check_file_size fd (BLOCK_FIRST_HEADER_SIZE + io_nbytes m));;
  mret m.

Definition save_cpu_xds (path : string) mo : ST world (list Z) :=
  let t := obj_tensor mo in
  st_lift (raise_if (negb (String.eqb (dev_type (dt_device t)) "cpu"))
    (ValueError "xds_cpu_store requires a CPU MemoryObj"));;
  let raw_size := mo_size mo in
  physical_size ← st_lift (align_up raw_size BLOCK_FIRST_ALIGNMENT);
  buffer ← byte_array mo;
  st_lift (raise_if (negb (lenZ buffer =? raw_size))
    (RuntimeError "CPU MemoryObj byte size mismatch"));;
  metadata ← st_lift (pack_metadata (legacy_dtypes cfg) (dt_shape t) (dt_dtype t) physical_size);
  publish (py_replace path DATA_FILE_SUFFIX DATA_FILE_SUFFIX_TMP) path (fun fd =>
    write_all fd buffer;;
    write_zeros fd (physical_size - raw_size);;
    check_file_size fd physical_size);;
  mret metadata.

(** ** The file layer of the index *)

Definition store_chunk_staged (path : string) mo (use_block_first : bool)
    : ST world (option BlockFirstDiskMetadata) :=
  let place := fl_place fl (mo_id mo) in
  if cpu_store_enabled cfg then
    if negb use_block_first then
      st_raise (BlockFirstFormatError "xds_cpu_store requires a complete block_first_v1 chunk")
    else dm ← save_cpu_block_first_xds path mo; mret (Some dm)
  else if use_block_first then
    dm ← save_block_first_xds path (obj_tensor mo); mret (Some dm)
  else
    metadata ← (match xds_buffer_size cfg with
      | Some _ => save_xds path (obj_tensor mo) (mo_physical_size mo) (fl_base_pointer fl)
                    (pl_address place)
      | None => buffer ← byte_array mo; posix_write path (obj_tensor mo) (mo_physical_size mo) buffer
      end);
    save_metadata path METADATA_FILE_SUFFIX_TMP metadata;;
    mret None.

Definition load_chunk_staged (path : string) (entry : XDSCacheMetadata Dt) mo : ST world Z :=
  let place := fl_place fl (mo_id mo) in
  match disk_metadata entry with
  | Some dm => load_block_first_xds path dm (obj_tensor mo)
  | None =>
      match xds_buffer_size cfg with
      | Some _ => load_xds path 0 (default 0 (fl_base_pointer fl)) (xm_size entry) (pl_address place)
      | None =>
          match xm_shape entry, xm_dtype entry with
          | Some shape, Some dt =>
              let size := prodZ shape * itemsize dt in
              posix_read path (pl_ptr place)
                (Z.of_nat (slice_bound (Z.to_nat (pl_nbytes place)) size))
          | _, _ => st_raise AssertionError
          end
      end
  end.

End staged.

(** ** Lemmas: temporary names *)

Lemma append_same_length (a b s t : string) :
  a +:+ s = b +:+ t -> String.length s = String.length t -> s = t.
Proof.
  revert b. induction a as [|c a IH]; intros [|c' b] H Hl; rewrite ?append_cons in H; try done.
  - apply (f_equal String.length) in H. cbn [String.length String.append] in H.
    rewrite !length_append in H. cbn in H. lia.
  - apply (f_equal String.length) in H. cbn [String.length String.append] in H.
    rewrite !length_append in H. cbn in H. lia.
  - injection H as -> H. by apply (IH b).
Qed.

(** Replacing the suffix of a data file's name *)
Lemma replace_data_suffix fuel a :
  (String.length (a +:+ DATA_FILE_SUFFIX) < fuel)%nat ->
  exists b, replace_fuel fuel DATA_FILE_SUFFIX DATA_FILE_SUFFIX_TMP (a +:+ DATA_FILE_SUFFIX)
    = b +:+ DATA_FILE_SUFFIX_TMP.
Proof.
  revert a. induction fuel as [|fuel IH]; intros a Hl; [lia|].
  destruct a as [|c a]; [exists ""; by destruct fuel|]. rewrite append_cons in *. cbn [replace_fuel].
  destruct (strip_prefix DATA_FILE_SUFFIX (String c (a +:+ DATA_FILE_SUFFIX))) as [rest|] eqn:E.
  - apply strip_prefix_Some in E. rewrite <- append_cons in E.
    assert (exists a', rest = a' +:+ DATA_FILE_SUFFIX) as [a' ->].
    { unfold DATA_FILE_SUFFIX in E |- *.
      do 6 (destruct a as [|? a]; [exfalso; cbv [String.append] in E; congruence|]).
      exists a. cbv [String.append] in E |- *. congruence. }
    destruct (IH a') as [b Hb].
    + rewrite <- append_cons, E in Hl. rewrite !length_append in *. cbn in Hl. cbn. lia.
    + rewrite Hb. exists (DATA_FILE_SUFFIX_TMP +:+ b). by rewrite append_assoc.
  - destruct (IH a) as [b Hb]; [cbn in Hl; lia|]. exists (String c b). by rewrite Hb.
Qed.

(** The temporary name of a data file is not its name. *)
Lemma data_tmp_neq a :
  py_replace (a +:+ DATA_FILE_SUFFIX) DATA_FILE_SUFFIX DATA_FILE_SUFFIX_TMP
  <> a +:+ DATA_FILE_SUFFIX.
Proof.
  unfold py_replace. destruct (replace_data_suffix (S (String.length (a +:+ DATA_FILE_SUFFIX))) a)
    as [b ->]; [lia|]. intros H. by apply append_same_length in H.
Qed.
