(* ===== verification/XdsCpuStore.v ===== *)
(** * Stores from CPU memory

    [save_cpu_block_first_xds] and [save_cpu_xds] of [XdsStaged]: the write loops end, a
    store without faults returns, and it publishes atomically the block-first file the GPU
    paths would write. *)

From S2P Require Import Prelude Tensor Codec BlockFirst DirectIO World HipFile XdsFiles XdsPaths XdsMeta Dict XdsIndex DeviceTensor XdsStaged.

Open Scope string_scope.
Open Scope list_scope.
Open Scope Z_scope.

(** ** Lemmas: writing through a descriptor *)

Section writing.
(** The world before, the file being written, the other descriptors *)
Context (w0 : world) (tmp : string) (d : gmap Z open_file) (n : Z).

(** [fd] writes [tmp], which holds [data]; a world without faults stays so. *)
Definition writing (fd : Z) (data : list Z) (w : world) : Prop :=
  keeps_files [tmp] w0 w /\ (oracle w0 = [] -> oracle w = []) /\ n <= fresh w
  /\ exists i sz, files w !! tmp = Some (File i data)
       /\ fds w = <[fd := OpenFile tmp i (lenZ data) sz]> d.

(** An [OSError] of a faulty system, while some data is written *)
Definition write_fault (fd : Z) (e : exn) (w : world) : Prop :=
  is_os_error e = true /\ oracle w0 <> [] /\ exists data, writing fd data w.

Lemma writing_fd_file fd data w : writing fd data w ->
  exists i sz, fd_file w fd = Some (OpenFile tmp i (lenZ data) sz, File i data)
    /\ files w !! tmp = Some (File i data) /\ fds w = <[fd := OpenFile tmp i (lenZ data) sz]> d.
Proof.
  intros (_ & _ & _ & i & sz & Hf & Hd). exists i, sz. split; [|done].
  unfold fd_file. rewrite Hd, lookup_insert_eq. simpl. rewrite Hf. simpl. by rewrite Z.eqb_refl.
Qed.

Lemma next_event_writing fd data w :
  writing fd data w ->
  let '(r, w') := next_event w in
  exists e, r = Ok e /\ writing fd data w' /\ (e = IoDone \/ oracle w0 <> []).
Proof.
  intros (Hk & Ho & Hn & i & sz & Hf & Hd). unfold next_event.
  destruct (oracle w) as [|e rest] eqn:E.
  - exists IoDone. split; [done|]. split; [|by left]. split; [done|]. split; [done|]. split; [done|].
    by exists i, sz.
  - assert (oracle w0 <> []) as Hne by (intros Hw; specialize (Ho Hw); congruence).
    exists e. split; [done|]. split; [|by right]. split; [done|]. split; [done|]. split; [done|].
    by exists i, sz.
Qed.

Lemma os_write_writing fd data more w :
  writing fd data w ->
  match os_write fd more w with
  | (Ok count, w') => exists k, count = Z.of_nat k /\ (k <= length more)%nat
      /\ writing fd (data ++ take k more) w' /\ (oracle w0 = [] -> k = length more)
  | (Raise e, w') => write_fault fd e w'
  end.
Proof.
  intros Hw. unfold os_write, mbind at 1, ST_bind at 1.
  pose proof (next_event_writing fd data w Hw) as He.
  destruct (next_event w) as [r w1]. destruct He as (e & -> & Hw1 & Hdone).
  unfold mbind, ST_bind, st_get. destruct (writing_fd_file fd data w1 Hw1) as (i & sz & Hff & Hf & Hd).
  rewrite Hff. destruct Hw1 as (Hk & Ho & Hn & _).
  assert (forall k, (k <= length more)%nat -> (oracle w0 = [] -> k = length more) ->
    exists k', Z.of_nat k = Z.of_nat k' /\ (k' <= length more)%nat
      /\ writing fd (data ++ take k' more) (with_fds
          (with_files w1 (<[tmp := File i (write_at data (Z.to_nat (lenZ data)) (take k more))]>
            (files w1)))
          (<[fd := OpenFile tmp i (lenZ data + Z.of_nat k) sz]> (fds w1)))
      /\ (oracle w0 = [] -> k' = length more)) as Hok.
  { intros k Hle Hall. exists k. split; [done|]. split; [done|]. split; [|done].
    split; [|split; [done|split; [done|]]].
    - destruct Hk as [Hq Hm]. split; [|done]. intros q Hne. simpl.
      rewrite lookup_insert_ne by (intros ->; apply Hne; by left). by apply Hq.
    - exists i, sz. simpl. rewrite lookup_insert_eq. unfold lenZ. rewrite Nat2Z.id, write_at_end.
      split; [done|]. rewrite Hd, insert_insert_eq, length_app, length_take, Nat.min_l by done.
      do 2 f_equal. lia. }
  destruct e as [|k|k].
  - by apply Hok.
  - apply Hok; [lia|]. intros Hw0. by destruct Hdone.
  - split; [done|]. split; [by destruct Hdone|]. exists data. split; [done|]. split; [done|].
    split; [done|]. by exists i, sz.
Qed.

(** The write loop ends within its fuel: it has written everything or raised [OSError]. *)
Lemma write_loop_writing fuel fd data more written :
  0 <= written -> lenZ more - written <= Z.of_nat fuel ->
  triple (writing fd (data ++ take (Z.to_nat written) more))
    (write_loop fuel fd more written)
    (fun _ => writing fd (data ++ more)) (write_fault fd).
Proof.
  revert written. induction fuel as [|fuel IH]; intros written H0 Hf w Hw; simpl.
  - replace (written <? lenZ more) with false by lia. simpl.
    by rewrite firstn_all2 in Hw by (unfold lenZ in *; lia).
  - destruct (written <? lenZ more) eqn:E; bool_prop.
    2:{ simpl. by rewrite firstn_all2 in Hw by (unfold lenZ in *; lia). }
    pose proof (os_write_writing fd _ (drop (Z.to_nat written) more) w Hw) as Hk.
    unfold mbind, ST_bind. destruct (os_write fd _ w) as [[count|e] w1]; [|done].
    destruct Hk as (k & -> & Hle & Hw1 & Hall).
    assert ((data ++ take (Z.to_nat written) more) ++ take k (drop (Z.to_nat written) more)
      = data ++ take (Z.to_nat (written + Z.of_nat k)) more) as Heq.
    { rewrite <- app_assoc, take_take_drop. do 2 f_equal. lia. }
    rewrite Heq in Hw1. rewrite length_drop in *.
    destruct (Z.leb_spec (Z.of_nat k) 0) as [Hz|Hz].
    + simpl. split; [done|]. split; [|by eexists]. intros Hw0. specialize (Hall Hw0).
      unfold lenZ in *. lia.
    + by apply (IH (written + Z.of_nat k)); [lia|lia|].
Qed.

Lemma write_all_writing fd data more :
  triple (writing fd data) (write_all fd more) (fun _ => writing fd (data ++ more)) (write_fault fd).
Proof.
  intros w Hw. apply (write_loop_writing _ fd data more 0); [lia|unfold lenZ; lia|].
  simpl. by rewrite app_nil_r.
Qed.

Lemma write_zeros_writing fd data k :
  triple (writing fd data) (write_zeros fd k)
    (fun _ => writing fd (data ++ replicate (Z.to_nat k) 0)) (write_fault fd).
Proof.
  unfold write_zeros. destruct (Z.eqb_spec k 0) as [->|_]; [|apply write_all_writing].
  intros w Hw. simpl. by rewrite app_nil_r.
Qed.

Lemma check_file_size_writing fd data expected :
  lenZ data = expected ->
  triple (writing fd data) (check_file_size fd expected) (fun _ => writing fd data) (write_fault fd).
Proof.
  intros Hl w Hw. unfold check_file_size, os_fstat, may_fail.
  pose proof (next_event_writing fd data w Hw) as He.
  unfold mbind, ST_bind. destruct (next_event w) as [r w1].
  destruct He as (e & -> & Hw1 & Hdone).
  destruct (writing_fd_file fd data w1 Hw1) as (i & sz & Hff & Hf & Hd).
  assert (fds w1 !! fd = Some (OpenFile tmp i (lenZ data) sz)) as Hfd
    by by rewrite Hd, lookup_insert_eq.
  destruct e as [|k|k]; cbn; rewrite ?Hfd, ?Hff; cbn; rewrite ?Hl, ?Z.eqb_refl; [done|done|].
  split; [done|]. split; [by destruct Hdone|by exists data].
Qed.

End writing.

(** ** Lemmas: publishing *)

Section publish.
Context (w0 : world) (tmp path : string) (Hfds : fds_ok w0) (Hne : tmp <> path).

#[local] Abbreviation writing := (writing w0 tmp (fds w0) (fresh w0)).
#[local] Abbreviation write_fault := (write_fault w0 tmp (fds w0) (fresh w0)).

(** The target holds [data], the temporary file is gone, nothing else changed. *)
Definition published (data : list Z) (w : world) : Prop :=
  keeps_files [tmp; path] w0 w /\ files w !! tmp = None /\ content w path = Some data
  /\ fds w = fds w0 /\ fresh w0 <= fresh w.

(** At most the temporary file changed; it is gone unless removing it failed too. *)
Definition abandoned (e : exn) (w : world) : Prop :=
  rolled_back w0 tmp e w /\ fds w = fds w0 /\ fresh w0 <= fresh w /\ oracle w0 <> [].

Lemma fresh_free : fds w0 !! fresh w0 = None.
Proof.
  destruct (fds w0 !! fresh w0) eqn:E; [|done].
  assert (fresh w0 < fresh w0) by (apply Hfds; by eexists). lia.
Qed.

Lemma discard_abandoned {A} e w :
  keeps_files [tmp] w0 w -> fds w = fds w0 -> fresh w0 <= fresh w -> oracle w0 <> [] ->
  match discard_tmp (A := A) tmp e w with
  | (Ok _, _) => False
  | (Raise e', w') => abandoned e' w'
  end.
Proof.
  intros Hk Hd Hn Ho.
  pose proof (discard_tmp_triple (A := A) tmp e w0 (fds w0) (fresh w0) w (conj Hk (conj Hd Hn))) as H.
  destruct (discard_tmp tmp e w) as [[a|e'] w']; [done|]. destruct H as [H [H1 H2]]. by split.
Qed.

(** Closing the descriptor of [tmp] *)
Lemma py_close_writing fd data w :
  writing fd data w -> fds w0 !! fd = None ->
  let '(r, w') := py_close fd w in
  keeps_files [tmp] w0 w' /\ content w' tmp = Some data /\ fds w' = fds w0 /\ fresh w0 <= fresh w'
  /\ (oracle w0 = [] -> oracle w' = [])
  /\ match r with Ok _ => True | Raise e => is_os_error e = true /\ oracle w0 <> [] end.
Proof.
  intros (Hk & Ho & Hn & i & sz & Hf & Hd) Hfd. unfold py_close, mbind, ST_bind, st_get.
  rewrite Hd, lookup_insert_eq. unfold os_close, may_fail, next_event, st_modify, mbind, ST_bind.
  simpl. rewrite Hd, delete_insert_id by done.
  assert (content (with_fds w (fds w0)) tmp = Some data) as Hc.
  { unfold content. simpl. by rewrite Hf. }
  destruct (oracle w) as [|e rest] eqn:E; simpl; [by split_and!|].
  assert (oracle w0 <> []) as Hne0 by (intros Hw; specialize (Ho Hw); congruence).
  destruct e; simpl; split_and!; first [exact Hk|exact Hc|done].
Qed.

(** Closing it a second time fails. *)
Lemma py_close_twice fd w :
  fds w = fds w0 -> fds w0 !! fd = None ->
  py_close fd w = (Raise (OSError "bad file descriptor"), w).
Proof. intros Hd Hfd. unfold py_close, mbind, ST_bind, st_get. by rewrite Hd, Hfd. Qed.

Lemma os_replace_published data w :
  keeps_files [tmp] w0 w -> content w tmp = Some data -> fds w = fds w0 -> fresh w0 <= fresh w ->
  (oracle w0 = [] -> oracle w = []) ->
  match os_replace tmp path w with
  | (Ok _, w') => published data w'
  | (Raise e, w') => is_os_error e = true /\ oracle w0 <> []
      /\ keeps_files [tmp] w0 w' /\ fds w' = fds w0 /\ fresh w0 <= fresh w'
  end.
Proof.
  intros Hk Hc Hd Hn Ho. unfold content in Hc.
  destruct (files w !! tmp) as [f|] eqn:Hf; [|done]. injection Hc as Hc.
  assert (forall w', files w' = <[path := f]> (delete tmp (files w)) ->
    (forall a, mem w' a = mem w a) -> fds w' = fds w -> fresh w' = fresh w -> published data w') as Hp.
  { intros w' H1 H2 H3 H4. split; [|split; [|split; [|split; [congruence|lia]]]].
    - split; [|intros a; rewrite H2; apply Hk]. intros q Hq.
      rewrite H1, lookup_insert_ne by (intros ->; apply Hq; right; by left).
      rewrite lookup_delete_ne by (intros ->; apply Hq; by left). apply Hk.
      intros ->%list_elem_of_singleton. apply Hq. by left.
    - rewrite H1, lookup_insert_ne by (intros Heq; by apply Hne). apply lookup_delete_eq.
    - unfold content. rewrite H1, lookup_insert_eq. simpl. by rewrite Hc. }
  unfold os_replace, may_fail, next_event, mbind, ST_bind, st_get.
  destruct (oracle w) as [|e rest] eqn:E; simpl; [rewrite Hf; by apply Hp|].
  assert (oracle w0 <> []) as Hne0 by (intros Hw; specialize (Ho Hw); congruence).
  destruct e; simpl; rewrite ?Hf; simpl; [by apply Hp|by apply Hp|]. by repeat split; try apply Hk.
Qed.

Lemma open_tmp_writing :
  match os_open tmp O_WRITE_TRUNC w0 with
  | (Ok fd, w) => fd = fresh w0 /\ writing fd [] w
  | (Raise e, w) => keeps_files [tmp] w0 w /\ fds w = fds w0 /\ fresh w0 <= fresh w
      /\ oracle w0 <> []
  end.
Proof.
  unfold os_open, may_fail, next_event, mbind, ST_bind, st_get.
  assert (forall w i, files w = files w0 -> fds w = fds w0 -> fresh w = fresh w0 ->
    (forall a, mem w a = mem w0 a) -> (oracle w0 = [] -> oracle w = []) ->
    fresh w = fresh w0 /\ writing (fresh w) [] (with_fds (with_files (bump w)
      (<[tmp := File i []]> (files w))) (<[fresh w := OpenFile tmp i 0 0]> (fds w)))) as Hw.
  { intros w i H1 H2 H3 H4 H5. split; [done|]. split; [|split; [done|split; [simpl; lia|]]].
    - split; [|done]. intros q Hq. simpl. rewrite lookup_insert_ne by (intros ->; apply Hq; by left).
      by rewrite H1.
    - exists i, 0. simpl. rewrite lookup_insert_eq, H2. done. }
  destruct (oracle w0) as [|e rest] eqn:E; [|destruct e as [|k|k]]; cbn.
  4: { repeat split; cbn; done || lia. }
  all: destruct (files w0 !! tmp) as [[i b]|] eqn:Ef; cbn.
  all: first [by apply (Hw w0) | by apply (Hw (with_oracle w0 rest))].
Qed.

(** A body that writes [data] is published, or everything is rolled back; without faults it
    is published. *)
Lemma publish_spec body data :
  (forall fd, triple (writing fd []) (body fd) (fun _ => writing fd data) (write_fault fd)) ->
  match publish tmp path body w0 with
  | (Ok _, w) => published data w
  | (Raise e, w) => abandoned e w
  end.
Proof.
  intros Hbody. unfold publish, mbind at 1, ST_bind at 1, st_future at 1.
  pose proof open_tmp_writing as Ho. destruct (os_open tmp O_WRITE_TRUNC w0) as [[fd|e] w1].
  2:{ destruct Ho as (?&?&?&?). pose proof (discard_abandoned (A := unit) e w1) as Hd.
      destruct (discard_tmp tmp e w1) as [[u|e'] w2]; [by destruct Hd|by apply Hd]. }
  destruct Ho as [-> Hw1]. pose proof fresh_free as Hfree.
  unfold mbind at 1, ST_bind at 1, st_future, mbind at 1, ST_bind at 1.
  specialize (Hbody (fresh w0) w1 Hw1). destruct (body (fresh w0) w1) as [[u|e] w2].
  - pose proof (py_close_writing _ _ _ Hbody Hfree) as Hc.
    destruct (py_close (fresh w0) w2) as [[u'|e] w3]; destruct Hc as (Hk & Hcon & Hd & Hn & Hor & Hr).
    + unfold st_catch. pose proof (os_replace_published _ _ Hk Hcon Hd Hn Hor) as Hp.
      destruct (os_replace tmp path w3) as [[u2|e] w4]; [done|]. cbn [any_exn].
      destruct Hp as (_ & ? & ? & ? & ?). pose proof (discard_abandoned (A := unit) e w4) as Hd'.
      destruct (discard_tmp tmp e w4) as [[u3|e'] w5]; [by destruct Hd'|by apply Hd'].
    + destruct Hr as [_ Hr]. unfold mbind, ST_bind. rewrite py_close_twice by done.
      split; [split; [done|by right]|done].
  - destruct Hbody as (_ & Hor & data' & Hw2).
    pose proof (py_close_writing _ _ _ Hw2 Hfree) as Hc. unfold mbind, ST_bind.
    destruct (py_close (fresh w0) w2) as [[u'|e'] w3]; destruct Hc as (Hk & Hcon & Hd & Hn & _ & Hr).
    + pose proof (discard_abandoned (A := unit) e w3) as Hd'.
      destruct (discard_tmp tmp e w3) as [[u3|e'] w5]; [by destruct Hd'|by apply Hd'].
    + destruct Hr as [He Hr]. split; [split; [done|by right]|done].
Qed.

End publish.

(** Data, zero padding and the size check *)
Lemma write_padded_writing w0 tmp d n fd data padding size :
  lenZ data + padding = size -> 0 <= padding ->
  triple (writing w0 tmp d n fd [])
    (write_all fd data;; write_zeros fd padding;; check_file_size fd size)
    (fun _ => writing w0 tmp d n fd (data ++ replicate (Z.to_nat padding) 0))
    (write_fault w0 tmp d n fd).
Proof.
  intros Hs Hp. eapply triple_bind; [apply write_all_writing|]. intros [].
  eapply triple_bind; [apply write_zeros_writing|]. intros [].
  apply check_file_size_writing. rewrite lenZ_app. cbn [app]. unfold lenZ in *.
  rewrite length_replicate. lia.
Qed.

(** ** The block-first file written from CPU memory *)

Section cpu_store.
Context {Dt : Type} `{!TorchDtype Dt, !TorchDtypeLaws Dt} {JC : JsonCodec} {JL : JsonCodecLaws}.
Implicit Types (g : geometry) (m : BlockFirstDiskMetadata).

(** A block-first file of the chunk at [p] in memory: header, payload and zero padding *)
Definition block_first_file (header : list Z) m g (mm : Z -> Z) (p : Z) : list Z :=
  header ++ block_first_payload g mm p ++ replicate (Z.to_nat (io_nbytes m - payload_nbytes m)) 0.

Section slices.
Context (w0 : world) (tmp : string) (d : gmap Z open_file) (n : Z) (dt : Dt) (dv : torch_device).
Context (m : BlockFirstDiskMetadata) (g : geometry) (Hm : describes m g dt) (p : Z).
#[local] Abbreviation writing := (writing w0 tmp d n).
#[local] Abbreviation write_fault := (write_fault w0 tmp d n).

Definition slice_at (i : Z * Z * Z) : list Z :=
  let '(b, l, kv) := i in
  mem_slice (mem w0) (p + ((kv * g_nl g + l) * g_cb g + b) * g_run g) (Z.to_nat (g_run g)).

(** The memory view of one block, layer and K or V *)
Lemma slice_bytes_at mm b l kv :
  0 <= b < g_cb g -> (forall a, mm a = mem w0 a) ->
  slice_bytes mm (contiguous_at p (g_logical g) dt dv) kv l (b * block_size m)
    (b * block_size m + block_size m) = slice_at (b, l, kv).
Proof.
  destruct Hm as ((Hnl&Hcb&Hbs&Hd&Hi) & Hisz & _ & _ & _ & -> & _). intros Hb Hmm.
  unfold slice_bytes. cbn [contiguous_at dt_shape dt_ptr dt_dtype g_logical]. rewrite <- Hisz.
  unfold slice_bound. rewrite !(proj2 (Z.ltb_ge _ _)) by nia.
  rewrite !Nat2Z.inj_min, !Z2Nat.id by nia. rewrite !Z.min_l by nia.
  unfold slice_at. rewrite (mem_slice_ext mm (mem w0)) by done. f_equal; unfold g_run; [ring|].
  f_equal. ring.
Qed.

Lemma write_slices_writing fd l data :
  Forall (fun '(b, _, _) => 0 <= b < g_cb g) l ->
  triple (writing fd data)
    (st_iter (write_slice fd (contiguous_at p (g_logical g) dt dv) m) l)
    (fun _ => writing fd (data ++ (l ≫= slice_at))) (write_fault fd).
Proof.
  revert data. induction l as [|[[b l] kv] rest IH]; intros data Hl w Hw; simpl.
  { by rewrite app_nil_r. }
  apply list.Forall_cons in Hl as [Hb Hl]. revert w Hw.
  apply (triple_bind _ _ _ (fun _ => writing fd (data ++ slice_at (b, l, kv)))).
  - intros w Hw. unfold write_slice, mbind at 1, ST_bind at 1, st_get.
    pose proof Hw as ([_ Hmm] & _). rewrite slice_bytes_at by done.
    assert (lenZ (slice_at (b, l, kv)) = block_size m * hidden_dim m * itemsize dt) as Hlen.
    { unfold slice_at, lenZ. rewrite length_mem_slice. pose proof (g_run_pos g (proj1 Hm)).
      destruct Hm as (_ & Hisz & _ & _ & _ & -> & -> & _). unfold g_run in *. lia. }
    rewrite Hlen. cbn [contiguous_at dt_dtype]. rewrite Z.eqb_refl.
    unfold mbind, ST_bind, st_lift. cbn [negb raise_if]. by apply write_all_writing.
  - intros _. rewrite app_assoc. by apply IH.
Qed.

Lemma slice_order_bind :
  slice_order m ≫= slice_at = block_first_payload g (mem w0) p.
Proof.
  destruct Hm as (Hg & _ & _ & Hps & Hnl & _). rewrite payload_runs by done.
  unfold slice_order. rewrite Hps, Hnl. cbn [hd g_physical].
  rewrite bind_assoc_list. apply bind_ext_list. intros b _.
  rewrite bind_assoc_list. apply bind_ext_list. intros l _. done.
Qed.

Lemma slice_order_bounds : Forall (fun '(b, _, _) => 0 <= b < g_cb g) (slice_order m).
Proof.
  destruct Hm as (Hg & _ & _ & Hps & _). apply list.Forall_forall. intros [[b l] kv] Hin.
  unfold slice_order in Hin. rewrite Hps in Hin. cbn [hd g_physical] in Hin.
  apply list_elem_of_bind in Hin as (b' & Hin & Hb'). apply elem_of_seqZ in Hb'.
  apply list_elem_of_bind in Hin as (l' & Hin & _). apply list_elem_of_bind in Hin as (kv' & Hin & _).
  apply list_elem_of_singleton in Hin as [= -> -> ->]. destruct Hg as (?&?&_). lia.
Qed.

Lemma length_file header mm : lenZ header = BLOCK_FIRST_HEADER_SIZE ->
  lenZ (block_first_file header m g mm p) = BLOCK_FIRST_HEADER_SIZE + io_nbytes m.
Proof.
  intros Hh. pose proof (describes_sizes m g dt Hm) as [[? ?] _].
  destruct Hm as (Hg & _ & _ & _ & _ & _ & _ & Hpn & _).
  unfold block_first_file. rewrite !lenZ_app, length_payload by done. rewrite Hh, Hpn.
  unfold lenZ. rewrite length_replicate. lia.
Qed.

(** The body of the store writes the block-first file. *)
Lemma write_file_writing fd header : lenZ header = BLOCK_FIRST_HEADER_SIZE ->
  triple (writing fd [])
    (write_all fd header;;
     st_iter (write_slice fd (contiguous_at p (g_logical g) dt dv) m) (slice_order m);;
     write_zeros fd (io_nbytes m - payload_nbytes m);;
     check_file_size fd (BLOCK_FIRST_HEADER_SIZE + io_nbytes m))
    (fun _ => writing fd (block_first_file header m g (mem w0) p)) (write_fault fd).
Proof.
  intros Hh. eapply triple_bind; [apply write_all_writing|]. intros [].
  eapply triple_bind; [apply write_slices_writing, slice_order_bounds|]. intros [].
  rewrite slice_order_bind. eapply triple_bind; [apply write_zeros_writing|]. intros [].
  cbn [app]. rewrite <- app_assoc. apply check_file_size_writing. by apply length_file.
Qed.

End slices.

(** A contiguous tensor is given by its address, shape, dtype and device. *)
Lemma contiguous_is (t : dtensor Dt torch_device) :
  dt_contiguous t = true -> t = contiguous_at (dt_ptr t) (dt_shape t) (dt_dtype t) (dt_device t).
Proof. destruct t as [p sh st dt dv]. intros H%bool_decide_eq_true. simpl in H. by subst. Qed.

Lemma make_metadata_describes (e : xds_engine Dt) shape dt m :
  make_block_first_metadata e shape dt = Ok m ->
  exists g, describes m g dt /\ shape = g_logical g /\ xe_block_size e = Some (g_bs g).
Proof.
  unfold make_block_first_metadata. destruct (xe_block_size e) as [bs|]; [|done].
  intros (g & Hm & Hs & Hbs)%create_geometry. exists g. by rewrite Hbs.
Qed.

Context (cfg : xds_config Dt) (fl : file_layer Dt).

(** What the store does once its arguments are accepted *)
Lemma save_cpu_block_first_spec path mo w0 :
  fds_ok w0 ->
  match save_cpu_block_first_xds cfg fl path mo w0 with
  | (Ok m, w) => exists g header, describes m g (mo_dtype mo) /\ mo_tensor_shape mo = g_logical g
      /\ make_block_first_metadata (xc_engine cfg) (mo_tensor_shape mo) (mo_dtype mo) = Ok m
      /\ pack_block_first_header m = Ok header
      /\ published w0 (tmp_of path) path
           (block_first_file header m g (mem w0) (pl_ptr (fl_place fl (mo_id mo)))) w
  | (Raise e, w) => w = w0 \/ abandoned w0 (tmp_of path) e w
  end.
Proof.
  intros Hfds. unfold save_cpu_block_first_xds. fold (tmp_of path).
  set (t := obj_tensor fl mo). unfold mbind at 1, ST_bind at 1, st_lift at 1.
  destruct (raise_if _ _) as [u|e]; [|by left].
  unfold mbind at 1, ST_bind at 1, st_lift at 1.
  destruct (dt_contiguous t) eqn:Hc; cbn [negb raise_if]; [|by left].
  unfold mbind at 1, ST_bind at 1, st_lift at 1.
  destruct (make_block_first_metadata _ _ _) as [m|e] eqn:Hmk; [|by left].
  unfold mbind at 1, ST_bind at 1, st_lift at 1.
  destruct (pack_block_first_header m) as [header|e] eqn:Hp; [|by left].
  destruct (make_metadata_describes _ _ _ _ Hmk) as (g & Hm & Hs & Hbs).
  set (p := pl_ptr (fl_place fl (mo_id mo))).
  assert (exists dv, t = contiguous_at p (g_logical g) (mo_dtype mo) dv) as [dv Ht]
    by (exists (dt_device t); rewrite <- Hs; by apply contiguous_is).
  change (dt_shape t) with (mo_tensor_shape mo) in *. change (dt_dtype t) with (mo_dtype mo) in *.
  clearbody t. subst t.
  pose proof (publish_spec w0 (tmp_of path) path Hfds (tmp_of_neq path) _ _
    (fun fd => write_file_writing w0 (tmp_of path) (fds w0) (fresh w0) (mo_dtype mo) dv
       m g Hm p fd header (pack_header_length _ _ Hp))) as Hpub.
  unfold mbind, ST_bind in *. destruct (publish _ _ _ w0) as [[u'|e] w]; [|by right].
  exists g, header. by split_and!.
Qed.

(** The legacy payload: the object's bytes, zero-padded to the alignment *)
Lemma save_cpu_xds_spec name mo w0 :
  fds_ok w0 ->
  let path := name +:+ DATA_FILE_SUFFIX in
  let tmp := py_replace path DATA_FILE_SUFFIX DATA_FILE_SUFFIX_TMP in
  let place := fl_place fl (mo_id mo) in
  match save_cpu_xds cfg fl path mo w0 with
  | (Ok metadata, w) => exists physical, align_up (mo_size mo) BLOCK_FIRST_ALIGNMENT = Ok physical
      /\ pack_metadata (legacy_dtypes cfg) (mo_tensor_shape mo) (mo_dtype mo) physical = Ok metadata
      /\ published w0 tmp path (mem_slice (mem w0) (pl_ptr place) (Z.to_nat (mo_size mo))
           ++ replicate (Z.to_nat (physical - mo_size mo)) 0) w
  | (Raise e, w) => w = w0 \/ abandoned w0 tmp e w
  end.
Proof.
  intros Hfds path tmp place. unfold save_cpu_xds. fold tmp. fold place.
  set (t := obj_tensor fl mo). unfold mbind at 1, ST_bind at 1, st_lift at 1.
  destruct (raise_if _ _) as [u|e]; [|by left].
  unfold mbind at 1, ST_bind at 1, st_lift at 1.
  destruct (align_up (mo_size mo) BLOCK_FIRST_ALIGNMENT) as [physical|e] eqn:Ha; [|by left].
  unfold mbind at 1, ST_bind at 1, byte_array, st_gets. fold place.
  unfold mbind at 1, ST_bind at 1, st_lift at 1.
  set (buffer := mem_slice (mem w0) (pl_ptr place) (Z.to_nat (pl_nbytes place))).
  destruct (Z.eqb_spec (lenZ buffer) (mo_size mo)) as [Hlen|_]; cbn [negb raise_if]; [|by left].
  unfold mbind at 1, ST_bind at 1, st_lift at 1.
  destruct (pack_metadata _ _ _ _) as [metadata|e] eqn:Hp; [|by left].
  assert (buffer = mem_slice (mem w0) (pl_ptr place) (Z.to_nat (mo_size mo))) as Hb.
  { unfold buffer. rewrite <- Hlen. unfold lenZ, buffer. by rewrite length_mem_slice, Nat2Z.id. }
  pose proof (align_up_least _ _ _ Ha) as (_ & Hal & _).
  pose proof (publish_spec w0 tmp path Hfds (data_tmp_neq name) _ _ (fun fd =>
    write_padded_writing w0 tmp (fds w0) (fresh w0) fd buffer (physical - mo_size mo) physical
      ltac:(lia) ltac:(lia))) as Hpub.
  unfold mbind, ST_bind in *. destruct (publish _ _ _ w0) as [[u'|e] w]; [|by right].
  exists physical. rewrite <- Hb. by split_and!.
Qed.

End cpu_store.
