(* ===== verification/XdsGpuStage.v ===== *)
(** * Block-first transfers through the GPU staging buffer

    [save_block_first_xds] and [load_block_first_xds] of [XdsStaged]: what the synchronized
    stream leaves in the staging buffer, the file a store publishes, and what a load puts
    into its output. *)

From S2P Require Import Prelude Tensor Codec BlockFirst DirectIO World WorldIO HipFile XdsFiles XdsPaths XdsMeta Dict XdsIndex DeviceTensor XdsStaged XdsCpuStore.

Open Scope string_scope.
Open Scope list_scope.
Open Scope Z_scope.

(** ** Lemmas: the stream *)

(** With nothing pending, operations on the stream are operations on the world. *)
Definition idle (P : world -> Prop) (s : stream_state) : Prop := pending s = [] /\ P (st_world s).

Lemma run_no_kernels w : run_kernels [] w = w.
Proof. by destruct w. Qed.

Lemma on_stream_triple {A} P (m : ST world A) Q E :
  triple P m Q E ->
  triple (idle P) (on_stream m) (fun a => idle (Q a)) (fun e => idle (E e)).
Proof.
  intros Hm s [Hp Hs]. unfold on_stream. specialize (Hm (st_world s) Hs).
  destruct (m (st_world s)) as [[a|e] w]; by split.
Qed.

Lemma dma_triple {A} P (m : ST world A) Q E :
  triple P m Q E -> triple (idle P) (dma m) (fun a => idle (Q a)) (fun e => idle (E e)).
Proof.
  intros Hm s [Hp Hs]. unfold dma, st_modify, mbind, ST_bind, on_stream.
  cbn [st_world pending schedule]. rewrite Hp. rewrite firstn_nil, run_no_kernels, drop_nil.
  specialize (Hm (st_world s) Hs). destruct (m (st_world s)) as [[a|e] w]; by split.
Qed.

Lemma lift_idle_triple {A} (r : result A) P (Q : A -> world -> Prop) (E : exn -> world -> Prop) :
  triple P (st_lift r) Q E -> triple (idle P) (st_lift r) (fun a => idle (Q a)) (fun e => idle (E e)).
Proof.
  intros Hm s [Hp Hs]. specialize (Hm (st_world s) Hs). unfold st_lift in *. by destruct r.
Qed.

(** Memory predicates that do not distinguish equal memories *)
Definition mem_closed (M : (Z -> Z) -> Prop) : Prop :=
  forall m m', (forall a, m' a = m a) -> M m -> M m'.

(** Files and descriptors are as in [w0]; memory is in [M] once everything launched has run,
    and nothing is pending if [sync]. *)
Definition launched (w0 : world) (M : (Z -> Z) -> Prop) (sync : bool) (s : stream_state) : Prop :=
  files (st_world s) = files w0 /\ fds (st_world s) = fds w0 /\ fresh w0 <= fresh (st_world s)
  /\ (forall m, (forall a, m a = mem (st_world s) a) -> M (foldl (fun m k => k m) m (pending s)))
  /\ (sync = true -> pending s = []).

Section stream.
Context {HL : HyFileLib} {HLF : HyFileFrames}.

Lemma launch_launched w0 (M M' : (Z -> Z) -> Prop) cuda k :
  mem_closed M' -> (forall m, M m -> M' (k m)) ->
  triple (launched w0 M (negb cuda)) (launch cuda k) (fun _ => launched w0 M' (negb cuda))
    (fun _ _ => False).
Proof.
  intros Hc Hk s (H1 & H2 & H3 & HM & Hs). unfold launch, st_modify, launched. cbn.
  destruct cuda; cbn in *; split_and!; try done.
  - intros m Hm. rewrite foldl_app. cbn. by apply Hk, HM.
  - rewrite Hs in * by done. cbn in *. intros m Hm. eapply Hc; [exact Hm|]. by apply Hk, HM.
Qed.

Lemma tensor_op_launched {T} w0 (M M' : (Z -> Z) -> Prop) cuda
    (f : (Z -> Z) -> result (T * (Z -> Z))) t :
  mem_closed M' -> (forall m, exists m', f m = Ok (t, m')) ->
  (forall m m', M m -> f m = Ok (t, m') -> M' m') ->
  triple (launched w0 M (negb cuda)) (tensor_op cuda f) (fun _ => launched w0 M' (negb cuda))
    (fun _ _ => False).
Proof.
  intros Hc Hok Hf s Hs. unfold tensor_op, mbind, ST_bind, st_get.
  destruct (Hok (mem (st_world s))) as [m' ->]. revert s Hs. apply launch_launched; [done|].
  intros m Hm. destruct (Hok m) as [m1 Hm1]. rewrite Hm1. by apply (Hf m).
Qed.

(** A synchronisation that returns has run everything pending. *)
Lemma drain_launched (m : ST world unit) w0 M :
  (forall w, quiet w (m w).2) -> mem_closed M ->
  triple (launched w0 M false)
    (on_stream m;; st_modify (fun s => StreamState (run_kernels (pending s) (st_world s)) [] (schedule s)))
    (fun _ => launched w0 M true) (fun _ => launched w0 M false).
Proof.
  intros Hq Hc s (H1 & H2 & H3 & HM & Hs). unfold on_stream, st_modify, mbind, ST_bind.
  destruct (Hq (st_world s)) as (Q1 & Q2 & Q3 & _ & Q5).
  destruct (m (st_world s)) as [[u|e] w]; cbn in *; split_and!; cbn; try congruence; try lia.
  - intros mm Hm. eapply Hc; [exact Hm|]. apply HM. exact Q5.
  - intros mm Hm. apply HM. intros a. rewrite Hm. apply Q5.
Qed.

(** What the transfers through the staging buffer need of a synchronisation *)
Definition synchronizes (sync : bool -> ST stream_state unit) : Prop := forall w0 M cuda,
  mem_closed M -> triple (launched w0 M (negb cuda)) (sync cuda) (fun _ => launched w0 M true)
    (fun _ => launched w0 M false).

Lemma sync_launched : synchronizes sync_if.
Proof.
  intros w0 M [] Hc; [|intros s (H1 & H2 & H3 & HM & Hs); cbn; by split_and!].
  apply drain_launched; [|done]. intros w. unfold synchronize, lib, st_lift, mbind, ST_bind.
  pose proof (synchronize_quiet w) as H. by destruct (cuda_synchronize w) as [[u|e] w'].
Qed.

End stream.

(** ** The staging buffer *)

(** The staging tensor is the block-first chunk at [sg_address] of its allocation, which
    holds the padded payload. *)
Definition staging_ok {Dt : Type} (sg : block_staging Dt) (g : geometry) (dt : Dt) (dv : torch_device)
    (io : Z) : Prop :=
  sg_tensor sg = contiguous_at (sg_base sg + sg_address sg) (g_physical g) dt dv
  /\ 0 <= sg_address sg /\ sg_address sg + io <= sg_size sg.

(** An address of the staging allocation *)
Definition in_staging {Dt : Type} (sg : block_staging Dt) (a : Z) : Prop :=
  sg_base sg <= a < sg_base sg + sg_size sg.

Section staging.
Context {Dt : Type} `{!TorchDtype Dt, !TorchDtypeLaws Dt} {JC : JsonCodec}.
Context {HL : HyFileLib} {HLL : HyFileLibLaws}.
Context (cuda_malloc : (Z -> Z) -> Z -> Z).
Context (sg : block_staging Dt) (g : geometry) (dt : Dt) (dv : torch_device) (io : Z).
Context (Hsg : staging_ok sg g dt dv io) (Hg : geometry_ok g) (Hisz : g_isz g = itemsize dt).
Context (Hio : g_nbytes g <= io).
#[local] Instance torch_ops' : TorchOps (Z -> Z) (dtensor Dt torch_device) Dt torch_device (list Z) :=
  device_ops cuda_malloc.

Let q := sg_base sg + sg_address sg.

(** The memory [m0] with only the staging allocation changed *)
Definition staging_only (m0 m : Z -> Z) : Prop := forall a, ~ in_staging sg a -> m a = m0 a.

(** The staging allocation is zeroed. *)
Definition zeroed (m0 m : Z -> Z) : Prop :=
  staging_only m0 m /\ forall a, in_staging sg a -> m a = 0.

(** The staging tensor holds the chunk at [p], followed by zeros. *)
Definition chunk_staged (m0 : Z -> Z) (p : Z) (m : Z -> Z) : Prop :=
  staging_only m0 m
  /\ mem_slice m q (Z.to_nat io)
     = block_first_payload g m0 p ++ replicate (Z.to_nat (io - g_nbytes g)) 0.

Lemma staging_only_closed m0 : mem_closed (staging_only m0).
Proof. intros m m' Hm H a Ha. rewrite Hm. by apply H. Qed.

Lemma zeroed_closed m0 : mem_closed (zeroed m0).
Proof. intros m m' Hm [H1 H2]. split; intros a Ha; rewrite Hm; auto. Qed.

Lemma chunk_staged_closed m0 p : mem_closed (chunk_staged m0 p).
Proof.
  intros m m' Hm [H1 H2]. split; [by eapply staging_only_closed|].
  rewrite <- H2. by apply mem_slice_ext.
Qed.

Lemma zero_kernel_zeroed m0 m :
  (forall a, m a = m0 a) -> zeroed m0 (zero_kernel (sg_base sg) (sg_size sg) m).
Proof.
  destruct Hsg as (_ & Ha & Hs). pose proof (g_run_pos g Hg) as Hr.
  assert (0 <= g_nbytes g) by (destruct Hg as (?&?&?&?&?); unfold g_nbytes, g_runs; nia).
  assert (lenZ (replicate (Z.to_nat (sg_size sg)) 0) = sg_size sg) as Hl
    by (unfold lenZ; rewrite length_replicate; lia).
  intros Hm. split; intros a Hin; unfold zero_kernel, in_staging in *.
  - rewrite mem_write_outside; [done|]. by rewrite Hl.
  - replace a with (sg_base sg + Z.of_nat (Z.to_nat (a - sg_base sg))) by lia.
    apply mem_write_inside. apply lookup_replicate. split; [done|]. lia.
Qed.

(** A chunk of the geometry, outside the staging allocation *)
Definition chunk_apart (p : Z) : Prop :=
  forall a, p <= a < p + g_nbytes g -> ~ in_staging sg a.

Lemma stage_kernel m0 m m' p :
  chunk_apart p -> zeroed m0 m ->
  logical_to_block_first m (contiguous_at p (g_logical g) dt dv) (g_bs g) (Some (sg_tensor sg))
    = Ok (sg_tensor sg, m') ->
  chunk_staged m0 p m'.
Proof.
  intros Hp [Hm Hz] Hk. destruct Hsg as (Ht & Ha & Hs). rewrite Ht in Hk.
  destruct (to_block_first_bytes cuda_malloc g Hg dt dv Hisz m p q) as (m1 & Hk1 & Hin & Hout).
  unfold torch_ops' in Hk. unfold q in Hk1. unfold ops in Hk1. rewrite Hk1 in Hk. injection Hk as <-.
  pose proof (length_payload g Hg m0 p) as Hl. unfold lenZ in Hl.
  assert (0 <= g_nbytes g) by lia. fold q in Hin, Hout. split.
  - intros a Hna. rewrite Hout; [by apply Hm|]. unfold in_staging, q in *. lia.
  - apply list_eq. intros i. destruct (decide (i < Z.to_nat io)%nat) as [Hi|Hi].
    2:{ rewrite !lookup_ge_None_2; [done|rewrite length_app, length_replicate; lia|].
        rewrite length_mem_slice. lia. }
    rewrite mem_slice_lookup by done. destruct (decide (Z.of_nat i < g_nbytes g)) as [Hlt|Hge].
    + rewrite lookup_app_l by lia. rewrite Hin by lia.
      pose proof (payload_lookup g m0 p (Z.of_nat i) ltac:(lia)) as Hx. rewrite Nat2Z.id in Hx.
      rewrite Hx. f_equal. apply Hm. apply Hp.
      pose proof (logical_source_bounds g Hg (Z.of_nat i) ltac:(lia)). lia.
    + rewrite lookup_app_r by lia. rewrite Hout by lia. rewrite Hz by (unfold in_staging, q; lia).
      symmetry. apply lookup_replicate. split; [done|lia].
Qed.

End staging.

(** ** Publishing a header and one DMA *)

Section publish_dma.
Context (b : world) (tmp path : string) (Hne : tmp <> path) (fs : gmap Z open_file) (k : Z).
Context (Hfs : forall fd, is_Some (fs !! fd) -> fd < k).
Context (header : list Z) (base io addr : Z).

#[local] Abbreviation kept w := (keeps_files [tmp] b w /\ fds_at fs k w).

(** The header is in the temporary file. *)
Definition with_header (w : world) : Prop := keeps_files [tmp] b w /\ content w tmp = Some header.

(** So are the [io] bytes after it. *)
Definition with_payload (w : world) : Prop :=
  exists f, content w tmp = Some f /\ take (Z.to_nat BLOCK_FIRST_HEADER_SIZE) f = header
    /\ forall i, 0 <= i < io ->
         f !! Z.to_nat (BLOCK_FIRST_HEADER_SIZE + i) = Some (mem b (base + addr + i)).

Lemma with_header_closed : io_closed with_header.
Proof.
  apply io_closed_conj; [apply keeps_files_closed|exact (content_closed tmp (fun c => c = Some header))].
Qed.

Lemma with_payload_closed : io_closed (fun w => keeps_files [tmp] b w /\ with_payload w).
Proof.
  apply io_closed_conj; [apply keeps_files_closed|]. exact (content_closed tmp (fun c =>
    exists f, c = Some f /\ take (Z.to_nat BLOCK_FIRST_HEADER_SIZE) f = header
    /\ forall i, 0 <= i < io ->
         f !! Z.to_nat (BLOCK_FIRST_HEADER_SIZE + i) = Some (mem b (base + addr + i)))).
Qed.

Lemma header_triple :
  triple (fun w => keeps_files [] b w /\ fds_at fs k w) (py_write_file tmp header)
    (fun r w => with_header w /\ fds_at fs k w) (fun _ w => kept w).
Proof.
  eapply triple_conseq; [apply (py_write_file_triple tmp header (keeps_files [tmp] b)
    (fun c w => keeps_files [tmp] b w /\ content w tmp = Some c) fs k Hfs)| | |].
  - apply keeps_files_closed.
  - intros c. apply io_closed_conj;
      [apply keeps_files_closed|exact (content_closed tmp (fun x => x = Some c))].
  - intros w i c Hw. split; [apply keeps_files_insert; [by left|done]|apply content_insert].
  - by intros c w [Hw _].
  - intros w [[Hq Hm] Hf]. split; [|done]. split; [|done]. intros q _. apply Hq, not_elem_of_nil.
  - intros r w [[Hw _] Hf]. by split.
  - by intros ex w [_ Hw].
Qed.

(** A file of the right size is the header and the payload. *)
Lemma payload_complete w f :
  with_payload w -> content w tmp = Some f -> lenZ f = BLOCK_FIRST_HEADER_SIZE + io ->
  f = header ++ mem_slice (mem b) (base + addr) (Z.to_nat io).
Proof.
  intros (f' & Hf' & Hhd & Hb) Hf Hlen. rewrite Hf in Hf'. injection Hf' as <-.
  rewrite <- (take_drop (Z.to_nat BLOCK_FIRST_HEADER_SIZE) f). f_equal; [done|].
  apply list_eq_same_length with (n := Z.to_nat io).
  - by rewrite length_mem_slice.
  - rewrite length_drop. unfold lenZ, BLOCK_FIRST_HEADER_SIZE in *. lia.
  - intros i x y Hi Hx Hy. rewrite lookup_drop in Hx. rewrite mem_slice_lookup in Hy by done.
    injection Hy as <-. pose proof (Hb (Z.of_nat i) ltac:(lia)) as Hx'.
    rewrite Z2Nat.inj_add, Nat2Z.id in Hx' by (unfold BLOCK_FIRST_HEADER_SIZE; lia).
    rewrite Hx' in Hx. by injection Hx as <-.
Qed.

(** [xfer] is the transfer, [complete] says whether its result is that of a complete one. *)
Lemma publish_dma_triple {R} (xfer : ST world R) (complete : R -> bool) (e1 e2 : exn) :
  triple (fun w => with_header w /\ fds_at fs k w) xfer
    (fun ret w => (keeps_files [tmp] b w /\ (complete ret = true -> with_payload w)) /\ fds_at fs k w)
    (fun _ w => kept w) ->
  triple (idle (fun w => keeps_files [] b w /\ fds_at fs k w))
    (written ← on_stream (py_write_file tmp header);
     st_lift (raise_if (negb (written =? BLOCK_FIRST_HEADER_SIZE))
       (RuntimeError "block-first header write incomplete"));;
     ret ← dma xfer;
     st_lift (raise_if (negb (complete ret)) e1);;
     actual_size ← on_stream (os_getsize tmp);
     st_lift (raise_if (negb (actual_size =? BLOCK_FIRST_HEADER_SIZE + io)) e2);;
     on_stream (os_replace tmp path))
    (fun _ => idle (fun w => (keeps_files [tmp; path] b w /\ files w !! tmp = None
       /\ content w path = Some (header ++ mem_slice (mem b) (base + addr) (Z.to_nat io)))
       /\ fds_at fs k w))
    (fun _ => idle (fun w => kept w)).
Proof.
  intros Hx. eapply triple_bind; [apply on_stream_triple, header_triple|]. intros written.
  eapply triple_bind.
  { apply (lift_idle_triple _ _ (fun _ w => with_header w /\ fds_at fs k w) (fun _ w => kept w)).
    apply triple_lift; [by intros|]. by intros ex _ w [[Hw _] Hf]. }
  intros []. eapply triple_bind; [apply dma_triple, Hx|].
  intros ret. eapply triple_bind.
  { apply (lift_idle_triple _ _
      (fun _ w => (keeps_files [tmp] b w /\ with_payload w) /\ fds_at fs k w) (fun _ w => kept w)).
    apply triple_lift.
    - intros u Hu w [[Hk Hr] Hf]. apply raise_if_Ok in Hu. bool_prop. auto.
    - by intros ex _ w [[Hk _] Hf]. }
  intros []. eapply triple_bind.
  { eapply triple_exn; [apply on_stream_triple, (os_getsize_triple tmp _ fs k), with_payload_closed|].
    by intros ex s [Hp [_ [[Hk _] Hf]]]. }
  intros size. eapply triple_bind.
  { apply (lift_idle_triple _ _ (fun _ w => (keeps_files [tmp] b w
      /\ content w tmp = Some (header ++ mem_slice (mem b) (base + addr) (Z.to_nat io)))
      /\ fds_at fs k w) (fun _ w => kept w)).
    apply triple_lift.
    - intros u Hu w [[[Hk Hp] (f & Hf & Hsz)] Hfd]. apply raise_if_Ok in Hu. bool_prop.
      split; [|done]. split; [done|]. rewrite Hf. f_equal. apply (payload_complete w); done || lia.
    - by intros ex _ w [[[Hk _] _] Hf]. }
  intros []. eapply triple_conseq; [apply on_stream_triple, (os_replace_triple tmp path
      (fun w => keeps_files [tmp] b w
         /\ content w tmp = Some (header ++ mem_slice (mem b) (base + addr) (Z.to_nat io)))
      (fun w => keeps_files [tmp; path] b w /\ files w !! tmp = None
         /\ content w path = Some (header ++ mem_slice (mem b) (base + addr) (Z.to_nat io))) fs k)
    | | |].
  - apply io_closed_conj; [apply keeps_files_closed|exact (content_closed tmp (fun c =>
      c = Some (header ++ mem_slice (mem b) (base + addr) (Z.to_nat io))))].
  - intros w f [[Hq Hm] Hc] Hf. split; [|split].
    + split; [|done]. intros q Hn. simpl.
      rewrite lookup_insert_ne by (intros ->; apply Hn; right; by left).
      rewrite lookup_delete_ne by (intros ->; apply Hn; by left).
      apply Hq. intros ->%list_elem_of_singleton. apply Hn. by left.
    + simpl. rewrite lookup_insert_ne by (intros Heq; by apply Hne). apply lookup_delete_eq.
    + unfold content in *. simpl. rewrite lookup_insert_eq. by rewrite Hf in Hc.
  - done.
  - done.
  - by intros ex s [Hp [_ [[Hk _] Hf]]].
Qed.

End publish_dma.

(** The transfer of the XDS backend *)
Lemma payload_triple {HL : HyFileLib} {HLL : HyFileLibLaws} (b : world) tmp fs k dds header base io addr :
  (forall fd, is_Some (fs !! fd) -> fd < k) -> 0 < io -> lenZ header = BLOCK_FIRST_HEADER_SIZE ->
  triple (fun w => with_header b tmp header w /\ fds_at fs k w)
    (dds_write dds tmp base io BLOCK_FIRST_HEADER_SIZE addr)
    (fun ret w => (keeps_files [tmp] b w /\ ((ret =? io) = true -> with_payload b tmp header base io addr w)) /\ fds_at fs k w)
    (fun _ _ => False).
Proof.
  intros Hfs Hio Hheader w [[[Hq Hm] Hc] Hfd].
  pose proof (dds_write_triple w tmp base io BLOCK_FIRST_HEADER_SIZE addr ltac:(lia)
    ltac:(done) dds fs k Hfs w) as Hw.
  assert (HipFile.kept w tmp BLOCK_FIRST_HEADER_SIZE w) as Hk.
  { split; [apply keeps_files_refl|]. rewrite Hc. split; [lia|done]. }
  specialize (Hw (conj Hk Hfd)). destruct (dds_write _ _ _ _ _ _ w) as [[ret|ex] w1]; [|done].
  destruct Hw as [[[[Hq1 Hm1] _] Hret] Hfd1]. split; [|done]. split.
  { split; [intros q Hn; rewrite Hq1 by done; by apply Hq|intros a; by rewrite Hm1]. }
  intros Hr%Z.eqb_eq. destruct (Hret Hr) as (f & Hf & Htk & Hbytes). exists f. split; [done|]. split.
  - rewrite Htk, Hc. simpl. rewrite firstn_all2; [done|unfold lenZ in Hheader; lia].
  - intros i Hi. by rewrite Hbytes, Hm by done.
Qed.


(** ** The store *)

Section store.
Context {Dt : Type} `{!TorchDtype Dt, !TorchDtypeLaws Dt} {JC : JsonCodec} {JL : JsonCodecLaws}.
Context {HL : HyFileLib} {HLL : HyFileLibLaws}.
Context (cuda_malloc : (Z -> Z) -> Z -> Z) (cfg : xds_config Dt) (fl : file_layer Dt).
Implicit Types (t : dtensor Dt torch_device) (sg : block_staging Dt).

(** A staging buffer of the chunk's shape has its dtype and device and a place in its own
    allocation, and the chunk is elsewhere. *)
Definition staging_fits sg t : Prop := forall m g,
  describes m g (dt_dtype t) -> dt_shape t = g_logical g -> dt_shape (sg_tensor sg) = g_physical g ->
  staging_ok sg g (dt_dtype t) (dt_device t) (io_nbytes m) /\ chunk_apart sg g (dt_ptr t).

(** Files but [ps] and descriptors are as in [w0]; so is memory outside the staging buffer. *)
Definition staged_world sg (ps : list string) (w0 w : world) : Prop :=
  (forall x, x ∉ ps -> files w !! x = files w0 !! x) /\ staging_only sg (mem w0) (mem w)
  /\ fds w = fds w0 /\ fresh w0 <= fresh w.

Lemma staged_world_base sg ps w0 m1 w :
  staging_only sg (mem w0) m1 -> keeps_files ps (with_mem w0 m1) w ->
  fds_at (fds w0) (fresh w0) w -> staged_world sg ps w0 w.
Proof.
  intros Hm [Hq Hm'] [Hd Hn]. split; [done|]. split; [|done].
  intros a Ha. rewrite Hm'. by apply Hm.
Qed.

Lemma launched_drained sg w0 s :
  launched w0 (staging_only sg (mem w0)) false s ->
  staged_world sg [] w0 (run_kernels (pending s) (st_world s)).
Proof.
  intros (H1 & H2 & H3 & HM & _). split; [intros; simpl; by rewrite H1|]. split; [|split; [done|simpl; lia]].
  simpl. apply HM. done.
Qed.

Lemma launched_aborted sg tmp w0 s :
  launched w0 (staging_only sg (mem w0)) false s ->
  staged_world sg [tmp] w0 (run_kernels (pending s) (st_world s)).
Proof.
  intros Hl. eapply launched_drained in Hl. destruct Hl as (H1 & H2). split; [|done].
  intros x _. apply H1, not_elem_of_nil.
Qed.

Lemma launched_weaken w0 (M M' : (Z -> Z) -> Prop) b s :
  (forall m, M m -> M' m) -> launched w0 M b s -> launched w0 M' false s.
Proof.
  intros Hw (H1 & H2 & H3 & HM & _). split_and!; try done. intros m Hm. by apply Hw, HM.
Qed.

(** The stream's part before the transfer: zero, convert, synchronize *)
Lemma stage_triple {A} (sync : bool -> ST stream_state unit) (eb : option Z) sg t g io w0 cuda (rest : ST stream_state A) Q (E : exn -> stream_state -> Prop) :
  synchronizes sync ->
  triple (launched w0 (chunk_staged sg g io (mem w0) (dt_ptr t)) true) rest Q E ->
  (forall e s, launched w0 (staging_only sg (mem w0)) false s -> E e s) ->
  staging_ok sg g (dt_dtype t) (dt_device t) io -> geometry_ok g -> g_isz g = itemsize (dt_dtype t) ->
  g_nbytes g <= io -> chunk_apart sg g (dt_ptr t) -> dt_shape t = g_logical g ->
  eb = Some (g_bs g) -> dt_contiguous t = true ->
  triple (launched w0 (fun m => forall a, m a = mem w0 a) (negb cuda))
    (launch cuda (zero_kernel (sg_base sg) (sg_size sg));;
     bs ← st_lift (result_of_option AssertionError eb);
     tensor_op cuda (fun mm => logical_to_block_first (TorchOps0 := torch_ops cuda_malloc) mm t bs
       (Some (sg_tensor sg)));;
     sync cuda;; rest) Q E.
Proof.
  intros Hsync Hrest HE Hsg Hg Hisz Hio Hap Hs Hbs Hc.
  eapply triple_bind.
  { eapply triple_exn; [apply (launch_launched w0 _ (zeroed sg (mem w0)))|done].
    - apply zeroed_closed.
    - intros m Hm. by apply (zero_kernel_zeroed sg g (dt_dtype t) (dt_device t) io). }
  intros []. rewrite Hbs. cbn [result_of_option].
  apply (triple_bind _ _ _ (fun bs s => bs = g_bs g /\ launched w0 (zeroed sg (mem w0)) (negb cuda) s)).
  { apply triple_lift; [|done]. by intros bs [= <-] s Hl. }
  intros bs. apply triple_pure. intros ->.
  assert (forall m, exists m', logical_to_block_first (TorchOps0 := torch_ops cuda_malloc) m t (g_bs g)
    (Some (sg_tensor sg)) = Ok (sg_tensor sg, m')) as Hok.
  { intros m. pose proof Hsg as (Hst & _). rewrite (contiguous_is t Hc), Hs, Hst.
    destruct (to_block_first_bytes cuda_malloc g Hg (dt_dtype t) (dt_device t) Hisz m (dt_ptr t)
      (sg_base sg + sg_address sg)) as (m1 & Hk & _). by exists m1. }
  eapply triple_bind.
  { eapply triple_exn; [apply (tensor_op_launched w0 _ (chunk_staged sg g io (mem w0) (dt_ptr t)) cuda _
      (sg_tensor sg))|done].
    - apply chunk_staged_closed.
    - exact Hok.
    - intros m m' Hz Hk. rewrite (contiguous_is t Hc), Hs in Hk.
      by apply (stage_kernel cuda_malloc sg g (dt_dtype t) (dt_device t) io Hsg Hg Hisz Hio _ m). }
  intros []. apply (triple_bind _ _ _
    (fun _ => launched w0 (chunk_staged sg g io (mem w0) (dt_ptr t)) true)); [|intros []; exact Hrest].
  eapply triple_exn; [apply Hsync, chunk_staged_closed|].
  intros e s Hl. apply HE. revert Hl. apply launched_weaken. by intros m [Hm _].
Qed.

(** A non-contiguous chunk is refused after the buffer was zeroed. *)
Lemma stage_refused {A} (sync : bool -> ST stream_state unit) (eb : option Z) sg t g io w0 cuda (rest : ST stream_state A) :
  staging_ok sg g (dt_dtype t) (dt_device t) io -> geometry_ok g -> g_nbytes g <= io ->
  dt_shape t = g_logical g -> eb = Some (g_bs g) ->
  dt_contiguous t = false ->
  triple (launched w0 (fun m => forall a, m a = mem w0 a) (negb cuda))
    (launch cuda (zero_kernel (sg_base sg) (sg_size sg));;
     bs ← st_lift (result_of_option AssertionError eb);
     tensor_op cuda (fun mm => logical_to_block_first (TorchOps0 := torch_ops cuda_malloc) mm t bs
       (Some (sg_tensor sg)));;
     sync cuda;; rest)
    (fun _ _ => False) (fun _ => launched w0 (staging_only sg (mem w0)) false).
Proof.
  intros Hsg Hg Hio Hs Hbs Hc. eapply triple_bind.
  { eapply triple_exn; [apply (launch_launched w0 _ (zeroed sg (mem w0)))|done].
    - apply zeroed_closed.
    - intros m Hm. by apply (zero_kernel_zeroed sg g (dt_dtype t) (dt_device t) io). }
  intros []. rewrite Hbs. cbn [result_of_option].
  apply (triple_bind _ _ _ (fun bs s => bs = g_bs g /\ launched w0 (zeroed sg (mem w0)) (negb cuda) s)).
  { apply triple_lift; [|done]. by intros bs [= <-] s Hl. }
  intros bs. apply triple_pure. intros ->. eapply (triple_bind _ _ _ (fun _ _ => False)); [|by intros ? ? []].
  intros s Hl. unfold tensor_op, mbind, ST_bind, st_get.
  assert (logical_to_block_first (TorchOps0 := torch_ops cuda_malloc) (mem (st_world s)) t (g_bs g)
    (Some (sg_tensor sg)) = Raise (BlockFirstFormatError "logical KV tensor must be contiguous")) as ->.
  { unfold logical_to_block_first. cbn [t_shape torch_ops device_ops]. rewrite Hs, physical_shape by done.
    cbn [mbind result_bind]. unfold t_contiguous, torch_ops, device_ops. by rewrite Hc. }
  revert Hl. apply launched_weaken. by intros m [Hm _].
Qed.

(** Up to the synchronization; a chunk that is not contiguous is refused. *)
Lemma staged_or_refused {A} (sync : bool -> ST stream_state unit) (eb : option Z) tmp sg t g io w0 cuda sched
    (rest : ST stream_state A) Q :
  synchronizes sync ->
  triple (launched w0 (chunk_staged sg g io (mem w0) (dt_ptr t)) true) rest Q
    (fun _ s => staged_world sg [tmp] w0 (run_kernels (pending s) (st_world s))) ->
  staging_ok sg g (dt_dtype t) (dt_device t) io -> geometry_ok g -> g_isz g = itemsize (dt_dtype t) ->
  g_nbytes g <= io -> chunk_apart sg g (dt_ptr t) -> dt_shape t = g_logical g -> eb = Some (g_bs g) ->
  triple (fun s => s = StreamState w0 [] sched)
    (launch cuda (zero_kernel (sg_base sg) (sg_size sg));;
     bs ← st_lift (result_of_option AssertionError eb);
     tensor_op cuda (fun mm => logical_to_block_first (TorchOps0 := torch_ops cuda_malloc) mm t bs
       (Some (sg_tensor sg)));;
     sync cuda;; rest)
    Q (fun _ s => staged_world sg [tmp] w0 (run_kernels (pending s) (st_world s))).
Proof.
  intros Hsync Hrest Hsg Hg Hisz Hio Hap Hs Hbs.
  assert (forall s, s = StreamState w0 [] sched ->
    launched w0 (fun mm => forall a, mm a = mem w0 a) (negb cuda) s) as Hpre.
  { intros s ->. by split_and!. }
  destruct (dt_contiguous t) eqn:Hc.
  - eapply triple_pre; [|exact Hpre]. apply (stage_triple sync _ sg t g io); done || by intros e; apply launched_aborted.
  - eapply triple_conseq; [by apply (stage_refused sync eb sg t g io w0 cuda)|exact Hpre|by intros ? ? []|].
    intros e s. apply launched_aborted.
Qed.

(** Publishing the staged chunk *)
Lemma publish_staged {R} (xfer : ST world R) (complete : R -> bool) (e1 e2 : exn) path sg m g header p w0 dt :
  fds_ok w0 -> describes m g dt -> lenZ header = BLOCK_FIRST_HEADER_SIZE ->
  let tmp := tmp_of path in
  (forall b, triple (fun w => with_header b tmp header w /\ fds_at (fds w0) (fresh w0) w) xfer
    (fun ret w => (keeps_files [tmp] b w /\ (complete ret = true ->
        with_payload b tmp header (sg_base sg) (io_nbytes m) (sg_address sg) w)) /\ fds_at (fds w0) (fresh w0) w)
    (fun _ w => keeps_files [tmp] b w /\ fds_at (fds w0) (fresh w0) w)) ->
  triple (launched w0 (chunk_staged sg g (io_nbytes m) (mem w0) p) true)
    (written ← on_stream (py_write_file tmp header);
     st_lift (raise_if (negb (written =? BLOCK_FIRST_HEADER_SIZE))
       (RuntimeError "block-first header write incomplete"));;
     ret ← dma xfer;
     st_lift (raise_if (negb (complete ret)) e1);;
     actual_size ← on_stream (os_getsize tmp);
     st_lift (raise_if (negb (actual_size =? BLOCK_FIRST_HEADER_SIZE + io_nbytes m)) e2);;
     on_stream (os_replace tmp path))
    (fun _ s => pending s = [] /\ staged_world sg [tmp; path] w0 (st_world s)
       /\ files (st_world s) !! tmp = None
       /\ content (st_world s) path = Some (block_first_file header m g (mem w0) p))
    (fun _ s => staged_world sg [tmp] w0 (run_kernels (pending s) (st_world s))).
Proof.
  intros Hfds Hm Hh tmp Hx s (H1 & H2 & H3 & HM & Hpend). specialize (Hpend eq_refl). rewrite Hpend in HM.
  pose proof Hm as (Hg & Hisz & _ & _ & _ & _ & _ & Hpn & _).
  destruct (HM (mem (st_world s)) ltac:(done)) as [Hout Hslice]. cbn [foldl] in *.
  set (b := with_mem w0 (mem (st_world s))).
  pose proof (publish_dma_triple b tmp path (tmp_of_neq path) (fds w0) (fresh w0) Hfds header (sg_base sg)
    (io_nbytes m) (sg_address sg) xfer complete e1 e2 (Hx b) s) as Ht.
  assert (keeps_files [] (with_mem w0 (mem (st_world s))) (st_world s)
    /\ fds_at (fds w0) (fresh w0) (st_world s)) as Hk.
  { split; [split; [intros; by rewrite H1|done]|]. split; [done|lia]. }
  specialize (Ht (conj Hpend Hk)).
  match type of Ht with context [?body s] => destruct (body s) as [[u|e] s'] end.
  - destruct Ht as (Hp' & (Hkf & Hn & Hcon) & Hfd). split; [done|]. split; [|split; [done|]].
    + by eapply staged_world_base.
    + rewrite Hcon. unfold block_first_file, b. rewrite Hpn. cbn [mem with_mem]. by rewrite Hslice.
  - destruct Ht as (Hp' & Hkf & Hfd). rewrite Hp', run_no_kernels. by eapply staged_world_base.
Qed.

(** The transaction once the metadata is known *)
Lemma store_body_triple path t sg g m header w0 cuda sched  :
  fds_ok w0 -> staging_ok sg g (dt_dtype t) (dt_device t) (io_nbytes m) ->
  describes m g (dt_dtype t) -> chunk_apart sg g (dt_ptr t) -> dt_shape t = g_logical g ->
  xe_block_size (xc_engine cfg) = Some (g_bs g) -> lenZ header = BLOCK_FIRST_HEADER_SIZE ->
  let tmp := tmp_of path in
  triple (fun s => s = StreamState w0 [] sched)
    (launch cuda (zero_kernel (sg_base sg) (sg_size sg));;
     bs ← st_lift (result_of_option AssertionError (xe_block_size (xc_engine cfg)));
     tensor_op cuda (fun mm => logical_to_block_first (TorchOps0 := torch_ops cuda_malloc) mm t bs
       (Some (sg_tensor sg)));;
     sync_if cuda;;
     written ← on_stream (py_write_file tmp header);
     st_lift (raise_if (negb (written =? BLOCK_FIRST_HEADER_SIZE))
       (RuntimeError "block-first header write incomplete"));;
     ret ← dma (dds_write (xe_dds (xc_engine cfg)) tmp (sg_base sg) (io_nbytes m)
                  BLOCK_FIRST_HEADER_SIZE (sg_address sg));
     st_lift (raise_if (negb (ret =? io_nbytes m))
       (RuntimeError "block-first XDS write incomplete"));;
     actual_size ← on_stream (os_getsize tmp);
     st_lift (raise_if (negb (actual_size =? BLOCK_FIRST_HEADER_SIZE + io_nbytes m))
       (RuntimeError "block-first file size mismatch"));;
     on_stream (os_replace tmp path))
    (fun _ s => pending s = [] /\ staged_world sg [tmp; path] w0 (st_world s)
       /\ files (st_world s) !! tmp = None
       /\ content (st_world s) path = Some (block_first_file header m g (mem w0) (dt_ptr t)))
    (fun _ s => staged_world sg [tmp] w0 (run_kernels (pending s) (st_world s))).
Proof.
  intros Hfds Hsg Hm Hap Hs Hbs Hh tmp. pose proof (describes_sizes m g _ Hm) as [[Hpos Hio] _].
  pose proof Hm as (Hg & Hisz & _).
  apply (staged_or_refused sync_if _ tmp sg t g (io_nbytes m)); try done; [apply sync_launched|].
  apply (publish_staged _ (fun ret => ret =? io_nbytes m) _ _ path sg m g header _ w0 _ Hfds Hm Hh).
  intros b. eapply triple_exn; [apply payload_triple; done || lia|by intros ? ? []].
Qed.

(** Discarding the temporary file of a failed store *)
Lemma discard_staged sg w0 tmp e w :
  fds_ok w0 -> staged_world sg [tmp] w0 w ->
  match discard_tmp (A := unit) tmp e w with
  | (Ok _, _) => False
  | (Raise e', w') => staged_world sg [tmp] w0 w' /\ (files w' !! tmp = None \/ is_os_error e' = true)
  end.
Proof.
  intros Hfds (Hq & Hm & Hd & Hn).
  assert (keeps_files [tmp] (with_mem w0 (mem w)) w) as Hk by done.
  pose proof (discard_tmp_triple (A := unit) tmp e (with_mem w0 (mem w)) (fds w0) (fresh w0) w
    (conj Hk (conj Hd Hn))) as H.
  destruct (discard_tmp tmp e w) as [[u|e'] w']; [done|]. destruct H as [[Hk' Ht] Hfd].
  split; [|done]. by eapply staged_world_base.
Qed.

(** What a store through the staging buffer publishes; failing, it leaves the target alone. *)
Lemma save_block_first_spec path t w0 :
  fds_ok w0 -> (forall sg, fl_staging fl = Some sg -> staging_fits sg t) ->
  match save_block_first_xds cuda_malloc cfg fl path t w0 with
  | (Ok m, w) => exists g header sg, describes m g (dt_dtype t) /\ dt_shape t = g_logical g
      /\ make_block_first_metadata (xc_engine cfg) (dt_shape t) (dt_dtype t) = Ok m
      /\ pack_block_first_header m = Ok header /\ fl_staging fl = Some sg
      /\ staged_world sg [tmp_of path; path] w0 w /\ files w !! tmp_of path = None
      /\ content w path = Some (block_first_file header m g (mem w0) (dt_ptr t))
  | (Raise e, w) => w = w0 \/ exists sg, fl_staging fl = Some sg
      /\ staged_world sg [tmp_of path] w0 w
      /\ (files w !! tmp_of path = None \/ is_os_error e = true)
  end.
Proof.
  intros Hfds Hfit. unfold save_block_first_xds. fold (tmp_of path).
  unfold mbind at 1, ST_bind at 1, st_lift at 1.
  destruct (make_block_first_metadata _ _ _) as [m|e] eqn:Hmk; [|by left].
  unfold mbind at 1, ST_bind at 1, st_lift at 1.
  destruct (pack_block_first_header m) as [header|e] eqn:Hp; [|by left].
  unfold mbind at 1, ST_bind at 1, st_lift at 1.
  destruct (check_staging fl m) as [sg|e] eqn:Hck; [|by left].
  unfold check_staging in Hck. destruct (fl_staging fl) as [sg'|] eqn:Hsg; [|done].
  res_inv. subst sg'. bool_prop. apply dec_stable in H.
  destruct (make_metadata_describes _ _ _ _ Hmk) as (g & Hm & Hs & Hbs).
  destruct (Hfit sg eq_refl m g Hm Hs) as [Hok Hap]; [rewrite H; apply Hm|].
  pose proof (store_body_triple path t sg g m header w0 (is_cuda_device (dt_device (sg_tensor sg)))
    (fl_schedule fl) Hfds Hok Hm Hap Hs Hbs (pack_header_length _ _ Hp) _ eq_refl) as Ht.
  unfold mbind at 1, ST_bind at 1, st_catch, in_stream.
  match type of Ht with context [?body (StreamState _ _ _)] =>
    destruct (body (StreamState w0 [] (fl_schedule fl))) as [[u|e] s] end.
  - destruct Ht as (Hpend & Hw & Hn & Hc). rewrite Hpend, run_no_kernels. by exists g, header, sg.
  - cbn [any_exn]. pose proof (discard_staged sg w0 (tmp_of path) e _ Hfds Ht) as Hd.
    destruct (discard_tmp _ _ _) as [[u|e'] w]; [by destruct Hd|]. right. by exists sg.
Qed.

(** ** The load *)

(** Reading a header through a fresh descriptor *)
Lemma read_header_cases path w :
  fds_ok w ->
  let '(r, w') := (fd ← os_open path O_RDONLY;
    st_finally (header ← os_pread fd BLOCK_FIRST_HEADER_SIZE;
      st_lift (unpack_block_first_header (Dt := Dt) header)) (os_close fd)) w in
  quiet_io w w'
  /\ match r with
     | Ok m => exists f, content w path = Some f
         /\ unpack_block_first_header (Dt := Dt) (take (Z.to_nat BLOCK_FIRST_HEADER_SIZE) f) = Ok m
     | Raise _ => True
     end.
Proof.
  intros Hfds. exact (read_file_cases (unpack_block_first_header (Dt := Dt)) path _ w Hfds).
Qed.

Lemma os_getsize_cases path w :
  let '(r, w') := os_getsize path w in
  quiet_io w w'
  /\ match r with Ok n => exists f, content w path = Some f /\ n = lenZ f | Raise _ => True end.
Proof.
  unfold os_getsize, mbind at 1, ST_bind at 1. pose proof (may_fail_quiet w) as Hm.
  destruct (may_fail w) as [[u|e] w2]; [|by destruct Hm as (_ & ? & _)].
  unfold mbind, ST_bind, st_get. unfold content. destruct Hm as (Q1&Q2&Q3&Q4). rewrite <- Q1.
  destruct (files w2 !! path) as [f|]; cbn; [|by repeat split]. split; [done|]. by exists (bytes f).
Qed.

(** The payload of the file [f] at the logical positions of the chunk at [p] *)
Definition payload_loaded g (f : list Z) (p : Z) (m : Z -> Z) : Prop :=
  forall j, 0 <= j < g_nbytes g ->
    f !! Z.to_nat (BLOCK_FIRST_HEADER_SIZE + j) = Some (m (p + logical_source g j)).

(** Memory outside the staging buffer and the [n] bytes at [p] *)
Definition load_frame sg (p n : Z) (m0 m : Z -> Z) : Prop :=
  forall a, ~ in_staging sg a -> ~ p <= a < p + n -> m a = m0 a.

Lemma load_frame_closed sg p n m0 : mem_closed (load_frame sg p n m0).
Proof. intros m m' Hm H a H1 H2. rewrite Hm. by apply H. Qed.

Lemma staging_only_frame sg p n m0 m : staging_only sg m0 m -> load_frame sg p n m0 m.
Proof. intros H a Ha _. by apply H. Qed.

Lemma launched_pending w0 M b s : launched w0 M true s -> launched w0 M b s.
Proof. intros (?&?&?&?&H). split_and!; try done. intros _. by apply H. Qed.

(** A transfer of the [io] bytes after the header of [f] to [a] *)
Definition reads_payload {R} (w0 : world) (f : list Z) (a io : Z) (xfer : ST world R) (full : R -> bool) : Prop :=
  forall w, files w = files w0 -> fds w = fds w0 -> fresh w0 <= fresh w ->
  let '(r, w') := xfer w in
  files w' = files w0 /\ fds w' = fds w0 /\ fresh w0 <= fresh w'
  /\ (forall x, ~ a <= x < a + io -> mem w' x = mem w x)
  /\ match r with
     | Ok ret => full ret = true -> forall i, 0 <= i < io ->
         f !! Z.to_nat (BLOCK_FIRST_HEADER_SIZE + i) = Some (mem w' (a + i))
     | Raise _ => True
     end.

(** A load from an idle stream, whatever transfers the payload *)
Lemma load_staged_triple {R} (sync : bool -> ST stream_state unit) (xfer : ST world R) (full : R -> bool)
    f p sg g dt dv io w0 sched :
  synchronizes sync -> reads_payload w0 f (sg_base sg + sg_address sg) io xfer full ->
  staging_ok sg g dt dv io -> geometry_ok g -> g_isz g = itemsize dt -> g_nbytes g <= io ->
  let cuda := is_cuda_device (dt_device (sg_tensor sg)) in
  let out := contiguous_at p (g_logical g) dt dv in
  triple (fun s => s = StreamState w0 [] sched)
    (launch cuda (zero_kernel (sg_base sg) (sg_size sg));;
     sync cuda;;
     ret ← dma xfer;
     if negb (full ret) then mret ret
     else
       sync cuda;;
       tensor_op cuda (fun mm => block_first_to_logical (TorchOps0 := torch_ops cuda_malloc) mm
         (sg_tensor sg) (Some out));;
       sync (is_cuda_device (dt_device out));;
       mret ret)
    (fun ret s => launched w0 (fun m => load_frame sg p (g_nbytes g) (mem w0) m
       /\ (full ret = true -> payload_loaded g f p m)) false s)
    (fun _ => launched w0 (load_frame sg p (g_nbytes g) (mem w0)) false).
Proof.
  intros Hsync Hx Hsg Hg Hisz Hio cuda out.
  assert (is_cuda_device (dt_device out) = cuda) as Hdev.
  { unfold cuda. by destruct Hsg as (-> & _). }
  set (F := load_frame sg p (g_nbytes g) (mem w0)).
  eapply triple_bind.
  { eapply triple_conseq; [apply (launch_launched w0 (fun m => forall a, m a = mem w0 a)
      (zeroed sg (mem w0)) cuda)| |done|by intros ? ? []].
    - apply zeroed_closed.
    - intros m Hm. by apply (zero_kernel_zeroed sg g dt dv io).
    - intros s ->. by split_and!. }
  intros []. apply (triple_bind _ _ _ (fun _ => launched w0 (staging_only sg (mem w0)) true)).
  { eapply triple_conseq; [apply (Hsync w0 (staging_only sg (mem w0)) cuda)| |done|].
    - apply staging_only_closed.
    - intros s (?&?&?&HM&?). split_and!; try done. intros m Hm. by apply HM.
    - intros e s. apply launched_weaken. intros m. apply staging_only_frame. }
  intros [].
  set (L := fun m : Z -> Z => staging_only sg (mem w0) m
    /\ forall i, 0 <= i < io ->
         f !! Z.to_nat (BLOCK_FIRST_HEADER_SIZE + i) = Some (m (sg_base sg + sg_address sg + i))).
  apply (triple_bind _ _ _ (fun ret => launched w0
    (fun m => staging_only sg (mem w0) m /\ (full ret = true -> L m)) true)).
  { intros s (H1 & H2 & H3 & HM & Hp). specialize (Hp eq_refl). rewrite Hp in HM. cbn [foldl] in HM.
    pose proof Hsg as (_ & Ha & Hsz). pose proof (g_run_pos g Hg) as Hr.
    assert (0 <= g_nbytes g) by (destruct Hg as (?&?&?&?&?); unfold g_nbytes, g_runs; nia).
    unfold dma, on_stream, st_modify, mbind, ST_bind. cbn [st_world pending schedule].
    rewrite Hp, firstn_nil, run_no_kernels, drop_nil.
    pose proof (Hx (st_world s) H1 H2 H3) as Ht. destruct (xfer (st_world s)) as [[ret|e] w'];
      destruct Ht as (F1 & F2 & F3 & Hkm & Hret);
      (assert (forall m, (forall a, m a = mem w' a) -> staging_only sg (mem w0) m) as Hst
        by (intros m Hm a Hna; rewrite Hm, Hkm by (unfold in_staging in Hna; lia);
            by apply (HM (mem (st_world s)) ltac:(done))));
      split_and!; try done; cbn [pending foldl st_world]; intros m Hm.
    - split; [by apply Hst|]. intros Hf. split; [by apply Hst|]. intros i Hi. rewrite Hm. by apply Hret.
    - by apply staging_only_frame, Hst. }
  intros ret. destruct (full ret) eqn:Hfull; cbn [negb].
  2:{ intros s Hs. cbn. revert Hs. apply launched_weaken. intros m [Hm _]. split; [by apply staging_only_frame|].
      by rewrite Hfull. }
  apply (triple_bind _ _ _ (fun _ => launched w0 L true)).
  { eapply triple_conseq; [apply (Hsync w0 L cuda)| |done|].
    - intros m m' Hm [Ha Hb]. split; [by eapply staging_only_closed|]. intros i Hi. rewrite Hm. by apply Hb.
    - intros s Hs. apply launched_pending. destruct Hs as (?&?&?&HM&?). split_and!; try done.
      intros m Hm. by apply HM.
    - intros e s. apply launched_weaken. intros m [Hm _]. by apply staging_only_frame. }
  intros []. set (M := fun m => F m /\ payload_loaded g f p m).
  assert (mem_closed M) as HMc.
  { intros m m' Hm [Ha Hb]. split; [by eapply load_frame_closed|]. intros j Hj. rewrite Hm. by apply Hb. }
  apply (triple_bind _ _ _ (fun _ => launched w0 M (negb cuda))).
  { eapply triple_conseq; [apply (tensor_op_launched w0 L M cuda _ out HMc)| |done|by intros ? ? []].
    - intros m. pose proof Hsg as (-> & _).
      destruct (to_logical_bytes cuda_malloc g Hg dt dv Hisz m p
        (sg_base sg + sg_address sg)) as (m1 & Hk & _). by exists m1.
    - intros m m' [Hm Hl] Hk. pose proof Hsg as (Hst & _). rewrite Hst in Hk.
      destruct (to_logical_bytes cuda_malloc g Hg dt dv Hisz m p
        (sg_base sg + sg_address sg)) as (m1 & Hk1 & Hin & Ho). unfold ops in Hk1.
      unfold out, torch_ops in Hk.
      rewrite Hk1 in Hk. injection Hk as <-. split.
      + intros a Ha Hb. rewrite Ho by done. by apply Hm.
      + intros j Hj. rewrite Hin by done. apply Hl. lia.
    - intros s. apply launched_pending. }
  intros []. rewrite Hdev. apply (triple_bind _ _ _ (fun _ => launched w0 M true)).
  { eapply triple_conseq; [apply (Hsync w0 M cuda HMc)|done|done|].
    intros e s. apply launched_weaken. by intros m [Hm _]. }
  intros [] s Hs. cbn. revert Hs. apply launched_weaken. by intros m [Hm Hb].
Qed.

(** The XDS backend's transfer *)
Lemma load_xds_payload path f a io dof w0 :
  fds_ok w0 -> content w0 path = Some f -> lenZ f = BLOCK_FIRST_HEADER_SIZE + io -> 0 <= io ->
  reads_payload w0 f (a + dof) io (load_xds cfg path BLOCK_FIRST_HEADER_SIZE a io dof) (fun ret => ret =? io).
Proof.
  intros Hfds Hf Hlen Hio w H1 H2 H3. unfold load_xds.
  pose proof (dds_read_triple w path a io BLOCK_FIRST_HEADER_SIZE dof Hio ltac:(done)
    (xe_dds (xc_engine cfg)) (fds w0) (fresh w0) Hfds w) as Ht.
  assert (read_kept w a io dof w /\ fds_at (fds w0) (fresh w0) w) as Hk by (split; [done|split; [done|lia]]).
  specialize (Ht Hk). destruct (dds_read _ _ _ _ _ _ w) as [[ret|e] w']; [|done].
  destruct Ht as ([[Hkf Hkm] Hret] & [Hd Hn]). split_and!; try congruence; try lia.
  - intros x Hx. by apply Hkm.
  - intros Hr%Z.eqb_eq i Hi. refine (Hret Hr f _ _ i Hi); [|lia]. unfold content in *. by rewrite H1.
Qed.

(** Files and descriptors are as before; only the staging buffer, if there is one, and the
    [n] bytes at [p] may have changed. *)
Definition load_only (staging : option (block_staging Dt)) (p n : Z) (w0 w : world) : Prop :=
  files w = files w0 /\ fds w = fds w0 /\ fresh w0 <= fresh w
  /\ forall a, (forall sg, staging = Some sg -> ~ in_staging sg a) -> ~ p <= a < p + n ->
       mem w a = mem w0 a.

Lemma quiet_load_only staging p n w0 w : quiet_io w0 w -> load_only staging p n w0 w.
Proof. intros (?&H&?&?). split_and!; try done. intros a _ _. by rewrite H. Qed.

Lemma load_only_trans staging p n w0 w1 w2 :
  quiet_io w0 w1 -> load_only staging p n w1 w2 -> load_only staging p n w0 w2.
Proof.
  intros (H1&H2&H3&H4) (A1&A2&A3&A4). split_and!; try congruence; [lia|].
  intros a Ha Hb. by rewrite A4, H2.
Qed.

Lemma launched_load_only staging sg p n w0 (M : (Z -> Z) -> Prop) s :
  staging = Some sg -> (forall m, M m -> load_frame sg p n (mem w0) m) -> launched w0 M false s ->
  load_only staging p n w0 (run_kernels (pending s) (st_world s)) /\ M (mem (run_kernels (pending s) (st_world s))).
Proof.
  intros -> HM (H1 & H2 & H3 & H4 & _). specialize (H4 (mem (st_world s)) ltac:(done)). split; [|done].
  split_and!; try done. intros a Ha Hb. apply (HM _ H4); [|done]. by apply Ha.
Qed.

(** What a load through the staging buffer puts into its output, whatever transfers the
    payload and however the staging buffer is chosen *)
Lemma load_checked_spec {R} (sync : bool -> ST stream_state unit) (xfer : block_staging Dt -> ST world R)
    (full : R -> bool) staging (chosen : result (block_staging Dt)) sched path dm g p dv w0 dt :
  fds_ok w0 -> describes dm g dt -> synchronizes sync ->
  (forall sg, chosen = Ok sg -> staging = Some sg /\ dt_shape (sg_tensor sg) = payload_shape dm) ->
  (forall sg, staging = Some sg -> dt_shape (sg_tensor sg) = g_physical g ->
     staging_ok sg g dt dv (io_nbytes dm)) ->
  (forall sg f w, fds_ok w -> content w path = Some f -> lenZ f = BLOCK_FIRST_HEADER_SIZE + io_nbytes dm ->
     reads_payload w f (sg_base sg + sg_address sg) (io_nbytes dm) (xfer sg) full) ->
  let out := contiguous_at p (g_logical g) dt dv in
  let '(r, w) := (
    fd ← os_open path O_RDONLY;
    current ← st_finally
      (header ← os_pread fd BLOCK_FIRST_HEADER_SIZE; st_lift (unpack_block_first_header (Dt := Dt) header))
      (os_close fd);
    st_lift (raise_if (bool_decide (current <> dm))
      (BlockFirstFormatError "block-first header changed after indexing"));;
    size ← os_getsize path;
    st_lift (raise_if (negb (size =? BLOCK_FIRST_HEADER_SIZE + io_nbytes dm))
      (BlockFirstFormatError "block-first payload size changed after indexing"));;
    sg ← st_lift chosen;
    let cuda := is_cuda_device (dt_device (sg_tensor sg)) in
    in_stream sched (
      launch cuda (zero_kernel (sg_base sg) (sg_size sg));;
      sync cuda;;
      ret ← dma (xfer sg);
      if negb (full ret) then mret ret
      else
        sync cuda;;
        tensor_op cuda (fun mm => block_first_to_logical (TorchOps0 := torch_ops cuda_malloc) mm
          (sg_tensor sg) (Some out));;
        sync (is_cuda_device (dt_device out));;
        mret ret)) w0 in
  load_only staging p (g_nbytes g) w0 w
  /\ match r with
     | Ok ret => full ret = true -> exists f, content w0 path = Some f
         /\ lenZ f = BLOCK_FIRST_HEADER_SIZE + io_nbytes dm
         /\ unpack_block_first_header (Dt := Dt) (take (Z.to_nat BLOCK_FIRST_HEADER_SIZE) f) = Ok dm
         /\ payload_loaded g f p (mem w)
     | Raise _ => True
     end.
Proof.
  intros Hfds Hm Hsync Hck Hfit Hx out. pose proof (describes_sizes dm g dt Hm) as [[_ Hio] _].
  pose proof Hm as (Hg & Hisz & _ & Hps & _).
  pose proof (read_header_cases path w0 Hfds) as Hh. unfold mbind at 1, ST_bind at 1 in Hh.
  unfold mbind at 1, ST_bind at 1. destruct (os_open path O_RDONLY w0) as [[fd|e] w1].
  2:{ destruct Hh as [Hq _]. split; [by apply quiet_load_only|done]. }
  unfold mbind at 1, ST_bind at 1. destruct (st_finally _ _ w1) as [[current|e] w2].
  2:{ destruct Hh as [Hq _]. split; [by apply quiet_load_only|done]. }
  destruct Hh as [Hq (f & Hf & Hu)]. unfold mbind at 1, ST_bind at 1, st_lift at 1.
  destruct (decide (current = dm)) as [->|Hne].
  2:{ rewrite bool_decide_true by done. split; [by apply quiet_load_only|done]. }
  rewrite bool_decide_false by tauto. cbn [raise_if].
  unfold mbind at 1, ST_bind at 1. pose proof (os_getsize_cases path w2) as Hs.
  destruct (os_getsize path w2) as [[n|e] w3].
  2:{ destruct Hs as [Hs _]. split; [|done]. apply quiet_load_only. by etrans. }
  destruct Hs as [Hs (f' & Hf' & ->)].
  assert (quiet_io w0 w3) as Hq3 by by etrans.
  assert (f' = f) as -> by (unfold content in *; destruct Hq as (Q1&_); rewrite Q1 in Hf'; congruence).
  unfold mbind at 1, ST_bind at 1, st_lift at 1.
  destruct (Z.eqb_spec (lenZ f) (BLOCK_FIRST_HEADER_SIZE + io_nbytes dm)) as [Hlen|_].
  2:{ cbn. split; [by apply quiet_load_only|done]. }
  cbn [negb raise_if]. unfold mbind at 1, ST_bind at 1, st_lift at 1.
  destruct chosen as [sg|e]; [|split; [by apply quiet_load_only|done]].
  destruct (Hck sg eq_refl) as [Hsg Hsh].
  pose proof (Hfit sg Hsg ltac:(congruence)) as Hok.
  assert (fds_ok w3) as Hfds3 by by eapply quiet_io_below.
  assert (content w3 path = Some f) as Hf3 by (unfold content in *; destruct Hq3 as (-> & _); done).
  pose proof (load_staged_triple sync (xfer sg) full f p sg g dt dv (io_nbytes dm) w3 sched Hsync
    (Hx sg f w3 Hfds3 Hf3 Hlen) Hok Hg Hisz Hio _ eq_refl) as Ht.
  subst out. cbv zeta in *. unfold in_stream. match type of Ht with context [?body (StreamState _ _ _)] =>
    destruct (body (StreamState w3 [] sched)) as [[ret|e] s] end.
  - eapply (launched_load_only _ _ _ _ _ _ _ Hsg) in Ht as [Hl [_ Hb]]; [|by intros m [Hm1 _]].
    split; [by eapply load_only_trans|]. intros Hr. exists f. split_and!; try done. by apply Hb.
  - eapply (launched_load_only _ _ _ _ _ _ _ Hsg) in Ht as [Hl _]; [|done].
    split; [by eapply load_only_trans|done].
Qed.

Lemma load_block_first_spec path dm g p dv w0 dt :
  fds_ok w0 -> describes dm g dt ->
  (forall sg, fl_staging fl = Some sg -> dt_shape (sg_tensor sg) = g_physical g ->
     staging_ok sg g dt dv (io_nbytes dm)) ->
  let '(r, w) := load_block_first_xds cuda_malloc cfg fl path dm (contiguous_at p (g_logical g) dt dv) w0 in
  load_only (fl_staging fl) p (g_nbytes g) w0 w
  /\ match r with
     | Ok ret => ret = io_nbytes dm -> exists f, content w0 path = Some f
         /\ lenZ f = BLOCK_FIRST_HEADER_SIZE + io_nbytes dm
         /\ unpack_block_first_header (Dt := Dt) (take (Z.to_nat BLOCK_FIRST_HEADER_SIZE) f) = Ok dm
         /\ payload_loaded g f p (mem w)
     | Raise _ => True
     end.
Proof.
  intros Hfds Hm Hfit. pose proof (describes_sizes dm g dt Hm) as [[Hpos Hio] _].
  pose proof (load_checked_spec sync_if (fun sg => load_xds cfg path BLOCK_FIRST_HEADER_SIZE (sg_base sg)
    (io_nbytes dm) (sg_address sg)) (fun ret => ret =? io_nbytes dm) (fl_staging fl) (check_staging fl dm)
    (fl_schedule fl) path dm g p dv w0 dt Hfds Hm sync_launched) as H.
  match type of H with ?A -> ?B -> ?C -> _ => assert A as HA; [|assert C as HC; [|specialize (H HA Hfit HC)]] end.
  - intros sg Hck. unfold check_staging in Hck. destruct (fl_staging fl) as [sg'|]; [|done].
    res_inv. subst sg'. bool_prop. by match goal with Hx : ¬ _ |- _ => apply dec_stable in Hx end.
  - intros sg f w Hw Hf Hl. apply load_xds_payload; done || lia.
  - cbv zeta in H. match type of H with let (_, _) := ?x in _ => change x with
      (load_block_first_xds cuda_malloc cfg fl path dm (contiguous_at p (g_logical g) dt dv) w0) in H end.
    destruct (load_block_first_xds _ _ _ _ _ _ w0) as [[ret|e] w]; destruct H as [H1 H2]; (split; [exact H1|]);
      [|done]. intros Hr. by apply H2, Z.eqb_eq.
Qed.

End store.
