(* ===== verification/XdsChunkIO.v ===== *)
(** * The file layer of the XDS index

    The staged transfers as the interface [ChunkIO] of [XdsIndex]: the legacy stores and
    loads ([save_xds], [load_xds], [posix_write], [posix_read]), the law the index relies on,
    and the round trip of a chunk's bytes through its file, whatever the mode. *)

From S2P Require Import Prelude Tensor Codec BlockFirst DirectIO World WorldIO HipFile XdsFiles XdsPaths XdsMeta Dict XdsIndex DeviceTensor XdsStaged XdsCpuStore XdsGpuStage.

Open Scope string_scope.
Open Scope list_scope.
Open Scope Z_scope.

Section legacy.
Context {Dt : Type} `{!TorchDtype Dt, !TorchDtypeLaws Dt} {JC : JsonCodec} {JL : JsonCodecLaws}.
Context {HL : HyFileLib} {HLL : HyFileLibLaws}.
Context (cfg : xds_config Dt) (fl : file_layer Dt).
Implicit Types (t : dtensor Dt torch_device).

(** The first bytes of a file are those of memory at [p]. *)
Definition holds (f : list Z) (m : Z -> Z) (p n : Z) : Prop :=
  forall i, 0 <= i < n -> f !! Z.to_nat i = Some (m (p + i)).

Section publish_legacy.
Context (w0 : world) (tmp path : string) (Hfds : fds_ok w0) (Hne : tmp <> path).

(** Only the temporary file differs. *)
Definition tmp_only (w : world) : Prop :=
  (forall q, q <> tmp -> files w !! q = files w0 !! q) /\ (forall a, mem w a = mem w0 a)
  /\ fds w = fds w0 /\ fresh w0 <= fresh w.

Lemma only_file_tmp w : only_file tmp w0 w -> tmp_only w.
Proof. intros (H1&H2&H3&H4). split_and!; try done. intros a. by rewrite H2. Qed.

Lemma tmp_only_quiet w w' : tmp_only w -> quiet_io w w' -> tmp_only w'.
Proof.
  intros (H1&H2&H3&H4) (Q1&Q2&Q3&Q4). split_and!; [|intros a; by rewrite Q2|congruence|lia].
  intros q Hq. rewrite Q1. by apply H1.
Qed.

(** Renaming the finished temporary file *)
Lemma rename_cases w f :
  tmp_only w -> content w tmp = Some f ->
  match os_replace tmp path w with
  | (Ok _, w') => published w0 tmp path f w'
  | (Raise e, w') => tmp_only w' /\ is_os_error e = true
  end.
Proof.
  intros Hw Hf. pose proof Hw as (H1 & H2 & H3 & H4). unfold content in Hf.
  destruct (files w !! tmp) as [h|] eqn:E; [|done]. injection Hf as Hf.
  unfold os_replace, mbind at 1, ST_bind at 1. pose proof (may_fail_quiet w) as Hm.
  destruct (may_fail w) as [[u|e] w1].
  2:{ destruct Hm as (He & Hq & _). split; [|done]. by eapply tmp_only_quiet. }
  destruct Hm as (Q1&Q2&Q3&Q4). unfold mbind, ST_bind, st_get. rewrite Q1, E. unfold st_put.
  split; [|split; [|split; [|simpl; split; [congruence|lia]]]].
  - split; [|intros a; simpl; by rewrite Q2]. intros q Hq. simpl.
    rewrite lookup_insert_ne by (intros ->; apply Hq; right; by left).
    rewrite lookup_delete_ne by (intros ->; apply Hq; by left). apply H1.
    intros ->. apply Hq. by left.
  - simpl. rewrite lookup_insert_ne by (intros Heq; by apply Hne). apply lookup_delete_eq.
  - unfold content. simpl. rewrite lookup_insert_eq. simpl. by rewrite Hf.
Qed.

(** The cleanup of a failed legacy store *)
Lemma remove_and_raise_cases {A} e w :
  tmp_only w -> exists w', remove_and_raise (A := A) tmp e w = (Raise e, w') /\ tmp_only w'.
Proof.
  intros Hw. unfold remove_and_raise, mbind at 1, ST_bind at 1, os_exists, st_gets.
  unfold mbind, ST_bind. case_bool_decide; [|by exists w].
  unfold st_catch. pose proof (os_remove_cases w tmp) as Hr.
  destruct (os_remove tmp w) as [[u|e'] w1].
  - exists w1. split; [done|]. destruct Hr as (R1&R2&R3&R4), Hw as (H1&H2&H3&H4). simpl in *.
    split_and!; [|intros a; by rewrite R2|congruence|lia]. intros q Hq. rewrite R1, lookup_delete_ne by done. by apply H1.
  - destruct Hr as (Hq & He & _). rewrite He. exists w1. split; [done|]. by eapply tmp_only_quiet.
Qed.

End publish_legacy.

Section save.
Context (name : string).
#[local] Abbreviation path := (name +:+ DATA_FILE_SUFFIX).
#[local] Abbreviation tmp := (py_replace path DATA_FILE_SUFFIX DATA_FILE_SUFFIX_TMP).

(** A legacy store publishes a file that starts with the bytes, or changes at most its
    temporary file. *)
Definition legacy_outcome (w0 : world) (ok : list Z -> Prop) {A} (r : result A) (w : world) : Prop :=
  match r with
  | Ok _ => exists f, ok f /\ published w0 tmp path f w
  | Raise _ => tmp_only w0 tmp w
  end.

Lemma posix_write_spec t size buffer w0 :
  fds_ok w0 ->
  let '(r, w) := posix_write cfg fl path t size buffer w0 in
  legacy_outcome w0 (fun f => lenZ buffer = size /\ take (length buffer) f = buffer) r w.
Proof.
  intros Hfds. unfold posix_write. unfold mbind at 1, ST_bind at 1, st_lift at 1.
  destruct (Z.eqb_spec (lenZ buffer) size) as [Hsize|_]; cbn [py_assert raise_if negb]; [|done].
  unfold mbind at 1, ST_bind at 1, st_lift at 1.
  destruct (pack_metadata _ _ _ _) as [metadata|e]; [|done].
  unfold mbind at 1, ST_bind at 1, st_catch.
  assert (forall e w, tmp_only w0 tmp w ->
    let '(r, w') := (match remove_and_raise (A := unit) tmp e w with
      | (Ok a, s2) => (Ok metadata, s2) | (Raise e, s2) => (Raise e, s2) end) in
    legacy_outcome w0 (fun f => lenZ buffer = size /\ take (length buffer) f = buffer) r w') as Hfail.
  { intros e w Hw. by destruct (remove_and_raise_cases w0 tmp (A := unit) e w Hw) as (w' & -> & Hw'). }
  unfold mbind at 1, ST_bind at 1, st_lift at 1.
  destruct (raise_if _ _) as [u|e]; [|by apply Hfail].
  set (wr := if _ || _ then _ else _).
  assert (let '(r, w) := wr w0 in tmp_only w0 tmp w
    /\ match r with
       | Ok n => n = size -> exists f, content w tmp = Some f /\ take (length buffer) f = buffer
       | Raise _ => True end) as Hwr.
  { unfold wr. destruct (_ || _).
    - pose proof (py_write_file_cases tmp buffer w0 Hfds) as H.
      destruct (py_write_file tmp buffer w0) as [[n|e] w]; destruct H as [H1%only_file_tmp H2]; (split; [done|]); [|done].
      intros _. exists buffer. by rewrite firstn_all.
    - pose proof (direct_write_count tmp buffer w0 Hfds) as H.
      match type of H with context [?body w0] => destruct (body w0) as [[n|e] w] end;
        destruct H as [H1%only_file_tmp H2]; (split; [done|]); [|done].
      destruct H2 as (k & -> & Hk & Hc & _). intros Hn.
      assert (k = length buffer) as -> by (unfold lenZ in *; lia).
      eexists. split; [exact Hc|]. rewrite firstn_all. unfold write_at. simpl. by rewrite take_app_length. }
  unfold mbind at 1, ST_bind at 1. destruct (wr w0) as [[n|e] w]; destruct Hwr as [Hw Hn];
    [|by apply Hfail]. unfold mbind at 1, ST_bind at 1, st_lift at 1.
  destruct (Z.eqb_spec n size) as [Heq|_]; cbn [negb raise_if]; [|by apply Hfail].
  destruct (Hn Heq) as (f & Hf & Htk).
  pose proof (rename_cases w0 tmp path (data_tmp_neq name) w f Hw Hf) as Hr.
  destruct (os_replace tmp path w) as [[u'|e] w'];
    [|destruct Hr; by apply Hfail]. by exists f.
Qed.

Lemma save_xds_spec t size base dev w0 :
  fds_ok w0 -> 0 <= size ->
  let addr := match base with None => dt_ptr t | Some b => b + dev end in
  let '(r, w) := save_xds cfg path t size base dev w0 in
  legacy_outcome w0 (fun f => holds f (mem w0) addr size) r w.
Proof.
  intros Hfds Hsize addr. unfold save_xds.
  remember (match base with None => (dt_ptr t, 0) | Some b => (b, dev) end) as gd eqn:Eb.
  destruct gd as [gpu dof].
  assert (gpu + dof = addr) as Ha by (unfold addr; destruct base; injection Eb as -> ->; lia).
  unfold mbind at 1, ST_bind at 1, st_lift at 1.
  destruct (pack_metadata _ _ _ _) as [metadata|e]; [|split_and!; done || lia].
  unfold mbind at 1, ST_bind at 1, st_catch.
  assert (forall e w, tmp_only w0 tmp w ->
    let '(r, w') := (match remove_and_raise (A := unit) tmp e w with
      | (Ok a, s2) => (Ok metadata, s2) | (Raise e, s2) => (Raise e, s2) end) in
    legacy_outcome w0 (fun f => holds f (mem w0) addr size) r w') as Hfail.
  { intros e w Hw. by destruct (remove_and_raise_cases w0 tmp (A := unit) e w Hw) as (w' & -> & Hw'). }
  unfold mbind at 1, ST_bind at 1.
  pose proof (os_open_write w0 tmp O_WRITE_TRUNC (or_introl eq_refl)) as Ho.
  destruct (os_open tmp O_WRITE_TRUNC w0) as [[fd|e] w1].
  2:{ apply Hfail. apply only_file_tmp, quiet_only. tauto. }
  destruct Ho as (-> & i & n & H1 & H2 & _ & H3 & H4). cbn [opened_bytes] in H1.
  unfold mbind at 1, ST_bind at 1. pose proof (os_close_quiet w1 (fresh w0)) as Hc.
  destruct (os_close (fresh w0) w1) as [rc w2]. destruct Hc as [(Q1&Q2&Q3&Q4) _]. simpl in *.
  assert (tmp_only w0 tmp w2) as Hw2.
  { split_and!; [intros q Hq; by rewrite Q1, H1, lookup_insert_ne|intros a; by rewrite Q2, H2| |lia].
    rewrite Q3, H4. apply delete_insert_id. by apply below_fresh. }
  destruct rc as [u|e]; [|by apply Hfail].
  assert (content w2 tmp = Some []) as Hc2 by (unfold content; by rewrite Q1, H1, lookup_insert_eq).
  unfold mbind at 1, ST_bind at 1.
  assert (kept w2 tmp 0 w2 /\ fds_at (fds w2) (fresh w2) w2) as Hk.
  { split; [|done]. split; [apply keeps_files_refl|]. rewrite Hc2. by split. }
  pose proof (dds_write_triple w2 tmp gpu size 0 dof Hsize ltac:(lia) (xe_dds (xc_engine cfg))
    (fds w2) (fresh w2)) as Hd.
  assert (fds_ok w2) as Hfds2.
  { destruct Hw2 as (_ & _ & Hd2 & Hn2). intros fd Hfd. rewrite Hd2 in Hfd. apply Hfds in Hfd. lia. }
  specialize (Hd Hfds2 w2 Hk). destruct (dds_write _ _ _ _ _ _ w2) as [[ret|e] w3]; [|done].
  destruct Hd as [[[[Hq Hm] _] Hret] [Hf Hn]].
  assert (tmp_only w0 tmp w3) as Hw3.
  { destruct Hw2 as (A1&A2&A3&A4). split_and!; [|intros a; by rewrite Hm|congruence|lia].
    intros q Hne. rewrite Hq by by intros ->%list_elem_of_singleton. by apply A1. }
  unfold mbind at 1, ST_bind at 1, st_lift at 1.
  destruct (ret <? 0); cbn [raise_if]; [by apply Hfail|].
  unfold mbind at 1, ST_bind at 1, st_lift at 1.
  destruct (Z.eqb_spec ret size) as [Hr|_]; cbn [negb raise_if]; [|by apply Hfail].
  destruct (Hret Hr) as (f & Hcf & _ & Hb).
  pose proof (rename_cases w0 tmp path (data_tmp_neq name) w3 f Hw3 Hcf) as Hrn.
  destruct (os_replace tmp path w3) as [[u'|e] w4]; [|destruct Hrn; by apply Hfail].
  exists f. split; [|done]. intros j Hj. rewrite <- (Z.add_0_l j) at 1. rewrite Hb by done.
  f_equal. destruct Hw2 as (_ & -> & _). f_equal. lia.
Qed.

(** The sidecar's files are not the data file. *)
Lemma save_metadata_keeps md w :
  fds_ok w ->
  let '(r, w') := save_metadata path METADATA_FILE_SUFFIX_TMP md w in
  content w' path = content w path /\ (forall a, mem w' a = mem w a) /\ fds w' = fds w
  /\ fresh w <= fresh w'.
Proof.
  intros Hfds. unfold save_metadata. set (mt := tmp +:+ METADATA_FILE_SUFFIX_TMP).
  assert (mt <> path) as Hmt.
  { unfold mt. intros H. change METADATA_FILE_SUFFIX_TMP with (".METADAT" +:+ "A") in H.
    change DATA_FILE_SUFFIX with (".kvdat" +:+ "a") in H. rewrite <- !append_assoc in H.
    by apply append_same_length in H. }
  assert (path +:+ METADATA_FILE_SUFFIX <> path) as Hmd by by apply append_neq.
  unfold mbind at 1, ST_bind at 1. pose proof (py_write_file_cases mt md w Hfds) as Hw.
  destruct (py_write_file mt md w) as [[n|e] w1]; destruct Hw as [(H1&H2&H3&H4) _].
  2:{ split_and!; [|intros a; by rewrite H2|done|done]. unfold content. by rewrite H1. }
  unfold os_replace, mbind at 1, ST_bind at 1. pose proof (may_fail_quiet w1) as Hm.
  destruct (may_fail w1) as [[u|e] w2].
  - destruct Hm as (Q1&Q2&Q3&Q4). unfold mbind, ST_bind, st_get.
    destruct (files w2 !! mt) as [f|]; cbn.
    + split_and!; [|intros a; by rewrite Q2, H2|congruence|lia]. unfold content. cbn.
      rewrite lookup_insert_ne, lookup_delete_ne by done. by rewrite Q1, H1.
    + split_and!; [|intros a; by rewrite Q2, H2|congruence|lia]. unfold content. by rewrite Q1, H1.
  - destruct Hm as (_ & (Q1&Q2&Q3&Q4) & _).
    split_and!; [|intros a; by rewrite Q2, H2|congruence|lia]. unfold content. by rewrite Q1, H1.
Qed.

End save.

(** *** Loads *)

(** [Posix.read] changes only its buffer; a count that equals the size means the buffer holds
    the file's first bytes. *)
Lemma posix_read_spec path p size w :
  fds_ok w -> 0 <= size ->
  let '(r, w') := posix_read fl path p size w in
  files w' = files w /\ fds w' = fds w /\ fresh w <= fresh w'
  /\ (forall a, ~ p <= a < p + size -> mem w' a = mem w a)
  /\ match r with
     | Ok ret => ret = size -> exists f, content w path = Some f /\ holds f (mem w') p size
     | Raise _ => True
     end.
Proof.
  intros Hfds Hsize. unfold posix_read, mbind at 1, ST_bind at 1, st_lift at 1.
  destruct (raise_if _ _) as [u|e]; [|split_and!; done || lia].
  unfold st_catch, mbind at 1, ST_bind at 1. pose proof (os_open_read w path) as Ho.
  destruct (os_open path O_RDONLY w) as [[fd|e] w1].
  2:{ destruct Ho as (_ & (Q1&Q2&Q3&Q4) & _).
      destruct (is_file_not_found e); cbn; split_and!; try done; try (intros a _; by rewrite Q2).
      intros <-. lia. }
  destruct Ho as (-> & h & Hh & H1 & H2 & H3 & H4).
  unfold st_finally, read_into, mbind at 1, ST_bind at 1.
  destruct (next_event_quiet w1) as (e & w2 & -> & (Q1&Q2&Q3&Q4)).
  unfold mbind at 1, ST_bind at 1, st_get at 1.
  assert (fd_file w2 (fresh w) = Some (OpenFile path (ino h) 0 (lenZ (bytes h)), h)) as ->.
  { unfold fd_file. rewrite Q3, H4, lookup_insert_eq. simpl. rewrite Q1, H1, Hh. simpl.
    by rewrite Z.eqb_refl. }
  set (avail := take (Z.to_nat size) (bytes h)).
  set (data := match e with
    | IoDone => avail
    | IoShort k => if (size mod os_disk_bs fl =? 0) && use_odirect fl then take k avail else avail
    | IoFault k => take k avail
    end).
  assert (exists k, data = take k (bytes h) /\ (length data <= Z.to_nat size)%nat) as (k & Hk & Hlk).
  { unfold data, avail. destruct e as [|n|n]; [|destruct (_ && _)|]; rewrite ?take_take; eexists;
      (split; [reflexivity|rewrite length_take; lia]). }
  unfold mbind, ST_bind, st_modify.
  set (w3 := with_mem w2 (mem_write (mem w2) p data)).
  assert (forall r : result Z, (forall n, r = Ok n -> n = lenZ data) ->
    let '(r', w') := (let '(r0, s0) := (r, w3) in match os_close (fresh w) s0 with
      | (Ok _, s2) => (r0, s2) | (Raise e, s2) => (Raise e, s2) end) in
    files w' = files w /\ fds w' = fds w /\ fresh w <= fresh w'
    /\ (forall a, ~ p <= a < p + size -> mem w' a = mem w a)
    /\ match r' with
       | Ok ret => ret = size -> exists f, content w path = Some f /\ holds f (mem w') p size
       | Raise _ => True end) as Hend.
  { intros r Hr. pose proof (os_close_quiet w3 (fresh w)) as Hc.
    destruct (os_close (fresh w) w3) as [rc w4]. destruct Hc as [(C1&C2&C3&C4) _].
    cbn [files mem fds fresh with_mem with_fds w3] in C1, C2, C3, C4.
    assert (files w4 = files w) as F1 by congruence.
    assert (fds w4 = fds w) as F2.
    { rewrite C3, Q3, H4. apply delete_insert_id. by apply below_fresh. }
    assert (forall a, ~ p <= a < p + size -> mem w4 a = mem w a) as F3.
    { intros a Ha. rewrite C2, mem_write_outside, Q2, H2; [done|]. unfold lenZ. lia. }
    destruct rc as [u'|e']; split_and!; try done; try lia.
    destruct r as [n|e']; [|done]. intros Hn. exists (bytes h). split; [unfold content; by rewrite Hh|].
    intros i Hi. rewrite C2. specialize (Hr n eq_refl).
    assert (Z.to_nat i < length data)%nat as Hil by (unfold lenZ in *; lia).
    destruct (lookup_lt_is_Some_2 _ _ Hil) as [v Hv].
    replace i with (Z.of_nat (Z.to_nat i)) at 2 by lia. rewrite (mem_write_inside _ _ _ _ _ Hv).
    rewrite Hk in Hv. rewrite lookup_take_Some in Hv. by destruct Hv as [-> _]. }
  pose proof (Hend (match e with IoFault _ => Raise (OSError "") | _ => Ok (lenZ data) end)) as Hf.
  specialize (Hf ltac:(intros n; destruct e; congruence)).
  destruct e as [|n|n]; cbn [mret ST_ret st_raise];
    destruct (os_close (fresh w) w3) as [[u'|e'] w4]; try done;
    destruct (is_file_not_found _); cbn in *; split_and!; try apply Hf; try done; intros <-; lia.
Qed.

End legacy.

(** ** The interface *)

Section chunk_io.
Context {Dt : Type} `{!TorchDtype Dt} {JC : JsonCodec} {HL : HyFileLib}.
Context (cuda_malloc : (Z -> Z) -> Z -> Z) (fl : file_layer Dt).
(** [memory_allocator.allocate] *)
Context (allocate : list Z -> Dt -> ST xds_io (option (memory_obj Dt))).

Definition staged_chunk_io : ChunkIO Dt := {|
  store_chunk cfg path mo bf := on_world (store_chunk_staged cuda_malloc cfg fl path mo bf);
  load_chunk cfg path m mo := on_world (load_chunk_staged cuda_malloc cfg fl path m mo);
  allocate_obj := allocate;
|}.

End chunk_io.

Section roundtrip.
Context {Dt : Type} `{!TorchDtype Dt, !TorchDtypeLaws Dt} {JC : JsonCodec} {JL : JsonCodecLaws}.
Context {HL : HyFileLib} {HLL : HyFileLibLaws}.
Context (cuda_malloc : (Z -> Z) -> Z -> Z) (cfg : xds_config Dt) (fl : file_layer Dt).
Implicit Types (mo : memory_obj Dt) (entry : XDSCacheMetadata Dt).

#[local] Abbreviation place mo := (fl_place fl (mo_id mo)).

(** A contiguous object of its tensor's size; in a GPU buffer, at its offset in it *)
Record placed mo : Prop := {
  pd_sized : mo_sized mo;
  pd_nonneg : 0 <= mo_size mo;
  pd_contiguous : pl_strides (place mo) = Strided.contiguous_strides (mo_tensor_shape mo);
  pd_physical : mo_size mo <= mo_physical_size mo;
  pd_bytes : mo_size mo <= pl_nbytes (place mo);
  pd_base : forall b, fl_base_pointer fl = Some b -> pl_ptr (place mo) = b + pl_address (place mo);
  pd_staging : forall sg, fl_staging fl = Some sg -> staging_fits sg (obj_tensor fl mo);
}.

Lemma obj_tensor_contiguous mo : placed mo ->
  obj_tensor fl mo = contiguous_at (pl_ptr (place mo)) (mo_tensor_shape mo) (mo_dtype mo)
    (pl_device (place mo)).
Proof. intros Hp. unfold obj_tensor, contiguous_at. by rewrite (pd_contiguous _ Hp). Qed.

(** The bytes a legacy store puts into its file *)
Definition legacy_size mo : Z :=
  match xds_buffer_size cfg with Some _ => mo_physical_size mo | None => mo_size mo end.

(** What the file of a stored chunk holds *)
Definition file_of mo (dm : option BlockFirstDiskMetadata) (m0 : Z -> Z) (f : list Z) : Prop :=
  match dm with
  | Some m => exists g header, describes m g (mo_dtype mo) /\ mo_tensor_shape mo = g_logical g
      /\ pack_block_first_header m = Ok header
      /\ f = block_first_file header m g m0 (pl_ptr (place mo))
  | None => holds f m0 (pl_ptr (place mo)) (legacy_size mo)
  end.

Lemma mem_slice_holds f m p n k :
  0 <= k <= n -> take (length (mem_slice m p (Z.to_nat n))) f = mem_slice m p (Z.to_nat n) ->
  holds f m p k.
Proof.
  intros Hk Hf i Hi.
  assert (mem_slice m p (Z.to_nat n) !! Z.to_nat i = Some (m (p + i))) as H.
  { rewrite mem_slice_lookup by lia. do 2 f_equal. lia. }
  rewrite <- Hf in H. by apply lookup_take_Some in H as [? _].
Qed.

(** Storing a chunk leaves its bytes in the file of its path. *)
Lemma store_chunk_file name mo bf w0 dm w :
  let path := name +:+ DATA_FILE_SUFFIX in
  fds_ok w0 -> placed mo -> (forall sz, xds_buffer_size cfg = Some sz -> is_Some (fl_base_pointer fl)) ->
  store_chunk_staged cuda_malloc cfg fl path mo bf w0 = (Ok dm, w) ->
  (is_Some dm <-> bf = true) /\ exists f, content w path = Some f /\ file_of mo dm (mem w0) f.
Proof.
  intros path Hfds Hp Hbase. unfold store_chunk_staged. destruct (cpu_store_enabled cfg).
  { destruct bf; [|done]. cbn [negb]. unfold mbind, ST_bind.
    pose proof (save_cpu_block_first_spec cfg fl path mo w0 Hfds) as H.
    destruct (save_cpu_block_first_xds cfg fl path mo w0) as [[m|e] w']; [|done].
    intros [= <- <-]. destruct H as (g & header & Hm & Hs & _ & Hpk & (_ & _ & Hc & _)).
    split; [split; [done|by eexists]|]. eexists. split; [exact Hc|]. by exists g, header. }
  destruct bf.
  { unfold mbind, ST_bind.
    pose proof (save_block_first_spec cuda_malloc cfg fl path (obj_tensor fl mo) w0 Hfds
      (pd_staging mo Hp)) as H.
    destruct (save_block_first_xds _ _ _ _ _ w0) as [[m|e] w']; [|done].
    intros [= <- <-]. destruct H as (g & header & sg & Hm & Hs & _ & Hpk & _ & _ & _ & Hc).
    split; [split; [done|by eexists]|]. eexists. split; [exact Hc|]. by exists g, header. }
  unfold legacy_size.
  assert (forall (ok : list Z -> Prop) (r : result (list Z)) w1, legacy_outcome name w0 ok r w1 ->
    (forall f, ok f -> file_of mo None (mem w0) f) ->
    (match r with Ok md => (save_metadata path METADATA_FILE_SUFFIX_TMP md;; mret None) w1
     | Raise e => (Raise e, w1) end) = (Ok dm, w) ->
    (is_Some dm <-> false = true) /\ exists f, content w path = Some f /\ file_of mo dm (mem w0) f) as Hend.
  { intros ok r w1 Hout Hok Hr. destruct r as [md|e]; [|done]. unfold mbind, ST_bind in Hr.
    destruct Hout as (f & Hf & (Hk & Hn & Hc & Hd & Hfr)).
    assert (fds_ok w1) as Hfds1.
    { intros fd Hfd. rewrite Hd in Hfd. apply Hfds in Hfd. lia. }
    pose proof (save_metadata_keeps name md w1 Hfds1) as Hs.
    destruct (save_metadata _ _ _ w1) as [[u|e] w2]; [|done]. injection Hr as <- <-.
    destruct Hs as (Hs & _). split; [split; [by intros []|done]|]. exists f.
    split; [unfold path; by rewrite Hs|]. by apply Hok. }
  intros Hr. unfold mbind at 1, ST_bind at 1 in Hr. destruct (xds_buffer_size cfg) as [sz|] eqn:Esz.
  - destruct (Hbase sz eq_refl) as [b Hb].
    pose proof (save_xds_spec cfg name (obj_tensor fl mo) (mo_physical_size mo) (fl_base_pointer fl)
      (pl_address (place mo)) w0 Hfds) as H. pose proof (pd_nonneg _ Hp). pose proof (pd_physical _ Hp).
    specialize (H ltac:(lia)). rewrite Hb in *. rewrite <- (pd_base _ Hp b Hb) in H.
    fold path in H. destruct (save_xds _ _ _ _ _ _ w0) as [r w1].
    eapply Hend; [exact H| |by destruct r]. intros f Hf. unfold file_of, legacy_size. by rewrite Esz.
  - unfold byte_array, st_gets, mbind at 1, ST_bind at 1 in Hr.
    pose proof (posix_write_spec cfg fl name (obj_tensor fl mo) (mo_physical_size mo)
      (mem_slice (mem w0) (pl_ptr (place mo)) (Z.to_nat (pl_nbytes (place mo)))) w0 Hfds) as H.
    fold path in H. destruct (posix_write _ _ _ _ _ _ w0) as [r w1].
    eapply Hend; [exact H| |by destruct r]. intros f [_ Hf]. unfold file_of, legacy_size. rewrite Esz.
    eapply mem_slice_holds; [|exact Hf]. split; [apply Hp|apply (pd_bytes _ Hp)].
Qed.

(** The index entry of a stored chunk, as far as loading reads it *)
Definition entry_of mo (dm : option BlockFirstDiskMetadata) entry : Prop :=
  disk_metadata entry = dm /\ (dm = None -> xm_size entry = mo_physical_size mo)
  /\ exists sh, xm_shape entry = Some sh /\ xm_dtype entry = Some (mo_dtype mo)
       /\ prodZ sh * itemsize (mo_dtype mo) = mo_size mo.

(** A byte of the payload part of a block-first file *)
Lemma file_payload_lookup header m g m0 p j :
  geometry_ok g -> lenZ header = BLOCK_FIRST_HEADER_SIZE -> 0 <= j < g_nbytes g ->
  block_first_file header m g m0 p !! Z.to_nat (BLOCK_FIRST_HEADER_SIZE + j)
  = Some (m0 (p + logical_source g j)).
Proof.
  intros Hg Hh Hj. unfold block_first_file.
  replace (Z.to_nat (BLOCK_FIRST_HEADER_SIZE + j)) with (length header + Z.to_nat j)%nat
    by (unfold lenZ, BLOCK_FIRST_HEADER_SIZE in *; lia).
  rewrite lookup_app_r by lia. replace (length header + Z.to_nat j - length header)%nat with (Z.to_nat j) by lia.
  rewrite lookup_app_l; [by apply payload_lookup|].
  pose proof (length_payload g Hg m0 p). unfold lenZ in *. lia.
Qed.

(** Two objects of one shape and dtype *)
Definition same_kind mo mo' : Prop :=
  mo_tensor_shape mo' = mo_tensor_shape mo /\ mo_dtype mo' = mo_dtype mo.

Lemma same_kind_size mo mo' : same_kind mo mo' -> placed mo -> placed mo' -> mo_size mo' = mo_size mo.
Proof.
  intros [Hs Hd] Hp Hp'. pose proof (pd_sized _ Hp) as H1. pose proof (pd_sized _ Hp') as H2.
  unfold mo_sized in *. congruence.
Qed.

(** The object holds, from its address on, the bytes of memory [m0] at [p]. *)
Definition same_bytes mo' (m : Z -> Z) (m0 : Z -> Z) (p : Z) : Prop :=
  forall i, 0 <= i < mo_size mo' -> m (pl_ptr (place mo') + i) = m0 (p + i).

Lemma holds_same f m m0 p p' n :
  holds f m p' n -> holds f m0 p n -> forall i, 0 <= i < n -> m (p' + i) = m0 (p + i).
Proof. intros H1 H2 i Hi. specialize (H1 i Hi). specialize (H2 i Hi). congruence. Qed.

Lemma holds_length f m p n : 0 < n -> holds f m p n -> n <= lenZ f.
Proof.
  intros Hn H. specialize (H (n - 1) ltac:(lia)). apply lookup_lt_Some in H. unfold lenZ. lia.
Qed.

(** Loading a stored chunk: if the expected count comes back, so have the bytes. *)
Lemma load_chunk_bytes path mo mo' dm entry m0 f w ret w' :
  fds_ok w -> placed mo -> placed mo' -> same_kind mo mo' -> 0 < mo_size mo ->
  (forall sz, xds_buffer_size cfg = Some sz -> is_Some (fl_base_pointer fl)) ->
  entry_of mo dm entry -> content w path = Some f -> file_of mo dm m0 f ->
  load_chunk_staged cuda_malloc cfg fl path entry mo' w = (Ok ret, w') ->
  expected_load_size cfg entry = Ok ret ->
  same_bytes mo' (mem w') m0 (pl_ptr (place mo)).
Proof.
  intros Hfds Hp Hp' Hkind Hpos Hbase (Hdm & Hsz & sh & Hsh & Hdt & Hprod) Hf Hfile Hrun Hexp.
  pose proof (same_kind_size mo mo' Hkind Hp Hp') as Hsize. destruct Hkind as [Hks Hkd].
  unfold load_chunk_staged in Hrun. unfold expected_load_size in Hexp. rewrite Hdm in Hrun, Hexp.
  destruct dm as [m|].
  - injection Hexp as <-. destruct Hfile as (g & header & Hm & Hs & Hpk & ->).
    rewrite (obj_tensor_contiguous mo' Hp'), Hks, Hkd, Hs in Hrun.
    pose proof (load_block_first_spec cuda_malloc cfg fl path m g (pl_ptr (place mo'))
      (pl_device (place mo')) w (mo_dtype mo) Hfds Hm) as H. rewrite Hrun in H.
    destruct H as [_ H].
    { intros sg Hsg Hshape. pose proof (pd_staging mo' Hp' sg Hsg m g) as Hfit. cbn in Hfit.
      rewrite Hkd, Hks in Hfit. by apply Hfit. }
    destruct (H eq_refl) as (f' & Hf' & _ & _ & Hld). rewrite Hf in Hf'. injection Hf' as <-.
    pose proof Hm as (Hg & Hisz & _). intros i Hi.
    assert (mo_size mo' = g_nbytes g) as Hn.
    { rewrite Hsize, (pd_sized _ Hp), Hs. rewrite <- Hisz.
      unfold prodZ, g_logical, g_nbytes, g_runs, g_run. simpl. ring. }
    destruct (logical_source_onto g Hg i ltac:(lia)) as (j & Hj & <-).
    specialize (Hld j Hj). rewrite file_payload_lookup in Hld; [congruence|done| |done].
    by apply (pack_header_length m).
  - unfold file_of, legacy_size in Hfile. destruct (xds_buffer_size cfg) as [sz|].
    + injection Hexp as <-. rewrite (Hsz eq_refl) in Hrun. destruct (Hbase sz eq_refl) as [b Hb].
      rewrite Hb in Hrun. change (default 0 (Some b)) with b in Hrun.
      pose proof (pd_physical _ Hp) as Hph. unfold load_xds in Hrun.
      pose proof (dds_read_triple w path b (mo_physical_size mo) 0 (pl_address (place mo')) ltac:(lia)
        ltac:(lia) (xe_dds (xc_engine cfg)) (fds w) (fresh w) Hfds w) as Hr.
      rewrite Hrun in Hr. destruct Hr as [[_ Hr] _]; [by split; [split|split]|].
      specialize (Hr eq_refl f Hf). rewrite Z.add_0_l in Hr.
      specialize (Hr (holds_length f m0 (pl_ptr (place mo)) (mo_physical_size mo) ltac:(lia) Hfile)).
      intros i Hi. specialize (Hr i ltac:(lia)). rewrite (pd_base _ Hp' b Hb).
      rewrite Z.add_0_l, (Hfile i) in Hr by lia. congruence.
    + rewrite Hsh, Hdt in Hrun, Hexp. injection Hexp as <-. rewrite Hprod in Hrun.
      pose proof (pd_bytes _ Hp') as Hb'. pose proof (pd_nonneg _ Hp).
      assert (Z.of_nat (slice_bound (Z.to_nat (pl_nbytes (place mo'))) (mo_size mo)) = mo_size mo) as Hn.
      { unfold slice_bound. rewrite (proj2 (Z.ltb_ge _ _)) by lia. lia. }
      rewrite Hn in Hrun.
      pose proof (posix_read_spec fl path (pl_ptr (place mo')) (mo_size mo) w Hfds ltac:(lia)) as Hr.
      rewrite Hrun in Hr. destruct Hr as (_ & _ & _ & _ & Hr).
      destruct (Hr eq_refl) as (f' & Hf' & Hh). rewrite Hf in Hf'. injection Hf' as <-.
      intros i Hi. eapply holds_same; [done|exact Hfile|lia].
Qed.

(** C7: a chunk stored through the file layer and loaded again, in whatever mode (POSIX,
    registered GPU buffer, block-first through GPU staging or from CPU memory), comes back
    byte for byte: if the store returned, the file is still there, and the load returned the
    size the index expects, the loaded object holds the bytes the stored object had. *)
Theorem store_load_roundtrip name mo mo' bf w0 dm w1 entry w2 ret w3 :
  let path := name +:+ DATA_FILE_SUFFIX in
  fds_ok w0 -> fds_ok w2 -> placed mo -> placed mo' -> same_kind mo mo' -> 0 < mo_size mo ->
  (forall sz, xds_buffer_size cfg = Some sz -> is_Some (fl_base_pointer fl)) ->
  store_chunk_staged cuda_malloc cfg fl path mo bf w0 = (Ok dm, w1) ->
  content w2 path = content w1 path -> entry_of mo dm entry ->
  load_chunk_staged cuda_malloc cfg fl path entry mo' w2 = (Ok ret, w3) ->
  expected_load_size cfg entry = Ok ret ->
  (is_Some dm <-> bf = true)
  /\ forall i, 0 <= i < mo_size mo ->
       mem w3 (pl_ptr (place mo') + i) = mem w0 (pl_ptr (place mo) + i).
Proof.
  intros path Hfds Hfds2 Hp Hp' Hk Hpos Hbase Hst Hc He Hld Hex.
  destruct (store_chunk_file name mo bf w0 dm w1 Hfds Hp Hbase Hst) as [Hdm (f & Hf & Hfile)].
  split; [done|]. pose proof (same_kind_size mo mo' Hk Hp Hp') as Hs. rewrite <- Hs. fold path in Hf.
  eapply load_chunk_bytes; [exact Hfds2|exact Hp|..]; try done. by rewrite Hc.
Qed.

End roundtrip.

(** ** The law *)

Section laws.
Context {Dt : Type} `{!TorchDtype Dt, !TorchDtypeLaws Dt} {JC : JsonCodec} {HL : HyFileLib}.
Context (cuda_malloc : (Z -> Z) -> Z -> Z) (fl : file_layer Dt).
Context (allocate : list Z -> Dt -> ST xds_io (option (memory_obj Dt))).

Lemma st_lift_bind_Ok {S A B} (r : result A) (f : A -> ST S B) s b s' :
  (st_lift r ≫= f) s = (Ok b, s') <-> exists a, r = Ok a /\ f a s = (Ok b, s').
Proof.
  unfold mbind, ST_bind, st_lift. destruct r as [a|e]; split; intros H; try done; [by exists a| |].
  - destruct H as (a' & [= <-] & H). done.
  - by destruct H as (a & [=] & _).
Qed.

Lemma save_cpu_metadata cfg path mo w m w' :
  save_cpu_block_first_xds cfg fl path mo w = (Ok m, w') ->
  make_block_first_metadata (xc_engine cfg) (mo_tensor_shape mo) (mo_dtype mo) = Ok m.
Proof.
  unfold save_cpu_block_first_xds. intros (u & _ & H)%st_lift_bind_Ok.
  apply st_lift_bind_Ok in H as (u' & _ & H). apply st_lift_bind_Ok in H as (m' & Hm & H).
  apply st_lift_bind_Ok in H as (h & _ & H). apply st_bind_Ok in H as (u2 & w2 & _ & H).
  injection H as <- _. exact Hm.
Qed.

Lemma save_staged_metadata cfg path t w m w' :
  save_block_first_xds cuda_malloc cfg fl path t w = (Ok m, w') ->
  make_block_first_metadata (xc_engine cfg) (dt_shape t) (dt_dtype t) = Ok m.
Proof.
  unfold save_block_first_xds. intros (m' & Hm & H)%st_lift_bind_Ok.
  apply st_lift_bind_Ok in H as (h & _ & H). apply st_lift_bind_Ok in H as (sg & _ & H).
  apply st_bind_Ok in H as (u2 & w2 & _ & H). injection H as <- _. exact Hm.
Qed.

Lemma metadata_io (e : xds_engine Dt) mo m :
  mo_sized mo -> make_block_first_metadata e (mo_tensor_shape mo) (mo_dtype mo) = Ok m ->
  align_up (mo_size mo) BLOCK_FIRST_ALIGNMENT = Ok (io_nbytes m).
Proof.
  intros Hs Hm. destruct (make_metadata_describes e _ _ _ Hm) as (g & Hd & Hsh & _).
  rewrite Hs, Hsh. destruct Hd as (_ & Hisz & _ & _ & _ & _ & _ & _ & Hio). rewrite <- Hio. f_equal.
  rewrite <- Hisz. unfold prodZ, g_logical, g_nbytes, g_runs, g_run. simpl. ring.
Qed.

(** The file layer keeps the promise the index relies on. *)
#[export] Instance staged_chunk_io_laws :
  @ChunkIOLaws Dt _ (staged_chunk_io cuda_malloc fl allocate).
Proof.
  constructor. intros cfg path mo bf i r i' Hs. cbn. unfold on_world.
  destruct (store_chunk_staged cuda_malloc cfg fl path mo bf (io_world i)) as [r' w] eqn:E.
  intros [= -> _]. unfold store_chunk_staged in E.
  destruct (cpu_store_enabled cfg), bf; cbn [negb] in E; try done.
  - apply st_bind_Ok in E as (m & w' & Hm & E). injection E as <- _.
    split; [done|]. eapply metadata_io; [done|]. by eapply save_cpu_metadata.
  - apply st_bind_Ok in E as (m & w' & Hm & E). injection E as <- _.
    split; [done|]. eapply metadata_io; [done|]. by apply save_staged_metadata in Hm.
  - apply st_bind_Ok in E as (md & w' & _ & E). apply st_bind_Ok in E as (u & w2 & _ & E).
    by injection E as <- _.
Qed.

End laws.
