(* ===== verification/XdsStagedFacts.v ===== *)
(** * Properties of the staged transfers

    The stores from CPU memory and through the GPU staging buffer: each publishes the whole
    block-first file or leaves its target alone, both publish the same bytes, and a direct
    retrieve finds them; the transfers evaluated on a small chunk. *)

From S2P Require Import Prelude Tensor Codec BlockFirst DirectIO World WorldIO HipFile XdsFiles XdsLoad XdsPaths XdsMeta Dict XdsIndex DeviceTensor XdsStaged XdsCpuStore XdsGpuStage XdsChunkIO.

Open Scope string_scope.
Open Scope list_scope.
Open Scope Z_scope.

Section staged_facts.
Context {Dt : Type} `{!TorchDtype Dt, !TorchDtypeLaws Dt} {JC : JsonCodec} {JL : JsonCodecLaws}.
Context {HL : HyFileLib} {HLL : HyFileLibLaws}.
Context (cuda_malloc : (Z -> Z) -> Z -> Z) (cfg : xds_config Dt) (fl : file_layer Dt).
Implicit Types (mo : memory_obj Dt).

(** Memory the staging buffer may share with nobody: what a store through it may change *)
Definition staging_changed (w0 w : world) : Prop :=
  forall a, (forall sg, fl_staging fl = Some sg -> ~ in_staging sg a) -> mem w a = mem w0 a.

Lemma staged_world_changed sg ps w0 w :
  fl_staging fl = Some sg -> staged_world sg ps w0 w ->
  staging_changed w0 w /\ fds w = fds w0 /\ forall q, q ∉ ps -> files w !! q = files w0 !! q.
Proof.
  intros Hsg (Hq & Hm & Hd & _). split; [|done]. intros a Ha. apply Hm. by apply Ha.
Qed.

Lemma rolled_back_files w0 tmp e w :
  rolled_back w0 tmp e w -> (forall q, q <> tmp -> files w !! q = files w0 !! q)
    /\ (forall a, mem w a = mem w0 a) /\ (files w !! tmp = None \/ is_os_error e = true).
Proof.
  intros [[Hq Hm] Ht]. split; [|done]. intros q Hne. apply Hq. by intros ->%list_elem_of_singleton.
Qed.

(** C18: a block-first store (from CPU memory, or through the GPU staging buffer) publishes
    under the chunk's name exactly the header, the payload block by block, layer by layer, K
    then V, and zeros up to the I/O size, or leaves the file of that name as it was. In both
    cases no descriptor stays open, no file but the target and its temporary file changes,
    and memory changes in the staging buffer at most. The temporary file is gone unless an
    [OSError] came up; a store from CPU memory over a file system without faults raises
    nothing once its arguments are accepted. *)
Theorem block_first_store_outcome path mo w0 :
  fds_ok w0 -> (forall sg, fl_staging fl = Some sg -> staging_fits sg (obj_tensor fl mo)) ->
  let '(r, w) := store_chunk_staged cuda_malloc cfg fl path mo true w0 in
  fds w = fds w0 /\ staging_changed w0 w
  /\ (forall q, q <> path -> q <> tmp_of path -> files w !! q = files w0 !! q)
  /\ match r with
     | Ok dm => files w !! tmp_of path = None
         /\ exists m g header, dm = Some m /\ describes m g (mo_dtype mo)
              /\ mo_tensor_shape mo = g_logical g /\ pack_block_first_header m = Ok header
              /\ content w path
                 = Some (block_first_file header m g (mem w0) (pl_ptr (fl_place fl (mo_id mo))))
     | Raise e => files w !! path = files w0 !! path
         /\ (w = w0 \/ files w !! tmp_of path = None \/ is_os_error e = true)
         /\ (cpu_store_enabled cfg = true -> oracle w0 = [] -> w = w0)
     end.
Proof.
  intros Hfds Hfit. unfold store_chunk_staged. destruct (cpu_store_enabled cfg); cbn [negb];
    unfold mbind, ST_bind.
  - pose proof (save_cpu_block_first_spec cfg fl path mo w0 Hfds) as H.
    destruct (save_cpu_block_first_xds cfg fl path mo w0) as [[m|e] w].
    + destruct H as (g & header & Hm & Hs & _ & Hp & ([Hq Hmem] & Hn & Hc & Hd & _)).
      split; [done|]. split; [by intros a _|]. split; [|split; [done|]].
      * intros q H1 H2. apply Hq. set_solver.
      * by exists m, g, header.
    + destruct H as [->|(Hrb & Hd & _ & Ho)]; [by split_and!; auto; intros a _|].
      destruct (rolled_back_files _ _ _ _ Hrb) as (Hq & Hm & Ht). pose proof (tmp_of_neq path).
      split; [done|]. split; [by intros a _|]. split; [by intros; apply Hq|].
      split; [by apply Hq|]. split; [by right|done].
  - pose proof (save_block_first_spec cuda_malloc cfg fl path (obj_tensor fl mo) w0 Hfds Hfit) as H.
    destruct (save_block_first_xds _ _ _ _ _ w0) as [[m|e] w].
    + destruct H as (g & header & sg & Hm & Hs & _ & Hp & Hsg & Hw & Hn & Hc).
      destruct (staged_world_changed sg _ w0 w Hsg Hw) as (H1 & H2 & H3).
      split; [done|]. split; [done|]. split; [|split; [done|by exists m, g, header]].
      intros q ??. apply H3. set_solver.
    + destruct H as [->|(sg & Hsg & Hw & Ht)]; [by split_and!; auto; intros a _|].
      destruct (staged_world_changed sg _ w0 w Hsg Hw) as (H1 & H2 & H3). pose proof (tmp_of_neq path).
      split; [done|]. split; [done|]. split; [|split; [|split; [by right|done]]].
      * intros q _ Hq. apply H3. by intros ->%list_elem_of_singleton.
      * apply H3. intros Hx%list_elem_of_singleton. by destruct (tmp_of_neq path).
Qed.

End staged_facts.

Section composition.
Context {Dt : Type} `{!TorchDtype Dt, !TorchDtypeLaws Dt} {JC : JsonCodec} {JL : JsonCodecLaws}.
Context {HL : HyFileLib} {HLL : HyFileLibLaws}.
Context (cuda_malloc : (Z -> Z) -> Z -> Z).
Implicit Types (mo : memory_obj Dt) (cfg : xds_config Dt) (fl : file_layer Dt).

Lemma describes_unique m g g' dt : describes m g dt -> describes m g' dt -> g = g'.
Proof.
  intros (_ & Hi & _ & Hp & _) (_ & Hi' & _ & Hp' & _). rewrite Hp in Hp'.
  destruct g, g'. unfold g_physical in Hp'. simpl in *. congruence.
Qed.

(** Two contiguous chunks of one content have one block-first file. *)
Lemma block_first_file_same header m g (m1 m2 : Z -> Z) p1 p2 :
  geometry_ok g -> (forall i, 0 <= i < g_nbytes g -> m1 (p1 + i) = m2 (p2 + i)) ->
  block_first_file header m g m1 p1 = block_first_file header m g m2 p2.
Proof.
  intros Hg Hm. unfold block_first_file. do 2 f_equal. unfold block_first_payload.
  apply list_fmap_ext. intros i x Hx%list_elem_of_lookup_2%elem_of_rangeZ. apply Hm, logical_source_bounds; [done|]. lia.
Qed.

(** C19: the three ways to store a block-first chunk agree. When the store from CPU memory and
    the store through the GPU staging buffer both return, for objects of one shape, dtype
    and content and engines of one block size, they return the same metadata and publish the
    same file, byte for byte, for every order in which the GPU runs its kernels. *)
Theorem cpu_staged_same_file cfg cfg' fl fl' path path' mo mo' w0 w0' m m' w w' :
  fds_ok w0 -> fds_ok w0' ->
  (forall sg, fl_staging fl' = Some sg -> staging_fits sg (obj_tensor fl' mo')) ->
  xe_block_size (xc_engine cfg) = xe_block_size (xc_engine cfg') ->
  xe_layout (xc_engine cfg) = xe_layout (xc_engine cfg') ->
  same_kind mo mo' -> mo_sized mo ->
  (forall i, 0 <= i < mo_size mo -> mem w0 (pl_ptr (fl_place fl (mo_id mo)) + i)
     = mem w0' (pl_ptr (fl_place fl' (mo_id mo')) + i)) ->
  save_cpu_block_first_xds cfg fl path mo w0 = (Ok m, w) ->
  save_block_first_xds cuda_malloc cfg' fl' path' (obj_tensor fl' mo') w0' = (Ok m', w') ->
  m' = m /\ content w' path' = content w path.
Proof.
  intros Hfds Hfds' Hfit Hbs Hly [Hks Hkd] Hsz Hmem Hs Hs'.
  pose proof (save_cpu_block_first_spec cfg fl path mo w0 Hfds) as H. rewrite Hs in H.
  destruct H as (g & header & Hm & Hsh & Hmk1 & Hp & (_ & _ & Hc & _)).
  pose proof (save_block_first_spec cuda_malloc cfg' fl' path' (obj_tensor fl' mo') w0' Hfds' Hfit) as H.
  rewrite Hs' in H. destruct H as (g' & header' & sg & Hm' & _ & Hmk2 & Hp' & _ & _ & _ & Hc').
  unfold obj_tensor in Hm', Hmk2, Hc'. cbn [dt_dtype dt_shape dt_ptr] in Hm', Hmk2, Hc'.
  unfold make_block_first_metadata in Hmk1, Hmk2. rewrite Hks, Hkd, <- Hbs, <- Hly in Hmk2.
  assert (m' = m) as -> by congruence. rewrite Hkd in Hm'.
  rewrite (describes_unique _ _ _ _ Hm' Hm) in Hc'. assert (header' = header) as -> by congruence.
  split; [done|]. rewrite Hc, Hc'. f_equal. pose proof Hm as (Hg & Hisz & _).
  apply block_first_file_same; [done|]. intros i Hi. symmetry. apply Hmem.
  rewrite Hsz, Hsh, <- Hisz. unfold prodZ, g_logical. simpl. unfold g_nbytes, g_runs, g_run in Hi. lia.
Qed.

(** The bytes of a block-first file, by block, layer, K or V, and offset in the run *)
Lemma block_first_file_run header m g mm p b l kv o :
  geometry_ok g -> lenZ header = BLOCK_FIRST_HEADER_SIZE ->
  0 <= b < g_cb g -> 0 <= l < g_nl g -> 0 <= kv < 2 -> 0 <= o < g_run g ->
  block_first_file header m g mm p
    !! Z.to_nat (BLOCK_FIRST_HEADER_SIZE + (((b * g_nl g + l) * 2 + kv) * g_run g + o))
  = Some (mm (p + (((kv * g_nl g + l) * g_cb g + b) * g_run g + o))).
Proof.
  intros Hg Hh Hb Hl Hkv Ho. rewrite file_payload_lookup; [|done|done|].
  - by rewrite logical_source_at, run_logical_at.
  - pose proof (mul_add_bounds b l (g_nl g) (g_cb g) Hb Hl) as H1.
    pose proof (mul_add_bounds _ kv 2 _ H1 Hkv) as H2.
    pose proof (mul_add_bounds _ o (g_run g) _ H2 Ho). unfold g_nbytes, g_runs. lia.
Qed.

(** C8: a chunk stored from CPU memory can be retrieved directly into GPU memory. If the store
    and the direct retrieve of its file both return, the retrieve was given the stored
    metadata, and every device address its descriptor gives to a byte of block [b], layer [l],
    K or V [kv], holds the byte the CPU tensor [[2, layers, blocks * block_size, hidden]] had
    at K or V [kv], layer [l], block [b]: the two ends agree on the transposed layout, whatever
    happened in between to other files and to memory. *)
Theorem cpu_store_direct_retrieve cfg fl env name mo w0 m w1 s2 m' dr s3 :
  let path := name +:+ DATA_FILE_SUFFIX in
  let e := xc_engine cfg in
  fds_ok w0 -> save_cpu_block_first_xds cfg fl path mo w0 = (Ok m, w1) ->
  content (io_world s2) path = content w1 path ->
  fds_ok (io_world s2) -> others_elsewhere path env -> shapes_of_chunk e ->
  addresses_distinct (row_nbytes e) dr -> staging_apart e dr (edge_tensor s2) ->
  load_direct_xds e env path m' dr s2 = (Ok tt, s3) ->
  m' = m /\ exists g, describes m g (mo_dtype mo) /\ mo_tensor_shape mo = g_logical g
    /\ xe_block_size e = Some (g_bs g)
    /\ forall b l kv o a, 0 <= b < g_cb g -> 0 <= l < g_nl g -> 0 <= kv < 2 -> 0 <= o < g_run g ->
         device_address (row_nbytes e) dr
           (BLOCK_FIRST_HEADER_SIZE + (((b * g_nl g + l) * 2 + kv) * g_run g + o)) = Some a ->
         mem (io_world s3) a
         = mem w0 (pl_ptr (fl_place fl (mo_id mo)) + (((kv * g_nl g + l) * g_cb g + b) * g_run g + o)).
Proof.
  intros path e Hfds Hs Hc Hfds2 Henv Hch Hd Hap Hload.
  pose proof (save_cpu_block_first_spec cfg fl path mo w0 Hfds) as H. rewrite Hs in H.
  destruct H as (g & header & Hm & Hsh & Hmk & Hp & (_ & _ & Hcon & _)).
  pose proof (load_direct_xds_spec e env path m' dr s2 Hfds2 Henv Hch Hd Hap) as H.
  rewrite Hload in H. destruct H as ((f & Hf & Hu & _ & Hbytes) & _ & _).
  rewrite Hc, Hcon in Hf. injection Hf as <-. pose proof (pack_header_length _ _ Hp) as Hlen.
  split.
  - unfold block_first_file in Hu. rewrite take_app_length' in Hu by (unfold lenZ in Hlen; lia).
    pose proof (unpack_packed_header _ _ [] Hp) as Hu'. rewrite app_nil_r in Hu'. congruence.
  - exists g. split; [done|]. split; [done|]. split.
    { destruct (make_metadata_describes _ _ _ _ Hmk) as (g' & Hm' & _ & Hbs).
      by rewrite (describes_unique _ _ _ _ Hm Hm'). }
    intros b l kv o a Hb Hl Hkv Ho Ha.
    specialize (Hbytes _ _ Ha). rewrite block_first_file_run in Hbytes by (done || apply Hm).
    by injection Hbytes as <-.
Qed.

End composition.
