(* ===== verification/XdsStagedExamples.v ===== *)
(** * The staged transfers: concrete instances

    A chunk of one layer, two blocks of two tokens, hidden size two, half precision: 32 bytes,
    staged in a buffer of 4096; the theorems applied to it. *)

From S2P Require Import Prelude Tensor Codec BlockFirst DirectIO World WorldIO HipFile XdsFiles XdsLoad XdsPaths XdsMeta Dict XdsIndex DeviceTensor XdsStaged XdsCpuStore XdsGpuStage XdsChunkIO XdsStagedFacts.

Open Scope string_scope.
Open Scope list_scope.
Open Scope Z_scope.

Module StagedExamples.
Import XdsExamples BlockFirstExamples.

#[export] Instance codec : JsonCodec := CountableCodec.codec.
#[export] Instance laws : JsonCodecLaws := CountableCodecFacts.codec_laws.
#[export] Existing Instance SimHyFile.sim_lib.

Definition cpu : torch_device := TorchDevice "cpu" None.

(** Fresh device memory is zero. *)
Definition zero_alloc : (Z -> Z) -> Z -> Z := fun _ n => 0.

Definition small_engine : xds_engine ex_dtype :=
  XdsEngine _ 4 (Some 2) [[2; 1; 4; 2]] [Float16] ex_engine true ex_gpu (MkHyFileDDS false false).

Definition config (e : xds_engine ex_dtype) (cpu_store : bool) : xds_config ex_dtype :=
  XdsConfig _ e false 1000000 true cpu_store true true None "/xds/" [Float16; BFloat16; Float32].

(** The staging buffer at 1000000, inside a pool that starts 64 bytes before *)
Definition staging : block_staging ex_dtype :=
  BlockStaging _ 999936 4160 64 (contiguous_at 1000000 [2; 1; 2; 2; 2] Float16 ex_gpu).

(** Object 1 at 2000, object 2 at 5000; no kernel runs before it must *)
Definition layer (d : torch_device) (sh : list Z) (nbytes : Z) : file_layer ex_dtype :=
  FileLayer _ None (Some staging) 4096 false
    (fun i => Placement (if i =? 1 then 2000 else 5000) 0 (Strided.contiguous_strides sh) d nbytes)
    [0; 0; 0; 0; 0]%nat.

Definition small_layer (d : torch_device) : file_layer ex_dtype := layer d [2; 1; 4; 2] 32.

Definition obj (i : Z) (sh : list Z) : memory_obj ex_dtype :=
  MemoryObj _ i sh sh Float16 KV_2LTD (prodZ sh * 2) (prodZ sh * 2).

Definition small (i : Z) : memory_obj ex_dtype := obj i [2; 1; 4; 2].

Definition w_start : world := io_world ex_io.
Definition path : string := "chunk" +:+ DATA_FILE_SUFFIX.

Definition run_ok {S A} (r : result A * S) : option (A * S) :=
  match r with (Ok a, s) => Some (a, s) | (Raise _, _) => None end.

Definition staged := store_chunk_staged zero_alloc (config small_engine false) (small_layer ex_gpu) path
  (small 1) true w_start.

Definition from_cpu := save_cpu_block_first_xds (config small_engine true) (small_layer cpu) path
  (small 1) w_start.

Definition from_gpu := save_block_first_xds zero_alloc (config small_engine false) (small_layer ex_gpu)
  path (obj_tensor (small_layer ex_gpu) (small 1)) w_start.

(** A block of the file is token-major inside each K or V run. *)
Example staged_file :
  (take 32 ∘ drop 4096 <$> content staged.2 path)
  = Some ((fun a => a mod 251) <$> (seqZ 2000 8 ++ seqZ 2016 8 ++ seqZ 2008 8 ++ seqZ 2024 8)).
Proof. vm_compute. reflexivity. Qed.

Lemma no_fds w : fds w = ∅ -> fds_ok w.
Proof. intros H fd [o Ho]. rewrite H in Ho. discriminate Ho. Qed.

Lemma start_fds : fds_ok w_start.
Proof. by apply no_fds. Qed.

Lemma small_fits d i sg :
  d = ex_gpu -> 0 < i < 3 -> fl_staging (small_layer d) = Some sg ->
  staging_fits sg (obj_tensor (small_layer d) (small i)).
Proof.
  intros -> Hi [= <-] m g (Hg & Hisz & _ & _ & _ & _ & _ & _ & Hio) Hs Hsg.
  cbn in Hsg, Hs, Hisz. destruct g as [nl cb bs hd isz]. unfold g_physical, g_logical in *. simpl in *.
  injection Hsg as <- <- <- <-. subst isz.
  generalize dependent (io_nbytes m). intros io Hio. vm_compute in Hio. injection Hio as <-.
  split; [split; [reflexivity|]; simpl; lia|].
  intros a Ha. unfold in_staging. simpl. unfold g_nbytes, g_runs, g_run in Ha. simpl in Ha.
  assert (i = 1 \/ i = 2) as [-> | ->] by lia; simpl in Ha; lia.
Qed.

Lemma block_first_store_outcome_witness :
  exists dm w, staged = (Ok dm, w) /\ fds w = ∅ /\ files w !! tmp_of path = None
    /\ exists f, content w path = Some f /\ lenZ f = 8192.
Proof.
  pose proof (block_first_store_outcome zero_alloc (config small_engine false) (small_layer ex_gpu)
    path (small 1) w_start start_fds (fun sg => small_fits ex_gpu 1 sg eq_refl ltac:(lia))) as H.
  fold staged in H. assert (is_ok staged = true) as Hok by (vm_compute; reflexivity).
  assert (option_map lenZ (content staged.2 path) = Some 8192) as Hlen by (vm_compute; reflexivity).
  destruct staged as [[dm|e] w]; [|discriminate Hok].
  exists dm, w. destruct H as (Hfds & _ & _ & Htmp & (m & g & header & _ & _ & _ & _ & Hc)).
  split; [done|]. split; [by rewrite Hfds|]. split; [done|]. eexists. split; [exact Hc|].
  simpl in Hlen. rewrite Hc in Hlen. by injection Hlen.
Defined.

(** Stored through the staging buffer, loaded through it into object 2 *)
Definition entry (dm : option BlockFirstDiskMetadata) : XDSCacheMetadata ex_dtype :=
  MkXDSCacheMetadata _ path (match dm with Some m => io_nbytes m | None => 32 end) (Some [2; 1; 4; 2])
    (Some Float16) (Some KV_2LTD) 0 dm.

Definition reload (r : result (option BlockFirstDiskMetadata) * world) : result Z * world :=
  match r with
  | (Ok dm, w) => load_chunk_staged zero_alloc (config small_engine false) (small_layer ex_gpu) path
      (entry dm) (small 2) w
  | (Raise e, w) => (Raise e, w)
  end.

Lemma small_placed i : 0 < i < 3 -> placed (small_layer ex_gpu) (small i).
Proof.
  intros Hi. constructor; try (simpl; lia || reflexivity).
  - intros b [=].
  - intros sg Hsg. by apply small_fits.
Qed.

Lemma store_load_roundtrip_witness :
  exists dm w w', staged = (Ok dm, w) /\ reload staged = (Ok 4096, w')
    /\ forall i, 0 <= i < 32 -> mem w' (5000 + i) = mem w_start (2000 + i).
Proof.
  assert (is_ok staged = true) as Hok by (vm_compute; reflexivity).
  assert (is_Some (run_ok staged ≫= fst)) as Hdm by (vm_compute; by eexists).
  assert (option_map fst (run_ok (reload staged)) = Some 4096) as Hl by (vm_compute; reflexivity).
  assert (option_map io_nbytes (run_ok staged ≫= fst) = Some 4096) as Hio by (vm_compute; reflexivity).
  assert (fds staged.2 = ∅) as Hfds by (vm_compute; reflexivity).
  pose proof (store_load_roundtrip zero_alloc (config small_engine false) (small_layer ex_gpu)
    "chunk" (small 1) (small 2) true w_start) as H. cbv zeta in H. fold path in H.
  unfold staged in *. set (st := store_chunk_staged _ _ _ _ _ _ _) in *.
  destruct st as [[dm|e] w] eqn:Est; [|discriminate Hok]. simpl in Hdm, Hio.
  destruct dm as [m|]; [|by destruct Hdm]. cbn [reload] in *.
  destruct (load_chunk_staged _ _ _ _ _ _ _) as [[n|e] w'] eqn:El; [|done].
  simpl in Hl, Hio. injection Hl as ->. injection Hio as Hio.
  exists (Some m), w, w'.
  assert (entry_of (small 1) (Some m) (entry (Some m))) as He.
  { split; [done|]. split; [by intros [=]|]. exists [2; 1; 4; 2]. by split_and!. }
  assert (expected_load_size (config small_engine false) (entry (Some m)) = Ok 4096) as Hx.
  { cbn. by rewrite Hio. }
  destruct (H (Some m) w (entry (Some m)) w 4096 w' start_fds (no_fds _ Hfds)
    (small_placed 1 ltac:(lia)) (small_placed 2 ltac:(lia)) (conj eq_refl eq_refl) eq_refl) as [_ Hb].
  - by intros sz [=].
  - reflexivity.
  - reflexivity.
  - exact He.
  - exact El.
  - exact Hx.
  - split; [reflexivity|]. split; [reflexivity|]. exact Hb.
Defined.

Lemma cpu_staged_same_file_witness :
  exists m w w', from_cpu = (Ok m, w) /\ from_gpu = (Ok m, w') /\ content w' path = content w path.
Proof.
  assert (is_ok from_cpu = true) as Hc by (vm_compute; reflexivity).
  assert (is_ok from_gpu = true) as Hg by (vm_compute; reflexivity).
  pose proof (cpu_staged_same_file zero_alloc (config small_engine true) (config small_engine false)
    (small_layer cpu) (small_layer ex_gpu) path path (small 1) (small 1) w_start w_start) as H.
  fold from_cpu from_gpu in H.
  destruct from_cpu as [[m|e] w]; [|discriminate Hc].
  destruct from_gpu as [[m'|e'] w']; [|discriminate Hg].
  destruct (H m m' w w' start_fds start_fds (fun sg => small_fits ex_gpu 1 sg eq_refl ltac:(lia))
    eq_refl eq_refl (conj eq_refl eq_refl) eq_refl (fun i _ => eq_refl) eq_refl eq_refl) as [-> Hf].
  by exists m, w, w'.
Defined.

(** A chunk of 8192 bytes stored from CPU memory and retrieved directly *)
Definition big_layer : file_layer ex_dtype := layer cpu [2; 1; 4; 512] 8192.

Definition big_stored := save_cpu_block_first_xds (config ex_xds true) big_layer path
  (obj 1 [2; 1; 4; 512]) w_start.

Definition retrieved : result unit * xds_io :=
  match big_stored with
  | (Ok m, w) => load_direct_xds ex_xds (fun w => w) path m ex_retrieve (XdsIO w [] None)
  | (Raise e, w) => (Raise e, XdsIO w [] None)
  end.

Lemma path_elsewhere : others_elsewhere path (fun w => w).
Proof. intros w. by repeat split. Qed.

(** The V rows of the second layer-0 block are in physical block 2, after its K rows. *)
Lemma cpu_store_direct_retrieve_witness :
  exists m w s3, big_stored = (Ok m, w)
    /\ load_direct_xds ex_xds (fun w => w) path m ex_retrieve (XdsIO w [] None) = (Ok tt, s3)
    /\ mem (io_world s3) (8192 + 2 * 4096 + 2048 + 9) = mem w_start (2000 + 3 * 2048 + 9).
Proof.
  assert (is_ok retrieved = true) as Hok by (vm_compute; reflexivity).
  assert (fds big_stored.2 = ∅) as Hfds by (vm_compute; reflexivity).
  pose proof (cpu_store_direct_retrieve (config ex_xds true) big_layer (fun w => w) "chunk"
    (obj 1 [2; 1; 4; 512]) w_start) as H. cbv zeta in H. fold path in H. fold big_stored in H.
  unfold retrieved in Hok. destruct big_stored as [[m|e] w]; [|discriminate Hok].
  destruct (load_direct_xds _ _ _ _ _ _) as [[[]|e] s3] eqn:El; [|discriminate Hok].
  exists m, w, s3. split; [reflexivity|]. split; [exact El|].
  destruct (H m w (XdsIO w [] None) m ex_retrieve s3 start_fds eq_refl eq_refl (no_fds w Hfds)
    path_elsewhere ex_shapes ex_retrieve_distinct ex_retrieve_apart El)
    as [_ (g & (_ & Hisz & _) & Hs & Hbs & Hb)].
  destruct g as [nl cb bs hd isz]. unfold g_run in Hb. cbn in Hisz, Hs, Hbs, Hb.
  injection Hbs as <-. injection Hs as <- Hcb <-. assert (cb = 2) as -> by lia. subst isz.
  apply (Hb 1 0 1 9 (8192 + 2 * 4096 + 2048 + 9)); try lia. vm_compute. reflexivity.
Defined.

End StagedExamples.
