(* ===== verification/CuFile.v ===== *)
(** * The cuFile package

    What [gds_backend.py] uses of the [cufile] package, of [libcudart] and of LMCache's
    [CuFileMemoryAllocator]: an interface, the behaviour the backend relies on, and an
    instance that short-transfers and fails as the world's oracle says. *)

From S2P Require Import Prelude World HipFile.

Open Scope string_scope.
Open Scope list_scope.
Open Scope Z_scope.

(** ** Interface *)

(** What the calls that take and give back resources act on: files and devices, the buffers
    registered with cuFile and the [CuFileMemoryAllocator]s that are open, each by its base
    address and as often as it is there *)
Record cu_process := CuProcess {
  cu_world : world;
  cu_buffers : list Z;
  cu_pools : list Z;
}.

(** A read or a write returns a count, or [None]. *)
Class CuFileLib := {
  cu_enter : string -> string -> bool -> ST world unit;  (* CuFile(path, mode, use_direct_io), entered *)
  cu_exit : string -> ST world unit;
  cu_write : string -> Z -> Z -> Z -> Z -> ST world (option Z);  (* base, size, file and device offset *)
  cu_read : string -> Z -> Z -> Z -> Z -> ST world (option Z);
  cuFileBufRegister : Z -> Z -> ST cu_process unit;              (* base, size *)
  cuFileBufDeregister : Z -> ST cu_process unit;
  libcudart_present : bool;
  cudaMemcpyDtoD : Z -> Z -> Z -> world -> Z * world;            (* destination, source, size *)
  cudaMemcpyDtoMap : string -> Z -> Z -> Z -> world -> Z * world;    (* mapped file, offset, source, size *)
  cudaMemcpyMapToD : Z -> string -> Z -> Z -> world -> Z * world;
  device_synchronize : world -> result unit * world;             (* torch.cuda.synchronize *)
  cufile_pool : Z -> ST cu_process Z;                            (* base_pointer of a new CuFileMemoryAllocator *)
  cufile_pool_alloc : Z -> Z -> ST cu_process (option Z);        (* pool, bytes: metadata.address *)
  cufile_pool_close : Z -> ST cu_process unit;
}.

(** All [n] bytes, as the backend reads the result *)
Definition moved (n : Z) (r : option Z) : bool :=
  match r with None => true | Some c => c =? n end.

(** A call that changes nothing the program sees *)
Definition quiet_call {A} (m : ST world A) : Prop := forall w, quiet w (m w).2.

Definition quiet_on_files {A} (m : ST cu_process A) : Prop :=
  forall p, quiet (cu_world p) (cu_world (m p).2).

(** A call that succeeds adds [base a] to the list, or takes [base] from it; a call that
    raises leaves the list. *)
Definition adds {A} (base : A -> Z) (r : result A) (l l' : list Z) : Prop :=
  match r with Ok a => l' = l ++ [base a] | Raise _ => l' = l end.
Definition takes (base : Z) (r : result unit) (l l' : list Z) : Prop :=
  match r with Ok _ => l ≡ₚ base :: l' | Raise _ => l' = l end.

(** Documented behaviour. A write puts a prefix of its source into the file, all of it
    when it reports so; a read that reports all its bytes has them from the file. *)
Class CuFileLaws `{!CuFileLib} := {
  cu_enter_quiet path mode direct : quiet_call (cu_enter path mode direct);
  cu_exit_quiet path : quiet_call (cu_exit path);
  cu_register_quiet p n : quiet_on_files (cuFileBufRegister p n);
  cu_deregister_quiet p : quiet_on_files (cuFileBufDeregister p);
  device_synchronize_quiet : quiet_call device_synchronize;
  cufile_pool_quiet n : quiet_on_files (cufile_pool n);
  cufile_pool_alloc_quiet p n : quiet_on_files (cufile_pool_alloc p n);
  cufile_pool_close_quiet p : quiet_on_files (cufile_pool_close p);
  cu_register_adds p n s : let '(r, s') := cuFileBufRegister p n s in
    adds (fun _ => p) r (cu_buffers s) (cu_buffers s') /\ cu_pools s' = cu_pools s;
  cu_deregister_takes p s : let '(r, s') := cuFileBufDeregister p s in
    (p ∈ cu_buffers s -> takes p r (cu_buffers s) (cu_buffers s')) /\ cu_pools s' = cu_pools s;
  cufile_pool_adds n s : let '(r, s') := cufile_pool n s in
    adds id r (cu_pools s) (cu_pools s') /\ cu_buffers s' = cu_buffers s;
  cufile_pool_alloc_keeps p n s : let '(r, s') := cufile_pool_alloc p n s in
    cu_pools s' = cu_pools s /\ cu_buffers s' = cu_buffers s;
  cufile_pool_close_takes p s : let '(r, s') := cufile_pool_close p s in
    (p ∈ cu_pools s -> takes p r (cu_pools s) (cu_pools s')) /\ cu_buffers s' = cu_buffers s;
  cu_write_frame path p n fo dof w : writes_only path w (cu_write path p n fo dof w).2;
  cu_write_prefix path p n fo dof w f :
    0 <= fo <= lenZ f -> 0 <= n -> content w path = Some f ->
    exists k, (k <= Z.to_nat n)%nat
      /\ content (cu_write path p n fo dof w).2 path
         = Some (write_at f (Z.to_nat fo) (mem_slice (mem w) (p + dof) k))
      /\ forall r, (cu_write path p n fo dof w).1 = Ok r -> moved n r = true -> k = Z.to_nat n;
  cu_read_frame path p n fo dof w : stores_only (p + dof) n w (cu_read path p n fo dof w).2;
  cu_read_complete path p n fo dof w f r :
    0 <= fo -> content w path = Some f -> (cu_read path p n fo dof w).1 = Ok r -> moved n r = true ->
    forall i, 0 <= i < n ->
      f !! Z.to_nat (fo + i) = Some (mem (cu_read path p n fo dof w).2 (p + dof + i));
  cu_dtod_frame dst src n w : stores_only dst n w (cudaMemcpyDtoD dst src n w).2;
  cu_dtod_complete dst src n w : (cudaMemcpyDtoD dst src n w).1 = 0 ->
    (src + n <= dst \/ dst + n <= src) ->
    forall i, 0 <= i < n -> mem (cudaMemcpyDtoD dst src n w).2 (dst + i) = mem w (src + i);
  cu_dtomap_frame path fo a n w : writes_only path w (cudaMemcpyDtoMap path fo a n w).2;
  cu_dtomap_complete path fo a n w f :
    0 <= fo -> 0 <= n -> content w path = Some f -> fo + n <= lenZ f ->
    (cudaMemcpyDtoMap path fo a n w).1 = 0 ->
    content (cudaMemcpyDtoMap path fo a n w).2 path
      = Some (write_at f (Z.to_nat fo) (mem_slice (mem w) a (Z.to_nat n)));
  cu_maptod_frame a path fo n w : stores_only a n w (cudaMemcpyMapToD a path fo n w).2;
  cu_maptod_complete a path fo n w f :
    0 <= fo -> content w path = Some f -> fo + n <= lenZ f ->
    (cudaMemcpyMapToD a path fo n w).1 = 0 ->
    forall i, 0 <= i < n ->
      f !! Z.to_nat (fo + i) = Some (mem (cudaMemcpyMapToD a path fo n w).2 (a + i));
}.

(** [with cufile.CuFile(path, mode, use_direct_io=direct) as f: body] *)
Definition with_cu_file `{!CuFileLib} {A} (path mode : string) (direct : bool) (body : ST world A)
    : ST world A :=
  cu_enter path mode direct;; st_finally body (cu_exit path).

(** ** Lemmas *)

Section calls.
Context {CL : CuFileLib} {CLL : CuFileLaws}.

(** A quiet call keeps everything the theorems speak of. *)
Lemma quiet_triple {A} (m : ST world A) P fs k :
  quiet_call m -> io_closed P ->
  triple (fun w => P w /\ fds_at fs k w) m (fun _ w => P w /\ fds_at fs k w)
    (fun _ w => P w /\ fds_at fs k w).
Proof.
  intros Hm HP w [Hw [Hd Hn]]. destruct (Hm w) as (Hf & Hfd & Hfr & _ & Hmem).
  destruct (m w) as [[a|e] w']; simpl in *;
    (split; [by apply (HP w)|split; [by rewrite Hfd|by rewrite Hfr]]).
Qed.

Lemma with_cu_file_triple {A} path mode direct (body : ST world A) P Q E fs k :
  io_closed P -> (forall a, io_closed (Q a)) -> io_closed E ->
  (forall w, P w -> E w) -> (forall a w, Q a w -> E w) ->
  triple (fun w => P w /\ fds_at fs k w) body (fun a w => Q a w /\ fds_at fs k w)
    (fun _ w => E w /\ fds_at fs k w) ->
  triple (fun w => P w /\ fds_at fs k w) (with_cu_file path mode direct body)
    (fun a w => Q a w /\ fds_at fs k w) (fun _ w => E w /\ fds_at fs k w).
Proof.
  intros HP HQ HE HPE HQE Hb. unfold with_cu_file. eapply triple_bind.
  { eapply triple_exn; [apply (quiet_triple _ P fs k (cu_enter_quiet path mode direct) HP)|].
    intros e w [Hw Hf]. split; [by apply HPE|done]. }
  intros []. intros w Hw. specialize (Hb w Hw). unfold st_finally.
  destruct (body w) as [[a|e] w1].
  - pose proof (quiet_triple (cu_exit path) (Q a) fs k (cu_exit_quiet path) (HQ a) w1 Hb) as Hx.
    destruct (cu_exit path w1) as [[[]|e] w2]; [done|]. destruct Hx. split; [by eapply HQE|done].
  - pose proof (quiet_triple (cu_exit path) E fs k (cu_exit_quiet path) HE w1 Hb) as Hx.
    destruct (cu_exit path w1) as [[[]|e'] w2]; done.
Qed.

(** A write of [n] bytes at [fo] leaves a prefix of them there. *)
Lemma cu_write_triple w0 path f p n fo dof fs k :
  0 <= fo <= lenZ f -> 0 <= n ->
  triple (fun w => (keeps_files [path] w0 w /\ content w path = Some f) /\ fds_at fs k w)
    (cu_write path p n fo dof)
    (fun r w => (keeps_files [path] w0 w /\ exists c, (c <= Z.to_nat n)%nat
        /\ content w path = Some (write_at f (Z.to_nat fo) (mem_slice (mem w0) (p + dof) c))
        /\ (moved n r = true -> c = Z.to_nat n)) /\ fds_at fs k w)
    (fun _ w => keeps_files [path] w0 w /\ fds_at fs k w).
Proof.
  intros Hfo Hn w [[Hk Hc] [Hd Hf]].
  pose proof (cu_write_frame path p n fo dof w) as Hfr.
  pose proof (cu_write_prefix path p n fo dof w f Hfo Hn Hc) as (c & Hcn & Hcc & Hm).
  destruct (cu_write path p n fo dof w) as [r w1]. simpl in *.
  destruct Hfr as (Hq & Hi & Hfd & Hfre & Hh & Hmem).
  assert (keeps_files [path] w0 w1) as Hk1.
  { destruct Hk as [Hk1 Hk2]. split; [|intros a; by rewrite Hmem].
    intros q Hq'. rewrite Hq; [by apply Hk1|]. intros ->. apply Hq'. by left. }
  assert (fds_at fs k w1) as Hf1 by (split; [by rewrite Hfd|by rewrite Hfre]).
  destruct r as [r|e]; [|done]. split; [|done]. split; [done|]. exists c. split; [done|].
  split; [|intros Hr; by apply (Hm r)]. rewrite Hcc. do 2 f_equal. apply mem_slice_ext, Hk.
Qed.

(** The bytes below a write stay, and those written are there. *)
Lemma write_at_slice f fo m a n :
  0 <= fo <= lenZ f -> 0 <= n ->
  let f' := write_at f (Z.to_nat fo) (mem_slice m a (Z.to_nat n)) in
  take (Z.to_nat fo) f' = take (Z.to_nat fo) f
  /\ forall i, 0 <= i < n -> f' !! Z.to_nat (fo + i) = Some (m (a + i)).
Proof.
  intros Hle Hn f'. unfold lenZ in Hle. split.
  - unfold f', write_at. rewrite take_app_length' by (rewrite length_take, length_app; lia).
    by rewrite take_app_le by lia.
  - intros i Hi. unfold f'. rewrite Z2Nat.inj_add by lia.
    rewrite write_at_inside by (rewrite length_mem_slice; lia).
    rewrite mem_slice_lookup by lia. do 2 f_equal. lia.
Qed.

End calls.

(** ** A package that behaves as documented *)

Module SimCuFile.
Import SimHyFile.

Definition counted {A} (r : A * world) : result (option A) * world :=
  let '(a, w) := r in (Ok (Some a), w).

Definition silent {S A} (a : A) : ST S A := fun w => (Ok a, w).

(** A registration or a pool more, or less *)
Definition with_buffers l (s : cu_process) := CuProcess (cu_world s) l (cu_pools s).
Definition with_cu_pools l (s : cu_process) := CuProcess (cu_world s) (cu_buffers s) l.
Fixpoint without (x : Z) (l : list Z) : list Z :=
  match l with
  | [] => []
  | y :: l' => if y =? x then l' else y :: without x l'
  end.

#[global] Instance sim_cufile : CuFileLib := {
  cu_enter path mode direct := w ← st_get;
    match files w !! path with Some _ => mret tt | None => st_raise FileNotFoundError end;
  cu_exit path := silent tt;
  cu_write path p n fo dof w := counted (sim_write path (p + dof) n fo w);
  cu_read path p n fo dof w := counted (sim_read path (p + dof) n fo w);
  cuFileBufRegister p n s := (Ok tt, with_buffers (cu_buffers s ++ [p]) s);
  cuFileBufDeregister p s := (Ok tt, with_buffers (without p (cu_buffers s)) s);
  libcudart_present := true;
  cudaMemcpyDtoD dst src n w :=
    (0, with_mem w (mem_write (mem w) dst (mem_slice (mem w) src (Z.to_nat n))));
  cudaMemcpyDtoMap path fo a n w := let '(r, w') := sim_write path a n fo w in (sim_status r n, w');
  cudaMemcpyMapToD a path fo n w := let '(r, w') := sim_read path a n fo w in (sim_status r n, w');
  device_synchronize := silent tt;
  cufile_pool n s := let base := 1000000 + 16 * Z.abs n in (Ok base, with_cu_pools (cu_pools s ++ [base]) s);
  cufile_pool_alloc p n := silent (Some 0);
  cufile_pool_close p s := (Ok tt, with_cu_pools (without p (cu_pools s)) s);
}.

Lemma without_takes x l : x ∈ l -> l ≡ₚ x :: without x l.
Proof.
  induction l as [|y l IH]; [by intros ?%elem_of_nil|]. simpl. destruct (Z.eqb_spec y x) as [->|Hne]; [done|].
  intros [->|Hx]%elem_of_cons; [done|]. rewrite (IH Hx) at 1. solve_Permutation.
Qed.

Lemma sim_write_prefix path a n fo w f :
  0 <= n -> content w path = Some f ->
  exists k, (k <= Z.to_nat n)%nat
    /\ content (sim_write path a n fo w).2 path = Some (write_at f (Z.to_nat fo) (mem_slice (mem w) a k))
    /\ ((sim_write path a n fo w).1 = n -> k = Z.to_nat n).
Proof.
  intros Hn Hc. unfold sim_write. pose proof (sim_pop_spec w) as Hp.
  destruct (sim_pop w) as [e w1]. destruct Hp as (Hf & _ & _ & Hm & _). unfold content in *.
  rewrite <- Hf in Hc. destruct (files w1 !! path) as [g|] eqn:E; [|done].
  injection Hc as <-. replace (n <? 0) with false by lia. simpl.
  exists (Z.to_nat (sim_count e n)). rewrite lookup_insert_eq, Hm. split; [|split; [done|by intros ->]].
  destruct e; simpl; lia.
Qed.

#[global] Instance sim_cufile_laws : CuFileLaws.
Proof.
  constructor; try (intros; intros w; apply quiet_refl); try by intros; split.
  - intros path mode direct w. cbn. unfold mbind, ST_bind, st_get. by destruct (files w !! path).
  - intros p s. cbn. split; [by apply without_takes|done].
  - intros p s. cbn. split; [by apply without_takes|done].
  - intros. cbn. pose proof (sim_write_frame path (p + dof) n fo w) as H.
    by destruct (sim_write path (p + dof) n fo w).
  - intros path p n fo dof w f Hfo Hn Hc.
    pose proof (sim_write_prefix path (p + dof) n fo w f Hn Hc) as (k & Hk & Hck & Hr). cbn.
    destruct (sim_write path (p + dof) n fo w) as [c w1]. cbn in *. exists k.
    split; [done|]. split; [done|]. intros r [= <-] Hm. cbn in Hm. apply Hr. lia.
  - intros. cbn. pose proof (sim_read_frame path (p + dof) n fo w) as H.
    by destruct (sim_read path (p + dof) n fo w).
  - intros path p n fo dof w f r Hfo Hc. cbn.
    pose proof (sim_read_complete path (p + dof) n fo w f Hfo Hc) as H.
    destruct (sim_read path (p + dof) n fo w) as [c w1]. cbn in *. intros [= <-] Hm. cbn in Hm.
    apply H. lia.
  - intros. repeat split; try done. intros x Hx. apply mem_write_outside.
    unfold lenZ. rewrite length_mem_slice. lia.
  - intros dst src n w _ _ i Hi. cbn. replace (dst + i) with (dst + Z.of_nat (Z.to_nat i)) by lia.
    rewrite (mem_write_inside _ _ _ _ (mem w (src + i))); [done|].
    rewrite mem_slice_lookup by lia. do 2 f_equal. lia.
  - intros. cbn. pose proof (sim_write_frame path a n fo w) as H. by destruct (sim_write path a n fo w).
  - intros path fo a n w f Hfo Hn Hc _. cbn.
    pose proof (sim_write_complete path a n fo w f Hn Hc) as H.
    destruct (sim_write path a n fo w) as [c w1]. cbn in *. unfold sim_status.
    destruct (Z.eqb_spec c n); [by auto|done].
  - intros a path fo n w. cbn. pose proof (sim_read_frame path a n fo w) as H.
    by destruct (sim_read path a n fo w).
  - intros a path fo n w f Hfo Hc _. cbn.
    pose proof (sim_read_complete path a n fo w f Hfo Hc) as H.
    destruct (sim_read path a n fo w) as [c w1]. cbn in *. unfold sim_status.
    destruct (Z.eqb_spec c n); [by auto|done].
Qed.

End SimCuFile.
