(* ===== verification/GdsMeta.v ===== *)
(** * Metadata of the GDS backend's legacy files

    [pack_metadata], [unpack_metadata] and [save_metadata] of [gds_backend.py]: a JSON
    header padded with spaces to [_METADATA_MAX_SIZE] bytes, in front of the tensor's bytes
    and again in a sidecar; and the reads of [_read_metadata_info]. The text of a JSON
    document is an interface, [TensorMetaJson]. *)

From S2P Require Import Prelude Tensor Codec World XdsMeta.

Open Scope string_scope.
Open Scope list_scope.
Open Scope Z_scope.

Definition GDS_METADATA_FILE_SUFFIX : string := ".metadata".
Definition GDS_DATA_FILE_SUFFIX : string := ".kvcache.safetensors".
Definition WEKA_DATA_FILE_SUFFIX : string := ".weka1".
Definition GDS_BLOCK_FIRST_SUFFIX : string := ".block_first_v1.kvcache".
Definition GDS_BLOCK_FIRST_SUFFIX_TMP : string := ".BLOCK_FIRST_V1_TMP".
Definition GDS_METADATA_VERSION : Z := 1.
Definition GDS_METADATA_MAX_SIZE : Z := 4096.

(** ** The document *)

(** The value under ["kvcache"]; [tm_extra] is ["__metadata__"]. *)
Record tensor_meta := TensorMeta {
  tm_dtype : string;
  tm_shape : list Z;
  tm_offsets : list Z;
  tm_fmt : string;
  tm_extra : list (string * string);
}.

#[global] Instance tensor_meta_eq_dec : EqDecision tensor_meta.
Proof. solve_decision. Defined.

(** [json.dumps({"kvcache": m}).encode("utf-8")], and [json.loads(b.decode("utf-8"))] with the
    five fields of its ["kvcache"] *)
Class TensorMetaJson := {
  dumps_kvcache : tensor_meta -> list Z;
  loads_kvcache : list Z -> result tensor_meta;
}.

(** Parsing inverts printing, and a printed object ends with a brace. *)
Class TensorMetaJsonLaws `{!TensorMetaJson} := {
  loads_dumps m : loads_kvcache (dumps_kvcache m) = Ok m;
  dumps_no_space m l : dumps_kvcache m <> l ++ [32];
}.

(** The [torch_dtypes] table, by the dtype's name in the [torch] module *)
Definition torch_dtypes : list (string * string) :=
  [("float16", "F16"); ("bfloat16", "BF16"); ("float32", "F32"); ("float64", "F64");
   ("uint8", "U8"); ("uint16", "U16"); ("uint32", "U32"); ("uint64", "U64");
   ("int8", "I8"); ("int16", "I16"); ("int32", "I32"); ("int64", "I64");
   ("float8_e4m3fn", "F8E4M3FN"); ("float8_e5m2", "F8E5M2")].

(** The first pair the predicate holds of *)
Fixpoint find_pair (p : string * string -> bool) (l : list (string * string))
    : option (string * string) :=
  match l with
  | [] => None
  | x :: l' => if p x then Some x else find_pair p l'
  end.

(** [b" " * n], and [bytes.rstrip(b" ")] *)
Definition spaces (n : Z) : list Z := replicate (Z.to_nat n) 32.

Fixpoint drop_spaces (l : list Z) : list Z :=
  match l with
  | b :: l' => if b =? 32 then drop_spaces l' else l
  | [] => []
  end.

Definition rstrip (l : list Z) : list Z := reverse (drop_spaces (reverse l)).

Section meta.
Context {Dt : Type} `{!TorchDtype Dt} {TJ : TensorMetaJson}.
(** The values of LMCache's [MemoryFormat] *)
Context (memory_formats : list string).

(** [torch_dtypes[dtype]], and [torch_dtypes_inverse[code]] *)
Definition dtype_code (dt : Dt) : option string :=
  snd <$> find_pair (fun '(name, _) => String.eqb ("torch." +:+ name) (dtype_str dt)) torch_dtypes.

Definition torch_dtypes_inverse (code : string) : option Dt :=
  '(name, _) ← find_pair (fun '(_, c) => String.eqb c code) torch_dtypes; torch_getattr name.

Definition gds_pack_metadata (shape : list Z) (dt : Dt) (fmt : string) (extra : list (string * string))
    : result (list Z) :=
  match dtype_code dt with
  | None => Raise (RuntimeError "unhandled dtype")
  | Some code =>
      let data_size := prodZ shape * itemsize dt in
      let str_meta := dumps_kvcache (TensorMeta code shape [0; data_size] fmt extra) in
      py_assert (lenZ str_meta <=? GDS_METADATA_MAX_SIZE - 8);;
      let padded := str_meta ++ spaces (GDS_METADATA_MAX_SIZE - 8 - lenZ str_meta) in
      head ← pack_Q (lenZ padded);
      mret (head ++ padded)
  end.

(** Shape, dtype, size, format and the extra metadata *)
Definition gds_metadata : Type := list Z * Dt * Z * string * list (string * string).

Definition gds_unpack_metadata (buffer : list Z) : result gds_metadata :=
  raise_if (lenZ buffer <? 8) StructError;;
  let meta_len := unpack_Q (take 8 buffer) in
  tensor_meta ← loads_kvcache (rstrip (take (Z.to_nat meta_len) (drop 8 buffer)));
  raise_if (negb (bool_decide (tm_fmt tensor_meta ∈ memory_formats))) (ValueError "MemoryFormat");;
  stop ← py_index (tm_offsets tensor_meta) 1;
  start ← py_index (tm_offsets tensor_meta) 0;
  dt ← result_of_option KeyError (torch_dtypes_inverse (tm_dtype tensor_meta));
  mret (tm_shape tensor_meta, dt, stop - start, tm_fmt tensor_meta, tm_extra tensor_meta).

(** [save_metadata]: a temporary file and a rename *)
Definition gds_save_metadata (path tmp : string) (metadata : list Z) : ST world unit :=
  let tmp_path := path +:+ tmp in
  _ ← py_write_file tmp_path metadata;
  os_replace tmp_path path.

(** [O_NOATIME] once refused is not tried again; the flag is returned with the descriptor, or
    with what the second attempt raised. *)
Definition open_noatime (use_noatime : bool) (filename : string) : ST world (bool * result Z) :=
  if use_noatime then
    first ← st_future (os_open filename O_RDONLY);
    match first with
    | Raise ex =>
        if is_os_error ex then second ← st_future (os_open filename O_RDONLY); mret (false, second)
        else mret (true, first)
    | Ok _ => mret (true, first)
    end
  else opened ← st_future (os_open filename O_RDONLY); mret (false, opened).

(** The flag, and what the read returns or raises *)
Definition gds_read_metadata_info (use_noatime : bool) (filename : string)
    : ST world (bool * result gds_metadata) :=
  '(noatime, opened) ← open_noatime use_noatime filename;
  info ← st_future (
    fd ← st_lift opened;
    buf ← st_finally (os_pread fd GDS_METADATA_MAX_SIZE) (os_close fd);
    st_lift (gds_unpack_metadata buf));
  mret (noatime, info).

(** The version check of [_read_metadata] *)
Definition check_version (extra : list (string * string)) : result unit :=
  match assoc "lmcache_version" extra with
  | None => Raise KeyError
  | Some v => raise_if (negb (String.eqb v (str_int GDS_METADATA_VERSION)))
                (RuntimeError "unhandled lmcache metadata")
  end.

(** ** Lemmas *)

Context {TL : TorchDtypeLaws Dt} {TJL : TensorMetaJsonLaws}.

Lemma find_pair_Some p l x : find_pair p l = Some x -> x ∈ l /\ p x = true.
Proof.
  induction l as [|y l IH]; simpl; [done|]. destruct (p y) eqn:E.
  - intros [= ->]. split; [by left|done].
  - intros H. destruct (IH H). split; [by right|done].
Qed.

(** The codes of the table are distinct. *)
Lemma code_unique name code :
  (name, code) ∈ torch_dtypes ->
  find_pair (fun '(_, c) => String.eqb c code) torch_dtypes = Some (name, code).
Proof.
  unfold torch_dtypes. intros H.
  repeat (apply elem_of_cons in H as [[= -> ->]|H]; [reflexivity|]). by apply not_elem_of_nil in H.
Qed.

Lemma dtype_code_inverse dt code : dtype_code dt = Some code -> torch_dtypes_inverse code = Some dt.
Proof.
  unfold dtype_code, torch_dtypes_inverse. destruct (find_pair _ _) as [[name c]|] eqn:E; [|done].
  intros [= <-]. apply find_pair_Some in E as [Hin Hn]. rewrite (code_unique name c Hin).
  simpl. apply getattr_str. apply String.eqb_eq in Hn. done.
Qed.

Lemma drop_spaces_app n l : drop_spaces (replicate n 32 ++ l) = drop_spaces l.
Proof. by induction n. Qed.

Lemma rstrip_spaces l n : (forall l', l <> l' ++ [32]) -> rstrip (l ++ spaces n) = l.
Proof.
  intros Hl. unfold rstrip, spaces. rewrite reverse_app, reverse_replicate, drop_spaces_app.
  assert (drop_spaces (reverse l) = reverse l) as ->; [|by rewrite reverse_involutive].
  destruct l as [|x l _] using rev_ind; [done|]. rewrite reverse_snoc. simpl.
  destruct (Z.eqb_spec x 32) as [->|]; [by destruct (Hl l)|done].
Qed.

Lemma pack_metadata_bytes shape dt fmt extra b :
  gds_pack_metadata shape dt fmt extra = Ok b ->
  lenZ b = GDS_METADATA_MAX_SIZE
  /\ exists code, dtype_code dt = Some code
     /\ let s := dumps_kvcache (TensorMeta code shape [0; prodZ shape * itemsize dt] fmt extra) in
        lenZ s <= GDS_METADATA_MAX_SIZE - 8
        /\ b = le_bytes 8 (GDS_METADATA_MAX_SIZE - 8)
               ++ s ++ spaces (GDS_METADATA_MAX_SIZE - 8 - lenZ s).
Proof.
  unfold gds_pack_metadata. destruct (dtype_code dt) as [code|]; [|done].
  set (s := dumps_kvcache _). intros H. res_inv. bool_prop.
  assert (lenZ (s ++ spaces (GDS_METADATA_MAX_SIZE - 8 - lenZ s)) = GDS_METADATA_MAX_SIZE - 8) as Hl.
  { rewrite lenZ_app. unfold spaces, lenZ at 2. rewrite length_replicate. lia. }
  rewrite Hl in *. unfold pack_Q in *. simpl in *. res_inv. subst.
  split; [|exists code; split; [done|by split]].
  rewrite lenZ_app, Hl. done.
Qed.

(** What was packed is unpacked, whatever follows it. *)
Lemma unpack_packed shape dt fmt extra b rest :
  gds_pack_metadata shape dt fmt extra = Ok b -> fmt ∈ memory_formats ->
  gds_unpack_metadata (b ++ rest) = Ok (shape, dt, prodZ shape * itemsize dt, fmt, extra).
Proof.
  intros H Hfmt. apply pack_metadata_bytes in H as (Hl & code & Hc & Hs & ->).
  set (s := dumps_kvcache _) in *. set (pad := s ++ spaces _) in *.
  assert (lenZ pad = GDS_METADATA_MAX_SIZE - 8) as Hp.
  { unfold pad. rewrite lenZ_app. unfold spaces, lenZ at 2. rewrite length_replicate. lia. }
  unfold gds_unpack_metadata.
  assert (lenZ (le_bytes 8 (GDS_METADATA_MAX_SIZE - 8)) = 8) as H8 by done.
  pose proof (lenZ_nonneg rest). unfold GDS_METADATA_MAX_SIZE in Hp.
  replace (lenZ _ <? 8) with false by (rewrite !lenZ_app, H8, Hp; lia). cbn [raise_if].
  change (Ok tt ≫= ?f) with (f tt). cbv beta. fold GDS_METADATA_MAX_SIZE in Hp.
  rewrite <- app_assoc, take_app_length', drop_app_length' by done.
  replace (unpack_Q (le_bytes 8 (GDS_METADATA_MAX_SIZE - 8))) with (lenZ pad) by (rewrite Hp; reflexivity).
  rewrite take_app_length' by (unfold lenZ; lia).
  unfold pad. rewrite rstrip_spaces by apply dumps_no_space. unfold s. rewrite loads_dumps.
  res_simpl. simpl. rewrite bool_decide_true by done. simpl. rewrite (dtype_code_inverse _ _ Hc). simpl.
  by rewrite Z.sub_0_r.
Qed.

End meta.

(** ** An instance *)

Module CountableMeta.

Definition meta_enc (m : tensor_meta) :=
  (tm_dtype m, tm_shape m, tm_offsets m, tm_fmt m, tm_extra m).

Definition meta_dec (t : string * list Z * list Z * string * list (string * string)) : tensor_meta :=
  let '(d, s, o, f, e) := t in TensorMeta d s o f e.

#[global] Program Instance tensor_meta_countable : Countable tensor_meta :=
  inj_countable' meta_enc meta_dec _.
Next Obligation. by intros []. Qed.

#[global] Instance meta_json : TensorMetaJson := {
  dumps_kvcache m := 123 :: CountableCodec.pack5 (CountableCodec.pos_bits (encode m)) ++ [125];
  loads_kvcache b :=
    match b with
    | _ :: rest =>
        result_of_option (ValueError "JSON")
          (CountableCodec.bits_pos (CountableCodec.unpack5 (take (length rest - 1) rest)) ≫= decode)
    | [] => Raise (ValueError "JSON")
    end;
}.

#[global] Instance meta_json_laws : TensorMetaJsonLaws.
Proof.
  constructor.
  - intros m. cbn. rewrite length_app. simpl. rewrite Nat.add_sub, take_app_length.
    rewrite CountableCodecFacts.unpack5_pack5 by apply CountableCodecFacts.pos_bits_digits.
    rewrite CountableCodecFacts.bits_pos_bits. simpl. by rewrite decode_encode.
  - intros m l H. change (dumps_kvcache m) with
      ((123 :: CountableCodec.pack5 (CountableCodec.pos_bits (encode m))) ++ [125]) in H.
    by apply app_inj_tail in H as [_ ?].
Qed.

End CountableMeta.
