(* ===== verification/GdsFiles.v ===== *)
(** * File operations of the GDS backend

    [GdsBackend] of [gds_backend.py]: the descriptor checks, registrations and scratch block
    of direct I/O, [_save_direct_gds] and [_load_direct_gds]; [_save_block_first_gds] and
    [_load_block_first_gds] through the staging buffer; [_save_gds] and [_load_gds] of the
    legacy layout, by cuFile or by a mapped file and [cudaMemcpy]. *)

From S2P Require Import Prelude Tensor Codec BlockFirst DirectIO World HipFile XdsFiles XdsPaths XdsMeta Dict XdsIndex DeviceTensor XdsStaged CuFile GdsMeta.

Open Scope string_scope.
Open Scope list_scope.
Open Scope Z_scope.

(** ** Data *)

(** What the operations read of [LMCacheMetadata] and of the backend; [ge_shapes] and
    [ge_dtypes] are [get_shapes(chunk_size)] and [get_dtypes()]. Of [self.cufile] and
    [self.cudart] exactly one is set, [ge_cufile] says which. *)
Record gds_engine {Dt : Type} := GdsEngine {
  ge_chunk_size : Z;
  ge_block_size : option Z;
  ge_shapes : list (list Z);
  ge_dtypes : list Dt;
  ge_layout : engine_layout;
  ge_direct_enabled : bool;
  ge_dst_device : torch_device;
  ge_cufile : bool;
  ge_use_direct_io : bool;
}.
Arguments gds_engine : clear implicits.

(** [_direct_edge_allocator] with [_direct_edge_obj] *)
Record gds_edge := GdsEdge { ed_base : Z; ed_numel : Z; ed_address : Z }.

(** The process: files and devices; [self._direct_registrations] and the scratch block; what is
    registered with cuFile and which pools are open, of this backend and of others *)
Record gds_io := GdsIO {
  g_world : world;
  g_registrations : list (registration * lifetime);
  g_edge : option gds_edge;
  g_buffers : list Z;
  g_pools : list Z;
}.

Definition on_gds {A} (m : ST world A) : ST gds_io A := fun s =>
  let '(r, w) := m (g_world s) in (r, GdsIO w (g_registrations s) (g_edge s) (g_buffers s) (g_pools s)).

Definition cu_of (s : gds_io) : cu_process := CuProcess (g_world s) (g_buffers s) (g_pools s).

Definition on_cufile {A} (m : ST cu_process A) : ST gds_io A := fun s =>
  let '(r, p) := m (cu_of s) in
  (r, GdsIO (cu_world p) (g_registrations s) (g_edge s) (cu_buffers p) (cu_pools p)).

Definition gds_with_registrations v (s : gds_io) : gds_io := GdsIO (g_world s) v (g_edge s) (g_buffers s) (g_pools s).
Definition gds_with_edge v (s : gds_io) : gds_io := GdsIO (g_world s) (g_registrations s) v (g_buffers s) (g_pools s).

Section files.
Context {Dt : Type} `{!TorchDtype Dt} {JC : JsonCodec} {CL : CuFileLib} {TJ : TensorMetaJson}.
Context (cuda_malloc : (Z -> Z) -> Z -> Z).
#[local] Instance gds_ops : TorchOps (Z -> Z) (dtensor Dt torch_device) Dt torch_device (list Z) :=
  device_ops cuda_malloc.
Implicit Types (e : gds_engine Dt) (d : DirectIODescriptor) (t : dtensor Dt torch_device).

(** ** Direct I/O: checks *)

Definition gds_make_block_first_metadata e (shape : list Z) (dt : Dt)
    : result BlockFirstDiskMetadata :=
  match ge_block_size e with
  | None => Raise AssertionError
  | Some bs => create shape dt bs (ge_layout e)
  end.

Definition gds_one_group e : option (list Z * Dt) :=
  match ge_shapes e, ge_dtypes e with
  | [shape], [dt] => Some (shape, dt)
  | _, _ => None
  end.

Definition gds_direct_metadata e : result BlockFirstDiskMetadata :=
  match gds_one_group e with
  | None => Raise (BlockFirstFormatError "direct GDS requires one KV layer group")
  | Some (shape, dt) => gds_make_block_first_metadata e shape dt
  end.

Definition gds_validate_descriptor e d (dir : DirectIODirection) : result unit :=
  raise_if (negb (ge_direct_enabled e)) (ValueError "direct GDS is disabled");;
  raise_if (bool_decide (direction d <> dir)) (ValueError "direct I/O direction mismatch");;
  raise_if (negb (is_nil (byte_segments d)))
    (ValueError "direct GDS does not support byte-segment descriptors");;
  DirectIO.validate d true true;;
  raise_if (negb (engine_group_id d =? 0))
    (ValueError "0.4.2 direct GDS only supports engine group 0");;
  raise_if (bool_decide (ge_block_size e <> Some (desc_block_size d)))
    (ValueError "direct I/O block size does not match engine metadata");;
  let expected := ge_dst_device e in
  raise_if (negb (String.eqb (dev_type (device d)) (dev_type expected)))
    (ValueError "direct I/O allocation is on the wrong device type");;
  raise_if (negb (is_none (dev_index expected))
      && bool_decide (dev_index (device d) <> dev_index expected))
    (ValueError "direct I/O allocation is on the wrong CUDA device");;
  match gds_one_group e with
  | None => Raise (ValueError "direct GDS requires one KV layer group")
  | Some (logical_shape, dt) =>
      s0 ← py_index logical_shape 0;
      s1 ← py_index logical_shape 1;
      s3 ← py_index logical_shape 3;
      raise_if (negb (block_nbytes d =? s0 * s1 * desc_block_size d * s3 * itemsize dt))
        (ValueError "direct I/O block byte size does not match KV metadata");;
      let chunk_blocks := ge_chunk_size e / desc_block_size d in
      raise_if (chunk_blocks <? logical_block_start d + logical_block_count d)
        (ValueError "direct I/O logical range exceeds one LMCache chunk");;
      match leading_edge d with
      | Some edge =>
          raise_if (chunk_blocks <=? edge_logical_block edge)
            (ValueError "direct I/O leading edge exceeds one LMCache chunk")
      | None => Ok tt
      end
  end.

(** ** Registrations *)

Definition gds_registered (s : gds_io) (id : registration) : bool :=
  existsb (fun '(id', _) => bool_decide (id' = id)) (g_registrations s).

(** [_direct_register] is set exactly when direct I/O is enabled. *)
Definition gds_ensure_registration e d : ST gds_io unit :=
  s ← st_get;
  let identity := registration_identity d in
  if gds_registered s identity then mret tt
  else
    st_lift (raise_if (negb (ge_direct_enabled e))
      (RuntimeError "cuFile direct registration is unavailable"));;
    on_cufile (cuFileBufRegister (allocation_base d) (allocation_nbytes d));;
    st_modify (fun s => gds_with_registrations (g_registrations s ++ [(identity, lifetime_token d)]) s).

Definition gds_close_registration e (r : registration * lifetime) : ST gds_io unit :=
  st_lift (raise_if (negb (ge_direct_enabled e))
    (RuntimeError "cuFile direct deregistration is unavailable"));;
  on_cufile (cuFileBufDeregister r.1.1.2);;
  st_modify (fun s => gds_with_registrations (filter (fun r' => r'.1 <> r.1) (g_registrations s)) s).

Definition gds_close_registrations e : ST gds_io unit :=
  s ← st_get; st_iter (gds_close_registration e) (g_registrations s).

(** ** Direct store *)

Definition gds_synchronize : ST world unit := r ← lib device_synchronize; st_lift r.

Definition gds_store_run (tmp : string) d (run : DirectIOBlockRun) : ST world unit :=
  let size := run_block_count run * block_nbytes d in
  ret ← cu_write tmp (allocation_base d) size
          (file_payload_offset d + run_logical_block_start run * block_nbytes d)
          (run_physical_block_start run * block_nbytes d);
  st_lift (raise_if (negb (moved size ret)) (RuntimeError "direct GDS write incomplete")).

(** Header, one DMA per run through one handle, size check, atomic rename *)
Definition gds_write_direct_file e (path : string) d (m : BlockFirstDiskMetadata) : ST world unit :=
  let tmp := path +:+ GDS_BLOCK_FIRST_SUFFIX_TMP in
  st_catch any_exn
    (header ← st_lift (pack_block_first_header m);
     written ← py_write_file tmp header;
     st_lift (raise_if (negb (written =? BLOCK_FIRST_HEADER_SIZE))
       (RuntimeError "block-first header write incomplete"));;
     st_lift (py_assert (ge_cufile e));;
     gds_synchronize;;
     with_cu_file tmp "r+" (ge_use_direct_io e) (st_iter (gds_store_run tmp d) (runs d));;
     actual_size ← os_getsize tmp;
     st_lift (raise_if (negb (actual_size =? BLOCK_FIRST_HEADER_SIZE + io_nbytes m))
       (RuntimeError "direct GDS file size mismatch"));;
     os_replace tmp path)
    (discard_tmp tmp).

Definition gds_check_store e d : result BlockFirstDiskMetadata :=
  gds_validate_descriptor e d STORE;;
  m ← gds_direct_metadata e;
  raise_if (block_size m =? 0) ZeroDivisionError;;
  let chunk_blocks := valid_tokens m / block_size m in
  raise_if (negb (logical_block_start d =? 0) || negb (logical_block_count d =? chunk_blocks))
    (ValueError "direct store must cover the complete LMCache chunk");;
  raise_if (negb (transferred_nbytes d =? payload_nbytes m))
    (ValueError "direct store byte count does not match the file payload");;
  raise_if (negb (payload_nbytes m =? io_nbytes m))
    (ValueError "direct store payload requires unsupported tail padding");;
  mret m.

Definition save_direct_gds e (path : string) d : ST gds_io BlockFirstDiskMetadata :=
  m ← st_lift (gds_check_store e d);
  gds_ensure_registration e d;;
  on_gds (gds_write_direct_file e path d m);;
  mret m.

(** ** Direct retrieve *)

(** [with open(path, "rb") as f: unpack_block_first_header(f.read(BLOCK_FIRST_HEADER_SIZE))] *)
Definition gds_read_header (path : string) : ST world BlockFirstDiskMetadata :=
  fd ← os_open path O_RDONLY;
  st_finally (header ← os_pread fd BLOCK_FIRST_HEADER_SIZE;
              st_lift (unpack_block_first_header (Dt := Dt) header)) (os_close fd).

(** The header and size checks of [_load_direct_gds]; [env] is what other threads do to the
    files between the two reads. *)
Definition gds_prepare_direct e (env : world -> world) (path : string)
    (disk_metadata : BlockFirstDiskMetadata) d : ST world unit :=
  st_lift (gds_validate_descriptor e d RETRIEVE);;
  current_metadata ← gds_read_header path;
  st_lift (raise_if (bool_decide (current_metadata <> disk_metadata))
    (BlockFirstFormatError "block-first header changed after indexing"));;
  st_modify env;;
  actual_size ← os_getsize path;
  st_lift (raise_if (negb (actual_size =? BLOCK_FIRST_HEADER_SIZE + io_nbytes disk_metadata))
    (BlockFirstFormatError "block-first payload size changed after indexing"));;
  match ge_shapes e, ge_dtypes e with
  | shape :: _, dt :: _ =>
      st_lift (validate_runtime disk_metadata shape dt (ge_layout e) (desc_block_size d))
  | _, _ => st_raise IndexError
  end.

(** One read that must be complete: base address, size, file offset, device offset *)
Definition gds_read_exact (path msg : string) (r : Z * Z * Z * Z) : ST world unit :=
  let '(base, size, fo, dof) := r in
  ret ← cu_read path base size fo dof;
  st_lift (raise_if (negb (moved size ret)) (RuntimeError msg)).

Definition gds_device_copy (dst src size : Z) : ST world unit :=
  if negb libcudart_present then st_raise (OSError "libcudart.so")
  else
    res ← lib (cudaMemcpyDtoD dst src size);
    if negb (res =? 0) then st_raise (RuntimeError "cudaMemcpyDeviceToDevice failed") else mret tt.

Definition gds_copy_leading_edge e d (edge : DirectIOLeadingEdge) (scratch_base : Z)
    : ST world unit :=
  m ← st_lift (gds_direct_metadata e);
  dt ← st_lift (torch_dtype (Dt := Dt) m);
  let row_nbytes := hidden_dim m * itemsize dt in
  let copy_nbytes := edge_token_count edge * row_nbytes in
  st_iter (fun '(layer, kv_index) =>
      let row_index := (layer * 2 + kv_index) * desc_block_size d in
      let edge_offset := (row_index + edge_token_offset edge) * row_nbytes in
      gds_device_copy
        (allocation_base d + edge_physical_block edge * block_nbytes d + edge_offset)
        (scratch_base + edge_offset) copy_nbytes)
    (layer ← rangeZ 0 (Z.to_nat (num_layers m)); kv ← [0; 1]; [(layer, kv)]).

(** The one-block scratch allocation, made on first use *)
Definition gds_edge_staging (block_nbytes : Z) : ST gds_io gds_edge :=
  s ← st_get;
  match g_edge s with
  | Some ed =>
      if negb (ed_numel ed =? block_nbytes) then
        st_raise (RuntimeError "direct edge block size changed at runtime")
      else mret ed
  | None =>
      base ← on_cufile (cufile_pool block_nbytes);
      address ← on_cufile (cufile_pool_alloc base block_nbytes);
      match address with
      | None =>
          on_cufile (cufile_pool_close base);;
          st_raise (RuntimeError "failed to allocate one-block direct edge scratch")
      | Some a =>
          let ed := GdsEdge base block_nbytes a in
          st_modify (gds_with_edge (Some ed));;
          mret ed
      end
  end.

(** The scratch block's reference is dropped with its pool. *)
Definition gds_close_edge : ST gds_io unit :=
  s ← st_get;
  match g_edge s with
  | Some ed => on_cufile (cufile_pool_close (ed_base ed))
  | None => mret tt
  end;;
  st_modify (gds_with_edge None).

Definition gds_run_read d (run : DirectIOBlockRun) : Z * Z * Z * Z :=
  (allocation_base d, run_block_count run * block_nbytes d,
   file_payload_offset d + run_logical_block_start run * block_nbytes d,
   run_physical_block_start run * block_nbytes d).

Definition gds_transfer_edge e (path : string) d (edge : DirectIOLeadingEdge) : ST gds_io unit :=
  ed ← gds_edge_staging (block_nbytes d);
  on_gds (
    gds_read_exact path "direct GDS edge read incomplete"
      (ed_base ed, block_nbytes d,
       file_payload_offset d + edge_logical_block edge * block_nbytes d, ed_address ed);;
    gds_copy_leading_edge e d edge (ed_base ed + ed_address ed)).

(** The reads of [with self.cufile.CuFile(path, "r", ...)] *)
Definition gds_read_direct e (path : string) d : ST gds_io unit :=
  match leading_edge d with
  | Some edge => gds_transfer_edge e path d edge
  | None => mret tt
  end;;
  on_gds (st_iter (fun run => gds_read_exact path "direct GDS read incomplete" (gds_run_read d run))
    (runs d)).

Definition load_direct_gds e (env : world -> world) (path : string)
    (disk_metadata : BlockFirstDiskMetadata) d : ST gds_io unit :=
  on_gds (gds_prepare_direct e env path disk_metadata d);;
  gds_ensure_registration e d;;
  on_gds (st_lift (py_assert (ge_cufile e)));;
  on_gds gds_synchronize;;
  on_gds (cu_enter path "r" (ge_use_direct_io e));;
  st_finally (gds_read_direct e path d) (on_gds (cu_exit path));;
  on_gds gds_synchronize.

(** ** The legacy layout *)

Definition nbytes t : Z := prodZ (dt_shape t) * itemsize (dt_dtype t).

(** By a shared mapping of the file; a failing [ftruncate] or [mmap] leaves the descriptor
    open. *)
Definition save_mapped (tmp_path : string) t (addr device_offset : Z) : ST world unit :=
  fd ← os_open tmp_path O_RDWR;
  os_ftruncate fd (nbytes t + GDS_METADATA_MAX_SIZE);;
  may_fail;;
  os_close fd;;
  st_lift (py_assert (negb (addr =? 0)));;
  res ← lib (cudaMemcpyDtoMap tmp_path GDS_METADATA_MAX_SIZE (addr + device_offset) (nbytes t));
  st_lift (raise_if (negb (res =? 0)) (RuntimeError "cudaMemcpy failed")).

(** The count a cuFile write returns is not looked at. *)
Definition save_gds e (path tmp : string) t (fmt : string) (base_pointer : option Z)
    (device_offset : Z) : ST world (list Z) :=
  let '(addr, dev_offset) := match base_pointer with
    | None => (dt_ptr t, 0)
    | Some b => (b, device_offset)
    end in
  let tmp_path := path +:+ tmp in
  metadata ← st_lift (gds_pack_metadata (dt_shape t) (dt_dtype t) fmt
    [("lmcache_version", str_int GDS_METADATA_VERSION)]);
  _ ← py_write_file tmp_path metadata;
  (if ge_cufile e then
     _ ← with_cu_file tmp_path "r+" (ge_use_direct_io e)
       (cu_write tmp_path addr (nbytes t) GDS_METADATA_MAX_SIZE dev_offset);
     mret tt
   else save_mapped tmp_path t addr device_offset);;
  os_replace tmp_path path;;
  mret metadata.

(** The length of the file is not compared with the range that is read. *)
Definition load_mapped (path : string) (file_offset gpu_pointer size dev_offset : Z)
    : ST world (option Z) :=
  fd ← os_open path O_RDONLY;
  st ← os_fstat fd;
  st_lift (raise_if (st.2 =? 0) (ValueError "cannot mmap an empty file"));;
  may_fail;;
  os_close fd;;
  st_lift (py_assert (negb (gpu_pointer =? 0)));;
  res ← lib (cudaMemcpyMapToD (gpu_pointer + dev_offset) path file_offset size);
  st_lift (raise_if (negb (res =? 0)) (RuntimeError "cudaMemcpy failed"));;
  mret (Some size).

Definition load_gds e (path : string) (file_offset gpu_pointer size dev_offset : Z)
    : ST world (option Z) :=
  if ge_cufile e then
    with_cu_file path "r" (ge_use_direct_io e) (cu_read path gpu_pointer size file_offset dev_offset)
  else load_mapped path file_offset gpu_pointer size dev_offset.

(** ** Block-first through the staging buffer *)

Definition gds_stream_synchronize : ST stream_state unit :=
  on_stream gds_synchronize;;
  st_modify (fun s => StreamState (run_kernels (pending s) (st_world s)) [] (schedule s)).

Definition gds_sync_if (is_cuda : bool) : ST stream_state unit :=
  if is_cuda then gds_stream_synchronize else mret tt.

(** [_block_first_staging_allocator] with [_block_first_staging_obj], of the chunk's shape *)
Definition gds_check_staging (staging : option (block_staging Dt)) (m : BlockFirstDiskMetadata)
    : result (block_staging Dt) :=
  match staging with
  | None => Raise (RuntimeError "block_first_v1 staging buffer is unavailable")
  | Some sg =>
      raise_if (bool_decide (dt_shape (sg_tensor sg) <> payload_shape m))
        (BlockFirstFormatError "block-first staging shape mismatch");;
      mret sg
  end.

(** [sched] is what kernels have run by each transfer. *)
Definition save_block_first_gds e (staging : option (block_staging Dt)) (sched : list nat)
    (path : string) t : ST world BlockFirstDiskMetadata :=
  m ← st_lift (gds_make_block_first_metadata e (dt_shape t) (dt_dtype t));
  sg ← st_lift (gds_check_staging staging m);
  st_lift (raise_if (negb (ge_cufile e)) (RuntimeError "block_first_v1 requires cuFile"));;
  let tmp := path +:+ GDS_BLOCK_FIRST_SUFFIX_TMP in
  let cuda := is_cuda_device (dt_device (sg_tensor sg)) in
  st_catch any_exn
    (in_stream sched (
      launch cuda (zero_kernel (sg_base sg) (sg_size sg));;
      bs ← st_lift (result_of_option AssertionError (ge_block_size e));
      tensor_op cuda (fun mm => logical_to_block_first mm t bs (Some (sg_tensor sg)));;
      gds_sync_if cuda;;
      header ← st_lift (pack_block_first_header m);
      written ← on_stream (py_write_file tmp header);
      st_lift (raise_if (negb (written =? BLOCK_FIRST_HEADER_SIZE))
        (RuntimeError "block-first header write incomplete"));;
      ret ← dma (with_cu_file tmp "r+" (ge_use_direct_io e)
        (cu_write tmp (sg_base sg) (io_nbytes m) BLOCK_FIRST_HEADER_SIZE (sg_address sg)));
      st_lift (raise_if (negb (moved (io_nbytes m) ret))
        (RuntimeError "block-first GDS write incomplete"));;
      actual_size ← on_stream (os_getsize tmp);
      st_lift (raise_if (negb (actual_size =? BLOCK_FIRST_HEADER_SIZE + io_nbytes m))
        (RuntimeError "block-first GDS file size mismatch"));;
      on_stream (os_replace tmp path)))
    (discard_tmp tmp);;
  mret m.

Definition load_block_first_gds e (staging : option (block_staging Dt)) (sched : list nat)
    (path : string) (dm : BlockFirstDiskMetadata) (out : dtensor Dt torch_device)
    : ST world (option Z) :=
  current ← gds_read_header path;
  st_lift (raise_if (bool_decide (current <> dm))
    (BlockFirstFormatError "block-first header changed after indexing"));;
  size ← os_getsize path;
  st_lift (raise_if (negb (size =? BLOCK_FIRST_HEADER_SIZE + io_nbytes dm))
    (BlockFirstFormatError "block-first payload size changed after indexing"));;
  sg ← st_lift (gds_check_staging staging dm);
  let cuda := is_cuda_device (dt_device (sg_tensor sg)) in
  in_stream sched (
    launch cuda (zero_kernel (sg_base sg) (sg_size sg));;
    gds_sync_if cuda;;
    ret ← dma (load_gds e path BLOCK_FIRST_HEADER_SIZE (sg_base sg) (io_nbytes dm) (sg_address sg));
    if negb (bool_decide (ret = Some (io_nbytes dm))) then mret ret
    else
      gds_sync_if cuda;;
      tensor_op cuda (fun mm => block_first_to_logical mm (sg_tensor sg) (Some out));;
      gds_sync_if (is_cuda_device (dt_device out));;
      mret ret).

End files.
