(* ===== verification/GdsDirect.v ===== *)
(** * Direct I/O of the GDS backend

    What [save_direct_gds] leaves in the file and [load_direct_gds] in device memory, over the
    cuFile package: the checks imply those of the XDS backend, whose lemmas on staged runs
    and on loaded ranges are shared. *)

From S2P Require Import Prelude Tensor Codec BlockFirst DirectIO World WorldIO HipFile XdsFiles XdsLoad XdsPaths XdsMeta Dict XdsIndex DeviceTensor XdsStaged XdsGpuStage CuFile GdsMeta GdsFiles.

Open Scope string_scope.
Open Scope list_scope.
Open Scope Z_scope.

(** What the XDS backend would read of the same engine; its driver is never used. *)
Definition as_xds {Dt} (e : gds_engine Dt) : xds_engine Dt :=
  XdsEngine _ (ge_chunk_size e) (ge_block_size e) (ge_shapes e) (ge_dtypes e) (ge_layout e)
    (ge_direct_enabled e) (ge_dst_device e) (MkHyFileDDS false false).

Lemma on_gds_triple {A} (P : world -> Prop) (m : ST world A) Q E R :
  triple P m Q E ->
  triple (fun s => P (g_world s) /\ R (g_registrations s) (g_edge s)) (on_gds m)
    (fun a s => Q a (g_world s) /\ R (g_registrations s) (g_edge s))
    (fun e s => E e (g_world s) /\ R (g_registrations s) (g_edge s)).
Proof.
  intros Hm [w rg ed bufs ps] [Hw Hr]. unfold on_gds. simpl in *. specialize (Hm w Hw).
  by destruct (m w) as [[a|ex] w'].
Qed.

Lemma on_gds_triple' {A} (P : world -> Prop) (m : ST world A) Q E :
  triple P m Q E ->
  triple (fun s => P (g_world s)) (on_gds m) (fun a s => Q a (g_world s)) (fun e s => E e (g_world s)).
Proof.
  intros Hm [w rg ed bufs ps] Hw. unfold on_gds. simpl in *. specialize (Hm w Hw).
  by destruct (m w) as [[a|ex] w'].
Qed.

(** A call that takes or gives back a resource *)
Lemma on_cufile_triple {A} (m : ST cu_process A) (P : world -> Prop) fs k R :
  quiet_on_files m -> io_closed P ->
  triple (fun s => (P (g_world s) /\ fds_at fs k (g_world s)) /\ R (g_edge s)) (on_cufile m)
    (fun _ s => (P (g_world s) /\ fds_at fs k (g_world s)) /\ R (g_edge s))
    (fun _ s => (P (g_world s) /\ fds_at fs k (g_world s)) /\ R (g_edge s)).
Proof.
  intros Hm HP s [[Hw [Hd Hn]] Hr]. unfold on_cufile.
  destruct (Hm (cu_of s)) as (Hf & Hfd & Hfr & _ & Hmem).
  destruct (m _) as [[a|e] p]; simpl in *;
    (split; [split; [by apply (HP (g_world s))|split; [by rewrite Hfd|by rewrite Hfr]]|done]).
Qed.

Section direct.
Context {Dt : Type} `{!TorchDtype Dt} {JC : JsonCodec} {CL : CuFileLib} {CLL : CuFileLaws}.
Implicit Types (e : gds_engine Dt) (d : DirectIODescriptor).

(** ** The checks *)

(** An accepted descriptor has no byte segments and passes the XDS backend's checks. *)
Lemma gds_validate_view e d dir :
  gds_validate_descriptor e d dir = Ok tt ->
  validate_direct_descriptor (as_xds e) d dir = Ok tt /\ byte_segments d = [].
Proof.
  unfold gds_validate_descriptor, validate_direct_descriptor. intros H.
  destruct (byte_segments d) eqn:Hseg; [|res_inv; done]. split; [|done].
  res_inv. cbn [xe_direct_enabled xe_block_size xe_dst_device xe_chunk_size as_xds].
  change (one_group (as_xds e)) with (gds_one_group e).
  match goal with Hv : DirectIO.validate d true true = Ok ?u |- _ => destruct u; rewrite Hv end.
  assert (devices_match (ge_dst_device e) (device d) = true) as ->.
  { unfold devices_match. bool_prop. apply andb_true_iff. split; [rewrite String.eqb_sym; done|].
    destruct (dev_index (ge_dst_device e)); [|done]. apply bool_decide_eq_true.
    match goal with Hx : _ \/ _ |- _ => destruct Hx as [Hx|Hx]; [done|]; bool_prop;
      apply dec_stable in Hx; congruence end. }
  repeat match goal with Hx : ?b = false |- context [raise_if ?b _] => rewrite Hx end.
  destruct (gds_one_group e) as [[sh dt]|]; [exact H|done].
Qed.

Lemma gds_direct_metadata_Ok e m :
  gds_direct_metadata e = Ok m -> make_direct_block_first_metadata (as_xds e) = Ok m.
Proof.
  unfold gds_direct_metadata, make_direct_block_first_metadata.
  change (one_group (as_xds e)) with (gds_one_group e). by destruct (gds_one_group e) as [[sh dt]|].
Qed.

Lemma gds_check_store_Ok e d m :
  gds_check_store e d = Ok m ->
  DirectIO.validate d true true = Ok tt /\ direction d = STORE /\ logical_block_start d = 0
  /\ io_nbytes m = logical_block_count d * block_nbytes d
  /\ gds_direct_metadata e = Ok m /\ logical_block_count d = valid_tokens m / block_size m.
Proof.
  unfold gds_check_store, gds_validate_descriptor. intros H. res_inv. subst. bool_prop.
  match goal with Hv : DirectIO.validate d true true = Ok ?u |- _ => destruct u end.
  match goal with Hd : ¬ (direction d <> STORE) |- _ => apply dec_stable in Hd end.
  assert (byte_segments d = []) as Hseg by (by destruct (byte_segments d)).
  unfold transferred_nbytes in *. rewrite Hseg in *. repeat split; done || lia.
Qed.

(** ** Steps that leave files and memory alone *)

Lemma gds_synchronize_triple P fs k :
  io_closed P ->
  triple (fun w => P w /\ fds_at fs k w) gds_synchronize (fun _ w => P w /\ fds_at fs k w)
    (fun _ w => P w /\ fds_at fs k w).
Proof.
  intros HP. unfold gds_synchronize. eapply triple_bind.
  - eapply triple_conseq; [apply (lib_quiet_triple device_synchronize P fs k HP)|done|done|intros ? ? []].
    intros w. apply device_synchronize_quiet.
  - intros r. by apply triple_lift.
Qed.

(** A new registration changes neither files nor memory nor the scratch block. *)
Lemma gds_ensure_triple e d P fs k R :
  io_closed P ->
  triple (fun s => (P (g_world s) /\ fds_at fs k (g_world s)) /\ R (g_edge s))
    (gds_ensure_registration e d)
    (fun _ s => (P (g_world s) /\ fds_at fs k (g_world s)) /\ R (g_edge s))
    (fun _ s => (P (g_world s) /\ fds_at fs k (g_world s)) /\ R (g_edge s)).
Proof.
  intros HP. set (I := fun s => (P (g_world s) /\ fds_at fs k (g_world s)) /\ R (g_edge s)).
  unfold gds_ensure_registration. apply (triple_bind _ _ _ (fun _ => I)); [by intros s Hs|]. intros s0.
  destruct (gds_registered s0 _); [by intros s Hs|].
  apply (triple_bind _ _ _ (fun _ => I)); [by apply triple_lift|]. intros [].
  apply (triple_bind _ _ _ (fun _ => I)); [|by intros [] s Hs].
  apply on_cufile_triple; [apply cu_register_quiet|done].
Qed.

(** ** Store *)

Section store.
Context (w0 : world) (tmp : string) (d : DirectIODescriptor) (header : list Z).
Context (Hbn : 0 < block_nbytes d) (Hoff : file_payload_offset d = BLOCK_FIRST_HEADER_SIZE).

Lemma gds_store_run_triple L r fs k :
  0 <= L -> run_logical_block_start r = L -> 0 < run_block_count r ->
  (forall b, L <= b < L + run_block_count r ->
     runs_block (runs d) b = Some (run_physical_block_start r + (b - L))) ->
  triple (fun w => staged w0 tmp d header L w /\ fds_at fs k w) (gds_store_run tmp d r)
    (fun _ w => staged w0 tmp d header (L + run_block_count r) w /\ fds_at fs k w)
    (fun _ w => keeps_files [tmp] w0 w /\ fds_at fs k w).
Proof.
  intros HL0 Hr Hc Hruns w [Hst Hfd]. pose proof Hst as [Hk (f & Hf & Hlen & _)].
  unfold gds_store_run. rewrite Hoff, Hr.
  set (size := run_block_count r * block_nbytes d).
  set (fo := BLOCK_FIRST_HEADER_SIZE + L * block_nbytes d) in *.
  assert (0 <= size) as Hsz by (unfold size; nia).
  assert (0 <= fo <= lenZ f) as Hfo by (unfold fo, BLOCK_FIRST_HEADER_SIZE in *; nia).
  pose proof (cu_write_triple w0 tmp f (allocation_base d) size fo
    (run_physical_block_start r * block_nbytes d) fs k Hfo Hsz w (conj (conj Hk Hf) Hfd)) as Hw.
  unfold mbind, ST_bind. destruct (cu_write _ _ _ _ _ w) as [[ret|ex] w1]; [|done].
  destruct Hw as [[Hk1 (c & _ & Hc1 & Hm)] Hfd1]. unfold st_lift.
  destruct (moved size ret); cbn; [|done]. rewrite (Hm eq_refl) in Hc1.
  destruct (write_at_slice f fo (mem w0)
    (allocation_base d + run_physical_block_start r * block_nbytes d) size Hfo Hsz) as [Htk Hb].
  split; [|done]. eapply (stage_run w0 tmp d header); eassumption.
Qed.

End store.

Lemma gds_write_direct_triple e path d m (w0 : world) fs k :
  (forall fd, is_Some (fs !! fd) -> fd < k) ->
  DirectIO.validate d true true = Ok tt -> direction d = STORE -> logical_block_start d = 0 ->
  io_nbytes m = logical_block_count d * block_nbytes d ->
  (forall h, pack_block_first_header m = Ok h -> lenZ h = BLOCK_FIRST_HEADER_SIZE) ->
  triple (fun w => keeps_files [] w0 w /\ fds_at fs k w) (gds_write_direct_file e path d m)
    (fun _ w => (keeps_files [tmp_of path; path] w0 w /\ files w !! tmp_of path = None
       /\ exists header, pack_block_first_header m = Ok header
          /\ content w path = Some (header ++ direct_payload w0 d)) /\ fds_at fs k w)
    (fun ex w => rolled_back w0 (tmp_of path) ex w /\ fds_at fs k w).
Proof.
  intros Hfs Hv Hdir Hls Hio Hpack. unfold gds_write_direct_file.
  change (path +:+ GDS_BLOCK_FIRST_SUFFIX_TMP) with (tmp_of path).
  destruct (validate_store_runs d true true Hv Hdir) as (_ & _ & Hbn & Hlc & _ & Hoff & Hruns).
  rewrite Hls in Hruns. set (tmp := tmp_of path).
  apply triple_catch with (E' := fun _ w => keeps_files [tmp] w0 w /\ fds_at fs k w);
    [|intros ex; eapply triple_conseq;
      [apply (discard_tmp_triple tmp ex w0 fs k)|done|intros ? ? []|done]].
  apply (write_header_triple path d m w0 fs k); [done..|]. intros header written Hh.
  specialize (Hpack header Hh). fold tmp.
  eapply triple_bind; [apply staged_lift|]. intros [].
  eapply triple_bind; [apply staged_lift|]. intros [].
  apply (triple_bind _ _ _ (fun _ w => staged w0 tmp d header 0 w /\ fds_at fs k w)).
  { eapply triple_exn; [apply gds_synchronize_triple, staged_closed|]. by intros ex w [[Hw _] Hf]. }
  intros []. apply (triple_bind _ _ _
    (fun _ w => staged w0 tmp d header (logical_block_count d) w /\ fds_at fs k w)).
  { apply (with_cu_file_triple tmp "r+" _ _ (staged w0 tmp d header 0)
      (fun _ => staged w0 tmp d header (logical_block_count d)) (keeps_files [tmp] w0)).
    - apply staged_closed.
    - intros _. apply staged_closed.
    - apply keeps_files_closed.
    - by intros w [Hw _].
    - by intros _ w [Hw _].
    - pose proof (stage_runs_triple w0 tmp d header (gds_store_run tmp d) fs k (runs d) _ 0 0 _
        (fun L r => gds_store_run_triple w0 tmp d header Hbn Hoff L r fs k)
        ltac:(lia) Hruns ltac:(done)) as Ht.
      by replace (0 + (logical_block_count d - 0)) with (logical_block_count d) in Ht by lia. }
  intros []. eapply triple_conseq; [by apply (finish_staged_triple path d header m w0)| | |].
  - intros w Hw. exact Hw.
  - intros u w [(H1 & H2 & H3) Hf]. split; [|done]. eauto.
  - intros ex w Hw. exact Hw.
Qed.

Lemma save_direct_gds_triple e path d m (w0 : world) fs k :
  (forall fd, is_Some (fs !! fd) -> fd < k) -> gds_check_store e d = Ok m ->
  (forall h, pack_block_first_header m = Ok h -> lenZ h = BLOCK_FIRST_HEADER_SIZE) ->
  triple (fun s => keeps_files [] w0 (g_world s) /\ fds_at fs k (g_world s))
    (save_direct_gds e path d)
    (fun r s => r = m /\ (keeps_files [tmp_of path; path] w0 (g_world s)
       /\ files (g_world s) !! tmp_of path = None
       /\ exists header, pack_block_first_header m = Ok header
          /\ content (g_world s) path = Some (header ++ direct_payload w0 d))
       /\ fds_at fs k (g_world s))
    (fun ex s => (keeps_files [] w0 (g_world s) \/ rolled_back w0 (tmp_of path) ex (g_world s))
       /\ fds_at fs k (g_world s)).
Proof.
  intros Hfs Hck Hpack. unfold save_direct_gds. rewrite Hck.
  destruct (gds_check_store_Ok e d m Hck) as (Hv & Hdir & Hls & Hio & _).
  intros s Hs. unfold mbind at 1, ST_bind at 1. simpl. revert s Hs.
  apply (triple_bind _ _ _ (fun _ s => keeps_files [] w0 (g_world s) /\ fds_at fs k (g_world s))).
  { eapply triple_conseq; [apply (gds_ensure_triple e d (keeps_files [] w0) fs k (fun _ => True)),
      keeps_files_closed|done|by intros u s [H _]|].
    intros ex s [[Hk Hf] _]. split; [by left|done]. }
  intros []. eapply triple_bind.
  - eapply triple_exn; [apply (on_gds_triple' (fun w => keeps_files [] w0 w /\ fds_at fs k w)),
      (gds_write_direct_triple e path d m w0 fs k); done|].
    intros ex s [Hr Hf]. split; [by right|done].
  - intros [] s Hs. simpl. done.
Qed.

(** ** Retrieve *)

Context {TL : TorchDtypeLaws Dt}.

(** The scratch block's place *)
Definition edge_region (ed : gds_edge) : Z * Z := (ed_base ed + ed_address ed, ed_numel ed).

(** The scratch block, in place or as the pool would give it, is not memory the descriptor
    reads into. *)
Definition edge_apart e d (o : option gds_edge) : Prop :=
  let apart p n := forall x a, device_address (row_nbytes (as_xds e)) d x = Some a -> ~ p <= a < p + n in
  match o with
  | Some ed => apart (ed_base ed + ed_address ed) (ed_numel ed)
  | None => forall n p b p1 a, cufile_pool n p = (Ok b, p1) ->
      (cufile_pool_alloc b n p1).1 = Ok (Some a) -> apart (b + a) n
  end.

Section run.
Context (e : gds_engine Dt) (path : string) (d : DirectIODescriptor) (nl : Z) (f : list Z)
  (w0 : world) (fs : gmap Z open_file) (k : Z).
Context (Hf : content w0 path = Some f) (Hgeo : XdsLoad.geometry (as_xds e) d nl f)
  (Hseg : byte_segments d = []) (Hdist : addresses_distinct (row_nbytes (as_xds e)) d).

Let addr := device_address (row_nbytes (as_xds e)) d.
Let scratch (o : option gds_edge) := in_scratch (edge_region <$> o).

(** The file bytes of [D] are in place, and the scratch block is [o]. *)
Definition gds_loaded (o : option gds_edge) (D : Z -> Prop) (s : gds_io) : Prop :=
  (loaded w0 f addr (scratch o) D (g_world s) /\ fds_at fs k (g_world s)) /\ g_edge s = o.

Definition gds_part (s : gds_io) : Prop :=
  part_loaded w0 addr (scratch (g_edge s)) (g_world s) /\ fds_at fs k (g_world s).

Lemma on_gds_loaded {A} (m : ST world A) o D D' :
  triple (fun w => loaded w0 f addr (scratch o) D w /\ fds_at fs k w) m
    (fun _ w => loaded w0 f addr (scratch o) D' w /\ fds_at fs k w)
    (fun _ w => part_loaded w0 addr (scratch o) w /\ fds_at fs k w) ->
  triple (gds_loaded o D) (on_gds m) (fun _ => gds_loaded o D') (fun _ => gds_part).
Proof.
  intros Hm. eapply triple_conseq; [apply (on_gds_triple _ _ _ _ (fun _ o' => o' = o) Hm)| | |].
  - intros s [Hs Ht]. done.
  - intros a s [Hs Ht]. done.
  - intros ex s [Hs <-]. done.
Qed.

(** Calls that move no bytes *)
Lemma quiet_loaded {A} (m : ST world A) o D :
  quiet_call m -> triple (gds_loaded o D) (on_gds m) (fun _ => gds_loaded o D) (fun _ => gds_part).
Proof.
  intros Hq. apply on_gds_loaded. eapply triple_exn; [apply (quiet_triple m _ fs k Hq), loaded_closed|].
  intros ex w [Hl Hfd]. split; [by eapply loaded_part|done].
Qed.

Lemma resource_loaded {A} (m : ST cu_process A) o D :
  quiet_on_files m -> triple (gds_loaded o D) (on_cufile m) (fun _ => gds_loaded o D) (fun _ => gds_part).
Proof.
  intros Hq. eapply triple_exn; [apply (on_cufile_triple m _ fs k (fun o' => o' = o) Hq), loaded_closed|].
  intros ex s [[Hl Hfd] <-]. split; [by eapply loaded_part|done].
Qed.

Lemma synchronize_quiet_call : quiet_call gds_synchronize.
Proof.
  intros w. unfold gds_synchronize, lib, st_lift, mbind, ST_bind.
  pose proof (device_synchronize_quiet w) as H. by destruct (device_synchronize w) as [[u|ex] w'].
Qed.

Lemma gds_read_triple msg r o D :
  read_ok f addr r ->
  triple (fun w => loaded w0 f addr (scratch o) D w /\ fds_at fs k w) (gds_read_exact path msg r)
    (fun _ w => loaded w0 f addr (scratch o) (fun x => D x \/ read_covers r x) w /\ fds_at fs k w)
    (fun _ w => part_loaded w0 addr (scratch o) w /\ fds_at fs k w).
Proof.
  destruct r as [[[base size] fo] dof]. intros Hok w [Hl [Hd Hk]].
  pose proof (loaded_content _ _ _ _ _ Hf D w Hl) as Hc. pose proof Hok as (_ & Hfo & _).
  pose proof (cu_read_frame path base size fo dof w) as (Q1 & Q2 & Q3 & _ & Q5).
  pose proof (fun r => cu_read_complete path base size fo dof w f r Hfo Hc) as Hdone.
  unfold gds_read_exact, mbind, ST_bind. destruct (cu_read _ _ _ _ _ w) as [[ret|ex] w1]; cbn in Q1, Q2, Q3, Q5, Hdone;
    (assert (read_frame (base, size, fo, dof) w w1) as Hfr by done);
    (pose proof (read_part w0 f addr (scratch o) (base, size, fo, dof) D w w1 Hok Hl Hfr) as Hp);
    (assert (fds_at fs k w1) as Hfd by (split; [congruence|by rewrite Q3])); [|done].
  unfold st_lift. destruct (moved size ret) eqn:Hm; cbn; [|done]. split; [|done].
  apply (read_adds w0 f addr (scratch o) Hdist (base, size, fo, dof) D w w1 Hok Hl Hfr). by apply (Hdone ret).
Qed.

(** The edge's block, read into the scratch block *)
Lemma gds_edge_read_triple msg base address edge D :
  let ed := GdsEdge base (block_nbytes d) address in
  leading_edge d = Some edge ->
  (forall x a, addr x = Some a -> ~ base + address <= a < base + address + block_nbytes d) ->
  triple (fun w => loaded w0 f addr (scratch (Some ed)) D w /\ fds_at fs k w)
    (gds_read_exact path msg (base, block_nbytes d,
       BLOCK_FIRST_HEADER_SIZE + edge_logical_block edge * block_nbytes d, address))
    (fun _ w => (loaded w0 f addr (scratch (Some ed)) D w
        /\ staging_holds f d edge (base + address) w) /\ fds_at fs k w)
    (fun _ w => part_loaded w0 addr (scratch (Some ed)) w /\ fds_at fs k w).
Proof.
  intros ed Hedge Hap w [Hl [Hd Hk]]. destruct Hgeo as [Hv Hbn _ _ _ _ Hlen]. specialize (Hlen edge Hedge).
  destruct (edge_range f d edge nl _ Hv Hseg Hedge Hbn Hlen) as (Hb & Hfo & Hend).
  set (fo := BLOCK_FIRST_HEADER_SIZE + edge_logical_block edge * block_nbytes d) in *.
  pose proof (loaded_content _ _ _ _ _ Hf D w Hl) as Hc.
  pose proof (cu_read_frame path base (block_nbytes d) fo address w) as (Q1 & Q2 & Q3 & _ & Q5).
  pose proof (fun r => cu_read_complete path base (block_nbytes d) fo address w f r Hfo Hc) as Hdone.
  unfold gds_read_exact, mbind, ST_bind.
  destruct (cu_read _ _ _ _ _ w) as [[ret|ex] w1]; cbn in Q1, Q2, Q3, Q5, Hdone;
    (assert (loaded w0 f addr (scratch (Some ed)) D w1) as Hl1
      by exact (XdsLoad.staging_only w0 f d (base + address) (row_nbytes (as_xds e)) Hap D w w1 Hl Q1 Q5));
    (assert (fds_at fs k w1) as Hfd by (split; [congruence|by rewrite Q3])).
  2:{ split; [by eapply loaded_part|done]. }
  unfold st_lift. destruct (moved (block_nbytes d) ret) eqn:Hm; cbn; [|split; [by eapply loaded_part|done]].
  split; [|done]. split; [done|]. intros i Hi. by apply (Hdone ret).
Qed.

(** One layer's K or V rows out of the scratch block *)
Lemma gds_row_copy_triple base address edge l kv D :
  let ed := GdsEdge base (block_nbytes d) address in
  leading_edge d = Some edge -> 0 <= l < nl -> 0 <= kv < 2 ->
  (forall x a, addr x = Some a -> ~ base + address <= a < base + address + block_nbytes d) ->
  let rn := row_nbytes (as_xds e) in
  triple (fun w => (loaded w0 f addr (scratch (Some ed)) D w
      /\ staging_holds f d edge (base + address) w) /\ fds_at fs k w)
    (gds_device_copy
       (allocation_base d + edge_physical_block edge * block_nbytes d + row_offset d edge rn (l, kv))
       (base + address + row_offset d edge rn (l, kv)) (edge_token_count edge * rn))
    (fun _ w => (loaded w0 f addr (scratch (Some ed)) (fun x => D x \/ row_covers d edge rn (l, kv) x) w
      /\ staging_holds f d edge (base + address) w) /\ fds_at fs k w)
    (fun _ w => part_loaded w0 addr (scratch (Some ed)) w /\ fds_at fs k w).
Proof.
  intros ed Hedge Hl Hkv Hap rn w [[Hld Hst] [Hfd Hk]]. destruct Hgeo as [Hv Hbn Hrn Hnl _ _ _].
  pose proof (row_copied w0 f d edge (base + address) nl rn Hv Hseg Hedge Hbn Hrn Hdist Hap l kv D w)
    as Hcopied. unfold gds_device_copy.
  destruct libcudart_present; simpl; [|split; [by eapply loaded_part|done]].
  unfold lib, mbind, ST_bind.
  set (dst := allocation_base d + edge_physical_block edge * block_nbytes d + row_offset d edge rn (l, kv)) in *.
  set (src := base + address + row_offset d edge rn (l, kv)) in *. set (n := edge_token_count edge * rn) in *.
  pose proof (cu_dtod_frame dst src n w) as (Hf1 & Hf2 & Hf3 & _ & Hf4).
  pose proof (cu_dtod_complete dst src n w) as Hdone.
  destruct (cudaMemcpyDtoD dst src n w) as [res w1]. simpl in *.
  assert (fds_at fs k w1) as Hfd1 by (split; [congruence|by rewrite Hf3]).
  destruct (Hcopied w1 Hl Hkv Hld Hst Hf1 Hf4) as [Hpart Hdone'].
  destruct (Z.eqb_spec res 0) as [->|Hne]; simpl; (split; [|exact Hfd1]); [|exact Hpart].
  apply Hdone'. by apply Hdone.
Qed.

(** The scratch block is made on first use, and kept. *)
Lemma gds_edge_staging_triple o D :
  edge_apart e d o ->
  triple (gds_loaded o D) (gds_edge_staging (block_nbytes d))
    (fun ed s => (ed_numel ed = block_nbytes d
        /\ forall x a, addr x = Some a ->
             ~ ed_base ed + ed_address ed <= a < ed_base ed + ed_address ed + block_nbytes d)
       /\ gds_loaded (Some ed) D s)
    (fun _ => gds_part).
Proof.
  intros Hap. unfold gds_edge_staging.
  apply (triple_bind _ _ _ (fun s' s => g_edge s' = o /\ gds_loaded o D s)).
  { intros s Hs. simpl. split; [apply Hs|done]. }
  intros s'. apply triple_pure. intros ->. destruct o as [ed|].
  - destruct (Z.eqb_spec (ed_numel ed) (block_nbytes d)) as [Hn|Hne]; simpl.
    + intros s Hs. simpl. split; [|done]. split; [done|]. rewrite <- Hn. exact Hap.
    + intros s [[Hl Hfd] Ht]. simpl. split; [|done]. rewrite Ht. by eapply loaded_part.
  - apply (triple_bind _ _ _ (fun b s => (exists p, cufile_pool (block_nbytes d) p = (Ok b, cu_of s))
      /\ gds_loaded None D s)).
    { intros s Hs. pose proof (resource_loaded (cufile_pool (block_nbytes d)) None D
        (cufile_pool_quiet _) s Hs) as H. unfold on_cufile in *.
      destruct (cufile_pool (block_nbytes d) (cu_of s)) as [[b|ex] p1] eqn:E; [|done].
      split; [|done]. exists (cu_of s). rewrite E. by destruct p1. }
    intros b. apply (triple_bind _ _ _ (fun address s => (forall a, address = Some a ->
        forall x a', addr x = Some a' -> ~ b + a <= a' < b + a + block_nbytes d)
      /\ gds_loaded None D s)).
    { intros s [[p Hp] Hs]. pose proof (resource_loaded (cufile_pool_alloc b (block_nbytes d)) None D
        (cufile_pool_alloc_quiet _ _) s Hs) as H. unfold on_cufile in *.
      destruct (cufile_pool_alloc b (block_nbytes d) (cu_of s)) as [[address|ex] p1] eqn:E; [|done].
      split; [|done]. intros a ->. eapply Hap; [exact Hp|]. by rewrite E. }
    intros [a|]; apply triple_pure; intros Ha.
    + intros s [[Hl Hfd] Ht]. simpl. split; [split; [done|by apply Ha]|]. split; [|done].
      split; [|done]. simpl. eapply loaded_scratch; [|exact Hl]. by intros ? [].
    + apply (triple_bind _ _ _ (fun _ => gds_loaded None D)); [apply resource_loaded, cufile_pool_close_quiet|].
      intros [] s [[Hl Hfd] Ht]. simpl. split; [|done]. rewrite Ht. by eapply loaded_part.
Qed.

Lemma gds_copy_edge_triple base address edge D :
  let ed := GdsEdge base (block_nbytes d) address in
  leading_edge d = Some edge ->
  (forall x a, addr x = Some a -> ~ base + address <= a < base + address + block_nbytes d) ->
  triple (fun w => loaded w0 f addr (scratch (Some ed)) D w /\ fds_at fs k w)
    (gds_read_exact path "direct GDS edge read incomplete" (base, block_nbytes d,
       file_payload_offset d + edge_logical_block edge * block_nbytes d, address);;
     gds_copy_leading_edge e d edge (base + address))
    (fun _ w => loaded w0 f addr (scratch (Some ed))
       (fun x => D x \/ edge_covered (as_xds e) d edge x) w /\ fds_at fs k w)
    (fun _ w => part_loaded w0 addr (scratch (Some ed)) w /\ fds_at fs k w).
Proof.
  intros ed Hedge Hap. pose proof Hgeo as [Hv Hbn Hrn Hnl (shape & dt & Hg & Hnl') _ Hlen].
  specialize (Hlen edge Hedge). destruct (validate_common d Hv) as (_ & _ & _ & _ & ->).
  eapply triple_bind; [by apply gds_edge_read_triple|]. intros [].
  set (L := fun D w => (loaded w0 f addr (scratch (Some ed)) D w
    /\ staging_holds f d edge (base + address) w) /\ fds_at fs k w).
  assert (forall D w, L D w -> part_loaded w0 addr (scratch (Some ed)) w /\ fds_at fs k w) as Hpart.
  { intros D' w [[Hl _] Hfd]. split; [by eapply loaded_part|done]. }
  unfold gds_copy_leading_edge.
  eapply (triple_bind _ _ _ (fun m w => gds_direct_metadata e = Ok m /\ L D w)).
  { apply triple_lift; [by intros m Hm w Hw|]. intros ex _ w Hw. by eapply Hpart. }
  intros m. apply triple_pure. intros Hm%gds_direct_metadata_Ok.
  eapply (triple_bind _ _ _ (fun dt' w => torch_dtype m = Ok dt' /\ L D w)).
  { apply triple_lift; [by intros dt' Hm' w Hw|]. intros ex _ w Hw. by eapply Hpart. }
  intros dt'. apply triple_pure. intros Hdt.
  assert (make_block_first_metadata (as_xds e) shape dt = Ok m) as Hm'
    by (unfold make_direct_block_first_metadata in Hm; by rewrite Hg in Hm).
  destruct (metadata_rows (as_xds e) m shape dt dt' nl Hg Hnl' Hm' Hdt) as [Hl Hh].
  rewrite Hl, Hh. eapply triple_conseq.
  - apply (iter_cover L (fun _ w => part_loaded w0 addr (scratch (Some ed)) w /\ fds_at fs k w) _
      (row_covers d edge (row_nbytes (as_xds e)))).
    + intros D1 D2 w HD [[Hld Hst] Hfd]. split; [split; [by eapply loaded_iff|done]|done].
    + intros [l kv] D' Hin.
      apply list_elem_of_bind in Hin as (l' & Hin & Hl').
      apply list_elem_of_bind in Hin as (kv' & Hin & Hkv).
      apply list_elem_of_singleton in Hin. injection Hin as -> ->. apply elem_of_rangeZ in Hl'.
      exact (gds_row_copy_triple base address edge l' kv' D' Hedge ltac:(lia)
        ltac:(set_unfold; lia) Hap).
  - intros w Hw. exact Hw.
  - intros [] w [[Hld _] Hfd]. split; [|done]. eapply loaded_iff; [|exact Hld].
    intros x. cbv beta. rewrite (rows_covered w0 path f d edge (base + address) nl
      (row_nbytes (as_xds e))); done.
  - done.
Qed.

(** Every byte with an address is read. *)
Lemma gds_read_direct_triple o :
  edge_apart e d o ->
  triple (gds_loaded o (fun _ => False)) (gds_read_direct e path d)
    (fun _ s => exists o', gds_loaded o' (fun x => is_Some (addr x)) s)
    (fun _ => gds_part).
Proof.
  intros Hap. unfold gds_read_direct. pose proof Hgeo as [Hv _ _ _ _ Hend _].
  assert (exists n, validate_runs (allocation_nbytes d / block_nbytes d) (logical_block_start d) 0
    (runs d) = Ok n /\ n = logical_block_count d) as (n & Hr & Hn).
  { pose proof Hv as H. unfold DirectIO.validate in H. rewrite Hseg in H.
    res_inv. cbn [is_nil negb] in H. res_inv. bool_prop. eauto. }
  apply (triple_bind _ _ _ (fun _ s => exists o', gds_loaded o' (fun x =>
    exists edge, leading_edge d = Some edge /\ edge_covered (as_xds e) d edge x) s)).
  - destruct (leading_edge d) as [edge|] eqn:Hedge.
    + unfold gds_transfer_edge. eapply triple_bind; [by apply gds_edge_staging_triple|].
      intros [base numel address]. apply triple_pure. cbn [ed_numel ed_base ed_address].
      intros [-> Hpl]. eapply triple_conseq;
        [apply on_gds_loaded; by apply (gds_copy_edge_triple base address edge (fun _ => False))|done| |done].
      intros [] s [[Hl Hfd] Ht]. eexists. split; [split; [|done]|exact Ht].
      eapply loaded_iff; [|exact Hl]. intros x. simpl. split.
      * intros [[]|Hx]. by exists edge.
      * intros (? & [= <-] & Hx). by right.
    + intros s [[Hl Hfd] Ht]. simpl. exists o. split; [split; [|done]|done].
      eapply loaded_iff; [|exact Hl]. intros x. simpl. split; [done|by intros (? & ? & _)].
  - intros []. apply triple_exists. intros o'.
    set (D1 := fun x => exists edge, leading_edge d = Some edge /\ edge_covered (as_xds e) d edge x).
    eapply triple_conseq; [apply (on_gds_loaded _ o' D1
      (fun x => D1 x \/ covered (fun r => read_covers (gds_run_read d r)) (runs d) x))|done| |done].
    + apply (iter_cover (fun D w => loaded w0 f addr (scratch o') D w /\ fds_at fs k w)).
      * intros D2 D3 w HD [Hl Hfd]. split; [by eapply loaded_iff|done].
      * intros r D' Hin. apply gds_read_triple.
        exact (run_read_ok d (row_nbytes (as_xds e)) Hv f r _ _ Hseg Hr Hn Hin Hend).
    + intros [] s [[(H1 & H2 & H3) Hfd] Ht]. exists o'. split; [split; [|done]|done].
      assert (forall x a, addr x = Some a ->
        D1 x \/ covered (fun r => read_covers (gds_run_read d r)) (runs d) x) as Hall.
      { intros x a Hx. destruct (run_address_covered (as_xds e) d nl f Hgeo x a _ _ Hseg Hr Hn Hx); [by right|by left]. }
      split; [done|]. split; [intros x a _ Ha; apply H2; [by eapply Hall|done]|].
      intros a Ha. apply H3. intros x _ Hx. by apply (Ha x); [eexists|].
Qed.

End run.
(** *** The whole retrieve *)

Lemma gds_read_header_triple path w0 :
  fds_ok w0 ->
  triple (fun w => same_file path w0 w /\ fds_at (fds w0) (fresh w0) w)
    (gds_read_header (Dt := Dt) path)
    (fun m w => (exists f, content w0 path = Some f
        /\ unpack_block_first_header (Dt := Dt) (take (Z.to_nat BLOCK_FIRST_HEADER_SIZE) f) = Ok m)
      /\ same_file path w0 w /\ fds_at (fds w0) (fresh w0) w)
    (fun _ w => same_file path w0 w /\ fds_at (fds w0) (fresh w0) w).
Proof.
  intros Hfds w [[Hf Hm] [Hd Hk]].
  assert (fds_ok w) as Hfds' by (intros fd Hfd; rewrite Hd in Hfd; specialize (Hfds fd Hfd); lia).
  pose proof (read_header_cases path w Hfds') as H. change (gds_read_header (Dt := Dt) path w)
    with ((fd ← os_open path O_RDONLY; st_finally (header ← os_pread fd BLOCK_FIRST_HEADER_SIZE;
      st_lift (unpack_block_first_header (Dt := Dt) header)) (os_close fd)) w).
  match type of H with context [?body w] => destruct (body w) as [[m|ex] w'] end;
    destruct H as [(Q1 & Q2 & Q3 & Q4) Hr];
    (assert (same_file path w0 w' /\ fds_at (fds w0) (fresh w0) w') as Hw'
      by (split; [split; [by rewrite Q1|intros; by rewrite Q2]|split; [by rewrite Q3|lia]])); [|done].
  split; [|done]. destruct Hr as (f & Hc & Hu). exists f. split; [|done].
  unfold content in *. by rewrite <- Hf.
Qed.

Lemma gds_prepare_triple e env path m d w0 :
  fds_ok w0 -> others_elsewhere path env -> shapes_of_chunk (as_xds e) ->
  triple (fun w => same_file path w0 w /\ fds_at (fds w0) (fresh w0) w)
    (gds_prepare_direct e env path m d)
    (fun _ w => (prepared (as_xds e) w0 path m d /\ byte_segments d = [])
      /\ same_file path w0 w /\ fds_at (fds w0) (fresh w0) w)
    (fun _ w => same_file path w0 w /\ fds_at (fds w0) (fresh w0) w).
Proof.
  intros Hfds Henv Hch. set (T := fun w => same_file path w0 w /\ fds_at (fds w0) (fresh w0) w).
  unfold gds_prepare_direct. eapply triple_bind.
  { apply (triple_lift _ _ (fun _ w => gds_validate_descriptor e d RETRIEVE = Ok tt /\ T w));
      [by intros [] Hv w Hw|done]. }
  intros u. apply triple_pure. intros [Hv Hseg]%gds_validate_view.
  eapply triple_bind; [by apply gds_read_header_triple|].
  intros m'. apply triple_pure. intros (f & Hf & Hu).
  eapply triple_bind.
  { apply (triple_lift _ _ (fun _ w => m' = m /\ T w)); [|done].
    intros v Hm%raise_if_Ok w Hw. bool_prop. apply dec_stable in Hm. done. }
  intros v. apply triple_pure. intros ->. apply (triple_bind _ _ _ (fun _ => T)).
  { intros w [[Hs Hm] [Hd Hk]]. destruct (Henv w) as (E1 & E2 & E3 & E4). simpl.
    split; [split; [congruence|intros; by rewrite E4]|split; [congruence|lia]]. }
  intros []. eapply triple_bind.
  { eapply triple_exn; [apply (os_getsize_triple path (same_file path w0)), same_file_closed|].
    by intros ex w [_ Hw]. }
  intros size. eapply triple_bind.
  { apply (triple_lift _ _ (fun _ w => lenZ f = BLOCK_FIRST_HEADER_SIZE + io_nbytes m /\ T w)).
    - intros v' Hm%raise_if_Ok w [[Hs (g & Hg & ->)] Hfd]. bool_prop.
      assert (g = f) as -> by (unfold content in *; destruct Hs as [Hs _]; rewrite Hs in Hg; congruence).
      done.
    - by intros ex _ w [[Hs _] Hfd]. }
  intros v'. apply triple_pure. intros Hlen.
  destruct (ge_shapes e) as [|shape l1] eqn:Hs; [by intros w Hw|].
  destruct (ge_dtypes e) as [|dt l2] eqn:Hd; [by intros w Hw|].
  apply triple_lift; [|done]. intros [] Hrt w Hw.
  split; [|done]. split; [|done].
  destruct (direct_geometry (as_xds e) d m shape dt f) as [nl Hg]; try done;
    [cbn; by rewrite Hs|cbn; by rewrite Hd|]. by exists f, nl.
Qed.

(** Outside the addresses only the scratch block may change. *)
Definition gds_load_frame e (path : string) d (s s' : gds_io) : Prop :=
  files (g_world s') !! path = files (g_world s) !! path
  /\ fds (g_world s') = fds (g_world s)
  /\ forall a, (forall x, device_address (row_nbytes (as_xds e)) d x <> Some a) ->
       ~ in_scratch (edge_region <$> g_edge s') a -> mem (g_world s') a = mem (g_world s) a.

(** The file is the indexed one, and its addressed bytes are in place. *)
Definition gds_load_done e (path : string) (m : BlockFirstDiskMetadata) d (s s' : gds_io) : Prop :=
  exists f, content (g_world s) path = Some f
    /\ unpack_block_first_header (Dt := Dt) (take (Z.to_nat BLOCK_FIRST_HEADER_SIZE) f) = Ok m
    /\ lenZ f = BLOCK_FIRST_HEADER_SIZE + io_nbytes m
    /\ forall x a, device_address (row_nbytes (as_xds e)) d x = Some a ->
         f !! Z.to_nat x = Some (mem (g_world s') a).

(** What runs after the checks *)
Lemma gds_transfer_triple e path d nl f w0 fs k o :
  content w0 path = Some f -> XdsLoad.geometry (as_xds e) d nl f -> byte_segments d = [] ->
  addresses_distinct (row_nbytes (as_xds e)) d -> edge_apart e d o ->
  triple (gds_loaded e d f w0 fs k o (fun _ => False))
    (gds_ensure_registration e d;;
     on_gds (st_lift (py_assert (ge_cufile e)));;
     on_gds gds_synchronize;;
     on_gds (cu_enter path "r" (ge_use_direct_io e));;
     st_finally (gds_read_direct e path d) (on_gds (cu_exit path));;
     on_gds gds_synchronize)
    (fun _ s => exists o', gds_loaded e d f w0 fs k o'
       (fun x => is_Some (device_address (row_nbytes (as_xds e)) d x)) s)
    (fun _ => gds_part e d w0 fs k).
Proof.
  intros Hf Hgeo Hseg Hdist Hap.
  set (I := gds_loaded e d f w0 fs k o (fun _ => False)).
  assert (forall s, I s -> gds_part e d w0 fs k s) as Hpart.
  { intros s [[Hl Hfd] <-]. split; [by eapply loaded_part|done]. }
  apply (triple_bind _ _ _ (fun _ => I)).
  { eapply triple_exn; [apply (gds_ensure_triple e d _ fs k (fun o' => o' = o)), loaded_closed|].
    intros ex s Hs. by apply Hpart. }
  intros []. apply (triple_bind _ _ _ (fun _ => I)).
  { intros s Hs. unfold on_gds, st_lift. destruct s as [w rg ed bufs ps]. cbn.
    destruct (py_assert _); [exact Hs|]. by apply Hpart in Hs. }
  intros []. apply (triple_bind _ _ _ (fun _ => I)); [apply quiet_loaded, synchronize_quiet_call|].
  intros []. apply (triple_bind _ _ _ (fun _ => I)); [apply quiet_loaded, cu_enter_quiet|].
  intros []. set (G := fun s => exists o', gds_loaded e d f w0 fs k o'
    (fun x => is_Some (device_address (row_nbytes (as_xds e)) d x)) s).
  assert (forall {A} (m : ST world A), quiet_call m ->
    triple G (on_gds m) (fun _ => G) (fun _ => gds_part e d w0 fs k)) as Hq.
  { intros A m Hm. apply triple_exists. intros o'. eapply triple_conseq; [by apply quiet_loaded|done| |done].
    intros a s Hs. by exists o'. }
  apply (triple_bind _ _ _ (fun _ => G)); [|intros []; apply Hq, synchronize_quiet_call].
  intros s Hs. pose proof (gds_read_direct_triple e path d nl f w0 fs k Hf Hgeo Hseg Hdist o Hap s Hs) as Hr.
  unfold st_finally. destruct (gds_read_direct e path d s) as [[u|ex] s1].
  - pose proof (Hq _ (cu_exit path) (cu_exit_quiet path) s1 Hr) as H.
    destruct (on_gds (cu_exit path) s1) as [[[]|ex] s2]; exact H.
  - destruct Hr as [Hp Hfd]. pose proof (on_gds_triple _ _ _ _ (fun _ o' => o' = g_edge s1)
      (quiet_triple (cu_exit path) (part_loaded w0 (device_address (row_nbytes (as_xds e)) d)
        (in_scratch (edge_region <$> g_edge s1))) fs k (cu_exit_quiet path)
        (part_loaded_closed _ _ _)) s1 (conj (conj Hp Hfd) eq_refl)) as H.
    destruct (on_gds (cu_exit path) s1) as [[[]|ex'] s2]; destruct H as [[Hp2 Hfd2] He];
      (split; [by rewrite He|done]).
Qed.

Lemma load_direct_gds_spec e env path m d s :
  fds_ok (g_world s) -> others_elsewhere path env -> shapes_of_chunk (as_xds e) ->
  addresses_distinct (row_nbytes (as_xds e)) d -> edge_apart e d (g_edge s) ->
  match load_direct_gds e env path m d s with
  | (Ok _, s') => gds_load_done e path m d s s' /\ DirectIO.validate d true true = Ok tt
                  /\ gds_load_frame e path d s s'
  | (Raise _, s') => gds_load_frame e path d s s'
  end.
Proof.
  intros Hfds Henv Hch Hdist Hap. set (w0 := g_world s) in *. unfold load_direct_gds.
  pose proof (on_gds_triple _ _ _ _ (fun _ o => o = g_edge s)
    (gds_prepare_triple e env path m d w0 Hfds Henv Hch) s (conj (conj (conj eq_refl (fun _ => eq_refl))
      (conj eq_refl (Z.le_refl _))) eq_refl)) as Hp.
  assert (forall s', (same_file path w0 (g_world s') /\ fds_at (fds w0) (fresh w0) (g_world s'))
    -> gds_load_frame e path d s s') as Hframe.
  { intros s' [[Hf Hm] [Hd _]]. split; [done|]. split; [done|]. intros a _ _. apply Hm. }
  unfold mbind at 1, ST_bind at 1. destruct (on_gds (gds_prepare_direct e env path m d) s) as [[u|ex] s1].
  2:{ destruct Hp as [Hp _]. by apply Hframe. }
  destruct Hp as [[[(f & nl & Hf & Hu & Hlen & Hgeo) Hseg] [Hsame Hfd]] Hed]. rewrite <- Hed in Hap.
  assert (content (g_world s1) path = Some f) as Hf1.
  { unfold content in *. destruct Hsame as [-> _]. done. }
  pose proof (gds_transfer_triple e path d nl f (g_world s1) (fds w0) (fresh w0) (g_edge s1) Hf1 Hgeo
    Hseg Hdist Hap s1) as Htr.
  assert (gds_loaded e d f (g_world s1) (fds w0) (fresh w0) (g_edge s1) (fun _ => False) s1)
    as Hpre by (split; [|done]; split; [|done]; by split).
  specialize (Htr Hpre). destruct Hsame as [Hsf Hsm].
  match type of Htr with context [?body s1] => destruct (body s1) as [[u'|ex] s2] end.
  - destruct Htr as (o' & [[(H1 & H2 & H3) [Hfd2 _]] Ht']). split; [|split; [apply Hgeo|]].
    + exists f. split; [done|]. split; [done|]. split; [done|]. intros x a Ha. apply H2; [by eexists|done].
    + split; [by rewrite H1|]. split; [done|]. intros a Ha Hs. rewrite <- Hsm. apply H3.
      * intros x _. apply Ha.
      * by rewrite Ht' in Hs.
  - destruct Htr as [[H1 H3] [Hfd2 _]]. split; [by rewrite H1|]. split; [done|].
    intros a Ha Hs. rewrite <- Hsm. by apply H3.
Qed.

End direct.
