(* ===== verification/GdsAccounts.v ===== *)
(** * What the GDS backend holds of the driver

    The buffers registered with cuFile and the pools that are open, beyond those of others,
    are those the backend has in its books: direct stores and retrieves keep it so, and so
    does giving them back. *)

From S2P Require Import Prelude Tensor Codec BlockFirst DirectIO World WorldIO HipFile XdsFiles XdsMeta Dict XdsIndex DeviceTensor XdsStaged CuFile GdsMeta GdsFiles.

Open Scope string_scope.
Open Scope list_scope.
Open Scope Z_scope.

Section accounts.
Context {Dt : Type} `{!TorchDtype Dt} {JC : JsonCodec} {CL : CuFileLib} {CLL : CuFileLaws}.
Implicit Types (e : gds_engine Dt) (d : DirectIODescriptor) (s i : gds_io).

(** ** The books *)

(** The address a registration was made with *)
Definition base_of (r : registration * lifetime) : Z := r.1.1.2.

Section books.
Context (direct : bool) (ob op own : list Z).

(** The registered buffers are those of others, [ob], and one for every entry of the
    backend's dictionary, which is empty without direct I/O. *)
Definition buffers_accounted s : Prop :=
  NoDup (g_registrations s).*1 /\ (direct = false -> g_registrations s = [])
  /\ g_buffers s ≡ₚ ob ++ (base_of <$> g_registrations s).

(** The open pools are those of others, [op], the backend's own, and the scratch block's. *)
Definition pools_accounted s : Prop := g_pools s ≡ₚ op ++ own ++ option_list (ed_base <$> g_edge s).

Definition accounted s : Prop := buffers_accounted s /\ pools_accounted s.

(** A scratch pool that was opened, could not be used and was not closed either *)
Definition scratch_lost s : Prop :=
  buffers_accounted s /\ g_edge s = None /\ exists b, g_pools s ≡ₚ b :: op ++ own.

(** ** Direct stores and retrieves *)

(** Calls that touch files and memory only *)
Lemma files_accounted {A} (m : ST world A) (I : gds_io -> Prop) :
  (forall s w, I s -> I (GdsIO w (g_registrations s) (g_edge s) (g_buffers s) (g_pools s))) ->
  triple I (on_gds m) (fun _ => I) (fun _ => I).
Proof. intros HI s Hs. unfold on_gds. destruct (m (g_world s)) as [[a|ex] w]; by apply HI. Qed.

Lemma ensure_accounted e d o :
  ge_direct_enabled e = direct ->
  triple (fun s => accounted s /\ g_edge s = o) (gds_ensure_registration e d)
    (fun _ s => accounted s /\ g_edge s = o) (fun _ s => accounted s /\ g_edge s = o).
Proof.
  intros He s Hs. pose proof Hs as [[(Hd & Hz & Hb) Hp] Ho]. unfold gds_ensure_registration, st_get, mbind, ST_bind.
  destruct (gds_registered s (registration_identity d)) eqn:Hr; [done|].
  destruct (ge_direct_enabled e); simpl; [|exact Hs]. unfold on_cufile.
  pose proof (cu_register_adds (allocation_base d) (allocation_nbytes d) (cu_of s)) as H.
  destruct (cuFileBufRegister _ _ (cu_of s)) as [[[]|ex] p]; destruct H as [H1 H2]; simpl in *;
    (split; [|done]); (split; [|unfold pools_accounted; simpl; by rewrite H2]).
  2:{ split; [done|]. split; [done|]. simpl. by rewrite H1. }
  split; [|split; [by intros; congruence|]].
  - simpl. rewrite fmap_app. apply list.NoDup_app. split; [done|]. split; [|by apply NoDup_singleton].
    intros x Hx ->%list_elem_of_singleton. apply list_elem_of_fmap in Hx as ([id l] & Hid & Hin). simpl in Hid. subst id.
    unfold gds_registered in Hr. apply Bool.not_true_iff_false in Hr. apply Hr, existsb_exists.
    exists (registration_identity d, l). split; [by apply list_elem_of_In|]. by apply bool_decide_eq_true.
  - simpl. rewrite H1, Hb, fmap_app. simpl. by rewrite <- app_assoc.
Qed.

Lemma save_direct_accounted e path d :
  ge_direct_enabled e = direct -> preserves accounted (save_direct_gds e path d).
Proof.
  intros He. unfold save_direct_gds. apply preserves_bind; [apply preserves_lift|]. intros m.
  apply preserves_bind.
  { intros s Hs. pose proof (ensure_accounted e d (g_edge s) He s (conj Hs eq_refl)) as H.
    by destruct (gds_ensure_registration e d s) as [[?|?] ?]; destruct H. }
  intros []. apply preserves_bind; [|intros []; apply preserves_ret].
  apply preserves_triple, files_accounted. by intros s w Hs.
Qed.

Lemma edge_accounted n o :
  triple (fun s => accounted s /\ g_edge s = o) (gds_edge_staging n) (fun _ s => accounted s)
    (fun _ s => accounted s \/ (o = None /\ scratch_lost s)).
Proof.
  unfold gds_edge_staging. apply (triple_bind _ _ _ (fun s' s => g_edge s' = o /\ (accounted s /\ g_edge s = o)));
    [by intros s [Hs Ho]|].
  intros s'. apply triple_pure. intros ->. destruct o as [ed|].
  { destruct (negb _); intros s [Hs _]; [by left|done]. }
  apply (triple_bind _ _ _ (fun b s => buffers_accounted s /\ g_edge s = None /\ g_pools s ≡ₚ b :: op ++ own)).
  { intros s [[Hb Hp] Ho]. unfold pools_accounted in Hp. rewrite Ho, app_nil_r in Hp. unfold on_cufile.
    pose proof (cufile_pool_adds n (cu_of s)) as H. destruct (cufile_pool n (cu_of s)) as [[b|ex] p]; destruct H as [H1 H2]; simpl in *.
    - split; [by unfold buffers_accounted; simpl; rewrite H2|]. split; [done|]. rewrite H1, Hp. solve_Permutation.
    - left. split; [by unfold buffers_accounted; simpl; rewrite H2|]. unfold pools_accounted. simpl.
      by rewrite Ho, app_nil_r, H1. }
  intros b. apply (triple_bind _ _ _ (fun _ s => buffers_accounted s /\ g_edge s = None /\ g_pools s ≡ₚ b :: op ++ own)).
  { intros s (Hb & Ho & Hp). unfold on_cufile. pose proof (cufile_pool_alloc_keeps b n (cu_of s)) as H.
    destruct (cufile_pool_alloc b n (cu_of s)) as [[a|ex] p]; destruct H as [H1 H2]; simpl in *.
    - split; [by unfold buffers_accounted; simpl; rewrite H2|]. split; [done|]. by rewrite H1.
    - right. split; [done|]. split; [by unfold buffers_accounted; simpl; rewrite H2|]. split; [done|].
      exists b. simpl. by rewrite H1. }
  intros [a|].
  - intros s (Hb & Ho & Hp). split; [done|]. unfold pools_accounted. simpl. rewrite Hp. solve_Permutation.
  - apply (triple_bind _ _ _ (fun _ => accounted)); [|intros [] s Hs; by left].
    intros s (Hb & Ho & Hp). unfold on_cufile. pose proof (cufile_pool_close_takes b (cu_of s)) as H.
    destruct (cufile_pool_close b (cu_of s)) as [[[]|ex] p]; destruct H as [H1 H2]; simpl in *;
      specialize (H1 ltac:(rewrite Hp; by left)).
    + split; [by unfold buffers_accounted; simpl; rewrite H2|]. unfold pools_accounted. simpl. rewrite Ho, app_nil_r.
      apply (Permutation_cons_inv (a := b)). by rewrite <- H1.
    + right. split; [done|]. split; [by unfold buffers_accounted; simpl; rewrite H2|]. split; [done|].
      exists b. simpl. by rewrite H1.
Qed.

Lemma load_direct_accounted e env path dm d o :
  ge_direct_enabled e = direct ->
  triple (fun s => accounted s /\ g_edge s = o) (load_direct_gds e env path dm d) (fun _ s => accounted s)
    (fun _ s => accounted s \/ (o = None /\ scratch_lost s)).
Proof.
  intros He. set (E := fun s => accounted s \/ (o = None /\ scratch_lost s)).
  assert (forall {A} (m : ST world A), triple (fun s => accounted s /\ g_edge s = o) (on_gds m)
    (fun _ s => accounted s /\ g_edge s = o) (fun _ => E)) as Ho.
  { intros A m. eapply triple_exn; [apply files_accounted; by intros s w Hs|]. intros ex s [Hs _]. by left. }
  assert (forall {A} (m : ST world A), triple accounted (on_gds m) (fun _ => accounted) (fun _ => E)) as Ha.
  { intros A m. eapply triple_exn; [apply files_accounted; by intros s w Hs|]. by left. }
  assert (forall {A} (m : ST world A), triple E (on_gds m) (fun _ => E) (fun _ => E)) as HE
    by (intros A m; apply files_accounted; by intros s w Hs).
  unfold load_direct_gds. eapply triple_bind; [apply Ho|]. intros [].
  apply (triple_bind _ _ _ (fun _ s => accounted s /\ g_edge s = o)).
  { eapply triple_exn; [by apply ensure_accounted|]. intros ex s [Hs _]. by left. }
  intros []. eapply triple_bind; [apply Ho|]. intros [].
  eapply triple_bind; [apply Ho|]. intros []. eapply triple_bind; [apply Ho|]. intros [].
  apply (triple_bind _ _ _ (fun _ => accounted)); [|intros []; apply Ha].
  eapply (triple_finally _ _ _ (fun _ => accounted) (fun _ => accounted) _ (fun _ => E)); [|intros []; apply Ha|intros ex; apply HE].
  unfold gds_read_direct. eapply (triple_bind _ _ _ (fun _ => accounted)); [|intros []; apply Ha].
  destruct (leading_edge d); [|by intros s [Hs _]]. unfold gds_transfer_edge.
  eapply triple_bind; [apply edge_accounted|]. intros ed. apply Ha.
Qed.

End books.

(** What goes on while a backend is in use: direct stores and retrieves, whatever becomes of
    them, and everything that touches files and memory only. A retrieve that opens a scratch
    pool it cannot use is one that closed it again. *)
Inductive gds_activity e : gds_io -> gds_io -> Prop :=
  | act_files i w : gds_activity e i (GdsIO w (g_registrations i) (g_edge i) (g_buffers i) (g_pools i))
  | act_save path d i : gds_activity e i (save_direct_gds e path d i).2
  | act_load env path dm d i :
      let i' := (load_direct_gds e env path dm d i).2 in
      (g_edge i' = None -> length (g_pools i') = length (g_pools i)) -> gds_activity e i i'.

Lemma activity_accounted e ob op own i i' :
  rtc (gds_activity e) i i' -> accounted (ge_direct_enabled e) ob op own i ->
  accounted (ge_direct_enabled e) ob op own i'.
Proof.
  induction 1 as [i|i1 i2 i3 H12 _ IH]; [done|]. intros Ha. apply IH. clear IH.
  destruct H12 as [i w|path d i|env path dm d i i' Hkept].
  - exact Ha.
  - by apply save_direct_accounted.
  - pose proof (load_direct_accounted (ge_direct_enabled e) ob op own e env path dm d (g_edge i) eq_refl i (conj Ha eq_refl)) as H.
    unfold i' in *. destruct (load_direct_gds e env path dm d i) as [[[]|ex] i2]; [done|]. simpl in *.
    destruct H as [|(Ho & _ & He & b & Hp)]; [done|]. exfalso. specialize (Hkept He).
    destruct Ha as [_ Hpi]. unfold pools_accounted in Hpi. rewrite Ho, app_nil_r in Hpi.
    apply Permutation_length in Hp, Hpi. simpl in Hp. lia.
Qed.

(** ** Giving back *)

(** The calls that give resources back succeed. *)
Definition calls_succeed : Prop :=
  (forall base p, (cuFileBufDeregister base p).1 = Ok tt) /\ (forall base p, (cufile_pool_close base p).1 = Ok tt).

Section giving.
Context (direct : bool) (ob op own : list Z).
#[local] Abbreviation ok := (accounted direct ob op own).

(** What an interrupted step leaves, which only a refused call explains *)
Definition refused s : Prop := ok s /\ ~ calls_succeed.

Lemma close_registration_triple e r l :
  ge_direct_enabled e = direct ->
  triple (fun s => ok s /\ g_registrations s = r :: l) (gds_close_registration e r)
    (fun _ s => ok s /\ g_registrations s = l) (fun _ => refused).
Proof.
  intros He s [[(Hd & Hz & Hb) Hp] Hl]. unfold gds_close_registration, st_lift, st_modify, mbind, ST_bind.
  destruct (ge_direct_enabled e); [|by rewrite Hz in Hl]. simpl. unfold on_cufile.
  pose proof (cu_deregister_takes (base_of r) (cu_of s)) as H.
  change (r.1.1.2) with (base_of r). rewrite Hl in Hd, Hb. simpl in Hb.
  assert (base_of r ∈ g_buffers s) as Hin by (rewrite Hb; apply elem_of_app; right; by left).
  destruct (cuFileBufDeregister (base_of r) (cu_of s)) as [[[]|ex] p] eqn:E; destruct H as [H1 H2]; specialize (H1 Hin); simpl in *.
  - rewrite Hl, (filter_others r l Hd). split; [|done]. split; [|unfold pools_accounted; simpl; by rewrite H2].
    split; [by apply NoDup_cons_1_2 in Hd|]. split; [by intros; congruence|]. simpl.
    apply (Permutation_cons_inv (a := base_of r)). rewrite <- H1, Hb. solve_Permutation.
  - split; [|intros [Hc _]; specialize (Hc (base_of r) (cu_of s)); by rewrite E in Hc].
    split; [|unfold pools_accounted; simpl; by rewrite H2]. unfold buffers_accounted. simpl.
    rewrite Hl, H1. split; [done|]. split; [by intros; congruence|done].
Qed.

Lemma close_registrations_triple e :
  ge_direct_enabled e = direct ->
  triple ok (gds_close_registrations e) (fun _ s => ok s /\ g_registrations s = []) (fun _ => refused).
Proof.
  intros He. unfold gds_close_registrations.
  apply (triple_bind _ _ _ (fun s' s => ok s /\ g_registrations s = g_registrations s')); [by intros s Hs|].
  intros s'. induction (g_registrations s') as [|r l IH]; simpl; [by intros s Hs|].
  eapply triple_bind; [by apply close_registration_triple|]. intros []. exact IH.
Qed.

(** Closing a pool, which is open *)
Lemma close_pool_triple base rest (I : list (registration * lifetime) -> option gds_edge -> list Z -> Prop) :
  triple (fun s => I (g_registrations s) (g_edge s) (g_buffers s) /\ g_pools s ≡ₚ base :: rest)
    (on_cufile (cufile_pool_close base))
    (fun _ s => I (g_registrations s) (g_edge s) (g_buffers s) /\ g_pools s ≡ₚ rest)
    (fun _ s => (I (g_registrations s) (g_edge s) (g_buffers s) /\ g_pools s ≡ₚ base :: rest) /\ ~ calls_succeed).
Proof.
  intros s [Hi Hp]. unfold on_cufile. pose proof (cufile_pool_close_takes base (cu_of s)) as H.
  destruct (cufile_pool_close base (cu_of s)) as [[[]|ex] p] eqn:E; destruct H as [H1 H2];
    specialize (H1 ltac:(simpl; rewrite Hp; by left)); simpl in *; rewrite H2.
  - split; [done|]. apply (Permutation_cons_inv (a := base)). by rewrite <- H1.
  - split; [by rewrite H1|]. intros [_ Hc]. specialize (Hc base (cu_of s)). by rewrite E in Hc.
Qed.

Lemma close_edge_triple :
  triple (fun s => ok s /\ g_registrations s = []) gds_close_edge
    (fun _ s => (g_registrations s = [] /\ g_edge s = None /\ g_buffers s ≡ₚ ob) /\ g_pools s ≡ₚ op ++ own)
    (fun _ => refused).
Proof.
  unfold gds_close_edge. apply (triple_bind _ _ _ (fun s' s => (ok s /\ g_registrations s = []) /\ g_edge s = g_edge s')); [by intros s Hs|].
  intros s'. set (I := fun rs (ed : option gds_edge) bs => rs = @nil (registration * lifetime) /\ ed = g_edge s' /\ bs ≡ₚ ob).
  apply (triple_bind _ _ _ (fun _ s => I (g_registrations s) (g_edge s) (g_buffers s) /\ g_pools s ≡ₚ op ++ own)).
  2:{ intros [] s [(Hr & _ & Hb) Hp]. by split_and!. }
  assert (forall s, (ok s /\ g_registrations s = []) /\ g_edge s = g_edge s' ->
    I (g_registrations s) (g_edge s) (g_buffers s) /\ g_pools s ≡ₚ op ++ own ++ option_list (ed_base <$> g_edge s')) as Hpre.
  { intros s [[[(_ & _ & Hb) Hp] Hr] He]. unfold pools_accounted in Hp. rewrite He in Hp. split; [|done].
    split; [done|]. split; [done|]. by rewrite Hb, Hr, app_nil_r. }
  destruct (g_edge s') as [ed|] eqn:Hed; simpl in Hpre.
  - eapply triple_conseq; [apply (close_pool_triple (ed_base ed) (op ++ own) I)| |done|].
    + intros s [Hi Hp]%Hpre. split; [done|]. rewrite Hp. solve_Permutation.
    + intros ex s [[(Hr & He & Hb) Hp] Hc]. split; [|done]. split.
      * split; [by rewrite Hr; apply NoDup_nil_2|]. split; [done|]. by rewrite Hr, app_nil_r.
      * unfold pools_accounted. rewrite He, Hp. simpl. solve_Permutation.
  - intros s [Hi Hp]%Hpre. rewrite app_nil_r in Hp. done.
Qed.

End giving.

End accounts.
