(* ===== verification/GdsStaged.v ===== *)
(** * Block-first chunks through the GDS backend's staging buffer

    [_save_block_first_gds] and [_load_block_first_gds]: the file a store publishes, what a load
    puts into its output, by the lemmas of the XDS backend's staged transfers, which do
    not depend on what moves the bytes; and the put and the blocking get made of them. *)

From S2P Require Import Prelude Tensor Codec BlockFirst DirectIO World WorldIO HipFile XdsFiles XdsLoad XdsPaths XdsMeta Dict XdsIndex DeviceTensor XdsStaged XdsCpuStore XdsGpuStage XdsChunkIO XdsStagedFacts CuFile GdsMeta GdsFiles GdsDirect.

Open Scope string_scope.
Open Scope list_scope.
Open Scope Z_scope.

Section staged.
Context {Dt : Type} `{!TorchDtype Dt, !TorchDtypeLaws Dt} {JC : JsonCodec} {JL : JsonCodecLaws}.
Context {CL : CuFileLib} {CLL : CuFileLaws}.
Context (cuda_malloc : (Z -> Z) -> Z -> Z) (e : gds_engine Dt) (staging : option (block_staging Dt)) (sched : list nat).
Implicit Types (t : dtensor Dt torch_device) (sg : block_staging Dt).

(** ** The transfers *)

Lemma gds_sync_launched : synchronizes gds_sync_if.
Proof.
  intros w0 M [] Hc; [|intros s (H1 & H2 & H3 & HM & Hs); cbn; by split_and!].
  apply drain_launched; [|done]. apply synchronize_quiet_call.
Qed.

Lemma cu_payload_triple b tmp fs k header base io addr direct :
  0 <= io -> lenZ header = BLOCK_FIRST_HEADER_SIZE ->
  triple (fun w => with_header b tmp header w /\ fds_at fs k w)
    (with_cu_file tmp "r+" direct (cu_write tmp base io BLOCK_FIRST_HEADER_SIZE addr))
    (fun ret w => (keeps_files [tmp] b w /\ (moved io ret = true -> with_payload b tmp header base io addr w))
       /\ fds_at fs k w)
    (fun _ w => keeps_files [tmp] b w /\ fds_at fs k w).
Proof.
  intros Hio Hh. apply with_cu_file_triple with (E := keeps_files [tmp] b).
  - apply with_header_closed.
  - intros ret w w' Hf Hm [Hk Hp]. split; [exact (keeps_files_closed _ _ w w' Hf Hm Hk)|]. intros Hr.
    exact (proj2 (with_payload_closed b tmp header base io addr w w' Hf Hm (conj Hk (Hp Hr)))).
  - apply keeps_files_closed.
  - by intros w [Hk _].
  - by intros a w [Hk _].
  - eapply triple_conseq; [apply (cu_write_triple b tmp header base io BLOCK_FIRST_HEADER_SIZE addr fs k)|done| |done].
    + rewrite Hh. unfold BLOCK_FIRST_HEADER_SIZE. lia.
    + done.
    + intros ret w [[Hk (c & _ & Hc & Hm)] Hfd]. split; [|done]. split; [done|]. intros Hr.
      rewrite (Hm Hr) in Hc. eexists. split; [exact Hc|].
      destruct (write_at_slice header BLOCK_FIRST_HEADER_SIZE (mem b) (base + addr) io) as [Htk Hb];
        [rewrite Hh; unfold BLOCK_FIRST_HEADER_SIZE; lia|done|].
      split; [|exact Hb]. rewrite Htk, firstn_all2; [done|]. unfold lenZ in Hh. lia.
Qed.

Lemma load_gds_payload path f a io dof w0 :
  ge_cufile e = true -> content w0 path = Some f ->
  reads_payload w0 f (a + dof) io (load_gds e path BLOCK_FIRST_HEADER_SIZE a io dof)
    (fun ret => bool_decide (ret = Some io)).
Proof.
  intros Hcu Hf w H1 H2 H3. unfold load_gds, with_cu_file, mbind, ST_bind, st_finally. rewrite Hcu.
  destruct (cu_enter_quiet path "r" (ge_use_direct_io e) w) as (E1 & E2 & E3 & _ & E5).
  destruct (cu_enter path "r" (ge_use_direct_io e) w) as [[u|ex] w1]; simpl in *.
  2:{ split_and!; done || congruence || lia. }
  destruct (cu_read_frame path a io BLOCK_FIRST_HEADER_SIZE dof w1) as (R1 & R2 & R3 & _ & R5).
  pose proof (fun r => cu_read_complete path a io BLOCK_FIRST_HEADER_SIZE dof w1 f r ltac:(done)) as Hdone.
  assert (content w1 path = Some f) as Hf1 by (unfold content in *; by rewrite E1, H1).
  destruct (cu_read path a io BLOCK_FIRST_HEADER_SIZE dof w1) as [r w2]; simpl in *.
  destruct (cu_exit_quiet path w2) as (X1 & X2 & X3 & _ & X5).
  assert (forall w3, files w3 = files w2 -> fds w3 = fds w2 -> fresh w3 = fresh w2 -> (forall x, mem w3 x = mem w2 x) ->
    files w3 = files w0 /\ fds w3 = fds w0 /\ fresh w0 <= fresh w3
    /\ forall x, ~ a + dof <= x < a + dof + io -> mem w3 x = mem w x) as Hend.
  { intros w3 X1' X2' X3' X5'. split; [congruence|]. split; [congruence|]. split; [rewrite X3', R3, E3; done|].
    intros x Hx. by rewrite X5', R5, E5. }
  destruct (cu_exit path w2) as [[u'|ex] w3]; simpl in *; destruct r as [r|ex'];
    destruct (Hend w3 X1 X2 X3 X5) as (K1 & K2 & K3 & K4); (split; [done|]; split; [done|]; split; [done|];
    split; [done|]); try done.
  intros ->%bool_decide_eq_true i Hi. rewrite X5. apply (Hdone (Some io)); [done..| |done]. apply Z.eqb_refl.
Qed.

(** ** The store *)

#[local] Abbreviation save := (save_block_first_gds cuda_malloc e staging sched).
#[local] Abbreviation load := (load_block_first_gds cuda_malloc e staging sched).

(** What a store through the staging buffer publishes; failing, it leaves the target alone. *)
Lemma save_block_first_gds_spec path t w0 :
  fds_ok w0 -> (forall sg, staging = Some sg -> staging_fits sg t) ->
  match save path t w0 with
  | (Ok m, w) => exists g header sg, describes m g (dt_dtype t) /\ dt_shape t = g_logical g
      /\ gds_make_block_first_metadata e (dt_shape t) (dt_dtype t) = Ok m
      /\ pack_block_first_header m = Ok header /\ staging = Some sg /\ ge_cufile e = true
      /\ staged_world sg [tmp_of path; path] w0 w /\ files w !! tmp_of path = None
      /\ content w path = Some (block_first_file header m g (mem w0) (dt_ptr t))
  | (Raise ex, w) => w = w0 \/ exists sg, staging = Some sg
      /\ staged_world sg [tmp_of path] w0 w
      /\ (files w !! tmp_of path = None \/ is_os_error ex = true)
  end.
Proof.
  intros Hfds Hfit. unfold save_block_first_gds.
  change (path +:+ GDS_BLOCK_FIRST_SUFFIX_TMP) with (tmp_of path).
  unfold mbind at 1, ST_bind at 1, st_lift at 1.
  destruct (gds_make_block_first_metadata _ _ _) as [m|ex] eqn:Hmk; [|by left].
  unfold mbind at 1, ST_bind at 1, st_lift at 1.
  destruct (gds_check_staging staging m) as [sg|ex] eqn:Hck; [|by left].
  unfold gds_check_staging in Hck. destruct staging as [sg'|] eqn:Hsg; [|done].
  res_inv. subst sg'. bool_prop. apply dec_stable in H.
  unfold mbind at 1, ST_bind at 1, st_lift at 1.
  destruct (ge_cufile e) eqn:Hcu; cbn [negb raise_if]; [|by left].
  destruct (make_metadata_describes (as_xds e) _ _ _ Hmk) as (g & Hm & Hs & Hbs).
  destruct (Hfit sg eq_refl m g Hm Hs) as [Hok Hap]; [rewrite H; apply Hm|].
  pose proof (describes_sizes m g _ Hm) as [[Hpos Hio] _]. pose proof Hm as (Hg & Hisz & _).
  set (tmp := tmp_of path). set (cuda := is_cuda_device (dt_device (sg_tensor sg))).
  match goal with |- context [in_stream sched ?b] => set (body := b) end.
  assert (triple (fun s => s = StreamState w0 [] sched) body
    (fun _ s => pending s = [] /\ staged_world sg [tmp; path] w0 (st_world s)
       /\ files (st_world s) !! tmp = None
       /\ exists header, pack_block_first_header m = Ok header
          /\ content (st_world s) path = Some (block_first_file header m g (mem w0) (dt_ptr t)))
    (fun _ s => staged_world sg [tmp] w0 (run_kernels (pending s) (st_world s)))) as Hbody.
  { apply (staged_or_refused cuda_malloc gds_sync_if (ge_block_size e) tmp sg t g (io_nbytes m));
      [apply gds_sync_launched| |done..].
    eapply (triple_bind _ _ _ (fun header s => pack_block_first_header m = Ok header
      /\ launched w0 (chunk_staged sg g (io_nbytes m) (mem w0) (dt_ptr t)) true s)).
    - apply triple_lift; [by intros header Hp s Hl|]. intros ex _ s Hl.
      apply launched_aborted. eapply (launched_weaken w0 _ _ _ s); [|exact Hl]. by intros mm [Hmm _].
    - intros header. apply triple_pure. intros Hp.
      eapply triple_conseq; [apply (publish_staged _ (moved (io_nbytes m)) _ _ path sg m g header (dt_ptr t) w0 _
        Hfds Hm (pack_header_length _ _ Hp))|done| |done].
      + intros b. apply cu_payload_triple; [lia|by apply pack_header_length in Hp].
      + intros u s (H1 & H2 & H3 & H4). split_and!; try done. by exists header. }
  specialize (Hbody _ eq_refl). unfold mbind at 1, ST_bind at 1, st_catch, in_stream.
  destruct (body (StreamState w0 [] sched)) as [[u|ex] s].
  - destruct Hbody as (Hpend & Hw & Hn & header & Hp & Hc). rewrite Hpend, run_no_kernels.
    by exists g, header, sg.
  - cbn [any_exn]. pose proof (discard_staged sg w0 tmp ex _ Hfds Hbody) as Hd.
    destruct (discard_tmp _ _ _) as [[u|e'] w]; [by destruct Hd|]. right. by exists sg.
Qed.

(** ** The load *)

Lemma run_bind_assoc {S A B C} (m : ST S A) (f : A -> ST S B) (h : B -> ST S C) x :
  ((m ≫= f) ≫= h) x = (m ≫= fun a => f a ≫= h) x.
Proof. unfold mbind, ST_bind. by destruct (m x) as [[a|ex] x']. Qed.

(** What a load through the staging buffer puts into its output when it reports every byte *)
Lemma load_block_first_gds_spec path dm g p dv w0 dt :
  ge_cufile e = true -> fds_ok w0 -> describes dm g dt ->
  (forall sg, staging = Some sg -> dt_shape (sg_tensor sg) = g_physical g ->
     staging_ok sg g dt dv (io_nbytes dm)) ->
  let '(r, w) := load path dm (contiguous_at p (g_logical g) dt dv) w0 in
  load_only staging p (g_nbytes g) w0 w
  /\ match r with
     | Ok ret => ret = Some (io_nbytes dm) -> exists f, content w0 path = Some f
         /\ unpack_block_first_header (Dt := Dt) (take (Z.to_nat BLOCK_FIRST_HEADER_SIZE) f) = Ok dm
         /\ payload_loaded g f p (mem w)
     | Raise _ => True
     end.
Proof.
  intros Hcu Hfds Hm Hfit.
  pose proof (load_checked_spec cuda_malloc gds_sync_if (fun sg => load_gds e path BLOCK_FIRST_HEADER_SIZE
    (sg_base sg) (io_nbytes dm) (sg_address sg)) (fun ret => bool_decide (ret = Some (io_nbytes dm))) staging
    (gds_check_staging staging dm) sched path dm g p dv w0 dt Hfds Hm gds_sync_launched) as H.
  match type of H with ?A -> ?B -> ?C -> _ => assert A as HA; [|assert C as HC; [|specialize (H HA Hfit HC)]] end.
  - intros sg Hck. unfold gds_check_staging in Hck. destruct staging as [sg'|]; [|done].
    res_inv. subst sg'. bool_prop. by match goal with Hx : ¬ _ |- _ => apply dec_stable in Hx end.
  - intros sg f w _ Hf _. by apply load_gds_payload.
  - unfold load_block_first_gds, gds_read_header. rewrite run_bind_assoc. cbv zeta in H |- *.
    match type of H with let (_, _) := ?y in _ => match goal with |- let (_, _) := ?x in _ =>
      change x with y; destruct y as [[ret|ex] w] end end; destruct H as [H1 H2]; (split; [exact H1|]); [|done].
    intros Hr. destruct (H2 (bool_decide_eq_true_2 _ Hr)) as (f & Hf & _ & Hu & Hb). by exists f.
Qed.

(** ** A stored chunk's file *)

(** What a staged store of the chunk at [p] leaves of the world [w0] *)
Definition block_first_stored (path : string) (shape : list Z) (dt : Dt) (p : Z) (m : BlockFirstDiskMetadata)
    (w0 w : world) : Prop :=
  exists g header sg, describes m g dt /\ shape = g_logical g
    /\ gds_make_block_first_metadata e shape dt = Ok m /\ pack_block_first_header m = Ok header
    /\ staging = Some sg /\ staged_world sg [tmp_of path; path] w0 w /\ files w !! tmp_of path = None
    /\ content w path = Some (block_first_file header m g (mem w0) p).

Lemma stored_quiet path shape dt p m w0 w1 w :
  quiet_io w0 w1 -> block_first_stored path shape dt p m w1 w -> block_first_stored path shape dt p m w0 w.
Proof.
  intros (Q1 & Q2 & Q3 & Q4) (g & header & sg & Hm & Hs & Hmk & Hp & Hsg & (S1 & S2 & S3 & S4) & Hn & Hc).
  exists g, header, sg. split_and!; try done.
  - split; [intros x Hx; by rewrite S1, Q1|]. split; [intros a Ha; by rewrite S2, Q2|]. split; [congruence|lia].
  - by rewrite Hc, Q2.
Qed.

(** It begins with the header of its metadata. *)
Lemma stored_header path shape dt p m w0 w f :
  block_first_stored path shape dt p m w0 w -> content w path = Some f ->
  unpack_block_first_header (Dt := Dt) (take (Z.to_nat BLOCK_FIRST_HEADER_SIZE) f) = Ok m.
Proof.
  intros (g & header & sg & _ & _ & _ & Hp & _ & _ & _ & Hc) Hf. rewrite Hc in Hf. injection Hf as <-.
  unfold block_first_file. pose proof (pack_header_length _ _ Hp) as Hl.
  rewrite take_app_length' by (unfold lenZ in Hl; lia).
  pose proof (unpack_packed_header _ _ [] Hp) as Hu. by rewrite app_nil_r in Hu.
Qed.

(** Loaded from it, the chunk is what was stored. *)
Lemma stored_loaded path shape dt p m w0 w f g q (mm : Z -> Z) :
  block_first_stored path shape dt p m w0 w -> content w path = Some f -> describes m g dt ->
  payload_loaded g f q mm ->
  forall i, 0 <= i < prodZ shape * itemsize dt -> mm (q + i) = mem w0 (p + i).
Proof.
  intros (g' & header & sg & Hm & Hsh & _ & Hp & _ & _ & _ & Hc) Hf Hm' Hl i Hi.
  rewrite (describes_unique _ _ _ _ Hm' Hm) in *. clear g Hm'. rewrite Hc in Hf. injection Hf as <-.
  pose proof Hm as (Hg & Hisz & _).
  assert (0 <= i < g_nbytes g') as Hi'.
  { rewrite Hsh, <- Hisz in Hi. unfold prodZ, g_logical in Hi. simpl in Hi. unfold g_nbytes, g_runs, g_run. lia. }
  destruct (logical_source_onto g' Hg i Hi') as (j & Hj & <-). specialize (Hl j Hj).
  rewrite file_payload_lookup in Hl by (done || by eapply pack_header_length). by injection Hl as <-.
Qed.

End staged.
