(* ===== verification/GdsIndex.v ===== *)
(** * The GDS backend's index

    [hot_cache], the put tasks and the operations of [GdsBackend] ([gds_backend.py]) that
    fill and read them: key paths, the startup scan, [contains], direct puts and gets, the
    put coroutine, blocking gets. An operation under [hot_lock] or [put_lock] is atomic; a put
    coroutine runs to its end once it starts, in any order with the others. *)

From S2P Require Import Prelude Tensor Codec BlockFirst DirectIO World HipFile XdsFiles XdsPaths XdsMeta Dict XdsIndex DeviceTensor XdsStaged CuFile GdsMeta GdsFiles.

Open Scope string_scope.
Open Scope list_scope.
Open Scope Z_scope.

(** ** Data *)

(** [DiskCacheMetadata], [cached_positions] being always [None] *)
Record gds_entry {Dt : Type} := GdsEntry {
  ge_path : string;
  ge_size : Z;
  ge_shape : list Z;
  ge_dtype : Dt;
  ge_fmt : string;
  ge_disk : option BlockFirstDiskMetadata;
}.
Arguments gds_entry : clear implicits.

(** [gc_place] is where a memory object's bytes are, [gc_random] the successive random
    suffixes, [gc_schedule] what kernels have run by each staged transfer. *)
Record gds_config {Dt : Type} := GdsConfig {
  gc_engine : gds_engine Dt;
  gc_block_first_enabled : bool;
  gc_path : string;
  gc_data_suffix : string;
  gc_base_pointer : option Z;
  gc_has_allocator : bool;
  gc_use_thread_pool : bool;
  gc_staging : option (block_staging Dt);
  gc_place : Z -> placement;
  gc_random : nat -> string;
  gc_schedule : list nat;
  gc_formats : list string;
}.
Arguments gds_config : clear implicits.

(** A submitted put: the arguments of [_async_save_bytes_to_disk] *)
Record gds_job {K Dt : Type} := GdsJob { gj_key : K; gj_obj : memory_obj Dt; gj_callback : bool }.
Arguments gds_job : clear implicits.

Record gds_state {K Dt : Type} := GdsState {
  gs_io : gds_io;
  gs_hot : odict K (gds_entry Dt);
  gs_tasks : list K;                (* a set *)
  gs_dirs : gset string;
  gs_jobs : list (gds_job K Dt);    (* coroutines not yet started *)
  gs_refs : gmap Z Z;               (* references taken, by object *)
  gs_noatime : bool;
  gs_draws : nat;
  gs_completed : list K;            (* on_complete_callback calls *)
}.
Arguments gds_state : clear implicits.

Section setters.
Context {K Dt : Type}.
Implicit Types s : gds_state K Dt.

Definition gs_with_io (i : gds_io) s := GdsState _ _ i (gs_hot s) (gs_tasks s) (gs_dirs s) (gs_jobs s)
  (gs_refs s) (gs_noatime s) (gs_draws s) (gs_completed s).
Definition gs_with_hot (h : odict K (gds_entry Dt)) s := GdsState _ _ (gs_io s) h (gs_tasks s)
  (gs_dirs s) (gs_jobs s) (gs_refs s) (gs_noatime s) (gs_draws s) (gs_completed s).
Definition gs_with_tasks (l : list K) s := GdsState _ _ (gs_io s) (gs_hot s) l (gs_dirs s) (gs_jobs s)
  (gs_refs s) (gs_noatime s) (gs_draws s) (gs_completed s).
Definition gs_with_dirs (d : gset string) s := GdsState _ _ (gs_io s) (gs_hot s) (gs_tasks s) d
  (gs_jobs s) (gs_refs s) (gs_noatime s) (gs_draws s) (gs_completed s).
Definition gs_with_jobs (l : list (gds_job K Dt)) s := GdsState _ _ (gs_io s) (gs_hot s) (gs_tasks s)
  (gs_dirs s) l (gs_refs s) (gs_noatime s) (gs_draws s) (gs_completed s).
Definition gs_with_refs (r : gmap Z Z) s := GdsState _ _ (gs_io s) (gs_hot s) (gs_tasks s) (gs_dirs s)
  (gs_jobs s) r (gs_noatime s) (gs_draws s) (gs_completed s).
Definition gs_with_noatime (b : bool) s := GdsState _ _ (gs_io s) (gs_hot s) (gs_tasks s) (gs_dirs s)
  (gs_jobs s) (gs_refs s) b (gs_draws s) (gs_completed s).
Definition gs_draw s := GdsState _ _ (gs_io s) (gs_hot s) (gs_tasks s) (gs_dirs s) (gs_jobs s)
  (gs_refs s) (gs_noatime s) (S (gs_draws s)) (gs_completed s).
Definition gs_complete (k : K) s := GdsState _ _ (gs_io s) (gs_hot s) (gs_tasks s) (gs_dirs s)
  (gs_jobs s) (gs_refs s) (gs_noatime s) (gs_draws s) (gs_completed s ++ [k]).

Definition on_gio {A} (m : ST gds_io A) : ST (gds_state K Dt) A := fun s =>
  let '(r, i) := m (gs_io s) in (r, gs_with_io i s).

Definition on_gworld {A} (m : ST world A) : ST (gds_state K Dt) A := on_gio (on_gds m).

End setters.

(** [c in s] *)
Fixpoint has_char (c : Ascii.ascii) (s : string) : bool :=
  match s with
  | EmptyString => false
  | String a s' => if Ascii.eqb a c then true else has_char c s'
  end.

Definition UNDERSCORE : Ascii.ascii := Ascii.ascii_of_nat 95.

(** The exceptions the direct operations turn into a fallback *)
Definition is_direct_error (e : exn) : bool :=
  match e with
  | BlockFirstFormatError _ | RuntimeError _ | ValueError _ => true
  | e => is_os_error e
  end.

(** Those a scan of a block-first file ignores *)
Definition is_scan_error (e : exn) : bool :=
  match e with ValueError _ => true | e => is_format_error e end.

Section ops.
Context {K Dt : Type} `{!CacheKey K, !TorchDtype Dt} {JC : JsonCodec} {CL : CuFileLib} {TJ : TensorMetaJson}.
Context (cuda_malloc : (Z -> Z) -> Z -> Z).
(** [allocate] and [batched_allocate] of LMCache's allocator, [MemoryObj.is_valid], and what
    [super().batched_get_blocking] does with [get_blocking] *)
Context (allocator : list Z -> Dt -> string -> ST gds_io (option (memory_obj Dt))).
Context (batched_allocator : list Z -> Dt -> nat -> string -> ST gds_io (option (list (memory_obj Dt)))).
Context (is_valid : memory_obj Dt -> bool).
Context (super_batched_get : (K -> ST (gds_state K Dt) (option (memory_obj Dt))) -> list K ->
  ST (gds_state K Dt) (list (option (memory_obj Dt)))).
Context (cfg : gds_config Dt).
Implicit Types (key : K) (mo : memory_obj Dt).

#[local] Abbreviation eng := (gc_engine cfg).
#[local] Abbreviation M A := (ST (gds_state K Dt) A).

(** ** Paths *)

Definition gds_filename key (block_first : bool) : result string :=
  if block_first then Ok (quote (key_string key) +:+ GDS_BLOCK_FIRST_SUFFIX)
  else
    py_assert (negb (has_char UNDERSCORE (key_string key)));;
    mret (py_replace (key_string key) "/" "_" +:+ gc_data_suffix cfg).

(** The path and the key of [metadata_dirs] *)
Definition gds_key_to_path key (block_first : bool) : result (string * string) :=
  let l1_dir := py_take 2 (key_hash_str key) in
  let l2_dir := py_sub 2 4 (key_hash_str key) in
  filename ← gds_filename key block_first;
  mret (path_join (gc_path cfg) [l1_dir; l2_dir; filename], l1_dir +:+ l2_dir).

(** ** The index *)

Definition gds_get key : M (option (gds_entry Dt)) := st_gets (fun s => od_get key (gs_hot s)).

Definition gds_set key (m : gds_entry Dt) : M unit :=
  st_modify (fun s => gs_with_hot (od_set key m (gs_hot s)) s).

(** [hot_cache.pop(key)] *)
Definition gds_pop key : M unit :=
  entry ← gds_get key;
  match entry with
  | None => st_raise KeyError
  | Some _ => st_modify (fun s => gs_with_hot (od_del key (gs_hot s)) s)
  end.

Definition task_add key : M unit :=
  st_modify (fun s => gs_with_tasks (if decide (key ∈ gs_tasks s) then gs_tasks s else key :: gs_tasks s) s).

Definition task_discard key : M unit :=
  st_modify (fun s => gs_with_tasks (filter (fun k => k <> key) (gs_tasks s)) s).

Definition gds_exists_in_put_tasks key : M bool :=
  st_gets (fun s => bool_decide (key ∈ gs_tasks s)).

Definition gds_ref_add (id d : Z) : M unit :=
  st_modify (fun s => gs_with_refs (<[id := default 0 (gs_refs s !! id) + d]> (gs_refs s)) s).

Definition add_dir (d : string) : M unit := st_modify (fun s => gs_with_dirs ({[ d ]} ∪ gs_dirs s) s).

(** ** Metadata on disk *)

(** The legacy sidecar's entry, unless a block-first one is there *)
Definition gds_read_metadata key (filename subdir_key : string) : M (gds_entry Dt) :=
  s ← st_get;
  '(noatime, info) ← on_gworld (gds_read_metadata_info (gc_formats cfg) (gs_noatime s) filename);
  st_modify (gs_with_noatime noatime);;
  '(shape, dt, size, fmt, extra) ← st_lift info;
  st_lift (check_version extra);;
  let m := GdsEntry _ (removesuffix filename GDS_METADATA_FILE_SUFFIX) size shape dt fmt None in
  previous ← gds_get key;
  match previous ≫= ge_disk, previous with
  | Some _, Some p => mret p
  | _, _ => add_dir subdir_key;; gds_set key m;; mret m
  end.

(** The entry of a block-first file *)
Definition gds_block_first_entry (path : string) (dm : BlockFirstDiskMetadata) : result (gds_entry Dt) :=
  dt ← torch_dtype (Dt := Dt) dm;
  mret (GdsEntry _ path (BLOCK_FIRST_HEADER_SIZE + io_nbytes dm) (logical_shape dm) dt KV_2LTD (Some dm)).

(** The checks of [_read_block_first_metadata] before the file's size *)
Definition gds_check_block_first (dm : BlockFirstDiskMetadata) : result unit :=
  raise_if (negb (valid_tokens dm =? ge_chunk_size eng))
    (BlockFirstFormatError "block_first_v1 file is not a complete LMCache chunk");;
  match gds_one_group eng with
  | None => Raise (BlockFirstFormatError "block_first_v1 requires exactly one active KV layer group")
  | Some (shape, dt) =>
      match ge_block_size eng with
      | None => Raise AssertionError
      | Some bs => validate_runtime dm shape dt (ge_layout eng) bs
      end
  end.

Definition gds_read_block_first key (filename subdir_key : string) : M (gds_entry Dt) :=
  dm ← on_gworld (gds_read_header (Dt := Dt) filename);
  st_lift (gds_check_block_first dm);;
  actual_size ← on_gworld (os_getsize filename);
  st_lift (raise_if (negb (actual_size =? BLOCK_FIRST_HEADER_SIZE + io_nbytes dm))
    (BlockFirstFormatError "block-first file size mismatch"));;
  m ← st_lift (gds_block_first_entry filename dm);
  add_dir subdir_key;; gds_set key m;; mret m.

Definition gds_try_to_read_metadata key : M (option (gds_entry Dt)) :=
  first ← (if gc_block_first_enabled cfg then
      '(path, subdir_key) ← st_lift (gds_key_to_path key true);
      found ← on_gworld (os_exists path);
      if found : bool then
        st_catch is_format_error (m ← gds_read_block_first key path subdir_key; mret (Some m))
          (fun _ => mret None)
      else mret None
    else mret None);
  match first with
  | Some m => mret (Some m)
  | None =>
      '(path, subdir_key) ← st_lift (gds_key_to_path key false);
      let path := path +:+ GDS_METADATA_FILE_SUFFIX in
      found ← on_gworld (os_exists path);
      if found : bool then
        st_catch is_unsupported (m ← gds_read_metadata key path subdir_key; mret (Some m))
          (fun _ => mret None)
      else mret None
  end.

Definition gds_contains key : M bool :=
  entry ← gds_get key;
  match entry with
  | Some _ => mret true
  | None => m ← gds_try_to_read_metadata key; mret (negb (is_none m))
  end.

(** ** The startup scan *)

(** One file of a second-level directory *)
Definition gds_scan_file (subdir_key path name : string) : M unit :=
  match strip_suffix GDS_BLOCK_FIRST_SUFFIX name with
  | Some stem =>
      if negb (gc_block_first_enabled cfg) then mret tt
      else
        st_catch is_scan_error
          (key ← st_lift (result_of_option (ValueError "key") (key_from_string (unquote stem)));
           _ ← gds_read_block_first key path subdir_key; mret tt)
          (fun _ => mret tt)
  | None =>
      match strip_suffix (gc_data_suffix cfg +:+ GDS_METADATA_FILE_SUFFIX) name with
      | None => mret tt
      | Some stem =>
          match key_from_string (py_replace stem "_" "/") with
          | None => mret tt
          | Some key =>
              st_catch is_unsupported (_ ← gds_read_metadata key path subdir_key; mret tt)
                (fun _ => mret tt)
          end
      end
  end.

(** [_scan_metadata_subdir] of the files it finds: [(l1_dir + l2_dir, path, name)] *)
Definition gds_scan_subdir (entries : list (string * string * string)) : M unit :=
  st_iter (fun '(subdir_key, path, name) => gds_scan_file subdir_key path name) entries.

(** The first exception of a list of outcomes *)
Definition first_error {A} (l : list (result A)) : result (list A) := mapR (fun r => r) l.

Fixpoint run_all {X A} (f : X -> M A) (l : list X) : M (list (result A)) :=
  match l with
  | [] => mret []
  | x :: l' => r ← st_future (f x); rs ← run_all f l'; mret (r :: rs)
  end.

(** [asyncio.gather] of one thread per first-level directory: each runs to its end, then the
    first exception is raised. *)
Definition gds_scan_metadata (dirs : list (list (string * string * string))) : M unit :=
  outcomes ← run_all gds_scan_subdir dirs;
  st_lift (first_error outcomes);;
  mret tt.

(** ** Direct I/O *)

Definition gds_insert_direct_key key (path : string) (dm : BlockFirstDiskMetadata) : M unit :=
  m ← st_lift (gds_block_first_entry path dm); gds_set key m.

(** One key of [batched_direct_put] *)
Definition gds_direct_put key (descriptor : option DirectIODescriptor) : M bool :=
  match descriptor with
  | None => mret false
  | Some d =>
      if negb (ge_direct_enabled eng) then mret false
      else
        existing ← gds_get key;
        match existing ≫= ge_disk with
        | Some _ => mret true
        | None =>
            pending ← gds_exists_in_put_tasks key;
            if pending : bool then mret false
            else
              task_add key;;
              st_finally
                (st_catch is_direct_error
                  ('(path, _) ← st_lift (gds_key_to_path key true);
                   on_gworld os_makedirs;;
                   dm ← on_gio (save_direct_gds eng path d);
                   gds_insert_direct_key key path dm;;
                   mret true)
                  (fun _ => mret false))
                (task_discard key)
        end
  end.

(** [zip(keys, descriptors, strict=True)] *)
Fixpoint gds_direct_loop (one : K -> option DirectIODescriptor -> M bool) (keys : list K)
    (descriptors : list (option DirectIODescriptor)) : M (list bool) :=
  match keys, descriptors with
  | [], [] => mret []
  | key :: keys', d :: descriptors' =>
      r ← one key d; rs ← gds_direct_loop one keys' descriptors'; mret (r :: rs)
  | _, _ => st_raise (ValueError "zip() arguments differ in length")
  end.

Definition gds_batched_direct_put := gds_direct_loop gds_direct_put.

(** One key of [batched_direct_get] *)
Definition gds_direct_get (env : world -> world) key (descriptor : option DirectIODescriptor) : M bool :=
  match descriptor with
  | None => mret false
  | Some d =>
      if negb (ge_direct_enabled eng) then mret false
      else
        entry ← gds_get key;
        match entry with
        | Some (GdsEntry _ path _ _ _ _ (Some dm)) =>
            st_catch is_direct_error (on_gio (load_direct_gds eng env path dm d);; mret true)
              (fun _ => mret false)
        | _ => mret false
        end
  end.

Definition gds_batched_direct_get (env : world -> world) := gds_direct_loop (gds_direct_get env).

(** ** Storing *)

(** [_use_block_first_for_tensor] *)
Definition gds_use_block_first (shape : list Z) : result bool :=
  if negb (gc_block_first_enabled cfg) then Ok false
  else match shape with
       | [two; _; tokens; _] =>
           raise_if (negb (two =? 2))
             (BlockFirstFormatError "block_first_v1 source must use logical [2, NL, T, D] layout");;
           mret (tokens =? ge_chunk_size eng)
       | _ => Raise (BlockFirstFormatError
                "block_first_v1 source must use logical [2, NL, T, D] layout")
       end.

Definition gds_submit_put_task key mo (callback : bool) : M unit :=
  gds_ref_add (mo_id mo) 1;;
  task_add key;;
  st_modify (fun s => gs_with_jobs (gs_jobs s ++ [GdsJob _ _ key mo callback]) s).

(** [zip(keys, memory_objs, strict=False)] *)
Definition gds_batched_submit_put (keys : list K) (objs : list (memory_obj Dt)) (callback : bool) : M unit :=
  st_iter (fun '(key, mo) => gds_submit_put_task key mo callback) (zip keys objs).

Definition gds_insert_key key mo (path : option string) (dm : option BlockFirstDiskMetadata) : M unit :=
  p ← match path with
      | Some p => mret p
      | None => '(p, _) ← st_lift (gds_key_to_path key false); mret p
      end;
  let size := match dm with
              | Some m => BLOCK_FIRST_HEADER_SIZE + io_nbytes m
              | None => mo_physical_size mo
              end in
  gds_set key (GdsEntry _ p size (mo_shape mo) (mo_dtype mo) (mo_fmt mo) dm).

Definition gds_tensor mo : dtensor Dt torch_device :=
  let p := gc_place cfg (mo_id mo) in
  DTensor (pl_ptr p) (mo_tensor_shape mo) (pl_strides p) (mo_dtype mo) (pl_device p).

(** What the coroutine does before its [try] *)
Definition gds_put_target key mo : M (bool * string * string) :=
  use_block_first ← st_lift (gds_use_block_first (mo_tensor_shape mo));
  '(path, subdir_key) ← st_lift (gds_key_to_path key use_block_first);
  s ← st_get;
  (if decide (subdir_key ∈ gs_dirs s) then mret tt
   else on_gworld os_makedirs;; add_dir subdir_key);;
  st_modify gs_draw;;
  mret (use_block_first, path, ".tmp" +:+ gc_random cfg (gs_draws s)).

(** The chunk's file and, of the legacy layout, its sidecar *)
Definition gds_store_chunk mo (use_block_first : bool) (path tmp : string)
    : ST world (option BlockFirstDiskMetadata) :=
  if use_block_first then
    m ← save_block_first_gds cuda_malloc eng (gc_staging cfg) (gc_schedule cfg) path (gds_tensor mo);
    mret (Some m)
  else
    metadata ← save_gds eng path tmp (gds_tensor mo) (mo_fmt mo) (gc_base_pointer cfg)
                 (pl_address (gc_place cfg (mo_id mo)));
    gds_save_metadata (path +:+ GDS_METADATA_FILE_SUFFIX) tmp metadata;;
    mret None.

Definition gds_async_save (j : gds_job K Dt) : M unit :=
  let key := gj_key j in
  let mo := gj_obj j in
  '(use_block_first, path, tmp) ← gds_put_target key mo;
  st_finally
    (dm ← on_gworld (gds_store_chunk mo use_block_first path tmp);
     gds_insert_key key mo (Some path) dm;;
     if gj_callback j then st_modify (gs_complete key) else mret tt)
    (gds_ref_add (mo_id mo) (-1);; task_discard key).

(** A pending coroutine runs; its exception stays in its future. *)
Definition gds_run_put (i : nat) : M (result unit) :=
  s ← st_get;
  match gs_jobs s !! i with
  | None => mret (Ok tt)
  | Some j =>
      st_modify (gs_with_jobs (delete i (gs_jobs s)));;
      st_future (gds_async_save j)
  end.

(** ** Loading *)

Definition gds_load_chunk (path : string) (entry : gds_entry Dt) mo : M (option Z) :=
  match ge_disk entry with
  | Some dm =>
      st_catch is_format_error
        (on_gworld (load_block_first_gds cuda_malloc eng (gc_staging cfg) (gc_schedule cfg) path dm
           (gds_tensor mo)))
        (fun _ => mret (Some (-1)))
  | None =>
      let p := gc_place cfg (mo_id mo) in
      let '(addr, dev_offset) := match gc_base_pointer cfg with
        | None => (pl_ptr p, 0)
        | Some b => (b, pl_address p)
        end in
      on_gworld (load_gds eng path GDS_METADATA_MAX_SIZE addr (mo_size mo) dev_offset)
  end.

(** The count a complete load returns *)
Definition gds_load_size (entry : gds_entry Dt) mo : Z :=
  match ge_disk entry with Some dm => io_nbytes dm | None => mo_size mo end.

(** An error drops the entry, a short read does not; a result of [None] is compared with 0. *)
Definition gds_load_with_memory key (path : string) (memory : option (memory_obj Dt))
    : M (option (memory_obj Dt)) :=
  match memory with
  | None => mret None
  | Some mo =>
      if negb (is_valid mo) then mret None
      else
        found ← gds_get key;
        match found with
        | None => gds_ref_add (mo_id mo) (-1);; mret None
        | Some entry =>
            ret ← gds_load_chunk path entry mo;
            if bool_decide (ret = Some (gds_load_size entry mo)) then mret (Some mo)
            else
              match ret with
              | None => st_raise TypeError
              | Some c => if c <? 0 then gds_pop key else mret tt
              end;;
              gds_ref_add (mo_id mo) (-1);;
              mret None
        end
  end.

(** A new object has one reference. *)
Definition gds_allocate_entry (entry : gds_entry Dt) : M (option (memory_obj Dt)) :=
  memory ← on_gio (allocator (ge_shape entry) (ge_dtype entry) (ge_fmt entry));
  match memory with
  | None => mret None
  | Some mo => gds_ref_add (mo_id mo) 1;; mret (Some mo)
  end.

Definition gds_get_blocking key : M (option (memory_obj Dt)) :=
  if negb (gc_has_allocator cfg) then mret None
  else
    found ← gds_get key;
    match found with
    | None => mret None
    | Some entry =>
        memory ← gds_allocate_entry entry;
        gds_load_with_memory key (ge_path entry) memory
    end.

(** A memory object for each entry that was found *)
Fixpoint gds_allocate_found (l : list (K * option (gds_entry Dt)))
    : M (list (K * string * option (memory_obj Dt))) :=
  match l with
  | [] => mret []
  | (key, None) :: l' => rest ← gds_allocate_found l'; mret ((key, "", None) :: rest)
  | (key, Some entry) :: l' =>
      memory ← gds_allocate_entry entry;
      rest ← gds_allocate_found l'; mret ((key, ge_path entry, memory) :: rest)
  end.

(** [_batched_get_blocking_by_thread_pool_impl]: entries, then objects, then one load per key;
    the first exception is raised once every load has run. *)
Definition gds_pool_batch (keys : list K) : M (list (option (memory_obj Dt))) :=
  s ← st_get;
  loads ← gds_allocate_found ((fun key => (key, od_get key (gs_hot s))) <$> keys);
  outcomes ← run_all (fun '(key, path, memory) => gds_load_with_memory key path memory) loads;
  st_lift (first_error outcomes).

Definition gds_batched_get_blocking (keys : list K) : M (list (option (memory_obj Dt))) :=
  if negb (gc_has_allocator cfg) then mret (replicate (length keys) None)
  else if gc_use_thread_pool cfg then gds_pool_batch keys
  else super_batched_get gds_get_blocking keys.

(** [submit_prefetch_task] and [get_non_blocking] do nothing; pins are not kept; [remove] raises
    [NotImplementedError], a [RuntimeError]; nothing is
    removed. *)
Definition gds_submit_prefetch_task key : bool := false.
Definition gds_get_non_blocking key : option unit :=
  if gds_submit_prefetch_task key then Some tt else None.
Definition gds_pin key : bool := false.
Definition gds_unpin key : bool := false.
Definition gds_remove key : M unit := st_raise (RuntimeError "Remote backend does not support remove now.").

(** [allocate] *)
Definition gds_allocate (shape : list Z) (dt : Dt) (fmt : string) : M (option (memory_obj Dt)) :=
  if negb (gc_has_allocator cfg) then mret None
  else
    memory ← on_gio (allocator shape dt fmt);
    match memory with
    | None => mret None
    | Some mo => gds_ref_add (mo_id mo) 1;; mret (Some mo)
    end.

(** [batched_allocate] *)
Definition gds_batched_allocate (shape : list Z) (dt : Dt) (batch_size : nat) (fmt : string)
    : M (option (list (memory_obj Dt))) :=
  if negb (gc_has_allocator cfg) then mret None
  else
    objs ← on_gio (batched_allocator shape dt batch_size fmt);
    match objs with
    | None => mret None
    | Some l => st_iter (fun mo => gds_ref_add (mo_id mo) 1) l;; mret (Some l)
    end.

End ops.
