(* ===== verification/GdsFacts.v ===== *)
(** * What the GDS backend's puts and gets leave

    Outcomes of a direct put and of a put coroutine on the index, the put tasks, the
    references and the files; a direct store followed by a direct retrieve through the
    index. *)

From S2P Require Import Prelude Tensor Codec BlockFirst DirectIO World WorldIO HipFile XdsFiles XdsLoad XdsPaths XdsMeta Dict XdsIndex DeviceTensor XdsStaged CuFile GdsMeta GdsFiles GdsDirect GdsIndex.

Open Scope string_scope.
Open Scope list_scope.
Open Scope Z_scope.

Section facts.
Context {K Dt : Type} `{!CacheKey K, !TorchDtype Dt, !TorchDtypeLaws Dt} {JC : JsonCodec} {JL : JsonCodecLaws}.
Context {CL : CuFileLib} {CLL : CuFileLaws} {TJ : TensorMetaJson}.
Context (cuda_malloc : (Z -> Z) -> Z -> Z) (cfg : gds_config Dt).
Implicit Types (s t : gds_state K Dt) (key : K) (mo : memory_obj Dt) (d : DirectIODescriptor).

#[local] Abbreviation eng := (gc_engine cfg).
#[local] Abbreviation gw s := (g_world (gs_io s)).

Lemma on_gio_run {A} (m : ST gds_io A) s :
  on_gio m s = ((m (gs_io s)).1, gs_with_io (m (gs_io s)).2 s).
Proof. unfold on_gio. by destruct (m (gs_io s)). Qed.

Lemma on_gworld_run {A} (m : ST world A) s :
  on_gworld m s = ((m (gw s)).1, gs_with_io (GdsIO (m (gw s)).2 (g_registrations (gs_io s))
    (g_edge (gs_io s)) (g_buffers (gs_io s)) (g_pools (gs_io s))) s).
Proof. unfold on_gworld. rewrite on_gio_run. unfold on_gds. by destruct (m (gw s)). Qed.

(** ** Direct puts *)

(** The task set a put leaves: its key was not in it. *)
Lemma discard_new key (l : list K) : key ∉ l -> filter (fun k => k <> key) (key :: l) = l.
Proof.
  intros Hn. rewrite filter_cons_False by tauto.
  induction l as [|k l IH]; [done|]. apply not_elem_of_cons in Hn as [Hk Hl].
  rewrite filter_cons_True by congruence. by rewrite IH.
Qed.

(** What the file transaction of a direct put leaves of the world [w0] *)
Definition direct_stored (path : string) d (m : BlockFirstDiskMetadata) (w0 w : world) : Prop :=
  keeps_files [tmp_of path; path] w0 w /\ files w !! tmp_of path = None
  /\ (exists header, pack_block_first_header m = Ok header
        /\ content w path = Some (header ++ direct_payload w0 d))
  /\ fds w = fds w0.

Lemma keeps_none qs w0 w : keeps_files [] w0 w -> keeps_files qs w0 w.
Proof. intros [Hk Hm]. split; [|done]. intros q _. apply Hk, not_elem_of_nil. Qed.

(** The temporary file may be left where its removal failed. *)
Definition direct_untouched (path : string) (w0 w : world) : Prop :=
  keeps_files [tmp_of path] w0 w /\ fds w = fds w0.

Lemma direct_stored_from path d m w0 w1 w :
  keeps_files [] w0 w1 -> fds w1 = fds w0 -> direct_payload w1 d = direct_payload w0 d ->
  direct_stored path d m w1 w -> direct_stored path d m w0 w.
Proof.
  intros [Hk Hm] Hd Hp ([Hk' Hm'] & Hn & (h & Hh & Hc) & Hf). split_and!; try done; try congruence.
  - split; [|intros a; by rewrite Hm'].
    intros q Hq. rewrite Hk' by done. apply Hk, not_elem_of_nil.
  - exists h. by rewrite <- Hp.
Qed.

Lemma direct_untouched_from path w0 w1 w :
  keeps_files [] w0 w1 -> fds w1 = fds w0 -> direct_untouched path w1 w -> direct_untouched path w0 w.
Proof.
  intros [Hk Hm] Hd [[Hk' Hm'] Hf]. split; [|congruence]. split; [|intros a; by rewrite Hm'].
  intros q Hq. rewrite Hk' by done. apply Hk, not_elem_of_nil.
Qed.

Lemma save_direct_gds_cases path d i :
  fds_ok (g_world i) ->
  match save_direct_gds eng path d i with
  | (Ok m, i') => gds_check_store eng d = Ok m /\ direct_stored path d m (g_world i) (g_world i')
  | (Raise ex, i') => direct_untouched path (g_world i) (g_world i')
  end.
Proof.
  intros Hfds. destruct (gds_check_store eng d) as [m|ex] eqn:Hck.
  - pose proof (save_direct_gds_triple eng path d m (g_world i) (fds (g_world i))
      (fresh (g_world i)) Hfds Hck ltac:(intros h; apply pack_header_length) i ltac:(done)) as H.
    destruct (save_direct_gds eng path d i) as [[m'|ex] i'].
    + destruct H as (-> & (Hk & Hn & Hc) & [Hfd _]). done.
    + destruct H as (H & [Hfd _]). split; [|done].
      destruct H as [Hk|[Hk _]]; [by apply keeps_none|done].
  - unfold save_direct_gds. rewrite Hck. split; [by apply keeps_none|done].
Qed.

(** The index entry a direct put makes *)
Definition direct_entry (path : string) (m : BlockFirstDiskMetadata) (en : gds_entry Dt) : Prop :=
  ge_path en = path /\ ge_size en = BLOCK_FIRST_HEADER_SIZE + io_nbytes m /\ ge_disk en = Some m
  /\ ge_shape en = logical_shape m /\ torch_dtype m = Ok (ge_dtype en).

(** A stored descriptor's metadata names a dtype of the runtime. *)
Lemma check_store_dtype d m : gds_check_store eng d = Ok m -> exists dt : Dt, torch_dtype m = Ok dt.
Proof.
  intros (_ & _ & _ & _ & Hm & _)%gds_check_store_Ok. unfold gds_direct_metadata in Hm.
  destruct (gds_one_group eng) as [[shape dt]|]; [|done]. unfold gds_make_block_first_metadata in Hm.
  destruct (ge_block_size eng); [|done]. unfold create in Hm. res_inv. subst m.
  destruct (dtype_name_total dt) as (name & Hn & Hp). exists dt. unfold torch_dtype. simpl. congruence.
Qed.

(** Failing to make a directory consumes an event. *)
Lemma makedirs_cases (w : world) :
  let w' := (os_makedirs w).2 in
  keeps_files [] w w' /\ fds w' = fds w /\ fresh w' = fresh w /\ forall d, direct_payload w' d = direct_payload w d.
Proof.
  unfold os_makedirs, may_fail, next_event, mbind, ST_bind.
  by destruct (oracle w) as [|[|n|n] o].
Qed.

Definition direct_try key d : ST (gds_state K Dt) bool :=
  '(path, _) ← st_lift (gds_key_to_path cfg key true);
  on_gworld os_makedirs;;
  dm ← on_gio (save_direct_gds eng path d);
  gds_insert_direct_key key path dm;;
  mret true.

Lemma direct_try_cases key d s path sub :
  fds_ok (gw s) -> gds_key_to_path cfg key true = Ok (path, sub) ->
  let '(r, t) := direct_try key d s in
  gs_tasks t = gs_tasks s /\ gs_refs t = gs_refs s
  /\ match r with
     | Ok b => b = true /\ exists m en, gds_check_store eng d = Ok m /\ direct_entry path m en
         /\ gs_hot t = od_set key en (gs_hot s) /\ direct_stored path d m (gw s) (gw t)
     | Raise ex => gs_hot t = gs_hot s /\ direct_untouched path (gw s) (gw t)
     end.
Proof.
  intros Hfds Hp. unfold direct_try. rewrite Hp. cbn [mbind ST_bind st_lift].
  unfold mbind, ST_bind, st_lift. rewrite on_gworld_run.
  pose proof (makedirs_cases (gw s)) as Hmk. destruct (os_makedirs (gw s)) as [[[]|ex] w1];
    cbn [fst snd] in *; destruct Hmk as (Hk1 & Hd1 & Hf1 & Hpay).
  2:{ split_and!; try done. split; [by apply keeps_none|done]. }
  rewrite on_gio_run. cbn [gs_with_io gs_io].
  match goal with |- context [save_direct_gds eng path d ?i] => set (i1 := i) end.
  assert (g_world i1 = w1) as Hw1 by done.
  assert (fds_ok (g_world i1)) as Hfds1 by (intros fd; rewrite Hw1, Hd1, Hf1; apply Hfds).
  pose proof (save_direct_gds_cases path d i1 Hfds1) as Hs.
  destruct (save_direct_gds eng path d i1) as [[m|ex] i2]; cbn [fst snd].
  - destruct Hs as [Hck Hst]. destruct (check_store_dtype d m Hck) as [dt Hdt].
    unfold gds_insert_direct_key, gds_block_first_entry, gds_set, st_lift, st_modify, mbind, ST_bind.
    rewrite Hdt. cbn. split_and!; try done. exists m, (GdsEntry _ path (BLOCK_FIRST_HEADER_SIZE + io_nbytes m)
      (logical_shape m) dt KV_2LTD (Some m)). split; [done|]. split; [done|]. split; [done|].
    exact (direct_stored_from path d m (gw s) w1 _ Hk1 Hd1 (Hpay d) Hst).
  - cbn. split; [done|]. split; [done|]. split; [done|].
    exact (direct_untouched_from path (gw s) w1 _ Hk1 Hd1 Hs).
Qed.

(** A direct put of a key without a block-first entry and without a put task: it reports the
    chunk stored, with its file and its entry; or a fallback, with the index as it was; the
    put task has ended either way. *)
Lemma direct_put_cases key d s path sub :
  fds_ok (gw s) -> key ∉ gs_tasks s -> od_get key (gs_hot s) ≫= ge_disk = None ->
  ge_direct_enabled eng = true -> gds_key_to_path cfg key true = Ok (path, sub) ->
  let '(r, t) := gds_direct_put cfg key (Some d) s in
  gs_tasks t = gs_tasks s /\ gs_refs t = gs_refs s
  /\ match r with
     | Ok true => exists m en, gds_check_store eng d = Ok m /\ direct_entry path m en
         /\ gs_hot t = od_set key en (gs_hot s) /\ direct_stored path d m (gw s) (gw t)
     | Ok false => gs_hot t = gs_hot s /\ direct_untouched path (gw s) (gw t)
     | Raise ex => is_direct_error ex = false /\ gs_hot t = gs_hot s
         /\ direct_untouched path (gw s) (gw t)
     end.
Proof.
  intros Hfds Hn Hnone Hen Hp. unfold gds_direct_put, gds_get, gds_exists_in_put_tasks, st_gets.
  rewrite Hen. cbn [negb]. unfold mbind at 1, ST_bind at 1. cbv beta iota. rewrite Hnone.
  unfold mbind at 1, ST_bind at 1. cbv beta iota. rewrite bool_decide_eq_false_2 by done.
  unfold mbind at 1, ST_bind at 1, task_add at 1, st_modify at 1. cbv beta iota.
  set (s1 := gs_with_tasks _ s). fold (direct_try key d).
  pose proof (direct_try_cases key d s1 path sub Hfds Hp) as Ht.
  unfold st_finally, st_catch. destruct (direct_try key d s1) as [[b|ex] t].
  - destruct Ht as (Htk & Hr & -> & Hok). cbn. rewrite Htk. cbn. rewrite decide_False, discard_new by done. done.
  - destruct Ht as (Htk & Hr & Hh & Hu). destruct (is_direct_error ex) eqn:He; cbn; rewrite Htk; cbn;
      rewrite decide_False, discard_new by done; done.
Qed.


(** A batch of one key *)
Lemma direct_loop_one (one : K -> option DirectIODescriptor -> ST (gds_state K Dt) bool) key o s :
  gds_direct_loop one [key] [o] s
  = let '(r, t) := one key o s in
    (match r with Ok b => Ok [b] | Raise ex => Raise ex end, t).
Proof. cbn. unfold mbind, ST_bind. by destruct (one key o s) as [[b|ex] t]. Qed.

(** A direct store of a chunk without a block-first entry and without a put task stores
    it, reports a fallback or raises. When it reports the chunk stored, the file at the key's
    path holds the packed header and the bytes of the descriptor's blocks, no temporary file
    is left, and the index maps the key to the entry of that file. When it reports a fallback
    or raises, the index is as it was and only the temporary file may be left. In every case
    the put task has ended, no reference count, no other file, no descriptor and no device
    memory changed; and what is raised is none of the exceptions a fallback is made of. *)
Theorem gds_direct_put_outcome key d s path sub :
  fds_ok (gw s) -> key ∉ gs_tasks s -> od_get key (gs_hot s) ≫= ge_disk = None ->
  ge_direct_enabled eng = true -> gds_key_to_path cfg key true = Ok (path, sub) ->
  let '(r, t) := gds_batched_direct_put cfg [key] [Some d] s in
  gs_tasks t = gs_tasks s /\ gs_refs t = gs_refs s
  /\ match r with
     | Ok results =>
         (results = [true] /\ exists m en, gds_check_store eng d = Ok m /\ direct_entry path m en
            /\ gs_hot t = od_set key en (gs_hot s) /\ direct_stored path d m (gw s) (gw t))
         \/ (results = [false] /\ gs_hot t = gs_hot s /\ direct_untouched path (gw s) (gw t))
     | Raise ex => is_direct_error ex = false /\ gs_hot t = gs_hot s
         /\ direct_untouched path (gw s) (gw t)
     end.
Proof.
  intros Hfds Hn Hnone Hen Hp. unfold gds_batched_direct_put. rewrite direct_loop_one.
  pose proof (direct_put_cases key d s path sub Hfds Hn Hnone Hen Hp) as H.
  destruct (gds_direct_put cfg key (Some d) s) as [[[]|ex] t]; destruct H as (Ht & Hr & H);
    (split; [done|split; [done|]]); [left|right|]; done.
Qed.

(** ** Direct gets *)

(** What a get that reports [true] did *)
Lemma direct_get_true env key d s t :
  gds_batched_direct_get cfg env [key] [Some d] s = (Ok [true], t) ->
  exists path size shape dt fmt dm i, od_get key (gs_hot s) = Some (GdsEntry _ path size shape dt fmt (Some dm))
    /\ load_direct_gds eng env path dm d (gs_io s) = (Ok tt, i) /\ gs_io t = i.
Proof.
  unfold gds_batched_direct_get. rewrite direct_loop_one. unfold gds_direct_get, gds_get, st_gets.
  destruct (ge_direct_enabled eng); [|by intros [=]]. cbn [negb]. unfold mbind at 1, ST_bind at 1.
  destruct (od_get key (gs_hot s)) as [[path size shape dt fmt [dm|]]|]; [|by intros [=]..].
  unfold st_catch, mbind, ST_bind. rewrite on_gio_run.
  destruct (load_direct_gds eng env path dm d (gs_io s)) as [[[]|ex] i] eqn:E; cbn.
  - intros [= <-]. by exists path, size, shape, dt, fmt, dm, i.
  - destruct (is_direct_error ex); [|done]. by intros [=].
Qed.

(** C9: a chunk stored directly under a key and then retrieved directly under that key has,
    at every device address of the retrieve descriptor, the byte the stored block held,
    whatever physical blocks the two descriptors use, and whatever happened to other keys, to
    other files and to memory in between. The retrieve takes the path and the metadata
    from the entry the store made. *)
Theorem gds_direct_roundtrip env key ds dr s s1 s2 s3 path sub :
  fds_ok (gw s) -> key ∉ gs_tasks s -> od_get key (gs_hot s) ≫= ge_disk = None ->
  gds_key_to_path cfg key true = Ok (path, sub) ->
  gds_batched_direct_put cfg [key] [Some ds] s = (Ok [true], s1) ->
  od_get key (gs_hot s2) = od_get key (gs_hot s1) -> content (gw s2) path = content (gw s1) path ->
  fds_ok (gw s2) -> others_elsewhere path env -> shapes_of_chunk (as_xds eng) ->
  addresses_distinct (row_nbytes (as_xds eng)) dr -> edge_apart eng dr (g_edge (gs_io s2)) ->
  gds_batched_direct_get cfg env [key] [Some dr] s2 = (Ok [true], s3) ->
  forall j a, 0 <= j < logical_block_count ds * block_nbytes ds ->
    device_address (row_nbytes (as_xds eng)) dr (BLOCK_FIRST_HEADER_SIZE + j) = Some a ->
    mem (gw s3) a = mem (gw s) (source_address ds j).
Proof.
  intros Hfds Hn Hnone Hp Hput Hhot Hfile Hfds2 Henv Hch Hdist Hap Hget j a Hj Ha.
  assert (ge_direct_enabled eng = true) as Hen.
  { revert Hput. unfold gds_batched_direct_put. rewrite direct_loop_one. unfold gds_direct_put.
    by destruct (ge_direct_enabled eng). }
  pose proof (direct_put_cases key ds s path sub Hfds Hn Hnone Hen Hp) as H.
  unfold gds_batched_direct_put in Hput. rewrite direct_loop_one in Hput.
  destruct (gds_direct_put cfg key (Some ds) s) as [[[]|ex] t]; [|done..].
  injection Hput as <-. destruct H as (_ & _ & m & en & _ & (Hpath & _ & Hdisk & _) & Hset
    & (_ & _ & (header & Hpack & Hc) & _)).
  apply direct_get_true in Hget as (path' & size & shape & dt & fmt & dm & i & Hen' & Hload & Hi).
  rewrite Hhot, Hset, od_get_set, decide_True in Hen' by done. injection Hen' as ->.
  simpl in Hpath, Hdisk. subst path'. injection Hdisk as ->.
  pose proof (load_direct_gds_spec eng env path m dr (gs_io s2) Hfds2 Henv Hch Hdist Hap) as H.
  rewrite Hload in H. destruct H as ((f & Hf & _ & _ & Hb) & _).
  rewrite Hfile, Hc in Hf. injection Hf as <-. rewrite Hi.
  exact (payload_byte header (gw s) ds j _ (pack_header_length _ _ Hpack) Hj (Hb _ _ Ha)).
Qed.

End facts.
