(* ===== verification/GdsLegacy.v ===== *)
(** * Files of the GDS backend's legacy layout

    What [_save_gds] and [save_metadata] leave at a chunk's path and sidecar, by cuFile or by a
    mapped file, and what [_load_gds] puts in device memory when it reports every byte. *)

From S2P Require Import Prelude Tensor Codec BlockFirst DirectIO World WorldIO HipFile XdsFiles XdsPaths XdsMeta Dict XdsIndex DeviceTensor XdsStaged CuFile GdsMeta GdsFiles.

Open Scope string_scope.
Open Scope list_scope.
Open Scope Z_scope.

(** Overwriting the end of a file *)
Lemma write_at_tail (m z d : list Z) off :
  off = length m -> length z = length d -> write_at (m ++ z) off d = m ++ d.
Proof.
  intros -> Hl. unfold write_at. rewrite <- app_assoc, take_app_length.
  by rewrite drop_ge, app_nil_r by (rewrite length_app; lia).
Qed.

(** ** Steps on one file *)

(** [P] does not depend on the files [ps]. *)
Definition ignores (ps : list string) (P : world -> Prop) : Prop :=
  io_closed P
  /\ forall w w', (forall q, q ∉ ps -> files w' !! q = files w !! q) -> mem w' = mem w -> P w -> P w'.

Lemma keeps_ignores ps qs w0 : qs ⊆ ps -> ignores qs (keeps_files ps w0).
Proof.
  intros Hs. split; [apply keeps_files_closed|]. intros w w' Hf Hm [Hk Hm0].
  split; [|intros a; by rewrite Hm]. intros q Hq. rewrite Hf; [by apply Hk|]. intros H. by apply Hq, Hs.
Qed.

Lemma content_ignores path c qs : path ∉ qs -> ignores qs (fun w => content w path = c).
Proof.
  intros Hn. split; [exact (content_closed path (fun x => x = c))|].
  intros w w' Hf _ H. unfold content in *. by rewrite Hf.
Qed.

Lemma ignores_and qs P Q : ignores qs P -> ignores qs Q -> ignores qs (fun w => P w /\ Q w).
Proof.
  intros [Hp HP] [Hq HQ]. split; [by apply io_closed_conj|]. intros w w' Hf Hm [H1 H2]. split; eauto.
Qed.

Lemma holds_closed path data P :
  io_closed P -> io_closed (fun w => P w /\ content w path = Some data).
Proof. intros HP. apply io_closed_conj; [done|exact (content_closed path (fun c => c = Some data))]. Qed.

(** [P], and the file at [path] is [data] *)
Definition holds (P : world -> Prop) (path : string) (data : list Z) (w : world) : Prop :=
  P w /\ content w path = Some data.

Lemma insert_ignores path P w i b :
  ignores [path] P -> P w -> holds P path b (with_files w (<[path := File i b]> (files w))).
Proof.
  intros [_ HP] Hw. split; [|unfold content; simpl; by rewrite lookup_insert_eq].
  apply (HP w); [|done|done]. intros q Hq. simpl. rewrite lookup_insert_ne; [done|]. set_solver.
Qed.

Lemma file_write_triple path data P fs k :
  (forall fd, is_Some (fs !! fd) -> fd < k) -> ignores [path] P ->
  triple (fun w => P w /\ fds_at fs k w) (py_write_file path data)
    (fun _ w => holds P path data w /\ fds_at fs k w) (fun _ w => P w /\ fds_at fs k w).
Proof.
  intros Hfs HP. eapply triple_conseq; [apply (py_write_file_triple path data P
    (fun b => holds P path b) fs k Hfs)| | |].
  - apply HP.
  - intros b. apply holds_closed, HP.
  - intros w i b Hw. by apply insert_ignores.
  - by intros b w [Hw _].
  - done.
  - by intros r w [[Hw _] Hf].
  - by intros ex w [_ Hw].
Qed.

(** A rename either happens, which [Q] allows, or leaves [P]. *)
Lemma rename_triple src dst data (P Q : world -> Prop) fs k :
  io_closed P -> ignores [src; dst] Q -> (forall w, P w -> Q w) ->
  triple (fun w => holds P src data w /\ fds_at fs k w) (os_replace src dst)
    (fun _ w => holds Q dst data w /\ fds_at fs k w) (fun _ w => P w /\ fds_at fs k w).
Proof.
  intros Hc [_ HQ] HPQ. eapply triple_conseq; [apply (os_replace_triple src dst (holds P src data)
    (holds Q dst data) fs k)| | |].
  - by apply holds_closed.
  - intros w f [Hw Hd] Hf. split.
    + apply (HQ w); [|done|by apply HPQ]. intros q Hq. simpl.
      rewrite lookup_insert_ne, lookup_delete_ne by set_solver. done.
    + unfold content in *. simpl. rewrite lookup_insert_eq. by rewrite Hf in Hd.
  - done.
  - done.
  - by intros ex w [_ [[Hw _] Hf]].
Qed.

(** Opening a file that is there, without truncation *)
Lemma open_triple {A} path mode (rest : Z -> ST world A) P fs k Q E :
  (forall fd, is_Some (fs !! fd) -> fd < k) -> io_closed P ->
  creates mode = false -> (forall b, opened_bytes mode b = b) ->
  (forall w, P w -> E w) ->
  (forall fd o, of_path o = path -> fs !! fd = None ->
     triple (fun w => P w /\ fds_at (<[fd := o]> fs) k w) (rest fd) Q (fun _ => E)) ->
  triple (fun w => P w /\ fds_at fs k w) (fd ← os_open path mode; rest fd) Q (fun _ => E).
Proof.
  intros Hfs HP Hcr Hb HE Hrest. eapply triple_bind.
  - eapply triple_exn; [apply (os_open_triple path mode P P fs k HP HP)|].
    + intros w i Hw Hex Hi. destruct Hex as [?|[f Hf]]; [congruence|].
      apply (HP w); [|done|done]. simpl. rewrite Hf in Hi. subst i. unfold content.
      rewrite Hf, Hb. simpl. destruct f. by apply insert_id.
    + intros ex w [_ [Hw _]]. by apply HE.
  - intros fd w (Hw & Hfd & Hk & o & Hp & _ & Hf). apply (Hrest fd o Hp); [|done].
    destruct (fs !! fd) eqn:Ef; [|done]. assert (fd < k) by (apply Hfs; by eexists). lia.
Qed.

Section legacy.
Context {Dt : Type} `{!TorchDtype Dt, !TorchDtypeLaws Dt} {CL : CuFileLib} {CLL : CuFileLaws} {TJ : TensorMetaJson}.
Implicit Types (e : gds_engine Dt) (t : dtensor Dt torch_device).

(** ** Store *)

(** The mapped store truncates to the final length, then copies everything. *)
Lemma save_mapped_triple tmp t addr dof w0 ps metadata fs k :
  (forall fd, is_Some (fs !! fd) -> fd < k) -> tmp ∈ ps -> 0 <= nbytes t ->
  lenZ metadata = GDS_METADATA_MAX_SIZE ->
  triple (fun w => holds (keeps_files ps w0) tmp metadata w /\ fds_at fs k w)
    (save_mapped tmp t addr dof)
    (fun _ w => holds (keeps_files ps w0) tmp
        (metadata ++ mem_slice (mem w0) (addr + dof) (Z.to_nat (nbytes t))) w /\ fds_at fs k w)
    (fun _ => keeps_files ps w0).
Proof.
  intros Hfs Htmp Hn Hl. unfold save_mapped.
  assert (ignores [tmp] (keeps_files ps w0)) as Hig by (apply keeps_ignores; set_solver).
  apply open_triple; [done|by apply holds_closed, keeps_files_closed|done|done|by intros w [Hw _]|].
  intros fd o Ho Hfd. set (zeros := replicate (Z.to_nat (nbytes t)) 0).
  apply (triple_bind _ _ _ (fun _ w => holds (keeps_files ps w0) tmp (metadata ++ zeros) w
    /\ fds_at (<[fd := o]> fs) k w)).
  { eapply triple_exn; [apply (os_ftruncate_triple tmp (holds (keeps_files ps w0) tmp metadata)
      (holds (keeps_files ps w0) tmp (metadata ++ zeros)) _ _ fd o)|].
    - by apply holds_closed, keeps_files_closed.
    - by rewrite lookup_insert_eq.
    - done.
    - intros w f [Hw Hc] Hf. unfold content in Hc. rewrite Hf in Hc. injection Hc as ->.
      replace (take _ _) with (metadata ++ zeros); [by apply insert_ignores|].
      unfold lenZ, GDS_METADATA_MAX_SIZE in *. unfold zeros.
      replace (Z.to_nat (nbytes t + 4096) - length metadata)%nat with (Z.to_nat (nbytes t)) by lia.
      rewrite firstn_all2; [done|]. rewrite length_app, length_replicate. lia.
    - by intros ex w [_ [[Hw _] _]]. }
  intros []. apply (triple_bind _ _ _ (fun _ w => holds (keeps_files ps w0) tmp (metadata ++ zeros) w
    /\ fds_at (<[fd := o]> fs) k w)).
  { eapply triple_exn; [apply may_fail_triple; by apply holds_closed, keeps_files_closed|].
    by intros ex w [_ [[Hw _] _]]. }
  intros []. apply (triple_bind _ _ _ (fun _ w => holds (keeps_files ps w0) tmp (metadata ++ zeros) w
    /\ fds_at fs k w)).
  { eapply triple_exn; [apply (os_close_triple _ _ _ _ o); [by apply holds_closed, keeps_files_closed|done]|].
    by intros ex w [_ [[Hw _] _]]. }
  intros []. eapply triple_bind.
  { apply (triple_lift _ _ (fun _ w => holds (keeps_files ps w0) tmp (metadata ++ zeros) w
      /\ fds_at fs k w)); [done|]. by intros ex _ w [[Hw _] _]. }
  intros [] w [[Hk Hc] [Hd Hf]]. unfold lib, mbind, ST_bind.
  pose proof (cu_dtomap_frame tmp GDS_METADATA_MAX_SIZE (addr + dof) (nbytes t) w)
    as (Hq & _ & Hfd1 & Hfr & _ & Hmem).
  pose proof (cu_dtomap_complete tmp GDS_METADATA_MAX_SIZE (addr + dof) (nbytes t) w _
    ltac:(done) Hn Hc) as Hdone.
  destruct (cudaMemcpyDtoMap _ _ _ _ w) as [res w1]. simpl in *.
  assert (keeps_files ps w0 w1) as Hk1.
  { destruct Hk as [Hk1 Hk2]. split; [|intros a; by rewrite Hmem].
    intros q Hq'. rewrite Hq; [by apply Hk1|]. intros ->. by apply Hq'. }
  unfold st_lift. destruct (Z.eqb_spec res 0) as [->|]; simpl; [|done].
  split; [split; [done|]|split; [by rewrite Hfd1|by rewrite Hfr]].
  rewrite Hdone; [|rewrite lenZ_app, Hl; unfold lenZ, zeros; rewrite length_replicate; lia|done].
  rewrite (mem_slice_ext (mem w) (mem w0)) by apply Hk.
  f_equal. apply write_at_tail; [unfold lenZ in Hl; lia|].
  unfold zeros. by rewrite length_replicate, length_mem_slice.
Qed.

(** Where the bytes of a stored chunk come from *)
Definition legacy_source e t (base_pointer : option Z) (device_offset : Z) : Z :=
  match base_pointer with
  | None => dt_ptr t + (if ge_cufile e then 0 else device_offset)
  | Some b => b + device_offset
  end.

(** The file of a stored chunk: its metadata and [c] bytes, all of them unless cuFile wrote
    fewer *)
Definition legacy_file e t base_pointer device_offset w0 (metadata : list Z) (c : nat) (f : list Z) : Prop :=
  f = metadata ++ mem_slice (mem w0) (legacy_source e t base_pointer device_offset) c
  /\ (c <= Z.to_nat (nbytes t))%nat /\ (ge_cufile e = false -> c = Z.to_nat (nbytes t)).

Lemma cufile_store_triple e tmp addr n dev_offset w0 metadata fs k :
  0 <= n -> lenZ metadata = GDS_METADATA_MAX_SIZE ->
  triple (fun w => holds (keeps_files [tmp] w0) tmp metadata w /\ fds_at fs k w)
    (with_cu_file tmp "r+" (ge_use_direct_io e) (cu_write tmp addr n GDS_METADATA_MAX_SIZE dev_offset))
    (fun _ w => (exists c, (c <= Z.to_nat n)%nat /\ holds (keeps_files [tmp] w0) tmp
        (metadata ++ mem_slice (mem w0) (addr + dev_offset) c) w) /\ fds_at fs k w)
    (fun _ => keeps_files [tmp] w0).
Proof.
  intros Hn Hl. set (Q := fun w => exists c, (c <= Z.to_nat n)%nat /\ holds (keeps_files [tmp] w0) tmp
    (metadata ++ mem_slice (mem w0) (addr + dev_offset) c) w).
  eapply triple_conseq; [apply (with_cu_file_triple tmp "r+" (ge_use_direct_io e) _
    (holds (keeps_files [tmp] w0) tmp metadata) (fun _ => Q) (keeps_files [tmp] w0) fs k)
    |done|done|by intros ex w [Hw _]].
  - by apply holds_closed, keeps_files_closed.
  - intros _ w w' Hf Hm (c & Hc & Hw). exists c. split; [done|].
    by apply (holds_closed tmp (metadata ++ mem_slice (mem w0) (addr + dev_offset) c) (keeps_files [tmp] w0)
      (keeps_files_closed _ _) w w').
  - apply keeps_files_closed.
  - by intros w [Hw _].
  - by intros _ w (c & _ & Hw & _).
  - eapply triple_conseq; [apply (cu_write_triple w0 tmp metadata addr n GDS_METADATA_MAX_SIZE dev_offset
      fs k); [rewrite Hl; done|done]|done| |done].
    intros r w [(Hk & c & Hc & Hd & _) Hf]. split; [|done]. exists c. split; [done|]. split; [done|].
    rewrite Hd. f_equal. unfold lenZ in Hl. rewrite <- Hl, Nat2Z.id. apply write_at_end.
Qed.

Lemma save_gds_triple e path tmp t fmt base dof w0 fs k :
  (forall fd, is_Some (fs !! fd) -> fd < k) -> 0 <= nbytes t ->
  triple (fun w => keeps_files [] w0 w /\ fds_at fs k w) (save_gds e path tmp t fmt base dof)
    (fun metadata w => (gds_pack_metadata (dt_shape t) (dt_dtype t) fmt
        [("lmcache_version", str_int GDS_METADATA_VERSION)] = Ok metadata
      /\ exists c f, legacy_file e t base dof w0 metadata c f
           /\ holds (keeps_files [path +:+ tmp; path] w0) path f w) /\ fds_at fs k w)
    (fun _ => keeps_files [path +:+ tmp] w0).
Proof.
  intros Hfs Hn. unfold save_gds. set (tp := path +:+ tmp).
  destruct (match base with None => (dt_ptr t, 0) | Some b => (b, dof) end) as [addr dev] eqn:Hsrc.
  assert (forall w, keeps_files [tp] w0 w -> keeps_files [tp; path] w0 w) as Hweak.
  { intros w [Hk Hm]. split; [|done]. intros q Hq. apply Hk. set_solver. }
  eapply triple_bind.
  { apply (triple_lift _ _ (fun metadata w => gds_pack_metadata (dt_shape t) (dt_dtype t) fmt
      [("lmcache_version", str_int GDS_METADATA_VERSION)] = Ok metadata
      /\ (keeps_files [tp] w0 w /\ fds_at fs k w))).
    - intros metadata Hp w [[Hk Hm] Hf]. split; [done|]. split; [|done]. split; [|done].
      intros q _. apply Hk, not_elem_of_nil.
    - intros ex _ w [[Hk Hm] _]. split; [|done]. intros q _. apply Hk, not_elem_of_nil. }
  intros metadata. apply triple_pure. intros Hp.
  pose proof (pack_metadata_bytes _ _ _ _ _ Hp) as [Hl _].
  apply (triple_bind _ _ _ (fun _ w => holds (keeps_files [tp] w0) tp metadata w /\ fds_at fs k w)).
  { eapply triple_exn; [apply (file_write_triple tp metadata (keeps_files [tp] w0)); [done|by apply keeps_ignores]|].
    by intros ex w [Hw _]. }
  intros _. apply (triple_bind _ _ _ (fun _ w => (exists c f, legacy_file e t base dof w0 metadata c f
    /\ holds (keeps_files [tp] w0) tp f w) /\ fds_at fs k w)).
  { destruct (ge_cufile e) eqn:Hcu.
    - eapply triple_bind.
      + by apply (cufile_store_triple e tp addr (nbytes t) dev w0 metadata fs k).
      + intros r w [(c & Hc & Hw) Hf]. simpl. split; [|done]. eexists c, _. split; [|exact Hw].
        split; [|split; [done|congruence]]. unfold legacy_source. rewrite Hcu.
        do 2 f_equal. by destruct base; injection Hsrc as <- <-.
    - eapply triple_conseq; [apply (save_mapped_triple tp t addr dof w0 [tp] metadata fs k); [done|set_solver|done..]
        |done| |done].
      intros [] w [Hw Hf]. split; [|done]. eexists _, _. split; [|exact Hw]. split; [|done].
      unfold legacy_source. rewrite Hcu. do 2 f_equal. by destruct base; injection Hsrc as <- <-. }
  intros []. apply (triple_bind _ _ _ (fun _ w => (exists c f, legacy_file e t base dof w0 metadata c f
    /\ holds (keeps_files [tp; path] w0) path f w) /\ fds_at fs k w)).
  { intros w [(c & f & Hlf & [Hk Hc]) Hf].
    pose proof (rename_triple tp path f (keeps_files [tp] w0) (keeps_files [tp; path] w0) fs k
      (keeps_files_closed _ _) (keeps_ignores _ _ w0 ltac:(done)) Hweak w (conj (conj Hk Hc) Hf)) as H.
    destruct (os_replace tp path w) as [[[]|ex] w1]; [|by destruct H].
    destruct H as [Hw Hf1]. split; [|done]. by exists c, f. }
  intros [] w [H Hf]. simpl. done.
Qed.

(** The sidecar is replaced whole, or kept: [P] need not ignore it. *)
Lemma save_metadata_triple path tmp metadata (P Q : world -> Prop) fs k :
  (forall fd, is_Some (fs !! fd) -> fd < k) -> ignores [path +:+ tmp] P -> ignores [path +:+ tmp; path] Q ->
  (forall w, P w -> Q w) ->
  triple (fun w => P w /\ fds_at fs k w) (gds_save_metadata path tmp metadata)
    (fun _ w => holds Q path metadata w /\ fds_at fs k w) (fun _ w => P w /\ fds_at fs k w).
Proof.
  intros Hfs HP HQ HPQ. unfold gds_save_metadata.
  apply (triple_bind _ _ _ (fun _ w => holds P (path +:+ tmp) metadata w /\ fds_at fs k w)).
  - by apply file_write_triple.
  - intros _. apply rename_triple; [apply HP|done|done].
Qed.

(** ** Load *)

(** A load that reports [n] bytes has them from the file. *)
Definition loaded_from (f : list Z) (fo a n : Z) (w : world) : Prop :=
  forall i, 0 <= i < n -> f !! Z.to_nat (fo + i) = Some (mem w (a + i)).

Lemma loaded_from_closed f fo a n : io_closed (loaded_from f fo a n).
Proof. intros w w' _ Hm H i Hi. rewrite Hm. by apply H. Qed.

Lemma load_gds_triple e path fo ptr n dof f fs k :
  (forall fd, is_Some (fs !! fd) -> fd < k) -> 0 <= fo ->
  (ge_cufile e = false -> fo + n <= lenZ f) ->
  triple (fun w => content w path = Some f /\ fds_at fs k w) (load_gds e path fo ptr n dof)
    (fun r w => r = Some n -> loaded_from f fo (ptr + dof) n w) (fun _ _ => True).
Proof.
  intros Hfs Hfo Hlen. unfold load_gds. destruct (ge_cufile e).
  - eapply triple_conseq; [apply (with_cu_file_triple path "r" (ge_use_direct_io e) _
      (fun w => content w path = Some f) (fun r w => r = Some n -> loaded_from f fo (ptr + dof) n w)
      (fun _ => True) fs k)|done|by intros r w [H _]|done].
    + exact (content_closed path (fun c => c = Some f)).
    + intros r w w' Hf Hm H Hr. eapply loaded_from_closed; [exact Hf|exact Hm|by apply H].
    + done.
    + done.
    + done.
    + intros w [Hc [Hd Hf]]. pose proof (cu_read_frame path ptr n fo dof w) as (_ & Q2 & Q3 & _).
      pose proof (fun r => cu_read_complete path ptr n fo dof w f r Hfo Hc) as Hdone.
      destruct (cu_read path ptr n fo dof w) as [[r|ex] w1]; simpl in *;
        (split; [|split; [congruence|lia]]); [|done].
      intros -> i Hi. apply (Hdone (Some n)); [done| |done]. apply Z.eqb_refl.
  - unfold load_mapped. set (P := fun w => content w path = Some f).
    assert (io_closed P) as HP by exact (content_closed path (fun c => c = Some f)).
    apply open_triple; [done|done|done|done|done|]. intros fd o Ho Hfd.
    set (I := fun w => P w /\ fds_at (<[fd := o]> fs) k w).
    apply (triple_bind _ _ _ (fun _ => I)).
    { unfold os_fstat. apply (triple_bind _ _ _ (fun _ => I)).
      - eapply triple_exn; [by apply may_fail_triple|done].
      - intros [] w Hw. unfold st_get, mbind, ST_bind. destruct (fds w !! fd); [|done]. exact Hw. }
    intros st. apply (triple_bind _ _ _ (fun _ => I)); [by apply triple_lift|].
    intros []. apply (triple_bind _ _ _ (fun _ => I)).
    { eapply triple_exn; [by apply may_fail_triple|done]. }
    intros []. apply (triple_bind _ _ _ (fun _ w => P w /\ fds_at fs k w)).
    { eapply triple_exn; [by apply (os_close_triple _ _ _ _ o)|done]. }
    intros []. apply (triple_bind _ _ _ (fun _ w => P w /\ fds_at fs k w)); [by apply triple_lift|].
    intros []. apply (triple_bind _ _ _ (fun res w => res = 0 -> loaded_from f fo (ptr + dof) n w)).
    { intros w [Hc _]. unfold lib.
      pose proof (cu_maptod_complete (ptr + dof) path fo n w f Hfo Hc (Hlen eq_refl)) as H.
      destruct (cudaMemcpyMapToD _ _ _ _ w) as [res w1]. simpl in *. intros Hr i Hi. by apply H. }
    intros res w Hw. unfold st_lift, mbind, ST_bind. destruct (Z.eqb_spec res 0) as [->|]; simpl; [|done].
    intros _. by apply Hw.
Qed.

(** ** Reading a sidecar *)

Section sidecars.
Context (formats : list string) (path : string) (info : gds_metadata (Dt := Dt)).

(** Opening the sidecar, then reading it *)
Lemma unpack_opened w b :
  fds_below w -> content w path = Some b ->
  gds_unpack_metadata formats (take (Z.to_nat GDS_METADATA_MAX_SIZE) b) = Ok info ->
  let '(r, w1) := os_open path O_RDONLY w in
  match r with
  | Ok fd =>
      let '(r, w') := (buf ← st_finally (os_pread fd GDS_METADATA_MAX_SIZE) (os_close fd);
        st_lift (gds_unpack_metadata formats buf)) w1 in
      quiet_io w w' /\ match r with Ok i => i = info | Raise ex => is_os_error ex = true end
  | Raise ex => is_os_error ex = true /\ quiet_io w w1
  end.
Proof.
  intros Hfds Hc Hu. pose proof (os_open_read w path) as Ho.
  destruct (os_open path O_RDONLY w) as [[fd|ex] w1]; [|by destruct Ho as (? & ? & _)].
  destruct Ho as (-> & f & Hf & Hw1). unfold content in Hc. rewrite Hf in Hc. injection Hc as <-.
  pose proof (read_opened_cases (fun l => Ok l) path GDS_METADATA_MAX_SIZE w w1 f Hfds Hf Hw1) as H.
  assert ((b ← os_pread (fresh w) GDS_METADATA_MAX_SIZE; st_lift (Ok b)) w1
    = os_pread (fresh w) GDS_METADATA_MAX_SIZE w1) as Heq
    by (unfold mbind, ST_bind; by destruct (os_pread _ _ w1) as [[?|?] ?]).
  unfold st_finally in *. rewrite Heq in H. unfold mbind, ST_bind.
  destruct (os_pread _ _ w1) as [[buf|ex] w2], (os_close _ w2) as [[[]|ex'] w3]; destruct H as [Hq H];
    try (split; [done|by destruct H]).
  injection H as <-. unfold st_lift. rewrite Hu. done.
Qed.

Lemma read_info_cases noatime w b :
  fds_below w -> content w path = Some b ->
  gds_unpack_metadata formats (take (Z.to_nat GDS_METADATA_MAX_SIZE) b) = Ok info ->
  match gds_read_metadata_info formats noatime path w with
  | (Ok (_, r), w') => quiet_io w w'
      /\ match r with Ok i => i = info | Raise ex => is_os_error ex = true end
  | (Raise _, _) => False
  end.
Proof.
  intros Hfds Hc Hu. unfold gds_read_metadata_info, open_noatime, st_future.
  pose proof (unpack_opened w b Hfds Hc Hu) as H1. unfold mbind, ST_bind in *.
  destruct noatime; destruct (os_open path O_RDONLY w) as [[fd|ex] w1]; cbn [mret ST_ret].
  - unfold st_lift in *. destruct (st_finally _ _ w1) as [[buf|ex] w2]; exact H1.
  - destruct H1 as [He Hq]. rewrite He.
    assert (content w1 path = Some b) as Hc1 by (destruct Hq as [Hf _]; unfold content in *; by rewrite Hf).
    pose proof (unpack_opened w1 b ltac:(by eapply quiet_io_below) Hc1 Hu) as H2. unfold mbind, ST_bind in H2.
    destruct (os_open path O_RDONLY w1) as [[fd|ex'] w2]; unfold st_lift in *; cbn [mret ST_ret].
    + destruct (st_finally _ _ w2) as [[buf|ex'] w3];
        exact (conj (quiet_io_trans _ _ _ Hq (proj1 H2)) (proj2 H2)).
    + exact (conj (quiet_io_trans _ _ _ Hq (proj2 H2)) (proj1 H2)).
  - unfold st_lift in *. destruct (st_finally _ _ w1) as [[buf|ex] w2]; exact H1.
  - by destruct H1.
Qed.

End sidecars.

End legacy.
