(* ===== verification/GdsPuts.v ===== *)
(** * The GDS backend's put coroutine, blocking gets and restarts

    What a put leaves of the index, the put tasks, the reference counts and the files; a
    legacy chunk stored by it and loaded by a blocking get; and the same chunk found by its
    sidecar in an index that does not have it. *)

From S2P Require Import Prelude Tensor Codec BlockFirst DirectIO World WorldIO HipFile XdsFiles XdsPaths XdsMeta Dict XdsIndex DeviceTensor XdsStaged XdsGpuStage CuFile GdsMeta GdsFiles GdsStaged GdsIndex GdsFacts GdsLegacy.

Open Scope string_scope.
Open Scope list_scope.
Open Scope Z_scope.

Section puts.
Context {K Dt : Type} `{!CacheKey K, !TorchDtype Dt, !TorchDtypeLaws Dt} {JC : JsonCodec} {JL : JsonCodecLaws}.
Context {CL : CuFileLib} {CLL : CuFileLaws} {TJ : TensorMetaJson} {TJL : TensorMetaJsonLaws}.
Context (cuda_malloc : (Z -> Z) -> Z -> Z) (cfg : gds_config Dt).
Implicit Types (s t : gds_state K Dt) (key : K) (mo : memory_obj Dt) (j : gds_job K Dt).

#[local] Abbreviation eng := (gc_engine cfg).
#[local] Abbreviation gw s := (g_world (gs_io s)).
#[local] Abbreviation put_target := (gds_put_target cfg).
#[local] Abbreviation store_chunk := (gds_store_chunk cuda_malloc cfg).
#[local] Abbreviation async_save := (gds_async_save cuda_malloc cfg).
#[local] Abbreviation run_put := (gds_run_put cuda_malloc cfg).

(** ** Before the coroutine's [try] *)

(** Only directories, random draws and the oracle differ. *)
Definition same_index s t : Prop :=
  gs_hot t = gs_hot s /\ gs_tasks t = gs_tasks s /\ gs_jobs t = gs_jobs s /\ gs_refs t = gs_refs s
  /\ gs_completed t = gs_completed s /\ quiet_io (gw s) (gw t).

(** Why the coroutine may fail before its [try] *)
Definition early_failure key mo (ex : exn) : Prop :=
  is_os_error ex = true \/ gds_use_block_first cfg (mo_tensor_shape mo) = Raise ex
  \/ (gds_use_block_first cfg (mo_tensor_shape mo) = Ok false
      /\ has_char UNDERSCORE (key_string key) = true /\ ex = AssertionError).

Lemma put_target_cases key mo s :
  match put_target key mo s with
  | (Ok (bf, path, tmp), t) => same_index s t /\ gds_use_block_first cfg (mo_tensor_shape mo) = Ok bf
      /\ (exists sub, gds_key_to_path cfg key bf = Ok (path, sub))
      /\ tmp = ".tmp" +:+ gc_random cfg (gs_draws s)
  | (Raise ex, t) => same_index s t /\ early_failure key mo ex
  end.
Proof.
  assert (same_index s s) as Hs by by split_and!.
  unfold gds_put_target, early_failure, mbind, ST_bind, st_lift.
  destruct (gds_use_block_first cfg (mo_tensor_shape mo)) as [bf|ex]; [|by eauto].
  destruct (gds_key_to_path cfg key bf) as [[path sub]|ex] eqn:Hp.
  2:{ split; [done|]. right; right. unfold gds_key_to_path in Hp.
      destruct bf; [done|]. simpl in Hp. split; [done|].
      destruct (has_char UNDERSCORE (key_string key)); [|done]. by injection Hp as <-. }
  unfold st_get. destruct (decide (sub ∈ gs_dirs s)).
  { cbn. split; [done|]. split; [done|]. split; [by exists sub|done]. }
  rewrite on_gworld_run. pose proof (may_fail_quiet (gw s)) as Hm. unfold os_makedirs.
  destruct (may_fail (gw s)) as [[[]|ex] w]; cbn.
  - split; [by split_and!|]. split; [done|]. split; [by exists sub|done].
  - destruct Hm as (He & Hq & _). split; [by split_and!|by left].
Qed.

(** ** The coroutine *)

(** The entry [insert_key] makes *)
Definition put_entry mo (path : string) (dm : option BlockFirstDiskMetadata) : gds_entry Dt :=
  GdsEntry _ path (match dm with Some m => BLOCK_FIRST_HEADER_SIZE + io_nbytes m | None => mo_physical_size mo end)
    (mo_shape mo) (mo_dtype mo) (mo_fmt mo) dm.

Lemma async_save_cases j s :
  let key := gj_key j in let mo := gj_obj j in
  let '(r, t) := async_save j s in
  match put_target key mo s with
  | (Raise ex, s1) => r = Raise ex /\ t = s1
  | (Ok (bf, path, tmp), s1) =>
      let '(rc, w) := store_chunk mo bf path tmp (gw s1) in
      gw t = w /\ gs_jobs t = gs_jobs s1
      /\ gs_refs t = <[mo_id mo := default 0 (gs_refs s1 !! mo_id mo) + -1]> (gs_refs s1)
      /\ gs_tasks t = filter (fun k => k <> key) (gs_tasks s1)
      /\ match rc with
         | Ok dm => r = Ok tt /\ gs_hot t = od_set key (put_entry mo path dm) (gs_hot s1)
             /\ gs_completed t = gs_completed s1 ++ (if gj_callback j then [key] else [])
         | Raise ex => r = Raise ex /\ gs_hot t = gs_hot s1 /\ gs_completed t = gs_completed s1
         end
  end.
Proof.
  intros key mo. unfold gds_async_save. fold key. fold mo. unfold mbind at 1, ST_bind at 1.
  destruct (put_target key mo s) as [[[[bf path] tmp]|ex] s1]; [|done].
  unfold st_finally, mbind, ST_bind. rewrite on_gworld_run.
  destruct (store_chunk mo bf path tmp (gw s1)) as [[dm|ex] w]; cbn; [|by split_and!].
  destruct (gj_callback j); cbn; rewrite ?app_nil_r; by split_and!.
Qed.

(** The put task has ended and the reference is given back. *)
Definition put_ended s t : Prop :=
  gs_tasks t = gs_tasks s /\ forall id, default 0 (gs_refs t !! id) = default 0 (gs_refs s !! id).

(** The put task and the reference stay. *)
Definition put_leaked key mo s t : Prop :=
  gs_tasks t = key :: gs_tasks s
  /\ forall id, default 0 (gs_refs t !! id)
       = default 0 (gs_refs s !! id) + (if decide (id = mo_id mo) then 1 else 0).

Lemma ref_back (m : gmap Z Z) i id :
  default 0 (<[i := default 0 (<[i := default 0 (m !! i) + 1]> m !! i) + -1]>
    (<[i := default 0 (m !! i) + 1]> m) !! id) = default 0 (m !! id).
Proof.
  rewrite lookup_insert_eq. destruct (decide (id = i)) as [->|].
  - rewrite lookup_insert_eq. simpl. lia.
  - by rewrite !lookup_insert_ne.
Qed.

(** ** The files of a legacy put *)

Definition sidecar (path : string) : string := path +:+ GDS_METADATA_FILE_SUFFIX.

Definition legacy_paths (path tmp : string) : list string :=
  [path +:+ tmp; path; sidecar path +:+ tmp; sidecar path].

(** The published file of a legacy chunk *)
Definition legacy_published mo (path : string) (metadata : list Z) (w0 w : world) : Prop :=
  gds_pack_metadata (mo_tensor_shape mo) (mo_dtype mo) (mo_fmt mo)
    [("lmcache_version", str_int GDS_METADATA_VERSION)] = Ok metadata
  /\ exists c f, legacy_file eng (gds_tensor cfg mo) (gc_base_pointer cfg) (pl_address (gc_place cfg (mo_id mo)))
       w0 metadata c f
     /\ content w path = Some f.

(** The chunk's file, and its sidecar with the same metadata *)
Definition legacy_stored mo (path tmp : string) (w0 w : world) : Prop :=
  keeps_files (legacy_paths path tmp) w0 w
  /\ exists metadata, legacy_published mo path metadata w0 w /\ content w (sidecar path) = Some metadata.

(** What a failed legacy store leaves: a temporary file, or the chunk's file published and a
    temporary sidecar; the sidecar itself is as it was. *)
Definition legacy_failed mo (path tmp : string) (w0 w : world) : Prop :=
  keeps_files [path +:+ tmp] w0 w
  \/ (keeps_files [path +:+ tmp; path; sidecar path +:+ tmp] w0 w /\ exists metadata, legacy_published mo path metadata w0 w).

Lemma store_legacy_triple mo path tmp w0 fs k :
  (forall fd, is_Some (fs !! fd) -> fd < k) -> 0 <= nbytes (gds_tensor cfg mo) ->
  triple (fun w => keeps_files [] w0 w /\ fds_at fs k w) (store_chunk mo false path tmp)
    (fun dm w => (dm = None /\ legacy_stored mo path tmp w0 w) /\ fds_at fs k w)
    (fun _ => legacy_failed mo path tmp w0).
Proof.
  intros Hfs Hn. unfold gds_store_chunk.
  eapply triple_bind.
  { eapply triple_exn; [by apply (save_gds_triple eng path tmp (gds_tensor cfg mo) (mo_fmt mo)
      (gc_base_pointer cfg) (pl_address (gc_place cfg (mo_id mo))) w0 fs k)|]. intros ex w. by left. }
  intros metadata. set (P := fun ps f w => keeps_files ps w0 w /\ content w path = Some f).
  intros w [[Hp (c & f & Hf & [Hk Hc])] Hfd]. set (ps := [path +:+ tmp; path; sidecar path +:+ tmp]).
  assert (keeps_files ps w0 w) as Hk'.
  { destruct Hk as [Hk Hm]. split; [|done]. intros q Hq. apply Hk. subst ps. set_solver. }
  assert (path ∉ [sidecar path +:+ tmp; sidecar path]) as Hne.
  { rewrite !not_elem_of_cons. unfold sidecar. split_and!; [|apply not_eq_sym, append_neq; done|apply not_elem_of_nil].
    rewrite append_assoc. apply not_eq_sym, append_neq. done. }
  assert (forall qs ps', qs ⊆ ps' -> path ∉ qs -> ignores qs (P ps' f)) as Hig.
  { intros qs ps' Hs Hq. apply ignores_and; [by apply keeps_ignores|by apply content_ignores]. }
  assert (forall w, P ps f w -> P (legacy_paths path tmp) f w) as Hweak.
  { intros w' [[Hk1 Hm1] Hc1]. split; [|done]. split; [|done]. intros q Hq. apply Hk1. unfold legacy_paths in Hq.
    subst ps. set_solver. }
  pose proof (save_metadata_triple (sidecar path) tmp metadata (P ps f) (P (legacy_paths path tmp) f) fs k Hfs
    ltac:(apply Hig; subst ps; set_solver) ltac:(apply Hig; [unfold legacy_paths|]; set_solver) Hweak w
    (conj (conj Hk' Hc) Hfd)) as Hs.
  unfold mbind, ST_bind. change (path +:+ GDS_METADATA_FILE_SUFFIX) with (sidecar path).
  destruct (gds_save_metadata (sidecar path) tmp metadata w) as [[[]|ex] w1].
  - destruct Hs as [[[Hk1 Hc1] Hm1] Hfd1]. simpl. split; [|done]. split; [done|]. split; [done|].
    exists metadata. split; [|done]. split; [done|]. by exists c, f.
  - destruct Hs as [[Hk1 Hc1] _]. right. split; [done|]. exists metadata. split; [done|]. by exists c, f.
Qed.

Lemma quiet_keeps (w0 w : world) : quiet_io w0 w -> keeps_files [] w0 w /\ fds_at (fds w0) (fresh w0) w.
Proof.
  intros (H1 & H2 & H3 & H4). split; [|done]. split; [intros q _; by rewrite H1|intros a; by rewrite H2].
Qed.

(** A staging buffer a full chunk goes through fits it. *)
Definition stageable mo : Prop :=
  gds_use_block_first cfg (mo_tensor_shape mo) = Ok true ->
  forall sg, gc_staging cfg = Some sg -> staging_fits sg (gds_tensor cfg mo).

(** The bytes of a put's chunk file, by its layout *)
Definition chunk_stored mo (bf : bool) (path tmp : string) (dm : option BlockFirstDiskMetadata) (w0 w : world) : Prop :=
  if bf then exists m, dm = Some m /\ ge_cufile eng = true
    /\ block_first_stored eng (gc_staging cfg) path (mo_tensor_shape mo) (mo_dtype mo)
         (pl_ptr (gc_place cfg (mo_id mo))) m w0 w
  else dm = None /\ legacy_stored mo path tmp w0 w.

(** What a failed store may have changed: of a full chunk only the temporary file *)
Definition chunk_failed mo (bf : bool) (path tmp : string) (w0 w : world) : Prop :=
  if bf then forall x, x <> tmp_of path -> files w !! x = files w0 !! x
  else legacy_failed mo path tmp w0 w.

Lemma store_chunk_bytes mo bf path tmp s (w : world) :
  fds_below (gw s) -> 0 <= nbytes (gds_tensor cfg mo) ->
  (bf = true -> forall sg, gc_staging cfg = Some sg -> staging_fits sg (gds_tensor cfg mo)) ->
  quiet_io (gw s) w ->
  match store_chunk mo bf path tmp w with
  | (Ok dm, w') => chunk_stored mo bf path tmp dm (gw s) w'
  | (Raise _, w') => chunk_failed mo bf path tmp (gw s) w'
  end.
Proof.
  intros Hfds Hn Hfit Hq. destruct bf.
  - unfold gds_store_chunk, mbind, ST_bind.
    pose proof (save_block_first_gds_spec cuda_malloc eng (gc_staging cfg) (gc_schedule cfg) path
      (gds_tensor cfg mo) w ltac:(by eapply quiet_io_below) (Hfit eq_refl)) as H.
    destruct (save_block_first_gds _ _ _ _ _ _ w) as [[m|ex] w'].
    2:{ intros x Hx. rewrite <- (proj1 Hq). destruct H as [->|(sg & _ & (Hk & _) & _)]; [done|].
        apply Hk. by intros ->%list_elem_of_singleton. }
    destruct H as (g & header & sg & Hm & Hs & Hmk & Hp & Hsg & Hcu & H). exists m. split; [done|].
    split; [done|]. eapply stored_quiet; [exact Hq|]. by exists g, header, sg.
  - pose proof (store_legacy_triple mo path tmp (gw s) _ _ Hfds Hn w (quiet_keeps _ _ Hq)) as H.
    destruct (store_chunk mo false path tmp w) as [[dm|ex] w']; [by destruct H|exact H].
Qed.

(** ** A put, from its submission to the coroutine's end *)

Definition submitted key mo (callback : bool) : ST (gds_state K Dt) (result unit) :=
  n ← st_gets (fun s => length (gs_jobs s)); gds_submit_put_task key mo callback;; run_put n.

(** What a successful put leaves *)
Definition put_done key mo (callback : bool) s t : Prop :=
  put_ended s t /\ gs_completed t = gs_completed s ++ (if callback then [key] else [])
  /\ exists bf path sub dm, gds_use_block_first cfg (mo_tensor_shape mo) = Ok bf
       /\ gds_key_to_path cfg key bf = Ok (path, sub)
       /\ gs_hot t = od_set key (put_entry mo path dm) (gs_hot s)
       /\ exists tmp, chunk_stored mo bf path tmp dm (gw s) (gw t).

(** What a failed put leaves *)
Definition put_failed key mo (ex : exn) s t : Prop :=
  gs_hot t = gs_hot s /\ gs_completed t = gs_completed s
  /\ ((put_ended s t /\ exists bf path sub tmp, gds_use_block_first cfg (mo_tensor_shape mo) = Ok bf
        /\ gds_key_to_path cfg key bf = Ok (path, sub) /\ chunk_failed mo bf path tmp (gw s) (gw t))
      \/ (put_leaked key mo s t /\ early_failure key mo ex /\ quiet_io (gw s) (gw t))).

Lemma put_cases key mo callback s :
  key ∉ gs_tasks s -> fds_below (gw s) -> 0 <= nbytes (gds_tensor cfg mo) -> stageable mo ->
  let '(r, t) := submitted key mo callback s in
  gs_jobs t = gs_jobs s
  /\ match r with
     | Ok (Ok _) => put_done key mo callback s t
     | Ok (Raise ex) => put_failed key mo ex s t
     | Raise _ => False
     end.
Proof.
  intros Hn Hfds Hnb Hfit. unfold submitted, st_gets, gds_submit_put_task, gds_ref_add, task_add, st_modify.
  unfold mbind, ST_bind. cbv beta iota. rewrite decide_False by done.
  set (s1 := gs_with_jobs _ _). unfold gds_run_put, st_get, st_modify, st_future, mbind, ST_bind.
  set (j := GdsJob _ _ key mo callback).
  assert (gs_jobs s1 !! length (gs_jobs s) = Some j) as -> by by apply list_lookup_middle.
  set (s2 := gs_with_jobs (delete _ _) s1).
  assert (gs_jobs s2 = gs_jobs s) as Hj
    by (change (delete (length (gs_jobs s)) (gs_jobs s ++ [j]) = gs_jobs s);
        by rewrite (delete_middle (gs_jobs s) [] j), app_nil_r).
  pose proof (async_save_cases j s2) as H. cbn [gj_key gj_obj gj_callback j] in H.
  pose proof (put_target_cases key mo s2) as Ht.
  destruct (async_save j s2) as [r t].
  destruct (put_target key mo s2) as [[[[bf path] tmp]|ex] s3].
  2:{ destruct H as [-> ->]. destruct Ht as ((H1 & H2 & H3 & H4 & H5 & H6) & He). simpl.
      split; [congruence|]. split; [done|]. split; [done|]. right. split; [|done].
      split; [done|]. intros id. rewrite H4. simpl. destruct (decide (id = mo_id mo)) as [->|].
      - rewrite lookup_insert_eq. simpl. lia.
      - rewrite lookup_insert_ne by done. lia. }
  destruct Ht as ((H1 & H2 & H3 & H4 & H5 & Hq) & Hbf & [sub Hp] & Htmp).
  pose proof (store_chunk_bytes mo bf path tmp s (gw s3) Hfds Hnb ltac:(by intros ->; apply Hfit) Hq) as Hst.
  destruct (store_chunk mo bf path tmp (gw s3)) as [rc w].
  destruct H as (Hw & Hjobs & Hrefs & Htasks & H).
  assert (put_ended s t) as Hend.
  { split.
    - rewrite Htasks, H2. by apply discard_new.
    - intros id. rewrite Hrefs, H4. apply ref_back. }
  destruct rc as [dm|ex]; destruct H as (-> & Hhot & Hcomp); simpl; (split; [congruence|]).
  - split; [done|]. split; [by rewrite Hcomp, H5|]. exists bf, path, sub, dm. split; [done|].
    split; [done|]. split; [by rewrite Hhot, H1|]. exists tmp. by rewrite Hw.
  - split; [by rewrite Hhot, H1|]. split; [by rewrite Hcomp, H5|]. left. split; [done|].
    exists bf, path, sub, tmp. by rewrite Hw.
Qed.

Lemma gds_put_done key mo callback s t :
  key ∉ gs_tasks s -> fds_below (gw s) -> 0 <= nbytes (gds_tensor cfg mo) -> stageable mo ->
  submitted key mo callback s = (Ok (Ok tt), t) -> put_done key mo callback s t.
Proof. intros Hn Hf Hb Hs H. pose proof (put_cases key mo callback s Hn Hf Hb Hs) as Hc. rewrite H in Hc. apply Hc. Qed.

(** A put of a legacy chunk that is stored *)
Lemma put_legacy key mo callback s t path sub :
  key ∉ gs_tasks s -> fds_below (gw s) -> 0 <= nbytes (gds_tensor cfg mo) ->
  gds_use_block_first cfg (mo_tensor_shape mo) = Ok false -> gds_key_to_path cfg key false = Ok (path, sub) ->
  submitted key mo callback s = (Ok (Ok tt), t) ->
  gs_hot t = od_set key (put_entry mo path None) (gs_hot s) /\ exists tmp, legacy_stored mo path tmp (gw s) (gw t).
Proof.
  intros Hn Hfds Hnb Hbf Hp Hput.
  assert (stageable mo) as Hst by (unfold stageable; by rewrite Hbf).
  pose proof (gds_put_done key mo callback s t Hn Hfds Hnb Hst Hput)
    as (_ & _ & bf & path' & sub' & dm & Hbf' & Hp' & Hset & tmp & Hc).
  rewrite Hbf in Hbf'. injection Hbf' as <-. rewrite Hp in Hp'. injection Hp' as <- <-.
  destruct Hc as [-> Hl]. split; [done|]. by exists tmp.
Qed.

(** C23: a submitted put whose coroutine has run has either stored the chunk or failed, with
    its exception in the future. Stored: the index maps the key to the entry of the chunk's
    file, a callback ran once, the reference is given back and the put task has ended. Of a
    full chunk the file is the whole block-first file, header and transposed payload, no
    temporary is left and no other file changed; of a legacy chunk the file holds the packed
    metadata and the chunk's bytes (a prefix of them when cuFile wrote fewer) and the sidecar
    the same metadata, no other file but the two temporaries having changed. Failed: the index
    is as it was and no callback ran. Either the coroutine failed before its [try] (an
    unsupported shape, an underscore in the key, a directory that cannot be made): then
    reference and put task stay for good and no file changed. Or both are given back, and of a
    full chunk only the temporary file may have changed; of a legacy one only its temporary
    file, or else its file has been published as above and the sidecar, which could not be
    replaced, is still the old one or missing. *)
Theorem gds_put_outcome key mo callback s :
  key ∉ gs_tasks s -> fds_below (gw s) -> 0 <= nbytes (gds_tensor cfg mo) -> stageable mo ->
  let '(r, t) := submitted key mo callback s in
  gs_jobs t = gs_jobs s
  /\ match r with
     | Ok (Ok _) => put_done key mo callback s t
     | Ok (Raise ex) => put_failed key mo ex s t
     | Raise _ => False
     end.
Proof. apply put_cases. Qed.

(** ** Blocking gets of legacy chunks *)

(** Where a memory object's bytes are *)
Definition object_address mo : Z :=
  let p := gc_place cfg (mo_id mo) in
  match gc_base_pointer cfg with None => pl_ptr p | Some b => b + pl_address p end.

(** The mapped store adds the object's address to its own pointer. *)
Definition source_right mo : Prop :=
  ge_cufile eng = true \/ gc_base_pointer cfg <> None \/ pl_address (gc_place cfg (mo_id mo)) = 0.

Lemma legacy_source_object mo :
  source_right mo ->
  legacy_source eng (gds_tensor cfg mo) (gc_base_pointer cfg) (pl_address (gc_place cfg (mo_id mo)))
  = object_address mo.
Proof.
  unfold legacy_source, object_address, source_right, gds_tensor. cbn [dt_ptr].
  destruct (gc_base_pointer cfg); [done|]. destruct (ge_cufile eng); [lia|].
  intros [?|[?|Ha]]; [done..|]. lia.
Qed.

Section gets.
Context (allocator : list Z -> Dt -> string -> ST gds_io (option (memory_obj Dt))).
Context (is_valid : memory_obj Dt -> bool).

(** [allocate] returns an object of the asked size and touches no file and no chunk. *)
Hypothesis (Halloc : forall shape dt fmt i,
  let '(r, i') := allocator shape dt fmt i in
  quiet_io (g_world i) (g_world i')
  /\ forall mo, r = Ok (Some mo) -> mo_size mo = prodZ shape * itemsize dt).

#[local] Abbreviation get_blocking := (gds_get_blocking cuda_malloc allocator is_valid cfg).
#[local] Abbreviation load_with_memory := (gds_load_with_memory cuda_malloc is_valid cfg).

Lemma load_chunk_legacy path en mo f s :
  fds_below (gw s) -> ge_disk en = None -> content (gw s) path = Some f ->
  (ge_cufile eng = false -> GDS_METADATA_MAX_SIZE + mo_size mo <= lenZ f) ->
  forall r t, gds_load_chunk cuda_malloc cfg path en mo s = (Ok r, t) -> r = Some (mo_size mo) ->
  loaded_from f GDS_METADATA_MAX_SIZE (object_address mo) (mo_size mo) (gw t).
Proof.
  intros Hfds Hd Hc Hl r t. unfold gds_load_chunk, object_address. rewrite Hd.
  set (p := gc_place cfg (mo_id mo)).
  destruct (match gc_base_pointer cfg with None => (pl_ptr p, 0) | Some b => (b, pl_address p) end)
    as [addr dev] eqn:Ha. rewrite on_gworld_run.
  pose proof (load_gds_triple eng path GDS_METADATA_MAX_SIZE addr (mo_size mo) dev f (fds (gw s))
    (fresh (gw s)) Hfds ltac:(done) Hl (gw s) (conj Hc (conj eq_refl (Z.le_refl _)))) as H.
  destruct (load_gds _ _ _ _ _ _ (gw s)) as [[r'|ex] w]; [|done]. intros [= -> <-] Hr.
  assert (match gc_base_pointer cfg with None => pl_ptr p | Some b => b + pl_address p end = addr + dev) as ->
    by (destruct (gc_base_pointer cfg); injection Ha as <- <-; lia).
  by apply H.
Qed.

(** A get that returns an object has allocated it and loaded all its bytes. *)
Lemma get_loaded key en s t mo :
  od_get key (gs_hot s) = Some en -> get_blocking key s = (Ok (Some mo), t) ->
  exists i s1, allocator (ge_shape en) (ge_dtype en) (ge_fmt en) (gs_io s) = (Ok (Some mo), i)
    /\ gs_io s1 = i
    /\ gds_load_chunk cuda_malloc cfg (ge_path en) en mo s1 = (Ok (Some (gds_load_size en mo)), t).
Proof.
  intros Hen. unfold gds_get_blocking. destruct (gc_has_allocator cfg); [|done].
  unfold gds_get at 1, st_gets at 1, mbind at 1, ST_bind at 1. cbn [negb]. rewrite Hen.
  unfold gds_allocate_entry, gds_ref_add, st_modify, mbind, ST_bind. rewrite on_gio_run.
  destruct (allocator (ge_shape en) (ge_dtype en) (ge_fmt en) (gs_io s)) as [[[mo'|]|ex] i]; [|done..]. cbn.
  set (s1 := gs_with_refs _ _). unfold gds_load_with_memory.
  destruct (is_valid mo'); [|done]. cbn [negb]. unfold gds_get, st_gets, mbind at 1, ST_bind at 1.
  change (gs_hot s1) with (gs_hot s). rewrite Hen. unfold mbind at 1, ST_bind at 1.
  destruct (gds_load_chunk cuda_malloc cfg (ge_path en) en mo' s1) as [[r|ex] s2] eqn:El; [|done].
  destruct (decide (r = Some (gds_load_size en mo'))) as [->|Hne].
  - rewrite bool_decide_true by done. intros [= -> ->]. by exists i, s1.
  - rewrite bool_decide_false by done. destruct r as [c|]; [|done].
    unfold gds_pop, gds_get, st_gets, mbind, ST_bind. destruct (c <? 0); [|done].
    destruct (od_get key (gs_hot s2)); done.
Qed.

Lemma get_legacy key en f s t mo :
  fds_below (gw s) -> od_get key (gs_hot s) = Some en -> ge_disk en = None ->
  content (gw s) (ge_path en) = Some f ->
  (ge_cufile eng = false -> GDS_METADATA_MAX_SIZE + prodZ (ge_shape en) * itemsize (ge_dtype en) <= lenZ f) ->
  get_blocking key s = (Ok (Some mo), t) ->
  mo_size mo = prodZ (ge_shape en) * itemsize (ge_dtype en)
  /\ loaded_from f GDS_METADATA_MAX_SIZE (object_address mo) (mo_size mo) (gw t).
Proof.
  intros Hfds Hen Hd Hc Hl Hget.
  destruct (get_loaded key en s t mo Hen Hget) as (i & s1 & Ea & <- & El).
  pose proof (Halloc (ge_shape en) (ge_dtype en) (ge_fmt en) (gs_io s)) as Ha. rewrite Ea in Ha.
  destruct Ha as [Hq Hsz]. specialize (Hsz mo eq_refl). split; [done|].
  unfold gds_load_size in El. rewrite Hd in El.
  eapply (load_chunk_legacy (ge_path en) en mo f s1); [by eapply quiet_io_below|done| | |exact El|done].
  - destruct Hq as [Hf _]. unfold content in *. by rewrite Hf.
  - intros Hcu. rewrite Hsz. auto.
Qed.

(** The bytes of a stored chunk's file that a complete load finds *)
Lemma legacy_bytes mo (w0 : world) metadata c f a n (w : world) :
  gds_pack_metadata (mo_tensor_shape mo) (mo_dtype mo) (mo_fmt mo)
    [("lmcache_version", str_int GDS_METADATA_VERSION)] = Ok metadata -> source_right mo ->
  legacy_file eng (gds_tensor cfg mo) (gc_base_pointer cfg) (pl_address (gc_place cfg (mo_id mo)))
    w0 metadata c f ->
  loaded_from f GDS_METADATA_MAX_SIZE a n w ->
  forall i, 0 <= i < n -> mem w (a + i) = mem w0 (object_address mo + i).
Proof.
  intros Hp Hsrc (-> & _) Hload i Hi. specialize (Hload i Hi).
  pose proof (pack_metadata_bytes _ _ _ _ _ Hp) as [Hl _].
  rewrite legacy_source_object in Hload by done. unfold lenZ, GDS_METADATA_MAX_SIZE in *.
  rewrite lookup_app_r in Hload by lia.
  pose proof (lookup_lt_Some _ _ _ Hload) as Hlt. rewrite length_mem_slice in Hlt.
  rewrite mem_slice_lookup in Hload by lia. injection Hload as <-. f_equal. lia.
Qed.

(** The file is long enough for a mapped load. *)
Lemma legacy_length mo (w0 : world) metadata c f :
  gds_pack_metadata (mo_tensor_shape mo) (mo_dtype mo) (mo_fmt mo)
    [("lmcache_version", str_int GDS_METADATA_VERSION)] = Ok metadata ->
  0 <= nbytes (gds_tensor cfg mo) ->
  legacy_file eng (gds_tensor cfg mo) (gc_base_pointer cfg) (pl_address (gc_place cfg (mo_id mo)))
    w0 metadata c f ->
  ge_cufile eng = false -> GDS_METADATA_MAX_SIZE + nbytes (gds_tensor cfg mo) <= lenZ f.
Proof.
  intros Hp Hn (-> & _ & Hc) Hcu. pose proof (pack_metadata_bytes _ _ _ _ _ Hp) as [Hl _].
  rewrite lenZ_app, Hl, (Hc Hcu). unfold lenZ. rewrite length_mem_slice. lia.
Qed.

(** ** A restart *)

(** There is no block-first file to look at first. *)
Definition no_block_first key s : Prop :=
  gc_block_first_enabled cfg = false
  \/ forall p sub, gds_key_to_path cfg key true = Ok (p, sub) -> files (gw s) !! p = None.

Lemma contains_legacy key s path sub metadata shape dt size fmt :
  fds_below (gw s) -> od_get key (gs_hot s) = None -> no_block_first key s ->
  gds_key_to_path cfg key false = Ok (path, sub) -> content (gw s) (sidecar path) = Some metadata ->
  gds_unpack_metadata (gc_formats cfg) (take (Z.to_nat GDS_METADATA_MAX_SIZE) metadata)
    = Ok (shape, dt, size, fmt, [("lmcache_version", str_int GDS_METADATA_VERSION)]) ->
  let '(r, t) := gds_contains cfg key s in
  quiet_io (gw s) (gw t)
  /\ match r with
     | Ok b => b = true /\ od_get key (gs_hot t) = Some (GdsEntry _ path size shape dt fmt None)
     | Raise ex => is_os_error ex = true /\ gs_hot t = gs_hot s
     end.
Proof.
  intros Hfds Hnone Hbf Hp Hc Hu. unfold gds_contains, gds_get at 1, st_gets at 1, mbind at 1, ST_bind at 1.
  rewrite Hnone. unfold mbind at 1, ST_bind at 1. unfold gds_try_to_read_metadata.
  set (first := if gc_block_first_enabled cfg then _ else _).
  assert (first s = (Ok None, s)) as Hfirst.
  { unfold first, no_block_first in *. destruct (gc_block_first_enabled cfg); [|done].
    destruct Hbf as [?|Hbf]; [done|].
    assert (exists p sub', gds_key_to_path cfg key true = Ok (p, sub')) as (p & sub' & Hp') by by eexists _, _.
    unfold mbind, ST_bind, st_lift. rewrite Hp'. rewrite on_gworld_run. unfold os_exists, st_gets.
    rewrite (Hbf _ _ Hp'), bool_decide_false by (by intros [? ?]). by destruct s as [[w rg ed]]. }
  unfold mbind at 1, ST_bind at 1. rewrite Hfirst. unfold mbind, ST_bind, st_lift. rewrite Hp.
  rewrite on_gworld_run. unfold os_exists, st_gets. change (path +:+ GDS_METADATA_FILE_SUFFIX) with (sidecar path).
  rewrite bool_decide_true by (unfold content in Hc; destruct (files (gw s) !! sidecar path); [by eexists|done]).
  cbn [fst snd]. unfold gds_read_metadata, st_catch, st_get, mbind, ST_bind. rewrite on_gworld_run.
  cbn [gs_with_io gs_io gs_noatime g_world].
  pose proof (read_info_cases (gc_formats cfg) (sidecar path) _ (gs_noatime s) (gw s) metadata Hfds Hc Hu) as H.
  destruct (gds_read_metadata_info _ _ _ (gw s)) as [[[na [i|ex]]|ex] w]; [..|done];
    destruct H as [Hq H]; cbn [fst snd].
  2:{ unfold st_modify, st_lift. destruct (is_unsupported ex) eqn:E; [by destruct ex|done]. }
  subst i. cbn. unfold gds_get, st_gets. cbn. rewrite Hnone. cbn. split; [done|]. split; [done|].
  cbn [gs_hot gs_with_hot]. rewrite od_get_set, decide_True by done. unfold sidecar, removesuffix.
  by rewrite strip_suffix_app.
Qed.

(** The index maps [key] to the legacy file at [path] of the chunk, of shape [shape]. *)
Definition legacy_indexed key mo (shape : list Z) (path : string) s : Prop :=
  exists en, od_get key (gs_hot s) = Some en /\ ge_path en = path /\ ge_disk en = None
    /\ ge_shape en = shape /\ ge_dtype en = mo_dtype mo /\ ge_fmt en = mo_fmt mo.

(** The shape of the entry: a put records the object's, a sidecar its tensor's. *)
Definition found_shape key mo s : list Z :=
  if od_get key (gs_hot s) is Some _ then mo_shape mo else mo_tensor_shape mo.

(** [contains] finds a stored legacy chunk, in the index or by its sidecar. *)
Lemma legacy_found key mo path sub metadata s :
  gds_pack_metadata (mo_tensor_shape mo) (mo_dtype mo) (mo_fmt mo)
    [("lmcache_version", str_int GDS_METADATA_VERSION)] = Ok metadata ->
  mo_fmt mo ∈ gc_formats cfg -> gds_key_to_path cfg key false = Ok (path, sub) -> fds_below (gw s) ->
  content (gw s) (sidecar path) = Some metadata ->
  legacy_indexed key mo (mo_shape mo) path s \/ od_get key (gs_hot s) = None /\ no_block_first key s ->
  let '(r, t) := gds_contains cfg key s in
  quiet_io (gw s) (gw t)
  /\ match r with
     | Ok found => found = true /\ legacy_indexed key mo (found_shape key mo s) path t
     | Raise ex => is_os_error ex = true /\ gs_hot t = gs_hot s
     end.
Proof.
  intros Hpk Hfmt Hp Hfds Hside [Hin|[Hnone Hno]].
  { pose proof Hin as (en & He & _). unfold found_shape, gds_contains, gds_get, st_gets, mbind, ST_bind. by rewrite He. }
  pose proof (pack_metadata_bytes _ _ _ _ _ Hpk) as [Hl _].
  pose proof (unpack_packed (gc_formats cfg) _ _ _ _ _ [] Hpk Hfmt) as Hu. rewrite app_nil_r in Hu.
  rewrite <- (firstn_all2 (n := Z.to_nat GDS_METADATA_MAX_SIZE) metadata) in Hu
    by (unfold lenZ in Hl; lia).
  pose proof (contains_legacy key s path sub metadata _ _ _ _ Hfds Hnone Hno Hp Hside Hu) as H.
  destruct (gds_contains cfg key s) as [[found|ex] t]; destruct H as [Hq H]; [|done].
  destruct H as [-> He]. split; [done|]. split; [done|]. unfold found_shape. rewrite Hnone. eexists. by split_and!.
Qed.

(** C10: a legacy chunk that a put stored is found again, in the index or, by a backend whose index
    does not have its key (a restart), by its sidecar, unless the system refuses a file
    operation. The entry has its path, dtype, format and shape: that of the object, or by the
    sidecar that of its tensor, which has as many elements. A blocking get that then returns
    an object has, byte by byte, the bytes that were stored, whatever happened in between to other keys, to
    other files and to memory, with cuFile and with a mapped file alike. That cuFile's count
    is not looked at when storing does no harm: a chunk written short is never returned. *)
Theorem gds_legacy_roundtrip key mo callback s t s2 path sub :
  key ∉ gs_tasks s -> fds_below (gw s) -> 0 <= nbytes (gds_tensor cfg mo) -> source_right mo ->
  gds_use_block_first cfg (mo_tensor_shape mo) = Ok false -> mo_fmt mo ∈ gc_formats cfg ->
  gds_key_to_path cfg key false = Ok (path, sub) -> prodZ (mo_shape mo) = prodZ (mo_tensor_shape mo) ->
  submitted key mo callback s = (Ok (Ok tt), t) ->
  (od_get key (gs_hot s2) = od_get key (gs_hot t) \/ od_get key (gs_hot s2) = None /\ no_block_first key s2) ->
  fds_below (gw s2) -> content (gw s2) path = content (gw t) path ->
  content (gw s2) (sidecar path) = content (gw t) (sidecar path) ->
  let '(r, s3) := gds_contains cfg key s2 in
  match r with
  | Ok found => found = true /\ legacy_indexed key mo (found_shape key mo s2) path s3
      /\ forall mo' s4, get_blocking key s3 = (Ok (Some mo'), s4) ->
           mo_size mo' = nbytes (gds_tensor cfg mo)
           /\ forall i, 0 <= i < mo_size mo' ->
                mem (gw s4) (object_address mo' + i) = mem (gw s) (object_address mo + i)
  | Raise ex => is_os_error ex = true /\ gs_hot s3 = gs_hot s2
  end.
Proof.
  intros Hn Hfds Hnb Hsrc Hbf Hfmt Hp Hsh Hput Hhot Hfds2 Hfile Hside.
  destruct (put_legacy key mo callback s t path sub Hn Hfds Hnb Hbf Hp Hput)
    as (Hset & tmp & _ & metadata & (Hpk & c & f & Hlf & Hc) & Hm). rewrite Hm in Hside. rewrite Hc in Hfile.
  pose proof (legacy_found key mo path sub metadata s2 Hpk Hfmt Hp Hfds2 Hside) as H.
  destruct (gds_contains cfg key s2) as [[found|ex] s3]; destruct H as [Hq H]; try done.
  1, 3: destruct Hhot as [Heq|]; [left|by right]; exists (put_entry mo path None);
    rewrite Heq, Hset, od_get_set, decide_True by done; by split_and!.
  destruct H as [-> Hin]. split; [done|]. split; [done|]. intros mo' s4 Hget.
  destruct Hin as (en & Hen & Hpath & Hd & Hps & Hdt & _).
  assert (prodZ (ge_shape en) * itemsize (ge_dtype en) = nbytes (gds_tensor cfg mo)) as Hsize
    by (rewrite Hps, Hdt; unfold found_shape; destruct (od_get key (gs_hot s2)); [by rewrite Hsh|done]).
  assert (content (gw s3) (ge_path en) = Some f) as Hc3
    by (destruct Hq as [Hf _]; unfold content in *; by rewrite Hpath, Hf).
  destruct (get_legacy key en f s3 s4 mo' ltac:(by eapply quiet_io_below) Hen Hd Hc3
    ltac:(rewrite Hsize; by eapply legacy_length) Hget) as [Hmo Hload].
  split; [congruence|]. by eapply legacy_bytes.
Qed.

End gets.

End puts.
