(* ===== verification/GdsChunks.v ===== *)
(** * Full chunks of the GDS backend

    A full chunk is stored block-first, through the staging buffer or directly. Either file is
    read back through the staging buffer or directly, from the index or, after a restart, from
    the header of the file. *)

From S2P Require Import Prelude Tensor Codec BlockFirst DirectIO World WorldIO HipFile XdsFiles XdsLoad XdsPaths XdsMeta Dict XdsIndex DeviceTensor XdsStaged XdsCpuStore XdsGpuStage XdsChunkIO XdsStagedFacts CuFile GdsMeta GdsFiles GdsDirect GdsStaged GdsIndex GdsFacts GdsLegacy GdsPuts.

Open Scope string_scope.
Open Scope list_scope.
Open Scope Z_scope.

Section chunks.
Context {K Dt : Type} `{!CacheKey K, !TorchDtype Dt, !TorchDtypeLaws Dt} {JC : JsonCodec} {JL : JsonCodecLaws}.
Context {CL : CuFileLib} {CLL : CuFileLaws} {TJ : TensorMetaJson} {TJL : TensorMetaJsonLaws}.
Context (cuda_malloc : (Z -> Z) -> Z -> Z) (cfg : gds_config Dt).
Implicit Types (s t : gds_state K Dt) (key : K) (mo : memory_obj Dt).

#[local] Abbreviation eng := (gc_engine cfg).
#[local] Abbreviation gw s := (g_world (gs_io s)).
#[local] Abbreviation address mo := (pl_ptr (gc_place cfg (mo_id mo))).
#[local] Abbreviation submitted := (submitted cuda_malloc cfg).

(** ** The metadata of a full chunk *)

(** What [create] made passes the checks of a later read. *)
Lemma create_validates shape dt bs el m :
  create shape dt bs el = Ok m ->
  torch_dtype (Dt := Dt) m = Ok dt /\ logical_shape m = shape /\ py_index shape 2 = Ok (valid_tokens m)
  /\ validate_runtime m shape dt el bs = Ok tt.
Proof.
  unfold create. intros H. res_inv.
  destruct (dtype_name_total dt) as (name & Hn & Hp).
  match goal with Hx : dtype_name dt = Ok ?y |- _ => assert (y = name) as -> by congruence end.
  match goal with Hv : BlockFirst.validate ?y = Ok ?u |- _ => set (mm := y) in *; destruct u end.
  subst m. split; [done|]. split; [done|]. split; [done|]. unfold validate_runtime.
  match goal with Hv : BlockFirst.validate mm = Ok tt |- _ => rewrite Hv end. res_simpl.
  repeat match goal with Hx : py_index shape _ = Ok _ |- _ => rewrite Hx; res_simpl end.
  match goal with Hx : make_layout_signature _ _ _ _ _ = Ok _ |- _ => rewrite Hx end. res_simpl.
  rewrite bool_decide_false by (intros Hx; by apply Hx). res_simpl. unfold torch_dtype. simpl. rewrite Hp. res_simpl.
  rewrite !bool_decide_false by (intros Hx; by apply Hx). done.
Qed.

(** ** Finding a stored file *)

Lemma read_header_known path m f w :
  fds_ok w -> content w path = Some f ->
  unpack_block_first_header (Dt := Dt) (take (Z.to_nat BLOCK_FIRST_HEADER_SIZE) f) = Ok m ->
  let '(r, w') := gds_read_header (Dt := Dt) path w in
  quiet_io w w' /\ match r with Ok m' => m' = m | Raise ex => is_os_error ex = true end.
Proof.
  intros Hfds Hc Hu. unfold gds_read_header, mbind at 1, ST_bind at 1. pose proof (os_open_read w path) as Ho.
  destruct (os_open path O_RDONLY w) as [[fd|ex] w1]; [|by destruct Ho as (? & ? & _)].
  destruct Ho as (-> & h & Hh & Hw1). unfold content in Hc. rewrite Hh in Hc. injection Hc as <-.
  pose proof (read_opened_cases (unpack_block_first_header (Dt := Dt)) path BLOCK_FIRST_HEADER_SIZE w w1 h
    Hfds Hh Hw1) as H. rewrite Hu in H.
  destruct (st_finally _ _ w1) as [[m'|ex] w2]; destruct H as [Hq H]; (split; [done|]); [congruence|].
  by destruct H.
Qed.

Lemma os_getsize_known path f w :
  content w path = Some f ->
  let '(r, w') := os_getsize path w in
  quiet_io w w' /\ match r with Ok n => n = lenZ f | Raise ex => is_os_error ex = true end.
Proof.
  intros Hc. unfold os_getsize, mbind at 1, ST_bind at 1.
  pose proof (may_fail_quiet w) as Hm. destruct (may_fail w) as [[u|e] w2]; [|by destruct Hm as (? & ? & _)].
  unfold mbind, ST_bind, st_get. unfold content in Hc. rewrite <- (proj1 Hm) in Hc.
  destruct (files w2 !! path) as [h|]; [|done]. cbn in *. split; [done|]. congruence.
Qed.

(** The index maps [key] to the block-first file at [path] with metadata [m]. *)
Definition indexed key (path : string) (shape : list Z) (dt : Dt) (m : BlockFirstDiskMetadata) s : Prop :=
  exists en, od_get key (gs_hot s) = Some en /\ ge_path en = path /\ ge_disk en = Some m
    /\ ge_shape en = shape /\ ge_dtype en = dt.

(** Reading the header of a file that passes the checks indexes it. *)
Lemma read_block_first_known key path sub m f shape dt s :
  fds_below (gw s) -> content (gw s) path = Some f ->
  unpack_block_first_header (Dt := Dt) (take (Z.to_nat BLOCK_FIRST_HEADER_SIZE) f) = Ok m ->
  lenZ f = BLOCK_FIRST_HEADER_SIZE + io_nbytes m -> gds_check_block_first cfg m = Ok tt ->
  torch_dtype (Dt := Dt) m = Ok dt -> logical_shape m = shape ->
  match gds_read_block_first cfg key path sub s with
  | (Ok _, t) => indexed key path shape dt m t /\ quiet_io (gw s) (gw t)
  | (Raise ex, _) => is_os_error ex = true
  end.
Proof.
  intros Hfds Hc Hu Hl Hck Hdt Hsh. unfold gds_read_block_first, mbind at 1, ST_bind at 1. rewrite on_gworld_run.
  pose proof (read_header_known path m f (gw s) Hfds Hc Hu) as Hr.
  destruct (gds_read_header path (gw s)) as [[m'|ex] w1]; destruct Hr as [Hq1 Hr]; cbn [fst snd]; [subst m'|done].
  unfold mbind at 1, ST_bind at 1, st_lift at 1. rewrite Hck. unfold mbind at 1, ST_bind at 1. rewrite on_gworld_run.
  cbn [gs_io gs_with_io g_world].
  assert (content w1 path = Some f) as Hc1 by (unfold content in *; destruct Hq1 as [-> _]; done).
  pose proof (os_getsize_known path f w1 Hc1) as Hz.
  destruct (os_getsize path w1) as [[n|ex] w2]; destruct Hz as [Hq2 Hz]; cbn [fst snd]; [subst n|done].
  unfold mbind, ST_bind, st_lift. rewrite Hl, Z.eqb_refl. cbn [negb raise_if].
  unfold gds_block_first_entry, add_dir, gds_set, st_modify. rewrite Hdt. cbn. split.
  - unfold indexed. cbn. eexists. split; [by rewrite od_get_set, decide_True|]. by split_and!.
  - by etrans.
Qed.

(** [contains] finds it, in the index or on disk, unless the system refuses to read it. *)
Lemma contains_known key path sub m f shape dt s :
  fds_below (gw s) -> content (gw s) path = Some f ->
  unpack_block_first_header (Dt := Dt) (take (Z.to_nat BLOCK_FIRST_HEADER_SIZE) f) = Ok m ->
  lenZ f = BLOCK_FIRST_HEADER_SIZE + io_nbytes m -> gds_check_block_first cfg m = Ok tt ->
  torch_dtype (Dt := Dt) m = Ok dt -> logical_shape m = shape ->
  gc_block_first_enabled cfg = true -> gds_key_to_path cfg key true = Ok (path, sub) ->
  indexed key path shape dt m s \/ od_get key (gs_hot s) = None ->
  let '(r, t) := gds_contains cfg key s in
  (r = Ok true /\ indexed key path shape dt m t /\ quiet_io (gw s) (gw t))
  \/ exists ex s', gds_read_block_first cfg key path sub s = (Raise ex, s') /\ is_os_error ex = true.
Proof.
  intros Hfds Hc Hu Hl Hck Hdt Hsh Hen Hp Hin.
  unfold gds_contains, gds_get at 1, st_gets at 1, mbind at 1, ST_bind at 1.
  destruct Hin as [Hin|Hnone].
  { pose proof Hin as (en & -> & _). by left. }
  rewrite Hnone. unfold mbind at 1, ST_bind at 1. unfold gds_try_to_read_metadata. rewrite Hen.
  pose proof (read_block_first_known key path sub m f shape dt s Hfds Hc Hu Hl Hck Hdt Hsh) as Hr.
  destruct (gds_read_block_first cfg key path sub s) as [[en|ex] t] eqn:Er.
  2:{ match goal with |- let (_, _) := ?x in _ => destruct x end. right. eauto. }
  set (first := st_lift (gds_key_to_path cfg key true) ≫= _).
  assert (first s = (Ok (Some en), t)) as Hfirst.
  { unfold first, mbind, ST_bind, st_lift, st_catch. rewrite Hp, on_gworld_run. unfold os_exists, st_gets. cbn [fst snd].
    rewrite bool_decide_true by (unfold content in Hc; destruct (files (gw s) !! path); [by eexists|done]).
    replace (gs_with_io _ s) with s by (by destruct s as [[]]). by rewrite Er. }
  unfold mbind, ST_bind. rewrite Hfirst. cbn. left. by destruct Hr.
Qed.


(** A chunk of the engine's one group, stored through the staging buffer, is one that [contains]
    accepts. *)
Lemma stored_accepted path shape dt p m w0 w f :
  block_first_stored eng (gc_staging cfg) path shape dt p m w0 w -> content w path = Some f ->
  gds_one_group eng = Some (shape, dt) -> gds_use_block_first cfg shape = Ok true ->
  gc_block_first_enabled cfg = true
  /\ unpack_block_first_header (Dt := Dt) (take (Z.to_nat BLOCK_FIRST_HEADER_SIZE) f) = Ok m
  /\ lenZ f = BLOCK_FIRST_HEADER_SIZE + io_nbytes m /\ gds_check_block_first cfg m = Ok tt
  /\ torch_dtype (Dt := Dt) m = Ok dt /\ logical_shape m = shape.
Proof.
  intros Hst Hf Hgr Hbf. pose proof (stored_header _ _ _ _ _ _ _ _ _ _ Hst Hf) as Hu.
  destruct Hst as (g & header & sg & Hm & Hsh & Hmk & Hp & _ & _ & _ & Hc).
  rewrite Hc in Hf. injection Hf as <-. unfold gds_use_block_first in Hbf.
  destruct (gc_block_first_enabled cfg); [|done]. split; [done|]. split; [done|]. split.
  { apply (length_file dt m g Hm), (pack_header_length _ _ Hp). }
  unfold gds_make_block_first_metadata in Hmk. destruct (ge_block_size eng) as [bs|] eqn:Hbs; [|done].
  destruct (create_validates _ _ _ _ _ Hmk) as (Hdt & Hls & Hvt & Hv). split; [|done].
  unfold gds_check_block_first. rewrite Hgr, Hbs, Hv. rewrite Hsh in Hbf, Hvt. unfold g_logical in Hbf, Hvt.
  cbn in Hbf, Hvt. injection Hvt as Hvt. injection Hbf as Hbf. rewrite <- Hvt, Hbf. done.
Qed.

(** A put of a full chunk that is stored *)
Lemma put_block_first key mo callback s t path sub :
  key ∉ gs_tasks s -> fds_below (gw s) -> 0 <= nbytes (gds_tensor cfg mo) -> stageable cfg mo ->
  gds_use_block_first cfg (mo_tensor_shape mo) = Ok true -> gds_key_to_path cfg key true = Ok (path, sub) ->
  mo_shape mo = mo_tensor_shape mo -> submitted key mo callback s = (Ok (Ok tt), t) ->
  exists m, ge_cufile eng = true
    /\ block_first_stored eng (gc_staging cfg) path (mo_tensor_shape mo) (mo_dtype mo) (address mo) m (gw s) (gw t)
    /\ indexed key path (mo_tensor_shape mo) (mo_dtype mo) m t.
Proof.
  intros Hn Hfds Hnb Hfit Hbf Hp Hsh Hput.
  pose proof (gds_put_done cuda_malloc cfg key mo callback s t Hn Hfds Hnb Hfit Hput)
    as (_ & _ & bf & path' & sub' & dm & Hbf' & Hp' & Hset & tmp & Hc).
  rewrite Hbf in Hbf'. injection Hbf' as <-. rewrite Hp in Hp'. injection Hp' as <- <-.
  destruct Hc as (m & -> & Hcu & Hst). exists m. split; [done|]. split; [done|].
  exists (put_entry mo path (Some m)). split; [by rewrite Hset, od_get_set, decide_True|]. by split_and!.
Qed.

(** ** Gets through the staging buffer *)

Section gets.
Context (allocator : list Z -> Dt -> string -> ST gds_io (option (memory_obj Dt))).
Context (is_valid : memory_obj Dt -> bool) (dev : torch_device).

(** [allocate] returns an object with a contiguous tensor of the asked shape and dtype on
    [dev], and touches no file and no chunk. *)
Hypothesis (Halloc : forall shape dt fmt i,
  let '(r, i') := allocator shape dt fmt i in
  quiet_io (g_world i) (g_world i')
  /\ forall mo, r = Ok (Some mo) -> gds_tensor cfg mo = contiguous_at (address mo) shape dt dev).

#[local] Abbreviation get_blocking := (gds_get_blocking cuda_malloc allocator is_valid cfg).

Lemma get_block_first key en m g s t mo :
  ge_cufile eng = true -> fds_below (gw s) -> od_get key (gs_hot s) = Some en -> ge_disk en = Some m ->
  describes m g (ge_dtype en) -> ge_shape en = g_logical g ->
  (forall sg, gc_staging cfg = Some sg -> dt_shape (sg_tensor sg) = g_physical g ->
     staging_ok sg g (ge_dtype en) dev (io_nbytes m)) ->
  get_blocking key s = (Ok (Some mo), t) ->
  exists f, content (gw s) (ge_path en) = Some f
    /\ unpack_block_first_header (Dt := Dt) (take (Z.to_nat BLOCK_FIRST_HEADER_SIZE) f) = Ok m
    /\ payload_loaded g f (address mo) (mem (gw t)).
Proof.
  intros Hcu Hfds Hen Hd Hm Hsh Hfit Hget.
  destruct (get_loaded cuda_malloc cfg allocator is_valid key en s t mo Hen Hget) as (i & s1 & Ea & <- & El).
  pose proof (Halloc (ge_shape en) (ge_dtype en) (ge_fmt en) (gs_io s)) as Ha. rewrite Ea in Ha.
  destruct Ha as [Hq Ht]. specialize (Ht mo eq_refl). rewrite Hsh in Ht.
  unfold gds_load_chunk, gds_load_size in El. rewrite Hd, Ht in El. unfold st_catch in El.
  rewrite on_gworld_run in El.
  pose proof (load_block_first_gds_spec cuda_malloc eng (gc_staging cfg) (gc_schedule cfg) (ge_path en) m g
    (address mo) dev (gw s1) (ge_dtype en) Hcu ltac:(by eapply quiet_io_below) Hm Hfit) as H.
  destruct (load_block_first_gds _ _ _ _ _ _ _ (gw s1)) as [[r|ex] w]; destruct H as [_ H].
  - injection El as -> <-. destruct (H eq_refl) as (f & Hf & Hu & Hb). exists f. split; [|done].
    destruct Hq as [Hf' _]. unfold content in *. by rewrite <- Hf'.
  - simpl in El. destruct (is_format_error ex); [|done]. injection El as E _.
    pose proof (describes_sizes m g _ Hm) as [[? ?] _]. lia.
Qed.

(** A blocking get of a chunk stored through the staging buffer *)
Lemma get_stored key path shape dt p m w0 w t s mo :
  ge_cufile eng = true -> fds_below (gw s) -> indexed key path shape dt m s ->
  block_first_stored eng (gc_staging cfg) path shape dt p m w0 w -> content (gw s) path = content w path ->
  (forall sg g, gc_staging cfg = Some sg -> describes m g dt -> dt_shape (sg_tensor sg) = g_physical g ->
     staging_ok sg g dt dev (io_nbytes m)) ->
  get_blocking key s = (Ok (Some mo), t) ->
  forall i, 0 <= i < prodZ shape * itemsize dt -> mem (gw t) (address mo + i) = mem w0 (p + i).
Proof.
  intros Hcu Hfds (en & Hen & Hpath & Hd & Hsh & Hdt) Hst Hc Hfit Hget.
  pose proof Hst as (g & header & sg & Hm & Hs & _). subst dt.
  destruct (get_block_first key en m g s t mo Hcu Hfds Hen Hd Hm ltac:(congruence)
    ltac:(intros sg' H1 H2; by apply Hfit) Hget) as (f & Hf & _ & Hl).
  rewrite Hpath, Hc in Hf. by eapply stored_loaded.
Qed.

(** C11: a full chunk stored by a put through the staging buffer is found again, in the index or,
    when the index has lost it, by the header of its file, unless the system refuses to read
    that header. A blocking get that then returns an object has, byte by byte, the bytes of the
    stored tensor; and a direct get that then reports success has put them where its
    descriptor's blocks want them: the byte at block [b], layer [l], K or V [kv] of the
    tensor [[2, layers, blocks * block_size, hidden]] is at the device address of block [b],
    layer [l], K or V [kv]. In between anything may have happened to other keys, to other files and
    to memory. *)
Theorem gds_block_first_roundtrip key mo callback s t s2 path sub :
  key ∉ gs_tasks s -> fds_below (gw s) -> 0 <= nbytes (gds_tensor cfg mo) -> stageable cfg mo ->
  pl_device (gc_place cfg (mo_id mo)) = dev -> gds_one_group eng = Some (mo_tensor_shape mo, mo_dtype mo) ->
  gds_use_block_first cfg (mo_tensor_shape mo) = Ok true -> gds_key_to_path cfg key true = Ok (path, sub) ->
  mo_shape mo = mo_tensor_shape mo -> submitted key mo callback s = (Ok (Ok tt), t) ->
  od_get key (gs_hot s2) = od_get key (gs_hot t) \/ od_get key (gs_hot s2) = None ->
  content (gw s2) path = content (gw t) path -> fds_below (gw s2) ->
  let '(r, s3) := gds_contains cfg key s2 in
  (r = Ok true
   /\ (forall mo' s4, get_blocking key s3 = (Ok (Some mo'), s4) ->
         forall i, 0 <= i < nbytes (gds_tensor cfg mo) ->
           mem (gw s4) (address mo' + i) = mem (gw s) (address mo + i))
   /\ (forall env dr s4, others_elsewhere path env -> shapes_of_chunk (as_xds eng) ->
         addresses_distinct (row_nbytes (as_xds eng)) dr -> edge_apart eng dr (g_edge (gs_io s3)) ->
         gds_batched_direct_get cfg env [key] [Some dr] s3 = (Ok [true], s4) ->
         exists g, mo_tensor_shape mo = g_logical g /\ g_isz g = itemsize (mo_dtype mo)
           /\ ge_block_size eng = Some (g_bs g)
           /\ forall b l kv o a, 0 <= b < g_cb g -> 0 <= l < g_nl g -> 0 <= kv < 2 -> 0 <= o < g_run g ->
                device_address (row_nbytes (as_xds eng)) dr
                  (BLOCK_FIRST_HEADER_SIZE + (((b * g_nl g + l) * 2 + kv) * g_run g + o)) = Some a ->
                mem (gw s4) a = mem (gw s) (address mo + (((kv * g_nl g + l) * g_cb g + b) * g_run g + o))))
  \/ exists ex s', gds_read_block_first cfg key path sub s2 = (Raise ex, s') /\ is_os_error ex = true.
Proof.
  intros Hn Hfds Hnb Hfit Hdev Hgr Hbf Hp Hsh Hput Hhot Hfile Hfds2.
  destruct (put_block_first key mo callback s t path sub Hn Hfds Hnb Hfit Hbf Hp Hsh Hput) as (m & Hcu & Hst & Hin).
  pose proof Hst as (g & header & sg & Hm & Hs & Hmk & Hpk & Hsg & _ & _ & Hc).
  rewrite Hc in Hfile. destruct (make_metadata_describes (as_xds eng) _ _ _ Hmk) as (g1 & Hm1 & _ & Hbs).
  rewrite (describes_unique _ _ _ _ Hm1 Hm) in Hbs.
  destruct (stored_accepted _ _ _ _ _ _ _ _ Hst Hc Hgr Hbf) as (Hen & Hu & Hl & Hck & Hdt & Hls).
  pose proof (contains_known key path sub m _ _ _ s2 Hfds2 Hfile Hu Hl Hck Hdt Hls Hen Hp) as Hcon.
  destruct (gds_contains cfg key s2) as [r s3]. destruct Hcon as [(-> & Hin3 & Hq)|He]; [|left|by right].
  { destruct Hhot as [Heq|]; [left|by right]. destruct Hin as (en & H). exists en. by rewrite Heq. }
  assert (content (gw s3) path = content (gw t) path) as Hc3
    by (unfold content in *; destruct Hq as [-> _]; congruence).
  split; [done|]. split.
  - intros mo' s4 Hget. eapply (get_stored key path _ _ _ m (gw s) (gw t)); [done|by eapply quiet_io_below|done..| |done].
    intros sg' g' Hsg' Hm' Hph. destruct (Hfit Hbf sg' Hsg' m g' Hm') as [Hok _]; [|done|by rewrite <- Hdev].
    by rewrite (describes_unique _ _ _ _ Hm' Hm).
  - intros env dr s4 Henv Hch Hdist Hap Hget. exists g. split; [done|]. split; [apply Hm|]. split; [exact Hbs|].
    intros b l kv o a Hb Hl' Hkv Ho Ha.
    apply direct_get_true in Hget as (path' & size & shape & dt & fmt & dm & i & Hen' & Hload & Hi).
    destruct Hin3 as (en & He & Hpath & Hd & _). rewrite He in Hen'. injection Hen' as ->. simpl in Hpath, Hd.
    subst path'. injection Hd as ->.
    pose proof (load_direct_gds_spec eng env path m dr (gs_io s3) ltac:(by eapply quiet_io_below) Henv Hch Hdist Hap) as H.
    rewrite Hload in H. destruct H as ((f & Hf & _ & _ & Hbytes) & _). rewrite Hc3, Hc in Hf. injection Hf as <-.
    specialize (Hbytes _ _ Ha). rewrite block_first_file_run in Hbytes;
      [|apply Hm|by eapply pack_header_length|done..]. rewrite Hi. by injection Hbytes as <-.
Qed.

(** C12: a chunk stored directly and then read by a blocking get has, at K or V [kv], layer [l] and
    block [b] of the returned object's tensor [[2, layers, blocks * block_size, hidden]], the
    bytes the stored descriptor's block [b] had for that layer: the two ways of reading a
    block-first file agree with the direct way of writing it. *)
Theorem gds_direct_then_blocking key ds s s1 s2 s3 mo' path sub :
  fds_ok (gw s) -> key ∉ gs_tasks s -> od_get key (gs_hot s) ≫= ge_disk = None ->
  ge_direct_enabled eng = true -> ge_cufile eng = true -> gds_key_to_path cfg key true = Ok (path, sub) ->
  gds_batched_direct_put cfg [key] [Some ds] s = (Ok [true], s1) ->
  od_get key (gs_hot s2) = od_get key (gs_hot s1) -> content (gw s2) path = content (gw s1) path ->
  fds_below (gw s2) ->
  (forall sg m g (dt : Dt), gc_staging cfg = Some sg -> describes m g dt -> dt_shape (sg_tensor sg) = g_physical g ->
     gds_one_group eng = Some (g_logical g, dt) -> staging_ok sg g dt dev (io_nbytes m)) ->
  get_blocking key s2 = (Ok (Some mo'), s3) ->
  exists g dt, gds_one_group eng = Some (g_logical g, dt) /\ g_isz g = itemsize dt
    /\ ge_block_size eng = Some (g_bs g)
    /\ forall b l kv o, 0 <= b < g_cb g -> 0 <= l < g_nl g -> 0 <= kv < 2 -> 0 <= o < g_run g ->
         mem (gw s3) (address mo' + (((kv * g_nl g + l) * g_cb g + b) * g_run g + o))
         = mem (gw s) (source_address ds (((b * g_nl g + l) * 2 + kv) * g_run g + o)).
Proof.
  intros Hfds Hn Hnone Hen Hcu Hp Hput Hhot Hfile Hfds2 Hfit Hget.
  pose proof (direct_put_cases cfg key ds s path sub Hfds Hn Hnone Hen Hp) as H.
  unfold gds_batched_direct_put in Hput. rewrite direct_loop_one in Hput.
  destruct (gds_direct_put cfg key (Some ds) s) as [[[]|ex] t]; [|done..].
  injection Hput as <-. destruct H as (_ & _ & m & en & Hck & (Hpath & _ & Hdisk & Hsh & Hdt) & Hset
    & (_ & _ & (header & Hpack & Hc) & _)).
  apply gds_check_store_Ok in Hck as (_ & _ & _ & Hio & Hmd & _). unfold gds_direct_metadata in Hmd.
  destruct (gds_one_group eng) as [[shape dt]|] eqn:Hgr; [|done].
  destruct (make_metadata_describes (as_xds eng) _ _ _ Hmd) as (g & Hm & Hs & Hbs). change (ge_block_size eng = Some (g_bs g)) in Hbs.
  unfold gds_make_block_first_metadata in Hmd. destruct (ge_block_size eng) as [bs|]; [|done].
  destruct (create_validates _ _ _ _ _ Hmd) as (Hdt' & Hls & _). assert (ge_dtype en = dt) as He by congruence.
  exists g, dt. split; [by rewrite Hs|]. split; [apply Hm|]. split; [exact Hbs|].
  intros b l kv o Hb Hl Hkv Ho.
  destruct (get_block_first key en m g s2 s3 mo') as (f & Hf & _ & Hld); try done.
  - by rewrite Hhot, Hset, od_get_set, decide_True.
  - by rewrite He.
  - congruence.
  - intros sg Hsg Hph. rewrite He. apply Hfit; [done..|]. by rewrite Hs.
  - rewrite Hpath, Hfile, Hc in Hf. injection Hf as <-. pose proof (describes_sizes m g _ Hm) as [[_ Hle] _].
    pose proof (mul_add_bounds b l (g_nl g) (g_cb g) Hb Hl) as H1.
    pose proof (mul_add_bounds _ kv 2 _ H1 Hkv) as H2. pose proof (mul_add_bounds _ o (g_run g) _ H2 Ho) as H3.
    set (j := ((b * g_nl g + l) * 2 + kv) * g_run g + o) in *.
    assert (0 <= j < g_nbytes g) as Hj by (unfold g_nbytes, g_runs; lia).
    specialize (Hld j Hj). apply (payload_byte header (gw s) ds j) in Hld;
      [|by eapply pack_header_length|lia]. rewrite <- Hld. f_equal.
    unfold j. by rewrite logical_source_at, run_logical_at by done.
Qed.

End gets.

End chunks.
