(* ===== verification/GdsExamples.v ===== *)
(** * The GDS backend at concrete inputs

    The theorems on direct I/O, puts, gets, restarts and closing, applied to a backend over
    [SimCuFile] that stores and loads one chunk. *)

From S2P Require Import Prelude Tensor Codec BlockFirst DirectIO World WorldIO HipFile XdsFiles XdsLoad XdsPaths XdsMeta Dict XdsIndex DeviceTensor XdsStaged XdsGpuStage XdsStagedExamples CuFile GdsMeta GdsFiles GdsDirect GdsStaged GdsIndex GdsFacts GdsLegacy GdsPuts GdsChunks.

Open Scope string_scope.
Open Scope list_scope.
Open Scope Z_scope.

Module GdsExamples.
Import CountableCodec BlockFirstExamples XdsExamples TextKey.

Definition ex_gds : gds_engine ex_dtype :=
  GdsEngine _ 4 (Some 2) [[2; 1; 4; 512]] [Float16] ex_engine true (TorchDevice "cuda" None) true true.

(** The object [id] is 4096 bytes at [4096 * id]. *)
Definition ex_gcfg : gds_config ex_dtype :=
  GdsConfig _ ex_gds true "root" GDS_DATA_FILE_SUFFIX (Some 0) true false None
    (fun id => Placement (4096 * id) (4096 * id) [] ex_gpu 4096) (fun n => "RANDOMXX") [] [KV_2LTD].

Definition ex_gio : gds_io := GdsIO (World ∅ ∅ 5 (fun a => a mod 251) [] (HipClass true true ∅ [])) [] None [] [].

Definition ex_gstart : gds_state string ex_dtype :=
  GdsState _ _ ex_gio [] [] ∅ [] ∅ true 0 [].

(** The last three tokens of a prompt: a partial chunk, so a legacy file *)
Definition ex_tail : memory_obj ex_dtype :=
  MemoryObj _ 2 [2; 1; 3; 8] [2; 1; 3; 8] Float16 KV_2LTD 96 4096.

(** [CuFileMemoryAllocator.allocate], always of the object 7 *)
Definition ex_allocator (shape : list Z) (dt : ex_dtype) (fmt : string)
    : ST gds_io (option (memory_obj ex_dtype)) := fun i =>
  (Ok (Some (MemoryObj _ 7 shape shape dt fmt (prodZ shape * itemsize dt) 4096)), i).

Definition ex_malloc (m : Z -> Z) (n : Z) : Z := 0.

Definition ex_put : result (result unit) * gds_state string ex_dtype :=
  submitted (CL := SimCuFile.sim_cufile) (TJ := CountableMeta.meta_json) ex_malloc ex_gcfg "a" ex_tail true ex_gstart.

(** After a restart only the files are left. *)
Definition restarted (s : gds_state string ex_dtype) : gds_state string ex_dtype :=
  GdsState _ _ (gs_io s) [] [] ∅ [] ∅ true 0 [].

Definition ex_restarted : gds_state string ex_dtype := restarted ex_put.2.

Definition ex_get (s : gds_state string ex_dtype) :=
  gds_get_blocking (CL := SimCuFile.sim_cufile) ex_malloc ex_allocator (fun _ => true) ex_gcfg "a" s.

Definition ex_contains (s : gds_state string ex_dtype) :=
  gds_contains (JC := CountableCodec.codec) (TJ := CountableMeta.meta_json) ex_gcfg "a" s.

End GdsExamples.

#[local] Existing Instance SimCuFile.sim_cufile.
#[local] Existing Instance SimCuFile.sim_cufile_laws.
#[local] Existing Instance CountableCodec.codec.
#[local] Existing Instance CountableCodecFacts.codec_laws.
#[local] Existing Instance CountableMeta.meta_json.
#[local] Existing Instance CountableMeta.meta_json_laws.
Import GdsExamples TextKey.

Lemma ex_gfds : fds_below (g_world ex_gio).
Proof. intros fd [o Ho]. vm_compute in Ho. destruct fd; discriminate Ho. Qed.

Lemma ex_put_fds : fds_below (g_world (gs_io ex_put.2)).
Proof.
  assert (fds (g_world (gs_io ex_put.2)) = ∅) as Hs by (vm_compute; reflexivity).
  intros fd [o Ho]. rewrite Hs in Ho. discriminate Ho.
Qed.

Lemma restarted_io s : gs_io (restarted s) = gs_io s.
Proof. reflexivity. Qed.

Lemma ex_restarted_io : gs_io ex_restarted = gs_io ex_put.2.
Proof. exact (restarted_io ex_put.2). Qed.

Lemma ex_no_task : "a" ∉ gs_tasks ex_gstart.
Proof. apply not_elem_of_nil. Qed.

Lemma ex_tail_size : 0 <= nbytes (gds_tensor ex_gcfg ex_tail).
Proof. vm_compute. discriminate. Qed.

Lemma ex_tail_path : gds_key_to_path ex_gcfg "a" false = Ok ("root/a/a.kvcache.safetensors", "a").
Proof. vm_compute. reflexivity. Qed.

(** The allocator does as documented. *)
Lemma ex_allocator_ok shape dt fmt i :
  let '(r, i') := ex_allocator shape dt fmt i in
  quiet_io (g_world i) (g_world i')
  /\ forall mo, r = Ok (Some mo) -> mo_size mo = prodZ shape * itemsize dt.
Proof. split; [reflexivity|]. by intros mo [= <-]. Qed.

Lemma ex_put_ok : ex_put = (Ok (Ok tt), ex_put.2).
Proof.
  assert (ex_put.1 = Ok (Ok tt)) as H by (vm_compute; reflexivity).
  destruct ex_put as [r t]. simpl in *. by rewrite H.
Qed.

Lemma gds_put_outcome_witness :
  put_done ex_gcfg "a" ex_tail true ex_gstart ex_put.2 /\ gs_jobs ex_put.2 = [].
Proof.
  pose proof (gds_put_outcome ex_malloc ex_gcfg "a" ex_tail true ex_gstart ex_no_task ex_gfds ex_tail_size
    ltac:(by intros _ sg [=])) as H.
  change (submitted ex_malloc ex_gcfg "a" ex_tail true ex_gstart) with ex_put in H.
  rewrite ex_put_ok in H. destruct H as [Hj Hd]. split; [exact Hd|exact Hj].
Defined.

Definition loaded_object : memory_obj ex_dtype :=
  MemoryObj _ 7 [2; 1; 3; 8] [2; 1; 3; 8] Float16 KV_2LTD 96 4096.

Lemma ex_got (s : gds_state string ex_dtype) :
  (ex_get s).1 = Ok (Some loaded_object) -> ex_get s = (Ok (Some loaded_object), (ex_get s).2).
Proof. destruct (ex_get s) as [r t]. simpl. by intros ->. Qed.

(** Found by its sidecar after a restart, and loaded into object 7 *)
Lemma gds_legacy_roundtrip_witness :
  (ex_contains ex_restarted).1 = Ok true
  /\ mem (g_world (gs_io (ex_get (ex_contains ex_restarted).2).2)) (28672 + 5) = (8192 + 5) mod 251.
Proof.
  assert (no_block_first ex_gcfg "a" ex_restarted) as Hno.
  { right. intros p sub Hp. vm_compute in Hp. injection Hp as <- _. vm_compute. reflexivity. }
  pose proof (gds_legacy_roundtrip ex_malloc ex_gcfg ex_allocator (fun _ => true) ex_allocator_ok "a" ex_tail
    true ex_gstart ex_put.2 ex_restarted "root/a/a.kvcache.safetensors" "a" ex_no_task ex_gfds
    ex_tail_size (or_introl eq_refl) eq_refl (list_elem_of_here _ _) ex_tail_path eq_refl ex_put_ok
    (or_intror (conj eq_refl Hno))) as H.
  rewrite ex_restarted_io in H. specialize (H ex_put_fds eq_refl eq_refl).
  change (gds_contains ex_gcfg "a" ex_restarted) with (ex_contains ex_restarted) in H.
  assert ((ex_contains ex_restarted).1 = Ok true) as Hc by (vm_compute; reflexivity).
  assert ((ex_get (ex_contains ex_restarted).2).1 = Ok (Some loaded_object)) as Hg by (vm_compute; reflexivity).
  apply ex_got in Hg. destruct (ex_contains ex_restarted) as [r s3]. simpl in Hc, Hg |- *. subst r.
  destruct H as (_ & _ & H). split; [reflexivity|].
  destruct (H loaded_object _ Hg) as [_ Hb]. exact (Hb 5 ltac:(vm_compute; split; [discriminate|reflexivity])).
Defined.

(** ** Direct I/O *)

Definition ex_direct_put : result (list bool) * gds_state string ex_dtype :=
  gds_batched_direct_put ex_gcfg ["a"] [Some XdsExamples.ex_store] ex_gstart.

Definition ex_direct_get : result (list bool) * gds_state string ex_dtype :=
  gds_batched_direct_get ex_gcfg (fun w => w) ["a"] [Some XdsExamples.ex_retrieve] ex_direct_put.2.

Definition ex_direct_path : string := "root/a/a.block_first_v1.kvcache".

Lemma ex_direct_put_ok : ex_direct_put = (Ok [true], ex_direct_put.2).
Proof.
  assert (ex_direct_put.1 = Ok [true]) as H by (vm_compute; reflexivity).
  destruct ex_direct_put as [r t]. simpl in *. by rewrite H.
Qed.

Lemma ex_direct_get_ok : ex_direct_get = (Ok [true], ex_direct_get.2).
Proof.
  assert (ex_direct_get.1 = Ok [true]) as H by (vm_compute; reflexivity).
  destruct ex_direct_get as [r t]. simpl in *. by rewrite H.
Qed.

Lemma ex_direct_fds : fds_ok (g_world (gs_io ex_direct_put.2)).
Proof.
  assert (fds (g_world (gs_io ex_direct_put.2)) = ∅) as Hs by (vm_compute; reflexivity).
  intros fd [o Ho]. rewrite Hs in Ho. discriminate Ho.
Qed.

Lemma ex_direct_elsewhere : others_elsewhere ex_direct_path (fun w => w).
Proof. intros w. repeat split; try done. Qed.

Lemma ex_no_edge : g_edge (gs_io ex_direct_put.2) = None.
Proof. vm_compute. reflexivity. Qed.

Lemma ex_edge_far : edge_apart ex_gds XdsExamples.ex_retrieve None.
Proof.
  intros n w b w1 a Hb Ha x y Hy. injection Hb as <- <-. injection Ha as <-.
  pose proof (ex_retrieve_low x y Hy). lia.
Qed.

Lemma ex_direct_key : gds_key_to_path ex_gcfg "a" true = Ok (ex_direct_path, "a").
Proof. vm_compute. reflexivity. Qed.

Lemma gds_direct_roundtrip_witness :
  ex_direct_get.1 = Ok [true]
  /\ mem (g_world (gs_io ex_direct_get.2)) (8192 + 5) = (8192 + 3 * 4096 + 5) mod 251.
Proof.
  split; [by rewrite ex_direct_get_ok|].
  assert (edge_apart ex_gds XdsExamples.ex_retrieve (g_edge (gs_io ex_direct_put.2))) as Hap
    by (rewrite ex_no_edge; exact ex_edge_far).
  assert (device_address (row_nbytes (as_xds ex_gds)) XdsExamples.ex_retrieve
    (BLOCK_FIRST_HEADER_SIZE + 5) = Some (8192 + 5)) as Ha by (vm_compute; reflexivity).
  exact (gds_direct_roundtrip ex_gcfg (fun w => w) "a" XdsExamples.ex_store XdsExamples.ex_retrieve ex_gstart
    ex_direct_put.2 ex_direct_put.2 ex_direct_get.2 ex_direct_path "a" ex_gfds ex_no_task eq_refl ex_direct_key
    ex_direct_put_ok eq_refl eq_refl ex_direct_fds ex_direct_elsewhere ex_shapes ex_retrieve_distinct Hap
    ex_direct_get_ok 5 (8192 + 5) ltac:(vm_compute; split; [discriminate|reflexivity]) Ha).
Defined.

Lemma gds_direct_put_outcome_witness :
  exists m en, gs_hot ex_direct_put.2 = [("a", en)] /\ direct_entry ex_direct_path m en
    /\ files (g_world (gs_io ex_direct_put.2)) !! tmp_of ex_direct_path = None.
Proof.
  pose proof (gds_direct_put_outcome ex_gcfg "a" XdsExamples.ex_store ex_gstart ex_direct_path "a" ex_gfds
    ex_no_task eq_refl eq_refl ex_direct_key) as H.
  change (gds_batched_direct_put ex_gcfg ["a"] [Some XdsExamples.ex_store] ex_gstart) with ex_direct_put in H.
  rewrite ex_direct_put_ok in H. destruct H as (_ & _ & [(_ & m & en & _ & Hen & Hh & (_ & Hn & _))|[Hr _]]);
    [|discriminate Hr].
  exists m, en. split; [exact Hh|]. split; [exact Hen|exact Hn].
Defined.

(** ** A full chunk through the staging buffer *)

(** The engine, the staging buffer and the first object of [StagedExamples] *)
Definition ex_staged_gds : gds_engine ex_dtype :=
  GdsEngine _ 4 (Some 2) [[2; 1; 4; 2]] [Float16] BlockFirstExamples.ex_engine true (TorchDevice "cuda" None) true true.

Definition ex_scfg : gds_config ex_dtype :=
  GdsConfig _ ex_staged_gds true "root" GDS_DATA_FILE_SUFFIX None true false (Some StagedExamples.staging)
    (fun id => Placement (if id =? 1 then 2000 else 5000) 0 (Strided.contiguous_strides [2; 1; 4; 2]) XdsExamples.ex_gpu 32)
    (fun n => "RANDOMXX") [0; 0; 0; 0; 0]%nat [KV_2LTD].

(** A pool that holds one chunk, as the object 2 *)
Definition ex_pool (shape : list Z) (dt : ex_dtype) (fmt : string)
    : ST gds_io (option (memory_obj ex_dtype)) := fun i =>
  (Ok (if decide (shape = [2; 1; 4; 2])
       then Some (MemoryObj _ 2 shape shape dt fmt (prodZ shape * itemsize dt) 4096) else None), i).

Lemma ex_pool_ok shape dt fmt i :
  let '(r, i') := ex_pool shape dt fmt i in
  quiet_io (g_world i) (g_world i')
  /\ forall mo, r = Ok (Some mo) ->
       gds_tensor ex_scfg mo = contiguous_at (pl_ptr (gc_place ex_scfg (mo_id mo))) shape dt XdsExamples.ex_gpu.
Proof. split; [reflexivity|]. destruct (decide (shape = [2; 1; 4; 2])) as [->|]; [|done]. by intros mo [= <-]. Qed.

Definition ex_chunk_put : result (result unit) * gds_state string ex_dtype :=
  submitted StagedExamples.zero_alloc ex_scfg "a" (StagedExamples.small 1) true ex_gstart.

Definition ex_chunk_found := gds_contains ex_scfg "a" (restarted ex_chunk_put.2).

Definition ex_chunk_get (s : gds_state string ex_dtype) :=
  gds_get_blocking StagedExamples.zero_alloc ex_pool (fun _ => true) ex_scfg "a" s.

Lemma ex_chunk_stageable : stageable ex_scfg (StagedExamples.small 1).
Proof.
  intros _ sg [= <-]. exact (StagedExamples.small_fits XdsExamples.ex_gpu 1 _ eq_refl ltac:(lia) eq_refl).
Qed.

Lemma ex_chunk_size : 0 <= nbytes (gds_tensor ex_scfg (StagedExamples.small 1)).
Proof. vm_compute. discriminate. Qed.

Lemma ex_chunk_put_ok : ex_chunk_put = (Ok (Ok tt), ex_chunk_put.2).
Proof.
  assert (ex_chunk_put.1 = Ok (Ok tt)) as H by (vm_compute; reflexivity).
  destruct ex_chunk_put as [r t]. simpl in *. by rewrite H.
Qed.

Lemma ex_chunk_fds : fds_below (g_world (gs_io ex_chunk_put.2)).
Proof.
  assert (fds (g_world (gs_io ex_chunk_put.2)) = ∅) as Hs by (vm_compute; reflexivity).
  intros fd [o Ho]. rewrite Hs in Ho. discriminate Ho.
Qed.

Lemma ex_chunk_key : gds_key_to_path ex_scfg "a" true = Ok (ex_direct_path, "a").
Proof. vm_compute. reflexivity. Qed.

Definition ex_chunk_read := gds_read_block_first ex_scfg "a" ex_direct_path "a" (restarted ex_chunk_put.2).

Lemma ex_chunk_reads ex s' : ex_chunk_read <> (Raise ex, s').
Proof.
  assert (is_Ok ex_chunk_read.1 = true) as H by (vm_compute; reflexivity).
  destruct ex_chunk_read as [r t]. intros [= -> _]. discriminate H.
Qed.

Definition ex_chunk_object : memory_obj ex_dtype :=
  MemoryObj _ 2 [2; 1; 4; 2] [2; 1; 4; 2] Float16 KV_2LTD 32 4096.

Lemma ex_chunk_got : (ex_chunk_get ex_chunk_found.2).1 = Ok (Some ex_chunk_object).
Proof. vm_compute. reflexivity. Qed.

(** Found by its header after a restart and loaded into object 2 *)
Lemma gds_block_first_roundtrip_witness :
  ex_chunk_found.1 = Ok true
  /\ mem (g_world (gs_io (ex_chunk_get ex_chunk_found.2).2)) (5000 + 5) = (2000 + 5) mod 251.
Proof.
  pose proof (gds_block_first_roundtrip StagedExamples.zero_alloc ex_scfg ex_pool (fun _ => true) XdsExamples.ex_gpu
    ex_pool_ok "a" (StagedExamples.small 1) true ex_gstart ex_chunk_put.2 (restarted ex_chunk_put.2) ex_direct_path "a"
    ex_no_task ex_gfds ex_chunk_size ex_chunk_stageable eq_refl eq_refl eq_refl ex_chunk_key eq_refl
    ex_chunk_put_ok (or_intror eq_refl)) as H.
  rewrite restarted_io in H. specialize (H eq_refl ex_chunk_fds).
  change (gds_contains ex_scfg "a" (restarted ex_chunk_put.2)) with ex_chunk_found in H.
  change (gds_read_block_first ex_scfg "a" ex_direct_path "a" (restarted ex_chunk_put.2)) with ex_chunk_read in H.
  pose proof ex_chunk_got as Hg. destruct ex_chunk_found as [r s3]. cbn [fst snd] in *.
  destruct H as [(-> & H & _)|(ex & s' & Hr & _)]; [|by destruct (ex_chunk_reads ex s')].
  split; [reflexivity|]. destruct (ex_chunk_get s3) as [r' s4] eqn:Eg. cbn [fst snd] in *. subst r'.
  exact (H ex_chunk_object s4 Eg 5 ltac:(vm_compute; split; [discriminate|reflexivity])).
Defined.

(** ** A direct store and a blocking get *)

(** One block of two tokens in each chunk, a block of 4096 bytes *)
Definition ex_one_gds : gds_engine ex_dtype :=
  GdsEngine _ 2 (Some 2) [[2; 1; 2; 512]] [Float16] BlockFirstExamples.ex_engine true (TorchDevice "cuda" None) true true.

(** The physical block 3 *)
Definition ex_one_store : DirectIODescriptor :=
  Descriptor STORE XdsExamples.ex_gpu 8192 16384 0 4096 2 0 1 0 2 [BlockRun 0 3 1] None 4096
    true (Some [7]) [] [] [].

Definition ex_one_staging : block_staging ex_dtype :=
  BlockStaging _ 1000000 4096 0 (contiguous_at 1000000 [1; 1; 2; 2; 512] Float16 XdsExamples.ex_gpu).

Definition ex_one_cfg : gds_config ex_dtype :=
  GdsConfig _ ex_one_gds true "root" GDS_DATA_FILE_SUFFIX None true false (Some ex_one_staging)
    (fun id => Placement 500000 0 (Strided.contiguous_strides [2; 1; 2; 512]) XdsExamples.ex_gpu 4096)
    (fun n => "RANDOMXX") [0; 0; 0; 0; 0]%nat [KV_2LTD].

Definition ex_one_object : memory_obj ex_dtype :=
  MemoryObj _ 2 [2; 1; 2; 512] [2; 1; 2; 512] Float16 KV_2LTD 4096 4096.

Definition ex_one_pool (shape : list Z) (dt : ex_dtype) (fmt : string)
    : ST gds_io (option (memory_obj ex_dtype)) := fun i =>
  (Ok (if decide (shape = [2; 1; 2; 512]) then Some (MemoryObj _ 2 shape shape dt fmt 4096 4096) else None), i).

Lemma ex_one_pool_ok shape dt fmt i :
  let '(r, i') := ex_one_pool shape dt fmt i in
  quiet_io (g_world i) (g_world i')
  /\ forall mo, r = Ok (Some mo) ->
       gds_tensor ex_one_cfg mo = contiguous_at (pl_ptr (gc_place ex_one_cfg (mo_id mo))) shape dt XdsExamples.ex_gpu.
Proof. split; [reflexivity|]. destruct (decide (shape = [2; 1; 2; 512])) as [->|]; [|done]. by intros mo [= <-]. Qed.

Definition ex_one_put := gds_batched_direct_put ex_one_cfg ["a"] [Some ex_one_store] ex_gstart.

Definition ex_one_get :=
  gds_get_blocking StagedExamples.zero_alloc ex_one_pool (fun _ => true) ex_one_cfg "a" ex_one_put.2.

Lemma ex_one_put_ok : ex_one_put = (Ok [true], ex_one_put.2).
Proof.
  assert (ex_one_put.1 = Ok [true]) as H by (vm_compute; reflexivity).
  destruct ex_one_put as [r t]. simpl in *. by rewrite H.
Qed.

Lemma ex_one_get_ok : ex_one_get = (Ok (Some ex_one_object), ex_one_get.2).
Proof.
  assert (ex_one_get.1 = Ok (Some ex_one_object)) as H by (vm_compute; reflexivity).
  destruct ex_one_get as [r t]. simpl in *. by rewrite H.
Qed.

Lemma ex_one_fds : fds_below (g_world (gs_io ex_one_put.2)).
Proof.
  assert (fds (g_world (gs_io ex_one_put.2)) = ∅) as Hs by (vm_compute; reflexivity).
  intros fd [o Ho]. rewrite Hs in Ho. discriminate Ho.
Qed.

Lemma ex_one_key : gds_key_to_path ex_one_cfg "a" true = Ok (ex_direct_path, "a").
Proof. vm_compute. reflexivity. Qed.

Lemma ex_one_fits sg m g (dt : ex_dtype) :
  gc_staging ex_one_cfg = Some sg -> describes m g dt -> dt_shape (sg_tensor sg) = g_physical g ->
  gds_one_group ex_one_gds = Some (g_logical g, dt) -> staging_ok sg g dt XdsExamples.ex_gpu (io_nbytes m).
Proof.
  intros [= <-] (Hg & Hisz & _ & _ & _ & _ & _ & _ & Hio) Hs Hgr. injection Hgr as Hnl Hcb Hhd <-.
  destruct g as [nl cb bs hd isz]. unfold g_physical in Hs. simpl in *. injection Hs as <- <- <- <-. subst isz.
  generalize dependent (io_nbytes m). intros io Hio. vm_compute in Hio. injection Hio as <-.
  split; [reflexivity|]. simpl. lia.
Qed.

(** The bytes of V in physical block 3 are at V of the loaded object. *)
Lemma gds_direct_then_blocking_witness :
  ex_one_get.1 = Ok (Some ex_one_object)
  /\ mem (g_world (gs_io ex_one_get.2)) (500000 + 2057) = (8192 + 3 * 4096 + 2057) mod 251.
Proof.
  split; [by rewrite ex_one_get_ok|].
  destruct (gds_direct_then_blocking StagedExamples.zero_alloc ex_one_cfg ex_one_pool (fun _ => true) XdsExamples.ex_gpu
    ex_one_pool_ok "a" ex_one_store ex_gstart ex_one_put.2 ex_one_put.2 ex_one_get.2 ex_one_object ex_direct_path "a"
    ex_gfds ex_no_task eq_refl eq_refl eq_refl ex_one_key ex_one_put_ok eq_refl eq_refl ex_one_fds ex_one_fits
    ex_one_get_ok) as (g & dt & Hgr & Hisz & Hbs & Hb).
  injection Hgr as Hnl Hcb Hhd <-. injection Hbs as Hbs. destruct g as [nl cb bs hd isz].
  unfold g_run in Hb. cbn in Hnl, Hcb, Hhd, Hisz, Hbs, Hb. subst nl bs hd isz. assert (cb = 1) as -> by lia.
  exact (Hb 0 0 1 9 ltac:(lia) ltac:(lia) ltac:(lia) ltac:(lia)).
Defined.
