(* ===== verification/KvKernels.v ===== *)
(** * The memory kernels

    [csrc/mem_kernels.cu]: the kernels that move KV rows between LMCache's chunk tensors and
    vLLM's paged cache, with their 32- and 64-bit offset arithmetic, the grids they are
    launched on, and the host functions that choose both. A launch is the list of the copies
    its threads make; the device runs them in an order of its own. *)

From S2P Require Import Prelude Tensor DirectIO World DeviceTensor.

Open Scope string_scope.
Open Scope list_scope.
Open Scope Z_scope.

(** ** Machine integers *)

(** Signed integers of [w] bits, wrapping around: [int] and [int64_t] *)
Definition signed (w z : Z) : Z := (z + 2 ^ (w - 1)) mod 2 ^ w - 2 ^ (w - 1).
Definition i32 : Z -> Z := signed 32.
Definition i64 : Z -> Z := signed 64.

Declare Scope machine_scope.
Notation "a *32 b" := (i32 (a * b)) (at level 40, left associativity) : machine_scope.
Notation "a +32 b" := (i32 (a + b)) (at level 50, left associativity) : machine_scope.
Notation "a *64 b" := (i64 (a * b)) (at level 40, left associativity) : machine_scope.
Notation "a +64 b" := (i64 (a + b)) (at level 50, left associativity) : machine_scope.

(** ** Formats and offsets *)

Inductive TransferDirection := H2D | D2H.

Inductive GPUKVFormat :=
  | NB_NL_TWO_BS_NH_HS      (* vLLM, one tensor for all layers *)
  | NL_X_TWO_NB_BS_NH_HS    (* vLLM, flash attention *)
  | NL_X_NB_TWO_BS_NH_HS    (* vLLM, flash infer *)
  | NL_X_NB_BS_HS           (* vLLM, MLA *)
  | TWO_X_NL_X_NBBS_NH_HS   (* SGLang *)
  | NL_X_NBBS_ONE_HS.       (* SGLang, MLA *)

#[global] Instance GPUKVFormat_eq_dec : EqDecision GPUKVFormat.
Proof. solve_decision. Defined.

Definition is_mla (f : GPUKVFormat) : bool :=
  match f with NL_X_NB_BS_HS | NL_X_NBBS_ONE_HS => true | _ => false end.

Section offsets.
Local Open Scope machine_scope.

(** Where a scalar is in its layer of the paged cache; a format without a branch is never
    launched. *)
Definition page_buffer_offset (format : GPUKVFormat)
    (k_or_v token_idx scalar_offset scalars_per_token num_layers page_buffer_size block_size : Z)
    : Z :=
  match format with
  | NB_NL_TWO_BS_NH_HS =>
      let block_idx := Z.quot token_idx block_size in
      let block_offset := Z.rem token_idx block_size in
      (block_idx *64 num_layers *64 2 *64 block_size +64 k_or_v *64 block_size +64 block_offset)
        *64 scalars_per_token +64 scalar_offset
  | NL_X_TWO_NB_BS_NH_HS =>
      k_or_v *32 page_buffer_size *32 scalars_per_token
        +64 token_idx *64 scalars_per_token +64 scalar_offset
  | NL_X_NB_TWO_BS_NH_HS =>
      let block_idx := i32 (Z.quot token_idx block_size) in
      let block_offset := i32 (Z.rem token_idx block_size) in
      block_idx *32 2 *32 block_size *32 scalars_per_token
        +32 k_or_v *32 block_size *32 scalars_per_token
        +32 block_offset *32 scalars_per_token +32 scalar_offset
  | NL_X_NB_BS_HS | NL_X_NBBS_ONE_HS => token_idx *64 scalars_per_token +64 scalar_offset
  | TWO_X_NL_X_NBBS_NH_HS => 0
  end.

(** K is [[num_blocks, num_heads, block_size, head_size]], V has its last two dimensions
    swapped. *)
Definition page_buffer_offset_asymmetric
    (k_or_v token_idx scalar_offset num_heads head_size block_size : Z) : Z :=
  let head_idx := Z.quot scalar_offset head_size in
  let head_offset := Z.rem scalar_offset head_size in
  let block_idx := Z.quot token_idx block_size in
  let block_offset := Z.rem token_idx block_size in
  if k_or_v =? 0 then
    block_idx *32 num_heads *32 block_size *32 head_size
      +32 head_idx *32 block_size *32 head_size +32 block_offset *32 head_size +32 head_offset
  else
    block_idx *32 num_heads *32 head_size *32 block_size
      +32 head_idx *32 head_size *32 block_size +32 head_offset *32 block_size +32 block_offset.

(** Where a scalar is in the chunk tensor [[2, layers, tokens, scalars]] *)
Definition key_value_offset
    (k_or_v layer_idx token_idx scalar_offset scalars_per_token num_tokens num_layers : Z) : Z :=
  k_or_v *32 num_layers *32 num_tokens *32 scalars_per_token
    +32 layer_idx *32 num_tokens *32 scalars_per_token
    +32 token_idx *32 scalars_per_token +32 scalar_offset.

End offsets.

(** ** Threads *)

(** A scalar copied from one address to another *)
Record copy := Copy { cp_dst : Z; cp_src : Z }.

#[global] Instance copy_eq_dec : EqDecision copy.
Proof. solve_decision. Defined.

Definition run_copy (sz : Z) (m : Z -> Z) (c : copy) : Z -> Z :=
  mem_write m (cp_dst c) (mem_slice m (cp_src c) (Z.to_nat sz)).

Definition run_copies (sz : Z) (m : Z -> Z) (cs : list copy) : Z -> Z := foldl (run_copy sz) m cs.

(** [for (int i = tid; i < n; i += num_threads)] *)
Fixpoint strided (fuel : nat) (i n num_threads : Z) : list Z :=
  match fuel with
  | O => []
  | S fuel => if i <? n then i :: strided fuel (i + num_threads) n num_threads else []
  end.

Definition thread_scalars (tid n num_threads : Z) : list Z := strided (Z.to_nat n) tid n num_threads.

(** A thread of a grid: [blockIdx.x], [.y], [.z] and [threadIdx.x] *)
Record thread := Thread { block_x : Z; block_y : Z; block_z : Z; thread_x : Z }.

(** The scalars of one row copied from the paged cache to the chunk ([to_chunk]) or back *)
Definition copy_scalars (to_chunk : bool) (sz key_value paged : Z) (lmcache_offset vllm_offset : Z -> Z)
    (scalars : list Z) : list copy :=
  (fun i =>
    let l := key_value + lmcache_offset i * sz in
    let v := paged + vllm_offset i * sz in
    if to_chunk then Copy l v else Copy v l) <$> scalars.

(** [load_and_reshape_multi_layer_kernel]; the pointer table and the slot mapping are device
    memory. *)
Definition load_and_reshape_multi_layer_kernel (direction : bool) (format : GPUKVFormat) (sz : Z)
    (key_value : Z) (paged_buffer_ptrs slot_mapping : Z -> Z)
    (scalars_per_token num_tokens num_layers page_buffer_size block_size skip_prefix_n_tokens : Z)
    (num_threads : Z) (th : thread) : list copy :=
  let layer_id := block_y th in
  let k_or_v := block_z th in
  let kv_token_id := i32 (block_x th + skip_prefix_n_tokens) in
  let slot_idx := slot_mapping kv_token_id in
  if slot_idx <? 0 then []
  else copy_scalars direction sz key_value (paged_buffer_ptrs layer_id)
    (fun i => key_value_offset k_or_v layer_id kv_token_id i scalars_per_token num_tokens num_layers)
    (fun i => page_buffer_offset format k_or_v slot_idx i scalars_per_token num_layers
                page_buffer_size block_size)
    (thread_scalars (thread_x th) scalars_per_token num_threads).

(** [load_and_reshape_multi_layer_kernel_asymmetric]: K and V have tables of their own; the
    slot is narrowed to [int]. *)
Definition load_and_reshape_multi_layer_kernel_asymmetric (direction : bool) (sz : Z)
    (key_value : Z) (key_page_buffer_ptrs value_page_buffer_ptrs slot_mapping : Z -> Z)
    (num_tokens num_layers num_heads head_size block_size skip_prefix_n_tokens : Z)
    (num_threads : Z) (th : thread) : list copy :=
  let layer_id := block_y th in
  let k_or_v := block_z th in
  let kv_token_id := i32 (block_x th + skip_prefix_n_tokens) in
  let slot_idx := slot_mapping kv_token_id in
  let n := i32 (num_heads * head_size) in
  if slot_idx <? 0 then []
  else copy_scalars direction sz key_value
    (if k_or_v =? 0 then key_page_buffer_ptrs layer_id else value_page_buffer_ptrs layer_id)
    (fun i => key_value_offset k_or_v layer_id kv_token_id i n num_tokens num_layers)
    (fun i => page_buffer_offset_asymmetric k_or_v (i32 slot_idx) i num_heads head_size block_size)
    (thread_scalars (thread_x th) n num_threads).

(** ** Launches *)

(** CUDA's limits on a grid and on a block *)
Definition launch_ok (gx gy gz num_threads : Z) : bool :=
  (1 <=? gx) && (gx <? 2 ^ 31) && (1 <=? gy) && (gy <? 2 ^ 16) && (1 <=? gz) && (gz <? 2 ^ 16)
  && (1 <=? num_threads) && (num_threads <=? 1024).

Definition grid_threads (gx gy gz num_threads : Z) : list thread :=
  z ← rangeZ 0 (Z.to_nat gz);
  y ← rangeZ 0 (Z.to_nat gy);
  x ← rangeZ 0 (Z.to_nat gx);
  Thread x y z <$> rangeZ 0 (Z.to_nat num_threads).

(** What a launched kernel will copy, in scalars of [l_size] bytes *)
Record launched_copies := Launched { l_size : Z; l_copies : list copy }.

(** [<<<grid, block>>>] and the check of the launch *)
Definition launch_kernel (sz gx gy gz num_threads : Z) (body : thread -> list copy)
    : result launched_copies :=
  raise_if (negb (launch_ok gx gy gz num_threads))
    (RuntimeError "CUDA error: invalid configuration argument");;
  mret (Launched sz (grid_threads gx gy gz num_threads ≫= body)).

Section host.
Context {Dt : Type} `{!TorchDtype Dt}.
(** Whether host memory is registered for device access, and the dtypes
    [AT_DISPATCH_FLOATING_TYPES_AND2(Half, BFloat16)] knows *)
Context (pinned : Z -> bool) (dispatched : Dt -> bool).
Implicit Types (key_value : dtensor Dt torch_device).

(** Device memory and registered host memory share one address space. *)
Definition get_kernel_ptr key_value : result Z :=
  if String.eqb (dev_type (dt_device key_value)) "cuda" then Ok (dt_ptr key_value)
  else if String.eqb (dev_type (dt_device key_value)) "cpu" then
    raise_if (negb (pinned (dt_ptr key_value)))
      (RuntimeError "Host tensor not registered/pinned (or bad ptr)");;
    mret (dt_ptr key_value)
  else Raise (RuntimeError "Invalid device. Device must be cuda or pinned cpu.").

Definition supported_format (f : GPUKVFormat) : bool :=
  match f with TWO_X_NL_X_NBBS_NH_HS => false | _ => true end.

(** [multi_layer_kv_transfer_templated<T>], with [sz = sizeof(T)]; a scalar wider than [T]
    makes the second division trap. *)
Definition multi_layer_kv_transfer_templated (sz : Z) key_value (key_value_ptrs slot_mapping : Z -> Z)
    (page_buffer_size : Z) (direction : TransferDirection) (gpu_kv_format : GPUKVFormat)
    (block_size skip_prefix_n_tokens : Z) : result launched_copies :=
  key_value_ptr ← get_kernel_ptr key_value;
  num_layers ← py_index (dt_shape key_value) 1;
  num_tokens ← py_index (dt_shape key_value) 2;
  let num_transfer_tokens := i32 (num_tokens - skip_prefix_n_tokens) in
  num_origin_elements ← py_index (dt_shape key_value) 3;
  let elements_per_xword := Z.quot sz (itemsize (dt_dtype key_value)) in
  raise_if (elements_per_xword =? 0) ZeroDivisionError;;
  let num_xwords := Z.quot num_origin_elements elements_per_xword in
  let k_or_v_size := if is_mla gpu_kv_format then 1 else 2 in
  let num_threads := Z.min num_xwords 128 in
  raise_if (negb (supported_format gpu_kv_format)) (RuntimeError "Unsupported GPUKVFormat");;
  launch_kernel sz num_transfer_tokens num_layers k_or_v_size num_threads
    (load_and_reshape_multi_layer_kernel (match direction with D2H => true | H2D => false end)
       gpu_kv_format sz key_value_ptr key_value_ptrs slot_mapping num_xwords num_tokens num_layers
       page_buffer_size block_size skip_prefix_n_tokens num_threads).

(** [multi_layer_kv_transfer]: the widest scalar that divides a row *)
Definition multi_layer_kv_transfer key_value (key_value_ptrs slot_mapping : Z -> Z)
    (page_buffer_size : Z) (direction : TransferDirection) (gpu_kv_format : GPUKVFormat)
    (block_size skip_prefix_n_tokens : Z) : result launched_copies :=
  num_origin_elements ← py_index (dt_shape key_value) 3;
  let copy_size := i32 (num_origin_elements * itemsize (dt_dtype key_value)) in
  let sz := if Z.rem copy_size 8 =? 0 then 8
            else if Z.rem copy_size 4 =? 0 then 4
            else if Z.rem copy_size 2 =? 0 then 2 else 1 in
  multi_layer_kv_transfer_templated sz key_value key_value_ptrs slot_mapping page_buffer_size
    direction gpu_kv_format block_size skip_prefix_n_tokens.

(** [multi_layer_kv_transfer_asymmetric]; [num_slots] is [slot_mapping.size(0)]. *)
Definition multi_layer_kv_transfer_asymmetric key_value (key_cache_ptrs value_cache_ptrs : Z -> Z)
    (slot_mapping : Z -> Z) (num_slots num_heads head_size block_size : Z) (direction : bool)
    (skip_prefix_n_tokens : Z) : result launched_copies :=
  raise_if (negb (dispatched (dt_dtype key_value))) (RuntimeError "not implemented for this dtype");;
  key_value_ptr ← get_kernel_ptr key_value;
  num_layers ← py_index (dt_shape key_value) 1;
  let num_tokens := num_slots in
  let num_transfer_tokens := i32 (num_tokens - skip_prefix_n_tokens) in
  let num_threads := Z.min (i32 (num_heads * head_size)) 256 in
  launch_kernel (itemsize (dt_dtype key_value)) num_transfer_tokens num_layers 2 num_threads
    (load_and_reshape_multi_layer_kernel_asymmetric direction (itemsize (dt_dtype key_value))
       key_value_ptr key_cache_ptrs value_cache_ptrs slot_mapping num_tokens num_layers num_heads
       head_size block_size skip_prefix_n_tokens num_threads).

End host.
