(* ===== verification/KvKernelFacts.v ===== *)
(** * What the kernels copy

    The offsets without overflow, the rows a launch covers, and what running its copies does
    to memory in whatever order the device takes them. *)

From S2P Require Import Prelude Tensor DirectIO World DeviceTensor KvKernels.

Open Scope string_scope.
Open Scope list_scope.
Open Scope Z_scope.

(** ** Machine integers *)

(** Equal as integers of [w] bits: wrapping each step is wrapping the result. *)
Definition eqw (w a b : Z) : Prop := a mod 2 ^ w = b mod 2 ^ w.

#[export] Instance eqw_equivalence w : Equivalence (eqw w).
Proof. unfold eqw. split; [by intros ?|by intros ? ? ->|by intros ? ? ? -> ->]. Qed.

#[export] Instance add_eqw w : Proper (eqw w ==> eqw w ==> eqw w) Z.add.
Proof.
  unfold eqw. intros a a' Ha b b' Hb. by rewrite (Zplus_mod a), Ha, Hb, <- Zplus_mod.
Qed.

#[export] Instance mul_eqw w : Proper (eqw w ==> eqw w ==> eqw w) Z.mul.
Proof.
  unfold eqw. intros a a' Ha b b' Hb. by rewrite (Zmult_mod a), Ha, Hb, <- Zmult_mod.
Qed.

#[export] Instance signed_eqw w : Proper (eqw w ==> eq) (signed w).
Proof. intros a a' Ha. unfold signed. f_equal. by apply (add_eqw w a a' Ha). Qed.

Lemma signed_eq w a : eqw w (signed w a) a.
Proof.
  unfold eqw, signed. rewrite Zminus_mod, Zmod_mod, <- Zminus_mod. f_equal. lia.
Qed.

Lemma eqw_wrap w a b : eqw w a b -> eqw w (signed w a) b.
Proof. intros H. by rewrite signed_eq. Qed.

Lemma signed_id w z : 0 < w -> - 2 ^ (w - 1) <= z < 2 ^ (w - 1) -> signed w z = z.
Proof.
  intros Hw H. unfold signed.
  assert (2 ^ w = 2 * 2 ^ (w - 1)) as E by (rewrite <- Z.pow_succ_r by lia; f_equal; lia).
  rewrite Z.mod_small; lia.
Qed.

(** A nest of wrapped operations whose exact value [c] is in range *)
Lemma signed_total w a b c :
  0 < w -> eqw w a b -> b = c -> - 2 ^ (w - 1) <= c < 2 ^ (w - 1) -> signed w a = c.
Proof. intros Hw H <- Hc. rewrite H. by apply signed_id. Qed.

Ltac unwrap := repeat first
  [ apply eqw_wrap
  | apply add_eqw
  | apply mul_eqw
  | reflexivity ].

(** Proves [i32 nest = c], leaving the bounds of [c] *)
Ltac exact_value := eapply signed_total; [done|unwrap|ring|].

Lemma i32_id z : - 2 ^ 31 <= z < 2 ^ 31 -> i32 z = z.
Proof. intros H. by apply signed_id. Qed.

(** ** Exact offsets *)

Lemma key_value_offset_exact kvs kv l t i spt nt nl :
  0 <= kv < kvs -> 0 <= l < nl -> 0 <= t < nt -> 0 <= i < spt -> kvs * nl * nt * spt <= 2 ^ 31 ->
  key_value_offset kv l t i spt nt nl = ((kv * nl + l) * nt + t) * spt + i.
Proof.
  intros Hkv Hl Ht Hi Hb. unfold key_value_offset, i32.
  pose proof (mul_add_bounds kv l nl _ Hkv Hl) as H1. pose proof (mul_add_bounds _ t nt _ H1 Ht) as H2.
  pose proof (mul_add_bounds _ i spt _ H2 Hi) as H3. exact_value.
  change (2 ^ (32 - 1)) with (2 ^ 31). lia.
Qed.

(** The row of a slot in its layer, counted from the layer's pointer *)
Definition page_row (format : GPUKVFormat) (nl nb bs kv slot : Z) : Z :=
  match format with
  | NB_NL_TWO_BS_NH_HS => (slot / bs * nl * 2 + kv) * bs + slot mod bs
  | NL_X_TWO_NB_BS_NH_HS => (kv * nb + slot / bs) * bs + slot mod bs
  | NL_X_NB_TWO_BS_NH_HS => (slot / bs * 2 + kv) * bs + slot mod bs
  | NL_X_NB_BS_HS | NL_X_NBBS_ONE_HS => slot
  | TWO_X_NL_X_NBBS_NH_HS => 0
  end.

(** The scalars of one layer and, for the single tensor, of all *)
Definition page_scalars (format : GPUKVFormat) (nl nb bs spt : Z) : Z :=
  match format with
  | NB_NL_TWO_BS_NH_HS => nb * nl * 2 * bs * spt
  | NL_X_TWO_NB_BS_NH_HS | NL_X_NB_TWO_BS_NH_HS => nb * 2 * bs * spt
  | _ => nb * bs * spt
  end.

(** How many scalars the offsets of a format can reach *)
Definition offset_range (format : GPUKVFormat) : Z :=
  match format with
  | NL_X_TWO_NB_BS_NH_HS | NL_X_NB_TWO_BS_NH_HS => 2 ^ 31
  | _ => 2 ^ 63
  end.

Lemma slot_split bs nb slot : 0 < bs -> 0 <= slot < nb * bs ->
  0 <= slot / bs < nb /\ 0 <= slot mod bs < bs /\ slot = slot / bs * bs + slot mod bs
  /\ Z.quot slot bs = slot / bs /\ Z.rem slot bs = slot mod bs.
Proof.
  intros Hbs Hs. pose proof (Z.div_mod slot bs ltac:(lia)). pose proof (Z.mod_pos_bound slot bs Hbs).
  split; [split; [apply Z.div_pos; lia|apply Z.div_lt_upper_bound; lia]|].
  split; [done|]. split; [lia|]. split; [apply Z.quot_div_nonneg; lia|apply Z.rem_mod_nonneg; lia].
Qed.

Lemma page_row_bounds format nl nb bs kv slot :
  supported_format format = true -> 0 < bs -> 0 < nl -> 0 <= slot < nb * bs ->
  0 <= kv < (if is_mla format then 1 else 2) ->
  0 <= page_row format nl nb bs kv slot < page_scalars format nl nb bs 1.
Proof.
  intros Hf Hbs Hnl Hslot Hkv. destruct (slot_split bs nb slot Hbs Hslot) as (Hb & Ho & _).
  destruct format; try done; cbn [is_mla page_row page_scalars] in *; try lia.
  - assert (0 <= slot / bs * nl * 2 + kv < nb * nl * 2) as H by nia.
    pose proof (mul_add_bounds _ _ _ _ H Ho). lia.
  - pose proof (mul_add_bounds _ _ _ _ Hkv Hb) as H. pose proof (mul_add_bounds _ _ _ _ H Ho). lia.
  - pose proof (mul_add_bounds _ _ _ _ Hb Hkv) as H. pose proof (mul_add_bounds _ _ _ _ H Ho). lia.
Qed.

Lemma page_scalars_row format nl nb bs spt :
  page_scalars format nl nb bs spt = page_scalars format nl nb bs 1 * spt.
Proof. destruct format; simpl; ring. Qed.

Lemma page_buffer_offset_exact format nl nb bs spt kv slot i :
  supported_format format = true -> 0 < bs -> 0 < nl -> 0 <= slot < nb * bs -> 0 <= i < spt ->
  0 <= kv < (if is_mla format then 1 else 2) ->
  page_scalars format nl nb bs spt <= offset_range format ->
  page_buffer_offset format kv slot i spt nl (nb * bs) bs = page_row format nl nb bs kv slot * spt + i.
Proof.
  intros Hf Hbs Hnl Hslot Hi Hkv Hr. rewrite page_scalars_row in Hr.
  pose proof (page_row_bounds format nl nb bs kv slot Hf Hbs Hnl Hslot Hkv) as Hrow.
  pose proof (mul_add_bounds _ _ _ _ Hrow Hi) as Hx.
  destruct (slot_split bs nb slot Hbs Hslot) as (Hb & Ho & Hsp & Hq & Hm).
  destruct format; try done; cbn [is_mla page_buffer_offset page_row page_scalars offset_range] in *;
    rewrite ?Hq, ?Hm; unfold i64.
  - exact_value. lia.
  - unfold i32. rewrite (signed_total 32 _ (kv * (nb * bs) * spt) (kv * (nb * bs) * spt)); [|done|unwrap|done|].
    + eapply signed_total; [done|unwrap| |lia]. rewrite Hsp at 1. ring.
    + assert (0 <= kv * (nb * bs) * spt) by nia.
      assert (kv * (nb * bs) * spt < nb * 2 * bs * 1 * spt) by nia. lia.
  - unfold i32. exact_value. lia.
  - exact_value. lia.
  - exact_value. lia.
Qed.

(** ** Running copies *)

(** Different copies write apart, and no copy writes what another reads. *)
Record race_free (sz : Z) (cs : list copy) : Prop := {
  rf_dst : forall c c', c ∈ cs -> c' ∈ cs -> c = c' \/ apart (cp_dst c) (cp_dst c') sz;
  rf_src : forall c c', c ∈ cs -> c' ∈ cs -> apart (cp_dst c) (cp_src c') sz;
}.

Lemma run_copy_inside sz m c o : 0 <= o < sz -> run_copy sz m c (cp_dst c + o) = m (cp_src c + o).
Proof.
  intros Ho. unfold run_copy. replace (cp_dst c + o) with (cp_dst c + Z.of_nat (Z.to_nat o)) by lia.
  erewrite mem_write_inside; [|apply mem_slice_lookup; lia]. f_equal. lia.
Qed.

Lemma run_copy_outside sz m c a : 0 <= sz -> ~ cp_dst c <= a < cp_dst c + sz -> run_copy sz m c a = m a.
Proof.
  intros Hsz Ha. apply mem_write_outside. unfold lenZ. rewrite length_mem_slice. lia.
Qed.

Lemma run_copies_outside sz cs m a :
  0 <= sz -> (forall c, c ∈ cs -> ~ cp_dst c <= a < cp_dst c + sz) -> run_copies sz m cs a = m a.
Proof.
  intros Hsz. unfold run_copies. revert m. induction cs as [|c cs IH]; intros m Ha; [done|]. simpl.
  rewrite IH by (intros c' Hc; apply Ha; by right). apply run_copy_outside; [done|]. apply Ha. by left.
Qed.

Lemma run_copies_inside sz cs m c o :
  race_free sz cs -> c ∈ cs -> 0 <= o < sz -> run_copies sz m cs (cp_dst c + o) = m (cp_src c + o).
Proof.
  intros [Hd Hs] Hin Ho.
  assert (forall acc l, (forall c', c' ∈ l -> c' ∈ cs) ->
    (forall c', c' ∈ cs -> forall x, 0 <= x < sz -> acc (cp_src c' + x) = m (cp_src c' + x)) ->
    (c ∈ l \/ acc (cp_dst c + o) = m (cp_src c + o)) ->
    run_copies sz acc l (cp_dst c + o) = m (cp_src c + o)) as Hgen.
  2:{ apply Hgen; [done|done|by left]. }
  intros acc l. revert acc. induction l as [|c1 l IH]; intros acc Hl Hacc Hc.
  - by destruct Hc as [?%not_elem_of_nil|].
  - simpl. apply IH.
    + intros c' Hc'. apply Hl. by right.
    + intros c' Hc' x Hx. rewrite run_copy_outside; [by apply Hacc|lia|].
      destruct (Hs c1 c' (Hl c1 ltac:(by left)) Hc'); lia.
    + destruct (decide (c ∈ l)) as [Hin'|Hn]; [by left|]. right.
      destruct Hc as [[<-|?]%elem_of_cons|Hc]; [|done|].
      * rewrite run_copy_inside by done. by apply Hacc.
      * destruct (Hd c c1 Hin (Hl c1 ltac:(by left))) as [<-|Hap].
        -- rewrite run_copy_inside by done. by apply Hacc.
        -- rewrite run_copy_outside; [done|lia|]. destruct Hap; lia.
Qed.

Lemma race_free_order sz cs cs' : race_free sz cs -> (forall c, c ∈ cs' <-> c ∈ cs) -> race_free sz cs'.
Proof. intros [Hd Hs] Hp. constructor; intros c c' Hc%Hp Hc'%Hp; auto. Qed.

(** The order of race-free copies does not matter. *)
Lemma run_copies_order sz cs cs' m a :
  0 <= sz -> race_free sz cs -> (forall c, c ∈ cs' <-> c ∈ cs) ->
  run_copies sz m cs' a = run_copies sz m cs a.
Proof.
  intros Hsz Hrf Hp. pose proof (race_free_order _ _ _ Hrf Hp) as Hrf'.
  destruct (decide (Exists (fun c => cp_dst c <= a < cp_dst c + sz) cs)) as [He|Hne].
  - apply list.Exists_exists in He as (c & Hc & Ha).
    replace a with (cp_dst c + (a - cp_dst c)) by lia.
    rewrite (run_copies_inside sz cs) by (done || lia).
    by rewrite (run_copies_inside sz cs' m c) by (try apply Hp; done || lia).
  - assert (forall c, c ∈ cs -> ~ cp_dst c <= a < cp_dst c + sz) as Hout.
    { intros c Hc Ha. apply Hne, list.Exists_exists. by exists c. }
    rewrite !run_copies_outside; try done. intros c Hc%Hp. by apply Hout.
Qed.

(** ** The copies of a launch *)

Lemma elem_of_strided fuel i n nt x :
  0 < nt -> n - i <= Z.of_nat fuel * nt ->
  x ∈ strided fuel i n nt <-> i <= x < n /\ (x - i) mod nt = 0.
Proof.
  intros Hnt. revert i. induction fuel as [|fuel IH]; intros i Hf; simpl.
  - rewrite elem_of_nil. lia.
  - destruct (Z.ltb_spec i n) as [Hin|Hni].
    2:{ rewrite elem_of_nil. lia. }
    rewrite elem_of_cons, IH by nia. split.
    + intros [->|[Hx Hm]]; [rewrite Z.sub_diag, Z.mod_0_l; lia|]. split; [lia|].
      replace (x - i) with (x - (i + nt) + 1 * nt) by lia. by rewrite Z.mod_add by lia.
    + intros [Hx Hm]. destruct (decide (x = i)) as [->|Hne]; [by left|]. right.
      assert (nt <= x - i). { apply Z.mod_divide in Hm as [k Hk]; [|lia]. assert (0 < k) by nia. nia. }
      split; [lia|]. replace (x - (i + nt)) with (x - i + (-1) * nt) by lia. by rewrite Z.mod_add by lia.
Qed.

(** The threads of a block cover the scalars of a row. *)
Lemma threads_cover n nt i :
  0 < nt -> (exists tid, 0 <= tid < nt /\ i ∈ thread_scalars tid n nt) <-> 0 <= i < n.
Proof.
  intros Hnt. unfold thread_scalars. split.
  - intros (tid & Ht & Hi). apply elem_of_strided in Hi; [lia|done|]. destruct (Z_le_dec n 0); nia.
  - intros Hi. exists (i mod nt). pose proof (Z.mod_pos_bound i nt Hnt). split; [done|].
    apply elem_of_strided; [done|nia|]. pose proof (Z.div_mod i nt ltac:(lia)).
    assert (0 <= i / nt) by (apply Z.div_pos; lia). split; [nia|].
    replace (i - i mod nt) with (0 + i / nt * nt) by lia. by rewrite Z.mod_add, Z.mod_0_l by lia.
Qed.

Lemma elem_of_range_bind {A} (f : Z -> list A) n x :
  x ∈ rangeZ 0 (Z.to_nat n) ≫= f <-> exists y, 0 <= y < n /\ x ∈ f y.
Proof.
  assert (forall y, y ∈ rangeZ 0 (Z.to_nat n) <-> 0 <= y < n) as Hr.
  { intros y. unfold rangeZ. rewrite elem_of_seqZ. lia. }
  rewrite list_elem_of_bind. split.
  - intros (y & Hx & Hy%Hr). by exists y.
  - intros (y & Hy%Hr & Hx). by exists y.
Qed.

Lemma elem_of_grid gx gy gz nt x y z t :
  Thread x y z t ∈ grid_threads gx gy gz nt
  <-> 0 <= x < gx /\ 0 <= y < gy /\ 0 <= z < gz /\ 0 <= t < nt.
Proof.
  unfold grid_threads. rewrite elem_of_range_bind. split.
  - intros (z' & Hz & (y' & Hy & (x' & Hx & Hin)%elem_of_range_bind)%elem_of_range_bind).
    apply list_elem_of_fmap in Hin as (t' & [= -> -> -> ->] & Ht).
    unfold rangeZ in Ht. apply elem_of_seqZ in Ht. split_and!; lia.
  - intros (Hx & Hy & Hz & Ht). exists z. split; [done|]. apply elem_of_range_bind. exists y.
    split; [done|]. apply elem_of_range_bind. exists x. split; [done|]. apply list_elem_of_fmap_2.
    unfold rangeZ. apply elem_of_seqZ. lia.
Qed.

(** The copies of all threads are those of one row per token, layer, and K or V. *)
Lemma elem_of_launch gx gy gz nt n body (row : Z -> Z -> Z -> option (Z -> copy)) c :
  0 < nt ->
  (forall x y z t, 0 <= x < gx -> 0 <= y < gy -> 0 <= z < gz -> 0 <= t < nt ->
     body (Thread x y z t) = match row x y z with
                             | None => []
                             | Some f => f <$> thread_scalars t n nt
                             end) ->
  c ∈ grid_threads gx gy gz nt ≫= body
  <-> exists x y z f i, 0 <= x < gx /\ 0 <= y < gy /\ 0 <= z < gz /\ row x y z = Some f
        /\ 0 <= i < n /\ c = f i.
Proof.
  intros Hnt Hbody. rewrite list_elem_of_bind. split.
  - intros ([x y z t] & Hc & Hg). apply elem_of_grid in Hg as (Hx & Hy & Hz & Ht).
    rewrite Hbody in Hc by done. destruct (row x y z) as [f|] eqn:E; [|by apply not_elem_of_nil in Hc].
    apply list_elem_of_fmap in Hc as (i & -> & Hi). exists x, y, z, f, i.
    assert (0 <= i < n) by (apply (threads_cover n nt i Hnt); eauto). do 5 (split; [done|]). done.
  - intros (x & y & z & f & i & Hx & Hy & Hz & Hrow & Hi & ->).
    apply (threads_cover n nt i Hnt) in Hi as (t & Ht & Hi). exists (Thread x y z t).
    rewrite Hbody, Hrow by done. split; [by apply list_elem_of_fmap_2|]. by apply elem_of_grid.
Qed.

(** ** A transfer between a chunk and the paged cache *)

(** A cell: K or V, layer, token or slot, and scalar *)
Record cell := Cell { c_kv : Z; c_layer : Z; c_token : Z; c_scalar : Z }.

#[export] Instance cell_eq_dec : EqDecision cell.
Proof. solve_decision. Defined.

Section transfer.
Context (sz : Z) (Hsz : 0 < sz) (kvs nl nt spt skip : Z).
(** Where cells are in the chunk, by token, and in the paged cache, by slot *)
Context (chunk paged : cell -> Z) (slot : Z -> Z) (to_chunk : bool).

Definition in_chunk (c : cell) : Prop :=
  0 <= c_kv c < kvs /\ 0 <= c_layer c < nl /\ 0 <= c_token c < nt /\ 0 <= c_scalar c < spt.

(** The cells a transfer moves: not of a skipped token, nor of one without a slot *)
Definition moved (c : cell) : Prop :=
  in_chunk c /\ skip <= c_token c /\ 0 <= slot (c_token c).

Definition slot_cell (c : cell) : cell := Cell (c_kv c) (c_layer c) (slot (c_token c)) (c_scalar c).

Definition cell_copy (c : cell) : copy :=
  if to_chunk then Copy (chunk c) (paged (slot_cell c)) else Copy (paged (slot_cell c)) (chunk c).

(** The copies of the moved cells, in some order *)
Definition transfers (cs : list copy) : Prop :=
  forall c, c ∈ cs <-> exists x, moved x /\ c = cell_copy x.

(** Cells do not overlap, the two sides neither, and no slot serves two tokens. *)
Record cells_apart : Prop := {
  ca_chunk : forall x y, moved x -> moved y -> x = y \/ apart (chunk x) (chunk y) sz;
  ca_paged : forall x y, moved x -> moved y ->
    slot_cell x = slot_cell y \/ apart (paged (slot_cell x)) (paged (slot_cell y)) sz;
  ca_sides : forall x y, moved x -> moved y -> apart (chunk x) (paged (slot_cell y)) sz;
  ca_slots : forall x y, moved x -> moved y -> slot (c_token x) = slot (c_token y) -> c_token x = c_token y;
}.

Context (Hap : cells_apart).

Lemma slot_cell_inj x y : moved x -> moved y -> slot_cell x = slot_cell y -> x = y.
Proof.
  intros Hx Hy [= H1 H2 H3 H4]. apply (ca_slots Hap) in H3; [|done..].
  destruct x, y. simpl in *. congruence.
Qed.

Lemma transfers_race_free cs : transfers cs -> race_free sz cs.
Proof.
  intros Htr. constructor; intros c c' (x & Hx & ->)%Htr (y & Hy & ->)%Htr; unfold cell_copy;
    destruct to_chunk; simpl.
  - destruct (ca_chunk Hap x y Hx Hy) as [->|]; [by left|by right].
  - destruct (ca_paged Hap x y Hx Hy) as [E|]; [|by right].
    left. by rewrite (slot_cell_inj x y Hx Hy E).
  - by apply ca_sides.
  - destruct (ca_sides Hap y x Hy Hx); [by right|by left].
Qed.

Lemma run_transfer cs m x o :
  transfers cs -> moved x -> 0 <= o < sz ->
  run_copies sz m cs ((if to_chunk then chunk x else paged (slot_cell x)) + o)
  = m ((if to_chunk then paged (slot_cell x) else chunk x) + o).
Proof.
  intros Htr Hx Ho.
  pose proof (run_copies_inside sz cs m (cell_copy x) o (transfers_race_free cs Htr)) as H.
  specialize (H (proj2 (Htr _) (ex_intro _ x (conj Hx eq_refl))) Ho). unfold cell_copy in H. by destruct to_chunk.
Qed.

Lemma run_transfer_frame cs m a :
  transfers cs ->
  (forall x, moved x -> let p := if to_chunk then chunk x else paged (slot_cell x) in ~ p <= a < p + sz) ->
  run_copies sz m cs a = m a.
Proof.
  intros Htr Ha. apply run_copies_outside; [lia|]. intros c (x & Hx & ->)%Htr.
  specialize (Ha x Hx). unfold cell_copy. by destruct to_chunk.
Qed.

End transfer.

(** ** The transfers of the two launches *)

(** The cells of a contiguous chunk tensor [[kvs, layers, tokens, scalars]] at [p] *)
Definition chunk_cell (sz p nl nt spt : Z) (c : cell) : Z :=
  p + (((c_kv c * nl + c_layer c) * nt + c_token c) * spt + c_scalar c) * sz.

(** The cells of a paged cache whose layers are at [ptrs] *)
Definition paged_cell (format : GPUKVFormat) (sz : Z) (ptrs : Z -> Z) (nl nb bs spt : Z) (c : cell) : Z :=
  ptrs (c_layer c) + (page_row format nl nb bs (c_kv c) (c_token c) * spt + c_scalar c) * sz.

Definition asymmetric_offset (nh hs bs kv slot i : Z) : Z :=
  if kv =? 0 then ((slot / bs * nh + i / hs) * bs + slot mod bs) * hs + i mod hs
  else ((slot / bs * nh + i / hs) * hs + i mod hs) * bs + slot mod bs.

Definition asymmetric_cell (sz : Z) (kptrs vptrs : Z -> Z) (nh hs bs : Z) (c : cell) : Z :=
  (if c_kv c =? 0 then kptrs (c_layer c) else vptrs (c_layer c))
  + asymmetric_offset nh hs bs (c_kv c) (c_token c) (c_scalar c) * sz.

Lemma page_buffer_offset_asymmetric_exact nh hs bs nb kv slot i :
  0 < hs -> 0 < bs -> 0 <= slot < nb * bs -> 0 <= i < nh * hs -> nb * nh * bs * hs <= 2 ^ 31 ->
  page_buffer_offset_asymmetric kv slot i nh hs bs = asymmetric_offset nh hs bs kv slot i.
Proof.
  intros Hhs Hbs Hslot Hi Hr.
  destruct (slot_split bs nb slot Hbs Hslot) as (Hb & Ho & _ & Hq & Hm).
  destruct (slot_split hs nh i Hhs Hi) as (Hh & Hd & _ & Hq' & Hm').
  unfold page_buffer_offset_asymmetric, asymmetric_offset, i32. rewrite Hq, Hm, Hq', Hm'.
  pose proof (mul_add_bounds _ _ _ _ Hb Hh) as H1.
  destruct (kv =? 0); exact_value.
  - pose proof (mul_add_bounds _ _ _ _ H1 Ho) as H2. pose proof (mul_add_bounds _ _ _ _ H2 Hd). lia.
  - pose proof (mul_add_bounds _ _ _ _ H1 Hd) as H2. pose proof (mul_add_bounds _ _ _ _ H2 Ho). lia.
Qed.

Section launches.
Context {Dt : Type} `{!TorchDtype Dt, !TorchDtypeLaws Dt} (pinned : Z -> bool) (dispatched : Dt -> bool).
Implicit Types (kv : dtensor Dt torch_device).

(** The scalar the host picks divides a row, and an element divides it. *)
Lemma widest_scalar hidden isz :
  (isz | 8) -> 0 < isz -> 0 < hidden ->
  let copy_size := hidden * isz in
  let sz := if Z.rem copy_size 8 =? 0 then 8
            else if Z.rem copy_size 4 =? 0 then 4
            else if Z.rem copy_size 2 =? 0 then 2 else 1 in
  0 < sz /\ Z.quot sz isz <> 0 /\ 0 < Z.quot hidden (Z.quot sz isz)
  /\ Z.quot hidden (Z.quot sz isz) * sz = copy_size.
Proof.
  intros Hd Hi Hh copy_size sz.
  assert (exists e q, 0 < e /\ sz = e * isz /\ hidden = e * q /\ 0 < q) as (e & q & He & Hsz & Hhq & Hq).
  { assert (isz = 1 \/ isz = 2 \/ isz = 4 \/ isz = 8) as Hcases.
    { destruct Hd as [k Hk]. assert (0 < k) by nia. assert (k <= 8) by nia.
      assert (k = 1 \/ k = 2 \/ k = 3 \/ k = 4 \/ k = 5 \/ k = 6 \/ k = 7 \/ k = 8) by lia. lia. }
    assert (forall w, Z.rem copy_size w = 0 -> w <> 0 -> exists q, copy_size = w * q) as Hrem.
    { intros w H Hw. exists (Z.quot copy_size w). rewrite (Z.quot_rem' copy_size w) at 1. lia. }
    unfold sz. destruct (Z.eqb_spec (Z.rem copy_size 8) 0) as [H8|H8].
    { destruct (Hrem 8 H8 ltac:(lia)) as [q Hq]. unfold copy_size in Hq.
      exists (8 / isz), q. destruct Hcases as [-> | [-> | [-> | ->]]];
        [change (8 / 1) with 8|change (8 / 2) with 4|change (8 / 4) with 2|change (8 / 8) with 1]; lia. }
    destruct (Z.eqb_spec (Z.rem copy_size 4) 0) as [H4|H4].
    { destruct (Hrem 4 H4 ltac:(lia)) as [q Hq]. unfold copy_size in *.
      exists (4 / isz), q. destruct Hcases as [-> | [-> | [-> | ->]]];
        [change (4 / 1) with 4|change (4 / 2) with 2|change (4 / 4) with 1|]; try lia.
      exfalso. apply H8. by rewrite Z.rem_mul. }
    destruct (Z.eqb_spec (Z.rem copy_size 2) 0) as [H2|H2].
    { destruct (Hrem 2 H2 ltac:(lia)) as [q Hq]. unfold copy_size in *.
      exists (2 / isz), q. destruct Hcases as [-> | [-> | [-> | ->]]];
        [change (2 / 1) with 2|change (2 / 2) with 1| |]; try lia; exfalso;
        [apply H4|apply H8]; by rewrite Z.rem_mul. }
    exists 1, hidden. unfold copy_size in *. destruct Hcases as [-> | [-> | [-> | ->]]]; try lia; exfalso;
      [apply H2|apply H4|apply H8]; by rewrite Z.rem_mul. }
  assert (Z.quot sz isz = e) as -> by (rewrite Hsz; apply Z.quot_mul; lia).
  assert (Z.quot hidden e = q) as -> by (rewrite Hhq, Z.mul_comm; apply Z.quot_mul; lia).
  split; [lia|]. split; [lia|]. split; [done|]. unfold copy_size. rewrite Hsz, Hhq. ring.
Qed.

Lemma launch_kernel_ok sz gx gy gz nt body :
  1 <= gx < 2 ^ 31 -> 1 <= gy < 2 ^ 16 -> 1 <= gz < 2 ^ 16 -> 1 <= nt <= 1024 ->
  launch_kernel sz gx gy gz nt body = Ok (Launched sz (grid_threads gx gy gz nt ≫= body)).
Proof.
  intros H1 H2 H3 H4. unfold launch_kernel.
  assert (launch_ok gx gy gz nt = true) as ->; [|done].
  unfold launch_ok. rewrite !andb_true_iff, !Z.leb_le, !Z.ltb_lt. lia.
Qed.

(** The copies of a grid whose block [x] is the token [x + skip] *)
Lemma transfers_grid kvs nl nt skip spt chunk paged slot d threads body :
  0 <= skip -> 0 < threads ->
  (forall x y z t, 0 <= x < nt - skip -> 0 <= y < nl -> 0 <= z < kvs -> 0 <= t < threads ->
     body (Thread x y z t) =
     if slot (x + skip) <? 0 then []
     else (fun i => cell_copy chunk paged slot d (Cell z y (x + skip) i)) <$> thread_scalars t spt threads) ->
  transfers kvs nl nt spt skip chunk paged slot d (grid_threads (nt - skip) nl kvs threads ≫= body).
Proof.
  intros Hskip Hth Hbody c.
  rewrite (elem_of_launch _ _ _ _ spt _ (fun x y z => if slot (x + skip) <? 0 then None
    else Some (fun i => cell_copy chunk paged slot d (Cell z y (x + skip) i)))); [|done|].
  2:{ intros x y z t Hx Hy Hz Ht. rewrite Hbody by done. by destruct (slot (x + skip) <? 0). }
  split.
  - intros (x & y & z & f & i & Hx & Hy & Hz & Hf & Hi & ->).
    destruct (Z.ltb_spec (slot (x + skip)) 0); [done|]. injection Hf as <-.
    exists (Cell z y (x + skip) i). split; [|done]. unfold moved, in_chunk. simpl. lia.
  - intros ([kv l t i] & ((Hk & Hl & Ht & Hi) & Hs & Hslot) & ->). simpl in *.
    exists (t - skip), l, kv. eexists _, i. rewrite Z.sub_add.
    replace (slot t <? 0) with false by lia. split; [lia|]. split; [done|]. split; [done|].
    split; [reflexivity|]. by split.
Qed.

(** What a call of [multi_layer_kv_transfer] launches, when nothing overflows *)
Lemma multi_layer_transfers kv fmt K nl nt hidden nb bs skip ptrs slot d :
  let kvs := if is_mla fmt then 1 else 2 in
  let isz := itemsize (dt_dtype kv) in
  dt_shape kv = [K; nl; nt; hidden] -> get_kernel_ptr pinned kv = Ok (dt_ptr kv) ->
  supported_format fmt = true -> (isz | 8) -> 0 < hidden -> hidden * isz < 2 ^ 31 ->
  0 < bs -> 0 < nl < 2 ^ 16 -> 0 <= skip < nt -> nt < 2 ^ 31 ->
  kvs * nl * nt * (hidden * isz) <= 2 ^ 31 ->
  page_scalars fmt nl nb bs (hidden * isz) <= offset_range fmt ->
  (forall t, skip <= t < nt -> slot t < nb * bs) ->
  exists sz spt cs, 0 < sz /\ spt * sz = hidden * isz
    /\ multi_layer_kv_transfer pinned kv ptrs slot (nb * bs) d fmt bs skip = Ok (Launched sz cs)
    /\ transfers kvs nl nt spt skip (chunk_cell sz (dt_ptr kv) nl nt spt)
         (paged_cell fmt sz ptrs nl nb bs spt) slot
         (match d with D2H => true | H2D => false end) cs.
Proof.
  intros kvs isz Hsh Hptr Hf Hdiv Hh Hrow Hbs Hnl Hskip Hnt Hsize Hpage Hslots.
  pose proof (itemsize_pos (dt_dtype kv)) as Hisz. fold isz in Hisz.
  pose proof (widest_scalar hidden isz Hdiv Hisz Hh) as Hw. cbv zeta in Hw.
  unfold multi_layer_kv_transfer. rewrite Hsh. cbn [py_index mbind result_bind].
  change (py_index [K; nl; nt; hidden] 3) with (Ok hidden). cbn [mbind result_bind]. fold isz.
  rewrite (i32_id (hidden * isz)) by lia.
  set (sz := if Z.rem (hidden * isz) 8 =? 0 then 8 else _) in *.
  destruct Hw as (Hsz & Hq & Hspt & Hprod). set (spt := Z.quot hidden (Z.quot sz isz)) in *.
  unfold multi_layer_kv_transfer_templated. rewrite Hptr, Hsh. cbn [mbind result_bind].
  change (py_index [K; nl; nt; hidden] 1) with (Ok nl).
  change (py_index [K; nl; nt; hidden] 2) with (Ok nt).
  change (py_index [K; nl; nt; hidden] 3) with (Ok hidden). cbn [mbind result_bind].
  fold isz. rewrite (proj2 (Z.eqb_neq _ _) Hq), Hf. res_simpl. fold spt.
  rewrite (i32_id (nt - skip)) by lia. set (th := Z.min spt 128).
  assert (spt <= hidden * isz) as Hle by nia.
  rewrite launch_kernel_ok; [|lia|lia|unfold kvs; destruct (is_mla fmt); lia|unfold th; lia].
  exists sz, spt. eexists. split; [done|]. split; [done|]. split; [reflexivity|].
  apply transfers_grid; [lia|unfold th; lia|]. intros x y z t Hx Hy Hz Ht.
  unfold load_and_reshape_multi_layer_kernel. cbn [block_x block_y block_z thread_x].
  rewrite (i32_id (x + skip)) by lia.
  destruct (Z.ltb_spec (slot (x + skip)) 0) as [|Hs0]; [done|].
  unfold copy_scalars. apply list_fmap_ext. intros j i Hj%list_elem_of_lookup_2.
  assert (0 <= i < spt) as Hi by (apply (threads_cover spt th i ltac:(unfold th; lia)); by exists t).
  assert (0 <= slot (x + skip) < nb * bs) as Hsl by (split; [done|apply Hslots; lia]).
  rewrite (key_value_offset_exact kvs) by (lia || nia).
  rewrite page_buffer_offset_exact; try done; try lia.
  pose proof (page_row_bounds fmt nl nb bs z _ Hf Hbs (proj1 Hnl) Hsl Hz).
  rewrite page_scalars_row in Hpage |- *. nia.
Qed.

(** Likewise of [multi_layer_kv_transfer_asymmetric] *)
Lemma asymmetric_transfers kv K nl nt nh hs nb bs skip kptrs vptrs slot d :
  let isz := itemsize (dt_dtype kv) in
  dt_shape kv = [K; nl; nt; nh * hs] -> get_kernel_ptr pinned kv = Ok (dt_ptr kv) ->
  dispatched (dt_dtype kv) = true -> 0 < nh -> 0 < hs -> nh * hs < 2 ^ 31 ->
  0 < bs -> 0 < nl < 2 ^ 16 -> 0 <= skip < nt -> nt < 2 ^ 31 ->
  2 * nl * nt * (nh * hs) <= 2 ^ 31 -> nb * nh * bs * hs <= 2 ^ 31 -> nb * bs <= 2 ^ 31 ->
  (forall t, skip <= t < nt -> slot t < nb * bs) ->
  exists cs,
    multi_layer_kv_transfer_asymmetric pinned dispatched kv kptrs vptrs slot nt nh hs bs d skip
      = Ok (Launched isz cs)
    /\ transfers 2 nl nt (nh * hs) skip (chunk_cell isz (dt_ptr kv) nl nt (nh * hs))
         (asymmetric_cell isz kptrs vptrs nh hs bs) slot d cs.
Proof.
  intros isz Hsh Hptr Hdp Hnh Hhs Hrow Hbs Hnl Hskip Hnt Hsize Hpage Hnb Hslots.
  unfold multi_layer_kv_transfer_asymmetric. rewrite Hdp, Hptr, Hsh. res_simpl.
  change (py_index [K; nl; nt; nh * hs] 1) with (Ok nl). cbn [mbind result_bind].
  assert (0 < nh * hs) by nia.
  rewrite (i32_id (nt - skip)), (i32_id (nh * hs)) by lia. set (th := Z.min (nh * hs) 256).
  rewrite launch_kernel_ok; [|lia|lia|lia|unfold th; lia]. fold isz.
  eexists. split; [reflexivity|].
  apply transfers_grid; [lia|unfold th; lia|]. intros x y z t Hx Hy Hz Ht.
  unfold load_and_reshape_multi_layer_kernel_asymmetric. cbn [block_x block_y block_z thread_x].
  rewrite (i32_id (x + skip)), (i32_id (nh * hs)) by lia.
  destruct (Z.ltb_spec (slot (x + skip)) 0) as [|Hs0]; [done|].
  unfold copy_scalars. apply list_fmap_ext. intros j i Hj%list_elem_of_lookup_2.
  assert (0 <= i < nh * hs) as Hi
    by (apply (threads_cover (nh * hs) th i ltac:(unfold th; lia)); by exists t).
  assert (0 <= slot (x + skip) < nb * bs) as Hsl by (split; [done|apply Hslots; lia]).
  rewrite (key_value_offset_exact 2), (i32_id (slot _)) by lia.
  rewrite (page_buffer_offset_asymmetric_exact nh hs bs nb) by done.
  unfold cell_copy, chunk_cell, asymmetric_cell, slot_cell. cbn [c_kv c_layer c_token c_scalar].
  by destruct d, (z =? 0).
Qed.

(** A transfer of no token is a grid without blocks, which cannot be launched. *)
Lemma launch_kernel_empty sz gy gz nt body :
  launch_kernel sz (i32 0) gy gz nt body = Raise (RuntimeError "CUDA error: invalid configuration argument").
Proof. done. Qed.

Lemma multi_layer_empty kv fmt K nl nt hidden bs pbs ptrs slot d :
  dt_shape kv = [K; nl; nt; hidden] -> get_kernel_ptr pinned kv = Ok (dt_ptr kv) ->
  supported_format fmt = true -> (itemsize (dt_dtype kv) | 8) -> 0 < hidden ->
  hidden * itemsize (dt_dtype kv) < 2 ^ 31 ->
  multi_layer_kv_transfer pinned kv ptrs slot pbs d fmt bs nt
  = Raise (RuntimeError "CUDA error: invalid configuration argument").
Proof.
  intros Hsh Hptr Hf Hdiv Hh Hrow. pose proof (itemsize_pos (dt_dtype kv)) as Hisz.
  pose proof (widest_scalar hidden _ Hdiv Hisz Hh) as Hw. cbv zeta in Hw.
  unfold multi_layer_kv_transfer. rewrite Hsh.
  change (py_index [K; nl; nt; hidden] 3) with (Ok hidden). cbn [mbind result_bind].
  rewrite (i32_id (hidden * _)) by nia. set (sz := if Z.rem _ 8 =? 0 then 8 else _) in *.
  destruct Hw as (_ & Hq & _). unfold multi_layer_kv_transfer_templated. rewrite Hptr, Hsh. cbn [mbind result_bind].
  change (py_index [K; nl; nt; hidden] 1) with (Ok nl). change (py_index [K; nl; nt; hidden] 2) with (Ok nt).
  change (py_index [K; nl; nt; hidden] 3) with (Ok hidden). cbn [mbind result_bind].
  rewrite (proj2 (Z.eqb_neq _ _) Hq), Hf, Z.sub_diag. res_simpl. apply launch_kernel_empty.
Qed.

Lemma asymmetric_empty kv K nl n0 hidden kptrs vptrs slot nt nh hs bs d :
  dt_shape kv = [K; nl; n0; hidden] -> get_kernel_ptr pinned kv = Ok (dt_ptr kv) ->
  dispatched (dt_dtype kv) = true ->
  multi_layer_kv_transfer_asymmetric pinned dispatched kv kptrs vptrs slot nt nh hs bs d nt
  = Raise (RuntimeError "CUDA error: invalid configuration argument").
Proof.
  intros Hsh Hptr Hd. unfold multi_layer_kv_transfer_asymmetric. rewrite Hd, Hptr, Hsh. res_simpl.
  change (py_index [K; nl; n0; hidden] 1) with (Ok nl). cbn [mbind result_bind].
  rewrite Z.sub_diag. apply launch_kernel_empty.
Qed.

End launches.
