(* ===== verification/GpuConnector.v ===== *)
(** * The GPU connector

    [v1/gpu_connector/gpu_connectors.py]: [VLLMPagedMemGPUConnectorV2], which moves chunks
    between vLLM's paged KV cache and memory objects; and the format discovery of
    [v1/gpu_connector/utils.py] it relies on. Kernels and copies are queued on CUDA streams:
    they run when the connector synchronizes, each in an order the device chooses. *)

From S2P Require Import Prelude Tensor DirectIO World DeviceTensor KvKernels.

Open Scope string_scope.
Open Scope list_scope.
Open Scope Z_scope.

Inductive EngineType := VLLM | SGLANG.

Inductive MemoryFormat := KV_2LTD | KV_MLA_FMT | OtherFormat (name : string).

#[global] Instance MemoryFormat_eq_dec : EqDecision MemoryFormat.
Proof. solve_decision. Defined.

(** The KV caches an engine registers: one tensor for all layers, a list with a tensor or a
    pair of tensors per layer, or SGLang's two lists *)
Inductive kv_caches {Dt : Type} :=
  | CacheTensor (t : kv_tensor Dt)
  | CacheLayers (l : list (kv_tensor Dt))
  | CachePairs (l : list (kv_tensor Dt * kv_tensor Dt))
  | CacheLists (l : list (list (kv_tensor Dt))).
Arguments kv_caches : clear implicits.

(** ** Format discovery *)

Section formats.
Context {Dt : Type} `{!TorchDtype Dt}.
Implicit Types (kv : kv_caches Dt) (t : kv_tensor Dt).

Definition ndim t : Z := lenZ (kt_shape t).

(** [_list_depth_tensor_dim], with the tensor found *)
Definition list_depth_tensor_dim kv : result (Z * kv_tensor Dt) :=
  let empty := Raise (ValueError "encountered an empty list") in
  match kv with
  | CacheTensor t => Ok (0, t)
  | CacheLayers [] | CachePairs [] | CacheLists [] | CacheLists ([] :: _) => empty
  | CacheLayers (t :: _) => Ok (1, t)
  | CachePairs (_ :: _) => Raise (ValueError "encountered a non-tensor inside")
  | CacheLists ((t :: _) :: _) => Ok (2, t)
  end.

Definition discover_gpu_kv_format kv (serving_engine : EngineType) : result GPUKVFormat :=
  '(list_depth, t) ← list_depth_tensor_dim kv;
  detected ←
    match serving_engine with
    | VLLM =>
        if list_depth =? 0 then
          raise_if (negb (ndim t =? 6))
            (ValueError "A bare vLLM KV-cache tensor must be a 6D cross-layer tensor");;
          two ← py_index (kt_shape t) 2;
          raise_if (negb (two =? 2)) (ValueError "Only the NHD cross-layer layout is supported");;
          mret (Some NB_NL_TWO_BS_NH_HS)
        else if list_depth =? 1 then
          if ndim t =? 5 then
            s0 ← py_index (kt_shape t) 0;
            if s0 =? 2 then mret (Some NL_X_TWO_NB_BS_NH_HS)
            else
              s1 ← py_index (kt_shape t) 1;
              mret (if s1 =? 2 then Some NL_X_NB_TWO_BS_NH_HS else None)
          else mret (if ndim t =? 3 then Some NL_X_NB_BS_HS else None)
        else mret None
    | SGLANG =>
        if list_depth =? 1 then
          s1 ← py_index (kt_shape t) 1;
          mret (if s1 =? 1 then Some NL_X_NBBS_ONE_HS else None)
        else mret (if list_depth =? 2 then Some TWO_X_NL_X_NBBS_NH_HS else None)
    end;
  result_of_option (ValueError "currently unsupported kv_caches format") detected.

Definition not_exist {A} : result A :=
  Raise (ValueError "trying to access an attribute of the GPU KV Cache ").

(** [kv_caches[0].shape[i]] *)
Definition layer_dim kv (i : Z) : result Z :=
  match kv with
  | CacheLayers l => t ← py_index l 0; py_index (kt_shape t) i
  | CacheTensor t => s ← py_index (kt_shape t) 0;
                     raise_if (s =? 0) IndexError;; py_index (drop 1 (kt_shape t)) i
  | CachePairs l => _ ← py_index l 0; Raise AttributeError
  | CacheLists l => _ ← py_index l 0; Raise AttributeError
  end.

(** [kv_caches.shape[i]] *)
Definition tensor_dim kv (i : Z) : result Z :=
  match kv with CacheTensor t => py_index (kt_shape t) i | _ => Raise AttributeError end.

Definition get_num_blocks kv (f : GPUKVFormat) : result Z :=
  match f with
  | NB_NL_TWO_BS_NH_HS => tensor_dim kv 0
  | NL_X_TWO_NB_BS_NH_HS => layer_dim kv 1
  | NL_X_NB_TWO_BS_NH_HS | NL_X_NB_BS_HS => layer_dim kv 0
  | TWO_X_NL_X_NBBS_NH_HS | NL_X_NBBS_ONE_HS => not_exist
  end.

Definition get_block_size kv (f : GPUKVFormat) : result Z :=
  match f with
  | NB_NL_TWO_BS_NH_HS => tensor_dim kv 3
  | NL_X_TWO_NB_BS_NH_HS | NL_X_NB_TWO_BS_NH_HS => layer_dim kv 2
  | NL_X_NB_BS_HS => layer_dim kv 1
  | TWO_X_NL_X_NBBS_NH_HS | NL_X_NBBS_ONE_HS => not_exist
  end.

End formats.

(** ** State *)

Inductive stream := DefaultStream | StoreStream | LoadStream.

#[global] Instance stream_eq_dec : EqDecision stream.
Proof. solve_decision. Defined.

Section connector.
Context {Dt : Type} `{!TorchDtype Dt}.
#[local] Abbreviation tensor := (dtensor Dt torch_device).
#[local] Abbreviation caches := (kv_caches Dt).

(** Work queued on a stream *)
Inductive gpu_op :=
  | Kernel (launch : launched_copies)
  | TensorCopy (dst src : tensor).

(** What is queued on each stream *)
Record queues := Queues {
  on_default : list gpu_op;
  on_store : list gpu_op;
  on_load : list gpu_op;
}.

Definition pending (q : queues) (st : stream) : list gpu_op :=
  match st with DefaultStream => on_default q | StoreStream => on_store q | LoadStream => on_load q end.

Definition set_pending (st : stream) (ops : list gpu_op) (q : queues) : queues :=
  match st with
  | DefaultStream => Queues ops (on_store q) (on_load q)
  | StoreStream => Queues (on_default q) ops (on_load q)
  | LoadStream => Queues (on_default q) (on_store q) ops
  end.

(** A memory object: its identity and its tensor; its [metadata.fmt] is in the state. *)
Record memory_obj := MemObj { mo_id : Z; mo_tensor : option tensor }.

(** What [__init__] fixes *)
Record gpu_config := GpuConfig {
  hidden_dim_size : Z;
  num_layers : Z;
  use_mla : bool;
  hcu_use_custom_flash_attn : bool;
  gpu_buffer : option tensor;
}.

(** Device memory, the queues, and the attributes of the connector. A pointer table on a
    device is its contents; the CPU staging copies are overwritten before every use. *)
Record gpu_state := GpuState {
  g_mem : Z -> Z;
  g_pending : queues;
  g_stream : stream;
  g_fmt : Z -> MemoryFormat;
  g_kvcaches : option caches;
  g_format : option GPUKVFormat;
  g_device : option torch_device;
  g_num_blocks : Z;
  g_block_size : Z;
  g_page_buffer_size : Z;
  g_pointers : gmap Z (list Z);
  g_signatures : gmap Z (list Z);
  g_key_pointers : gmap Z (list Z);
  g_value_pointers : gmap Z (list Z);
}.

Implicit Types (s : gpu_state).

Definition with_mem m s := GpuState m (g_pending s) (g_stream s) (g_fmt s) (g_kvcaches s)
  (g_format s) (g_device s) (g_num_blocks s) (g_block_size s) (g_page_buffer_size s)
  (g_pointers s) (g_signatures s) (g_key_pointers s) (g_value_pointers s).

Definition with_queues p cur s := GpuState (g_mem s) p cur (g_fmt s) (g_kvcaches s)
  (g_format s) (g_device s) (g_num_blocks s) (g_block_size s) (g_page_buffer_size s)
  (g_pointers s) (g_signatures s) (g_key_pointers s) (g_value_pointers s).

Definition with_fmt f s := GpuState (g_mem s) (g_pending s) (g_stream s) f (g_kvcaches s)
  (g_format s) (g_device s) (g_num_blocks s) (g_block_size s) (g_page_buffer_size s)
  (g_pointers s) (g_signatures s) (g_key_pointers s) (g_value_pointers s).

Definition with_kvcaches kv s := GpuState (g_mem s) (g_pending s) (g_stream s) (g_fmt s) kv
  (g_format s) (g_device s) (g_num_blocks s) (g_block_size s) (g_page_buffer_size s)
  (g_pointers s) (g_signatures s) (g_key_pointers s) (g_value_pointers s).

Definition with_geometry f dev nb bs pbs s := GpuState (g_mem s) (g_pending s) (g_stream s)
  (g_fmt s) (g_kvcaches s) f dev nb bs pbs
  (g_pointers s) (g_signatures s) (g_key_pointers s) (g_value_pointers s).

Definition with_tables p sg k v s := GpuState (g_mem s) (g_pending s) (g_stream s) (g_fmt s)
  (g_kvcaches s) (g_format s) (g_device s) (g_num_blocks s) (g_block_size s)
  (g_page_buffer_size s) p sg k v.

Definition set_format f : ST gpu_state unit := st_modify (fun s =>
  with_geometry f (g_device s) (g_num_blocks s) (g_block_size s) (g_page_buffer_size s) s).

Definition set_device dev : ST gpu_state unit := st_modify (fun s =>
  with_geometry (g_format s) (Some dev) (g_num_blocks s) (g_block_size s) (g_page_buffer_size s) s).

(** [self.num_blocks = nb; self.block_size = bs; self.page_buffer_size = nb * bs] *)
Definition set_blocks nb bs : ST gpu_state unit := st_modify (fun s =>
  with_geometry (g_format s) (g_device s) nb bs (nb * bs) s).

(** The order in which the device runs the copies of a launch, what memory holds past the end
    of a table, PyTorch's conversion between dtypes, and the memory of C++ *)
Context (schedule : list copy -> list copy) (beyond : Z -> Z) (cast : Dt -> Dt -> list Z -> list Z)
  (pinned : Z -> bool) (dispatched : Dt -> bool).

(** ** Streams *)

Definition enqueue (op : gpu_op) : ST gpu_state unit := st_modify (fun s =>
  with_queues (set_pending (g_stream s) (pending (g_pending s) (g_stream s) ++ [op]) (g_pending s))
    (g_stream s) s).

(** [dst.copy_(src)] of equal shapes *)
Definition copy_cast (m : Z -> Z) (dst src : tensor) : Z -> Z :=
  if decide (dt_dtype dst = dt_dtype src) then dt_copy m dst src
  else foldl (fun acc idx => mem_write acc (dt_address dst idx)
                (cast (dt_dtype src) (dt_dtype dst) (dt_read m src idx))) m
         (Strided.indices (dt_shape dst)).

Definition run_op (m : Z -> Z) (op : gpu_op) : Z -> Z :=
  match op with
  | Kernel l => run_copies (l_size l) m (schedule (l_copies l))
  | TensorCopy dst src => copy_cast m dst src
  end.

(** [stream.synchronize()] *)
Definition synchronize (st : stream) : ST gpu_state unit := st_modify (fun s =>
  with_queues (set_pending st [] (g_pending s)) (g_stream s)
    (with_mem (foldl run_op (g_mem s) (pending (g_pending s) st)) s)).

(** [with torch.cuda.stream(st): body] *)
Definition with_stream {A} (st : stream) (body : ST gpu_state A) : ST gpu_state A :=
  old ← st_gets g_stream;
  st_modify (fun s => with_queues (g_pending s) st s);;
  st_finally body (st_modify (fun s => with_queues (g_pending s) old s)).

(** [src] as [copy_] reads it for a destination of shape [sh]: a dimension of size one is
    repeated. *)
Definition broadcast_to (sh : list Z) (src : tensor) : result tensor :=
  let lead := (length sh - length (dt_shape src))%nat in
  let shape := replicate lead 1 ++ dt_shape src in
  let strides := replicate lead 0 ++ dt_strides src in
  if Nat.eqb (length shape) (length sh) && forallb (fun '(d, n) => (d =? n) || (d =? 1)) (zip shape sh)
  then Ok (DTensor (dt_ptr src) sh
             (zip_with (fun '(d, n) st => if (d =? 1) && negb (n =? 1) then 0 else st) (zip shape sh) strides)
             (dt_dtype src) (dt_device src))
  else Raise (RuntimeError "The size of tensor a must match the size of tensor b").

(** [dst.copy_(src, non_blocking=True)] *)
Definition copy_ (dst src : tensor) : ST gpu_state unit :=
  src' ← st_lift (broadcast_to (dt_shape dst) src);
  enqueue (TensorCopy dst src').

Definition launch (r : result launched_copies) : ST gpu_state unit :=
  l ← st_lift r; enqueue (Kernel l).

(** ** Construction *)

(** [str_to_bool]: [val.lower() in ("true", "1", "yes", "on")] *)
Definition ascii_lower (c : Ascii.ascii) : Ascii.ascii :=
  let n := Ascii.nat_of_ascii c in
  if (65 <=? Z.of_nat n) && (Z.of_nat n <=? 90) then Ascii.ascii_of_nat (n + 32) else c.

Definition str_to_bool (val : string) : bool :=
  bool_decide (String.string_of_list_ascii (ascii_lower <$> String.list_ascii_of_string val)
    ∈ ["true"; "1"; "yes"; "on"]).

(** [get_shape] *)
Definition get_shape (use_mla : bool) (num_layers hidden_dim_size num_tokens : Z) : list Z :=
  [if use_mla then 1 else 2; num_layers; num_tokens; hidden_dim_size].

(** [__init__]; [env] is [VLLM_HCU_USE_CUSTOM_FLASH_ATTN], [malloc] PyTorch's allocator. *)
Definition init (malloc : Z -> result Z) (env : option string) (hidden_dim_size num_layers : Z)
    (use_gpu : bool) (chunk_size : option Z) (dtype : option Dt) (device : option torch_device)
    (use_mla : option bool) : result gpu_config :=
  let mla := default false use_mla in
  buffer ←
    (if use_gpu then
       chunk ← result_of_option AssertionError chunk_size;
       dt ← result_of_option AssertionError dtype;
       dev ← result_of_option AssertionError device;
       let shape := get_shape mla num_layers hidden_dim_size chunk in
       p ← malloc (prodZ shape * itemsize dt);
       mret (Some (contiguous_at p shape dt dev))
     else mret None);
  mret (GpuConfig hidden_dim_size num_layers mla (str_to_bool (default "false" env)) buffer).

(** [from_metadata]: [kv_shape] is [(num_layer, 2 or 1, chunk_size, num_kv_head, head_size)]. *)
Definition from_metadata (malloc : Z -> result Z) (env : option string) (kv_shape : list Z)
    (kv_dtype : Dt) (metadata_use_mla use_gpu : bool) (device : torch_device) : result gpu_config :=
  num_layers ← py_index kv_shape 0;
  chunk_size ← py_index kv_shape 2;
  num_kv_head ← py_index kv_shape 3;
  head_size ← py_index kv_shape 4;
  init malloc env (num_kv_head * head_size) num_layers use_gpu (Some chunk_size) (Some kv_dtype)
    (Some device) (Some metadata_use_mla).

Section methods.
Context (cfg : gpu_config).

(** ** Pointer tables *)

(** [_copy_layer_pointers_to_device]: the table is rewritten when the pointers changed. *)
Definition copy_layer_pointers_to_device (layer_ptrs : list Z) (dev : torch_device)
    : ST gpu_state (list Z) :=
  st_lift (raise_if (negb (String.eqb (dev_type dev) "cuda"))
    (ValueError "The KV cache device must be CUDA"));;
  idx ← st_lift (result_of_option
    (ValueError "The CUDA KV cache device must have an explicit index.") (dev_index dev));
  st_lift (raise_if (negb (lenZ layer_ptrs =? num_layers cfg))
    (ValueError "The pointer table must be indexed by layer"));;
  s ← st_get;
  let gpu_ptrs := default (beyond <$> rangeZ 0 (Z.to_nat (num_layers cfg))) (g_pointers s !! idx) in
  let '(gpu_ptrs, signatures) :=
    if decide (g_signatures s !! idx = Some layer_ptrs) then (gpu_ptrs, g_signatures s)
    else (layer_ptrs, <[idx := layer_ptrs]> (g_signatures s)) in
  st_put (with_tables (<[idx := gpu_ptrs]> (g_pointers s)) signatures (g_key_pointers s)
    (g_value_pointers s) s);;
  mret gpu_ptrs.

(** [_initialize_cross_layer_pointers] *)
Definition initialize_cross_layer_pointers (t : kv_tensor Dt) : ST gpu_state (list Z) :=
  st_lift (raise_if (negb (ndim t =? 6)) (ValueError "Cross-layer vLLM KV cache must be 6D"));;
  two ← st_lift (py_index (kt_shape t) 2);
  st_lift (raise_if (negb (two =? 2)) (ValueError "Only NHD cross-layer layout is supported"));;
  nl ← st_lift (py_index (kt_shape t) 1);
  st_lift (raise_if (negb (nl =? num_layers cfg)) (ValueError "Cross-layer KV cache layer count mismatch"));;
  st_lift (raise_if (negb (String.eqb (dev_type (kt_device t)) "cuda"))
    (ValueError "The physical cross-layer KV cache must be on a CUDA-like device"));;
  st_lift (raise_if (negb (kt_contiguous t))
    (ValueError "The physical cross-layer KV cache tensor must be contiguous."));;
  nh ← st_lift (py_index (kt_shape t) 4);
  hs ← st_lift (py_index (kt_shape t) 5);
  st_lift (raise_if (negb (nh * hs =? hidden_dim_size cfg))
    (ValueError "Cross-layer KV hidden dimension mismatch"));;
  set_device (kt_device t);;
  nb ← st_lift (py_index (kt_shape t) 0);
  bs ← st_lift (py_index (kt_shape t) 3);
  set_blocks nb bs;;
  stride1 ← st_lift (py_index (kt_strides t) 1);
  let layer_stride_bytes := stride1 * element_size t in
  copy_layer_pointers_to_device
    ((fun layer_id => kt_data_ptr t + layer_id * layer_stride_bytes)
       <$> rangeZ 0 (Z.to_nat (num_layers cfg))) (kt_device t).

(** [_initialize_per_layer_pointers] *)
Definition initialize_per_layer_pointers (kv : caches) : ST gpu_state (list Z) :=
  match kv with
  | CacheTensor _ | CacheLayers [] | CachePairs [] | CacheLists [] =>
      st_raise (ValueError "Expected a non-empty list of per-layer KV tensors.")
  | CachePairs l =>
      st_lift (raise_if (negb (lenZ l =? num_layers cfg)) (ValueError "Per-layer KV cache count mismatch"));;
      st_raise (ValueError "Every per-layer KV cache entry must be a tensor.")
  | CacheLists l =>
      st_lift (raise_if (negb (lenZ l =? num_layers cfg)) (ValueError "Per-layer KV cache count mismatch"));;
      st_raise (ValueError "Every per-layer KV cache entry must be a tensor.")
  | CacheLayers ((first :: _) as l) =>
      st_lift (raise_if (negb (lenZ l =? num_layers cfg)) (ValueError "Per-layer KV cache count mismatch"));;
      let dev := kt_device first in
      set_device dev;;
      st_lift (raise_if (existsb (fun t => bool_decide (kt_device t ≠ dev)) l)
        (ValueError "All per-layer KV cache tensors must be on one device."));;
      s ← st_get;
      f ← st_lift (result_of_option (ValueError "Unknown GPU KV Format") (g_format s));
      nb ← st_lift (get_num_blocks kv f);
      bs ← st_lift (get_block_size kv f);
      set_blocks nb bs;;
      copy_layer_pointers_to_device (kt_data_ptr <$> l) dev
  end.

(** [a.numpy()[:] = l] of an array of [n] *)
Definition numpy_assign (n : Z) (l : list Z) : result (list Z) :=
  if lenZ l =? n then Ok l
  else match l with
       | [x] => Ok (replicate (Z.to_nat n) x)
       | _ => Raise (ValueError "could not broadcast input array")
       end.

(** [key, value = layer]: a tensor unpacks along its first dimension. *)
Definition unpack_tensor (t : kv_tensor Dt) : result (kv_tensor Dt * kv_tensor Dt) :=
  match kt_shape t, kt_strides t with
  | n :: sh, st :: strides =>
      raise_if (negb (n =? 2)) (ValueError "wrong number of values to unpack");;
      let row i := KvTensor _ (kt_id t) sh strides
        (bool_decide (strides = Strided.contiguous_strides sh)) (kt_dtype t) (kt_device t)
        (kt_data_ptr t + i * st * element_size t) (kt_storage_ptr t) (kt_storage_nbytes t) in
      mret (row 0, row 1)
  | _, _ => Raise TypeError
  end.

Definition key_value_pairs (kv : caches) : result (list (kv_tensor Dt * kv_tensor Dt)) :=
  match kv with
  | CacheTensor _ => Raise (ValueError "HCU custom asymmetric KV cache does not support the cross-layer path")
  | CachePairs l => Ok l
  | CacheLayers l => mapR unpack_tensor l
  | CacheLists l => mapR (fun x => match x with
                                   | [k; v] => Ok (k, v)
                                   | _ => Raise (ValueError "wrong number of values to unpack")
                                   end) l
  end.

(** [_initialize_pointers] with HCU's custom flash attention: the pairs of caches and the two
    tables *)
Definition initialize_asymmetric_pointers (kv : caches) : ST gpu_state (list Z * list Z) :=
  pairs ← st_lift (key_value_pairs kv);
  keys ← st_lift (numpy_assign (num_layers cfg) ((fun p => kt_data_ptr p.1) <$> pairs));
  values ← st_lift (numpy_assign (num_layers cfg) ((fun p => kt_data_ptr p.2) <$> pairs));
  first ← st_lift (py_index pairs 0);
  let dev := kt_device first.1 in
  st_lift (py_assert (String.eqb (dev_type dev) "cuda"));;
  idx ← st_lift (result_of_option (ValueError "The CUDA KV cache device must have an index.")
    (dev_index dev));
  st_modify (fun s => with_tables (g_pointers s) (g_signatures s)
    (<[idx := keys]> (g_key_pointers s)) (<[idx := values]> (g_value_pointers s)) s);;
  st_lift (py_assert (ndim first.1 =? 4));;
  nb ← st_lift (py_index (kt_shape first.1) 0);
  bs ← st_lift (py_index (kt_shape first.1) 2);
  st_modify (fun s => with_geometry (g_format s) (g_device s) (g_num_blocks s) (g_block_size s)
    (nb * bs) s);;
  mret (keys, values).

(** [_initialize_pointers] otherwise *)
Definition initialize_pointers (kv : caches) : ST gpu_state (list Z) :=
  f ← st_lift (discover_gpu_kv_format kv VLLM);
  set_format (Some f);;
  match f, kv with
  | NB_NL_TWO_BS_NH_HS, CacheTensor t => initialize_cross_layer_pointers t
  | NB_NL_TWO_BS_NH_HS, _ =>
      st_raise (ValueError "NB_NL_TWO_BS_NH_HS requires one cross-layer tensor.")
  | _, CacheTensor _ => st_raise (ValueError "GPU KV format requires a layer list.")
  | _, _ => initialize_per_layer_pointers kv
  end.

(** ** Transfers *)

(** The keyword arguments: [kvcaches] may be missing, or given and [None]. *)
Record kwargs := Kwargs {
  kw_kvcaches : option (option caches);
  kw_slot_mapping : option (list Z);
  kw_vllm_cached_tokens : Z;
}.

Definition initialize_kvcaches_ptr (kw : kwargs) : ST gpu_state unit :=
  match kw_kvcaches kw with
  | Some kv => st_modify (with_kvcaches kv)
  | None => mret tt
  end.

(** A pointer table, and [slot_mapping[start:end]], as a kernel reads them *)
Definition table (ptrs : list Z) : Z -> Z := fun l =>
  if l <? 0 then beyond l else default (beyond l) (ptrs !! Z.to_nat l).

Definition slots_at (slot_mapping : list Z) (start : Z) : Z -> Z := fun t =>
  table slot_mapping (Z.of_nat (slice_bound (length slot_mapping) start) + t).

(** [self.kvcaches[0][0].shape[i]] of asymmetric caches *)
Definition first_key_dim (kv : caches) (i : Z) : result Z :=
  pairs ← key_value_pairs kv; first ← py_index pairs 0; py_index (kt_shape first.1) i.

(** The asymmetric kernel on [tensor] *)
Definition transfer_asymmetric (obj_tensor : tensor) (kv : caches) (tables : list Z * list Z)
    (slot_mapping : list Z) (start end_ : Z) (dir : bool) (skip : Z) : ST gpu_state unit :=
  num_heads ← st_lift (first_key_dim kv 1);
  head_size ← st_lift (first_key_dim kv 3);
  block_size ← st_lift (first_key_dim kv 2);
  launch (multi_layer_kv_transfer_asymmetric pinned dispatched obj_tensor (table tables.1)
    (table tables.2) (slots_at slot_mapping start) (lenZ (py_slice slot_mapping start end_))
    num_heads head_size block_size dir skip).

(** The kernel of the other layouts *)
Definition transfer (obj_tensor : tensor) (ptrs : list Z) (slot_mapping : list Z) (start : Z)
    (dir : TransferDirection) (skip : Z) : ST gpu_state unit :=
  s ← st_get;
  f ← st_lift (result_of_option TypeError (g_format s));
  launch (multi_layer_kv_transfer pinned obj_tensor (table ptrs) (slots_at slot_mapping start)
    (g_page_buffer_size s) dir f (g_block_size s) skip).

(** [self.hcu_use_custom_flash_attn and not self.use_mla] *)
Definition asymmetric : bool := hcu_use_custom_flash_attn cfg && negb (use_mla cfg).

Definition obj_format : MemoryFormat := if use_mla cfg then KV_MLA_FMT else KV_2LTD.

Definition to_gpu (obj : memory_obj) (start end_ : Z) (kw : kwargs) : ST gpu_state unit :=
  t ← st_lift (result_of_option AssertionError (mo_tensor obj));
  initialize_kvcaches_ptr kw;;
  s ← st_get;
  kv ← st_lift (result_of_option AssertionError (g_kvcaches s));
  st_lift (raise_if (bool_decide (g_fmt s (mo_id obj) ≠ obj_format))
    (ValueError "The memory object is not in the format to be processed"));;
  slot_mapping ← st_lift (result_of_option
    (ValueError "'slot_mapping' should be provided in kwargs.") (kw_slot_mapping kw));
  let skip := Z.min (end_ - start) (Z.max 0 (kw_vllm_cached_tokens kw - start)) in
  if asymmetric then
    tables ← initialize_asymmetric_pointers kv;
    transfer_asymmetric t kv tables slot_mapping start end_ false skip
  else
    ptrs ← initialize_pointers kv;
    transfer t ptrs slot_mapping start H2D skip.

(** Whether [from_gpu] goes through the intermediate buffer: the chunk has its size. *)
Definition buffer_for (start end_ : Z) : result (option tensor) :=
  match gpu_buffer cfg with
  | None => Ok None
  | Some b => n ← py_index (dt_shape b) 2; Ok (if end_ - start =? n then Some b else None)
  end.

(** [self.gpu_buffer[:, :, : n, :]] *)
Definition buffer_view (b : tensor) (n : Z) : tensor :=
  DTensor (dt_ptr b)
    (alter (fun d => Z.of_nat (slice_bound (Z.to_nat d) n)) 2%nat (dt_shape b))
    (dt_strides b) (dt_dtype b) (dt_device b).

(** Directly into the object, or through the buffer: [cache_device] is the device of the
    caches and [run] the kernel. *)
Definition gather (t : tensor) (start end_ : Z) (cache_device : option torch_device)
    (run : tensor -> ST gpu_state unit) : ST gpu_state unit :=
  buffer ← st_lift (buffer_for start end_);
  match buffer with
  | None => run t
  | Some b =>
      st_lift (py_assert (bool_decide (Some (dt_device b) = cache_device)));;
      let tmp := buffer_view b (end_ - start) in
      run tmp;;
      copy_ t tmp
  end.

Definition from_gpu (obj : memory_obj) (start end_ : Z) (kw : kwargs) : ST gpu_state unit :=
  t ← st_lift (result_of_option AssertionError (mo_tensor obj));
  initialize_kvcaches_ptr kw;;
  s ← st_get;
  kv ← st_lift (result_of_option AssertionError (g_kvcaches s));
  slot_mapping ← st_lift (result_of_option
    (ValueError "'slot_mapping' should be provided in kwargs.") (kw_slot_mapping kw));
  (if asymmetric then
     tables ← initialize_asymmetric_pointers kv;
     pairs ← st_lift (key_value_pairs kv);
     with_stream StoreStream
       (gather t start end_ (kt_device <$> (fst <$> head pairs)) (fun dst =>
          transfer_asymmetric dst kv tables slot_mapping start end_ true 0))
   else
     ptrs ← initialize_pointers kv;
     with_stream StoreStream
       (dev ← st_gets g_device;
        gather t start end_ dev (fun dst => transfer dst ptrs slot_mapping start D2H 0)));;
  synchronize StoreStream;;
  if use_mla cfg then
    st_modify (fun s => with_fmt (fun i => if i =? mo_id obj then KV_MLA_FMT else g_fmt s i) s)
  else mret tt.

(** [zip(memory_objs, starts, ends, strict=False)] *)
Definition chunks (objs : list memory_obj) (starts ends : list Z) : list (memory_obj * Z * Z) :=
  zip (zip objs starts) ends.

Definition batched_to_gpu (objs : list memory_obj) (starts ends : list Z) (kw : kwargs)
    : ST gpu_state unit :=
  with_stream LoadStream
    (st_iter (fun '(obj, start, end_) => to_gpu obj start end_ kw) (chunks objs starts ends));;
  synchronize LoadStream.

Definition batched_from_gpu (objs : list memory_obj) (starts ends : list Z) (kw : kwargs)
    : ST gpu_state unit :=
  st_iter (fun '(obj, start, end_) => from_gpu obj start end_ kw) (chunks objs starts ends).

(** ** Direct-I/O plans *)

Definition build_direct_io_plans (starts ends : list Z) (dir : DirectIODirection) (kw : kwargs)
    : ST gpu_state (list DirectIOPlan) :=
  initialize_kvcaches_ptr kw;;
  s ← st_get;
  let slots := result_of_option KeyError (kw_slot_mapping kw) in
  let skip := kw_vllm_cached_tokens kw in
  st_lift
    match g_kvcaches s with
    | Some (CacheTensor t) =>
        slot_mapping ← slots;
        block_size ← py_index (kt_shape t) 3;
        build_block_first_direct_plans t slot_mapping starts ends dir block_size skip
    | Some (CacheLayers l) =>
        slot_mapping ← slots;
        first ← py_index l 0;
        block_size ← py_index (kt_shape first) 2;
        build_per_layer_direct_plans l slot_mapping starts ends dir block_size skip
    | Some (CachePairs l) =>
        match l with
        | (first_key, _) :: _ =>
            if bool_decide (dir = RETRIEVE) && hcu_use_custom_flash_attn cfg then
              slot_mapping ← slots;
              block_size ← py_index (kt_shape first_key) 2;
              build_asymmetric_per_layer_direct_plans l slot_mapping starts ends dir block_size skip
            else _ ← slots; Raise AttributeError
        | [] => _ ← slots; Raise IndexError
        end
    | Some (CacheLists l) => _ ← slots; _ ← py_index l 0; Raise AttributeError
    | None => _ ← slots; Raise TypeError
    end.

End methods.
End connector.
Arguments memory_obj : clear implicits.
Arguments gpu_config : clear implicits.
Arguments gpu_state : clear implicits.
Arguments gpu_op : clear implicits.
Arguments queues : clear implicits.
Arguments kwargs : clear implicits.
