(* ===== verification/GpuLayouts.v ===== *)
(** * Where the paged caches keep an element

    The five cache layouts the GPU connector serves, the address of an element as an index into
    the engine's own tensors, and the disjointness of the rows of a cache. *)

From S2P Require Import Prelude Tensor DirectIO World DeviceTensor KvKernels KvKernelFacts GpuConnector.

Open Scope string_scope.
Open Scope list_scope.
Open Scope Z_scope.

Inductive cache_kind := CrossLayer | FlashAttention | FlashInfer | MLA | Asymmetric.

#[export] Instance cache_kind_eq_dec : EqDecision cache_kind.
Proof. solve_decision. Defined.

(** Layers, blocks, tokens per block, heads and their size *)
Record cache_geometry := CacheGeometry {
  cg_nl : Z; cg_nb : Z; cg_bs : Z; cg_nh : Z; cg_hs : Z;
}.

Definition cg_hidden (g : cache_geometry) : Z := cg_nh g * cg_hs g.

Definition kv_size (kind : cache_kind) : Z := match kind with MLA => 1 | _ => 2 end.

Definition kind_format (kind : cache_kind) : GPUKVFormat :=
  match kind with
  | CrossLayer | Asymmetric => NB_NL_TWO_BS_NH_HS
  | FlashAttention => NL_X_TWO_NB_BS_NH_HS
  | FlashInfer => NL_X_NB_TWO_BS_NH_HS
  | MLA => NL_X_NB_BS_HS
  end.

Section layouts.
Context {Dt : Type} `{!TorchDtype Dt, !TorchDtypeLaws Dt}.
Context (g : cache_geometry).
#[local] Abbreviation nl := (cg_nl g).
#[local] Abbreviation nb := (cg_nb g).
#[local] Abbreviation bs := (cg_bs g).
#[local] Abbreviation nh := (cg_nh g).
#[local] Abbreviation hs := (cg_hs g).
#[local] Abbreviation hidden := (cg_hidden g).
Implicit Types (kv : kv_caches Dt) (t : kv_tensor Dt).

Definition geometry_pos : Prop := 0 < nl /\ 0 < nb /\ 0 < bs /\ 0 < nh /\ 0 < hs.

(** ** Elements *)

(** The rows of a tensor of a symmetric layout, and the row of K or V [k], layer [l], slot [s] *)
Definition row_shape (kind : cache_kind) : list Z :=
  match kind with
  | CrossLayer => [nb; nl; 2; bs]
  | FlashAttention => [2; nb; bs]
  | FlashInfer => [nb; 2; bs]
  | MLA | Asymmetric => [nb; bs]
  end.

Definition row_idx (kind : cache_kind) (k l s : Z) : list Z :=
  match kind with
  | CrossLayer => [s / bs; l; k; s mod bs]
  | FlashAttention => [k; s / bs; s mod bs]
  | FlashInfer => [s / bs; k; s mod bs]
  | MLA | Asymmetric => [s / bs; s mod bs]
  end.

(** Heads and their elements; MLA has one latent vector *)
Definition tensor_shape (kind : cache_kind) : list Z :=
  row_shape kind ++ match kind with MLA => [hidden] | _ => [nh; hs] end.

Definition tensor_idx (kind : cache_kind) (k l s i : Z) : list Z :=
  row_idx kind k l s ++ match kind with MLA => [i] | _ => [i / hs; i mod hs] end.

Definition of_kv t : dtensor Dt torch_device :=
  DTensor (kt_data_ptr t) (kt_shape t) (kt_strides t) (kt_dtype t) (kt_device t).

(** The address of an element of a cache *)
Definition kv_element (kind : cache_kind) kv (k l s i : Z) : Z :=
  match kv with
  | CacheTensor t => dt_address (of_kv t) (tensor_idx kind k l s i)
  | CacheLayers ts =>
      match ts !! Z.to_nat l with
      | Some t => dt_address (of_kv t) (tensor_idx kind k l s i)
      | None => 0
      end
  | CachePairs ps =>
      match ps !! Z.to_nat l with
      | Some (key, value) =>
          if k =? 0 then dt_address (of_kv key) [s / bs; i / hs; s mod bs; i mod hs]
          else dt_address (of_kv value) [s / bs; i / hs; i mod hs; s mod bs]
      | None => 0
      end
  | CacheLists _ => 0
  end.

Definition in_cache (kind : cache_kind) (k l s i : Z) : Prop :=
  0 <= k < kv_size kind /\ 0 <= l < nl /\ 0 <= s < nb * bs /\ 0 <= i < hidden.

(** ** Well-formed caches *)

Context (dt : Dt) (dev : torch_device).
#[local] Abbreviation isz := (itemsize dt).

Definition is_tensor (sh : list Z) t : Prop :=
  kt_shape t = sh /\ kt_strides t = Strided.contiguous_strides sh /\ kt_contiguous t = true
  /\ kt_dtype t = dt /\ kt_device t = dev.

(** Tensors of [n] bytes each that share no memory *)
Definition tensors_apart (n : Z) (ts : list (kv_tensor Dt)) : Prop :=
  forall i j t t', i <> j -> ts !! i = Some t -> ts !! j = Some t' -> apart (kt_data_ptr t) (kt_data_ptr t') n.

Definition per_layer (kind : cache_kind) : bool :=
  match kind with FlashAttention | FlashInfer | MLA => true | _ => false end.

(** The bytes of one tensor *)
Definition tensor_nbytes (kind : cache_kind) : Z :=
  match kind with
  | CrossLayer => nb * nl * 2 * bs * hidden * isz
  | FlashAttention | FlashInfer => 2 * nb * bs * hidden * isz
  | MLA | Asymmetric => nb * bs * hidden * isz
  end.

Definition cache_tensors kv : list (kv_tensor Dt) :=
  match kv with
  | CacheTensor t => [t]
  | CacheLayers ts => ts
  | CachePairs ps => ps ≫= fun p => [p.1; p.2]
  | CacheLists l => concat l
  end.

Definition well_formed (kind : cache_kind) kv : Prop :=
  match kv with
  | CacheTensor t => kind = CrossLayer /\ is_tensor (tensor_shape CrossLayer) t
  | CacheLayers ts => per_layer kind = true /\ lenZ ts = nl /\ Forall (is_tensor (tensor_shape kind)) ts
  | CachePairs ps => kind = Asymmetric /\ lenZ ps = nl
      /\ Forall (fun p => is_tensor [nb; nh; bs; hs] p.1 /\ is_tensor [nb; nh; hs; bs] p.2) ps
  | CacheLists _ => False
  end /\ tensors_apart (tensor_nbytes kind) (cache_tensors kv).

(** The [n] bytes at [a] are not part of the cache. *)
Definition outside_cache (kind : cache_kind) kv (a n : Z) : Prop :=
  forall t, t ∈ cache_tensors kv ->
    a + n <= kt_data_ptr t \/ kt_data_ptr t + tensor_nbytes kind <= a.

(** ** Symmetric layouts *)

Context (Hg : geometry_pos).

Lemma hidden_pos : 0 < hidden.
Proof. destruct Hg as (?&?&?&?&?). unfold cg_hidden. nia. Qed.

Lemma dt_address_of_kv t sh idx :
  is_tensor sh t -> length idx = length sh -> dt_address (of_kv t) idx = kt_data_ptr t + ravel sh idx * isz.
Proof.
  intros (Hs & Hst & _ & Hd & _) Hl. rewrite <- Hd, <- (dt_address_contiguous _ _ _ (kt_device t)) by done.
  unfold of_kv, contiguous_at. by rewrite Hs, Hst.
Qed.

Lemma row_idx_valid kind k l s :
  kind <> Asymmetric -> 0 <= k < kv_size kind -> 0 <= l < nl -> 0 <= s < nb * bs ->
  valid_idx (row_shape kind) (row_idx kind k l s).
Proof.
  intros Hk0 Hk Hl Hs. pose proof Hg as (?&?&Hbs&?). destruct (slot_split bs nb s Hbs Hs) as (Hb & Ho & _).
  destruct kind; try done; cbn [kv_size row_shape row_idx] in *; rewrite !valid_idx_cons;
    repeat (split; [done|]); constructor.
Qed.

Lemma row_idx_inj kind k l s k' l' s' :
  kind <> Asymmetric -> 0 <= k < kv_size kind -> 0 <= k' < kv_size kind -> 0 <= s -> 0 <= s' ->
  (per_layer kind = true -> l = l') ->
  row_idx kind k l s = row_idx kind k' l' s' -> k = k' /\ l = l' /\ s = s'.
Proof.
  intros Hk0 Hk Hk' Hs Hs' Hl H. pose proof Hg as (?&?&Hbs&?).
  assert (s / bs = s' / bs /\ s mod bs = s' mod bs -> s = s') as Hslot.
  { intros [E1 E2]. rewrite (Z.div_mod s bs), (Z.div_mod s' bs) by lia. congruence. }
  destruct kind; try done; cbn [row_idx kv_size per_layer] in *; injection H as ?; subst; split_and!; auto; lia.
Qed.

Definition row_of (kind : cache_kind) (k l s : Z) : Z := ravel (row_shape kind) (row_idx kind k l s).

Lemma tensor_idx_ravel kind k l s i :
  kind <> Asymmetric -> ravel (tensor_shape kind) (tensor_idx kind k l s i) = row_of kind k l s * hidden + i.
Proof.
  intros Hk. destruct Hg as (?&?&?&?&?). pose proof (Z.div_mod i hs ltac:(lia)) as Hi.
  unfold row_of. destruct kind; try done;
    cbn [tensor_shape tensor_idx row_shape row_idx app ravel]; unfold prodZ, cg_hidden; cbn [foldr];
    set (q := i / hs) in *; set (r := i mod hs) in *; clearbody q r; subst i; ring.
Qed.

(** The tensor a layer is in *)
Definition layer_base kv (l : Z) : Z :=
  match kv with
  | CacheTensor t => kt_data_ptr t
  | CacheLayers ts => default 0 (kt_data_ptr <$> ts !! Z.to_nat l)
  | _ => 0
  end.

Definition row_address (kind : cache_kind) kv (k l s : Z) : Z :=
  layer_base kv l + row_of kind k l s * (hidden * isz).

Lemma kv_element_row kind kv k l s i :
  kind <> Asymmetric -> well_formed kind kv -> in_cache kind k l s i ->
  kv_element kind kv k l s i = row_address kind kv k l s + i * isz.
Proof.
  intros Hk [Hwf _] (_ & Hl & _). unfold kv_element, row_address, layer_base. destruct kv as [t|ts|ps|]; try done.
  - destruct Hwf as [-> Ht]. rewrite (dt_address_of_kv _ _ _ Ht) by done.
    rewrite tensor_idx_ravel by done. ring.
  - destruct Hwf as (Hpl & Hlen & Hts). destruct (ts !! Z.to_nat l) as [t|] eqn:E.
    2:{ apply lookup_ge_None in E. unfold lenZ in Hlen. lia. }
    rewrite Forall_lookup in Hts. rewrite (dt_address_of_kv _ _ _ (Hts _ _ E)) by (by destruct kind).
    rewrite tensor_idx_ravel by done. cbn. ring.
  - by destruct Hwf.
Qed.

Lemma row_of_bounds kind k l s :
  kind <> Asymmetric -> 0 <= k < kv_size kind -> 0 <= l < nl -> 0 <= s < nb * bs ->
  0 <= row_of kind k l s < prodZ (row_shape kind).
Proof. intros. by apply ravel_bounds, row_idx_valid. Qed.

Lemma tensor_nbytes_rows kind :
  kind <> Asymmetric -> tensor_nbytes kind = prodZ (row_shape kind) * (hidden * isz).
Proof. intros Hk. destruct kind; try done; unfold prodZ; cbn; ring. Qed.

Lemma layer_base_lookup kind kv l :
  kind <> Asymmetric -> well_formed kind kv -> 0 <= l < nl ->
  exists t i, cache_tensors kv !! i = Some t /\ kt_data_ptr t = layer_base kv l
    /\ i = if per_layer kind then Z.to_nat l else 0%nat.
Proof.
  intros Hk [Hwf _] Hl. destruct kv as [t|ts|ps|]; try done.
  - destruct Hwf as [-> Ht]. by exists t, 0%nat.
  - destruct Hwf as (-> & Hlen & Hts). unfold lenZ in Hlen.
    destruct (lookup_lt_is_Some_2 ts (Z.to_nat l)) as [t Ht]; [lia|].
    exists t, (Z.to_nat l). cbn. by rewrite Ht.
  - by destruct Hwf.
Qed.

(** A row is inside a tensor of the cache. *)
Lemma row_inside kind kv k l s :
  kind <> Asymmetric -> well_formed kind kv -> 0 <= k < kv_size kind -> 0 <= l < nl -> 0 <= s < nb * bs ->
  exists t, t ∈ cache_tensors kv /\ kt_data_ptr t <= row_address kind kv k l s
    /\ row_address kind kv k l s + hidden * isz <= kt_data_ptr t + tensor_nbytes kind.
Proof.
  intros Hk Hwf Hkk Hl Hs. destruct (layer_base_lookup kind kv l Hk Hwf Hl) as (t & i & Ht & Hb & _).
  exists t. split; [by eapply list_elem_of_lookup_2|]. unfold row_address. rewrite Hb, tensor_nbytes_rows by done.
  pose proof (row_of_bounds kind k l s Hk Hkk Hl Hs) as Hr. pose proof hidden_pos. pose proof (itemsize_pos dt).
  assert (0 < hidden * isz) by nia. nia.
Qed.

(** Different rows share no memory. *)
Lemma rows_apart kind kv k l s k' l' s' :
  kind <> Asymmetric -> well_formed kind kv ->
  0 <= k < kv_size kind -> 0 <= l < nl -> 0 <= s < nb * bs ->
  0 <= k' < kv_size kind -> 0 <= l' < nl -> 0 <= s' < nb * bs ->
  (k, l, s) = (k', l', s') \/ apart (row_address kind kv k l s) (row_address kind kv k' l' s') (hidden * isz).
Proof.
  intros Hk Hwf Hk1 Hl1 Hs1 Hk2 Hl2 Hs2.
  pose proof hidden_pos. pose proof (itemsize_pos dt). assert (0 < hidden * isz) by nia.
  destruct (layer_base_lookup kind kv l Hk Hwf Hl1) as (t & i & Ht & Hb & Hi).
  destruct (layer_base_lookup kind kv l' Hk Hwf Hl2) as (t' & i' & Ht' & Hb' & Hi').
  pose proof (row_of_bounds kind k l s Hk Hk1 Hl1 Hs1) as Hr. pose proof (row_of_bounds kind k' l' s' Hk Hk2 Hl2 Hs2) as Hr'.
  destruct (decide (i = i')) as [E|Hne].
  - assert (layer_base kv l = layer_base kv l') as Hbase by (rewrite <- Hb, <- Hb'; congruence).
    destruct (decide (row_of kind k l s = row_of kind k' l' s')) as [Hrow|Hrow].
    + left. unfold row_of in Hrow. apply ravel_inj in Hrow; [|by apply row_idx_valid..].
      apply row_idx_inj in Hrow as (-> & -> & ->); try done; try lia.
      intros Hpl. rewrite Hpl in Hi, Hi'. lia.
    + right. unfold apart, row_address. rewrite Hbase. assert (row_of kind k l s + 1 <= row_of kind k' l' s' \/ row_of kind k' l' s' + 1 <= row_of kind k l s) as [|] by lia; nia.
  - right. pose proof (proj2 Hwf i i' t t' Hne Ht Ht') as Hap. unfold apart, row_address in *.
    rewrite <- Hb, <- Hb'. rewrite tensor_nbytes_rows in Hap by done. nia.
Qed.

(** ** Asymmetric layout *)

Lemma pair_lookup kv l :
  well_formed Asymmetric kv -> 0 <= l < nl ->
  exists ps p, kv = CachePairs ps /\ ps !! Z.to_nat l = Some p
    /\ is_tensor [nb; nh; bs; hs] p.1 /\ is_tensor [nb; nh; hs; bs] p.2
    /\ cache_tensors kv !! (2 * Z.to_nat l)%nat = Some p.1
    /\ cache_tensors kv !! S (2 * Z.to_nat l) = Some p.2.
Proof.
  intros [Hwf _] Hl. destruct kv as [t|ts|ps|]; try done; [by destruct Hwf|by destruct Hwf|].
  destruct Hwf as (_ & Hlen & Hps). unfold lenZ in Hlen.
  destruct (lookup_lt_is_Some_2 ps (Z.to_nat l)) as [p Hp]; [lia|]. exists ps, p.
  pose proof (proj1 (Forall_lookup _ _) Hps _ _ Hp) as [H1 H2]. do 4 (split; [done|]).
  cbn [cache_tensors]. clear -Hp. revert Hp. generalize (Z.to_nat l). induction ps as [|q ps IH]; intros n Hp; [done|].
  destruct n as [|n]; [by injection Hp as ->|]. destruct (IH n Hp) as [IH1 IH2].
  replace (2 * S n)%nat with (S (S (2 * n))) by lia. by split.
Qed.

(** The position in its tensor, and the index of its tensor in the cache *)
Definition pair_offset (k s i : Z) : Z := asymmetric_offset nh hs bs k s i.

Lemma asymmetric_element kv k l s i :
  well_formed Asymmetric kv -> in_cache Asymmetric k l s i ->
  exists t, cache_tensors kv !! Z.to_nat (2 * l + k) = Some t
    /\ kv_element Asymmetric kv k l s i = kt_data_ptr t + pair_offset k s i * isz
    /\ 0 <= pair_offset k s i < nb * bs * hidden.
Proof.
  intros Hwf (Hk & Hl & Hs & Hi). pose proof Hg as (?&?&Hbs&?&Hhs).
  destruct (pair_lookup kv l Hwf Hl) as (ps & p & -> & Hp & Hkt & Hvt & L1 & L2).
  destruct (slot_split bs nb s Hbs Hs) as (Hb & Ho & _). destruct (slot_split hs nh i Hhs Hi) as (Hh & Hd & _).
  unfold kv_element. rewrite Hp. destruct p as [key value]. cbn [fst snd] in *.
  pose proof (mul_add_bounds _ _ _ _ Hb Hh) as Hbh. unfold pair_offset, asymmetric_offset, cg_hidden.
  cbn [kv_size] in Hk. destruct (Z.eqb_spec k 0) as [->|Hk0].
  - exists key. split; [by replace (Z.to_nat (2 * l + 0)) with (2 * Z.to_nat l)%nat by lia|].
    rewrite (dt_address_of_kv _ _ _ Hkt) by done.
    split; [do 2 f_equal; cbn [ravel]; unfold prodZ; cbn [foldr]; ring|].
    pose proof (mul_add_bounds _ _ _ _ Hbh Ho) as H3. pose proof (mul_add_bounds _ _ _ _ H3 Hd). lia.
  - assert (k = 1) as -> by lia. exists value.
    split; [by replace (Z.to_nat (2 * l + 1)) with (S (2 * Z.to_nat l)) by lia|].
    rewrite (dt_address_of_kv _ _ _ Hvt) by done.
    split; [do 2 f_equal; cbn [ravel]; unfold prodZ; cbn [foldr]; ring|].
    pose proof (mul_add_bounds _ _ _ _ Hbh Hd) as H3. pose proof (mul_add_bounds _ _ _ _ H3 Ho). lia.
Qed.

Lemma pair_offset_inj k s i s' i' :
  0 <= s < nb * bs -> 0 <= s' < nb * bs -> 0 <= i < hidden -> 0 <= i' < hidden ->
  pair_offset k s i = pair_offset k s' i' -> s = s' /\ i = i'.
Proof.
  intros Hs Hs' Hi Hi'. pose proof Hg as (?&?&Hbs&?&Hhs). unfold pair_offset, asymmetric_offset.
  destruct (slot_split bs nb s Hbs Hs) as (Hb & Ho & Es & _). destruct (slot_split hs nh i Hhs Hi) as (Hh & Hd & Ei & _).
  destruct (slot_split bs nb s' Hbs Hs') as (Hb' & Ho' & Es' & _).
  destruct (slot_split hs nh i' Hhs Hi') as (Hh' & Hd' & Ei' & _).
  assert (forall b b' h h' x x' y y' n m, 0 <= h < nh -> 0 <= h' < nh -> 0 <= x < n -> 0 <= x' < n ->
    0 <= y < m -> 0 <= y' < m ->
    ((b * nh + h) * n + x) * m + y = ((b' * nh + h') * n + x') * m + y' ->
    b = b' /\ h = h' /\ x = x' /\ y = y') as Hmix.
  { intros b b' h h' x x' y y' n m Hh1 Hh2 Hx Hx' Hy Hy' E.
    assert (forall q q' r r' d, 0 <= r < d -> 0 <= r' < d -> q * d + r = q' * d + r' -> q = q' /\ r = r') as Hdm.
    { intros q q' r r' d Hr Hr' E'. assert (q = q') by nia. split; [done|nia]. }
    apply Hdm in E as [E ->]; [|done..]. apply Hdm in E as [E ->]; [|done..].
    apply Hdm in E as [-> ->]; done. }
  destruct (k =? 0); intros E; apply Hmix in E as (E1 & E2 & E3 & E4); try done;
    rewrite Es, Es', Ei, Ei', E1, E2, E3, E4; done.
Qed.

(** Different elements share no memory. *)
Lemma asymmetric_apart kv k l s i k' l' s' i' :
  well_formed Asymmetric kv -> in_cache Asymmetric k l s i -> in_cache Asymmetric k' l' s' i' ->
  (k, l, s, i) = (k', l', s', i')
  \/ apart (kv_element Asymmetric kv k l s i) (kv_element Asymmetric kv k' l' s' i') isz.
Proof.
  intros Hwf H1 H2. destruct (asymmetric_element kv k l s i Hwf H1) as (t & Ht & -> & Hb).
  destruct (asymmetric_element kv k' l' s' i' Hwf H2) as (t' & Ht' & -> & Hb').
  destruct H1 as (Hk & Hl & Hs & Hi), H2 as (Hk' & Hl' & Hs' & Hi'). cbn [kv_size] in *.
  pose proof (itemsize_pos dt).
  destruct (decide (2 * l + k = 2 * l' + k')) as [E|Hne].
  - assert (k = k' /\ l = l') as [<- <-] by lia. rewrite Ht in Ht'. injection Ht' as <-.
    destruct (decide (pair_offset k s i = pair_offset k s' i')) as [Eo|Hne].
    + apply pair_offset_inj in Eo as [-> ->]; [by left|done..].
    + right. unfold apart. assert (pair_offset k s i + 1 <= pair_offset k s' i'
        \/ pair_offset k s' i' + 1 <= pair_offset k s i) as [|] by lia; nia.
  - right. assert (Z.to_nat (2 * l + k) <> Z.to_nat (2 * l' + k')) as Hn by lia.
    pose proof (proj2 Hwf _ _ _ _ Hn Ht Ht') as Hap. unfold apart, tensor_nbytes in *. nia.
Qed.

Lemma asymmetric_inside kv k l s i :
  well_formed Asymmetric kv -> in_cache Asymmetric k l s i ->
  exists t, t ∈ cache_tensors kv /\ kt_data_ptr t <= kv_element Asymmetric kv k l s i
    /\ kv_element Asymmetric kv k l s i + isz <= kt_data_ptr t + tensor_nbytes Asymmetric.
Proof.
  intros Hwf H1. destruct (asymmetric_element kv k l s i Hwf H1) as (t & Ht & -> & Hb).
  exists t. split; [by eapply list_elem_of_lookup_2|]. unfold tensor_nbytes. pose proof (itemsize_pos dt). nia.
Qed.

(** ** Every layout *)

Lemma elements_apart kind kv k l s i k' l' s' i' :
  well_formed kind kv -> in_cache kind k l s i -> in_cache kind k' l' s' i' ->
  (k, l, s, i) = (k', l', s', i') \/ apart (kv_element kind kv k l s i) (kv_element kind kv k' l' s' i') isz.
Proof.
  intros Hwf H1 H2. destruct (decide (kind = Asymmetric)) as [->|Hk]; [by apply asymmetric_apart|].
  rewrite !kv_element_row by done. destruct H1 as (Hk1 & Hl1 & Hs1 & Hi1), H2 as (Hk2 & Hl2 & Hs2 & Hi2).
  pose proof (itemsize_pos dt).
  destruct (rows_apart kind kv k l s k' l' s' Hk Hwf Hk1 Hl1 Hs1 Hk2 Hl2 Hs2) as [[= <- <- <-]|Hap].
  - destruct (decide (i = i')) as [<-|]; [by left|]. right. unfold apart.
    assert (i + 1 <= i' \/ i' + 1 <= i) as [|] by lia; nia.
  - right. unfold apart in *. nia.
Qed.

Lemma element_inside kind kv k l s i :
  well_formed kind kv -> in_cache kind k l s i ->
  exists t, t ∈ cache_tensors kv /\ kt_data_ptr t <= kv_element kind kv k l s i
    /\ kv_element kind kv k l s i + isz <= kt_data_ptr t + tensor_nbytes kind.
Proof.
  intros Hwf H1. destruct (decide (kind = Asymmetric)) as [->|Hk]; [by apply asymmetric_inside|].
  rewrite kv_element_row by done. destruct H1 as (Hk1 & Hl1 & Hs1 & Hi1).
  destruct (row_inside kind kv k l s Hk Hwf Hk1 Hl1 Hs1) as (t & Ht & B1 & B2).
  pose proof (itemsize_pos dt). exists t. split; [done|]. nia.
Qed.

(** No byte of an element is outside the cache. *)
Lemma element_not_outside kind kv k l s i r a n :
  well_formed kind kv -> in_cache kind k l s i -> 0 <= r < isz -> outside_cache kind kv a n ->
  ~ a <= kv_element kind kv k l s i + r < a + n.
Proof.
  intros Hwf Hin Hr Hout Ha. destruct (element_inside kind kv k l s i Hwf Hin) as (t & Ht & B1 & B2).
  destruct (Hout t Ht); lia.
Qed.

End layouts.
