(* ===== verification/GpuTransfers.v ===== *)
(** * What a transfer kernel does to memory

    The launches of the connector, seen as copies of K and V rows between a chunk tensor and
    the elements of the engine's cache, in whatever order the device runs them. *)

From S2P Require Import Prelude Tensor DirectIO World DeviceTensor KvKernels KvKernelFacts GpuConnector GpuLayouts.

Open Scope string_scope.
Open Scope list_scope.
Open Scope Z_scope.

Section transfers.
Context {Dt : Type} `{!TorchDtype Dt, !TorchDtypeLaws Dt}.
Context (g : cache_geometry) (Hg : geometry_pos g) (dt : Dt) (dev : torch_device).
Context (kind : cache_kind) (kv : kv_caches Dt) (Hwf : well_formed g dt dev kind kv).
#[local] Abbreviation nl := (cg_nl g).
#[local] Abbreviation nb := (cg_nb g).
#[local] Abbreviation bs := (cg_bs g).
#[local] Abbreviation hidden := (cg_hidden g).
#[local] Abbreviation isz := (itemsize dt).
#[local] Abbreviation kvs := (kv_size kind).
#[local] Abbreviation element := (kv_element g kind kv).
#[local] Abbreviation row := (row_address g dt kind kv).

(** The chunk of [n] tokens at [p], and the slots of its tokens *)
Context (p n skip : Z) (slot : Z -> Z) (to_chunk : bool).
Context (Hskip : 0 <= skip) (Hslots : forall t, skip <= t < n -> slot t < nb * bs).
Context (Hdistinct : forall t t', skip <= t < n -> skip <= t' < n -> 0 <= slot t ->
  slot t = slot t' -> t = t').

Definition chunk_shape : list Z := [kvs; nl; n; hidden].
Definition chunk_nbytes : Z := kvs * nl * n * hidden * isz.
Definition chunk_element (k l t i : Z) : Z :=
  dt_address (contiguous_at p chunk_shape dt dev) [k; l; t; i].

Context (Hout : outside_cache g dt kind kv p chunk_nbytes).

(** The element moved, and where from *)
Definition moved_element (k l t i : Z) : Prop :=
  0 <= k < kvs /\ 0 <= l < nl /\ skip <= t < n /\ 0 <= slot t /\ 0 <= i < hidden.

Definition dst_element (k l t i : Z) : Z :=
  if to_chunk then chunk_element k l t i else element k l (slot t) i.
Definition src_element (k l t i : Z) : Z :=
  if to_chunk then element k l (slot t) i else chunk_element k l t i.

(** Every element of the tokens past [skip] that have a slot is copied; nothing else changes. *)
Record copies_rows (m m' : Z -> Z) : Prop := {
  cr_moved : forall k l t i r, moved_element k l t i -> 0 <= r < isz ->
    m' (dst_element k l t i + r) = m (src_element k l t i + r);
  cr_frame : forall a,
    (forall k l t i r, moved_element k l t i -> 0 <= r < isz -> a <> dst_element k l t i + r) ->
    m' a = m a;
}.

Lemma chunk_element_eq k l t i :
  chunk_element k l t i = p + (((k * nl + l) * n + t) * hidden + i) * isz.
Proof.
  unfold chunk_element. rewrite dt_address_contiguous by done. do 2 f_equal.
  cbn [chunk_shape ravel]. unfold prodZ. cbn [foldr]. ring.
Qed.

(** The same bytes, cut in pieces of another size *)
Lemma regroup na a nb' b i r :
  0 < b -> na * a = nb' * b -> 0 <= i < na -> 0 <= r < a ->
  exists i' o, 0 <= i' < nb' /\ 0 <= o < b /\ i * a + r = i' * b + o.
Proof.
  intros Hb Hab Hi Hr. exists ((i * a + r) / b), ((i * a + r) mod b).
  pose proof (Z.div_mod (i * a + r) b ltac:(lia)). pose proof (Z.mod_pos_bound (i * a + r) b Hb).
  assert (0 <= i * a + r < nb' * b) by nia.
  split; [split; [apply Z.div_pos; lia|apply Z.div_lt_upper_bound; lia]|]. split; [done|lia].
Qed.

(** Scalars of [sz] bytes, [spt] of them a row, kept by [paged] in the cache *)
Section scalars.
Context (sz spt : Z) (Hsz : 0 < sz) (Hrow : spt * sz = hidden * isz) (paged : cell -> Z).
Context (Hscalar : forall k l s i r, in_cache g kind k l s i -> 0 <= r < isz ->
  exists i' o, 0 <= i' < spt /\ 0 <= o < sz /\ i * isz + r = i' * sz + o
    /\ element k l s i + r = paged (Cell k l s i') + o).
Context (Helement : forall k l s i' o, 0 <= k < kvs -> 0 <= l < nl -> 0 <= s < nb * bs ->
  0 <= i' < spt -> 0 <= o < sz ->
  exists i r, 0 <= i < hidden /\ 0 <= r < isz /\ i * isz + r = i' * sz + o
    /\ element k l s i + r = paged (Cell k l s i') + o).
Context (Hapart : forall k l s i k' l' s' i',
  0 <= k < kvs -> 0 <= l < nl -> 0 <= s < nb * bs -> 0 <= i < spt ->
  0 <= k' < kvs -> 0 <= l' < nl -> 0 <= s' < nb * bs -> 0 <= i' < spt ->
  Cell k l s i = Cell k' l' s' i' \/ apart (paged (Cell k l s i)) (paged (Cell k' l' s' i')) sz).
Context (Hinside : forall k l s i, 0 <= k < kvs -> 0 <= l < nl -> 0 <= s < nb * bs -> 0 <= i < spt ->
  exists t, t ∈ cache_tensors kv /\ kt_data_ptr t <= paged (Cell k l s i)
    /\ paged (Cell k l s i) + sz <= kt_data_ptr t + tensor_nbytes g dt kind).

Let chunk := chunk_cell sz p nl n spt.
Let moved := moved kvs nl n spt skip slot.

Lemma moved_bounds x : moved x ->
  0 <= c_kv x < kvs /\ 0 <= c_layer x < nl /\ 0 <= c_token x < n /\ 0 <= c_scalar x < spt
  /\ skip <= c_token x /\ 0 <= slot (c_token x) < nb * bs.
Proof.
  intros ((Hk & Hl & Ht & Hi) & Hs & H0). do 5 (split; [done|]). split; [done|]. apply Hslots. lia.
Qed.

Lemma chunk_scalar k l t i r i' o :
  i * isz + r = i' * sz + o -> chunk_element k l t i + r = chunk (Cell k l t i') + o.
Proof.
  intros E. rewrite chunk_element_eq. unfold chunk, chunk_cell. cbn [c_kv c_layer c_token c_scalar].
  set (q := (k * nl + l) * n + t).
  replace ((q * spt + i') * sz) with (q * (spt * sz) + i' * sz) by ring.
  replace ((q * hidden + i) * isz) with (q * (hidden * isz) + i * isz) by ring. rewrite Hrow. lia.
Qed.

Lemma scalars_apart : cells_apart sz kvs nl n spt skip chunk paged slot.
Proof.
  constructor.
  - intros x y Hx%moved_bounds Hy%moved_bounds. destruct x as [k l t i], y as [k' l' t' i'].
    cbn [c_kv c_layer c_token c_scalar] in *.
    set (q := ((k * nl + l) * n + t) * spt + i). set (q' := ((k' * nl + l') * n + t') * spt + i').
    destruct (decide (q = q')) as [E|Hne].
    + left. assert (forall a a' b b' d, 0 <= b < d -> 0 <= b' < d -> a * d + b = a' * d + b' -> a = a' /\ b = b') as Hdm.
      { intros a a' b b' d Hb Hb' E'. assert (a = a') by nia. split; [done|nia]. }
      unfold q, q' in E. apply Hdm in E as [E ->]; [|lia..]. apply Hdm in E as [E ->]; [|lia..].
      apply Hdm in E as [-> ->]; [done|lia..].
    + right. unfold chunk, chunk_cell, apart. cbn [c_kv c_layer c_token c_scalar]. fold q q'.
      assert (q + 1 <= q' \/ q' + 1 <= q) as [|] by lia; nia.
  - intros x y Hx%moved_bounds Hy%moved_bounds. unfold slot_cell. apply Hapart; tauto.
  - intros x y Hx%moved_bounds Hy%moved_bounds.
    destruct (Hinside (c_kv y) (c_layer y) (slot (c_token y)) (c_scalar y)) as (t & Ht & H1 & H2); try tauto.
    fold (slot_cell slot y) in *. specialize (Hout t Ht).
    destruct Hx as (Hk & Hl & Htk & Hi & _). unfold chunk_nbytes in Hout.
    pose proof (mul_add_bounds _ _ _ _ Hk Hl) as B1. pose proof (mul_add_bounds _ _ _ _ B1 Htk) as B2.
    pose proof (mul_add_bounds _ _ _ _ B2 Hi) as B3.
    assert (kvs * nl * n * hidden * isz = kvs * nl * n * spt * sz) as E by (rewrite <- !Z.mul_assoc; do 3 f_equal; lia).
    rewrite E in Hout. unfold apart, chunk, chunk_cell.
    set (q := ((c_kv x * nl + c_layer x) * n + c_token x) * spt + c_scalar x) in *. nia.
  - intros x y Hx%moved_bounds Hy%moved_bounds E. apply Hdistinct; lia || done.
Qed.

(** Running the copies of a transfer, in any order, moves the rows. *)
Lemma run_rows cs cs' m :
  transfers kvs nl n spt skip chunk paged slot to_chunk cs -> (forall c, c ∈ cs' <-> c ∈ cs) ->
  copies_rows m (run_copies sz m cs').
Proof.
  intros Htr Hcs.
  assert (transfers kvs nl n spt skip chunk paged slot to_chunk cs') as Htr' by (intros c; rewrite Hcs; apply Htr).
  constructor.
  - intros k l t i r (Hk & Hl & Ht & Hs & Hi) Hr.
    destruct (Hscalar k l (slot t) i r) as (i' & o & Hi' & Ho & E & Epg); [|done|].
    { split; [done|]. split; [done|]. split; [split; [done|by apply Hslots]|done]. }
    pose proof (run_transfer sz kvs nl n spt skip chunk paged slot to_chunk scalars_apart cs' m
      (Cell k l t i') o Htr') as Hrun.
    unfold dst_element, src_element. pose proof (chunk_scalar k l t i r i' o E) as Ec.
    unfold slot_cell in Hrun. cbn [c_kv c_layer c_token c_scalar] in Hrun.
    destruct to_chunk; rewrite Ec, Epg; apply Hrun; try done; repeat split; cbn; lia || done.
  - intros a Ha. apply (run_transfer_frame sz Hsz kvs nl n spt skip chunk paged slot to_chunk cs' m a Htr').
    intros x Hx. pose proof (moved_bounds x Hx) as (Hk & Hl & Ht & Hi & Hsk & Hs). destruct x as [k l t i'].
    cbn [c_kv c_layer c_token c_scalar] in *. cbv zeta. unfold slot_cell. cbn [c_kv c_layer c_token c_scalar].
    intros Hin. set (q := if to_chunk then chunk (Cell k l t i') else paged (Cell k l (slot t) i')) in *.
    destruct (Helement k l (slot t) i' (a - q)) as (i & r & Hi1 & Hr & E & Epg); [done..|lia|].
    apply (Ha k l t i r); [|done|].
    + do 2 (split; [done|]). split; [lia|]. split; [lia|done].
    + pose proof (chunk_scalar k l t i r i' (a - q) E) as Ec. unfold dst_element, q in *.
      destruct to_chunk; lia.
Qed.

End scalars.

(** ** The two kernels *)

Context (beyond : Z -> Z) (pinned : Z -> bool) (dispatched : Dt -> bool).

(** The pointer tables the kernels need *)
Definition layer_pointers : list Z :=
  match kv with
  | CacheTensor t => (fun l => kt_data_ptr t + l * (2 * bs * hidden * isz)) <$> rangeZ 0 (Z.to_nat nl)
  | CacheLayers ts => kt_data_ptr <$> ts
  | _ => []
  end.

Lemma table_lookup ptrs l x : 0 <= l -> ptrs !! Z.to_nat l = Some x -> table beyond ptrs l = x.
Proof. intros Hl Hx. unfold table. replace (l <? 0) with false by lia. by rewrite Hx. Qed.

Lemma paged_cell_row sz spt k l s i :
  kind <> Asymmetric -> spt * sz = hidden * isz ->
  0 <= k < kvs -> 0 <= l < nl -> 0 <= s < nb * bs ->
  paged_cell (kind_format kind) sz (table beyond layer_pointers) nl nb bs spt (Cell k l s i)
  = row k l s + i * sz.
Proof.
  intros Hk Hspt Hkk Hl Hs. unfold paged_cell, row_address. cbn [c_kv c_layer c_token c_scalar].
  rewrite Z.mul_add_distr_r, <- Z.mul_assoc, Hspt.
  enough (table beyond layer_pointers l + page_row (kind_format kind) nl nb bs k s * (hidden * isz)
    = layer_base kv l + row_of g kind k l s * (hidden * isz)) by lia.
  pose proof Hg as (?&?&Hbs&?). destruct (slot_split bs nb s Hbs Hs) as (_ & _ & Es & _).
  destruct Hwf as [Hw _]. unfold row_of, layer_pointers, layer_base. destruct kv as [t|ts|ps|]; try done.
  - destruct Hw as [-> _]. rewrite (table_lookup _ l (kt_data_ptr t + l * (2 * bs * hidden * isz))); [|lia|].
    2:{ rewrite list_lookup_fmap, lookup_rangeZ by lia. cbn [fmap option_fmap option_map].
        by rewrite Z.add_0_l, Z2Nat.id by lia. }
    cbn [kind_format page_row row_shape row_idx ravel]. unfold prodZ. cbn [foldr]. ring.
  - destruct Hw as (Hpl & Hlen & _). unfold lenZ in Hlen.
    destruct (lookup_lt_is_Some_2 ts (Z.to_nat l)) as [t Ht]; [lia|].
    rewrite (table_lookup _ l (kt_data_ptr t)) by (lia || by rewrite list_lookup_fmap, Ht).
    rewrite Ht. cbn [default fmap option_fmap option_map]. unfold id.
    destruct kind; try done; cbn [kind_format page_row row_shape row_idx ravel]; unfold prodZ; cbn [foldr];
      set (b := s / bs) in *; set (o := s mod bs) in *; clearbody b o; subst s; ring.
  - by destruct Hw.
Qed.

(** A launch moves the rows, however the device orders its copies. *)
Definition moves_rows (l : launched_copies) : Prop :=
  forall cs m, (forall c, c ∈ cs <-> c ∈ l_copies l) -> copies_rows m (run_copies (l_size l) m cs).

(** No offset overflows. *)
Definition sizes_fit : Prop :=
  match kind with
  | Asymmetric => hidden < 2 ^ 31 /\ 2 * nl * n * hidden <= 2 ^ 31 /\ nb * bs * hidden <= 2 ^ 31
      /\ nb * bs <= 2 ^ 31
  | _ => hidden * isz < 2 ^ 31 /\ kvs * nl * n * (hidden * isz) <= 2 ^ 31
      /\ page_scalars (kind_format kind) nl nb bs (hidden * isz) <= offset_range (kind_format kind)
  end.

Context (Hnl : nl < 2 ^ 16) (Hn : skip < n) (Hn31 : n < 2 ^ 31) (Hfit : sizes_fit).
Context (obj : dtensor Dt torch_device) (Hobj_shape : dt_shape obj = chunk_shape)
  (Hobj_ptr : dt_ptr obj = p) (Hobj_dt : dt_dtype obj = dt) (Hobj_kernel : get_kernel_ptr pinned obj = Ok p).

Lemma symmetric_moves :
  kind <> Asymmetric -> (isz | 8) ->
  exists l, multi_layer_kv_transfer pinned obj (table beyond layer_pointers) slot (nb * bs)
      (if to_chunk then D2H else H2D) (kind_format kind) bs skip = Ok l /\ moves_rows l.
Proof.
  intros Hk Hdiv. pose proof (hidden_pos g Hg) as Hh. pose proof (itemsize_pos dt) as Hi.
  pose proof Hg as (?&?&?&?). unfold sizes_fit in Hfit.
  assert (hidden * isz < 2 ^ 31 /\ kvs * nl * n * (hidden * isz) <= 2 ^ 31
    /\ page_scalars (kind_format kind) nl nb bs (hidden * isz) <= offset_range (kind_format kind))
    as (F1 & F2 & F3) by (by destruct kind).
  assert ((if is_mla (kind_format kind) then 1 else 2) = kvs) as Hkvs by (by destruct kind).
  destruct (multi_layer_transfers pinned obj (kind_format kind) kvs nl n hidden nb bs skip
    (table beyond layer_pointers) slot (if to_chunk then D2H else H2D))
    as (sz & spt & cs & Hsz & Hspt & Hl & Htr); rewrite ?Hobj_dt, ?Hkvs, ?Hobj_ptr in *; try done; try lia.
  { by destruct kind. }
  exists (Launched sz cs). split; [done|]. intros cs' m Hcs. cbn [l_size l_copies] in *.
  eapply (run_rows sz spt Hsz Hspt); [| | | | |exact Hcs].
  5:{ by destruct to_chunk. }
  - intros k l s i r Hin Hr. pose proof Hin as (Hkk & Hll & Hss & Hii).
    destruct (regroup hidden isz spt sz i r Hsz (eq_sym Hspt) Hii Hr) as (i' & o & Hi' & Ho & E).
    exists i', o. do 3 (split; [done|]). rewrite paged_cell_row by done.
    rewrite (kv_element_row g dt dev Hg) by done. lia.
  - intros k l s i' o Hkk Hll Hss Hi' Ho.
    destruct (regroup spt sz hidden isz i' o Hi Hspt Hi' Ho) as (i & r & Hii & Hr & E).
    exists i, r. do 2 (split; [done|]). split; [lia|]. rewrite paged_cell_row by done.
    rewrite (kv_element_row g dt dev Hg) by (done || by split). lia.
  - intros k l s i k' l' s' i' Hk1 Hl1 Hs1 Hi1 Hk2 Hl2 Hs2 Hi2. rewrite !paged_cell_row by done.
    destruct (rows_apart g dt dev Hg kind kv k l s k' l' s' Hk Hwf Hk1 Hl1 Hs1 Hk2 Hl2 Hs2) as [[= <- <- <-]|Hap].
    + destruct (decide (i = i')) as [<-|]; [by left|]. right. unfold apart.
      assert (i + 1 <= i' \/ i' + 1 <= i) as [|] by lia; nia.
    + right. unfold apart in *. nia.
  - intros k l s i Hk1 Hl1 Hs1 Hi1. rewrite paged_cell_row by done.
    destruct (row_inside g dt dev Hg kind kv k l s Hk Hwf Hk1 Hl1 Hs1) as (t & Ht & B1 & B2).
    exists t. split; [done|]. nia.
Qed.

Definition key_pointers : list Z :=
  match kv with CachePairs ps => (fun q => kt_data_ptr q.1) <$> ps | _ => [] end.
Definition value_pointers : list Z :=
  match kv with CachePairs ps => (fun q => kt_data_ptr q.2) <$> ps | _ => [] end.

Lemma asymmetric_cell_element k l s i :
  kind = Asymmetric -> in_cache g kind k l s i ->
  asymmetric_cell isz (table beyond key_pointers) (table beyond value_pointers) (cg_nh g) (cg_hs g) bs
    (Cell k l s i) = element k l s i.
Proof.
  intros Hk Hin. pose proof Hin as (_ & Hl & _). pose proof Hwf as Hw. rewrite Hk in Hw.
  destruct (pair_lookup g dt dev kv l Hw Hl) as (ps & q & Ekv & Hp & _ & _ & L1 & L2).
  pose proof Hin as Hin'. rewrite Hk in Hin'.
  destruct (asymmetric_element g dt dev Hg kv k l s i Hw Hin') as (t & Ht & E & _). rewrite Hk, E.
  destruct Hin' as (Hkk & _). cbn [kv_size] in Hkk.
  unfold asymmetric_cell, key_pointers, value_pointers. rewrite Ekv. cbn [c_kv c_layer c_token c_scalar].
  f_equal. destruct (Z.eqb_spec k 0) as [->|Hk0].
  - rewrite (table_lookup _ l (kt_data_ptr q.1)) by (lia || by rewrite list_lookup_fmap, Hp).
    replace (Z.to_nat (2 * l + 0)) with (2 * Z.to_nat l)%nat in Ht by lia. congruence.
  - rewrite (table_lookup _ l (kt_data_ptr q.2)) by (lia || by rewrite list_lookup_fmap, Hp).
    replace (Z.to_nat (2 * l + k)) with (S (2 * Z.to_nat l)) in Ht by lia. congruence.
Qed.

Lemma asymmetric_moves :
  kind = Asymmetric -> dispatched dt = true ->
  exists l, multi_layer_kv_transfer_asymmetric pinned dispatched obj (table beyond key_pointers)
      (table beyond value_pointers) slot n (cg_nh g) (cg_hs g) bs to_chunk skip = Ok l /\ moves_rows l.
Proof.
  intros Hk Hdp. pose proof (itemsize_pos dt) as Hi. pose proof Hg as (?&?&?&?&?).
  unfold sizes_fit in Hfit. rewrite Hk in Hfit. destruct Hfit as (F1 & F2 & F3 & F4).
  assert (kvs = 2) as Hkvs by (by rewrite Hk).
  destruct (asymmetric_transfers pinned dispatched obj kvs nl n (cg_nh g) (cg_hs g) nb bs skip
    (table beyond key_pointers) (table beyond value_pointers) slot to_chunk)
    as (cs & Hl & Htr); rewrite ?Hobj_dt, ?Hobj_ptr in *; try done; try lia.
  { unfold cg_hidden in *. nia. }
  exists (Launched isz cs). split; [done|]. intros cs' m Hcs. cbn [l_size l_copies] in *.
  rewrite <- Hkvs in Htr. fold (cg_hidden g) in Htr.
  eapply (run_rows isz hidden Hi eq_refl); [| | | |exact Htr|exact Hcs].
  - intros k l s i r Hin Hr. exists i, r. pose proof Hin as (_ & _ & _ & ?).
    do 3 (split; [done|]). by rewrite asymmetric_cell_element.
  - intros k l s i o Hkk Hll Hss Hii Ho. exists i, o. do 3 (split; [done|]). by rewrite asymmetric_cell_element.
  - intros k l s i k' l' s' i' Hk1 Hl1 Hs1 Hi1 Hk2 Hl2 Hs2 Hi2. rewrite !asymmetric_cell_element by done.
    rewrite Hk in *. destruct (asymmetric_apart g dt dev Hg kv k l s i k' l' s' i' Hwf) as [[= <- <- <- <-]|]; try done; [by left|by right].
  - intros k l s i Hk1 Hl1 Hs1 Hi1. rewrite asymmetric_cell_element by done. rewrite Hk in *.
    by apply (asymmetric_inside g dt dev Hg).
Qed.

End transfers.
