(* ===== verification/GpuFacts.v ===== *)
(** * What the GPU connector does

    The pointer tables it keeps, and what [from_gpu], [to_gpu] and their batched forms leave in
    memory, for every layout of the engine's cache and every order in which the device runs the
    copies of a kernel. *)

From S2P Require Import Prelude Tensor DirectIO World DeviceTensor KvKernels KvKernelFacts GpuConnector GpuLayouts GpuTransfers.

Open Scope string_scope.
Open Scope list_scope.
Open Scope Z_scope.

Section facts.
Context {Dt : Type} `{!TorchDtype Dt, !TorchDtypeLaws Dt}.
Context (schedule : list copy -> list copy) (beyond : Z -> Z) (cast : Dt -> Dt -> list Z -> list Z)
  (pinned : Z -> bool) (dispatched : Dt -> bool).
Context (Hschedule : forall l c, c ∈ schedule l <-> c ∈ l).
Implicit Types (s : gpu_state Dt).

Lemma length_fmap_lenZ {A B} (f : A -> B) (l : list A) : lenZ (f <$> l) = lenZ l.
Proof. unfold lenZ. by rewrite length_fmap. Qed.

(** ** Pointer tables *)

(** A table whose signature is recorded holds the pointers of the signature. *)
Definition tables_current s : Prop :=
  forall idx sg, g_signatures s !! idx = Some sg -> g_pointers s !! idx = Some sg.

(** Everything but the geometry and the tables *)
Definition same_data s s' : Prop :=
  g_mem s' = g_mem s /\ g_pending s' = g_pending s /\ g_stream s' = g_stream s /\ g_fmt s' = g_fmt s
  /\ g_kvcaches s' = g_kvcaches s.

Lemma copy_pointers_run cfg ptrs dev idx s :
  dev_type dev = "cuda" -> dev_index dev = Some idx -> lenZ ptrs = num_layers cfg -> tables_current s ->
  exists s', copy_layer_pointers_to_device beyond cfg ptrs dev s = (Ok ptrs, s')
    /\ same_data s s' /\ tables_current s' /\ g_pointers s' !! idx = Some ptrs
    /\ g_format s' = g_format s /\ g_device s' = g_device s /\ g_num_blocks s' = g_num_blocks s
    /\ g_block_size s' = g_block_size s /\ g_page_buffer_size s' = g_page_buffer_size s.
Proof.
  intros Hd Hi Hlen Hcur. unfold copy_layer_pointers_to_device. rewrite Hd, Hi, Hlen, Z.eqb_refl.
  cbn [String.eqb Ascii.eqb Bool.eqb negb].
  do 3 run_step. unfold mbind, ST_bind, st_get. cbn beta iota.
  destruct (decide (g_signatures s !! idx = Some ptrs)) as [E|Hne].
  - rewrite (Hcur _ _ E). eexists. split; [reflexivity|]. split; [done|]. split.
    + intros i sg Hs. cbn in Hs |- *. destruct (decide (i = idx)) as [->|].
      * rewrite lookup_insert_eq. unfold id. congruence.
      * rewrite lookup_insert_ne by done. by apply Hcur.
    + cbn. rewrite lookup_insert_eq. by do 5 (split; [done|]).
  - eexists. split; [reflexivity|]. split; [done|]. split.
    + intros i sg Hs. cbn in Hs |- *. destruct (decide (i = idx)) as [->|].
      * rewrite lookup_insert_eq in Hs |- *. congruence.
      * rewrite lookup_insert_ne in Hs |- * by done. by apply Hcur.
    + cbn. rewrite lookup_insert_eq. by do 5 (split; [done|]).
Qed.

Context (g : cache_geometry) (Hg : geometry_pos g) (dt : Dt) (dev : torch_device) (idx : Z)
  (Hdev : dev_type dev = "cuda") (Hidx : dev_index dev = Some idx).
Context (kind : cache_kind) (kv : kv_caches Dt) (Hwf : well_formed g dt dev kind kv).
#[local] Abbreviation nl := (cg_nl g).
#[local] Abbreviation nb := (cg_nb g).
#[local] Abbreviation bs := (cg_bs g).
#[local] Abbreviation hidden := (cg_hidden g).
#[local] Abbreviation isz := (itemsize dt).

(** Two layouts have one list of five-dimensional tensors: [shape[0] = 2] decides. *)
Definition unambiguous : Prop := kind = FlashInfer -> nb <> 2.

Lemma discover_kind :
  kind <> Asymmetric -> unambiguous -> discover_gpu_kv_format kv VLLM = Ok (kind_format kind).
Proof.
  intros Hk Hu. unfold unambiguous in Hu. destruct Hwf as [Hw _]. destruct kv as [t|ts|ps|]; try done.
  - destruct Hw as [-> (Hs & _)]. unfold discover_gpu_kv_format. cbn [list_depth_tensor_dim mbind result_bind].
    unfold ndim. rewrite Hs. reflexivity.
  - destruct Hw as (Hpl & Hlen & Hts). destruct ts as [|t ts].
    { pose proof Hg as (?&_). unfold lenZ in Hlen. cbn in Hlen. lia. }
    inversion Hts as [|? ? (Hs & _) _]; subst. unfold discover_gpu_kv_format.
    cbn [list_depth_tensor_dim mbind result_bind]. unfold ndim. rewrite Hs.
    destruct kind; try done; cbn [tensor_shape row_shape app].
    destruct (nb =? 2) eqn:E; [specialize (Hu eq_refl); lia|].
    change (py_index [nb; 2; bs; cg_nh g; cg_hs g] 0) with (Ok nb). cbn. by rewrite E.
  - by destruct Hw.
Qed.

(** A flash-infer cache of two blocks is taken for flash attention's. *)
Lemma two_block_flash_infer :
  kind = FlashInfer -> nb = 2 -> discover_gpu_kv_format kv VLLM = Ok (kind_format FlashAttention).
Proof.
  intros Hk H2. pose proof (proj1 Hwf) as Hw. rewrite Hk in Hw. destruct kv as [t|ts|ps|]; try done.
  - by destruct Hw.
  - destruct Hw as (_ & Hlen & Hts). destruct ts as [|t ts].
    { pose proof Hg as (?&_). unfold lenZ in Hlen. cbn in Hlen. lia. }
    inversion Hts as [|? ? (Hs & _) _]; subst. unfold discover_gpu_kv_format.
    cbn [list_depth_tensor_dim mbind result_bind]. unfold ndim. rewrite Hs. cbn [tensor_shape row_shape app].
    rewrite H2. reflexivity.
  - by destruct Hw.
Qed.

Record configured (cfg : gpu_config Dt) : Prop := {
  cf_layers : num_layers cfg = nl;
  cf_hidden : hidden_dim_size cfg = hidden;
  cf_mla : use_mla cfg = bool_decide (kind = MLA);
  cf_asymmetric : asymmetric cfg = bool_decide (kind = Asymmetric);
}.

(** What a run of [_initialize_pointers] leaves *)
Record initialized s s' : Prop := {
  in_data : same_data s s';
  in_tables : tables_current s';
  in_format : kind <> Asymmetric -> g_format s' = Some (kind_format kind);
  in_device : kind <> Asymmetric -> g_device s' = Some dev;
  in_block_size : kind <> Asymmetric -> g_block_size s' = bs;
  in_pages : g_page_buffer_size s' = nb * bs;
}.

(** The geometry attributes after the table of a symmetric layout *)
Definition set_up s s' : Prop :=
  same_data s s' /\ tables_current s' /\ g_pointers s' !! idx = Some (layer_pointers g dt kv)
  /\ g_format s' = g_format s /\ g_device s' = Some dev /\ g_block_size s' = bs
  /\ g_page_buffer_size s' = nb * bs.

Lemma cross_layer_run cfg s t :
  configured cfg -> kv = CacheTensor t -> tables_current s ->
  exists s', initialize_cross_layer_pointers beyond cfg t s = (Ok (layer_pointers g dt kv), s') /\ set_up s s'.
Proof.
  intros [Hcl Hch _ _] Ekv Hcur. pose proof (proj1 Hwf) as Hw. rewrite Ekv in Hw.
  destruct Hw as [_ (Hs & Hst & Hct & Hdt & Hde)]. unfold initialize_cross_layer_pointers, ndim, element_size.
  rewrite Hs, Hst, Hct, Hde, Hdev, Hcl, Hch, Hdt. cbn [tensor_shape row_shape app].
  set (sh := [nb; nl; 2; bs; cg_nh g; cg_hs g]).
  repeat run_step.
  assert (prodZ [2; bs; cg_nh g; cg_hs g] = 2 * bs * hidden) as -> by (unfold prodZ, cg_hidden; cbn; ring).
  destruct (copy_pointers_run cfg ((fun l => kt_data_ptr t + l * (2 * bs * hidden * isz)) <$> rangeZ 0 (Z.to_nat nl))
    dev idx (with_geometry (g_format s) (Some dev) nb bs (nb * bs) s))
    as (s' & Hr & Hd & Ht & Hp & Hf & Hdv & Hnb & Hb & Hpg); [done|done| |done|].
  { unfold lenZ. rewrite length_fmap, length_rangeZ, Hcl. pose proof Hg as (?&_). lia. }
  exists s'. unfold set_up, layer_pointers. rewrite Ekv. split; [exact Hr|]. by repeat (split; [assumption|]).
Qed.

Lemma per_layer_run cfg s ts :
  configured cfg -> kv = CacheLayers ts -> g_format s = Some (kind_format kind) -> tables_current s ->
  exists s', initialize_per_layer_pointers beyond cfg kv s = (Ok (layer_pointers g dt kv), s') /\ set_up s s'.
Proof.
  intros [Hcl Hch _ _] Ekv Hf Hcur. pose proof (proj1 Hwf) as Hw. rewrite Ekv in Hw |- *.
  destruct Hw as (Hpl & Hlen & Hts). destruct ts as [|t ts].
  { pose proof Hg as (?&_). unfold lenZ in Hlen. cbn in Hlen. lia. }
  pose proof Hts as Hts'. inversion Hts' as [|? ? (Hs & _ & _ & _ & Hde) _]; subst.
  unfold initialize_per_layer_pointers. rewrite Hlen, Hcl, Z.eqb_refl, Hde.
  assert (existsb (fun t' => bool_decide (kt_device t' ≠ dev)) (t :: ts) = false) as ->.
  { apply not_true_is_false. intros (t' & Hin & Hb)%existsb_exists. apply bool_decide_eq_true in Hb.
    rewrite List.Forall_forall in Hts. by destruct (Hts t' Hin) as (_ & _ & _ & _ & ?). }
  do 4 run_step. erewrite run_lift_bind by (cbn [with_geometry g_format]; by rewrite Hf).
  assert (get_num_blocks (CacheLayers (t :: ts)) (kind_format kind) = Ok nb) as Hb.
  { destruct kind; try done; cbn [kind_format get_num_blocks get_block_size layer_dim];
      change (py_index (t :: ts) 0) with (Ok t); cbn [mbind result_bind]; by rewrite Hs. }
  assert (get_block_size (CacheLayers (t :: ts)) (kind_format kind) = Ok bs) as Hbs.
  { destruct kind; try done; cbn [kind_format get_num_blocks get_block_size layer_dim];
      change (py_index (t :: ts) 0) with (Ok t); cbn [mbind result_bind]; by rewrite Hs. }
  do 3 run_step.
  destruct (copy_pointers_run cfg (kt_data_ptr <$> t :: ts) dev idx
    (with_geometry (g_format s) (Some dev) nb bs (nb * bs) s))
    as (s' & Hr & Hd & Ht & Hp & Hf' & Hdv & Hnb & Hb' & Hpg); [done|done| |done|].
  { unfold lenZ in *. by rewrite length_fmap, Hlen, Hcl. }
  exists s'. unfold set_up, layer_pointers. rewrite Ekv. split; [exact Hr|]. by repeat (split; [assumption|]).
Qed.

Lemma symmetric_cache :
  kind <> Asymmetric ->
  (exists t, kv = CacheTensor t /\ kind = CrossLayer) \/ (exists ts, kv = CacheLayers ts /\ per_layer kind = true).
Proof.
  intros Hk. destruct Hwf as [Hw _]. destruct kv as [t|ts|ps|]; try done.
  - left. exists t. by destruct Hw.
  - right. exists ts. by destruct Hw.
  - by destruct Hw.
Qed.

Lemma initialize_pointers_run cfg s :
  configured cfg -> kind <> Asymmetric -> unambiguous -> tables_current s ->
  exists s', initialize_pointers beyond cfg kv s = (Ok (layer_pointers g dt kv), s') /\ initialized s s'
    /\ g_pointers s' !! idx = Some (layer_pointers g dt kv).
Proof.
  intros Hcfg Hk Hu Hcur. unfold initialize_pointers.
  erewrite run_lift_bind by (by apply discover_kind). run_step.
  set (s1 := with_geometry (Some (kind_format kind)) _ _ _ _ s).
  assert (exists s', match kind_format kind, kv with
      | NB_NL_TWO_BS_NH_HS, CacheTensor t => initialize_cross_layer_pointers beyond cfg t
      | NB_NL_TWO_BS_NH_HS, _ => st_raise (ValueError "NB_NL_TWO_BS_NH_HS requires one cross-layer tensor.")
      | _, CacheTensor _ => st_raise (ValueError "GPU KV format requires a layer list.")
      | _, _ => initialize_per_layer_pointers beyond cfg kv
      end s1 = (Ok (layer_pointers g dt kv), s') /\ set_up s1 s') as (s' & Hr & Hd & Ht & Hp & Hf & Hdv & Hb & Hpg).
  { destruct (symmetric_cache Hk) as [(t & Ekv & Hk')|(ts & Ekv & Hpl)].
    - destruct (cross_layer_run cfg s1 t Hcfg Ekv Hcur) as (s' & Hr & Hset). exists s'. split; [|done].
      rewrite Hk', Ekv in *. exact Hr.
    - destruct (per_layer_run cfg s1 ts Hcfg Ekv eq_refl Hcur) as (s' & Hr & Hset). exists s'. split; [|done].
      rewrite Ekv in *. by destruct kind. }
  exists s'. split; [exact Hr|]. split; [|done]. by constructor.
Qed.

Lemma asymmetric_pointers_run cfg s :
  configured cfg -> kind = Asymmetric -> tables_current s ->
  exists s' pairs, initialize_asymmetric_pointers cfg kv s = (Ok (key_pointers kv, value_pointers kv), s')
    /\ initialized s s' /\ key_value_pairs kv = Ok pairs
    /\ (forall i, first_key_dim kv i = py_index [nb; cg_nh g; bs; cg_hs g] i)
    /\ kt_device <$> (fst <$> head pairs) = Some dev.
Proof.
  intros [Hcl Hch _ _] Hk Hcur. pose proof Hwf as Hwf'. rewrite Hk in Hwf'.
  destruct (pair_lookup g dt dev kv 0 Hwf' ltac:(pose proof Hg as (?&_); lia)) as (ps & [key value] & Ekv & Hp & Hkt & _).
  destruct Hkt as (Hs & _ & _ & _ & Hde). cbn [fst] in *.
  assert (lenZ ps = nl) as Hlen by (destruct Hwf' as [Hw _]; rewrite Ekv in Hw; tauto).
  assert (py_index ps 0 = Ok (key, value)) as Hp0.
  { unfold py_index. cbn [Z.ltb Z.compare]. destruct ps; [done|]. injection Hp as ->. done. }
  assert (forall f : kv_tensor Dt * kv_tensor Dt -> Z, numpy_assign (num_layers cfg) (f <$> ps) = Ok (f <$> ps)) as Hnp.
  { intros f. unfold numpy_assign. by rewrite length_fmap_lenZ, Hlen, Hcl, Z.eqb_refl. }
  unfold initialize_asymmetric_pointers, ndim. rewrite Ekv. cbn [key_value_pairs]. run_step.
  do 2 erewrite run_lift_bind by apply Hnp. run_step. cbn [fst]. rewrite Hde, Hdev, Hs, Hidx.
  eexists _, ps. split; [|split; [|split; [done|]]].
  - repeat run_step. reflexivity.
  - constructor; cbn; try done. 
  - split; [|destruct ps; [done|]; injection Hp as ->; cbn; by rewrite Hde].
    intros i. unfold first_key_dim. cbn [key_value_pairs mbind result_bind]. rewrite Hp0.
    cbn [mbind result_bind fst]. by rewrite Hs.
Qed.

(** ** Launching *)

(** The state after queueing [ops] on the current stream *)
Definition queued (ops : list (gpu_op Dt)) s : gpu_state Dt :=
  with_queues (set_pending (g_stream s) (pending (g_pending s) (g_stream s) ++ ops) (g_pending s))
    (g_stream s) s.

(** A tensor of the shape of a chunk of [n] tokens, which a kernel can reach and which is not
    part of the cache *)
Record chunk_tensor (n : Z) (t : dtensor Dt torch_device) : Prop := {
  ct_shape : dt_shape t = chunk_shape g kind n;
  ct_strides : dt_strides t = Strided.contiguous_strides (chunk_shape g kind n);
  ct_dtype : dt_dtype t = dt;
  ct_kernel : get_kernel_ptr pinned t = Ok (dt_ptr t);
  ct_outside : outside_cache g dt kind kv (dt_ptr t) (chunk_nbytes g dt kind n);
}.

(** A request for the tokens [start, end_) of a slot mapping *)
Record slots_ok (sm : list Z) (start end_ : Z) : Prop := {
  so_range : 0 <= start < end_ /\ end_ <= lenZ sm;
  so_slots : forall t x, start <= t < end_ -> sm !! Z.to_nat t = Some x -> x < nb * bs;
  so_distinct : forall t t' x, start <= t < end_ -> start <= t' < end_ -> 0 <= x ->
    sm !! Z.to_nat t = Some x -> sm !! Z.to_nat t' = Some x -> t = t';
}.

Lemma slots_at_lookup sm start end_ t :
  slots_ok sm start end_ -> 0 <= t < end_ - start ->
  sm !! Z.to_nat (start + t) = Some (slots_at beyond sm start t).
Proof.
  intros [Hr _ _] Ht. unfold slots_at, table, slice_bound, lenZ in *. replace (start <? 0) with false by lia.
  rewrite Nat.min_l by lia. replace (Z.of_nat (Z.to_nat start) + t) with (start + t) by lia.
  replace (start + t <? 0) with false by lia.
  destruct (lookup_lt_is_Some_2 sm (Z.to_nat (start + t))) as [x Hx]; [lia|]. by rewrite Hx.
Qed.

(** The conditions of the two kernels on a chunk of [n] tokens *)
Record kernel_ok (n : Z) : Prop := {
  ko_layers : nl < 2 ^ 16;
  ko_tokens : n < 2 ^ 31;
  ko_fit : sizes_fit g dt kind n;
  ko_scalar : kind <> Asymmetric -> (isz | 8);
  ko_dispatched : kind = Asymmetric -> dispatched dt = true;
}.

Section request.
Context (sm : list Z) (start end_ : Z) (Hslots : slots_ok sm start end_) (Hko : kernel_ok (end_ - start)).
#[local] Abbreviation n := (end_ - start).
#[local] Abbreviation slot := (slots_at beyond sm start).

Lemma slot_bounds t : 0 <= t < n -> slot t < nb * bs.
Proof.
  intros Ht. apply (so_slots _ _ _ Hslots (start + t)); [lia|]. by apply (slots_at_lookup sm start end_).
Qed.

Lemma slot_inj t t' : 0 <= t < n -> 0 <= t' < n -> 0 <= slot t -> slot t = slot t' -> t = t'.
Proof.
  intros Ht Ht' H0 E. enough (start + t = start + t') by lia.
  apply (so_distinct _ _ _ Hslots _ _ (slot t)); [lia|lia|done| |rewrite E]; by apply (slots_at_lookup sm start end_).
Qed.

(** What the launch on the chunk [t] does, when it runs *)
Definition moves (t : dtensor Dt torch_device) (skip : Z) (to_chunk : bool) : launched_copies -> Prop :=
  moves_rows g dt dev kind kv (dt_ptr t) n skip slot to_chunk.

Lemma transfer_run s t skip (to_chunk : bool) :
  g_format s = Some (kind_format kind) -> g_block_size s = bs -> g_page_buffer_size s = nb * bs -> kind <> Asymmetric -> chunk_tensor n t -> 0 <= skip < n ->
  exists l, transfer beyond pinned t (layer_pointers g dt kv) sm start (if to_chunk then D2H else H2D) skip s
      = (Ok tt, queued [Kernel l] s) /\ moves t skip to_chunk l.
Proof.
  intros Hf Hb Hpg Hk Hct Hskip. destruct Hko as [K1 K2 K3 K4 K5].
  destruct (symmetric_moves g Hg dt dev kind kv Hwf (dt_ptr t) n skip slot to_chunk (proj1 Hskip)
    ltac:(intros; apply slot_bounds; lia) ltac:(intros; apply slot_inj; lia)
    (ct_outside _ _ Hct) beyond pinned K1 (proj2 Hskip) K2 K3 t (ct_shape _ _ Hct) eq_refl
    (ct_dtype _ _ Hct) (ct_kernel _ _ Hct) Hk (K4 Hk)) as (l & Hl & Hm).
  exists l. split; [|done]. unfold transfer, launch. erewrite run_bind by reflexivity.
  rewrite Hf, Hb, Hpg. run_step. erewrite run_lift_bind by exact Hl. reflexivity.
Qed.

Lemma transfer_asymmetric_run s t skip (to_chunk : bool) :
  kind = Asymmetric -> (forall i, first_key_dim kv i = py_index [nb; cg_nh g; bs; cg_hs g] i) ->
  chunk_tensor n t -> 0 <= skip < n ->
  exists l, transfer_asymmetric beyond pinned dispatched t kv (key_pointers kv, value_pointers kv) sm start end_
      to_chunk skip s = (Ok tt, queued [Kernel l] s) /\ moves t skip to_chunk l.
Proof.
  intros Hk Hdim Hct Hskip. destruct Hko as [K1 K2 K3 K4 K5].
  destruct (asymmetric_moves g Hg dt dev kind kv Hwf (dt_ptr t) n skip slot to_chunk (proj1 Hskip)
    ltac:(intros; apply slot_bounds; lia) ltac:(intros; apply slot_inj; lia)
    (ct_outside _ _ Hct) beyond pinned dispatched K1 (proj2 Hskip) K2 K3 t (ct_shape _ _ Hct) eq_refl
    (ct_dtype _ _ Hct) (ct_kernel _ _ Hct) Hk (K5 Hk)) as (l & Hl & Hm).
  exists l. split; [|done]. unfold transfer_asymmetric, launch. rewrite !Hdim.
  destruct (so_range _ _ _ Hslots) as [? ?].
  assert (lenZ (py_slice sm start end_) = n) as Hlen by (rewrite py_slice_length; lia).
  do 3 run_step. cbn [fst snd]. rewrite Hlen. erewrite run_lift_bind by exact Hl. reflexivity.
Qed.


(** ** Effects *)

Lemma ct_address N t idxs : chunk_tensor N t ->
  dt_address t idxs = dt_address (contiguous_at (dt_ptr t) (chunk_shape g kind N) dt dev) idxs.
Proof. intros Hct. unfold dt_address. by rewrite (ct_strides _ _ Hct), (ct_dtype _ _ Hct). Qed.

Lemma kernel_effect l t skip to_chunk m :
  moves t skip to_chunk l ->
  copies_rows g dt dev kind kv (dt_ptr t) n skip slot to_chunk m (run_op schedule cast m (Kernel l)).
Proof. intros Hm. apply Hm. intros c. apply Hschedule. Qed.

(** An element of a chunk is inside it. *)
Lemma chunk_element_inside p k l t i r :
  0 <= k < kv_size kind -> 0 <= l < nl -> 0 <= t < n -> 0 <= i < hidden -> 0 <= r < isz ->
  p <= chunk_element g dt dev kind p n k l t i + r < p + chunk_nbytes g dt kind n.
Proof.
  intros Hk Hl Ht Hi Hr. rewrite chunk_element_eq. unfold chunk_nbytes.
  pose proof (mul_add_bounds _ _ _ _ Hk Hl) as B1. pose proof (mul_add_bounds _ _ _ _ B1 Ht) as B2.
  pose proof (mul_add_bounds _ _ _ _ B2 Hi) as B3. pose proof (mul_add_bounds _ _ _ _ B3 Hr). lia.
Qed.

(** Copying one chunk tensor over another *)
Lemma copy_chunk t b m :
  chunk_tensor n t -> chunk_tensor n b ->
  (forall k l tk i r, 0 <= k < kv_size kind -> 0 <= l < nl -> 0 <= tk < n -> 0 <= i < hidden -> 0 <= r < isz ->
     copy_cast cast m t b (dt_address t [k; l; tk; i] + r) = m (dt_address b [k; l; tk; i] + r))
  /\ forall a, ~ dt_ptr t <= a < dt_ptr t + chunk_nbytes g dt kind n -> copy_cast cast m t b a = m a.
Proof.
  intros Ht Hb. unfold copy_cast. rewrite decide_True by (by rewrite (ct_dtype _ _ Ht), (ct_dtype _ _ Hb)).
  destruct (copy_fills (Geometry 1 1 1 1 isz) dt (dt_device b) eq_refl m b (dt_ptr t) (chunk_shape g kind n) (ct_dtype _ _ Hb) eq_refl)
    as [Hin Hout].
  assert (forall a, dt_copy m t b a = dt_copy m (contiguous_at (dt_ptr t) (chunk_shape g kind n) dt (dt_device b)) b a) as E.
  { intros a. unfold dt_copy, dt_address. cbn [contiguous_at dt_shape dt_strides dt_ptr dt_dtype].
    by rewrite (ct_shape _ _ Ht), (ct_strides _ _ Ht), (ct_dtype _ _ Ht). }
  split.
  - intros k l tk i r Hk Hl Htk Hi Hr. rewrite E, <- Hin; [|unfold chunk_shape; rewrite !valid_idx_cons|done].
    2:{ repeat (split; [done|]). constructor. }
    f_equal. rewrite (ct_address _ t), dt_address_contiguous by done. lia.
  - intros a Ha. rewrite E. apply Hout. intros Hc. apply Ha. unfold chunk_nbytes, prodZ in *. cbn in Hc. nia.
Qed.

Context (cfg : gpu_config Dt) (Hcfg : configured cfg).

Definition in_buffer (a : Z) : Prop :=
  match gpu_buffer cfg with
  | None => False
  | Some b => dt_ptr b <= a < dt_ptr b + prodZ (dt_shape b) * isz
  end.

(** The intermediate buffer holds chunks of some size [N] and is not the chunk itself. *)
Definition buffer_ok (t : dtensor Dt torch_device) : Prop :=
  match gpu_buffer cfg with
  | None => True
  | Some b => exists N, chunk_tensor N b /\ dt_device b = dev
      /\ apart (dt_ptr t) (dt_ptr b) (Z.max (chunk_nbytes g dt kind n) (chunk_nbytes g dt kind N))
  end.

(** The chunk [t] holds the rows of its tokens; other memory, the buffer apart, is unchanged. *)
Record fetched (t : dtensor Dt torch_device) (m m' : Z -> Z) : Prop := {
  fe_rows : forall k l tk i r, 0 <= k < kv_size kind -> 0 <= l < nl -> 0 <= tk < n -> 0 <= slot tk ->
    0 <= i < hidden -> 0 <= r < isz ->
    m' (dt_address t [k; l; tk; i] + r) = m (kv_element g kind kv k l (slot tk) i + r);
  fe_frame : forall a, ~ dt_ptr t <= a < dt_ptr t + chunk_nbytes g dt kind n -> ~ in_buffer a -> m' a = m a;
}.

Definition run_ops (m : Z -> Z) (ops : list (gpu_op Dt)) : Z -> Z := foldl (run_op schedule cast) m ops.

Lemma fetched_direct t l m :
  chunk_tensor n t -> moves t 0 true l -> fetched t m (run_ops m [Kernel l]).
Proof.
  intros Hct Hm. pose proof (kernel_effect l t 0 true m Hm) as [Hr Hf]. unfold run_ops. cbn [foldl]. constructor.
  - intros k ly tk i r Hk Hl Ht Hs Hi Hr0. rewrite (ct_address n t _ Hct). by apply Hr.
  - intros a Ha _. apply Hf. intros k ly tk i r (Hk & Hl & Ht & Hs & Hi) Hr0 ->. apply Ha.
    by apply chunk_element_inside.
Qed.

Lemma fetched_buffered t b l m :
  chunk_tensor n t -> chunk_tensor n b -> gpu_buffer cfg = Some b ->
  apart (dt_ptr t) (dt_ptr b) (chunk_nbytes g dt kind n) -> moves b 0 true l ->
  fetched t m (run_ops m [Kernel l; TensorCopy t b]).
Proof.
  intros Ht Hb Hbuf Hap Hm. pose proof (kernel_effect l b 0 true m Hm) as [Hr Hf]. unfold run_ops. cbn [foldl].
  set (m1 := run_op schedule cast m (Kernel l)) in *.
  destruct (copy_chunk t b m1 Ht Hb) as [Hc Hcf]. constructor.
  - intros k ly tk i r Hk Hl Htk Hs Hi Hr0. cbn [run_op]. rewrite Hc by done.
    rewrite (ct_address n b _ Hb). by apply Hr.
  - intros a Ha Hnb. cbn [run_op]. rewrite Hcf by done. apply Hf.
    intros k ly tk i r (Hk & Hl & Htk & Hs & Hi) Hr0 ->. apply Hnb. unfold in_buffer. rewrite Hbuf, (ct_shape _ _ Hb).
    pose proof (chunk_element_inside (dt_ptr b) k ly tk i r Hk Hl Htk Hi Hr0) as Hin.
    unfold dst_element. unfold chunk_nbytes in Hin. unfold prodZ, chunk_shape. cbn [foldr]. nia.
Qed.

Lemma buffer_view_same b : 0 <= n -> chunk_tensor n b -> buffer_view b n = b.
Proof.
  intros Hn Hb. unfold buffer_view. destruct b as [p sh st d dv]. cbn [dt_ptr dt_shape dt_strides dt_dtype dt_device].
  f_equal. pose proof (ct_shape _ _ Hb) as E. cbn [dt_shape] in E. subst sh. unfold chunk_shape. cbn [alter list_alter].
  unfold slice_bound. replace (n <? 0) with false by lia. do 3 f_equal. f_equal. rewrite Nat.min_id. lia.
Qed.

Lemma broadcast_same t b : chunk_tensor n t -> chunk_tensor n b -> broadcast_to (dt_shape t) b = Ok b.
Proof.
  intros Ht Hb. rewrite (ct_shape _ _ Ht). unfold broadcast_to. destruct b as [p sh st d dv].
  pose proof (ct_shape _ _ Hb) as E1. pose proof (ct_strides _ _ Hb) as E2. cbn [dt_shape dt_strides] in *.
  subst sh st. unfold chunk_shape. cbn [length Nat.sub replicate app Nat.eqb zip zip_with forallb].
  rewrite !Z.eqb_refl. cbn [orb andb dt_ptr dt_dtype dt_device]. do 2 f_equal.
  cbn [Strided.contiguous_strides zip_with]. by rewrite !andb_negb_r.
Qed.

(** Queueing twice *)
Lemma queued_queued ops ops' s : queued ops' (queued ops s) = queued (ops ++ ops') s.
Proof.
  unfold queued, with_queues. cbn. by destruct (g_stream s); cbn; rewrite app_assoc.
Qed.

(** [gather] queues work that fetches the chunk. *)
Lemma gather_run t s run :
  chunk_tensor n t -> buffer_ok t ->
  (forall d, chunk_tensor n d -> exists l, run d s = (Ok tt, queued [Kernel l] s) /\ moves d 0 true l) ->
  exists ops, gather cfg t start end_ (Some dev) run s = (Ok tt, queued ops s)
    /\ forall m, fetched t m (run_ops m ops).
Proof.
  intros Ht Hbuf Hrun. unfold gather, buffer_for. destruct (Hrun t Ht) as (l & Hl & Hm).
  pose proof (fun m => fetched_direct t l m Ht Hm) as Hdirect.
  unfold buffer_ok in Hbuf. destruct (gpu_buffer cfg) as [b|] eqn:Eb; [|by run_step; exists [Kernel l]].
  destruct Hbuf as (N & Hb & Hbd & Hap). rewrite (ct_shape _ _ Hb).
  change (py_index (chunk_shape g kind N) 2) with (Ok N). cbn [mbind result_bind].
  destruct (Z.eqb_spec n N) as [<-|Hne]; [|by run_step; exists [Kernel l]].
  run_step. cbv beta iota. rewrite (bool_decide_eq_true_2 (Some (dt_device b) = Some dev)) by congruence. run_step.
  destruct (so_range _ _ _ Hslots) as [? ?]. rewrite buffer_view_same by (done || lia).
  destruct (Hrun b Hb) as (l' & Hl' & Hm'). erewrite run_bind by exact Hl'. unfold copy_.
  erewrite run_lift_bind by (by apply broadcast_same).
  exists [Kernel l'; TensorCopy t b]. split.
  - unfold enqueue, st_modify. by rewrite <- (queued_queued [Kernel l'] [TensorCopy t b]).
  - intros m. apply fetched_buffered; try done. by rewrite Z.max_id in Hap.
Qed.

(** ** Stores *)

(** The arguments name the slot mapping, and the caches are given or known. *)
Definition requested (kw : kwargs Dt) s : Prop :=
  kw_slot_mapping kw = Some sm
  /\ (kw_kvcaches kw = Some (Some kv) \/ kw_kvcaches kw = None /\ g_kvcaches s = Some kv).

Lemma initialize_kvcaches_run kw s :
  requested kw s -> exists s', initialize_kvcaches_ptr kw s = (Ok tt, s') /\ g_kvcaches s' = Some kv
    /\ g_mem s' = g_mem s /\ g_pending s' = g_pending s /\ g_stream s' = g_stream s /\ g_fmt s' = g_fmt s
    /\ (tables_current s -> tables_current s').
Proof.
  intros [_ Hkv]. unfold initialize_kvcaches_ptr. destruct Hkv as [-> | [-> Hs]].
  - eexists. by split.
  - exists s. by split.
Qed.

Lemma with_stream_run {A} st (body : ST (gpu_state Dt) A) s a s' :
  body (with_queues (g_pending s) st s) = (Ok a, s') ->
  with_stream st body s = (Ok a, with_queues (g_pending s') (g_stream s) s').
Proof.
  intros H. unfold with_stream. unfold st_finally, mbind, ST_bind, st_gets, st_modify. cbn beta iota.
  by rewrite H.
Qed.

(** The two branches of [from_gpu] *)
Lemma gather_branch s t :
  configured cfg -> unambiguous -> tables_current s -> chunk_tensor n t -> buffer_ok t ->
  exists ops s',
    (if asymmetric cfg then
       tables ← initialize_asymmetric_pointers cfg kv;
       pairs ← st_lift (key_value_pairs kv);
       with_stream StoreStream
         (gather cfg t start end_ (kt_device <$> (fst <$> head pairs)) (fun dst =>
            transfer_asymmetric beyond pinned dispatched dst kv tables sm start end_ true 0))
     else
       ptrs ← initialize_pointers beyond cfg kv;
       with_stream StoreStream
         (dev ← st_gets g_device;
          gather cfg t start end_ dev (fun dst => transfer beyond pinned dst ptrs sm start D2H 0))) s
    = (Ok tt, s')
    /\ g_mem s' = g_mem s /\ g_stream s' = g_stream s /\ g_fmt s' = g_fmt s /\ g_kvcaches s' = g_kvcaches s
    /\ g_pending s' = set_pending StoreStream (on_store (g_pending s) ++ ops) (g_pending s)
    /\ tables_current s' /\ forall m, fetched t m (run_ops m ops).
Proof.
  intros Hc Hu Hcur Ht Hbuf. destruct (so_range _ _ _ Hslots) as [Hr _]. rewrite (cf_asymmetric _ Hc).
  destruct (decide (kind = Asymmetric)) as [Hk|Hk].
  - rewrite bool_decide_true by done.
    destruct (asymmetric_pointers_run cfg s Hc Hk Hcur) as (s1 & pairs & Hp & Hin & Hkvp & Hdim & Hdv).
    erewrite run_bind by exact Hp. erewrite run_lift_bind by exact Hkvp. rewrite Hdv.
    destruct (gather_run t (with_queues (g_pending s1) StoreStream s1) (fun dst =>
        transfer_asymmetric beyond pinned dispatched dst kv (key_pointers kv, value_pointers kv) sm start end_ true 0)
        Ht Hbuf) as (ops & Hga & Hf).
    { intros d Hd. apply transfer_asymmetric_run; done || lia. }
    erewrite with_stream_run by exact Hga. destruct (in_data _ _ Hin) as (E1 & E2 & E3 & E4 & E5).
    exists ops. eexists. split; [reflexivity|]. cbn. rewrite E1, E2, E3, E4, E5.
    do 5 (split; [done|]). split; [apply (in_tables _ _ Hin)|done].
  - rewrite bool_decide_false by done.
    destruct (initialize_pointers_run cfg s Hc Hk Hu Hcur) as (s1 & Hp & Hin & _).
    erewrite run_bind by exact Hp.
    destruct (gather_run t (with_queues (g_pending s1) StoreStream s1) (fun dst =>
        transfer beyond pinned dst (layer_pointers g dt kv) sm start D2H 0) Ht Hbuf) as (ops & Hga & Hf).
    { intros d Hd. apply (transfer_run (with_queues (g_pending s1) StoreStream s1) d 0 true);
        [apply (in_format _ _ Hin Hk)|apply (in_block_size _ _ Hin Hk)|apply (in_pages _ _ Hin)|done|done|lia]. }
    erewrite with_stream_run.
    2:{ erewrite run_bind by reflexivity. cbn [with_queues g_device]. rewrite (in_device _ _ Hin Hk). exact Hga. }
    destruct (in_data _ _ Hin) as (E1 & E2 & E3 & E4 & E5).
    exists ops. eexists. split; [reflexivity|]. cbn. rewrite E1, E2, E3, E4, E5.
    do 5 (split; [done|]). split; [apply (in_tables _ _ Hin)|done].
Qed.

Lemma from_gpu_run obj t kw s :
  unambiguous -> tables_current s -> requested kw s -> on_store (g_pending s) = [] ->
  mo_tensor obj = Some t -> chunk_tensor n t -> buffer_ok t ->
  exists s', from_gpu schedule beyond cast pinned dispatched cfg obj start end_ kw s = (Ok tt, s')
    /\ fetched t (g_mem s) (g_mem s') /\ g_pending s' = g_pending s /\ g_stream s' = g_stream s
    /\ g_kvcaches s' = Some kv /\ tables_current s'
    /\ forall i, g_fmt s' i = if use_mla cfg && (i =? mo_id obj) then KV_MLA_FMT else g_fmt s i.
Proof.
  intros Hu Hcur Hreq Hst Hobj Ht Hbuf.
  destruct (initialize_kvcaches_run kw s Hreq) as (s1 & Hinit & Hkv & Hm & Hp & Hs & Hf & Hcur1).
  destruct (gather_branch s1 t Hcfg Hu (Hcur1 Hcur) Ht Hbuf)
    as (ops & s2 & Hg2 & Hm2 & Hs2 & Hf2 & Hkv2 & Hp2 & Hcur2 & Hfetch).
  unfold from_gpu. rewrite Hobj. run_step. erewrite run_bind by exact Hinit. erewrite run_bind by reflexivity.
  rewrite Hkv. run_step. rewrite (proj1 Hreq). run_step.
  erewrite run_bind by exact Hg2. unfold synchronize, st_modify at 1. erewrite run_bind by reflexivity.
  rewrite Hp2, Hp, Hst, Hm2, Hm. cbn [pending set_pending on_store on_default on_load app].
  assert (Queues (on_default (g_pending s)) [] (on_load (g_pending s)) = g_pending s) as ->.
  { destruct (g_pending s). cbn in *. by rewrite Hst. }
  destruct (use_mla cfg); eexists; (split; [reflexivity|]); cbn [with_fmt with_queues with_mem g_mem g_pending g_stream
    g_kvcaches g_fmt andb]; rewrite ?Hs2, ?Hs, ?Hf2, ?Hf, ?Hkv2; (split; [apply Hfetch|]).
  all: by do 3 (split; [done|]).
Qed.

(** ** Loads *)

(** The tokens of a chunk the engine already has *)
Definition cached_prefix (kw : kwargs Dt) : Z := Z.min n (Z.max 0 (kw_vllm_cached_tokens kw - start)).

(** What [to_gpu] changes besides its queue: nothing a later transfer depends on *)
Definition same_view s s' : Prop :=
  g_mem s' = g_mem s /\ g_stream s' = g_stream s /\ g_fmt s' = g_fmt s
  /\ g_kvcaches s' = Some kv /\ (tables_current s -> tables_current s').

Lemma to_gpu_run obj t kw s :
  unambiguous -> tables_current s -> requested kw s ->
  mo_tensor obj = Some t -> chunk_tensor n t -> g_fmt s (mo_id obj) = obj_format cfg ->
  cached_prefix kw < n ->
  exists s' l, to_gpu beyond pinned dispatched cfg obj start end_ kw s = (Ok tt, s')
    /\ moves t (cached_prefix kw) false l /\ same_view s s'
    /\ g_pending s' = set_pending (g_stream s) (pending (g_pending s) (g_stream s) ++ [Kernel l]) (g_pending s).
Proof.
  intros Hu Hcur Hreq Hobj Ht Hfmt Hskip. destruct (so_range _ _ _ Hslots) as [Hr _].
  assert (0 <= cached_prefix kw < n) as Hsk by (unfold cached_prefix in *; lia).
  destruct (initialize_kvcaches_run kw s Hreq) as (s1 & Hinit & Hkv & Hm & Hp & Hs & Hf & Hcur1).
  unfold to_gpu. rewrite Hobj. run_step. erewrite run_bind by exact Hinit. erewrite run_bind by reflexivity.
  rewrite Hkv. run_step. rewrite Hf, Hfmt, bool_decide_false by tauto. run_step. rewrite (proj1 Hreq). run_step.
  fold (cached_prefix kw). rewrite (cf_asymmetric _ Hcfg). destruct (decide (kind = Asymmetric)) as [Hk|Hk].
  - rewrite bool_decide_true by done.
    destruct (asymmetric_pointers_run cfg s1 Hcfg Hk (Hcur1 Hcur)) as (s2 & pairs & Hp2 & Hin & Hkvp & Hdim & Hdv).
    erewrite run_bind by exact Hp2. destruct (in_data _ _ Hin) as (E1 & E2 & E3 & E4 & E5).
    destruct (transfer_asymmetric_run s2 t (cached_prefix kw) false Hk Hdim Ht Hsk) as (l & Hl & Hmv).
    exists (queued [Kernel l] s2), l. split; [exact Hl|]. split; [done|]. unfold same_view. cbn.
    rewrite E1, E2, E3, E4, E5, Hm, Hp, Hs, Hf. split; [|done]. do 4 (split; [done|]). intros _. apply (in_tables _ _ Hin).
  - rewrite bool_decide_false by done.
    destruct (initialize_pointers_run cfg s1 Hcfg Hk Hu (Hcur1 Hcur)) as (s2 & Hp2 & Hin & _).
    erewrite run_bind by exact Hp2. destruct (in_data _ _ Hin) as (E1 & E2 & E3 & E4 & E5).
    destruct (transfer_run s2 t (cached_prefix kw) false) as (l & Hl & Hmv);
      [apply (in_format _ _ Hin Hk)|apply (in_block_size _ _ Hin Hk)|apply (in_pages _ _ Hin)|done|done|done|].
    exists (queued [Kernel l] s2), l. split; [exact Hl|]. split; [done|]. unfold same_view. cbn.
    rewrite E1, E2, E3, E4, E5, Hm, Hp, Hs, Hf. split; [|done]. do 4 (split; [done|]). intros _. apply (in_tables _ _ Hin).
Qed.

(** A chunk the engine has whole cannot be launched: [to_gpu] raises. *)
Lemma to_gpu_all_cached obj t kw s :
  unambiguous -> tables_current s -> requested kw s ->
  mo_tensor obj = Some t -> chunk_tensor n t -> g_fmt s (mo_id obj) = obj_format cfg ->
  end_ <= kw_vllm_cached_tokens kw ->
  exists s', to_gpu beyond pinned dispatched cfg obj start end_ kw s
    = (Raise (RuntimeError "CUDA error: invalid configuration argument"), s').
Proof.
  intros Hu Hcur Hreq Hobj Ht Hfmt Hskip. destruct (so_range _ _ _ Hslots) as [Hr Hlen].
  destruct Hko as [K1 K2 K3 K4 K5]. pose proof (hidden_pos g Hg) as Hh.
  destruct (initialize_kvcaches_run kw s Hreq) as (s1 & Hinit & Hkv & Hm & Hp & Hs & Hf & Hcur1).
  unfold to_gpu. rewrite Hobj. run_step. erewrite run_bind by exact Hinit. erewrite run_bind by reflexivity.
  rewrite Hkv. run_step. rewrite Hf, Hfmt, bool_decide_false by tauto. run_step. rewrite (proj1 Hreq). run_step.
  replace (Z.min n (Z.max 0 (kw_vllm_cached_tokens kw - start))) with n by lia.
  rewrite (cf_asymmetric _ Hcfg). destruct (decide (kind = Asymmetric)) as [Hk|Hk].
  - rewrite bool_decide_true by done.
    destruct (asymmetric_pointers_run cfg s1 Hcfg Hk (Hcur1 Hcur)) as (s2 & pairs & Hp2 & Hin & Hkvp & Hdim & Hdv).
    erewrite run_bind by exact Hp2. unfold transfer_asymmetric, launch. rewrite !Hdim.
    assert (lenZ (py_slice sm start end_) = n) as Hn by (rewrite py_slice_length; lia).
    do 3 run_step. rewrite Hn.
    erewrite asymmetric_empty by (first [apply (ct_shape _ _ Ht)|apply (ct_kernel _ _ Ht)|rewrite (ct_dtype _ _ Ht); by apply K5]).
    by eexists.
  - rewrite bool_decide_false by done.
    destruct (initialize_pointers_run cfg s1 Hcfg Hk Hu (Hcur1 Hcur)) as (s2 & Hp2 & Hin & _).
    erewrite run_bind by exact Hp2. unfold transfer, launch. erewrite run_bind by reflexivity.
    rewrite (in_format _ _ Hin Hk). run_step.
    erewrite multi_layer_empty; [by eexists|apply (ct_shape _ _ Ht)|apply (ct_kernel _ _ Ht)|by destruct kind| |done|];
      rewrite (ct_dtype _ _ Ht); [by apply K4|]. unfold sizes_fit in K3. destruct kind; try done; tauto.
Qed.

End request.

(** ** Batches *)

Section batch.
Context (cfg : gpu_config Dt) (Hcfg : configured cfg) (Hu : unambiguous).
Context (sm : list Z) (kw : kwargs Dt).
#[local] Abbreviation task := (memory_obj Dt * Z * Z)%type.

(** The slot of token [t] of the whole sequence *)
Definition token_slot (t x : Z) : Prop := sm !! Z.to_nat t = Some x /\ 0 <= x.

(** The batch covers disjoint ranges of tokens that share no slot. *)
Record batch_ok (cs : list task) : Prop := {
  bo_slots : Forall (fun c => slots_ok sm c.1.2 c.2 /\ kernel_ok (c.2 - c.1.2)) cs;
  bo_disjoint : forall i j c c' t t' x, cs !! i = Some c -> cs !! j = Some c' ->
    c.1.2 <= t < c.2 -> c'.1.2 <= t' < c'.2 -> token_slot t x -> token_slot t' x -> i = j;
  bo_tensors : Forall (fun c => exists t, mo_tensor c.1.1 = Some t /\ chunk_tensor (c.2 - c.1.2) t) cs;
}.

(** The row of token [t] of a chunk, in the chunk tensor *)
Definition obj_element (c : task) (k l t i : Z) : Z :=
  match mo_tensor c.1.1 with Some tn => dt_address tn [k; l; t - c.1.2; i] | None => 0 end.

(** A byte the load of [c] writes, and where from *)
Definition loads (c : task) (dst src : Z) : Prop :=
  exists k l t i r x, 0 <= k < kv_size kind /\ 0 <= l < nl /\ c.1.2 <= t < c.2 /\ kw_vllm_cached_tokens kw <= t
    /\ token_slot t x /\ 0 <= i < hidden /\ 0 <= r < isz
    /\ dst = kv_element g kind kv k l x i + r /\ src = obj_element c k l t i + r.

Lemma moves_loads (c : task) tn l m :
  slots_ok sm c.1.2 c.2 -> mo_tensor c.1.1 = Some tn -> chunk_tensor (c.2 - c.1.2) tn ->
  moves sm c.1.2 c.2 tn (cached_prefix c.1.2 c.2 kw) false l ->
  (forall dst src, loads c dst src -> run_op schedule cast m (Kernel l) dst = m src)
  /\ forall a, (forall src, ~ loads c a src) -> run_op schedule cast m (Kernel l) a = m a.
Proof.
  intros Hsl Htn Hct Hm. pose proof (kernel_effect sm c.1.2 c.2 l tn _ false m Hm) as [Hr Hf].
  destruct (so_range _ _ _ Hsl) as [Hrange _]. split.
  - intros dst src (k & ly & t & i & r & x & Hk & Hl & Ht & Hcached & [Hx Hx0] & Hi & Hr0 & -> & ->).
    pose proof (slots_at_lookup sm c.1.2 c.2 (t - c.1.2) Hsl ltac:(lia)) as Hsx.
    replace (c.1.2 + (t - c.1.2)) with t in Hsx by lia. rewrite Hx in Hsx. injection Hsx as Hsx.
    specialize (Hr k ly (t - c.1.2) i r). cbn in Hr. unfold obj_element. rewrite Htn.
    rewrite (ct_address (c.2 - c.1.2) tn _ Hct). rewrite Hsx. apply Hr; [|done].
    unfold moved_element. rewrite <- Hsx. unfold cached_prefix. lia.
  - intros a Ha. apply Hf. intros k ly t i r (Hk & Hl & Ht & Hs & Hi) Hr0 ->. eapply Ha.
    exists k, ly, (c.1.2 + t), i, r, (slots_at beyond sm c.1.2 t). unfold cached_prefix in Ht.
    do 2 (split; [done|]). split; [lia|]. split; [lia|]. split; [|by repeat (split; [done|])].
    split; [|done]. apply (slots_at_lookup sm c.1.2 c.2); [done|lia].
Qed.

Lemma loads_in_cache (c : task) k l i x t :
  slots_ok sm c.1.2 c.2 -> c.1.2 <= t < c.2 -> token_slot t x ->
  0 <= k < kv_size kind -> 0 <= l < nl -> 0 <= i < hidden -> in_cache g kind k l x i.
Proof.
  intros Hsl Ht [Hx Hx0] Hk Hl Hi. split; [done|]. split; [done|]. split; [|done].
  split; [done|]. by apply (so_slots _ _ _ Hsl t).
Qed.

(** A byte loaded for one chunk is not loaded for another. *)
Lemma loads_disjoint cs i j c c' dst src src' :
  batch_ok cs -> cs !! i = Some c -> cs !! j = Some c' -> loads c dst src -> loads c' dst src' -> i = j.
Proof.
  intros [Hsl Hdis _] Hi Hj (k & l & t & e & r & x & Hk & Hl & Ht & _ & Hx & He & Hr & -> & _)
    (k' & l' & t' & e' & r' & x' & Hk' & Hl' & Ht' & _ & Hx' & He' & Hr' & E & _).
  rewrite Forall_lookup in Hsl. destruct (Hsl _ _ Hi) as [Hs1 _], (Hsl _ _ Hj) as [Hs2 _].
  destruct (elements_apart g dt dev Hg kind kv k l x e k' l' x' e' Hwf) as [[= <- <- <- <-]|Hap].
  - apply (loads_in_cache c k l e x t Hs1 Ht Hx Hk Hl He).
  - apply (loads_in_cache c' k' l' e' x' t' Hs2 Ht' Hx' Hk' Hl' He').
  - by eapply (Hdis i j).
  - unfold apart in Hap. lia.
Qed.

(** A load reads no byte that another writes. *)
Lemma loads_sources cs c c' dst src dst' src' :
  batch_ok cs -> c ∈ cs -> c' ∈ cs -> loads c dst src -> loads c' dst' src' -> dst <> src'.
Proof.
  intros [Hsl _ Htn] Hc Hc' (k & l & t & e & r & x & Hk & Hl & Ht & _ & Hx & He & Hr & -> & _)
    (k' & l' & t' & e' & r' & x' & Hk' & Hl' & Ht' & _ & _ & He' & Hr' & _ & ->) E.
  rewrite list.Forall_forall in Hsl, Htn. destruct (Htn _ Hc') as (tn & Hobj & Hct).
  unfold obj_element in E. rewrite Hobj, (ct_address (c'.2 - c'.1.2) tn _ Hct) in E.
  apply (element_not_outside g dt dev Hg kind kv k l x e r (dt_ptr tn) (chunk_nbytes g dt kind (c'.2 - c'.1.2)) Hwf);
    [apply (loads_in_cache c k l e x t (proj1 (Hsl _ Hc)) Ht Hx Hk Hl He)|done|apply (ct_outside _ _ Hct)|].
  rewrite E. apply (chunk_element_inside c'.1.2 c'.2); lia || done.
Qed.

(** The queue of a batch of loads *)
Definition load_ops (cs : list task) (ops : list (gpu_op Dt)) : Prop :=
  Forall2 (fun c op => exists tn l, mo_tensor c.1.1 = Some tn /\ op = Kernel l
    /\ moves sm c.1.2 c.2 tn (cached_prefix c.1.2 c.2 kw) false l) cs ops.

(** Running it loads every chunk. *)
Lemma run_loads cs ops m :
  batch_ok cs -> load_ops cs ops ->
  (forall c dst src, c ∈ cs -> loads c dst src -> run_ops m ops dst = m src)
  /\ forall a, (forall c src, c ∈ cs -> ~ loads c a src) -> run_ops m ops a = m a.
Proof.
  intros Hb Hops. unfold run_ops.
  assert (forall k, (k <= length cs)%nat ->
    (forall i c dst src, (i < k)%nat -> cs !! i = Some c -> loads c dst src ->
       foldl (run_op schedule cast) m (take k ops) dst = m src)
    /\ forall a, (forall i c src, (i < k)%nat -> cs !! i = Some c -> ~ loads c a src) ->
       foldl (run_op schedule cast) m (take k ops) a = m a) as Hk.
  2:{ pose proof (list.Forall2_length _ _ _ Hops) as Hlen. destruct (Hk (length cs) (le_n _)) as [H1 H2].
      rewrite Hlen, firstn_all in H1, H2. split.
      - intros c dst src [i Hi]%list_elem_of_lookup Hl. apply (H1 i c); [|done..].
        rewrite <- Hlen. by eapply lookup_lt_Some.
      - intros a Ha. apply H2. intros i c src _ Hi. apply Ha. by eapply list_elem_of_lookup_2. }
  intros k. induction k as [|k IH]; intros Hk; [by split; [intros; lia|]|].
  destruct (IH ltac:(lia)) as [IH1 IH2].
  destruct (lookup_lt_is_Some_2 cs k ltac:(lia)) as [c Hc].
  destruct (Forall2_lookup_l _ _ _ _ _ Hops Hc) as (op & Hop & tn & l & Htn & -> & Hmv).
  rewrite (take_S_r _ _ _ Hop), foldl_snoc. set (m1 := foldl _ m (take k ops)) in *.
  pose proof Hb as [Hsl Hdis Hts]. rewrite Forall_lookup in Hsl, Hts.
  destruct (Hts _ _ Hc) as (tn' & Htn' & Hct). assert (tn' = tn) as -> by congruence.
  destruct (moves_loads c tn l m1 (proj1 (Hsl _ _ Hc)) Htn Hct Hmv) as [Hin Hout].
  assert (c ∈ cs) as Hcin by (by eapply list_elem_of_lookup_2).
  split.
  - intros i c' dst src Hi Hc' Hl. destruct (decide (i = k)) as [->|Hne].
    + assert (c' = c) as -> by congruence. rewrite (Hin _ _ Hl). apply IH2.
      intros j c2 src2 Hj Hc2 Hl2. eapply (loads_sources cs c2 c); [done| |done|exact Hl2|exact Hl|done].
      by eapply list_elem_of_lookup_2.
    + rewrite Hout; [apply (IH1 i c'); [lia|done..]|]. intros src2 Hl2.
      apply Hne. by eapply (loads_disjoint cs i k c' c).
  - intros a Ha. rewrite Hout by (intros src; apply (Ha k c src); [lia|done]).
    apply IH2. intros i c2 src Hi Hc2. apply (Ha i); [lia|done].
Qed.

Lemma requested_again s s' : requested sm kw s -> g_kvcaches s' = Some kv -> requested sm kw s'.
Proof. intros [Hs [H|[H _]]] Hkv; (split; [done|]); auto. Qed.

Lemma load_iter cs s :
  batch_ok cs -> Forall (fun c => g_fmt s (mo_id c.1.1) = obj_format cfg /\ cached_prefix c.1.2 c.2 kw < c.2 - c.1.2) cs ->
  tables_current s -> requested sm kw s -> g_stream s = LoadStream ->
  exists s' ops, st_iter (fun '(obj, start, end_) => to_gpu beyond pinned dispatched cfg obj start end_ kw) cs s
      = (Ok tt, s')
    /\ load_ops cs ops /\ g_mem s' = g_mem s /\ g_stream s' = LoadStream /\ g_fmt s' = g_fmt s /\ tables_current s'
    /\ requested sm kw s' /\ g_pending s' = set_pending LoadStream (on_load (g_pending s) ++ ops) (g_pending s).
Proof.
  intros [Hsl _ Htn]. revert s. induction cs as [|[[obj start] end_] cs IH]; intros s Hfmt Hcur Hreq Hst.
  - exists s, []. split; [done|]. split; [constructor|]. do 5 (split; [done|]). rewrite app_nil_r.
    by destruct (g_pending s).
  - inversion Hsl as [|? ? [Hs1 Hk1] Hsl']; inversion Htn as [|? ? (tn & Hobj & Hct) Htn'];
      inversion Hfmt as [|? ? [Hf1 Hpre] Hfmt']; subst. cbn [fst snd] in *.
    destruct (to_gpu_run sm start end_ Hs1 Hk1 cfg Hcfg obj tn kw s) as (s1 & l & Hr & Hmv & (E1 & E2 & E3 & E4 & E5) & Ep);
      try done.
    destruct (IH Hsl' Htn' s1) as (s2 & ops & Hr2 & Hops & F1 & F2 & F3 & F4 & F5 & F6).
    { eapply Forall_impl; [|exact Hfmt']. intros c. by rewrite E3. }
    { by apply E5. }
    { by eapply requested_again. }
    { congruence. }
    exists s2, (Kernel l :: ops). cbn [st_iter]. erewrite run_bind by exact Hr. split; [exact Hr2|].
    split; [constructor; [by exists tn, l|done]|]. do 2 (split; [congruence|]). split; [congruence|]. do 2 (split; [done|]).
    rewrite F6, Ep, Hst. cbn [pending set_pending on_load on_default on_store]. by rewrite <- app_assoc.
Qed.

Lemma batched_to_gpu_run objs starts ends s :
  let cs := chunks objs starts ends in
  batch_ok cs -> Forall (fun c => g_fmt s (mo_id c.1.1) = obj_format cfg /\ cached_prefix c.1.2 c.2 kw < c.2 - c.1.2) cs ->
  tables_current s -> requested sm kw s -> on_load (g_pending s) = [] ->
  exists s', batched_to_gpu schedule beyond cast pinned dispatched cfg objs starts ends kw s = (Ok tt, s')
    /\ (forall c dst src, c ∈ cs -> loads c dst src -> g_mem s' dst = g_mem s src)
    /\ (forall a, (forall c src, c ∈ cs -> ~ loads c a src) -> g_mem s' a = g_mem s a)
    /\ g_pending s' = g_pending s /\ g_stream s' = g_stream s /\ tables_current s'.
Proof.
  intros cs Hb Hfmt Hcur Hreq Hq. unfold batched_to_gpu. fold cs.
  destruct (load_iter cs (with_queues (g_pending s) LoadStream s) Hb Hfmt Hcur Hreq eq_refl)
    as (s1 & ops & Hr & Hops & E1 & E2 & E3 & E4 & E5 & E6).
  erewrite run_bind by (apply with_stream_run; exact Hr).
  unfold synchronize, st_modify. eexists. split; [reflexivity|]. cbn. rewrite E1, E6. cbn. rewrite Hq. cbn.
  destruct (run_loads cs ops (g_mem s) Hb Hops) as [H1 H2]. do 2 (split; [done|]).
  split; [destruct (g_pending s); cbn in *; by rewrite Hq|]. split; [done|exact E4].
Qed.

(** ** Batches of stores *)

(** Objects apart from each other *)
Definition stores_apart (cs : list task) : Prop :=
  forall i j c c' t t', i <> j -> cs !! i = Some c -> cs !! j = Some c' ->
     mo_tensor c.1.1 = Some t -> mo_tensor c'.1.1 = Some t' ->
     apart (dt_ptr t) (dt_ptr t') (Z.max (chunk_nbytes g dt kind (c.2 - c.1.2)) (chunk_nbytes g dt kind (c'.2 - c'.1.2))).

(** A byte the store of [c] writes, and where from *)
Definition stores (c : task) (dst src : Z) : Prop :=
  exists k l t i r x, 0 <= k < kv_size kind /\ 0 <= l < nl /\ c.1.2 <= t < c.2 /\ token_slot t x
    /\ 0 <= i < hidden /\ 0 <= r < isz
    /\ dst = obj_element c k l t i + r /\ src = kv_element g kind kv k l x i + r.

Definition in_objects (cs : list task) (a : Z) : Prop :=
  exists c t, c ∈ cs /\ mo_tensor c.1.1 = Some t /\ dt_ptr t <= a < dt_ptr t + chunk_nbytes g dt kind (c.2 - c.1.2).

Lemma buffer_bytes start end_ (t b : dtensor Dt torch_device) N :
  gpu_buffer cfg = Some b -> chunk_tensor N b ->
  apart (dt_ptr t) (dt_ptr b) (Z.max (chunk_nbytes g dt kind (end_ - start)) (chunk_nbytes g dt kind N)) ->
  forall a, in_buffer cfg a ->
    ~ dt_ptr t <= a < dt_ptr t + chunk_nbytes g dt kind (end_ - start).
Proof.
  intros Eb Hb Hap a Ha Hc. unfold in_buffer in Ha. rewrite Eb, (ct_shape _ _ Hb) in Ha.
  assert (prodZ (chunk_shape g kind N) * isz = chunk_nbytes g dt kind N) as E.
  { unfold prodZ, chunk_shape, chunk_nbytes. cbn. ring. }
  rewrite E in Ha. unfold apart in Hap. lia.
Qed.

(** The bytes of an object are not in the buffer, nor are those of the cache. *)
Lemma object_not_buffer start end_ (t : dtensor Dt torch_device) a :
  buffer_ok start end_ cfg t -> dt_ptr t <= a < dt_ptr t + chunk_nbytes g dt kind (end_ - start) -> ~ in_buffer cfg a.
Proof.
  intros Hb Ha Hin. unfold buffer_ok in Hb. destruct (gpu_buffer cfg) as [b|] eqn:Eb.
  - destruct Hb as (N & Hct & _ & Hap). by eapply buffer_bytes.
  - unfold in_buffer in Hin. by rewrite Eb in Hin.
Qed.

Lemma cache_not_buffer start end_ t k l x i r :
  buffer_ok start end_ cfg t -> in_cache g kind k l x i -> 0 <= r < isz ->
  ~ in_buffer cfg (kv_element g kind kv k l x i + r).
Proof.
  intros Hb Hin Hr Hbuf. unfold buffer_ok in Hb. unfold in_buffer in Hbuf. destruct (gpu_buffer cfg) as [b|]; [|done].
  destruct Hb as (N & Hct & _ & _). rewrite (ct_shape _ _ Hct) in Hbuf.
  apply (element_not_outside g dt dev Hg kind kv k l x i r (dt_ptr b) (chunk_nbytes g dt kind N) Hwf Hin Hr (ct_outside _ _ Hct)).
  unfold chunk_nbytes. unfold prodZ, chunk_shape in Hbuf. cbn in Hbuf. lia.
Qed.

Definition well_placed (c : task) : Prop :=
  (slots_ok sm c.1.2 c.2 /\ kernel_ok (c.2 - c.1.2))
  /\ exists t, mo_tensor c.1.1 = Some t /\ chunk_tensor (c.2 - c.1.2) t /\ buffer_ok c.1.2 c.2 cfg t.

(** The bytes of a stored chunk are in its object, and come from the cache. *)
Lemma stores_places (c : task) t dst src :
  slots_ok sm c.1.2 c.2 -> mo_tensor c.1.1 = Some t -> chunk_tensor (c.2 - c.1.2) t -> stores c dst src ->
  dt_ptr t <= dst < dt_ptr t + chunk_nbytes g dt kind (c.2 - c.1.2)
  /\ exists k l x i r, in_cache g kind k l x i /\ 0 <= r < isz /\ src = kv_element g kind kv k l x i + r.
Proof.
  intros Hsl Htn Hct (k & l & t' & i & r & x & Hk & Hl & Ht & Hx & Hi & Hr & -> & ->). split.
  - unfold obj_element. rewrite Htn, (ct_address _ t _ Hct). apply (chunk_element_inside c.1.2 c.2); lia || done.
  - exists k, l, x, i, r. split; [|done]. by apply (loads_in_cache c k l i x t').
Qed.

Lemma fetched_stores (c : task) t m m' dst src :
  slots_ok sm c.1.2 c.2 -> mo_tensor c.1.1 = Some t -> fetched sm c.1.2 c.2 cfg t m m' -> stores c dst src ->
  m' dst = m src.
Proof.
  intros Hsl Htn [Hrows _] (k & l & t' & i & r & x & Hk & Hl & Ht & [Hx Hx0] & Hi & Hr & -> & ->).
  pose proof (slots_at_lookup sm c.1.2 c.2 (t' - c.1.2) Hsl ltac:(lia)) as Hs.
  replace (c.1.2 + (t' - c.1.2)) with t' in Hs by lia. rewrite Hx in Hs. injection Hs as ->.
  unfold obj_element. rewrite Htn. apply Hrows; lia || done.
Qed.

Lemma store_iter cs s :
  Forall well_placed cs -> stores_apart cs -> tables_current s -> requested sm kw s -> on_store (g_pending s) = [] ->
  exists s', st_iter (fun '(obj, start, end_) => from_gpu schedule beyond cast pinned dispatched cfg obj start end_ kw) cs s
      = (Ok tt, s')
    /\ (forall c dst src, c ∈ cs -> stores c dst src -> g_mem s' dst = g_mem s src)
    /\ (forall a, ~ in_objects cs a -> ~ in_buffer cfg a -> g_mem s' a = g_mem s a)
    /\ g_pending s' = g_pending s /\ g_stream s' = g_stream s /\ tables_current s' /\ requested sm kw s'
    /\ (forall i, g_fmt s' i = g_fmt s i \/ use_mla cfg = true /\ g_fmt s' i = KV_MLA_FMT)
    /\ (use_mla cfg = true -> forall c, c ∈ cs -> g_fmt s' (mo_id c.1.1) = KV_MLA_FMT).
Proof.
  intros Hwp Hap. revert s. induction cs as [|c cs IH]; intros s Hcur Hreq Hq.
  { exists s. split; [done|]. split; [by intros c dst src Hc%not_elem_of_nil|]. do 5 (split; [done|]).
    split; [by left|]. by intros _ c Hc%not_elem_of_nil. }
  inversion Hwp as [|? ? [[Hsl Hk] (t & Htn & Hct & Hbuf)] Hwp']; subst.
  destruct (from_gpu_run sm c.1.2 c.2 Hsl Hk cfg Hcfg c.1.1 t kw s Hu Hcur Hreq Hq Htn Hct Hbuf)
    as (s1 & Hr & Hf & Ep & Es & Ekv & Hcur1 & Hfmt).
  destruct (IH Hwp' (fun i j c1 c2 t1 t2 Hij H1 H2 => Hap (S i) (S j) c1 c2 t1 t2 ltac:(lia) H1 H2) s1 Hcur1)
    as (s2 & Hr2 & Hst & Hfr & Ep2 & Es2 & Hcur2 & Hreq2 & Hfmt2 & Hmla2).
  { by eapply requested_again. }
  { by rewrite Ep. }
  exists s2. destruct c as [[obj start] end_]. cbn [fst snd] in *. cbn [st_iter].
  erewrite run_bind by exact Hr. split; [exact Hr2|].
  assert (forall k l x i r, in_cache g kind k l x i -> 0 <= r < isz ->
    g_mem s1 (kv_element g kind kv k l x i + r) = g_mem s (kv_element g kind kv k l x i + r)) as Hcache.
  { intros k l x i r Hin Hr0. apply (fe_frame _ _ _ _ _ _ _ Hf).
    - by apply (element_not_outside g dt dev Hg kind kv k l x i r _ _ Hwf Hin Hr0 (ct_outside _ _ Hct)).
    - by eapply cache_not_buffer. }
  assert (forall a, dt_ptr t <= a < dt_ptr t + chunk_nbytes g dt kind (end_ - start) -> g_mem s2 a = g_mem s1 a) as Hkeep.
  { intros a Ha. apply Hfr; [|by eapply object_not_buffer].
    intros (c' & t' & [j Hj]%list_elem_of_lookup & Htn' & Ha').
    pose proof (Hap 0%nat (S j) (obj, start, end_) c' t t' ltac:(lia) eq_refl Hj Htn Htn') as Hdis.
    cbn [fst snd] in *. unfold apart in Hdis. lia. }
  split.
  - intros c' dst src [->|Hc']%elem_of_cons Hs.
    + destruct (stores_places (obj, start, end_) t dst src Hsl Htn Hct Hs) as [Hin _].
      rewrite Hkeep by exact Hin. by eapply (fetched_stores (obj, start, end_)).
    + rewrite (Hst c' dst src Hc' Hs). rewrite list.Forall_forall in Hwp'. destruct (Hwp' c' Hc') as [[Hsl' _] (t' & Htn' & Hct' & _)].
      destruct (stores_places c' t' dst src Hsl' Htn' Hct' Hs) as [_ (k & l & x & i & r & Hin & Hr0 & ->)].
      by apply Hcache.
  - split.
    + intros a Ha Hb. rewrite Hfr; [|intros (c' & t' & Hc' & Ht'); apply Ha; exists c', t'; split; [by right|done]|done].
      apply (fe_frame _ _ _ _ _ _ _ Hf); [|done]. intros Hin. apply Ha. exists (obj, start, end_), t.
      split; [by left|done].
    + do 2 (split; [congruence|]). do 2 (split; [done|]). split.
      * intros i. destruct (Hfmt2 i) as [-> | Hm]; [|by right]. rewrite Hfmt. destruct (use_mla cfg); [|by left].
        cbn [andb]. destruct (i =? mo_id obj); [by right|by left].
      * intros Hmla c' [->|Hc']%elem_of_cons; [|by apply Hmla2].
        cbn [fst]. destruct (Hfmt2 (mo_id obj)) as [-> | [_ ->]]; [|done]. rewrite Hfmt, Hmla, Z.eqb_refl. done.
Qed.

End batch.
End facts.
