(* ===== verification/GpuRoundtrip.v ===== *)
(** * Properties of the GPU connector

    Chunks gathered from the engine's cache and scattered into it, between any two layouts; the
    invariant of the pointer tables; the bounds of the kernels' offsets; and the connector
    evaluated on small caches. *)

From S2P Require Import Prelude Tensor DirectIO World DeviceTensor KvKernels KvKernelFacts GpuConnector GpuLayouts GpuTransfers GpuFacts.

Open Scope string_scope.
Open Scope list_scope.
Open Scope Z_scope.

Section tables.
Context {Dt : Type} `{!TorchDtype Dt}.
Context (schedule : list copy -> list copy) (beyond : Z -> Z) (cast : Dt -> Dt -> list Z -> list Z)
  (pinned : Z -> bool) (dispatched : Dt -> bool) (cfg : gpu_config Dt).
Implicit Types (s : gpu_state Dt) (kw : kwargs Dt).

Lemma copy_pointers_tables ptrs dev : preserves tables_current (copy_layer_pointers_to_device beyond cfg ptrs dev).
Proof.
  unfold copy_layer_pointers_to_device. repeat (apply preserves_bind; [apply preserves_lift|intros ?]).
  intros s Hs. unfold mbind, ST_bind, st_get, st_put. cbn beta iota.
  case_decide as E; cbn; intros i sg Hsg; cbn in Hsg |- *.
  - destruct (decide (i = a0)) as [->|]; [|rewrite lookup_insert_ne by done; by apply Hs].
    rewrite lookup_insert_eq. rewrite E in Hsg. injection Hsg as <-. by rewrite (Hs _ _ E).
  - destruct (decide (i = a0)) as [->|].
    + by rewrite lookup_insert_eq in Hsg |- *.
    + rewrite lookup_insert_ne in Hsg |- * by done. by apply Hs.
Qed.

(** A change of other attributes *)
Lemma modify_tables (f : gpu_state Dt -> gpu_state Dt) :
  (forall s, g_pointers (f s) = g_pointers s /\ g_signatures (f s) = g_signatures s) ->
  preserves tables_current (st_modify f).
Proof. intros Hf. apply preserves_modify. intros s Hs. destruct (Hf s) as [E1 E2]. unfold tables_current. by rewrite E1, E2. Qed.

Lemma get_tables : preserves (tables_current (Dt := Dt)) st_get.
Proof. by intros s. Qed.

Create HintDb tables.
#[local] Hint Resolve get_tables copy_pointers_tables preserves_ret preserves_raise preserves_lift
  preserves_gets : tables.

(** Runs through a method, branch by branch *)
Ltac tables := repeat first
  [ solve [auto with tables nocore]
  | apply modify_tables; by intros ?
  | apply preserves_bind; [|intros ?]
  | apply preserves_finally | apply preserves_iter; intros ?
  | match goal with |- preserves _ (let '_ := ?x in _) => destruct x end
  | match goal with |- preserves _ (if ?b then _ else _) => destruct b end
  | match goal with |- preserves _ (match ?x with _ => _ end) => destruct x end ].

Lemma launch_tables r : preserves (tables_current (Dt := Dt)) (launch r).
Proof. unfold launch, enqueue. tables. Qed.

Lemma kvcaches_tables kw : preserves tables_current (initialize_kvcaches_ptr kw).
Proof. unfold initialize_kvcaches_ptr. tables. Qed.

Lemma asymmetric_pointers_tables kv : preserves tables_current (initialize_asymmetric_pointers cfg kv).
Proof. unfold initialize_asymmetric_pointers. tables. Qed.

Lemma cross_layer_tables t : preserves tables_current (initialize_cross_layer_pointers beyond cfg t).
Proof. unfold initialize_cross_layer_pointers, set_device, set_blocks. tables. Qed.

Lemma per_layer_tables kv : preserves tables_current (initialize_per_layer_pointers beyond cfg kv).
Proof. unfold initialize_per_layer_pointers, set_device, set_blocks. tables. Qed.

#[local] Hint Resolve launch_tables kvcaches_tables asymmetric_pointers_tables cross_layer_tables
  per_layer_tables : tables.

Lemma pointers_tables kv : preserves tables_current (initialize_pointers beyond cfg kv).
Proof. unfold initialize_pointers, set_format. tables. Qed.

Lemma transfer_tables t ptrs sm start d skip :
  preserves tables_current (transfer beyond pinned t ptrs sm start d skip).
Proof. unfold transfer. tables. Qed.

Lemma transfer_asymmetric_tables t kv tb sm start end_ d skip :
  preserves tables_current (transfer_asymmetric beyond pinned dispatched t kv tb sm start end_ d skip).
Proof. unfold transfer_asymmetric. tables. Qed.

#[local] Hint Resolve pointers_tables transfer_tables transfer_asymmetric_tables : tables.

Lemma to_gpu_tables obj start end_ kw :
  preserves tables_current (to_gpu beyond pinned dispatched cfg obj start end_ kw).
Proof. unfold to_gpu. tables. Qed.

Lemma with_stream_tables {A} st (body : ST (gpu_state Dt) A) :
  preserves tables_current body -> preserves tables_current (with_stream st body).
Proof. intros Hb. unfold with_stream. tables. Qed.

Lemma gather_tables t start end_ dev run :
  (forall x, preserves tables_current (run x)) -> preserves tables_current (gather cfg t start end_ dev run).
Proof. intros Hrun. unfold gather, copy_, enqueue. tables. Qed.

Lemma synchronize_tables st : preserves tables_current (synchronize schedule cast st).
Proof. unfold synchronize. tables. Qed.

#[local] Hint Resolve to_gpu_tables with_stream_tables gather_tables synchronize_tables : tables.

Lemma from_gpu_tables obj start end_ kw :
  preserves tables_current (from_gpu schedule beyond cast pinned dispatched cfg obj start end_ kw).
Proof. unfold from_gpu. tables. Qed.

Lemma batched_to_gpu_tables objs starts ends kw :
  preserves tables_current (batched_to_gpu schedule beyond cast pinned dispatched cfg objs starts ends kw).
Proof. unfold batched_to_gpu. tables. Qed.

Lemma batched_from_gpu_tables objs starts ends kw :
  preserves tables_current (batched_from_gpu schedule beyond cast pinned dispatched cfg objs starts ends kw).
Proof. pose proof from_gpu_tables. unfold batched_from_gpu. tables. Qed.

Lemma plans_tables starts ends dir kw :
  preserves tables_current (build_direct_io_plans cfg starts ends dir kw).
Proof. unfold build_direct_io_plans. tables. Qed.

(** The pointers of a cache's layers *)
Definition pointers_of (kv : kv_caches Dt) (ptrs : list Z) : Prop :=
  match kv with
  | CacheTensor t => exists stride, py_index (kt_strides t) 1 = Ok stride
      /\ ptrs = (fun l => kt_data_ptr t + l * (stride * element_size t)) <$> rangeZ 0 (Z.to_nat (num_layers cfg))
  | CacheLayers l => ptrs = kt_data_ptr <$> l
  | _ => False
  end.

Lemma copy_pointers_result layer_ptrs dev s ptrs s' :
  tables_current s -> copy_layer_pointers_to_device beyond cfg layer_ptrs dev s = (Ok ptrs, s') ->
  ptrs = layer_ptrs /\ lenZ ptrs = num_layers cfg.
Proof.
  intros Hs H. unfold copy_layer_pointers_to_device in H.
  apply st_bind_Ok in H as (u1 & s1 & E1 & H). injection E1 as _ <-.
  apply st_bind_Ok in H as (idx & s1 & E2 & H). injection E2 as _ <-.
  apply st_bind_Ok in H as (u2 & s1 & E3 & H). injection E3 as E3 <-. apply raise_if_Ok in E3.
  unfold mbind, ST_bind, st_get, st_put in H. cbn beta iota in H.
  assert (ptrs = layer_ptrs) as ->; [|split; [done|]; bool_prop; lia].
  case_decide as E; injection H as <- _; [|done]. by rewrite (Hs _ _ E).
Qed.

(** One step of a run that returned *)
Ltac next_step H :=
  match type of H with
  | (_ ≫= _) _ = _ =>
      let x := fresh "x" in let s := fresh "s" in let E := fresh "E" in
      apply st_bind_Ok in H as (x & s & E & H); injection E as ? <-
  end.

Lemma pointers_result kv s ptrs s' :
  tables_current s -> initialize_pointers beyond cfg kv s = (Ok ptrs, s') ->
  pointers_of kv ptrs /\ lenZ ptrs = num_layers cfg.
Proof.
  intros Hs H. unfold initialize_pointers in H.
  apply st_bind_Ok in H as (f & s1 & E1 & H). injection E1 as _ <-.
  apply st_bind_Ok in H as (u & s1 & E2 & H).
  assert (tables_current s1) as Hs1 by (injection E2 as _ <-; exact Hs). clear E2 Hs s.
  assert ((exists t, kv = CacheTensor t /\ initialize_cross_layer_pointers beyond cfg t s1 = (Ok ptrs, s'))
    \/ initialize_per_layer_pointers beyond cfg kv s1 = (Ok ptrs, s')) as [(t & -> & Ht)|Hl].
  { destruct f, kv; try discriminate H; eauto. }
  - unfold initialize_cross_layer_pointers, set_device, set_blocks in Ht. repeat next_step Ht.
    apply copy_pointers_result in Ht as [-> Hlen]; [|exact Hs1]. split; [|done]. cbn. eauto.
  - destruct kv as [t|[|t ts]|ps|l]; try discriminate Hl; unfold initialize_per_layer_pointers, set_device, set_blocks in Hl.
    + repeat next_step Hl. apply copy_pointers_result in Hl as [-> Hlen]; [done|exact Hs1].
    + destruct ps; [discriminate Hl|]. next_step Hl. discriminate Hl.
    + destruct l; [discriminate Hl|]. next_step Hl. discriminate Hl.
Qed.

(** C20: the kernels are given the pointers of the caches in use. The invariant that a table
    with a recorded signature holds the pointers of its signature survives every method of the
    connector, also one that raises; and under it, whatever caches were registered before (freed
    and reallocated on the same device included), [_initialize_pointers] returns, when it
    returns, one pointer per layer: those of the caches it was given. *)
Theorem pointer_tables_current s :
  tables_current s ->
  (forall obj start end_ kw,
     tables_current (from_gpu schedule beyond cast pinned dispatched cfg obj start end_ kw s).2)
  /\ (forall obj start end_ kw, tables_current (to_gpu beyond pinned dispatched cfg obj start end_ kw s).2)
  /\ (forall objs starts ends kw,
       tables_current (batched_from_gpu schedule beyond cast pinned dispatched cfg objs starts ends kw s).2)
  /\ (forall objs starts ends kw,
       tables_current (batched_to_gpu schedule beyond cast pinned dispatched cfg objs starts ends kw s).2)
  /\ (forall starts ends dir kw, tables_current (build_direct_io_plans cfg starts ends dir kw s).2)
  /\ forall kv ptrs s', initialize_pointers beyond cfg kv s = (Ok ptrs, s') ->
       pointers_of kv ptrs /\ lenZ ptrs = num_layers cfg.
Proof.
  intros Hs. split; [intros; by apply from_gpu_tables|]. split; [intros; by apply to_gpu_tables|].
  split; [intros; by apply batched_from_gpu_tables|]. split; [intros; by apply batched_to_gpu_tables|].
  split; [intros; by apply plans_tables|]. intros kv ptrs s'. by apply pointers_result.
Qed.

End tables.

(** ** Batches *)

Section roundtrip.
Context {Dt : Type} `{!TorchDtype Dt, !TorchDtypeLaws Dt}.
Context (schedule : list copy -> list copy) (beyond : Z -> Z) (cast : Dt -> Dt -> list Z -> list Z)
  (pinned : Z -> bool) (dispatched : Dt -> bool).
Implicit Types (s : gpu_state Dt) (kw : kwargs Dt) (kv : kv_caches Dt) (cfg : gpu_config Dt).
#[local] Abbreviation task := (memory_obj Dt * Z * Z)%type.

(** A cache on a CUDA device, and a connector made for its model *)
Record served g (dt : Dt) dev kind kv cfg : Prop := {
  sv_geometry : geometry_pos g;
  sv_cuda : dev_type dev = "cuda";
  sv_index : is_Some (dev_index dev);
  sv_cache : well_formed g dt dev kind kv;
  sv_unambiguous : unambiguous g kind;
  sv_config : configured g kind cfg;
}.

(** The order in which the device runs the copies of a launch is any permutation of them. *)
Definition any_order : Prop := forall l c, c ∈ schedule l <-> c ∈ l.

(** C13: gathering. For each of the five layouts of the engine's cache, with or without the
    intermediate buffer, and whatever the order in which the device runs the copies of each
    kernel, [batched_from_gpu] returns and leaves in every object, at K or V [k], layer [l] and
    token [t], the elements the cache held there at the slot of [t]. Memory outside the objects
    and the buffer is unchanged, no work is left on the stream, and MLA objects alone change
    their format. *)
Theorem batched_from_gpu_correct g dt dev kind kv cfg sm kw objs starts ends s :
  let cs := chunks objs starts ends in
  any_order -> served g dt dev kind kv cfg ->
  Forall (well_placed pinned dispatched g dt dev kind kv cfg sm) cs -> stores_apart g dt kind cs ->
  tables_current s -> requested kv sm kw s -> on_store (g_pending s) = [] ->
  exists s', batched_from_gpu schedule beyond cast pinned dispatched cfg objs starts ends kw s = (Ok tt, s')
    /\ (forall c k l t i r x, c ∈ cs -> 0 <= k < kv_size kind -> 0 <= l < cg_nl g -> c.1.2 <= t < c.2 ->
         token_slot sm t x -> 0 <= i < cg_hidden g -> 0 <= r < itemsize dt ->
         g_mem s' (obj_element c k l t i + r) = g_mem s (kv_element g kind kv k l x i + r))
    /\ (forall a, ~ in_objects g dt kind cs a -> ~ in_buffer dt cfg a -> g_mem s' a = g_mem s a)
    /\ g_pending s' = g_pending s /\ tables_current s'
    /\ (forall i, g_fmt s' i = g_fmt s i \/ use_mla cfg = true /\ g_fmt s' i = KV_MLA_FMT)
    /\ (use_mla cfg = true -> forall c, c ∈ cs -> g_fmt s' (mo_id c.1.1) = KV_MLA_FMT).
Proof.
  intros cs Hsch [Hg Hcuda [idx Hidx] Hwf Hu Hcfg] Hwp Hap Hcur Hreq Hq.
  destruct (store_iter schedule beyond cast pinned dispatched Hsch g Hg dt dev idx Hcuda Hidx kind kv Hwf
    cfg Hcfg Hu sm kw cs s Hwp Hap Hcur Hreq Hq) as (s' & Hr & Hst & Hfr & Hp & _ & Hc & _ & Hf & Hm).
  exists s'. split; [exact Hr|]. split; [|done]. intros c k l t i r x Hc' Hk Hl Ht Hx Hi Hr0.
  apply (Hst c); [done|]. by exists k, l, t, i, r, x.
Qed.

(** C14: scattering. Under the same conditions, and when no chunk lies wholly in the prefix the
    engine already has ([cached_prefix]: for such a chunk the code raises, and the engine's mask
    passes none), [batched_to_gpu] returns and leaves in the cache,
    at K or V [k], layer [l] and the slot of every token [t] the engine does not have yet, the
    elements the chunk of [t] holds there; nothing else in memory changes: not the slots of
    cached tokens, of tokens without a slot, nor those of other requests. *)
Theorem batched_to_gpu_correct g dt dev kind kv cfg sm kw objs starts ends s :
  let cs := chunks objs starts ends in
  any_order -> served g dt dev kind kv cfg -> batch_ok pinned dispatched g dt kind kv sm cs ->
  Forall (fun c => g_fmt s (mo_id c.1.1) = obj_format cfg /\ cached_prefix c.1.2 c.2 kw < c.2 - c.1.2) cs ->
  tables_current s -> requested kv sm kw s -> on_load (g_pending s) = [] ->
  exists s', batched_to_gpu schedule beyond cast pinned dispatched cfg objs starts ends kw s = (Ok tt, s')
    /\ (forall c k l t i r x, c ∈ cs -> 0 <= k < kv_size kind -> 0 <= l < cg_nl g -> c.1.2 <= t < c.2 ->
         kw_vllm_cached_tokens kw <= t -> token_slot sm t x -> 0 <= i < cg_hidden g -> 0 <= r < itemsize dt ->
         g_mem s' (kv_element g kind kv k l x i + r) = g_mem s (obj_element c k l t i + r))
    /\ (forall a, (forall c k l t i r x, c ∈ cs -> 0 <= k < kv_size kind -> 0 <= l < cg_nl g ->
           c.1.2 <= t < c.2 -> kw_vllm_cached_tokens kw <= t -> token_slot sm t x -> 0 <= i < cg_hidden g ->
           0 <= r < itemsize dt -> a <> kv_element g kind kv k l x i + r) ->
         g_mem s' a = g_mem s a)
    /\ g_pending s' = g_pending s /\ tables_current s'.
Proof.
  intros cs Hsch [Hg Hcuda [idx Hidx] Hwf Hu Hcfg] Hb Hfmt Hcur Hreq Hq.
  destruct (batched_to_gpu_run schedule beyond cast pinned dispatched Hsch g Hg dt dev idx Hcuda Hidx kind kv Hwf
    cfg Hcfg Hu sm kw objs starts ends s Hb Hfmt Hcur Hreq Hq) as (s' & Hr & Hld & Hfr & Hp & _ & Hc).
  exists s'. split; [exact Hr|]. split; [|split; [|done]].
  - intros c k l t i r x Hc' Hk Hl Ht Hv Hx Hi Hr0. apply (Hld c); [done|]. by exists k, l, t, i, r, x.
  - intros a Ha. apply Hfr. intros c src Hc' (k & l & t & i & r & x & Hk & Hl & Ht & Hv & Hx & Hi & Hr0 & -> & _).
    by apply (Ha c k l t i r x).
Qed.

(** C5: rows survive the trip through the chunks, between any two layouts. Chunks gathered from
    one cache and later scattered into another (of another layout, block size, place or slot
    mapping, in the same process or after the first cache is gone) put at the slot of every
    token the engine does not have yet the elements the first cache held for that token, as
    long as the objects kept their bytes in between and no chunk lies wholly in the prefix the
    engine has ([cached_prefix]: for such a chunk the code raises). *)
Theorem gpu_roundtrip g g' dt dev dev' kind kind' kv kv' cfg cfg' sm sm' kw kw' objs starts ends s :
  let cs := chunks objs starts ends in
  any_order -> served g dt dev kind kv cfg -> served g' dt dev' kind' kv' cfg' ->
  cg_nl g' = cg_nl g -> cg_hidden g' = cg_hidden g -> kv_size kind' = kv_size kind ->
  Forall (well_placed pinned dispatched g dt dev kind kv cfg sm) cs -> stores_apart g dt kind cs ->
  tables_current s -> requested kv sm kw s -> on_store (g_pending s) = [] ->
  exists s1, batched_from_gpu schedule beyond cast pinned dispatched cfg objs starts ends kw s = (Ok tt, s1)
  /\ forall s2, (forall a, in_objects g dt kind cs a -> g_mem s2 a = g_mem s1 a) ->
     batch_ok pinned dispatched g' dt kind' kv' sm' cs ->
     Forall (fun c => g_fmt s2 (mo_id c.1.1) = obj_format cfg' /\ cached_prefix c.1.2 c.2 kw' < c.2 - c.1.2) cs ->
     tables_current s2 -> requested kv' sm' kw' s2 -> on_load (g_pending s2) = [] ->
     exists s3, batched_to_gpu schedule beyond cast pinned dispatched cfg' objs starts ends kw' s2 = (Ok tt, s3)
     /\ forall c k l t i r x x', c ∈ cs -> 0 <= k < kv_size kind -> 0 <= l < cg_nl g -> c.1.2 <= t < c.2 ->
        kw_vllm_cached_tokens kw' <= t -> token_slot sm t x -> token_slot sm' t x' ->
        0 <= i < cg_hidden g -> 0 <= r < itemsize dt ->
        g_mem s3 (kv_element g' kind' kv' k l x' i + r) = g_mem s (kv_element g kind kv k l x i + r).
Proof.
  intros cs Hsch [Hg Hcuda [idx Hidx] Hwf Hu Hcfg] [Hg' Hcuda' [idx' Hidx'] Hwf' Hu' Hcfg'] Hnl Hh Hkvs
    Hwp Hap Hcur Hreq Hq.
  destruct (store_iter schedule beyond cast pinned dispatched Hsch g Hg dt dev idx Hcuda Hidx kind kv Hwf
    cfg Hcfg Hu sm kw cs s Hwp Hap Hcur Hreq Hq) as (s1 & Hr & Hst & _).
  exists s1. split; [exact Hr|]. intros s2 Hmem Hb Hfmt Hcur2 Hreq2 Hq2.
  destruct (batched_to_gpu_run schedule beyond cast pinned dispatched Hsch g' Hg' dt dev' idx' Hcuda' Hidx' kind' kv' Hwf'
    cfg' Hcfg' Hu' sm' kw' objs starts ends s2 Hb Hfmt Hcur2 Hreq2 Hq2) as (s3 & Hr3 & Hld & _).
  exists s3. split; [exact Hr3|]. intros c k l t i r x x' Hc Hk Hl Ht Hv Hx Hx' Hi Hr0.
  assert (stores g dt kind kv sm c (obj_element c k l t i + r) (kv_element g kind kv k l x i + r)) as Hs
    by (by exists k, l, t, i, r, x).
  rewrite (Hld c _ (obj_element c k l t i + r) Hc).
  2:{ exists k, l, t, i, r, x'. rewrite Hkvs, Hnl, Hh. by do 8 (split; [done|]). }
  rewrite <- (Hst c _ _ Hc Hs). apply Hmem.
  rewrite list.Forall_forall in Hwp. destruct (Hwp c Hc) as [[Hsl _] (tn & Htn & Hct & _)].
  exists c, tn. split; [done|]. split; [done|].
  by apply (stores_places pinned g dt dev kind kv sm c tn _ (kv_element g kind kv k l x i + r) Hsl Htn Hct Hs).
Qed.

End roundtrip.

(** ** Bounds *)

(** The bounds of the kernels' offsets. As long as a chunk has at most [2^31] scalars, and
    the cache (one layer of it, for the layouts with a tensor per layer) at most [2^31] or
    [2^63] according to its layout, the wrapped 32- and 64-bit arithmetic of both offsets is
    exact: they are the positions of the scalar in the two tensors, inside them. The bound of
    the flash-attention layout is the least that works: in a layer whose K half has [2^31]
    scalars, the offset of the first scalar of V wraps to [-2^31]. *)
Theorem kernel_offsets_exact format nl nb bs spt nt k l s t i :
  let kvs := if is_mla format then 1 else 2 in
  supported_format format = true -> 0 < bs -> 0 < nl ->
  page_scalars format nl nb bs spt <= offset_range format -> kvs * nl * nt * spt <= 2 ^ 31 ->
  0 <= k < kvs -> 0 <= l < nl -> 0 <= s < nb * bs -> 0 <= t < nt -> 0 <= i < spt ->
  page_buffer_offset format k s i spt nl (nb * bs) bs = page_row format nl nb bs k s * spt + i
  /\ 0 <= page_buffer_offset format k s i spt nl (nb * bs) bs < page_scalars format nl nb bs spt
  /\ key_value_offset k l t i spt nt nl = ((k * nl + l) * nt + t) * spt + i
  /\ 0 <= key_value_offset k l t i spt nt nl < kvs * nl * nt * spt
  /\ forall pages n, pages * n = 2 ^ 31 ->
       page_buffer_offset NL_X_TWO_NB_BS_NH_HS 1 0 0 n nl pages bs = - 2 ^ 31.
Proof.
  intros kvs Hf Hbs Hnl Hpage Hsize Hk Hl Hs Ht Hi.
  rewrite page_buffer_offset_exact, (key_value_offset_exact kvs) by done.
  pose proof (page_row_bounds format nl nb bs k s Hf Hbs Hnl Hs Hk) as Hrow.
  pose proof (mul_add_bounds _ _ _ _ Hk Hl) as B1. pose proof (mul_add_bounds _ _ _ _ B1 Ht) as B2.
  split; [done|]. split; [rewrite page_scalars_row; apply (mul_add_bounds _ _ _ _ Hrow Hi)|].
  split; [done|]. split; [apply (mul_add_bounds _ _ _ _ B2 Hi)|]. intros pages n Hp.
  cbn [page_buffer_offset]. replace (i32 (i32 (1 * pages) * n)) with (- 2 ^ 31); [done|].
  unfold i32. assert (eqw 32 (signed 32 (1 * pages) * n) (2 ^ 31)) as ->.
  { rewrite <- Hp. rewrite signed_eq. by rewrite Z.mul_1_l. }
  done.
Qed.
