(* ===== verification/GpuStore.v ===== *)
(** * The two ways to store a chunk of the engine's cache

    A chunk gathered into CPU memory by the connector and written from there, and a chunk
    written directly from the blocks of the cache by the plan the connector builds: both
    publish the same file. *)

From S2P Require Import Prelude Tensor Codec BlockFirst DirectIO World WorldIO HipFile XdsFiles XdsLoad XdsPaths XdsMeta Dict XdsIndex DeviceTensor XdsStaged XdsCpuStore XdsStagedFacts.
From S2P Require Import KvKernels KvKernelFacts GpuConnector GpuLayouts GpuTransfers GpuFacts.

Open Scope string_scope.
Open Scope list_scope.
Open Scope Z_scope.

Section payload.
Context {Dt : Type} `{!TorchDtype Dt, !TorchDtypeLaws Dt}.
Context (schedule : list copy -> list copy) (beyond : Z -> Z) (cast : Dt -> Dt -> list Z -> list Z)
  (pinned : Z -> bool) (dispatched : Dt -> bool).
Context (g : cache_geometry) (Hg : geometry_pos g) (dt : Dt) (dev : torch_device).
Context (t : kv_tensor Dt) (Hwf : well_formed g dt dev CrossLayer (CacheTensor t)) (Hptr : 0 < kt_data_ptr t).
#[local] Abbreviation nl := (cg_nl g).
#[local] Abbreviation nb := (cg_nb g).
#[local] Abbreviation bs := (cg_bs g).
#[local] Abbreviation hidden := (cg_hidden g).
#[local] Abbreviation isz := (itemsize dt).

Lemma cross_layer_block_first : block_first_kv t nb nl bs (cg_nh g) (cg_hs g).
Proof.
  destruct Hwf as [[_ (Hs & _ & Hc & Hd & _)] _]. constructor; [done|exact (conj (proj1 (proj2 Hg))
    (conj (proj1 Hg) (proj2 (proj2 Hg))))|done|done|]. rewrite Hd. apply itemsize_pos.
Qed.

(** The descriptor of a whole chunk: the runs of the tokens' blocks *)
Lemma store_plan sm starts ends plans i start end_ d r skip :
  build_block_first_direct_plans t sm starts ends STORE bs skip = Ok plans ->
  starts !! i = Some start -> ends !! i = Some end_ -> plans !! i = Some (Plan (Some d) r) ->
  0 <= start < end_ /\ end_ <= lenZ sm /\ (end_ - start) mod bs = 0
  /\ allocation_base d = kt_data_ptr t /\ block_nbytes d = nl * 2 * bs * hidden * isz
  /\ desc_block_size d = bs /\ maps_tokens sm start bs nb 0 (end_ - start) (runs_block (runs d)).
Proof.
  intros H Hs He Hp. pose proof cross_layer_block_first as Hkv.
  rewrite (build_block_first_eq _ _ _ _ _ _ _ _ _ _ _ Hkv) in H.
  apply check_ranges_Ok in H as [(-> & _)|[Hr H]]; [done|].
  destruct (mapR_zip_lookup _ _ _ _ _ _ _ H Hs He) as (p & Hp' & Hf).
  rewrite Hp in Hp'. injection Hp' as <-.
  destruct (Forall2_lookup_lr _ _ _ _ _ _ Hr Hs He) as [[Hs0 Hse] Hlen].
  apply (plan_chunk_iff _ _ _ _ _ _ _ Hkv) in Hf as (_ & Hsc & Hc & le & pbs & -> & Hedge & Hb); try done.
  split; [done|]. split; [done|]. split; [done|]. split; [done|]. split.
  { cbn [bf_descriptor block_nbytes]. unfold block_first_block_nbytes, element_size, dim.
    destruct Hwf as [[_ (Hsh & _ & _ & Hd & _)] _]. rewrite Hsh, Hd. cbn. unfold cg_hidden. ring. }
  split; [done|].
  assert (le = None) as ->.
  { destruct le as [e|]; [|done]. exfalso. destruct Hedge as [Hne _]. apply Hne. cbn. apply Z.mod_0_l.
    pose proof Hg as (_ & _ & ? & _). lia. }
  exact (bf_descriptor_maps t sm nb nl bs (cg_nh g) (cg_hs g) Hkv STORE skip start end_ Hs0 Hse Hlen None pbs
    Hsc Hc Hedge Hb).
Qed.

(** The block-first geometry of a chunk of [n] tokens *)
Definition chunk_geometry (n : Z) : geometry := Geometry nl (n / bs) bs hidden isz.

Lemma chunk_geometry_ok n : 0 < n -> n mod bs = 0 -> geometry_ok (chunk_geometry n) /\ n = n / bs * bs.
Proof.
  intros Hn Hm. pose proof Hg as (?&?&?&_). pose proof (hidden_pos g Hg). pose proof (itemsize_pos dt).
  pose proof (Z.div_mod n bs ltac:(lia)). assert (n = n / bs * bs) as E by lia.
  split; [|done]. unfold geometry_ok, chunk_geometry. cbn. nia.
Qed.

(** The gathered chunk, read in block-first order, is what the descriptor reads from the
    cache. *)
Lemma gathered_payload sm start end_ cfg obj m m' d :
  slots_ok g sm start end_ -> (end_ - start) mod bs = 0 ->
  allocation_base d = kt_data_ptr t -> block_nbytes d = nl * 2 * bs * hidden * isz ->
  maps_tokens sm start bs nb 0 (end_ - start) (runs_block (runs d)) ->
  chunk_tensor pinned g dt CrossLayer (CacheTensor t) (end_ - start) obj ->
  fetched beyond g dt CrossLayer (CacheTensor t) sm start end_ cfg obj m m' ->
  forall j, 0 <= j < g_nbytes (chunk_geometry (end_ - start)) ->
    m' (dt_ptr obj + logical_source (chunk_geometry (end_ - start)) j) = m (source_address d j).
Proof.
  intros Hsl Hmod Hbase Hbn Hmaps Hct Hf j Hj. destruct (so_range _ _ _ _ Hsl) as [Hr Hlen].
  destruct (chunk_geometry_ok (end_ - start) ltac:(lia) Hmod) as [Hgg En].
  set (n := end_ - start) in *. set (gg := chunk_geometry n) in *.
  destruct (element_split gg Hgg j Hj) as (b & l & k & o & i & r & Hv & Hr0 & Ej & El).
  unfold gg, chunk_geometry, g_physical in Hv. cbn [g_nl g_cb g_bs g_d g_isz] in Hv. rewrite !valid_idx_cons in Hv.
  destruct Hv as (Hb & Hl & Hk & Ho & Hi & _). cbn [chunk_geometry g_isz gg] in Hr0.
  pose proof (mul_add_bounds _ _ _ _ Hb Ho) as Htk. rewrite <- En in Htk.
  destruct (Hmaps (b * bs + o) Htk) as (ph & Hph & Hph0 & Hslot).
  destruct (div_mod_pair b bs o Ho) as [Ed Em]. rewrite Ed in Hph. rewrite Em in Hslot.
  assert (slots_at beyond sm start (b * bs + o) = ph * bs + o) as Es.
  { pose proof (slots_at_lookup beyond g sm start end_ (b * bs + o) Hsl Htk) as Hx. congruence. }
  assert (dt_ptr obj + logical_source gg j = dt_address obj [k; l; b * bs + o; i] + r) as ->.
  { rewrite El, (ct_address pinned g dt dev CrossLayer (CacheTensor t) n obj _ Hct).
    fold (chunk_element g dt dev CrossLayer (dt_ptr obj) n k l (b * bs + o) i). rewrite chunk_element_eq.
    cbn [gg chunk_geometry g_nl g_cb g_bs g_d g_isz ravel]. unfold prodZ. cbn [foldr].
    set (cb := n / bs) in *. clearbody cb. rewrite En. ring. }
  rewrite (fe_rows _ _ _ _ _ _ _ _ _ _ _ _ Hf k l (b * bs + o) i r) by (rewrite ?Es; cbn [kv_size]; nia).
  pose proof (mul_add_bounds _ _ _ _ Hph0 Ho) as Hsb.
  rewrite Es, (kv_element_row g dt dev Hg CrossLayer (CacheTensor t) k l (ph * bs + o) i) by (done || by split).
  f_equal. unfold source_address. rewrite Hbase, Hbn, Ej. cbn [gg chunk_geometry g_physical g_nl g_cb g_bs g_d g_isz ravel].
  unfold prodZ. cbn [foldr]. set (rest := (((l * 2 + k) * bs + o) * hidden + i) * isz + r).
  assert (0 <= rest < nl * 2 * bs * hidden * isz) as Hrest.
  { unfold rest. pose proof (mul_add_bounds _ _ _ _ Hl Hk) as B1. pose proof (mul_add_bounds _ _ _ _ B1 Ho) as B2.
    pose proof (mul_add_bounds _ _ _ _ B2 Hi) as B3. apply (mul_add_bounds _ _ _ _ B3 Hr0). }
  match goal with |- context [runs_block _ (?x / _)] =>
    replace x with (b * (nl * 2 * bs * hidden * isz) + rest) by (unfold rest; ring) end.
  destruct (div_mod_pair b _ rest Hrest) as [-> ->]. rewrite Hph. cbn [default].
  unfold row_address, row_of. cbn [layer_base row_shape row_idx ravel]. unfold prodZ. cbn [foldr].
  destruct (div_mod_pair ph bs o Ho) as [-> ->]. unfold id, rest. ring.
Qed.

End payload.

(** ** Files *)

Section files.
Context {Dt : Type} `{!TorchDtype Dt, !TorchDtypeLaws Dt} {JC : JsonCodec} {JL : JsonCodecLaws}.
Context {HL : HyFileLib} {HLL : HyFileLibLaws}.

Lemma check_direct_store_whole (e : xds_engine Dt) d m :
  check_direct_store e d = Ok m ->
  payload_nbytes m = io_nbytes m /\ xe_block_size e = Some (desc_block_size d).
Proof.
  unfold check_direct_store, validate_direct_descriptor. intros H. res_inv. bool_prop. subst.
  split; [done|]. match goal with Hd : ¬ (xe_block_size e <> _) |- _ => by apply dec_stable in Hd end.
Qed.

(** Files with equal payloads, when there is no padding *)
Lemma same_file header m gg (mm : Z -> Z) p (w : world) d :
  geometry_ok gg -> payload_nbytes m = g_nbytes gg -> io_nbytes m = g_nbytes gg ->
  logical_block_count d * block_nbytes d = g_nbytes gg ->
  (forall j, 0 <= j < g_nbytes gg -> mm (p + logical_source gg j) = mem w (source_address d j)) ->
  block_first_file header m gg mm p = header ++ direct_payload w d.
Proof.
  intros Hgg Hp Hio Hd Hj. unfold block_first_file. rewrite Hp, Hio, Z.sub_diag. cbn [Z.to_nat replicate].
  rewrite app_nil_r. f_equal. unfold block_first_payload, direct_payload. rewrite Hd.
  apply list_fmap_ext. intros i x Hx%list_elem_of_lookup_2%elem_of_rangeZ. apply Hj. lia.
Qed.

Context (schedule : list copy -> list copy) (beyond : Z -> Z) (cast : Dt -> Dt -> list Z -> list Z)
  (pinned : Z -> bool) (dispatched : Dt -> bool).
Implicit Types (s : gpu_state Dt) (cfg : gpu_config Dt) (kw : kwargs Dt).

(** C6: a chunk of a cross-layer cache has one file, however it is stored. Let the connector
    gather the chunk into a CPU object and the backend write it block-first from there, or let
    the connector plan a direct store and the backend write it from the blocks of the cache.
    The gathering always succeeds; and if both stores return, with engines of one block size
    and layout, they return the same metadata and publish the same bytes, for every order in
    which the device runs the gathering kernel. *)
Theorem gathered_store_is_direct_store g dt dev idx t cfg sm start end_ kw s obj ot plans d r s1 :
  let kv := CacheTensor t in
  (forall l c, c ∈ schedule l <-> c ∈ l) ->
  geometry_pos g -> dev_type dev = "cuda" -> dev_index dev = Some idx ->
  well_formed g dt dev CrossLayer kv -> 0 < kt_data_ptr t ->
  configured g CrossLayer cfg -> tables_current s -> on_store (g_pending s) = [] ->
  kw_kvcaches kw = Some (Some kv) -> kw_slot_mapping kw = Some sm ->
  slots_ok g sm start end_ -> kernel_ok dispatched g dt CrossLayer (end_ - start) ->
  GpuConnector.mo_tensor obj = Some ot -> chunk_tensor pinned g dt CrossLayer kv (end_ - start) ot ->
  buffer_ok pinned g dt dev CrossLayer kv start end_ cfg ot ->
  build_direct_io_plans cfg [start] [end_] STORE kw s = (Ok plans, s1) ->
  plans !! 0%nat = Some (Plan (Some d) r) ->
  exists s2, from_gpu schedule beyond cast pinned dispatched cfg obj start end_ kw s = (Ok tt, s2)
    /\ forall (xcfg : xds_config Dt) fl mo path w m w' (e : xds_engine Dt) path' sd md sd',
       pl_ptr (fl_place fl (XdsIndex.mo_id mo)) = dt_ptr ot -> mo_tensor_shape mo = dt_shape ot ->
       mo_dtype mo = dt -> one_group e = Some (dt_shape ot, dt) ->
       xe_block_size (xc_engine xcfg) = xe_block_size e -> xe_layout (xc_engine xcfg) = xe_layout e ->
       fds_ok w -> fds_ok (io_world sd) ->
       (forall a, mem w a = g_mem s2 a) -> (forall a, mem (io_world sd) a = g_mem s a) ->
       save_cpu_block_first_xds xcfg fl path mo w = (Ok m, w') ->
       save_direct_xds e path' d sd = (Ok md, sd') ->
       m = md /\ content w' path = content (io_world sd') path'.
Proof.
  intros kv Hsch Hg Hdev Hidx Hwf Hptr Hcfg Hcur Hq Hkw Hsm Hsl Hko Hobj Hct Hbuf Hplan Hp.
  destruct (from_gpu_run schedule beyond cast pinned dispatched Hsch g Hg dt dev idx Hdev Hidx CrossLayer kv Hwf
    sm start end_ Hsl Hko cfg Hcfg obj ot kw s) as (s2 & Hrun & Hfetch & _); try done.
  { split; [done|]. by left. }
  exists s2. split; [exact Hrun|].
  intros xcfg fl mo path w m w' e path' sd md sd' Hpl Hsh Hdt Hgrp Hbse Hlay Hfw Hfd Hmw Hmd Hcpu Hdir.
  assert (build_block_first_direct_plans t sm [start] [end_] STORE (cg_bs g) (kw_vllm_cached_tokens kw) = Ok plans) as Hbp.
  { unfold build_direct_io_plans, initialize_kvcaches_ptr in Hplan. rewrite Hkw, Hsm in Hplan.
    destruct Hwf as [[_ (Hshape & _)] _]. injection Hplan as Hplan _. cbn in Hplan. rewrite Hshape in Hplan. exact Hplan. }
  destruct (store_plan g Hg dt dev t Hwf Hptr _ _ _ _ 0%nat start end_ d r _ Hbp eq_refl eq_refl Hp)
    as (Hr & Hlen & Hmod & Hbase & Hbn & Hdbs & Hmaps).
  pose proof (gathered_payload beyond pinned g Hg dt dev t Hwf sm start end_ cfg ot _ _ d Hsl Hmod Hbase Hbn Hmaps Hct Hfetch)
    as Hpay.
  pose proof (save_cpu_block_first_spec xcfg fl path mo w Hfw) as H. rewrite Hcpu in H.
  destruct H as (gg & header & Hm & Hshape & Hmk & Hpk & (_ & _ & Hcon & _)).
  destruct (check_direct_store e d) as [m0|ex] eqn:Hck; [|unfold save_direct_xds in Hdir; by rewrite Hck in Hdir].
  pose proof (save_direct_xds_triple e path' d m0 (io_world sd) (fds (io_world sd)) (fresh (io_world sd)) Hfd Hck
    ltac:(intros h; apply pack_header_length) sd ltac:(done)) as H. rewrite Hdir in H.
  destruct H as (-> & (_ & _ & header' & Hpk' & Hcon') & _).
  destruct (check_direct_store_Ok e d m0 Hck) as (_ & _ & _ & Hio & Hmk' & _).
  destruct (check_direct_store_whole e d m0 Hck) as [Hpad Hbs].
  assert (m = m0) as ->.
  { unfold make_direct_block_first_metadata in Hmk'. rewrite Hgrp in Hmk'. unfold make_block_first_metadata in *.
    rewrite Hsh, Hdt, Hbse, Hlay in Hmk. congruence. }
  split; [done|]. assert (header' = header) as -> by congruence.
  destruct (make_metadata_describes _ _ _ _ Hmk) as (gg' & Hm' & _ & Hbs').
  rewrite <- (describes_unique _ _ _ _ Hm Hm') in Hbs'. 
  assert (gg = chunk_geometry g dt (end_ - start)) as Egg.
  { pose proof Hm as (Hgg & Hisz & _). rewrite Hsh, (ct_shape _ _ _ _ _ _ _ Hct) in Hshape.
    destruct (chunk_geometry_ok g Hg dt (end_ - start) ltac:(lia) Hmod) as [_ En].
    destruct gg as [gnl gcb gbs gd gisz]. unfold g_logical, chunk_shape in Hshape. cbn in *.
    injection Hshape as <- E <-. assert (gbs = cg_bs g) as -> by congruence.
    unfold chunk_geometry. rewrite Hdt in Hisz. subst gisz. f_equal. rewrite E. symmetry. apply Z.div_mul. pose proof Hgg as (_ & _ & ? & _). cbn in *. lia. }
  rewrite Hcon, Hcon'. f_equal. rewrite Egg in *. pose proof Hm as (Hgg & _ & _ & _ & _ & _ & _ & Hpn & _).
  apply same_file; [done|done|congruence|congruence|].
  intros j Hj. rewrite Hmw, Hmd, Hpl. by apply Hpay.
Qed.
End files.
