(* ===== verification/GpuExamples.v ===== *)
(** * The GPU connector: concrete instances

    A flash-attention cache of two layers and a cross-layer cache of another block size, one
    chunk of three tokens; and a cross-layer cache of 4 KiB blocks stored both ways. *)

From S2P Require Import Prelude Tensor Codec BlockFirst DirectIO World WorldIO HipFile XdsFiles XdsLoad XdsPaths XdsMeta Dict XdsIndex DeviceTensor XdsStaged XdsCpuStore XdsStagedFacts XdsStagedExamples.
From S2P Require Import KvKernels KvKernelFacts GpuConnector GpuLayouts GpuTransfers GpuFacts GpuRoundtrip GpuStore.

Open Scope string_scope.
Open Scope list_scope.
Open Scope Z_scope.

Module GpuExamples.
Import XdsExamples BlockFirstExamples StagedExamples.

(** The device runs the copies of a kernel backwards. *)
Definition backwards (l : list copy) : list copy := reverse l.
Definition nothing (a : Z) : Z := 0.
Definition no_cast (d1 d2 : ex_dtype) (b : list Z) : list Z := b.
Definition all_pinned (p : Z) : bool := true.
Definition all_dtypes (d : ex_dtype) : bool := true.

Lemma backwards_any : any_order backwards.
Proof. intros l c. apply elem_of_reverse. Qed.

Definition kv_layer (i p : Z) (sh : list Z) : kv_tensor ex_dtype :=
  KvTensor _ i sh (Strided.contiguous_strides sh) true Float16 ex_gpu p p (prodZ sh * 2).

(** Two layers of two blocks of two tokens; one block of four tokens of both layers *)
Definition flash_g : cache_geometry := CacheGeometry 2 2 2 1 2.
Definition cross_g : cache_geometry := CacheGeometry 2 1 4 1 2.
Definition flash_kv : kv_caches ex_dtype :=
  CacheLayers [kv_layer 1 1000 [2; 2; 2; 1; 2]; kv_layer 2 1100 [2; 2; 2; 1; 2]].
Definition cross_kv : kv_caches ex_dtype := CacheTensor (kv_layer 3 2000 [1; 2; 2; 4; 1; 2]).

Definition connector : gpu_config ex_dtype := GpuConfig 2 2 false false None.

(** The chunk [[2, 2, 3, 2]] at 3000, pinned *)
Definition ex_object : GpuConnector.memory_obj ex_dtype :=
  MemObj 1 (Some (contiguous_at 3000 [2; 2; 3; 2] Float16 cpu)).

Definition flash_slots : list Z := [2; 0; 3].
Definition cross_slots : list Z := [1; 3; 0].

Definition args (kv : kv_caches ex_dtype) (sm : list Z) : kwargs ex_dtype := Kwargs (Some (Some kv)) (Some sm) 0.

Definition ex_state : gpu_state ex_dtype :=
  GpuState (fun a => a) (Queues [] [] []) DefaultStream (fun _ => GpuConnector.KV_2LTD) None None None 0 0 0 ∅ ∅ ∅ ∅.

Lemma empty_tables s : g_signatures s = ∅ -> tables_current (Dt := ex_dtype) s.
Proof. intros E idx sg H. by rewrite E, lookup_empty in H. Qed.

Lemma flash_served : served flash_g Float16 ex_gpu FlashAttention flash_kv connector.
Proof.
  split; [by repeat split|done|by eexists| |by intros [=]|by constructor].
  split; [split; [done|split; [done|by repeat constructor]]|].
  intros [|[|i]] [|[|j]] t t' Hne H1 H2; try discriminate; try (by destruct Hne); injection H1 as <-; injection H2 as <-;
    unfold apart, tensor_nbytes, cg_hidden; cbn; lia.
Qed.

Lemma cross_served : served cross_g Float16 ex_gpu CrossLayer cross_kv connector.
Proof.
  split; [by repeat split|done|by eexists| |by intros [=]|by constructor].
  split; [split; [done|by repeat constructor]|].
  intros [|i] [|j] t t' Hne H1 H2; try discriminate; by destruct Hne.
Qed.

(** The only chunk *)
Definition ex_chunks := chunks [ex_object] [0] [3].

Ltac three t := assert (t = 0 \/ t = 1 \/ t = 2) as [-> | [-> | ->]] by lia.

Lemma ex_slots_ok g a b c :
  cg_nb g * cg_bs g = 4 -> 0 <= a < 4 -> 0 <= b < 4 -> 0 <= c < 4 -> a <> b -> a <> c -> b <> c ->
  slots_ok g [a; b; c] 0 3.
Proof.
  intros Hg ??????. constructor.
  - unfold lenZ. cbn. lia.
  - rewrite Hg. intros t x Ht Hx. three t; injection Hx as <-; lia.
  - intros t t' x Ht Ht' _ Hx Hx'. three t; three t'; vm_compute in Hx, Hx'; congruence.
Qed.

Lemma ex_placed : Forall (well_placed all_pinned all_dtypes flash_g Float16 ex_gpu FlashAttention flash_kv connector
  flash_slots) ex_chunks.
Proof.
  constructor; [|constructor]. split; [split|].
  - apply ex_slots_ok; done || lia.
  - split; [done|done|unfold sizes_fit, cg_hidden; cbn; lia|by exists 4|by intros [=]].
  - eexists. split; [reflexivity|]. split; [|done]. constructor; try done.
    intros t [->|[->|[]%not_elem_of_nil]%elem_of_cons]%elem_of_cons; unfold tensor_nbytes, chunk_nbytes, cg_hidden; cbn; lia.
Qed.

Lemma ex_tensors_apart : stores_apart flash_g Float16 FlashAttention ex_chunks.
Proof. intros [|i] [|j] c c' t t' Hne H1 H2; done. Qed.

Lemma ex_batch : batch_ok all_pinned all_dtypes cross_g Float16 CrossLayer cross_kv cross_slots ex_chunks.
Proof.
  constructor.
  - constructor; [|constructor]. split; [apply ex_slots_ok; done || lia|].
    split; [done|done|unfold sizes_fit, cg_hidden; cbn; lia|by exists 4|by intros [=]].
  - intros [|i] [|j] c c' t t' x H1 H2; try discriminate; done.
  - constructor; [|constructor]. eexists. split; [reflexivity|]. constructor; try done.
    intros t [->|[]%not_elem_of_nil]%elem_of_cons. unfold tensor_nbytes, chunk_nbytes, cg_hidden. cbn. lia.
Qed.

(** Token 1 is at slot 0 of the first cache and slot 3 of the second: element 1 of its V in
    layer 1 was at 1118. The second connector is a new one. *)
Lemma gpu_roundtrip_witness :
  exists s1 s3,
    batched_from_gpu backwards nothing no_cast all_pinned all_dtypes connector [ex_object] [0] [3]
      (args flash_kv flash_slots) ex_state = (Ok tt, s1)
    /\ batched_to_gpu backwards nothing no_cast all_pinned all_dtypes connector [ex_object] [0] [3]
         (args cross_kv cross_slots) (GpuConnector.with_mem (g_mem s1) ex_state) = (Ok tt, s3)
    /\ g_mem s3 (kv_element cross_g CrossLayer cross_kv 1 1 3 1 + 0) = 1118.
Proof.
  destruct (gpu_roundtrip backwards nothing no_cast all_pinned all_dtypes flash_g cross_g Float16 ex_gpu ex_gpu
    FlashAttention CrossLayer flash_kv cross_kv connector connector flash_slots cross_slots (args flash_kv flash_slots)
    (args cross_kv cross_slots) [ex_object] [0] [3] ex_state backwards_any flash_served cross_served eq_refl eq_refl
    eq_refl ex_placed ex_tensors_apart (empty_tables ex_state eq_refl) (conj eq_refl (or_introl eq_refl)) eq_refl)
    as (s1 & Hr & H).
  destruct (H (GpuConnector.with_mem (g_mem s1) ex_state)) as (s3 & Hr3 & Hb).
  - by intros a _.
  - exact ex_batch.
  - constructor; [split; [reflexivity|done]|constructor].
  - by apply empty_tables.
  - split; [reflexivity|by left].
  - reflexivity.
  - exists s1, s3. split; [exact Hr|]. split; [exact Hr3|].
    apply (Hb (ex_object, 0, 3) 1 1 1 1 0 0 3); try (split; done); try done. by left.
Defined.

(** Element 0 of the K of token 2 in layer 0, at slot 3 *)
Lemma batched_from_gpu_correct_witness :
  exists s1,
    batched_from_gpu backwards nothing no_cast all_pinned all_dtypes connector [ex_object] [0] [3]
      (args flash_kv flash_slots) ex_state = (Ok tt, s1)
    /\ g_mem s1 (3000 + 8) = 1012 /\ g_mem s1 2999 = 2999 /\ g_pending s1 = Queues [] [] [].
Proof.
  destruct (batched_from_gpu_correct backwards nothing no_cast all_pinned all_dtypes flash_g Float16 ex_gpu
    FlashAttention flash_kv connector flash_slots (args flash_kv flash_slots) [ex_object] [0] [3] ex_state
    backwards_any flash_served ex_placed ex_tensors_apart (empty_tables ex_state eq_refl) (conj eq_refl (or_introl eq_refl))
    eq_refl) as (s1 & Hr & Hb & Hf & Hp & _).
  exists s1. split; [exact Hr|]. split; [|split; [|exact Hp]].
  - apply (Hb (ex_object, 0, 3) 0 0 2 0 0 3); try (split; done); try done. by left.
  - apply Hf; [|by intros []]. intros (c & t & [->|[]%not_elem_of_nil]%elem_of_cons & [= <-] & Ha). cbn in Ha. lia.
Defined.

(** Token 0 of the object at 3000 goes to slot 1. *)
Lemma batched_to_gpu_correct_witness :
  exists s1,
    batched_to_gpu backwards nothing no_cast all_pinned all_dtypes connector [ex_object] [0] [3]
      (args cross_kv cross_slots) ex_state = (Ok tt, s1)
    /\ g_mem s1 (2000 + 4) = 3000 /\ g_pending s1 = Queues [] [] [].
Proof.
  destruct (batched_to_gpu_correct backwards nothing no_cast all_pinned all_dtypes cross_g Float16 ex_gpu
    CrossLayer cross_kv connector cross_slots (args cross_kv cross_slots) [ex_object] [0] [3] ex_state
    backwards_any cross_served ex_batch) as (s1 & Hr & Hb & _ & Hp & _).
  - constructor; [split; [reflexivity|done]|constructor].
  - by apply empty_tables.
  - split; [reflexivity|by left].
  - reflexivity.
  - exists s1. split; [exact Hr|]. split; [|exact Hp].
    apply (Hb (ex_object, 0, 3) 0 0 0 0 0 1); try (split; done); try done. by left.
Defined.

(** After the first caches are freed, the table holds the pointers of the second. *)
Lemma pointer_tables_current_witness :
  let moved := CacheLayers [kv_layer 1 5000 [2; 2; 2; 1; 2]; kv_layer 2 5100 [2; 2; 2; 1; 2]] in
  let s1 := (initialize_pointers nothing connector flash_kv ex_state).2 in
  initialize_pointers nothing connector flash_kv ex_state = (Ok [1000; 1100], s1)
  /\ exists s2, initialize_pointers nothing connector moved s1 = (Ok [5000; 5100], s2)
       /\ lenZ [5000; 5100] = num_layers connector.
Proof.
  intros moved s1. split; [reflexivity|].
  assert (tables_current s1) as Hs.
  { intros idx sg H. cbn in H |- *. exact H. }
  pose proof (pointer_tables_current backwards nothing no_cast all_pinned all_dtypes connector s1 Hs) as H.
  destruct (initialize_pointers nothing connector moved s1) as [r s2] eqn:E.
  assert (r = Ok [5000; 5100]) as -> by (change r with (r, s2).1; rewrite <- E; reflexivity).
  exists s2. split; [reflexivity|]. apply (proj2 (proj2 (proj2 (proj2 (proj2 H)))) moved _ _ E).
Defined.

(** The V of token 3 in block 1 of the second of two layers *)
Lemma kernel_offsets_exact_witness :
  page_buffer_offset NB_NL_TWO_BS_NH_HS 1 7 2 16 2 8 4 = 370
  /\ key_value_offset 1 1 3 2 16 8 2 = 434.
Proof.
  destruct (kernel_offsets_exact NB_NL_TWO_BS_NH_HS 2 2 4 16 8 1 1 7 3 2 eq_refl eq_refl eq_refl)
    as (H1 & _ & H2 & _); [done|done|done|done|done|done|done|].
  split; [exact H1|exact H2].
Defined.

(** ** Both ways to store a chunk *)

(** Four blocks of two tokens of 1 KiB each for K and V, in one layer *)
Definition big_g : cache_geometry := CacheGeometry 1 4 2 1 512.
Definition big_cache : kv_tensor ex_dtype := kv_layer 7 8192 [4; 1; 2; 2; 1; 512].
Definition big_connector : gpu_config ex_dtype := GpuConfig 512 1 false false None.
Definition big_slots : list Z := [6; 7; 2; 3].

(** The object of [big_layer], at 2000 *)
Definition big_tensor : dtensor ex_dtype torch_device := contiguous_at 1000000 [2; 1; 4; 512] Float16 cpu.
Definition big_object : GpuConnector.memory_obj ex_dtype := MemObj 1 (Some big_tensor).

Definition big_place : file_layer ex_dtype :=
  FileLayer _ None None 4096 false
    (fun i => Placement 1000000 0 (Strided.contiguous_strides [2; 1; 4; 512]) cpu 8192) [].

Definition world_of (m : Z -> Z) : world := World ∅ ∅ 5 m [] (HipClass true true ∅ []).

Lemma big_slots_ok : slots_ok big_g big_slots 0 4.
Proof.
  constructor.
  - unfold lenZ. cbn. lia.
  - intros t x Ht Hx. assert (t = 0 \/ t = 1 \/ t = 2 \/ t = 3) as [-> | [-> | [-> | ->]]] by lia;
      vm_compute in Hx; injection Hx as <-; done.
  - intros t t' x Ht Ht' _ Hx Hx'.
    assert (t = 0 \/ t = 1 \/ t = 2 \/ t = 3) as [-> | [-> | [-> | ->]]] by lia;
      assert (t' = 0 \/ t' = 1 \/ t' = 2 \/ t' = 3) as [-> | [-> | [-> | ->]]] by lia;
      vm_compute in Hx, Hx'; congruence.
Qed.

(** Blocks 0 and 1 of the chunk are the physical blocks 3 and 1. *)
Definition big_plan : DirectIODescriptor :=
  Descriptor STORE ex_gpu 8192 16384 0 4096 2 0 2 0 4 [BlockRun 0 3 1; BlockRun 1 1 1] None 4096
    true (Some [7]) [] [] [3; 1].

Definition big_args := args (CacheTensor big_cache) big_slots.

Lemma big_served : well_formed big_g Float16 ex_gpu CrossLayer (CacheTensor big_cache).
Proof.
  split; [split; [done|by repeat constructor]|].
  intros [|i] [|j] t t' Hne H1 H2; try discriminate; by destruct Hne.
Qed.

Lemma big_chunk : chunk_tensor all_pinned big_g Float16 CrossLayer (CacheTensor big_cache) 4 big_tensor.
Proof.
  constructor; try done.
  intros t [->|[]%not_elem_of_nil]%elem_of_cons. unfold tensor_nbytes, chunk_nbytes, cg_hidden. cbn. lia.
Qed.

Lemma no_files m : fds_ok (world_of m).
Proof. intros fd [o Ho]. cbn in Ho. by rewrite lookup_empty in Ho. Qed.

Lemma gathered_store_is_direct_store_witness :
  exists s1 s2 m w' sd',
    build_direct_io_plans big_connector [0] [4] STORE big_args ex_state = (Ok [Plan (Some big_plan) None], s1)
    /\ GpuConnector.from_gpu backwards nothing no_cast all_pinned all_dtypes big_connector big_object 0 4 big_args ex_state
       = (Ok tt, s2)
    /\ save_cpu_block_first_xds (config ex_xds true) big_place path (obj 1 [2; 1; 4; 512]) (world_of (g_mem s2)) = (Ok m, w')
    /\ save_direct_xds ex_xds path big_plan (XdsIO (world_of (g_mem ex_state)) [] None) = (Ok m, sd')
    /\ content w' path = content (io_world sd') path.
Proof.
  set (s1 := (build_direct_io_plans big_connector [0] [4] STORE big_args ex_state).2).
  assert (build_direct_io_plans big_connector [0] [4] STORE big_args ex_state = (Ok [Plan (Some big_plan) None], s1)) as Ep
    by reflexivity.
  destruct (gathered_store_is_direct_store backwards nothing no_cast all_pinned all_dtypes big_g Float16 ex_gpu 0
    big_cache big_connector big_slots 0 4 big_args ex_state big_object big_tensor [Plan (Some big_plan) None] big_plan None s1
    backwards_any ltac:(by repeat split) eq_refl eq_refl big_served eq_refl ltac:(by constructor)
    (empty_tables ex_state eq_refl) eq_refl eq_refl eq_refl big_slots_ok) as (s2 & Hr & H); try done.
  { split; [done|done|unfold sizes_fit, cg_hidden; cbn; lia|by exists 4|by intros [=]]. }
  { exact big_chunk. }
  exists s1, s2.
  assert (is_ok (save_cpu_block_first_xds (config ex_xds true) big_place path (obj 1 [2; 1; 4; 512]) (world_of (g_mem s2)))
    = true) as Hc by (vm_compute; reflexivity).
  assert (is_ok (save_direct_xds ex_xds path big_plan (XdsIO (world_of (g_mem ex_state)) [] None)) = true) as Hd
    by (vm_compute; reflexivity).
  destruct (save_cpu_block_first_xds _ _ _ _ _) as [[m|e] w'] eqn:Ec; [|discriminate Hc].
  destruct (save_direct_xds _ _ _ _) as [[md|e] sd'] eqn:Ed; [|discriminate Hd].
  destruct (H (config ex_xds true) big_place (obj 1 [2; 1; 4; 512]) path (world_of (g_mem s2)) m w' ex_xds path
    (XdsIO (world_of (g_mem ex_state)) [] None) md sd' eq_refl eq_refl eq_refl eq_refl eq_refl eq_refl
    (no_files _) (no_files _) (fun _ => eq_refl) (fun _ => eq_refl) Ec Ed) as [<- Hf].
  exists m, w', sd'. split; [exact Ep|]. split; [exact Hr|]. split; [reflexivity|]. split; [reflexivity|exact Hf].
Defined.

End GpuExamples.
