(* ===== verification/Allocator.v ===== *)
(** * GPU memory pools

    [v1/memory_management.py]: [HyFileMemoryAllocator], a pool of device memory that is
    registered with the HyFile driver for as long as it lives, and the life cycle that
    [_patch_gpu_memory_allocator_lifecycle] of [__init__.py] gives LMCache's
    [GPUMemoryAllocator], its base class. All pools of a process share one driver: the first
    opens it, the last closes it. Every method runs under the class's lock or the pool's. *)

From S2P Require Import Prelude World HipFile.

Open Scope string_scope.
Open Scope list_scope.
Open Scope Z_scope.

(** LMCache's [TensorMemoryAllocator] over the bytes of a tensor; a memory object is the
    number its pool gave it. *)
Class PoolOps (pool request : Type) := {
  pool_new : Z -> Z -> pool;                                  (* size, [align_bytes] *)
  pool_allocate : request -> pool -> option Z * pool;
  pool_batched_allocate : request -> Z -> pool -> option (list Z) * pool;
  pool_free : Z -> pool -> pool;
  pool_batched_free : list Z -> pool -> pool;
}.

Section allocator.
Context {HL : HyFileLib} {pool request : Type} {PO : PoolOps pool request}.

(** ** State *)

(** One [HyFileMemoryAllocator]; [ha_pool] is [self.tensor] with [self.allocator]. *)
Record hyfile_allocator := HyAlloc {
  ha_size : Z;
  ha_closed : bool;
  ha_registered : bool;
  ha_counted : bool;
  ha_base : option Z;
  ha_pool : option pool;
}.

(** The process: files, devices and driver; the class attribute [_active_allocators]; the
    pools by identity; the memory objects invalidated by pools already closed *)
Record process := Process {
  p_world : world;
  p_active : Z;
  p_pools : gmap Z hyfile_allocator;
  p_next : Z;
  p_invalid : list Z;
}.

Implicit Types (p : process) (a : hyfile_allocator).

Definition with_world w p := Process w (p_active p) (p_pools p) (p_next p) (p_invalid p).
Definition with_active n p := Process (p_world p) n (p_pools p) (p_next p) (p_invalid p).
Definition with_pools m n p := Process (p_world p) (p_active p) m n (p_invalid p).
Definition with_invalid l p := Process (p_world p) (p_active p) (p_pools p) (p_next p) l.

(** An operation of the driver *)
Definition on_driver {A} (m : ST world A) : ST process A := fun p =>
  let '(r, w) := m (p_world p) in (r, with_world w p).

Definition get_pool (id : Z) : ST process hyfile_allocator :=
  p ← st_get; st_lift (result_of_option AttributeError (p_pools p !! id)).

Definition set_pool (id : Z) a : ST process unit :=
  st_modify (fun p => with_pools (<[id := a]> (p_pools p)) (p_next p) p).

Definition add_active (n : Z) : ST process unit := st_modify (fun p => with_active (p_active p + n) p).

Definition set_closed b a := HyAlloc (ha_size a) b (ha_registered a) (ha_counted a) (ha_base a) (ha_pool a).
Definition set_registered b a := HyAlloc (ha_size a) (ha_closed a) b (ha_counted a) (ha_base a) (ha_pool a).
Definition set_counted b a := HyAlloc (ha_size a) (ha_closed a) (ha_registered a) b (ha_base a) (ha_pool a).
Definition drop_pool a := HyAlloc (ha_size a) (ha_closed a) (ha_registered a) (ha_counted a) (ha_base a) None.

Definition update (id : Z) (f : hyfile_allocator -> hyfile_allocator) : ST process unit :=
  a ← get_pool id; set_pool id (f a).

(** ** The base class *)

(** [GPUMemoryAllocator.__init__], patched: the tensor, its allocator, [_closed = False] *)
Definition gpu_init (id : Z) : ST process unit :=
  a ← get_pool id;
  r ← on_driver (lib (torch_empty (ha_size a)));
  base ← st_lift r;
  set_pool id (HyAlloc (ha_size a) false (ha_registered a) (ha_counted a) (Some base)
                 (Some (pool_new (ha_size a) 4096))).

(** [_release_gpu_pool] *)
Definition release_gpu_pool (id : Z) : ST process unit := update id drop_pool.

(** [_ensure_open] *)
Definition ensure_open (id : Z) : ST process unit :=
  a ← get_pool id;
  st_lift (raise_if (ha_closed a) (RuntimeError "HyFileMemoryAllocator is closed")).

(** An operation of [self.allocator] *)
Definition on_pool {A} (id : Z) (f : pool -> A * pool) : ST process A :=
  a ← get_pool id;
  pl ← st_lift (result_of_option AttributeError (ha_pool a));
  let '(x, pl') := f pl in
  set_pool id (HyAlloc (ha_size a) (ha_closed a) (ha_registered a) (ha_counted a) (ha_base a) (Some pl'));;
  mret x.

Definition allocate (id : Z) (req : request) : ST process (option Z) :=
  ensure_open id;; on_pool id (pool_allocate req).

Definition batched_allocate (id : Z) (req : request) (n : Z) : ST process (option (list Z)) :=
  ensure_open id;; on_pool id (pool_batched_allocate req n).

(** [memory_obj.invalidate()] *)
Definition invalidate (objs : list Z) : ST process unit :=
  st_modify (fun p => with_invalid (p_invalid p ++ objs) p).

Definition free (id obj : Z) : ST process unit :=
  a ← get_pool id;
  if ha_closed a then invalidate [obj] else on_pool id (fun pl => (tt, pool_free obj pl)).

Definition batched_free (id : Z) (objs : list Z) : ST process unit :=
  a ← get_pool id;
  if ha_closed a then invalidate objs else on_pool id (fun pl => (tt, pool_batched_free objs pl)).

(** ** [HyFileMemoryAllocator] *)

(** [__init__]; what it raises leaves an object behind, for [__del__]. *)
Definition hyfile_new (size : Z) : ST process Z :=
  p ← st_get;
  let id := p_next p in
  st_put (with_pools (<[id := HyAlloc size true false false None None]> (p_pools p)) (id + 1) p);;
  let opens_driver := p_active p =? 0 in
  st_catch any_exn
    ((if opens_driver then on_driver init_driver else mret tt);;
     gpu_init id;;
     a ← get_pool id;
     base ← st_lift (result_of_option AttributeError (ha_base a));
     on_driver (register_global_buffer base size);;
     update id (set_registered true);;
     update id (set_counted true);;
     add_active 1)
    (fun e =>
       release_gpu_pool id;;
       (if opens_driver then st_catch any_exn (on_driver close_driver) (fun _ => mret tt) else mret tt);;
       st_raise e);;
  mret id.

Definition deregister (id : Z) a : ST process unit :=
  if ha_registered a then
    base ← st_lift (result_of_option AttributeError (ha_base a));
    on_driver (deregister_global_buffer base);;
    update id (set_registered false)
  else mret tt.

Definition uncount (id : Z) a : ST process unit :=
  if ha_counted a then
    p ← st_get;
    (if p_active p =? 1 then on_driver close_driver else mret tt);;
    add_active (-1);;
    update id (set_counted false)
  else mret tt.

Definition close (id : Z) : ST process unit :=
  a ← get_pool id;
  if ha_closed a && negb (ha_registered a) && negb (ha_counted a) then mret tt
  else
    update id (set_closed true);;
    deregister id a;;
    uncount id a;;
    release_gpu_pool id.

(** [__del__], after which the object's tensor goes with it *)
Definition del (id : Z) : ST process unit :=
  st_catch any_exn (close id) (fun _ => mret tt);; release_gpu_pool id.

(** ** Histories *)

Inductive pool_op :=
  | PoolNew (size : Z) | PoolClose (id : Z) | PoolDel (id : Z)
  | PoolAllocate (id : Z) (req : request) | PoolBatchedAllocate (id : Z) (req : request) (n : Z)
  | PoolFree (id obj : Z) | PoolBatchedFree (id : Z) (objs : list Z).

Definition run_pool_op (o : pool_op) : ST process unit :=
  match o with
  | PoolNew size => hyfile_new size;; mret tt
  | PoolClose id => close id
  | PoolDel id => del id
  | PoolAllocate id req => allocate id req;; mret tt
  | PoolBatchedAllocate id req n => batched_allocate id req n;; mret tt
  | PoolFree id obj => free id obj
  | PoolBatchedFree id objs => batched_free id objs
  end.

(** Callers catch what an operation raises and go on. *)
Definition run_pool_ops (ops : list pool_op) : ST process unit :=
  st_iter (fun o => st_catch any_exn (run_pool_op o) (fun _ => mret tt)) ops.

End allocator.
Arguments hyfile_allocator : clear implicits.
Arguments process : clear implicits.
Arguments pool_op : clear implicits.
