(* ===== verification/AllocatorFacts.v ===== *)
(** * GPU memory pools: the life cycle

    The invariant that ties the driver, its registered buffers and the count of active pools
    to the pools that exist, kept by every operation whatever fails; and what a successful
    close leaves. *)

From S2P Require Import Prelude World HipFile Allocator.

Open Scope string_scope.
Open Scope list_scope.
Open Scope Z_scope.

(** ** Sums over a map *)

Section weight.
Context {A : Type}.
Implicit Types (f : A -> Z) (m : gmap Z A).

Definition weight f m : Z := map_fold (fun _ a n => f a + n) 0 m.

Lemma weight_fresh f m i a : m !! i = None -> weight f (<[i := a]> m) = f a + weight f m.
Proof.
  intros Hi. unfold weight. apply (map_fold_insert_L (fun _ a n => f a + n)); [|exact Hi]. intros. lia.
Qed.

Lemma weight_update f m i a a' : m !! i = Some a -> weight f (<[i := a']> m) = weight f m - f a + f a'.
Proof.
  intros Hi. rewrite <- (insert_delete_eq m i a'), weight_fresh by apply lookup_delete_eq.
  rewrite <- (insert_id m i a Hi) at 2. rewrite <- (insert_delete_eq m i a), weight_fresh by apply lookup_delete_eq.
  lia.
Qed.

Lemma weight_nonneg f m : (forall a, 0 <= f a) -> 0 <= weight f m.
Proof.
  intros Hf. induction m as [|i a m Hi IH] using map_ind; [done|].
  rewrite weight_fresh by done. specialize (Hf a). lia.
Qed.

Lemma weight_le f m i a : (forall a, 0 <= f a) -> m !! i = Some a -> f a <= weight f m.
Proof.
  intros Hf Hi. rewrite <- (insert_id m i a Hi), <- (insert_delete_eq m i a).
  rewrite weight_fresh by apply lookup_delete_eq. pose proof (weight_nonneg f (delete i m) Hf). lia.
Qed.

Lemma weight_zero f m : (forall i a, m !! i = Some a -> f a = 0) -> weight f m = 0.
Proof.
  induction m as [|i a m Hi IH] using map_ind; intros Hf; [done|].
  rewrite weight_fresh by done. rewrite (Hf i a) by apply lookup_insert_eq. rewrite IH; [done|].
  intros j b Hj. apply (Hf j). rewrite lookup_insert_ne; [done|]. congruence.
Qed.

(** Additions of weight zero *)
Lemma weight_extend f m0 m :
  (forall i a, m0 !! i = Some a -> m !! i = Some a) ->
  (forall i a, m !! i = Some a -> m0 !! i = None -> f a = 0) -> weight f m = weight f m0.
Proof.
  revert m. induction m0 as [|i a m0 Hi IH] using map_ind; intros m Hsub Hzero.
  - apply weight_zero. intros i a Ha. by apply (Hzero i).
  - assert (m !! i = Some a) as Hm by (apply Hsub, lookup_insert_eq).
    rewrite <- (insert_id m i a Hm), <- (insert_delete_eq m i a).
    rewrite !weight_fresh by (done || apply lookup_delete_eq). f_equal. apply IH.
    + intros j b Hj. assert (j <> i) by congruence. rewrite lookup_delete_ne by done. apply Hsub.
      by rewrite lookup_insert_ne.
    + intros j b [Hne Hj]%lookup_delete_Some Hn. apply (Hzero j); [done|]. by rewrite lookup_insert_ne.
Qed.

End weight.

(** ** The driver *)

(** How often an address is registered *)
Definition refs (h : hip_class) (b : Z) : Z :=
  match global_buffers h !! b with Some (_, n) => n | None => 0 end.

(** Files, descriptors and device memory are untouched. *)
Definition undisturbed (w w' : world) : Prop :=
  files w' = files w /\ fds w' = fds w /\ fresh w' = fresh w /\ forall a, mem w' a = mem w a.

Lemma undisturbed_trans w1 w2 w3 : undisturbed w1 w2 -> undisturbed w2 w3 -> undisturbed w1 w3.
Proof.
  intros (A1 & A2 & A3 & A4) (B1 & B2 & B3 & B4). repeat split; [congruence..|].
  intros a. by rewrite B4, A4.
Qed.

Lemma undisturbed_refl w : undisturbed w w.
Proof. done. Qed.

#[export] Hint Resolve undisturbed_refl : core.

Section driver.
Context {HL : HyFileLib} {HLF : HyFileFrames}.
Implicit Types (w : world).

Lemma lib_call_run (f : world -> Z * world) w :
  (forall w, quiet w (f w).2) ->
  exists w', undisturbed w w' /\ hip w' = hip w
    /\ (x ← lib f; check_err x) w = (if (f w).1 =? 0 then Ok tt else Raise (HIPfileException (f w).1), w').
Proof.
  intros Hq. specialize (Hq w). exists (f w).2. destruct Hq as (A & B & C & D & E).
  split; [done|]. split; [done|]. unfold mbind, ST_bind, lib, check_err.
  destruct (f w) as [x w']. simpl. by destruct (x =? 0).
Qed.

(** A library call followed by its entry in the log *)
Lemma logged_call_run (f : world -> Z * world) c w :
  (forall w, quiet w (f w).2) ->
  exists w', undisturbed w w' /\
    (((f w).1 = 0 /\ (x ← lib f; check_err x;; log_call c) w = (Ok tt, w')
        /\ hip w' = HipClass (lib_loaded (hip w)) (driver_opened (hip w)) (global_buffers (hip w))
                      (c :: lib_calls (hip w)))
     \/ exists e, (x ← lib f; check_err x;; log_call c) w = (Raise e, w') /\ hip w' = hip w).
Proof.
  intros Hq. specialize (Hq w). destruct Hq as (A & B & C & D & E).
  unfold lib, check_err, log_call, st_modify, mbind, ST_bind.
  destruct (f w) as [x w']. simpl in *. destruct (Z.eqb_spec x 0) as [->|Hx]; simpl.
  - eexists. split; [|left; split; [done|split; [done|simpl; by rewrite D]]]. done.
  - exists w'. split; [done|]. right. by eexists.
Qed.

Lemma load_lib_run w :
  exists w', undisturbed w w' /\ driver_opened (hip w') = driver_opened (hip w)
    /\ global_buffers (hip w') = global_buffers (hip w) /\ (hip_inv w -> hip_inv w')
    /\ ((load_lib w = (Ok tt, w') /\ lib_loaded (hip w') = true)
        \/ exists e, load_lib w = (Raise e, w')).
Proof.
  unfold load_lib, get_hip, st_gets, mbind, ST_bind. simpl.
  destruct (lib_loaded (hip w)) eqn:E.
  - exists w. do 4 (split; [done|]). by left.
  - destruct libhyfile_present; simpl.
    + eexists. split; [|split; [|split; [|split; [|left; done]]]]; try done.
      unfold hip_inv. simpl. intros Hi. by apply inv_flags.
    + exists w. do 4 (split; [done|]). right. by eexists.
Qed.

(** What a call of the class's driver methods leaves: [refs] and the open flag *)
Definition driver_step w w' (open' : bool) (delta : Z -> Z) : Prop :=
  undisturbed w w' /\ hip_inv w' /\ driver_opened (hip w') = open'
  /\ forall b, refs (hip w') b = refs (hip w) b + delta b.

Definition none (b : Z) : Z := 0.
Definition at_base (n base b : Z) : Z := if b =? base then n else 0.

Lemma init_driver_run w :
  hip_inv w ->
  exists w', (init_driver w = (Ok tt, w') /\ driver_step w w' true none /\ lib_loaded (hip w') = true)
    \/ exists e, init_driver w = (Raise e, w') /\ driver_step w w' (driver_opened (hip w)) none.
Proof.
  intros Hi. destruct (load_lib_run w) as (w1 & Hu & Hd & Hb & Hinv & Hr).
  specialize (Hinv Hi).
  assert (forall b, refs (hip w1) b = refs (hip w) b + none b) as Hrefs
    by (intros b; unfold refs, none; rewrite Hb; lia).
  unfold init_driver. destruct Hr as [[El Hlib]|[e El]].
  2:{ exists w1. right. exists e. split; [by apply run_bind_raise|]. unfold driver_step. by rewrite <- Hd. }
  rewrite (run_bind _ _ _ _ _ El). rewrite (run_bind get_hip _ _ (hip w1) w1) by done.
  destruct (driver_opened (hip w1)) eqn:Eo.
  { exists w1. left. done. }
  destruct (lib_call_run hipFileDriverOpen w1 driver_open_quiet) as (w2 & Hu2 & Hh2 & E).
  unfold driver_open. destruct ((hipFileDriverOpen w1).1 =? 0).
  - rewrite (run_bind _ _ _ _ _ E). eexists. left. split; [done|]. split; [|simpl; congruence].
    split; [by eapply undisturbed_trans; [exact Hu|]|]. split.
    + unfold hip_inv. simpl. rewrite Hh2. by apply inv_flags.
    + split; [done|]. intros b. rewrite <- Hrefs. unfold refs. simpl. by rewrite Hh2.
  - exists w2. right. eexists. split; [by apply run_bind_raise|].
    split; [by eapply undisturbed_trans|]. unfold hip_inv. rewrite Hh2. split; [done|].
    by rewrite Eo, <- Hd.
Qed.

Lemma close_driver_run w :
  hip_inv w ->
  exists w', (close_driver w = (Ok tt, w')
      /\ driver_step w w' (driver_opened (hip w) && negb (lib_loaded (hip w))) none)
    \/ exists e, close_driver w = (Raise e, w') /\ driver_step w w' (driver_opened (hip w)) none.
Proof.
  intros Hi. unfold close_driver. rewrite (run_bind get_hip _ _ (hip w) w) by done.
  destruct (driver_opened (hip w) && lib_loaded (hip w)) eqn:E.
  - apply andb_true_iff in E as [Eo El].
    destruct (lib_call_run hipFileDriverClose w driver_close_quiet) as (w2 & Hu2 & Hh2 & E).
    unfold driver_close. rewrite Eo, El. destruct ((hipFileDriverClose w).1 =? 0).
    + rewrite (run_bind _ _ _ _ _ E). eexists. left. split; [done|]. split; [done|].
      split; [|split; [done|]].
      * unfold hip_inv. simpl. rewrite Hh2. by apply inv_flags.
      * intros b. unfold none, refs. simpl. rewrite Hh2. lia.
    + exists w2. right. eexists. split; [by apply run_bind_raise|]. split; [done|]. unfold hip_inv. rewrite Hh2.
      split; [done|]. split; [done|]. intros b. unfold none. lia.
  - exists w. left. split; [done|]. split; [done|]. split; [done|]. split.
    + destruct (driver_opened (hip w)), (lib_loaded (hip w)); done.
    + intros b. unfold none. lia.
Qed.

Lemma refs_insert h b s n :
  (forall c, refs (HipClass (lib_loaded h) (driver_opened h) (<[b := (s, n)]> (global_buffers h)) (lib_calls h)) c
    = refs h c + at_base (n - refs h b) b c).
Proof.
  intros c. unfold refs, at_base. simpl. destruct (Z.eqb_spec c b) as [->|Hne].
  - rewrite lookup_insert_eq. lia.
  - rewrite lookup_insert_ne by done. lia.
Qed.

Lemma register_run base size w :
  hip_inv w ->
  exists w', (register_global_buffer base size w = (Ok tt, w')
        /\ driver_step w w' (driver_opened (hip w)) (at_base 1 base))
    \/ exists e, register_global_buffer base size w = (Raise e, w')
        /\ driver_step w w' (driver_opened (hip w)) none.
Proof.
  intros Hi. pose proof (register_inv base size w Hi) as Hinv.
  destruct (load_lib_run w) as (w1 & Hu & Hd & Hb & Hinv1 & Hr). specialize (Hinv1 Hi).
  assert (forall b, refs (hip w1) b = refs (hip w) b) as Hrefs by (intros b; unfold refs; by rewrite Hb).
  revert Hinv. unfold register_global_buffer.
  destruct Hr as [[El Hlib]|[e El]].
  2:{ rewrite (run_bind_raise _ _ _ _ _ El). intros _. exists w1. right. exists e. split; [done|].
      split; [done|]. split; [done|]. split; [done|]. intros b. rewrite Hrefs. unfold none. lia. }
  rewrite (run_bind _ _ _ _ _ El). rewrite (run_bind get_hip _ _ (hip w1) w1) by done.
  destruct (driver_opened (hip w1)) eqn:Eo; cbn [negb].
  2:{ intros _. exists w1. right. eexists. split; [done|]. split; [done|]. split; [done|].
      split; [congruence|]. intros b. rewrite Hrefs. unfold none. lia. }
  destruct (global_buffers (hip w1) !! base) as [[old rc]|] eqn:Eb.
  - destruct (old =? size) eqn:Es; cbn [negb]; intros Hinv.
    + eexists. left. split; [done|]. split; [done|]. split; [done|]. split; [simpl; congruence|].
      intros b. assert (refs (hip w1) base = rc) as Ebase by (unfold refs; by rewrite Eb).
      cbn [hip with_hip]. rewrite refs_insert, Hrefs, Ebase. unfold at_base. destruct (b =? base); lia.
    + exists w1. right. eexists. split; [done|]. split; [done|]. split; [done|].
      split; [congruence|]. intros b. rewrite Hrefs. unfold none. lia.
  - destruct (logged_call_run (hipFileBufRegister base size) (LibRegister base) w1
      ltac:(apply buf_register_quiet)) as (w2 & Hu2 & [(_ & E & Hh2)|(e & E & Hh2)]); fold (lib_register_buffer base size) in E.
    + rewrite (run_bind _ _ _ _ _ E). intros Hinv. eexists. left. split; [done|].
      split; [by eapply undisturbed_trans; [exact Hu|]|]. split; [exact Hinv|].
      split; [simpl; rewrite Hh2; simpl; congruence|]. intros b. unfold refs at 1. simpl. rewrite <- Hrefs.
      unfold refs, at_base. destruct (Z.eqb_spec b base) as [->|Hne].
      * by rewrite lookup_insert_eq, Eb.
      * rewrite lookup_insert_ne by done. lia.
    + rewrite (run_bind_raise _ _ _ _ _ E). intros _.
      exists w2. right. eexists. split; [done|]. split; [by eapply undisturbed_trans|].
      unfold hip_inv. rewrite Hh2. split; [done|]. split; [congruence|].
      intros b. rewrite Hrefs. unfold none. lia.
Qed.

Lemma deregister_run base w :
  hip_inv w -> 0 < refs (hip w) base ->
  exists w', (deregister_global_buffer base w = (Ok tt, w')
        /\ driver_step w w' (driver_opened (hip w)) (at_base (-1) base))
    \/ exists e, deregister_global_buffer base w = (Raise e, w')
        /\ driver_step w w' (driver_opened (hip w)) none.
Proof.
  intros Hi Hpos. pose proof (deregister_inv base w Hi) as Hinv. revert Hinv.
  unfold deregister_global_buffer. rewrite (run_bind get_hip _ _ (hip w) w) by done.
  destruct (global_buffers (hip w) !! base) as [[size rc]|] eqn:Eb.
  2:{ unfold refs in Hpos. rewrite Eb in Hpos. lia. }
  destruct (Z.ltb_spec 1 rc); intros Hinv.
  - eexists. left. split; [done|]. split; [done|]. split; [exact Hinv|]. split; [done|].
    intros b. assert (refs (hip w) base = rc) as Ebase by (unfold refs; by rewrite Eb).
    cbn [hip with_hip]. rewrite refs_insert, Ebase. unfold at_base. destruct (b =? base); lia.
  - assert (lib_loaded (hip w) = true) as El.
    { destruct Hi as (_ & _ & Hn). apply Hn. intros He. by rewrite He, lookup_empty in Eb. }
    assert (rc = 1) as -> by (destruct Hi as (_ & Hp & _); specialize (Hp _ _ _ Eb); lia).
    rewrite El in *.
    destruct (logged_call_run (hipFileBufDeregister base) (LibDeregister base) w
      ltac:(apply buf_deregister_quiet)) as (w2 & Hu2 & [(_ & E & Hh2)|(e & E & Hh2)]); fold (lib_deregister_buffer base) in E.
    + rewrite (run_bind _ _ _ _ _ E) in *. eexists. left. split; [done|].
      split; [done|]. split; [exact Hinv|]. split; [simpl; rewrite Hh2; simpl; congruence|].
      intros b. unfold refs at 1. simpl. unfold refs, at_base.
      destruct (Z.eqb_spec b base) as [->|Hne].
      * by rewrite lookup_delete_eq, Eb.
      * rewrite lookup_delete_ne by done. lia.
    + rewrite (run_bind_raise _ _ _ _ _ E).
      exists w2. right. eexists. split; [done|]. split; [done|]. unfold hip_inv. rewrite Hh2.
      split; [done|]. split; [done|]. intros b. unfold none. lia.
Qed.

(** The library stays loaded. *)
Definition loaded w : Prop := lib_loaded (hip w) = true.

Lemma preserves_lib {A} (f : world -> A * world) :
  (forall w, quiet w (f w).2) -> preserves loaded (lib f).
Proof.
  intros Hq w Hw. specialize (Hq w). unfold loaded, lib in *. destruct (f w) as [x w'].
  destruct Hq as (_ & _ & _ & E & _). simpl in *. congruence.
Qed.

Lemma class_op_loaded o : preserves loaded (run_class_op o).
Proof.
  assert (forall h, preserves loaded (set_hip (HipClass true (driver_opened h) (global_buffers h) (lib_calls h)))) as Hset
    by (intros h w _; done).
  assert (preserves loaded load_lib) as Hload.
  { intros w Hw. unfold load_lib. rewrite (run_bind get_hip _ _ (hip w) w) by done. by rewrite Hw. }
  assert (forall err, preserves loaded (check_err err)) as Hc
    by (intros err; unfold check_err; destruct (err =? 0); [apply preserves_ret|apply preserves_raise]).
  assert (forall b, preserves loaded (set_driver b)) as Hd by (intros b w Hw; exact Hw).
  assert (forall b, preserves loaded (set_buffers b)) as Hb by (intros b w Hw; exact Hw).
  assert (forall c, preserves loaded (log_call c)) as Hl by (intros c w Hw; exact Hw).
  destruct o as [p n|p| |]; simpl.
  - unfold register_global_buffer. apply preserves_bind; [done|]. intros _.
    apply preserves_bind; [apply preserves_gets|]. intros h.
    destruct (negb _); [apply preserves_raise|]. destruct (_ !! p) as [[old rc]|].
    + destruct (negb _); [apply preserves_raise|done].
    + apply preserves_bind; [|done]. unfold lib_register_buffer.
      apply preserves_bind; [apply preserves_lib, buf_register_quiet|]. intros err.
      by apply preserves_bind.
  - unfold deregister_global_buffer. apply preserves_bind; [apply preserves_gets|]. intros h.
    destruct (_ !! p) as [[size rc]|]; [|apply preserves_ret]. destruct (1 <? rc); [done|].
    apply preserves_bind; [|done]. destruct (lib_loaded h); [|apply preserves_ret].
    unfold lib_deregister_buffer.
    apply preserves_bind; [apply preserves_lib, buf_deregister_quiet|]. intros err.
    by apply preserves_bind.
  - unfold init_driver. apply preserves_bind; [done|]. intros _.
    apply preserves_bind; [apply preserves_gets|]. intros h.
    destruct (driver_opened h); [apply preserves_ret|]. apply preserves_bind; [|done].
    apply preserves_bind; [apply preserves_lib, driver_open_quiet|done].
  - unfold close_driver. apply preserves_bind; [apply preserves_gets|]. intros h.
    destruct (_ && _); [|apply preserves_ret]. apply preserves_bind; [|done].
    apply preserves_bind; [apply preserves_lib, driver_close_quiet|done].
Qed.

(** ** The driver with its library: an open driver has one. *)

Definition driver_ok w : Prop := hip_inv w /\ (driver_opened (hip w) = true -> loaded w).

Definition moves w w' (open' : bool) (delta : Z -> Z) : Prop :=
  undisturbed w w' /\ driver_ok w' /\ driver_opened (hip w') = open'
  /\ forall b, refs (hip w') b = refs (hip w) b + delta b.

Lemma step_moves o w r w' d :
  run_class_op o w = (r, w') -> driver_ok w -> driver_step w w' (driver_opened (hip w)) d ->
  moves w w' (driver_opened (hip w)) d.
Proof.
  intros E [Hi Hl] (Hu & Hi' & Hd & Hr). split; [done|]. split; [|done]. split; [done|].
  intros Ho. rewrite Hd in Ho. pose proof (class_op_loaded o w (Hl Ho)) as H. by rewrite E in H.
Qed.

Lemma init_driver_moves w :
  driver_ok w ->
  exists w', (init_driver w = (Ok tt, w') /\ moves w w' true none)
    \/ exists e, init_driver w = (Raise e, w') /\ moves w w' (driver_opened (hip w)) none.
Proof.
  intros Hok. destruct (init_driver_run w (proj1 Hok)) as [w' [(E & (Hu & Hi & Ho & Hr) & Hl)|(e & E & Hs)]]; exists w'.
  - by left.
  - right. exists e. split; [done|]. by apply (step_moves OpInit w (Raise e)).
Qed.

Lemma close_driver_moves w :
  driver_ok w ->
  exists w', (close_driver w = (Ok tt, w') /\ moves w w' false none)
    \/ exists e, close_driver w = (Raise e, w') /\ moves w w' (driver_opened (hip w)) none.
Proof.
  intros Hok. destruct (close_driver_run w (proj1 Hok)) as [w' [(E & (Hu & Hi & Ho & Hr))|(e & E & Hs)]]; exists w'.
  - left. split; [done|]. assert (driver_opened (hip w') = false) as Hf.
    { rewrite Ho. destruct Hok as [_ Hl]. destruct (driver_opened (hip w)); [|done]. by rewrite Hl. }
    split; [done|]. split; [|done]. split; [done|]. congruence.
  - right. exists e. split; [done|]. by apply (step_moves OpClose w (Raise e)).
Qed.

Lemma register_moves base size w :
  driver_ok w ->
  exists w', (register_global_buffer base size w = (Ok tt, w')
        /\ moves w w' (driver_opened (hip w)) (at_base 1 base))
    \/ exists e, register_global_buffer base size w = (Raise e, w')
        /\ moves w w' (driver_opened (hip w)) none.
Proof.
  intros Hok. destruct (register_run base size w (proj1 Hok)) as [w' [(E & Hs)|(e & E & Hs)]]; exists w'.
  - left. split; [done|]. by apply (step_moves (OpRegister base size) w (Ok tt)).
  - right. exists e. split; [done|]. by apply (step_moves (OpRegister base size) w (Raise e)).
Qed.

Lemma deregister_moves base w :
  driver_ok w -> 0 < refs (hip w) base ->
  exists w', (deregister_global_buffer base w = (Ok tt, w')
        /\ moves w w' (driver_opened (hip w)) (at_base (-1) base))
    \/ exists e, deregister_global_buffer base w = (Raise e, w')
        /\ moves w w' (driver_opened (hip w)) none.
Proof.
  intros Hok Hp. destruct (deregister_run base w (proj1 Hok) Hp) as [w' [(E & Hs)|(e & E & Hs)]]; exists w'.
  - left. split; [done|]. by apply (step_moves (OpDeregister base) w (Ok tt)).
  - right. exists e. split; [done|]. by apply (step_moves (OpDeregister base) w (Raise e)).
Qed.

End driver.

(** ** The pools *)

Section pools.
Context {HL : HyFileLib} {HLF : HyFileFrames} {pool request : Type} {PO : PoolOps pool request}.
#[local] Abbreviation allocator := (hyfile_allocator pool).
#[local] Abbreviation process := (process pool).
Implicit Types (p : process) (a : allocator).

Definition counted a : Z := if ha_counted a then 1 else 0.

(** The registrations of address [b] that a pool holds *)
Definition holds (b : Z) a : Z := if ha_registered a && bool_decide (ha_base a = Some b) then 1 else 0.

(** A registered pool is counted and has an address; an open one in service is registered and
    has its memory; a released one has none. *)
Definition alloc_ok a : Prop :=
  (ha_registered a = true -> ha_counted a = true /\ is_Some (ha_base a))
  /\ (ha_counted a = true -> ha_closed a = false -> ha_registered a = true /\ is_Some (ha_pool a))
  /\ (ha_counted a = false -> ha_closed a = true -> ha_pool a = None).

(** In service; released *)
Definition in_service a : Prop := ha_closed a = false /\ ha_registered a = true /\ ha_counted a = true.
Definition released a : Prop := ha_closed a = true /\ ha_registered a = false /\ ha_counted a = false.

(** Registrations of others, per address *)
Context (outside : Z -> Z) (Houtside : forall b, 0 <= outside b).

Record pools_ok p : Prop := {
  po_driver : driver_ok (p_world p);
  po_next : forall id a, p_pools p !! id = Some a -> id < p_next p;
  po_active : p_active p = weight counted (p_pools p);
  po_open : 0 < p_active p -> driver_opened (hip (p_world p)) = true;
  po_refs : forall b, refs (hip (p_world p)) b = outside b + weight (holds b) (p_pools p);
  po_alloc : forall id a, p_pools p !! id = Some a -> alloc_ok a;
}.

Lemma counted_nonneg a : 0 <= counted a.
Proof. unfold counted. destruct (ha_counted a); lia. Qed.

Lemma holds_nonneg b a : 0 <= holds b a.
Proof. unfold holds. destruct (_ && _); lia. Qed.

Lemma pools_ok_world p w o :
  pools_ok p -> moves (p_world p) w o none -> (0 < p_active p -> o = true) -> pools_ok (with_world w p).
Proof.
  intros [H1 H2 H3 H4 H5 H6] (_ & Hok & Ho & Hr) Hact. split; simpl; try done.
  - intros Hp. rewrite Ho. auto.
  - intros b. rewrite Hr, H5. unfold none. lia.
Qed.

(** A record changed without changing what it holds *)
Lemma pools_ok_update p id a a' :
  pools_ok p -> p_pools p !! id = Some a -> alloc_ok a' -> counted a' = counted a ->
  (forall b, holds b a' = holds b a) -> pools_ok (with_pools (<[id := a']> (p_pools p)) (p_next p) p).
Proof.
  intros [H1 H2 H3 H4 H5 H6] Hid Ha' Hc Hh. split; simpl; try done.
  - intros i x [[-> _]|[_ Hi]]%lookup_insert_Some; eauto.
  - rewrite (weight_update _ _ _ a) by done. lia.
  - intros b. rewrite (weight_update _ _ _ a) by done. rewrite H5, Hh. lia.
  - intros i x [[_ <-]|[_ Hi]]%lookup_insert_Some; eauto.
Qed.

Lemma pools_ok_fresh p a :
  pools_ok p -> alloc_ok a -> counted a = 0 -> (forall b, holds b a = 0) ->
  pools_ok (with_pools (<[p_next p := a]> (p_pools p)) (p_next p + 1) p).
Proof.
  intros [H1 H2 H3 H4 H5 H6] Ha Hc Hh.
  assert (p_pools p !! p_next p = None) as Hn.
  { destruct (p_pools p !! p_next p) eqn:E; [|done]. specialize (H2 _ _ E). lia. }
  split; simpl; try done.
  - intros i x [[<- _]|[_ Hi]]%lookup_insert_Some; [lia|]. specialize (H2 _ _ Hi). lia.
  - rewrite weight_fresh by done. lia.
  - intros b. rewrite weight_fresh by done. rewrite H5, Hh. lia.
  - intros i x [[_ <-]|[_ Hi]]%lookup_insert_Some; eauto.
Qed.

Lemma pools_ok_invalid p l : pools_ok p -> pools_ok (with_invalid l p).
Proof. by intros [H1 H2 H3 H4 H5 H6]. Qed.

(** Running the small steps *)

Lemma get_pool_run id p a : p_pools p !! id = Some a -> get_pool id p = (Ok a, p).
Proof. intros H. unfold get_pool, st_get, mbind, ST_bind. by rewrite H. Qed.

Lemma update_run id f p a :
  p_pools p !! id = Some a ->
  update id f p = (Ok tt, with_pools (<[id := f a]> (p_pools p)) (p_next p) p).
Proof. intros H. unfold update. by rewrite (run_bind _ _ _ _ _ (get_pool_run _ _ _ H)). Qed.

Lemma on_driver_run {A} (m : ST world A) p r w :
  m (p_world p) = (r, w) -> on_driver (pool := pool) m p = (r, with_world w p).
Proof. intros H. unfold on_driver. by rewrite H. Qed.

Lemma empty_moves n w :
  driver_ok w -> moves w (torch_empty n w).2 (driver_opened (hip w)) none.
Proof.
  intros Hok. pose proof (torch_empty_quiet n w) as (A & B & C & D & E). split; [done|].
  unfold driver_ok, hip_inv, loaded, none. rewrite D. split; [done|]. split; [done|]. intros. lia.
Qed.

(** Not registered, not counted *)
Definition idle a : Prop :=
  ha_registered a = false /\ ha_counted a = false /\ (ha_closed a = true -> ha_pool a = None).

Lemma idle_alloc_ok a : idle a -> alloc_ok a.
Proof. intros (H1 & H2 & H3). split; [congruence|]. split; [congruence|done]. Qed.

Lemma idle_counted a : idle a -> counted a = 0.
Proof. intros (_ & H & _). unfold counted. by rewrite H. Qed.

Lemma idle_holds a b : idle a -> holds b a = 0.
Proof. intros [H _]. unfold holds. by rewrite H. Qed.

Lemma idle_drop a : idle a -> idle (drop_pool a).
Proof. by intros (H1 & H2 & H3). Qed.

Hint Resolve idle_alloc_ok idle_counted idle_holds : core.

Lemma pools_ok_idle p id a a' :
  pools_ok p -> p_pools p !! id = Some a -> idle a -> idle a' ->
  pools_ok (with_pools (<[id := a']> (p_pools p)) (p_next p) p).
Proof.
  intros Hok Hid Ha Ha'. apply (pools_ok_update p id a); auto.
  - by rewrite !idle_counted.
  - intros b. by rewrite !idle_holds.
Qed.

(** A driver that refuses neither to close nor to deregister *)
Definition releases : Prop :=
  (forall w, (hipFileDriverClose w).1 = 0) /\ forall b w, (hipFileBufDeregister b w).1 = 0.

Lemma close_driver_accepts w : releases -> exists w', close_driver w = (Ok tt, w').
Proof.
  intros [Hc _]. unfold close_driver, get_hip. rewrite (run_bind (st_gets hip) _ w (hip w) w) by done.
  destruct (_ && _); [|by eexists]. unfold driver_close, lib, check_err, mbind, ST_bind. specialize (Hc w).
  destruct (hipFileDriverClose w) as [x w']. simpl in Hc. subst x. by eexists.
Qed.

(** What a failed construction leaves: its object, idle and without memory; a driver others
    use as it was, and one that nobody uses closed, unless that is refused. *)
Record rolled_back (id : Z) p p' : Prop := {
  rb_ok : pools_ok p';
  rb_active : p_active p' = p_active p;
  rb_pools : exists a, p_pools p' = <[id := a]> (p_pools p) /\ idle a /\ ha_pool a = None;
  rb_next : p_next p' = id + 1;
  rb_invalid : p_invalid p' = p_invalid p;
  rb_world : undisturbed (p_world p) (p_world p');
  rb_refs : forall b, refs (hip (p_world p')) b = refs (hip (p_world p)) b;
  rb_driver : 0 < p_active p -> driver_opened (hip (p_world p')) = driver_opened (hip (p_world p));
  rb_closed : p_active p = 0 -> releases -> driver_opened (hip (p_world p')) = false;
}.

(** Between the first step and the registration *)
Record building (id : Z) p p1 : Prop := {
  bd_ok : pools_ok p1;
  bd_active : p_active p1 = p_active p;
  bd_pools : exists a, p_pools p1 = <[id := a]> (p_pools p) /\ idle a;
  bd_next : p_next p1 = id + 1;
  bd_invalid : p_invalid p1 = p_invalid p;
  bd_world : undisturbed (p_world p) (p_world p1);
  bd_refs : forall b, refs (hip (p_world p1)) b = refs (hip (p_world p)) b;
  bd_driver : 0 < p_active p -> driver_opened (hip (p_world p1)) = driver_opened (hip (p_world p));
}.

Lemma building_world id p p1 w o :
  building id p p1 -> moves (p_world p1) w o none -> (0 < p_active p -> o = driver_opened (hip (p_world p1))) ->
  building id p (with_world w p1).
Proof.
  intros [Hok Hact Hp Hn Hi Hw Hr Hd] Hm Ho. split; try done.
  - eapply pools_ok_world; [done|done|]. rewrite Hact. intros H. rewrite Ho by done.
    apply (po_open _ Hok). by rewrite Hact.
  - by eapply undisturbed_trans; [exact Hw|apply Hm].
  - intros b. destruct Hm as (_ & _ & _ & Hr'). simpl. rewrite Hr', Hr. unfold none. lia.
  - intros H. destruct Hm as (_ & _ & Ho' & _). simpl. rewrite Ho', Ho by done. auto.
Qed.

Lemma building_update id p p1 f :
  building id p p1 -> (forall a, idle a -> idle (f a)) ->
  exists a, p_pools p1 !! id = Some a /\ idle a
    /\ building id p (with_pools (<[id := f a]> (p_pools p1)) (p_next p1) p1).
Proof.
  intros [Hok Hact (a & Hp & Ha) Hn Hi Hw Hr Hd] Hf.
  assert (p_pools p1 !! id = Some a) as Hid by (rewrite Hp; apply lookup_insert_eq).
  exists a. split; [done|]. split; [done|]. split; try done.
  - apply (pools_ok_idle p1 id a); auto.
  - exists (f a). split; [|auto]. simpl. rewrite Hp. apply insert_insert_eq.
Qed.

Lemma building_rollback {A} id p p1 e :
  building id p p1 ->
  exists p', (release_gpu_pool id;;
     (if p_active p =? 0 then st_catch any_exn (on_driver close_driver) (fun _ => mret tt) else mret tt);;
     st_raise e : ST process A) p1 = (Raise e, p') /\ rolled_back id p p'.
Proof.
  intros Hb. destruct (building_update id p p1 drop_pool Hb idle_drop) as (a & Hid & Ha & Hb1).
  unfold release_gpu_pool. rewrite (run_bind _ _ _ _ _ (update_run _ _ _ _ Hid)).
  set (p2 := with_pools _ _ p1) in *.
  assert (exists p', (if p_active p =? 0 then st_catch any_exn (on_driver close_driver) (fun _ => mret tt) else mret tt) p2
      = (Ok tt, p') /\ building id p p' /\ p_pools p' = p_pools p2
      /\ (p_active p = 0 -> releases -> driver_opened (hip (p_world p')) = false)) as (p' & E & Hb' & Hp' & Hcl).
  { destruct (Z.eqb_spec (p_active p) 0) as [H0|H0]; [|by exists p2].
    destruct (close_driver_moves (p_world p2) (po_driver _ (bd_ok _ _ _ Hb1))) as [w [(E & Hm)|(e' & E & Hm)]];
      (exists (with_world w p2); split; [|split; [eapply building_world; [done|done|lia]|split; [done|]]]).
    - by rewrite (run_catch _ _ _ _ _ _ (on_driver_run _ _ _ _ E)).
    - intros _ _. apply Hm.
    - by rewrite (run_catch_raise _ _ _ _ _ _ (on_driver_run _ _ _ _ E)).
    - intros _ Hr. destruct (close_driver_accepts (p_world p2) Hr) as [w' Ew]. congruence. }
  rewrite (run_bind _ _ _ _ _ E). exists p'. split; [done|].
  destruct Hb' as [Hok Hact _ Hn Hi Hw Hr Hd]. split; try done.
  exists (drop_pool a). split; [|split; [by apply idle_drop|done]]. rewrite Hp'. simpl.
  destruct (bd_pools _ _ _ Hb) as (a' & -> & _). apply insert_insert_eq.
Qed.

(** What a construction that returns leaves *)
Record created (id size base : Z) p p' : Prop := {
  cr_ok : pools_ok p';
  cr_active : p_active p' = p_active p + 1;
  cr_pools : p_pools p' = <[id := HyAlloc size false true true (Some base) (Some (pool_new size 4096))]> (p_pools p);
  cr_next : p_next p' = id + 1;
  cr_invalid : p_invalid p' = p_invalid p;
  cr_world : undisturbed (p_world p) (p_world p');
  cr_refs : forall b, refs (hip (p_world p')) b = refs (hip (p_world p)) b + at_base 1 base b;
}.

Lemma holds_registered b base a :
  ha_registered a = true -> ha_base a = Some base -> holds b a = at_base 1 base b.
Proof.
  intros H1 H2. unfold holds, at_base. rewrite H1, H2. destruct (Z.eqb_spec b base) as [->|Hne]; simpl.
  - by rewrite bool_decide_eq_true_2.
  - rewrite bool_decide_eq_false_2; [done|congruence].
Qed.

(** The registered pool enters service. *)
Lemma building_created id size base p p1 w a :
  building id p p1 -> p_pools p !! id = None -> p_pools p1 = <[id := a]> (p_pools p) -> idle a ->
  driver_opened (hip (p_world p1)) = true ->
  moves (p_world p1) w (driver_opened (hip (p_world p1))) (at_base 1 base) ->
  let a' := HyAlloc size false true true (Some base) (Some (pool_new size 4096)) in
  forall m, m = <[id := a']> (p_pools p) ->
  created id size base p (with_active (p_active p1 + 1) (with_pools m (p_next p1) (with_world w p1))).
Proof.
  intros [Hok Hact _ Hn Hi Hw Hr Hd] Hnone Hp Ha Hopen (Hu & Hdo & Ho & Hr') a' m ->.
  destruct Hok as [H1 H2 H3 H4 H5 H6].
  assert (p_pools p1 !! id = Some a) as Hid by (rewrite Hp; apply lookup_insert_eq).
  assert (<[id := a']> (p_pools p1) = <[id := a']> (p_pools p)) as Hm by (rewrite Hp; apply insert_insert_eq).
  split; simpl; try done.
  - split; simpl; try done.
    + intros i x [[<- _]|[_ Hx]]%lookup_insert_Some; [lia|]. apply (H2 _ x). rewrite Hp.
      destruct (decide (id = i)) as [->|]; [congruence|by rewrite lookup_insert_ne].
    + rewrite <- Hm, (weight_update _ _ _ a) by done. rewrite (idle_counted a Ha). unfold counted at 2. simpl. lia.
    + intros _. congruence.
    + intros b. rewrite <- Hm, (weight_update _ _ _ a) by done. rewrite (idle_holds a b Ha).
      rewrite (holds_registered b base a') by done. rewrite Hr', H5. lia.
    + intros i x [[_ <-]|[Hne Hx]]%lookup_insert_Some; [split; [|split]; simpl; eauto; done|].
      apply (H6 i). by rewrite Hp, lookup_insert_ne.
  - lia.
  - by eapply undisturbed_trans.
  - intros b. rewrite Hr', Hr. done.
Qed.

Lemma pool_fresh p : pools_ok p -> p_pools p !! p_next p = None.
Proof.
  intros Hok. destruct (p_pools p !! p_next p) eqn:E; [|done]. pose proof (po_next _ Hok _ _ E). lia.
Qed.

(** The steps of the construction *)
Lemma open_driver_run id p p0 :
  building id p p0 ->
  exists p1, p_pools p1 = p_pools p0 /\ building id p p1
    /\ (((if p_active p =? 0 then on_driver init_driver else mret tt) p0 = (Ok tt, p1)
          /\ driver_opened (hip (p_world p1)) = true)
        \/ exists e, (if p_active p =? 0 then on_driver init_driver else mret tt) p0 = (Raise e, p1)).
Proof.
  intros Hb. destruct (Z.eqb_spec (p_active p) 0) as [H0|H0].
  - destruct (init_driver_moves (p_world p0) (po_driver _ (bd_ok _ _ _ Hb))) as [w [(E & Hm)|(e & E & Hm)]];
      (exists (with_world w p0); split; [done|split; [eapply building_world; [done|done|lia]|]]).
    + left. split; [by apply on_driver_run|apply Hm].
    + right. exists e. by apply on_driver_run.
  - exists p0. split; [done|]. split; [done|]. left. split; [done|].
    pose proof (bd_ok _ _ _ Hb) as Hok. apply (po_open _ Hok). rewrite (bd_active _ _ _ Hb).
    pose proof (weight_nonneg counted (p_pools p0) counted_nonneg) as Hn.
    rewrite <- (po_active _ Hok), (bd_active _ _ _ Hb) in Hn. lia.
Qed.

Lemma gpu_init_run id p p1 a :
  building id p p1 -> p_pools p1 !! id = Some a -> idle a ->
  exists w r, moves (p_world p1) w (driver_opened (hip (p_world p1))) none /\
    match r with
    | Ok base => gpu_init id p1 = (Ok tt, with_pools (<[id := HyAlloc (ha_size a) false false false (Some base)
                   (Some (pool_new (ha_size a) 4096))]> (p_pools p1)) (p_next p1) (with_world w p1))
    | Raise e => gpu_init id p1 = (Raise e, with_world w p1)
    end.
Proof.
  intros Hb Hid (Hreg & Hcnt & _).
  exists (torch_empty (ha_size a) (p_world p1)).2, (torch_empty (ha_size a) (p_world p1)).1.
  split; [apply empty_moves, (po_driver _ (bd_ok _ _ _ Hb))|].
  assert (on_driver (lib (torch_empty (ha_size a))) p1
    = (Ok (torch_empty (ha_size a) (p_world p1)).1, with_world (torch_empty (ha_size a) (p_world p1)).2 p1)) as E
    by (apply on_driver_run; unfold lib; by destruct (torch_empty _ _)).
  unfold gpu_init. rewrite (run_bind _ _ _ _ _ (get_pool_run _ _ _ Hid)), (run_bind _ _ _ _ _ E).
  destruct (torch_empty (ha_size a) (p_world p1)).1 as [base|e]; [|done].
  rewrite (run_bind (st_lift (Ok base)) _ _ base _) by done. by rewrite Hreg, Hcnt.
Qed.

Lemma hyfile_new_run size p :
  pools_ok p ->
  exists p', (hyfile_new size p = (Ok (p_next p), p') /\ exists base, created (p_next p) size base p p')
    \/ exists e, hyfile_new size p = (Raise e, p') /\ rolled_back (p_next p) p p'.
Proof.
  intros Hok. pose proof (pool_fresh p Hok) as Hnone. set (id := p_next p) in *.
  set (a0 := HyAlloc size true false false None None : allocator).
  set (p0 := with_pools (<[id := a0]> (p_pools p)) (id + 1) p).
  assert (building id p p0) as Hb0.
  { split; try done; [by apply pools_ok_fresh; auto|by exists a0]. }
  unfold hyfile_new. rewrite (run_bind st_get _ p p p) by done.
  rewrite (run_bind (st_put _) _ p tt p0) by done. cbv zeta. fold id.
  set (body := (if p_active p =? 0 then _ else _);; _).
  set (handler := fun e => release_gpu_pool id;; _).
  assert ((exists p' base, body p0 = (Ok tt, p') /\ created id size base p p')
    \/ exists e p', body p0 = (Raise e, p') /\ building id p p') as Hbody.
  2:{ destruct Hbody as [(p' & base & E & Hc)|(e & p' & E & Hb)].
      - exists p'. left. rewrite (run_bind _ _ _ _ _ (run_catch _ _ _ _ _ _ E)). eauto.
      - destruct (building_rollback (A := unit) id p p' e Hb) as (p2 & E2 & Hrb).
        exists p2. right. exists e. split; [|done]. apply run_bind_raise.
        by rewrite (run_catch_raise _ _ _ _ _ _ E). }
  subst body. clear handler.
  destruct (open_driver_run id p p0 Hb0) as (p1 & Hp1 & Hb1 & [[E Hopen]|[e E]]);
    [|right; exists e, p1; split; [by apply run_bind_raise|done]].
  rewrite (run_bind _ _ _ _ _ E). clear E.
  assert (p_pools p1 !! id = Some a0) as Hid by (rewrite Hp1; apply lookup_insert_eq).
  destruct (gpu_init_run id p p1 a0 Hb1 Hid ltac:(done)) as (w & r & Hm & E).
  assert (building id p (with_world w p1)) as Hb2 by (eapply building_world; eauto).
  destruct r as [base|e]; [|right; exists e, (with_world w p1); split; [by apply run_bind_raise|done]].
  rewrite (run_bind _ _ _ _ _ E). clear E. cbn [ha_size a0].
  set (a1 := HyAlloc size false false false (Some base) (Some (pool_new size 4096))) in *.
  set (p2 := with_pools _ _ _).
  assert (building id p p2) as Hb3.
  { destruct (building_update id p _ (fun _ => a1) Hb2 ltac:(done)) as (x & _ & _ & Hb3). exact Hb3. }
  assert (p_pools p2 = <[id := a1]> (p_pools p)) as Hp2.
  { subst p2. cbn [p_pools with_pools]. rewrite Hp1. apply insert_insert_eq. }
  assert (p_pools p2 !! id = Some a1) as Hid2 by (rewrite Hp2; apply lookup_insert_eq).
  rewrite (run_bind _ _ _ _ _ (get_pool_run _ _ _ Hid2)).
  rewrite (run_bind (st_lift (Ok base)) _ _ base p2) by done.
  assert (driver_opened (hip (p_world p2)) = true) as Hopen2 by (destruct Hm as (_ & _ & Ho & _); cbn; congruence).
  destruct (register_moves base size (p_world p2) (po_driver _ (bd_ok _ _ _ Hb3))) as [w2 [(E & Hm2)|(e & E & Hm2)]].
  2:{ right. exists e, (with_world w2 p2). split; [apply run_bind_raise; by apply on_driver_run|].
      eapply building_world; eauto. }
  left. rewrite (run_bind _ _ _ _ _ (on_driver_run _ _ _ _ E)).
  rewrite (run_bind _ _ _ _ _ (update_run id _ (with_world w2 p2) a1 Hid2)).
  erewrite run_bind by (apply (update_run id _ _ (set_registered true a1)), lookup_insert_eq).
  eexists _, base. split; [reflexivity|].
  apply (building_created id size base p p2 w2 a1); try done.
  cbn [p_pools with_pools with_world]. by rewrite !insert_insert_eq, Hp2, insert_insert_eq.
Qed.

(** ** Closing *)

(** A record and the driver changed together *)
Lemma pools_ok_both p id a a' w o n :
  pools_ok p -> p_pools p !! id = Some a -> alloc_ok a' ->
  undisturbed (p_world p) w -> driver_ok w -> driver_opened (hip w) = o ->
  (forall b, refs (hip w) b = refs (hip (p_world p)) b + (holds b a' - holds b a)) ->
  n = p_active p + (counted a' - counted a) -> (0 < n -> o = true) ->
  pools_ok (with_pools (<[id := a']> (p_pools p)) (p_next p) (with_active n (with_world w p))).
Proof.
  intros [H1 H2 H3 H4 H5 H6] Hid Ha' Hu Hw Ho Hr -> Hopen. split; simpl; try done.
  - intros i x [[-> _]|[_ Hi]]%lookup_insert_Some; eauto.
  - rewrite (weight_update _ _ _ a) by done. lia.
  - intros Hn. rewrite Ho. auto.
  - intros b. rewrite (weight_update _ _ _ a) by done. rewrite Hr, H5. lia.
  - intros i x [[_ <-]|[_ Hi]]%lookup_insert_Some; eauto.
Qed.

(** What [close] leaves: other pools as they were, this one closed and, if it returns, released *)
Record closed_to (id : Z) a p (r : result unit) p' : Prop := {
  cl_ok : pools_ok p';
  cl_pool : exists a', p_pools p' = <[id := a']> (p_pools p) /\ ha_closed a' = true /\ ha_base a' = ha_base a
    /\ (r = Ok tt -> released a' /\ ha_pool a' = None);
  cl_next : p_next p' = p_next p;
  cl_invalid : p_invalid p' = p_invalid p;
  cl_world : undisturbed (p_world p) (p_world p');
  cl_driver : driver_opened (hip (p_world p')) =
    match r with Ok _ => driver_opened (hip (p_world p)) && negb (ha_counted a && (p_active p =? 1))
               | Raise _ => driver_opened (hip (p_world p)) end;
}.

Lemma deregister_step id a p :
  pools_ok p -> p_pools p !! id = Some a -> ha_counted a = true -> ha_closed a = true ->
  exists w, undisturbed (p_world p) w /\ driver_opened (hip w) = driver_opened (hip (p_world p)) /\
    ((exists e, deregister id a p = (Raise e, with_world w p) /\ pools_ok (with_world w p))
     \/ let p1 := with_pools (<[id := set_registered false a]> (p_pools p)) (p_next p) (with_world w p) in
        deregister id a p = (Ok tt, p1) /\ pools_ok p1).
Proof.
  intros Hok Hid Hc Hcl. destruct (po_alloc _ Hok _ _ Hid) as (Hreg & _ & _).
  assert (alloc_ok (set_registered false a)) as Ha'.
  { split; [done|]. split; simpl; intros; exfalso; congruence. }
  unfold deregister. destruct (ha_registered a) eqn:Er.
  - destruct Hreg as [_ [base Hbase]]; [done|]. rewrite Hbase.
    rewrite (run_bind (st_lift (result_of_option AttributeError (Some base))) _ p base p) by done.
    assert (0 < refs (hip (p_world p)) base) as Hpos.
    { rewrite (po_refs _ Hok). pose proof (weight_le (holds base) (p_pools p) id a (holds_nonneg base) Hid) as Hw.
      rewrite (holds_registered base base a) in Hw by done. unfold at_base in Hw. rewrite Z.eqb_refl in Hw.
      specialize (Houtside base). lia. }
    destruct (deregister_moves base (p_world p) (po_driver _ Hok) Hpos) as [w [(E & Hm)|(e & E & Hm)]];
      exists w; (split; [apply Hm|]); (split; [apply Hm|]).
    + right. rewrite (run_bind _ _ _ _ _ (on_driver_run _ _ _ _ E)).
      split; [by apply (update_run id _ (with_world w p) a)|].
      destruct Hm as (Hu & Hd & Ho & Hr).
      apply (pools_ok_both p id a (set_registered false a) w (driver_opened (hip (p_world p))) (p_active p)); auto.
      * intros b. rewrite Hr, (holds_registered b base a) by done.
        unfold holds. simpl. unfold at_base. destruct (b =? base); lia.
      * unfold counted. simpl. lia.
      * apply (po_open _ Hok).
    + left. exists e. split; [apply run_bind_raise; by apply on_driver_run|].
      eapply pools_ok_world; [done|done|]. apply (po_open _ Hok).
  - exists (p_world p). split; [done|]. split; [done|]. right.
    assert (set_registered false a = a) as -> by (unfold set_registered; rewrite <- Er; by destruct a).
    rewrite (insert_id _ _ _ Hid). by destruct p.
Qed.

Lemma uncount_step id a p :
  pools_ok p -> p_pools p !! id = Some a -> ha_counted a = true -> ha_closed a = true -> ha_registered a = false ->
  exists w, undisturbed (p_world p) w /\
    ((exists e, uncount id a p = (Raise e, with_world w p) /\ pools_ok (with_world w p)
        /\ driver_opened (hip w) = driver_opened (hip (p_world p)))
     \/ let p1 := with_pools (<[id := set_counted false a]> (p_pools p)) (p_next p)
                    (with_active (p_active p - 1) (with_world w p)) in
        uncount id a p = (Ok tt, p1)
        /\ pools_ok (with_pools (<[id := drop_pool (set_counted false a)]> (p_pools p)) (p_next p)
                       (with_active (p_active p - 1) (with_world w p)))
        /\ driver_opened (hip w) = driver_opened (hip (p_world p)) && negb (p_active p =? 1)).
Proof.
  intros Hok Hid Hc Hcl Hreg. unfold uncount. rewrite Hc. rewrite (run_bind st_get _ p p p) by done.
  assert (forall w, undisturbed (p_world p) w -> driver_ok w ->
    driver_opened (hip w) = driver_opened (hip (p_world p)) && negb (p_active p =? 1) ->
    (forall b, refs (hip w) b = refs (hip (p_world p)) b) ->
    pools_ok (with_pools (<[id := drop_pool (set_counted false a)]> (p_pools p)) (p_next p)
                       (with_active (p_active p - 1) (with_world w p)))) as Hfin.
  { intros w Hu Hd Ho Hr. eapply (pools_ok_both p id a _ w); [exact Hok|exact Hid| |done|done|exact Ho|..].
    - split; [simpl; intros; exfalso; congruence|]. split; done.
    - intros b. rewrite Hr. unfold holds. simpl. rewrite Hreg. simpl. lia.
    - unfold counted. simpl. rewrite Hc. lia.
    - intros Hn. rewrite (po_open _ Hok) by lia. by replace (p_active p =? 1) with false by lia. }
  destruct (Z.eqb_spec (p_active p) 1) as [H1|H1].
  - destruct (close_driver_moves (p_world p) (po_driver _ Hok)) as [w [(E & Hu & Hd & Ho & Hr)|(e & E & Hm)]]; exists w.
    + split; [done|]. right. rewrite (run_bind _ _ _ _ _ (on_driver_run _ _ _ _ E)).
      rewrite andb_false_r in Hfin |- *. split; [|split; [|done]].
      * unfold add_active. rewrite (run_bind (st_modify _) _ _ tt _) by reflexivity.
        by apply (update_run id _ (with_active _ (with_world w p)) a).
      * apply Hfin; [done|done|done|]. intros b. rewrite Hr. unfold none. lia.
    + split; [apply Hm|]. left. exists e. split; [apply run_bind_raise; by apply on_driver_run|].
      split; [|apply Hm]. eapply pools_ok_world; [done|done|]. apply (po_open _ Hok).
  - exists (p_world p). split; [done|]. right. rewrite (run_bind (mret tt) _ p tt p) by done.
    split; [|split; [|by rewrite andb_true_r]].
    + unfold add_active. rewrite (run_bind (st_modify _) _ _ tt _) by reflexivity.
      rewrite (update_run id _ (with_active _ p) a) by done. by destruct p.
    + apply Hfin; [done|apply (po_driver _ Hok)|by rewrite andb_true_r|done].
Qed.

Lemma close_run id a p :
  pools_ok p -> p_pools p !! id = Some a ->
  exists r p', close id p = (r, p') /\ closed_to id a p r p'.
Proof.
  intros Hok Hid. destruct (po_alloc _ Hok _ _ Hid) as (Hreg & Hrdy & Hdead).
  unfold close. rewrite (run_bind _ _ _ _ _ (get_pool_run _ _ _ Hid)).
  destruct (ha_counted a) eqn:Ec.
  2:{ (* idle: at most the memory is dropped *)
    assert (ha_registered a = false) as Er by (destruct (ha_registered a); [by destruct Hreg|done]).
    assert (idle (drop_pool (set_closed true a))) as Hidle by done.
    rewrite Er. cbn [negb]. rewrite !andb_true_r. destruct (ha_closed a) eqn:Ecl.
    - exists (Ok tt), p. split; [done|]. split; try done; [|by rewrite Ec, andb_true_r].
      exists a. split; [by rewrite insert_id|]. split; [done|]. split; [done|]. intros _.
      split; [done|]. by apply Hdead.
    - eexists (Ok tt), _. split.
      { rewrite (run_bind _ _ _ _ _ (update_run id _ p a Hid)).
        unfold deregister, uncount. rewrite Er, Ec.
        rewrite !(run_bind (mret tt) _ _ tt _) by done.
        unfold release_gpu_pool. erewrite update_run by apply lookup_insert_eq. reflexivity. }
      cbn [p_pools with_pools]. rewrite insert_insert_eq. split; try done.
      + apply (pools_ok_idle p id a); [done|done| |done]. split; [done|]. split; [done|]. congruence.
      + by exists (drop_pool (set_closed true a)).
      + simpl. by rewrite Ec, andb_true_r. }
  rewrite andb_false_r. set (a1 := set_closed true a).
  assert (pools_ok (with_pools (<[id := a1]> (p_pools p)) (p_next p) p)) as Hok1.
  { apply (pools_ok_update p id a); try done. split; [simpl; by rewrite Ec|].
    split; simpl; intros; exfalso; congruence. }
  rewrite (run_bind _ _ _ _ _ (update_run id _ p a Hid)). fold a1. set (p1 := with_pools _ _ p) in *.
  assert (p_pools p1 !! id = Some a1) as Hid1 by apply lookup_insert_eq.
  change (deregister id a) with (deregister id a1).
  destruct (deregister_step id a1 p1 Hok1 Hid1 Ec eq_refl) as (w & Hu & Hd & [(e & E & Hok2)|[E Hok2]]).
  { exists (Raise e), (with_world w p1). split; [by apply run_bind_raise|]. split; try done. by exists a1. }
  cbv zeta in *. rewrite (run_bind _ _ _ _ _ E). clear E.
  set (a2 := set_registered false a1) in *. set (p2 := with_pools _ _ (with_world w p1)) in *.
  assert (p_pools p2 = <[id := a2]> (p_pools p)) as Hp2 by apply insert_insert_eq.
  assert (p_pools p2 !! id = Some a2) as Hid2 by (rewrite Hp2; apply lookup_insert_eq).
  change (uncount id a) with (uncount id a2).
  destruct (uncount_step id a2 p2 Hok2 Hid2 Ec eq_refl eq_refl) as (w2 & Hu2 & [(e & E & Hok3 & Hd3)|(E & Hok3 & Hd3)]).
  { exists (Raise e), (with_world w2 p2). split; [by apply run_bind_raise|]. split; try done.
    - exists a2. split; [exact Hp2|done].
    - by eapply undisturbed_trans; [exact Hu|].
    - cbn [p_world with_world]. rewrite Hd3. exact Hd. }
  eexists (Ok tt), _. split.
  { rewrite (run_bind _ _ _ _ _ E). unfold release_gpu_pool.
    erewrite update_run by apply lookup_insert_eq. reflexivity. }
  cbn [p_pools with_pools p_next]. rewrite insert_insert_eq. split; try done.
  - exists (drop_pool (set_counted false a2)). split; [|done]. cbn [p_pools with_pools]. by rewrite Hp2, insert_insert_eq.
  - by eapply undisturbed_trans; [exact Hu|].
  - simpl. rewrite Ec, Hd3. simpl. by rewrite Hd.
Qed.

Lemma deregister_accepts b w : releases -> exists w', deregister_global_buffer b w = (Ok tt, w').
Proof.
  intros [_ Hd]. unfold deregister_global_buffer, get_hip. rewrite (run_bind (st_gets hip) _ w (hip w) w) by done.
  destruct (global_buffers (hip w) !! b) as [[size n]|]; [|by eexists].
  destruct (1 <? n); [by eexists|]. destruct (lib_loaded (hip w)); [|by eexists].
  unfold lib_deregister_buffer, lib, check_err, mbind, ST_bind. specialize (Hd b w).
  destruct (hipFileBufDeregister b w) as [x w']. simpl in Hd. subst x. by eexists.
Qed.

(** With such a driver every close returns. *)
Lemma close_accepted id a p :
  releases -> pools_ok p -> p_pools p !! id = Some a ->
  exists p', close id p = (Ok tt, p') /\ closed_to id a p (Ok tt) p'.
Proof.
  intros Hrel Hok Hid. destruct (close_run id a p Hok Hid) as (r & p' & E & Hcl).
  assert (r = Ok tt) as ->; [|by exists p']. destruct (po_alloc _ Hok _ _ Hid) as (Hreg & _ & _). clear Hcl.
  assert (forall q x, p_pools q !! id = Some x -> exists q', deregister id a q = (Ok tt, q') /\ is_Some (p_pools q' !! id)) as Hd.
  { intros q x Hq. unfold deregister. destruct (ha_registered a); [|exists q; by split; [|exists x]].
    destruct Hreg as [_ [base ->]]; [done|]. cbn [result_of_option].
    rewrite (run_bind (st_lift (Ok base)) _ q base q) by done.
    destruct (deregister_accepts base (p_world q) Hrel) as [w Ew]. rewrite (run_bind _ _ _ _ _ (on_driver_run _ _ _ _ Ew)).
    erewrite update_run by exact Hq. eexists. split; [done|]. simpl. rewrite lookup_insert_eq. by eexists. }
  assert (forall q x, p_pools q !! id = Some x -> exists q', uncount id a q = (Ok tt, q') /\ is_Some (p_pools q' !! id)) as Hu.
  { intros q x Hq. unfold uncount. destruct (ha_counted a); [|exists q; by split; [|exists x]].
    rewrite (run_bind st_get _ q q q) by done.
    assert (exists w, (if p_active q =? 1 then on_driver close_driver else mret tt) q = (Ok tt, with_world w q)) as [w Ew].
    { destruct (p_active q =? 1); [|exists (p_world q); by destruct q].
      destruct (close_driver_accepts (p_world q) Hrel) as [w Ew]. exists w. by apply on_driver_run. }
    rewrite (run_bind _ _ _ _ _ Ew). unfold add_active. rewrite (run_bind (st_modify _) _ _ tt _) by reflexivity.
    erewrite update_run by exact Hq. eexists. split; [done|]. simpl. rewrite lookup_insert_eq. by eexists. }
  unfold close in E. rewrite (run_bind _ _ _ _ _ (get_pool_run _ _ _ Hid)) in E.
  destruct (_ && _ && _); [by injection E|]. rewrite (run_bind _ _ _ _ _ (update_run id _ p a Hid)) in E.
  destruct (Hd (with_pools (<[id := set_closed true a]> (p_pools p)) (p_next p) p) (set_closed true a))
    as (q & Eq & [x Hq]); [apply lookup_insert_eq|]. rewrite (run_bind _ _ _ _ _ Eq) in E.
  destruct (Hu q x Hq) as (q2 & Eq2 & [x2 Hq2]). rewrite (run_bind _ _ _ _ _ Eq2) in E.
  unfold release_gpu_pool in E. rewrite (update_run _ _ _ _ Hq2) in E. by injection E.
Qed.

(** ** Every operation *)

Lemma get_pool_missing id p : p_pools p !! id = None -> get_pool id p = (Raise AttributeError, p).
Proof. intros H. unfold get_pool, st_get, mbind, ST_bind. by rewrite H. Qed.

Lemma on_pool_run {A} id a p (f : pool -> A * pool) pl :
  p_pools p !! id = Some a -> ha_pool a = Some pl ->
  on_pool id f p = (Ok (f pl).1, with_pools (<[id := HyAlloc (ha_size a) (ha_closed a) (ha_registered a)
    (ha_counted a) (ha_base a) (Some (f pl).2)]> (p_pools p)) (p_next p) p).
Proof.
  intros Hid Hp. unfold on_pool. rewrite (run_bind _ _ _ _ _ (get_pool_run _ _ _ Hid)), Hp.
  rewrite (run_bind (st_lift (result_of_option AttributeError (Some pl))) _ p pl p) by done.
  by destruct (f pl).
Qed.

Lemma on_pool_ok {A} id (f : pool -> A * pool) : preserves pools_ok (on_pool id f).
Proof.
  intros p Hok. destruct (p_pools p !! id) as [a|] eqn:Hid.
  2:{ unfold on_pool. by rewrite (run_bind_raise _ _ _ _ _ (get_pool_missing _ _ Hid)). }
  destruct (ha_pool a) as [pl|] eqn:Hp.
  - rewrite (on_pool_run id a p f pl Hid Hp). apply (pools_ok_update p id a); try done.
    destruct (po_alloc _ Hok _ _ Hid) as (H1 & H2 & H3). split; [done|]. split; simpl; [naive_solver|].
    intros Hc Hcl. rewrite H3 in Hp by done. congruence.
  - unfold on_pool. rewrite (run_bind _ _ _ _ _ (get_pool_run _ _ _ Hid)), Hp. done.
Qed.

Lemma get_pool_ok id : preserves pools_ok (get_pool id).
Proof.
  intros p Hok. destruct (p_pools p !! id) as [a|] eqn:Hid.
  - by rewrite (get_pool_run _ _ _ Hid).
  - by rewrite (get_pool_missing _ _ Hid).
Qed.

Lemma invalidate_ok l : preserves pools_ok (invalidate l).
Proof. intros p Hok. by apply pools_ok_invalid. Qed.

Lemma close_ok id : preserves pools_ok (close id).
Proof.
  intros p Hok. destruct (p_pools p !! id) as [a|] eqn:Hid.
  - destruct (close_run id a p Hok Hid) as (r & p' & -> & Hc). apply Hc.
  - unfold close. by rewrite (run_bind_raise _ _ _ _ _ (get_pool_missing _ _ Hid)).
Qed.

(** [__del__] may drop the memory of a pool it could not release. *)
Lemma del_ok id : preserves pools_ok (del id).
Proof.
  intros p Hok. destruct (p_pools p !! id) as [a|] eqn:Hid.
  2:{ assert (st_catch any_exn (close id) (fun _ => mret tt) p = (Ok tt, p)) as E.
      { unfold close, st_catch. by rewrite (run_bind_raise _ _ _ _ _ (get_pool_missing _ _ Hid)). }
      unfold del. rewrite (run_bind _ _ _ _ _ E). unfold release_gpu_pool, update. by rewrite (run_bind_raise _ _ _ _ _ (get_pool_missing _ _ Hid)). }
  destruct (close_run id a p Hok Hid) as (r & p' & E & [Hok' (a' & Hp & Hcl & _) _ _ _ _]).
  assert (p_pools p' !! id = Some a') as Hid' by (rewrite Hp; apply lookup_insert_eq).
  assert (st_catch any_exn (close id) (fun _ => mret tt) p = (Ok tt, p')) as E'.
  { unfold st_catch. rewrite E. by destruct r as [[]|]. }
  unfold del. rewrite (run_bind _ _ _ _ _ E'). unfold release_gpu_pool. rewrite (update_run _ _ _ _ Hid').
  apply (pools_ok_update p' id a'); try done.
  destruct (po_alloc _ Hok' _ _ Hid') as (H1 & H2 & H3). split; [done|]. split; [|done].
  simpl. intros. exfalso. congruence.
Qed.

Lemma hyfile_new_ok size : preserves pools_ok (hyfile_new size).
Proof.
  intros p Hok. destruct (hyfile_new_run size p Hok) as [p' [(E & base & Hc)|(e & E & Hr)]]; rewrite E.
  - apply Hc.
  - apply Hr.
Qed.

(** Steps that keep the invariant *)
Ltac guarded := repeat first
  [ apply get_pool_ok | apply on_pool_ok | apply preserves_lift | apply preserves_ret
  | apply preserves_bind; [|intros] ].

Lemma pool_op_ok (o : pool_op request) : preserves pools_ok (run_pool_op o).
Proof.
  destruct o as [size|id|id|id req|id req n|id obj|id objs]; simpl.
  - apply preserves_bind; [apply hyfile_new_ok|]. intros _. apply preserves_ret.
  - apply close_ok.
  - apply del_ok.
  - unfold allocate, ensure_open. guarded.
  - unfold batched_allocate, ensure_open. guarded.
  - unfold free. apply preserves_bind; [apply get_pool_ok|]. intros a.
    destruct (ha_closed a); [apply invalidate_ok|apply on_pool_ok].
  - unfold batched_free. apply preserves_bind; [apply get_pool_ok|]. intros a.
    destruct (ha_closed a); [apply invalidate_ok|apply on_pool_ok].
Qed.

Lemma pool_ops_ok (ops : list (pool_op request)) : preserves pools_ok (run_pool_ops ops).
Proof.
  apply preserves_iter. intros o. apply preserves_catch; [apply pool_op_ok|]. intros _. apply preserves_ret.
Qed.

(** A closed pool refuses allocations, and takes objects back without touching its memory. *)
Lemma closed_pool id a p :
  p_pools p !! id = Some a -> ha_closed a = true ->
  (forall req, allocate id req p = (Raise (RuntimeError "HyFileMemoryAllocator is closed"), p))
  /\ (forall obj, free id obj p = (Ok tt, with_invalid (p_invalid p ++ [obj]) p)).
Proof.
  intros Hid Hc. split; intros x.
  - unfold allocate, ensure_open. erewrite run_bind_raise; [done|].
    by rewrite (run_bind _ _ _ _ _ (get_pool_run _ _ _ Hid)), Hc.
  - unfold free. by rewrite (run_bind _ _ _ _ _ (get_pool_run _ _ _ Hid)), Hc.
Qed.

Lemma ready_pool id a p req :
  pools_ok p -> p_pools p !! id = Some a -> in_service a -> exists r p', allocate id req p = (Ok r, p').
Proof.
  intros Hok Hid (Hcl & Hr & Hc). destruct (po_alloc _ Hok _ _ Hid) as (_ & Hp & _).
  destruct (Hp Hc Hcl) as (_ & pl & Hpl). do 2 eexists. unfold allocate, ensure_open.
  erewrite run_bind; [apply (on_pool_run id a p _ pl Hid Hpl)|].
  by rewrite (run_bind _ _ _ _ _ (get_pool_run _ _ _ Hid)), Hcl.
Qed.

Lemma released_close id a p : p_pools p !! id = Some a -> released a -> close id p = (Ok tt, p).
Proof.
  intros Hid (H1 & H2 & H3). unfold close.
  by rewrite (run_bind _ _ _ _ _ (get_pool_run _ _ _ Hid)), H1, H2, H3.
Qed.

Lemma all_released p :
  pools_ok p -> (forall id a, p_pools p !! id = Some a -> ha_counted a = false) ->
  p_active p = 0 /\ forall b, refs (hip (p_world p)) b = outside b.
Proof.
  intros Hok Hall. split.
  - rewrite (po_active _ Hok). apply weight_zero. intros id a Ha. unfold counted. by rewrite (Hall _ _ Ha).
  - intros b. rewrite (po_refs _ Hok), weight_zero; [lia|]. intros id a Ha.
    destruct (po_alloc _ Hok _ _ Ha) as (H & _). unfold holds.
    destruct (ha_registered a); [|done]. rewrite (Hall _ _ Ha) in H. by destruct H.
Qed.

(** C27: the pools of a process share one driver. Over any history of constructions, closings,
    finalizations, allocations and releases, whatever the driver or the device refuse on the
    way: the count of active pools is the number of pools counted, the driver is open while
    there is one, and every address is registered once per pool that holds it, besides what
    others registered. A construction that raises leaves its object unregistered and without
    memory, and the driver to those that use it, or closed if nobody does and it lets itself be
    closed. A pool in service can allocate; a close that
    returns, perhaps after closes that raised, has released the pool, closed the driver if it
    was the last, and may be repeated; a closed pool refuses to allocate and only invalidates
    the objects it gets back. When no pool is counted, no registration of theirs is left. *)
Theorem pools_share_driver (ops : list (pool_op request)) p :
  pools_ok p ->
  let p' := run_st (run_pool_ops ops) p in
  pools_ok p'
  /\ (forall size e p2, hyfile_new size p' = (Raise e, p2) -> rolled_back (p_next p') p' p2)
  /\ (forall id a req, p_pools p' !! id = Some a -> in_service a -> exists r p2, allocate id req p' = (Ok r, p2))
  /\ (forall id a p2, p_pools p' !! id = Some a -> close id p' = (Ok tt, p2) ->
       (exists a', p_pools p2 !! id = Some a' /\ released a' /\ ha_pool a' = None)
       /\ (ha_counted a = true -> p_active p' = 1 -> driver_opened (hip (p_world p2)) = false)
       /\ close id p2 = (Ok tt, p2)
       /\ (forall req, allocate id req p2 = (Raise (RuntimeError "HyFileMemoryAllocator is closed"), p2))
       /\ (forall obj, free id obj p2 = (Ok tt, with_invalid (p_invalid p2 ++ [obj]) p2)))
  /\ ((forall id a, p_pools p' !! id = Some a -> ha_counted a = false) ->
       p_active p' = 0 /\ forall b, refs (hip (p_world p')) b = outside b).
Proof.
  intros Hok p'. assert (pools_ok p') as Hok' by (by apply pool_ops_ok). clearbody p'.
  split; [done|]. split; [|split; [|split; [|by apply all_released]]].
  - intros size e p2 E. destruct (hyfile_new_run size p' Hok') as [p3 [(E' & _)|(e' & E' & Hr)]]; congruence.
  - intros id a req Hid Hr. by apply (ready_pool id a).
  - intros id a p2 Hid E. destruct (close_run id a p' Hok' Hid) as (r & p3 & E' & [_ (a' & Hp & Hcl & _ & Hrel) _ _ _ Hd]).
    assert (r = Ok tt) as -> by congruence. assert (p3 = p2) as -> by congruence.
    assert (p_pools p2 !! id = Some a') as Hid2 by (rewrite Hp; apply lookup_insert_eq).
    destruct (Hrel eq_refl) as [Hr2 Hp2]. split; [eauto|]. split; [|split; [by apply (released_close id a')|]].
    + intros Hc Ha. by rewrite Hd, Hc, Ha, andb_false_r.
    + by apply (closed_pool id a').
Qed.

End pools.
