(* ===== verification/XdsPreflight.v ===== *)
(** * The HyFile preflight

    [_verify_hyfile_roundtrip] of [xds_backend.py]: before it serves traffic the backend writes
    a pattern from its registered buffer to a file, reads the file back by ordinary I/O, and
    reads it into the cleared buffer again. It is checked here against drivers of which only
    the frame is known, [HyFileFrames]: they may report transfers they did not make. *)

From S2P Require Import Prelude Tensor Codec BlockFirst DirectIO World WorldIO HipFile XdsFiles XdsPaths XdsMeta Dict XdsIndex DeviceTensor XdsStaged XdsGpuStage.

Open Scope string_scope.
Open Scope list_scope.
Open Scope Z_scope.

Definition XDS_ALIGNMENT : Z := 4096.

(** [buffer.fill_(v)] of [n] bytes *)
Definition fill_kernel (p n v : Z) : kernel := fun m => mem_write m p (replicate (Z.to_nat n) v).

(** [with open(path, "rb") as f: f.read()] *)
Definition py_read_file (path : string) : ST world (list Z) :=
  fd ← os_open path O_RDONLY;
  st_finally
    (may_fail;;
     w ← st_get;
     match fd_file w fd with
     | Some (_, f) => mret (bytes f)
     | None => st_raise (OSError "bad file descriptor")
     end)
    (os_close fd).

Definition check_count_is (msg : string) (ret size : Z) : result unit :=
  raise_if (negb (ret =? size)) (RuntimeError msg).

(** The transfers of [size] bytes at [off] of the buffer *)
Definition roundtrip {HL : HyFileLib} (dds : HyFileDDS) (base off size : Z) (is_cuda : bool) (path : string)
    : ST stream_state unit :=
  let expected := replicate (Z.to_nat size) 165 in
  launch is_cuda (fill_kernel (base + off) size 165);;
  sync_if is_cuda;;
  ret ← dma (dds_write dds path base size 0 off);
  st_lift (check_count_is "HyFile preflight write incomplete" ret size);;
  actual ← on_stream (py_read_file path);
  st_lift (raise_if (bool_decide (actual <> expected))
    (RuntimeError "HyFile preflight write readback mismatch; refusing unsafe XDS startup"));;
  launch is_cuda (zero_kernel (base + off) size);;
  sync_if is_cuda;;
  ret ← dma (dds_read dds path base size 0 off);
  st_lift (check_count_is "HyFile preflight read incomplete" ret size);;
  sync_if is_cuda;;
  s ← st_get;
  st_lift (raise_if (bool_decide (mem_slice (mem (st_world s)) (base + off) (Z.to_nat size) <> expected))
    (RuntimeError "HyFile preflight DMA readback mismatch; refusing unsafe XDS startup")).

(** [path] is the name [tempfile.mkstemp] makes, [base] and [numel] the allocator's
    [base_pointer] and [tensor.numel()], [sched] what kernels have run by each transfer. *)
Definition verify_hyfile_roundtrip {HL : HyFileLib} (dds : HyFileDDS) (base numel : Z) (is_cuda : bool)
    (sched : list nat) (path : string) : ST world unit :=
  let required_size := 2 * XDS_ALIGNMENT in
  st_lift (raise_if (numel <? required_size)
    (RuntimeError "HyFile preflight requires at least an 8 KiB registered buffer"));;
  let device_offset := XDS_ALIGNMENT in
  fd ← os_open path O_CREAT_WRONLY;
  os_close fd;;
  st_finally
    (in_stream sched (roundtrip dds base device_offset (required_size - device_offset) is_cuda path))
    (st_catch is_file_not_found (os_remove path) (fun _ => mret tt)).

(** ** Transfers by a driver of which only the frame is known *)

Section frames.
Context {HL : HyFileLib} {HLF : HyFileFrames}.
Context (w0 : world) (path : string) (gpu size fo dof : Z).

Definition kept_others (w : world) : Prop := keeps_files [path] w0 w.

Lemma kept_others_closed : io_closed kept_others.
Proof. apply keeps_files_closed. Qed.

Lemma kept_others_file w i b : kept_others w -> kept_others (with_files w (<[path := File i b]> (files w))).
Proof. apply keeps_files_insert. by left. Qed.

Lemma kept_others_writes (f : world -> Z * world) d n :
  (forall w, writes_only path w (f w).2) ->
  triple (fun w => kept_others w /\ fds_at d n w) (lib f) (fun _ w => kept_others w /\ fds_at d n w)
    (fun _ _ => False).
Proof.
  intros Hf w [[Hk Hm] [Hd Hn]]. specialize (Hf w). unfold lib. destruct (f w) as [r w'].
  destruct Hf as (Hq & _ & Hfd & Hfr & _ & Hmem). simpl in *. split.
  - split; [|intros a; by rewrite Hmem]. intros q Hq'. rewrite Hq; [by apply Hk|]. intros ->. apply Hq'. by left.
  - split; [congruence|lia].
Qed.

Lemma check_count_triple r (P : world -> Prop) : triple P (check_count r) (fun _ => P) (fun _ => P).
Proof. unfold check_count. intros w Hw. destruct (r <? 0); [|done]. by destruct (r <? _). Qed.

Lemma dds_write_frame dds d n :
  (forall fd, is_Some (d !! fd) -> fd < n) ->
  triple (fun w => kept_others w /\ fds_at d n w) (dds_write dds path gpu size fo dof)
    (fun _ w => kept_others w /\ fds_at d n w) (fun _ _ => False).
Proof.
  intros Hd. unfold dds_write.
  apply (triple_bind _ _ _ (fun _ w => kept_others w /\ fds_at d n w)).
  - apply triple_catch with (E' := fun _ w => kept_others w /\ fds_at d n w); [|intros e w Hw; exact Hw].
    eapply triple_bind; [|intros r; intros w Hw; exact Hw].
    apply with_hip_file_triple with (m := if fo =? 0 then O_WRITE_TRUNC else O_RDWR) (P := kept_others)
      (P' := kept_others) (Q := fun _ => kept_others); try done; try apply kept_others_closed.
    + by destruct (fo =? 0).
    + intros _. apply kept_others_closed.
    + intros w i Hw _ _. by apply kept_others_file.
    + intros _ d'. unfold lib_write. eapply triple_bind; [|intros r; apply check_count_triple].
      eapply triple_exn; [apply kept_others_writes, write_frame|]. intros e w [].
  - intros r. case_bool_decide; [intros w Hw; exact Hw|].
    unfold cpu_copy. destruct (allow_cpu_fallback dds), (hiprt dds); simpl; try (intros w Hw; exact Hw).
    apply triple_catch with (E' := fun _ w => kept_others w /\ fds_at d n w); [|intros e w Hw; exact Hw].
    unfold write_fallback. apply (triple_bind _ _ _ (fun _ w => kept_others w /\ fds_at d n w)).
    + apply (with_mapped_file_triple path O_RDWR _ kept_others kept_others kept_others kept_others d n);
        try done; try apply kept_others_closed.
      * intros w i Hw _ _. by apply kept_others_file.
      * intros fd o Ho. apply (triple_bind _ _ _ (fun _ w => kept_others w /\ fds_at (<[fd := o]> d) n w)).
        { eapply triple_exn; [apply (os_ftruncate_triple path kept_others kept_others (<[fd := o]> d) n fd o);
            [apply kept_others_closed|apply lookup_insert_eq|done|]|by intros e w [_ Hw]].
          intros w f Hw _. by apply kept_others_file. }
        intros []. by apply triple_lift.
    + intros []. eapply triple_bind; [|intros r'; intros w Hw; exact Hw].
      eapply triple_exn; [apply kept_others_writes, dtoh_frame|]. intros e w [].
Qed.

#[local] Abbreviation kept_read := (read_kept w0 gpu size dof).

Lemma kept_read_stores (f : world -> Z * world) d n :
  (forall w, stores_only (gpu + dof) size w (f w).2) ->
  triple (fun w => kept_read w /\ fds_at d n w) (lib f) (fun _ w => kept_read w /\ fds_at d n w)
    (fun _ _ => False).
Proof.
  intros Hf w [[Hk Hm] [Hd Hn]]. specialize (Hf w). unfold lib. destruct (f w) as [r w'].
  destruct Hf as (Hq & Hfd & Hfr & _ & Hmem). simpl in *.
  split; [split; [congruence|intros a Ha; rewrite Hmem; auto]|split; [congruence|lia]].
Qed.

Lemma dds_read_frame dds d n :
  (forall fd, is_Some (d !! fd) -> fd < n) ->
  triple (fun w => kept_read w /\ fds_at d n w) (dds_read dds path gpu size fo dof)
    (fun _ w => kept_read w /\ fds_at d n w) (fun _ _ => False).
Proof.
  intros Hd. unfold dds_read.
  apply (triple_bind _ _ _ (fun _ w => kept_read w /\ fds_at d n w)); [intros w Hw; exact Hw|].
  intros [|]; simpl; [|intros w Hw; exact Hw].
  apply (triple_bind _ _ _ (fun _ w => kept_read w /\ fds_at d n w)).
  - apply triple_catch with (E' := fun _ w => kept_read w /\ fds_at d n w); [|intros e w Hw; exact Hw].
    eapply triple_bind; [|intros r; intros w Hw; exact Hw].
    apply with_hip_file_triple with (m := O_RDONLY) (P := kept_read) (P' := kept_read)
      (Q := fun _ => kept_read); try done; try apply read_kept_closed.
    + intros _. apply read_kept_closed.
    + intros w i Hw Hex Hi. by apply (open_read_kept w0 path).
    + intros _ d'. unfold lib_read. eapply triple_bind; [|intros r; apply check_count_triple].
      eapply triple_exn; [apply kept_read_stores, read_frame|]. intros e w [].
  - intros r. case_bool_decide; [intros w Hw; exact Hw|].
    unfold cpu_copy. destruct (allow_cpu_fallback dds), (hiprt dds); simpl; try (intros w Hw; exact Hw).
    apply triple_catch with (E' := fun _ w => kept_read w /\ fds_at d n w); [|intros e w Hw; exact Hw].
    unfold read_fallback. apply (triple_bind _ _ _ (fun _ w => kept_read w /\ fds_at d n w)).
    + apply (with_mapped_file_triple path O_RDONLY _ kept_read kept_read kept_read kept_read d n);
        try done; try apply read_kept_closed.
      * intros w i Hw Hex Hi. by apply (open_read_kept w0 path).
      * intros fd o Ho. apply (triple_bind _ _ _ (fun _ w => kept_read w /\ fds_at (<[fd := o]> d) n w)).
        { unfold os_fstat. eapply triple_bind.
          { eapply triple_exn; [apply (may_fail_triple kept_read (<[fd := o]> d) n); apply read_kept_closed|].
            by intros e w [_ Hw]. }
          intros []. intros w Hw. unfold st_get, mbind, ST_bind. simpl. by destruct (fds w !! fd). }
        intros st. by apply triple_lift.
    + intros []. eapply triple_bind; [|intros r'; intros w Hw; exact Hw].
      eapply triple_exn; [apply kept_read_stores, htod_frame|]. intros e w [].
Qed.

End frames.

(** ** The round trip *)

Lemma py_read_file_cases path w :
  fds_below w ->
  match py_read_file path w with
  | (Ok data, w') => content w path = Some data /\ quiet_io w w'
  | (Raise _, w') => quiet_io w w'
  end.
Proof.
  intros Hb. unfold py_read_file, mbind at 1, ST_bind at 1. pose proof (os_open_read w path) as Ho.
  destruct (os_open path O_RDONLY w) as [[fd|e] w1]; [|by destruct Ho as (_ & Hq & _)].
  destruct Ho as (-> & f & Hf & Hfs & Hm & Hfr & Hfd).
  assert (quiet_io w (with_fds w1 (delete (fresh w) (fds w1)))) as Hq1.
  { split; [done|]. split; [done|]. split; [|simpl; lia]. simpl. rewrite Hfd. apply delete_insert_id, below_fresh, Hb. }
  unfold st_finally. unfold mbind at 1, ST_bind at 1. pose proof (may_fail_quiet w1) as Hm1.
  assert (forall w2, quiet_io w1 w2 -> let '(r, w3) := os_close (fresh w) w2 in quiet_io w w3) as Hclose.
  { intros w2 (Q1 & Q2 & Q3 & Q4). pose proof (os_close_quiet w2 (fresh w)) as Hc.
    destruct (os_close (fresh w) w2) as [r w3]. destruct Hc as [Hc _]. etrans; [exact Hq1|].
    etrans; [|exact Hc]. split; [done|]. split; [done|]. split; [simpl; by rewrite Q3|done]. }
  destruct (may_fail w1) as [[[]|e] w2].
  - unfold st_get, mbind, ST_bind. assert (fd_file w2 (fresh w) = Some (OpenFile path (ino f) 0 (lenZ (bytes f)), f)) as ->.
    { destruct Hm1 as (Q1 & Q2 & Q3 & Q4). unfold fd_file. rewrite Q3, Hfd, lookup_insert_eq. simpl.
      rewrite Q1, Hfs, Hf. simpl. by rewrite Z.eqb_refl. }
    specialize (Hclose w2 Hm1). simpl. destruct (os_close (fresh w) w2) as [[[]|e] w3]; [|done].
    split; [|done]. unfold content. by rewrite Hf.
  - destruct Hm1 as (_ & Hq & _). specialize (Hclose w2 Hq). destruct (os_close (fresh w) w2) as [[[]|e'] w3]; done.
Qed.

Section roundtrip.
Context {HL : HyFileLib} {HLF : HyFileFrames}.
Context (dds : HyFileDDS) (base off size : Z) (is_cuda : bool) (path : string) (Hsize : 0 <= size).

Definition window (a : Z) : Prop := base + off <= a < base + off + size.

(** The bytes of the window are all [v], the others those of [m0]. *)
Definition window_is (v : Z) (m0 m : Z -> Z) : Prop :=
  (forall a, ~ window a -> m a = m0 a)
  /\ mem_slice m (base + off) (Z.to_nat size) = replicate (Z.to_nat size) v.

Lemma window_is_closed v m0 : mem_closed (window_is v m0).
Proof.
  intros m m' Hm [H1 H2]. split; [intros a Ha; rewrite Hm; auto|]. rewrite <- H2. by apply mem_slice_ext.
Qed.

Lemma fill_window v m0 m : (forall a, ~ window a -> m a = m0 a) -> window_is v m0 (fill_kernel (base + off) size v m).
Proof.
  intros Hm. unfold fill_kernel. assert (lenZ (replicate (Z.to_nat size) v) = size) as Hl
    by (unfold lenZ; rewrite length_replicate; lia).
  split.
  - intros a Ha. rewrite mem_write_outside by (rewrite Hl; exact Ha). by apply Hm.
  - apply list_eq. intros i. destruct (decide (i < Z.to_nat size)%nat) as [Hi|Hi].
    + rewrite mem_slice_lookup by done. rewrite (lookup_replicate_2 _ v) by done. f_equal.
      apply mem_write_inside. by apply lookup_replicate_2.
    + rewrite !lookup_ge_None_2; [done|..]; rewrite ?length_replicate, ?length_mem_slice; lia.
Qed.

(** A launch and the synchronization after it *)
Lemma fill_triple v wa :
  triple (idle (fun w => w = wa)) (launch is_cuda (fill_kernel (base + off) size v);; sync_if is_cuda)
    (fun _ => launched wa (window_is v (mem wa)) true) (fun _ => launched wa (window_is v (mem wa)) false).
Proof.
  apply (triple_bind _ _ _ (fun _ => launched wa (window_is v (mem wa)) (negb is_cuda)));
    [|intros []; apply sync_launched, window_is_closed].
  eapply triple_conseq;
    [apply (launch_launched wa (fun m => forall a, m a = mem wa a) (window_is v (mem wa)))|..].
  - apply window_is_closed.
  - intros m Hm. apply fill_window. auto.
  - intros s [Hp Hw]. unfold launched. rewrite Hp, Hw. by split_and!.
  - done.
  - intros e s [].
Qed.

#[local] Abbreviation expected v := (replicate (Z.to_nat size) v).
Context (w0 : world) (Hb0 : fds_below w0).

(** Only the file and the window changed, once everything launched has run. *)
Definition framed (s : stream_state) : Prop :=
  (forall q, q <> path -> files (st_world s) !! q = files w0 !! q)
  /\ fds (st_world s) = fds w0 /\ fresh w0 <= fresh (st_world s)
  /\ forall a, ~ window a -> mem (run_kernels (pending s) (st_world s)) a = mem w0 a.

(** The buffer holds [v] in the window; files are as given. *)
Definition prepared (v : Z) (fs : gmap string file) (w : world) : Prop :=
  files w = fs /\ fds w = fds w0 /\ fresh w0 <= fresh w /\ window_is v (mem w0) (mem w).

(** The write that was verified *)
Definition write_seen (ret : Z) (w : world) : Prop :=
  exists w1, prepared 165 (files w0) w1 /\ dds_write dds path base size 0 off w1 = (Ok ret, w)
    /\ kept_others w1 path w /\ fds w = fds w0 /\ fresh w0 <= fresh w.

Definition read_seen (fs : gmap string file) (ret : Z) (w : world) : Prop :=
  exists w2, prepared 0 fs w2 /\ dds_read dds path base size 0 off w2 = (Ok ret, w)
    /\ read_kept w2 base size off w /\ fds w = fds w0 /\ fresh w0 <= fresh w.

Lemma idle_framed w s :
  pending s = [] -> (forall q, q <> path -> files w !! q = files w0 !! q) -> (forall a, ~ window a -> mem w a = mem w0 a) ->
  files (st_world s) = files w -> (forall a, ~ window a -> mem (st_world s) a = mem w a) ->
  fds (st_world s) = fds w0 -> fresh w0 <= fresh (st_world s) -> framed s.
Proof.
  intros Hp Hf Hm Hf' Hm' Hd Hn. unfold framed. rewrite Hp, run_no_kernels, Hf'. split; [done|].
  split; [done|]. split; [done|]. intros a Ha. rewrite Hm' by done. by apply Hm.
Qed.

(** After a fill of either value, starting from [wa] *)
Lemma launched_prepared v wa fs s :
  files wa = fs -> fds wa = fds w0 -> fresh w0 <= fresh wa -> (forall a, ~ window a -> mem wa a = mem w0 a) ->
  launched wa (window_is v (mem wa)) true s -> pending s = [] /\ prepared v fs (st_world s).
Proof.
  intros Hf Hd Hn Hm (H1 & H2 & H3 & H4 & H5). specialize (H5 eq_refl). split; [done|].
  rewrite H5 in H4. specialize (H4 (mem (st_world s)) ltac:(done)). destruct H4 as [H4 H4'].
  split; [congruence|]. split; [congruence|]. split; [lia|]. split; [|done].
  intros a Ha. simpl in H4. rewrite H4 by done. auto.
Qed.

Lemma launched_framed v wa s :
  (forall q, q <> path -> files wa !! q = files w0 !! q) -> fds wa = fds w0 -> fresh w0 <= fresh wa ->
  (forall a, ~ window a -> mem wa a = mem w0 a) ->
  launched wa (window_is v (mem wa)) false s -> framed s.
Proof.
  intros Hf Hd Hn Hm (H1 & H2 & H3 & H4 & _). split; [by rewrite H1|]. split; [congruence|].
  split; [lia|]. intros a Ha. specialize (H4 (mem (st_world s)) ltac:(done)).
  unfold run_kernels. simpl. destruct H4 as [H4 _]. rewrite H4 by done. auto.
Qed.

Lemma write_triple :
  triple (idle (prepared 165 (files w0))) (dma (dds_write dds path base size 0 off))
    (fun r => idle (write_seen r)) (fun _ _ => False).
Proof.
  eapply triple_conseq; [apply (dma_triple (prepared 165 (files w0)) _ write_seen (fun _ _ => False))|done|done|by intros e s []].
  intros w1 H1. pose proof H1 as (Hf & Hd & Hn & _).
  pose proof (dds_write_frame w1 path base size 0 off dds (fds w1) (fresh w0)) as Ht.
  unfold triple in Ht. specialize (Ht ltac:(intros fd; rewrite Hd; apply Hb0) w1).
  destruct (dds_write dds path base size 0 off w1) as [[r|e] w] eqn:E; [|by apply Ht].
  destruct Ht as [Hk [Hd' Hn']]; [by split|]. exists w1. split; [done|]. split; [done|]. split; [done|].
  split; [congruence|done].
Qed.

Lemma read_triple fs :
  triple (idle (prepared 0 fs)) (dma (dds_read dds path base size 0 off))
    (fun r => idle (read_seen fs r)) (fun _ _ => False).
Proof.
  eapply triple_conseq; [apply (dma_triple (prepared 0 fs) _ (read_seen fs) (fun _ _ => False))|done|done|by intros e s []].
  intros w2 H2. pose proof H2 as (Hf & Hd & Hn & _).
  pose proof (dds_read_frame w2 path base size 0 off dds (fds w2) (fresh w0)) as Ht.
  unfold triple in Ht. specialize (Ht ltac:(intros fd; rewrite Hd; apply Hb0) w2).
  destruct (dds_read dds path base size 0 off w2) as [[r|e] w] eqn:E; [|by apply Ht].
  destruct Ht as [Hk [Hd' Hn']]; [by split|]. exists w2. split; [done|]. split; [done|]. split; [done|].
  split; [congruence|done].
Qed.

Lemma write_seen_framed r w s : write_seen r w -> pending s = [] -> quiet_io w (st_world s) -> framed s.
Proof.
  intros (w1 & (Hf & Hd & Hn & Hm & _) & _ & (Hk & Hm') & Hd' & Hn') Hp (Q1 & Q2 & Q3 & Q4).
  apply (idle_framed w); try done.
  - intros q Hq. rewrite Hk, Hf; [done|]. intros ->%list_elem_of_singleton. done.
  - intros a Ha. by rewrite Hm', Hm.
  - intros a _. by rewrite Q2.
  - congruence.
  - lia.
Qed.

Lemma read_seen_framed wA r w s rw :
  write_seen rw wA -> read_seen (files wA) r w -> pending s = [] -> files (st_world s) = files w ->
  mem (st_world s) = mem w -> fds (st_world s) = fds w -> fresh w <= fresh (st_world s) -> framed s.
Proof.
  intros (w1 & (Hf1 & _) & _ & (Hk & _) & _) (w2 & (Hf & Hd & Hn & Hm & _) & _ & (Hk2 & Hm') & Hd' & Hn') Hp Q1 Q2 Q3 Q4.
  apply (idle_framed w); try done.
  - intros q Hq. rewrite Hk2, Hf, Hk, Hf1; [done|]. intros ->%list_elem_of_singleton. done.
  - intros a Ha. rewrite Hm' by done. by apply Hm.
  - intros a _. by rewrite Q2.
  - congruence.
  - lia.
Qed.

(** A fill, and what runs on the synchronized buffer *)
Lemma fill_then {A} v wa (rest : ST stream_state A) Q (E : exn -> stream_state -> Prop) :
  (forall e s, launched wa (window_is v (mem wa)) false s -> E e s) ->
  triple (launched wa (window_is v (mem wa)) true) rest Q E ->
  triple (idle (fun w => w = wa))
    (launch is_cuda (fill_kernel (base + off) size v);; sync_if is_cuda;; rest) Q E.
Proof.
  intros HE Hr s Hs. pose proof (fill_triple v wa s Hs) as Ht. unfold mbind, ST_bind in *.
  destruct (launch is_cuda _ s) as [[[]|e] s1]; [|by apply HE].
  destruct (sync_if is_cuda s1) as [[[]|e] s2]; [by apply Hr|by apply HE].
Qed.

Lemma zero_is_fill p n : zero_kernel p n = fill_kernel p n 0.
Proof. done. Qed.

(** The write, with the file the program read back *)
Definition write_verified (wA : world) : Prop := write_seen size wA /\ content wA path = Some (expected 165).

Definition read_verified (wA wB : world) : Prop :=
  write_verified wA /\ read_seen (files wA) size wB
  /\ mem_slice (mem wB) (base + off) (Z.to_nat size) = expected 165.

Definition passed (s : stream_state) : Prop := exists wA wB, read_verified wA wB
  /\ pending s = [] /\ files (st_world s) = files wB /\ (forall a, mem (st_world s) a = mem wB a)
  /\ fds (st_world s) = fds wB /\ fresh wB <= fresh (st_world s).

Lemma read_half wA :
  write_verified wA ->
  triple (idle (fun w => quiet_io wA w))
    (launch is_cuda (zero_kernel (base + off) size);;
     sync_if is_cuda;;
     ret ← dma (dds_read dds path base size 0 off);
     st_lift (check_count_is "HyFile preflight read incomplete" ret size);;
     sync_if is_cuda;;
     s ← st_get;
     st_lift (raise_if (bool_decide (mem_slice (mem (st_world s)) (base + off) (Z.to_nat size) <> expected 165))
       (RuntimeError "HyFile preflight DMA readback mismatch; refusing unsafe XDS startup")))
    (fun _ s => passed s /\ framed s) (fun _ => framed).
Proof.
  intros HA s0 [Hp0 Hq0]. pose proof HA as [Hw _].
  pose proof Hw as (w1 & (Hf1 & _ & _ & Hm1 & _) & _ & (Hk1 & Hk1') & Hd1 & Hn1).
  destruct Hq0 as (Q1 & Q2 & Q3 & Q4). set (wa := st_world s0) in *.
  assert (forall q, q <> path -> files wa !! q = files w0 !! q) as Hwf.
  { intros q Hq. rewrite Q1, Hk1, Hf1; [done|]. intros ->%list_elem_of_singleton. done. }
  assert (forall a, ~ window a -> mem wa a = mem w0 a) as Hwm by (intros a Ha; rewrite Q2, Hk1'; auto).
  assert (fds wa = fds w0 /\ fresh w0 <= fresh wa) as [Hwd Hwn] by (split; [congruence|lia]).
  revert s0 Hp0 wa Q1 Q2 Q3 Q4 Hwf Hwm Hwd Hwn. intros s0 Hp0 wa Q1 Q2 Q3 Q4 Hwf Hwm Hwd Hwn.
  apply (fill_then 0 wa); [intros e s; by apply launched_framed| |by split].
  intros s Hs. apply (launched_prepared 0 wa (files wA)) in Hs; try done.
  revert s Hs. change (triple (idle (prepared 0 (files wA)))
     (ret ← dma (dds_read dds path base size 0 off);
     st_lift (check_count_is "HyFile preflight read incomplete" ret size);;
     sync_if is_cuda;;
     s ← st_get;
     st_lift (raise_if (bool_decide (mem_slice (mem (st_world s)) (base + off) (Z.to_nat size) <> expected 165))
       (RuntimeError "HyFile preflight DMA readback mismatch; refusing unsafe XDS startup")))
    (fun _ s => passed s /\ framed s) (fun _ => framed)).
  eapply triple_bind; [eapply triple_exn; [apply read_triple|intros e s []]|]. intros r.
  apply (triple_bind _ _ _ (fun _ s => r = size /\ idle (read_seen (files wA) r) s)).
  { apply triple_lift.
    - intros []. unfold check_count_is, raise_if. destruct (r =? size) eqn:E; simpl; [|done].
      intros _ s Hs. split; [lia|done].
    - intros e _ s [Hp Hs]. by eapply read_seen_framed. }
  intros []. apply triple_pure. intros ->.
  apply (triple_bind _ _ _ (fun _ s => framed s /\ pending s = [] /\ exists wB, read_seen (files wA) size wB
    /\ files (st_world s) = files wB /\ (forall a, mem (st_world s) a = mem wB a)
    /\ fds (st_world s) = fds wB /\ fresh wB <= fresh (st_world s))).
  - intros s [Hp Hs]. pose proof (sync_launched (st_world s) (fun m => forall a, m a = mem (st_world s) a) is_cuda) as Ht.
    unfold triple in Ht. specialize (Ht ltac:(intros m m' E H a; by rewrite E, H) s).
    assert (launched (st_world s) (fun m => forall a, m a = mem (st_world s) a) (negb is_cuda) s) as Hl
      by (unfold launched; rewrite Hp; by split_and!).
    specialize (Ht Hl). pose proof Hs as (w2 & (Hf & Hd & Hn & Hm & _) & _ & (Hk2 & Hm') & Hd' & Hn').
    assert (forall s2 b, launched (st_world s) (fun m => forall a, m a = mem (st_world s) a) b s2 ->
      framed s2) as Hfr.
    { intros s2 b (L1 & L2 & L3 & L4 & _). split.
      - intros q Hq. rewrite L1, Hk2, Hf, <- Q1. by apply Hwf.
      - split; [congruence|]. split; [lia|]. intros a Ha. unfold run_kernels. simpl.
        rewrite (L4 (mem (st_world s2))) by done. rewrite Hm' by done. by apply Hm. }
    destruct (sync_if is_cuda s) as [[u|e] s2]; [|by apply (Hfr _ false)].
    split; [by apply (Hfr _ true)|]. destruct Ht as (L1 & L2 & L3 & L4 & L5). specialize (L5 eq_refl).
    split; [done|]. exists (st_world s). rewrite L5 in L4. split_and!; try done. exact (L4 _ ltac:(done)).
  - intros [] s (Hfr & Hp & wB & HB & Hrest). unfold mbind, ST_bind, st_get, st_lift, raise_if.
    case_bool_decide as Hne; simpl; [done|]. split; [|done]. exists wA, wB.
    destruct Hrest as (R1 & R2 & R3 & R4). split; [|done]. split; [done|]. split; [done|].
    rewrite <- Hne. apply mem_slice_ext. intros a. by rewrite R2.
Qed.

Lemma roundtrip_triple :
  triple (idle (fun w => w = w0)) (roundtrip dds base off size is_cuda path)
    (fun _ s => passed s /\ framed s) (fun _ => framed).
Proof.
  unfold roundtrip. apply fill_then; [intros e s; by apply launched_framed|].
  eapply triple_pre; [|intros s Hs; apply (launched_prepared 165 w0 (files w0)) in Hs; [exact Hs|done..]].
  eapply triple_bind; [eapply triple_exn; [apply write_triple|intros e s []]|]. intros r.
  apply (triple_bind _ _ _ (fun _ s => r = size /\ idle (write_seen r) s)).
  { apply triple_lift.
    - intros []. unfold check_count_is, raise_if. destruct (r =? size) eqn:E; simpl; [|done].
      intros _ s Hs. split; [lia|done].
    - intros e _ s [Hp Hs]. eapply write_seen_framed; [exact Hs|done|done]. }
  intros []. apply triple_pure. intros ->.
  apply (triple_bind _ _ _ (fun data => idle (fun w => exists wA, write_seen size wA
    /\ content wA path = Some data /\ quiet_io wA w))).
  { eapply triple_exn; [apply (on_stream_triple (write_seen size) _ _
      (fun _ w => exists wA, write_seen size wA /\ quiet_io wA w))|].
    - intros w Hw. assert (fds_below w) as Hb.
      { destruct Hw as (w1 & _ & _ & _ & Hd & Hn). intros fd. rewrite Hd. intros Hfd. apply Hb0 in Hfd. lia. }
      pose proof (py_read_file_cases path w Hb) as Hr. destruct (py_read_file path w) as [[data|e] w'].
      + destruct Hr as [Hc Hq]. by exists w.
      + by exists w.
    - intros e s [Hp (wA & Hw & Hq)]. by eapply write_seen_framed. }
  intros data. apply (triple_bind _ _ _ (fun _ => idle (fun w => exists wA, write_verified wA /\ quiet_io wA w))).
  { apply triple_lift.
    - intros []. unfold raise_if. case_bool_decide as Hne; [done|]. subst data.
      intros _ s [Hp (wA & Hw & Hc & Hq)]. split; [done|]. by exists wA.
    - intros e _ s [Hp (wA & Hw & _ & Hq)]. by eapply write_seen_framed. }
  intros [] s [Hp (wA & HA & Hq)]. by apply (read_half wA).
Qed.

End roundtrip.

(** ** The whole preflight *)

Section preflight.
Context {HL : HyFileLib} {HLF : HyFileFrames}.

(** Only [path] and the second [XDS_ALIGNMENT] bytes of the buffer may differ. *)
Definition probe_frame (path : string) (base : Z) (w w' : world) : Prop :=
  (forall q, q <> path -> files w' !! q = files w !! q) /\ fds w' = fds w /\ fresh w <= fresh w'
  /\ forall a, ~ window base XDS_ALIGNMENT XDS_ALIGNMENT a -> mem w' a = mem w a.

Lemma probe_frame_trans path base w1 w2 w3 :
  probe_frame path base w1 w2 -> probe_frame path base w2 w3 -> probe_frame path base w1 w3.
Proof.
  intros (A1 & A2 & A3 & A4) (B1 & B2 & B3 & B4). split; [intros q Hq; rewrite B1, A1; done|].
  split; [congruence|]. split; [lia|]. intros a Ha. rewrite B4, A4; done.
Qed.

Lemma only_probe_frame path base w w' : only_file path w w' -> probe_frame path base w w'.
Proof. intros (H1 & H2 & H3 & H4). split; [done|]. split; [done|]. split; [done|]. intros a _. by rewrite H2. Qed.

Lemma mkstemp_run path w :
  fds_below w -> files w !! path = None ->
  match (fd ← os_open path O_CREAT_WRONLY; os_close fd) w with
  | (Ok _, w') => only_file path w w' /\ fds_below w'
  | (Raise e, w') => only_file path w w' /\ is_os_error e = true
  end.
Proof.
  intros Hb Hp. unfold mbind, ST_bind. pose proof (os_open_write w path O_CREAT_WRONLY ltac:(by right)) as Ho.
  destruct (os_open path O_CREAT_WRONLY w) as [[fd|e] w1].
  - destruct Ho as (-> & i & n & Hf & Hm & _ & Hn & Hd). pose proof (os_close_quiet w1 (fresh w)) as Hc.
    destruct (os_close (fresh w) w1) as [r w2]. destruct Hc as [(Q1 & Q2 & Q3 & Q4) Hr]. simpl in *.
    assert (only_file path w w2) as Ho.
    { split; [intros q Hq; rewrite Q1, Hf; by apply lookup_insert_ne|]. split; [congruence|].
      split; [rewrite Q3, Hd; by apply delete_insert_id, below_fresh|lia]. }
    destruct r as [[]|e]; [|by destruct Hr]. split; [done|]. destruct Ho as (_ & _ & Hd2 & Hn2).
    intros fd. rewrite Hd2. intros Hfd. apply Hb in Hfd. lia.
  - destruct Ho as (He & Hq & _). split; [by apply quiet_only|done].
Qed.

(** [os.remove] that tolerates a missing file *)
Lemma remove_temp_run path w :
  match st_catch is_file_not_found (os_remove path) (fun _ => mret tt) w with
  | (Ok _, w') => only_file path w w' /\ files w' !! path = None
  | (Raise e, w') => only_file path w w' /\ is_os_error e = true
  end.
Proof.
  unfold st_catch. pose proof (os_remove_cases w path) as H. destruct (os_remove path w) as [[[]|e] w'].
  - destruct H as (Q1 & Q2 & Q3 & Q4). simpl in *. split.
    + split; [|done]. intros q Hq. by rewrite Q1, lookup_delete_ne.
    + rewrite Q1. apply lookup_delete_eq.
  - destruct H as (Hq & He & Hn). destruct (is_file_not_found e) eqn:E.
    + split; [by apply quiet_only|]. destruct Hq as (-> & _). by apply Hn.
    + split; [by apply quiet_only|done].
Qed.

Lemma framed_probe path base w s :
  framed base XDS_ALIGNMENT XDS_ALIGNMENT path w s ->
  probe_frame path base w (run_kernels (pending s) (st_world s)).
Proof. intros (H1 & H2 & H3 & H4). by split_and!. Qed.

Lemma XDS_ALIGNMENT_nonneg : 0 <= XDS_ALIGNMENT.
Proof. done. Qed.

#[local] Opaque XDS_ALIGNMENT.

(** What one accepted preflight from [w] to [w'] saw on its way: the write and the read of the
    pattern, each checked against bytes the program saw itself. *)
Definition accepted (dds : HyFileDDS) (base : Z) (path : string) (w w' : world) : Prop :=
  let off := XDS_ALIGNMENT in
  let window v := mem_slice (mem v) (base + off) (Z.to_nat XDS_ALIGNMENT) in
  let pattern := replicate (Z.to_nat XDS_ALIGNMENT) 165 in
  exists w1 w2 w3 w4,
    window w1 = pattern
    /\ dds_write dds path base XDS_ALIGNMENT 0 off w1 = (Ok XDS_ALIGNMENT, w2)
    /\ content w2 path = Some pattern /\ files w3 = files w2
    /\ window w3 = replicate (Z.to_nat XDS_ALIGNMENT) 0
    /\ dds_read dds path base XDS_ALIGNMENT 0 off w3 = (Ok XDS_ALIGNMENT, w4)
    /\ window w4 = pattern /\ window w' = pattern
    /\ Forall (probe_frame path base w) [w1; w2; w3; w4; w'].

Lemma passed_accepted dds base path w w1 s w' :
  probe_frame path base w w1 -> passed dds base XDS_ALIGNMENT XDS_ALIGNMENT path w1 s ->
  only_file path (run_kernels (pending s) (st_world s)) w' -> accepted dds base path w w'.
Proof.
  intros Hw1 (wA & wB & ((Hwr & HcA) & Hrd & Hwin) & Hp & Hfs & Hm & Hfd & Hfr) Hof.
  destruct Hwr as (v1 & (Hv1f & Hv1d & Hv1n & Hv1o & Hv1) & Hw & (HkA & HmA) & HdA & HnA).
  destruct Hrd as (v2 & (Hv2f & Hv2d & Hv2n & Hv2o & Hv2) & Hr & (HkB & HmB) & HdB & HnB).
  rewrite Hp, run_no_kernels in Hof. destruct Hof as (Hof & Hom & Hod & Hon).
  exists v1, wA, v2, wB. repeat (split; [assumption|]). split.
  { rewrite <- Hwin, Hom. apply mem_slice_ext. intros a. apply Hm. }
  destruct Hw1 as (Hq1 & Hd1 & Hn1 & Hm1). unfold content in *.
  assert (forall q, q <> path -> files wA !! q = files w !! q) as HqA.
  { intros q Hq. rewrite HkA, Hv1f; [by apply Hq1|]. intros Hin%list_elem_of_singleton. by apply Hq. }
  repeat constructor; lazymatch goal with |- fds _ = _ => congruence | |- fresh _ <= _ => lia | _ => idtac end.
  all: try (intros a Ha; rewrite ?Hom, ?Hm, ?HmB, ?HmA, ?Hv1o, ?Hv2o by exact Ha; by apply Hm1).
  all: intros q Hq; rewrite ?Hof, ?Hfs, ?HkB, ?Hv2f, ?Hv1f by exact Hq; by auto.
Qed.

Lemma verify_run (dds : HyFileDDS) (base numel : Z) (is_cuda : bool) (sched : list nat)
    (path : string) (w : world) :
  files w !! path = None -> fds_below w ->
  let '(r, w') := verify_hyfile_roundtrip dds base numel is_cuda sched path w in
  probe_frame path base w w'
  /\ (is_Some (files w' !! path) -> exists e, r = Raise e /\ is_os_error e = true)
  /\ (r = Ok tt -> 2 * XDS_ALIGNMENT <= numel /\ accepted dds base path w w').
Proof.
  intros Hnew Hfds.
  unfold verify_hyfile_roundtrip. destruct (numel <? 2 * XDS_ALIGNMENT) eqn:Hlen.
  { erewrite run_bind_raise by reflexivity. split; [by apply only_probe_frame|]. rewrite Hnew.
    split; [by intros []|done]. }
  erewrite run_bind by reflexivity. pose proof (mkstemp_run path w Hfds Hnew) as Hmk. unfold mbind at 1, ST_bind at 1 in Hmk.
  destruct (os_open path O_CREAT_WRONLY w) as [[fd|e] w0] eqn:E0;
    [erewrite run_bind by exact E0|erewrite run_bind_raise by exact E0;
      destruct Hmk as [Hmk He]; split; [by apply only_probe_frame|]; split; [by exists e|done]].
  destruct (os_close fd w0) as [[[]|e] w1] eqn:E1;
    [erewrite run_bind by exact E1|erewrite run_bind_raise by exact E1;
      destruct Hmk as [Hmk He]; split; [by apply only_probe_frame|]; split; [by exists e|done]].
  destruct Hmk as [Hmk Hb]. replace (2 * XDS_ALIGNMENT - XDS_ALIGNMENT) with XDS_ALIGNMENT by lia.
  unfold st_finally, in_stream.
  pose proof (roundtrip_triple dds base XDS_ALIGNMENT XDS_ALIGNMENT is_cuda path XDS_ALIGNMENT_nonneg w1 Hb
    (StreamState w1 [] sched) ltac:(done)) as Ht.
  destruct (roundtrip dds base XDS_ALIGNMENT XDS_ALIGNMENT is_cuda path _) as [r s].
  set (w2 := run_kernels (pending s) (st_world s)).
  assert (probe_frame path base w1 w2) as Hfr by (destruct r; [destruct Ht as [_ Ht]|]; by apply framed_probe).
  pose proof (remove_temp_run path w2) as Hrm.
  destruct (st_catch is_file_not_found (os_remove path) (fun _ => mret tt) w2) as [rr w3] eqn:Erm.
  assert (only_file path w2 w3) as Hof by (destruct rr; by destruct Hrm).
  assert (probe_frame path base w w3) as Hwhole.
  { eapply probe_frame_trans; [by apply only_probe_frame|].
    eapply probe_frame_trans; [exact Hfr|by apply only_probe_frame]. }
  destruct rr as [[]|e]; [|destruct r; (split; [done|]; split; [exists e; by destruct Hrm|done])].
  destruct Hrm as [_ Hgone]. destruct r as [[]|e]; (split; [done|]; rewrite Hgone; split; [by intros []|]); [|done].
  intros _. split; [lia|]. destruct Ht as [Hpass _].
  eapply passed_accepted; [by apply only_probe_frame|exact Hpass|exact Hof].
Qed.

(** C26: the preflight fails closed. Whatever the driver does, within the files and memory a
    transfer names, and whatever the system calls do, it accepts only a buffer of two pages
    or more whose second page reached the file as the pattern and came back from the file,
    after it had been zeroed, through the driver, in states the run went through and that are
    framed as it is; no other file, descriptor or byte of device
    memory changes; and the temporary file is gone unless an [OSError] says it may not be. *)
Theorem preflight_fails_closed (dds : HyFileDDS) (base numel : Z) (is_cuda : bool) (sched : list nat)
    (path : string) (w : world) (Hnew : files w !! path = None) (Hfds : fds_below w) :
  let '(r, w') := verify_hyfile_roundtrip dds base numel is_cuda sched path w in
  probe_frame path base w w'
  /\ (is_Some (files w' !! path) -> exists e, r = Raise e /\ is_os_error e = true)
  /\ (r = Ok tt -> 2 * XDS_ALIGNMENT <= numel /\ accepted dds base path w w').
Proof.
  by apply verify_run.
Qed.

End preflight.
