(* ===== verification/XdsLifecycle.v ===== *)
(** * The XDS backend's life cycle

    Construction and closing of [XdsBackend] ([v1/storage_backend/xds_backend.py]): which mode
    the options ask for, the memory pool and the driver the mode needs, the preflight and the
    block-first staging buffer, what a failure on the way releases; [close]; and the methods
    that hand out the backend's memory. *)

From S2P Require Import Prelude Tensor Codec BlockFirst DirectIO World HipFile GpuConnector XdsFiles Dict XdsIndex DeviceTensor XdsStaged Allocator XdsPreflight.

Open Scope string_scope.
Open Scope list_scope.
Open Scope Z_scope.

(** ** Options *)

(** A value of [extra_config] or [kv_connector_extra_config] *)
Inductive option_value := OptBool (b : bool) | OptInt (n : Z) | OptStr (s : string) | OptNone.

Definition config_bool (value : option_value) : bool :=
  match value with
  | OptBool b => b
  | OptStr s => str_to_bool s
  | _ => false
  end.

(** [extra.get(name, default)]; a missing dictionary is an empty one. *)
Definition extra_get (extra : option (gmap string option_value)) (name : string) (default_ : option_value)
    : option_value := default default_ (default ∅ extra !! name).

Definition extra_flag extra name (b : bool) : bool := config_bool (extra_get extra name (OptBool b)).

(** What the backend reads of [LMCacheEngineConfig]; [lc_xds_path_exists] is what
    [os.path.exists] says of the directory. [max_xds_size] is in GiB, a fraction. *)
Record lm_config := LmConfig {
  lc_xds_path : string;
  lc_xds_path_exists : bool;
  lc_xds_buffer_size : option Z;
  lc_extra_config : option (gmap string option_value);
  lc_store_location : option string;
  lc_enable_async_loading : bool;
  lc_use_layerwise : bool;
  lc_cache_policy : string;
  lc_max_xds_size : option (Z * positive);
}.

(** And of [LMCacheMetadata]; the shapes and dtypes are those of one chunk. *)
Record lm_metadata {Dt : Type} := LmMetadata {
  lm_use_mla : bool;
  lm_is_first_rank : bool;
  lm_num_groups : Z;
  lm_kv_shape : list Z;
  lm_block_size : option Z;
  lm_chunk_size : Z;
  lm_shapes : list (list Z);
  lm_dtypes : list Dt;
  lm_worker_id : Z;
  lm_world_size : Z;
  lm_kv_extra_config : option (gmap string option_value);
}.
Arguments lm_metadata : clear implicits.

(** The platform: [torch.version.cuda is not None], whether [libhiprtc.so] loads, the file
    system's [f_bsize], the name [tempfile.mkstemp] makes, what kernels have run by each
    transfer of the preflight, whether the event loop accepts coroutines *)
Record platform := Platform {
  torch_cuda : bool;
  libhiprtc_present : bool;
  f_bsize : Z;
  mkstemp_name : string;
  preflight_schedule : list nat;
  loop_open : bool;
}.

(** ** State *)

(** The interface under [self.xds]: [HyFileDDS], [CuFileGDS], [Posix] *)
Inductive xds_handle :=
  | XdsHyFile (dds : HyFileDDS) (profile_enabled : bool)
  | XdsCuFile
  | XdsPosix (os_disk_bs : Z).

(** [self.memory_allocator]: a pool of the process, LMCache's cuFile allocator, or the local
    CPU backend *)
Inductive memory_allocator := HyPool (id : Z) | CuPool (id : Z) | LocalCPU.

#[global] Instance memory_allocator_eq_dec : EqDecision memory_allocator.
Proof. solve_decision. Defined.

(** The flags fixed before any resource is acquired *)
Record xds_settings := XdsSettings {
  st_cpu_store : bool;
  st_cpu_store_direct_retrieve : bool;
  st_io_profile : bool;
  st_store_pipeline : bool;
  st_retrieve_pipeline : bool;
  st_direct_only : bool;
  st_block_first : bool;
  st_direct : bool;
}.

(** What is set after the resources *)
Record xds_tail {P : Type} := XdsTail {
  tl_direct_store : bool;
  tl_direct_retrieve : bool;
  tl_fmt : MemoryFormat;
  tl_policy : P;
  tl_threads : option Z;
  tl_world_id : Z;
  tl_world_size : Z;
  tl_max_xds_size : option Z;      (* bytes; [eviction] says whether there is one *)
}.
Arguments xds_tail : clear implicits.

(** [self]: [b_staging] is [_block_first_staging_allocator] with [_block_first_staging_obj]. *)
Record xds_backend {P : Type} := XdsBackend {
  b_settings : xds_settings;
  b_direct_enabled : bool;
  b_interface : option string;
  b_allocator : option memory_allocator;
  b_xds : option xds_handle;
  b_base_pointer : option Z;
  b_staging : option (memory_allocator * Z);
  b_driver_owned : bool;
  b_registrations : list (registration * lifetime);
  b_edge : option (Z * Z);
  b_tail : option (xds_tail P);
  b_closed : bool;
}.
Arguments xds_backend : clear implicits.

(** LMCache's [CuFileMemoryAllocator] and the [cufile] package, used only where PyTorch was
    built for CUDA; [is_valid] of LMCache's memory objects *)
Class CuFileOps (pool request : Type) := {
  cufile_new : Z -> ST (process pool) Z;
  cufile_base_pointer : Z -> Z;
  cufile_allocate : Z -> request -> ST (process pool) (option Z);
  cufile_batched_allocate : Z -> request -> Z -> ST (process pool) (option (list Z));
  cufile_free : Z -> Z -> ST (process pool) unit;
  cufile_zero : Z -> ST (process pool) unit;
  cufile_close : Z -> ST (process pool) unit;
  cufile_initialize : ST (process pool) bool;
  obj_is_valid : Z -> process pool -> bool;
}.

Section lifecycle.
Context {HL : HyFileLib} {Dt : Type} `{!TorchDtype Dt} {pool P : Type}.
#[local] Abbreviation request := (list Z * Dt * MemoryFormat)%type.
Context {PO : PoolOps pool request} {CO : CuFileOps pool request}.
Context (get_cache_policy : string -> result P).
Context (cfg : lm_config) (md : lm_metadata Dt) (pf : platform) (dst_device : string) (local_cpu_backend : bool).

(** The process and the backend being built or used *)
Record node := Node { n_process : process pool; n_self : xds_backend P }.

Definition on_process {A} (m : ST (process pool) A) : ST node A := fun n =>
  let '(r, p) := m (n_process n) in (r, Node p (n_self n)).

Definition modify_self (f : xds_backend P -> xds_backend P) : ST node unit :=
  st_modify (fun n => Node (n_process n) (f (n_self n))).

Definition get_self : ST node (xds_backend P) := st_gets n_self.

(** An operation on the registrations *)
Definition on_io {A} (m : ST xds_io A) : ST node A := fun n =>
  let b := n_self n in
  let '(r, s) := m (XdsIO (p_world (n_process n)) (b_registrations b) (b_edge b)) in
  (r, Node (with_world (io_world s) (n_process n))
        (XdsBackend _ (b_settings b) (b_direct_enabled b) (b_interface b) (b_allocator b) (b_xds b)
           (b_base_pointer b) (b_staging b) (b_driver_owned b) (registrations s) (edge_tensor s)
           (b_tail b) (b_closed b))).

Definition set_direct_enabled v (b : xds_backend P) := XdsBackend P (b_settings b) v (b_interface b) (b_allocator b)
  (b_xds b) (b_base_pointer b) (b_staging b) (b_driver_owned b) (b_registrations b) (b_edge b) (b_tail b) (b_closed b).
Definition set_interface v (b : xds_backend P) := XdsBackend P (b_settings b) (b_direct_enabled b) v (b_allocator b)
  (b_xds b) (b_base_pointer b) (b_staging b) (b_driver_owned b) (b_registrations b) (b_edge b) (b_tail b) (b_closed b).
Definition set_allocator v (b : xds_backend P) := XdsBackend P (b_settings b) (b_direct_enabled b) (b_interface b) v
  (b_xds b) (b_base_pointer b) (b_staging b) (b_driver_owned b) (b_registrations b) (b_edge b) (b_tail b) (b_closed b).
Definition set_xds v (b : xds_backend P) := XdsBackend P (b_settings b) (b_direct_enabled b) (b_interface b)
  (b_allocator b) v (b_base_pointer b) (b_staging b) (b_driver_owned b) (b_registrations b) (b_edge b) (b_tail b)
  (b_closed b).
Definition set_base_pointer v (b : xds_backend P) := XdsBackend P (b_settings b) (b_direct_enabled b) (b_interface b)
  (b_allocator b) (b_xds b) v (b_staging b) (b_driver_owned b) (b_registrations b) (b_edge b) (b_tail b) (b_closed b).
Definition set_staging v (b : xds_backend P) := XdsBackend P (b_settings b) (b_direct_enabled b) (b_interface b)
  (b_allocator b) (b_xds b) (b_base_pointer b) v (b_driver_owned b) (b_registrations b) (b_edge b) (b_tail b)
  (b_closed b).
Definition set_driver_owned v (b : xds_backend P) := XdsBackend P (b_settings b) (b_direct_enabled b) (b_interface b)
  (b_allocator b) (b_xds b) (b_base_pointer b) (b_staging b) v (b_registrations b) (b_edge b) (b_tail b) (b_closed b).
Definition set_tail (v : option (xds_tail P)) (b : xds_backend P) := XdsBackend P (b_settings b) (b_direct_enabled b) (b_interface b)
  (b_allocator b) (b_xds b) (b_base_pointer b) (b_staging b) (b_driver_owned b) (b_registrations b) (b_edge b) v
  (b_closed b).
Definition set_backend_closed v (b : xds_backend P) := XdsBackend P (b_settings b) (b_direct_enabled b) (b_interface b)
  (b_allocator b) (b_xds b) (b_base_pointer b) (b_staging b) (b_driver_owned b) (b_registrations b) (b_edge b)
  (b_tail b) v.

(** ** The mode *)

(** [_should_enable_block_first] *)
Definition should_enable_block_first : result bool :=
  if negb (extra_flag (lm_kv_extra_config md) "lmcache_block_first" false) then Ok false
  else
    let extra := lc_extra_config cfg in
    let direct_only := extra_flag extra "gds_direct_only" false in
    let cpu_store := extra_flag extra "xds_cpu_store" false in
    let cpu_direct_retrieve := cpu_store && extra_flag extra "xds_direct_retrieve" false in
    kv1 ← py_index (lm_kv_shape md) 1;
    mret (negb (
      (cpu_store && negb cpu_direct_retrieve)
      || (bool_decide (lc_xds_buffer_size cfg = None) && negb (direct_only || cpu_direct_retrieve))
      || lm_use_mla md
      || lc_use_layerwise cfg
      || negb (lm_num_groups md =? 1)
      || negb (kv1 =? 2)
      || match lm_block_size md with
         | None => true
         | Some bs => (bs <=? 0) || negb (lm_chunk_size md mod bs =? 0)
         end)).

(** [__init__] up to the first resource *)
Definition xds_settings_of : result xds_settings :=
  py_assert (lc_xds_path_exists cfg);;
  py_assert (String.prefix "cuda" dst_device);;
  let extra := lc_extra_config cfg in
  let has_buffer := bool_decide (is_Some (lc_xds_buffer_size cfg)) in
  let cpu_store_enabled := extra_flag extra "xds_cpu_store" false in
  let cpu_store_direct_retrieve_enabled :=
    cpu_store_enabled && extra_flag extra "xds_direct_retrieve" false in
  raise_if (cpu_store_enabled && negb has_buffer && negb cpu_store_direct_retrieve_enabled)
    (ValueError "xds_cpu_store requires xds_buffer_size unless xds_direct_retrieve is enabled");;
  raise_if (cpu_store_direct_retrieve_enabled && has_buffer)
    (ValueError "xds_cpu_store+xds_direct_retrieve requires xds_buffer_size=null");;
  raise_if (cpu_store_enabled && negb local_cpu_backend)
    (ValueError "xds_cpu_store requires an available LocalCPUBackend allocator");;
  let direct_only := extra_flag extra "gds_direct_only" false in
  block_first ← should_enable_block_first;
  let enable_direct := extra_flag extra "enable_direct_gds" false in
  let direct_enabled :=
    block_first && (enable_direct || direct_only || cpu_store_direct_retrieve_enabled) in
  raise_if (direct_only && negb direct_enabled)
    (RuntimeError "gds_direct_only requires a compatible block-first XDS setup");;
  raise_if (direct_only && negb (bool_decide (lc_store_location cfg = Some "XdsBackend")))
    (RuntimeError "gds_direct_only requires store_location='XdsBackend'");;
  raise_if (direct_only && lc_enable_async_loading cfg)
    (RuntimeError "gds_direct_only does not support async loading");;
  mret {|
    st_cpu_store := cpu_store_enabled;
    st_cpu_store_direct_retrieve := cpu_store_direct_retrieve_enabled;
    st_io_profile := extra_flag extra "direct_io_profile" false;
    st_store_pipeline := extra_flag extra "direct_store_pipeline" true;
    st_retrieve_pipeline := extra_flag extra "direct_retrieve_pipeline" true;
    st_direct_only := direct_only;
    st_block_first := block_first;
    st_direct := direct_enabled
  |}.

(** ** Resources *)

Definition check_environment : string := if torch_cuda pf then "cufile" else "hyfile".

(** [create_xds_interface]: [HyFileDDS.initialize] does without [libhiprtc.so]. *)
Definition create_xds_interface (backend : string) : ST (process pool) xds_handle :=
  if String.eqb backend "cufile" then
    initialized ← cufile_initialize;
    st_lift (raise_if (negb initialized) (RuntimeError ("Failed to initialize " +:+ backend)));;
    mret XdsCuFile
  else mret (XdsHyFile (MkHyFileDDS true (libhiprtc_present pf)) false).

(** [HyFileMemoryAllocator(size=size)] or [CuFileMemoryAllocator(size=size)] *)
Definition new_allocator (backend : string) (size : Z) : ST (process pool) memory_allocator :=
  if String.eqb backend "hyfile" then id ← hyfile_new (request := request) size; mret (HyPool id)
  else id ← cufile_new size; mret (CuPool id).

Definition initialize_allocator (backend : string) : ST (process pool) (option memory_allocator) :=
  size ← st_lift (result_of_option AssertionError (lc_xds_buffer_size cfg));
  if lm_use_mla md && negb (lm_is_first_rank md) then mret None
  else a ← new_allocator backend (size * 1024 ^ 2); mret (Some a).

(** The methods of an allocator; the local CPU backend is not the XDS backend's to close. *)
Definition allocator_close (a : memory_allocator) : ST (process pool) unit :=
  match a with
  | HyPool id => Allocator.close id
  | CuPool id => cufile_close id
  | LocalCPU => mret tt
  end.

Definition allocator_free (a : memory_allocator) (obj : Z) : ST (process pool) unit :=
  match a with
  | HyPool id => Allocator.free id obj
  | CuPool id => cufile_free id obj
  | LocalCPU => mret tt
  end.

Definition allocator_base_pointer (a : memory_allocator) : ST (process pool) Z :=
  match a with
  | HyPool id => x ← get_pool id; st_lift (result_of_option AttributeError (ha_base x))
  | CuPool id => mret (cufile_base_pointer id)
  | LocalCPU => st_raise AssertionError
  end.

(** [allocator.tensor.zero_()] *)
Definition allocator_zero (a : memory_allocator) : ST (process pool) unit :=
  match a with
  | HyPool id =>
      x ← get_pool id;
      base ← st_lift (result_of_option AttributeError (ha_base x));
      on_driver (in_stream [] (XdsStaged.launch true (zero_kernel base (ha_size x))))
  | CuPool id => cufile_zero id
  | LocalCPU => mret tt
  end.

(** [allocator.allocate(shape, dtype, fmt)] *)
Definition allocator_allocate (a : memory_allocator) (req : request) : ST (process pool) (option Z) :=
  match a with
  | HyPool id => Allocator.allocate id req
  | CuPool id => cufile_allocate id req
  | LocalCPU => st_raise AttributeError
  end.

Definition allocator_batched_allocate (a : memory_allocator) (req : request) (n : Z)
    : ST (process pool) (option (list Z)) :=
  match a with
  | HyPool id => Allocator.batched_allocate id req n
  | CuPool id => cufile_batched_allocate id req n
  | LocalCPU => st_raise AttributeError
  end.

(** ** The staging buffer *)

(** [_initialize_block_first_staging] *)
Definition initialize_block_first_staging (backend : string) : ST node unit :=
  block_size ← st_lift (result_of_option AssertionError (lm_block_size md));
  st_lift (raise_if (negb ((length (lm_shapes md) =? 1)%nat && (length (lm_dtypes md) =? 1)%nat))
    (RuntimeError "block_first_v1 requires exactly one KV layer group"));;
  shape ← st_lift (py_index (lm_shapes md) 0);
  dt ← st_lift (py_index (lm_dtypes md) 0);
  payload_shape ← st_lift (block_first_shape shape block_size);
  allocator_size ← st_lift (align_up (prodZ payload_shape * itemsize dt) BLOCK_FIRST_ALIGNMENT);
  allocator ← on_process (new_allocator backend allocator_size);
  staging_obj ← on_process (allocator_allocate allocator (payload_shape, dt, OtherFormat "UNDEFINED"));
  match staging_obj with
  | None =>
      on_process (allocator_close allocator);;
      st_raise (RuntimeError "Failed to allocate block_first_v1 staging buffer")
  | Some obj =>
      on_process (allocator_zero allocator);;
      modify_self (set_staging (Some (allocator, obj)))
  end.

(** [_close_block_first_staging]: the object's last reference returns it to its pool. *)
Definition close_block_first_staging : ST node unit :=
  self ← get_self;
  match b_staging self with
  | Some (allocator, obj) =>
      n ← st_get;
      (if obj_is_valid obj (n_process n) then on_process (allocator_free allocator obj) else mret tt);;
      on_process (allocator_close allocator)
  | None => mret tt
  end;;
  modify_self (set_staging None).

(** ** Construction *)

(** The direct modes have no allocator of their own. *)
Definition no_allocator (s : xds_settings) : bool := st_direct_only s || st_cpu_store_direct_retrieve s.

(** The interface: direct I/O needs HyFile, and turns the CPU copies of [HyFileDDS] off. *)
Definition acquire (s : xds_settings) : ST node unit :=
  let xds_interface := check_environment in
  modify_self (set_interface (Some xds_interface));;
  (if st_direct s && negb (String.eqb xds_interface "hyfile") then
     st_lift (raise_if (st_direct_only s)
       (RuntimeError "XDS direct-only mode currently requires the HyFile backend"));;
     modify_self (set_direct_enabled false)
   else mret tt);;
  a ← (if no_allocator s then mret None else on_process (initialize_allocator xds_interface));
  modify_self (set_allocator a);;
  xds ← on_process (create_xds_interface xds_interface);
  xds ← match xds with
        | XdsHyFile dds _ =>
            mret (XdsHyFile (if no_allocator s then MkHyFileDDS false (hiprt dds) else dds) (st_io_profile s))
        | _ =>
            st_lift (raise_if (no_allocator s)
              (RuntimeError "direct XDS retrieve requires the HyFile backend"));;
            mret xds
        end;
  modify_self (set_xds (Some xds)).

(** [_verify_hyfile_roundtrip(self.xds, self.memory_allocator, config.xds_path)] *)
Definition preflight (a : memory_allocator) : ST node unit :=
  self ← get_self;
  match a, b_xds self with
  | HyPool id, Some (XdsHyFile dds _) =>
      x ← on_process (get_pool id);
      base ← st_lift (result_of_option AttributeError (ha_base x));
      on_process (on_driver (verify_hyfile_roundtrip dds base (ha_size x) true (preflight_schedule pf)
        (mkstemp_name pf)))
  | _, _ => st_raise AttributeError
  end.

(** The [try] body *)
Definition bring_up (s : xds_settings) : ST node unit :=
  self ← get_self;
  match b_allocator self with
  | None =>
      if b_direct_enabled self then
        on_process (on_driver init_driver);; modify_self (set_driver_owned true)
      else mret tt
  | Some a =>
      base ← on_process (allocator_base_pointer a);
      modify_self (set_base_pointer (Some base));;
      (if bool_decide (b_interface self = Some "hyfile") then preflight a else mret tt);;
      if st_block_first s && negb (st_direct_only s) then initialize_block_first_staging check_environment
      else mret tt
  end.

(** Its handler *)
Definition tear_down (e : exn) : ST node unit :=
  close_block_first_staging;;
  self ← get_self;
  (if b_driver_owned self then
     on_process (on_driver close_driver);; modify_self (set_driver_owned false)
   else mret tt);;
  match b_allocator self with
  | Some a => on_process (allocator_close a)
  | None => mret tt
  end;;
  st_raise e.

(** [Posix(config.xds_path)] over the local CPU backend's memory *)
Definition use_posix : ST node unit :=
  st_lift (py_assert local_cpu_backend);;
  modify_self (set_allocator (Some LocalCPU));;
  on_process (on_driver may_fail);;
  modify_self (set_xds (Some (XdsPosix (f_bsize pf)))).

(** [ThreadPoolExecutor(max_workers=thread_count)]: [None] lets Python choose. *)
Definition thread_pool_workers (v : option_value) : result (option Z) :=
  match v with
  | OptNone => Ok None
  | OptStr _ => Raise TypeError
  | OptInt n => raise_if (n <=? 0) (ValueError "max_workers must be greater than 0");; mret (Some n)
  | OptBool b => raise_if (negb b) (ValueError "max_workers must be greater than 0");; mret (Some 1)
  end.

(** The rest of [__init__]; the metadata scan it schedules is in [XdsPaths]. *)
Definition finish_init (s : xds_settings) : ST node unit :=
  self ← get_self;
  cache_policy ← st_lift (get_cache_policy (lc_cache_policy cfg));
  threads ← st_lift (thread_pool_workers (extra_get (lc_extra_config cfg) "xds_io_threads" (OptInt 4)));
  st_lift (raise_if (negb (loop_open pf)) (RuntimeError "Event loop is closed"));;
  modify_self (set_tail (Some {|
    tl_direct_store := b_direct_enabled self && negb (st_cpu_store s);
    tl_direct_retrieve := b_direct_enabled self;
    tl_fmt := if lm_use_mla md then KV_MLA_FMT else GpuConnector.KV_2LTD;
    tl_policy := cache_policy;
    tl_threads := threads;
    tl_world_id := lm_worker_id md;
    tl_world_size := if lm_use_mla md then 1 else lm_world_size md;
    tl_max_xds_size := (fun '(a, b) => Z.quot (a * 1024 ^ 3) (Zpos b)) <$> lc_max_xds_size cfg
  |})).

Definition blank (s : xds_settings) : xds_backend P :=
  XdsBackend P s (st_direct s) None None None None None false [] None None false.

Definition open_backend (s : xds_settings) : ST node unit :=
  if bool_decide (is_Some (lc_xds_buffer_size cfg)) || st_direct s then
    acquire s;; st_catch any_exn (bring_up s) tear_down
  else use_posix.

(** [__init__] *)
Definition init : ST (process pool) (xds_backend P) := fun p =>
  match xds_settings_of with
  | Raise e => (Raise e, p)
  | Ok s =>
      let '(r, n) := (open_backend s;; finish_init s;; get_self) (Node p (blank s)) in (r, n_process n)
  end.

(** ** Closing *)

(** [in_flight] is what the scan, the queued puts and the running reads still do. *)
Definition close (in_flight : ST xds_io unit) : ST node unit :=
  self ← get_self;
  if b_closed self then mret tt
  else
    on_io in_flight;;
    on_io close_direct_registrations;;
    on_io close_direct_edge_staging;;
    close_block_first_staging;;
    self ← get_self;
    match b_allocator self with
    | Some a =>
        if bool_decide (is_Some (lc_xds_buffer_size cfg)) then on_process (allocator_close a) else mret tt
    | None => mret tt
    end;;
    (if b_driver_owned self then
       on_process (on_driver close_driver);; modify_self (set_driver_owned false)
     else mret tt);;
    modify_self (set_backend_closed true).

(** ** The backend's memory *)

(** [get_allocator_backend]: who allocates what the backend stores *)
Inductive allocator_backend := AllocSelf | AllocLocalCPU.

Definition get_allocator_backend (b : xds_backend P) : result allocator_backend :=
  if st_cpu_store (b_settings b) then
    py_assert local_cpu_backend;; mret AllocLocalCPU
  else mret AllocSelf.

(** [supports_direct_io] *)
Definition supports_direct_io (b : xds_backend P) (direction : DirectIODirection) : bool :=
  match direction with
  | STORE => match b_tail b with Some t => tl_direct_store t | None => b_direct_enabled b end
  | RETRIEVE => match b_tail b with Some t => tl_direct_retrieve t | None => b_direct_enabled b end
  end.

Definition get_memory_allocator (b : xds_backend P) : option memory_allocator := b_allocator b.

(** [allocate] and [batched_allocate] pass the backend's format on, whatever the caller's. *)
Definition allocate (shape : list Z) (dt : Dt) : ST node (option Z) :=
  self ← get_self;
  match b_allocator self with
  | None => mret None
  | Some a =>
      tl ← st_lift (result_of_option AttributeError (b_tail self));
      on_process (allocator_allocate a (shape, dt, tl_fmt tl))
  end.

Definition batched_allocate (shape : list Z) (dt : Dt) (batch_size : Z) : ST node (option (list Z)) :=
  self ← get_self;
  match b_allocator self with
  | None => mret None
  | Some a =>
      tl ← st_lift (result_of_option AttributeError (b_tail self));
      on_process (allocator_batched_allocate a (shape, dt, tl_fmt tl) batch_size)
  end.

End lifecycle.
