(* ===== verification/XdsLifecycleFacts.v ===== *)
(** * The XDS backend's life cycle: correctness

    What a constructed backend is, what a failed construction leaves, and what [close]
    releases: theorems of [XdsLifecycle] over any driver with the documented frame, any
    failure of the system calls, and any history of other pools in the process. *)

From S2P Require Import Prelude Tensor Codec BlockFirst DirectIO World WorldIO HipFile GpuConnector XdsFiles Dict XdsIndex DeviceTensor XdsStaged Allocator AllocatorFacts XdsPreflight XdsLifecycle.

Open Scope string_scope.
Open Scope list_scope.
Open Scope Z_scope.

(** ** The preflight leaves the driver's state alone *)

Section hip_kept.
Context {HL : HyFileLib} {HLF : HyFileFrames} (h : hip_class).
Context (Hopen : driver_opened h = true) (Hloaded : lib_loaded h = true).
#[local] Abbreviation kept := (fun w => hip w = h).

#[local] Ltac by_cases := clear Hopen Hloaded; intros w <-;
  unfold os_open, os_close, os_remove, os_ftruncate, os_fstat, may_fail, next_event, st_get, st_put,
    st_modify, st_raise, mret, ST_ret, mbind, ST_bind;
  repeat (first [case_match | progress simpl]; simplify_eq); done.

Lemma may_fail_hip : preserves kept may_fail.
Proof. by_cases. Qed.
Lemma os_open_hip path mode : preserves kept (os_open path mode).
Proof. by_cases. Qed.
Lemma os_close_hip fd : preserves kept (os_close fd).
Proof. by_cases. Qed.
Lemma os_remove_hip path : preserves kept (os_remove path).
Proof. by_cases. Qed.
Lemma os_ftruncate_hip fd n : preserves kept (os_ftruncate fd n).
Proof. by_cases. Qed.
Lemma os_fstat_hip fd : preserves kept (os_fstat fd).
Proof. by_cases. Qed.
Lemma st_get_hip : preserves kept st_get.
Proof. by intros w. Qed.

(** Library calls by their frames *)
Lemma quiet_hip {A} (f : world -> A * world) : (forall w, quiet w (f w).2) -> preserves kept (lib f).
Proof. intros Hq w <-. specialize (Hq w). unfold lib. destruct (f w). apply Hq. Qed.
Lemma writes_hip {A} path (f : world -> A * world) :
  (forall w, writes_only path w (f w).2) -> preserves kept (lib f).
Proof. intros Hq w <-. specialize (Hq w). unfold lib. destruct (f w). apply Hq. Qed.
Lemma stores_hip {A} lo n (f : world -> A * world) :
  (forall w, stores_only lo n w (f w).2) -> preserves kept (lib f).
Proof. intros Hq w <-. specialize (Hq w). unfold lib. destruct (f w). apply Hq. Qed.

Lemma load_lib_hip : preserves kept load_lib.
Proof. intros w <-. unfold load_lib, get_hip, st_gets, mbind, ST_bind. by rewrite Hloaded. Qed.

#[local] Ltac hip_step := first
  [ apply may_fail_hip | apply os_open_hip | apply os_close_hip | apply os_remove_hip
  | apply os_ftruncate_hip | apply os_fstat_hip | apply st_get_hip | apply load_lib_hip
  | apply preserves_ret | apply preserves_raise | apply preserves_lift | apply preserves_gets
  | eapply quiet_hip; solve [apply handle_register_quiet|apply handle_deregister_quiet|apply synchronize_quiet]
  | eapply writes_hip; solve [apply write_frame|apply dtoh_frame]
  | eapply stores_hip; solve [apply read_frame|apply htod_frame]
  | apply preserves_bind; [|intros] | apply preserves_catch; [|intros] | apply preserves_finally
  | case_match ].

Lemma hip_open_hip path mode : preserves kept (hip_open path mode).
Proof.
  intros w Hw. unfold hip_open, get_hip. rewrite (run_bind (st_gets hip) _ w (hip w) w) by done.
  rewrite Hw, Hopen. revert w Hw. unfold register_file_handle, check_err.
  change (preserves kept (mret tt;;
     flags ← st_lift (open_flags mode);
     fd ← os_open path flags;
     st_catch any_exn (err ← lib (hipFileHandleRegister fd); (if err =? 0 then mret tt else st_raise (HIPfileException err)))
       (fun e => os_close fd;; st_raise e);;
     mret fd)).
  repeat hip_step.
Qed.

Lemma dds_write_hip dds path gpu size fo dof : preserves kept (dds_write dds path gpu size fo dof).
Proof.
  unfold dds_write, with_hip_file, hip_close, deregister_file_handle, lib_write, check_count, cpu_copy,
    write_fallback, with_mapped_file, close_file_descriptor.
  repeat first [apply hip_open_hip | hip_step].
Qed.

Lemma dds_read_hip dds path gpu size fo dof : preserves kept (dds_read dds path gpu size fo dof).
Proof.
  unfold dds_read, with_hip_file, hip_close, deregister_file_handle, lib_read, check_count, cpu_copy,
    read_fallback, with_mapped_file, close_file_descriptor, os_exists.
  repeat first [apply hip_open_hip | hip_step].
Qed.

(** Operations of the stream *)
#[local] Abbreviation stream_kept := (fun s => hip (st_world s) = h).

Lemma on_stream_hip {A} (m : ST world A) : preserves kept m -> preserves stream_kept (on_stream m).
Proof. intros Hm s Hs. unfold on_stream. specialize (Hm _ Hs). by destruct (m (st_world s)). Qed.

Lemma launch_hip cuda k : preserves stream_kept (XdsStaged.launch cuda k).
Proof. intros s Hs. by destruct cuda. Qed.

Lemma dma_hip {A} (m : ST world A) : preserves kept m -> preserves stream_kept (dma m).
Proof. intros Hm. apply preserves_bind; [by intros s Hs|]. intros []. by apply on_stream_hip. Qed.

Lemma sync_hip cuda : preserves stream_kept (sync_if cuda).
Proof.
  destruct cuda; [|apply preserves_ret]. apply preserves_bind; [|by intros [] s Hs].
  apply on_stream_hip. unfold synchronize. repeat hip_step.
Qed.

Lemma roundtrip_hip dds base off size cuda path : preserves stream_kept (roundtrip dds base off size cuda path).
Proof.
  unfold roundtrip. repeat first
    [ apply launch_hip | apply sync_hip | apply dma_hip | apply dds_write_hip | apply dds_read_hip
    | apply preserves_bind; [|intros] | apply preserves_lift | by intros s Hs ].
  apply on_stream_hip. unfold py_read_file. repeat hip_step.
Qed.

Lemma verify_hip dds base numel cuda sched path : preserves kept (verify_hyfile_roundtrip dds base numel cuda sched path).
Proof.
  unfold verify_hyfile_roundtrip. repeat hip_step.
  intros w Hw. unfold in_stream.
  pose proof (roundtrip_hip dds base XDS_ALIGNMENT (2 * XDS_ALIGNMENT - XDS_ALIGNMENT) cuda path
    (StreamState w [] sched) Hw) as Hr.
  by destruct (roundtrip dds base XDS_ALIGNMENT _ cuda path _) as [r s].
Qed.

End hip_kept.

(** ** The pools a construction adds *)

Section construction.
Context {HL : HyFileLib} {HLF : HyFileFrames}.
Context {Dt : Type} `{!TorchDtype Dt} {pool P : Type}.
#[local] Abbreviation request := (list Z * Dt * MemoryFormat)%type.
Context {PO : PoolOps pool request} {CO : CuFileOps pool request}.
Context (get_cache_policy : string -> result P).
Context (cfg : lm_config) (md : lm_metadata Dt) (pf : platform) (dst_device : string) (local_cpu_backend : bool).
Context (outside : Z -> Z) (Houtside : forall b, 0 <= outside b) (Hhyfile : torch_cuda pf = false).
#[local] Abbreviation pools_ok := (pools_ok outside).
#[local] Abbreviation process := (process pool).
#[local] Abbreviation backend := (xds_backend P).
#[local] Abbreviation node := (node (pool := pool) (P := P)).
Implicit Types (p : process) (b : backend).

(** The pools [mine] were added to those of [p0] and are in service; others that were added are
    released. Only the preflight's temporary file may differ. *)
Record grown p0 (temps : list string) (mine : list Z) p : Prop := {
  g_ok : pools_ok p;
  g_old : forall id, id < p_next p0 -> p_pools p !! id = p_pools p0 !! id;
  g_next : p_next p0 <= p_next p;
  g_active : p_active p = p_active p0 + Z.of_nat (length mine);
  g_mine : forall id, id ∈ mine -> p_next p0 <= id /\ exists a, p_pools p !! id = Some a /\ in_service a;
  g_others : forall id a, p_next p0 <= id -> id ∉ mine -> p_pools p !! id = Some a -> ha_counted a = false /\ ha_pool a = None;
  g_nodup : NoDup mine;
  g_files : forall q, q ∉ temps -> files (p_world p) !! q = files (p_world p0) !! q;
  g_fds : fds (p_world p) = fds (p_world p0) /\ fresh (p_world p0) <= fresh (p_world p);
}.

Lemma grown_start p0 temps : pools_ok p0 -> grown p0 temps [] p0.
Proof.
  intros Hok. assert (forall id, id ∈ @nil Z -> p_next p0 <= id /\ exists a, p_pools p0 !! id = Some a /\ in_service a) as Hm
    by (by intros id Hid%elem_of_nil).
  split; try done; try (simpl; lia).
  - intros id a Hid _ Ha. pose proof (po_next _ _ Hok _ _ Ha). lia.
  - apply NoDup_nil_2.
Qed.

(** The driver is open while there are pools. *)
Lemma grown_open p0 temps mine p : grown p0 temps mine p -> mine <> [] -> driver_opened (hip (p_world p)) = true.
Proof.
  intros Hg Hm. apply (po_open _ _ (g_ok _ _ _ _ Hg)). rewrite (g_active _ _ _ _ Hg).
  pose proof (weight_nonneg counted (p_pools p0) counted_nonneg) as Hn.
  destruct mine as [|id mine]; [done|]. destruct (g_mine _ _ _ _ Hg id) as [_ (a & Ha & _ & _ & Hc)]; [left|].
  pose proof (weight_le counted (p_pools p) id a counted_nonneg Ha) as Hw. unfold counted in Hw at 1. rewrite Hc in Hw.
  rewrite <- (po_active _ _ (g_ok _ _ _ _ Hg)), (g_active _ _ _ _ Hg) in Hw. lia.
Qed.

(** The world changes outside the driver. *)
Lemma grown_world p0 temps mine p w :
  grown p0 temps mine p -> hip w = hip (p_world p) ->
  (forall q, q ∉ temps -> files w !! q = files (p_world p) !! q) ->
  fds w = fds (p_world p) -> fresh (p_world p) <= fresh w -> grown p0 temps mine (with_world w p).
Proof.
  intros [[H1 H2 H3 H4 H5 H6] Ho Hn Ha Hm Hot Hnd Hf [Hd Hfr]] Hw Hf' Hd' Hfr'. split; try done.
  - split; simpl; try done; [|by rewrite Hw|by rewrite Hw].
    unfold driver_ok, hip_inv, loaded in *. by rewrite Hw.
  - intros q Hq. simpl. by rewrite Hf', Hf.
  - simpl. split; [congruence|lia].
Qed.

(** A pool of ours changes its free memory only. *)
Lemma grown_update p0 temps mine p id a pl :
  grown p0 temps mine p -> id ∈ mine -> p_pools p !! id = Some a ->
  grown p0 temps mine (with_pools (<[id := HyAlloc (ha_size a) (ha_closed a) (ha_registered a) (ha_counted a)
    (ha_base a) (Some pl)]> (p_pools p)) (p_next p) p).
Proof.
  intros [Hok Ho Hn Ha Hm Hot Hnd Hf Hd] Hid Hp. destruct (Hm _ Hid) as [Hge (a' & Hp' & Hrdy)].
  assert (a' = a) as -> by congruence. split; try done.
  - apply (pools_ok_update outside p id a); try done. destruct (po_alloc _ _ Hok _ _ Hp) as (H1 & H2 & H3).
    destruct Hrdy as (Hc & Hr & Hcn). split; [exact H1|]. split; simpl; intros.
    + split; [done|by eexists].
    + congruence.
  - intros i Hi. simpl. rewrite lookup_insert_ne by lia. auto.
  - intros i Hi. destruct (Hm i Hi) as [Hgi Hai]. split; [done|]. simpl.
    destruct (decide (id = i)) as [<-|Hne]; [|by rewrite lookup_insert_ne].
    rewrite lookup_insert_eq. by eexists.
  - intros i x Hi Hni. simpl. rewrite lookup_insert_ne by (intros ->; done). by apply Hot.
Qed.

Lemma grown_new p0 temps mine p size :
  grown p0 temps mine p ->
  exists p', (new_allocator "hyfile" size p = (Ok (HyPool (p_next p)), p')
      /\ exists base, p_pools p' = <[p_next p := HyAlloc size false true true (Some base) (Some (pool_new size 4096))]> (p_pools p)
        /\ grown p0 temps (p_next p :: mine) p')
    \/ exists e, new_allocator "hyfile" size p = (Raise e, p') /\ grown p0 temps mine p'.
Proof.
  intros [Hok Ho Hn Ha Hm Hot Hnd Hf [Hd Hfr]].
  assert (forall i, i ∈ mine -> i < p_next p) as Hlt.
  { intros i Hi. destruct (Hm i Hi) as [_ (a & Hp & _)]. by apply (po_next _ _ Hok _ _ Hp). }
  unfold new_allocator. rewrite String.eqb_refl.
  destruct (hyfile_new_run outside size p Hok) as [p' [(E & base & Hc)|(e & E & Hr)]]; exists p'.
  - left. rewrite (run_bind _ _ _ _ _ E). split; [done|]. exists base.
    destruct Hc as [Hok' Hact Hp Hnx Hi (Q1 & Q2 & Q3 & Q4) Hrf].
    split; [exact Hp|]. split; try done.
    + intros i Hi'. rewrite Hp, lookup_insert_ne by lia. auto.
    + lia.
    + rewrite Hact, Ha. simpl. lia.
    + intros i [->|Hi']%elem_of_cons.
      * split; [lia|]. rewrite Hp, lookup_insert_eq. by eexists.
      * destruct (Hm i Hi') as [Hgi Hai]. split; [done|]. rewrite Hp, lookup_insert_ne; [done|]. specialize (Hlt i Hi'). lia.
    + intros i x Hge [Hne Hni]%not_elem_of_cons. rewrite Hp, lookup_insert_ne by done. by apply Hot.
    + apply NoDup_cons_2; [|done]. intros Hi'%Hlt. lia.
    + intros q Hq. rewrite Q1. auto.
    + split; [congruence|lia].
  - right. exists e. rewrite (run_bind_raise _ _ _ _ _ E). split; [done|].
    destruct Hr as [Hok' Hact (a & Hp & Hidle & Hnone) Hnx Hi (Q1 & Q2 & Q3 & Q4) Hrf Hdr]. split; try done.
    + intros i Hi'. rewrite Hp, lookup_insert_ne by lia. auto.
    + lia.
    + by rewrite Hact, Ha.
    + intros i Hi'. destruct (Hm i Hi') as [Hgi Hai]. split; [done|].
      rewrite Hp, lookup_insert_ne; [done|]. specialize (Hlt i Hi'). lia.
    + intros i x Hge Hni. rewrite Hp. intros [[<- <-]|[Hne Hx]]%lookup_insert_Some; [by destruct Hidle as (?&?&?)|].
      by apply (Hot i).
    + intros q Hq. rewrite Q1. auto.
    + split; [congruence|lia].
Qed.

Lemma grown_close p0 temps id mine p :
  releases -> grown p0 temps (id :: mine) p ->
  exists p', Allocator.close id p = (Ok tt, p') /\ grown p0 temps mine p'.
Proof.
  intros Hrel [Hok Ho Hn Ha Hm Hot Hnd Hf [Hd Hfr]].
  destruct (Hm id) as [Hge (a & Hp & Hrdy)]; [left|]. pose proof (NoDup_cons_1_1 _ _ Hnd) as Hni. apply NoDup_cons_1_2 in Hnd.
  destruct (close_accepted outside Houtside id a p Hrel Hok Hp) as (p' & E & [Hok' (a' & Hp' & Hcl & Hb & Hr) Hnx Hi (Q1 & Q2 & Q3 & Q4) Hdr]).
  destruct (Hr eq_refl) as [(_ & _ & Hun) Hnone]. exists p'. split; [done|]. split; try done.
  - intros i Hi'. rewrite Hp', lookup_insert_ne by lia. auto.
  - by rewrite Hnx.
  - rewrite (po_active _ _ Hok'), Hp', (weight_update _ _ _ a) by done.
    rewrite <- (po_active _ _ Hok), Ha. unfold counted. destruct Hrdy as (_ & _ & ->). rewrite Hun. simpl. lia.
  - intros i Hi'. destruct (Hm i) as [Hgi Hai]; [by right|]. split; [done|]. rewrite Hp', lookup_insert_ne; [done|].
    by intros ->.
  - intros i x Hgi Hnm. rewrite Hp'. intros [[<- <-]|[Hne Hx]]%lookup_insert_Some; [done|]. apply (Hot i); try done.
    by apply not_elem_of_cons.
  - intros q Hq. rewrite Q1. auto.
  - split; [congruence|lia].
Qed.

Lemma grown_allocate p0 temps mine p id a pl req :
  grown p0 temps mine p -> id ∈ mine -> p_pools p !! id = Some a -> ha_pool a = Some pl ->
  exists p', Allocator.allocate id req p = (Ok (pool_allocate req pl).1, p') /\ grown p0 temps mine p'
    /\ p_pools p' = <[id := HyAlloc (ha_size a) (ha_closed a) (ha_registered a) (ha_counted a) (ha_base a)
                       (Some (pool_allocate req pl).2)]> (p_pools p).
Proof.
  intros Hg Hid Hp Hpl. destruct (g_mine _ _ _ _ Hg id Hid) as [_ (a' & Hp' & Hcl & _)].
  assert (a' = a) as -> by congruence.
  eexists. split; [|split; [by apply (grown_update p0 temps mine p id a (pool_allocate req pl).2)|done]].
  unfold Allocator.allocate, ensure_open. erewrite run_bind; [by apply (on_pool_run id a p)|].
  by rewrite (run_bind _ _ _ _ _ (get_pool_run _ _ _ Hp)), Hcl.
Qed.

(** Filling a pool with zeros *)
Lemma grown_zero p0 temps mine p id a base :
  grown p0 temps mine p -> p_pools p !! id = Some a -> ha_base a = Some base ->
  exists w, allocator_zero (HyPool id) p = (Ok tt, with_world w p) /\ grown p0 temps mine (with_world w p).
Proof.
  intros Hg Hp Hb. unfold allocator_zero. rewrite (run_bind _ _ _ _ _ (get_pool_run _ _ _ Hp)), Hb.
  cbn [result_of_option]. rewrite (run_bind (st_lift (Ok base)) _ p base p) by done.
  eexists. split; [by apply on_driver_run|]. by apply (grown_world p0 temps mine p).
Qed.

Lemma grown_weaken p0 temps temps' mine p :
  (forall q, q ∈ temps -> q ∈ temps') -> grown p0 temps mine p -> grown p0 temps' mine p.
Proof. intros Hsub [Hok Ho Hn Ha Hm Hot Hnd Hf Hd]. split; try done. intros q Hq. apply Hf. auto. Qed.

(** The preflight over a pool *)
Lemma grown_preflight p0 mine p dds base numel :
  grown p0 [] mine p -> mine <> [] -> fds_below (p_world p0) -> files (p_world p0) !! mkstemp_name pf = None ->
  exists r w, on_driver (verify_hyfile_roundtrip dds base numel true (preflight_schedule pf) (mkstemp_name pf)) p
      = (r, with_world w p) /\ grown p0 [mkstemp_name pf] mine (with_world w p)
    /\ (r = Ok tt -> grown p0 [] mine (with_world w p) /\ 2 * XDS_ALIGNMENT <= numel
         /\ accepted dds base (mkstemp_name pf) (p_world p) w).
Proof.
  intros Hg Hm Hb Hnew. pose proof (g_fds _ _ _ _ Hg) as [Hd Hfr].
  rewrite <- (g_files _ _ _ _ Hg) in Hnew by by intros ?%elem_of_nil.
  assert (fds_below (p_world p)) as Hbp by (intros fd; rewrite Hd; intros Hfd%Hb; lia).
  pose proof (verify_run dds base numel true (preflight_schedule pf) (mkstemp_name pf) (p_world p) Hnew Hbp) as Hv.
  pose proof (grown_open _ _ _ _ Hg Hm) as Hopen.
  destruct (po_driver _ _ (g_ok _ _ _ _ Hg)) as [_ Hl]. specialize (Hl Hopen).
  pose proof (verify_hip (hip (p_world p)) Hopen Hl dds base numel true (preflight_schedule pf) (mkstemp_name pf)
    (p_world p) eq_refl) as Hh.
  destruct (verify_hyfile_roundtrip _ _ _ _ _ _ (p_world p)) as [r w] eqn:E.
  destruct Hv as ((Hf & Hd' & Hn' & _) & Hgone & Hok). exists r, w. split; [by apply on_driver_run|].
  split.
  { apply (grown_world p0 _ mine p); [|done| |done|done].
    - eapply grown_weaken; [|exact Hg]. by intros q ?%elem_of_nil.
    - intros q Hq. apply Hf. intros ->. apply Hq. by left. }
  intros ->. destruct (Hok eq_refl) as [H1 H2]. split; [|done].
  apply (grown_world p0 [] mine p); [done|done| |done|done]. intros q _.
  destruct (decide (q = mkstemp_name pf)) as [->|Hq]; [|by apply Hf]. rewrite Hnew.
  destruct (files w !! mkstemp_name pf) eqn:Ef; [|done]. destruct Hgone as (e & He & _); [by eexists|done].
Qed.

(** ** The steps of [__init__] *)

#[local] Abbreviation acquire := (acquire (CO := CO) cfg md pf).
#[local] Abbreviation bring_up := (bring_up (CO := CO) md pf).

Lemma on_process_run {A} (m : ST process A) p b r p' :
  m p = (r, p') -> on_process m (Node p b) = (r, Node p' b).
Proof. intros H. unfold on_process. simpl. by rewrite H. Qed.

(** The backend once its interface is there *)
Definition acquired (s : xds_settings) (a : option memory_allocator) : backend :=
  XdsBackend P s (st_direct s) (Some "hyfile") a
    (Some (XdsHyFile (MkHyFileDDS (negb (no_allocator s)) (libhiprtc_present pf)) (st_io_profile s)))
    None None false [] None None false.

Definition inert : bool := lm_use_mla md && negb (lm_is_first_rank md).

Lemma initialize_allocator_run p0 size :
  pools_ok p0 -> lc_xds_buffer_size cfg = Some size ->
  exists p, (initialize_allocator cfg md "hyfile" p0 = (Ok None, p) /\ inert = true /\ p = p0)
    \/ (initialize_allocator cfg md "hyfile" p0 = (Ok (Some (HyPool (p_next p0))), p) /\ inert = false
         /\ exists base, p_pools p !! p_next p0 = Some (HyAlloc (size * 1024 ^ 2) false true true (Some base)
                          (Some (pool_new (size * 1024 ^ 2) 4096))) /\ grown p0 [] [p_next p0] p)
    \/ exists e, initialize_allocator cfg md "hyfile" p0 = (Raise e, p) /\ grown p0 [] [] p.
Proof.
  intros Hok Hs. unfold initialize_allocator. rewrite Hs.
  cbn [result_of_option]. rewrite (run_bind (st_lift (Ok size)) _ p0 size p0) by done. fold inert.
  destruct inert; [exists p0; by left|].
  destruct (grown_new p0 [] [] p0 (size * 1024 ^ 2) (grown_start p0 [] Hok)) as [p [(E & base & Hp & Hg)|(e & E & Hg)]]; exists p; right.
  - left. rewrite (run_bind _ _ _ _ _ E). split; [done|]. split; [done|]. exists base. by rewrite Hp, lookup_insert_eq.
  - right. exists e. by rewrite (run_bind_raise _ _ _ _ _ E).
Qed.

Lemma acquire_run p0 s :
  pools_ok p0 -> (no_allocator s = false -> exists size, lc_xds_buffer_size cfg = Some size) ->
  exists p a, grown p0 [] (match a with Some _ => [p_next p0] | None => [] end) p
    /\ ((acquire s (Node p0 (blank s)) = (Ok tt, Node p (acquired s ((fun _ => HyPool (p_next p0)) <$> a)))
          /\ (a = None -> no_allocator s = true \/ no_allocator s = false /\ inert = true)
          /\ forall base, a = Some base -> no_allocator s = false /\ inert = false /\ exists size, lc_xds_buffer_size cfg = Some size
              /\ p_pools p !! p_next p0 = Some (HyAlloc (size * 1024 ^ 2) false true true (Some base)
                                                 (Some (pool_new (size * 1024 ^ 2) 4096))))
        \/ a = None /\ exists e b, acquire s (Node p0 (blank s)) = (Raise e, Node p b)).
Proof.
  intros Hok Hsize. unfold XdsLifecycle.acquire, check_environment. rewrite Hhyfile.
  rewrite (run_bind (modify_self _) _ _ tt _) by reflexivity. cbn [n_process n_self String.eqb Ascii.eqb Bool.eqb negb].
  rewrite andb_false_r. rewrite (run_bind (mret tt) _ _ tt _) by reflexivity.
  set (b1 := set_interface (Some "hyfile") (blank s)). cbn [n_process n_self].
  assert (exists p a, grown p0 [] (match a with Some _ => [p_next p0] | None => [] end) p
    /\ (((if no_allocator s then mret None else on_process (initialize_allocator cfg md "hyfile")) (Node p0 b1)
            = (Ok ((fun _ => HyPool (p_next p0)) <$> a), Node p b1)
          /\ (a = None -> no_allocator s = true \/ no_allocator s = false /\ inert = true)
          /\ forall base, a = Some base -> no_allocator s = false /\ inert = false /\ exists size, lc_xds_buffer_size cfg = Some size
              /\ p_pools p !! p_next p0 = Some (HyAlloc (size * 1024 ^ 2) false true true (Some base)
                                                 (Some (pool_new (size * 1024 ^ 2) 4096))))
        \/ a = None /\ exists e, (if no_allocator s then mret None else on_process (initialize_allocator cfg md "hyfile")) (Node p0 b1)
            = (Raise e, Node p b1))) as (p & a & Hg & Hcase).
  { destruct (no_allocator s); cbv iota.
    - exists p0, None. split; [by apply grown_start|]. left. split; [done|]. split; [by left|done].
    - destruct (Hsize eq_refl) as [size Hs].
      destruct (initialize_allocator_run p0 size Hok Hs) as [p [(E & Hin & ->)|[(E & Hin & base & Hp & Hg)|(e & E & Hg)]]].
      + exists p0, None. split; [by apply grown_start|]. left. rewrite (on_process_run _ _ _ _ _ E). split; [done|].
        split; [by right|done].
      + exists p, (Some base). split; [done|]. left. rewrite (on_process_run _ _ _ _ _ E). split; [done|]. split; [done|].
        intros ? [= <-]. split; [done|]. split; [done|]. by exists size.
      + exists p, None. split; [done|]. right. split; [done|]. exists e. by rewrite (on_process_run _ _ _ _ _ E). }
  exists p, a. split; [done|]. destruct Hcase as [(E & H1 & H2)|(-> & e & E)].
  - left. rewrite (run_bind _ _ _ _ _ E). split; [|done]. clear. unfold create_xds_interface.
    unfold acquired, set_allocator, set_xds, set_interface, modify_self, st_modify, on_process, mret, ST_ret, mbind, ST_bind. simpl.
    by destruct (no_allocator s).
  - right. split; [done|]. exists e, b1. by rewrite (run_bind_raise _ _ _ _ _ E).
Qed.

(** A staging pool: sized for one padded chunk, its object allocated in it *)
Definition staging_made p (id obj : Z) : Prop := exists bs shape dt payload size base pl,
  lm_block_size md = Some bs /\ lm_shapes md = [shape] /\ lm_dtypes md = [dt]
  /\ block_first_shape shape bs = Ok payload
  /\ align_up (prodZ payload * itemsize dt) BLOCK_FIRST_ALIGNMENT = Ok size
  /\ p_pools p !! id = Some (HyAlloc size false true true (Some base) (Some pl))
  /\ pool_allocate (payload, dt, OtherFormat "UNDEFINED") (pool_new size 4096) = (Some obj, pl).

Lemma py_index_single {A} (l : list A) x : (length l =? 1)%nat = true -> py_index l 0 = Ok x -> l = [x].
Proof. intros Hl Hx. destruct l as [|y [|z l]]; try done. by injection Hx as ->. Qed.

#[local] Abbreviation initialize_staging :=
  (initialize_block_first_staging (P := P) (CO := CO) md "hyfile").

(** Outcomes of the staging initialization over a pool [id] *)
Definition staging_outcome p0 id p b (r : result unit) (n : node) : Prop :=
  match r with
  | Ok _ => exists p' obj, n = Node p' (set_staging (Some (HyPool (p_next p), obj)) b)
      /\ grown p0 [] [p_next p; id] p' /\ staging_made p' (p_next p) obj
      /\ p_pools p' !! id = p_pools p !! id
  | Raise e => exists p', n = Node p' b /\ pools_ok p' /\ (releases -> grown p0 [] [id] p')
  end.

Lemma staging_fails p0 id p b e : grown p0 [] [id] p -> staging_outcome p0 id p b (Raise e) (Node p b).
Proof. intros Hg. exists p. split; [done|]. split; [apply Hg|done]. Qed.

Lemma staging_run p0 id p b :
  grown p0 [] [id] p -> id <> p_next p ->
  exists r n, initialize_staging (Node p b) = (r, n) /\ staging_outcome p0 id p b r n.
Proof.
  intros Hg Hne. unfold initialize_block_first_staging.
  pose proof (staging_fails p0 id p b) as Hfail.
  destruct (lm_block_size md) as [bs|] eqn:Ebs; [|by eexists _, _; split; [done|apply Hfail]].
  erewrite run_bind by reflexivity.
  destruct ((length (lm_shapes md) =? 1)%nat && (length (lm_dtypes md) =? 1)%nat) eqn:El;
    [|by eexists _, _; split; [done|apply Hfail]].
  erewrite run_bind by reflexivity. apply andb_true_iff in El as [El1 El2].
  destruct (py_index (lm_shapes md) 0) as [shape|] eqn:Es; [|by eexists _, _; split; [done|apply Hfail]].
  erewrite run_bind by reflexivity.
  destruct (py_index (lm_dtypes md) 0) as [dt|] eqn:Ed; [|by eexists _, _; split; [done|apply Hfail]].
  erewrite run_bind by reflexivity.
  destruct (block_first_shape shape bs) as [payload|] eqn:Ep; [|by eexists _, _; split; [done|apply Hfail]].
  erewrite run_bind by reflexivity.
  destruct (align_up (prodZ payload * itemsize dt) BLOCK_FIRST_ALIGNMENT) as [size|] eqn:Ea;
    [|by eexists _, _; split; [done|apply Hfail]].
  erewrite run_bind by reflexivity.
  destruct (grown_new p0 [] [id] p size Hg) as [p1 [(E & base & Hp & Hg1)|(e & E & Hg1)]].
  2:{ rewrite (run_bind_raise _ _ _ _ _ (on_process_run _ _ _ _ _ E)). eexists _, _. split; [done|].
      exists p1. split; [done|]. split; [apply Hg1|done]. }
  rewrite (run_bind _ _ _ _ _ (on_process_run _ _ _ _ _ E)). clear E.
  set (id' := p_next p) in *.
  assert (p_pools p1 !! id' = Some (HyAlloc size false true true (Some base) (Some (pool_new size 4096)))) as Hp1
    by (rewrite Hp; apply lookup_insert_eq).
  destruct (grown_allocate p0 [] [id'; id] p1 id' _ (pool_new size 4096) (payload, dt, OtherFormat "UNDEFINED") Hg1
    ltac:(by left) Hp1 eq_refl) as (p2 & E & Hg2 & Hp2). cbn [ha_size ha_closed ha_registered ha_counted ha_base] in Hp2.
  rewrite (run_bind _ _ _ _ _ (on_process_run (allocator_allocate (HyPool id') _) _ _ _ _ E)). clear E.
  destruct (pool_allocate (payload, dt, OtherFormat "UNDEFINED") (pool_new size 4096)) as [[obj|] pl] eqn:Eal; simpl in Hp2 |- *.
  - assert (p_pools p2 !! id' = Some (HyAlloc size false true true (Some base) (Some pl))) as Hid2
      by (rewrite Hp2; apply lookup_insert_eq).
    destruct (grown_zero p0 [] [id'; id] p2 id' _ base Hg2 Hid2 eq_refl) as (w & E & Hg3).
    rewrite (run_bind _ _ _ _ _ (on_process_run _ _ _ _ _ E)). eexists (Ok tt), _. split; [done|].
    exists (with_world w p2), obj. split; [done|]. split; [done|]. split.
    + by exists bs, shape, dt, payload, size, base, pl; split_and!; try done; apply py_index_single.
    + simpl. rewrite Hp2, lookup_insert_ne, Hp, lookup_insert_ne by congruence. done.
  - assert (p_pools p2 !! id' = Some (HyAlloc size false true true (Some base) (Some pl))) as Hid2
      by (rewrite Hp2; apply lookup_insert_eq).
    destruct (close_run outside Houtside id' _ p2 (g_ok _ _ _ _ Hg2) Hid2) as (r & p3 & E & Hc).
    destruct r as [[]|e].
    + rewrite (run_bind _ _ _ _ _ (on_process_run (allocator_close (HyPool id')) _ _ _ _ E)).
      eexists _, _. split; [done|]. exists p3. split; [done|]. split; [apply Hc|]. intros Hrel.
      destruct (grown_close p0 [] id' [id] p2 Hrel Hg2) as (p4 & E4 & Hg4). congruence.
    + rewrite (run_bind_raise _ _ _ _ _ (on_process_run (allocator_close (HyPool id')) _ _ _ _ E)).
      eexists _, _. split; [done|]. exists p3. split; [done|]. split; [apply Hc|]. intros Hrel.
      destruct (grown_close p0 [] id' [id] p2 Hrel Hg2) as (p4 & E4 & Hg4). congruence.
Qed.

#[local] Abbreviation temp := (mkstemp_name pf).

(** The driver moves without a pool of ours. *)
Lemma grown_moves p0 temps mine p w o :
  grown p0 temps mine p -> moves (p_world p) w o none -> (0 < p_active p -> o = true) ->
  grown p0 temps mine (with_world w p).
Proof.
  intros [Hok Ho Hn Ha Hm Hot Hnd Hf [Hd Hfr]] Hmv Hact. pose proof Hmv as ((Q1 & Q2 & Q3 & Q4) & _). split; try done.
  - by eapply pools_ok_world.
  - intros q Hq. simpl. rewrite Q1. auto.
  - simpl. split; [congruence|lia].
Qed.

(** The [try] body over a pool *)
Definition brought_up p0 s id (x : hyfile_allocator pool) (base : Z) (r : result unit) (n : node) : Prop :=
  match r with
  | Ok _ => exists p st, n = Node p (set_staging st (set_base_pointer (Some base) (acquired s (Some (HyPool id)))))
      /\ p_pools p !! id = Some x /\ 2 * XDS_ALIGNMENT <= ha_size x
      /\ (exists w w', accepted (MkHyFileDDS (negb (no_allocator s)) (libhiprtc_present pf)) base temp w w')
      /\ (if st_block_first s && negb (st_direct_only s)
          then exists id' obj, st = Some (HyPool id', obj) /\ grown p0 [] [id'; id] p /\ staging_made p id' obj
          else st = None /\ grown p0 [] [id] p)
  | Raise e => exists p b, n = Node p b /\ b_staging b = None /\ b_driver_owned b = false
      /\ b_allocator b = Some (HyPool id) /\ pools_ok p /\ (releases -> grown p0 [temp] [id] p)
  end.

Lemma bring_up_pool p0 s id p x base :
  grown p0 [] [id] p -> p_pools p !! id = Some x -> ha_base x = Some base ->
  fds_below (p_world p0) -> files (p_world p0) !! temp = None ->
  exists r n, bring_up s (Node p (acquired s (Some (HyPool id)))) = (r, n) /\ brought_up p0 s id x base r n.
Proof.
  intros Hg Hx Hb Hfds Hnew. unfold XdsLifecycle.bring_up.
  erewrite run_bind by reflexivity. cbn [n_self b_allocator acquired].
  assert (allocator_base_pointer (CO := CO) (HyPool id) p = (Ok base, p)) as E.
  { unfold allocator_base_pointer. by rewrite (run_bind _ _ _ _ _ (get_pool_run _ _ _ Hx)), Hb. }
  rewrite (run_bind _ _ _ _ _ (on_process_run _ _ _ _ _ E)). clear E.
  erewrite run_bind by reflexivity. cbn [n_self n_process b_interface acquired].
  rewrite bool_decide_eq_true_2 by done. set (b1 := set_base_pointer (Some base) _).
  assert (preflight pf (HyPool id) (Node p b1)
    = on_process (on_driver (verify_hyfile_roundtrip (MkHyFileDDS (negb (no_allocator s)) (libhiprtc_present pf)) base
        (ha_size x) true (preflight_schedule pf) temp)) (Node p b1)) as E.
  { unfold preflight. erewrite run_bind by reflexivity. cbn [n_self b_xds b1 set_base_pointer acquired].
    rewrite (run_bind _ _ _ _ _ (on_process_run _ _ _ _ _ (get_pool_run _ _ _ Hx))), Hb.
    by erewrite run_bind by reflexivity. }
  destruct (grown_preflight p0 [id] p (MkHyFileDDS (negb (no_allocator s)) (libhiprtc_present pf)) base (ha_size x) Hg)
    as (r & w & Ev & Hgw & Hok); [done..|].
  rewrite (on_process_run _ _ _ _ _ Ev) in E. clear Ev. destruct r as [[]|e].
  2:{ rewrite (run_bind_raise _ _ _ _ _ E). eexists _, _. split; [done|]. exists (with_world w p), b1.
      do 4 (split; [done|]). split; [apply Hgw|done]. }
  rewrite (run_bind _ _ _ _ _ E). clear E. destruct (Hok eq_refl) as (Hg1 & Hlen & Hacc).
  assert (id <> p_next (with_world w p)) as Hne.
  { pose proof (po_next _ _ (g_ok _ _ _ _ Hg) _ _ Hx). simpl. lia. }
  unfold brought_up. destruct (st_block_first s && negb (st_direct_only s)).
  2:{ eexists (Ok tt), _. split; [done|]. exists (with_world w p), None. split; [done|]. split; [done|]. split; [done|].
      split; [by eexists _, w|done]. }
  unfold check_environment. rewrite Hhyfile.
  destruct (staging_run p0 id (with_world w p) b1 Hg1 Hne) as (r & n & Es & Hs). exists r, n. split; [done|].
  destruct r as [[]|e].
  - destruct Hs as (p' & obj & -> & Hg2 & Hmade & Hsame). exists p', (Some (HyPool (p_next p), obj)). split; [done|].
    split; [by rewrite Hsame|]. split; [done|]. split; [by eexists _, w|]. by exists (p_next p), obj.
  - destruct Hs as (p' & -> & Hok' & Hrel). exists p', b1. do 4 (split; [done|]). split; [done|].
    intros Hr. eapply grown_weaken; [|by apply Hrel]. by intros q ?%elem_of_nil.
Qed.

(** Without a pool: the direct modes open the driver themselves. *)
Lemma bring_up_direct p0 s p :
  grown p0 [] [] p -> exists r w, grown p0 [] [] (with_world w p)
    /\ bring_up s (Node p (acquired s None)) = (r, Node (with_world w p)
         (match r with Ok _ => if st_direct s then set_driver_owned true (acquired s None) else acquired s None
                     | Raise _ => acquired s None end))
    /\ (r = Ok tt -> st_direct s = true -> driver_opened (hip w) = true).
Proof.
  intros Hg. unfold XdsLifecycle.bring_up. erewrite run_bind by reflexivity. cbn [n_self b_allocator b_direct_enabled acquired].
  destruct (st_direct s).
  2:{ exists (Ok tt), (p_world p). destruct p. done. }
  pose proof (g_ok _ _ _ _ Hg) as Hok.
  destruct (init_driver_moves (p_world p) (po_driver _ _ Hok)) as [w [(E & Hm)|(e & E & Hm)]].
  - exists (Ok tt), w. rewrite (run_bind _ _ _ _ _ (on_process_run _ _ _ _ _ (on_driver_run _ _ _ _ E))).
    split; [by eapply grown_moves|]. split; [done|]. intros _ _. apply Hm.
  - exists (Raise e), w. rewrite (run_bind_raise _ _ _ _ _ (on_process_run _ _ _ _ _ (on_driver_run _ _ _ _ E))).
    split; [|done]. eapply grown_moves; [done|exact Hm|]. apply (po_open _ _ Hok).
Qed.

(** The handler, which never returns *)
Lemma tear_down_run p b e :
  b_staging b = None -> b_driver_owned b = false ->
  (b_allocator b = None -> tear_down (CO := CO) e (Node p b) = (Raise e, Node p (set_staging None b)))
  /\ (forall id, b_allocator b = Some (HyPool id) ->
       exists r p', Allocator.close id p = (r, p')
         /\ tear_down (CO := CO) e (Node p b)
            = (Raise (match r with Ok _ => e | Raise e' => e' end), Node p' (set_staging None b))).
Proof.
  intros Hst Ho. unfold tear_down, close_block_first_staging.
  assert ((self ← get_self;
     match b_staging self with
     | Some (allocator, obj) =>
         n ← st_get;
         (if obj_is_valid obj (n_process n) then on_process (allocator_free (CO := CO) allocator obj) else mret tt);;
         on_process (allocator_close (CO := CO) allocator)
     | None => mret tt
     end;;
     modify_self (set_staging None)) (Node p b) = (Ok tt, Node p (set_staging None b))) as E.
  { erewrite run_bind by reflexivity. cbn [n_self]. by rewrite Hst. }
  rewrite (run_bind _ _ _ _ _ E). clear E. erewrite run_bind by reflexivity. cbn [n_self b_driver_owned set_staging].
  rewrite Ho. erewrite run_bind by reflexivity. change (b_allocator (set_staging None b)) with (b_allocator b). split.
  - intros ->. done.
  - intros id ->. destruct (Allocator.close id p) as [r p'] eqn:E. exists r, p'. split; [done|].
    pose proof (on_process_run (allocator_close (CO := CO) (HyPool id)) p (set_staging None b) r p' E) as E'.
    destruct r as [[]|e']; [by rewrite (run_bind _ _ _ _ _ E')|by rewrite (run_bind_raise _ _ _ _ _ E')].
Qed.

(** What accepted settings guarantee *)
Record settings_ok (s : xds_settings) : Prop := {
  so_hybrid : st_cpu_store_direct_retrieve s = true -> st_cpu_store s = true /\ lc_xds_buffer_size cfg = None;
  so_cpu : st_cpu_store s = true -> local_cpu_backend = true
    /\ (lc_xds_buffer_size cfg = None -> st_cpu_store_direct_retrieve s = true);
  so_only : st_direct_only s = true -> st_direct s = true /\ lc_store_location cfg = Some "XdsBackend"
    /\ lc_enable_async_loading cfg = false;
  so_direct : st_direct s = true -> st_block_first s = true;
  so_block : st_block_first s = true -> lm_use_mla md = false /\ lc_use_layerwise cfg = false
    /\ (no_allocator s = false -> is_Some (lc_xds_buffer_size cfg))
    /\ exists bs, lm_block_size md = Some bs /\ 0 < bs /\ lm_chunk_size md mod bs = 0;
}.

Lemma should_enable_true :
  should_enable_block_first cfg md = Ok true ->
  lm_use_mla md = false /\ lc_use_layerwise cfg = false
  /\ (lc_xds_buffer_size cfg = None -> extra_flag (lc_extra_config cfg) "gds_direct_only" false
        || (extra_flag (lc_extra_config cfg) "xds_cpu_store" false
            && extra_flag (lc_extra_config cfg) "xds_direct_retrieve" false) = true)
  /\ exists bs, lm_block_size md = Some bs /\ 0 < bs /\ lm_chunk_size md mod bs = 0.
Proof.
  unfold should_enable_block_first. destruct (negb (extra_flag (lm_kv_extra_config md) _ _)); [done|].
  destruct (py_index (lm_kv_shape md) 1) as [kv1|]; [|done]. simpl. intros [= H].
  apply negb_true_iff in H. repeat (apply orb_false_iff in H as [H ?]).
  split; [done|]. split; [done|]. split.
  - intros Hn. rewrite Hn, bool_decide_eq_true_2 in * by done. simpl in *. by apply negb_false_iff.
  - destruct (lm_block_size md) as [bs|]; [|done].
    match goal with Hb : (_ <=? 0) || _ = false |- _ => apply orb_false_iff in Hb as [? Hm%negb_false_iff] end.
    exists bs. split; [done|]. split; lia.
Qed.

Lemma xds_settings_ok s : xds_settings_of cfg md dst_device local_cpu_backend = Ok s -> settings_ok s.
Proof.
  unfold xds_settings_of. intros H. res_inv. subst s.
  match goal with H : should_enable_block_first cfg md = Ok _ |- _ => rename H into Hbf end.
  set (cpu := extra_flag (lc_extra_config cfg) "xds_cpu_store" false) in *.
  set (ret := extra_flag (lc_extra_config cfg) "xds_direct_retrieve" false) in *.
  set (only := extra_flag (lc_extra_config cfg) "gds_direct_only" false) in *.
  assert (x = true -> lm_use_mla md = false /\ lc_use_layerwise cfg = false
    /\ (lc_xds_buffer_size cfg = None -> only || (cpu && ret) = true)
    /\ exists bs, lm_block_size md = Some bs /\ 0 < bs /\ lm_chunk_size md mod bs = 0) as Hx
    by (intros ->; by apply should_enable_true).
  clear Hbf. unfold no_allocator. clearbody cpu ret only.
  split; cbn [st_cpu_store st_cpu_store_direct_retrieve st_direct_only st_direct st_block_first].
  - intros Hb. rewrite Hb in H3. apply andb_true_iff in Hb as [-> _]. split; [done|].
    destruct (lc_xds_buffer_size cfg); [|done]. by rewrite bool_decide_eq_true_2 in H3.
  - intros ->. split; [by destruct local_cpu_backend|]. intros Hb. rewrite Hb in H2. by destruct ret.
  - intros ->. split; [by apply negb_false_iff|]. split; [|done]. simpl in H7. by apply negb_false_iff, bool_decide_eq_true in H7.
  - by intros [? _]%andb_true_iff.
  - intros Hb. destruct (Hx Hb) as (? & ? & Hn & ?). do 2 (split; [done|]). split; [|done].
    intros Hf. destruct (lc_xds_buffer_size cfg); [done|]. specialize (Hn eq_refl). unfold no_allocator in Hf. cbn in Hf. congruence.
Qed.

(** *** The result of [__init__] *)

(** What [finish_init] needs: a known policy, a number of threads, a running loop *)
Definition tail_accepted : Prop :=
  (exists pol, get_cache_policy (lc_cache_policy cfg) = Ok pol)
  /\ (exists threads, thread_pool_workers (extra_get (lc_extra_config cfg) "xds_io_threads" (OptInt 4)) = Ok threads)
  /\ loop_open pf = true.

Definition tail_is b : Prop := exists pol threads,
  get_cache_policy (lc_cache_policy cfg) = Ok pol
  /\ thread_pool_workers (extra_get (lc_extra_config cfg) "xds_io_threads" (OptInt 4)) = Ok threads
  /\ b_tail b = Some {|
       tl_direct_store := st_direct (b_settings b) && negb (st_cpu_store (b_settings b));
       tl_direct_retrieve := st_direct (b_settings b);
       tl_fmt := if lm_use_mla md then KV_MLA_FMT else GpuConnector.KV_2LTD;
       tl_policy := pol;
       tl_threads := threads;
       tl_world_id := lm_worker_id md;
       tl_world_size := if lm_use_mla md then 1 else lm_world_size md;
       tl_max_xds_size := (fun '(a, b) => Z.quot (a * 1024 ^ 3) (Zpos b)) <$> lc_max_xds_size cfg
     |}.

(** The four ways a backend can be: over the local CPU backend and POSIX files; inert, on the
    ranks that share another's latent cache; direct, with the driver and no memory of its own;
    over a pool of its own that has passed the preflight, with a staging pool when the disk
    layout is block-first *)
Inductive backend_mode p0 b p : Prop :=
  | PosixMode :
      lc_xds_buffer_size cfg = None -> local_cpu_backend = true -> st_direct (b_settings b) = false ->
      b_allocator b = Some LocalCPU -> b_xds b = Some (XdsPosix (f_bsize pf)) ->
      b_staging b = None -> b_driver_owned b = false -> grown p0 [] [] p -> backend_mode p0 b p
  | InertMode :
      inert = true -> st_direct (b_settings b) = false -> b_allocator b = None ->
      b_staging b = None -> b_driver_owned b = false -> grown p0 [] [] p -> backend_mode p0 b p
  | DirectMode :
      no_allocator (b_settings b) = true -> st_direct (b_settings b) = true -> b_allocator b = None ->
      b_xds b = Some (XdsHyFile (MkHyFileDDS false (libhiprtc_present pf)) (st_io_profile (b_settings b))) ->
      b_staging b = None -> b_driver_owned b = true -> driver_opened (hip (p_world p)) = true ->
      grown p0 [] [] p -> backend_mode p0 b p
  | PoolMode id size base :
      no_allocator (b_settings b) = false -> inert = false -> lc_xds_buffer_size cfg = Some size ->
      b_allocator b = Some (HyPool id) ->
      b_xds b = Some (XdsHyFile (MkHyFileDDS true (libhiprtc_present pf)) (st_io_profile (b_settings b))) ->
      b_base_pointer b = Some base ->
      p_pools p !! id = Some (HyAlloc (size * 1024 ^ 2) false true true (Some base) (Some (pool_new (size * 1024 ^ 2) 4096))) ->
      2 * XDS_ALIGNMENT <= size * 1024 ^ 2 ->
      (exists w w', accepted (MkHyFileDDS true (libhiprtc_present pf)) base temp w w') ->
      b_driver_owned b = false ->
      (if st_block_first (b_settings b)
       then exists id' obj, b_staging b = Some (HyPool id', obj) /\ id' <> id /\ staging_made p id' obj
              /\ grown p0 [] [id'; id] p
       else b_staging b = None /\ grown p0 [] [id] p) ->
      backend_mode p0 b p.

Record constructed p0 b p : Prop := {
  cn_settings : xds_settings_of cfg md dst_device local_cpu_backend = Ok (b_settings b);
  cn_ok : settings_ok (b_settings b);
  cn_idle : b_registrations b = [] /\ b_edge b = None /\ b_closed b = false;
  cn_direct : b_direct_enabled b = st_direct (b_settings b);
  cn_tail : tail_is b;
  cn_mode : backend_mode p0 b p;
}.

(** Everything but the tail *)
Definition opened p0 s b p : Prop :=
  b_settings b = s /\ (b_registrations b = [] /\ b_edge b = None /\ b_closed b = false)
  /\ b_direct_enabled b = st_direct s /\ backend_mode p0 b p.

(** Whatever was begun is released, if the driver lets go. *)
Definition undone p0 p : Prop := pools_ok p /\ (releases -> grown p0 [temp] [] p).

Lemma undone_grown p0 p : grown p0 [] [] p -> undone p0 p.
Proof. intros Hg. split; [apply Hg|]. intros _. eapply grown_weaken; [|exact Hg]. by intros q ?%elem_of_nil. Qed.

#[local] Abbreviation open_backend := (open_backend (CO := CO) cfg md pf local_cpu_backend).

Lemma use_posix_run p0 s :
  pools_ok p0 -> lc_xds_buffer_size cfg = None -> st_direct s = false ->
  exists r p b, use_posix (pool := pool) pf local_cpu_backend (Node p0 (blank s)) = (r, Node p b)
    /\ match r with Ok _ => opened p0 s b p | Raise _ => undone p0 p end.
Proof.
  intros Hok Hb Hd. unfold use_posix.
  destruct local_cpu_backend eqn:Hl; [|by exists (Raise AssertionError), p0, (blank s); split; [|apply undone_grown, grown_start]].
  erewrite run_bind by reflexivity. erewrite run_bind by reflexivity. cbn [n_process n_self].
  pose proof (may_fail_quiet (p_world p0)) as Hq. pose proof (may_fail_hip (hip (p_world p0)) (p_world p0) eq_refl) as Hh.
  destruct (may_fail (p_world p0)) as [r w] eqn:E.
  assert (grown p0 [] [] (with_world w p0)) as Hg.
  { assert (quiet_io (p_world p0) w) as (Q1 & Q2 & Q3 & Q4) by (destruct r; [done|by destruct Hq as (_ & Hq & _)]).
    apply (grown_world p0 [] [] p0); [by apply grown_start|done|by intros; rewrite Q1|done|done]. }
  pose proof (on_process_run (on_driver may_fail) p0 (set_allocator (Some LocalCPU) (blank s)) r (with_world w p0)
    (on_driver_run _ _ _ _ E)) as E'.
  destruct r as [[]|e].
  - rewrite (run_bind _ _ _ _ _ E'). exists (Ok tt), (with_world w p0), (set_xds (Some (XdsPosix (f_bsize pf))) (set_allocator (Some LocalCPU) (blank s))).
    split; [done|]. split; [done|]. split; [done|]. split; [done|]. by apply PosixMode.
  - rewrite (run_bind_raise _ _ _ _ _ E'). eexists _, _, _. split; [done|]. by apply undone_grown.
Qed.

#[local] Abbreviation tried := (fun s => st_catch any_exn (bring_up s) (tear_down (CO := CO))).

(** With a pool: brought up, or the pool is closed again *)
Lemma tried_pool p0 s p size base :
  settings_ok s -> no_allocator s = false -> inert = false -> lc_xds_buffer_size cfg = Some size ->
  grown p0 [] [p_next p0] p ->
  p_pools p !! p_next p0 = Some (HyAlloc (size * 1024 ^ 2) false true true (Some base) (Some (pool_new (size * 1024 ^ 2) 4096))) ->
  fds_below (p_world p0) -> files (p_world p0) !! temp = None ->
  exists r p' b, tried s (Node p (acquired s (Some (HyPool (p_next p0))))) = (r, Node p' b)
    /\ match r with Ok _ => opened p0 s b p' | Raise _ => undone p0 p' end.
Proof.
  intros Hs Hna Hin Hsize Hg Hp Hfds Hnew. set (id := p_next p0) in *.
  destruct (bring_up_pool p0 s id p _ base Hg Hp eq_refl Hfds Hnew) as (r & n & E & Hn).
  assert (st_direct_only s = false) as Honly by (by apply orb_false_iff in Hna as [? _]).
  unfold brought_up in Hn. rewrite Hna in Hn. destruct r as [[]|e].
  - rewrite (run_catch _ _ _ _ _ _ E). destruct Hn as (p' & st & -> & Hp' & Hlen & Hacc & Hst).
    eexists (Ok tt), _, _. split; [done|]. split; [done|]. split; [done|]. split; [done|].
    apply (PoolMode p0 _ p' id size base); try done.
    { simpl. by rewrite Hna. }
    cbn [b_settings acquired set_base_pointer set_staging]. rewrite Honly, andb_true_r in Hst.
    destruct (st_block_first s); [|done]. destruct Hst as (id' & obj & -> & Hg' & Hmade).
    exists id', obj. split; [done|]. split; [|done]. intros ->. pose proof (g_nodup _ _ _ _ Hg') as Hnd.
    apply NoDup_cons_1_1 in Hnd. apply Hnd. by left.
  - rewrite (run_catch_raise _ _ _ _ _ _ E) by done. destruct Hn as (p' & b & -> & Hst & Ho & Ha & Hok & Hrel).
    destruct (tear_down_run p' b e Hst Ho) as [_ Ht]. destruct (Ht id Ha) as (r & p2 & Ec & Et).
    eexists _, _, _. split; [exact Et|]. pose proof (close_ok outside Houtside id p' Hok) as Hok2. rewrite Ec in Hok2.
    split; [done|]. intros Hr. destruct (grown_close p0 [temp] id [] p' Hr (Hrel Hr)) as (p3 & E3 & Hg3). congruence.
Qed.

Lemma open_backend_run p0 s :
  pools_ok p0 -> settings_ok s -> fds_below (p_world p0) -> files (p_world p0) !! temp = None ->
  exists r p b, open_backend s (Node p0 (blank s)) = (r, Node p b)
    /\ match r with Ok _ => opened p0 s b p | Raise _ => undone p0 p end.
Proof.
  intros Hok Hs Hfds Hnew. unfold XdsLifecycle.open_backend.
  destruct (bool_decide (is_Some (lc_xds_buffer_size cfg)) || st_direct s) eqn:Hc.
  2:{ apply orb_false_iff in Hc as [Hb%bool_decide_eq_false Hd]. apply use_posix_run; [done| |done].
      by apply eq_None_not_Some. }
  assert (no_allocator s = false -> exists size, lc_xds_buffer_size cfg = Some size) as Hsize.
  { intros Hna. apply orb_true_iff in Hc as [[size Hb]%bool_decide_eq_true|Hd]; [by exists size|].
    destruct (so_block _ Hs (so_direct _ Hs Hd)) as (_ & _ & Hb & _). by apply Hb. }
  assert (no_allocator s = true -> st_direct s = true) as Hdir.
  { intros [Hna|Hna]%orb_true_iff; [by apply so_only|]. destruct (so_hybrid _ Hs Hna) as [_ Hb]. by rewrite Hb in Hc. }
  assert (inert = true -> st_direct s = false) as Hinert.
  { intros [Hm _]%andb_true_iff. destruct (st_direct s) eqn:Hd; [|done].
    destruct (so_block _ Hs (so_direct _ Hs Hd)) as (? & _). congruence. }
  destruct (acquire_run p0 s Hok Hsize) as (p & a & Hg & [(E & HN & HS)|(-> & e & b & E)]).
  2:{ rewrite (run_bind_raise _ _ _ _ _ E). eexists _, _, _. split; [done|]. by apply undone_grown. }
  rewrite (run_bind _ _ _ _ _ E). destruct a as [base|]; simpl.
  - destruct (HS base eq_refl) as (Hna & Hin & size & Hb & Hp). by apply (tried_pool p0 s p size base).
  - destruct (bring_up_direct p0 s p Hg) as (r & w & Hgw & E2 & Hop). destruct r as [[]|e].
    + rewrite (run_catch _ _ _ _ _ _ E2). eexists (Ok tt), _, _. split; [done|].
      destruct (st_direct s) eqn:Hd; (split; [done|]; split; [done|]; split; [by simpl; rewrite ?Hd|]).
      * assert (no_allocator s = true) as Hna by (destruct (HN eq_refl) as [?|[_ Hin]]; [done|]; by specialize (Hinert Hin)).
        apply DirectMode; try done; [by simpl; rewrite Hna|]. by apply Hop.
      * apply InertMode; try done. destruct (HN eq_refl) as [Hna|[_ Hin]]; [|done]. by specialize (Hdir Hna).
    + rewrite (run_catch_raise _ _ _ _ _ _ E2) by done.
      destruct (tear_down_run (with_world w p) (acquired s None) e eq_refl eq_refl) as [Ht _].
      eexists _, _, _. split; [by apply Ht|]. by apply undone_grown.
Qed.

Lemma finish_init_run s p b :
  b_direct_enabled b = st_direct (b_settings b) -> s = b_settings b ->
  (exists t, finish_init get_cache_policy cfg md pf s (Node p b) = (Ok tt, Node p (set_tail (Some t) b))
     /\ tail_is (set_tail (Some t) b))
  \/ exists e, finish_init get_cache_policy cfg md pf s (Node p b) = (Raise e, Node p b) /\ ~ tail_accepted.
Proof.
  intros Hd ->. unfold finish_init, tail_accepted. erewrite run_bind by reflexivity.
  destruct (get_cache_policy (lc_cache_policy cfg)) as [pol|e] eqn:Ep;
    [|right; exists e; split; [done|]; by intros [[? ?] _]].
  erewrite run_bind by reflexivity.
  destruct (thread_pool_workers _) as [threads|e] eqn:Et;
    [|right; exists e; split; [done|]; by intros (_ & [? ?] & _)].
  erewrite run_bind by reflexivity.
  destruct (loop_open pf) eqn:El;
    [|right; eexists; split; [done|]; by intros (_ & _ & ?)].
  left. eexists. split; [done|]. exists pol, threads. split; [done|]. split; [done|]. simpl. by rewrite Hd.
Qed.

(** The mode does not depend on the tail. *)
Lemma mode_tail p0 b p t : backend_mode p0 b p -> backend_mode p0 (set_tail t b) p.
Proof.
  intros [H1 H2|H1 H2|H1 H2|id size base]; [by apply PosixMode|by apply InertMode|by apply DirectMode|].
  by apply (PoolMode p0 _ p id size base).
Qed.

#[local] Abbreviation init := (init (CO := CO) get_cache_policy cfg md pf dst_device local_cpu_backend).

(** What a construction that raises leaves behind *)
Definition abandoned p0 p : Prop :=
  pools_ok p /\ (releases -> grown p0 [temp] [] p \/ ~ tail_accepted /\ exists b, opened p0 (b_settings b) b p).

Lemma init_run p0 :
  pools_ok p0 -> fds_below (p_world p0) -> files (p_world p0) !! temp = None ->
  match init p0 with (Ok b, p) => constructed p0 b p | (Raise _, p) => abandoned p0 p end.
Proof.
  intros Hok Hfds Hnew. unfold XdsLifecycle.init. destruct (xds_settings_of _ _ _ _) as [s|e] eqn:Es.
  2:{ destruct (undone_grown p0 p0 (grown_start p0 [] Hok)) as [H1 H2]. split; [done|]. intros Hr. left. auto. }
  pose proof (xds_settings_ok s Es) as Hs.
  destruct (open_backend_run p0 s Hok Hs Hfds Hnew) as (r & p & b & E & Hr). destruct r as [[]|e].
  2:{ rewrite (run_bind_raise _ _ _ _ _ E). destruct Hr as [H1 H2]. split; [done|]. intros Hr. left. auto. }
  rewrite (run_bind _ _ _ _ _ E). pose proof Hr as (Hbs & Hidle & Hd & Hm).
  destruct (finish_init_run s p b) as [(t & Ef & Ht)|(e & Ef & Hnt)]; [congruence|done|..].
  - rewrite (run_bind _ _ _ _ _ Ef). split; try done; simpl; [by rewrite Hbs..| |]; [congruence|].
    by apply mode_tail.
  - rewrite (run_bind_raise _ _ _ _ _ Ef). split.
    + destruct Hm as [? ? ? ? ? ? ? Hg|? ? ? ? ? Hg|? ? ? ? ? ? ? Hg|id size base ? ? ? ? ? ? ? ? ? ? Hg]; try apply Hg.
      destruct (st_block_first (b_settings b)); [by destruct Hg as (? & ? & ? & ? & ? & Hg); apply Hg|by destruct Hg as [_ Hg]; apply Hg].
    + intros _. right. split; [done|]. exists b. by rewrite Hbs.
Qed.

End construction.
