(* ===== verification/XdsCloseFacts.v ===== *)
(** * The XDS backend's life cycle: closing

    [XdsBackend.close] of [XdsLifecycle]: what it releases, in which order it may stop, and that
    it can be called again until everything is released. *)

From S2P Require Import Prelude Tensor Codec BlockFirst DirectIO World WorldIO HipFile GpuConnector XdsFiles Dict XdsIndex DeviceTensor XdsStaged XdsCpuStore XdsGpuStage Allocator AllocatorFacts XdsPreflight XdsLifecycle XdsLifecycleFacts.

Open Scope string_scope.
Open Scope list_scope.
Open Scope Z_scope.

(** ** Registrations for direct I/O *)

(** How often the backend's own registrations name an address *)
Fixpoint regs_at (l : list (registration * lifetime)) (x : Z) : Z :=
  match l with
  | [] => 0
  | r :: l' => at_base 1 r.1.1.2 x + regs_at l' x
  end.

Definition edge_at (e : option (Z * Z)) (x : Z) : Z :=
  match e with Some (ptr, _) => at_base 1 ptr x | None => 0 end.

Lemma at_base_nonneg b x : 0 <= at_base 1 b x.
Proof. unfold at_base. destruct (x =? b); lia. Qed.

Lemma regs_at_nonneg l x : 0 <= regs_at l x.
Proof. induction l as [|r l IH]; simpl; [done|]. pose proof (at_base_nonneg r.1.1.2 x). lia. Qed.

Lemma edge_at_nonneg e x : 0 <= edge_at e x.
Proof. destruct e as [[ptr n]|]; [apply at_base_nonneg|done]. Qed.

(** Every address is registered as often as [out] and the backend's registrations say, which
    are those of a dictionary. *)
Record io_ok (out : Z -> Z) (s : xds_io) : Prop := {
  io_driver : driver_ok (io_world s);
  io_refs : forall x, refs (hip (io_world s)) x = out x + regs_at (registrations s) x + edge_at (edge_tensor s) x;
  io_nodup : NoDup (registrations s).*1;
}.

(** Only the driver's registrations differ. *)
Definition settled (s s' : xds_io) : Prop :=
  undisturbed (io_world s) (io_world s')
  /\ driver_opened (hip (io_world s')) = driver_opened (hip (io_world s)).

Lemma settled_trans s1 s2 s3 : settled s1 s2 -> settled s2 s3 -> settled s1 s3.
Proof. intros [A1 A2] [B1 B2]. split; [by eapply undisturbed_trans|congruence]. Qed.

Section registrations.
Context {HL : HyFileLib} {HLF : HyFileFrames} (out : Z -> Z) (Hout : forall x, 0 <= out x).

Lemma on_world_run {A} (m : ST world A) s r w :
  m (io_world s) = (r, w) -> on_world m s = (r, XdsIO w (registrations s) (edge_tensor s)).
Proof. intros H. unfold on_world. by rewrite H. Qed.

Lemma close_registration_run r l s :
  io_ok out s -> registrations s = r :: l ->
  exists x s', close_registration r s = (x, s') /\ settled s s' /\ io_ok out s' /\ edge_tensor s' = edge_tensor s
    /\ (x = Ok tt -> registrations s' = l) /\ (is_Ok x = false -> registrations s' = r :: l) /\ (releases -> x = Ok tt).
Proof.
  intros [Hd Hr Hnd] Hl. unfold close_registration. set (b := r.1.1.2).
  assert (0 < refs (hip (io_world s)) b) as Hpos.
  { rewrite Hr, Hl. simpl. fold b. unfold at_base. rewrite Z.eqb_refl.
    pose proof (regs_at_nonneg l b). pose proof (edge_at_nonneg (edge_tensor s) b). specialize (Hout b). lia. }
  destruct (deregister_moves b (io_world s) Hd Hpos) as [w [(E & Hu & Hd' & Ho & Hrf)|(e & E & Hu & Hd' & Ho & Hrf)]].
  - rewrite (run_bind _ _ _ _ _ (on_world_run _ _ _ _ E)). eexists (Ok tt), _. split; [done|].
    cbn [registrations io_world edge_tensor]. rewrite Hl in Hnd |- *. rewrite (filter_others r l Hnd).
    split; [done|]. split; [|done]. split; cbn [registrations io_world edge_tensor]; [done| |by apply NoDup_cons_1_2 in Hnd].
    intros x. rewrite Hrf, Hr, Hl. simpl. fold b. unfold at_base. destruct (x =? b); lia.
  - rewrite (run_bind_raise _ _ _ _ _ (on_world_run _ _ _ _ E)). eexists (Raise e), _. split; [done|].
    split; [done|]. split; [|split; [done|split; [done|split; [done|]]]].
    + split; [done| |done]. intros x. cbn [registrations io_world edge_tensor]. rewrite Hrf, Hr. unfold none. lia.
    + intros Hrel. destruct (deregister_accepts b (io_world s) Hrel) as [w' E']. congruence.
Qed.

Lemma close_direct_registrations_run s :
  io_ok out s ->
  exists r s', close_direct_registrations s = (r, s') /\ settled s s' /\ io_ok out s' /\ edge_tensor s' = edge_tensor s
    /\ (r = Ok tt -> registrations s' = []) /\ (releases -> r = Ok tt).
Proof.
  unfold close_direct_registrations. intros Hok. rewrite (run_bind st_get _ s s s) by done.
  remember (registrations s) as l eqn:Hl. symmetry in Hl. revert s Hok Hl.
  induction l as [|x l IH]; intros s Hok Hl; simpl; [by exists (Ok tt), s|].
  destruct (close_registration_run x l s Hok Hl) as (r & s1 & E & Hs & Hok1 & He & Hreg & _ & Hrel).
  destruct r as [[]|e].
  - rewrite (run_bind _ _ _ _ _ E). destruct (IH s1 Hok1 (Hreg eq_refl)) as (r2 & s2 & E2 & Hs2 & Hok2 & He2 & Hreg2 & Hrel2).
    exists r2, s2. split; [done|]. split; [by eapply settled_trans|]. split; [done|]. split; [congruence|done].
  - rewrite (run_bind_raise _ _ _ _ _ E). exists (Raise e), s1. do 4 (split; [done|]). split; [done|].
    intros Hr. by specialize (Hrel Hr).
Qed.

Lemma close_direct_edge_staging_run s :
  io_ok out s ->
  exists r s', close_direct_edge_staging s = (r, s') /\ settled s s' /\ io_ok out s'
    /\ registrations s' = registrations s /\ (r = Ok tt -> edge_tensor s' = None) /\ (releases -> r = Ok tt).
Proof.
  intros [Hd Hr Hnd]. unfold close_direct_edge_staging. rewrite (run_bind st_get _ s s s) by done.
  destruct (edge_tensor s) as [[ptr n]|] eqn:He.
  2:{ eexists (Ok tt), _. split; [done|]. split; [done|]. split; [|done].
      split; cbn [registrations io_world edge_tensor]; [done| |done]. intros x. rewrite Hr. done. }
  assert (0 < refs (hip (io_world s)) ptr) as Hpos.
  { rewrite Hr. simpl. unfold at_base. rewrite Z.eqb_refl. pose proof (regs_at_nonneg (registrations s) ptr).
    specialize (Hout ptr). lia. }
  destruct (deregister_moves ptr (io_world s) Hd Hpos) as [w [(E & Hu & Hd' & Ho & Hrf)|(e & E & Hu & Hd' & Ho & Hrf)]].
  - rewrite (run_bind _ _ _ _ _ (on_world_run _ _ _ _ E)). eexists (Ok tt), _. split; [done|]. split; [done|].
    split; [|done]. split; cbn [registrations io_world edge_tensor]; [done| |done].
    intros x. rewrite Hrf, Hr. simpl. unfold at_base. destruct (x =? ptr); lia.
  - rewrite (run_bind_raise _ _ _ _ _ (on_world_run _ _ _ _ E)). eexists (Raise e), _. split; [done|]. split; [done|].
    split; [|split; [done|split; [done|]]].
    + split; cbn [registrations io_world edge_tensor]; [done| |done].
      intros x. rewrite Hrf, Hr, He. unfold none. simpl. lia.
    + intros Hrel. destruct (deregister_accepts ptr (io_world s) Hrel) as [w' E']. congruence.
Qed.

End registrations.

(** ** Closing the backend *)

Section closing.
Context {HL : HyFileLib} {HLF : HyFileFrames}.
Context {Dt : Type} `{!TorchDtype Dt} {pool P : Type}.
#[local] Abbreviation request := (list Z * Dt * MemoryFormat)%type.
Context {PO : PoolOps pool request} {CO : CuFileOps pool request}.
Context (cfg : lm_config) (outside : Z -> Z) (Houtside : forall b, 0 <= outside b).
#[local] Abbreviation process := (process pool).
#[local] Abbreviation backend := (xds_backend P).
#[local] Abbreviation node := (node (pool := pool) (P := P)).
Implicit Types (p : process) (b : backend) (n : node).

(** The registrations besides those of the pools *)
Definition outer b (x : Z) : Z := outside x + regs_at (b_registrations b) x + edge_at (b_edge b) x.

Lemma outer_nonneg b x : 0 <= outer b x.
Proof.
  unfold outer. pose proof (regs_at_nonneg (b_registrations b) x). pose proof (edge_at_nonneg (b_edge b) x).
  specialize (Houtside x). lia.
Qed.

(** The books of the pools, whoever closes the driver: [pools_ok] but for the driver being
    open while a pool is counted *)
Record books (out : Z -> Z) p : Prop := {
  bk_driver : driver_ok (p_world p);
  bk_next : forall id a, p_pools p !! id = Some a -> id < p_next p;
  bk_active : p_active p = weight counted (p_pools p);
  bk_refs : forall x, refs (hip (p_world p)) x = out x + weight (holds x) (p_pools p);
  bk_alloc : forall id a, p_pools p !! id = Some a -> alloc_ok a;
}.

Definition driver_kept p : Prop := 0 < p_active p -> driver_opened (hip (p_world p)) = true.

Lemma pools_ok_books out p : pools_ok out p <-> books out p /\ driver_kept p.
Proof. split; [by intros []|by intros [[] ?]]. Qed.

Lemma books_world out p w o : books out p -> moves (p_world p) w o none -> books out (with_world w p).
Proof.
  intros [H1 H2 H3 H4 H5] (_ & Hok & _ & Hr). split; simpl; try done.
  intros x. rewrite Hr, H4. unfold none. lia.
Qed.

(** A pool the backend still has, in service or released *)
Definition own p id : Prop := exists a, p_pools p !! id = Some a /\ (ha_counted a = true \/ released a).

(** The pools of a backend *)
Definition pool_of b id : Prop := b_allocator b = Some (HyPool id) \/ exists obj, b_staging b = Some (HyPool id, obj).

Record backend_ok n : Prop := {
  bo_pools : books (outer (n_self n)) (n_process n);
  bo_open : forall id, pool_of (n_self n) id -> driver_kept (n_process n);
  bo_nodup : NoDup (b_registrations (n_self n)).*1;
  bo_own : forall id, pool_of (n_self n) id -> own (n_process n) id;
  bo_alloc : match b_allocator (n_self n) with
             | Some (HyPool id) => is_Some (lc_xds_buffer_size cfg)
             | Some LocalCPU => lc_xds_buffer_size cfg = None
             | Some (CuPool _) => False
             | None => True
             end;
  bo_staging : match b_staging (n_self n) with
               | Some (HyPool id, _) => b_allocator (n_self n) <> Some (HyPool id)
               | Some _ => False
               | None => True
               end;
  bo_owned : b_driver_owned (n_self n) = true ->
    b_allocator (n_self n) = None /\ b_staging (n_self n) = None;
}.

(** What the queued puts and running reads may do before they are done: files, memory and
    registrations change, the books are kept. *)
Definition tasks_drain (in_flight : ST xds_io unit) : Prop := forall out s,
  (forall x, 0 <= out x) -> io_ok out s ->
  exists s', in_flight s = (Ok tt, s') /\ io_ok out s'
    /\ driver_opened (hip (io_world s')) = driver_opened (hip (io_world s)).

(** The node's view of an operation on the registrations *)
Definition holdings p (x : Z) : Z := weight (holds x) (p_pools p).

Lemma holdings_nonneg p x : 0 <= holdings p x.
Proof. apply weight_nonneg, holds_nonneg. Qed.

Definition io_of n : xds_io :=
  XdsIO (p_world (n_process n)) (b_registrations (n_self n)) (b_edge (n_self n)).

Definition with_io n (s : xds_io) : node :=
  let b := n_self n in
  Node (with_world (io_world s) (n_process n))
    (XdsBackend P (b_settings b) (b_direct_enabled b) (b_interface b) (b_allocator b) (b_xds b) (b_base_pointer b)
       (b_staging b) (b_driver_owned b) (registrations s) (edge_tensor s) (b_tail b) (b_closed b)).

Lemma on_io_run {A} (m : ST xds_io A) n r s : m (io_of n) = (r, s) -> on_io m n = (r, with_io n s).
Proof. intros H. unfold on_io. unfold io_of in H. by rewrite H. Qed.

Lemma backend_io n : backend_ok n -> io_ok (fun x => outside x + holdings (n_process n) x) (io_of n).
Proof.
  intros [[H1 H2 H3 H4 H5] _ Hnd _ _ _ _]. split; [done| |done]. intros x. cbn [io_of io_world registrations edge_tensor].
  rewrite H4. unfold outer, holdings. lia.
Qed.

Lemma backend_with_io n s :
  backend_ok n -> io_ok (fun x => outside x + holdings (n_process n) x) s ->
  driver_opened (hip (io_world s)) = driver_opened (hip (p_world (n_process n))) -> backend_ok (with_io n s).
Proof.
  intros [[H1 H2 H3 H4 H5] Hop Hnd Ho Ha Hs Hw] [I1 I2 I3] Hd. split; try done.
  - split; simpl; try done. intros x. rewrite I2. unfold outer, holdings. simpl. lia.
  - intros id Hid Hact. simpl in *. rewrite Hd. by eapply Hop.
Qed.

(** A pool that is closed, whatever comes of it *)
Lemma backend_close n id :
  backend_ok n -> pool_of (n_self n) id ->
  exists r p', Allocator.close id (n_process n) = (r, p') /\ backend_ok (Node p' (n_self n)) /\ driver_kept p'
    /\ (releases -> r = Ok tt)
    /\ (r = Ok tt -> exists a, p_pools p' !! id = Some a /\ released a /\ ha_pool a = None)
    /\ (forall i, i <> id -> p_pools p' !! i = p_pools (n_process n) !! i).
Proof.
  intros [Hbk Hop Hnd Ho Ha Hs Hw] Hid. destruct (Ho id Hid) as (a & Hp & Hc).
  assert (pools_ok (outer (n_self n)) (n_process n)) as Hok by (apply pools_ok_books; split; [done|by eapply Hop]).
  destruct (close_run (outer (n_self n)) (outer_nonneg _) id a (n_process n) Hok Hp)
    as (r & p' & E & [Hok' (a' & Hp' & Hcl & Hb & Hr) _ _ _ _]).
  assert (p_pools p' !! id = Some a') as Hid' by (rewrite Hp'; apply lookup_insert_eq).
  apply pools_ok_books in Hok' as Hbk'. destruct Hbk' as [Hbk' Hop'].
  exists r, p'. split; [done|]. split; [|split; [done|split; [|split]]].
  - split; try done. intros i Hi. cbn [n_self n_process] in *. destruct (decide (i = id)) as [->|Hne].
    + exists a'. split; [done|]. destruct (ha_counted a') eqn:Ec; [by left|]. right.
      split; [done|]. split; [|done]. destruct (po_alloc _ _ Hok' _ _ Hid') as (H1 & _).
      destruct (ha_registered a'); [|done]. destruct H1 as [H1 _]; [done|]. congruence.
    + destruct (Ho i Hi) as (x & Hx & Hxc). exists x. by rewrite Hp', lookup_insert_ne.
  - intros Hrel. destruct (close_accepted (outer (n_self n)) (outer_nonneg _) id a _ Hrel Hok Hp) as (p2 & E2 & _). congruence.
  - intros ->. exists a'. destruct (Hr eq_refl). done.
  - intros i Hne. by rewrite Hp', lookup_insert_ne.
Qed.

Lemma backend_free n id obj :
  backend_ok n -> pool_of (n_self n) id ->
  exists p', Allocator.free id obj (n_process n) = (Ok tt, p') /\ backend_ok (Node p' (n_self n))
    /\ (forall i, i <> id -> p_pools p' !! i = p_pools (n_process n) !! i)
    /\ driver_opened (hip (p_world p')) = driver_opened (hip (p_world (n_process n))).
Proof.
  intros [Hbk Hop Hnd Ho Ha Hs Hw] Hid. destruct (Ho id Hid) as (a & Hp & Hc).
  assert (pools_ok (outer (n_self n)) (n_process n)) as Hok by (apply pools_ok_books; split; [done|by eapply Hop]).
  destruct (ha_closed a) eqn:Ecl.
  - exists (with_invalid (p_invalid (n_process n) ++ [obj]) (n_process n)). split; [by apply (closed_pool id a)|].
    split; [|done]. split; try done. by apply pools_ok_books, pools_ok_invalid.
  - assert (ha_counted a = true) as Ec by (destruct Hc as [|(? & _)]; congruence).
    destruct (po_alloc _ _ Hok _ _ Hp) as (H1 & H2 & H3). destruct (H2 Ec Ecl) as (Hreg & pl & Hpl).
    eexists. split.
    { unfold Allocator.free. rewrite (run_bind _ _ _ _ _ (get_pool_run _ _ _ Hp)), Ecl.
      exact (on_pool_run id a _ (fun pl => (tt, pool_free obj pl)) pl Hp Hpl). }
    split; [|split; [intros i Hi; simpl; by rewrite lookup_insert_ne|done]].
    split; try done; cbn [n_self n_process].
    + apply pools_ok_books, (pools_ok_update _ _ id a); try done. split; [exact H1|]. split; simpl; intros; [done|congruence].
    + intros i Hi. destruct (decide (i = id)) as [->|Hne].
      * eexists. split; [apply lookup_insert_eq|]. by left.
      * destruct (Ho i Hi) as (x & Hx & Hxc). exists x. split; [|done]. simpl. by rewrite lookup_insert_ne.
Qed.

(** A field of the backend that the invariant does not read, or reads less of *)
Lemma backend_unstage n : backend_ok n -> backend_ok (Node (n_process n) (set_staging None (n_self n))).
Proof.
  intros [Hok Hop Hnd Ho Ha Hs Hw]. split; try done.
  - intros id [Hid|[obj Hid]]; [|done]. apply (Hop id). by left.
  - intros id [Hid|[obj Hid]]; [|done]. apply Ho. by left.
  - intros Hd. by destruct (Hw Hd) as (? & ?).
Qed.

Definition pool_released p id : Prop := exists a, p_pools p !! id = Some a /\ released a /\ ha_pool a = None.

Lemma close_staging_run n :
  backend_ok n ->
  exists r n', close_block_first_staging (CO := CO) n = (r, n') /\ backend_ok n' /\ (releases -> r = Ok tt)
    /\ n_self n' = (if r is Ok _ then set_staging None (n_self n) else n_self n)
    /\ (r = Ok tt -> forall id obj, b_staging (n_self n) = Some (HyPool id, obj) -> pool_released (n_process n') id)
    /\ (forall i, (forall obj, b_staging (n_self n) <> Some (HyPool i, obj)) ->
          p_pools (n_process n') !! i = p_pools (n_process n) !! i)
    /\ (b_staging (n_self n) = None -> n_process n' = n_process n)
    /\ (driver_kept (n_process n) -> driver_kept (n_process n')).
Proof.
  intros Hok. destruct n as [p b]. unfold close_block_first_staging. erewrite run_bind by reflexivity. cbn [n_self n_process].
  destruct (b_staging b) as [[[id|id|] obj]|] eqn:Est;
    [|by pose proof (bo_staging _ Hok) as H; simpl in H; rewrite Est in H..|].
  2:{ eexists (Ok tt), _. split; [done|]. split; [by apply backend_unstage|]. do 2 (split; [done|]). split; [done|]. done. }
  assert (pool_of (n_self (Node p b)) id) as Hid by (right; by exists obj).
  assert (exists p1, (n ← st_get;
      (if obj_is_valid obj (n_process n) then on_process (allocator_free (CO := CO) (HyPool id) obj) else mret tt)) (Node p b)
      = (Ok tt, Node p1 b) /\ backend_ok (Node p1 b)
      /\ forall i, i <> id -> p_pools p1 !! i = p_pools p !! i) as (p1 & E1 & Hok1 & Hoth1).
  { destruct (backend_free (Node p b) id obj Hok Hid) as (p1 & E & Hok1 & Hoth & _).
    erewrite run_bind by reflexivity. cbn [n_process]. destruct (obj_is_valid obj p); [|by exists p].
    exists p1. split; [|done]. by apply on_process_run. }
  destruct (backend_close (Node p1 b) id Hok1 Hid) as (r & p2 & E2 & Hok2 & Hkept & Hrel & Hdone & Hoth2).
  cbn [n_process n_self] in *.
  assert (forall i, (forall o, Some (HyPool id, obj) <> Some (HyPool i, o)) -> p_pools p2 !! i = p_pools p !! i) as Hoth.
  { intros i Hi. assert (i <> id) as Hne by (intros ->; by apply (Hi obj)). by rewrite Hoth2, Hoth1. }
  pose proof (on_process_run (allocator_close (CO := CO) (HyPool id)) p1 b r p2 E2) as E2'.
  unfold mbind, ST_bind in E1 |- *. cbn in E1. unfold st_get in *.
  destruct (if obj_is_valid obj p then _ else _) as [[[]|e] n1] eqn:E0; [|done]. injection E1 as ->.
  rewrite E2'. destruct r as [[]|e].
  - eexists (Ok tt), _. split; [done|]. split; [by apply (backend_unstage (Node p2 b))|]. split; [done|]. split; [done|].
    split; [|by split_and!]. intros _ i o [= <- <-]. by apply Hdone.
  - eexists (Raise e), _. split; [done|]. split; [done|]. split; [intros Hr; by specialize (Hrel Hr)|]. split; [done|]. by split_and!.
Qed.

(** What a call of [close] leaves *)
Record closed_from n (r : result unit) n' : Prop := {
  cf_ok : backend_ok n';
  cf_total : releases -> r = Ok tt;
  cf_others : forall id, ~ pool_of (n_self n) id -> p_pools (n_process n') !! id = p_pools (n_process n) !! id;
  cf_kept : forall id, pool_of (n_self n) id -> pool_of (n_self n') id \/ pool_released (n_process n') id;
  cf_sub : forall id, pool_of (n_self n') id -> pool_of (n_self n) id;
  cf_kept_driver : (b_driver_owned (n_self n) = true -> p_active (n_process n) = 0) ->
    driver_kept (n_process n) -> driver_kept (n_process n');
  cf_retry : is_Ok r = false ->
    b_closed (n_self n') = false /\ b_driver_owned (n_self n') = b_driver_owned (n_self n);
  cf_done : r = Ok tt ->
    b_closed (n_self n') = true /\ b_registrations (n_self n') = [] /\ b_edge (n_self n') = None
    /\ b_staging (n_self n') = None /\ b_driver_owned (n_self n') = false
    /\ (forall id, pool_of (n_self n) id -> pool_released (n_process n') id)
    /\ (b_driver_owned (n_self n) = true -> driver_opened (hip (p_world (n_process n'))) = false);
}.

(** The part of [close] that returns registrations *)
Lemma drain_run in_flight n :
  tasks_drain in_flight -> backend_ok n ->
  exists r s, (on_io in_flight;; on_io close_direct_registrations;; on_io close_direct_edge_staging) n = (r, with_io n s)
    /\ backend_ok (with_io n s) /\ (releases -> r = Ok tt)
    /\ (r = Ok tt -> registrations s = [] /\ edge_tensor s = None)
    /\ (driver_kept (n_process n) -> driver_kept (n_process (with_io n s))).
Proof.
  intros Hfl Hok. set (out := fun x => outside x + holdings (n_process n) x).
  assert (forall x, 0 <= out x) as Hout.
  { intros x. unfold out. pose proof (holdings_nonneg (n_process n) x). specialize (Houtside x). lia. }
  pose proof (backend_io n Hok) as Hio.
  destruct (Hfl out (io_of n) Hout Hio) as (s1 & E1 & Hio1 & Hd1).
  rewrite (run_bind _ _ _ _ _ (on_io_run _ _ _ _ E1)).
  assert (io_of (with_io n s1) = s1) as Hs1 by (by destruct s1).
  destruct (close_direct_registrations_run out Hout s1 Hio1) as (r2 & s2 & E2 & [_ Hd2] & Hio2 & He2 & Hr2 & Hrel2).
  rewrite <- Hs1 in E2. pose proof (on_io_run _ _ _ _ E2) as E2'. change (with_io (with_io n s1) s2) with (with_io n s2) in E2'.
  destruct r2 as [[]|e].
  2:{ rewrite (run_bind_raise _ _ _ _ _ E2'). exists (Raise e), s2. split; [done|].
      split; [by apply backend_with_io; [..|cbn in *; congruence]|]. split; [intros Hr; by specialize (Hrel2 Hr)|].
      split; [done|]. unfold driver_kept. simpl in *. intros Hk Ha. rewrite Hd2, Hd1. by apply Hk. }
  rewrite (run_bind _ _ _ _ _ E2').
  assert (io_of (with_io n s2) = s2) as Hs2 by (by destruct s2).
  destruct (close_direct_edge_staging_run out Hout s2 Hio2) as (r3 & s3 & E3 & [_ Hd3] & Hio3 & Hr3 & He3 & Hrel3).
  rewrite <- Hs2 in E3. pose proof (on_io_run _ _ _ _ E3) as E3'. change (with_io (with_io n s2) s3) with (with_io n s3) in E3'.
  exists r3, s3. split; [done|]. split; [by apply backend_with_io; [..|cbn in *; congruence]|].
  split; [done|]. split; [intros Hr; split; [|by apply He3]; rewrite Hr3; by apply Hr2|].
  unfold driver_kept. simpl in *. intros Hk Ha. rewrite Hd3, Hd2, Hd1. by apply Hk.
Qed.

(** Closing the allocator, if it is the backend's own *)
Lemma close_allocator_run n :
  backend_ok n ->
  exists r p', (match b_allocator (n_self n) with
        | Some a =>
            if bool_decide (is_Some (lc_xds_buffer_size cfg)) then on_process (allocator_close (CO := CO) a) else mret tt
        | None => mret tt
        end) n = (r, Node p' (n_self n))
    /\ backend_ok (Node p' (n_self n)) /\ (releases -> r = Ok tt)
    /\ (r = Ok tt -> forall id, b_allocator (n_self n) = Some (HyPool id) -> pool_released p' id)
    /\ (forall i, b_allocator (n_self n) <> Some (HyPool i) -> p_pools p' !! i = p_pools (n_process n) !! i)
    /\ (b_allocator (n_self n) = None -> p' = n_process n)
    /\ (driver_kept (n_process n) -> driver_kept p').
Proof.
  intros Hok. pose proof (bo_alloc _ Hok) as Ha. destruct n as [p b]. cbn [n_self n_process] in *.
  destruct (b_allocator b) as [[id|id|]|] eqn:Eal; [|done|..].
  2:{ rewrite Ha. by exists (Ok tt), p. }
  2:{ by exists (Ok tt), p. }
  rewrite bool_decide_eq_true_2 by done. assert (pool_of (n_self (Node p b)) id) as Hid by by left.
  destruct (backend_close (Node p b) id Hok Hid) as (r & p' & E & Hok' & Hkept & Hrel & Hdone & Hoth).
  exists r, p'. split; [by apply (on_process_run (allocator_close (CO := CO) (HyPool id)))|]. split; [done|]. split; [done|].
  split; [|split; [|by split]].
  - intros Hr i [= <-]. by apply Hdone.
  - intros i Hi. apply Hoth. congruence.
Qed.

(** Giving the driver back, and the end *)
Lemma close_owned_run n :
  backend_ok n ->
  exists r n', ((if b_driver_owned (n_self n) then
       on_process (on_driver close_driver);; modify_self (set_driver_owned false)
     else mret tt) : ST node unit) n = (r, n')
    /\ backend_ok n' /\ (releases -> r = Ok tt) /\ p_pools (n_process n') = p_pools (n_process n)
    /\ ((b_driver_owned (n_self n) = true -> p_active (n_process n) = 0) ->
          driver_kept (n_process n) -> driver_kept (n_process n'))
    /\ (r = Ok tt -> n_self n' = set_driver_owned false (n_self n)
         /\ (b_driver_owned (n_self n) = true -> driver_opened (hip (p_world (n_process n'))) = false))
    /\ (is_Ok r = false -> n_self n' = n_self n).
Proof.
  intros Hok. destruct (b_driver_owned (n_self n)) eqn:Eo.
  2:{ exists (Ok tt), n. do 5 (split; [done|]). split; [|done]. intros _. split; [|done].
      destruct n as [p b]. cbn [n_self] in *. destruct b. cbn in Eo. by subst. }
  destruct (bo_owned _ Hok Eo) as (Hna & Hns). destruct n as [p b]. cbn [n_self n_process] in *.
  pose proof Hok as [Hp Hop Hnd Ho Ha Hs Hw]. cbn [n_self n_process] in *.
  assert (forall w id, pool_of b id -> driver_kept (with_world w p)) as Hno
    by (intros w id [Hid|[obj Hid]]; congruence).
  assert (forall w, (true = true -> p_active p = 0) -> driver_kept p -> driver_kept (with_world w p)) as Hk
    by (intros w H0 _ H1; simpl in H1; specialize (H0 eq_refl); lia).
  destruct (close_driver_moves (p_world p) (bk_driver _ _ Hp)) as [w [(E & Hm)|(e & E & Hm)]];
    pose proof (on_process_run _ p b _ _ (on_driver_run _ _ _ _ E)) as E'.
  - rewrite (run_bind _ _ _ _ _ E'). eexists (Ok tt), _. split; [done|].
    assert (books (outer b) (with_world w p)) as Hp' by (by eapply books_world).
    split; [by split; try done; apply Hno|]. split; [done|]. split; [done|]. split; [apply Hk|]. split; [|done].
    intros _. split; [done|]. intros _. apply Hm.
  - rewrite (run_bind_raise _ _ _ _ _ E'). eexists (Raise e), _. split; [done|].
    assert (books (outer b) (with_world w p)) as Hp' by (by eapply books_world).
    split; [by split; try done; apply Hno|]. split; [|split; [done|split; [apply Hk|done]]].
    intros Hrel. destruct (close_driver_accepts (p_world p) Hrel) as [w' Ew]. congruence.
Qed.

Lemma then_assoc {S} (m1 m2 m3 k : ST S unit) (s : S) :
  (m1;; m2;; m3;; k) s = ((m1;; m2;; m3);; k) s.
Proof.
  unfold mbind, ST_bind. destruct (m1 s) as [[?|?] n1]; [|done]. destruct (m2 n1) as [[?|?] n2]; [|done].
  by destruct (m3 n2) as [[?|?] n3].
Qed.

#[local] Abbreviation close := (XdsLifecycle.close (CO := CO) cfg).

Lemma close_closed in_flight n : b_closed (n_self n) = true -> close in_flight n = (Ok tt, n).
Proof. intros Hc. unfold XdsLifecycle.close. erewrite run_bind by reflexivity. by rewrite Hc. Qed.

Lemma close_backend_run in_flight n :
  tasks_drain in_flight -> backend_ok n -> b_closed (n_self n) = false ->
  exists r n', close in_flight n = (r, n') /\ closed_from n r n'.
Proof.
  intros Hfl Hok Hcl. unfold XdsLifecycle.close. erewrite run_bind by reflexivity. rewrite Hcl, then_assoc.
  destruct (drain_run in_flight n Hfl Hok) as (r1 & s & E1 & Hok1 & Hrel1 & Hd1 & Hk1).
  set (n1 := with_io n s) in *. destruct r1 as [[]|e].
  2:{ rewrite (run_bind_raise _ _ _ _ _ E1). exists (Raise e), n1. split; [done|]. split; try done. by left. }
  rewrite (run_bind _ _ _ _ _ E1). destruct (Hd1 eq_refl) as [Hregs Hedge].
  destruct (close_staging_run n1 Hok1) as (r2 & n2 & E2 & Hok2 & Hrel2 & Hself2 & Hdone2 & Hoth2 & Hsame2 & Hk2).
  assert (forall id, ~ pool_of (n_self n) id -> p_pools (n_process n2) !! id = p_pools (n_process n) !! id) as Hout2.
  { intros id Hid. rewrite Hoth2; [done|]. intros obj Hst. apply Hid. right. by exists obj. }
  destruct r2 as [[]|e].
  2:{ rewrite (run_bind_raise _ _ _ _ _ E2). exists (Raise e), n2. split; [done|]. split; try done.
      - intros id Hid. left. by rewrite Hself2.
      - intros id Hid. by rewrite Hself2 in Hid.
      - intros _ Hk. auto.
      - by rewrite Hself2. }
  assert (forall id, pool_of (n_self n2) id -> pool_of (n_self n) id) as Hsub2.
  { intros id. rewrite Hself2. intros [Ha|[obj Ho]]; [by left|done]. }
  rewrite (run_bind _ _ _ _ _ E2). erewrite run_bind by reflexivity.
  destruct (close_allocator_run n2 Hok2) as (r3 & p3 & E3 & Hok3 & Hrel3 & Hdone3 & Hoth3 & Hsame3 & Hk3).
  assert (b_allocator (n_self n2) = b_allocator (n_self n)) as Hal by (by rewrite Hself2).
  assert (forall id, ~ pool_of (n_self n) id -> p_pools p3 !! id = p_pools (n_process n) !! id) as Hout3.
  { intros id Hid. rewrite Hoth3; [by apply Hout2|]. rewrite Hal. intros Ha. apply Hid. by left. }
  assert (forall id obj, b_staging (n_self n) = Some (HyPool id, obj) -> pool_released p3 id) as Hst3.
  { intros id obj Hst. destruct (Hdone2 eq_refl id obj Hst) as (a & Ha' & Hra). exists a. split; [|done].
    rewrite Hoth3; [done|]. rewrite Hal. pose proof (bo_staging _ Hok) as Hs. by rewrite Hst in Hs. }
  destruct r3 as [[]|e].
  2:{ rewrite (run_bind_raise _ _ _ _ _ E3). exists (Raise e), (Node p3 (n_self n2)). split; [done|].
      split; try done; cbn [n_self n_process].
      - intros id [Ha|[obj Hst]]; [left; left; by rewrite Hal|right; by apply (Hst3 id obj)].
      - intros _ Hk. auto.
      - by rewrite Hself2. }
  rewrite (run_bind _ _ _ _ _ E3).
  assert (b_driver_owned (n_self n2) = b_driver_owned (n_self n)) as Hown by (by rewrite Hself2).
  destruct (close_owned_run (Node p3 (n_self n2)) Hok3) as (r4 & n4 & E4 & Hok4 & Hrel4 & Hp4 & Hk4 & Hdone4 & Hself4).
  cbn [n_self n_process] in *.
  assert ((b_driver_owned (n_self n) = true -> p_active (n_process n) = 0) ->
    driver_kept (n_process n) -> driver_kept (n_process n4)) as Hk.
  { intros Ho Hk. apply Hk4; [|auto]. rewrite Hown. intros Hb. specialize (Ho Hb).
    destruct (bo_owned _ Hok Hb) as [Hna Hns]. rewrite Hsame3 by congruence. by rewrite Hsame2. }
  assert (forall id, pool_of (n_self n) id -> pool_released (n_process n4) id) as Hall.
  { intros id [Ha|[obj Hst]].
    - destruct (Hdone3 eq_refl id) as (a & Ha' & Hra); [by rewrite Hal|]. exists a. by rewrite Hp4.
    - destruct (Hst3 id obj Hst) as (a & Ha' & Hra). exists a. by rewrite Hp4. }
  destruct r4 as [[]|e].
  2:{ rewrite (run_bind_raise _ _ _ _ _ E4). exists (Raise e), n4. split; [done|]. split; try done.
      - intros id Hid. rewrite Hp4. by apply Hout3.
      - intros id Hid. right. by apply Hall.
      - intros id. rewrite Hself4 by done. apply Hsub2.
      - intros _. rewrite Hself4 by done. by rewrite Hself2. }
  rewrite (run_bind _ _ _ _ _ E4). destruct (Hdone4 eq_refl) as [Hself Hdr].
  exists (Ok tt), (Node (n_process n4) (set_backend_closed true (n_self n4))). split; [done|].
  split; cbn [n_self n_process]; [|done|intros id Hid; rewrite Hp4; by apply Hout3|by right; apply Hall| |exact Hk|done|].
  - destruct Hok4 as [A1 A2 A3 A4 A5 A6 A7]. by split.
  - intros id. rewrite Hself. apply Hsub2.
  - intros _. rewrite Hself, Hself2. split_and!; try done. rewrite <- Hown. exact Hdr.
Qed.

End closing.

(** ** From construction to closing *)

Section lifetime.
Context {HL : HyFileLib} {HLF : HyFileFrames}.
Context {Dt : Type} `{!TorchDtype Dt} {pool P : Type}.
#[local] Abbreviation request := (list Z * Dt * MemoryFormat)%type.
Context {PO : PoolOps pool request} {CO : CuFileOps pool request}.
Context (get_cache_policy : string -> result P).
Context (cfg : lm_config) (md : lm_metadata Dt) (pf : platform) (dst_device : string) (local_cpu_backend : bool).
Context (outside : Z -> Z) (Houtside : forall b, 0 <= outside b) (Hhyfile : torch_cuda pf = false).
#[local] Abbreviation process := (process pool).
#[local] Abbreviation node := (node (pool := pool) (P := P)).
#[local] Abbreviation constructed := (constructed get_cache_policy cfg md pf dst_device local_cpu_backend outside).
#[local] Abbreviation backend_ok := (backend_ok cfg outside).
#[local] Abbreviation close := (XdsLifecycle.close (CO := CO) cfg).

(** No other pool shares the driver that a direct backend opens for itself. *)
Definition driver_alone (p0 : process) (b : xds_backend P) : Prop := b_driver_owned b = true -> p_active p0 = 0.

Lemma ready_own (p : process) id (a : hyfile_allocator pool) : p_pools p !! id = Some a -> in_service a -> own p id.
Proof. intros Hp (_ & _ & Hc). exists a. split; [done|]. by left. Qed.

(** A constructed backend has only its pools. *)
Lemma constructed_pools p0 b p :
  constructed p0 b p -> exists mine, grown outside p0 [] mine p /\ (forall id, id ∈ mine <-> pool_of b id).
Proof.
  intros [_ _ _ _ _ Hm]. unfold pool_of.
  assert (forall id, b_allocator b <> Some (HyPool id) -> b_staging b = None ->
    (id ∈ @nil Z <-> b_allocator b = Some (HyPool id) \/ exists obj, b_staging b = Some (HyPool id, obj))) as Hnone.
  { intros id Ha Hs. split; [by intros ?%elem_of_nil|]. intros [?|[obj Hobj]]; congruence. }
  destruct Hm as [? ? ? Ha ? Hs ? Hg|? ? Ha Hs ? Hg|? ? Ha ? Hs ? ? Hg|id size base ? ? ? Ha ? ? Hp ? ? ? Hst];
    [exists []; split; [done|]; intros id; apply Hnone; [congruence|done]..|].
  destruct (st_block_first (b_settings b)).
  - destruct Hst as (id' & obj & Hs & Hne & _ & Hg). exists [id'; id]. split; [done|]. intros i.
    rewrite !elem_of_cons, Ha, Hs. split.
    + intros [->|[->|?%elem_of_nil]]; [right; by exists obj|by left|done].
    + intros [[= ->]|[o [= -> _]]]; auto.
  - destruct Hst as [Hs Hg]. exists [id]. split; [done|]. intros i. rewrite list_elem_of_singleton, Ha, Hs. split.
    + intros ->. by left.
    + intros [[= ->]|[o Ho]]; [done|congruence].
Qed.

Lemma constructed_backend_ok p0 b p :
  constructed p0 b p -> backend_ok (Node p b) /\ pools_ok (outer outside b) p.
Proof.
  intros Hc. destruct (constructed_pools p0 b p Hc) as (mine & Hg & Hmine).
  destruct Hc as [_ _ (Hr & He & Hcl) _ _ Hm].
  assert (pools_ok (outer outside b) p) as Hok.
  { destruct (g_ok _ _ _ _ _ Hg) as [H1 H2 H3 H4 H5 H6]. split; try done. intros x. rewrite H5. unfold outer.
    rewrite Hr, He. simpl. lia. }
  split; [|done]. apply pools_ok_books in Hok as [Hbk Hop].
  split; cbn [n_self n_process]; [done|done|by rewrite Hr; apply NoDup_nil_2|..].
  - intros id Hid. apply Hmine in Hid. destruct (g_mine _ _ _ _ _ Hg id Hid) as [_ (a & Ha & Hrdy)]. by apply (ready_own p id a).
  - destruct Hm as [? ? ? Ha|? ? Ha|? ? Ha|id size base ? ? Hb Ha]; rewrite Ha; [done..|]. by rewrite Hb.
  - destruct Hm as [? ? ? Ha ? Hs ?|? ? Ha Hs ?|? ? Ha ? Hs ? ?|id size base ? ? ? Ha ? ? Hp ? ? ? Hst]; try by rewrite Hs.
    destruct (st_block_first (b_settings b)); [|by destruct Hst as [-> _]].
    destruct Hst as (id' & obj & -> & Hne & _). rewrite Ha. congruence.
  - intros Ho. destruct Hm as [? ? ? Ha ? Hs Hown|? ? Ha Hs Hown|? ? Ha ? Hs ? ? Hg'|id size base ? ? ? Ha ? ? Hp ? ? Hown]; first [congruence|by split].
Qed.

(** While it is being closed: pools of others as they were, every pool added either still the
    backend's or released *)
Record winding_down (p0 : process) (b0 : xds_backend P) (n : node) : Prop := {
  wd_ok : backend_ok n;
  wd_old : forall id, id < p_next p0 -> p_pools (n_process n) !! id = p_pools p0 !! id;
  wd_mine : forall id a, p_next p0 <= id -> p_pools (n_process n) !! id = Some a -> ha_counted a = true -> pool_of (n_self n) id;
  wd_new : forall id, pool_of (n_self n) id -> p_next p0 <= id;
  wd_owned : b_closed (n_self n) = false -> b_driver_owned (n_self n) = b_driver_owned b0;
  wd_driver : driver_alone p0 b0 -> driver_kept (n_process n);
  wd_closed : b_closed (n_self n) = true ->
    (forall id a, p_next p0 <= id -> p_pools (n_process n) !! id = Some a -> ha_counted a = false)
    /\ b_registrations (n_self n) = [] /\ b_edge (n_self n) = None /\ b_staging (n_self n) = None
    /\ (b_driver_owned b0 = true -> driver_opened (hip (p_world (n_process n))) = false);
}.

(** A pool that this construction did not make counts as it did. *)
Lemma weights_kept p0 (n : node) f :
  pools_ok outside p0 -> (forall id, id < p_next p0 -> p_pools (n_process n) !! id = p_pools p0 !! id) ->
  (forall id a, p_next p0 <= id -> p_pools (n_process n) !! id = Some a -> f a = 0) ->
  weight f (p_pools (n_process n)) = weight f (p_pools p0).
Proof.
  intros Hok Hold Hnew. apply weight_extend.
  - intros i a Ha. rewrite Hold; [done|]. by apply (po_next _ _ Hok _ _ Ha).
  - intros i a Ha Hn. destruct (decide (i < p_next p0)) as [Hi|Hi]; [|apply (Hnew i); [lia|done]].
    rewrite Hold in Ha by done. congruence.
Qed.

Lemma winding_start p0 b p : constructed p0 b p -> winding_down p0 b (Node p b).
Proof.
  intros Hc. destruct (constructed_backend_ok p0 b p Hc) as [Hok Hpo]. apply pools_ok_books in Hpo as [_ Hop].
  destruct (constructed_pools p0 b p Hc) as (mine & Hg & Hmine). destruct Hc as [_ _ (_ & _ & Hcl) _ _ _].
  split; cbn [n_self n_process]; [done|apply (g_old _ _ _ _ _ Hg)|..|done|done|congruence].
  - intros id a Hid Ha Hcn. apply Hmine. destruct (decide (id ∈ mine)) as [|Hn]; [done|].
    destruct (g_others _ _ _ _ _ Hg id a Hid Hn Ha). congruence.
  - intros id Hid%Hmine. by destruct (g_mine _ _ _ _ _ Hg id Hid).
Qed.

(** A direct backend alone with its driver has no pools beside it. *)
Lemma winding_alone p0 b0 n :
  pools_ok outside p0 -> winding_down p0 b0 n -> b_closed (n_self n) = false -> driver_alone p0 b0 ->
  b_driver_owned (n_self n) = true -> p_active (n_process n) = 0.
Proof.
  intros Hok0 [Hok Hold Hmine Hnew Hown _ _] Hcl Hal Ho. rewrite Hown in Ho by done.
  rewrite <- (Hal Ho), (bk_active _ _ (bo_pools _ _ _ Hok)), (po_active _ _ Hok0). apply (weights_kept p0 n); [done|done|].
  intros id a Hid Ha. unfold counted. destruct (ha_counted a) eqn:Hc; [|done]. exfalso.
  rewrite <- Hown in Ho by done. destruct (bo_owned _ _ _ Hok Ho) as [Hna Hns].
  destruct (Hmine id a Hid Ha Hc) as [Hp|[obj Hp]]; congruence.
Qed.

Lemma winding_close p0 b0 in_flight n :
  pools_ok outside p0 -> tasks_drain in_flight -> winding_down p0 b0 n ->
  exists r n', close in_flight n = (r, n') /\ winding_down p0 b0 n' /\ (releases -> b_closed (n_self n') = true)
    /\ (b_closed (n_self n) = true -> n' = n).
Proof.
  intros Hok0 Hfl Hw. pose proof (winding_alone p0 b0 n Hok0 Hw) as Halone.
  destruct Hw as [Hok Hold Hmine Hnew Hown Hdrv Hdone]. destruct (b_closed (n_self n)) eqn:Hcl.
  { exists (Ok tt), n. split; [by apply close_closed|]. split; [|done]. by split; rewrite ?Hcl. }
  destruct (close_backend_run cfg outside Houtside in_flight n Hfl Hok Hcl) as (r & n' & E & [C1 C2 C3 C4 Csub Ck C5 C6]).
  exists r, n'. split; [done|].
  assert (forall id a, p_next p0 <= id -> p_pools (n_process n') !! id = Some a -> ha_counted a = true ->
    pool_of (n_self n) id /\ pool_of (n_self n') id) as Hmine'.
  { intros id a Hid Ha Hc. assert (pool_of (n_self n) id) as Hp.
    { destruct (decide (b_allocator (n_self n) = Some (HyPool id))) as [|Hna]; [by left|].
      destruct (b_staging (n_self n)) as [[m o]|] eqn:Es.
      - destruct (decide (m = HyPool id)) as [->|Hm]; [right; by exists o|]. apply (Hmine id a); [done| |done].
        rewrite <- C3; [done|]. intros [?|[o' Ho']]; [done|]. congruence.
      - apply (Hmine id a); [done| |done]. rewrite <- C3; [done|]. intros [?|[o' Ho']]; [done|]. congruence. }
    split; [done|]. destruct (C4 id Hp) as [|(a' & Ha' & (_ & _ & Hun) & _)]; [done|]. congruence. }
  split; [|split; [|done]].
  - split; [done|..].
    + intros id Hid. rewrite C3; [by apply Hold|]. intros Hp%Hnew. lia.
    + intros id a Hid Ha Hc. by destruct (Hmine' id a Hid Ha Hc).
    + intros id Hid. apply Hnew. by apply Csub.
    + intros Hc. destruct r as [[]|e]; [by destruct (C6 eq_refl); congruence|]. destruct (C5 eq_refl) as [_ ->]. auto.
    + intros Hal. apply Ck; [by apply Halone|by apply Hdrv].
    + intros Hc. destruct r as [[]|e]; [|by destruct (C5 eq_refl); congruence].
      destruct (C6 eq_refl) as (_ & Hr & He & Hs & _ & Hrel & Hdr). split; [|rewrite <- Hown by done; done].
      intros id a Hid Ha. destruct (ha_counted a) eqn:Hcn; [|done]. destruct (Hmine' id a Hid Ha Hcn) as [Hp _].
      destruct (Hrel id Hp) as (a' & Ha' & (_ & _ & Hun) & _). congruence.
  - intros Hrel. specialize (C2 Hrel). by destruct (C6 C2).
Qed.

(** Calls of [close], whose errors the caller catches *)
Definition close_attempts (attempts : list (ST xds_io unit)) : ST node unit :=
  st_iter (fun in_flight => st_catch any_exn (close in_flight) (fun _ => mret tt)) attempts.

Lemma attempts_run p0 b0 attempts n :
  pools_ok outside p0 -> Forall tasks_drain attempts -> winding_down p0 b0 n ->
  winding_down p0 b0 (run_st (close_attempts attempts) n)
  /\ (b_closed (n_self n) = true -> run_st (close_attempts attempts) n = n)
  /\ (releases -> attempts <> [] -> b_closed (n_self (run_st (close_attempts attempts) n)) = true).
Proof.
  intros Hok0 Hall. revert n. induction Hall as [|f l Hf Hl IH]; intros n Hw; [done|].
  destruct (winding_close p0 b0 f n Hok0 Hf Hw) as (r & n1 & E & Hw1 & Hrel & Hcl).
  assert (run_st (close_attempts (f :: l)) n = run_st (close_attempts l) n1) as ->.
  { unfold run_st, close_attempts. simpl. f_equal. erewrite run_bind; [done|]. unfold st_catch. rewrite E. by destruct r as [[]|]. }
  destruct (IH n1 Hw1) as (H1 & H2 & H3). split; [done|]. split.
  - intros Hc. rewrite (Hcl Hc) in *. by apply H2.
  - intros Hr _. rewrite H2 by auto. auto.
Qed.

(** C22: closing gives everything back. A backend that [__init__] returned, closed as often as
    its owner likes, errors caught: the pools of others are never touched; once a close has
    returned, the count of active pools and the registrations of every address are those of
    before the construction, the backend holds no registration, edge or staging buffer, and
    closing again does nothing. With a driver that refuses neither to close nor to deregister,
    the first call returns. What a refused call leaves can be closed later. Only the driver may
    be taken from others: a direct backend, which opened the driver for itself, closes it,
    whoever else counts on it. Unless such a backend was made while a pool was counted
    ([driver_alone]), the driver stays open for every pool that is counted. *)
Theorem close_gives_back (p0 p : process) (b : xds_backend P) (attempts : list (ST xds_io unit)) :
  pools_ok outside p0 -> constructed p0 b p -> Forall tasks_drain attempts ->
  let n := run_st (close_attempts attempts) (Node p b) in
  (forall id, id < p_next p0 -> p_pools (n_process n) !! id = p_pools p0 !! id)
  /\ backend_ok n
  /\ (b_closed (n_self n) = true ->
        p_active (n_process n) = p_active p0
        /\ (forall x, refs (hip (p_world (n_process n))) x = refs (hip (p_world p0)) x)
        /\ b_registrations (n_self n) = [] /\ b_edge (n_self n) = None /\ b_staging (n_self n) = None
        /\ (b_driver_owned b = true -> driver_opened (hip (p_world (n_process n))) = false)
        /\ forall in_flight, close in_flight n = (Ok tt, n))
  /\ (releases -> attempts <> [] -> b_closed (n_self n) = true)
  /\ (driver_alone p0 b -> pools_ok (outer outside (n_self n)) (n_process n)).
Proof.
  intros Hok0 Hc Hall n. destruct (attempts_run p0 b attempts (Node p b) Hok0 Hall (winding_start p0 b p Hc)) as (Hw & _ & Hrel).
  fold n in Hw, Hrel. clearbody n. destruct Hw as [Hok Hold _ _ _ Hdrv Hdone]. pose proof (bo_pools _ _ _ Hok) as Hp.
  split; [done|]. split; [done|]. split; [|split; [done|intros Hal; apply pools_ok_books; auto]].
  intros Hcl. destruct (Hdone Hcl) as (Hun & Hr & He & Hs & Hdr).
  split; [|split; [|split; [done|split; [done|split; [done|split; [done|]]]]]].
  - rewrite (bk_active _ _ Hp), (po_active _ _ Hok0). apply (weights_kept p0 n); [done|done|].
    intros id a Hid Ha. unfold counted. by rewrite (Hun id a).
  - intros x. rewrite (bk_refs _ _ Hp), (po_refs _ _ Hok0). unfold outer. rewrite Hr, He. simpl.
    rewrite (weights_kept p0 n); [lia|done|done|]. intros id a Hid Ha. unfold holds.
    destruct (ha_registered a) eqn:Er; [|done]. destruct (bk_alloc _ _ Hp _ _ Ha) as (H1 & _).
    destruct (H1 Er) as [Hcn _]. rewrite (Hun id a) in Hcn; done.
  - intros f. by apply close_closed.
Qed.

(** C21: the type of a constructed backend. What [__init__] returns has settings the options
    allow and is in exactly the mode they ask for: over POSIX files and the local CPU backend;
    inert, on a rank that shares another's latent cache; direct, over the driver it opened and
    with the CPU copies off; or over a registered pool of the configured size that passed the
    preflight, with a staging pool of one padded chunk exactly when the layout is block-first.
    Direct stores are offered only without a CPU store, direct retrieves in every direct mode.
    The pools of the mode are all that was added to the process, whose books stay in order; no
    file differs. [torch.version.cuda] is unset: HyFile, not cuFile, does the transfers. *)
Theorem constructed_backend_typed (p0 : process) :
  pools_ok outside p0 -> fds_below (p_world p0) -> files (p_world p0) !! mkstemp_name pf = None ->
  forall b p, init (CO := CO) get_cache_policy cfg md pf dst_device local_cpu_backend p0 = (Ok b, p) ->
  constructed p0 b p /\ backend_ok (Node p b) /\ pools_ok (outer outside b) p.
Proof.
  intros Hok Hfds Hnew b p E. pose proof (init_run get_cache_policy cfg md pf dst_device local_cpu_backend outside Houtside Hhyfile
    p0 Hok Hfds Hnew) as Hi. rewrite E in Hi. split; [done|]. exact (constructed_backend_ok p0 b p Hi).
Qed.

(** C28: a failed construction is undone. When [__init__] raises, the books of the pools are in
    order; and with a driver that lets go, either every pool it made has been released, the
    pools of others are as they were and no file but the preflight's has changed, or the
    failure came after the resources, from an unknown cache policy, a bad number of threads or
    a closed event loop, and what is left behind is a backend in one of the modes.
    [torch.version.cuda] is unset: HyFile, not cuFile, does the transfers. *)
Theorem failed_construction_undone (p0 : process) :
  pools_ok outside p0 -> fds_below (p_world p0) -> files (p_world p0) !! mkstemp_name pf = None ->
  forall e p, init (CO := CO) get_cache_policy cfg md pf dst_device local_cpu_backend p0 = (Raise e, p) ->
  pools_ok outside p
  /\ (releases ->
       (grown outside p0 [mkstemp_name pf] [] p /\ p_active p = p_active p0)
       \/ ~ tail_accepted get_cache_policy cfg pf /\ exists b : xds_backend P, backend_mode cfg md pf local_cpu_backend outside p0 b p).
Proof.
  intros Hok Hfds Hnew e p E. pose proof (init_run get_cache_policy cfg md pf dst_device local_cpu_backend outside Houtside Hhyfile
    p0 Hok Hfds Hnew) as Hi. rewrite E in Hi. destruct Hi as [H1 H2]. split; [done|]. intros Hr.
  destruct (H2 Hr) as [Hg|[Ht (b & _ & _ & _ & Hm)]]; [|right; split; [done|by exists b]].
  left. split; [done|]. pose proof (g_active _ _ _ _ _ Hg) as Ha. simpl in Ha. lia.
Qed.

(** *** The staging buffer, as the transfers assume it *)

Context `{!TorchDtypeLaws Dt} {JC : JsonCodec} (obj_address : Z -> Z) (dv : torch_device).

(** LMCache's allocator places an object, padded to the alignment, inside its pool. *)
Definition pool_places : Prop := forall shape dt fmt n obj pl,
  pool_allocate (shape, dt, fmt) (pool_new n 4096) = (Some obj, pl) ->
  0 <= obj_address obj
  /\ forall k, align_up (prodZ shape * itemsize dt) 4096 = Ok k -> obj_address obj + k <= n.

(** The staging buffer of [XdsStaged] for a staging object *)
Definition staging_buffer (base size obj : Z) (payload : list Z) (dt : Dt) : block_staging Dt :=
  BlockStaging Dt base size (obj_address obj) (contiguous_at (base + obj_address obj) payload dt dv).

(** The constructor makes the staging buffer the transfers need. Where the allocator places
    objects inside their pool, the staging pool of a constructed backend is in service, and its
    buffer satisfies [staging_ok], the condition of the block-first store and load theorems,
    for the metadata of every whole chunk of the engine. *)
Theorem constructed_staging_fits (p0 p : process) (b : xds_backend P) (id obj : Z) :
  pool_places -> constructed p0 b p -> b_staging b = Some (HyPool id, obj) ->
  exists bs shape dt payload a base,
    lm_block_size md = Some bs /\ lm_shapes md = [shape] /\ lm_dtypes md = [dt]
    /\ p_pools p !! id = Some a /\ in_service a /\ ha_base a = Some base
    /\ forall (e : engine_layout) m, create shape dt bs e = Ok m ->
         exists g, describes m g dt /\ shape = g_logical g
           /\ staging_ok (staging_buffer base (ha_size a) obj payload dt) g dt dv (io_nbytes m).
Proof.
  intros Hplace Hc Hst. assert (staging_made md p id obj) as (bs & shape & dt & payload & size & base & pl & Hbs & Hsh & Hdt & Hpay & Hal & Hp & Hpa).
  { destruct (cn_mode _ _ _ _ _ _ _ _ _ _ Hc) as [? ? ? Ha ? Hs|? ? Ha Hs|? ? Ha ? Hs|? size base ? ? ? Ha ? ? Hp ? ? ? Hs]; try congruence.
    destruct (st_block_first (b_settings b)); [|destruct Hs; congruence].
    destruct Hs as (id' & obj' & Hs & _ & Hm & _). congruence. }
  exists bs, shape, dt, payload, (HyAlloc size false true true (Some base) (Some pl)), base.
  do 4 (split; [done|]). split; [done|]. split; [done|]. intros e m Hm.
  destruct (create_geometry _ _ _ _ _ Hm) as (g & Hg & Hlog & Hgb). exists g. split; [done|]. split; [done|].
  pose proof Hg as (Hgok & Hisz & _ & _ & _ & _ & _ & Hn & Hio).
  assert (payload = g_physical g) as ->.
  { rewrite Hlog, <- Hgb in Hpay. pose proof (physical_shape g Hgok) as Hph. congruence. }
  assert (prodZ (g_physical g) * itemsize dt = g_nbytes g) as Hnb.
  { unfold prodZ, g_physical, g_nbytes, g_runs, g_run. rewrite <- Hisz. simpl. ring. }
  rewrite Hnb in Hal. destruct (Hplace _ _ _ _ _ _ Hpa) as [Ha1 Ha2]. rewrite Hnb in Ha2.
  split; [done|]. cbn [sg_address sg_size staging_buffer ha_size]. split; [done|].
  apply Ha2. change BLOCK_FIRST_ALIGNMENT with 4096 in *. congruence.
Qed.

End lifetime.
