(* ===== verification/LifecycleExamples.v ===== *)
(** * The life cycle: concrete instances

    A driver whose device addresses are distinct, a pool allocator that hands out its bytes
    from the front, and one process, in which the theorems of [AllocatorFacts],
    [XdsPreflight] and [XdsCloseFacts] are applied. *)

From S2P Require Import Prelude Tensor Codec BlockFirst DirectIO World WorldIO HipFile GpuConnector XdsFiles Dict XdsIndex DeviceTensor XdsStaged XdsCpuStore XdsGpuStage XdsStagedExamples Allocator AllocatorFacts XdsPreflight XdsLifecycle XdsLifecycleFacts XdsCloseFacts.

Open Scope string_scope.
Open Scope list_scope.
Open Scope Z_scope.

Module LifecycleExamples.

(** A driver that keeps one byte per transfer, enough for the constant patterns of a preflight,
    with a fresh device address per allocation *)
Definition byte_write (path : string) (addr n : Z) (w : world) : Z * world :=
  match files w !! path with
  | Some f => (n, with_files w (<[path := File (ino f) (replicate (Z.to_nat n) (World.mem w addr))]> (files w)))
  | None => (-9, w)
  end.

Definition byte_read (path : string) (addr n : Z) (w : world) : Z * world :=
  match World.files w !! path with
  | Some f => (n, World.with_mem w (fun x => if (addr <=? x) && (x <? addr + n) then hd 0 (bytes f) else World.mem w x))
  | None => (-9, w)
  end.

Definition far_lib : HyFileLib := {|
  libhyfile_present := true;
  hipFileDriverOpen w := (0, w);
  hipFileDriverClose w := (0, w);
  hipFileHandleRegister fd w := (0, w);
  hipFileHandleDeregister fd w := (Ok tt, w);
  hipFileBufRegister p n w := (0, w);
  hipFileBufDeregister p w := (0, w);
  hipFileRead path p n fo dof w := byte_read path (p + dof) n w;
  hipFileWrite path p n fo dof w := byte_write path (p + dof) n w;
  hipMemcpyDtoH path fo a n w := (1, w);
  hipMemcpyHtoD a path fo n w := (1, w);
  libgalaxyhip_present := true;
  hipMemcpyDtoD dst src n w := (1, w);
  cuda_synchronize w := (Ok tt, w);
  torch_empty n w := (Ok (1000000000 * (1 + Z.of_nat (size (global_buffers (hip w))))), w)
|}.

#[export] Instance far_frames : @HyFileFrames far_lib.
Proof.
  constructor; simpl; intros; try done.
  - unfold byte_write. destruct (World.files w !! path) as [f|] eqn:E; [|done]. repeat split; simpl; try done.
    + intros q Hq. by rewrite lookup_insert_ne.
    + by rewrite lookup_insert_eq, E.
  - unfold byte_read. destruct (World.files w !! path) as [f|]; [|done]. repeat split; simpl; try done.
    intros a Ha. by replace ((p + dof <=? a) && (a <? p + dof + n)) with false by lia.
Defined.

(** A driver that says it wrote and writes nothing *)
Definition lying_lib : HyFileLib := {|
  libhyfile_present := true;
  hipFileDriverOpen := @hipFileDriverOpen far_lib;
  hipFileDriverClose := @hipFileDriverClose far_lib;
  hipFileHandleRegister := @hipFileHandleRegister far_lib;
  hipFileHandleDeregister := @hipFileHandleDeregister far_lib;
  hipFileBufRegister := @hipFileBufRegister far_lib;
  hipFileBufDeregister := @hipFileBufDeregister far_lib;
  hipFileRead := @hipFileRead far_lib;
  hipFileWrite path p n fo dof w := (n, w);
  hipMemcpyDtoH := @hipMemcpyDtoH far_lib;
  hipMemcpyHtoD := @hipMemcpyHtoD far_lib;
  libgalaxyhip_present := true;
  hipMemcpyDtoD := @hipMemcpyDtoD far_lib;
  cuda_synchronize := @cuda_synchronize far_lib;
  torch_empty := @torch_empty far_lib
|}.

(** A pool: its size and how much is used; an object is its address. *)
Definition padded {Dt} `{!TorchDtype Dt} (req : list Z * Dt * MemoryFormat) : Z :=
  let '(sh, dt, _) := req in (prodZ sh * itemsize dt + 4095) / 4096 * 4096.

#[export] Instance pool_ops : PoolOps (Z * Z) (list Z * ex_dtype * MemoryFormat) := {
  pool_new size _ := (size, 0);
  pool_allocate req pl :=
    if pl.2 + padded req <=? pl.1 then (Some pl.2, (pl.1, pl.2 + padded req)) else (None, pl);
  pool_batched_allocate req n pl :=
    if pl.2 + n * padded req <=? pl.1
    then (Some ((fun i => pl.2 + i * padded req) <$> rangeZ 0 (Z.to_nat n)), (pl.1, pl.2 + n * padded req))
    else (None, pl);
  pool_free _ pl := pl;
  pool_batched_free _ pl := pl;
}.

(** No cuFile here *)
#[export] Instance no_cufile : CuFileOps (Z * Z) (list Z * ex_dtype * MemoryFormat) := {
  cufile_new _ := st_raise FileNotFoundError;
  cufile_base_pointer _ := 0;
  cufile_allocate _ _ := st_raise FileNotFoundError;
  cufile_batched_allocate _ _ _ := st_raise FileNotFoundError;
  cufile_free _ _ := st_raise FileNotFoundError;
  cufile_zero _ := st_raise FileNotFoundError;
  cufile_close _ := st_raise FileNotFoundError;
  cufile_initialize := mret false;
  obj_is_valid obj p := bool_decide (obj ∉ p_invalid p);
}.

Definition fresh_class : hip_class := HipClass false false ∅ [].
Definition w0 : world := World ∅ ∅ 100 (fun _ => 7) [] fresh_class.
Definition p0 : process (Z * Z) := Process w0 0 ∅ 0 [].
Definition none_outside : Z -> Z := fun _ => 0.

Lemma w0_fds : fds_below w0.
Proof. intros fd Hfd. unfold w0 in Hfd. simpl in Hfd. rewrite lookup_empty in Hfd. by destruct Hfd. Defined.

Lemma fresh_pools : pools_ok none_outside p0.
Proof. by split. Qed.

Lemma none_nonneg b : 0 <= none_outside b.
Proof. done. Qed.

(** ** Pools *)

Definition request : Type := list Z * ex_dtype * MemoryFormat.

(** Two pools; the first is closed, allocates no more and is closed again. *)
Definition pool_history : list (pool_op request) :=
  [PoolNew 8192; PoolNew 4096; PoolAllocate 1 ([16], Float16, KV_MLA_FMT); PoolClose 0;
   PoolAllocate 0 ([16], Float16, KV_MLA_FMT); PoolDel 0].

Definition p_history : process (Z * Z) := run_st (run_pool_ops (HL := far_lib) pool_history) p0.

(** A history of two pools, one of them closed: one is counted and holds the only
    registration, the driver is open, and closing the other closes it. *)
Lemma pools_share_driver_witness :
  pools_ok none_outside p_history
  /\ p_active p_history = 1 /\ driver_opened (hip (p_world p_history)) = true
  /\ (let p2 := run_st (Allocator.close (HL := far_lib) 1) p_history in
       p_active p2 = 0 /\ driver_opened (hip (p_world p2)) = false /\ Allocator.close (HL := far_lib) 1 p2 = (Ok tt, p2)).
Proof.
  pose proof (pools_share_driver (HL := far_lib) none_outside none_nonneg pool_history p0 fresh_pools) as (H & _ & _ & Hc & _).
  split; [exact H|]. split; [vm_compute; reflexivity|]. split; [vm_compute; reflexivity|].
  assert (exists a, p_pools p_history !! 1 = Some a) as [a Ha] by (eexists; vm_compute; reflexivity).
  assert ((Allocator.close (HL := far_lib) 1 p_history).1 = Ok tt) as Hr by (vm_compute; reflexivity).
  cbv zeta. split; [vm_compute; reflexivity|]. split; [vm_compute; reflexivity|].
  assert (Allocator.close (HL := far_lib) 1 p_history = (Ok tt, run_st (Allocator.close (HL := far_lib) 1) p_history)) as E
    by (unfold run_st; rewrite <- Hr; apply surjective_pairing).
  exact (proj1 (proj2 (proj2 (Hc 1 a _ Ha E)))).
Defined.

(** ** The preflight *)

Definition probe (L : HyFileLib) (numel : Z) : result unit * world :=
  verify_hyfile_roundtrip (HL := L) (MkHyFileDDS false false) 4000 numel true [0; 0; 0]%nat "/xds/tmp" w0.

(** A driver that moves the bytes is accepted, with the evidence; one that only reports a
    full write is not, nor is a buffer of one page. *)
Lemma preflight_fails_closed_witness :
  ((probe far_lib 8192).1 = Ok tt
   /\ accepted (HL := far_lib) (MkHyFileDDS false false) 4000 "/xds/tmp" w0 (probe far_lib 8192).2
   /\ probe_frame "/xds/tmp" 4000 w0 (probe far_lib 8192).2)
  /\ (probe lying_lib 8192).1
     = Raise (RuntimeError "HyFile preflight write readback mismatch; refusing unsafe XDS startup")
  /\ (probe far_lib 8191).1 = Raise (RuntimeError "HyFile preflight requires at least an 8 KiB registered buffer").
Proof.
  split; [|split; vm_compute; reflexivity].
  pose proof (preflight_fails_closed (HL := far_lib) (MkHyFileDDS false false) 4000 8192 true [0; 0; 0]%nat "/xds/tmp" w0
    eq_refl w0_fds) as H. fold (probe far_lib 8192) in H.
  assert ((probe far_lib 8192).1 = Ok tt) as Hr by (vm_compute; reflexivity).
  destruct (probe far_lib 8192) as [r w']. simpl in Hr. destruct H as (Hf & _ & Ha). split; [exact Hr|].
  split; [exact (proj2 (Ha Hr))|exact Hf].
Defined.

(** ** The backend *)

Definition options (l : list (string * option_value)) : option (gmap string option_value) := Some (list_to_map l).

Definition config (buffer : option Z) (extra : list (string * option_value)) : lm_config :=
  LmConfig "/xds" true buffer (options extra) (Some "XdsBackend") false false "LRU" (Some (1, 2%positive)).

(** One layer, hidden size two, half precision, chunks of four tokens in blocks of two *)
Definition metadata : lm_metadata ex_dtype :=
  LmMetadata _ false true 1 [1; 2; 4; 1; 2] (Some 2) 4 [[2; 1; 4; 2]] [Float16] 0 1
    (options [("lmcache_block_first", OptBool true)]).

Definition plat : platform := Platform false true 4096 "/xds/tmp" [0; 0; 0]%nat true.

Definition policy_of (name : string) : result string :=
  if String.eqb name "LRU" then Ok name else Raise (ValueError "Unknown cache policy").

Definition staged_config : lm_config := config (Some 1) [].
Definition direct_config : lm_config := config None [("gds_direct_only", OptStr "True")].

Definition start (L : HyFileLib) (c : lm_config) : ST (process (Z * Z)) (xds_backend string) :=
  init (HL := L) policy_of c metadata plat "cuda" true.

#[local] Abbreviation constructed_here := (constructed (HL := far_lib) policy_of).

(** The two constructions, evaluated *)
Lemma staged_started : exists b p, start far_lib staged_config p0 = (Ok b, p)
  /\ b_allocator b = Some (HyPool 0) /\ b_staging b = Some (HyPool 1, 0) /\ b_driver_owned b = false /\ p_active p = 2.
Proof.
  assert (match start far_lib staged_config p0 with (Ok b, p) => b_allocator b = Some (HyPool 0)
      /\ b_staging b = Some (HyPool 1, 0) /\ b_driver_owned b = false /\ p_active p = 2 | _ => False end) as Hv
    by (vm_compute; repeat split; reflexivity).
  destruct (start far_lib staged_config p0) as [[b|e] p]; [by exists b, p|done].
Qed.

Lemma direct_started : exists b p, start far_lib direct_config p0 = (Ok b, p)
  /\ b_allocator b = None /\ b_driver_owned b = true /\ supports_direct_io b STORE = true.
Proof.
  assert (match start far_lib direct_config p0 with (Ok b, p) => b_allocator b = None
      /\ b_driver_owned b = true /\ supports_direct_io b STORE = true | _ => False end) as Hv
    by (vm_compute; repeat split; reflexivity).
  destruct (start far_lib direct_config p0) as [[b|e] p]; [by exists b, p|done].
Qed.

Lemma staged_constructed b p :
  start far_lib staged_config p0 = (Ok b, p) ->
  constructed_here staged_config metadata plat "cuda" true none_outside p0 b p.
Proof.
  intros E. pose proof (init_run (HL := far_lib) (CO := no_cufile) policy_of staged_config metadata plat "cuda" true
    none_outside none_nonneg eq_refl p0 fresh_pools w0_fds eq_refl) as H.
  change (init (HL := far_lib) (CO := no_cufile) policy_of staged_config metadata plat "cuda" true p0)
    with (start far_lib staged_config p0) in H.
  by rewrite E in H.
Qed.

(** A pool of one MiB with its staging pool, and a direct backend with the driver it
    opened: both are typed, and the invariant of closing holds. *)
Lemma constructed_backend_typed_witness :
  (exists b p, start far_lib staged_config p0 = (Ok b, p)
    /\ constructed_here staged_config metadata plat "cuda" true none_outside p0 b p
    /\ backend_ok staged_config none_outside (Node p b)
    /\ b_allocator b = Some (HyPool 0) /\ b_staging b = Some (HyPool 1, 0) /\ p_active p = 2)
  /\ (exists b p, start far_lib direct_config p0 = (Ok b, p)
    /\ constructed_here direct_config metadata plat "cuda" true none_outside p0 b p
    /\ b_allocator b = None /\ b_driver_owned b = true /\ supports_direct_io b STORE = true).
Proof.
  split.
  - pose proof (constructed_backend_typed (HL := far_lib) (CO := no_cufile) policy_of staged_config metadata plat "cuda" true
      none_outside none_nonneg eq_refl p0 fresh_pools w0_fds eq_refl) as H.
    change (forall b p, start far_lib staged_config p0 = (Ok b, p) ->
      constructed_here staged_config metadata plat "cuda" true none_outside p0 b p
      /\ backend_ok staged_config none_outside (Node p b) /\ pools_ok (outer none_outside b) p) in H.
    destruct staged_started as (b & p & E & Ha & Hs & Ho & Hn). exists b, p. destruct (H b p E) as [Hc Hb].
    split; [exact E|]. split; [exact Hc|]. split; [exact (proj1 Hb)|split; [exact Ha|split; [exact Hs|exact Hn]]].
  - pose proof (constructed_backend_typed (HL := far_lib) (CO := no_cufile) policy_of direct_config metadata plat "cuda" true
      none_outside none_nonneg eq_refl p0 fresh_pools w0_fds eq_refl) as H.
    change (forall b p, start far_lib direct_config p0 = (Ok b, p) ->
      constructed_here direct_config metadata plat "cuda" true none_outside p0 b p
      /\ backend_ok direct_config none_outside (Node p b) /\ pools_ok (outer none_outside b) p) in H.
    destruct direct_started as (b & p & E & Hv). exists b, p. destruct (H b p E) as [Hc _].
    split; [exact E|]. split; [exact Hc|exact Hv].
Defined.

Lemma far_releases : releases (HL := far_lib).
Proof. by split. Qed.

Lemma nothing_in_flight : Forall tasks_drain [mret tt; mret tt : ST xds_io unit].
Proof. by repeat constructor; intros out s _ Hs; exists s. Qed.

(** The pool and its staging pool are given back by the first of two calls. *)
Lemma close_gives_back_witness : exists b p, start far_lib staged_config p0 = (Ok b, p)
  /\ let n := run_st (close_attempts (HL := far_lib) (CO := no_cufile) staged_config [mret tt; mret tt]) (Node p b) in
     b_closed (n_self n) = true /\ p_active (n_process n) = 0 /\ b_staging (n_self n) = None
     /\ forall x, refs (hip (p_world (n_process n))) x = 0.
Proof.
  destruct staged_started as (b & p & E & Ha & Hs & Ho & Hn). exists b, p. split; [exact E|].
  pose proof (close_gives_back (HL := far_lib) (CO := no_cufile) policy_of staged_config metadata plat "cuda" true
    none_outside none_nonneg eq_refl p0 p b [mret tt; mret tt] fresh_pools (staged_constructed b p E)
    nothing_in_flight) as (_ & _ & Hc & Hr & _).
  assert (b_closed (n_self (run_st (close_attempts (HL := far_lib) (CO := no_cufile) staged_config [mret tt; mret tt]) (Node p b))) = true)
    as Hcl by (apply Hr; [exact far_releases|discriminate]).
  destruct (Hc Hcl) as (Hact & Hrefs & _ & _ & Hst & _ & _).
  split; [exact Hcl|]. split; [exact Hact|]. split; [exact Hst|exact Hrefs].
Defined.

(** A pool too small for the preflight *)
Definition tiny_config : lm_config := config (Some 0) [].

(** Its construction raises, and the pool that was made is released. *)
Lemma failed_construction_undone_witness : exists e p, start far_lib tiny_config p0 = (Raise e, p)
  /\ pools_ok none_outside p /\ grown none_outside p0 ["/xds/tmp"] [] p /\ p_active p = 0.
Proof.
  pose proof (failed_construction_undone (HL := far_lib) (CO := no_cufile) policy_of tiny_config metadata plat "cuda" true
    none_outside none_nonneg eq_refl p0 fresh_pools w0_fds eq_refl) as H.
  change (forall e p, start far_lib tiny_config p0 = (Raise e, p) -> pools_ok none_outside p
    /\ (releases (HL := far_lib) -> (grown none_outside p0 ["/xds/tmp"] [] p /\ p_active p = p_active p0)
       \/ ~ tail_accepted policy_of tiny_config plat
          /\ exists b : xds_backend string, backend_mode (HL := far_lib) tiny_config metadata plat true none_outside p0 b p)) in H.
  assert (is_Ok (start far_lib tiny_config p0).1 = false) as Hr by (vm_compute; reflexivity).
  destruct (start far_lib tiny_config p0) as [[b|e] p]; [discriminate Hr|]. exists e, p.
  destruct (H e p eq_refl) as [Hok Hrel]. split; [reflexivity|]. split; [exact Hok|].
  destruct (Hrel far_releases) as [[Hg Hact]|[Hn _]]; [split; [exact Hg|exact Hact]|].
  exfalso. apply Hn. split; [by eexists|split; [by eexists|reflexivity]].
Defined.

Lemma places : pool_places (Dt := ex_dtype) (fun obj => obj).
Proof.
  intros shape dt fmt n obj pl H. unfold pool_allocate, pool_new, pool_ops, padded in H. cbn [fst snd] in H.
  case_match eqn:Hle; [|done]. apply Z.leb_le in Hle. injection H as <- <-. split; [done|].
  intros k (_ & _ & ->)%align_up_Ok. replace (prodZ shape * itemsize dt + 4096 - 1) with (prodZ shape * itemsize dt + 4095) by lia.
  lia.
Qed.

(** The staging buffer of the backend above holds the chunk's 32 bytes, padded. *)
Lemma constructed_staging_fits_witness : exists b p a base, start far_lib staged_config p0 = (Ok b, p)
  /\ p_pools p !! 1 = Some a /\ in_service a /\ ha_base a = Some base
  /\ forall e m, create (JC := StagedExamples.codec) [2; 1; 4; 2] Float16 2 e = Ok m ->
       exists g, describes m g Float16 /\ exists payload,
         staging_ok (staging_buffer (fun obj => obj) (TorchDevice "cuda" None) base (ha_size a) 0 payload Float16)
           g Float16 (TorchDevice "cuda" None) (io_nbytes m).
Proof.
  destruct staged_started as (b & p & E & Ha & Hs & Ho & Hn).
  destruct (constructed_staging_fits (HL := far_lib) (JC := StagedExamples.codec) policy_of staged_config metadata plat "cuda" true
    none_outside (fun obj => obj) (TorchDevice "cuda" None) p0 p b 1 0 places (staged_constructed b p E) Hs)
    as (bs & shape & dt & payload & a & base & Hbs & Hsh & Hdt & Hp & Hr & Hb & Hm).
  injection Hbs as <-. injection Hsh as <-. injection Hdt as <-.
  exists b, p, a, base. split; [exact E|]. split; [exact Hp|]. split; [exact Hr|]. split; [exact Hb|].
  intros e m Hc. destruct (Hm e m Hc) as (g & Hg & _ & Hst). exists g. split; [exact Hg|]. exists payload. exact Hst.
Defined.

(** ** The driver a direct backend closes under others *)

(** A direct backend and, beside it, a pool: closing the backend closes the driver the pool is
    registered with. *)
Definition beside : result unit * process (Z * Z) :=
  match start far_lib direct_config p0 with
  | (Ok b, p) =>
      let p1 := run_st (hyfile_new (request := request) (HL := far_lib) 8192) p in
      let '(r, n) := close (HL := far_lib) (CO := no_cufile) direct_config (mret tt) (Node p1 b) in (r, n_process n)
  | (Raise e, p) => (Raise e, p)
  end.

Theorem direct_close_takes_driver :
  beside.1 = Ok tt /\ p_active beside.2 = 1 /\ driver_opened (hip (p_world beside.2)) = false.
Proof. vm_compute. repeat split. Qed.

(** A bad thread count is noticed after the driver has been opened: it stays open. *)
Theorem late_failure_keeps_driver :
  let '(r, p) := start far_lib (config None [("gds_direct_only", OptBool true); ("xds_io_threads", OptInt 0)]) p0 in
  r = Raise (ValueError "max_workers must be greater than 0") /\ driver_opened (hip (p_world p)) = true.
Proof. vm_compute. split; reflexivity. Qed.

End LifecycleExamples.
