(* ===== verification/XdsDirect.v ===== *)
(** * Batched direct I/O

    [batched_direct_put] and [batched_direct_get] of [XdsBackend] ([xds_backend.py]): the
    reservations, the sequential and the pipelined loops with their fallbacks, and when
    retrieves may run in parallel. A pipelined batch's jobs run one file transaction
    at a time, in any order. *)

From S2P Require Import Prelude Tensor Codec BlockFirst DirectIO World HipFile XdsFiles XdsLoad XdsPaths XdsMeta Dict XdsIndex.

Open Scope string_scope.
Open Scope list_scope.
Open Scope Z_scope.

(** What the direct paths catch: [(BlockFirstFormatError, OSError, RuntimeError, ValueError)] *)
Definition is_direct_fallback (e : exn) : bool :=
  match e with
  | BlockFirstFormatError _ | OSError _ | FileNotFoundError | RuntimeError _ | ValueError _ => true
  | _ => false
  end.

(** [_DirectStoreJob] *)
Record direct_store_job {K : Type} := DirectStoreJob {
  ds_index : nat;
  ds_key : K;
  ds_path : string;
  ds_required_size : Z;
  ds_descriptor : DirectIODescriptor;      (* the argument of its future *)
}.
Arguments direct_store_job : clear implicits.

(** [_DirectRetrieveJob] *)
Record direct_retrieve_job {K : Type} := DirectRetrieveJob {
  dr_index : nat;
  dr_key : K;
  dr_path : string;
  dr_metadata : BlockFirstDiskMetadata;    (* the argument of its future *)
  dr_descriptor : DirectIODescriptor;
}.
Arguments direct_retrieve_job : clear implicits.

(** [_can_parallel_direct_retrieve]: every job names its blocks, none twice, none in two jobs. *)
Fixpoint distinct_blocks_from (seen : gset Z) (ds : list DirectIODescriptor) : bool :=
  match ds with
  | [] => true
  | d :: ds =>
      let block_ids := physical_block_ids d in
      match leading_edge d with
      | Some _ => false
      | None =>
          if is_nil block_ids then false
          else
            let block_set := list_to_set block_ids : gset Z in
            if negb (Nat.eqb (size block_set) (length block_ids))
               || negb (bool_decide (seen ∩ block_set = ∅)) then false
            else distinct_blocks_from (seen ∪ block_set) ds
      end
  end.

Definition can_parallel_direct_retrieve {K} (jobs : list (direct_retrieve_job K)) : bool :=
  if (length jobs <? 2)%nat then false else distinct_blocks_from ∅ (dr_descriptor <$> jobs).

(** The outcome of [m] as a value: what a future holds *)
Definition attempt {S A} (m : ST S A) : ST S (result A) := fun s => let '(r, s') := m s in (Ok r, s').

Section direct.
Context {K Dt P : Type} `{!CacheKey K, !TorchDtype Dt} {JC : JsonCodec} {HL : HyFileLib}.
Context `{!CachePolicy K (XDSCacheMetadata Dt) P}.
Context (cfg : xds_config Dt).
(* the order in which the pool's threads run [n] submitted jobs *)
Context (order : nat -> list nat).
Implicit Types (key : K) (d : DirectIODescriptor).

Definition direct_enabled : bool := xe_direct_enabled (xc_engine cfg).

(** The futures of [jobs], run in the order [l] *)
Fixpoint run_futures {J A} (f : J -> ST xds_io A) (jobs : list J) (l : list nat)
    : ST (xds_state K Dt P) (gmap nat (result A)) :=
  match l with
  | [] => mret ∅
  | i :: l' =>
      match jobs !! i with
      | None => run_futures f jobs l'
      | Some job =>
          r ← on_io (attempt (f job));
          rest ← run_futures f jobs l';
          mret (<[i := r]> rest)
      end
  end.

(** [future.result()] *)
Definition future_result {A} (outcomes : gmap nat (result A)) (j : nat) : ST (xds_state K Dt P) A :=
  match outcomes !! j with
  | Some r => st_lift r
  | None => st_raise (RuntimeError "the pool never ran the job")
  end.

(** ** Store *)

Definition run_direct_store_io (path : string) d : ST xds_io BlockFirstDiskMetadata :=
  on_world os_makedirs;; save_direct_xds (xc_engine cfg) path d.

Definition rollback_direct_store key (required_size : Z) (policy_updated : bool)
    : ST (xds_state K Dt P) unit :=
  (if required_size =? 0 then mret tt else add_size (- required_size));;
  if policy_updated then update_on_force_evict key else mret tt.

Definition reserve_direct_size (required_size : Z) : ST (xds_state K Dt P) bool :=
  add_size required_size;; mret true.

(** The reservation of one store; nothing is reserved where it raises. *)
Definition reserve_direct key : ST (xds_state K Dt P) (option Z) :=
  st_catch is_direct_fallback
    (m ← st_lift (make_direct_block_first_metadata (xc_engine cfg));
     let required_size := BLOCK_FIRST_HEADER_SIZE + io_nbytes m in
     reserved ← (if eviction cfg then evict cfg required_size else reserve_direct_size required_size);
     mret (if reserved : bool then Some required_size else None))
    (fun _ => rollback_direct_store key 0 false;; mret None).

(** The body of the loop between inserting and removing the put task *)
Definition direct_put_try (pipeline : bool) (index : nat) key d
    : ST (xds_state K Dt P) (bool * option (direct_store_job K)) :=
  reserved ← reserve_direct key;
  match reserved with
  | None => mret (false, None)
  | Some required_size =>
      update_on_put key;;
      let path := (key_to_path (xds_path cfg) key true).1.1.1 in
      if pipeline then mret (false, Some (DirectStoreJob _ index key path required_size d))
      else
        st_catch is_direct_fallback
          (m ← on_io (run_direct_store_io path d);
           insert_direct_key key path m;;
           mret (true, None))
          (fun _ => rollback_direct_store key required_size true;; mret (false, None))
  end.

(** One key of the batch: its result so far and, when queued, its job *)
Definition direct_put_one (pipeline : bool) (index : nat) key (descriptor : option DirectIODescriptor)
    : ST (xds_state K Dt P) (bool * option (direct_store_job K)) :=
  match descriptor with
  | None => mret (false, None)
  | Some d =>
      if negb direct_enabled then mret (false, None)
      else
        existing ← hot_get key;
        match existing ≫= disk_metadata with
        | Some _ => update_on_hit key;; mret (true, None)
        | None =>
            (match existing with Some _ => remove key;; mret tt | None => mret tt end);;
            pending ← exists_in_put_tasks key;
            if pending : bool then mret (false, None)
            else
              insert_put_task key;;
              outcome ← st_catch any_exn (direct_put_try pipeline index key d)
                          (fun e => remove_put_task key;; st_raise e);
              match outcome with
              | (ok, None) => remove_put_task key;; mret (ok, None)
              | (ok, Some job) => mret (ok, Some job)
              end
        end
  end.

(** [zip(keys, descriptors, strict=True)] *)
Fixpoint direct_put_loop (pipeline : bool) (index : nat) (keys : list K)
    (descriptors : list (option DirectIODescriptor))
    : ST (xds_state K Dt P) (list bool * list (direct_store_job K)) :=
  match keys, descriptors with
  | key :: keys, descriptor :: descriptors =>
      '(ok, job) ← direct_put_one pipeline index key descriptor;
      '(oks, jobs) ← direct_put_loop pipeline (S index) keys descriptors;
      mret (ok :: oks, option_list job ++ jobs)
  | [], [] => mret ([], [])
  | _, _ => st_raise (ValueError "zip() arguments have different lengths")
  end.

Definition finish_direct_store (outcomes : gmap nat (result BlockFirstDiskMetadata)) (j : nat)
    (job : direct_store_job K) : ST (xds_state K Dt P) bool :=
  st_finally
    (st_catch is_direct_fallback
      (m ← future_result outcomes j;
       insert_direct_key (ds_key job) (ds_path job) m;;
       mret true)
      (fun _ => rollback_direct_store (ds_key job) (ds_required_size job) true;; mret false))
    (remove_put_task (ds_key job)).

Fixpoint finish_direct_stores (outcomes : gmap nat (result BlockFirstDiskMetadata)) (j : nat)
    (jobs : list (direct_store_job K)) (results : list bool) : ST (xds_state K Dt P) (list bool) :=
  match jobs with
  | [] => mret results
  | job :: jobs =>
      ok ← finish_direct_store outcomes j job;
      finish_direct_stores outcomes (S j) jobs
        (if ok : bool then <[ds_index job := true]> results else results)
  end.

Definition batched_direct_put (store_pipeline : bool) (keys : list K)
    (descriptors : list (option DirectIODescriptor)) : ST (xds_state K Dt P) (list bool) :=
  if negb (direct_store_enabled cfg) then mret (replicate (length keys) false)
  else
    '(results, jobs) ← direct_put_loop (store_pipeline && (1 <? length keys)%nat) 0 keys descriptors;
    outcomes ← run_futures (fun job => run_direct_store_io (ds_path job) (ds_descriptor job)) jobs
                 (order (length jobs));
    finish_direct_stores outcomes 0 jobs results.

(** ** Retrieve *)

Definition prepare_direct_retrieve_io (env : world -> world) (job : direct_retrieve_job K)
    : ST xds_io unit :=
  on_world (prepare_direct_xds (xc_engine cfg) env (dr_path job) (dr_metadata job) (dr_descriptor job)).

Definition transfer_direct_retrieve_io (job : direct_retrieve_job K) : ST xds_io unit :=
  transfer_direct_xds (xc_engine cfg) (dr_path job) (dr_descriptor job).

Definition direct_get_one (env : world -> world) (pipeline : bool) (index : nat) key
    (descriptor : option DirectIODescriptor) : ST (xds_state K Dt P) (bool * option (direct_retrieve_job K)) :=
  match descriptor with
  | None => mret (false, None)
  | Some d =>
      if negb direct_enabled then mret (false, None)
      else
        entry ← hot_get key;
        match entry with
        | None => mret (false, None)
        | Some m =>
            match disk_metadata m with
            | None => mret (false, None)
            | Some dm =>
                if pipeline
                then mret (false, Some (DirectRetrieveJob _ index key (xm_path m) dm d))
                else
                  st_catch is_direct_fallback
                    (on_io (load_direct_xds (xc_engine cfg) env (xm_path m) dm d);;
                     update_on_hit key;;
                     mret (true, None))
                    (fun _ => mret (false, None))
            end
        end
  end.

Fixpoint direct_get_loop (env : world -> world) (pipeline : bool) (index : nat) (keys : list K)
    (descriptors : list (option DirectIODescriptor))
    : ST (xds_state K Dt P) (list bool * list (direct_retrieve_job K)) :=
  match keys, descriptors with
  | key :: keys, descriptor :: descriptors =>
      '(ok, job) ← direct_get_one env pipeline index key descriptor;
      '(oks, jobs) ← direct_get_loop env pipeline (S index) keys descriptors;
      mret (ok :: oks, option_list job ++ jobs)
  | [], [] => mret ([], [])
  | _, _ => st_raise (ValueError "zip() arguments have different lengths")
  end.

(** The jobs whose file was checked and whose memory is registered *)
Fixpoint prepared_jobs (outcomes : gmap nat (result unit)) (j : nat) (jobs : list (direct_retrieve_job K))
    : ST (xds_state K Dt P) (list (direct_retrieve_job K)) :=
  match jobs with
  | [] => mret []
  | job :: jobs =>
      ok ← st_catch is_direct_fallback
             (future_result outcomes j;;
              on_io (ensure_direct_registration (dr_descriptor job));;
              mret true)
             (fun _ => mret false);
      rest ← prepared_jobs outcomes (S j) jobs;
      mret (if ok : bool then job :: rest else rest)
  end.

(** [transfers] is [None] where the jobs are not transferred in parallel. *)
Fixpoint finish_direct_retrieves (transfers : option (gmap nat (result unit))) (j : nat)
    (jobs : list (direct_retrieve_job K)) (results : list bool) : ST (xds_state K Dt P) (list bool) :=
  match jobs with
  | [] => mret results
  | job :: jobs =>
      ok ← st_catch is_direct_fallback
             ((match transfers with
               | Some outcomes => future_result outcomes j
               | None => on_io (transfer_direct_retrieve_io job)
               end);;
              update_on_hit (dr_key job);;
              mret true)
             (fun _ => mret false);
      finish_direct_retrieves transfers (S j) jobs
        (if ok : bool then <[dr_index job := true]> results else results)
  end.

Definition batched_direct_get (env : world -> world) (retrieve_pipeline : bool) (keys : list K)
    (descriptors : list (option DirectIODescriptor)) : ST (xds_state K Dt P) (list bool) :=
  '(results, jobs) ←
    direct_get_loop env (retrieve_pipeline && (1 <? length keys)%nat) 0 keys descriptors;
  checked ← run_futures (prepare_direct_retrieve_io env) jobs (order (length jobs));
  prepared ← prepared_jobs checked 0 jobs;
  transfers ← (if can_parallel_direct_retrieve prepared
               then t ← run_futures transfer_direct_retrieve_io prepared (order (length prepared));
                    mret (Some t)
               else mret None);
  finish_direct_retrieves transfers 0 prepared results.

End direct.

(** ** Lemmas: the invariant *)

Section facts.
Context {K Dt P : Type} `{!CacheKey K, !TorchDtype Dt, !TorchDtypeLaws Dt} {JC : JsonCodec}.
Context {HL : HyFileLib}.
Context `{!CachePolicy K (XDSCacheMetadata Dt) P, !CachePolicyLaws K (XDSCacheMetadata Dt) P can_evict}.
Context (cfg : xds_config Dt) (limit : option Z).
Context (Hlimit : forall c, limit = Some c -> eviction cfg = true /\ c = max_xds_size cfg).
Context (order : nat -> list nat).
Implicit Types (key : K) (s : xds_state K Dt P) (d : DirectIODescriptor).

#[local] Abbreviation ok n := (index_ok cfg limit n).

(** The metadata every direct store of this engine publishes *)
Definition direct_metadata (m : BlockFirstDiskMetadata) : Prop :=
  make_direct_block_first_metadata (xc_engine cfg) = Ok m.

Lemma direct_metadata_size m : direct_metadata m -> 0 < io_nbytes m.
Proof.
  unfold direct_metadata, make_direct_block_first_metadata, make_block_first_metadata.
  destruct (one_group _) as [[shape dt]|]; [|done]. destruct (xe_block_size _) as [bs|]; [|done].
  unfold create. intros H. res_inv. subst.
  match goal with Hv : BlockFirst.validate _ = Ok ?u |- _ => destruct u;
    apply validate_sizes in Hv as (? & ? & ? & ? & ? & ? & ? & ? & _) end.
  simpl in *. lia.
Qed.

Lemma save_direct_metadata path d i m i' :
  run_direct_store_io cfg path d i = (Ok m, i') -> direct_metadata m.
Proof.
  unfold run_direct_store_io, save_direct_xds, mbind, ST_bind. destruct (on_world _ i) as [[[]|e] i1]; [|done].
  unfold st_lift. destruct (check_direct_store _ d) as [m0|e] eqn:E; [|done].
  apply check_direct_store_Ok in E as (_ & _ & _ & _ & E & _).
  destruct (ensure_direct_registration d i1) as [[[]|e] i2]; [|done].
  destruct (on_world _ i2) as [[[]|e] i3]; [|done]. by intros [= <- <-].
Qed.

Definition job_reserves (j : direct_store_job K) : Prop :=
  exists m, direct_metadata m /\ ds_required_size j = BLOCK_FIRST_HEADER_SIZE + io_nbytes m.

Lemma direct_size_nonneg m : direct_metadata m -> 0 <= BLOCK_FIRST_HEADER_SIZE + io_nbytes m.
Proof. intros H%direct_metadata_size. unfold BLOCK_FIRST_HEADER_SIZE. lia. Qed.

Lemma rollback_ok n key r b :
  0 <= r -> triple (ok (n + r)) (rollback_direct_store (P := P) (Dt := Dt) key r b) (fun _ => ok n) (fun _ => ok n).
Proof.
  intros Hr s Hs. unfold rollback_direct_store. destruct (Z.eqb_spec r 0) as [->|].
  - rewrite Z.add_0_r in Hs. destruct b; [by eapply index_ok_ext; [..|exact Hs]|done].
  - apply (credit_ok _ _ _ r) in Hs; [|done]. replace (n + r - r) with n in Hs by lia.
    destruct b; simpl; by eapply index_ok_ext; [..|exact Hs].
Qed.

Lemma reserve_direct_ok n key :
  triple (ok n) (reserve_direct (P := P) cfg key)
    (fun r s => match r with
       | Some r => (exists m, direct_metadata m /\ r = BLOCK_FIRST_HEADER_SIZE + io_nbytes m) /\ ok (n + r) s
       | None => ok n s
       end) (fun _ => ok n).
Proof.
  unfold reserve_direct. apply triple_catch with (E' := fun _ => ok n).
  - apply (triple_bind _ _ _ (fun m s => direct_metadata m /\ ok n s)); [by apply triple_lift|].
    intros m. apply triple_pure. intros Hm. cbv zeta.
    set (r := BLOCK_FIRST_HEADER_SIZE + io_nbytes m).
    apply (triple_bind _ _ _ (fun b : bool => ok (if b then n + r else n))).
    + exact (reserve_triple cfg limit Hlimit n r).
    + intros [] s Hs; [|exact Hs]. simpl. split; [by exists m|exact Hs].
  - intros e. destruct (is_direct_fallback e); [|by intros s Hs].
    apply (triple_bind _ _ _ (fun _ => ok n)); [|by intros [] s Hs].
    eapply triple_pre; [by apply rollback_ok|]. intros s. by rewrite Z.add_0_r.
Qed.

(** Publishing consumes the reservation. *)
Lemma insert_direct_ok n key path m :
  direct_metadata m ->
  triple (ok (n + (BLOCK_FIRST_HEADER_SIZE + io_nbytes m)))
    (insert_direct_key (P := P) (Dt := Dt) key path m) (fun _ => ok n)
    (fun _ => ok (n + (BLOCK_FIRST_HEADER_SIZE + io_nbytes m))).
Proof.
  intros Hm. unfold insert_direct_key.
  apply (triple_bind _ _ _ (fun e s => block_first_entry (Dt := Dt) path m = Ok e
    /\ ok (n + (BLOCK_FIRST_HEADER_SIZE + io_nbytes m)) s)); [by apply triple_lift|].
  intros e. apply triple_pure. intros He s Hs. unfold hot_set, st_modify.
  pose proof (block_first_entry_size _ _ _ He) as Hsz.
  pose proof (direct_size_nonneg m Hm) as Hnn.
  assert (0 <= xm_size e) as Hpos by lia.
  pose proof (hot_set_ok cfg limit _ key e s Hpos Hs) as H.
  eapply index_ok_weaken; [|exact H]. destruct (od_get key (hot_cache s)) as [m'|] eqn:E; simpl; [|lia].
  pose proof (ix_get_size cfg limit _ key m' s Hs E). lia.
Qed.

Definition put_job_reserved (o : option (direct_store_job K)) : Z :=
  match o with Some j => ds_required_size j | None => 0 end.

Definition put_post (n : Z) (r : bool * option (direct_store_job K)) s : Prop :=
  (forall j, r.2 = Some j -> job_reserves j) /\ ok (n + put_job_reserved r.2) s.

Lemma direct_put_try_ok n pipeline index key d :
  triple (ok n) (direct_put_try (P := P) cfg pipeline index key d)
    (put_post n) (fun _ => ok n).
Proof.
  unfold direct_put_try. eapply triple_bind; [apply reserve_direct_ok|].
  intros [r|]; [|intros s Hs; unfold put_post; simpl; rewrite Z.add_0_r; by split].
  apply triple_pure. intros (m & Hm & Hr).
  assert (0 <= r) as Hnn by (rewrite Hr; by apply direct_size_nonneg).
  apply (triple_bind _ _ _ (fun _ => ok (n + r))); [|intros []; destruct pipeline].
  - eapply triple_exn; [apply preserves_triple; by apply modify_ok|].
    intros e s. apply index_ok_weaken. lia.
  - intros s Hs. split; [|exact Hs]. intros j [= <-]. by exists m.
  - apply triple_catch with (E' := fun _ => ok (n + r)).
    + apply (triple_bind _ _ _ (fun m' s => direct_metadata m' /\ ok (n + r) s)).
      * intros s Hs. pose proof (on_io_ok cfg limit (n + r)
          (run_direct_store_io cfg (key_to_path (xds_path cfg) key true).1.1.1 d) s Hs) as H.
        unfold on_io in *. destruct (run_direct_store_io _ _ _ _) as [[m'|e] i] eqn:E; [|exact H].
        split; [by eapply save_direct_metadata|exact H].
      * intros m'. apply triple_pure. intros Hm'. assert (m' = m) as -> by (unfold direct_metadata in *; congruence).
        rewrite Hr. eapply triple_bind; [by apply insert_direct_ok|].
        intros [] s Hs. unfold put_post. simpl. rewrite Z.add_0_r. by split.
    + intros e. destruct (is_direct_fallback e); [|intros s; apply index_ok_weaken; lia].
      eapply triple_bind; [by apply rollback_ok|]. intros [] s Hs. unfold put_post. simpl. rewrite Z.add_0_r. by split.
Qed.

(** A state operation that is not about the index *)
Lemma frame_ok n (f : xds_state K Dt P -> xds_state K Dt P) :
  (forall s, hot_cache (f s) = hot_cache s /\ put_queue (f s) = put_queue s
     /\ current_cache_size (f s) = current_cache_size s) ->
  triple (ok n) (st_modify f) (fun _ => ok n) (fun _ => ok n).
Proof. intros Hf. apply preserves_triple. by apply modify_ok. Qed.

Lemma direct_put_one_ok n pipeline index key o :
  triple (ok n) (direct_put_one (P := P) cfg pipeline index key o)
    (put_post n) (fun _ => ok n).
Proof.
  assert (forall b, triple (ok n) (mret (b, None)) (put_post n) (fun _ => ok n)) as Hdone.
  { intros b s Hs. unfold put_post. simpl. rewrite Z.add_0_r. by split. }
  unfold direct_put_one. destruct o as [d|]; [|apply Hdone].
  destruct (negb _); [apply Hdone|].
  apply (triple_bind _ _ _ (fun _ => ok n)); [by intros s Hs|]. intros existing.
  destruct (existing ≫= disk_metadata).
  { apply (triple_bind _ _ _ (fun _ => ok n)); [apply preserves_triple, update_on_hit_ok|].
    intros []. apply Hdone. }
  apply (triple_bind _ _ _ (fun _ => ok n)).
  { destruct existing; [|by intros s Hs]. apply (triple_bind _ _ _ (fun _ => ok n));
      [apply preserves_triple, remove_ok|by intros b s Hs]. }
  intros []. apply (triple_bind _ _ _ (fun _ => ok n)); [by intros s Hs|].
  intros pending. destruct pending; [apply Hdone|].
  apply (triple_bind _ _ _ (fun _ => ok n)); [by apply frame_ok|]. intros [].
  eapply triple_bind; [eapply triple_catch; [apply direct_put_try_ok|]|].
  - intros e. cbn [any_exn]. apply (triple_bind _ _ _ (fun _ => ok n)); [by apply frame_ok|].
    by intros [] s Hs.
  - intros [b [job|]]; [by intros s Hs|]. intros s [_ Hs]. simpl in Hs. rewrite Z.add_0_r in Hs.
    revert s Hs. apply (triple_bind _ _ _ (fun _ => ok n)); [by apply frame_ok|].
    intros []. apply Hdone.
Qed.

Definition jobs_reserved (jobs : list (direct_store_job K)) : Z := sumZ (ds_required_size <$> jobs).

Lemma job_reserves_nonneg j : job_reserves j -> 0 <= ds_required_size j.
Proof. intros (m & Hm & ->). by apply direct_size_nonneg. Qed.

Lemma jobs_reserved_nonneg jobs : Forall job_reserves jobs -> 0 <= jobs_reserved jobs.
Proof.
  intros H. apply sumZ_nonneg, Forall_fmap. eapply Forall_impl; [|exact H]. apply job_reserves_nonneg.
Qed.

Lemma direct_put_loop_ok n pipeline index keys ds :
  triple (ok n) (direct_put_loop (P := P) cfg pipeline index keys ds)
    (fun '(_, jobs) s => Forall job_reserves jobs /\ ok (n + jobs_reserved jobs) s) (fun _ => ok n).
Proof.
  revert n index ds. induction keys as [|key keys IH]; intros n index [|o ds]; simpl.
  1:{ intros s Hs. split; [constructor|]. unfold jobs_reserved, sumZ. simpl. by rewrite Z.add_0_r. }
  1,2: by intros s Hs.
  eapply triple_bind; [apply direct_put_one_ok|]. intros [b job]. apply triple_pure. intros Hj.
  assert (0 <= put_job_reserved job) as Hnn.
  { destruct job as [j|]; simpl; [|done]. by apply job_reserves_nonneg, Hj. }
  eapply triple_bind.
  { eapply triple_exn; [apply (IH (n + put_job_reserved job))|]. intros e s. apply index_ok_weaken. lia. }
  intros [oks jobs]. apply triple_pure. intros Hjobs s Hs. simpl. split.
  - destruct job as [j|]; simpl; [|done]. constructor; [by apply Hj|done].
  - eapply index_ok_weaken; [|exact Hs]. unfold jobs_reserved. rewrite fmap_app, sumZ_app.
    destruct job; simpl; unfold sumZ; simpl; lia.
Qed.

Lemma run_futures_ok {J A} n (f : J -> ST xds_io A) jobs l :
  preserves (ok n) (run_futures (P := P) (Dt := Dt) (K := K) f jobs l).
Proof.
  induction l as [|i l IH]; simpl; [apply preserves_ret|]. destruct (jobs !! i); [|exact IH].
  apply preserves_bind; [apply on_io_ok|]. intros r. apply preserves_bind; [exact IH|].
  intros m. apply preserves_ret.
Qed.

(** Every outcome is one that the job's run gave. *)
Lemma run_futures_outcomes {J A} (Q : J -> result A -> Prop) (f : J -> ST xds_io A) jobs l s :
  (forall job i r i', jobs !! (i : nat) = Some job -> f job r = i' -> Q job i'.1) ->
  match run_futures (P := P) (Dt := Dt) (K := K) f jobs l s with
  | (Ok outcomes, _) => forall j r, outcomes !! j = Some r ->
      exists job, jobs !! j = Some job /\ Q job r /\ j ∈ l
  | (Raise _, _) => False
  end.
Proof.
  intros HQ. revert s. induction l as [|i l IH]; intros s; simpl; [by intros j r Hj|].
  destruct (jobs !! i) as [job|] eqn:E.
  - unfold mbind, ST_bind, on_io, attempt. destruct (f job (x_io s)) as [r s1] eqn:Ef.
    specialize (IH (with_io s1 s)).
    destruct (run_futures f jobs l _) as [[outcomes|e] s2]; [|done].
    simpl. intros j r'. destruct (decide (j = i)) as [->|Hne].
    + rewrite lookup_insert_eq. intros [= <-]. exists job. split; [done|]. split; [|by left].
      by apply (HQ job i (x_io s) (r, s1)).
    + rewrite lookup_insert_ne by congruence. intros Hr. destruct (IH j r' Hr) as (job' & H1 & H2 & H3).
      exists job'. split; [done|]. split; [done|by right].
  - specialize (IH s). destruct (run_futures f jobs l s) as [[outcomes|e] s2]; [|done].
    intros j r Hj. destruct (IH j r Hj) as (job & H1 & H2 & H3). exists job. split; [done|].
    split; [done|by right].
Qed.

Definition outcomes_direct (outcomes : gmap nat (result BlockFirstDiskMetadata)) : Prop :=
  forall j m, outcomes !! j = Some (Ok m) -> direct_metadata m.

Lemma finish_direct_store_ok n outcomes j job :
  job_reserves job -> outcomes_direct outcomes ->
  triple (ok (n + ds_required_size job)) (finish_direct_store (P := P) (Dt := Dt) outcomes j job)
    (fun _ => ok n) (fun _ => ok n).
Proof.
  intros (m & Hm & Hr) Ho. pose proof (direct_size_nonneg m Hm) as Hnn.
  unfold finish_direct_store. apply (triple_finally _ _ _ _ (fun _ => ok n) _ (fun _ => ok n));
    [|intros; by apply frame_ok|intros; by apply frame_ok].
  apply triple_catch with (E' := fun _ => ok (n + ds_required_size job)).
  - apply (triple_bind _ _ _ (fun m' s => direct_metadata m' /\ ok (n + ds_required_size job) s)).
    + unfold future_result. destruct (outcomes !! j) as [r|] eqn:E; [|by intros s Hs].
      apply triple_lift; [|done]. intros m' -> s Hs. split; [by eapply Ho|done].
    + intros m'. apply triple_pure. intros Hm'. assert (m' = m) as -> by (unfold direct_metadata in *; congruence).
      rewrite Hr. eapply triple_bind; [by apply insert_direct_ok|]. by intros [] s Hs.
  - intros e. destruct (is_direct_fallback e); [|intros s; apply index_ok_weaken; lia].
    eapply triple_bind; [apply rollback_ok; lia|]. by intros [] s Hs.
Qed.

Lemma finish_direct_stores_ok n outcomes j jobs results :
  Forall job_reserves jobs -> outcomes_direct outcomes ->
  triple (ok (n + jobs_reserved jobs)) (finish_direct_stores (P := P) (Dt := Dt) outcomes j jobs results)
    (fun _ => ok n) (fun _ => ok n).
Proof.
  intros Hjobs Ho. revert j results. induction Hjobs as [|job jobs Hj Hjobs IH]; intros j results; simpl.
  - intros s. unfold jobs_reserved, sumZ. simpl. by rewrite Z.add_0_r.
  - unfold jobs_reserved in *. rewrite fmap_cons, sumZ_cons.
    pose proof (jobs_reserved_nonneg jobs Hjobs) as Hnn. unfold jobs_reserved in Hnn.
    eapply (triple_bind _ _ _ (fun _ => ok (n + sumZ (ds_required_size <$> jobs)))); [|by intros []].
    eapply triple_pre; [eapply triple_exn; [by apply (finish_direct_store_ok (n + sumZ (ds_required_size <$> jobs)))|]|].
    + intros e s. apply index_ok_weaken. lia.
    + intros s. by replace (n + (ds_required_size job + sumZ (ds_required_size <$> jobs)))
        with (n + sumZ (ds_required_size <$> jobs) + ds_required_size job) by lia.
Qed.

Lemma batched_direct_put_ok n pipeline keys ds :
  triple (ok n) (batched_direct_put (P := P) cfg order pipeline keys ds) (fun _ => ok n) (fun _ => ok n).
Proof.
  unfold batched_direct_put. destruct (negb _); [by intros s Hs|].
  eapply triple_bind; [apply direct_put_loop_ok|]. intros [results jobs].
  apply triple_pure. intros Hjobs. pose proof (jobs_reserved_nonneg jobs Hjobs) as Hnn.
  apply (triple_bind _ _ _ (fun outcomes s => outcomes_direct outcomes /\ ok (n + jobs_reserved jobs) s)).
  - intros s Hs. set (f := fun job => run_direct_store_io cfg (ds_path job) (ds_descriptor job)).
    pose proof (run_futures_ok (n + jobs_reserved jobs) f jobs (order (length jobs)) s Hs) as H.
    pose proof (run_futures_outcomes (fun _ r => forall m, r = Ok m -> direct_metadata m) f jobs
      (order (length jobs)) s) as Hout.
    destruct (run_futures f jobs _ s) as [[outcomes|e] s'].
    + split; [|exact H]. intros j m Hj. edestruct Hout as (job & _ & Hq & _); [|exact Hj|by apply Hq].
      intros job' i r [r' i'] _ Hf m' E. simpl in E. subst r'. by eapply save_direct_metadata.
    + destruct Hout. intros job' i r [r' i'] _ Hf m' E. simpl in E. subst r'. by eapply save_direct_metadata.
  - intros outcomes. apply triple_pure. intros Ho. by apply finish_direct_stores_ok.
Qed.

(** *** Retrieves move no entry. *)

Lemma direct_get_one_ok n env pipeline index key o :
  preserves (ok n) (direct_get_one (P := P) cfg env pipeline index key o).
Proof.
  unfold direct_get_one. destruct o as [d|]; [|apply preserves_ret].
  destruct (negb _); [apply preserves_ret|]. apply preserves_bind; [by intros s Hs|].
  intros [m|]; [|apply preserves_ret]. destruct (disk_metadata m); [|apply preserves_ret].
  destruct pipeline; [apply preserves_ret|]. apply preserves_catch; [|intros; apply preserves_ret].
  apply preserves_bind; [apply on_io_ok|]. intros [].
  apply preserves_bind; [apply update_on_hit_ok|intros; apply preserves_ret].
Qed.

Lemma direct_get_loop_ok n env pipeline index keys ds :
  preserves (ok n) (direct_get_loop (P := P) cfg env pipeline index keys ds).
Proof.
  revert index ds. induction keys as [|key keys IH]; intros index [|o ds]; simpl;
    try (apply preserves_ret || apply preserves_raise).
  apply preserves_bind; [apply direct_get_one_ok|]. intros [b job].
  apply preserves_bind; [apply IH|]. intros [oks jobs]. apply preserves_ret.
Qed.

Lemma future_result_ok {A} n (outcomes : gmap nat (result A)) j :
  preserves (ok n) (future_result (P := P) (Dt := Dt) (K := K) outcomes j).
Proof. unfold future_result. destruct (outcomes !! j); [apply preserves_lift|apply preserves_raise]. Qed.

Lemma prepared_jobs_ok n outcomes j jobs :
  preserves (ok n) (prepared_jobs (P := P) (Dt := Dt) (K := K) outcomes j jobs).
Proof.
  revert j. induction jobs as [|job jobs IH]; intros j; simpl; [apply preserves_ret|].
  apply preserves_bind.
  - apply preserves_catch; [|intros; apply preserves_ret].
    apply preserves_bind; [apply future_result_ok|]. intros [].
    apply preserves_bind; [apply on_io_ok|intros; apply preserves_ret].
  - intros b. apply preserves_bind; [apply IH|intros; apply preserves_ret].
Qed.

Lemma finish_direct_retrieves_ok n transfers j jobs results :
  preserves (ok n) (finish_direct_retrieves (P := P) cfg transfers j jobs results).
Proof.
  revert j results. induction jobs as [|job jobs IH]; intros j results; simpl; [apply preserves_ret|].
  apply preserves_bind; [|intros b; apply IH].
  apply preserves_catch; [|intros; apply preserves_ret]. apply preserves_bind.
  - destruct transfers; [apply future_result_ok|apply on_io_ok].
  - intros []. apply preserves_bind; [apply update_on_hit_ok|intros; apply preserves_ret].
Qed.

Lemma batched_direct_get_ok n env pipeline keys ds :
  preserves (ok n) (batched_direct_get (P := P) cfg order env pipeline keys ds).
Proof.
  unfold batched_direct_get. apply preserves_bind; [apply direct_get_loop_ok|]. intros [results jobs].
  apply preserves_bind; [apply run_futures_ok|]. intros checked.
  apply preserves_bind; [apply prepared_jobs_ok|]. intros prepared.
  apply preserves_bind; [|intros; apply finish_direct_retrieves_ok].
  destruct (can_parallel_direct_retrieve prepared); [|apply preserves_ret].
  apply preserves_bind; [apply run_futures_ok|intros; apply preserves_ret].
Qed.

End facts.

(** ** Lemmas: one direct store *)

Section outcome.
Context {K Dt P : Type} `{!CacheKey K, !TorchDtype Dt, !TorchDtypeLaws Dt} {JC : JsonCodec} {JL : JsonCodecLaws}.
Context {HL : HyFileLib} {HLL : HyFileLibLaws}.
Context `{!CachePolicy K (XDSCacheMetadata Dt) P, !CachePolicyLaws K (XDSCacheMetadata Dt) P can_evict}.
Context (cfg : xds_config Dt).
Implicit Types (key : K) (s t : xds_state K Dt P) (d : DirectIODescriptor).

(** The state after [gone] was evicted and [n] bytes were reserved *)
Definition reserved_from s (gone : odict K (XDSCacheMetadata Dt)) (n : Z) t : Prop :=
  hot_cache s ≡ₚ gone ++ hot_cache t /\ Forall (fun kv => is_pinned kv.2 = false) gone
  /\ current_cache_size t = current_cache_size s - od_sum xm_size gone + n
  /\ removes_only (kv ← gone; [xm_path kv.2 +:+ METADATA_FILE_SUFFIX; xm_path kv.2])
       (io_world (x_io s)) (io_world (x_io t))
  /\ put_tasks t = put_tasks s /\ put_queue t = put_queue s /\ ref_counts t = ref_counts s.

Lemma reserved_nothing s : reserved_from s [] 0 s.
Proof. split_and!; try done. unfold od_sum, sumZ. simpl. lia. Qed.

Lemma reserve_direct_outcome s key :
  index_ok cfg None 0 s ->
  match reserve_direct (P := P) cfg key s with
  | (Ok (Some n), t) => exists gone m, reserved_from s gone n t /\ direct_metadata cfg m
      /\ n = BLOCK_FIRST_HEADER_SIZE + io_nbytes m
  | (Ok None, t) => exists gone, reserved_from s gone 0 t
  | (Raise e, t) => is_direct_fallback e = false /\ t = s
  end.
Proof.
  intros Hs. unfold reserve_direct, st_catch, st_lift, mbind, ST_bind.
  destruct (make_direct_block_first_metadata (xc_engine cfg)) as [m|e] eqn:Em; cbv zeta.
  - set (n := BLOCK_FIRST_HEADER_SIZE + io_nbytes m). destruct (eviction cfg).
    + destruct (evict_spec cfg None ltac:(done) 0 n s Hs)
        as (ok & t & gone & -> & _ & Hp & Hev & Hsz & _ & Hrm & H1 & H2 & H3).
      assert (Forall (fun kv => is_pinned kv.2 = false) gone) as Hpin.
      { eapply Forall_impl; [|exact Hev]. intros kv Hkv. unfold can_evict in Hkv. by destruct (is_pinned _). }
      destruct ok; simpl; [exists gone, m|exists gone]; split_and!; try done; lia.
    + simpl. exists [], m. split; [|done]. split_and!; try done. simpl. unfold od_sum, sumZ. simpl. lia.
  - destruct (is_direct_fallback e) eqn:Ee; [|done]. simpl. exists []. apply reserved_nothing.
Qed.

(** A file is stored at [path]: the header of [m], then the bytes of the blocks of [d] *)
Definition stored_file (w w' : world) (path : string) d (m : BlockFirstDiskMetadata) : Prop :=
  exists header, pack_block_first_header (Dt := Dt) m = Ok header
    /\ content w' path = Some (header ++ direct_payload w d).

Lemma direct_payload_mem w w' d : (forall a, mem w' a = mem w a) -> direct_payload w' d = direct_payload w d.
Proof. intros H. unfold direct_payload. apply list_fmap_ext. intros i j _. apply H. Qed.

Lemma os_makedirs_keeps (w0 : world) :
  triple (fun w => keeps_files [] w0 w /\ fds_at (fds w0) (fresh w0) w) os_makedirs
    (fun _ w => keeps_files [] w0 w /\ fds_at (fds w0) (fresh w0) w)
    (fun _ w => keeps_files [] w0 w /\ fds_at (fds w0) (fresh w0) w).
Proof.
  unfold os_makedirs. eapply triple_exn; [apply (may_fail_triple (keeps_files [] w0)), keeps_files_closed|].
  by intros e w [_ H].
Qed.

Lemma run_direct_store_outcome path d i :
  fds_ok (io_world i) ->
  match run_direct_store_io cfg path d i with
  | (Ok m, i') => direct_metadata cfg m /\ keeps_files [tmp_of path; path] (io_world i) (io_world i')
                  /\ stored_file (io_world i) (io_world i') path d m
  | (Raise e, i') => keeps_files [tmp_of path; path] (io_world i) (io_world i')
  end.
Proof.
  intros Hfds. set (w0 := io_world i).
  assert (forall w, keeps_files [] w0 w -> keeps_files [tmp_of path; path] w0 w) as Hweak.
  { intros w [H1 H2]. split; [intros q _; apply H1, not_elem_of_nil|done]. }
  assert (triple (fun i' => keeps_files [] w0 (io_world i') /\ fds_at (fds w0) (fresh w0) (io_world i'))
    (run_direct_store_io cfg path d)
    (fun m i' => direct_metadata cfg m /\ keeps_files [tmp_of path; path] w0 (io_world i')
       /\ stored_file w0 (io_world i') path d m)
    (fun e i' => keeps_files [tmp_of path; path] w0 (io_world i'))) as Ht; [|by apply (Ht i)].
  unfold run_direct_store_io. eapply triple_bind.
  { eapply triple_exn; [apply (on_world_triple' (fun w => keeps_files [] w0 w /\ fds_at (fds w0) (fresh w0) w)),
      (os_makedirs_keeps w0)|]. intros e i' [H _]. by apply Hweak. }
  intros []. destruct (check_direct_store (xc_engine cfg) d) as [m|e] eqn:Hck.
  - pose proof (check_direct_store_Ok _ _ _ Hck) as (_ & _ & _ & _ & Hm & _).
    eapply triple_conseq; [apply (save_direct_xds_triple (xc_engine cfg) path d m w0 (fds w0) (fresh w0));
      [done|done|intros h; apply pack_header_length]|done| |].
    + intros r i' (-> & (Hk & _ & header & Hp & Hc) & _). split; [done|]. split; [done|]. by exists header.
    + intros e i' [[Hk|[[Hk Hm'] _]] _]; [by apply Hweak|]. split; [|done]. intros q Hq. apply Hk. set_solver.
  - unfold save_direct_xds. rewrite Hck. intros i' [Hk _]. by apply Hweak.
Qed.

Lemma od_set_new key (m : XDSCacheMetadata Dt) h : od_get key h = None -> od_set key m h = h ++ [(key, m)].
Proof.
  induction h as [|[k2 m2] h IH]; simpl; [done|]. destruct (decide (k2 = key)); [done|].
  intros H. by rewrite IH.
Qed.

Lemma remove_first_last key (l : list K) : key ∉ l -> remove_first key (l ++ [key]) = l.
Proof.
  induction l as [|k l IH]; simpl; [by rewrite decide_True|]. intros Hn.
  rewrite not_elem_of_cons in Hn. rewrite decide_False by (intros ->; tauto). f_equal. tauto.
Qed.

(** What every outcome of a direct store keeps *)
Definition put_frame s (path : string) (gone h : odict K (XDSCacheMetadata Dt)) t : Prop :=
  hot_cache s ≡ₚ gone ++ h /\ Forall (fun kv => is_pinned kv.2 = false) gone
  /\ put_tasks t = put_tasks s /\ put_queue t = put_queue s /\ ref_counts t = ref_counts s
  /\ keeps_files (tmp_of path :: path :: (kv ← gone; [xm_path kv.2 +:+ METADATA_FILE_SUFFIX; xm_path kv.2]))
       (io_world (x_io s)) (io_world (x_io t)).

Lemma keeps_files_trans ps qs w1 w2 w3 :
  keeps_files ps w1 w2 -> keeps_files qs w2 w3 -> keeps_files (qs ++ ps) w1 w3.
Proof.
  intros [H1 H2] [H3 H4]. split; [|congruence]. intros q Hq. rewrite not_elem_of_app in Hq.
  rewrite H3, H1; tauto.
Qed.

Lemma removes_keeps ps qs w w' : ps ⊆ qs -> removes_only ps w w' -> keeps_files qs w w'.
Proof. intros Hsub (H1 & _ & _ & H2). split; [|done]. intros q Hq. apply H1. set_solver. Qed.

(** The store of one chunk, from its reservation on *)
Lemma direct_put_try_outcome s index key d :
  index_ok cfg None 0 s -> fds_ok (io_world (x_io s)) -> od_get key (hot_cache s) = None ->
  let path := (key_to_path (xds_path cfg) key true).1.1.1 in
  match direct_put_try (P := P) cfg false index key d s with
  | (Ok (b, o), t) => o = None /\ exists gone h, put_frame s path gone h t
      /\ if b : bool
         then exists m entry, direct_metadata cfg m /\ block_first_entry (Dt := Dt) path m = Ok entry
           /\ hot_cache t = h ++ [(key, entry)]
           /\ current_cache_size t = current_cache_size s - od_sum xm_size gone + xm_size entry
           /\ stored_file (io_world (x_io s)) (io_world (x_io t)) path d m
         else hot_cache t = h /\ current_cache_size t = current_cache_size s - od_sum xm_size gone
  | (Raise e, t) => is_direct_fallback e = false /\ put_tasks t = put_tasks s
  end.
Proof.
  intros Hs Hfds Hnone path. unfold direct_put_try. fold path. unfold mbind at 1, ST_bind at 1.
  pose proof (reserve_direct_outcome s key Hs) as Hr.
  destruct (reserve_direct cfg key s) as [[[n|]|e] t]; [| |by destruct Hr as [? ->]].
  2:{ destruct Hr as (gone & Hp & Hg & Hsz & Hrm & Ht & Hq & Hrc). split; [done|].
      exists gone, (hot_cache t). split; [|split; [done|lia]]. split_and!; try done.
      eapply removes_keeps; [|exact Hrm]. set_solver. }
  destruct Hr as (gone & m & (Hp & Hg & Hsz & Hrm & Ht & Hq & Hrc) & Hm & ->).
  set (n := BLOCK_FIRST_HEADER_SIZE + io_nbytes m) in *.
  assert (od_get key (hot_cache t) = None) as Hnt.
  { destruct (od_get key (hot_cache t)) as [x|] eqn:E; [|done]. exfalso.
    assert (is_Some (od_get key (hot_cache s))) as [y Hy]; [|congruence].
    apply od_keys_get. unfold od_keys. rewrite Hp, fmap_app. apply elem_of_app. right.
    apply od_keys_get. by eexists. }
  unfold st_catch, update_on_put, st_modify, mbind, ST_bind, on_io. cbv zeta beta iota.
  set (t1 := with_policy (policy_put key (policy t)) t).
  assert (fds_ok (io_world (x_io t1))) as Hfds1.
  { destruct Hrm as (_ & H1 & H2 & _). unfold fds_ok in *. simpl. by rewrite H1, H2. }
  pose proof (run_direct_store_outcome path d (x_io t1) Hfds1) as Hrun.
  assert (forall w', keeps_files [tmp_of path; path] (io_world (x_io t)) w' ->
    keeps_files (tmp_of path :: path :: (kv ← gone; [xm_path kv.2 +:+ METADATA_FILE_SUFFIX; xm_path kv.2]))
      (io_world (x_io s)) w') as Hkeep.
  { intros w' Hk. apply (keeps_files_trans _ [tmp_of path; path] _ (io_world (x_io t))); [|done].
    by eapply removes_keeps. }
  assert (forall i', keeps_files [tmp_of path; path] (io_world (x_io t)) (io_world i') ->
    exists gone h u, rollback_direct_store (P := P) (Dt := Dt) key n true (with_io i' t1) = (Ok tt, u)
      /\ put_frame s path gone h u
      /\ hot_cache u = h /\ current_cache_size u = current_cache_size s - od_sum xm_size gone) as Hroll.
  { intros i' Hk. exists gone, (hot_cache t). unfold rollback_direct_store.
    assert (0 < n) as Hn by (apply direct_metadata_size in Hm; unfold n, BLOCK_FIRST_HEADER_SIZE; lia).
    destruct (Z.eqb_spec n 0); [lia|]. eexists. split; [reflexivity|].
    split; [|split; [done|simpl; lia]]. split_and!; try done. by apply Hkeep. }
  destruct (run_direct_store_io cfg path d (x_io t1)) as [[m'|e] i'].
  - destruct Hrun as (Hm' & Hk & Hf). assert (m' = m) as -> by (unfold direct_metadata in *; congruence).
    unfold insert_direct_key, st_lift, mbind, ST_bind.
    destruct (block_first_entry path m) as [entry|e] eqn:He.
    + simpl. split; [done|]. exists gone, (hot_cache t). split; [split_and!; try done; by apply Hkeep|].
      exists m, entry. split; [done|]. split; [done|]. split; [by rewrite od_set_new|].
      split; [|]. { rewrite (block_first_entry_size _ _ _ He). fold n. lia. }
      destruct Hf as (header & Hh & Hc). exists header. split; [done|]. rewrite Hc. do 2 f_equal.
      apply direct_payload_mem. apply Hrm.
    + destruct (is_direct_fallback e) eqn:Ee; [|by split].
      destruct (Hroll i' Hk) as (g & h & u & -> & H). split; [done|]. by exists g, h.
  - destruct (is_direct_fallback e) eqn:Ee; [|by split].
    destruct (Hroll i' Hrun) as (g & h & u & -> & H). split; [done|]. by exists g, h.
Qed.

End outcome.

(** ** Lemmas: transfers to distinct blocks *)

(** A descriptor of block-first runs, as the planner builds it *)
Definition runs_planned (d : DirectIODescriptor) : Prop :=
  byte_segments d = [] /\ runs d = coalesce_runs (logical_block_start d) (physical_block_ids d).

Lemma planned_block d b p :
  runs_planned d -> runs_block (runs d) b = Some p ->
  physical_block_ids d !! Z.to_nat (b - logical_block_start d) = Some p /\ logical_block_start d <= b.
Proof.
  intros [_ ->]. rewrite coalesce_runs_block. destruct (Z.ltb_spec b (logical_block_start d)); done.
Qed.

Lemma distinct_blocks_each seen ds d :
  distinct_blocks_from seen ds = true -> d ∈ ds ->
  leading_edge d = None /\ NoDup (physical_block_ids d) /\ forall p, p ∈ physical_block_ids d -> p ∉ seen.
Proof.
  revert seen. induction ds as [|d' ds IH]; intros seen; simpl; [by intros _ ?%not_elem_of_nil|].
  destruct (leading_edge d') eqn:He; [done|]. destruct (is_nil _); [done|].
  destruct (negb _ || negb _) eqn:Hb; [done|]. bool_prop. intros Hrest [->|Hin]%elem_of_cons.
  - split; [done|]. split; [|set_solver].
    apply Nat.eqb_eq in H. clear -H. induction (physical_block_ids d') as [|p ps IH]; [constructor|].
    simpl in H. assert (size (list_to_set ps : gset Z) <= length ps)%nat as Hle.
    { clear. induction ps as [|q ps IH]; [done|]. simpl.
      rewrite size_union_alt, size_singleton.
      pose proof (subseteq_size (list_to_set ps ∖ {[q]}) (list_to_set ps : gset Z) ltac:(set_solver)). lia. }
    destruct (decide (p ∈ ps)) as [Hin|Hn].
    + exfalso. assert (({[p]} ∪ list_to_set ps : gset Z) = list_to_set ps) as Heq by set_solver.
      rewrite Heq in H. lia.
    + apply list.NoDup_cons. split; [done|]. apply IH.
      rewrite size_union, size_singleton in H by set_solver. lia.
  - destruct (IH _ Hrest Hin) as (H1 & H2 & H3). split; [done|]. split; [done|]. set_solver.
Qed.

Lemma distinct_blocks_two seen ds i j di dj :
  distinct_blocks_from seen ds = true -> ds !! i = Some di -> ds !! j = Some dj -> i <> j ->
  forall p, p ∈ physical_block_ids di -> p ∉ physical_block_ids dj.
Proof.
  revert seen i j. induction ds as [|d ds IH]; intros seen i j; [done|]. intros H Hi Hj Hij p Hp.
  assert (forall k dk, ds !! k = Some dk -> forall q, q ∈ physical_block_ids d -> q ∉ physical_block_ids dk)
    as Hhead.
  { intros k dk Hk q Hq Hqk. simpl in H. destruct (leading_edge d); [done|]. destruct (is_nil _); [done|].
    destruct (_ || _); [done|]. apply list_elem_of_lookup_2 in Hk.
    destruct (distinct_blocks_each _ _ _ H Hk) as (_ & _ & Hs). specialize (Hs q Hqk). set_solver. }
  simpl in H. destruct (leading_edge d); [done|]. destruct (is_nil _); [done|].
  destruct (_ || _); [done|]. destruct i as [|i], j as [|j]; simpl in *; simplify_eq.
  - by eapply Hhead.
  - intros Hpj. by apply (Hhead i di Hi p Hpj).
  - eapply (IH _ i j); eauto.
Qed.

Section transfers.
Context {K Dt P : Type} `{!TorchDtype Dt} {TL : TorchDtypeLaws Dt} {JC : JsonCodec} {JL : JsonCodecLaws}.
Context {HL : HyFileLib} {HLL : HyFileLibLaws}.
Context (cfg : xds_config Dt).
Let e := xc_engine cfg.
Implicit Types (d : DirectIODescriptor) (job : direct_retrieve_job K).

Lemma on_world_edge {A} t (m : ST world A) : preserves (fun i => edge_tensor i = t) (on_world m).
Proof. intros i Hi. unfold on_world. by destruct (m (io_world i)) as [r w]. Qed.

(** Without a leading edge the staging buffer is not touched. *)
Lemma transfer_edge_kept t path d :
  leading_edge d = None -> preserves (fun i => edge_tensor i = t) (transfer_direct_xds e path d).
Proof.
  intros Hd. unfold transfer_direct_xds. apply preserves_bind.
  { apply preserves_iter. intros a. unfold ensure_allocation. apply preserves_bind; [by intros i Hi|].
    intros i0. destruct (registered i0 _); [apply preserves_ret|].
    apply preserves_bind; [apply on_world_edge|]. by intros [] i Hi. }
  intros []. apply preserves_bind; [apply on_world_edge|]. intros []. rewrite Hd.
  destruct (negb _); [apply on_world_edge|]. apply preserves_bind; [apply preserves_ret|].
  intros []. apply on_world_edge.
Qed.

(** The byte at position [x] of the file at [path] *)
Definition file_byte (w : world) (path : string) (x : Z) : option Z :=
  content w path ≫= fun f => f !! Z.to_nat x.

(** The file of a job whose preparation succeeded *)
Definition checked_file (w : world) (path : string) d : Prop :=
  exists nl f, content w path = Some f /\ geometry e d nl f.

(** One transfer *)
Lemma transfer_outcome path d i :
  fds_ok (io_world i) -> checked_file (io_world i) path d -> leading_edge d = None ->
  addresses_distinct (row_nbytes e) d -> staging_apart e d (edge_tensor i) ->
  let '(r, i') := transfer_direct_xds e path d i in
  files (io_world i') = files (io_world i) /\ fds_ok (io_world i') /\ edge_tensor i' = edge_tensor i
  /\ (forall a, (forall x, device_address (row_nbytes e) d x <> Some a) ->
        ~ in_scratch (edge_tensor i) a -> mem (io_world i') a = mem (io_world i) a)
  /\ (r = Ok tt -> forall x a, device_address (row_nbytes e) d x = Some a ->
        file_byte (io_world i) path x = Some (mem (io_world i') a)).
Proof.
  intros Hfds (nl & f & Hf & Hgeo) Hd Hdist Hap.
  pose proof (transfer_loaded e path d nl f (io_world i) (fds (io_world i)) (fresh (io_world i))
    Hfds Hf Hgeo Hdist (edge_tensor i) Hap i) as H.
  pose proof (transfer_edge_kept (edge_tensor i) path d Hd i eq_refl) as Hedge.
  specialize (H (conj (conj (conj eq_refl (conj (fun x a (F : False) => match F with end)
    (fun a _ _ => eq_refl))) (conj eq_refl (Z.le_refl _))) eq_refl)).
  assert (forall w, fds_at (fds (io_world i)) (fresh (io_world i)) w -> fds_ok w) as Hok.
  { intros w [H1 H2] fd Hfd. rewrite H1 in Hfd. specialize (Hfds fd Hfd). lia. }
  destruct (transfer_direct_xds e path d i) as [[[]|ex] i']; simpl in Hedge.
  - destruct H as (t' & [(H1 & H2 & H3) Hfd] & Ht'). split; [done|]. split; [by apply Hok|]. split; [done|].
    split.
    + intros a Ha Hs. apply H3; [by intros x _|]. congruence.
    + intros _ x a Ha. unfold file_byte. rewrite Hf. apply H2; [by eexists|done].
  - destruct H as [[H1 H3] Hfd]. split; [done|]. split; [by apply Hok|]. split; [done|].
    split; [|done]. intros a Ha Hs. apply H3; [done|]. congruence.
Qed.

Lemma planned_addresses_distinct d :
  runs_planned d -> 0 < block_nbytes d -> leading_edge d = None -> NoDup (physical_block_ids d) ->
  addresses_distinct (row_nbytes e) d.
Proof.
  intros Hp Hbn Hle Hnd. apply blocks_addresses_distinct; [apply Hp|done| |by rewrite Hle].
  intros b b' q Hb Hb'. apply (planned_block d) in Hb as [Hb Hs]; [|done].
  apply (planned_block d) in Hb' as [Hb' Hs']; [|done].
  pose proof (NoDup_lookup _ _ _ _ Hnd Hb Hb'). lia.
Qed.

(** Jobs on distinct blocks of one allocation write distinct bytes. *)
Lemma planned_addresses_apart di dj x y a :
  runs_planned di -> runs_planned dj -> leading_edge di = None -> leading_edge dj = None ->
  allocation_base di = allocation_base dj -> block_nbytes di = block_nbytes dj -> 0 < block_nbytes dj ->
  device_address (row_nbytes e) di x = Some a -> device_address (row_nbytes e) dj y = Some a ->
  exists p, p ∈ physical_block_ids di /\ p ∈ physical_block_ids dj.
Proof.
  intros Hpi Hpj Hi Hj Hbase Hbn Hpos. unfold device_address. rewrite (proj1 Hpi), (proj1 Hpj).
  cbn [is_nil negb]. destruct (x <? _); [done|]. destruct (y <? _); [done|].
  unfold run_address. rewrite Hi, Hj, Hbase, Hbn. set (bn := block_nbytes dj) in *.
  destruct (runs_block (runs di) _) as [p|] eqn:Ep; [|done].
  destruct (runs_block (runs dj) _) as [q|] eqn:Eq; [|done]. intros [= Ha] [= Hb].
  apply (planned_block di) in Ep as [Ep _]; [|done]. apply (planned_block dj) in Eq as [Eq _]; [|done].
  assert (p = q) as ->.
  { apply (Z.div_mod_unique bn p q ((x - BLOCK_FIRST_HEADER_SIZE) mod bn) ((y - BLOCK_FIRST_HEADER_SIZE) mod bn)); 
      [left; by apply Z.mod_pos_bound|left; by apply Z.mod_pos_bound|lia]. }
  exists q. split; by eapply list_elem_of_lookup_2.
Qed.

(** *** Transfers of several jobs, one after the other in any order *)

Section many.
Context (jobs : list (direct_retrieve_job K)) (i0 : xds_io).
Context (Hone : forall job, job ∈ jobs ->
  checked_file (io_world i0) (dr_path job) (dr_descriptor job)
  /\ leading_edge (dr_descriptor job) = None
  /\ addresses_distinct (row_nbytes e) (dr_descriptor job)
  /\ staging_apart e (dr_descriptor job) (edge_tensor i0)).
Context (Hapart : forall i j jobi jobj x y a, jobs !! i = Some jobi -> jobs !! j = Some jobj ->
  device_address (row_nbytes e) (dr_descriptor jobi) x = Some a ->
  device_address (row_nbytes e) (dr_descriptor jobj) y = Some a -> i = j).

(** The jobs of [D] are in place. *)
Record jobs_loaded (D : nat -> Prop) (i : xds_io) : Prop := {
  jl_files : files (io_world i) = files (io_world i0);
  jl_fds : fds_ok (io_world i);
  jl_edge : edge_tensor i = edge_tensor i0;
  jl_bytes : forall j job x a, D j -> jobs !! j = Some job ->
    device_address (row_nbytes e) (dr_descriptor job) x = Some a ->
    file_byte (io_world i0) (dr_path job) x = Some (mem (io_world i) a);
  jl_frame : forall a, (forall job x, job ∈ jobs ->
      device_address (row_nbytes e) (dr_descriptor job) x <> Some a) ->
    ~ in_scratch (edge_tensor i0) a -> mem (io_world i) a = mem (io_world i0) a;
}.

Lemma transfer_one D i j job :
  jobs_loaded D i -> jobs !! j = Some job -> ~ D j ->
  let '(r, i') := transfer_direct_retrieve_io cfg job i in
  jobs_loaded (fun k => D k \/ (r = Ok tt /\ k = j)) i'.
Proof.
  intros [H1 H2 H3 H4 H5] Hj Hnd. unfold transfer_direct_retrieve_io. fold e.
  destruct (Hone job) as (Hck & Hle & Hdist & Hap); [by eapply list_elem_of_lookup_2|].
  assert (content (io_world i) (dr_path job) = content (io_world i0) (dr_path job)) as Hc
    by (unfold content; by rewrite H1).
  pose proof (transfer_outcome (dr_path job) (dr_descriptor job) i H2) as Ht.
  unfold checked_file in Ht, Hck. rewrite Hc, H3 in Ht. specialize (Ht Hck Hle Hdist Hap).
  destruct (transfer_direct_xds e _ _ i) as [r i']. destruct Ht as (F1 & F2 & F3 & F4 & F5).
  split; [congruence|done|congruence| |].
  - intros k jobk x a Hk Hjk Ha. destruct (decide (k = j)) as [->|Hne].
    + destruct Hk as [Hk|[Hr _]]; [done|]. assert (jobk = job) as -> by congruence.
      rewrite <- (F5 Hr x a Ha). unfold file_byte. by rewrite Hc.
    + destruct Hk as [Hk|[_ ?]]; [|done]. rewrite (H4 k jobk x a Hk Hjk Ha). f_equal. symmetry. apply F4.
      * intros y Hy. apply Hne. by eapply (Hapart k j jobk job).
      * destruct (Hone jobk) as (_ & _ & _ & Hapk); [by eapply list_elem_of_lookup_2|].
        unfold staging_apart, in_scratch in *. destruct (edge_tensor i0) as [[p n]|]; [|intros []].
        by eapply Hapk.
  - intros a Ha Hs. rewrite <- (H5 a Ha Hs). apply F4; [|done].
    intros x. apply Ha. by eapply list_elem_of_lookup_2.
Qed.

Lemma transfers_any_order l : forall D (s : xds_state K Dt P),
  NoDup l -> (forall j, D j -> j ∉ l) -> jobs_loaded D (x_io s) ->
  match run_futures (transfer_direct_retrieve_io cfg) jobs l s with
  | (Ok outcomes, t) =>
      jobs_loaded (fun j => D j \/ outcomes !! j = Some (Ok tt)) (x_io t)
      /\ (forall j, j ∈ l -> (j < length jobs)%nat -> is_Some (outcomes !! j))
      /\ hot_cache t = hot_cache s /\ current_cache_size t = current_cache_size s
  | (Raise _, _) => False
  end.
Proof.
  induction l as [|j l IH]; intros D s Hnd HD Hs; simpl.
  { split; [|split; [by intros ? ?%not_elem_of_nil|done]].
    destruct Hs. split; try done. intros k job x a [Hk|Hk]; [eauto|by rewrite lookup_empty in Hk]. }
  apply list.NoDup_cons in Hnd as [Hjl Hnd].
  destruct (jobs !! j) as [job|] eqn:Hj.
  - unfold mbind, ST_bind, on_io, attempt.
    assert (~ D j) as HDj by (intros H; apply (HD j H); by left).
    pose proof (transfer_one D (x_io s) j job Hs Hj HDj) as Ht.
    destruct (transfer_direct_retrieve_io cfg job (x_io s)) as [r i'].
    specialize (IH (fun k => D k \/ (r = Ok tt /\ k = j)) (with_io i' s) Hnd).
    destruct (run_futures _ jobs l _) as [[outcomes|ex] t].
    + destruct IH as (H1 & H2 & H3); [intros k [Hk|[_ ->]]; [intros Hkl; apply (HD k Hk); by right|done]|exact Ht|].
      simpl. split; [|split; [|exact H3]].
      * destruct H1 as [F1 F2 F3 F4 F5]. split; try done. intros k jobk x a Hk.
        apply F4. destruct Hk as [Hk|Hk]; [by left; left|].
        destruct (decide (k = j)) as [->|Hne].
        -- rewrite lookup_insert_eq in Hk. injection Hk as ->. left. by right.
        -- rewrite lookup_insert_ne in Hk by congruence. by right.
      * intros k [->|Hk]%elem_of_cons Hlt; [rewrite lookup_insert_eq; by eexists|].
        destruct (decide (k = j)) as [->|Hne]; [rewrite lookup_insert_eq; by eexists|].
        rewrite lookup_insert_ne by congruence. by apply H2.
    + destruct IH; [intros k [Hk|[_ ->]]; [intros Hkl; apply (HD k Hk); by right|done]|exact Ht].
  - specialize (IH D s Hnd ltac:(intros k Hk Hkl; apply (HD k Hk); by right) Hs).
    destruct (run_futures _ jobs l s) as [[outcomes|ex] t]; [|done]. destruct IH as (H1 & H2 & H3).
    split; [done|]. split; [|done]. intros k [->|Hk]%elem_of_cons Hlt; [|by apply H2].
    apply lookup_ge_None in Hj. lia.
Qed.

End many.
End transfers.

Lemma run_futures_nil {K Dt P J A} (f : J -> ST xds_io A) l (s : xds_state K Dt P) :
  run_futures f [] l s = (Ok ∅, s).
Proof. induction l as [|i l IH]; [done|exact IH]. Qed.

(** ** Properties *)

Section properties.
Context {K Dt P : Type} `{!CacheKey K, !TorchDtype Dt, !TorchDtypeLaws Dt} {JC : JsonCodec} {JL : JsonCodecLaws}.
Context {HL : HyFileLib} {HLL : HyFileLibLaws}.
Context `{!CachePolicy K (XDSCacheMetadata Dt) P, !CachePolicyLaws K (XDSCacheMetadata Dt) P can_evict}.
Context (cfg : xds_config Dt) (order : nat -> list nat).
Implicit Types (key : K) (s t : xds_state K Dt P) (d : DirectIODescriptor).

(** Direct batches keep the books. Whatever the batch, the descriptors, the order
    in which the pool runs its jobs and the faults, sequential or pipelined, a direct put
    or get leaves one entry per key and a counted size that covers the entries and the
    queued puts, and with eviction on never over the capacity. *)
Theorem direct_batches_account limit s :
  (forall c, limit = Some c -> eviction cfg = true /\ c = max_xds_size cfg) ->
  index_ok cfg limit 0 s ->
  (forall pipeline keys ds,
     index_ok cfg limit 0 (run_st (batched_direct_put cfg order pipeline keys ds) s))
  /\ (forall env pipeline keys ds,
     index_ok cfg limit 0 (run_st (batched_direct_get cfg order env pipeline keys ds) s)).
Proof.
  intros Hlim Hs. split.
  - intros pipeline keys ds.
    apply (proj2 (preserves_triple (index_ok cfg limit 0) (batched_direct_put cfg order pipeline keys ds))); [|done].
    by apply batched_direct_put_ok.
  - intros env pipeline keys ds. by apply batched_direct_get_ok.
Qed.

(** A direct store of a new key. When it reports success, the key's file holds
    the packed header and the bytes of the descriptor's blocks, and the index ends with
    its entry, whose size alone was added to the counted size; when it reports a
    fallback, there is no entry and the reservation is returned. Either way only unpinned
    entries were evicted, no other file and no device memory changed, and the put task
    ended. What escapes is no fallback exception. *)
Theorem direct_put_outcome pipeline s key d :
  index_ok cfg None 0 s -> fds_ok (io_world (x_io s)) ->
  direct_store_enabled cfg = true -> direct_enabled cfg = true ->
  key ∉ put_tasks s -> od_get key (hot_cache s) = None ->
  let path := (key_to_path (xds_path cfg) key true).1.1.1 in
  match batched_direct_put cfg order pipeline [key] [Some d] s with
  | (Ok results, t) => exists gone h, put_frame s path gone h t
      /\ ((results = [true] /\ exists m entry, direct_metadata cfg m
             /\ block_first_entry (Dt := Dt) path m = Ok entry
             /\ hot_cache t = h ++ [(key, entry)]
             /\ current_cache_size t = current_cache_size s - od_sum xm_size gone + xm_size entry
             /\ stored_file (Dt := Dt) (io_world (x_io s)) (io_world (x_io t)) path d m)
          \/ (results = [false] /\ hot_cache t = h
              /\ current_cache_size t = current_cache_size s - od_sum xm_size gone))
  | (Raise e, t) => is_direct_fallback e = false /\ put_tasks t = put_tasks s
  end.
Proof.
  intros Hs Hfds Hst Hen Htask Hnone path. unfold batched_direct_put. rewrite Hst.
  cbn [negb length Nat.ltb Nat.leb andb]. rewrite andb_false_r.
  cbn [direct_put_loop]. unfold direct_put_one, hot_get, exists_in_put_tasks, st_gets, mbind, ST_bind.
  rewrite Hen. cbn [negb]. lazy beta iota zeta. rewrite Hnone. cbn [option_bind].
  lazy beta iota zeta delta [mret ST_ret]. rewrite (bool_decide_eq_false_2 _ Htask).
  unfold insert_put_task, st_modify. lazy beta iota zeta.
  set (s1 := with_tasks (put_tasks s ++ [key]) s).
  pose proof (direct_put_try_outcome cfg s1 0 key d
    ltac:(by eapply (index_ok_ext _ _ _ s)) Hfds Hnone) as Htry. fold path in Htry.
  unfold st_catch. cbn [any_exn option_bind].
  destruct (direct_put_try cfg false 0 key d s1) as [[[b o]|e] t].
  - destruct Htry as (-> & gone & h & (Hp & Hg & Ht & Hq & Hr & Hk) & Hb).
    cbn. rewrite run_futures_nil. cbn. exists gone, h. split.
    + split_and!; try done. simpl. rewrite Ht. by apply remove_first_last.
    + destruct b; [left|right]; (split; [done|exact Hb]).
  - destruct Htry as [He Ht]. cbn. split; [done|]. rewrite Ht. by apply remove_first_last.
Qed.

(** The jobs whose preparation succeeded, against the files of the world [w] *)
Definition job_prepared (w : world) (job : direct_retrieve_job K) : Prop :=
  exists env i i', prepare_direct_retrieve_io cfg env job i = (Ok tt, i')
    /\ fds_ok (io_world i) /\ others_elsewhere (dr_path job) env
    /\ content (io_world i) (dr_path job) = content w (dr_path job).

Lemma job_prepared_checked w job :
  shapes_of_chunk (xc_engine cfg) -> job_prepared w job ->
  checked_file cfg w (dr_path job) (dr_descriptor job).
Proof.
  intros Hch (env & i & i' & Hp & Hfds & Henv & Hc). unfold prepare_direct_retrieve_io, on_world in Hp.
  pose proof (prepare_triple (xc_engine cfg) env (dr_path job) (dr_metadata job) (dr_descriptor job)
    (io_world i) Hfds Henv Hch (io_world i) ltac:(by repeat split)) as H.
  destruct (prepare_direct_xds _ _ _ _ _ _) as [[[]|ex] w']; [|done].
  destruct H as ((f & nl & Hf & _ & _ & Hg) & _). exists nl, f. split; [congruence|done].
Qed.

(** C15: parallel retrieves commute. When [_can_parallel_direct_retrieve] accepts
    prepared jobs on the blocks of one allocation, then in whatever order the pool
    transfers them, and whichever of them fail, every job whose transfer succeeded ends
    with every byte of its file's range at its device address; no file changes, and no
    device byte outside the jobs' blocks. *)
Theorem parallel_retrieve_any_order (jobs : list (direct_retrieve_job K)) l base bn s :
  can_parallel_direct_retrieve jobs = true -> l ≡ₚ seq 0 (length jobs) ->
  shapes_of_chunk (xc_engine cfg) -> fds_ok (io_world (x_io s)) -> 0 < bn ->
  (forall job, job ∈ jobs -> job_prepared (io_world (x_io s)) job
     /\ runs_planned (dr_descriptor job) /\ allocation_base (dr_descriptor job) = base
     /\ block_nbytes (dr_descriptor job) = bn
     /\ staging_apart (xc_engine cfg) (dr_descriptor job) (edge_tensor (x_io s))) ->
  match run_futures (transfer_direct_retrieve_io cfg) jobs l s with
  | (Ok outcomes, t) =>
      (forall j job, jobs !! j = Some job -> exists r, outcomes !! j = Some r
         /\ (r = Ok tt -> forall x a,
               device_address (row_nbytes (xc_engine cfg)) (dr_descriptor job) x = Some a ->
               file_byte (io_world (x_io s)) (dr_path job) x = Some (mem (io_world (x_io t)) a)))
      /\ files (io_world (x_io t)) = files (io_world (x_io s))
      /\ (forall a, (forall job x, job ∈ jobs ->
             device_address (row_nbytes (xc_engine cfg)) (dr_descriptor job) x <> Some a) ->
           ~ in_scratch (edge_tensor (x_io s)) a ->
           mem (io_world (x_io t)) a = mem (io_world (x_io s)) a)
      /\ hot_cache t = hot_cache s /\ current_cache_size t = current_cache_size s
  | (Raise _, _) => False
  end.
Proof.
  intros Hpar Hl Hch Hfds Hbn Hjobs. unfold can_parallel_direct_retrieve in Hpar.
  destruct (length jobs <? 2)%nat; [done|].
  assert (forall job, job ∈ jobs -> leading_edge (dr_descriptor job) = None
    /\ NoDup (physical_block_ids (dr_descriptor job))) as Heach.
  { intros job Hin. destruct (distinct_blocks_each _ _ (dr_descriptor job) Hpar) as (H1 & H2 & _);
      [by apply list_elem_of_fmap_2|done]. }
  assert (forall job, job ∈ jobs -> addresses_distinct (row_nbytes (xc_engine cfg)) (dr_descriptor job))
    as Hdist.
  { intros job Hin. destruct (Hjobs job Hin) as (_ & Hp & _ & Hb & _). destruct (Heach job Hin).
    apply planned_addresses_distinct; try done. by rewrite Hb. }
  assert (forall i j jobi jobj x y a, jobs !! i = Some jobi -> jobs !! j = Some jobj ->
    device_address (row_nbytes (xc_engine cfg)) (dr_descriptor jobi) x = Some a ->
    device_address (row_nbytes (xc_engine cfg)) (dr_descriptor jobj) y = Some a -> i = j) as Hapart.
  { intros i j ji jj x y a Hi Hj Ha Hb. destruct (decide (i = j)) as [|Hne]; [done|exfalso].
    pose proof (list_elem_of_lookup_2 _ _ _ Hi) as Hini. pose proof (list_elem_of_lookup_2 _ _ _ Hj) as Hinj.
    destruct (Hjobs ji Hini) as (_ & Hpi & Hbi & Hni & _). destruct (Hjobs jj Hinj) as (_ & Hpj & Hbj & Hnj & _).
    destruct (planned_addresses_apart cfg (dr_descriptor ji) (dr_descriptor jj) x y a) as (p & Hp1 & Hp2);
      try done; try congruence; [apply (Heach ji Hini)|apply (Heach jj Hinj)|].
    refine (distinct_blocks_two _ _ i j _ _ Hpar _ _ Hne p Hp1 Hp2);
      rewrite list_lookup_fmap; [by rewrite Hi|by rewrite Hj]. }
  pose proof (transfers_any_order (P := P) cfg jobs (x_io s)) as Hmany.
  specialize (Hmany ltac:(intros job Hin; destruct (Hjobs job Hin) as (Hpr & _ & _ & _ & Hap);
    split; [by apply job_prepared_checked|split; [apply (Heach job Hin)|split; [by apply Hdist|exact Hap]]])
    Hapart l (fun _ => False) s).
  assert (jobs_loaded cfg jobs (x_io s) (fun _ => False) (x_io s)) as H0 by (split; done).
  specialize (Hmany ltac:(rewrite Hl; apply NoDup_seq) ltac:(done) H0).
  destruct (run_futures _ jobs l s) as [[outcomes|ex] t]; [|done].
  destruct Hmany as ([F1 F2 F3 F4 F5] & Hall & Hrest). split; [|split; [done|split; [done|done]]].
  intros j job Hj. destruct (Hall j) as [r Hr].
  - rewrite Hl. apply elem_of_seq. apply lookup_lt_Some in Hj. lia.
  - by apply lookup_lt_Some in Hj.
  - exists r. split; [done|]. intros -> x a Ha. eapply F4; [by right|done|done].
Qed.

End properties.

(** ** Concrete batches *)

Module DirectExamples.
Import XdsExamples IndexExamples.

Definition ex_direct_cfg : xds_config ex_dtype := ex_cfg false 100000.

(** A pool that runs the newest job first *)
Definition ex_order (n : nat) : list nat := rev (seq 0 n).

(** Two retrieves of one chunk's file, into the blocks 0 and 2, and 1 and 3 *)
Definition ex_into (blocks : list Z) : DirectIODescriptor :=
  Descriptor RETRIEVE ex_gpu 8192 16384 0 4096 2 0 2 0 4 (coalesce_runs 0 blocks) None
    4096 true (Some [7]) [] [] blocks.

Definition ex_jobs (m : BlockFirstDiskMetadata) : list (direct_retrieve_job string) :=
  [DirectRetrieveJob _ 0 "a" ex_path m (ex_into [0; 2]);
   DirectRetrieveJob _ 1 "b" ex_path m (ex_into [1; 3])].

(** The files of [ex_stored], indexed by nothing yet *)
Definition ex_after_store : xds_state string ex_dtype unit := with_io ex_stored.2 ex_start.

End DirectExamples.

Lemma ex_start_ok cfg : index_ok cfg None 0 IndexExamples.ex_start.
Proof. by apply initial_ok. Qed.

Lemma ex_into_apart blocks :
  Forall (fun p => p <= 3) blocks ->
  staging_apart XdsExamples.ex_xds (DirectExamples.ex_into blocks) None.
Proof.
  intros Hb. apply ex_apart. intros x a. unfold device_address, run_address.
  cbn [DirectExamples.ex_into byte_segments is_nil negb leading_edge allocation_base block_nbytes].
  destruct (x <? _); [done|].
  pose proof (Z.mod_pos_bound (x - BLOCK_FIRST_HEADER_SIZE) 4096 eq_refl) as Hm.
  destruct (runs_block _ _) as [p|] eqn:E; [|done]. intros [= <-].
  apply (planned_block (DirectExamples.ex_into blocks)) in E as [E _]; [|done].
  pose proof (proj1 (Forall_lookup _ _) Hb _ _ E) as Hp. simpl in Hp. lia.
Qed.

Lemma direct_put_outcome_witness :
  exists t entry, batched_direct_put (HL := SimHyFile.sim_lib) (JC := CountableCodec.codec)
      DirectExamples.ex_direct_cfg DirectExamples.ex_order true ["a"] [Some XdsExamples.ex_store]
      IndexExamples.ex_start = (Ok [true], t)
    /\ hot_cache t = [("a", entry)] /\ current_cache_size t = xm_size entry
    /\ exists file, content (io_world (x_io t)) "root/a/a.block_first_v1.kvdata" = Some file.
Proof.
  pose proof (direct_put_outcome (HL := SimHyFile.sim_lib) (JC := CountableCodec.codec)
    (JL := CountableCodecFacts.codec_laws) DirectExamples.ex_direct_cfg DirectExamples.ex_order true
    IndexExamples.ex_start "a" XdsExamples.ex_store (ex_start_ok _) ex_fds eq_refl eq_refl
    ltac:(vm_compute; intros H; inversion H) eq_refl) as H.
  assert ((batched_direct_put (HL := SimHyFile.sim_lib) (JC := CountableCodec.codec)
    DirectExamples.ex_direct_cfg DirectExamples.ex_order true ["a"] [Some XdsExamples.ex_store]
    IndexExamples.ex_start).1 = Ok [true]) as E1 by (vm_compute; reflexivity).
  destruct (batched_direct_put _ _ _ _ _ _) as [r t]. simpl in E1. subst r.
  destruct H as (gone & h & (Hp & _) & [(_ & m & entry & _ & _ & Hh & Hsz & header & _ & Hc)|[Hf _]]);
    [|discriminate Hf].
  apply Permutation_nil in Hp. apply app_eq_nil in Hp as [-> ->].
  exists t, entry. split; [reflexivity|]. split; [exact Hh|].
  split; [|eexists; exact Hc]. rewrite Hsz. change (0 - 0 + xm_size entry = xm_size entry). lia.
Defined.

Lemma direct_batches_account_witness :
  index_ok DirectExamples.ex_direct_cfg None 0
    (run_st (batched_direct_put (HL := SimHyFile.sim_lib) (JC := CountableCodec.codec)
      DirectExamples.ex_direct_cfg DirectExamples.ex_order true ["a"; "b"; "a"]
      [Some XdsExamples.ex_store; None; Some XdsExamples.ex_store]) IndexExamples.ex_start)
  /\ (batched_direct_put (HL := SimHyFile.sim_lib) (JC := CountableCodec.codec)
      DirectExamples.ex_direct_cfg DirectExamples.ex_order true ["a"; "b"; "a"]
      [Some XdsExamples.ex_store; None; Some XdsExamples.ex_store] IndexExamples.ex_start).1
     = Ok [true; false; false].
Proof.
  split; [|vm_compute; reflexivity].
  apply (proj1 (direct_batches_account (HL := SimHyFile.sim_lib) (JC := CountableCodec.codec)
    DirectExamples.ex_direct_cfg DirectExamples.ex_order None IndexExamples.ex_start
    ltac:(intros c H; discriminate H) (ex_start_ok _))).
Defined.

Lemma ex_job_prepared m s1 job :
  ex_stored = (Ok m, s1) -> job ∈ DirectExamples.ex_jobs m ->
  job_prepared (JC := CountableCodec.codec) DirectExamples.ex_direct_cfg
    (io_world s1) job.
Proof.
  intros Hst Hin. exists (fun w => w), s1.
  assert (forall blocks, blocks = [0; 2] \/ blocks = [1; 3] ->
    match ex_stored with
    | (Ok m, s) => (on_world (prepare_direct_xds (Dt := ex_dtype) (JC := CountableCodec.codec)
        XdsExamples.ex_xds (fun w => w) XdsExamples.ex_path m (DirectExamples.ex_into blocks)) s).1 = Ok tt
    | _ => False
    end) as Hok by (intros blocks [->| ->]; vm_compute; reflexivity).
  assert (exists blocks n key, (blocks = [0; 2] \/ blocks = [1; 3])
    /\ job = DirectRetrieveJob _ n key XdsExamples.ex_path m (DirectExamples.ex_into blocks))
    as (blocks & n & key & Hb & ->).
  { unfold DirectExamples.ex_jobs in Hin. set_unfold in Hin.
    destruct Hin as [->|[->|[]]]; eauto 10. }
  specialize (Hok blocks Hb). rewrite Hst in Hok. unfold prepare_direct_retrieve_io. simpl.
  destruct (on_world _ s1) as [r i'] eqn:E. exists i'. simpl in Hok. subst r.
  split; [reflexivity|]. split; [|split; [exact ex_elsewhere|done]].
  pose proof ex_stored_fds as H. by rewrite Hst in H.
Qed.

Lemma parallel_retrieve_any_order_witness :
  exists m s1 outcomes t, ex_stored = (Ok m, s1)
    /\ run_futures (transfer_direct_retrieve_io (HL := SimHyFile.sim_lib) (JC := CountableCodec.codec)
         DirectExamples.ex_direct_cfg) (DirectExamples.ex_jobs m) [1%nat; 0%nat]
         (with_io s1 IndexExamples.ex_start) = (Ok outcomes, t)
    /\ file_byte (io_world s1) XdsExamples.ex_path 4101 = Some (mem (io_world (x_io t)) (8192 + 5)).
Proof.
  assert (exists m s1, ex_stored = (Ok m, s1) /\ s1 = ex_stored.2
    /\ match run_futures (transfer_direct_retrieve_io (HL := SimHyFile.sim_lib) (JC := CountableCodec.codec)
         DirectExamples.ex_direct_cfg) (DirectExamples.ex_jobs m) [1%nat; 0%nat]
         (with_io s1 IndexExamples.ex_start) with
       | (Ok outcomes, _) => outcomes !! 0%nat = Some (Ok tt)
       | _ => False
       end) as (m & s1 & Hst & Hs1 & Hout).
  { destruct ex_stored as [r s1] eqn:E.
    assert (match ex_stored with (Ok _, _) => True | _ => False end) as Hr by (vm_compute; exact I).
    rewrite E in Hr. destruct r as [m|]; [|destruct Hr]. exists m, s1. split; [reflexivity|]. split; [reflexivity|].
    assert (match ex_stored with (Ok m, s1) =>
      match run_futures (transfer_direct_retrieve_io (HL := SimHyFile.sim_lib) (JC := CountableCodec.codec)
         DirectExamples.ex_direct_cfg) (DirectExamples.ex_jobs m) [1%nat; 0%nat]
         (with_io s1 IndexExamples.ex_start) with
       | (Ok outcomes, _) => outcomes !! 0%nat = Some (Ok tt)
       | _ => False
       end | _ => False end) as Hrun by (vm_compute; reflexivity).
    by rewrite E in Hrun. }
  pose proof (parallel_retrieve_any_order (HL := SimHyFile.sim_lib) (JC := CountableCodec.codec)
    (P := unit) DirectExamples.ex_direct_cfg (DirectExamples.ex_jobs m) [1%nat; 0%nat] 8192 4096
    (with_io s1 IndexExamples.ex_start)) as H.
  destruct (run_futures _ _ _ _) as [[outcomes|ex] t] eqn:Erun; [|destruct Hout].
  exists m, s1, outcomes, t. split; [exact Hst|]. split; [exact Erun|].
  destruct H as [H _].
  - vm_compute. reflexivity.
  - apply perm_swap.
  - exact ex_shapes.
  - simpl. rewrite Hs1. exact ex_stored_fds.
  - reflexivity.
  - intros job Hin. split; [by eapply ex_job_prepared|].
    assert (edge_tensor s1 = None) as Hedge by (rewrite Hs1; exact ex_stored_edge).
    simpl. rewrite Hedge. unfold DirectExamples.ex_jobs in Hin. set_unfold in Hin.
    destruct Hin as [->|[->|[]]]; (split; [by split|]); (split; [reflexivity|]); (split; [reflexivity|]);
      apply ex_into_apart; repeat constructor; lia.
  - destruct (H 0%nat _ eq_refl) as (r & Hr & Hb). rewrite Hout in Hr. injection Hr as <-.
    apply (Hb eq_refl). vm_compute. reflexivity.
Defined.
