(* ===== verification/StorageManager.v ===== *)
(** * The storage manager

    [StorageManager] ([storage_manager.py]): which backends a request reaches, the
    lookups, loads and stores over several tiers, asynchronous prefetching, and the life
    cycle of the backends. A backend is known through the interface [StorageBackend]. *)

From S2P Require Import Prelude Tensor Codec BlockFirst DirectIO Dict.

Open Scope string_scope.
Open Scope list_scope.
Open Scope Z_scope.

(** What [allocate] is asked for: one shape and dtype per group of layers *)
Record alloc_request := AllocRequest {
  rq_shapes : list (list Z);
  rq_dtypes : list string;
  rq_fmt : option string;
  rq_eviction : bool;
  rq_busy_loop : bool;
}.

(** ** Backends

    What the manager calls of a backend object [B], for keys [K], memory objects [O] and
    the backends' common state [S] *)
Class StorageBackend (B K O S : Type) := {
  b_cname : B -> string;                                       (* the class name *)
  b_get_allocator_backend : B -> B;
  b_contains : B -> K -> bool -> ST S bool;
  b_batched_contains : B -> list K -> bool -> ST S Z;
  b_batched_async_contains : B -> string -> list K -> bool -> ST S Z;
  b_get_blocking : B -> K -> ST S (option O);
  b_batched_get_blocking : B -> list K -> ST S (list (option O));
  b_get_non_blocking : B -> K -> ST S (option Z);              (* a future *)
  b_batched_get_non_blocking : B -> string -> list K -> list Z -> ST S (list O);
  b_submit_put_task : B -> K -> O -> ST S unit;
  b_batched_submit_put_task : B -> list K -> list O -> ST S unit;
  b_is_allocator : B -> bool;                                  (* AllocatorBackendInterface *)
  b_allocate : B -> alloc_request -> ST S (option O);
  b_batched_allocate : B -> alloc_request -> Z -> ST S (option (list O));
  b_get_shape : O -> list Z;
  b_get_dtype : O -> string;
  b_fmt : O -> string;
  b_copy_tensor : O -> O -> ST S unit;                         (* to, from *)
  b_ref_count_down : O -> ST S unit;
  b_has_tensor : O -> bool;
  b_direct_put : B -> option (list K -> list (option DirectIODescriptor) -> ST S (list bool));
  b_direct_get : B -> option (list K -> list (option DirectIODescriptor) -> ST S (list bool));
  b_supports_direct_io : B -> option (DirectIODirection -> bool);
  b_direct_enabled : B -> bool;
  b_is_local_cpu : B -> bool;                                  (* isinstance LocalCPUBackend *)
  b_pd_sender : B -> bool;
  b_touch_cache : B -> ST S unit;
  b_remove : B -> K -> ST S Z;
  b_batched_remove : B -> list K -> ST S Z;
  b_unpin : B -> K -> ST S unit;
  b_clear : B -> option (ST S Z);
  b_use_hot : B -> ST S bool;
  b_set_use_hot : B -> bool -> ST S unit;
  b_memcheck : B -> option (ST S bool);                        (* of its allocator, if it has one *)
  b_close : B -> ST S unit;
}.

Record sm_config := SmConfig {
  enable_pd : bool;
  local_cpu : bool;
  enable_async_loading : bool;
  is_scheduler : bool;
}.

(** The manager's fields, the responses it sent to the scheduler and its loading events *)
Record sm_state {B S : Type} := SmState {
  storage_backends : odict string B;
  frozen : bool;
  bypassed_backends : gset string;
  allocator_backend : option B;
  local_cpu_backend : option B;
  non_allocator_backends : list string;
  responses : list (string * Z);
  events_done : gset string;
  backends_state : S;
}.
Arguments sm_state : clear implicits.

Section setters.
Context {B S : Type}.
Implicit Types s : sm_state B S.

Definition sm_with_backends (b : odict string B) s := SmState _ _ b (frozen s) (bypassed_backends s)
  (allocator_backend s) (local_cpu_backend s) (non_allocator_backends s) (responses s)
  (events_done s) (backends_state s).
Definition sm_with_frozen (f : bool) s := SmState _ _ (storage_backends s) f (bypassed_backends s)
  (allocator_backend s) (local_cpu_backend s) (non_allocator_backends s) (responses s)
  (events_done s) (backends_state s).
Definition sm_with_bypassed (b : gset string) s := SmState _ _ (storage_backends s) (frozen s) b
  (allocator_backend s) (local_cpu_backend s) (non_allocator_backends s) (responses s)
  (events_done s) (backends_state s).
Definition sm_with_local_cpu (b : option B) s := SmState _ _ (storage_backends s) (frozen s)
  (bypassed_backends s) (allocator_backend s) b (non_allocator_backends s) (responses s)
  (events_done s) (backends_state s).
Definition sm_with_non_allocator (l : list string) s := SmState _ _ (storage_backends s) (frozen s)
  (bypassed_backends s) (allocator_backend s) (local_cpu_backend s) l (responses s)
  (events_done s) (backends_state s).
Definition sm_with_allocator (b : option B) s := SmState _ _ (storage_backends s) (frozen s)
  (bypassed_backends s) b (local_cpu_backend s) (non_allocator_backends s) (responses s)
  (events_done s) (backends_state s).
Definition sm_respond (lookup_id : string) (n : Z) s := SmState _ _ (storage_backends s) (frozen s)
  (bypassed_backends s) (allocator_backend s) (local_cpu_backend s) (non_allocator_backends s)
  (responses s ++ [(lookup_id, n)]) (events_done s) (backends_state s).
Definition sm_event_done (lookup_id : string) s := SmState _ _ (storage_backends s) (frozen s)
  (bypassed_backends s) (allocator_backend s) (local_cpu_backend s) (non_allocator_backends s)
  (responses s) ({[ lookup_id ]} ∪ events_done s) (backends_state s).
Definition sm_with_state (w : S) s := SmState _ _ (storage_backends s) (frozen s)
  (bypassed_backends s) (allocator_backend s) (local_cpu_backend s) (non_allocator_backends s)
  (responses s) (events_done s) w.

(** An operation of the backends *)
Definition on_backends {A} (m : ST S A) : ST (sm_state B S) A := fun s =>
  let '(r, w) := m (backends_state s) in (r, sm_with_state w s).

End setters.

Definition LocalCPUBackend : string := "LocalCPUBackend".
Definition PDBackend : string := "PDBackend".

(** [x] of [if x and ...]: a missing or empty argument does not filter. *)
Definition name_filter (location : option string) (name : string) : bool :=
  match location with Some l => String.eqb l "" || String.eqb name l | None => true end.
Definition range_filter (search_range : option (list string)) (name : string) : bool :=
  match search_range with
  | Some l => is_nil l || bool_decide (name ∈ l)
  | None => true
  end.

(** [locations is None or backend_name in locations] *)
Definition location_filter (locations : option (list string)) (name : string) : bool :=
  match locations with Some l => bool_decide (name ∈ l) | None => true end.

Section manager.
Context {B K O S : Type} `{!StorageBackend B K O S}.
Context (cfg : sm_config).
#[local] Abbreviation M := (ST (sm_state B S)).
Implicit Types (keys : list K) (s : sm_state B S).

(** ** Which backends *)

Definition active s (location : option string) (search_range : option (list string))
    (nb : string * B) : bool :=
  negb (frozen s && negb (String.eqb nb.1 LocalCPUBackend))
  && negb (bool_decide (nb.1 ∈ bypassed_backends s))
  && name_filter location nb.1 && range_filter search_range nb.1.

Definition get_active_storage_backends (location : option string) (search_range : option (list string))
    : M (list (string * B)) :=
  st_gets (fun s => filter (fun nb => active s location search_range nb = true) (storage_backends s)).

Definition get_non_allocator_backends_of (backends : odict string B) : list string :=
  fst <$> filter (fun nb => negb (String.eqb nb.1 LocalCPUBackend && negb (local_cpu cfg))
    && negb (String.eqb nb.1 PDBackend && b_pd_sender nb.2) = true) backends.

Definition _get_allocator_backend (backends : odict string B) : result (option B) :=
  b ← (if enable_pd cfg then
         match od_get PDBackend backends with Some b => Ok (Some b) | None => Raise KeyError end
       else Ok (od_get LocalCPUBackend backends));
  match b with
  | None => Ok None
  | Some b => py_assert (b_is_allocator b);; Ok (Some b)
  end.

Definition set_freeze (enabled : bool) : M unit := st_modify (sm_with_frozen enabled).
Definition is_frozen : M bool := st_gets frozen.

Definition set_backend_bypass (name : string) (bypassed : bool) : M unit :=
  st_modify (fun s => sm_with_bypassed
    (if bypassed then {[ name ]} ∪ bypassed_backends s else bypassed_backends s ∖ {[ name ]}) s).
Definition is_backend_bypassed (name : string) : M bool :=
  st_gets (fun s => bool_decide (name ∈ bypassed_backends s)).
Definition get_bypassed_backends : M (list string) := st_gets (fun s => elements (bypassed_backends s)).
Definition get_all_backend_names : M (list string) := st_gets (fun s => od_keys (storage_backends s)).

Definition set_hot_cache (enabled : bool) : M unit :=
  s ← st_get;
  match local_cpu_backend s with
  | Some b =>
      if negb (b_is_local_cpu b) then mret tt
      else
        (if negb enabled then
           match b_clear b with
           | Some clear => on_backends clear;; mret tt
           | None => st_raise AttributeError
           end
         else mret tt);;
        on_backends (b_set_use_hot b enabled)
  | None => mret tt
  end.

Definition is_hot_cache_enabled : M bool :=
  s ← st_get;
  match local_cpu_backend s with
  | Some b => if negb (b_is_local_cpu b) then mret false else on_backends (b_use_hot b)
  | None => mret false
  end.

(** ** Lookups *)

Definition pin_in_backend (name : string) (pin : bool) : bool :=
  if String.eqb name PDBackend then false else pin.

Fixpoint contains_in (key : K) (pin : bool) (backends : list (string * B)) : M (option string) :=
  match backends with
  | [] => mret None
  | (name, b) :: rest =>
      found ← on_backends (b_contains b key (pin_in_backend name pin));
      if found : bool then mret (Some name) else contains_in key pin rest
  end.

Definition contains (key : K) (search_range : option (list string)) (pin : bool) : M (option string) :=
  backends ← get_active_storage_backends None search_range;
  contains_in key pin backends.

(** The loop of [batched_contains]: the hits so far, and the keys of each backend *)
Fixpoint batched_contains_in (total : Z) keys (pin : bool) (hits : Z) (mapping : odict string (list K))
    (backends : list (string * B)) : M (Z * odict string (list K)) :=
  match backends with
  | [] => mret (hits, mapping)
  | (name, b) :: rest =>
      n ← on_backends (b_batched_contains b keys (pin_in_backend name pin));
      if n =? 0 then batched_contains_in total keys pin hits mapping rest
      else
        let mapping := od_set name (py_slice keys 0 n) mapping in
        if hits + n =? total then mret (hits + n, mapping)
        else batched_contains_in total (py_slice keys n (lenZ keys)) pin (hits + n) mapping rest
  end.

Definition batched_contains keys (search_range : option (list string)) (pin : bool)
    : M (Z * odict string (list K)) :=
  backends ← get_active_storage_backends None search_range;
  batched_contains_in (lenZ keys) keys pin 0 [] backends.

Fixpoint get_block_mapping_in (total : Z) (infos : list (K * Z * Z)) keys (hits : Z)
    (mapping : odict string (list (K * Z * Z))) (backends : list (string * B))
    : M (odict string (list (K * Z * Z))) :=
  match backends with
  | [] => mret mapping
  | (name, b) :: rest =>
      n ← on_backends (b_batched_contains b keys false);
      if n =? 0 then get_block_mapping_in total infos keys hits mapping rest
      else
        let mapping := od_set name (py_slice infos hits (hits + n)) mapping in
        if hits + n =? total then mret mapping
        else get_block_mapping_in total infos (py_slice keys n (lenZ keys)) (hits + n) mapping rest
  end.

Definition get_block_mapping (infos : list (K * Z * Z)) : M (odict string (list (K * Z * Z))) :=
  backends ← get_active_storage_backends None None;
  get_block_mapping_in (lenZ infos) infos ((fun i => i.1.1) <$> infos) 0 [] backends.

(** ** Loads *)

(** [backend_name not in ["LocalCPUBackend", "PDBackend"] and "LocalCPUBackend" in self.storage_backends] *)
Definition write_back (name : string) : M (option B) :=
  s ← st_get;
  if String.eqb name LocalCPUBackend || String.eqb name PDBackend then mret None
  else
    match od_get LocalCPUBackend (storage_backends s) with
    | None => mret None
    | Some b => if negb (b_is_local_cpu b) then st_raise AssertionError else mret (Some b)
    end.

Fixpoint get_in (key : K) (backends : list (string * B)) : M (option O) :=
  match backends with
  | [] => mret None
  | (name, b) :: rest =>
      obj ← on_backends (b_get_blocking b key);
      match obj with
      | None => get_in key rest
      | Some o =>
          cpu ← write_back name;
          match cpu with
          | Some c => on_backends (b_submit_put_task c key o)
          | None => mret tt
          end;;
          mret (Some o)
      end
  end.

Definition get (key : K) (location : option string) : M (option O) :=
  backends ← get_active_storage_backends location None; get_in key backends.

Fixpoint get_non_blocking_in (key : K) (backends : list (string * B)) : M (option Z) :=
  match backends with
  | [] => mret None
  | (_, b) :: rest =>
      task ← on_backends (b_get_non_blocking b key);
      match task with Some t => mret (Some t) | None => get_non_blocking_in key rest end
  end.

Definition get_non_blocking (key : K) (location : option string) : M (option Z) :=
  backends ← get_active_storage_backends location None; get_non_blocking_in key backends.

Fixpoint batched_get_in keys (backends : list (string * B)) : M (list (option O)) :=
  match backends with
  | [] => mret (replicate (length keys) None)
  | (name, b) :: rest =>
      objs ← on_backends (b_batched_get_blocking b keys);
      if is_nil objs then batched_get_in keys rest
      else
        (match mapM id objs with
         | Some all =>
             cpu ← write_back name;
             match cpu with
             | Some c => on_backends (b_batched_submit_put_task c keys all)
             | None => mret tt
             end
         | None => mret tt
         end);;
        mret objs
  end.

Definition batched_get keys (location : option string) : M (list (option O)) :=
  backends ← get_active_storage_backends location None; batched_get_in keys backends.

Definition direct_route (route : B -> option (list K -> list (option DirectIODescriptor) -> ST S (list bool)))
    keys (plans : list DirectIOPlan) (location : option string) : M (list bool) :=
  let none := replicate (length keys) false in
  if negb (Nat.eqb (length plans) (length keys)) then mret none
  else
    match location with
    | None => mret none
    | Some name =>
        s ← st_get;
        match od_get name (storage_backends s) ≫= route with
        | None => mret none
        | Some f => on_backends (f keys (plan_descriptor <$> plans))
        end
    end.

Definition batched_direct_put keys plans (location : option string) : M (list bool) :=
  direct_route b_direct_put keys plans location.
Definition batched_direct_get keys plans (location : string) : M (list bool) :=
  direct_route b_direct_get keys plans (Some location).

Definition supports_direct_io (location : option string) (direction : option DirectIODirection)
    : M bool :=
  match location with
  | None => mret false
  | Some name =>
      s ← st_get;
      mret (match od_get name (storage_backends s) with
            | None => false
            | Some b =>
                match b_supports_direct_io b, direction with
                | Some supports, Some dir => supports dir
                | _, _ => b_direct_enabled b
                end
            end)
  end.

(** ** Stores *)

(** [allocate_and_copy_objects]: the keys and copies of the objects allocated *)
Fixpoint allocate_and_copy_objects (allocator : B) keys (objs : list O) : M (list K * list O) :=
  match keys, objs with
  | key :: keys, src :: objs =>
      found ← on_backends (b_contains allocator key false);
      if found : bool then allocate_and_copy_objects allocator keys objs
      else
        copy ← on_backends (b_allocate allocator
                 (AllocRequest [b_get_shape src] [b_get_dtype src] (Some (b_fmt src)) true false));
        match copy with
        | None => mret ([], [])
        | Some o =>
            if negb (b_has_tensor o) then on_backends (b_ref_count_down o);; mret ([], [])
            else
              on_backends (b_copy_tensor o src);;
              '(ks, os) ← allocate_and_copy_objects allocator keys objs;
              mret (key :: ks, o :: os)
        end
  | _, _ => mret ([], [])
  end.

(** The loop of [batched_put] over the backends; [obj_dict] is keyed by the class of the
    allocating backend. *)
Fixpoint batched_put_in keys (objs : list O) (location : option string)
    (obj_dict : odict string (list K * list O)) (backends : list (string * B))
    : M (odict string (list K * list O)) :=
  match backends with
  | [] => mret obj_dict
  | (name, b) :: rest =>
      s ← st_get;
      if negb (name_filter location name) || bool_decide (name ∈ bypassed_backends s)
      then batched_put_in keys objs location obj_dict rest
      else
        let allocator := b_get_allocator_backend b in
        let cname := b_cname allocator in
        obj_dict ← (match od_get cname obj_dict with
                    | Some _ => mret obj_dict
                    | None =>
                        new ← allocate_and_copy_objects allocator keys objs;
                        mret (od_set cname new obj_dict)
                    end);
        match od_get cname obj_dict with
        | Some (ks, os) => on_backends (b_batched_submit_put_task b ks os)
        | None => st_raise KeyError
        end;;
        batched_put_in keys objs location obj_dict rest
  end.

Definition batched_put keys (objs : list O) (location : option string) : M unit :=
  s ← st_get;
  match allocator_backend s with
  | None => st_raise (RuntimeError "Batched put not available for scheduler role")
  | Some allocator =>
      obj_dict ← batched_put_in keys objs location [(b_cname allocator, (keys, objs))]
                   (storage_backends s);
      st_iter (fun e => st_iter (fun o => on_backends (b_ref_count_down o)) e.2.2) obj_dict
  end.

Definition allocate (shapes : list (list Z)) (dtypes : list string) (fmt : option string) (eviction busy_loop : bool) : M (option O) :=
  s ← st_get;
  match allocator_backend s with
  | None => mret None
  | Some b => on_backends (b_allocate b (AllocRequest shapes dtypes fmt eviction busy_loop))
  end.

Definition batched_allocate (shapes : list (list Z)) (dtypes : list string) (batch_size : Z) (fmt : option string)
    (eviction busy_loop : bool) : M (option (list O)) :=
  s ← st_get;
  match allocator_backend s with
  | None => st_raise (RuntimeError "Allocator backend not available for scheduler role")
  | Some b =>
      on_backends (b_batched_allocate b (AllocRequest shapes dtypes fmt eviction busy_loop) batch_size)
  end.

Definition put (key : K) (o : O) (location : option string) : M unit :=
  st_raise (RuntimeError "StorageManager.put is deprecated and should not be called anymore").

(** A generator is the list of its steps; each runs the load of one layer, whose outcome is
    the result of the task it yields. *)
Definition layerwise_batched_get (keys : list (list K)) (location : option string)
    : list (M (result (list O))) :=
  (fun keys_multi_chunk =>
     s ← st_get;
     match od_get (default LocalCPUBackend location) (storage_backends s) with
     | None => st_raise KeyError
     | Some b => on_backends (st_future (b_batched_get_non_blocking b "fake_lookup_id" keys_multi_chunk []))
     end) <$> keys.

(** ** Maintenance of every tier *)

(** [touch_cache] of the backends that keep their own policy *)
Definition touch_cache : M unit :=
  s ← st_get;
  st_iter (fun nb : string * B =>
    if bool_decide (nb.1 ∈ [LocalCPUBackend; "LocalDiskBackend"; "XdsBackend"])
    then on_backends (b_touch_cache nb.2) else mret tt) (storage_backends s).

(** [total += f(backend)] over the backends in [locations] *)
Fixpoint sum_backends (f : B -> M Z) (locations : option (list string)) (total : Z)
    (backends : list (string * B)) : M Z :=
  match backends with
  | [] => mret total
  | (name, b) :: rest =>
      if location_filter locations name
      then n ← f b; sum_backends f locations (total + n) rest
      else sum_backends f locations total rest
  end.

Definition remove (key : K) (locations : option (list string)) : M Z :=
  s ← st_get;
  sum_backends (fun b => on_backends (b_remove b key)) locations 0 (storage_backends s).

Definition batched_remove keys (locations : option (list string)) : M Z :=
  s ← st_get;
  sum_backends (fun b => on_backends (b_batched_remove b keys)) locations 0 (storage_backends s).

Definition batched_unpin keys (locations : option (list string)) : M unit :=
  s ← st_get;
  st_iter (fun nb : string * B =>
    if location_filter locations nb.1
    then st_iter (fun key => on_backends (b_unpin nb.2 key)) keys else mret tt) (storage_backends s).

Definition clear (locations : option (list string)) : M Z :=
  s ← st_get;
  sum_backends (fun b => match b_clear b with Some m => on_backends m | None => mret 0 end)
    locations 0 (storage_backends s).

Fixpoint memcheck_in (backends : list (string * B)) : M bool :=
  match backends with
  | [] => mret true
  | (_, b) :: rest =>
      if negb (b_is_allocator b) then memcheck_in rest
      else
        match b_memcheck b with
        | None => memcheck_in rest
        | Some m => good ← on_backends m; if good : bool then memcheck_in rest else mret false
        end
  end.

Definition memcheck : M bool :=
  s ← st_get; memcheck_in (storage_backends s).

(** ** Life cycle

    [CreateStorageBackends] is LMCache's factory: the names to skip and the backends that
    exist, to the new backends. *)
Context (CreateStorageBackends : gset string -> odict string B -> ST S (odict string B)).

Definition list_backends : M (odict string string) :=
  s ← st_get; mret (map (fun nb : string * B => (nb.1, b_cname nb.2)) (storage_backends s)).

Definition refresh_non_allocator : M unit :=
  st_modify (fun s => sm_with_non_allocator (get_non_allocator_backends_of (storage_backends s)) s).

(** [try: backend.close() except Exception], then [del self.storage_backends[name]] *)
Definition close_and_delete (backend_name : string) (b : B) : M unit :=
  st_catch (fun _ => true) (on_backends (b_close b)) (fun _ => mret tt);;
  st_modify (fun s => sm_with_backends (od_del backend_name (storage_backends s)) s).

Definition close_backend (backend_name : string) : M bool :=
  s ← st_get;
  match od_get backend_name (storage_backends s) with
  | None => mret false
  | Some b =>
      close_and_delete backend_name b;;
      refresh_non_allocator;;
      (if String.eqb backend_name LocalCPUBackend
       then st_modify (sm_with_local_cpu None) else mret tt);;
      mret true
  end.

(** [self.storage_backends[name] = backend] for the new backends *)
Definition add_backends (new : odict string B) (old : odict string B) : odict string B :=
  foldl (fun d nb => od_set nb.1 nb.2 d) old new.

(** The part [create_backends] and [recreate_backend] share *)
Definition create_missing : M (odict string string) :=
  s ← st_get;
  new ← on_backends (CreateStorageBackends (list_to_set (od_keys (storage_backends s)))
                       (storage_backends s));
  st_modify (fun s => sm_with_backends (add_backends new (storage_backends s)) s);;
  refresh_non_allocator;;
  mret (foldl (fun d nb => od_set nb.1 (b_cname nb.2) d) [] new).

Definition create_backends : M (odict string string) :=
  created ← create_missing;
  s ← st_get;
  match od_get LocalCPUBackend (storage_backends s) with
  | Some cpu => st_modify (sm_with_local_cpu (Some cpu))
  | None => mret tt
  end;;
  mret created.

Definition recreate_backend (backend_name : string) : M (odict string string) :=
  s ← st_get;
  match od_get backend_name (storage_backends s) with
  | None => st_raise KeyError
  | Some b =>
      close_and_delete backend_name b;;
      created ← create_missing;
      s ← st_get;
      match od_get LocalCPUBackend (storage_backends s) with
      | Some cpu => st_modify (sm_with_local_cpu (Some cpu))
      | None =>
          if String.eqb backend_name LocalCPUBackend
          then st_modify (sm_with_local_cpu None) else mret tt
      end;;
      mret created
  end.

(** [StorageManager.__init__], from the backends' state *)
Definition init_manager (w : S) : result unit * sm_state B S :=
  (create_backends;;
   refresh_non_allocator;;
   s ← st_get;
   (if is_scheduler cfg then mret tt
    else
      b ← st_lift (_get_allocator_backend (storage_backends s));
      st_modify (sm_with_allocator b));;
   st_modify (fun s => sm_with_local_cpu (od_get LocalCPUBackend (storage_backends s)) s);;
   s ← st_get;
   if negb (enable_pd cfg) && enable_async_loading cfg
   then st_lift (py_assert (bool_decide (is_Some (allocator_backend s)))) else mret tt)
  (SmState _ _ [] false ∅ None None [] [] ∅ w).

Definition shared_allocator (name : string) : bool :=
  bool_decide (name ∈ [LocalCPUBackend; PDBackend]).

(** The loop of [close]: the first error, and the backends left open after one *)
Fixpoint close_in (close_error : option exn) (backends : list (string * B)) : M (option exn) :=
  match backends with
  | [] => mret close_error
  | (name, b) :: rest =>
      if bool_decide (is_Some close_error) && shared_allocator name then close_in close_error rest
      else
        failure ← st_catch (fun _ => true) (on_backends (b_close b);; mret None)
                    (fun e => mret (Some e));
        close_in (match close_error with None => failure | Some e => Some e end) rest
  end.

Definition close : M unit :=
  s ← st_get;
  close_error ← close_in None (reverse (storage_backends s));
  match close_error with Some e => st_raise e | None => mret tt end.

End manager.

(** ** Which tier serves which chunk *)

Fixpoint prefix_while {A} (f : A -> bool) (l : list A) : list A :=
  match l with
  | [] => []
  | x :: l' => if f x then x :: prefix_while f l' else []
  end.

(** Each tier in turn takes the longest prefix of the remaining chunks it holds. *)
Fixpoint assign {B K : Type} (has : B -> K -> bool) (backends : list (string * B))
    (infos : list (K * Z * Z)) : odict string (list (K * Z * Z)) :=
  match backends with
  | [] => []
  | (name, b) :: rest =>
      let mine := prefix_while (fun i => has b i.1.1) infos in
      if is_nil mine then assign has rest infos
      else (name, mine) :: assign has rest (drop (length mine) infos)
  end.

Lemma prefix_while_take {A} (f : A -> bool) l :
  prefix_while f l = take (length (prefix_while f l)) l.
Proof. induction l as [|x l IH]; [done|]. simpl. destruct (f x); [|done]. simpl. by f_equal. Qed.

Lemma prefix_while_le {A} (f : A -> bool) l : (length (prefix_while f l) <= length l)%nat.
Proof. induction l as [|x l IH]; simpl; [lia|]. destruct (f x); simpl; lia. Qed.

Lemma prefix_while_fmap {A A'} (g : A -> A') (f : A' -> bool) l :
  prefix_while f (g <$> l) = g <$> prefix_while (fun x => f (g x)) l.
Proof. induction l as [|x l IH]; [done|]. simpl. destruct (f (g x)); [|done]. simpl. by f_equal. Qed.

Lemma prefix_while_ext {A} (f g : A -> bool) l :
  (forall x, f x = g x) -> prefix_while f l = prefix_while g l.
Proof. intros H. induction l as [|x l IH]; [done|]. simpl. rewrite H, IH. done. Qed.

Lemma assign_ext {B K} (h h' : B -> K -> bool) backends infos :
  (forall b k, h b k = h' b k) -> assign h backends infos = assign h' backends infos.
Proof.
  intros H. revert infos. induction backends as [|[name b] rest IH]; intros infos; [done|]. simpl.
  rewrite (prefix_while_ext _ (fun i => h' b i.1.1)) by (intros; apply H). by rewrite !IH.
Qed.

Lemma assign_nil {B K} (h : B -> K -> bool) backends : assign h backends [] = [].
Proof. by induction backends as [|[name b] rest IH]. Qed.

Lemma lenZ_fmap {A A'} (f : A -> A') (l : list A) : lenZ (f <$> l) = lenZ l.
Proof. unfold lenZ. by rewrite length_fmap. Qed.

(** The slices one turn of the loops takes of the chunks and of the remaining keys *)
Lemma prefix_slices {A A'} (g : A -> A') (f : A -> bool) (infos : list A) hits n :
  0 <= hits <= lenZ infos ->
  let mine := prefix_while f (drop (Z.to_nat hits) infos) in
  let keys := drop (Z.to_nat hits) (g <$> infos) in
  n = lenZ mine ->
  hits + n <= lenZ infos /\ py_slice infos hits (hits + n) = mine /\
  py_slice keys 0 n = g <$> mine /\
  py_slice keys n (lenZ keys) = drop (Z.to_nat (hits + n)) (g <$> infos).
Proof.
  intros Hh mine keys Hn.
  pose proof (prefix_while_take f (drop (Z.to_nat hits) infos)) as Htake.
  pose proof (prefix_while_le f (drop (Z.to_nat hits) infos)) as Hle.
  rewrite length_drop in Hle. fold mine in Htake, Hle. pose proof (lenZ_nonneg mine).
  assert (lenZ keys = lenZ infos - hits) as Hkl.
  { unfold keys, lenZ in *. rewrite length_drop, length_fmap. lia. }
  assert (hits + n <= lenZ infos) as Hle' by (unfold lenZ in *; lia).
  assert (Z.to_nat n = length mine) as Hnat by (unfold lenZ in *; lia).
  split_and!; [done| | |].
  - rewrite py_slice_eq by lia. replace (hits + n - hits) with n by lia. by rewrite Hnat.
  - rewrite py_slice_eq, Z.sub_0_r, drop_0 by lia. unfold keys.
    by rewrite <- fmap_drop, <- fmap_take, Hnat, <- Htake.
  - rewrite py_slice_eq by lia. rewrite take_ge by (rewrite length_drop; unfold lenZ in *; lia).
    unfold keys. rewrite drop_drop. f_equal. lia.
Qed.

Section mapping.
Context {B K O S : Type} `{!StorageBackend B K O S}.
Implicit Types (s : sm_state B S).

(** The keys of a mapping *)
Definition mapping_keys (m : odict string (list (K * Z * Z))) : odict string (list K) :=
  map (fun e => (e.1, map (fun i : K * Z * Z => i.1.1) e.2)) m.

(** A backend answers with the length of the prefix it holds; asking changes nothing it
    holds. *)
Context (has : S -> B -> K -> bool).
Hypothesis Hcontains : forall b keys pin w n w',
  b_batched_contains b keys pin w = (Ok n, w') ->
  n = lenZ (prefix_while (has w b) keys) /\ forall b' k, has w' b' k = has w b' k.

Lemma mapping_in (infos : list (K * Z * Z)) backends hits mapping s :
  0 <= hits <= lenZ infos -> NoDup (od_keys backends) ->
  (forall nb, nb ∈ backends -> nb.1 ∉ od_keys mapping) -> hits = lenZ (concat mapping.*2) ->
  let keys := drop (Z.to_nat hits) ((fun i => i.1.1) <$> infos) in
  let '(r, s') := get_block_mapping_in (lenZ infos) infos keys hits mapping backends s in
  batched_contains_in (lenZ infos) keys false hits (mapping_keys mapping) backends s
  = (match r with Ok m => Ok (lenZ (concat m.*2), mapping_keys m) | Raise e => Raise e end, s') /\
  forall m, r = Ok m ->
    m = mapping ++ assign (has (backends_state s)) backends (drop (Z.to_nat hits) infos).
Proof.
  revert hits mapping s. induction backends as [|[name b] rest IH]; intros hits mapping s Hh Hnd Hfresh Hlen;
    cbn zeta.
  { simpl. rewrite <- Hlen. split; [done|]. intros m [= <-]. by rewrite app_nil_r. }
  apply list.NoDup_cons in Hnd as [Hname Hnd]. cbn [fst] in Hname.
  assert (name ∉ od_keys mapping) as Hm by (apply (Hfresh (name, b)); by left).
  cbn [get_block_mapping_in batched_contains_in assign]. unfold mbind, ST_bind.
  replace (pin_in_backend name false) with false by (unfold pin_in_backend; by destruct (String.eqb _ _)).
  destruct (on_backends _ s) as [[n|e] s1] eqn:E; [|done].
  unfold on_backends in E. destruct (b_batched_contains _ _ _ _) as [r1 w] eqn:E1.
  injection E as -> <-. apply Hcontains in E1 as [Hn Hhas].
  rewrite <- fmap_drop, prefix_while_fmap, lenZ_fmap in Hn.
  destruct (prefix_slices (fun i => i.1.1) (fun i => has (backends_state s) b i.1.1) infos hits n Hh Hn)
    as (Hle & Hslice & Hks & Hrest).
  set (mine := prefix_while _ (drop (Z.to_nat hits) infos)) in *.
  pose proof (lenZ_nonneg mine) as Hpos.
  destruct (n =? 0) eqn:En; bool_prop.
  - assert (is_nil mine = true) as -> by (destruct mine; [done|]; rewrite lenZ_cons in Hn; pose proof (lenZ_nonneg mine); lia).
    specialize (IH hits mapping (sm_with_state w s) Hh Hnd). cbn zeta in IH.
    destruct (get_block_mapping_in _ _ _ _ _ _ _) as [r s'].
    destruct IH as [-> IH]; [intros nb Hin; apply Hfresh; by right|done|].
    split; [done|]. intros m Hr. rewrite (IH m Hr). f_equal. by apply assign_ext.
  - assert (is_nil mine = false) as -> by (destruct mine; [simpl in *; unfold lenZ in *; simpl in *; lia|done]).
    rewrite Hslice, Hks, Hrest. rewrite od_set_fresh by done.
    rewrite od_set_fresh by (unfold mapping_keys, od_keys in *; by rewrite map_map).
    replace (mapping_keys mapping ++ [(name, (fun i : K * Z * Z => i.1.1) <$> mine)])
      with (mapping_keys (mapping ++ [(name, mine)])) by (unfold mapping_keys; by rewrite map_app).
    assert (hits + n = lenZ (concat (mapping ++ [(name, mine)]).*2)) as Hlen'.
    { rewrite fmap_app, concat_app, lenZ_app. simpl. rewrite app_nil_r. lia. }
    destruct (hits + n =? lenZ infos) eqn:Et; bool_prop.
    + cbn [mret ST_ret]. split; [by rewrite Hlen'|]. intros m [= <-]. f_equal. f_equal.
      rewrite drop_ge; [by rewrite assign_nil|]. rewrite length_drop. unfold lenZ in *. lia.
    + specialize (IH (hits + n) (mapping ++ [(name, mine)]) (sm_with_state w s)). cbn zeta in IH.
      destruct (get_block_mapping_in _ _ _ _ _ _ _) as [r s'].
      destruct IH as [-> IH]; [lia|done| |done|].
      { intros nb Hin. unfold od_keys. rewrite fmap_app, not_elem_of_app. split; [apply Hfresh; by right|].
        simpl. intros Hnb%list_elem_of_singleton. apply Hname. rewrite <- Hnb. by apply list_elem_of_fmap_2. }
      split; [done|]. intros m Hr. rewrite (IH m Hr), <- app_assoc. simpl. f_equal. f_equal.
      rewrite drop_drop. replace (Z.to_nat hits + length mine)%nat with (Z.to_nat (hits + n)) by (unfold lenZ in *; lia).
      by apply assign_ext.
Qed.

(** [get_block_mapping] gives every tier in turn the longest prefix of the remaining
    chunks it holds, and [batched_contains] counts and maps exactly the same keys. *)
Theorem block_mapping_greedy infos s m s' :
  NoDup (od_keys (storage_backends s)) ->
  get_block_mapping infos s = (Ok m, s') ->
  m = assign (has (backends_state s)) (filter (fun nb => active s None None nb = true) (storage_backends s)) infos /\
  batched_contains ((fun i => i.1.1) <$> infos) None false s
  = (Ok (lenZ (concat m.*2), mapping_keys m), s').
Proof.
  intros Hnd. unfold get_block_mapping, batched_contains, get_active_storage_backends.
  unfold mbind, ST_bind, st_gets. set (backends := filter _ (storage_backends s)).
  assert (NoDup (od_keys backends)) as Hnd'.
  { unfold od_keys, backends. eapply sublist_NoDup; [exact Hnd|]. apply fmap_sublist, sublist_filter. }
  pose proof (mapping_in infos backends 0 [] s) as H. cbn zeta in H.
  rewrite drop_0 in H. rewrite lenZ_fmap.
  destruct (get_block_mapping_in _ _ _ _ _ _ _) as [r s1]. intros [= -> ->].
  destruct H as [H1 H]; [pose proof (lenZ_nonneg infos); lia|done|by intros nb _ ?%not_elem_of_nil|done|].
  split; [|exact H1]. rewrite (H m) by done. by rewrite drop_0.
Qed.

End mapping.

(** ** Copies keep their keys

    [lmcache] objects have a content and are live between allocation and release. *)
Class MemoryLaws (B K O S D : Type) `{!StorageBackend B K O S} := {
  live : S -> O -> Prop;
  content : S -> O -> D;
  law_contains_frame : forall b k pin w r w' o,
    b_contains b k pin w = (r, w') -> live w o -> live w' o /\ content w' o = content w o;
  law_allocate : forall b q w o w',
    b_allocate b q w = (Ok (Some o), w') -> ~ live w o /\ live w' o /\
    forall o', live w o' -> live w' o' /\ content w' o' = content w o';
  law_allocate_none : forall b q w w' o,
    b_allocate b q w = (Ok None, w') -> live w o -> live w' o /\ content w' o = content w o;
  law_copy : forall o src w w',
    b_copy_tensor o src w = (Ok tt, w') -> content w' o = content w src /\
    (forall o', live w o' -> live w' o') /\ forall o', o' <> o -> content w' o' = content w o';
  law_release : forall o w r w' o',
    b_ref_count_down o w = (r, w') -> live w o' -> o' <> o -> live w' o' /\ content w' o' = content w o';
}.

Section alignment.
Context {B K O S D : Type} `{!StorageBackend B K O S} `{!MemoryLaws B K O S D}.
Implicit Types (s : sm_state B S).

(** [s'] keeps the live objects of [s] and their contents. *)
Definition keeps s s' : Prop :=
  forall o, live (backends_state s) o ->
    live (backends_state s') o /\ content (backends_state s') o = content (backends_state s) o.

(** [o] was allocated after [s] and holds what [key]'s object held in [s]. *)
Definition copy_of (keys : list K) (objs : list O) s s' (key : K) (o : O) : Prop :=
  ~ live (backends_state s) o /\ live (backends_state s') o /\
  exists src, (key, src) ∈ zip keys objs /\
    content (backends_state s') o = content (backends_state s) src.

Lemma keeps_trans s1 s2 s3 : keeps s1 s2 -> keeps s2 s3 -> keeps s1 s3.
Proof. intros H1 H2 o Ho. destruct (H1 o Ho) as [Hl <-]. by apply H2. Qed.

Lemma on_backends_inv {A} (m : ST S A) s r s' :
  on_backends m s = (r, s') -> m (backends_state s) = (r, backends_state s').
Proof. unfold on_backends. destruct (m _). by intros [= <- <-]. Qed.

(** One round that allocates: the copy is fresh and holds the source's content. *)
Lemma copy_round allocator src q o s s1 s2 :
  on_backends (b_allocate allocator q) s = (Ok (Some o), s1) ->
  on_backends (b_copy_tensor o src) s1 = (Ok tt, s2) -> live (backends_state s) src ->
  keeps s s2 /\ ~ live (backends_state s) o /\ live (backends_state s2) o /\
  content (backends_state s2) o = content (backends_state s) src.
Proof.
  intros Ha%on_backends_inv Hc%on_backends_inv Hsrc.
  apply law_allocate in Ha as (Hfresh & Hnew & Hold). apply law_copy in Hc as (Heq & Hlive & Hother).
  split; [|split; [done|split; [by apply Hlive|rewrite Heq; by apply Hold]]].
  intros o' Ho'. destruct (Hold o' Ho') as [Hl Hcon]. split; [by apply Hlive|].
  rewrite Hother; [done|]. by intros ->.
Qed.

Lemma copy_of_mono keys objs key src s s1 s2 k o :
  Forall (live (backends_state s)) objs -> keeps s s1 -> copy_of keys objs s1 s2 k o ->
  copy_of (key :: keys) (src :: objs) s s2 k o.
Proof.
  intros Hlive Hk (Hf & Hl & src' & Hin & Hc). split; [intros Ho; by apply Hf, Hk|]. split; [done|].
  exists src'. split; [by right|]. rewrite Hc. apply Hk. rewrite Forall_forall in Hlive.
  apply Hlive. apply elem_of_zip_r in Hin. by apply list_elem_of_In.
Qed.

Lemma discard_keeps allocator q o r s s1 s2 :
  on_backends (b_allocate allocator q) s = (Ok (Some o), s1) ->
  on_backends (b_ref_count_down o) s1 = (r, s2) -> keeps s s2.
Proof.
  intros Ha%on_backends_inv Hr%on_backends_inv o' Ho'.
  apply law_allocate in Ha as (Hfresh & Hnew & Hold). destruct (Hold o' Ho') as [Hl <-].
  eapply law_release; [exact Hr|done|]. by intros ->.
Qed.

(** [allocate_and_copy_objects] returns as many keys as copies, in the order of the
    arguments, each copy a distinct fresh object that holds what its own key's object
    held, whatever keys the allocator already has and wherever allocation stops; the
    objects that existed are unchanged. *)
Theorem copies_aligned allocator keys objs s ks os s' :
  Forall (live (backends_state s)) objs ->
  allocate_and_copy_objects allocator keys objs s = (Ok (ks, os), s') ->
  ks `sublist_of` keys /\ NoDup os /\ Forall2 (copy_of keys objs s s') ks os /\ keeps s s'.
Proof.
  revert objs s ks os s'. induction keys as [|key keys IH]; intros [|src objs] s ks os s' Hlive;
    cbn [allocate_and_copy_objects].
  1-3: intros [= <- <- <-]; split_and!; [apply sublist_nil_l|constructor|constructor|by intros o].
  apply list.Forall_cons in Hlive as [Hsrc Hlive]. unfold mbind, ST_bind.
  destruct (on_backends (b_contains _ _ _) s) as [[found|e] s1] eqn:E1; [|done].
  assert (keeps s s1) as Hk1.
  { apply on_backends_inv in E1. intros o Ho. by eapply law_contains_frame. }
  assert (Forall (live (backends_state s1)) objs) as Hlive1.
  { eapply Forall_impl; [|exact Hlive]. intros o Ho. by apply Hk1. }
  destruct found.
  { intros H. apply IH in H as (Hsub & Hnd & Hf & Hk); [|done].
    split_and!; [by constructor|done| |by eapply keeps_trans].
    eapply Forall2_impl; [|exact Hf]. intros k o Hc. by eapply copy_of_mono. }
  destruct (on_backends (b_allocate _ _) s1) as [[[o|]|e] s2] eqn:E2; [| |done].
  2: { intros [= <- <- <-]. split_and!; [apply sublist_nil_l|constructor|constructor|].
       eapply keeps_trans; [exact Hk1|]. apply on_backends_inv in E2. intros o Ho.
       by eapply law_allocate_none. }
  destruct (negb (b_has_tensor o)).
  { destruct (on_backends (b_ref_count_down o) s2) as [[[]|e] s3] eqn:E3; [|done].
    intros [= <- <- <-]. split_and!; [apply sublist_nil_l|constructor|constructor|].
    eapply keeps_trans; [exact Hk1|]. by eapply discard_keeps. }
  destruct (on_backends (b_copy_tensor o src) s2) as [[[]|e] s3] eqn:E3; [|done].
  destruct (copy_round _ _ _ _ _ _ _ E2 E3) as (Hk2 & Hf & Hl & Hc); [by apply Hk1|].
  destruct (allocate_and_copy_objects _ keys objs s3) as [[[ks' os']|e] s4] eqn:E4; [|done].
  intros [= <- <- <-]. pose proof (keeps_trans _ _ _ Hk1 Hk2) as Hk.
  assert (Forall (live (backends_state s3)) objs) as Hlive3.
  { eapply Forall_impl; [|exact Hlive]. intros o' Ho. by apply Hk. }
  apply IH in E4 as (Hsub & Hnd & Hf' & Hk3); [|done]. split_and!.
  - by constructor.
  - apply list.NoDup_cons. split; [|done]. intros Hin.
    apply list_elem_of_lookup_1 in Hin as [i Hi]. eapply Forall2_lookup_r in Hf' as (k & _ & Hfr & _); [|exact Hi].
    by apply Hfr.
  - constructor.
    + split; [intros Ho; by apply Hf, Hk1|]. split; [by apply Hk3|]. exists src. split; [by left|].
      transitivity (content (backends_state s3) o); [by apply Hk3|]. rewrite Hc. by apply Hk1.
    + eapply Forall2_impl; [|exact Hf']. intros k o' Ho'. eapply copy_of_mono; [done| |exact Ho'].
      done.
  - by eapply keeps_trans.
Qed.

End alignment.

(** ** The life cycle *)

Section lifecycle.
Context {B K O S : Type} `{!StorageBackend B K O S}.
Context (cfg : sm_config).
Context (CreateStorageBackends : gset string -> odict string B -> ST S (odict string B)).
Implicit Types (s : sm_state B S).

(** What the manager caches of its backends agrees with them. *)
Definition derived_ok s : Prop :=
  NoDup (od_keys (storage_backends s)) /\
  non_allocator_backends s = get_non_allocator_backends_of cfg (storage_backends s) /\
  local_cpu_backend s = od_get LocalCPUBackend (storage_backends s).

Lemma add_backends_nodup (new old : odict string B) :
  NoDup (od_keys old) -> NoDup (od_keys (add_backends new old)).
Proof.
  unfold add_backends. revert old. induction new as [|[n b] new IH]; intros old H; [done|].
  simpl. by apply IH, od_nodup_set.
Qed.

Lemma add_backends_mem name (new old : odict string B) :
  is_Some (od_get name old) -> is_Some (od_get name (add_backends new old)).
Proof.
  unfold add_backends. revert old. induction new as [|[n b] new IH]; intros old H; [done|].
  simpl. apply IH. rewrite od_get_set. by destruct (decide _).
Qed.

Lemma on_backends_frame {A} (m : ST S A) s :
  exists r w, on_backends m s = (r, sm_with_state w s).
Proof. unfold on_backends. destruct (m _) as [r w]. by exists r, w. Qed.

(** The effect of the shared parts *)
Lemma close_and_delete_eq name b s :
  exists w, close_and_delete name b s
    = (Ok tt, sm_with_state w (sm_with_backends (od_del name (storage_backends s)) s)).
Proof.
  unfold close_and_delete, mbind, ST_bind, st_catch, st_modify.
  destruct (on_backends_frame (b_close b) s) as (r & w & ->). exists w. by destruct r.
Qed.

Lemma create_missing_eq s :
  (exists e w, create_missing cfg CreateStorageBackends s = (Raise e, sm_with_state w s)) \/
  exists created new w, create_missing cfg CreateStorageBackends s
    = (Ok created, let d := add_backends new (storage_backends s) in
        sm_with_non_allocator (get_non_allocator_backends_of cfg d)
          (sm_with_backends d (sm_with_state w s))).
Proof.
  unfold create_missing, mbind, ST_bind, st_get, st_modify, refresh_non_allocator.
  destruct (on_backends_frame (CreateStorageBackends (list_to_set (od_keys (storage_backends s)))
    (storage_backends s)) s) as (r & w & ->).
  destruct r as [new|e]; [right; by eexists _, new, w|left; by exists e, w].
Qed.

Lemma close_backend_derived name s r s' :
  derived_ok s -> close_backend cfg name s = (r, s') ->
  derived_ok s' /\ allocator_backend s' = allocator_backend s /\
  r = Ok (od_mem name (storage_backends s)) /\ od_get name (storage_backends s') = None.
Proof.
  intros (Hnd & Hna & Hcpu). unfold close_backend, mbind, ST_bind, st_get, od_mem.
  destruct (od_get name (storage_backends s)) as [b|] eqn:E; [|by intros [= <- <-]].
  destruct (close_and_delete_eq name b s) as [w ->]. unfold refresh_non_allocator, st_modify.
  destruct (String.eqb_spec name LocalCPUBackend) as [->|Hne]; intros [= <- <-];
    (split; [split; [by apply od_nodup_del|split; [done|]]|split; [done|split; [done|]]]); simpl;
    rewrite od_get_del by done.
  - by rewrite decide_True.
  - by rewrite decide_True.
  - by rewrite decide_False.
  - by rewrite decide_True.
Qed.

Lemma create_backends_derived s r s' :
  derived_ok s -> create_backends cfg CreateStorageBackends s = (r, s') ->
  derived_ok s' /\ allocator_backend s' = allocator_backend s.
Proof.
  intros (Hnd & Hna & Hcpu). unfold create_backends, mbind, ST_bind, st_get.
  destruct (create_missing_eq s) as [(e & w & ->)|(created & new & w & ->)].
  { by intros [= <- <-]. }
  cbn zeta. set (d := add_backends new (storage_backends s)).
  destruct (od_get LocalCPUBackend d) as [cpu|] eqn:E; simpl; rewrite E; intros [= <- <-];
    (split; [|done]); (split; [by apply add_backends_nodup|]); (split; [done|]); simpl; [done|].
  rewrite Hcpu, E. destruct (od_get LocalCPUBackend (storage_backends s)) eqn:E'; [|done].
  destruct (add_backends_mem LocalCPUBackend new (storage_backends s)) as [x Hx]; [by eexists|].
  unfold d in E. congruence.
Qed.

Lemma recreate_backend_derived name s r s' :
  derived_ok s -> recreate_backend cfg CreateStorageBackends name s = (r, s') ->
  allocator_backend s' = allocator_backend s /\
  match r with
  | Ok _ => derived_ok s'
  | Raise e =>
      (s' = s /\ e = KeyError /\ od_get name (storage_backends s) = None) \/
      (is_Some (od_get name (storage_backends s)) /\ od_get name (storage_backends s') = None /\
       non_allocator_backends s' = non_allocator_backends s /\
       local_cpu_backend s' = local_cpu_backend s)
  end.
Proof.
  intros (Hnd & Hna & Hcpu). unfold recreate_backend, mbind, ST_bind, st_get.
  destruct (od_get name (storage_backends s)) as [b|] eqn:E; [|intros [= <- <-]; by eauto].
  destruct (close_and_delete_eq name b s) as [w ->]. cbn beta iota.
  set (s1 := sm_with_state _ _).
  destruct (create_missing_eq s1) as [(e & w' & ->)|(created & new & w' & ->)].
  { intros [= <- <-]. split; [done|]. right. split; [by eexists|]. split; [|done].
    simpl. rewrite od_get_del by done. by rewrite decide_True. }
  cbn zeta. set (d := add_backends new (storage_backends s1)).
  assert (NoDup (od_keys d)) as Hd by (by apply add_backends_nodup, od_nodup_del).
  destruct (od_get LocalCPUBackend d) as [cpu|] eqn:Ed.
  { simpl. rewrite Ed. intros [= <- <-]. done. }
  simpl. rewrite Ed. destruct (String.eqb_spec name LocalCPUBackend) as [->|Hne].
  { intros [= <- <-]. done. }
  intros [= <- <-]. split; [done|]. split; [done|]. split; [done|]. simpl. rewrite Hcpu, Ed.
  destruct (od_get LocalCPUBackend (storage_backends s)) as [c|] eqn:E'; [|done].
  destruct (add_backends_mem LocalCPUBackend new (storage_backends s1)) as [x Hx]; [|unfold d in Ed; congruence].
  simpl. rewrite od_get_del by done. rewrite decide_False by done. by eexists.
Qed.

Lemma init_manager_derived w s :
  init_manager cfg CreateStorageBackends w = (Ok tt, s) -> derived_ok s.
Proof.
  unfold init_manager, mbind, ST_bind. set (s0 := SmState _ _ _ _ _ _ _ _ _ _ _).
  destruct (create_backends cfg CreateStorageBackends s0) as [[created|e] s1] eqn:E; [|done].
  apply create_backends_derived in E as [(Hnd & Hna & Hcpu) _]; [|split; [by constructor|done]].
  unfold refresh_non_allocator, st_modify, st_get, st_lift. cbn beta iota.
  destruct (is_scheduler cfg); [|destruct (_get_allocator_backend _ _)]; try done; cbn [mret ST_ret];
    (destruct (_ && _); [destruct (py_assert _) as [[]|]|]); intros [= <-]; done.
Qed.

Inductive life_step : sm_state B S -> sm_state B S -> Prop :=
  | life_close_backend name s r s' : close_backend cfg name s = (r, s') -> life_step s s'
  | life_create_backends s r s' : create_backends cfg CreateStorageBackends s = (r, s') -> life_step s s'
  | life_recreate_backend name s created s' :
      recreate_backend cfg CreateStorageBackends name s = (Ok created, s') -> life_step s s'.

(** After [__init__] and any closing, creating (failed or not) and successful
    recreating of backends, the backends have distinct names, [non_allocator_backends]
    and [local_cpu_backend] are those of the present backends, and [allocator_backend] is
    still the one found by [__init__], present or not. *)
Theorem derived_references w s0 s :
  init_manager cfg CreateStorageBackends w = (Ok tt, s0) -> rtc life_step s0 s ->
  derived_ok s /\ allocator_backend s = allocator_backend s0.
Proof.
  intros H0%init_manager_derived Hs.
  assert (forall s1 s2, rtc life_step s1 s2 -> derived_ok s1 ->
    derived_ok s2 /\ allocator_backend s2 = allocator_backend s1) as Hrtc; [|by apply Hrtc].
  clear. induction 1 as [|s1 s2 s3 Hstep _ IH]; [done|]. intros Hd.
  assert (derived_ok s2 /\ allocator_backend s2 = allocator_backend s1) as [Hd2 Ha2].
  { destruct Hstep as [n s1 r s2 H|s1 r s2 H|n s1 c s2 H].
    - by apply close_backend_derived in H as (? & ? & _).
    - by apply create_backends_derived in H.
    - apply recreate_backend_derived in H as [? ?]; [|done]. by split. }
  destruct (IH Hd2) as [? ->]. done.
Qed.

(** [recreate_backend] is not atomic: when the factory raises, the backend is gone
    while [non_allocator_backends] and [local_cpu_backend] still have it. *)
Theorem recreate_failure_stale name b s e s' :
  derived_ok s -> od_get name (storage_backends s) = Some b ->
  recreate_backend cfg CreateStorageBackends name s = (Raise e, s') ->
  od_get name (storage_backends s') = None /\
  (name ∈ non_allocator_backends s -> name ∈ non_allocator_backends s') /\
  (name = LocalCPUBackend -> local_cpu_backend s' = Some b).
Proof.
  intros Hd Hb H. pose proof Hd as (_ & _ & Hcpu).
  apply recreate_backend_derived in H as [_ [(_ & _ & Hn)|(_ & Hn & Hna & Hl)]]; [congruence| |done].
  split; [done|]. split; [by rewrite Hna|]. intros ->. congruence.
Qed.

(** ** Closing the manager *)

Definition close_all (backends : list (string * B)) : ST (sm_state B S) unit :=
  st_iter (fun nb : string * B => on_backends (b_close nb.2)) backends.

(** Closing what may be closed after an error; further errors are only logged. *)
Definition close_rest (backends : list (string * B)) : ST (sm_state B S) unit :=
  st_iter (fun nb : string * B =>
    st_catch (fun _ => true) (on_backends (b_close nb.2)) (fun _ => mret tt))
    (filter (fun nb => negb (shared_allocator nb.1) = true) backends).

Lemma close_in_failed e backends s :
  exists s', close_rest backends s = (Ok tt, s') /\ close_in (Some e) backends s = (Ok (Some e), s').
Proof.
  revert s. induction backends as [|[name b] rest IH]; intros s; [by exists s|].
  cbn [close_in]. rewrite bool_decide_true by done. unfold close_rest in *.
  destruct (shared_allocator name) eqn:Es; cbn [andb].
  - rewrite filter_cons_False by (cbn [fst]; by rewrite Es). apply IH.
  - rewrite filter_cons_True by (cbn [fst]; by rewrite Es). cbn [st_iter].
    unfold mbind, ST_bind, st_catch. cbn [snd].
    destruct (on_backends (b_close b) s) as [[[]|e'] s1]; cbn [mret ST_ret]; apply IH.
Qed.

(** [close] closes the backends in the reverse of their creation; if one raises, that
    first error leaves [close] at its end, and of the backends created earlier every one
    but the shared allocators is still closed, each error but the first swallowed. *)
Theorem close_outcome s :
  let order := reverse (storage_backends s) in
  match close_all order s with
  | (Ok _, s') => close s = (Ok tt, s')
  | (Raise e, s2) =>
      exists before nb after s1 s3,
        order = before ++ nb :: after /\ close_all before s = (Ok tt, s1) /\
        on_backends (b_close nb.2) s1 = (Raise e, s2) /\
        close_rest after s2 = (Ok tt, s3) /\ close s = (Raise e, s3)
  end.
Proof.
  cbn zeta. unfold close, mbind, ST_bind, st_get. cbn beta iota.
  generalize (reverse (storage_backends s)) as order. intros order. revert s.
  induction order as [|[name b] rest IH]; intros s; [done|].
  cbn [close_in close_all st_iter]. rewrite bool_decide_false by (by intros [? ?]).
  cbn [andb]. unfold mbind, ST_bind, st_catch. cbn [snd].
  destruct (on_backends (b_close b) s) as [[[]|e] s1] eqn:E; cbn [mret ST_ret].
  - specialize (IH s1). fold (close_all rest). destruct (close_all rest s1) as [[[]|e] s2]; [done|].
    destruct IH as (before & nb & after & s4 & s3 & -> & Hb & Hnb & Ha & Hc).
    exists ((name, b) :: before), nb, after, s4, s3. split; [done|]. split; [|done].
    cbn [close_all st_iter]. unfold mbind, ST_bind. cbn [snd]. by rewrite E.
  - destruct (close_in_failed e rest s1) as (s3 & Hr & Hc).
    exists [], (name, b), rest, s, s3. by rewrite Hc.
Qed.

End lifecycle.

(** ** A concrete set of tiers *)

Module ToyTiers.

(** Tiers are numbered; each holds some keys, loads at most some of them, and may refuse to
    close. Objects are numbered in the order of their allocation. *)
Record toy := Toy {
  t_held : list (list Z);
  t_loads : list nat;
  t_content : gmap Z Z;
  t_next : Z;
  t_closed : list nat;
  t_bad : list nat;
}.

Definition held (w : toy) (b : nat) (k : Z) : bool := bool_decide (k ∈ default [] (t_held w !! b)).

Definition toy_allocate : ST toy (option Z) := fun w =>
  (Ok (Some (t_next w)), Toy (t_held w) (t_loads w) (<[t_next w := 0]> (t_content w)) (t_next w + 1)
     (t_closed w) (t_bad w)).

Definition toy_copy (o src : Z) : ST toy unit := fun w =>
  (Ok tt, Toy (t_held w) (t_loads w) (<[o := default 0 (t_content w !! src)]> (t_content w))
     (t_next w) (t_closed w) (t_bad w)).

Definition toy_close (b : nat) : ST toy unit := fun w =>
  (if bool_decide (b ∈ t_bad w) then Raise (RuntimeError "busy") else Ok tt,
   Toy (t_held w) (t_loads w) (t_content w) (t_next w) (t_closed w ++ [b]) (t_bad w)).

Definition toy_prefix (b : nat) (keys : list Z) : ST toy Z := fun w =>
  (Ok (lenZ (prefix_while (held w b) keys)), w).

#[global] Instance toy_backend : StorageBackend nat Z Z toy := {
  b_cname b := if Nat.eqb b 0 then LocalCPUBackend else "XdsBackend";
  b_get_allocator_backend _ := 0%nat;
  b_contains b k _ := fun w => (Ok (held w b k), w);
  b_batched_contains b keys _ := toy_prefix b keys;
  b_batched_async_contains b _ keys _ := toy_prefix b keys;
  b_get_blocking b k := fun w => (Ok (if held w b k then Some k else None), w);
  b_batched_get_blocking b keys := fun w =>
    (Ok ((fun k => if held w b k then Some k else None) <$> keys), w);
  b_get_non_blocking _ _ := mret None;
  b_batched_get_non_blocking b _ keys _ := fun w =>
    (Ok (take (default 0%nat (t_loads w !! b)) keys), w);
  b_submit_put_task _ _ _ := mret tt;
  b_batched_submit_put_task _ _ _ := mret tt;
  b_is_allocator b := Nat.eqb b 0;
  b_allocate _ _ := toy_allocate;
  b_batched_allocate _ _ _ := mret None;
  b_get_shape _ := [];
  b_get_dtype _ := "float16";
  b_fmt _ := "KV_2LTD";
  b_copy_tensor := toy_copy;
  b_ref_count_down _ := mret tt;
  b_has_tensor _ := true;
  b_direct_put _ := None;
  b_direct_get _ := None;
  b_supports_direct_io _ := None;
  b_direct_enabled _ := false;
  b_is_local_cpu b := Nat.eqb b 0;
  b_pd_sender _ := false;
  b_touch_cache _ := mret tt;
  b_remove _ _ := mret 0;
  b_batched_remove _ _ := mret 0;
  b_unpin _ _ := mret tt;
  b_clear _ := None;
  b_use_hot _ := mret true;
  b_set_use_hot _ _ := mret tt;
  b_memcheck _ := None;
  b_close := toy_close;
}.

#[global] Program Instance toy_memory : MemoryLaws nat Z Z toy Z := {
  live w o := o < t_next w;
  content w o := default 0 (t_content w !! o);
}.
Next Obligation. intros b k pin w r w' o. by intros [= <- <-]. Qed.
Next Obligation.
  intros b q w o w'. intros [= <- <-]. simpl. split; [lia|]. split; [lia|].
  intros o' Ho'. split; [lia|]. by rewrite lookup_insert_ne by lia.
Qed.
Next Obligation. done. Qed.
Next Obligation.
  intros o src w w' [= <-]. simpl. split; [by rewrite lookup_insert_eq|]. split; [done|].
  intros o' Hne. by rewrite lookup_insert_ne.
Qed.
Next Obligation. intros o w r w' o'. by intros [= <- <-]. Qed.

Definition cfg : sm_config := SmConfig false true true false.
Definition three_tiers : odict string nat :=
  [(LocalCPUBackend, 0%nat); ("LocalDiskBackend", 1%nat); ("XdsBackend", 2%nat)].

(** The factory makes the tiers that are missing; tier 2 cannot be made again once a tier
    was closed. *)
Definition factory (skip : gset string) (existing : odict string nat) : ST toy (odict string nat) := fun w =>
  if is_nil (t_closed w) then (Ok (filter (fun nb => nb.1 ∉ skip) three_tiers), w)
  else if bool_decide ("XdsBackend" ∈ skip) then (Ok (filter (fun nb => nb.1 ∉ skip) three_tiers), w)
  else (Raise (RuntimeError "driver"), w).

Definition world (loads : list nat) (bad : list nat) : toy :=
  Toy [[1; 2]; [3]; [3; 4]] loads {[ 10 := 100; 11 := 101 ]} 20 [] bad.

Definition manager (loads bad : list nat) : sm_state nat toy :=
  (init_manager cfg factory (world loads bad)).2.

Lemma toy_contains_prefix (b : nat) (keys : list Z) (pin : bool) (w : toy) n w' :
  b_batched_contains (O := Z) b keys pin w = (Ok n, w') ->
  n = lenZ (prefix_while (held w b) keys) /\ forall b' k, held w' b' k = held w b' k.
Proof. by intros [= <- <-]. Qed.

Definition infos : list (Z * Z * Z) := [(1, 0, 16); (2, 16, 32); (3, 32, 48); (4, 48, 64); (5, 64, 70)].

(** Tier 0 holds two chunks, tier 1 the third, tier 2 the fourth. *)
Lemma block_mapping_greedy_witness :
  let s := manager [] [] in
  get_block_mapping (O := Z) infos s
  = (Ok [(LocalCPUBackend, [(1, 0, 16); (2, 16, 32)]); ("LocalDiskBackend", [(3, 32, 48)]);
         ("XdsBackend", [(4, 48, 64)])], s) /\
  batched_contains (O := Z) [1; 2; 3; 4; 5] None false s
  = (Ok (4, [(LocalCPUBackend, [1; 2]); ("LocalDiskBackend", [3]); ("XdsBackend", [4])]), s).
Proof.
  split; [by vm_compute|].
  exact (proj2 (block_mapping_greedy held toy_contains_prefix infos (manager [] [])
    [(LocalCPUBackend, [(1, 0, 16); (2, 16, 32)]); ("LocalDiskBackend", [(3, 32, 48)]);
     ("XdsBackend", [(4, 48, 64)])] (manager [] [])
    ltac:(by refine (bool_decide_unpack _ _); vm_compute) ltac:(by vm_compute))).
Defined.

(** The allocator has key 2 already: the third object is copied under the third key. *)
Lemma copies_aligned_witness :
  exists s', allocate_and_copy_objects 0%nat [7; 2; 8] [10; 12; 11] (manager [] [])
    = (Ok ([7; 8], [20; 21]), s') /\
  Forall2 (copy_of [7; 2; 8] [10; 12; 11] (manager [] []) s') [7; 8] [20; 21].
Proof.
  destruct (allocate_and_copy_objects 0%nat [7; 2; 8] [10; 12; 11] (manager [] [])) as [r s'] eqn:E.
  exists s'. assert (r = Ok ([7; 8], [20; 21])) as -> by (by apply (f_equal fst) in E; vm_compute in E).
  split; [done|].
  refine (proj1 (proj2 (proj2 (copies_aligned _ _ _ _ _ _ _ _ E)))).
  repeat constructor.
Defined.

Lemma derived_references_witness :
  exists s, rtc (life_step cfg factory) (manager [] []) s /\
    od_keys (storage_backends s) = ["LocalDiskBackend"; "XdsBackend"] /\
    derived_ok cfg s /\ allocator_backend s = Some 0%nat.
Proof.
  destruct (close_backend (O := Z) cfg LocalCPUBackend (manager [] [])) as [r s] eqn:E.
  assert (rtc (life_step cfg factory) (manager [] []) s) as Hs.
  { apply rtc_once. exact (life_close_backend _ _ _ _ _ _ E). }
  exists s. split; [done|].
  assert (s = (close_backend (O := Z) cfg LocalCPUBackend (manager [] [])).2) as Heq by by rewrite E.
  split; [by rewrite Heq; vm_compute|].
  refine (derived_references cfg factory (world [] []) (manager [] []) s _ Hs).
  by vm_compute.
Defined.

Lemma recreate_failure_stale_witness :
  exists s', recreate_backend (O := Z) cfg factory "XdsBackend" (manager [] []) = (Raise (RuntimeError "driver"), s') /\
  od_get "XdsBackend" (storage_backends s') = None /\
  "XdsBackend" ∈ non_allocator_backends s'.
Proof.
  destruct (recreate_backend (O := Z) cfg factory "XdsBackend" (manager [] [])) as [r s'] eqn:E.
  exists s'. assert (r = Raise (RuntimeError "driver")) as -> by (by apply (f_equal fst) in E; vm_compute in E).
  split; [done|].
  destruct (recreate_failure_stale cfg factory "XdsBackend" 2%nat (manager [] [])
    (RuntimeError "driver") s') as (Hn & Hin & _).
  - apply (init_manager_derived cfg factory (world [] [])). by vm_compute.
  - by vm_compute.
  - exact E.
  - split; [done|]. apply Hin. by refine (bool_decide_unpack _ _); vm_compute.
Defined.

(** Tier 1 refuses to close: tier 2 is closed before it, tier 0, the allocator, is not. *)
Example close_skips_allocator :
  let '(r, s) := close (manager [] [1%nat]) in
  r = Raise (RuntimeError "busy") /\ t_closed (backends_state s) = [2; 1]%nat.
Proof. by vm_compute. Qed.

End ToyTiers.
