(* ===== verification/Prefetch.v ===== *)
(** * Asynchronous lookup and prefetching

    [async_lookup_and_prefetch] and its callback ([storage_manager.py]): a coroutine that
    asks the tiers for a prefix of the keys, load tasks that run beside it, and the
    callback that answers the scheduler. Each await is a step; tasks may finish in any
    order. [WeightedSemaphore] is the admission control of [AsyncMultiSerializer]. *)

From S2P Require Import Prelude Tensor Codec BlockFirst DirectIO Dict StorageManager.

Open Scope string_scope.
Open Scope list_scope.
Open Scope Z_scope.

Section prefetch.
Context {B K O S : Type} `{!StorageBackend B K O S}.
Context (cfg : sm_config) (has_server : bool).
#[local] Abbreviation M := (ST (sm_state B S)).
Implicit Types (keys : list K) (s : sm_state B S).

(** ** The callback *)

(** [mem_obj.ref_count_down()] where [mem_obj] is a pair [(key, memory_obj)]: a tuple has
    no such method. *)
Definition pair_ref_count_down (mem_obj : K * O) : M unit := st_raise AttributeError.

(** The loop over the tiers' results: the chunks retrieved up to the first short tier *)
Fixpoint count_retrieved (total : Z) (tier_expected_chunks : list Z) (res : list (list (K * O)))
    : M Z :=
  match res with
  | [] => mret total
  | tier_result :: rest =>
      match tier_expected_chunks with
      | [] => st_raise IndexError
      | expected_chunks :: expected =>
          let actual_chunks := lenZ tier_result in
          if actual_chunks <? expected_chunks
          then
            st_iter (fun subsequent_tier => st_iter pair_ref_count_down subsequent_tier) rest;;
            mret (total + actual_chunks)
          else count_retrieved (total + actual_chunks) expected rest
      end
  end.

Definition prefetch_all_done_callback (task : result (list (list (K * O)))) (lookup_id : string)
    (cum_chunk_lengths_total tier_expected_chunks : list Z) : M unit :=
  if negb has_server then st_raise AssertionError
  else
    st_modify (sm_event_done lookup_id);;
    res ← st_lift task;
    total_retrieved_chunks ← count_retrieved 0 tier_expected_chunks res;
    retrieved_length ← st_lift (py_index cum_chunk_lengths_total total_retrieved_chunks);
    st_modify (sm_respond lookup_id retrieved_length).

(** ** The coroutine and its tasks *)

Record load_task := LoadTask {
  lt_backend : B;
  lt_keys : list K;
  lt_cum : list Z;
  lt_done : option (result (list O));
}.

Inductive phase : Type :=
  | Looking (rest : list (string * B))   (* in the loop over the tiers *)
  | Loading                              (* [all_done] awaits the tasks *)
  | Finished (outcome : result unit).    (* answered, or an exception ended it *)

Record prefetch := Prefetch {
  pf_lookup_id : string;
  pf_total : Z;                          (* num_total_chunks *)
  pf_cum_total : list Z;                 (* cum_chunk_lengths_total *)
  pf_search_range : option (list string);
  pf_pin : bool;
  pf_keys : list K;
  pf_cum : list Z;
  pf_hits : Z;                           (* num_total_hit_chunks *)
  pf_tasks : list load_task;             (* loading_tasks and loading_task_keys *)
  pf_expected : list Z;                  (* tier_expected_chunks *)
  pf_phase : phase;
}.

Definition with_phase (p : phase) (pf : prefetch) : prefetch :=
  Prefetch (pf_lookup_id pf) (pf_total pf) (pf_cum_total pf) (pf_search_range pf) (pf_pin pf)
    (pf_keys pf) (pf_cum pf) (pf_hits pf) (pf_tasks pf) (pf_expected pf) p.

Definition with_tasks (ts : list load_task) (pf : prefetch) : prefetch :=
  Prefetch (pf_lookup_id pf) (pf_total pf) (pf_cum_total pf) (pf_search_range pf) (pf_pin pf)
    (pf_keys pf) (pf_cum pf) (pf_hits pf) ts (pf_expected pf) (pf_phase pf).

Definition start_prefetch (lookup_id : string) keys (cum_chunk_lengths : list Z)
    (search_range : option (list string)) (pin : bool) (backends : list (string * B)) : prefetch :=
  Prefetch lookup_id (lenZ keys) cum_chunk_lengths search_range pin keys cum_chunk_lengths 0 [] []
    (Looking backends).

(** A tier that holds [n] of the next keys: its task, and what is left to look up *)
Definition add_tier (pf : prefetch) (b : B) (n : Z) (rest : list (string * B)) : prefetch :=
  let hits := pf_hits pf + n in
  let task := LoadTask b (py_slice (pf_keys pf) 0 n) (py_slice (pf_cum pf) 0 (n + 1)) None in
  let all_hit := hits =? pf_total pf in
  Prefetch (pf_lookup_id pf) (pf_total pf) (pf_cum_total pf) (pf_search_range pf) (pf_pin pf)
    (if all_hit then pf_keys pf else py_slice (pf_keys pf) n (lenZ (pf_keys pf)))
    (py_slice (pf_cum pf) n (lenZ (pf_cum pf)))
    hits (pf_tasks pf ++ [task]) (pf_expected pf ++ [n])
    (if all_hit then Looking [] else Looking rest).

(** One turn of the loop, to its next await; past the loop, the answer 0 or the event *)
Definition lookup_step (pf : prefetch) (rest : list (string * B)) : M prefetch :=
  match rest with
  | [] =>
      if pf_hits pf =? 0 then
        (if has_server then st_modify (sm_respond (pf_lookup_id pf) 0) else mret tt);;
        mret (with_phase (Finished (Ok tt)) pf)
      else mret (with_phase Loading pf)
  | (name, b) :: rest =>
      s ← st_get;
      if negb (active s None (pf_search_range pf) (name, b))
      then mret (with_phase (Looking rest) pf)
      else
        n ← on_backends (b_batched_async_contains b (pf_lookup_id pf) (pf_keys pf) (pf_pin pf));
        if n =? 0 then mret (with_phase (Looking rest) pf)
        else
          (* the serializer exists *)
          st_lift (py_assert (negb (enable_pd cfg) && enable_async_loading cfg));;
          mret (add_tier pf b n rest)
  end.

(** A task that has not run yet loads its keys, in the backends' order. *)
Definition load_step (i : nat) (pf : prefetch) s : option (prefetch * sm_state B S) :=
  match pf_tasks pf !! i with
  | Some (LoadTask b ks cum None) =>
      let '(r, s') := on_backends (b_batched_get_non_blocking b (pf_lookup_id pf) ks cum) s in
      Some (with_tasks (<[i := LoadTask b ks cum (Some r)]> (pf_tasks pf)) pf, s')
  | _ => None
  end.

(** [asyncio.gather]: every result, once all tasks returned *)
Definition gathered (ts : list load_task) : option (list (list O)) :=
  mapM (fun t => match lt_done t with Some (Ok os) => Some os | _ => None end) ts.

(** [gather_with_keys] *)
Definition with_keys (ts : list load_task) (loading_results : list (list O)) : list (list (K * O)) :=
  zip_with (fun t results => zip (lt_keys t) results) ts loading_results.

Definition all_done_step (task : result (list (list (K * O)))) (pf : prefetch) : M prefetch := fun s =>
  let '(r, s') := prefetch_all_done_callback task (pf_lookup_id pf) (pf_cum_total pf)
                    (pf_expected pf) s in
  (Ok (with_phase (Finished r) pf), s').

Inductive prefetch_step : prefetch * sm_state B S -> prefetch * sm_state B S -> Prop :=
  | step_lookup pf s rest pf' s' :
      pf_phase pf = Looking rest -> lookup_step pf rest s = (Ok pf', s') ->
      prefetch_step (pf, s) (pf', s')
  | step_lookup_raises pf s rest e s' :
      pf_phase pf = Looking rest -> lookup_step pf rest s = (Raise e, s') ->
      prefetch_step (pf, s) (with_phase (Finished (Raise e)) pf, s')
  | step_load pf s i pf' s' :
      load_step i pf s = Some (pf', s') ->
      prefetch_step (pf, s) (pf', s')
  | step_all_done pf s loading_results pf' s' :
      pf_phase pf = Loading -> gathered (pf_tasks pf) = Some loading_results ->
      all_done_step (Ok (with_keys (pf_tasks pf) loading_results)) pf s = (Ok pf', s') ->
      prefetch_step (pf, s) (pf', s')
  | step_task_raised pf s t e pf' s' :
      pf_phase pf = Loading -> t ∈ pf_tasks pf -> lt_done t = Some (Raise e) ->
      all_done_step (Raise e) pf s = (Ok pf', s') ->
      prefetch_step (pf, s) (pf', s').

(** ** The answer to the scheduler *)

(** The chunks a request may use: every chunk of the tiers before the first short one,
    and that tier's *)
Fixpoint usable {A} (expected : list Z) (res : list (list A)) : list A :=
  match res, expected with
  | r :: res, e :: expected => if lenZ r <? e then r else r ++ usable expected res
  | _, _ => []
  end.

(** A chunk was retrieved behind a short tier. *)
Fixpoint unusable {A} (expected : list Z) (res : list (list A)) : list A :=
  match res, expected with
  | r :: res, e :: expected => if lenZ r <? e then concat res else unusable expected res
  | _, _ => []
  end.

Lemma pair_iter_raises (res : list (list (K * O))) s :
  st_iter (fun tier => st_iter pair_ref_count_down tier) res s
  = if is_nil (concat res) then (Ok tt, s) else (Raise AttributeError, s).
Proof.
  induction res as [|r res IH]; [done|]. destruct r as [|x r]; [exact IH|done].
Qed.

Lemma count_retrieved_eq total expected (res : list (list (K * O))) s :
  length expected = length res ->
  count_retrieved total expected res s
  = (if is_nil (unusable expected res) then Ok (total + lenZ (usable expected res))
     else Raise AttributeError, s).
Proof.
  revert total expected. induction res as [|r res IH]; intros total [|e expected] Hl; try done.
  - simpl. rewrite Z.add_0_r. done.
  - simpl. destruct (lenZ r <? e) eqn:E.
    + unfold mbind, ST_bind. rewrite pair_iter_raises. by destruct (is_nil (concat res)).
    + rewrite IH by (simpl in Hl; lia). rewrite lenZ_app, Z.add_assoc. done.
Qed.

Lemma lenZ_zip_le {A A'} (l : list A) (l' : list A') : lenZ (zip l l') <= lenZ l.
Proof. unfold lenZ. rewrite length_zip_with. lia. Qed.

(** [usable] is a prefix when no tier returned more than it was asked for. *)
Lemma usable_keys (ts : list load_task) (rs : list (list O)) expected :
  expected = (fun t => lenZ (lt_keys t)) <$> ts -> length rs = length ts ->
  (usable expected (with_keys ts rs)).*1
  = take (length (usable expected (with_keys ts rs))) (concat (lt_keys <$> ts)).
Proof.
  intros ->. revert rs. induction ts as [|t ts IH]; intros [|r rs] Hl; try done.
  simpl. destruct (_ <? _) eqn:E.
  - bool_prop. unfold lenZ in E. rewrite length_zip_with in *.
    rewrite take_app_le by lia. clear -E. revert r E.
    induction (lt_keys t) as [|k ks IH]; intros [|x r] E; simpl in *; [done|done|done|].
    f_equal. apply IH. lia.
  - bool_prop. pose proof (lenZ_zip_le (lt_keys t) r) as Hle.
    assert (length (zip (lt_keys t) r) = length (lt_keys t)) as Hz by (unfold lenZ in *; lia).
    rewrite length_app, fmap_app, Hz, take_app_add. f_equal; [|apply IH; simpl in Hl; lia].
    rewrite length_zip_with in Hz. apply fst_zip. lia.
Qed.

Lemma usable_length {A} expected (res : list (list A)) :
  Forall2 (fun e r => lenZ r <= e) expected res -> lenZ (usable expected res) <= sumZ expected.
Proof.
  induction 1 as [|e r expected res He Hf IH]; [done|]. cbn [usable]. rewrite sumZ_cons.
  assert (0 <= sumZ expected).
  { apply sumZ_nonneg. clear -Hf. induction Hf; constructor; [|done].
    pose proof (lenZ_nonneg y). lia. }
  destruct (_ <? _); [lia|]. rewrite lenZ_app. lia.
Qed.

Lemma with_keys_lengths (ts : list load_task) (rs : list (list O)) :
  length rs = length ts ->
  Forall2 (fun e r => lenZ r <= e) ((fun t => lenZ (lt_keys t)) <$> ts) (with_keys ts rs).
Proof.
  revert rs. induction ts as [|t ts IH]; intros [|r rs] Hl; try done; constructor.
  - apply lenZ_zip_le.
  - apply IH. simpl in Hl. lia.
Qed.

Lemma gathered_length (ts : list load_task) rs : gathered ts = Some rs -> length rs = length ts.
Proof. intros H%mapM_Some. by apply Forall2_length in H. Qed.

Lemma callback_eq (res : list (list (K * O))) lookup_id cum expected s :
  has_server = true -> length expected = length res -> lenZ (usable expected res) < lenZ cum ->
  exists n, cum !! length (usable expected res) = Some n /\
  prefetch_all_done_callback (Ok res) lookup_id cum expected s
  = if is_nil (unusable expected res)
    then (Ok tt, sm_respond lookup_id n (sm_event_done lookup_id s))
    else (Raise AttributeError, sm_event_done lookup_id s).
Proof.
  intros Hs Hl Hc. destruct (lookup_lt_is_Some_2 cum (length (usable expected res))) as [n Hn];
    [unfold lenZ in Hc; lia|]. exists n. split; [done|].
  unfold prefetch_all_done_callback. rewrite Hs. cbn [negb].
  unfold mbind, ST_bind, st_modify, st_lift. rewrite count_retrieved_eq by done.
  destruct (is_nil _); [|done]. rewrite Z.add_0_l.
  replace (py_index cum (lenZ (usable expected res))) with (Ok n); [done|].
  symmetry. apply py_index_nonneg; [apply lenZ_nonneg|]. unfold lenZ. by rewrite Nat2Z.id.
Qed.

(** ** Progress *)

Definition undone (pf : prefetch) : nat :=
  length (filter (fun t => lt_done t = None) (pf_tasks pf)).

Definition phase_weight (p : phase) : nat :=
  match p with Looking rest => 3 * length rest + 2 | Loading => 1 | Finished _ => 0 end.

Definition prefetch_measure (pf : prefetch) : nat := phase_weight (pf_phase pf) + undone pf.

Lemma undone_insert (ts : list load_task) i b ks c r :
  ts !! i = Some (LoadTask b ks c None) ->
  length (filter (fun t => lt_done t = None) ts)
  = Datatypes.S (length (filter (fun t => lt_done t = None) (<[i := LoadTask b ks c (Some r)]> ts))).
Proof.
  revert i. induction ts as [|t ts IH]; intros [|i] H; try done; simpl in *.
  - injection H as ->. rewrite filter_cons_True, filter_cons_False by done. done.
  - specialize (IH _ H). destruct (decide (lt_done t = None)) as [Ht|Ht].
    + rewrite !filter_cons_True by done. simpl. lia.
    + rewrite !filter_cons_False by done. done.
Qed.

Lemma lookup_step_measure pf s rest pf' s' :
  pf_phase pf = Looking rest -> lookup_step pf rest s = (Ok pf', s') ->
  (prefetch_measure pf' < prefetch_measure pf)%nat.
Proof.
  intros Hp. unfold prefetch_measure. rewrite Hp. destruct rest as [|[name b] rest].
  { cbn [lookup_step]. destruct (_ =? _); [destruct has_server|]; intros [= <- <-]; unfold undone; simpl; lia. }
  cbn [lookup_step]. unfold mbind, ST_bind, st_get, mret, ST_ret. cbn beta iota.
  destruct (negb _). { intros [= <- <-]. unfold undone. simpl. lia. }
  destruct (on_backends _ s) as [[n|e] s1]; [|done].
  destruct (n =? 0). { intros [= <- <-]. unfold undone. simpl. lia. }
  unfold st_lift. destruct (py_assert _) as [[]|e]; intros [= <- <-].
  unfold undone, add_tier. cbn [pf_tasks pf_phase]. rewrite list.filter_app, length_app.
  rewrite (filter_cons_True _ (LoadTask _ _ _ _)) by done. destruct (_ =? _); simpl; lia.
Qed.

Lemma prefetch_step_measure ps ps' :
  prefetch_step ps ps' -> (prefetch_measure ps'.1 < prefetch_measure ps.1)%nat.
Proof.
  intros Hstep. destruct Hstep as
    [pf s rest pf' s' Hp Hl|pf s rest e s' Hp Hl|pf s i pf' s' Hl|pf s rs pf' s' Hp Hg Hd|pf s t e pf' s' Hp Ht He Hd];
    cbn [fst].
  - by eapply lookup_step_measure.
  - unfold prefetch_measure. rewrite Hp. unfold undone. simpl. lia.
  - revert Hl. unfold load_step. destruct (pf_tasks pf !! i) as [[b ks c [|]]|] eqn:Ei; try done.
    destruct (on_backends _ s) as [r s1]. intros [= <- <-]. unfold prefetch_measure, undone. simpl.
    rewrite (undone_insert _ _ _ _ _ r Ei). lia.
  - revert Hd. unfold all_done_step. destruct (prefetch_all_done_callback _ _ _ _ s).
    intros [= <- <-]. unfold prefetch_measure. rewrite Hp. unfold undone. simpl. lia.
  - revert Hd. unfold all_done_step. destruct (prefetch_all_done_callback _ _ _ _ s).
    intros [= <- <-]. unfold prefetch_measure. rewrite Hp. unfold undone. simpl. lia.
Qed.

(** A finished set of tasks has its results or an exception. *)
Lemma tasks_done (ts : list load_task) :
  (exists i t, ts !! i = Some t /\ lt_done t = None) \/
  (exists t e, t ∈ ts /\ lt_done t = Some (Raise e)) \/ (exists rs, gathered ts = Some rs).
Proof.
  induction ts as [|t ts [(i & t' & Hi & Ht')|[(t' & e & Hi & Ht')|[rs Hrs]]]].
  - right. right. by exists [].
  - left. by exists (Datatypes.S i), t'.
  - right. left. exists t', e. split; [by right|done].
  - destruct (lt_done t) as [[os|e]|] eqn:E.
    + right. right. exists (os :: rs). unfold gathered. simpl. rewrite E. cbn.
      unfold gathered in Hrs. by rewrite Hrs.
    + right. left. exists t, e. split; [by left|done].
    + left. by exists 0%nat, t.
Qed.

Lemma prefetch_progress pf s :
  (exists o, pf_phase pf = Finished o) \/ exists ps', prefetch_step (pf, s) ps'.
Proof.
  destruct (pf_phase pf) as [rest| |o] eqn:Hp; [| |by left; exists o]; right.
  - destruct (lookup_step pf rest s) as [[pf'|e] s'] eqn:E.
    + eexists. by eapply step_lookup.
    + eexists. by eapply step_lookup_raises.
  - destruct (tasks_done (pf_tasks pf)) as [(i & [b ks c d] & Hi & Hd)|[(t & e & Ht & He)|[rs Hg]]].
    + simpl in Hd. subst. destruct (load_step i pf s) as [[pf' s']|] eqn:E.
      * eexists. by eapply step_load.
      * revert E. unfold load_step. rewrite Hi. by destruct (on_backends _ s).
    + destruct (all_done_step (Raise e) pf s) as [r s'] eqn:E. pose proof E as E'.
      revert E'. unfold all_done_step. destruct (prefetch_all_done_callback _ _ _ _ s). intros [= <- <-].
      eexists. by eapply step_task_raised.
    + destruct (all_done_step (Ok (with_keys (pf_tasks pf) rs)) pf s) as [r s'] eqn:E. pose proof E as E'.
      revert E'. unfold all_done_step. destruct (prefetch_all_done_callback _ _ _ _ s). intros [= <- <-].
      eexists. by eapply step_all_done.
Qed.

(** Every run of a prefetch takes at most three steps per tier and two more, and a
    run that cannot go on has finished: no schedule of the tasks leaves it waiting. *)
Theorem prefetch_terminates n lookup_id keys cum search_range pin backends s0 pf s :
  nsteps prefetch_step n (start_prefetch lookup_id keys cum search_range pin backends, s0) (pf, s) ->
  (n <= 3 * length backends + 2)%nat /\
  (nf prefetch_step (pf, s) -> exists o, pf_phase pf = Finished o).
Proof.
  intros Hn. split.
  - assert (forall n ps ps', nsteps prefetch_step n ps ps' ->
      (n + prefetch_measure ps'.1 <= prefetch_measure ps.1)%nat) as Hm.
    { clear. induction 1 as [|n ps ps1 ps' H _ IH]; [lia|]. apply prefetch_step_measure in H. lia. }
    apply Hm in Hn. unfold prefetch_measure at 2 in Hn. unfold undone in Hn. simpl in Hn. lia.
  - intros Hnf. destruct (prefetch_progress pf s) as [H|H]; [done|]. by destruct Hnf.
Qed.

(** ** The invariant of a prefetch *)

Hypothesis Hasync : forall b lookup_id keys pin w n w',
  b_batched_async_contains b lookup_id keys pin w = (Ok n, w') -> 0 <= n <= lenZ keys.
Hypothesis Hserver : has_server = true.

Context (lookup_id : string) (all_keys : list K) (cum : list Z).
Hypothesis Hcum : lenZ cum = lenZ all_keys + 1.
Hypothesis Hcum0 : cum !! 0%nat = Some 0.

(** What was asked of the tiers is the prefix of the keys looked up so far. *)
Record pf_ok (pf : prefetch) : Prop := PfOk {
  ok_id : pf_lookup_id pf = lookup_id;
  ok_total : pf_total pf = lenZ all_keys;
  ok_cum : pf_cum_total pf = cum;
  ok_expected : pf_expected pf = (fun t => lenZ (lt_keys t)) <$> pf_tasks pf;
  ok_positive : Forall (Z.lt 0) (pf_expected pf);
  ok_hits : pf_hits pf = sumZ (pf_expected pf);
  ok_bound : 0 <= pf_hits pf <= lenZ all_keys;
  ok_tasks : concat (lt_keys <$> pf_tasks pf) = take (Z.to_nat (pf_hits pf)) all_keys;
  ok_keys : forall nb rest, pf_phase pf = Looking (nb :: rest) ->
    pf_keys pf = drop (Z.to_nat (pf_hits pf)) all_keys;
}.

(** The answer is the token count of a prefix of the keys, all of it retrieved. *)
Definition answered (pf : prefetch) (n : Z) : Prop :=
  exists results chunks,
    gathered (pf_tasks pf) = Some results /\
    chunks = usable (pf_expected pf) (with_keys (pf_tasks pf) results) /\
    unusable (pf_expected pf) (with_keys (pf_tasks pf) results) = [] /\
    chunks.*1 = take (length chunks) all_keys /\
    cum !! length chunks = Some n.

Definition prefetch_inv (s0 : sm_state B S) (ps : prefetch * sm_state B S) : Prop :=
  pf_ok ps.1 /\
  match pf_phase ps.1 with
  | Finished (Ok _) =>
      exists n, responses ps.2 = responses s0 ++ [(lookup_id, n)] /\ answered ps.1 n
  | _ => responses ps.2 = responses s0
  end.

Lemma on_backends_responses {A} (m : ST S A) s r s' :
  on_backends m s = (r, s') -> responses s' = responses s.
Proof. unfold on_backends. destruct (m _). by intros [= <- <-]. Qed.

Lemma pf_ok_phase p pf :
  (forall nb rest, p <> Looking (nb :: rest)) -> pf_ok pf -> pf_ok (with_phase p pf).
Proof. intros Hp []. constructor; try done. intros nb rest H. by destruct (Hp nb rest). Qed.

Lemma pf_ok_next nb rest pf :
  pf_phase pf = Looking (nb :: rest) -> pf_ok pf -> pf_ok (with_phase (Looking rest) pf).
Proof. intros Hp []. constructor; try done. simpl. intros _ _ _. eauto. Qed.

Lemma add_tier_ok pf b n nb rest :
  pf_phase pf = Looking (nb :: rest) -> pf_ok pf -> 0 < n <= lenZ (pf_keys pf) ->
  pf_ok (add_tier pf b n rest).
Proof.
  intros Hp [Hid Htot Hc He Hpos Hh Hb Ht Hk] Hn. specialize (Hk _ _ Hp).
  assert (lenZ (pf_keys pf) = lenZ all_keys - pf_hits pf) as Hlen.
  { rewrite Hk. unfold lenZ in *. rewrite length_drop. lia. }
  assert (lenZ (py_slice (pf_keys pf) 0 n) = n) as Hs by (rewrite py_slice_length; lia).
  constructor; simpl; try done.
  - by rewrite fmap_app, He, <- Hs at 1.
  - apply list.Forall_app. split; [done|]. constructor; [lia|constructor].
  - rewrite Hh. rewrite sumZ_app. unfold sumZ at 3. simpl. lia.
  - lia.
  - rewrite fmap_app, concat_app, Ht. simpl. rewrite app_nil_r, Hk, py_slice_eq by (rewrite <- ?Hk; lia).
    rewrite Z.sub_0_r, drop_0, Z2Nat.inj_add, <- take_take_drop by lia. done.
  - intros nb' rest'. destruct (_ =? _) eqn:E; [done|]. intros _.
    rewrite py_slice_eq, Hk, drop_drop by lia. rewrite take_ge.
    + f_equal. lia.
    + rewrite length_drop. unfold lenZ in *. rewrite length_drop in *. lia.
Qed.

Lemma answered_zero pf :
  pf_ok pf -> pf_hits pf = 0 -> answered pf 0.
Proof.
  intros [] Hz. exists [], []. destruct (pf_tasks pf) as [|t ts] eqn:E.
  - rewrite ok_expected0. repeat split. done.
  - rewrite ok_expected0, fmap_cons in *.
    apply list.Forall_cons in ok_positive0 as [Ht Hts]. rewrite sumZ_cons in ok_hits0.
    assert (0 <= sumZ ((fun t => lenZ (lt_keys t)) <$> ts)); [|lia].
    apply sumZ_nonneg. eapply Forall_impl; [|exact Hts]. intros; cbn in *; lia.
Qed.

Lemma lookup_step_inv s0 pf s nb rest r s' :
  pf_phase pf = Looking (nb :: rest) -> pf_ok pf -> responses s = responses s0 ->
  lookup_step pf (nb :: rest) s = (r, s') ->
  responses s' = responses s0 /\ match r with
  | Ok pf' => pf_ok pf' /\ exists rest', pf_phase pf' = Looking rest'
  | Raise _ => True
  end.
Proof.
  intros Hp Hok Hr. destruct nb as [name b]. cbn [lookup_step].
  unfold mbind, ST_bind, st_get, mret, ST_ret. cbn beta iota.
  destruct (negb _) eqn:Ea.
  { intros [= <- <-]. eauto using pf_ok_next. }
  destruct (on_backends _ s) as [[n|e] s1] eqn:E; pose proof (on_backends_responses _ _ _ _ E) as Hr1;
    [|by intros [= <- <-]; split; [congruence|]].
  assert (0 <= n <= lenZ (pf_keys pf)) as Hn.
  { unfold on_backends in E. destruct (b_batched_async_contains _ _ _ _ _) as [r1 w] eqn:E1.
    injection E as -> <-. by eapply Hasync. }
  destruct (n =? 0) eqn:En; bool_prop. { intros [= <- <-]. split; [congruence|]. eauto using pf_ok_next. }
  unfold st_lift. destruct (py_assert _) as [[]|e]; intros [= <- <-]; (split; [congruence|]); [|done].
  split; [eapply add_tier_ok; [done|done|lia]|]. simpl. destruct (_ =? _); eauto.
Qed.

Lemma load_step_inv s0 i pf s pf' s' :
  load_step i pf s = Some (pf', s') -> prefetch_inv s0 (pf, s) -> prefetch_inv s0 (pf', s').
Proof.
  unfold load_step. destruct (pf_tasks pf !! i) as [[b ks c [|]]|] eqn:Ei; try done.
  destruct (on_backends _ s) as [r s1] eqn:E. apply on_backends_responses in E. intros [= <- <-] [Hok Hph].
  cbn [fst snd] in *.
  assert (lt_keys <$> <[i:=LoadTask b ks c (Some r)]> (pf_tasks pf) = lt_keys <$> pf_tasks pf) as Hk.
  { rewrite list_fmap_insert. apply list_insert_id. by rewrite list_lookup_fmap, Ei. }
  split.
  - destruct Hok as [H1 H2 H3 H4 H5 H6 H7 H8 H9]. constructor; simpl; try done; rewrite ?Hk; [|done].
    rewrite H4. rewrite !(list_fmap_compose lt_keys lenZ). by rewrite Hk.
  - simpl in *. rewrite E. destruct (pf_phase pf) as [| |[[]|]]; try done.
    destruct Hph as (n & Hn & rs & chunks & Hg & _). exfalso.
    apply mapM_Some in Hg. eapply Forall2_lookup_l in Hg as (y & _ & Hy); [|exact Ei]. done.
Qed.

(** What a tier retrieved never exceeds what it was asked for. *)
Lemma reached_usable pf rs :
  pf_ok pf -> gathered (pf_tasks pf) = Some rs ->
  let res := with_keys (pf_tasks pf) rs in
  length (pf_expected pf) = length res /\
  lenZ (usable (pf_expected pf) res) < lenZ cum /\
  (usable (pf_expected pf) res).*1 = take (length (usable (pf_expected pf) res)) all_keys.
Proof.
  intros Hok Hg. apply gathered_length in Hg. pose proof (ok_expected _ Hok) as He.
  pose proof (with_keys_lengths _ _ Hg) as Hw. rewrite <- He in Hw. cbn zeta.
  split; [by eapply Forall2_length|]. apply usable_length in Hw.
  rewrite <- (ok_hits _ Hok) in Hw. pose proof (ok_bound _ Hok).
  split; [unfold lenZ in *; lia|]. rewrite (usable_keys _ _ _ He Hg) at 1.
  rewrite (ok_tasks _ Hok), take_take. f_equal. unfold lenZ in *. lia.
Qed.

Lemma all_done_inv pf s rs pf' s' :
  pf_ok pf -> gathered (pf_tasks pf) = Some rs ->
  all_done_step (Ok (with_keys (pf_tasks pf) rs)) pf s = (Ok pf', s') ->
  let res := with_keys (pf_tasks pf) rs in
  if is_nil (unusable (pf_expected pf) res)
  then pf' = with_phase (Finished (Ok tt)) pf /\
    exists n, responses s' = responses s ++ [(lookup_id, n)] /\ answered pf' n
  else pf' = with_phase (Finished (Raise AttributeError)) pf /\ responses s' = responses s.
Proof.
  intros Hok Hg. destruct (reached_usable pf rs Hok Hg) as (Hl & Hc & Hk). cbn zeta.
  unfold all_done_step. rewrite (ok_cum _ Hok), (ok_id _ Hok).
  destruct (callback_eq (with_keys (pf_tasks pf) rs) lookup_id cum (pf_expected pf) s Hserver Hl Hc)
    as (n & Hn & ->).
  destruct (is_nil _) eqn:E; intros [= <- <-]; split; try done.
  exists n. split; [done|]. exists rs, (usable (pf_expected pf) (with_keys (pf_tasks pf) rs)).
  destruct (unusable _ _) eqn:Eu; done.
Qed.

Lemma prefetch_step_inv s0 ps ps' :
  prefetch_step ps ps' -> prefetch_inv s0 ps -> prefetch_inv s0 ps'.
Proof.
  intros Hstep. destruct Hstep as
    [pf s rest pf' s' Hp Hl|pf s rest e s' Hp Hl|pf s i pf' s' Hl|pf s rs pf' s' Hp Hg Hd|pf s t e pf' s' Hp Ht He Hd].
  - intros [Hok Hph]. cbn [fst snd] in *. rewrite Hp in Hph. destruct rest as [|nb rest].
    + cbn [lookup_step] in Hl. destruct (pf_hits pf =? 0) eqn:E; bool_prop.
      * rewrite Hserver in Hl. injection Hl as <- <-. split; [by apply pf_ok_phase|].
        exists 0. cbn [responses sm_respond with_phase pf_phase snd]. rewrite Hph, (ok_id _ Hok).
        split; [done|]. apply answered_zero; [by apply pf_ok_phase|done].
      * injection Hl as <- <-. split; [by apply pf_ok_phase|done].
    + destruct (lookup_step_inv s0 _ _ _ _ _ _ Hp Hok Hph Hl) as [Hr [Hok' [rest' Hp']]].
      split; [done|]. cbn [fst snd]. by rewrite Hp'.
  - intros [Hok Hph]. cbn [fst snd] in *. rewrite Hp in Hph. split; [by apply pf_ok_phase|].
    cbn [fst snd with_phase pf_phase]. destruct rest as [|nb rest].
    + cbn [lookup_step] in Hl. destruct (pf_hits pf =? 0); [rewrite Hserver in Hl|]; discriminate.
    + by destruct (lookup_step_inv s0 _ _ _ _ _ _ Hp Hok Hph Hl).
  - by eapply load_step_inv.
  - intros [Hok Hph]. cbn [fst snd] in *. rewrite Hp in Hph.
    pose proof (all_done_inv _ _ _ _ _ Hok Hg Hd) as H. cbn zeta in H.
    destruct (is_nil _); destruct H as [-> H]; (split; [by apply pf_ok_phase|]); cbn [fst snd with_phase pf_phase];
      [destruct H as (n & Hr & Ha); exists n; split; [congruence|done]|congruence].
  - intros [Hok Hph]. cbn [fst snd] in *. rewrite Hp in Hph. unfold all_done_step in Hd.
    unfold prefetch_all_done_callback in Hd. rewrite Hserver in Hd. injection Hd as <- <-.
    split; [by apply pf_ok_phase|]. done.
Qed.

Lemma start_inv s0 search_range pin :
  prefetch_inv s0
    (start_prefetch lookup_id all_keys cum search_range pin (storage_backends s0), s0).
Proof.
  split; [|done]. constructor; simpl; try done. split; [done|apply lenZ_nonneg].
Qed.

Lemma reached_inv s0 search_range pin ps :
  rtc prefetch_step
    (start_prefetch lookup_id all_keys cum search_range pin (storage_backends s0), s0) ps ->
  prefetch_inv s0 ps.
Proof.
  intros H. eapply rtc_ind_r; [apply start_inv| |exact H]. intros. by eapply prefetch_step_inv.
Qed.

(** C16: however the lookups, the loads and the callback of a prefetch interleave, the
    scheduler is answered at most once, and the answer is the token count of a prefix of
    the requested keys every chunk of which was retrieved. *)
Theorem prefetch_answer s0 search_range pin pf s :
  rtc prefetch_step
    (start_prefetch lookup_id all_keys cum search_range pin (storage_backends s0), s0) (pf, s) ->
  match pf_phase pf with
  | Finished (Ok _) =>
      exists n, responses s = responses s0 ++ [(lookup_id, n)] /\ answered pf n
  | _ => responses s = responses s0
  end.
Proof. intros H%reached_inv. apply H. Qed.

(** When all loads returned, the callback marks the event done and answers, unless a
    chunk was retrieved behind a tier that came short: releasing it raises, and the
    scheduler is never answered. *)
Theorem prefetch_gap_unanswered s0 search_range pin pf s rs :
  rtc prefetch_step
    (start_prefetch lookup_id all_keys cum search_range pin (storage_backends s0), s0) (pf, s) ->
  pf_phase pf = Loading -> gathered (pf_tasks pf) = Some rs ->
  let res := with_keys (pf_tasks pf) rs in
  let '(r, s') := prefetch_all_done_callback (Ok res) (pf_lookup_id pf) (pf_cum_total pf)
                    (pf_expected pf) s in
  lookup_id ∈ events_done s' /\
  if is_nil (unusable (pf_expected pf) res)
  then r = Ok tt /\ exists n, cum !! length (usable (pf_expected pf) res) = Some n /\
    responses s' = responses s0 ++ [(lookup_id, n)]
  else r = Raise AttributeError /\ responses s' = responses s0.
Proof.
  intros [Hok Hph]%reached_inv Hp Hg. cbn [fst snd] in *. rewrite Hp in Hph. cbn zeta.
  destruct (reached_usable pf rs Hok Hg) as (Hl & Hc & _). rewrite (ok_cum _ Hok), (ok_id _ Hok).
  destruct (callback_eq (with_keys (pf_tasks pf) rs) lookup_id cum (pf_expected pf) s Hserver Hl Hc)
    as (n & Hn & ->).
  destruct (is_nil _); (split; [simpl; set_solver|]); [|done].
  split; [done|]. exists n. split; [done|]. simpl. by rewrite Hph.
Qed.

End prefetch.

(** ** Admission control *)

Module WeightedSemaphore.

Record semaphore := Semaphore {
  _concurrent_budget_cap : Z;
  _chunk_budget_cap : Z;
  _current_chunks : Z;
}.

Definition init (chunk_budget : Z) : semaphore :=
  Semaphore (chunk_budget `div` 2) chunk_budget (chunk_budget `div` 2).

Definition with_current (c : Z) (sem : semaphore) : semaphore :=
  Semaphore (_concurrent_budget_cap sem) (_chunk_budget_cap sem) c.

(** The predicate [acquire] waits for, and what it then takes *)
Definition ready (n : Z) (sem : semaphore) : bool :=
  if n <=? _concurrent_budget_cap sem then n <=? _current_chunks sem
  else _current_chunks sem =? _concurrent_budget_cap sem.

Definition take_chunks (n : Z) (sem : semaphore) : semaphore :=
  with_current (if n <=? _concurrent_budget_cap sem then _current_chunks sem - n else 0) sem.

Definition admissible (n : Z) (sem : semaphore) : bool := negb (_chunk_budget_cap sem <? n).

(** What [release] does to the counter before it notifies *)
Definition give_back (n : Z) (sem : semaphore) : semaphore :=
  with_current (if n <=? _concurrent_budget_cap sem then _current_chunks sem + n
                else _concurrent_budget_cap sem) sem.

(** The semaphore with its condition variable: the tasks that contend for the condition's
    lock to evaluate the predicate of [acquire], fresh or woken; those asleep in [wait_for],
    whom only a notification wakes; those whose coroutine runs; those that are through *)
Record system := System {
  sem : semaphore;
  contending : list Z;
  sleeping : list Z;
  running : list Z;
  finished : list Z;
}.

Definition sem_start (chunk_budget : Z) : system := System (init chunk_budget) [] [] [] [].

(** [self._cond.notify_all()] *)
Definition notify_all (sys : system) : system :=
  System (sem sys) (contending sys ++ sleeping sys) [] (running sys) (finished sys).

(** [release], the lock held *)
Definition release (n : Z) (sys : system) : system :=
  notify_all (System (give_back n (sem sys)) (contending sys) (sleeping sys) (running sys) (finished sys)).

(** A task of [acquire] that gets the lock evaluates the predicate of [wait_for]: it takes its
    chunks and its coroutine runs, or it releases the lock and sleeps. *)
Definition try_acquire (n : Z) (others : list Z) (sys : system) : system :=
  if ready n (sem sys)
  then System (take_chunks n (sem sys)) others (sleeping sys) (running sys ++ [n]) (finished sys)
  else System (sem sys) others (sleeping sys ++ [n]) (running sys) (finished sys).

(** The coroutine ends, in whatever way, and [finally] releases. *)
Definition finish (n : Z) (others : list Z) (sys : system) : system :=
  release n (System (sem sys) (contending sys) (sleeping sys) others (finished sys ++ [n])).

(** The steps that serve what was asked for. The body of [async with self._cond] awaits
    nothing but the wait, so each is atomic; any contending task may get the lock next. *)
Inductive serve_step : system -> system -> Prop :=
  | serve_attempt n before after sys :
      contending sys = before ++ n :: after -> serve_step sys (try_acquire n (before ++ after) sys)
  | serve_finish n before after sys :
      running sys = before ++ n :: after -> serve_step sys (finish n (before ++ after) sys).

(** [AsyncMultiSerializer.run]: requests arrive, or are refused, at any time. *)
Inductive sem_step : system -> system -> Prop :=
  | sem_request n sys :
      0 < n -> admissible n (sem sys) = true ->
      sem_step sys (System (sem sys) (contending sys ++ [n]) (sleeping sys) (running sys) (finished sys))
  | sem_reject n sys : admissible n (sem sys) = false -> sem_step sys sys
  | sem_serve sys sys' : serve_step sys sys' -> sem_step sys sys'.

Section safety.
Context (chunk_budget : Z).
#[local] Abbreviation cap := (chunk_budget `div` 2).

(** Small requests share the cap; an oversized one runs alone. *)
Definition budget_inv (sem : semaphore) (running : list Z) : Prop :=
  _concurrent_budget_cap sem = cap /\ _chunk_budget_cap sem = chunk_budget /\
  ((Forall (fun n => 0 < n <= cap) running /\
    _current_chunks sem = cap - sumZ running /\ sumZ running <= cap) \/
   exists n, running = [n] /\ cap < n <= chunk_budget /\ _current_chunks sem = 0).

(** And nobody sleeps whose predicate holds. *)
Definition sem_inv (sys : system) : Prop :=
  budget_inv (sem sys) (running sys) /\
  Forall (fun n => 0 < n <= chunk_budget) (contending sys ++ sleeping sys) /\
  Forall (fun n => ready n (sem sys) = false) (sleeping sys).

Lemma positive_sum (l : list Z) b : Forall (fun n => 0 < n <= b) l -> 0 <= sumZ l.
Proof. intros Hl. apply sumZ_nonneg. eapply Forall_impl; [|exact Hl]. cbn. lia. Qed.

Lemma sum_positive (l : list Z) b : Forall (fun n => 0 < n <= b) l -> sumZ l = 0 -> l = [].
Proof.
  destruct 1 as [|n l Hn Hl]; [done|]. rewrite sumZ_cons. apply positive_sum in Hl. lia.
Qed.

Lemma take_budget n sem running :
  1 <= cap -> 0 < n <= chunk_budget -> ready n sem = true -> budget_inv sem running ->
  budget_inv (take_chunks n sem) (running ++ [n]).
Proof.
  intros Hcap Hn Hr (Hc & Hbud & Hinv). split; [done|]. split; [done|].
  unfold ready, take_chunks, with_current in *. rewrite Hc in *. cbn [_current_chunks].
  destruct (n <=? cap) eqn:En; bool_prop.
  - left. destruct Hinv as [(Hall & Hcur & Hsum)|(m & -> & Hm & Hcur)]; [|lia].
    split_and!; [apply list.Forall_app; split; [done|]; constructor; [lia|constructor]| |];
      rewrite sumZ_app, sumZ_cons; change (sumZ []) with 0; lia.
  - right. destruct Hinv as [(Hall & Hcur & Hsum)|(m & -> & Hm & Hcur)]; [|lia].
    exists n. split; [|lia]. rewrite (sum_positive _ _ Hall) by lia. done.
Qed.

Lemma give_back_budget n sem before after :
  1 <= cap -> budget_inv sem (before ++ n :: after) -> budget_inv (give_back n sem) (before ++ after).
Proof.
  intros Hcap (Hc & Hbud & Hinv). split; [done|]. split; [done|]. left.
  unfold give_back, with_current. rewrite Hc. cbn [_current_chunks].
  destruct Hinv as [(Hall & Hcur & Hsum)|(m & Hm & Hmn & Hcur)].
  - apply list.Forall_app in Hall as [Hb1 [Hn Ha1]%list.Forall_cons].
    rewrite sumZ_app, sumZ_cons in Hcur, Hsum. rewrite (proj2 (Z.leb_le n cap)) by lia.
    split_and!; [by apply list.Forall_app| |]; rewrite sumZ_app; lia.
  - destruct before as [|? [|? ?]]; simpl in Hm; [|done|done]. injection Hm as -> ->.
    rewrite (proj2 (Z.leb_gt m cap)) by lia. split_and!; [constructor|simpl; lia|simpl; lia].
Qed.

(** Taking chunks makes no predicate true. *)
Lemma take_keeps_waiting n m sem running :
  1 <= cap -> budget_inv sem running -> 0 < n -> 0 < m -> ready n sem = true ->
  ready m sem = false -> ready m (take_chunks n sem) = false.
Proof.
  intros Hcap (Hc & _ & Hinv) Hn Hm. assert (_current_chunks sem <= cap) as Hle.
  { destruct Hinv as [(Hall & Hcur & _)|(x & _ & _ & Hcur)]; [apply positive_sum in Hall|]; lia. }
  unfold ready, take_chunks, with_current. rewrite Hc. cbn [_concurrent_budget_cap _current_chunks].
  destruct (n <=? cap) eqn:En, (m <=? cap) eqn:Em; bool_prop; lia.
Qed.

Lemma serve_step_inv sys sys' : 2 <= chunk_budget -> serve_step sys sys' -> sem_inv sys -> sem_inv sys'.
Proof.
  intros Hb. assert (1 <= cap) as Hcap by div_lia.
  intros [n before after [sm c s r f] Hw|n before after [sm c s r f] Hw] (Hbud & Hall & Hsl); simpl in *; subst.
  - unfold try_acquire. cbn [sem contending sleeping running finished].
    assert (0 < n <= chunk_budget /\ Forall (fun n => 0 < n <= chunk_budget) ((before ++ after) ++ s)) as [Hn Hrest].
    { rewrite !list.Forall_app, list.Forall_cons in Hall. rewrite !list.Forall_app.
      destruct Hall as [(H1 & H2 & H3) H4]. exact (conj H2 (conj (conj H1 H3) H4)). }
    destruct (ready n sm) eqn:Er; split; cbn [sem contending sleeping running finished].
    + by apply take_budget.
    + split; [done|]. apply list.Forall_app in Hrest as [_ Hs].
      rewrite list.Forall_forall in Hsl, Hs |- *. intros m Hin.
      eapply take_keeps_waiting; [done|done|lia|by apply (Hs m Hin)|done|by apply Hsl].
    + done.
    + split; [rewrite app_assoc|]; (apply list.Forall_app; split; [done|by apply list.Forall_singleton]).
  - split; cbn [sem contending sleeping running finished finish release notify_all].
    + by apply give_back_budget.
    + by rewrite app_nil_r.
Qed.

Lemma sem_step_inv sys sys' : 2 <= chunk_budget -> sem_step sys sys' -> sem_inv sys -> sem_inv sys'.
Proof.
  intros Hb [n s Hn Ha|n s _|s s' Hs]; [|done|by apply serve_step_inv].
  intros (Hbud & Hall & Hsl). split; [done|]. split; [|done]. cbn [contending sleeping].
  destruct Hbud as (_ & Hcb & _). unfold admissible in Ha. rewrite Hcb in Ha. bool_prop.
  apply list.Forall_app in Hall as [Hco Hs]. apply list.Forall_app. split; [|done].
  apply list.Forall_app. split; [done|]. apply list.Forall_singleton. lia.
Qed.

Lemma sem_reached_inv sys : 2 <= chunk_budget -> rtc sem_step (sem_start chunk_budget) sys -> sem_inv sys.
Proof.
  intros Hb H. eapply rtc_ind_r; [|intros; by eapply sem_step_inv|exact H].
  split; [|split; constructor]. split; [done|]. split; [done|]. left. simpl.
  split_and!; [constructor|lia|]. apply Z.div_pos; lia.
Qed.

(** Whoever sleeps, somebody runs and will wake it. *)
Lemma sleeper_waits_for sys n :
  2 <= chunk_budget -> sem_inv sys -> n ∈ sleeping sys -> ready n (sem sys) = false /\ running sys <> [].
Proof.
  intros Hb (Hbud & Hall & Hsl) Hn. rewrite list.Forall_forall in Hsl. pose proof (Hsl n Hn) as Hr.
  split; [done|]. intros He. rewrite He in Hbud. destruct Hbud as (Hc & _ & [(_ & Hcur & _)|(m & Hm & _)]); [|done].
  rewrite list.Forall_forall in Hall. specialize (Hall n ltac:(apply elem_of_app; by right)).
  unfold ready in Hr. rewrite Hc, Hcur in Hr. simpl in Hr. destruct (n <=? cap) eqn:E; bool_prop; lia.
Qed.

End safety.

(** Serving ends: what is left to do shrinks with every acquisition and every end, and
    between two of those every contending task tries once. *)
Definition left_to_do (sys : system) : nat :=
  2 * (length (contending sys) + length (sleeping sys)) + length (running sys).
Definition work (sys : system) : nat :=
  left_to_do sys * S (left_to_do sys) + length (contending sys).

Lemma serve_step_work sys sys' : serve_step sys sys' -> (work sys' < work sys)%nat.
Proof.
  unfold work, left_to_do. intros [n before after s Hw|n before after s Hw].
  - unfold try_acquire. destruct (ready n (sem s)); simpl; rewrite ?Hw, ?length_app; simpl; nia.
  - simpl. rewrite Hw, !length_app. simpl. nia.
Qed.

Lemma serving_ends sys : sn serve_step sys.
Proof.
  remember (work sys) as w eqn:Hw. revert sys Hw. induction w as [w IH] using lt_wf_ind.
  intros sys ->. constructor. intros sys' Hs. eapply IH; [by apply serve_step_work|done].
Qed.

(** Nobody is lost on the way. *)
Definition everybody (sys : system) : list Z :=
  finished sys ++ contending sys ++ sleeping sys ++ running sys.

Lemma serve_step_everybody sys sys' : serve_step sys sys' -> everybody sys' ≡ₚ everybody sys.
Proof.
  unfold everybody. intros [n before after [sm c s r f] Hw|n before after [sm c s r f] Hw]; simpl in *; subst.
  - unfold try_acquire. cbn [sem contending sleeping running finished].
    destruct (ready n sm); cbn [sem contending sleeping running finished]; solve_Permutation.
  - solve_Permutation.
Qed.

(** C39: under a budget of at least two chunks, the requests that run together never hold
    more than the budget, the small ones together at most half of it, and a request over
    half of the budget runs alone. *)
Theorem semaphore_exclusion chunk_budget sys :
  2 <= chunk_budget -> rtc sem_step (sem_start chunk_budget) sys ->
  sumZ (running sys) <= chunk_budget /\
  (sumZ (running sys) <= chunk_budget `div` 2 \/ exists n, running sys = [n] /\ chunk_budget `div` 2 < n).
Proof.
  intros Hb ((_ & _ & [(_ & _ & Hs)|(n & -> & Hn & _)]) & _)%sem_reached_inv; [| |done].
  - split; [|by left]. div_lia.
  - split; [simpl; lia|]. right. exists n. split; [done|lia].
Qed.

(** C40: no request waits for ever, unless others keep arriving. In every state the semaphore reaches, whoever sleeps in
    [wait_for] does so because its predicate is false, and somebody runs whose release will
    wake it: no wake-up is lost. However the lock is handed round and in whatever order
    the coroutines end, once no more requests come the serving ends, and it ends with
    nobody contending, asleep or running and every request served. *)
Theorem semaphore_no_deadlock chunk_budget sys :
  2 <= chunk_budget -> rtc sem_step (sem_start chunk_budget) sys ->
  (forall n, n ∈ sleeping sys -> ready n (sem sys) = false /\ running sys <> [])
  /\ sn serve_step sys
  /\ forall sys', rtc serve_step sys sys' -> nf serve_step sys' ->
       contending sys' = [] /\ sleeping sys' = [] /\ running sys' = []
       /\ finished sys' ≡ₚ everybody sys.
Proof.
  intros Hb Hinv%sem_reached_inv; [|done]. split; [intros n; by apply (sleeper_waits_for chunk_budget)|].
  split; [apply serving_ends|]. intros sys' Hrun Hnf.
  assert (sem_inv chunk_budget sys' /\ everybody sys' ≡ₚ everybody sys) as [Hinv' Hall].
  { clear Hnf. induction Hrun as [s|s1 s2 s3 H12 _ IH]; [done|].
    destruct (IH ltac:(by eapply serve_step_inv)) as [? IHp]. split; [done|].
    rewrite IHp. by apply serve_step_everybody. }
  assert (contending sys' = []) as Hc.
  { destruct (contending sys') as [|n l] eqn:E; [done|]. destruct Hnf. eexists. by apply (serve_attempt n [] l). }
  assert (running sys' = []) as Hr.
  { destruct (running sys') as [|n l] eqn:E; [done|]. destruct Hnf. eexists. by apply (serve_finish n [] l). }
  assert (sleeping sys' = []) as Hs.
  { destruct (sleeping sys') as [|n l] eqn:E; [done|].
    destruct (sleeper_waits_for chunk_budget sys' n Hb Hinv' ltac:(rewrite E; by left)) as [_ []]. done. }
  split_and!; try done. rewrite <- Hall. unfold everybody. by rewrite Hc, Hs, Hr, !app_nil_r.
Qed.

(** A budget of one chunk has a cap of zero, and the exclusive branch then waits for
    [0 == 0]: two requests run together. *)
Example budget_one_no_exclusion :
  exists sys, rtc sem_step (sem_start 1) sys /\ running sys = [1; 1].
Proof.
  eexists. split.
  - eapply rtc_l; [by apply (sem_request 1)|]. eapply rtc_l; [by apply (sem_request 1)|].
    eapply rtc_l; [by apply sem_serve, (serve_attempt 1 [] [1])|].
    eapply rtc_l; [by apply sem_serve, (serve_attempt 1 [] [])|]. apply rtc_refl.
  - done.
Qed.

(** Under a budget of ten, a request for eight runs and one for three sleeps. *)
Definition ex_waiting : system := System (take_chunks 8 (init 10)) [] [3] [8] [].

Lemma ex_waiting_reached : rtc sem_step (sem_start 10) ex_waiting.
Proof.
  eapply rtc_l; [by apply (sem_request 8)|]. eapply rtc_l; [by apply (sem_request 3)|].
  eapply rtc_l; [by apply sem_serve, (serve_attempt 8 [] [3])|].
  eapply rtc_l; [by apply sem_serve, (serve_attempt 3 [] [])|]. apply rtc_refl.
Qed.

Lemma semaphore_exclusion_witness :
  rtc sem_step (sem_start 10) ex_waiting /\ running ex_waiting = [8] /\ sumZ (running ex_waiting) <= 10.
Proof.
  split; [exact ex_waiting_reached|]. split; [reflexivity|].
  refine (proj1 (semaphore_exclusion 10 ex_waiting _ ex_waiting_reached)). lia.
Defined.

(** The end of the request for eight wakes the other, which then runs to its end. *)
Lemma semaphore_no_deadlock_witness :
  ready 3 (sem ex_waiting) = false /\ sn serve_step ex_waiting
  /\ exists sys', rtc serve_step ex_waiting sys' /\ finished sys' ≡ₚ [3; 8].
Proof.
  destruct (semaphore_no_deadlock 10 ex_waiting ltac:(lia) ex_waiting_reached) as (H1 & H2 & H3).
  split; [apply H1; left|]. split; [exact H2|].
  exists (System (init 10) [] [] [] [8; 3]).
  assert (rtc serve_step ex_waiting (System (init 10) [] [] [] [8; 3])) as Hrun.
  { eapply rtc_l; [by apply (serve_finish 8 [] [])|]. eapply rtc_l; [by apply (serve_attempt 3 [] [])|].
    eapply rtc_l; [by apply (serve_finish 3 [] [])|]. apply rtc_refl. }
  split; [exact Hrun|]. apply (H3 _ Hrun). intros [s Hs]. inversion Hs as [n b a ? E|n b a ? E]; by destruct b.
Defined.

End WeightedSemaphore.

(** ** Runs over the concrete tiers *)

Module PrefetchExamples.
Import ToyTiers.

Section drive.
Context {B K O S : Type} `{!StorageBackend B K O S}.
Context (cfg : sm_config) (has_server : bool).

Definition first_undone (ts : list (load_task (B := B) (K := K) (O := O))) : option nat :=
  fst <$> list_find (fun t => lt_done t = None) ts.

(** A schedule: lookups first, then the loads in order, then the callback *)
Fixpoint drive (fuel : nat) (pf : prefetch (B := B) (K := K) (O := O)) (s : sm_state B S)
    : prefetch (B := B) (K := K) (O := O) * sm_state B S :=
  match fuel with
  | 0%nat => (pf, s)
  | Datatypes.S fuel =>
      match pf_phase pf with
      | Finished _ => (pf, s)
      | Looking rest =>
          match lookup_step cfg has_server pf rest s with
          | (Ok pf', s') => drive fuel pf' s'
          | (Raise e, s') => (with_phase (Finished (Raise e)) pf, s')
          end
      | Loading =>
          match first_undone (pf_tasks pf) with
          | Some i => match load_step i pf s with Some (pf', s') => drive fuel pf' s' | None => (pf, s) end
          | None =>
              match gathered (pf_tasks pf) with
              | Some rs =>
                  match all_done_step has_server (Ok (with_keys (pf_tasks pf) rs)) pf s with
                  | (Ok pf', s') => (pf', s')
                  | _ => (pf, s)
                  end
              | None => (pf, s)
              end
          end
      end
  end.

Lemma drive_steps fuel pf s : rtc (prefetch_step cfg has_server) (pf, s) (drive fuel pf s).
Proof.
  revert pf s. induction fuel as [|fuel IH]; intros pf s; [apply rtc_refl|]. cbn [drive].
  destruct (pf_phase pf) as [rest| |o] eqn:Hp; [| |apply rtc_refl].
  - destruct (lookup_step _ _ _ _ _) as [[pf'|e] s'] eqn:E.
    + eapply rtc_l; [by eapply step_lookup|apply IH].
    + apply rtc_once. by eapply step_lookup_raises.
  - destruct (first_undone _) as [i|].
    + destruct (load_step _ _ _) as [[pf' s']|] eqn:E; [|apply rtc_refl].
      eapply rtc_l; [by eapply step_load|apply IH].
    + destruct (gathered _) as [rs|] eqn:Eg; [|apply rtc_refl].
      destruct (all_done_step _ _ _ _) as [[pf'|e] s'] eqn:E; [|apply rtc_refl].
      apply rtc_once. by eapply step_all_done.
Qed.

End drive.

Lemma toy_async (b : nat) (lookup_id : string) (keys : list Z) (pin : bool) (w : toy) n w' :
  b_batched_async_contains (O := Z) b lookup_id keys pin w = (Ok n, w') -> 0 <= n <= lenZ keys.
Proof.
  intros [= <- <-]. split; [apply lenZ_nonneg|]. unfold lenZ.
  pose proof (prefix_while_le (held w b) keys). lia.
Qed.

Definition keys : list Z := [1; 2; 3; 4; 5].
Definition cum : list Z := [0; 16; 32; 48; 64; 70].
Definition sem_start (loads : list nat) : prefetch (B := nat) (K := Z) (O := Z) :=
  start_prefetch "req" keys cum None false (storage_backends (manager loads [])).
Definition run (fuel : nat) (loads : list nat) := drive ToyTiers.cfg true fuel (sem_start loads) (manager loads []).

(** Every tier returns what it said it holds: four chunks, 64 tokens. *)
Lemma prefetch_answer_witness :
  let '(pf, s) := run 8 [2; 1; 1]%nat in
  responses s = [("req", 64)] /\ answered keys cum pf 64.
Proof.
  pose proof (drive_steps ToyTiers.cfg true 8 (sem_start [2; 1; 1]%nat) (manager [2; 1; 1]%nat [])) as H.
  fold (run 8 [2; 1; 1]%nat) in H.
  destruct (run 8 [2; 1; 1]%nat) as [pf s] eqn:E.
  pose proof (prefetch_answer ToyTiers.cfg true toy_async eq_refl "req" keys cum eq_refl eq_refl
    (manager [2; 1; 1]%nat []) None false pf s H) as Hans.
  assert (pf_phase pf = Finished (Ok tt)) as Hp by (by apply (f_equal (fun x => pf_phase x.1)) in E; vm_compute in E).
  rewrite Hp in Hans. destruct Hans as (n & Hr & Ha).
  assert (responses s = [("req", 64)]) as Hs by (by apply (f_equal (fun x => responses x.2)) in E; vm_compute in E).
  split; [done|]. rewrite Hs in Hr. change (responses (manager [2; 1; 1]%nat [])) with (@nil (string * Z)) in Hr.
  simpl in Hr. injection Hr as <-. done.
Defined.

(** Tier 0 lost its second chunk: the others' chunks are released by a method that tuples
    do not have. *)
Lemma prefetch_gap_unanswered_witness :
  let '(pf, s) := run 7 [1; 1; 1]%nat in
  (prefetch_all_done_callback true
    (Ok (with_keys (pf_tasks pf) [[1]; [3]; [4]])) "req" cum (pf_expected pf) s).1 = Raise AttributeError.
Proof.
  pose proof (drive_steps ToyTiers.cfg true 7 (sem_start [1; 1; 1]%nat) (manager [1; 1; 1]%nat [])) as H.
  fold (run 7 [1; 1; 1]%nat) in H.
  destruct (run 7 [1; 1; 1]%nat) as [pf s] eqn:E.
  assert (pf_phase pf = Loading) as Hp by (by apply (f_equal (fun x => pf_phase x.1)) in E; vm_compute in E).
  assert (gathered (pf_tasks pf) = Some [[1]; [3]; [4]]) as Hg
    by (by apply (f_equal (fun x => gathered (pf_tasks x.1))) in E; vm_compute in E).
  pose proof (prefetch_gap_unanswered ToyTiers.cfg true toy_async eq_refl "req" keys cum eq_refl eq_refl
    (manager [1; 1; 1]%nat []) None false pf s _ H Hp Hg) as Hgap. cbn zeta in Hgap.
  assert (is_nil (unusable (pf_expected pf) (with_keys (pf_tasks pf) [[1]; [3]; [4]])) = false) as Hn
    by (by apply (f_equal (fun x => is_nil (unusable (pf_expected x.1) (with_keys (pf_tasks x.1) [[1]; [3]; [4]])))) in E;
        vm_compute in E).
  rewrite Hn in Hgap.
  assert (pf_lookup_id pf = "req") as Hid by (by apply (f_equal (fun x => pf_lookup_id x.1)) in E; vm_compute in E).
  assert (pf_cum_total pf = cum) as Hc by (by apply (f_equal (fun x => pf_cum_total x.1)) in E; vm_compute in E).
  rewrite Hid, Hc in Hgap. destruct (prefetch_all_done_callback _ _ _ _ _ s) as [r s'].
  by destruct Hgap as (_ & -> & _).
Defined.

Lemma prefetch_terminates_witness :
  let ps := run 8 [2; 1; 1]%nat in
  exists n, nsteps (prefetch_step ToyTiers.cfg true) n (sem_start [2; 1; 1]%nat, manager [2; 1; 1]%nat []) ps /\
  (n <= 11)%nat.
Proof.
  cbn zeta. destruct (run 8 [2; 1; 1]%nat) as [pf s] eqn:E.
  destruct (proj1 (rtc_nsteps _ _) (drive_steps ToyTiers.cfg true 8 (sem_start [2; 1; 1]%nat) (manager [2; 1; 1]%nat [])))
    as [n Hn].
  fold (run 8 [2; 1; 1]%nat) in Hn. rewrite E in Hn. exists n. split; [done|].
  exact (proj1 (prefetch_terminates ToyTiers.cfg true n "req" keys cum None false _ _ pf s Hn)).
Defined.

End PrefetchExamples.
