(* ===== verification/Scheduler.v ===== *)
(** * The connector on the scheduler's side

    [vllm_v1_adapter.py]: the tracker of a request ([RequestTracker], with the block-table
    guard that [lmcache_hcu/__init__.py] installs on it), the metadata of one step of a
    request ([ReqMeta]) and the scheduler-side operations of [LMCacheConnectorV1Impl];
    [integration/vllm/utils.py]: multimodal hashes. vLLM's requests are arguments of the
    operations; the lookup client is an interface. *)

From Stdlib Require Import Ascii String.
From S2P Require Import Prelude Tensor Codec BlockFirst DirectIO Dict.

Open Scope string_scope.
Open Scope list_scope.
Open Scope Z_scope.

Record LoadSpec := MkLoadSpec {
  vllm_cached_tokens : Z;
  lmcache_cached_tokens : Z;
  can_load : bool;
}.

Record SaveSpec := MkSaveSpec {
  skip_leading_tokens : Z;
  can_save : bool;
}.

Record DisaggSpec := MkDisaggSpec {
  ds_req_id : string;
  receiver_id : string;
  receiver_host : string;
  receiver_init_port : Z;
  receiver_alloc_port : Z;
  ds_is_last_prefill : bool;
  num_transferred_tokens : Z;
}.

(** A reference to a [DisaggSpec] object, which trackers and metadata share *)
#[global] Abbreviation disagg_ref := nat.

(** ** Values of a request's configuration *)

Inductive config_value : Type :=
  | CNone
  | CBool (b : bool)
  | CInt (z : Z)
  | CStr (s : string).

(** [bool(v)] *)
Definition truthy (v : config_value) : bool :=
  match v with
  | CNone => false
  | CBool b => b
  | CInt z => negb (z =? 0)
  | CStr s => negb (String.eqb s "")
  end.

(** [extract_request_configs], of the [kv_transfer_params] of the sampling parameters *)
Definition extract_request_configs (kv_transfer_params : option (odict string config_value))
    : option (odict string config_value) :=
  match kv_transfer_params with
  | None => None
  | Some params =>
      let configs := filter (fun kv => String.prefix "lmcache." kv.1 = true) params in
      if is_nil configs then None else Some configs
  end.

(** ** Multimodal hashes *)

Definition is_space (c : ascii) : bool :=
  let n := Z.of_nat (nat_of_ascii c) in ((9 <=? n) && (n <=? 13)) || ((28 <=? n) && (n <=? 32)).

Fixpoint lstrip (l : list ascii) : list ascii :=
  match l with
  | [] => []
  | c :: l' => if is_space c then lstrip l' else l
  end.

Definition strip (s : string) : list ascii := rev (lstrip (rev (lstrip (String.list_ascii_of_string s)))).

Definition hex_value (c : ascii) : option Z :=
  let n := Z.of_nat (nat_of_ascii c) in
  if (48 <=? n) && (n <=? 57) then Some (n - 48)
  else if (65 <=? n) && (n <=? 70) then Some (n - 55)
  else if (97 <=? n) && (n <=? 102) then Some (n - 87)
  else None.

(** [s[2:] if s.lower().startswith("0x") else s] *)
Definition hex_part (s : list ascii) : list ascii :=
  match s with
  | "0"%char :: ("x" | "X")%char :: rest => rest
  | _ => s
  end.

(** [int(s, 16)] of hexadecimal digits *)
Definition int16 (digits : list Z) : Z := foldl (fun acc d => 16 * acc + d) 0 digits.

Section utils.
(** The first two bytes of [hashlib.sha256] of a string *)
Context (sha256_head : string -> Z * Z).

Definition hex_hash_to_int16 (s : string) : Z :=
  let s_stripped := strip s in
  match mapM hex_value (hex_part s_stripped) with
  | Some (d :: ds) => Z.land (int16 (d :: ds)) 65535
  | _ =>
      let '(b0, b1) := sha256_head (String.string_of_list_ascii s_stripped) in b0 * 256 + b1
  end.

(** [token_ids[start:end] = v] for [0 <= start] *)
Definition overwrite (start stop v : Z) (token_ids : list Z) : list Z :=
  imap (fun i t => if (start <=? Z.of_nat i) && (Z.of_nat i <? stop) then v else t) token_ids.

Definition apply_mm_hashes_to_token_ids (token_ids : list Z) (mm_hashes : list string)
    (mm_positions : list (Z * Z)) : list Z :=
  let n := lenZ token_ids in
  foldl (fun ids '(hash_str, (start, length)) =>
           if n <=? start then ids
           else overwrite start (Z.min (start + length) n) (hex_hash_to_int16 hash_str) ids)
    token_ids (zip mm_hashes mm_positions).

End utils.

(** ** Block ids, as vLLM hands them over *)

Inductive block_elem : Type :=
  | One (b : Z)
  | Many (bs : list Z).

Inductive block_ids : Type :=
  | NoBlocks                               (* None *)
  | BlockTuple (groups : list (list Z))
  | BlockList (l : list block_elem).

#[global] Instance block_elem_eq_dec : EqDecision block_elem.
Proof. solve_decision. Defined.

Definition flatten_elem (e : block_elem) : list Z := match e with One b => [b] | Many bs => bs end.

(** The ids [RequestTracker.update] appends *)
Definition update_block_ids (new_block_ids : block_ids) : list block_elem :=
  match new_block_ids with
  | NoBlocks => []
  | BlockTuple groups => One <$> default [] (head groups)
  | BlockList l => One <$> (l ≫= flatten_elem)
  end.

(** [_hcu_flatten_block_ids] *)
Definition _hcu_flatten_block_ids (b : block_ids) : option (list block_elem) :=
  match b with
  | NoBlocks => None
  | BlockTuple groups => Some (One <$> default [] (head groups))
  | BlockList l => Some l
  end.

Fixpoint all_equal (lhs rhs : list block_elem) : bool :=
  match lhs, rhs with
  | a :: lhs, b :: rhs => bool_decide (a = b) && all_equal lhs rhs
  | _, _ => true
  end.

Definition _hcu_same_block_prefix (lhs rhs : option (list block_elem)) : bool :=
  match lhs, rhs with
  | Some lhs, Some rhs => negb (length rhs <? length lhs)%nat && all_equal lhs rhs
  | _, _ => false
  end.

(** [torch.tensor(ids).reshape((len(ids), 1))], flattened: rows of one id are accepted too *)
Definition block_tensor (ids : list block_elem) : result (list Z) :=
  match mapM (fun e => match e with One b => Some b | Many _ => None end) ids with
  | Some flat => Ok flat
  | None =>
      match mapM (fun e => match e with Many bs => Some bs | One _ => None end) ids with
      | None => Raise TypeError
      | Some rows =>
          match rows with
          | [] => Ok []
          | r :: _ =>
              if negb (bool_decide (Forall (fun r' => length r' = length r) rows))
              then Raise (ValueError "ragged block ids")
              else if Nat.eqb (length r) 1 then Ok (concat rows)
              else Raise (RuntimeError "shape is invalid for input")
          end
      end
  end.

(** ** The tracker of a request *)

Record RequestTracker := MkTracker {
  rt_req_id : string;
  prompt_len : Z;
  token_ids : list Z;
  allocated_block_ids : list block_elem;
  num_saved_tokens : Z;
  disagg_spec : option disagg_ref;
  mm_hashes : option (list string);
  mm_positions : option (list (Z * Z));
  request_configs : option (odict string config_value);
  is_decode_phase : bool;
  skip_save : bool;
  num_lmcache_cached_tokens : Z;
}.

Definition rt_with_saved (n : Z) (t : RequestTracker) : RequestTracker :=
  MkTracker (rt_req_id t) (prompt_len t) (token_ids t) (allocated_block_ids t) n (disagg_spec t)
    (mm_hashes t) (mm_positions t) (request_configs t) (is_decode_phase t) (skip_save t)
    (num_lmcache_cached_tokens t).
Definition rt_with_tokens (ids : list Z) (t : RequestTracker) : RequestTracker :=
  MkTracker (rt_req_id t) (prompt_len t) ids (allocated_block_ids t) (num_saved_tokens t)
    (disagg_spec t) (mm_hashes t) (mm_positions t) (request_configs t) (is_decode_phase t)
    (skip_save t) (num_lmcache_cached_tokens t).
Definition rt_with_blocks (ids : list block_elem) (t : RequestTracker) : RequestTracker :=
  MkTracker (rt_req_id t) (prompt_len t) (token_ids t) ids (num_saved_tokens t) (disagg_spec t)
    (mm_hashes t) (mm_positions t) (request_configs t) (is_decode_phase t) (skip_save t)
    (num_lmcache_cached_tokens t).
Definition rt_with_decode (b : bool) (t : RequestTracker) : RequestTracker :=
  MkTracker (rt_req_id t) (prompt_len t) (token_ids t) (allocated_block_ids t) (num_saved_tokens t)
    (disagg_spec t) (mm_hashes t) (mm_positions t) (request_configs t) b (skip_save t)
    (num_lmcache_cached_tokens t).

(** What vLLM says of a request it schedules for the first time *)
Record NewRequestData := MkNewRequest {
  nr_req_id : string;
  nr_block_ids : list block_elem;          (* [Many] elements: one list per group *)
  nr_prompt_token_ids : list Z;
  nr_num_computed_tokens : Z;
  nr_kv_transfer_params : option (odict string config_value);
  nr_mm : list (string * (Z * Z));         (* identifiers and positions *)
}.

(** [RequestTracker.from_new_request], of the disaggregation object found for it *)
Definition from_new_request (r : NewRequestData) (num_tokens_to_compute lmcache_cached : Z)
    (skip : bool) (disagg : option disagg_ref) : result RequestTracker :=
  blocks ← match nr_block_ids r with
           | [] => Raise IndexError
           | One _ :: _ => Ok (nr_block_ids r)
           | Many bs :: _ => Ok (One <$> bs)
           end;
  mret (MkTracker (nr_req_id r) (lenZ (nr_prompt_token_ids r))
          (py_slice (nr_prompt_token_ids r) 0 num_tokens_to_compute) blocks lmcache_cached disagg
          (Some (nr_mm r).*1) (Some (nr_mm r).*2)
          (extract_request_configs (nr_kv_transfer_params r)) false skip lmcache_cached).

(** [RequestTracker.update] *)
Definition update (new_token_ids : list Z) (new_block_ids : block_ids) (preempted : bool)
    (lmcache_cached vllm_cached : Z) (all_token_ids : option (list Z)) : ST RequestTracker unit :=
  let new_blocks := update_block_ids new_block_ids in
  (if preempted then
     match all_token_ids with
     | None => st_raise AssertionError
     | Some all =>
         let num_computed_tokens := Z.max lmcache_cached vllm_cached in
         let num_tokens_needed := Z.max (num_computed_tokens + lenZ new_token_ids) lmcache_cached in
         st_modify (fun t => rt_with_tokens (py_slice all 0 num_tokens_needed)
           (rt_with_saved lmcache_cached (rt_with_blocks new_blocks t)))
     end
   else
     st_modify (fun t => rt_with_tokens (token_ids t ++ new_token_ids)
       (rt_with_blocks (allocated_block_ids t ++ new_blocks) t)));;
  if lenZ new_token_ids =? 1 then st_modify (rt_with_decode true) else mret tt.

(** [_hcu_update_with_block_table_guard] *)
Definition update_with_block_table_guard (new_token_ids : list Z) (new_block_ids : block_ids)
    (preempted : bool) (lmcache_cached vllm_cached : Z) (all_token_ids : option (list Z))
    : ST RequestTracker unit :=
  t ← st_get;
  let old_block_ids := Some (allocated_block_ids t) in
  let incoming_block_ids := _hcu_flatten_block_ids new_block_ids in
  update new_token_ids new_block_ids preempted lmcache_cached vllm_cached all_token_ids;;
  if preempted then mret tt
  else
    match incoming_block_ids with
    | None => mret tt
    | Some incoming =>
        if _hcu_same_block_prefix old_block_ids (Some incoming)
        then st_modify (rt_with_blocks incoming) else mret tt
    end.

(** ** The metadata of one step of a request *)

Record ReqMeta := MkReqMeta {
  rm_req_id : string;
  rm_token_ids : list Z;
  rm_slot_mapping : list Z;
  rm_is_last_prefill : bool;
  rm_save_spec : option SaveSpec;
  rm_load_spec : option LoadSpec;
  rm_disagg_spec : option disagg_ref;
  rm_request_configs : option (odict string config_value);
}.

(** [(block_offsets + block_ids * block_size).flatten()] *)
Definition block_slots (block_size : Z) (blocks : list Z) : list Z :=
  blocks ≫= fun b => rangeZ (b * block_size) (Z.to_nat block_size).

Section reqmeta.
Context (sha256_head : string -> Z * Z) (cdiv : Z -> Z -> Z).

Definition request_skip (configs : option (odict string config_value)) : bool :=
  match configs ≫= od_get "lmcache.skip_save" with Some v => truthy v | None => false end.

Definition skip_save_now (save_decode_cache : bool) (chunk_size : Z) (t : RequestTracker) : bool :=
  let chunk_boundary := cdiv (num_saved_tokens t + 1) chunk_size * chunk_size in
  match disagg_spec t with Some _ => false | None => true end
  && (skip_save t
      || ((0 <? num_saved_tokens t) && (lenZ (token_ids t) <? chunk_boundary))
      || (is_decode_phase t && negb save_decode_cache)
      || request_skip (request_configs t)).

(** [ReqMeta.from_request_tracker] *)
Definition from_request_tracker (block_size chunk_size : Z) (load_spec : option LoadSpec)
    (discard_partial_chunks save_decode_cache : bool) : ST RequestTracker (option ReqMeta) :=
  t ← st_get;
  let input_token_len := lenZ (token_ids t) in
  let is_last_prefill := prompt_len t <=? input_token_len in
  let skip_save := skip_save_now save_decode_cache chunk_size t in
  if skip_save && match load_spec with None => true | Some _ => false end then mret None
  else
    let num_tokens_to_save :=
      if negb is_last_prefill || discard_partial_chunks
      then input_token_len `div` chunk_size * chunk_size else input_token_len in
    (if negb skip_save then st_modify (rt_with_saved num_tokens_to_save) else mret tt);;
    let ids := py_slice (token_ids t) 0 num_tokens_to_save in
    ids ← st_lift (match mm_hashes t with
                   | Some (h :: hs) =>
                       match mm_positions t with
                       | None => Raise AssertionError
                       | Some ps => Ok (apply_mm_hashes_to_token_ids sha256_head ids (h :: hs) ps)
                       end
                   | _ => Ok ids
                   end);
    blocks ← st_lift (block_tensor (allocated_block_ids t));
    mret (Some (MkReqMeta (rt_req_id t) ids
      (py_slice (block_slots block_size blocks) 0 (lenZ ids)) is_last_prefill
      (Some (MkSaveSpec (num_saved_tokens t) (negb skip_save))) load_spec (disagg_spec t)
      (request_configs t))).

End reqmeta.

(** ** The connector *)

(** vLLM's request object *)
Record Request := MkRequest {
  request_id : string;
  num_tokens : Z;
  num_computed_tokens : Z;
  all_token_ids : list Z;
  prompt_token_ids : list Z;
  priority : Z;
  req_mm : list (string * (Z * Z));
  req_kv_transfer_params : option (odict string config_value);
  req_disagg : option (string * string * Z * Z);   (* req_id, host, init port, alloc port *)
  req_finished_aborted : bool;
  req_ret_first_tok : bool;
  _output_token_ids : list Z;
}.

(** What the connector calls of its lookup client, whose state is [L] *)
Class LookupClient (L : Type) := {
  supports_producer_reuse : bool;
  lookup_cache : string -> ST L (option Z);        (* -1: no result cached *)
  lookup : list Z -> string -> option (odict string config_value) -> ST L (option Z);
  clear_lookup_status : string -> ST L unit;
  cancel_lookup : string -> ST L unit;
}.

Record sched_config := SchedConfig {
  kv_role : string;
  _block_size : Z;
  _lmcache_chunk_size : Z;
  _discard_partial_chunks : bool;
  save_decode_cache : bool;
  skip_last_n_tokens : Z;
  min_retrieve_tokens : Z;
  priority_limit : option Z;
  cfg_force_skip_save : bool;
  async_loading : bool;
  enable_cache_usage_details_in_response : bool;
}.

Record sched_state {L : Type} := SchedState {
  load_specs : gmap string LoadSpec;
  _request_trackers : gmap string RequestTracker;
  _unfinished_requests : gset string;
  _requests_priority : gmap string Z;
  tmp_disagg_tracker : gmap string disagg_ref;
  disagg_specs : list DisaggSpec;                  (* the objects *)
  lookup_client : L;
}.
Arguments sched_state : clear implicits.

Section setters.
Context {L : Type}.
Implicit Types s : sched_state L.

Definition sc_with_load (m : gmap string LoadSpec) s := SchedState _ m (_request_trackers s)
  (_unfinished_requests s) (_requests_priority s) (tmp_disagg_tracker s) (disagg_specs s) (lookup_client s).
Definition sc_with_trackers (m : gmap string RequestTracker) s := SchedState _ (load_specs s) m
  (_unfinished_requests s) (_requests_priority s) (tmp_disagg_tracker s) (disagg_specs s) (lookup_client s).
Definition sc_with_unfinished (u : gset string) s := SchedState _ (load_specs s) (_request_trackers s)
  u (_requests_priority s) (tmp_disagg_tracker s) (disagg_specs s) (lookup_client s).
Definition sc_with_priority (m : gmap string Z) s := SchedState _ (load_specs s) (_request_trackers s)
  (_unfinished_requests s) m (tmp_disagg_tracker s) (disagg_specs s) (lookup_client s).
Definition sc_with_tmp (m : gmap string disagg_ref) s := SchedState _ (load_specs s) (_request_trackers s)
  (_unfinished_requests s) (_requests_priority s) m (disagg_specs s) (lookup_client s).
Definition sc_new_disagg (id : string) (d : DisaggSpec) s := SchedState _ (load_specs s)
  (_request_trackers s) (_unfinished_requests s) (_requests_priority s)
  (<[id := length (disagg_specs s)]> (tmp_disagg_tracker s)) (disagg_specs s ++ [d]) (lookup_client s).
Definition sc_with_client (c : L) s := SchedState _ (load_specs s) (_request_trackers s)
  (_unfinished_requests s) (_requests_priority s) (tmp_disagg_tracker s) (disagg_specs s) c.

Definition on_client {A} (m : ST L A) : ST (sched_state L) A := fun s =>
  let '(r, c) := m (lookup_client s) in (r, sc_with_client c s).

(** A method of the tracker of [id] *)
Definition on_tracker {A} (id : string) (m : ST RequestTracker A) : ST (sched_state L) A := fun s =>
  match _request_trackers s !! id with
  | None => (Raise KeyError, s)
  | Some t => let '(r, t') := m t in (r, sc_with_trackers (<[id := t']> (_request_trackers s)) s)
  end.

(** [self.load_specs.pop(id, None)] *)
Definition pop_load_spec (id : string) : ST (sched_state L) (option LoadSpec) := fun s =>
  (Ok (load_specs s !! id), sc_with_load (delete id (load_specs s)) s).

End setters.

Section connector.
Context {L : Type} `{!LookupClient L}.
Context (sha256_head : string -> Z * Z) (cdiv : Z -> Z -> Z).
Context (cfg : sched_config).
#[local] Abbreviation M := (ST (sched_state L)).

Definition is_mock (id : string) : bool := String.prefix "mock_req" id.

(** The tokens looked up: those of the request, multimodal ones hashed *)
Definition lookup_token_ids (r : Request) : list Z :=
  let ids := if is_nil (req_mm r) then all_token_ids r
             else apply_mm_hashes_to_token_ids sha256_head (prompt_token_ids r) (req_mm r).*1 (req_mm r).*2 in
  if 0 <? skip_last_n_tokens cfg then py_slice ids 0 (- skip_last_n_tokens cfg) else ids.

Definition external_hit_tokens (r : Request) : M (option Z) :=
  cached ← on_client (lookup_cache (request_id r));
  if bool_decide (cached = Some (-1)) then
    st_modify (fun s => sc_with_priority (<[request_id r := priority r]> (_requests_priority s)) s);;
    on_client (lookup (lookup_token_ids r) (request_id r)
                 (extract_request_configs (req_kv_transfer_params r)))
  else mret cached.

Definition get_num_new_matched_tokens (r : Request) (num_computed : Z) : M (option Z) :=
  if is_mock (request_id r) then mret (Some 0)
  else if String.eqb (kv_role cfg) "kv_producer" && negb supports_producer_reuse then mret (Some 0)
  else
    hit ← external_hit_tokens r;
    match hit with
    | None => mret None
    | Some num_external_hit_tokens =>
        let need_to_allocate := num_external_hit_tokens - num_computed
          - (if num_external_hit_tokens =? num_tokens r then 1 else 0) in
        let min_retrieve := min_retrieve_tokens cfg in
        let below_min_retrieve := (0 <? min_retrieve) && (need_to_allocate <? min_retrieve) in
        st_modify (fun s => sc_with_load
          (<[request_id r := MkLoadSpec num_computed num_external_hit_tokens false]> (load_specs s)) s);;
        mret (Some (if below_min_retrieve || (need_to_allocate <=? 0) then 0 else need_to_allocate))
    end.

Definition set_can_load (id : string) (l : LoadSpec) (b : bool) : M unit :=
  st_modify (fun s => sc_with_load
    (<[id := MkLoadSpec (vllm_cached_tokens l) (lmcache_cached_tokens l) b]> (load_specs s)) s).

Definition update_state_after_alloc (r : Request) (num_external_tokens : Z) : M unit :=
  on_client (clear_lookup_status (request_id r));;
  (match req_disagg r with
   | Some (id, host, init_port, alloc_port) =>
       st_modify (sc_new_disagg (request_id r)
         (MkDisaggSpec id (host +:+ str_int init_port) host init_port alloc_port false 0))
   | None => mret tt
   end);;
  st_modify (fun s => sc_with_unfinished ({[ request_id r ]} ∪ _unfinished_requests s) s);;
  s ← st_get;
  match load_specs s !! request_id r with
  | None => mret tt
  | Some l =>
      if num_external_tokens =? 0 then set_can_load (request_id r) l false
      else
        let recalc_last := if lmcache_cached_tokens l =? num_tokens r then 1 else 0 in
        st_lift (py_assert (num_external_tokens =? lmcache_cached_tokens l - vllm_cached_tokens l - recalc_last));;
        set_can_load (request_id r) l true
  end.

(** ** [build_connector_meta] *)

Inductive resumed_info : Type :=
  | ResumedIds (ids : list string)
  | ResumedFlags (flags : list bool)
  | NoResumedInfo.

(** A scheduled running request, before vLLM 0.9.2 *)
Record OldCachedRequest := MkOldCached {
  oc_req_id : string;
  oc_new_token_ids : list Z;
  oc_new_block_ids : block_ids;
  oc_resumed_from_preemption : bool;
}.

Inductive cached_requests : Type :=
  | OldCached (l : list OldCachedRequest)
  | CachedData (req_ids : list string) (new_block_ids : list block_ids) (resumed : resumed_info).

Record SchedulerOutput := MkSchedulerOutput {
  finished_req_ids : list string;
  scheduled_new_reqs : list NewRequestData;
  num_scheduled_tokens : gmap string Z;
  scheduled_cached_reqs : cached_requests;
}.

(** vLLM's objects of the unfinished requests, at the time of the call *)
Context (vllm : string -> Request).

Definition meta_of (id : string) (load_spec : option LoadSpec) : M (list ReqMeta) :=
  m ← on_tracker id (from_request_tracker sha256_head cdiv (_block_size cfg) (_lmcache_chunk_size cfg)
        load_spec (_discard_partial_chunks cfg) (save_decode_cache cfg));
  mret (match m with Some m => [m] | None => [] end).

Definition scheduled_tokens (out : SchedulerOutput) (id : string) : result Z :=
  result_of_option KeyError (num_scheduled_tokens out !! id).

Definition schedule_new (out : SchedulerOutput) (r : NewRequestData) : M (list ReqMeta) :=
  let id := nr_req_id r in
  if is_mock id then mret []
  else
    load_spec ← pop_load_spec id;
    n ← st_lift (scheduled_tokens out id);
    s ← st_get;
    let request_priority := default 0 (_requests_priority s !! id) in
    st_modify (fun s => sc_with_priority (delete id (_requests_priority s)) s);;
    let skip := (String.eqb (kv_role cfg) "kv_consumer" || cfg_force_skip_save cfg)
                || match priority_limit cfg with Some l => l <? request_priority | None => false end in
    let disagg := tmp_disagg_tracker s !! id in
    t ← (match nr_block_ids r with
         | [] => st_raise IndexError        (* before the disaggregation entry is popped *)
         | _ =>
             st_modify (fun s => sc_with_tmp (delete id (tmp_disagg_tracker s)) s);;
             st_lift (from_new_request r (nr_num_computed_tokens r + n)
               (match load_spec with Some l => lmcache_cached_tokens l | None => 0 end) skip disagg)
         end);
    st_modify (fun s => sc_with_trackers (<[id := t]> (_request_trackers s)) s);;
    meta_of id load_spec.

Definition load_counts (load_spec : option LoadSpec) : Z * Z :=
  match load_spec with
  | Some l => (lmcache_cached_tokens l, vllm_cached_tokens l)
  | None => (0, 0)
  end.

Definition schedule_old_cached (r : OldCachedRequest) : M (list ReqMeta) :=
  let id := oc_req_id r in
  load_spec ← pop_load_spec id;
  let '(lmcache_cached, vllm_cached) := load_counts load_spec in
  s ← st_get;
  match _request_trackers s !! id with None => st_raise KeyError | Some _ => mret tt end;;
  all ← (if oc_resumed_from_preemption r then
           if bool_decide (id ∈ _unfinished_requests s) then mret (Some (all_token_ids (vllm id)))
           else st_raise AssertionError
         else mret None);
  on_tracker id (update_with_block_table_guard (oc_new_token_ids r) (oc_new_block_ids r)
    (oc_resumed_from_preemption r) lmcache_cached vllm_cached all);;
  meta_of id load_spec.

Definition preempted_now (resumed : resumed_info) (i : nat) (id : string) : result bool :=
  match resumed with
  | ResumedIds ids => Ok (bool_decide (id ∈ ids))
  | ResumedFlags flags => result_of_option IndexError (flags !! i)
  | NoResumedInfo => Raise AttributeError
  end.

(** vLLM rolled the request back: the tracker forgets the tokens past it. *)
Definition roll_back (r : Request) : ST RequestTracker unit :=
  st_modify (fun t =>
    if num_computed_tokens r <? lenZ (token_ids t) then
      let num_token_slots := lenZ (allocated_block_ids t) * _block_size cfg in
      let tokens_to_keep := if num_token_slots <? num_computed_tokens r then num_token_slots
                            else num_computed_tokens r in
      rt_with_saved (Z.min (num_saved_tokens t) tokens_to_keep)
        (rt_with_tokens (py_slice (all_token_ids r) 0 tokens_to_keep) t)
    else t).

Definition schedule_cached (out : SchedulerOutput) (new_block_ids : list block_ids)
    (resumed : resumed_info) (i : nat) (id : string) : M (list ReqMeta) :=
  s ← st_get;
  match _request_trackers s !! id with None => st_raise KeyError | Some _ => mret tt end;;
  num_new_tokens ← st_lift (scheduled_tokens out id);
  if negb (bool_decide (id ∈ _unfinished_requests s)) then
    st_raise (ValueError "request is not in _unfinished_requests")
  else
    let r := vllm id in
    let num_current_tokens := num_computed_tokens r in
    let new_token_ids := py_slice (all_token_ids r) num_current_tokens (num_current_tokens + num_new_tokens) in
    blocks ← st_lift (result_of_option IndexError (new_block_ids !! i));
    load_spec ← pop_load_spec id;
    let '(lmcache_cached, vllm_cached) := load_counts load_spec in
    preempted ← st_lift (preempted_now resumed i id);
    (if preempted : bool then
       st_lift (py_assert (match load_spec with Some _ => true | None => false end));;
       st_lift (py_assert (num_computed_tokens r =? Z.max lmcache_cached vllm_cached))
     else mret tt);;
    on_tracker id (roll_back r);;
    on_tracker id (update_with_block_table_guard new_token_ids blocks preempted lmcache_cached vllm_cached
      (if preempted then Some (all_token_ids r) else None));;
    meta_of id load_spec.

(** The metadata of a list of requests, in order *)
Fixpoint collect {A} (f : nat -> A -> M (list ReqMeta)) (i : nat) (l : list A) : M (list ReqMeta) :=
  match l with
  | [] => mret []
  | x :: l => m ← f i x; ms ← collect f (S i) l; mret (m ++ ms)
  end.

Definition forget_finished (ids : list string) (s : sched_state L) : sched_state L :=
  foldl (fun s id => sc_with_unfinished (_unfinished_requests s ∖ {[ id ]})
                       (sc_with_trackers (delete id (_request_trackers s)) s)) s ids.

Definition build_connector_meta (out : SchedulerOutput) : M (list ReqMeta) :=
  st_modify (forget_finished (finished_req_ids out));;
  new ← collect (fun _ => schedule_new out) 0 (scheduled_new_reqs out);
  cached ← match scheduled_cached_reqs out with
           | OldCached l => collect (fun _ => schedule_old_cached) 0 l
           | CachedData ids blocks resumed => collect (schedule_cached out blocks resumed) 0 ids
           end;
  mret (new ++ cached).

(** [request_finished]: whether vLLM must keep the blocks, and the response's parameters *)
Definition request_finished (r : Request) : M (bool * option (odict string Z)) :=
  (if req_finished_aborted r && async_loading cfg then on_client (cancel_lookup (request_id r)) else mret tt);;
  return_params ← (if req_ret_first_tok r then
                     tok ← st_lift (py_index (_output_token_ids r) 0);
                     mret (Some [("first_tok", tok)])
                   else mret None);
  s ← st_get;
  mret (false,
    if enable_cache_usage_details_in_response cfg then
      match _request_trackers s !! request_id r with
      | Some t => Some (od_set "num_lmcache_cached_tokens" (num_lmcache_cached_tokens t) (default [] return_params))
      | None => return_params
      end
    else return_params).

End connector.

(** ** Slots and saves *)

Lemma block_slots_length bs blocks :
  0 <= bs -> lenZ (block_slots bs blocks) = bs * lenZ blocks.
Proof.
  intros Hbs. unfold block_slots. induction blocks as [|b blocks IH]; [unfold lenZ; simpl; lia|].
  rewrite bind_cons, lenZ_app, IH, lenZ_cons. unfold lenZ at 1. rewrite length_rangeZ. lia.
Qed.

(** Token [i] lives in slot [i mod bs] of block [i / bs] of the table. *)
Lemma block_slots_lookup bs blocks i b :
  0 < bs -> 0 <= i -> blocks !! Z.to_nat (i / bs) = Some b ->
  block_slots bs blocks !! Z.to_nat i = Some (b * bs + i mod bs).
Proof.
  intros Hbs. revert i. unfold block_slots. induction blocks as [|b0 blocks IH]; intros i Hi; [done|].
  rewrite bind_cons. destruct (decide (i < bs)) as [Hlt|Hge].
  - rewrite Z.div_small, Z.mod_small by lia. intros [= ->].
    rewrite lookup_app_l by (rewrite length_rangeZ; lia).
    rewrite lookup_rangeZ by lia. f_equal. lia.
  - replace (i / bs) with (1 + (i - bs) / bs) by (rewrite <- Z.div_add_l by lia; f_equal; lia).
    assert (0 <= (i - bs) / bs) by (apply Z.div_pos; lia).
    rewrite Z2Nat.inj_add by lia. simpl. intros Hb.
    rewrite lookup_app_r by (rewrite length_rangeZ; lia). rewrite length_rangeZ.
    replace (Z.to_nat i - Z.to_nat bs)%nat with (Z.to_nat (i - bs)) by lia.
    rewrite (IH (i - bs)) by (done || lia). do 2 f_equal.
    rewrite <- (Z_mod_plus_full (i - bs) 1 bs). f_equal. lia.
Qed.

Lemma block_tensor_one blocks : block_tensor (One <$> blocks) = Ok blocks.
Proof.
  unfold block_tensor. replace (mapM _ (One <$> blocks)) with (Some blocks); [done|].
  symmetry. apply mapM_Some. induction blocks; constructor; done.
Qed.

Section tracker_facts.
Context (sha256_head : string -> Z * Z) (cdiv : Z -> Z -> Z).
(** [lmcache.utils.cdiv] rounds up. *)
Hypothesis Hcdiv : forall a b, 0 < b -> cdiv a b = (a + b - 1) `div` b.

Lemma cdiv_next n c : 0 < c -> cdiv (n + 1) c * c = (n `div` c + 1) * c.
Proof.
  intros Hc. rewrite Hcdiv by done. f_equal. replace (n + 1 + c - 1) with (n + 1 * c) by lia.
  by rewrite Z_div_plus_full by lia.
Qed.

Lemma overwrite_length a b v ids : length (overwrite a b v ids) = length ids.
Proof. unfold overwrite. apply length_imap. Qed.

Lemma apply_mm_length ids hs ps :
  length (apply_mm_hashes_to_token_ids sha256_head ids hs ps) = length ids.
Proof.
  unfold apply_mm_hashes_to_token_ids. generalize (lenZ ids) as n. intros n.
  generalize (zip hs ps) as l. intros l. revert ids.
  induction l as [|[h [a b]] l IH]; intros ids; [done|]. simpl. rewrite IH.
  destruct (n <=? a); [done|]. apply overwrite_length.
Qed.

(** The tokens of the metadata *)
Definition hashed (t : RequestTracker) (ids : list Z) : list Z :=
  match mm_hashes t with
  | Some (h :: hs) => apply_mm_hashes_to_token_ids sha256_head ids (h :: hs) (default [] (mm_positions t))
  | _ => ids
  end.

Definition save_end (chunk_size : Z) (discard : bool) (t : RequestTracker) : Z :=
  if negb (prompt_len t <=? lenZ (token_ids t)) || discard
  then lenZ (token_ids t) `div` chunk_size * chunk_size else lenZ (token_ids t).

Lemma save_end_bounds c discard t :
  0 < c -> lenZ (token_ids t) `div` c * c <= save_end c discard t <= lenZ (token_ids t).
Proof.
  intros Hc. unfold save_end. pose proof (lenZ_nonneg (token_ids t)).
  assert (lenZ (token_ids t) `div` c * c <= lenZ (token_ids t)) by (rewrite Z.mul_comm; by apply Z.mul_div_le).
  destruct (_ || _); lia.
Qed.

(** [from_request_tracker], case by case *)
Lemma from_tracker_eq bs c load discard decode t o t' :
  from_request_tracker sha256_head cdiv bs c load discard decode t = (Ok o, t') ->
  let skip := skip_save_now cdiv decode c t in
  match o with
  | None => t' = t /\ skip = true /\ load = None
  | Some m =>
      t' = (if skip then t else rt_with_saved (save_end c discard t) t) /\
      exists blocks, block_tensor (allocated_block_ids t) = Ok blocks /\
      rm_token_ids m = hashed t (py_slice (token_ids t) 0 (save_end c discard t)) /\
      rm_slot_mapping m = py_slice (block_slots bs blocks) 0 (lenZ (rm_token_ids m)) /\
      rm_save_spec m = Some (MkSaveSpec (num_saved_tokens t) (negb skip)) /\
      rm_load_spec m = load
  end.
Proof.
  unfold from_request_tracker, mbind, ST_bind, st_get. cbn zeta beta iota.
  fold (save_end c discard t). unfold st_lift, st_modify.
  destruct (skip_save_now cdiv decode c t) eqn:Es; cbn [negb andb mret ST_ret].
  1: destruct load as [load|]; [|by intros [= <- <-]].
  all: destruct (match mm_hashes t with Some (_ :: _) => _ | _ => _ end) as [ids|e] eqn:Eids; [|done];
    destruct (block_tensor (allocated_block_ids t)) as [blocks|e] eqn:Eb; [|done];
    intros [= <- <-]; split; [done|]; exists blocks; split; [done|]; split; [|done];
    unfold hashed; cbn [rm_token_ids];
    destruct (mm_hashes t) as [[|h hs]|]; [by injection Eids| |by injection Eids];
    (destruct (mm_positions t); [by injection Eids as <-|done]).
Qed.

Lemma hashed_length t ids : length (hashed t ids) = length ids.
Proof. unfold hashed. destruct (mm_hashes t) as [[|h hs]|]; [done| |done]. apply apply_mm_length. Qed.

Lemma saved_slice c discard t :
  0 < c -> 0 <= save_end c discard t /\
  lenZ (hashed t (py_slice (token_ids t) 0 (save_end c discard t))) = save_end c discard t.
Proof.
  intros Hc. pose proof (save_end_bounds c discard t Hc) as [Hlo Hhi].
  assert (0 <= lenZ (token_ids t) `div` c * c).
  { apply Z.mul_nonneg_nonneg; [|lia]. apply Z.div_pos; [apply lenZ_nonneg|done]. }
  split; [lia|]. unfold lenZ at 1. rewrite hashed_length. fold (lenZ (py_slice (token_ids t) 0 (save_end c discard t))).
  rewrite py_slice_length; lia.
Qed.

(** The flags of a request that forbid every save *)
Definition never_saved (save_decode : bool) (t : RequestTracker) : bool :=
  skip_save t || (is_decode_phase t && negb save_decode) || request_skip (request_configs t).

(** C34: one step's metadata saves exactly the tokens from where the last save ended to
    its own end, nothing is saved twice, and unless the request must not be saved every
    full chunk of the tokens so far is saved after the step. The request has no [disagg_spec],
    and the span is that of the metadata: the worker aligns its start to a chunk. *)
Theorem saves_contiguous bs c load discard decode t o t' :
  0 < c -> disagg_spec t = None -> 0 <= num_saved_tokens t ->
  from_request_tracker sha256_head cdiv bs c load discard decode t = (Ok o, t') ->
  num_saved_tokens t <= num_saved_tokens t' /\
  (never_saved decode t = false -> lenZ (token_ids t) `div` c * c <= num_saved_tokens t') /\
  match o ≫= rm_save_spec with
  | Some (MkSaveSpec skip true) =>
      skip = num_saved_tokens t /\ num_saved_tokens t' = lenZ (default [] (rm_token_ids <$> o))
  | _ => num_saved_tokens t' = num_saved_tokens t
  end.
Proof.
  intros Hc Hd Hn H%from_tracker_eq. cbn zeta in H. destruct (saved_slice c discard t Hc) as [Hpos Hlen].
  pose proof (save_end_bounds c discard t Hc) as [Hlo Hhi].
  assert (skip_save_now cdiv decode c t = false -> num_saved_tokens t <= save_end c discard t) as Hno.
  { unfold skip_save_now. rewrite Hd, cdiv_next by done. intros Hs; bool_prop.
    destruct (decide (num_saved_tokens t = 0)) as [->|]; [lia|].
    match goal with H : _ \/ _ |- _ => destruct H as [H|H]; bool_prop; [lia|] end.
    assert ((num_saved_tokens t `div` c + 1) * c <= lenZ (token_ids t) `div` c * c); [|div_lia].
    apply Z.mul_le_mono_nonneg_r; [lia|]. apply Z.div_le_lower_bound; lia. }
  assert (skip_save_now cdiv decode c t = true -> never_saved decode t = false ->
    lenZ (token_ids t) `div` c * c <= num_saved_tokens t) as Hyes.
  { unfold skip_save_now, never_saved. rewrite Hd, cdiv_next by done. intros Hs [[H1 H2]%orb_false_iff H3]%orb_false_iff.
    rewrite H1, H2, H3, !orb_false_r in Hs. cbn [andb orb] in Hs. bool_prop.
    assert (lenZ (token_ids t) `div` c < num_saved_tokens t `div` c + 1) by (apply Z.div_lt_upper_bound; lia).
    transitivity (num_saved_tokens t `div` c * c); [apply Z.mul_le_mono_nonneg_r; lia|div_lia]. }
  destruct o as [m|].
  - destruct H as (-> & blocks & _ & Hids & _ & Hspec & _). change (default [] (rm_token_ids <$> Some m)) with (rm_token_ids m).
    change (Some m ≫= rm_save_spec) with (rm_save_spec m). rewrite Hspec. destruct (skip_save_now cdiv decode c t) eqn:Es; cbn [negb].
    + split; [done|]. split; [by apply Hyes|done].
    + cbn [num_saved_tokens rt_with_saved]. rewrite Hids, Hlen. split; [by apply Hno|]. done.
  - destruct H as (-> & Hs & _). split; [done|]. split; [by apply Hyes|done].
Qed.

(** Every token of a step's metadata is given the slot of its position in the
    request's block table, as many slots as tokens unless the table is too short. *)
Theorem reqmeta_slots bs c load discard decode t blocks m t' :
  0 < bs -> 0 < c -> allocated_block_ids t = One <$> blocks ->
  from_request_tracker sha256_head cdiv bs c load discard decode t = (Ok (Some m), t') ->
  lenZ (rm_slot_mapping m) = Z.min (lenZ (rm_token_ids m)) (bs * lenZ blocks) /\
  forall i, 0 <= i < lenZ (rm_slot_mapping m) ->
    exists b, blocks !! Z.to_nat (i / bs) = Some b /\
      rm_slot_mapping m !! Z.to_nat i = Some (b * bs + i mod bs).
Proof.
  intros Hbs Hc Hblocks (_ & bl & Hb & _ & Hs & _)%from_tracker_eq.
  rewrite Hblocks, block_tensor_one in Hb. injection Hb as <-.
  pose proof (block_slots_length bs blocks ltac:(lia)) as Hl. pose proof (lenZ_nonneg (rm_token_ids m)) as Hids.
  assert (rm_slot_mapping m = take (length (rm_token_ids m)) (block_slots bs blocks)) as ->.
  { rewrite Hs. unfold py_slice, slice_bound, lenZ. rewrite (proj2 (Z.ltb_ge _ _)) by lia.
    simpl. rewrite Nat2Z.id, drop_0. destruct (decide (length (rm_token_ids m) <= length (block_slots bs blocks))%nat).
    - f_equal. lia.
    - rewrite !take_ge by lia. done. }
  split; [unfold lenZ in *; rewrite length_take; lia|]. intros i Hi.
  unfold lenZ in Hi. rewrite length_take in Hi.
  assert (i < bs * lenZ blocks) as Hib by (unfold lenZ in *; lia).
  assert (0 <= i / bs < lenZ blocks) as Hd.
  { split; [apply Z.div_pos; lia|]. apply Z.div_lt_upper_bound; lia. }
  destruct (lookup_lt_is_Some_2 blocks (Z.to_nat (i / bs))) as [b Hb]; [unfold lenZ in Hd; lia|].
  exists b. split; [done|]. rewrite lookup_take_lt by lia. by apply block_slots_lookup; [|lia|].
Qed.

End tracker_facts.

(** ** The block table and the tokens of a tracker *)

(** vLLM reports a table that grew from [old] to [full]: as what is new, or whole. *)
Inductive reported (old full : list Z) : block_ids -> Prop :=
  | reported_none : full = old -> reported old full NoBlocks
  | reported_empty : full = old -> reported old full (BlockTuple [])
  | reported_new new groups : full = old ++ new -> reported old full (BlockTuple (new :: groups))
  | reported_full rest groups : full = old ++ rest -> reported old full (BlockTuple (full :: groups))
  | reported_new_list new : full = old ++ new -> reported old full (BlockList (One <$> new))
  | reported_full_list rest : full = old ++ rest -> reported old full (BlockList (One <$> full)).

Lemma flatten_ones (l : list Z) : (One <$> l) ≫= flatten_elem = l.
Proof. induction l as [|x l IH]; [done|]. rewrite fmap_cons, bind_cons, IH. done. Qed.

Lemma all_equal_prefix (old l : list Z) :
  (length old <= length l)%nat -> all_equal (One <$> old) (One <$> l) = true <-> old `prefix_of` l.
Proof.
  revert l. induction old as [|x old IH]; intros [|y l] Hl; simpl in *; [| |lia|].
  - split; [intros _; apply prefix_nil|done].
  - split; [intros _; apply prefix_nil|done].
  - rewrite andb_true_iff, bool_decide_eq_true, IH by lia. split.
    + intros [[= ->] H]. by apply prefix_cons.
    + intros H. pose proof (prefix_cons_inv_1 _ _ _ _ H) as ->.
      split; [done|]. by apply prefix_cons_inv_2 in H.
Qed.

Lemma same_prefix_iff (old l : list Z) :
  _hcu_same_block_prefix (Some (One <$> old)) (Some (One <$> l)) = bool_decide (old `prefix_of` l).
Proof.
  unfold _hcu_same_block_prefix. rewrite !length_fmap. apply eq_true_iff_eq.
  rewrite bool_decide_eq_true, andb_true_iff, negb_true_iff, Nat.ltb_ge. split.
  - intros [Hl H]. by apply all_equal_prefix in H.
  - intros H. pose proof (prefix_length _ _ H). split; [done|]. by apply all_equal_prefix.
Qed.

(** Replacing by an authoritative table and appending what is new agree. *)
Lemma guarded_blocks (old l full : list Z) :
  NoDup full -> full = old ++ l \/ (l = full /\ old `prefix_of` full) ->
  (if bool_decide (old `prefix_of` l) then One <$> l else (One <$> old) ++ (One <$> l)) = One <$> full.
Proof.
  intros Hnd [->|[-> Hp]].
  - case_bool_decide as Hp; [|by rewrite fmap_app]. destruct old as [|x old]; [done|].
    destruct Hp as [l' ->]. simpl in Hnd. apply list.NoDup_cons in Hnd as [Hnd _].
    destruct Hnd. set_solver.
  - by rewrite bool_decide_true.
Qed.

Lemma guarded_update old full inc new_tokens b l v all t :
  NoDup full -> allocated_block_ids t = One <$> old ->
  update_block_ids b = One <$> inc -> _hcu_flatten_block_ids b = Some (One <$> inc) ->
  full = old ++ inc \/ (inc = full /\ old `prefix_of` full) ->
  exists t', update_with_block_table_guard new_tokens b false l v all t = (Ok tt, t') /\
    allocated_block_ids t' = One <$> full /\ token_ids t' = token_ids t ++ new_tokens.
Proof.
  intros Hnd Ht Hup Hfl Hor. apply (guarded_blocks old inc full Hnd) in Hor.
  unfold update_with_block_table_guard, update, mbind, ST_bind, st_get, st_modify.
  cbn beta iota zeta. rewrite Ht, Hup, Hfl, same_prefix_iff.
  destruct (lenZ new_tokens =? 1), (bool_decide (old `prefix_of` inc)); cbn [mret ST_ret];
    eexists; (split; [done|]); simpl; done.
Qed.

(** Whichever way vLLM reports a grown block table, as its new blocks or as the whole
    table, the guarded update leaves the tracker with the whole table, each block once. *)
Theorem block_table_guarded old full new_tokens b l v all t :
  NoDup full -> reported old full b -> allocated_block_ids t = One <$> old ->
  exists t', update_with_block_table_guard new_tokens b false l v all t = (Ok tt, t') /\
    allocated_block_ids t' = One <$> full /\ token_ids t' = token_ids t ++ new_tokens.
Proof.
  intros Hnd Hb Ht. destruct Hb as [->| ->|new groups Hf|rest groups Hf|new Hf|rest Hf].
  - unfold update_with_block_table_guard, update, mbind, ST_bind, st_get, st_modify. simpl.
    rewrite Ht, app_nil_r. destruct (_ =? 1); eexists; done.
  - apply (guarded_update old old []); try done. left. by rewrite app_nil_r.
  - apply (guarded_update old full new); try done. by left.
  - apply (guarded_update old full full); try done. right. split; [done|]. by exists rest.
  - apply (guarded_update old full new); try done; [|by left]. simpl. by rewrite flatten_ones.
  - apply (guarded_update old full full); try done; [simpl; by rewrite flatten_ones|].
    right. split; [done|]. by exists rest.
Qed.

Lemma py_slice_take {A} (l : list A) n : 0 <= n <= lenZ l -> py_slice l 0 n = take (Z.to_nat n) l.
Proof. intros Hn. rewrite py_slice_eq by lia. by rewrite Z.sub_0_r, drop_0. Qed.

Lemma take_slice (l : list Z) k n :
  0 <= k -> 0 <= n -> k + n <= lenZ l ->
  take (Z.to_nat k) l ++ py_slice l k (k + n) = take (Z.to_nat (k + n)) l.
Proof.
  intros Hk Hn Hl. rewrite py_slice_eq by lia. replace (k + n - k) with n by lia.
  rewrite take_take_drop. f_equal. lia.
Qed.

Lemma update_guard_tokens new b pre l v all t t' :
  update_with_block_table_guard new b pre l v all t = (Ok tt, t') ->
  token_ids t' = (if pre then py_slice (default [] all) 0 (Z.max (Z.max l v + lenZ new) l)
                  else token_ids t ++ new) /\
  num_saved_tokens t' = (if pre then l else num_saved_tokens t).
Proof.
  unfold update_with_block_table_guard, update, mbind, ST_bind, st_get, st_modify. cbn beta iota zeta.
  destruct pre.
  - destruct all as [all|]; [|done]. destruct (_ =? 1); by intros [= <-].
  - destruct (_ =? 1), (_hcu_flatten_block_ids b) as [inc|]; try destruct (_hcu_same_block_prefix _ _); by intros [= <-].
Qed.

(** When vLLM schedules a running request again, rolled back, preempted or neither,
    the tracker holds exactly the request's first computed and scheduled tokens, and
    counts none of the tokens vLLM took back as saved. *)
Theorem tracker_follows_request cfg r t b (preempted : bool) l v n t' :
  let k := num_computed_tokens r in
  0 <= k -> 0 <= n -> k + n <= lenZ (all_token_ids r) ->
  (if preempted then k = Z.max l v
   else token_ids t `prefix_of` all_token_ids r /\ k <= lenZ (token_ids t) /\
        (k < lenZ (token_ids t) -> k <= lenZ (allocated_block_ids t) * _block_size cfg)) ->
  (roll_back cfg r;;
   update_with_block_table_guard (py_slice (all_token_ids r) k (k + n)) b preempted l v
     (if preempted then Some (all_token_ids r) else None)) t = (Ok tt, t') ->
  token_ids t' = take (Z.to_nat (k + n)) (all_token_ids r) /\
  num_saved_tokens t' = (if preempted then l
    else if k <? lenZ (token_ids t) then Z.min (num_saved_tokens t) k else num_saved_tokens t).
Proof.
  cbn zeta. set (k := num_computed_tokens r). set (all := all_token_ids r). intros Hk Hn Hl Hpre.
  unfold mbind, ST_bind, roll_back, st_modify. fold k all. intros H%update_guard_tokens.
  destruct H as [Ht Hs]. destruct preempted.
  - cbn [default] in Ht. rewrite Ht, Hs. split; [|done].
    rewrite py_slice_length by lia. replace (Z.max (Z.max l v + (k + n - k)) l) with (k + n) by lia.
    apply py_slice_take. lia.
  - destruct Hpre as (Hp & Hle & Hslots). rewrite Ht, Hs.
    destruct (k <? lenZ (token_ids t)) eqn:E; bool_prop; cbn [token_ids num_saved_tokens rt_with_saved rt_with_tokens].
    + rewrite (proj2 (Z.ltb_ge _ _)) by (apply Hslots; lia). split; [|done].
      rewrite py_slice_take by lia. by apply take_slice.
    + split; [|done]. destruct Hp as [rest Hall].
      assert (token_ids t = take (Z.to_nat k) all) as ->; [|by apply take_slice].
      rewrite Hall, take_app_length' by (unfold lenZ in *; lia). done.
Qed.

Section protocol.
Context {L : Type} `{!LookupClient L}.
Context (sha256_head : string -> Z * Z) (cfg : sched_config).
Hypothesis Hclear : forall id c, exists c', clear_lookup_status (L := L) id c = (Ok tt, c').

Lemma update_state_after_alloc_eq r n (s : sched_state L) :
  match load_specs s !! request_id r with
  | Some l => n = 0 \/ n = lmcache_cached_tokens l - vllm_cached_tokens l
                - (if lmcache_cached_tokens l =? num_tokens r then 1 else 0)
  | None => True
  end ->
  exists s', update_state_after_alloc r n s = (Ok tt, s') /\
    request_id r ∈ _unfinished_requests s' /\
    load_specs s' !! request_id r =
      (fun l => MkLoadSpec (vllm_cached_tokens l) (lmcache_cached_tokens l) (negb (n =? 0)))
        <$> load_specs s !! request_id r.
Proof.
  intros Hn. unfold update_state_after_alloc, mbind, ST_bind, on_client.
  destruct (Hclear (request_id r) (lookup_client s)) as [c ->]. cbn beta iota.
  set (s1 := sc_with_client c s).
  assert (exists s2, match req_disagg r with
      | Some (id, host, init_port, alloc_port) => st_modify (sc_new_disagg (request_id r)
         (MkDisaggSpec id (host +:+ str_int init_port) host init_port alloc_port false 0))
      | None => mret tt end s1 = (Ok tt, s2) /\ load_specs s2 = load_specs s) as (s2 & -> & Hs2).
  { destruct (req_disagg r) as [[[[id host] p] a]|]; by eexists. }
  cbn beta iota. unfold st_modify, st_get. cbn [load_specs sc_with_unfinished]. rewrite Hs2.
  destruct (load_specs s !! request_id r) as [l|] eqn:El.
  - destruct (n =? 0) eqn:E; bool_prop.
    + eexists. split; [done|]. simpl. split; [set_solver|]. by rewrite lookup_insert_eq.
    + destruct Hn as [|Hn]; [done|]. rewrite (proj2 (Z.eqb_eq _ _) Hn). cbn. 
      eexists. split; [done|]. simpl. split; [set_solver|]. by rewrite lookup_insert_eq.
  - eexists. split; [done|]. simpl. split; [set_solver|]. by rewrite Hs2, El.
Qed.

(** When vLLM allocates what [get_num_new_matched_tokens] promised, the connector
    accepts it without a failed assertion and the request loads exactly when the promise
    was positive: the tokens found, less those vLLM has, less the last token of a
    complete hit. *)
Theorem promised_tokens_accepted r computed (s : sched_state L) n s1 :
  get_num_new_matched_tokens sha256_head cfg r computed s = (Ok (Some n), s1) ->
  exists s2, update_state_after_alloc r n s1 = (Ok tt, s2) /\
    request_id r ∈ _unfinished_requests s2 /\ 0 <= n /\
    match load_specs s2 !! request_id r with
    | Some l => (can_load l = true <-> 0 < n) /\
        (0 < n -> vllm_cached_tokens l = computed /\
           n = lmcache_cached_tokens l - computed
               - (if lmcache_cached_tokens l =? num_tokens r then 1 else 0))
    | None => n = 0
    end.
Proof.
  assert (forall s1, exists s2, update_state_after_alloc r 0 s1 = (Ok tt, s2) /\
    request_id r ∈ _unfinished_requests s2 /\ 0 <= 0 /\
    match load_specs s2 !! request_id r with
    | Some l => (can_load l = true <-> 0 < 0) /\
        (0 < 0 -> vllm_cached_tokens l = computed /\
           0 = lmcache_cached_tokens l - computed
               - (if lmcache_cached_tokens l =? num_tokens r then 1 else 0))
    | None => 0 = 0
    end) as Hzero.
  { intros s0. destruct (update_state_after_alloc_eq r 0 s0) as (s2 & Hu & Hin & Hl).
    { destruct (load_specs s0 !! request_id r); [by left|done]. }
    exists s2. split; [done|]. split; [done|]. split; [done|]. rewrite Hl.
    destruct (load_specs s0 !! request_id r); [|done]. simpl. split; [split; [done|lia]|lia]. }
  unfold get_num_new_matched_tokens. destruct (is_mock _); [intros [= <- <-]; apply Hzero|].
  destruct (_ && _); [intros [= <- <-]; apply Hzero|].
  unfold mbind, ST_bind. destruct (external_hit_tokens _ _ _ s) as [[[hit|]|e] s0]; [|done|done].
  unfold st_modify. cbn zeta. set (need := hit - computed - _).
  destruct (_ || (need <=? 0)) eqn:E; intros [= <- <-]; [apply Hzero|]. bool_prop.
  destruct (update_state_after_alloc_eq r need (sc_with_load
    (<[request_id r:=MkLoadSpec computed hit false]> (load_specs s0)) s0)) as (s2 & Hu & Hin & Hl).
  { simpl. rewrite lookup_insert_eq. by right. }
  exists s2. split; [done|]. split; [done|]. split; [lia|]. rewrite Hl. simpl. rewrite lookup_insert_eq. simpl.
  rewrite (proj2 (Z.eqb_neq need 0)) by lia. split; [split; [lia|done]|]. done.
Qed.

End protocol.

(** ** A concrete request *)

Module SchedulerExamples.

Definition cdiv (a b : Z) : Z := (a + b - 1) `div` b.
Definition sha (s : string) : Z * Z := (0, 0).

Lemma cdiv_ok a b : 0 < b -> cdiv a b = (a + b - 1) `div` b.
Proof. done. Qed.

(** 40 tokens in three blocks of 16, chunks of 16, nothing saved *)
Definition tracker : RequestTracker :=
  MkTracker "req" 40 (rangeZ 100 40) (One <$> [7; 3; 9]) 0 None (Some []) (Some []) None false false 0.

(** The image at positions 2 to 4 is hashed; the first 32 tokens are saved. *)
Example image_hashed :
  (fun t => rm_token_ids <$> default None (match t with (Ok m, _) => Some m | _ => None end))
    (from_request_tracker sha cdiv 16 16 None true false
      (MkTracker "req" 40 (rangeZ 100 40) (One <$> [7; 3; 9]) 0 None (Some ["0x1BEEF"]) (Some [(2, 2)]) None
         false false 0))
  = Some ([100; 101; 48879; 48879] ++ rangeZ 104 28).
Proof. by vm_compute. Qed.

Definition step := from_request_tracker sha cdiv 16 16 None true false tracker.

Lemma saves_contiguous_witness :
  (exists m t', step = (Ok (Some m), t') /\ num_saved_tokens t' = 32) /\
  0 <= num_saved_tokens step.2.
Proof.
  assert (exists o t', step = (Ok o, t') /\ is_Some o /\ num_saved_tokens t' = 32) as (o & t' & E & [m Hm] & Hs)
    by (eexists _, _; split; [by vm_compute|split; [by eexists|by vm_compute]]).
  pose proof (saves_contiguous sha cdiv cdiv_ok 16 16 None true false tracker o t'
    ltac:(lia) eq_refl ltac:(by vm_compute) E) as (H & _ & _).
  split; [exists m, t'; by rewrite E, Hm|]. rewrite E. exact H.
Defined.

Lemma reqmeta_slots_witness :
  exists m t', step = (Ok (Some m), t') /\ lenZ (rm_slot_mapping m) = 32 /\
    rm_slot_mapping m !! Z.to_nat 20 = Some (3 * 16 + 4).
Proof.
  assert (exists m t', step = (Ok (Some m), t') /\ lenZ (rm_token_ids m) = 32) as (m & t' & E & Hm)
    by (eexists _, _; split; [by vm_compute|by vm_compute]).
  destruct (reqmeta_slots sha cdiv 16 16 None true false tracker [7; 3; 9] m t'
    ltac:(lia) ltac:(lia) eq_refl E) as [Hlen Hslots].
  exists m, t'. split; [done|]. rewrite Hm in Hlen. split; [by rewrite Hlen|].
  destruct (Hslots 20) as (b & Hb & Hs); [rewrite Hlen; split; [lia|by vm_compute]|].
  vm_compute in Hb. injection Hb as <-. exact Hs.
Defined.

(** The table [7; 3; 9] grew by block 5. *)
Lemma block_table_guarded_witness :
  exists t1 t2,
    update_with_block_table_guard [140] (BlockTuple [[5]]) false 0 0 None tracker = (Ok tt, t1) /\
    update_with_block_table_guard [140] (BlockTuple [[7; 3; 9; 5]]) false 0 0 None tracker = (Ok tt, t2) /\
    allocated_block_ids t1 = One <$> [7; 3; 9; 5] /\ allocated_block_ids t2 = One <$> [7; 3; 9; 5].
Proof.
  assert (NoDup [7; 3; 9; 5]) as Hnd by (by refine (bool_decide_unpack _ _); vm_compute).
  destruct (block_table_guarded [7; 3; 9] [7; 3; 9; 5] [140] _ 0 0 None tracker Hnd
    (reported_new [7; 3; 9] [7; 3; 9; 5] [5] [] eq_refl) eq_refl) as (t1 & H1 & Hb1 & _).
  destruct (block_table_guarded [7; 3; 9] [7; 3; 9; 5] [140] _ 0 0 None tracker Hnd
    (reported_full [7; 3; 9] [7; 3; 9; 5] [5] [] eq_refl) eq_refl) as (t2 & H2 & Hb2 & _).
  by exists t1, t2.
Defined.

(** An empty table and nested ids: the guard keeps the nested list that was flattened. *)
Example nested_ids_kept :
  (fun r => allocated_block_ids r.2)
    (update_with_block_table_guard [] (BlockList [Many [4; 5]]) false 0 0 None (rt_with_blocks [] tracker))
  = [Many [4; 5]].
Proof. by vm_compute. Qed.

Definition request (computed : Z) : Request :=
  MkRequest "req" 60 computed (rangeZ 100 60) (rangeZ 100 40) 0 [] None None false false [].

Definition config : sched_config := SchedConfig "kv_both" 16 16 true false 0 0 None false false false.

(** vLLM rolled back from 40 to 32 tokens and schedules 4. *)
Lemma tracker_follows_request_witness :
  exists t', (roll_back config (request 32);;
    update_with_block_table_guard (py_slice (rangeZ 100 60) 32 (32 + 4)) NoBlocks false 0 0 None) tracker = (Ok tt, t') /\
  token_ids t' = rangeZ 100 36.
Proof.
  destruct ((roll_back config (request 32);;
    update_with_block_table_guard (py_slice (rangeZ 100 60) 32 (32 + 4)) NoBlocks false 0 0 None) tracker) as [r t'] eqn:E.
  assert (r = Ok tt) as -> by (apply (f_equal fst) in E; by vm_compute in E).
  exists t'. split; [done|].
  assert (token_ids tracker `prefix_of` all_token_ids (request 32)) as Hp by (by exists (rangeZ 140 20); vm_compute).
  refine (proj1 (tracker_follows_request config (request 32) tracker NoBlocks false 0 0 4 t' _ _ _ _ E));
    [done|done|by vm_compute|]. split; [exact Hp|]. split; [by vm_compute|by vm_compute].
Defined.

(** A client that finds 48 tokens *)
#[local] Instance client : LookupClient unit := {
  supports_producer_reuse := false;
  lookup_cache _ := mret (Some (-1));
  lookup _ _ _ := mret (Some 48);
  clear_lookup_status _ := mret tt;
  cancel_lookup _ := mret tt;
}.

Definition start : sched_state unit := SchedState _ ∅ ∅ ∅ ∅ ∅ [] tt.

Lemma promised_tokens_accepted_witness :
  exists s1 s2, get_num_new_matched_tokens sha config (request 0) 16 start = (Ok (Some 32), s1) /\
    update_state_after_alloc (request 0) 32 s1 = (Ok tt, s2) /\
    (can_load <$> load_specs s2 !! "req") = Some true.
Proof.
  destruct (get_num_new_matched_tokens sha config (request 0) 16 start) as [r s1] eqn:E.
  assert (r = Ok (Some 32)) as -> by (apply (f_equal fst) in E; by vm_compute in E).
  destruct (promised_tokens_accepted sha config ltac:(intros ? c; by exists c) (request 0) 16 start 32 s1 E)
    as (s2 & Hu & _ & _ & Hl).
  exists s1, s2. split; [done|]. split; [done|].
  change (request_id (request 0)) with "req" in Hl.
  destruct (load_specs s2 !! "req") as [l|]; [|done]. simpl. f_equal. by apply (proj1 Hl).
Defined.

End SchedulerExamples.
