(* ===== verification/GdsLifecycle.v ===== *)
(** * The GDS backend's life cycle

    Construction and closing of [GdsBackend] ([v1/storage_backend/gds_backend.py]): the file
    system type and the options that choose cuFile or [cudaMemcpy], the block-first layout and
    the direct mode, the memory pools this needs and who closes them; [close] with the puts
    still pending. *)

From S2P Require Import Scheduler Prelude Tensor Codec BlockFirst DirectIO World WorldIO HipFile GpuConnector XdsFiles XdsMeta Dict XdsIndex DeviceTensor XdsStaged XdsPaths Allocator XdsLifecycle CuFile GdsMeta GdsFiles GdsIndex.

Open Scope string_scope.
Open Scope list_scope.
Open Scope Z_scope.

Definition DEFAULT_THREAD_COUNT : Z := 4.

(** ** Options *)

(** [value.strip().lower() in {"1", "true", "yes", "on"}] *)
Definition str_flag (value : string) : bool :=
  str_to_bool (String.string_of_list_ascii (Scheduler.strip value)).

(** [get_extra_config_bool]: what it returns for [0] and [1] are those integers, which
    [is True] tells from [True]. *)
Definition get_extra_config_bool (key : string) (extra : option (gmap string option_value))
    : result (option option_value) :=
  match extra with
  | None => Ok None
  | Some d =>
      match default OptNone (d !! key) with
      | OptNone => Ok None
      | OptStr s => Ok (Some (OptBool (str_flag s)))
      | OptBool b => Ok (Some (OptBool b))
      | OptInt n =>
          if (n =? 0) || (n =? 1) then Ok (Some (OptInt n))
          else Raise (RuntimeError ("Invalid value for " +:+ key))
      end
  end.

(** [v is True], and [bool(v)] *)
Definition is_True (v : option option_value) : bool :=
  match v with Some (OptBool true) => true | _ => false end.

Definition option_truthy (v : option_value) : bool :=
  match v with
  | OptBool b => b
  | OptInt n => negb (n =? 0)
  | OptStr s => negb (String.eqb s "")
  | OptNone => false
  end.

(** [_config_bool] *)
Definition gds_config_bool (value : option_value) : bool :=
  match value with
  | OptBool b => b
  | OptStr s => str_flag s
  | OptInt n => negb (n =? 0)
  | OptNone => false
  end.

(** ** The file system type *)

(** [line.split()]: the fields of a line; [acc] is the field being read, reversed. *)
Fixpoint split_fields (acc l : list Ascii.ascii) : list string :=
  let field := match acc with [] => [] | _ => [String.string_of_list_ascii (rev acc)] end in
  match l with
  | [] => field
  | c :: l' => if Scheduler.is_space c then field ++ split_fields [] l' else split_fields (c :: acc) l'
  end.

Definition py_fields (line : string) : list string := split_fields [] (String.list_ascii_of_string line).

(** The best mount point and its type so far *)
Definition better_mount (path : string) (best : string * string) (line : string) : string * string :=
  match py_fields line with
  | _ :: mount_point :: fstype :: _ =>
      if String.prefix mount_point path && (String.length best.1 <? String.length mount_point)%nat
      then (mount_point, fstype) else best
  | _ => best
  end.

(** [get_fstype] of the lines of [/proc/mounts] *)
Definition get_fstype (lines : list string) (path : string) : result string :=
  let '(_, best_fstype) := foldl (better_mount path) ("", "") lines in
  raise_if (String.eqb best_fstype "") (RuntimeError ("Unable to detect fstype for " +:+ path));;
  mret best_fstype.

(** ** State *)

(** What the backend reads of [LMCacheEngineConfig] *)
Record gds_options := GdsOptions {
  go_gds_path : option string;
  go_cufile_buffer_size : option Z;
  go_extra_config : option (gmap string option_value);
  go_store_location : option string;
  go_enable_async_loading : bool;
  go_use_layerwise : bool;
}.

(** Of the platform: the lines of [/proc/mounts], whether the directory is there, whether the
    event loop accepts coroutines *)
Record gds_platform := GdsPlatform {
  gp_mounts : list string;
  gp_path_exists : bool;
  gp_loop_open : bool;
}.

(** [self] after [__init__]; [gb_cufile] is [self.cufile is not None], else [self.cudart] is. *)
Record gds_backend := GdsBackend {
  gb_direct_only : bool;
  gb_allocator : option Z;              (* memory_allocator, by its base pointer *)
  gb_path : string;
  gb_fstype : string;
  gb_data_suffix : string;
  gb_threads : option (option Z);       (* _thread_pool: its size, if it has one *)
  gb_cufile : bool;
  gb_use_direct_io : bool;
  gb_block_first : bool;
  gb_direct : bool;                     (* direct_enabled, and the two registration functions *)
  gb_staging : option (Z * Z);          (* the staging pool and the object's address *)
  gb_base_pointer : option Z;
  gb_use_noatime : bool;
  gb_closed : bool;
}.

Definition set_gb_staging v b := GdsBackend (gb_direct_only b) (gb_allocator b) (gb_path b) (gb_fstype b)
  (gb_data_suffix b) (gb_threads b) (gb_cufile b) (gb_use_direct_io b) (gb_block_first b) (gb_direct b)
  v (gb_base_pointer b) (gb_use_noatime b) (gb_closed b).
Definition set_gb_closed v b := GdsBackend (gb_direct_only b) (gb_allocator b) (gb_path b) (gb_fstype b)
  (gb_data_suffix b) (gb_threads b) (gb_cufile b) (gb_use_direct_io b) (gb_block_first b) (gb_direct b)
  (gb_staging b) (gb_base_pointer b) (gb_use_noatime b) v.

Section lifecycle.
Context {Dt : Type} `{!TorchDtype Dt} {CL : CuFileLib}.
(** [import cufile], [CuFileDriver()] and the import of the two registration functions *)
Context (import_cufile cufile_driver import_bindings : ST world unit).
Context (cfg : gds_options) (md : lm_metadata Dt) (pf : gds_platform) (dst_device : string).

#[local] Abbreviation extra := (go_extra_config cfg).

(** ** Pools *)

(** [initialize_allocator] *)
Definition gds_initialize_allocator : ST gds_io Z :=
  size ← st_lift (result_of_option AssertionError (go_cufile_buffer_size cfg));
  on_cufile (cufile_pool (size * 1024 ^ 2)).

(** [_initialize_block_first_staging]: the pool and the object's address *)
Definition gds_initialize_staging : ST gds_io (Z * Z) :=
  block_size ← st_lift (result_of_option AssertionError (lm_block_size md));
  st_lift (raise_if (negb ((length (lm_shapes md) =? 1)%nat && (length (lm_dtypes md) =? 1)%nat))
    (RuntimeError "block_first_v1 requires exactly one KV layer group"));;
  shape ← st_lift (py_index (lm_shapes md) 0);
  dt ← st_lift (py_index (lm_dtypes md) 0);
  payload_shape ← st_lift (block_first_shape shape block_size);
  let payload_nbytes := prodZ payload_shape * itemsize dt in
  size ← st_lift (align_up payload_nbytes BLOCK_FIRST_ALIGNMENT);
  base ← on_cufile (cufile_pool size);
  staging_obj ← on_cufile (cufile_pool_alloc base payload_nbytes);
  match staging_obj with
  | None =>
      on_cufile (cufile_pool_close base);;
      st_raise (RuntimeError "Failed to allocate block_first_v1 staging buffer")
  | Some address =>
      on_gds (in_stream [] (XdsStaged.launch true (zero_kernel base size)));;
      mret (base, address)
  end.

(** ** The mode *)

(** [_should_enable_block_first] *)
Definition gds_should_enable_block_first (use_cufile : bool) : result bool :=
  if negb (gds_config_bool (extra_get (lm_kv_extra_config md) "lmcache_block_first" (OptBool false)))
  then Ok false
  else
    kv1 ← py_index (lm_kv_shape md) 1;
    mret (negb (
      negb use_cufile
      || lm_use_mla md
      || go_use_layerwise cfg
      || negb (lm_num_groups md =? 1)
      || negb (kv1 =? 2)
      || match lm_block_size md with
         | None => true
         | Some bs => (bs <=? 0) || negb (lm_chunk_size md mod bs =? 0)
         end)).

(** The choices the file system type leads to: cuFile, the data suffix, a thread pool *)
Definition by_fstype (fstype : string) (use_cufile_option : option option_value) : result (bool * string * bool) :=
  let use_cufile := match use_cufile_option with Some v => option_truthy v | None => true end in
  if String.eqb fstype "tmpfs" || String.eqb fstype "overlayfs" then
    Ok (use_cufile && negb (is_none use_cufile_option), GDS_DATA_FILE_SUFFIX, false)
  else if String.eqb fstype "wekafs" then
    py_assert use_cufile;; mret (use_cufile, WEKA_DATA_FILE_SUFFIX, true)
  else Ok (use_cufile, GDS_DATA_FILE_SUFFIX, false).

(** The modes, and the checks of [gds_direct_only] *)
Definition gds_modes (use_cufile direct_only : bool) : result (bool * bool) :=
  block_first ← gds_should_enable_block_first use_cufile;
  enable_direct ← get_extra_config_bool "enable_direct_gds" extra;
  let direct := block_first && (is_True enable_direct || direct_only) in
  raise_if (direct_only && negb direct)
    (RuntimeError "gds_direct_only requires a compatible block-first cuFile setup");;
  raise_if (direct_only && negb (bool_decide (go_store_location cfg = Some "GdsBackend")))
    (RuntimeError "gds_direct_only requires store_location='GdsBackend'");;
  raise_if (direct_only && go_enable_async_loading cfg)
    (RuntimeError "gds_direct_only does not support async loading");;
  mret (block_first, direct).

(** The handler around [_initialize_block_first_staging] *)
Definition staging_or_close (allocator : option Z) : ST gds_io (Z * Z) :=
  st_catch any_exn gds_initialize_staging
    (fun e => match allocator with Some a => on_cufile (cufile_pool_close a) | None => mret tt end;; st_raise e).

(** [__init__] *)
Definition gds_init : ST gds_io gds_backend :=
  st_lift (py_assert (String.prefix "cuda" dst_device));;
  direct_only ← st_lift (get_extra_config_bool "gds_direct_only" extra);
  let direct_only := is_True direct_only in
  allocator ← (if direct_only then mret None else a ← gds_initialize_allocator; mret (Some a));
  gds_path ← st_lift (result_of_option AssertionError (go_gds_path cfg));
  on_gds may_fail;;
  fstype ← st_lift (get_fstype (gp_mounts pf) gds_path);
  use_cufile_option ← st_lift (get_extra_config_bool "use_cufile" extra);
  '(use_cufile, data_suffix, use_thread_pool) ← st_lift (by_fstype fstype use_cufile_option);
  threads ← st_lift (if use_thread_pool : bool then
      n ← thread_pool_workers (extra_get extra "gds_io_threads" (OptInt DEFAULT_THREAD_COUNT)); mret (Some n)
    else mret None);
  (if use_cufile : bool then on_gds import_cufile;; on_gds cufile_driver
   else st_lift (raise_if (negb libcudart_present) (OSError "libcudart.so")));;
  use_direct_io ← st_lift (get_extra_config_bool "use_direct_io" extra);
  (if gp_path_exists pf then mret tt else on_gds os_makedirs);;
  '(block_first, direct) ← st_lift (gds_modes use_cufile direct_only);
  (if direct : bool then on_gds import_bindings else mret tt);;
  staging ← (if block_first && negb direct_only then sg ← staging_or_close allocator; mret (Some sg)
             else mret None);
  st_lift (raise_if (negb (gp_loop_open pf)) (RuntimeError "Event loop is closed"));;
  mret (GdsBackend direct_only allocator gds_path fstype data_suffix threads use_cufile
    (match use_direct_io with Some v => option_truthy v | None => false end) block_first direct staging allocator
    true false).

(** ** Closing *)

Record gds_node := GdsNode { gn_process : gds_io; gn_self : gds_backend }.

Definition on_gn {A} (m : ST gds_io A) : ST gds_node A := fun n =>
  let '(r, p) := m (gn_process n) in (r, GdsNode p (gn_self n)).

Definition gds_modify_self (f : gds_backend -> gds_backend) : ST gds_node unit :=
  st_modify (fun n => GdsNode (gn_process n) (f (gn_self n))).

(** [_close_block_first_staging] *)
Definition gds_close_staging : ST gds_node unit :=
  self ← st_gets gn_self;
  match gb_staging self with
  | Some (base, _) => on_gn (on_cufile (cufile_pool_close base))
  | None => mret tt
  end;;
  gds_modify_self (set_gb_staging None).

Definition close_engine (b : gds_backend) (e : gds_engine Dt) : gds_engine Dt :=
  GdsEngine _ (ge_chunk_size e) (ge_block_size e) (ge_shapes e) (ge_dtypes e) (ge_layout e) (gb_direct b)
    (ge_dst_device e) (gb_cufile b) (gb_use_direct_io b).

(** [in_flight] is what the scan, the pending puts and the thread pool still do; their
    exceptions stay in their futures. *)
Definition gds_close (e : gds_engine Dt) (in_flight : gds_io -> gds_io) : ST gds_node unit :=
  self ← st_gets gn_self;
  if gb_closed self then mret tt
  else
    st_modify (fun n => GdsNode (in_flight (gn_process n)) (gn_self n));;
    on_gn (gds_close_registrations (close_engine self e));;
    on_gn gds_close_edge;;
    gds_close_staging;;
    match gb_allocator self with
    | Some a => on_gn (on_cufile (cufile_pool_close a))
    | None => mret tt
    end;;
    gds_modify_self (set_gb_closed true).

End lifecycle.
