(* ===== verification/GdsLifecycleFacts.v ===== *)
(** * What constructing and closing the GDS backend establish

    The file system type found is the one of a longest mount prefix; a constructed backend's
    mode, pools and layout agree; closing releases registrations and pools, and an interrupted
    close can be repeated. *)

From S2P Require Import Scheduler Prelude Tensor Codec BlockFirst DirectIO World WorldIO HipFile GpuConnector XdsFiles XdsMeta Dict XdsIndex DeviceTensor XdsStaged XdsPaths Allocator XdsLifecycle CuFile GdsMeta GdsFiles GdsAccounts GdsIndex GdsLifecycle.

Open Scope string_scope.
Open Scope list_scope.
Open Scope Z_scope.

(** ** The file system type *)

(** The mount points and types of the lines with three fields *)
Definition mounts (lines : list string) : list (string * string) :=
  line ← lines;
  match py_fields line with _ :: mount_point :: fstype :: _ => [(mount_point, fstype)] | _ => [] end.

Lemma split_fields_nonempty l : forall acc f, f ∈ split_fields acc l -> f <> "".
Proof.
  assert (forall acc f, f ∈ match acc with [] => [] | _ => [String.string_of_list_ascii (rev acc)] end ->
    f <> "") as Hf.
  { intros [|c acc] f Hin; [by apply not_elem_of_nil in Hin|].
    apply list_elem_of_singleton in Hin as ->. intros H.
    apply (f_equal String.list_ascii_of_string) in H.
    rewrite String.list_ascii_of_string_of_list_ascii in H. simpl in H. by apply app_eq_nil in H as [_ ?]. }
  induction l as [|c l IH]; intros acc f; simpl; [apply Hf|].
  destruct (Scheduler.is_space c); [|apply IH].
  rewrite elem_of_app. intros [Hin|Hin]; [by eapply Hf|by eapply IH].
Qed.

Lemma mounts_nonempty lines mp t : (mp, t) ∈ mounts lines -> mp <> "" /\ t <> "".
Proof.
  unfold mounts. intros (line & Hin & _)%list_elem_of_bind.
  assert (forall f, f ∈ py_fields line -> f <> "") as Hf by (intros f; apply split_fields_nonempty).
  destruct (py_fields line) as [|a [|b [|c l]]]; try by apply not_elem_of_nil in Hin.
  apply list_elem_of_singleton in Hin. injection Hin as -> ->.
  split; apply Hf; [right; by left|right; right; by left].
Qed.

(** The best mount of [ms], where [best] was the best so far *)
Definition best_of (path : string) (ms : list (string * string)) (best r : string * string) : Prop :=
  (r = best \/ r ∈ ms /\ String.prefix r.1 path = true)
  /\ (String.length best.1 <= String.length r.1)%nat
  /\ forall m, m ∈ ms -> String.prefix m.1 path = true -> (String.length m.1 <= String.length r.1)%nat.

Lemma best_mount path lines : forall best,
  best_of path (mounts lines) best (foldl (better_mount path) best lines).
Proof.
  induction lines as [|line lines IH]; intros best; simpl.
  { split; [by left|]. split; [lia|]. intros m Hm. by apply not_elem_of_nil in Hm. }
  destruct (IH (better_mount path best line)) as (H1 & H2 & H3).
  set (r := foldl _ _ lines) in *. unfold best_of.
  change (mounts (line :: lines)) with
    (match py_fields line with _ :: mp :: t :: _ => [(mp, t)] | _ => [] end ++ mounts lines).
  unfold better_mount in *.
  destruct (py_fields line) as [|a [|mp [|t l]]]; [done..|].
  destruct (String.prefix mp path) eqn:Hp; simpl in *.
  - destruct (Nat.ltb_spec (String.length best.1) (String.length mp)) as [Hl|Hl]; simpl in *.
    + split; [|split; [lia|]].
      * right. destruct H1 as [->|[Hin Hpr]]; [|split; [by right|done]]. split; [by left|done].
      * intros m [->|Hm]%elem_of_cons Hpm; [done|by apply H3].
    + split; [|split; [done|]].
      * destruct H1 as [->|[Hin Hpr]]; [by left|right]. split; [by right|done].
      * intros m [->|Hm]%elem_of_cons Hpm; [simpl; lia|by apply H3].
  - split; [|split; [done|]].
    + destruct H1 as [->|[Hin Hpr]]; [by left|right]. split; [by right|done].
    + intros m [->|Hm]%elem_of_cons Hpm; [simpl in Hpm; congruence|by apply H3].
Qed.

(** [get_fstype] returns the type of a mount whose mount point is a prefix of the path, and
    of no such mount is the mount point longer; it raises exactly when no mount point is a
    prefix. *)
Theorem get_fstype_longest lines path :
  match get_fstype lines path with
  | Ok t => exists mp, (mp, t) ∈ mounts lines /\ String.prefix mp path = true
      /\ forall mp' t', (mp', t') ∈ mounts lines -> String.prefix mp' path = true ->
           (String.length mp' <= String.length mp)%nat
  | Raise _ => forall mp t, (mp, t) ∈ mounts lines -> String.prefix mp path = false
  end.
Proof.
  unfold get_fstype. pose proof (best_mount path lines ("", "")) as (H1 & _ & H3).
  destruct (foldl _ _ _) as [mp t] eqn:E. simpl in *.
  destruct H1 as [[= -> ->]|[Hin Hp]].
  - simpl. intros mp t Hm. destruct (String.prefix mp path) eqn:Hp; [|done].
    specialize (H3 _ Hm Hp). simpl in H3. apply mounts_nonempty in Hm as [Hm _].
    destruct mp; [done|simpl in H3; lia].
  - pose proof (mounts_nonempty _ _ _ Hin) as [_ Ht]. destruct (String.eqb_spec t "") as [He|He]; [by destruct Ht|]. simpl.
    exists mp. split; [done|]. split; [done|]. intros mp' t' Hm' Hp'. exact (H3 _ Hm' Hp').
Qed.

Section facts.
Context {Dt : Type} `{!TorchDtype Dt} {JC : JsonCodec} {CL : CuFileLib} {CLL : CuFileLaws}.
Context (import_cufile cufile_driver import_bindings : ST world unit).
Context (cfg : gds_options) (md : lm_metadata Dt) (pf : gds_platform) (dst_device : string).

#[local] Abbreviation init := (gds_init import_cufile cufile_driver import_bindings cfg md pf dst_device).

(** ** Construction *)

Section pools.
Context (regs : list (registration * lifetime)) (edge : option gds_edge) (bufs : list Z).

(** The open pools, with the registrations and the scratch block as they were *)
Definition pools_are (ps : list Z) (p : gds_io) : Prop :=
  g_pools p = ps /\ g_registrations p = regs /\ g_edge p = edge /\ g_buffers p = bufs.

(** The registrations and the scratch block as they were *)
Definition direct_kept (_ : exn) (p : gds_io) : Prop := exists ps, pools_are ps p.

Lemma world_call {A} (m : ST world A) ps :
  triple (pools_are ps) (on_gds m) (fun _ => pools_are ps) direct_kept.
Proof.
  intros s H. unfold on_gds. destruct (m (g_world s)) as [[a|e] w']; [exact H|].
  exists ps. exact H.
Qed.

Lemma lift_kept {A} (r : result A) ps :
  triple (pools_are ps) (st_lift r) (fun a p => r = Ok a /\ pools_are ps p) direct_kept.
Proof. apply triple_lift; [by intros a -> p Hp|]. intros e _ p Hp. by exists ps. Qed.

Lemma pool_new_triple size ps :
  triple (pools_are ps) (on_cufile (cufile_pool size)) (fun b => pools_are (ps ++ [b])) direct_kept.
Proof.
  intros s (H1 & H2 & H3 & H4). unfold on_cufile. pose proof (cufile_pool_adds size (cu_of s)) as H.
  destruct (cufile_pool size (cu_of s)) as [[b|e] p]; destruct H as [Hp Hb]; simpl in Hp, Hb.
  - split_and!; simpl; congruence.
  - exists ps. split_and!; simpl; congruence.
Qed.

Lemma pool_alloc_kept b n ps :
  triple (pools_are ps) (on_cufile (cufile_pool_alloc b n)) (fun _ => pools_are ps) direct_kept.
Proof.
  intros s (H1 & H2 & H3 & H4). unfold on_cufile. pose proof (cufile_pool_alloc_keeps b n (cu_of s)) as H.
  destruct (cufile_pool_alloc b n (cu_of s)) as [[a|e] p]; destruct H as [Hp Hb]; simpl in Hp, Hb.
  - split_and!; simpl; congruence.
  - exists ps. split_and!; simpl; congruence.
Qed.

Lemma pool_close_kept b ps :
  triple (pools_are ps) (on_cufile (cufile_pool_close b)) (fun _ p => exists ps', pools_are ps' p) direct_kept.
Proof.
  intros s (H1 & H2 & H3 & H4). unfold on_cufile. pose proof (cufile_pool_close_takes b (cu_of s)) as H.
  destruct (cufile_pool_close b (cu_of s)) as [[[]|e] p]; destruct H as [Hp Hbf]; simpl in Hp, Hbf;
    exists (cu_pools p); split_and!; simpl; congruence.
Qed.

Lemma raise_kept {A} e ps Q : triple (pools_are ps) (st_raise (A := A) e) Q direct_kept.
Proof. intros p Hp. by exists ps. Qed.

Lemma staging_triple ps :
  triple (pools_are ps) (gds_initialize_staging md) (fun sg => pools_are (ps ++ [sg.1])) direct_kept.
Proof.
  unfold gds_initialize_staging. eapply triple_bind; [apply lift_kept|]. intros bs. apply triple_pure. intros _.
  eapply triple_bind; [apply lift_kept|]. intros u. apply triple_pure. intros _.
  eapply triple_bind; [apply lift_kept|]. intros shape. apply triple_pure. intros _.
  eapply triple_bind; [apply lift_kept|]. intros dt. apply triple_pure. intros _.
  eapply triple_bind; [apply lift_kept|]. intros payload. apply triple_pure. intros _.
  eapply triple_bind; [apply lift_kept|]. intros size. apply triple_pure. intros _.
  eapply triple_bind; [apply pool_new_triple|]. intros base.
  eapply triple_bind; [apply pool_alloc_kept|]. intros [address|].
  - eapply triple_bind; [apply world_call|]. intros [] p Hp. exact Hp.
  - eapply triple_bind; [apply pool_close_kept|]. intros [].
    apply triple_exists. intros ps'. apply raise_kept.
Qed.

Lemma staging_or_close_triple a ps :
  triple (pools_are ps) (staging_or_close md a) (fun sg => pools_are (ps ++ [sg.1])) direct_kept.
Proof.
  unfold staging_or_close. eapply triple_catch; [apply staging_triple|]. intros e. simpl.
  apply triple_exists. intros ps'.
  eapply (triple_bind _ _ _ (fun _ p => exists ps2, pools_are ps2 p)).
  - destruct a as [a|]; [|intros p Hp; by exists ps'].
    apply pool_close_kept.
  - intros []. apply triple_exists. intros ps2. apply raise_kept.
Qed.

End pools.

(** What holds of a constructed backend *)
Record gds_typed (b : gds_backend) : Prop := {
  gt_cufile : gb_cufile b = false -> libcudart_present = true;
  gt_block_first : gb_block_first b = true ->
    gb_cufile b = true /\ lm_use_mla md = false /\ go_use_layerwise cfg = false /\ lm_num_groups md = 1
    /\ exists bs, lm_block_size md = Some bs /\ 0 < bs /\ lm_chunk_size md mod bs = 0;
  gt_direct : gb_direct b = true -> gb_block_first b = true;
  gt_direct_only : gb_direct_only b = true ->
    gb_direct b = true /\ gb_allocator b = None /\ gb_staging b = None
    /\ go_store_location cfg = Some "GdsBackend" /\ go_enable_async_loading cfg = false;
  gt_allocator : gb_direct_only b = false ->
    is_Some (gb_allocator b) /\ (is_Some (gb_staging b) <-> gb_block_first b = true);
  gt_base : gb_base_pointer b = gb_allocator b;
  gt_weka : gb_fstype b = "wekafs" ->
    gb_cufile b = true /\ gb_data_suffix b = WEKA_DATA_FILE_SUFFIX /\ is_Some (gb_threads b);
  gt_plain : gb_fstype b <> "wekafs" -> gb_data_suffix b = GDS_DATA_FILE_SUFFIX /\ gb_threads b = None;
  gt_path : go_gds_path cfg = Some (gb_path b);
  gt_open : gb_closed b = false;
}.

(** The pools a backend holds *)
Definition pools_of (b : gds_backend) : list Z :=
  option_list (gb_allocator b) ++ option_list (fst <$> gb_staging b).

Lemma by_fstype_Ok fstype o cu suffix pool :
  by_fstype fstype o = Ok (cu, suffix, pool) ->
  (fstype = "wekafs" -> cu = true /\ suffix = WEKA_DATA_FILE_SUFFIX /\ pool = true)
  /\ (fstype <> "wekafs" -> suffix = GDS_DATA_FILE_SUFFIX /\ pool = false).
Proof.
  unfold by_fstype. destruct (String.eqb_spec fstype "tmpfs") as [->|]; [by intros [= <- <- <-]|].
  destruct (String.eqb_spec fstype "overlayfs") as [->|]; [by intros [= <- <- <-]|]. simpl.
  destruct (String.eqb_spec fstype "wekafs") as [->|]; [|by intros [= <- <- <-]].
  intros H. res_inv. simplify_eq. done.
Qed.

Lemma modes_Ok cu direct_only bf dr :
  gds_modes cfg md cu direct_only = Ok (bf, dr) ->
  (bf = true -> cu = true /\ lm_use_mla md = false /\ go_use_layerwise cfg = false /\ lm_num_groups md = 1
    /\ exists bs, lm_block_size md = Some bs /\ 0 < bs /\ lm_chunk_size md mod bs = 0)
  /\ (dr = true -> bf = true)
  /\ (direct_only = true -> dr = true /\ go_store_location cfg = Some "GdsBackend"
      /\ go_enable_async_loading cfg = false).
Proof.
  unfold gds_modes. intros H. res_inv. simplify_eq. split; [|split].
  - intros ->. match goal with Hx : gds_should_enable_block_first _ _ _ = Ok true |- _ => revert Hx end.
    unfold gds_should_enable_block_first. destruct (gds_config_bool _); [|done]. cbn [negb].
    intros H'. res_inv. bool_prop. destruct (lm_block_size md) as [bs|]; [|done]. bool_prop.
    repeat split; try done. exists bs. split; [done|]. split; [lia|done].
  - intros H'. by bool_prop.
  - intros ->. simpl in *. bool_prop. repeat split; try done. apply andb_true_iff. split; [done|apply orb_true_r].
Qed.

Lemma init_triple regs edge bufs ps :
  triple (pools_are regs edge bufs ps) init
    (fun b p => gds_typed b /\ pools_are regs edge bufs (ps ++ pools_of b) p) (direct_kept regs edge bufs).
Proof.
  unfold gds_init. eapply triple_bind; [apply lift_kept|]. intros u. apply triple_pure. intros _.
  eapply triple_bind; [apply lift_kept|]. intros opt. apply triple_pure. intros _.
  set (direct_only := is_True opt).
  apply (triple_bind _ _ _ (fun a p => (direct_only = true -> a = None) /\ (direct_only = false -> is_Some a)
    /\ pools_are regs edge bufs (ps ++ option_list a) p)).
  { destruct direct_only.
    - intros p Hp. simpl. rewrite app_nil_r. by split_and!.
    - unfold gds_initialize_allocator. eapply triple_bind.
      + eapply triple_bind; [apply lift_kept|]. intros size. apply triple_pure. intros _. apply pool_new_triple.
      + intros a p Hp. simpl. split; [done|]. by split. }
  intros a. apply triple_pure. intros Ha1. apply triple_pure. intros Ha2. set (ps1 := ps ++ option_list a).
  eapply triple_bind; [apply lift_kept|]. intros path. apply triple_pure. intros Hpath%result_of_option_Ok.
  eapply triple_bind; [apply world_call|]. intros [].
  eapply triple_bind; [apply lift_kept|]. intros fstype. apply triple_pure. intros _.
  eapply triple_bind; [apply lift_kept|]. intros co. apply triple_pure. intros _.
  eapply triple_bind; [apply lift_kept|]. intros [[cu suffix] pool]. apply triple_pure.
  intros [Hw1 Hw2]%by_fstype_Ok.
  apply (triple_bind _ _ _ (fun threads p => (pool = true -> is_Some threads) /\ (pool = false -> threads = None)
    /\ pools_are regs edge bufs ps1 p)).
  { eapply triple_conseq; [apply lift_kept|done| |done]. intros threads p [Ht Hp]. destruct pool; res_inv; simplify_eq; by split_and!. }
  intros threads. apply triple_pure. intros Ht1. apply triple_pure. intros Ht2.
  apply (triple_bind _ _ _ (fun _ p => (cu = false -> libcudart_present = true) /\ pools_are regs edge bufs ps1 p)).
  { destruct cu.
    - eapply triple_bind; [apply world_call|]. intros []. eapply triple_conseq; [apply world_call|done|by split|done].
    - eapply triple_conseq; [apply lift_kept|done| |done]. intros [] p [Hr Hp]. res_inv. bool_prop. done. }
  intros []. apply triple_pure. intros Hcu.
  eapply triple_bind; [apply lift_kept|]. intros dio. apply triple_pure. intros _.
  apply (triple_bind _ _ _ (fun _ => pools_are regs edge bufs ps1)).
  { destruct (gp_path_exists pf); [by intros p Hp|apply world_call]. }
  intros []. eapply triple_bind; [apply lift_kept|]. intros [bf dr]. apply triple_pure.
  intros (Hbf & Hdr & Hdo)%modes_Ok.
  apply (triple_bind _ _ _ (fun _ => pools_are regs edge bufs ps1)).
  { destruct dr; [apply world_call|by intros p Hp]. }
  intros []. apply (triple_bind _ _ _ (fun sg p => (is_Some sg <-> bf = true /\ direct_only = false)
    /\ pools_are regs edge bufs (ps1 ++ option_list (fst <$> sg)) p)).
  { destruct bf, direct_only; cbn [andb negb].
    1,3,4: intros p Hp; simpl; rewrite app_nil_r; split; [split; [by intros []|by intros []]|done].
    eapply triple_bind; [apply staging_or_close_triple|]. intros sg p Hp. simpl. split; [done|exact Hp]. }
  intros sg. apply triple_pure. intros Hsg.
  eapply triple_bind; [apply lift_kept|]. intros u'. apply triple_pure. intros _.
  intros p Hp. simpl. split; [|unfold pools_of, ps1 in *; simpl; by rewrite app_assoc].
  split; simpl; try done.
  - intros Hd. destruct (Hdo Hd) as (-> & ? & ?). split_and!; try done; [by apply Ha1|].
    destruct sg; [|done]. assert (bf = true /\ direct_only = false) as [_ ?] by (apply Hsg; by eexists). congruence.
  - intros Hd. split; [by apply Ha2|]. rewrite Hsg. split; [by intros [? _]|done].
  - intros Hw. destruct (Hw1 Hw) as (-> & -> & ->). split_and!; try done. by apply Ht1.
  - intros Hw. destruct (Hw2 Hw) as (-> & ->). split; [done|by apply Ht2].
Qed.

(** C24: a constructed backend agrees with itself. Block-first needs cuFile, one key-value
    group, a block size that divides the chunk, no MLA and no layerwise mode; direct I/O needs
    block-first; direct-only mode needs direct I/O, its store location and synchronous
    loading, and has neither allocator nor staging buffer; otherwise there is an allocator,
    and a staging buffer exactly when block-first is on; the base pointer is the
    allocator's; a Weka file system gets cuFile, its own suffix and a thread pool, others the
    usual suffix and none. The pools open are those open before and the backend's own.
    Whether or not construction succeeds, it registers nothing and makes no scratch block. *)
Theorem gds_construction_typed p :
  match init p with
  | (Ok b, p') => gds_typed b /\ g_pools p' = g_pools p ++ pools_of b
      /\ g_registrations p' = g_registrations p /\ g_edge p' = g_edge p /\ g_buffers p' = g_buffers p
  | (Raise _, p') =>
      g_registrations p' = g_registrations p /\ g_edge p' = g_edge p /\ g_buffers p' = g_buffers p
  end.
Proof.
  pose proof (init_triple (g_registrations p) (g_edge p) (g_buffers p) (g_pools p) p) as H.
  specialize (H ltac:(by split_and!)). destruct (init p) as [[b|e] p']; [exact H|by destruct H as [ps [_ H]]].
Qed.

(** ** Closing *)

Implicit Types (e : gds_engine Dt) (n : gds_node).

(** Nothing is held any more. *)
Definition released (ob op : list Z) n : Prop :=
  g_registrations (gn_process n) = [] /\ g_edge (gn_process n) = None /\ gb_staging (gn_self n) = None
  /\ g_buffers (gn_process n) ≡ₚ ob /\ g_pools (gn_process n) ≡ₚ op.

(** An open backend's books are in order; a closed one holds nothing. *)
Definition winding_down (b : gds_backend) (ob op : list Z) n : Prop :=
  gb_direct (gn_self n) = gb_direct b
  /\ if gb_closed (gn_self n) then released ob op n
     else accounted (gb_direct b) ob op (pools_of (gn_self n)) (gn_process n).

(** What an interrupted close leaves *)
Definition interrupted (b : gds_backend) (ob op : list Z) n : Prop :=
  winding_down b ob op n /\ gb_closed (gn_self n) = false /\ ~ calls_succeed.

Lemma on_gn_triple {A} (P : gds_io -> Prop) (m : ST gds_io A) Q E b :
  triple P m Q E ->
  triple (fun n => gn_self n = b /\ P (gn_process n)) (on_gn m) (fun a n => gn_self n = b /\ Q a (gn_process n))
    (fun ex n => gn_self n = b /\ E ex (gn_process n)).
Proof.
  intros Hm n [Hb Hn]. unfold on_gn. specialize (Hm _ Hn). by destruct (m (gn_process n)) as [[a|ex] p].
Qed.

(** Refused in the middle, the backend being [b'] by then *)
Lemma refused_interrupted b ob op b' n :
  gb_direct b' = gb_direct b -> gb_closed b' = false ->
  gn_self n = b' /\ refused (gb_direct b) ob op (pools_of b') (gn_process n) -> interrupted b ob op n.
Proof. intros Hd Hc [Hb [Ha Hcs]]. split; [|by rewrite Hb]. split; [by rewrite Hb|]. by rewrite Hb, Hc. Qed.

(** Nothing but pools is left to close: [own] of them. *)
Definition pools_left (ob op own : list Z) (s : gds_io) : Prop :=
  (g_registrations s = [] /\ g_edge s = None /\ g_buffers s ≡ₚ ob) /\ g_pools s ≡ₚ op ++ own.

Lemma pools_left_accounted direct ob op own s : pools_left ob op own s -> accounted direct ob op own s.
Proof.
  intros [(Hr & He & Hb) Hp]. split.
  - split; [rewrite Hr; by apply NoDup_nil_2|]. split; [done|]. by rewrite Hr, app_nil_r.
  - unfold pools_accounted. by rewrite He, app_nil_r.
Qed.

Lemma close_own_triple b ob op base own :
  triple (pools_left ob op (base :: own)) (on_cufile (cufile_pool_close base)) (fun _ => pools_left ob op own)
    (fun _ => refused (gb_direct b) ob op (base :: own)).
Proof.
  eapply triple_conseq; [apply (close_pool_triple base (op ++ own)
    (fun rs ed bs => rs = [] /\ ed = None /\ bs ≡ₚ ob))| |done|].
  - intros s [Hi Hp]. split; [done|]. rewrite Hp. solve_Permutation.
  - intros ex s [[Hi Hp] Hc]. split; [|done]. apply pools_left_accounted. split; [done|]. rewrite Hp. solve_Permutation.
Qed.

Lemma close_staging_triple b ob op b0 :
  gb_direct b0 = gb_direct b -> gb_closed b0 = false ->
  triple (fun n => gn_self n = b0 /\ pools_left ob op (pools_of b0) (gn_process n)) gds_close_staging
    (fun _ n => gn_self n = set_gb_staging None b0 /\ pools_left ob op (option_list (gb_allocator b0)) (gn_process n))
    (fun _ => interrupted b ob op).
Proof.
  intros Hd Hc. unfold gds_close_staging.
  apply (triple_bind _ _ _ (fun self n => self = b0 /\ (gn_self n = b0 /\ pools_left ob op (pools_of b0) (gn_process n))));
    [by intros n [Hb Hn]|]. intros self. apply triple_pure. intros ->.
  apply (triple_bind _ _ _ (fun _ n => gn_self n = b0 /\ pools_left ob op (option_list (gb_allocator b0)) (gn_process n))).
  - unfold pools_of. destruct (gb_staging b0) as [[base a]|] eqn:Hs; simpl.
    + eapply triple_conseq; [apply (on_gn_triple _ _ _ _ b0 (close_own_triple b ob op base (option_list (gb_allocator b0))))| |done|].
      * intros n [Hb [Hi Hp]]. split; [done|]. split; [done|]. rewrite Hp. solve_Permutation.
      * intros ex n [Hb [[Hbu Hp] Hcs]]. apply (refused_interrupted b ob op b0); [done|done|]. split; [done|]. split; [|done].
        split; [done|]. unfold pools_accounted, pools_of in *. rewrite Hp, Hs. simpl. solve_Permutation.
    + rewrite app_nil_r. by intros n Hn.
  - intros [] n [Hb Hl]. simpl. by rewrite Hb.
Qed.

Lemma gds_close_triple e f b ob op b0 :
  (forall i, rtc (gds_activity (close_engine b e)) i (f i)) -> gb_direct b0 = gb_direct b -> gb_closed b0 = false ->
  triple (fun n => gn_self n = b0 /\ accounted (gb_direct b) ob op (pools_of b0) (gn_process n)) (gds_close e f)
    (fun _ n => winding_down b ob op n /\ gb_closed (gn_self n) = true) (fun _ => interrupted b ob op).
Proof.
  intros Hf Hd Hc. unfold gds_close. set (P := fun n => gn_self n = b0 /\ accounted (gb_direct b) ob op (pools_of b0) (gn_process n)).
  apply (triple_bind _ _ _ (fun self n => self = b0 /\ P n)); [by intros n [Hb Hn]|].
  intros self. apply triple_pure. intros ->. rewrite Hc.
  apply (triple_bind _ _ _ (fun _ => P)).
  { intros n [Hb Ha]. split; [done|]. cbn [gn_process]. 
    exact (activity_accounted (close_engine b e) _ _ _ (gn_process n) _ (Hf _) Ha). }
  intros []. eapply triple_bind.
  { eapply triple_exn; [apply (on_gn_triple _ _ _ _ b0 (close_registrations_triple (gb_direct b) ob op (pools_of b0) (close_engine b0 e) Hd))|].
    intros ex n Hn. by apply (refused_interrupted b ob op b0). }
  intros []. eapply triple_bind.
  { eapply triple_exn; [apply (on_gn_triple _ _ _ _ b0 (close_edge_triple (gb_direct b) ob op (pools_of b0)))|].
    intros ex n Hn. by apply (refused_interrupted b ob op b0). }
  intros []. eapply triple_bind; [by apply close_staging_triple|]. intros [].
  apply (triple_bind _ _ _ (fun _ n => gn_self n = set_gb_staging None b0 /\ pools_left ob op [] (gn_process n))).
  { destruct (gb_allocator b0) as [a|] eqn:Ha; simpl; [|by intros n Hn].
    eapply triple_exn; [apply (on_gn_triple _ _ _ _ (set_gb_staging None b0) (close_own_triple b ob op a []))|].
    intros ex n Hn. apply (refused_interrupted b ob op (set_gb_staging None b0)); [done|done|].
    unfold pools_of. simpl. by rewrite Ha. }
  intros [] n [Hb [(Hr & He & Hbu) Hp]]. rewrite app_nil_r in Hp. simpl. split; [|done].
  unfold winding_down, released. simpl. rewrite Hb. simpl. by split_and!.
Qed.

(** Attempts to close, each after what was in flight then *)
Definition close_attempts e (fs : list (gds_io -> gds_io)) n : gds_node :=
  foldl (fun n f => (gds_close e f n).2) n fs.

Lemma closed_stays e f n : gb_closed (gn_self n) = true -> gds_close e f n = (Ok tt, n).
Proof. intros H. unfold gds_close, st_gets, mbind, ST_bind. by rewrite H. Qed.

Lemma close_once e f b ob op n :
  (forall i, rtc (gds_activity (close_engine b e)) i (f i)) -> winding_down b ob op n ->
  let n' := (gds_close e f n).2 in
  winding_down b ob op n' /\ (calls_succeed -> gb_closed (gn_self n') = true)
  /\ (gb_closed (gn_self n) = true -> gb_closed (gn_self n') = true).
Proof.
  intros Hf Hw n'. unfold n'. destruct (gb_closed (gn_self n)) eqn:Hc; [by rewrite closed_stays|].
  pose proof Hw as [Hd Ha]. rewrite Hc in Ha.
  pose proof (gds_close_triple e f b ob op (gn_self n) Hf Hd Hc n (conj eq_refl Ha)) as H.
  destruct (gds_close e f n) as [[[]|ex] n1]; simpl; [by destruct H|]. destruct H as (Hw1 & Hc1 & Hcs). done.
Qed.

Lemma gds_attempts_run e b ob op fs : forall n,
  Forall (fun f => forall i, rtc (gds_activity (close_engine b e)) i (f i)) fs -> winding_down b ob op n ->
  let n' := close_attempts e fs n in
  winding_down b ob op n'
  /\ (calls_succeed -> fs <> [] \/ gb_closed (gn_self n) = true -> gb_closed (gn_self n') = true).
Proof.
  induction fs as [|f fs IH]; intros n Hfs Hw; simpl; [split; [done|]; by intros _ [?|?]|].
  inversion Hfs as [|? ? Hf Hfs']; subst. destruct (close_once e f b ob op n Hf Hw) as (W & C & _).
  destruct (IH _ Hfs' W) as [I1 I2]. split; [done|]. intros Hcs _. apply I2; [done|]. right. by apply C.
Qed.

(** A new backend's books are in order. *)
Lemma constructed_winding p b i :
  g_registrations p = [] -> g_edge p = None -> init p = (Ok b, i) ->
  winding_down b (g_buffers p) (g_pools p) (GdsNode i b).
Proof.
  intros Hr He Hi. pose proof (init_triple (g_registrations p) (g_edge p) (g_buffers p) (g_pools p) p ltac:(by split_and!)) as H.
  rewrite Hi in H. destruct H as (Ht & H1 & H2 & H3 & H4). split; [done|]. cbn [gn_self gn_process].
  rewrite (gt_open _ Ht). split.
  - rewrite Hr in H2. split; [rewrite H2; by apply NoDup_nil_2|]. split; [done|]. by rewrite H2, H4, app_nil_r.
  - unfold pools_accounted. by rewrite H3, He, H1, app_nil_r.
Qed.

(** C25: a backend that was constructed, used and closed has given everything back. It may be
    closed in several attempts, each interrupted by any refused deregistration or pool, and
    before each attempt direct stores and retrieves and other transfers go on. Throughout,
    every registration with cuFile and every pool that was there before the construction is
    there still. Once the backend is closed there are no others: exactly what was registered
    with cuFile before the construction is registered now, exactly the pools open then are open
    now, and the backend's dictionary, scratch block and staging buffer are gone. When the
    calls that give back succeed, the first attempt closes it. The one thing left out is a
    retrieve that loses the scratch pool it opened, having neither got a block from it nor been
    able to close it ([scratch_lost]). *)
Theorem gds_close_releases e fs b p i :
  g_registrations p = [] -> g_edge p = None -> init p = (Ok b, i) ->
  Forall (fun f => forall i, rtc (gds_activity (close_engine b e)) i (f i)) fs ->
  let n' := close_attempts e fs (GdsNode i b) in
  (exists bufs ps, g_buffers (gn_process n') ≡ₚ g_buffers p ++ bufs /\ g_pools (gn_process n') ≡ₚ g_pools p ++ ps)
  /\ (gb_closed (gn_self n') = true -> released (g_buffers p) (g_pools p) n')
  /\ (calls_succeed -> fs <> [] -> gb_closed (gn_self n') = true).
Proof.
  intros Hr He Hi Hfs n'. pose proof (constructed_winding p b i Hr He Hi) as Hw.
  destruct (gds_attempts_run e b (g_buffers p) (g_pools p) fs _ Hfs Hw) as [[Hd W] C]. fold n' in Hd, W, C. split; [|split].
  - destruct (gb_closed (gn_self n')).
    + destruct W as (_ & _ & _ & Hb & Hp). exists [], []. by rewrite !app_nil_r.
    + destruct W as [(_ & _ & Hb) Hp]. by do 2 eexists.
  - intros Hc. by rewrite Hc in W.
  - intros Hcs Hne. apply C; [done|by left].
Qed.

End facts.
