(* ===== verification/GdsLifecycleExamples.v ===== *)
(** * The GDS backend's life cycle at concrete inputs

    A backend constructed with direct I/O, used for a direct store and retrieve, and closed; and
    what construction does with a sibling's mount point, with an integer option and with a
    missing path. *)

From S2P Require Import Scheduler Prelude Tensor Codec BlockFirst DirectIO World WorldIO HipFile GpuConnector XdsFiles XdsMeta Dict XdsIndex DeviceTensor XdsStaged XdsPaths XdsLoad Allocator XdsLifecycle CuFile GdsMeta GdsFiles GdsAccounts GdsIndex GdsLifecycle GdsLifecycleFacts.

Open Scope string_scope.
Open Scope list_scope.
Open Scope Z_scope.

#[local] Existing Instance SimCuFile.sim_cufile.
#[local] Existing Instance SimCuFile.sim_cufile_laws.
#[local] Existing Instance CountableCodec.codec.

Definition ex_options (path : option string) (l : list (string * option_value)) : gds_options :=
  GdsOptions path (Some 1) (Some (list_to_map l)) None false false.

Definition ex_mounts : list string := ["rootfs / ext4 rw 0 0"; "srv /mnt/gds lustre rw 0 0"; "scratch /mnt/g tmpfs rw 0 0"].

Definition ex_gplatform : gds_platform := GdsPlatform ex_mounts true true.

Definition ex_gmetadata : lm_metadata ex_dtype :=
  LmMetadata _ false true 1 [1; 2; 4; 1; 512] (Some 2) 4 [[2; 1; 4; 512]] [Float16] 0 1
    (Some {[ "lmcache_block_first" := OptStr " True " ]}).

(** Somebody else's pool is open and a buffer of theirs registered. *)
Definition ex_gprocess : gds_io :=
  GdsIO (World ∅ ∅ 5 (fun a => a mod 251) [] (HipClass true true ∅ [])) [] None [64] [42].

Definition ex_open (cfg : gds_options) : result gds_backend * gds_io :=
  gds_init (mret tt) (mret tt) (mret tt) cfg ex_gmetadata ex_gplatform "cuda:0" ex_gprocess.

Definition ex_direct_options : gds_options :=
  ex_options (Some "/mnt/gds/kv") [("enable_direct_gds", OptBool true)].

(** ** Construction *)

Lemma ex_opened : exists b p, ex_open ex_direct_options = (Ok b, p)
  /\ gb_fstype b = "lustre" /\ gb_direct b = true /\ gb_allocator b = Some 17777216
  /\ gb_staging b = Some (1131072, 0) /\ gb_closed b = false /\ g_pools p = [42; 17777216; 1131072].
Proof.
  assert (match ex_open ex_direct_options with
    | (Ok b, p) => gb_fstype b = "lustre" /\ gb_direct b = true /\ gb_allocator b = Some 17777216
        /\ gb_staging b = Some (1131072, 0) /\ gb_closed b = false /\ g_pools p = [42; 17777216; 1131072]
    | (Raise _, _) => False
    end) as H by (vm_compute; repeat split).
  destruct (ex_open ex_direct_options) as [[b|ex] p]; [|done]. by exists b, p.
Qed.

(** The backend constructed with direct I/O *)
Lemma gds_construction_typed_witness : exists b p, ex_open ex_direct_options = (Ok b, p)
  /\ gds_typed ex_direct_options ex_gmetadata b /\ gb_direct b = true /\ gb_block_first b = true
  /\ g_pools p = [42] ++ pools_of b /\ g_registrations p = [] /\ g_buffers p = [64].
Proof.
  destruct ex_opened as (b & p & He & _ & Hd & _). exists b, p. split; [exact He|].
  pose proof (gds_construction_typed (mret tt) (mret tt) (mret tt) ex_direct_options ex_gmetadata ex_gplatform "cuda:0"
    ex_gprocess) as H. unfold ex_open in He. rewrite He in H. destruct H as (Ht & Hp & Hr & _ & Hb).
  split; [exact Ht|]. split; [exact Hd|]. split; [exact (gt_direct _ _ _ Ht Hd)|].
  split; [exact Hp|]. split; [exact Hr|exact Hb].
Defined.

(** A path that is missing is found out after the allocator is made: its pool stays open. *)
Lemma missing_path_leaks_pool :
  (ex_open (ex_options None [])).1 = Raise AssertionError
  /\ g_pools (ex_open (ex_options None [])).2 = [42; 17777216].
Proof. split; vm_compute; reflexivity. Qed.

(** The integer 1 turns [use_cufile] on but not [gds_direct_only]; the text "1" turns both on. *)
Lemma integer_flag_is_not_true :
  (v ← get_extra_config_bool "gds_direct_only" (Some {[ "gds_direct_only" := OptInt 1 ]}); mret (is_True v)) = Ok false
  /\ (v ← get_extra_config_bool "gds_direct_only" (Some {[ "gds_direct_only" := OptStr "1" ]}); mret (is_True v)) = Ok true
  /\ by_fstype "tmpfs" (Some (OptInt 1)) = Ok (true, GDS_DATA_FILE_SUFFIX, false).
Proof. repeat split; vm_compute; reflexivity. Qed.

(** A mount point that is a prefix of the path's text, not of its components, is taken. *)
Lemma sibling_mount_taken :
  get_fstype ["root / ext4"; "scratch /mnt/g tmpfs"] "/mnt/gds/kv" = Ok "tmpfs".
Proof. vm_compute. reflexivity. Qed.

(** ** Closing *)

Definition ex_close_engine : gds_engine ex_dtype :=
  GdsEngine _ 4 (Some 2) [[2; 1; 4; 512]] [Float16] BlockFirstExamples.ex_engine true
    (TorchDevice "cuda" None) true true.

(** A chunk is stored directly and retrieved into a block that already has tokens: a buffer
    is registered and the scratch block made. *)
Definition ex_session (e : gds_engine ex_dtype) (i : gds_io) : gds_io :=
  let '(r, i1) := save_direct_gds e XdsExamples.ex_path XdsExamples.ex_store i in
  match r with
  | Ok m =>
      let i2 := (load_direct_gds e (fun w => w) XdsExamples.ex_path m ex_edge_retrieve i1).2 in
      if g_edge i2 is Some _ then i2 else i1
  | Raise _ => i1
  end.

Lemma ex_session_activity e i : rtc (gds_activity e) i (ex_session e i).
Proof.
  unfold ex_session. pose proof (act_save e XdsExamples.ex_path XdsExamples.ex_store i) as Hs.
  destruct (save_direct_gds e XdsExamples.ex_path XdsExamples.ex_store i) as [[m|ex] i1]; [|by apply rtc_once].
  simpl in Hs. pose proof (act_load e (fun w => w) XdsExamples.ex_path m ex_edge_retrieve i1) as Hl. simpl in Hl.
  destruct (g_edge (load_direct_gds e _ _ m _ i1).2) eqn:He; [|by apply rtc_once].
  eapply rtc_l; [exact Hs|]. apply rtc_once, Hl. congruence.
Qed.

Lemma ex_sim_succeeds : calls_succeed.
Proof. by split. Qed.

Lemma ex_used : let '(r, p) := ex_open ex_direct_options in
  let i := ex_session ex_close_engine p in
  g_buffers i = [64; 8192] /\ g_pools i = [42; 17777216; 1131072; 1065536] /\ length (g_registrations i) = 1%nat.
Proof. vm_compute. repeat split. Qed.

Lemma gds_close_releases_witness : exists b p, ex_open ex_direct_options = (Ok b, p)
  /\ let n := close_attempts ex_close_engine [ex_session (close_engine b ex_close_engine); id] (GdsNode p b) in
     gb_closed (gn_self n) = true /\ g_registrations (gn_process n) = [] /\ g_edge (gn_process n) = None
     /\ g_buffers (gn_process n) ≡ₚ [64] /\ g_pools (gn_process n) ≡ₚ [42].
Proof.
  destruct ex_opened as (b & p & He & _). exists b, p. split; [exact He|].
  destruct (gds_close_releases (mret tt) (mret tt) (mret tt) ex_direct_options ex_gmetadata ex_gplatform "cuda:0"
    ex_close_engine [ex_session (close_engine b ex_close_engine); id] b ex_gprocess p eq_refl eq_refl He) as (_ & H2 & H3).
  - constructor; [intros i; apply ex_session_activity|]. constructor; [intros i; apply rtc_refl|constructor].
  - intros n. assert (gb_closed (gn_self n) = true) as Hc by (apply H3; [exact ex_sim_succeeds|discriminate]).
    destruct (H2 Hc) as (R1 & R2 & _ & R4 & R5). split; [exact Hc|]. split; [exact R1|]. split; [exact R2|].
    split; [exact R4|exact R5].
Defined.
