(* ===== verification/EngineApi.v ===== *)
(** * The cache engine as its callers see it

    What the connector calls of [LMCacheEngine] ([cache_engine.py]): the arguments of a
    store and of a load, what a layerwise generator yields, and the interface
    [CacheEngine], which [Worker] is proved against and [EngineWorker] discharges with the
    engine of [Engine]. *)

From S2P Require Import Prelude Tensor Codec BlockFirst DirectIO Dict Scheduler.

Open Scope string_scope.
Open Scope list_scope.
Open Scope Z_scope.

(** What a store is called with *)
Record store_args := StoreArgs {
  sa_tokens : list Z;
  sa_mask : list bool;
  sa_slots : list Z;
  sa_offset : Z;
  sa_transfer : option DisaggSpec;
  sa_configs : option (odict string config_value);
  sa_req_id : string;
}.

(** What a load is called with *)
Record load_args := LoadArgs {
  la_tokens : list Z;
  la_mask : list bool;
  la_slots : list Z;
  la_vllm_cached : Z;
  la_configs : option (odict string config_value);
  la_req_id : string;
}.

(** A value a layerwise generator yields, other than [None]: the number of tokens found or
    the mask of the tokens retrieved *)
Inductive yielded : Type :=
  | Tokens (n : Z)
  | Mask (m : list bool).

(** The engine, its state [E]; generators are numbered. *)
Class CacheEngine (E : Type) := {
  e_lookup_unpin : string -> ST E unit;
  e_store : store_args -> ST E unit;
  e_retrieve : load_args -> ST E (list bool);
  e_store_layer : store_args -> bool -> ST E Z;        (* with [sync] *)
  e_retrieve_layer : load_args -> bool -> ST E Z;
  e_blend : load_args -> ST E unit;
  e_next : Z -> ST E (option yielded);
}.

(** [mask.sum().item()] *)
Definition count_true (mask : list bool) : Z := lenZ (filter (fun b => b = true) mask).
