(* ===== verification/Engine.v ===== *)
(** * The cache engine

    [LMCacheEngine] ([cache_engine.py]): storing the chunks of a request, finding and
    pinning them, loading them into the serving engine's cache and releasing them, on top
    of the storage manager of [StorageManager]. The token database, the GPU connector, the
    event manager and the ranks' broadcast are the interface [EngineParts]. Statistics,
    log lines and profile ids are left out. *)

From S2P Require Import Prelude Tensor Codec BlockFirst DirectIO Dict StorageManager Scheduler EngineApi.

Open Scope string_scope.
Open Scope list_scope.
Open Scope Z_scope.

(** ** What the engine calls *)

(** The arguments of [TokenDatabase.process_tokens] *)
Record token_query := TokenQuery {
  tq_tokens : option (list Z);
  tq_hashes : option (list Z);
  tq_offsets : option (list Z);
  tq_mask : option (list bool);
  tq_configs : option (odict string config_value);
}.

(** The keyword arguments of an engine call *)
Record kwargs := Kwargs {
  kw_req_id : option string;
  kw_slot_mapping : option (list Z);
  kw_offset : option Z;
  kw_vllm_cached : option Z;
  kw_transfer_spec : option DisaggSpec;
  kw_configs : option (odict string config_value);
  kw_sync : option bool;
}.

Inductive EventStatus : Type := NOT_FOUND | ONGOING | DONE.

(** What the ranks broadcast: a chunk count, then for each chunk its bounds and the
    metadata of its memory object *)
Inductive message (MD : Type) : Type :=
  | ChunkCount (n : Z)
  | ChunkData (start stop : Z) (metadata : MD).
Arguments ChunkCount {MD} n.
Arguments ChunkData {MD} start stop metadata.

(** A chunk is its bounds and its key. A generator of chunks is the chunks it yields and
    the exception that ends it, if one does. *)
Class EngineParts (B K O S MD : Type) := {
  process_tokens : token_query -> list (Z * Z * K) * option exn;
  chunk_hash : K -> Z;
  split_layers : K -> Z -> list K;
  convert_tokens_to_list : list Z -> Z -> Z -> list Z;
  build_direct_io_plans : list Z -> list Z -> DirectIODirection -> kwargs -> ST S (list DirectIOPlan);
  batched_from_gpu : list O -> list Z -> list Z -> kwargs -> ST S unit;
  batched_to_gpu : list O -> list Z -> list Z -> kwargs -> ST S unit;
  get_shape : Z -> list Z;                             (* of one layer, for so many tokens *)
  layers_from_gpu : list (list O) -> list Z -> list Z -> kwargs -> Z -> ST S unit;  (* a step *)
  layers_to_gpu : list Z -> list Z -> kwargs -> Z -> option (list O) -> ST S unit;  (* a step *)
  dtype_size : string -> Z;
  obj_size : O -> Z;
  obj_tokens : O -> Z;                                 (* its shape at the token dimension *)
  obj_unpin : O -> ST S unit;
  obj_metadata : O -> MD;
  obj_has_raw : O -> bool;
  serialize : O -> ST S O;
  deserialize : O -> ST S O;
  p2p_put : B -> list K -> list O -> string -> list Z -> ST S unit;
  monitor_is_healthy : S -> bool;
  get_event_status : string -> S -> EventStatus;
  get_event_future : string -> ST S (result (list (list (K * O))));
  pop_event : string -> ST S (result (list (list (K * O))));
  broadcast_object : option (message MD) -> ST S (option (message MD));
  broadcast_tensor : O -> ST S unit;
  receive_tensor : MD -> ST S O;
  is_layerwise_connector : bool;
  worker_close : option (ST S unit);                   (* of the controller's worker, if any *)
}.

(** ** Metadata and configuration *)

Record layer_group := LayerGroup {
  lg_num_layers : Z;
  lg_hidden_dim_size : Z;
  lg_dtype : string;
}.

Record LMCacheMetadata := MkMetadata {
  worker_id : Z;
  first_rank : Z;
  md_chunk_size : Z;
  kv_dtype : string;
  kv_shape : list Z;                                   (* layers, 2, chunk size, heads, head size *)
  use_mla : bool;
  kv_layer_groups : list layer_group;
}.

Definition is_first_rank (md : LMCacheMetadata) : bool := worker_id md =? first_rank md.

Definition get_dtypes (md : LMCacheMetadata) : list string :=
  if is_nil (kv_layer_groups md) then [kv_dtype md] else lg_dtype <$> kv_layer_groups md.

Definition get_shapes (md : LMCacheMetadata) (num_tokens : option Z) : result (list (list Z)) :=
  let n := default (md_chunk_size md) num_tokens in
  if is_nil (kv_layer_groups md) then
    a ← py_index (kv_shape md) 1;
    b ← py_index (kv_shape md) 0;
    c ← py_index (kv_shape md) 3;
    d ← py_index (kv_shape md) 4;
    mret [[a; b; n; c * d]]
  else
    mret ((fun g => [if use_mla md then 1 else 2; lg_num_layers g; n; lg_hidden_dim_size g])
            <$> kv_layer_groups md).

(** What the engine reads of its configuration *)
Record engine_config := EngineConfig {
  extra_save_only_first_rank : option bool;
  force_store_wait : bool;
  async_loading : bool;
  eg_use_layerwise : bool;
  eg_enable_blending : bool;
  kv_events_enabled : bool;
  eg_enable_pd : bool;
  pd_role : string;
  store_location : option string;
  retrieve_locations : option (list string);
  lookup_server_worker_ids : list Z;
  has_lmcache_worker : bool;
  has_gpu_connector : bool;
}.

Record CacheStoreEvent := MkStoreEvent {
  block_hash : Z;
  parent_block_hash : option Z;
  ev_token_ids : list Z;
  ev_block_size : Z;
}.

(** The engine's fields. [storage_manager] says whether there is one; its state is
    [manager], which also holds the state of the world outside. *)
Record engine_state {B K S : Type} := EngineState {
  storage_manager : bool;
  manager : sm_state B S;
  lookup_pins : gmap string (odict string (list K));
  kv_events : list CacheStoreEvent;
  post_inited : bool;
  _init_failed : bool;
  _health_monitor : bool;
}.
Arguments engine_state : clear implicits.

Section setters.
Context {B K S : Type}.
Implicit Types s : engine_state B K S.

Definition eg_with_manager (b : bool) (m : sm_state B S) s := EngineState _ _ _ b m (lookup_pins s)
  (kv_events s) (post_inited s) (_init_failed s) (_health_monitor s).
Definition eg_with_pins (p : gmap string (odict string (list K))) s := EngineState _ _ _
  (storage_manager s) (manager s) p (kv_events s) (post_inited s) (_init_failed s) (_health_monitor s).
Definition eg_with_events (l : list CacheStoreEvent) s := EngineState _ _ _ (storage_manager s)
  (manager s) (lookup_pins s) l (post_inited s) (_init_failed s) (_health_monitor s).
Definition eg_with_flags (i f h : bool) s := EngineState _ _ _ (storage_manager s) (manager s)
  (lookup_pins s) (kv_events s) i f h.

(** An operation of the storage manager, and one of the world outside *)
Definition on_manager {A} (m : ST (sm_state B S) A) : ST (engine_state B K S) A := fun s =>
  let '(r, sm) := m (manager s) in (r, eg_with_manager (storage_manager s) sm s).
Definition on_world {A} (m : ST S A) : ST (engine_state B K S) A := on_manager (on_backends m).

End setters.

(** ** Generators

    A generator is its next step: the exception it raises, the end of it, or the value it
    yields and the generator that resumes. *)
Inductive gen (St R : Type) : Type :=
  | Gen (gen_next : St -> result (option (R * gen St R)) * St).
Arguments Gen {St R} gen_next.

Definition gen_next {St R} (g : gen St R) : ST St (option (R * gen St R)) :=
  match g with Gen f => f end.

Definition gen_stop {St R} : gen St R := Gen (fun s => (Ok None, s)).
Definition gen_yield {St R} (r : R) (g : gen St R) : gen St R := Gen (fun s => (Ok (Some (r, g)), s)).
Definition gen_do {St R A} (m : ST St A) (k : A -> gen St R) : gen St R :=
  Gen (m ≫= fun a => gen_next (k a)).

(** [for _ in range(n): yield r] *)
Fixpoint gen_yields {St R} (n : nat) (r : R) (g : gen St R) : gen St R :=
  match n with
  | 0%nat => g
  | Datatypes.S n => gen_yield r (gen_yields n r g)
  end.

(** [mask[i:j] = b] *)
Definition set_slice (i j : Z) (b : bool) (mask : list bool) : list bool :=
  imap (fun k x => if (slice_bound (length mask) i <=? k)%nat && (k <? slice_bound (length mask) j)%nat
                   then b else x) mask.

(** The columns of [rows], up to the shortest row *)
Fixpoint columns {A} (n : nat) (rows : list (list A)) : list (list A) :=
  match n with
  | 0%nat => []
  | Datatypes.S n => omap head rows :: columns n (tail <$> rows)
  end.
Definition transpose {A} (rows : list (list A)) : list (list A) :=
  match rows with
  | [] => []
  | r :: rows' => columns (foldr (fun x n => Nat.min (length x) n) (length r) rows') rows
  end.

Section engine.
Context {B K O S MD : Type} `{!StorageBackend B K O S} `{!EngineParts B K O S MD} `{!EqDecision K}.
Context (cfg : engine_config) (md : LMCacheMetadata).
#[local] Abbreviation M := (ST (engine_state B K S)).
#[local] Abbreviation chunk_info := (Z * Z * K)%type.
#[local] Abbreviation ProcessedChunk := (option K * O * Z * Z)%type.
Implicit Types (s : engine_state B K S).

(** ** The engine's configuration *)

Definition save_only_first_rank : bool :=
  default (use_mla md) (extra_save_only_first_rank cfg) && use_mla md.

Definition remove_after_retrieve : bool := eg_enable_pd cfg && String.eqb (pd_role cfg) "receiver".

Definition num_layers : Z := default 0 (head (kv_shape md)).

Definition fmt : option string :=
  if use_mla md then Some "KV_MLA_FMT"
  else if eg_use_layerwise cfg then
    if eg_enable_blending cfg then Some "KV_2TD" else Some "KV_T2D"
  else None.

Definition _is_passive : bool := save_only_first_rank && negb (is_first_rank md).

(** The engine made by [__init__], in the world [w] *)
Definition init_engine (w : S) : engine_state B K S :=
  EngineState _ _ _ false (SmState _ _ [] false ∅ None None [] [] ∅ w) ∅ [] false false false.

(** ** Health and life cycle *)

Definition set_health_monitor : M unit :=
  st_modify (fun s => eg_with_flags (post_inited s) (_init_failed s) true s).

Definition is_healthy : M bool :=
  st_gets (fun s =>
    if _init_failed s then false
    else if _health_monitor s then monitor_is_healthy (backends_state (manager s)) else true).

Definition mark_init_failed : M unit :=
  st_modify (fun s => eg_with_flags (post_inited s) true (_health_monitor s) s).

(** [assert self.storage_manager is not None] *)
Definition need_manager : M unit :=
  s ← st_get; st_lift (py_assert (storage_manager s)).

Definition makes_manager : bool :=
  has_lmcache_worker cfg || eg_use_layerwise cfg || negb save_only_first_rank || is_first_rank md
  || is_nil (lookup_server_worker_ids cfg) || bool_decide (worker_id md ∈ lookup_server_worker_ids cfg).

Definition post_init (sm_cfg : sm_config)
    (CreateStorageBackends : gset string -> odict string B -> ST S (odict string B)) : M unit :=
  s ← st_get;
  if post_inited s then mret tt
  else
    (if makes_manager then fun s =>
       let '(r, sm) := init_manager sm_cfg CreateStorageBackends (backends_state (manager s)) in
       match r with
       | Ok _ => (Ok tt, eg_with_manager true sm s)
       | Raise e => (Raise e, eg_with_manager false (sm_with_state (backends_state sm) (manager s)) s)
       end
     else mret tt);;
    st_modify (fun s => eg_with_flags true (_init_failed s) (_health_monitor s) s).

(** A call to the storage manager if there is one *)
Definition if_manager {A} (m : ST (sm_state B S) A) (none : A) : M A :=
  s ← st_get; if storage_manager s then on_manager m else mret none.

Definition freeze (enabled : bool) : M unit := if_manager (set_freeze enabled) tt.
Definition is_frozen : M bool := if_manager StorageManager.is_frozen false.
Definition set_hot_cache (enabled : bool) : M unit := if_manager (StorageManager.set_hot_cache enabled) tt.
Definition is_hot_cache_enabled : M bool := if_manager StorageManager.is_hot_cache_enabled false.

Definition health : M Z :=
  need_manager;; good ← on_manager memcheck; mret (if good : bool then 0 else -1).

(** [except Exception] around each of the two closes *)
Definition close : M unit :=
  match worker_close with
  | Some m => st_catch (fun _ => true) (on_world m) (fun _ => mret tt)
  | None => mret tt
  end;;
  st_catch (fun _ => true) (if_manager StorageManager.close tt) (fun _ => mret tt).

(** ** Storing *)

(** [list(process_tokens(...))] *)
Definition all_chunks (q : token_query) : result (list chunk_info) :=
  match process_tokens q with
  | (l, None) => Ok l
  | (_, Some e) => Raise e
  end.

(** The end of a [for] loop over a generator of chunks *)
Definition end_of (e : option exn) : result unit :=
  match e with None => Ok tt | Some e => Raise e end.

(** The arguments [store] accepts *)
Definition check_store_args (q : token_query) (kw : kwargs) : result unit :=
  match tq_mask q, tq_tokens q, tq_hashes q with
  | None, None, Some _ =>
      py_assert (bool_decide (is_Some (tq_offsets q)));;
      if bool_decide (is_Some (kw_slot_mapping kw)) then Ok tt else Raise KeyError
  | _, _, _ => Ok tt
  end;;
  py_assert (bool_decide (is_Some (tq_tokens q)) || bool_decide (is_Some (tq_hashes q))).

Definition direct_plans (infos : list chunk_info) (direction : DirectIODirection) (kw : kwargs)
    : M (list DirectIOPlan) :=
  on_world (build_direct_io_plans ((fun i => i.1.1) <$> infos) ((fun i => i.1.2) <$> infos) direction kw).

(** Which chunks went to storage straight from the GPU *)
Definition store_direct (infos : list chunk_info) (kw : kwargs) : M (list bool) :=
  let none := replicate (length infos) false in
  if is_nil infos then mret none
  else
    supported ← on_manager (supports_direct_io (store_location cfg) (Some STORE));
    if negb supported then mret none
    else
      plans ← direct_plans infos STORE kw;
      on_manager (batched_direct_put (snd <$> infos) plans (store_location cfg)).

(** The event of one stored chunk *)
Definition stored_event (q : token_query) (start stop : Z) (key : K) (prev_key : Z) : CacheStoreEvent :=
  MkStoreEvent (chunk_hash key) (if start =? 0 then None else Some prev_key)
    (match tq_tokens q, tq_hashes q with
     | Some tokens, _ => convert_tokens_to_list tokens start stop
     | None, Some hashes => py_slice hashes start (stop + 1)
     | None, None => []
     end) (stop - start).

Definition add_event (ev : CacheStoreEvent) : M unit :=
  st_modify (fun s => eg_with_events (kv_events s ++ [ev]) s).

(** The loop over the chunks: an object for each chunk that was not stored directly, until
    the allocator has none left *)
Fixpoint store_chunks (q : token_query) (prev_key : Z) (infos : list chunk_info) (direct : list bool)
    : M (list (chunk_info * O)) :=
  match infos, direct with
  | [], [] => mret []
  | (start, stop, key) :: infos, direct_chunk :: direct =>
      shapes ← st_lift (get_shapes md (Some (stop - start)));
      obj ← (if direct_chunk : bool then mret None
             else on_manager (allocate shapes (get_dtypes md) fmt true (force_store_wait cfg)));
      if negb direct_chunk && bool_decide (obj = None) then mret []
      else
        (if kv_events_enabled cfg then add_event (stored_event q start stop key prev_key) else mret tt);;
        rest ← store_chunks q (if kv_events_enabled cfg then chunk_hash key else prev_key) infos direct;
        mret (match obj with Some o => ((start, stop, key), o) :: rest | None => rest end)
  | _, _ => st_raise (ValueError "zip() argument 2 is shorter or longer than argument 1")
  end.

Definition store (q : token_query) (kw : kwargs) : M unit :=
  healthy ← is_healthy;
  if negb healthy then mret tt
  else
    st_lift (py_assert (has_gpu_connector cfg));;
    if _is_passive then mret tt
    else
      need_manager;;
      st_lift (check_store_args q kw);;
      frozen ← is_frozen;
      if frozen : bool then mret tt
      else
        infos ← st_lift (all_chunks q);
        direct ← store_direct infos kw;
        stored ← store_chunks q 0 infos direct;
        if is_nil stored then mret tt
        else
          on_world (batched_from_gpu (snd <$> stored) ((fun c => c.1.1.1) <$> stored)
                      ((fun c => c.1.1.2) <$> stored) kw);;
          on_manager (batched_put ((fun c => c.1.2) <$> stored) (snd <$> stored) (store_location cfg)).

(** ** Looking up and pinning *)

(** Pins of one lookup: [lookup_pins[lookup_id][location].extend(keys)] *)
Definition extend_pins (lookup_id location : string) (keys : list K) : M unit :=
  st_modify (fun s =>
    let pins := default [] (lookup_pins s !! lookup_id) in
    let pins := od_set location (default [] (od_get location pins) ++ keys) pins in
    eg_with_pins (<[lookup_id := pins]> (lookup_pins s)) s).

(** The layerwise lookup: a chunk is found when one tier has all its layers. *)
Fixpoint lookup_layers (infos : list chunk_info) (ending : option exn) (search_range : option (list string))
    (lookup_id : option string) (pin : bool) (res : Z) : M Z :=
  match infos with
  | [] => st_lift (end_of ending);; mret res
  | (_, stop, key) :: infos =>
      let key_all_layers := split_layers key num_layers in
      '(hit_chunks, block_mapping) ← on_manager (batched_contains key_all_layers search_range pin);
      match block_mapping with
      | [(location, _)] =>
          if hit_chunks =? num_layers then
            (if pin then
               match lookup_id with
               | None => st_raise AssertionError
               | Some id => extend_pins id location key_all_layers
               end
             else mret tt);;
            lookup_layers infos ending search_range lookup_id pin stop
          else mret res
      | _ => mret res
      end
  end.

(** The end of the last of the first [hit_chunks] chunks *)
Fixpoint hit_end (infos : list chunk_info) (hit_chunks : Z) (res : Z) : Z :=
  match infos with
  | [] => res
  | (_, stop, _) :: infos => if 0 <? hit_chunks then hit_end infos (hit_chunks - 1) stop else res
  end.

Definition lookup_chunks (q : token_query) (search_range : option (list string))
    (lookup_id : option string) (pin : bool) : M Z :=
  infos ← st_lift (all_chunks q);
  '(hit_chunks, block_mapping) ← on_manager (batched_contains (snd <$> infos) search_range pin);
  (if pin && negb (is_nil block_mapping) then
     match lookup_id with
     | None => st_raise AssertionError
     | Some id => st_modify (fun s => eg_with_pins (<[id := block_mapping]> (lookup_pins s)) s)
     end
   else mret tt);;
  mret (hit_end infos hit_chunks 0).

Definition lookup (q : token_query) (search_range : option (list string)) (lookup_id : option string)
    (pin : bool) : M Z :=
  healthy ← is_healthy;
  if negb healthy then mret 0
  else
    need_manager;;
    st_lift (py_assert (bool_decide (is_Some (tq_tokens q))
      || bool_decide (is_Some (tq_offsets q)) && bool_decide (is_Some (tq_hashes q))));;
    let search_range := match search_range with None => retrieve_locations cfg | r => r end in
    st_finally
      (if eg_use_layerwise cfg then
         lookup_layers (process_tokens q).1 (process_tokens q).2 search_range lookup_id pin 0
       else lookup_chunks q search_range lookup_id pin)
      (if pin then on_manager touch_cache else mret tt).

(** [except Exception] around the release of each object *)
Definition release_pair (ko : K * O) : M unit :=
  st_catch (fun _ => true)
    (on_world (obj_unpin ko.2);; on_world (b_ref_count_down ko.2)) (fun _ => mret tt).

Definition cleanup_memory_objs (lookup_id : string) : M unit :=
  st_catch (fun _ => true)
    (s ← st_get;
     match get_event_status lookup_id (backends_state (manager s)) with
     | DONE =>
         future ← on_world (pop_event lookup_id);
         memory_objs ← st_lift future;
         st_iter release_pair (concat memory_objs)
     | _ => mret tt
     end)
    (fun _ => mret tt).

Definition lookup_unpin (lookup_id : string) : M unit :=
  s ← st_get;
  match (lookup_pins s !! lookup_id : option (odict string (list K))) with
  | Some pins =>
      need_manager;;
      st_modify (fun s => eg_with_pins (delete lookup_id (lookup_pins s)) s);;
      st_iter (fun e : string * list K => on_manager (batched_unpin e.2 (Some [e.1]))) pins
  | None =>
      match get_event_status lookup_id (backends_state (manager s)) with
      | NOT_FOUND => mret tt
      | _ => cleanup_memory_objs lookup_id
      end
  end.

(** What [async_lookup_and_prefetch] hands to the storage manager's coroutine: the keys,
    the cumulative chunk lengths and the search range *)
Definition async_lookup_and_prefetch (q : token_query) (search_range : option (list string))
    : M (list K * list Z * option (list string)) :=
  need_manager;;
  infos ← st_lift (all_chunks q);
  mret (snd <$> infos, 0 :: ((fun i => i.1.2) <$> infos),
        match search_range with None => retrieve_locations cfg | r => r end).

(** ** Moving, compressing and clearing *)

Definition tokens_query (tokens : list Z) (configs : option (odict string config_value)) : token_query :=
  TokenQuery (Some tokens) None None None configs.

(** The objects of the keys that a lookup just pinned in [location]: the number of tokens,
    the keys and the objects, or nothing when nothing was found *)
Definition pinned_objects (tokens : list Z) (location event_id : string)
    : M (option (Z * list K * list O)) :=
  num_tokens ← lookup (tokens_query tokens None) (Some [location]) (Some event_id) true;
  if num_tokens =? 0 then mret None
  else
    s ← st_get;
    let block_mapping := default [] (lookup_pins s !! event_id) in
    st_lift (py_assert (Nat.eqb (length block_mapping) 1));;
    keys ← st_lift (match od_get location block_mapping with
                    | Some keys => Ok keys
                    | None => if eg_use_layerwise cfg then Ok [] else Raise KeyError
                    end);
    objs ← on_manager (batched_get keys (Some location));
    match mapM id objs with
    | None => st_raise AssertionError
    | Some objs => mret (Some (num_tokens, keys, objs))
    end.

Definition move (tokens : list Z) (old_position : string) (new_position : string * string)
    (event_id : string) (do_copy : bool) : M Z :=
  need_manager;;
  found ← pinned_objects tokens old_position event_id;
  match found with
  | None => mret 0
  | Some (num_tokens, keys, memory_objs) =>
      st_lift (raise_if (is_nil memory_objs) IndexError);;
      s ← st_get;
      match od_get "P2PBackend" (storage_backends (manager s)) with
      | None => st_raise KeyError
      | Some p2p => on_world (p2p_put p2p keys memory_objs new_position.1 (obj_tokens <$> memory_objs))
      end;;
      (if negb do_copy then on_manager (batched_remove keys (Some [old_position]));; mret tt else mret tt);;
      mret num_tokens
  end.

(** [compress] and [decompress] differ in the codec. *)
Fixpoint recode_objects (codec : O -> ST S O) (objs : list O) : M (list O) :=
  match objs with
  | [] => mret []
  | o :: objs =>
      o' ← on_world (codec o);
      on_world (obj_unpin o);;
      os ← recode_objects codec objs;
      mret (o' :: os)
  end.

Definition recode (codec : O -> ST S O) (tokens : list Z) (method location event_id : string) : M Z :=
  need_manager;;
  if negb (String.eqb method "cachegen") then mret 0
  else
    found ← pinned_objects tokens location event_id;
    match found with
    | None => mret 0
    | Some (num_tokens, keys, memory_objs) =>
        new ← recode_objects codec memory_objs;
        on_manager (batched_remove keys (Some [location]));;
        on_manager (batched_put keys new (Some location));;
        mret num_tokens
    end.

Definition compress := recode serialize.
Definition decompress := recode deserialize.

Fixpoint remove_chunks (infos : list chunk_info) (ending : option exn) (locations : option (list string))
    (num_removed : Z) : M Z :=
  match infos with
  | [] => st_lift (end_of ending);; mret num_removed
  | (_, _, key) :: infos =>
      removed ← on_manager (StorageManager.remove key locations);
      remove_chunks infos ending locations (num_removed + removed)
  end.

Definition _clear (tokens : option (list Z)) (locations : option (list string))
    (configs : option (odict string config_value)) : M Z :=
  need_manager;;
  match tokens with
  | None | Some [] => on_manager (StorageManager.clear locations)
  | Some tokens =>
      let '(infos, ending) := process_tokens (tokens_query tokens configs) in
      remove_chunks infos ending locations 0
  end.

Definition clear (tokens : option (list Z)) (locations : option (list string))
    (configs : option (odict string config_value)) : M Z :=
  if save_only_first_rank && negb (is_first_rank md) then mret 0
  else _clear tokens locations configs.

Definition get_kv_events : M (list CacheStoreEvent) :=
  s ← st_get;
  if kv_events_enabled cfg && negb (is_nil (kv_events s))
  then st_modify (eg_with_events []);; mret (kv_events s)
  else mret [].

(** ** Loading *)

(** What [_process_tokens_internal] builds: the chunks to copy to the GPU, their size and
    the mask of the tokens found *)
Record processed := Processed {
  reordered_chunks : list ProcessedChunk;
  tot_kv_size : Z;
  ret_mask : list bool;
}.

Definition add_chunk (key : option K) (o : O) (start stop : Z) (p : processed) : processed :=
  Processed (reordered_chunks p ++ [(key, o, start, stop)]) (tot_kv_size p + obj_size o)
    (set_slice start stop true (ret_mask p)).

Definition add_direct (start stop size : Z) (p : processed) : processed :=
  Processed (reordered_chunks p) (tot_kv_size p + size) (set_slice start stop true (ret_mask p)).

(** The bytes of a chunk's tensors *)
Definition chunk_bytes (num_tokens : Z) : result Z :=
  shapes ← get_shapes md (Some num_tokens);
  if Nat.eqb (length shapes) (length (get_dtypes md))
  then Ok (sumZ (zip_with (fun sh dt => prodZ sh * dtype_size dt) shapes (get_dtypes md)))
  else Raise (ValueError "zip() argument 2 is shorter or longer than argument 1").

(** [if last is None or last < start: last = start] *)
Definition later_failure (last : option Z) (start : Z) : option Z :=
  match last with
  | None => Some start
  | Some l => if l <? start then Some start else Some l
  end.

(** The blocks of one location in order: those loaded directly, and the others with their
    objects, up to the first that has none. Returns also the objects that are left. *)
Fixpoint load_blocks (blocks : list (K * Z * Z)) (direct : list bool) (objs : list (option O))
    (p : processed) (last_failed : option Z) : result (processed * option Z * list (option O)) :=
  match blocks, direct with
  | (key, start, stop) :: blocks, d :: direct =>
      if d : bool then
        size ← chunk_bytes (stop - start);
        load_blocks blocks direct objs (add_direct start stop size p) last_failed
      else
        match objs with
        | [] => Raise IndexError
        | None :: objs => Ok (p, later_failure last_failed start, objs)
        | Some o :: objs => load_blocks blocks direct objs (add_chunk (Some key) o start stop p) last_failed
        end
  | _, _ => Ok (p, last_failed, objs)
  end.

Definition get_direct (location : string) (blocks : list (K * Z * Z)) (kw : kwargs) : M (list bool) :=
  supported ← on_manager (supports_direct_io (Some location) (Some RETRIEVE));
  if negb supported then mret (replicate (length blocks) false)
  else
    plans ← on_world (build_direct_io_plans ((fun i => i.1.2) <$> blocks) ((fun i => i.2) <$> blocks) RETRIEVE kw);
    on_manager (batched_direct_get ((fun i => i.1.1) <$> blocks) plans location).

(** The blocks whose flag is off *)
Definition fallback_blocks (blocks : list (K * Z * Z)) (direct : list bool) : list (K * Z * Z) :=
  fst <$> filter (fun bd => bd.2 = false) (zip blocks direct).

Definition get_fallback (location : string) (fallback : list (K * Z * Z)) : M (list (option O)) :=
  if is_nil fallback then mret []
  else on_manager (batched_get ((fun i => i.1.1) <$> fallback) (Some location)).

(** [for memory_obj in objs: if memory_obj is not None: memory_obj.ref_count_down()] *)
Definition release_left : list (option O) -> M unit :=
  st_iter (fun o => match o with Some o => on_world (b_ref_count_down o) | None => mret tt end).

Definition load_location (location : string) (blocks : list (K * Z * Z)) (kw : kwargs)
    (p : processed) (last_failed : option Z) : M (processed * option Z) :=
  direct ← get_direct location blocks kw;
  st_lift (raise_if (negb (Nat.eqb (length blocks) (length direct)))
    (ValueError "zip() argument 2 is shorter or longer than argument 1"));;
  objs ← get_fallback location (fallback_blocks blocks direct);
  '(p, last_failed, remaining) ← st_lift (load_blocks blocks direct objs p last_failed);
  release_left remaining;;
  mret (p, last_failed).

Fixpoint load_locations (mapping : odict string (list (K * Z * Z))) (kw : kwargs)
    (p : processed) (last_failed : option Z) : M (processed * option Z) :=
  match mapping with
  | [] => mret (p, last_failed)
  | (location, blocks) :: mapping =>
      '(p, last_failed) ← load_location location blocks kw p last_failed;
      load_locations mapping kw p last_failed
  end.

(** What is kept after a block could not be loaded *)
Definition drop_failed (p : processed) (last_failed : option Z) : processed :=
  match last_failed with
  | None => p
  | Some last =>
      Processed (filter (fun c => c.2 < last) (reordered_chunks p)) (tot_kv_size p)
        (set_slice last (lenZ (ret_mask p)) false (ret_mask p))
  end.

Definition to_blocks (infos : list chunk_info) : list (K * Z * Z) :=
  (fun i => (i.2, i.1.1, i.1.2)) <$> infos.

(** Where the chunks are: in the one location the lookup pinned, or wherever the storage
    manager finds them *)
Definition locate (chunk_infos : list (K * Z * Z)) (kw : kwargs) : M (odict string (list (K * Z * Z))) :=
  s ← st_get;
  match kw_req_id kw ≫= fun id => lookup_pins s !! id with
  | Some [(location, _)] => mret [(location, chunk_infos)]
  | _ => on_manager (get_block_mapping chunk_infos)
  end.

Definition _process_tokens_internal (q : token_query) (mask0 : list bool) (kw : kwargs) : M processed :=
  need_manager;;
  infos ← st_lift (all_chunks q);
  mapping ← locate (to_blocks infos) kw;
  '(p, last_failed) ← load_locations mapping kw (Processed [] 0 mask0) None;
  mret (drop_failed p last_failed).

(** [memory_obj_map]: the objects the prefetch loaded; a key's last object counts. *)
Definition memory_obj_map (results : list (list (K * O))) : odict K O :=
  foldl (fun d ko => od_set ko.1 ko.2 d) [] (concat results).

(** The chunks up to the first that was not loaded *)
Fixpoint take_loaded (loaded : odict K O) (infos : list chunk_info) (ending : option exn) (p : processed)
    : result processed :=
  match infos with
  | [] => end_of ending;; mret p
  | (start, stop, key) :: infos =>
      match od_get key loaded with
      | None => Ok p
      | Some o => take_loaded loaded infos ending (add_chunk (Some key) o start stop p)
      end
  end.

Definition used_keys (p : processed) : list K := omap (fun c => c.1.1.1) (reordered_chunks p).

Definition _async_process_tokens_internal (q : token_query) (mask0 : list bool) (kw : kwargs) : M processed :=
  req_id ← st_lift (match kw_req_id kw with Some id => Ok id | None => Raise AssertionError end);
  future ← on_world (get_event_future req_id);
  match future with
  | Raise _ => mret (Processed [] 0 mask0)
  | Ok keyed_memory_objs =>
      let loaded := memory_obj_map keyed_memory_objs in
      p ← st_lift (take_loaded loaded (process_tokens q).1 (process_tokens q).2 (Processed [] 0 mask0));
      st_iter (fun ko : K * O =>
        if bool_decide (ko.1 ∈ used_keys p) then mret tt else on_world (b_ref_count_down ko.2)) loaded;;
      mret p
  end.

(** ** Sharing the loaded chunks with the other ranks *)

(** The first rank sends its chunks. *)
Definition broadcast_chunk (c : ProcessedChunk) : M unit :=
  let '(_, o, start, stop) := c in
  on_world (broadcast_object (Some (ChunkData start stop (obj_metadata o))));;
  st_lift (py_assert (obj_has_raw o));;
  on_world (broadcast_tensor o).

(** The other ranks receive so many. *)
Fixpoint receive_chunks (n : nat) (p : processed) : M processed :=
  match n with
  | 0%nat => mret p
  | Datatypes.S n =>
      msg ← on_world (broadcast_object None);
      match msg with
      | None => mret p
      | Some (ChunkCount _) => st_raise TypeError
      | Some (ChunkData start stop metadata) =>
          o ← on_world (receive_tensor metadata);
          receive_chunks n (Processed (reordered_chunks p ++ [(None, o, start, stop)]) (tot_kv_size p)
                              (set_slice start stop true (ret_mask p)))
      end
  end.

Definition _broadcast_or_receive_memory_objs (p : processed) : M processed :=
  if is_first_rank md then
    on_world (broadcast_object (Some (ChunkCount (lenZ (reordered_chunks p)))));;
    st_iter broadcast_chunk (reordered_chunks p);;
    mret p
  else
    count ← on_world (broadcast_object None);
    match count with
    | None => mret p
    | Some (ChunkData _ _ _) => st_raise TypeError
    | Some (ChunkCount n) => receive_chunks (Z.to_nat n) p
    end.

(** The chunk's entry is dropped if asked for, its object released unless the event manager
    still holds it. *)
Definition finish_chunk (c : ProcessedChunk) : M unit :=
  let '(key, o, _, _) := c in
  (if remove_after_retrieve && negb _is_passive then
     need_manager;;
     match key with
     | Some key => on_manager (StorageManager.remove key (retrieve_locations cfg));; mret tt
     | None => st_raise AttributeError
     end
   else mret tt);;
  if async_loading cfg then mret tt else on_world (b_ref_count_down o).

Definition retrieve (q : token_query) (tokens : list Z) (kw : kwargs) : M (list bool) :=
  let zeros := replicate (length tokens) false in
  healthy ← is_healthy;
  if negb healthy then mret zeros
  else
    st_lift (py_assert (has_gpu_connector cfg));;
    p ← (if _is_passive then mret (Processed [] 0 zeros)
         else if async_loading cfg then _async_process_tokens_internal q zeros kw
         else _process_tokens_internal q zeros kw);
    p ← (if save_only_first_rank then _broadcast_or_receive_memory_objs p else mret p);
    let chunks := reordered_chunks p in
    (if is_nil chunks then mret tt
     else on_world (batched_to_gpu ((fun c => c.1.1.2) <$> chunks) ((fun c => c.1.2) <$> chunks)
                      (snd <$> chunks) kw));;
    st_iter finish_chunk chunks;;
    mret (ret_mask p).

(** ** Layer by layer *)

#[local] Abbreviation layers := (gen (engine_state B K S) (option yielded)).

Definition layer_ids : list Z := rangeZ 0 (Z.to_nat num_layers).

(** The chunks to store: those whose first layer is in no tier, with the keys and the
    objects of all layers, until the allocator has none left *)
Fixpoint layer_chunks (q : token_query) (prev_key : Z) (infos : list chunk_info) (ending : option exn)
    : M (list (Z * Z * list K * list O)) :=
  match infos with
  | [] => st_lift (end_of ending);; mret []
  | (start, stop, key) :: infos =>
      let keys_multi_layer := split_layers key num_layers in
      first ← st_lift (py_index keys_multi_layer 0);
      found ← on_manager (StorageManager.contains first (retrieve_locations cfg) false);
      match found with
      | Some _ => layer_chunks q prev_key infos ending
      | None =>
          objs ← on_manager (batched_allocate [get_shape (stop - start)] [kv_dtype md] num_layers fmt
                              true (force_store_wait cfg));
          match objs with
          | None => mret []
          | Some memory_objs_multi_layer =>
              (if kv_events_enabled cfg then add_event (stored_event q start stop key prev_key) else mret tt);;
              rest ← layer_chunks q (if kv_events_enabled cfg then chunk_hash key else prev_key) infos ending;
              mret ((start, stop, keys_multi_layer, memory_objs_multi_layer) :: rest)
          end
      end
  end.

(** One layer: its copy from the GPU is finished and the one of the layer before is stored. *)
Definition store_one_layer (keys : list (list K)) (objs : list (list O)) (starts ends : list Z)
    (kw : kwargs) (layer_id : Z) : M unit :=
  on_world (layers_from_gpu objs starts ends kw (layer_id + 1));;
  ks ← st_lift (py_index keys layer_id);
  os ← st_lift (py_index objs layer_id);
  on_manager (batched_put ks os (store_location cfg)).

Fixpoint store_layers (ids : list Z) (keys : list (list K)) (objs : list (list O)) (starts ends : list Z)
    (kw : kwargs) (g : layers) : layers :=
  match ids with
  | [] => g
  | layer_id :: ids =>
      gen_yield None (gen_do (store_one_layer keys objs starts ends kw layer_id) (fun _ =>
        store_layers ids keys objs starts ends kw g))
  end.

Definition store_layer (q : token_query) (kw : kwargs) : layers :=
  gen_do is_healthy (fun healthy : bool =>
  if negb healthy then gen_stop
  else
    gen_do (need_manager;; st_lift (py_assert (has_gpu_connector cfg));; is_frozen) (fun frozen : bool =>
    if frozen then gen_yields (Z.to_nat num_layers) None gen_stop
    else
      gen_do (layer_chunks q 0 (process_tokens q).1 (process_tokens q).2) (fun chunks =>
      let finish := gen_yield None gen_stop in
      if is_nil chunks then gen_yields (Z.to_nat num_layers) None finish
      else
        let keys := transpose ((fun c => c.1.2) <$> chunks) in
        let objs := transpose (snd <$> chunks) in
        let starts := (fun c => c.1.1.1) <$> chunks in
        let ends := (fun c => c.1.1.2) <$> chunks in
        gen_do (st_lift (py_assert is_layerwise_connector);; on_world (layers_from_gpu objs starts ends kw 0)) (fun _ =>
        store_layers layer_ids keys objs starts ends kw finish)))).

(** The chunks found up to the first that is in no tier, all of them in one location, and
    the mask of their tokens *)
Fixpoint layer_hits (infos : list chunk_info) (ending : option exn) (location : option string)
    (mask : list bool) : M (list (Z * Z * list K) * option string * list bool) :=
  match infos with
  | [] => st_lift (end_of ending);; mret ([], location, mask)
  | (start, stop, key) :: infos =>
      let keys_multi_layer := split_layers key num_layers in
      first ← st_lift (py_index keys_multi_layer 0);
      found ← on_manager (StorageManager.contains first (retrieve_locations cfg) false);
      match found with
      | None => mret ([], location, mask)
      | Some current_location =>
          st_lift (py_assert (match location with
                              | None => true
                              | Some l => String.eqb l current_location
                              end));;
          '(rest, location, mask) ← layer_hits infos ending (Some current_location)
                                      (set_slice start stop true mask);
          mret ((start, stop, keys_multi_layer) :: rest, location, mask)
      end
  end.

(** One layer per step: its load is run, then a value is yielded, then its objects go to
    the GPU; all objects are released after the last layer. *)
Fixpoint load_layers (ids : list Z) (steps : list (ST (sm_state B S) (result (list O)))) (count : Z)
    (starts ends : list Z) (kw : kwargs) (to_count_down : list O) (g : layers) : layers :=
  match ids with
  | [] => gen_do (st_iter (fun o => on_world (b_ref_count_down o)) to_count_down) (fun _ => g)
  | layer_id :: ids =>
      match steps with
      | [] => gen_do (st_raise (A := unit) (RuntimeError "generator raised StopIteration")) (fun _ => gen_stop)
      | step :: steps =>
          gen_do (on_manager step) (fun task =>
          gen_yield (if layer_id =? 0 then Some (Tokens count) else None)
            (gen_do (mem_objs_layer ← st_lift task;
                     on_world (layers_to_gpu starts ends kw (layer_id + 1) (Some mem_objs_layer));;
                     mret mem_objs_layer) (fun mem_objs_layer =>
            load_layers ids steps count starts ends kw (to_count_down ++ mem_objs_layer) g)))
      end
  end.

Definition retrieve_layer (q : token_query) (tokens : list Z) (kw : kwargs) : layers :=
  let zeros := replicate (length tokens) false in
  gen_do is_healthy (fun healthy : bool =>
  if negb healthy then gen_yield (Some (Mask zeros)) gen_stop
  else
    gen_do (need_manager;; st_lift (py_assert (has_gpu_connector cfg));;
            layer_hits (process_tokens q).1 (process_tokens q).2 None zeros) (fun '(hits, location, mask) =>
    let starts := (fun c => c.1.1) <$> hits in
    let ends := (fun c => c.1.2) <$> hits in
    let finish := gen_yield (Some (Mask mask)) gen_stop in
    if is_nil hits then
      gen_yields (Z.to_nat num_layers) None (gen_yield None
        (gen_do (st_raise (A := unit) UnboundLocalError) (fun _ => finish)))
    else
      let keys_layer_major := transpose (snd <$> hits) in
      gen_do (st_lift (py_assert is_layerwise_connector);; on_world (layers_to_gpu starts ends kw 0 None)) (fun _ =>
      load_layers layer_ids (layerwise_batched_get keys_layer_major location) (count_true mask) starts ends kw []
        (gen_yield None
          (gen_do (on_world (layers_to_gpu starts ends kw (num_layers + 1) None)) (fun _ => finish)))))).

End engine.
