(* ===== verification/EngineBuilder.v ===== *)
(** * The registry of engines

    [LMCacheEngineBuilder] ([cache_engine.py]): the class-level dictionaries of engines,
    configurations, metadata and statistics loggers, keyed by instance id, and the choice
    of the memory allocator. Engines and loggers are numbered; making and closing them are
    parameters. *)

From S2P Require Import Prelude Tensor Codec BlockFirst DirectIO Dict StorageManager Scheduler EngineApi Engine.

Open Scope string_scope.
Open Scope list_scope.
Open Scope Z_scope.

Section builder.
Context {C W : Type} `{!EqDecision C} {MT : Type} `{!EqDecision MT}.

(** [LMCacheStatsLogger], [LMCacheEngine] and what they are closed with *)
Context (make_logger : MT -> C -> ST W Z) (make_engine : C -> MT -> ST W Z).
Context (shutdown_logger close_engine : Z -> ST W unit) (destroy_monitor : ST W unit).

Record builder_state := BuilderState {
  _instances : gmap string Z;
  _cfgs : gmap string C;
  _metadatas : gmap string MT;
  _stat_loggers : gmap string Z;
  outside : W;
}.

#[local] Abbreviation M := (ST builder_state).
Implicit Types s : builder_state.

Definition in_world {A} (m : ST W A) : M A := fun s =>
  let '(r, w) := m (outside s) in
  (r, BuilderState (_instances s) (_cfgs s) (_metadatas s) (_stat_loggers s) w).

Definition register (id : string) (engine logger : Z) (cfg : C) (md : MT) s : builder_state :=
  BuilderState (<[id := engine]> (_instances s)) (<[id := cfg]> (_cfgs s)) (<[id := md]> (_metadatas s))
    (<[id := logger]> (_stat_loggers s)) (outside s).

Definition unregister (id : string) s : builder_state :=
  BuilderState (delete id (_instances s)) (delete id (_cfgs s)) (delete id (_metadatas s))
    (delete id (_stat_loggers s)) (outside s).

Definition get_or_create (id : string) (cfg : C) (md : MT) : M Z :=
  s ← st_get;
  match _instances s !! id with
  | None =>
      logger ← in_world (make_logger md cfg);
      engine ← in_world (make_engine cfg md);
      st_modify (register id engine logger cfg md);;
      mret engine
  | Some engine =>
      c ← st_lift (result_of_option KeyError (_cfgs s !! id));
      m ← st_lift (result_of_option KeyError (_metadatas s !! id));
      if bool_decide (c = cfg) && bool_decide (m = md) then mret engine
      else st_raise (ValueError "already exists with a different configuration or metadata")
  end.

Definition get (id : string) : M (option Z) := st_gets (fun s => _instances s !! id).

(** [try: m except Exception as e: logger.error(...)] *)
Definition logged (m : M unit) : M unit := st_catch (fun _ => true) m (fun _ => mret tt).

Definition destroy (id : string) : M unit :=
  s ← st_get;
  match _instances s !! id with
  | None => mret tt
  | Some engine =>
      stat_logger ← st_lift (result_of_option KeyError (_stat_loggers s !! id));
      logged (in_world (shutdown_logger stat_logger));;
      logged (in_world (close_engine engine));;
      st_modify (unregister id);;
      logged (in_world destroy_monitor)
  end.

(** ** The dictionaries agree *)

Inductive builder_step : builder_state -> builder_state -> Prop :=
  | step_create id cfg md s r s' : get_or_create id cfg md s = (r, s') -> builder_step s s'
  | step_destroy id s r s' : destroy id s = (r, s') -> builder_step s s'.

Definition registry_ok s : Prop :=
  forall id, (is_Some (_cfgs s !! id) <-> is_Some (_instances s !! id)) /\
    (is_Some (_metadatas s !! id) <-> is_Some (_instances s !! id)) /\
    (is_Some (_stat_loggers s !! id) <-> is_Some (_instances s !! id)).

Definition dictionaries_equal s s' : Prop :=
  _instances s' = _instances s /\ _cfgs s' = _cfgs s /\ _metadatas s' = _metadatas s /\
  _stat_loggers s' = _stat_loggers s.

Lemma equal_trans s1 s2 s3 : dictionaries_equal s1 s2 -> dictionaries_equal s2 s3 -> dictionaries_equal s1 s3.
Proof. unfold dictionaries_equal. intros (? & ? & ? & ?) (? & ? & ? & ?). split_and!; congruence. Qed.

Lemma in_world_keeps {A} (m : ST W A) s r s' : in_world m s = (r, s') -> dictionaries_equal s s'.
Proof. unfold in_world. destruct (m (outside s)) as [r' w]. by intros [= _ <-]. Qed.

Lemma logged_returns (m : ST W unit) s :
  exists s', logged (in_world m) s = (Ok tt, s') /\ dictionaries_equal s s'.
Proof.
  unfold logged, st_catch. destruct (in_world m s) as [[[]|e] s'] eqn:E; apply in_world_keeps in E; by exists s'.
Qed.

Lemma registry_ok_equal s s' : dictionaries_equal s s' -> registry_ok s -> registry_ok s'.
Proof. unfold registry_ok. intros (-> & -> & -> & ->). done. Qed.

Lemma delete_absent {V} (m : gmap string V) (i : option Z) id :
  i = None -> (is_Some (m !! id) <-> is_Some i) -> delete id m = m.
Proof.
  intros -> [H _]. apply delete_id. destruct (m !! id); [|done]. by destruct H.
Qed.

(** [destroy] returns, and forgets the engine in all four dictionaries. *)
Lemma destroy_run id s :
  registry_ok s ->
  exists s', destroy id s = (Ok tt, s') /\ dictionaries_equal (unregister id s) s'.
Proof.
  intros Hok. unfold destroy, mbind at 1, ST_bind at 1, st_get. destruct (_instances s !! id) as [engine|] eqn:Ei.
  2: { exists s. split; [done|]. destruct (Hok id) as (Hc & Hm & Hl). unfold dictionaries_equal. cbn.
       by rewrite (delete_absent _ _ _ Ei Hc), (delete_absent _ _ _ Ei Hm), (delete_absent _ _ _ Ei Hl), (delete_id _ _ Ei). }
  destruct (Hok id) as (_ & _ & [_ [logger Hl]]); [by exists engine|].
  unfold mbind, ST_bind, st_lift. rewrite Hl. cbn [result_of_option].
  destruct (logged_returns (shutdown_logger logger) s) as (s1 & -> & H1).
  destruct (logged_returns (close_engine engine) s1) as (s2 & -> & H2). cbn [st_modify].
  destruct (logged_returns destroy_monitor (unregister id s2)) as (s3 & E & H3).
  unfold st_modify. rewrite E. exists s3. split; [done|]. eapply equal_trans; [|exact H3].
  destruct (equal_trans _ _ _ H1 H2) as (Hi & Hc & Hm & Hlg). unfold dictionaries_equal, unregister. cbn.
  by rewrite Hi, Hc, Hm, Hlg.
Qed.

Lemma registry_ok_unregister id s : registry_ok s -> registry_ok (unregister id s).
Proof.
  intros Hok id'. unfold unregister. cbn. destruct (decide (id = id')) as [<-|Hne].
  - rewrite !lookup_delete_eq. split_and!; split; by intros [? ?].
  - rewrite !lookup_delete_ne by done. apply Hok.
Qed.

Lemma get_or_create_keeps id cfg md s r s' :
  get_or_create id cfg md s = (r, s') ->
  dictionaries_equal s s' \/ exists engine logger s1, dictionaries_equal s s1 /\ s' = register id engine logger cfg md s1.
Proof.
  unfold get_or_create, mbind at 1, ST_bind at 1, st_get. destruct (_instances s !! id) as [engine|].
  - unfold mbind, ST_bind, st_lift. destruct (result_of_option _ (_cfgs s !! id)); [|by intros [= _ <-]; left].
    destruct (result_of_option _ (_metadatas s !! id)); [|by intros [= _ <-]; left].
    destruct (_ && _); intros [= _ <-]; by left.
  - unfold mbind, ST_bind. destruct (in_world (make_logger md cfg) s) as [[logger|e] s1] eqn:E1;
      apply in_world_keeps in E1; [|by intros [= _ <-]; left].
    destruct (in_world (make_engine cfg md) s1) as [[engine|e] s2] eqn:E2;
      apply in_world_keeps in E2; [|intros [= _ <-]; left; by eapply equal_trans].
    intros [= _ <-]. right. exists engine, logger, s2. split; [by eapply equal_trans|done].
Qed.

Lemma builder_step_ok s s' : registry_ok s -> builder_step s s' -> registry_ok s'.
Proof.
  intros Hok Hstep. revert Hok. destruct Hstep as [id cfg md s0 r s1 H|id s0 r s1 H]; intros Hok.
  - apply get_or_create_keeps in H as [H|(engine & logger & s2 & H & ->)]; [by eapply registry_ok_equal|].
    pose proof (registry_ok_equal _ _ H Hok) as Hok2. intros id'. unfold register. cbn.
    destruct (decide (id = id')) as [<-|Hne]; [rewrite !lookup_insert_eq|rewrite !lookup_insert_ne by done; apply Hok2].
    split_and!; split; intros _; by eexists.
  - destruct (destroy_run id s0 Hok) as (s2 & E & Heq). rewrite E in H. injection H as _ <-.
    eapply registry_ok_equal; [exact Heq|by apply registry_ok_unregister].
Qed.

(** After any calls of [get_or_create] and [destroy] the four dictionaries have the same
    keys; a known instance is returned unchanged for the configuration it was made with and
    refused with [ValueError] for another; and destroying one returns and forgets it
    everywhere, even when its logger or the engine fails to close. *)
Theorem registry_correct w s :
  rtc builder_step (BuilderState ∅ ∅ ∅ ∅ w) s ->
  registry_ok s /\
  (forall id engine, _instances s !! id = Some engine -> exists c m,
     _cfgs s !! id = Some c /\ _metadatas s !! id = Some m /\
     forall cfg md, get_or_create id cfg md s =
       (if decide (c = cfg /\ m = md) then Ok engine
        else Raise (ValueError "already exists with a different configuration or metadata"), s)) /\
  (forall id, exists s', destroy id s = (Ok tt, s') /\ dictionaries_equal (unregister id s) s').
Proof.
  intros Hrtc. assert (registry_ok s) as Hok.
  { assert (registry_ok (BuilderState ∅ ∅ ∅ ∅ w)) as H0 by (intros id; cbn; rewrite !lookup_empty; split_and!; split; by intros [? ?]).
    revert H0 Hrtc. generalize (BuilderState ∅ ∅ ∅ ∅ w). intros s0 H0 Hrtc.
    induction Hrtc as [|s0 s1 s2 H1 _ IH]; [done|]. apply IH. by eapply builder_step_ok. }
  split; [done|]. split; [|intros id; by apply destroy_run].
  intros id engine Hi. destruct (Hok id) as ([_ [c Hc]] & [_ [m Hm]] & _); [by exists engine|by exists engine|].
  exists c, m. split_and!; try done. intros cfg md. unfold get_or_create, mbind, ST_bind, st_get, st_lift.
  rewrite Hi, Hc, Hm. cbn [result_of_option].
  destruct (decide (c = cfg /\ m = md)) as [[<- <-]|Hne]; [by rewrite !bool_decide_true|].
  destruct (bool_decide (c = cfg)) eqn:E1; [|done]. destruct (bool_decide (m = md)) eqn:E2; [|done].
  bool_prop. by destruct Hne.
Qed.

End builder.

(** ** The memory allocator of a configuration *)

(** The allocators, with the sizes they are made with *)
Inductive allocator_choice : Type :=
  | PagedTensorMemoryAllocator (device : string) (size : Z)
  | CuFileMemoryAllocator (size : Z)
  | HyFileMemoryAllocator (size : Z) (mla : bool)
  | MixedMemoryAllocator (size_gb : Z).

Record allocator_config := AllocatorConfig {
  enable_nixl_storage : bool;
  nixl_buffer_device : string;                         (* corrected for the worker *)
  nixl_buffer_size : Z;
  gds_path : option string;
  cufile_buffer_size : option Z;
  ac_xds_path : option string;
  xds_buffer_size : option Z;
  max_local_cpu_size : Z;                              (* in gigabytes *)
  first_rank_max_local_cpu_size : option Z;
  ac_save_only_first_rank : option bool;
  has_cuda : bool;                                     (* [torch.version.cuda is not None] *)
}.

Definition _Create_memory_allocator (c : allocator_config) (md : LMCacheMetadata) : result allocator_choice :=
  if enable_nixl_storage c then Ok (PagedTensorMemoryAllocator (nixl_buffer_device c) (nixl_buffer_size c))
  else
    match gds_path c, ac_xds_path c with
    | Some _, _ =>
        size ← result_of_option AssertionError (cufile_buffer_size c);
        mret (CuFileMemoryAllocator (size * 1024 ^ 2))
    | None, Some _ =>
        size ← result_of_option AssertionError (xds_buffer_size c);
        mret (if has_cuda c then CuFileMemoryAllocator (size * 1024 ^ 2)
              else HyFileMemoryAllocator (size * 1024 ^ 2) (use_mla md))
    | None, None =>
        let first := default (use_mla md) (ac_save_only_first_rank c) && use_mla md && is_first_rank md in
        mret (MixedMemoryAllocator (if first then default (max_local_cpu_size c) (first_rank_max_local_cpu_size c)
                                    else max_local_cpu_size c))
    end.

Module BuilderExamples.

Definition fresh : ST Z Z := fun n => (Ok n, n + 1).
Definition busy : ST Z unit := st_raise (RuntimeError "busy").

(** One engine is made, looked up with another configuration, and destroyed although it
    fails to close. *)
Lemma registry_correct_witness :
  let create := get_or_create (C := string) (MT := Z) (fun _ _ => fresh) (fun _ _ => fresh) in
  let s := (create "id" "a" 1 (BuilderState (C := string) (MT := Z) ∅ ∅ ∅ ∅ 0)).2 in
  create "id" "a" 1 s = (Ok 1, s) /\
  (create "id" "b" 1 s).1 = Raise (ValueError "already exists with a different configuration or metadata") /\
  exists s', destroy (C := string) (MT := Z) (fun _ => busy) (fun _ => busy) busy "id" s = (Ok tt, s') /\
    _instances s' = ∅.
Proof.
  intros create s.
  destruct (registry_correct (C := string) (MT := Z) (fun _ _ => fresh) (fun _ _ => fresh) (fun _ => busy) (fun _ => busy) busy 0 s)
    as (_ & Hget & Hdel).
  { apply rtc_once. by eapply (step_create _ _ _ _ _ "id" "a" 1). }
  destruct (Hget "id" 1 ltac:(by vm_compute)) as (c & m & Hc & Hm & H). vm_compute in Hc, Hm.
  injection Hc as <-. injection Hm as <-.
  split; [rewrite H; by rewrite decide_True|]. split; [rewrite H; by rewrite decide_False by naive_solver|].
  destruct (Hdel "id") as (s' & E & Hi & _). exists s'. split; [exact E|]. rewrite Hi. by vm_compute.
Defined.

End BuilderExamples.
