(* ===== verification/EngineRetrieve.v ===== *)
(** * What a load delivers

    The blocking load of [Engine._process_tokens_internal]: which chunks go to the GPU and
    which tokens the returned mask claims; the asynchronous load and the release of what
    was prefetched. *)

From S2P Require Import Prelude Tensor Codec BlockFirst DirectIO Dict StorageManager Scheduler EngineApi Engine.

Open Scope string_scope.
Open Scope list_scope.
Open Scope Z_scope.

(** ** Masks *)

Lemma length_set_slice i j b m : length (set_slice i j b m) = length m.
Proof. unfold set_slice. by rewrite length_imap. Qed.

Lemma set_slice_lookup i j b m k x :
  0 <= i -> 0 <= j -> m !! k = Some x ->
  set_slice i j b m !! k = Some (if (i <=? Z.of_nat k) && (Z.of_nat k <? j) then b else x).
Proof.
  intros Hi Hj Hk. pose proof (lookup_lt_Some _ _ _ Hk) as Hlt.
  unfold set_slice, slice_bound. rewrite list_lookup_imap, Hk.
  rewrite !(proj2 (Z.ltb_ge _ _)) by lia. cbn [fmap option_fmap option_map]. f_equal.
  assert ((Nat.min (Z.to_nat i) (length m) <=? k)%nat && (k <? Nat.min (Z.to_nat j) (length m))%nat
    = (i <=? Z.of_nat k) && (Z.of_nat k <? j)) as ->; [|done].
  apply eq_true_iff_eq. rewrite !andb_true_iff, Nat.leb_le, Nat.ltb_lt, Z.leb_le, Z.ltb_lt. lia.
Qed.

(** Chunks that follow each other from token [a] on *)
Fixpoint contiguous {K} (a : Z) (blocks : list (K * Z * Z)) : Prop :=
  match blocks with
  | [] => True
  | (_, start, stop) :: blocks => start = a /\ start < stop /\ contiguous stop blocks
  end.

(** Where they end *)
Fixpoint chunks_end {K} (a : Z) (blocks : list (K * Z * Z)) : Z :=
  match blocks with
  | [] => a
  | (_, _, stop) :: blocks => chunks_end stop blocks
  end.

(** The mask with the tokens of some chunks set *)
Definition mark {K} (blocks : list (K * Z * Z)) (m : list bool) : list bool :=
  foldl (fun m b => set_slice b.1.2 b.2 true m) m blocks.

Lemma length_mark {K} (blocks : list (K * Z * Z)) m : length (mark blocks m) = length m.
Proof.
  unfold mark. revert m. induction blocks as [|b blocks IH]; intros m; simpl; [done|].
  by rewrite IH, length_set_slice.
Qed.

Lemma chunks_end_ge {K} a (blocks : list (K * Z * Z)) : contiguous a blocks -> a <= chunks_end a blocks.
Proof.
  revert a. induction blocks as [|[[k start] stop] blocks IH]; intros a; simpl; [lia|].
  intros (-> & Hlt & Hc). specialize (IH stop Hc). lia.
Qed.

Lemma contiguous_take {K} a (blocks : list (K * Z * Z)) n : contiguous a blocks -> contiguous a (take n blocks).
Proof.
  revert a n. induction blocks as [|[[k start] stop] blocks IH]; intros a [|n]; simpl; try done.
  intros (-> & Hlt & Hc). split; [done|]. split; [done|]. by apply IH.
Qed.

(** Chunk [n] starts where the first [n] chunks end. *)
Lemma contiguous_lookup {K} a (blocks : list (K * Z * Z)) n k start stop :
  contiguous a blocks -> blocks !! n = Some (k, start, stop) ->
  start = chunks_end a (take n blocks) /\ stop = chunks_end a (take (Datatypes.S n) blocks) /\ start < stop.
Proof.
  revert a n. induction blocks as [|[[k' start'] stop'] blocks IH]; intros a [|n]; simpl; try done.
  - by intros (-> & Hlt & Hc) [= <- <- <-].
  - intros (-> & Hlt & Hc) Hn. by apply IH.
Qed.

Lemma mark_lookup {K} a (blocks : list (K * Z * Z)) m i x :
  0 <= a -> contiguous a blocks -> m !! i = Some x ->
  mark blocks m !! i = Some (if (a <=? Z.of_nat i) && (Z.of_nat i <? chunks_end a blocks) then true else x).
Proof.
  unfold mark. revert a m x. induction blocks as [|[[k start] stop] blocks IH]; intros a m x Ha; simpl.
  { intros _ Hi. rewrite Hi. f_equal.
    replace ((a <=? Z.of_nat i) && (Z.of_nat i <? a)) with false; [done|]. symmetry.
    apply andb_false_iff. rewrite Z.leb_gt, Z.ltb_ge. lia. }
  intros (-> & Hlt & Hc) Hi. pose proof (chunks_end_ge _ _ Hc).
  erewrite (IH stop); [|lia|done|by apply set_slice_lookup; [lia|lia|]]. f_equal.
  destruct (a <=? Z.of_nat i) eqn:E1, (stop <=? Z.of_nat i) eqn:E2, (Z.of_nat i <? stop) eqn:E3,
    (Z.of_nat i <? chunks_end stop blocks) eqn:E4; bool_prop; simpl; try done; lia.
Qed.

(** ** One location *)

Section loads.
Context {B K O S MD : Type} `{!StorageBackend B K O S} `{!EngineParts B K O S MD} `{!EqDecision K}.
Context (cfg : engine_config) (md : LMCacheMetadata).
Implicit Types (blocks : list (K * Z * Z)) (objs : list (option O)) (p : @processed K O).

(** How many blocks are served before the first that has no object *)
Fixpoint served (direct : list bool) objs : nat :=
  match direct with
  | [] => 0
  | true :: direct => Datatypes.S (served direct objs)
  | false :: direct =>
      match objs with
      | Some _ :: objs => Datatypes.S (served direct objs)
      | _ => 0
      end
  end.

(** The objects of the served blocks that were not loaded directly *)
Fixpoint fetched blocks (direct : list bool) objs : list (option K * O * Z * Z) :=
  match blocks, direct with
  | _ :: blocks, true :: direct => fetched blocks direct objs
  | (key, start, stop) :: blocks, false :: direct =>
      match objs with
      | Some o :: objs => (Some key, o, start, stop) :: fetched blocks direct objs
      | _ => []
      end
  | _, _ => []
  end.

(** The objects behind the first block that has none *)
Fixpoint left_over (direct : list bool) objs : list (option O) :=
  match direct with
  | [] => objs
  | true :: direct => left_over direct objs
  | false :: direct =>
      match objs with
      | Some _ :: objs => left_over direct objs
      | None :: objs => objs
      | [] => []
      end
  end.

(** The number of blocks that need an object *)
Definition fallbacks (direct : list bool) : nat := length (filter (fun d => d = false) direct).

(** Shapes and dtypes match, as they do for a cache that was built. *)
Definition metadata_ok : Prop := forall n, exists size, chunk_bytes (B := B) (K := K) (O := O) (S := S) (MD := MD) md n = Ok size.

Lemma load_blocks_spec blocks direct objs p last :
  metadata_ok -> length direct = length blocks -> length objs = fallbacks direct ->
  exists size,
    let k := served direct objs in
    load_blocks md blocks direct objs p last
    = Ok (Processed (reordered_chunks p ++ fetched blocks direct objs) size (mark (take k blocks) (ret_mask p)),
          match blocks !! k with None => last | Some (_, start, _) => later_failure last start end,
          left_over direct objs).
Proof.
  intros Hmd. revert direct objs p.
  induction blocks as [|[[key start] stop] blocks IH]; intros [|d direct] objs p; try done; unfold fallbacks; simpl.
  { intros _ Hobj. destruct objs; [|done]. exists (tot_kv_size p). rewrite app_nil_r. by destruct p. }
  intros [= Hd]. destruct d.
  - rewrite filter_cons_False by done. intros Hobj. destruct (Hmd (stop - start)) as [size Hs].
    rewrite Hs. cbn [mbind result_bind].
    destruct (IH direct objs (add_direct start stop size p) Hd Hobj) as [size' ->]. by exists size'.
  - rewrite filter_cons_True by done. destruct objs as [|[o|] objs]; intros [= Hobj].
    + destruct (IH direct objs (add_chunk (Some key) o start stop p) Hd Hobj) as [size' ->].
      exists size'. cbn [add_chunk reordered_chunks ret_mask]. by rewrite <- app_assoc.
    + exists (tot_kv_size p). rewrite app_nil_r. by destruct p.
Qed.

Lemma fetched_take blocks direct objs n :
  length direct = length blocks -> n = served direct objs ->
  fetched blocks direct objs = fetched (take n blocks) (take n direct) objs.
Proof.
  revert direct objs n. induction blocks as [|[[key start] stop] blocks IH]; intros [|d direct] objs n; try done.
  { intros _ ->. done. }
  simpl. intros [= Hd]. destruct d.
  - intros ->. simpl. by apply IH.
  - destruct objs as [|[o|] objs]; [by intros ->| |by intros ->].
    intros ->. simpl. f_equal. by apply IH.
Qed.

Lemma served_le blocks direct objs : length direct = length blocks -> (served direct objs <= length blocks)%nat.
Proof.
  revert direct objs. induction blocks as [|b blocks IH]; intros [|d direct] objs; try done; simpl.
  intros [= Hd]. destruct d; [by apply le_n_S, IH|].
  destruct objs as [|[o|] objs]; try lia. by apply le_n_S, IH.
Qed.

(** The chunks that end before the start of chunk [n] are those before chunk [n - 1]. *)
Lemma fetched_before a blocks direct objs n :
  contiguous a blocks -> (n <= length blocks)%nat -> length direct = length blocks ->
  filter (fun c => c.2 < chunks_end a (take n blocks)) (fetched (take n blocks) (take n direct) objs)
  = fetched (take (n - 1) blocks) (take (n - 1) direct) objs.
Proof.
  revert a direct objs n. induction blocks as [|[[key start] stop] blocks IH]; intros a [|d direct] objs n; try done.
  { by destruct n as [|[|n]]. }
  simpl. intros (-> & Hlt & Hc) Hn [= Hd]. destruct n as [|n]; [done|]. simpl.
  rewrite Nat.sub_0_r. pose proof (chunks_end_ge _ _ (contiguous_take _ _ n Hc)) as Hge.
  destruct n as [|n].
  { simpl. destruct d; [done|]. destruct objs as [|[o|] objs]; [done| |done].
    rewrite filter_cons_False by (simpl; lia). done. }
  assert (stop < chunks_end stop (take (Datatypes.S n) blocks)) as Hs.
  { destruct blocks as [|[[key' start'] stop'] blocks]; [simpl in Hn; lia|]. simpl in *.
    destruct Hc as (-> & Hlt' & Hc). pose proof (chunks_end_ge _ _ (contiguous_take _ _ n Hc)). lia. }
  specialize (IH stop direct). simpl in Hn. cbn [take fetched]. destruct d.
  - rewrite IH by (done || lia). simpl. by rewrite Nat.sub_0_r.
  - destruct objs as [|[o|] objs]; [done| |done].
    rewrite filter_cons_True by (simpl; lia). f_equal.
    rewrite IH by (done || lia). simpl. by rewrite Nat.sub_0_r.
Qed.
Lemma pinned_load_run q kw id location pins infos direct objs a n s s1 s2 s3 :
  metadata_ok -> storage_manager s = true -> process_tokens q = (infos, None) ->
  kw_req_id kw = Some id -> lookup_pins s !! id = Some [(location, pins)] ->
  let blocks := to_blocks infos in
  0 <= a -> contiguous a blocks ->
  get_direct location blocks kw s = (Ok direct, s1) -> length direct = length blocks ->
  get_fallback location (fallback_blocks blocks direct) s1 = (Ok objs, s2) ->
  length objs = fallbacks direct ->
  release_left (left_over direct objs) s2 = (Ok tt, s3) ->
  let k := served direct objs in
  exists p, _process_tokens_internal md q (replicate n false) kw s = (Ok p, s3) /\
    length (ret_mask p) = n /\
    (forall i, (i < n)%nat ->
       ret_mask p !! i = Some ((a <=? Z.of_nat i) && (Z.of_nat i <? chunks_end a (take k blocks)))) /\
    reordered_chunks p =
      (if Nat.eqb k (length blocks) then fetched blocks direct objs
       else fetched (take (k - 1) blocks) (take (k - 1) direct) objs).
Proof.
  intros Hmd Hsm Hq Hid Hpins blocks Ha Hc Hdir Hdl Hobj Hol Hrel k.
  unfold _process_tokens_internal, need_manager, locate. unfold mbind at 1, ST_bind at 1.
  unfold st_get, st_lift, mbind, ST_bind. rewrite Hsm. cbn [py_assert raise_if negb].
  unfold all_chunks. rewrite Hq. cbn beta iota. rewrite Hid. cbn [mbind option_bind]. rewrite Hpins.
  fold blocks. cbn [mret ST_ret load_locations]. unfold load_location, mbind, ST_bind, st_lift.
  rewrite Hdir, Hdl, Nat.eqb_refl. cbn [raise_if negb]. rewrite Hobj.
  destruct (load_blocks_spec blocks direct objs (Processed [] 0 (replicate n false)) None Hmd Hdl Hol)
    as [size ->]. cbn beta iota zeta. rewrite Hrel. fold k. cbn [app reordered_chunks ret_mask].
  pose proof (served_le blocks direct objs Hdl) as Hk. fold k in Hk.
  pose proof (contiguous_take a blocks k Hc) as Hck.
  assert (forall i, (i < n)%nat -> mark (take k blocks) (replicate n false) !! i
    = Some ((a <=? Z.of_nat i) && (Z.of_nat i <? chunks_end a (take k blocks)))) as Hmask.
  { intros i Hi. erewrite mark_lookup; [|done|done|by apply lookup_replicate_2]. by destruct (_ && _). }
  assert (length (mark (take k blocks) (replicate n false)) = n) as Hlen by (by rewrite length_mark, length_replicate).
  eexists. split; [done|]. destruct (blocks !! k) as [[[key start] stop]|] eqn:Ek.
  - pose proof (lookup_lt_Some _ _ _ Ek). rewrite (proj2 (Nat.eqb_neq _ _)) by lia.
    destruct (contiguous_lookup _ _ _ _ _ _ Hc Ek) as (-> & _ & _).
    cbn [later_failure drop_failed ret_mask reordered_chunks]. split; [by rewrite length_set_slice|]. split.
    + intros i Hi. pose proof (chunks_end_ge _ _ Hck).
      erewrite set_slice_lookup; [|lia|apply lenZ_nonneg|by apply Hmask]. f_equal.
      destruct (chunks_end a (take k blocks) <=? Z.of_nat i) eqn:E; cbn [andb]; [|done].
      bool_prop. rewrite (proj2 (Z.ltb_ge (Z.of_nat i) (chunks_end a (take k blocks)))) by lia.
      rewrite andb_false_r. by destruct (_ <? _).
    + rewrite (fetched_take _ _ _ k) by done. by apply fetched_before.
  - apply lookup_ge_None in Ek. rewrite (proj2 (Nat.eqb_eq _ _)) by lia.
    by cbn [drop_failed ret_mask reordered_chunks].
Qed.

(** C17: a load from the one location its lookup pinned returns, and claims in its mask
    exactly the tokens of the chunks before the first that could not be fetched. When all
    were fetched, all objects go to the GPU; otherwise the last chunk before the failure
    is claimed, but its object is dropped: it is neither copied to the GPU nor released. *)
Theorem pinned_load_outcome q kw id location pins infos direct objs a n s s1 s2 s3 :
  metadata_ok -> storage_manager s = true -> process_tokens q = (infos, None) ->
  kw_req_id kw = Some id -> lookup_pins s !! id = Some [(location, pins)] ->
  let blocks := to_blocks infos in
  0 <= a -> contiguous a blocks ->
  get_direct location blocks kw s = (Ok direct, s1) -> length direct = length blocks ->
  get_fallback location (fallback_blocks blocks direct) s1 = (Ok objs, s2) ->
  length objs = fallbacks direct ->
  release_left (left_over direct objs) s2 = (Ok tt, s3) ->
  let k := served direct objs in
  exists p, _process_tokens_internal md q (replicate n false) kw s = (Ok p, s3) /\
    length (ret_mask p) = n /\
    (forall i, (i < n)%nat ->
       ret_mask p !! i = Some ((a <=? Z.of_nat i) && (Z.of_nat i <? chunks_end a (take k blocks)))) /\
    reordered_chunks p =
      (if Nat.eqb k (length blocks) then fetched blocks direct objs
       else fetched (take (k - 1) blocks) (take (k - 1) direct) objs).
Proof. apply pinned_load_run. Qed.

End loads.

(** ** References to prefetched objects *)

(** Memory objects count their references; the event manager keeps the outcome of a
    finished prefetch until it is popped. *)
Class RefLaws (B K O S MD : Type) `{!StorageBackend B K O S} `{!EngineParts B K O S MD} := {
  refs : S -> O -> Z;
  prefetched : S -> string -> option (list (list (K * O)));
  same_refs : S -> S -> Prop := fun w w' =>
    (forall o, refs w' o = refs w o) /\ forall id, prefetched w' id = prefetched w id;
  ref_down : forall o w,
    exists w', b_ref_count_down o w = (Ok tt, w') /\ refs w' o = refs w o - 1 /\
      (forall o', o' <> o -> refs w' o' = refs w o') /\ forall id, prefetched w' id = prefetched w id;
  ref_unpin : forall o w, exists w', obj_unpin o w = (Ok tt, w') /\ same_refs w w';
  ref_future : forall id l w, prefetched w id = Some l ->
    exists w', get_event_future id w = (Ok (Ok l), w') /\ same_refs w w';
  ref_status : forall id l w, prefetched w id = Some l -> get_event_status id w = DONE;
  ref_pop : forall id l w, prefetched w id = Some l ->
    exists w', pop_event id w = (Ok (Ok l), w') /\ forall o, refs w' o = refs w o;
  ref_to_gpu : forall objs starts ends kw w r w',
    batched_to_gpu objs starts ends kw w = (r, w') -> same_refs w w';
}.

Section releases.
Context {B K O S MD : Type} `{!StorageBackend B K O S} `{!EngineParts B K O S MD} `{!EqDecision K}
  `{!EqDecision O} `{!RefLaws B K O S MD}.
Context (cfg : engine_config) (md : LMCacheMetadata).
Implicit Types (s : engine_state B K S).

#[local] Abbreviation world s := (backends_state (manager s)).

(** Of a list of pairs with distinct values, a value is in the part selected by key exactly
    when its own key is selected. *)
Lemma uses_selected (l : list (K * O)) (sel : K -> bool) k o :
  NoDup l.*2 -> (k, o) ∈ l -> uses o (filter (fun ko => sel ko.1 = false) l).*2 = if sel k then 0 else 1.
Proof.
  intros Hnd Hin. destruct (sel k) eqn:Ek.
  - apply uses_none. intros ([k' o'] & Heq & [Hf Hin']%list_elem_of_filter)%list_elem_of_fmap.
    simpl in *. subst o'. enough (k' = k) by congruence.
    apply list_elem_of_lookup in Hin as [i Hi], Hin' as [j Hj].
    assert (i = j) as -> by (eapply NoDup_lookup; [exact Hnd|by rewrite list_lookup_fmap, Hi|by rewrite list_lookup_fmap, Hj]).
    congruence.
  - apply uses_one; [eapply sublist_NoDup; [exact Hnd|apply fmap_sublist, sublist_filter]|].
    apply list_elem_of_fmap. exists (k, o). split; [done|]. by apply list_elem_of_filter.
Qed.

(** Only the world and the references in it differ. *)
Definition released s s' (objs : list O) : Prop :=
  storage_manager s' = storage_manager s /\ lookup_pins s' = lookup_pins s /\
  (forall o, refs (world s') o = refs (world s) o - uses o objs) /\
  forall id, prefetched (world s') id = prefetched (world s) id.

Lemma released_nil s : released s s [].
Proof. split_and!; try done. intros o. unfold uses, lenZ. simpl. lia. Qed.

Lemma world_eq s w : world (eg_with_manager (storage_manager s) (sm_with_state w (manager s)) s) = w.
Proof. done. Qed.

(** One release, then others *)
Lemma ref_step s o objs s' :
  exists s1, on_world (b_ref_count_down o) s = (Ok tt, s1) /\
    (released s1 s' objs -> released s s' (o :: objs)).
Proof.
  destruct (ref_down o (world s)) as (w & E & Ho & Hother & Hp).
  eexists. unfold on_world, on_manager, on_backends. rewrite E. split; [done|].
  intros (Hsm & Hpins & Hr & Hpre). split_and!; [done|done| |].
  - intros o'. rewrite Hr, world_eq, uses_cons. destruct (decide (o = o')) as [<-|Hne]; [lia|].
    rewrite Hother by done. lia.
  - intros id. rewrite Hpre, world_eq. apply Hp.
Qed.

Lemma release_iter (l : list (K * O)) (skip : K -> bool) s :
  exists s', st_iter (fun ko : K * O => if skip ko.1 then mret tt else on_world (b_ref_count_down ko.2)) l s
      = (Ok tt, s') /\ released s s' (filter (fun ko => skip ko.1 = false) l).*2.
Proof.
  revert s. induction l as [|[k o] l IH]; intros s; [exists s; split; [done|apply released_nil]|].
  cbn [st_iter]. unfold mbind, ST_bind. cbn [fst snd]. destruct (skip k) eqn:Ek.
  - rewrite filter_cons_False by (simpl; congruence). apply IH.
  - rewrite filter_cons_True by done. destruct (ref_step s o [] s) as (s1 & E & _). rewrite E.
    destruct (IH s1) as (s' & Hs' & Hrel). exists s'. split; [done|].
    destruct (ref_step s o (filter (fun ko => skip ko.1 = false) l).*2 s') as (s1' & E' & Hstep).
    rewrite E in E'. injection E' as <-. by apply Hstep.
Qed.

(** [cleanup_memory_objs] releases every prefetched object. *)
Lemma release_pairs (l : list (K * O)) s :
  exists s', st_iter release_pair l s = (Ok tt, s') /\ released s s' l.*2.
Proof.
  revert s. induction l as [|[k o] l IH]; intros s; [exists s; split; [done|apply released_nil]|].
  destruct (ref_unpin o (world s)) as (w & Eu & Hrefs & Hpre).
  set (s0 := eg_with_manager (storage_manager s) (sm_with_state w (manager s)) s).
  destruct (ref_step s0 o [] s0) as (s1 & E & _).
  destruct (IH s1) as (s' & Hs' & Hrel). exists s'. split.
  - cbn [st_iter]. unfold mbind at 1, ST_bind at 1. unfold release_pair, st_catch, mbind at 1, ST_bind at 1.
    cbn [snd]. unfold on_world at 1, on_manager at 1, on_backends at 1. rewrite Eu. fold s0. by rewrite E.
  - destruct (ref_step s0 o l.*2 s') as (s1' & E' & Hstep). rewrite E in E'. injection E' as <-.
    destruct (Hstep Hrel) as (Hsm & Hpins & Hr & Hp). split_and!; try done.
    + intros o'. rewrite Hr. unfold s0. by rewrite world_eq, Hrefs.
    + intros id. rewrite Hp. apply Hpre.
Qed.

Lemma memory_obj_map_eq (results : list (list (K * O))) :
  NoDup (concat results).*1 -> memory_obj_map results = concat results.
Proof.
  unfold memory_obj_map. generalize (concat results). intros l.
  enough (forall d : odict K O, NoDup (d ++ l).*1 -> foldl (fun d ko => od_set ko.1 ko.2 d) d l = d ++ l) as H
    by (intros Hnd; by rewrite (H [])).
  induction l as [|[k o] l IH]; intros d Hnd; simpl; [by rewrite app_nil_r|].
  rewrite od_set_fresh.
  - rewrite IH by (by rewrite <- app_assoc). by rewrite <- app_assoc.
  - rewrite fmap_app in Hnd. apply list.NoDup_app in Hnd as (_ & Hd & _). intros Hin. apply (Hd k Hin). by left.
Qed.

(** Keeping the event, [finish_chunk] does nothing. *)
Lemma finish_chunks_async chunks s :
  async_loading cfg = true -> remove_after_retrieve cfg = false ->
  st_iter (finish_chunk cfg md) chunks s = (Ok tt, s).
Proof.
  intros Ha Hr. induction chunks as [|[[[key o] start] stop] chunks IH]; [done|].
  cbn [st_iter]. unfold mbind at 1, ST_bind at 1. unfold finish_chunk at 1. rewrite Hr, Ha. exact IH.
Qed.

(** What the asynchronous load leaves: the chunks found, the others released once *)
Lemma async_load_spec q zeros kw id results s p :
  kw_req_id kw = Some id -> prefetched (world s) id = Some results -> NoDup (concat results).*1 ->
  take_loaded (concat results) (process_tokens q).1 (process_tokens q).2 (Processed [] 0 zeros) = Ok p ->
  exists s', _async_process_tokens_internal q zeros kw s = (Ok p, s') /\
    released s s' (filter (fun ko => bool_decide (ko.1 ∈ used_keys p) = false) (concat results)).*2.
Proof.
  intros Hid Hpre Hnd Htake. unfold _async_process_tokens_internal. rewrite Hid.
  unfold mbind at 1, ST_bind at 1, st_lift at 1.
  destruct (ref_future id results (world s) Hpre) as (w & Ef & Hrefs & Hsame).
  unfold mbind at 1, ST_bind at 1. unfold on_world at 1, on_manager at 1, on_backends at 1. rewrite Ef.
  set (s0 := eg_with_manager _ _ s). rewrite (memory_obj_map_eq _ Hnd).
  unfold mbind at 1, ST_bind at 1, st_lift at 1. rewrite Htake. cbn beta iota.
  destruct (release_iter (concat results) (fun k => bool_decide (k ∈ used_keys p)) s0) as (s' & E & Hsm & Hpins & Hr & Hp).
  exists s'. split; [unfold mbind, ST_bind; by rewrite E|]. split_and!; [done|done| |].
  - intros o. rewrite Hr. unfold s0. by rewrite world_eq, Hrefs.
  - intros i. rewrite Hp. apply Hsame.
Qed.

(** [lookup_unpin] of a finished prefetch releases all its objects. *)
Lemma unpin_prefetched id results s :
  lookup_pins s !! id = None -> prefetched (world s) id = Some results ->
  exists s', lookup_unpin id s = (Ok tt, s') /\
    forall o, refs (world s') o = refs (world s) o - uses o (concat results).*2.
Proof.
  intros Hpins Hpre. unfold lookup_unpin, mbind, ST_bind, st_get. cbn beta iota. rewrite Hpins.
  rewrite (ref_status _ _ _ Hpre). unfold cleanup_memory_objs, st_catch, mbind, ST_bind, st_get. cbn beta iota.
  rewrite (ref_status _ _ _ Hpre). destruct (ref_pop id results (world s) Hpre) as (w & E & Hrefs).
  unfold on_world at 1, on_manager at 1, on_backends at 1. rewrite E. unfold st_lift. cbn beta iota.
  set (s0 := eg_with_manager _ _ s).
  destruct (release_pairs (concat results) s0) as (s' & Es & _ & _ & Hr & _). rewrite Es.
  exists s'. split; [done|]. intros o. rewrite Hr. unfold s0. by rewrite world_eq, Hrefs.
Qed.

(** C33: of the objects a prefetch loaded, one reference each, an asynchronous load followed
    by [lookup_unpin] releases those it used once, and those it did not use twice. *)
Theorem async_release_twice q tokens kw id results s mask s1 :
  is_healthy s = (Ok true, s) -> has_gpu_connector cfg = true -> async_loading cfg = true ->
  save_only_first_rank cfg md = false -> remove_after_retrieve cfg = false ->
  kw_req_id kw = Some id -> lookup_pins s !! id = None -> prefetched (world s) id = Some results ->
  NoDup (concat results).*1 -> NoDup (concat results).*2 ->
  retrieve cfg md q tokens kw s = (Ok mask, s1) ->
  exists p s2,
    take_loaded (concat results) (process_tokens q).1 (process_tokens q).2
      (Processed [] 0 (replicate (length tokens) false)) = Ok p /\
    mask = ret_mask p /\ lookup_unpin id s1 = (Ok tt, s2) /\
    forall k o, (k, o) ∈ concat results ->
      refs (world s2) o = refs (world s) o - (if bool_decide (k ∈ used_keys p) then 1 else 2).
Proof.
  intros Hh Hgpu Hasync Hfirst Hremove Hid Hpins Hpre Hk Ho.
  unfold retrieve, mbind, ST_bind. rewrite Hh, Hgpu. cbn [negb st_lift py_assert raise_if].
  unfold st_lift, _is_passive. rewrite Hfirst, Hasync. cbn [andb].
  set (zeros := replicate _ false).
  destruct (take_loaded (concat results) (process_tokens q).1 (process_tokens q).2 (Processed [] 0 zeros))
    as [p|e] eqn:Ep.
  2: { unfold _async_process_tokens_internal, mbind, ST_bind, st_lift. rewrite Hid.
       destruct (ref_future id results (world s) Hpre) as (w & Ef & _).
       unfold on_world at 1, on_manager at 1, on_backends at 1. rewrite Ef, (memory_obj_map_eq _ Hk), Ep. done. }
  destruct (async_load_spec q zeros kw id results s p Hid Hpre Hk Ep) as (s' & -> & Hrel).
  cbn [mret ST_ret].
  set (gpu := if is_nil (reordered_chunks p) then _ else _).
  destruct (gpu s') as [[[]|e] s3] eqn:Eg; [|done].
  assert (released s s3 (filter (fun ko => bool_decide (ko.1 ∈ used_keys p) = false) (concat results)).*2)
    as (Hsm & Hpins' & Hr & Hpre').
  { unfold gpu in Eg. destruct (is_nil _); [by injection Eg as <-|].
    unfold on_world, on_manager, on_backends in Eg. destruct (batched_to_gpu _ _ _ _ _) as [r w] eqn:Et.
    injection Eg as -> <-. apply ref_to_gpu in Et as [Hrefs Hsame].
    destruct Hrel as (Hsm & Hpins' & Hr & Hpre'). split_and!; try done.
    - intros o. rewrite world_eq, Hrefs. apply Hr.
    - intros i. rewrite world_eq, Hsame. apply Hpre'. }
  rewrite finish_chunks_async by done. intros [= <- <-].
  destruct (unpin_prefetched id results s3) as (s2 & E2 & Hr2); [by rewrite Hpins'|by rewrite Hpre'|].
  exists p, s2. split_and!; [done|done|done|]. intros k o Hin.
  assert (o ∈ (concat results).*2) as Hino by (apply list_elem_of_fmap; by exists (k, o)).
  rewrite Hr2, Hr, (uses_one _ _ Ho Hino).
  pose proof (uses_selected _ (fun k => bool_decide (k ∈ used_keys p)) k o Ho Hin) as Hu.
  cbn beta in Hu. destruct (bool_decide (k ∈ used_keys p)); lia.
Qed.

End releases.
