(* ===== verification/EngineFacts.v ===== *)
(** * What the engine pins and stores

    The lookup of [Engine] and the release of its pins, and the loop of its store. *)

From S2P Require Import Prelude Tensor Codec BlockFirst DirectIO Dict StorageManager Scheduler EngineApi Engine.

Open Scope string_scope.
Open Scope list_scope.
Open Scope Z_scope.

(** ** Pins *)

(** A backend answers a lookup with the length of the prefix it holds; a pinning lookup
    pins the keys of that prefix, and [unpin] undoes one pin. *)
Class PinLaws (B K O S : Type) `{!StorageBackend B K O S} `{!EqDecision B} `{!EqDecision K} := {
  pins : S -> B -> K -> Z;
  holds : S -> B -> K -> bool;
  pin_contains : forall b keys pin w, exists w',
    b_batched_contains b keys pin w = (Ok (lenZ (prefix_while (holds w b) keys)), w') /\
    (forall b' k, holds w' b' k = holds w b' k) /\
    forall b' k, pins w' b' k = pins w b' k
      + (if pin && bool_decide (b' = b) then uses k (prefix_while (holds w b) keys) else 0);
  pin_unpin : forall b k w, exists w',
    b_unpin b k w = (Ok tt, w') /\
    (forall b' k', pins w' b' k' = (pins w b' k' - (if bool_decide (b' = b) then uses k' [k] else 0))%Z);
  pin_touch : forall b w, exists w',
    b_touch_cache b w = (Ok tt, w') /\ forall b' k, pins w' b' k = pins w b' k;
}.

Section pins.
Context {B K O S : Type} `{!StorageBackend B K O S} `{!EqDecision B} `{!EqDecision K} `{!PinLaws B K O S}.
Implicit Types (sm : sm_state B S).

(** How often a mapping from backends to keys has [k] under the backend [b] *)
Fixpoint mapped (backends : odict string B) (mapping : odict string (list K)) (b : B) (k : K) : Z :=
  match mapping with
  | [] => 0
  | (name, ks) :: mapping =>
      (if bool_decide (od_get name backends = Some b) then uses k ks else 0) + mapped backends mapping b k
  end.

Lemma mapped_app backends m1 m2 b k :
  mapped backends (m1 ++ m2) b k = mapped backends m1 b k + mapped backends m2 b k.
Proof. induction m1 as [|[name ks] m1 IH]; simpl; [done|]. rewrite IH. lia. Qed.

(** Only the world changed, and in it only pins. *)
Definition repinned sm sm' (f : B -> K -> Z) : Prop :=
  exists w, sm' = sm_with_state w sm /\
    forall b k, pins (backends_state sm') b k = pins (backends_state sm) b k + f b k.

Lemma repinned_trans sm1 sm2 sm3 f g h :
  repinned sm1 sm2 f -> repinned sm2 sm3 g -> (forall b k, h b k = f b k + g b k) -> repinned sm1 sm3 h.
Proof.
  intros (w & -> & Hf) (w' & -> & Hg) Hh. exists w'. split; [done|]. intros b k.
  rewrite Hg, Hf, Hh. lia.
Qed.

Lemma repinned_refl sm : repinned sm sm (fun _ _ => 0).
Proof. exists (backends_state sm). split; [by destruct sm|]. intros. lia. Qed.

(** A pinning lookup finds what [assign] says, and pins exactly that. *)
Lemma contains_pins all (infos : list (K * Z * Z)) backends hits total mapping sm :
  NoDup (od_keys backends) -> PDBackend ∉ od_keys backends ->
  (forall nb, nb ∈ backends -> (nb.1 ∉ od_keys mapping) /\ od_get nb.1 all = Some nb.2) ->
  total = hits + lenZ infos ->
  let found := mapping_keys (assign (holds (backends_state sm)) backends infos) in
  exists sm', batched_contains_in total ((fun i => i.1.1) <$> infos) true hits mapping backends sm
    = (Ok (hits + lenZ (concat found.*2), mapping ++ found), sm') /\ repinned sm sm' (mapped all found).
Proof.
  revert infos hits mapping sm. induction backends as [|[name b] rest IH]; intros infos hits mapping sm Hnd Hpd Hall Htot;
    cbn zeta.
  { exists sm. simpl. rewrite app_nil_r. unfold lenZ at 1. simpl. rewrite Z.add_0_r.
    split; [done|apply repinned_refl]. }
  apply list.NoDup_cons in Hnd as [Hname Hnd]. cbn [fst] in Hname.
  assert (name <> PDBackend /\ PDBackend ∉ od_keys rest) as [Hnp Hpd'].
  { unfold od_keys in *. simpl in Hpd. apply not_elem_of_cons in Hpd. naive_solver. }
  destruct (Hall (name, b)) as [Hm Hget]; [by left|]. cbn [fst snd] in Hm, Hget.
  cbn [batched_contains_in assign]. unfold mbind, ST_bind.
  assert (pin_in_backend name true = true) as ->.
  { unfold pin_in_backend. by destruct (String.eqb_spec name PDBackend). }
  destruct (pin_contains b ((fun i => i.1.1) <$> infos) true (backends_state sm)) as (w & E & Hholds & Hpins).
  unfold on_backends at 1. rewrite E. rewrite prefix_while_fmap, lenZ_fmap in *.
  set (mine := prefix_while (fun x => holds (backends_state sm) b x.1.1) infos) in *.
  set (sm1 := sm_with_state w sm).
  assert (forall infos', assign (holds (backends_state sm1)) rest infos' = assign (holds (backends_state sm)) rest infos')
    as Hext by (intros; by apply assign_ext).
  destruct (lenZ mine =? 0) eqn:En; bool_prop.
  - assert (mine = []) as Hmine by (destruct mine; [done|]; rewrite lenZ_cons in En; pose proof (lenZ_nonneg mine); lia).
    rewrite Hmine. cbn [is_nil]. rewrite Hmine in Hpins.
    destruct (IH infos hits mapping sm1 Hnd Hpd') as (sm' & -> & Hrep); [intros nb Hin; apply Hall; by right|done|].
    exists sm'. rewrite Hext in *. split; [done|].
    eapply repinned_trans; [|exact Hrep|intros; by rewrite Z.add_0_l].
    exists w. split; [done|]. intros b' k. cbn [backends_state sm_with_state]. rewrite Hpins.
    destruct (_ && _); simpl; unfold uses, lenZ; simpl; lia.
  - assert (is_nil mine = false) as -> by (destruct mine; [unfold lenZ in En; simpl in En; lia|done]).
    destruct (prefix_slices (fun i => i.1.1) (fun i => holds (backends_state sm) b i.1.1) infos 0 (lenZ mine))
      as (Hle & _ & Hks & Hrest); [pose proof (lenZ_nonneg infos); lia|by rewrite drop_0|].
    change (Z.to_nat 0) with 0%nat in Hks, Hrest. rewrite !drop_0 in Hks. rewrite !drop_0 in Hrest.
    fold mine in Hks. rewrite Hks, Hrest. rewrite Z.add_0_l.
    rewrite od_set_fresh by done. rewrite <- fmap_drop.
    replace (Z.to_nat (lenZ mine)) with (length mine) by (unfold lenZ; lia).
    set (remaining := drop (length mine) infos) in *.
    assert (lenZ infos = lenZ mine + lenZ remaining) as Hlen.
    { unfold remaining, lenZ. rewrite length_drop. unfold lenZ in Hle. lia. }
    assert (repinned sm sm1 (mapped all [(name, (fun i => i.1.1) <$> mine)])) as Hrep1.
    { exists w. split; [done|]. intros b' k. cbn [backends_state sm_with_state mapped]. rewrite Hpins, Hget.
      rewrite Z.add_0_r. f_equal. cbn [andb].
      rewrite (bool_decide_ext (Some b = Some b') (b' = b)) by (split; [by intros [= ->]|by intros ->]). done. }
    assert (forall x : odict string (list (K * Z * Z)), mapping_keys ((name, mine) :: x)
      = [(name, (fun i => i.1.1) <$> mine)] ++ mapping_keys x) as Hcons by done.
    rewrite Hcons, fmap_app, concat_app, lenZ_app.
    replace (lenZ (concat [(name, (fun i => i.1.1) <$> mine)].*2)) with (lenZ mine)
      by (simpl; by rewrite app_nil_r, lenZ_fmap).
    destruct (hits + lenZ mine =? total) eqn:Et; bool_prop.
    + assert (remaining = []) as -> by (destruct remaining; [done|]; rewrite lenZ_cons in Hlen; pose proof (lenZ_nonneg remaining); lia).
      rewrite assign_nil. change (mapping_keys []) with (@nil (string * list K)). rewrite app_nil_r.
      change (lenZ (concat ([] : odict string (list K)).*2)) with 0. rewrite Z.add_0_r. by exists sm1.
    + destruct (IH remaining (hits + lenZ mine) (mapping ++ [(name, (fun i => i.1.1) <$> mine)]) sm1 Hnd Hpd')
        as (sm' & -> & Hrep).
      { intros nb Hin. destruct (Hall nb) as [Hnb Hg]; [by right|]. split; [|done].
        unfold od_keys. rewrite fmap_app, not_elem_of_app. split; [done|].
        simpl. intros Heq%list_elem_of_singleton. apply Hname. rewrite <- Heq. by apply list_elem_of_fmap_2. }
      { lia. }
      exists sm'. rewrite Hext in *. split; [by rewrite <- app_assoc, Z.add_assoc|].
      eapply repinned_trans; [exact Hrep1|exact Hrep|]. intros. by rewrite mapped_app.
Qed.

Lemma unpin_keys b keys sm :
  exists sm', st_iter (fun key => on_backends (b_unpin b key)) keys sm = (Ok tt, sm') /\
    repinned sm sm' (fun b' k => - (if bool_decide (b' = b) then uses k keys else 0)).
Proof.
  revert sm. induction keys as [|key keys IH]; intros sm.
  { exists sm. split; [done|]. exists (backends_state sm). split; [by destruct sm|].
    intros b' k. destruct (bool_decide _); unfold uses, lenZ; simpl; lia. }
  cbn [st_iter]. unfold mbind, ST_bind. destruct (pin_unpin b key (backends_state sm)) as (w & E & Hp).
  unfold on_backends at 1. rewrite E. destruct (IH (sm_with_state w sm)) as (sm' & -> & Hrep).
  exists sm'. split; [done|]. eapply repinned_trans; [|exact Hrep|].
  - exists w. split; [done|]. intros b' k. cbn [backends_state sm_with_state]. rewrite Hp.
    symmetry. apply Z.add_opp_r.
  - intros b' k. cbn beta. change (key :: keys) with ([key] ++ keys). rewrite uses_app.
    destruct (bool_decide _); lia.
Qed.

(** Unpinning in one location reaches the backend of that name only. *)
Lemma unpin_location name keys (backends : odict string B) sm :
  NoDup (od_keys backends) ->
  exists sm', st_iter (fun nb : string * B =>
      if location_filter (Some [name]) nb.1
      then st_iter (fun key => on_backends (b_unpin nb.2 key)) keys else mret tt) backends sm = (Ok tt, sm') /\
    repinned sm sm' (fun b k => - mapped backends [(name, keys)] b k).
Proof.
  revert sm. induction backends as [|[n b] rest IH]; intros sm Hnd.
  { exists sm. split; [done|]. apply repinned_refl. }
  apply list.NoDup_cons in Hnd as [Hn Hnd]. cbn [fst] in Hn.
  cbn [st_iter]. unfold mbind, ST_bind. cbn [fst snd mapped od_get].
  assert (location_filter (Some [name]) n = bool_decide (n = name)) as ->
    by (apply bool_decide_ext, list_elem_of_singleton).
  destruct (decide (n = name)) as [->|Hne].
  - rewrite bool_decide_true by done. destruct (unpin_keys b keys sm) as (sm1 & -> & Hrep1).
    destruct (IH sm1 Hnd) as (sm' & -> & Hrep). exists sm'. split; [done|].
    assert (od_get name rest = None) as Hnone.
    { apply eq_None_not_Some. intros H. apply Hn. by apply od_keys_get. }
    eapply repinned_trans; [exact Hrep1|exact Hrep|]. intros b' k. cbn [mapped]. rewrite Hnone.
    rewrite (bool_decide_false (None = Some b')) by done.
    rewrite (bool_decide_ext (Some b = Some b') (b' = b)) by (split; [by intros [= ->]|by intros ->]). lia.
  - rewrite (bool_decide_false (n = name)) by done. cbn [mret ST_ret].
    destruct (IH sm Hnd) as (sm' & -> & Hrep). exists sm'. split; [done|].
    eapply repinned_trans; [apply repinned_refl|exact Hrep|]. intros b' k. cbn [mapped].
    cbn [od_get]. lia.
Qed.

Lemma unpin_mapping mapping sm :
  NoDup (od_keys (storage_backends sm)) ->
  exists sm', st_iter (fun e : string * list K => batched_unpin e.2 (Some [e.1])) mapping sm = (Ok tt, sm') /\
    repinned sm sm' (fun b k => - mapped (storage_backends sm) mapping b k).
Proof.
  revert sm. induction mapping as [|[name keys] mapping IH]; intros sm Hnd.
  { exists sm. split; [done|]. apply repinned_refl. }
  cbn [st_iter]. unfold mbind at 1, ST_bind at 1. cbn [fst snd]. unfold batched_unpin at 1.
  unfold mbind at 1, ST_bind at 1, st_get at 1.
  destruct (unpin_location name keys (storage_backends sm) sm Hnd) as (sm1 & -> & Hrep1).
  pose proof Hrep1 as (w & -> & _). destruct (IH (sm_with_state w sm)) as (sm' & -> & Hrep); [done|].
  exists sm'. split; [done|]. eapply repinned_trans; [exact Hrep1|exact Hrep|].
  intros b k. cbn [mapped storage_backends sm_with_state]. lia.
Qed.

Lemma touch_keeps_pins sm : exists sm', touch_cache sm = (Ok tt, sm') /\ repinned sm sm' (fun _ _ => 0).
Proof.
  unfold touch_cache, mbind, ST_bind, st_get. generalize (storage_backends sm). intros backends.
  revert sm. induction backends as [|[n b] rest IH]; intros sm; [exists sm; split; [done|apply repinned_refl]|].
  cbn [st_iter]. unfold mbind, ST_bind. cbn [fst snd]. destruct (bool_decide _); [|apply IH].
  destruct (pin_touch b (backends_state sm)) as (w & E & Hp). unfold on_backends at 1. rewrite E.
  destruct (IH (sm_with_state w sm)) as (sm' & -> & Hrep). exists sm'. split; [done|].
  eapply repinned_trans; [|exact Hrep|].
  - exists w. split; [done|]. intros b' k. cbn [backends_state sm_with_state]. rewrite Hp. by rewrite Z.add_0_r.
  - done.
Qed.

End pins.

Section lookups.
Context {B K O S MD : Type} `{!StorageBackend B K O S} `{!EngineParts B K O S MD} `{!EqDecision B}
  `{!EqDecision K} `{!PinLaws B K O S}.
Context (cfg : engine_config) (md : LMCacheMetadata).
Implicit Types (s : engine_state B K S).

Lemma iter_on_manager {A} (f : A -> ST (sm_state B S) unit) l s :
  st_iter (fun x => on_manager (f x)) l s = on_manager (st_iter f l) s.
Proof.
  revert s. induction l as [|x l IH]; intros s; [by destruct s|].
  cbn [st_iter]. unfold mbind, ST_bind. unfold on_manager at 1 3. destruct (f x (manager s)) as [[u|e] sm]; [|done].
  rewrite IH. unfold on_manager. cbn [manager eg_with_manager storage_manager]. by destruct (st_iter f l sm).
Qed.

(** What a lookup finds in the tiers it may search *)
Definition found_keys s (search_range : option (list string)) (infos : list (Z * Z * K)) : odict string (list K) :=
  mapping_keys (assign (holds (backends_state (manager s)))
    (filter (fun nb => active (manager s) None search_range nb = true) (storage_backends (manager s)))
    (to_blocks infos)).

(** C30: a pinning lookup answers with the end of the last chunk of the longest prefix that
    the tiers, each in turn, hold, pins exactly these keys and remembers them; and
    [lookup_unpin] restores every pin count. There is no [PDBackend] among the tiers, and the
    engine does not work layer by layer. *)
Theorem lookup_pins_released q search_range id infos s :
  eg_use_layerwise cfg = false -> is_healthy s = (Ok true, s) -> storage_manager s = true ->
  process_tokens q = (infos, None) -> is_Some (tq_tokens q) -> lookup_pins s !! id = None ->
  NoDup (od_keys (storage_backends (manager s))) -> (PDBackend ∉ od_keys (storage_backends (manager s))) ->
  let found := found_keys s (match search_range with None => retrieve_locations cfg | r => r end) infos in
  exists s1,
    lookup cfg md q search_range (Some id) true s = (Ok (hit_end infos (lenZ (concat found.*2)) 0), s1) /\
    (forall b k, pins (backends_state (manager s1)) b k
       = pins (backends_state (manager s)) b k + mapped (storage_backends (manager s)) found b k) /\
    lookup_pins s1 !! id = (if is_nil found then None else Some found) /\
    (found <> [] -> exists s2, lookup_unpin id s1 = (Ok tt, s2) /\ lookup_pins s2 !! id = None /\
       forall b k, pins (backends_state (manager s2)) b k = pins (backends_state (manager s)) b k).
Proof.
  intros Hlw Hh Hsm Hq Htok Hid Hnd Hpd found.
  set (range := match search_range with None => _ | r => r end) in *.
  set (backends := filter (fun nb => active (manager s) None range nb = true) (storage_backends (manager s))).
  assert (od_keys backends `sublist_of` od_keys (storage_backends (manager s))) as Hsub
    by (apply fmap_sublist, sublist_filter).
  destruct (contains_pins (storage_backends (manager s)) (to_blocks infos) backends 0 (lenZ infos) [] (manager s))
    as (sm1 & E & Hrep1).
  { by eapply sublist_NoDup. }
  { intros Hin. apply Hpd. by eapply sublist_subseteq. }
  { intros [n b] Hin. split; [apply not_elem_of_nil|]. apply od_get_elem; [done|]. by apply list_elem_of_filter in Hin as [_ Hin]. }
  { unfold to_blocks. by rewrite lenZ_fmap. }
  change (mapping_keys (assign _ backends (to_blocks infos))) with found in E, Hrep1.
  assert ((fun i => i.1.1) <$> to_blocks infos = snd <$> infos) as Hkeys
    by (unfold to_blocks; by rewrite <- list_fmap_compose).
  rewrite Hkeys in E. cbn [app] in E. rewrite Z.add_0_l in E.
  destruct (touch_keeps_pins sm1) as (sm2 & Et & Hrep2).
  pose proof (repinned_trans _ _ _ _ _ _ Hrep1 Hrep2 (fun b k => eq_sym (Z.add_0_r _))) as Hrep.
  set (s' := if is_nil found then s else eg_with_pins (<[id := found]> (lookup_pins s)) s).
  exists (eg_with_manager true sm2 s'). split_and!.
  - unfold lookup, mbind at 1, ST_bind at 1. rewrite Hh. cbn [negb].
    unfold need_manager, mbind, ST_bind, st_get, st_lift. rewrite Hsm, Hlw, (bool_decide_true _ Htok).
    cbn [py_assert raise_if negb orb]. fold range. unfold st_finally, lookup_chunks, mbind, ST_bind, st_lift.
    unfold all_chunks. rewrite Hq. unfold on_manager at 1, batched_contains, get_active_storage_backends.
    unfold mbind, ST_bind, st_gets. rewrite lenZ_fmap. fold backends. rewrite E. cbn [andb].
    unfold s'. destruct (is_nil found); cbn [negb]; unfold on_manager; cbn; by rewrite Et, Hsm.
  - intros b k. destruct Hrep as (w & _ & Hp). apply Hp.
  - unfold s'. destruct (is_nil found); [done|]. cbn. apply lookup_insert_eq.
  - intros Hne. assert (is_nil found = false) as Hnil by (by destruct found). unfold s'. rewrite Hnil.
    unfold lookup_unpin, mbind, ST_bind, st_get. cbn [lookup_pins eg_with_manager eg_with_pins].
    rewrite lookup_insert_eq. unfold need_manager, mbind, ST_bind, st_get, st_lift. cbn [storage_manager eg_with_manager py_assert raise_if negb].
    unfold st_modify. rewrite iter_on_manager. unfold on_manager. cbn [manager eg_with_manager eg_with_pins].
    pose proof Hrep as (w & -> & _).
    destruct (unpin_mapping found (sm_with_state w (manager s)) Hnd) as (sm3 & -> & Hrep3).
    eexists. split; [done|]. split; [cbn; apply lookup_delete_eq|].
    destruct (repinned_trans _ _ _ _ _ (fun _ _ => 0) Hrep Hrep3) as (_ & _ & Hp).
    { intros b k. cbn [storage_backends sm_with_state]. lia. }
    intros b k. cbn [manager eg_with_manager]. rewrite Hp. lia.
Qed.

End lookups.

(** ** What a store hands on *)

Section stores.
Context {B K O S MD : Type} `{!StorageBackend B K O S} `{!EngineParts B K O S MD} `{!EqDecision K}.
Context (cfg : engine_config) (md : LMCacheMetadata).
Implicit Types (s : engine_state B K S).

(** The events of consecutive chunks: each names the chunk before it as its parent. *)
Fixpoint event_chain (q : token_query) (prev : Z) (infos : list (Z * Z * K)) : list CacheStoreEvent :=
  match infos with
  | [] => []
  | (start, stop, key) :: infos => stored_event q start stop key prev :: event_chain q (chunk_hash key) infos
  end.

(** The chunks that need an object *)
Definition undirected (infos : list (Z * Z * K)) (direct : list bool) : list (Z * Z * K) :=
  fst <$> filter (fun id => id.2 = false) (zip infos direct).

Lemma kv_events_on_manager {A} (m : ST (sm_state B S) A) s r s' :
  on_manager m s = (r, s') -> kv_events s' = kv_events s.
Proof. unfold on_manager. destruct (m (manager s)) as [r' sm]. by intros [= _ <-]. Qed.

Lemma store_chunks_spec q prev infos direct s stored s' :
  store_chunks cfg md q prev infos direct s = (Ok stored, s') ->
  exists n, (n <= length infos)%nat /\
    fst <$> stored = undirected (take n infos) direct /\
    ((n = length infos /\ length direct = length infos) \/ direct !! n = Some false) /\
    kv_events s' = kv_events s ++ (if kv_events_enabled cfg then event_chain q prev (take n infos) else []).
Proof.
  revert prev direct s stored. induction infos as [|[[start stop] key] infos IH]; intros prev [|d direct] s stored;
    cbn [store_chunks]; try done.
  { intros [= <- <-]. exists 0%nat. split_and!; [done|done|by left|]. by destruct (kv_events_enabled _); rewrite app_nil_r. }
  intros (shapes & s1 & H1 & H)%st_bind_Ok. unfold st_lift in H1. injection H1 as _ <-.
  apply st_bind_Ok in H as (obj & s1 & H1 & H).
  assert (kv_events s1 = kv_events s /\ (d = true -> obj = None)) as [Hev Hobj].
  { destruct d; [by injection H1 as <- <-|]. split; [by eapply kv_events_on_manager|done]. }
  destruct (negb d && bool_decide (obj = None)) eqn:Ealloc.
  { injection H as <- <-. exists 0%nat. apply andb_true_iff in Ealloc as [->%negb_true_iff _].
    split_and!; [lia|done|by right|]. rewrite Hev. by destruct (kv_events_enabled _); rewrite app_nil_r. }
  apply st_bind_Ok in H as (u & s2 & H2 & H). apply st_bind_Ok in H as (rest & s3 & H3 & H).
  injection H as <- <-. apply IH in H3 as (n & Hn & Hfst & Hend & Hevs).
  exists (Datatypes.S n). split; [simpl; lia|]. split; [|split].
  - unfold undirected in *. cbn [take zip zip_with]. destruct d.
    + rewrite (Hobj eq_refl). by rewrite filter_cons_False.
    + rewrite filter_cons_True by done. destruct obj as [o|]; [|by rewrite bool_decide_true in Ealloc].
      cbn [fmap list_fmap fst]. by f_equal.
  - destruct Hend as [[-> Hd]|Hd]; [left; simpl; by rewrite Hd|by right].
  - rewrite Hevs. cbn [take event_chain]. destruct (kv_events_enabled cfg).
    + unfold add_event, st_modify in H2. injection H2 as _ <-. cbn [kv_events eg_with_events].
      by rewrite Hev, <- app_assoc.
    + injection H2 as _ <-. by rewrite Hev.
Qed.

(** C35: a store that returns did nothing when the engine is unhealthy, passive or frozen;
    otherwise it processed the chunks up to the first that was not stored directly and for
    which no object was left, logged one event per chunk, each naming its predecessor,
    copied the objects of the chunks not stored directly from the GPU and handed them, in
    order and each under its own key, to the storage manager. *)
Theorem store_outcome q kw s s' healthy frozen s0 :
  is_healthy s = (Ok healthy, s) -> is_frozen s = (Ok frozen, s0) ->
  store cfg md q kw s = (Ok tt, s') ->
  (healthy = false \/ _is_passive cfg md = true -> s' = s) /\
  (healthy = true -> _is_passive cfg md = false -> frozen = true -> s' = s0) /\
  (healthy = true -> _is_passive cfg md = false -> frozen = false ->
    exists infos direct stored n s1 s2,
      all_chunks q = Ok infos /\ store_direct cfg infos kw s0 = (Ok direct, s1) /\
      (n <= length infos)%nat /\ fst <$> stored = undirected (take n infos) direct /\
      ((n = length infos /\ length direct = length infos) \/ direct !! n = Some false) /\
      kv_events s2 = kv_events s1 ++ (if kv_events_enabled cfg then event_chain q 0 (take n infos) else []) /\
      if is_nil stored then s' = s2
      else exists s3,
        on_world (batched_from_gpu (snd <$> stored) ((fun c => c.1.1.1) <$> stored) ((fun c => c.1.1.2) <$> stored) kw) s2
          = (Ok tt, s3) /\
        on_manager (batched_put ((fun c => c.1.2) <$> stored) (snd <$> stored) (store_location cfg)) s3 = (Ok tt, s')).
Proof.
  intros Hh Hf. unfold store. intros (h & s1 & H1 & H)%st_bind_Ok. rewrite Hh in H1. injection H1 as <- <-.
  destruct healthy; cbn [negb] in H.
  2: { injection H as <-. split_and!; [done|done|done]. }
  apply st_bind_Ok in H as (u & s1 & H1 & H). unfold st_lift in H1. injection H1 as _ <-.
  destruct (_is_passive cfg md).
  { injection H as <-. split_and!; [done|done|done]. }
  apply st_bind_Ok in H as (u1 & s1 & H1 & H). unfold need_manager, mbind, ST_bind, st_get, st_lift in H1.
  injection H1 as _ <-. apply st_bind_Ok in H as (u2 & s1 & H1 & H). unfold st_lift in H1. injection H1 as _ <-.
  apply st_bind_Ok in H as (fr & s1 & H1 & H). rewrite Hf in H1. injection H1 as <- <-.
  split; [by intros [?|?]|]. destruct frozen; [split; [by injection H as <-|done]|]. split; [done|]. intros _ _ _.
  apply st_bind_Ok in H as (infos & s1 & H1 & H). unfold st_lift in H1. injection H1 as Hinfos <-.
  apply st_bind_Ok in H as (direct & s1 & Hd & H). apply st_bind_Ok in H as (stored & s2 & Hst & H).
  apply store_chunks_spec in Hst as (n & Hn & Hfst & Hend & Hev).
  exists infos, direct, stored, n, s1, s2. split_and!; try done.
  destruct (is_nil stored); [by injection H as <-|]. apply st_bind_Ok in H as (u3 & s3 & Hg & H).
  exists s3. destruct u3. done.
Qed.

End stores.
