(* ===== verification/EngineLayers.v ===== *)
(** * The layerwise generators

    How many values [Engine.store_layer] and [Engine.retrieve_layer] yield before they end,
    which is what the connector's calls of [next] rely on. *)

From S2P Require Import Prelude Tensor Codec BlockFirst DirectIO Dict StorageManager Scheduler EngineApi Engine.

Open Scope string_scope.
Open Scope list_scope.
Open Scope Z_scope.

(** ** Driving a generator *)

Inductive gen_outcome : Type :=
  | Suspended
  | Finished
  | Raised (e : exn).

(** At most [n] calls of [next]: the values yielded and how it ended *)
Fixpoint drive {St R} (n : nat) (g : gen St R) (s : St) : list R * gen_outcome * St :=
  match n with
  | 0%nat => ([], Suspended, s)
  | Datatypes.S n =>
      match gen_next g s with
      | (Ok None, s') => ([], Finished, s')
      | (Ok (Some (r, g')), s') => let '(rs, o, s'') := drive n g' s' in (r :: rs, o, s'')
      | (Raise e, s') => ([], Raised e, s')
      end
  end.

Section driving.
Context {St R : Type}.
Implicit Types (g : gen St R) (ys : list R).

Lemma drive_do {A} n (m : ST St A) (k : A -> gen St R) s :
  drive (Datatypes.S n) (gen_do m k) s =
  match m s with
  | (Ok a, s') => drive (Datatypes.S n) (k a) s'
  | (Raise e, s') => ([], Raised e, s')
  end.
Proof. cbn [drive gen_do gen_next]. unfold mbind, ST_bind. by destruct (m s) as [[a|e] s']. Qed.

Lemma drive_yields n k r g s :
  drive (k + n) (gen_yields k r g) s =
  let '(rs, o, s') := drive n g s in (replicate k r ++ rs, o, s').
Proof.
  induction k as [|k IH]; simpl; [by destruct (drive n g s) as [[rs o] s']|].
  rewrite IH. by destruct (drive n g s) as [[rs o] s'].
Qed.

(** It yields [ys] and ends, or raises on the way. *)
Definition yields_or_raises g (s : St) ys : Prop :=
  let '(zs, o, _) := drive (Datatypes.S (length ys)) g s in
  (o = Finished /\ zs = ys) \/ ((exists e, o = Raised e) /\ zs `prefix_of` ys).

Lemma yor_stop s : yields_or_raises gen_stop s [].
Proof. by left. Qed.

Lemma yor_yield r g s ys : yields_or_raises g s ys -> yields_or_raises (gen_yield r g) s (r :: ys).
Proof.
  unfold yields_or_raises. cbn [length]. change (drive (Datatypes.S (Datatypes.S (length ys))) (gen_yield r g) s)
    with (let '(rs, o, s'') := drive (Datatypes.S (length ys)) g s in (r :: rs, o, s'')).
  destruct (drive _ g s) as [[zs o] s']. intros [[-> ->]|[He Hp]]; [by left|right].
  split; [done|by apply prefix_cons].
Qed.

Lemma yor_yields k r g s ys :
  yields_or_raises g s ys -> yields_or_raises (gen_yields k r g) s (replicate k r ++ ys).
Proof. intros H. induction k as [|k IH]; [done|]. by apply yor_yield. Qed.

Lemma yor_do {A} (m : ST St A) k s ys :
  (forall a s', m s = (Ok a, s') -> yields_or_raises (k a) s' ys) -> yields_or_raises (gen_do m k) s ys.
Proof.
  intros H. unfold yields_or_raises. rewrite drive_do.
  destruct (m s) as [[a|e] s'] eqn:E; [by apply H|]. right. split; [by exists e|apply prefix_nil].
Qed.

Lemma yor_raise {A} e (k : A -> gen St R) s ys : yields_or_raises (gen_do (st_raise e) k) s ys.
Proof. by apply yor_do. Qed.

End driving.

Section layers.
Context {B K O S MD : Type} `{!StorageBackend B K O S} `{!EngineParts B K O S MD} `{!EqDecision K}.
Context (cfg : engine_config) (md : LMCacheMetadata).
Implicit Types (s : engine_state B K S).

#[local] Abbreviation L := (Z.to_nat (num_layers md)).

Lemma store_layers_yields ids keys objs starts ends kw g s ys :
  (forall s', yields_or_raises g s' ys) ->
  yields_or_raises (store_layers cfg ids keys objs starts ends kw g) s (replicate (length ids) None ++ ys).
Proof.
  intros Hg. revert s. induction ids as [|layer_id ids IH]; intros s; [apply Hg|].
  cbn [store_layers length replicate app]. apply yor_yield, yor_do. intros _ s' _. apply IH.
Qed.

(** A layerwise store yields nothing when the engine is unhealthy, once per layer when
    it is frozen and once more otherwise, unless a step raises. *)
Theorem store_layer_yields q kw s healthy :
  is_healthy s = (Ok healthy, s) ->
  (healthy = false -> drive 1 (store_layer cfg md q kw) s = ([], Finished, s)) /\
  (healthy = true -> storage_manager s = true -> has_gpu_connector cfg = true ->
     frozen (manager s) = true ->
     exists s', drive (L + 1) (store_layer cfg md q kw) s = (replicate L None, Finished, s')) /\
  (healthy = true -> frozen (manager s) = false ->
     yields_or_raises (store_layer cfg md q kw) s (replicate (L + 1) None)).
Proof.
  intros Hh. split_and!.
  - intros ->. unfold store_layer. by rewrite drive_do, Hh.
  - intros -> Hsm Hgpu Hf. unfold store_layer. rewrite Nat.add_1_r, drive_do, Hh. cbn [negb]. rewrite drive_do.
    unfold need_manager, is_frozen, if_manager, mbind, ST_bind, st_get, st_lift. rewrite Hsm, Hgpu.
    cbn [py_assert raise_if negb]. cbn beta iota. unfold on_manager, StorageManager.is_frozen, st_gets. rewrite Hf.
    rewrite <- Nat.add_1_r, drive_yields. eexists. cbn. by rewrite app_nil_r.
  - intros -> Hf. unfold store_layer. apply yor_do. rewrite Hh. intros a s' [= <- <-]. cbn [negb].
    apply yor_do. intros fr s1 H.
    assert (fr = false) as ->.
    { apply st_bind_Ok in H as (u & s2 & H1 & H). apply st_bind_Ok in H as (u' & s3 & H2 & H).
      unfold need_manager, mbind, ST_bind, st_get, st_lift in H1. injection H1 as Hsm <-.
      unfold st_lift in H2. injection H2 as _ <-.
      apply raise_if_Ok in Hsm. apply negb_false_iff in Hsm.
      unfold is_frozen, if_manager, mbind, ST_bind, st_get in H. rewrite Hsm in H.
      unfold on_manager, StorageManager.is_frozen, st_gets in H. rewrite Hf in H. by injection H. }
    apply yor_do. intros chunks s2 _. rewrite replicate_add. cbn zeta.
    assert (forall s', yields_or_raises (gen_yield None gen_stop) s' [None : option yielded]) as Hfin
      by (intros s0; apply yor_yield, yor_stop).
    destruct (is_nil chunks); [by apply yor_yields|]. apply yor_do. intros _ s3 _.
    replace L with (length (layer_ids md)) by (unfold layer_ids; by rewrite length_rangeZ).
    by apply store_layers_yields.
Qed.

Lemma load_layers_yields ids steps count starts ends kw down g s ys :
  (forall s', yields_or_raises g s' ys) -> (forall l, l ∈ ids -> l <> 0) ->
  yields_or_raises (load_layers ids steps count starts ends kw down g) s (replicate (length ids) None ++ ys).
Proof.
  intros Hg. revert steps down s. induction ids as [|l ids IH]; intros steps down s Hl; cbn [load_layers].
  { apply yor_do. intros _ s' _. apply Hg. }
  destruct steps as [|step steps]; [apply yor_raise|]. apply yor_do. intros task s' _.
  rewrite (proj2 (Z.eqb_neq _ _)) by (apply Hl; by left). apply yor_yield, yor_do. intros objs s2 _.
  apply IH. intros l' Hl'. apply Hl. by right.
Qed.

(** The first value of a load counts the tokens found. *)
Lemma load_all_layers_yields steps count starts ends kw g s ys :
  (forall s', yields_or_raises g s' ys) -> 0 < num_layers md ->
  yields_or_raises (load_layers (layer_ids md) steps count starts ends kw [] g) s
    (Some (Tokens count) :: replicate (L - 1) None ++ ys).
Proof.
  intros Hg HL. unfold layer_ids. replace L with (Datatypes.S (L - 1)) by lia. rewrite rangeZ_cons.
  cbn [load_layers]. destruct steps as [|step steps]; [apply yor_raise|]. apply yor_do. intros task s' _.
  cbn [Z.eqb]. apply yor_yield, yor_do. intros objs s2 _. rewrite Nat.sub_succ, Nat.sub_0_r.
  replace (replicate (L - 1) None) with (replicate (length (rangeZ (0 + 1) (L - 1))) (None : option yielded))
    by (by rewrite length_rangeZ).
  apply load_layers_yields; [done|]. intros l Hin. apply elem_of_seqZ in Hin. lia.
Qed.

(** A layerwise load that finds a chunk yields once per layer, then once more and then
    its mask, unless a step raises; one that finds none yields as often up to the mask and
    then raises [UnboundLocalError] instead. *)
Theorem retrieve_layer_yields q tokens kw s hits location mask s1 :
  is_healthy s = (Ok true, s) -> storage_manager s = true -> has_gpu_connector cfg = true ->
  0 < num_layers md ->
  layer_hits cfg md (process_tokens q).1 (process_tokens q).2 None (replicate (length tokens) false) s
  = (Ok (hits, location, mask), s1) ->
  (hits <> [] -> yields_or_raises (retrieve_layer cfg md q tokens kw) s
     (Some (Tokens (count_true mask)) :: replicate (L - 1) None ++ [None; Some (Mask mask)])) /\
  (hits = [] -> drive (L + 2) (retrieve_layer cfg md q tokens kw) s
     = (replicate (L + 1) None, Raised UnboundLocalError, s1)).
Proof.
  intros Hh Hsm Hgpu HL Hhits.
  assert ((need_manager;; st_lift (py_assert (has_gpu_connector cfg));;
      layer_hits cfg md (process_tokens q).1 (process_tokens q).2 None (replicate (length tokens) false)) s
    = (Ok (hits, location, mask), s1)) as Hrun.
  { unfold need_manager, mbind, ST_bind, st_get, st_lift. rewrite Hsm, Hgpu. cbn [py_assert raise_if negb].
    unfold st_lift. exact Hhits. }
  split; intros Hn; unfold retrieve_layer.
  - apply yor_do. rewrite Hh. intros a s' [= <- <-]. cbn [negb]. apply yor_do. rewrite Hrun.
    intros r s' [= <- <-]. destruct hits as [|h hits]; [done|]. cbn [is_nil]. apply yor_do. intros _ s2 _.
    apply load_all_layers_yields; [|done]. intros s3. apply yor_yield, yor_do. intros _ s4 _.
    apply yor_yield, yor_stop.
  - subst hits. replace (L + 2)%nat with (Datatypes.S (L + 1)) by lia. rewrite drive_do, Hh. cbn [negb].
    rewrite drive_do, Hrun. cbn [is_nil]. replace (Datatypes.S (L + 1)) with (L + 2)%nat by lia.
    rewrite drive_yields. cbn. by rewrite replicate_add.
Qed.

End layers.
