(* ===== verification/Worker.v ===== *)
(** * The connector on the worker's side

    [vllm_v1_adapter.py]: loading into vLLM's paged cache ([start_load_kv],
    [record_failed_blocks], [wait_for_layer_load]) and saving from it ([save_kv_layer],
    [wait_for_save], with the length check of [_hcu_wait_for_save_patch.py]). The cache
    engine is an interface; a layerwise load or store is a generator of the engine. *)

From S2P Require Import Prelude Tensor Codec BlockFirst DirectIO Dict Scheduler EngineApi.

Open Scope string_scope.
Open Scope list_scope.
Open Scope Z_scope.

Record worker_config := WorkerConfig {
  wk_role : string;                                     (* kv_role *)
  use_layerwise : bool;
  enable_blending : bool;
  wk_num_layers : Z;
  wk_block_size : Z;
  wk_chunk_size : Z;
  is_last_rank : bool;
}.

(** The connector's fields; [metas] and [disaggs] are the objects its metadata refers to. *)
Record worker_state {E : Type} := WorkerState {
  metas : list ReqMeta;
  disaggs : list DisaggSpec;
  metadata_requests : list nat;                         (* connector_metadata.requests *)
  layerwise_retrievers : list Z;
  _layerwise_save_storers : gmap string Z;
  current_layer : Z;
  _invalid_block_ids : gset Z;
  kv_caches : list string;
  _cross_layers_kv_cache : bool;                        (* one is registered *)
  stats_hits : Z;                                       (* interval metrics *)
  stats_prompt : Z;
  engine : E;
}.
Arguments worker_state : clear implicits.

Section setters.
Context {E : Type}.
Implicit Types s : worker_state E.

Definition wk_with_metas (m : list ReqMeta) (d : list DisaggSpec) s := WorkerState _ m d
  (metadata_requests s) (layerwise_retrievers s) (_layerwise_save_storers s) (current_layer s)
  (_invalid_block_ids s) (kv_caches s) (_cross_layers_kv_cache s) (stats_hits s) (stats_prompt s) (engine s).
Definition wk_with_requests (l : list nat) s := WorkerState _ (metas s) (disaggs s) l
  (layerwise_retrievers s) (_layerwise_save_storers s) (current_layer s) (_invalid_block_ids s)
  (kv_caches s) (_cross_layers_kv_cache s) (stats_hits s) (stats_prompt s) (engine s).
Definition wk_with_retrievers (l : list Z) (layer : Z) s := WorkerState _ (metas s) (disaggs s)
  (metadata_requests s) l (_layerwise_save_storers s) layer (_invalid_block_ids s) (kv_caches s)
  (_cross_layers_kv_cache s) (stats_hits s) (stats_prompt s) (engine s).
Definition wk_with_storers (m : gmap string Z) s := WorkerState _ (metas s) (disaggs s)
  (metadata_requests s) (layerwise_retrievers s) m (current_layer s) (_invalid_block_ids s)
  (kv_caches s) (_cross_layers_kv_cache s) (stats_hits s) (stats_prompt s) (engine s).
Definition wk_with_invalid (b : gset Z) s := WorkerState _ (metas s) (disaggs s)
  (metadata_requests s) (layerwise_retrievers s) (_layerwise_save_storers s) (current_layer s) b
  (kv_caches s) (_cross_layers_kv_cache s) (stats_hits s) (stats_prompt s) (engine s).
Definition wk_with_caches (l : list string) s := WorkerState _ (metas s) (disaggs s)
  (metadata_requests s) (layerwise_retrievers s) (_layerwise_save_storers s) (current_layer s)
  (_invalid_block_ids s) l (_cross_layers_kv_cache s) (stats_hits s) (stats_prompt s) (engine s).
Definition wk_with_cross (b : bool) s := WorkerState _ (metas s) (disaggs s)
  (metadata_requests s) (layerwise_retrievers s) (_layerwise_save_storers s) (current_layer s)
  (_invalid_block_ids s) (kv_caches s) b (stats_hits s) (stats_prompt s) (engine s).
Definition wk_with_stats (h p : Z) s := WorkerState _ (metas s) (disaggs s)
  (metadata_requests s) (layerwise_retrievers s) (_layerwise_save_storers s) (current_layer s)
  (_invalid_block_ids s) (kv_caches s) (_cross_layers_kv_cache s) h p (engine s).
Definition wk_with_engine (e : E) s := WorkerState _ (metas s) (disaggs s)
  (metadata_requests s) (layerwise_retrievers s) (_layerwise_save_storers s) (current_layer s)
  (_invalid_block_ids s) (kv_caches s) (_cross_layers_kv_cache s) (stats_hits s) (stats_prompt s) e.

Definition on_engine {A} (m : ST E A) : ST (worker_state E) A := fun s =>
  let '(r, e) := m (engine s) in (r, wk_with_engine e s).

End setters.

(** ** Masks *)

(** [torch.ones(n, dtype=torch.bool)] with [mask[:k] = False] *)
Definition ones_from (n : nat) (k : Z) : list bool :=
  imap (fun i _ => negb (i <? slice_bound n k)%nat) (replicate n true).

(** [missing_mask = expected_mask & ~ret_mask] *)
Definition missing_mask (expected_mask ret_mask : list bool) : list bool :=
  zip_with (fun e r => e && negb r) expected_mask ret_mask.

(** [torch.nonzero(mask)] *)
Definition nonzero (mask : list bool) : list nat :=
  fst <$> filter (fun ib : nat * bool => ib.2 = true) (imap pair mask).

(** [slot_mapping[indices]] *)
Definition gather (slots : list Z) (indices : list nat) : result (list Z) :=
  mapR (fun i => result_of_option IndexError (slots !! i)) indices.

Section worker.
Context {E : Type} `{!CacheEngine E}.
Context (cfg : worker_config).
#[local] Abbreviation M := (ST (worker_state E)).

Definition record_failed_blocks (expected_mask ret_mask : list bool) (slot_mapping : list Z)
    : result (gset Z) :=
  if is_nil expected_mask then Ok ∅
  else if negb (Nat.eqb (length ret_mask) (length expected_mask)) then Ok ∅
  else
    let missing := missing_mask expected_mask ret_mask in
    if negb (existsb id missing) then Ok ∅
    else
      let slots := if (length missing <? length slot_mapping)%nat
                   then take (length missing) slot_mapping else slot_mapping in
      missing_slots ← gather slots (nonzero missing);
      mret (list_to_set ((fun slot => slot `div` wk_block_size cfg) <$> missing_slots)).

(** The objects the metadata refers to *)
Definition get_request (i : nat) : M ReqMeta := fun s =>
  (result_of_option IndexError (metas s !! i), s).

Definition _get_engine_kvcaches : M unit :=
  s ← st_get;
  if _cross_layers_kv_cache s then mret tt
  else st_lift (py_assert (negb (is_nil (kv_caches s)))).

Definition _init_kv_caches_from_forward_context (layers_with_cache : list string) : M unit :=
  st_modify (fun s => wk_with_caches
    (foldl (fun l name => if bool_decide (name ∈ l) then l else l ++ [name]) (kv_caches s) layers_with_cache) s);;
  s ← st_get;
  st_lift (py_assert (negb (is_nil (kv_caches s)))).

Definition register_kv_caches (caches : list string) : M unit :=
  s ← st_get;
  st_lift (py_assert (is_nil (kv_caches s) && negb (is_nil caches)));;
  st_modify (wk_with_caches caches).

(** ** Loading *)

Definition update_stats (m : ReqMeta) : M unit :=
  match rm_load_spec m with
  | Some l => st_modify (fun s => wk_with_stats (stats_hits s + vllm_cached_tokens l)
                (stats_prompt s + lenZ (rm_token_ids m)) s)
  | None => mret tt
  end.

Definition masked_token_count (l : LoadSpec) : Z :=
  vllm_cached_tokens l `div` wk_chunk_size cfg * wk_chunk_size cfg.

(** What a request's load is called with: its tokens up to the cached ones *)
Definition load_request_args (m : ReqMeta) (l : LoadSpec) : load_args :=
  let n := lmcache_cached_tokens l in
  LoadArgs (py_slice (rm_token_ids m) 0 n)
    (py_slice (ones_from (length (rm_token_ids m)) (masked_token_count l)) 0 n)
    (py_slice (rm_slot_mapping m) 0 n) (vllm_cached_tokens l) (rm_request_configs m) (rm_req_id m).

(** The check of what [retrieve] returned *)
Definition check_retrieved (m : ReqMeta) (l : LoadSpec) (ret_token_mask : list bool) : M unit :=
  let args := load_request_args m l in
  if count_true ret_token_mask <? lmcache_cached_tokens l - vllm_cached_tokens l then
    missing_blocks ← st_lift (record_failed_blocks (la_mask args) ret_token_mask (la_slots args));
    st_modify (fun s => wk_with_invalid (_invalid_block_ids s ∪ missing_blocks) s)
  else mret tt.

Definition load_request (m : ReqMeta) (sync : bool) : M unit :=
  update_stats m;;
  match rm_load_spec m with
  | None => mret tt
  | Some l =>
      if negb (can_load l) then mret tt
      else
        st_lift (py_assert (Nat.eqb (length (rm_token_ids m)) (length (rm_slot_mapping m))));;
        let args := load_request_args m l in
        if use_layerwise cfg then
          if enable_blending cfg then on_engine (e_blend args)
          else
            g ← on_engine (e_retrieve_layer args sync);
            on_engine (e_next g);;
            on_engine (e_next g);;
            st_modify (fun s => wk_with_retrievers (layerwise_retrievers s ++ [g]) (current_layer s) s)
        else
          ret_token_mask ← on_engine (e_retrieve args);
          check_retrieved m l ret_token_mask
  end.

Definition loads (m : ReqMeta) : bool :=
  match rm_load_spec m with Some l => can_load l | None => false end.

(** The request is the last one of the list that loads. *)
Fixpoint load_requests (requests : list nat) : M unit :=
  match requests with
  | [] => mret tt
  | i :: rest =>
      m ← get_request i;
      s ← st_get;
      let later := existsb (fun j => match metas s !! j with Some m => loads m | None => false end) rest in
      load_request m (negb later);;
      load_requests rest
  end.

Definition start_load_kv (has_attn_metadata : bool) (layers_with_cache : list string) : M unit :=
  st_modify (fun s => wk_with_retrievers (layerwise_retrievers s) 0 s);;
  s ← st_get;
  (if negb (_cross_layers_kv_cache s) && is_nil (kv_caches s)
   then _init_kv_caches_from_forward_context layers_with_cache else mret tt);;
  _get_engine_kvcaches;;
  if negb has_attn_metadata then mret tt
  else
    st_modify (fun s => wk_with_retrievers [] (current_layer s) s);;
    load_requests (metadata_requests s).

Definition wait_for_layer_load : M unit :=
  s ← st_get;
  st_iter (fun g =>
    ret_token_mask ← on_engine (e_next g);
    if current_layer s =? wk_num_layers cfg - 1
    then st_lift (py_assert (match ret_token_mask with Some _ => true | None => false end))
    else mret tt) (layerwise_retrievers s);;
  if is_nil (layerwise_retrievers s) then mret tt
  else st_modify (fun s => wk_with_retrievers (layerwise_retrievers s) (current_layer s + 1) s).

Definition get_block_ids_with_load_errors : M (gset Z) :=
  s ← st_get;
  st_modify (wk_with_invalid ∅);;
  mret (_invalid_block_ids s).

(** ** Saving *)

Definition save_refused (m : ReqMeta) : bool :=
  match rm_save_spec m with Some sp => negb (can_save sp) | None => true end
  && negb (String.eqb (wk_role cfg) "kv_producer").

(** [skip // chunk_size * chunk_size] *)
Definition aligned (n : Z) : Z := n `div` wk_chunk_size cfg * wk_chunk_size cfg.

Definition store_arguments (m : ReqMeta) (tokens : list Z) (mask : list bool) (slots : list Z)
    (offset : Z) (d : option DisaggSpec) : store_args :=
  StoreArgs tokens mask slots offset d (rm_request_configs m) (rm_req_id m).

Definition get_disagg (m : ReqMeta) : M (option DisaggSpec) := fun s =>
  match rm_disagg_spec m with
  | None => (Ok None, s)
  | Some r => (match disaggs s !! r with Some d => Ok (Some d) | None => Raise IndexError end, s)
  end.

(** A field of the shared disaggregation object *)
Definition set_disagg (m : ReqMeta) (f : DisaggSpec -> DisaggSpec) : M unit :=
  match rm_disagg_spec m with
  | None => mret tt
  | Some r => st_modify (fun s => wk_with_metas (metas s) (alter f r (disaggs s)) s)
  end.

Definition mark_last_prefill (d : DisaggSpec) : DisaggSpec :=
  MkDisaggSpec (ds_req_id d) (receiver_id d) (receiver_host d) (receiver_init_port d)
    (receiver_alloc_port d) true (num_transferred_tokens d).
Definition mark_transferred (n : Z) (d : DisaggSpec) : DisaggSpec :=
  MkDisaggSpec (ds_req_id d) (receiver_id d) (receiver_host d) (receiver_init_port d)
    (receiver_alloc_port d) (ds_is_last_prefill d) n.

Definition set_skip (i : nat) (n : Z) : M unit :=
  st_modify (fun s => wk_with_metas
    (alter (fun m => MkReqMeta (rm_req_id m) (rm_token_ids m) (rm_slot_mapping m) (rm_is_last_prefill m)
       ((fun sp => MkSaveSpec n (can_save sp)) <$> rm_save_spec m) (rm_load_spec m) (rm_disagg_spec m)
       (rm_request_configs m)) i (metas s)) (disaggs s) s).

(** One request of [wait_for_save] *)
Definition save_request (i : nat) : M unit :=
  m ← get_request i;
  on_engine (e_lookup_unpin (rm_req_id m));;
  if save_refused m then mret tt
  else if negb (Nat.eqb (length (rm_slot_mapping m)) (length (rm_token_ids m))) then mret tt
  else
    match rm_save_spec m with
    | None => st_raise AttributeError
    | Some save_spec =>
        d ← get_disagg m;
        let n := lenZ (rm_token_ids m) in
        let skip := match d with
                    | Some d => if String.eqb (wk_role cfg) "kv_producer"
                                then Z.min (skip_leading_tokens save_spec) (num_transferred_tokens d)
                                else skip_leading_tokens save_spec
                    | None => skip_leading_tokens save_spec
                    end in
        if skip =? n then mret tt
        else
          let offset := aligned skip in
          let mask := ones_from (length (rm_token_ids m)) offset in
          (if rm_is_last_prefill m then set_disagg m mark_last_prefill else mret tt);;
          d ← get_disagg m;
          let stop := if rm_is_last_prefill m || enable_blending cfg then n else aligned n in
          on_engine (e_store (store_arguments m (py_slice (rm_token_ids m) 0 stop) (py_slice mask 0 stop)
            (py_slice (rm_slot_mapping m) 0 stop) offset d));;
          if is_last_rank cfg then
            set_skip i stop;;
            set_disagg m (mark_transferred stop)
          else mret tt
    end.

(** [wait_for_save] of the adapter *)
Definition wait_for_save : M unit :=
  if String.eqb (wk_role cfg) "kv_consumer" then mret tt
  else
    s ← st_get;
    if use_layerwise cfg then
      st_iter (fun i =>
        m ← get_request i;
        s ← st_get;
        st_modify (fun s => wk_with_storers (delete (rm_req_id m) (_layerwise_save_storers s)) s);;
        (match _layerwise_save_storers s !! rm_req_id m with
         | Some g => on_engine (e_next g);; mret tt
         | None => mret tt
         end);;
        on_engine (e_lookup_unpin (rm_req_id m))) (metadata_requests s)
    else
      _get_engine_kvcaches;;
      st_iter save_request (metadata_requests s).

(** [_hcu_wait_for_save]: the mismatched requests are unpinned and hidden from the
    original. *)
Fixpoint filter_requests (requests : list nat) : M (list nat) :=
  match requests with
  | [] => mret []
  | i :: rest =>
      m ← get_request i;
      if negb (Nat.eqb (length (rm_slot_mapping m)) (length (rm_token_ids m))) then
        on_engine (e_lookup_unpin (rm_req_id m));;
        filter_requests rest
      else
        filtered ← filter_requests rest;
        mret (i :: filtered)
  end.

Definition _hcu_wait_for_save : M unit :=
  s ← st_get;
  let original_requests := metadata_requests s in
  if is_nil original_requests then wait_for_save
  else
    filtered ← filter_requests original_requests;
    if Nat.eqb (length filtered) (length original_requests) then wait_for_save
    else
      st_modify (wk_with_requests filtered);;
      st_finally wait_for_save (st_modify (wk_with_requests original_requests)).

(** [save_kv_layer]: a store generator per request, advanced once per layer *)
Definition save_layer_request (i : nat) (is_first : bool) : M bool :=
  m ← get_request i;
  if save_refused m then mret is_first
  else
    s ← st_get;
    match _layerwise_save_storers s !! rm_req_id m with
    | Some g => on_engine (e_next g);; mret is_first
    | None =>
        st_lift (py_assert (Nat.eqb (length (rm_slot_mapping m)) (length (rm_token_ids m))));;
        let n := lenZ (rm_token_ids m) in
        skip ← (if String.eqb (wk_role cfg) "kv_producer" then mret (Some 0)
                else
                  match rm_save_spec m with
                  | None => st_raise AssertionError
                  | Some sp => mret (if skip_leading_tokens sp =? n then None
                                     else Some (aligned (skip_leading_tokens sp)))
                  end);
        match skip with
        | None => mret is_first
        | Some offset =>
            g ← on_engine (e_store_layer (store_arguments m (rm_token_ids m)
                  (ones_from (length (rm_token_ids m)) offset) (rm_slot_mapping m) offset None) is_first);
            st_modify (fun s => wk_with_storers (<[rm_req_id m := g]> (_layerwise_save_storers s)) s);;
            on_engine (e_next g);;
            mret false
        end
    end.

Fixpoint save_layer_requests (requests : list nat) (is_first : bool) : M unit :=
  match requests with
  | [] => mret tt
  | i :: rest => b ← save_layer_request i is_first; save_layer_requests rest b
  end.

Definition save_kv_layer (has_metadata : bool) : M unit :=
  if negb (use_layerwise cfg) then mret tt
  else if String.eqb (wk_role cfg) "kv_consumer" then mret tt
  else if negb has_metadata then mret tt
  else
    s ← st_get;
    st_lift (py_assert (negb (is_nil (kv_caches s))));;
    save_layer_requests (metadata_requests s) true.

End worker.

(** ** The blocks of a failed load *)

Lemma elem_of_nonzero mask i : i ∈ nonzero mask <-> mask !! i = Some true.
Proof.
  unfold nonzero. rewrite list_elem_of_fmap. split.
  - intros ([j b] & -> & [Hb Hin]%list_elem_of_filter). simpl in *. subst.
    apply elem_of_lookup_imap in Hin as (k & b & [= -> ->] & Hk). done.
  - intros H. exists (i, true). split; [done|]. apply list_elem_of_filter. split; [done|].
    apply elem_of_lookup_imap. by exists i, true.
Qed.

Lemma missing_lookup expected ret i :
  missing_mask expected ret !! i = Some true <-> expected !! i = Some true /\ ret !! i = Some false.
Proof.
  unfold missing_mask. rewrite lookup_zip_with_Some. split.
  - intros (e & r & H & -> & ->). symmetry in H. apply andb_true_iff in H as [-> H].
    by apply negb_true_iff in H as ->.
  - intros [-> ->]. by exists true, false.
Qed.

Lemma existsb_missing mask : existsb id mask = false <-> forall i : nat, mask !! i <> Some true.
Proof.
  split.
  - intros H i Hi. apply not_true_iff_false in H. apply H. apply existsb_exists. exists true.
    split; [|done]. apply list_elem_of_In. by eapply list_elem_of_lookup_2.
  - intros H. apply not_true_iff_false. intros ([|] & Hin & Hb)%existsb_exists; [|done].
    apply list_elem_of_In, list_elem_of_lookup_1 in Hin as [i Hi]. by apply (H i).
Qed.

Lemma gather_spec slots indices :
  (forall i, i ∈ indices -> (i < length slots)%nat) ->
  exists l, gather slots indices = Ok l /\
    forall x, x ∈ l <-> exists i, i ∈ indices /\ slots !! i = Some x.
Proof.
  intros H. destruct (mapR_total (fun i => result_of_option IndexError (slots !! i)) indices) as [l Hl].
  { intros i Hi. destruct (lookup_lt_is_Some_2 slots i (H i Hi)) as [x ->]. by exists x. }
  exists l. split; [done|]. apply mapR_Ok in Hl. intros x. split.
  - intros [k Hk]%list_elem_of_lookup_1. eapply Forall2_lookup_r in Hl as (i & Hi & Hx); [|done].
    apply result_of_option_Ok in Hx. exists i. split; [by eapply list_elem_of_lookup_2|done].
  - intros (i & [k Hk]%list_elem_of_lookup_1 & Hx). eapply Forall2_lookup_l in Hl as (y & Hy & Hi); [|done].
    apply result_of_option_Ok in Hi. replace x with y by congruence. by eapply list_elem_of_lookup_2.
Qed.

Lemma failed_blocks_run cfg expected ret slots :
  length ret = length expected -> (length expected <= length slots)%nat ->
  exists blocks, record_failed_blocks cfg expected ret slots = Ok blocks /\
    forall b, b ∈ blocks <-> exists i slot, expected !! i = Some true /\ ret !! i = Some false /\
      slots !! i = Some slot /\ b = slot `div` wk_block_size cfg.
Proof.
  intros Hr Hs. unfold record_failed_blocks.
  destruct (is_nil expected) eqn:En.
  { exists ∅. split; [done|]. destruct expected; [|done]. intros b. split; [set_solver|].
    by intros (i & slot & Hi & _). }
  rewrite Hr, Nat.eqb_refl. cbn [negb].
  destruct (existsb id (missing_mask expected ret)) eqn:Ee; cbn [negb].
  2: { exists ∅. split; [done|]. intros b. split; [set_solver|]. intros (i & slot & Hi & Hri & _).
       apply existsb_missing with (i := i) in Ee. destruct Ee. by apply missing_lookup. }
  assert (length (missing_mask expected ret) = length expected) as Hm.
  { unfold missing_mask. rewrite length_zip_with. lia. }
  rewrite Hm. set (slots' := if (_ <? _)%nat then _ else _).
  assert (forall i, (i < length expected)%nat -> slots' !! i = slots !! i) as Hlook.
  { intros i Hi. unfold slots'. destruct (_ <? _)%nat; [|done]. by apply lookup_take_lt. }
  assert (length expected <= length slots')%nat as Hl'.
  { unfold slots'. destruct (_ <? _)%nat eqn:E; [|done]. rewrite length_take. lia. }
  assert (forall i, i ∈ nonzero (missing_mask expected ret) -> (i < length expected)%nat) as Hlt.
  { intros i [Hi _]%elem_of_nonzero%missing_lookup. by eapply lookup_lt_Some. }
  destruct (gather_spec slots' (nonzero (missing_mask expected ret))) as (l & -> & Hl).
  { intros i Hi. specialize (Hlt i Hi). lia. }
  eexists. split; [done|]. intros b. rewrite elem_of_list_to_set, list_elem_of_fmap. split.
  - intros (slot & -> & (i & Hi & Hx)%Hl). pose proof Hi as Hi'. apply elem_of_nonzero, missing_lookup in Hi' as [He Hret].
    exists i, slot. rewrite <- Hlook by (by apply Hlt). done.
  - intros (i & slot & He & Hret & Hx & ->). exists slot. split; [done|]. apply Hl. exists i.
    assert (i ∈ nonzero (missing_mask expected ret)) as Hin by (by apply elem_of_nonzero, missing_lookup).
    split; [done|]. rewrite Hlook by (by apply Hlt). done.
Qed.

(** The failed blocks are exactly the blocks of the tokens that were expected and not
    retrieved. *)
Theorem failed_blocks_exact cfg expected ret slots :
  length ret = length expected -> (length expected <= length slots)%nat ->
  exists blocks, record_failed_blocks cfg expected ret slots = Ok blocks /\
    forall b, b ∈ blocks <-> exists i slot, expected !! i = Some true /\ ret !! i = Some false /\
      slots !! i = Some slot /\ b = slot `div` wk_block_size cfg.
Proof. apply failed_blocks_run. Qed.

(** ** When a failed load is noticed *)

Lemma ones_from_eq n (k : nat) :
  (k <= n)%nat -> ones_from n (Z.of_nat k) = replicate k false ++ replicate (n - k) true.
Proof.
  intros Hk. apply list_eq. intros i. unfold ones_from, slice_bound.
  rewrite (proj2 (Z.ltb_ge _ _)) by lia. rewrite Nat2Z.id, Nat.min_l by done.
  rewrite list_lookup_imap. destruct (decide (i < k)%nat) as [Hi|Hi].
  - rewrite !lookup_app_l by (rewrite length_replicate; lia).
    rewrite !lookup_replicate_2 by lia. simpl. by rewrite (proj2 (Nat.ltb_lt _ _)).
  - rewrite lookup_app_r by (rewrite length_replicate; lia). rewrite length_replicate.
    destruct (decide (i < n)%nat) as [Hn|Hn].
    + rewrite !lookup_replicate_2 by lia. simpl. by rewrite (proj2 (Nat.ltb_ge _ _)) by lia.
    + rewrite !lookup_ge_None_2 by (rewrite length_replicate; lia). done.
Qed.

Lemma count_true_app a b : count_true (a ++ b) = count_true a + count_true b.
Proof. unfold count_true. by rewrite list.filter_app, lenZ_app. Qed.

Lemma count_true_replicate n b : count_true (replicate n b) = if b then Z.of_nat n else 0.
Proof.
  unfold count_true, lenZ. induction n as [|n IH]; [by destruct b|]. simpl.
  destruct b; [rewrite filter_cons_True by done; simpl; lia|by rewrite filter_cons_False].
Qed.

(** What an engine returns that loaded the tokens from the masked ones up to [e] *)
Definition loaded_mask (masked e n : nat) : list bool :=
  replicate masked false ++ replicate (e - masked) true ++ replicate (n - e) false.

Lemma loaded_mask_count masked e n : count_true (loaded_mask masked e n) = Z.of_nat (e - masked).
Proof. unfold loaded_mask. rewrite !count_true_app, !count_true_replicate. lia. Qed.

Lemma loaded_mask_missing masked e n i :
  (masked <= e <= n)%nat -> (masked <= i)%nat ->
  loaded_mask masked e n !! i = Some false <-> (e <= i < n)%nat.
Proof.
  intros He Hi. unfold loaded_mask.
  rewrite lookup_app_r by (rewrite length_replicate; lia). rewrite length_replicate.
  destruct (decide (i < e)%nat).
  - rewrite lookup_app_l by (rewrite length_replicate; lia).
    rewrite lookup_replicate. split; [intros [? ?]; done|lia].
  - rewrite lookup_app_r by (rewrite length_replicate; lia). rewrite length_replicate, lookup_replicate.
    split; [lia|]. intros. split; [done|lia].
Qed.

(** The mask and the slots of a load, up to the cached tokens *)
Lemma load_args_slices cfg m l (masked n : nat) :
  masked_token_count cfg l = Z.of_nat masked -> lmcache_cached_tokens l = Z.of_nat n ->
  (masked <= n)%nat -> (n <= length (rm_token_ids m))%nat ->
  length (rm_slot_mapping m) = length (rm_token_ids m) ->
  la_mask (load_request_args cfg m l) = replicate masked false ++ replicate (n - masked) true /\
  la_slots (load_request_args cfg m l) = take n (rm_slot_mapping m).
Proof.
  intros Hmask Hn Hle Htok Hslot. unfold load_request_args. cbn zeta. cbn [la_mask la_slots].
  rewrite Hn, Hmask, ones_from_eq by lia. split.
  - rewrite py_slice_take by (unfold lenZ; rewrite length_app, !length_replicate; lia).
    rewrite Nat2Z.id, take_app, length_replicate, !take_replicate. f_equal; f_equal; lia.
  - rewrite py_slice_take by (unfold lenZ; lia). by rewrite Nat2Z.id.
Qed.

Lemma load_request_run {E} `{!CacheEngine E} cfg m l sync (masked e n : nat) (s s1 : worker_state E) w :
  0 < wk_chunk_size cfg -> use_layerwise cfg = false ->
  rm_load_spec m = Some l -> can_load l = true ->
  masked_token_count cfg l = Z.of_nat masked -> lmcache_cached_tokens l = Z.of_nat n ->
  (masked <= e <= n)%nat -> (n <= length (rm_token_ids m))%nat ->
  length (rm_slot_mapping m) = length (rm_token_ids m) ->
  e_retrieve (load_request_args cfg m l) (engine s) = (Ok (loaded_mask masked e n), w) ->
  update_stats m s = (Ok tt, s1) ->
  exists s', load_request cfg m sync s = (Ok tt, s') /\ engine s' = w /\
    (if vllm_cached_tokens l mod wk_chunk_size cfg <? Z.of_nat (n - e) then
       forall b, b ∈ _invalid_block_ids s' <-> b ∈ _invalid_block_ids s \/
         exists i slot, (e <= i < n)%nat /\ rm_slot_mapping m !! i = Some slot /\ b = slot `div` wk_block_size cfg
     else _invalid_block_ids s' = _invalid_block_ids s).
Proof.
  intros Hc Hlw Hl Hcan Hmask Hn He Htok Hslot Hret Hst.
  assert (engine s1 = engine s /\ _invalid_block_ids s1 = _invalid_block_ids s) as [Heng Hinv].
  { revert Hst. unfold update_stats. rewrite Hl. by intros [= <-]. }
  unfold load_request, mbind, ST_bind. rewrite Hst, Hl, Hcan, Hlw. cbn [negb].
  unfold st_lift. rewrite Hslot, Nat.eqb_refl. cbn [py_assert raise_if negb].
  unfold on_engine. rewrite Heng, Hret. cbn beta iota zeta.
  unfold check_retrieved, mbind, ST_bind, st_lift. cbn zeta. rewrite loaded_mask_count, Hn.
  assert (vllm_cached_tokens l mod wk_chunk_size cfg = vllm_cached_tokens l - Z.of_nat masked) as Hmod.
  { rewrite <- Hmask. unfold masked_token_count. rewrite Z.mod_eq by lia. lia. }
  rewrite Hmod. set (expected := la_mask _). set (slots := la_slots _).
  destruct (load_args_slices cfg m l masked n Hmask Hn ltac:(lia) Htok Hslot) as [Hexp Hsl].
  fold expected in Hexp. fold slots in Hsl.
  replace (Z.of_nat (e - masked) <? Z.of_nat n - vllm_cached_tokens l)
    with (vllm_cached_tokens l - Z.of_nat masked <? Z.of_nat (n - e)) by (apply eq_true_iff_eq; rewrite !Z.ltb_lt; lia).
  destruct (_ <? Z.of_nat (n - e)); [|eexists; split; [done|]; by rewrite <- Hinv].
  destruct (failed_blocks_run cfg expected (loaded_mask masked e n) slots) as (blocks & -> & Hb).
  { rewrite Hexp. unfold loaded_mask. rewrite !length_app, !length_replicate. lia. }
  { rewrite Hexp, Hsl. rewrite length_app, !length_replicate, length_take. lia. }
  eexists. split; [done|]. split; [done|]. intros b. cbn [_invalid_block_ids wk_with_invalid wk_with_engine].
  rewrite elem_of_union, Hinv, Hb. f_equiv. split.
  - intros (i & slot & Hi & Hr & Hsi & ->). exists i, slot. rewrite Hexp in Hi.
    assert (masked <= i)%nat as Hmi.
    { destruct (decide (i < masked)%nat); [|lia]. rewrite lookup_app_l in Hi by (rewrite length_replicate; lia).
      apply lookup_replicate in Hi as [? _]. done. }
    apply loaded_mask_missing in Hr; [|done|done]. split; [done|]. split; [|done].
    rewrite Hsl, lookup_take_lt in Hsi by lia. done.
  - intros (i & slot & Hi & Hsi & ->). exists i, slot. split_and!; [| | |done].
    + rewrite Hexp, lookup_app_r by (rewrite length_replicate; lia).
      rewrite length_replicate. apply lookup_replicate_2. lia.
    + apply loaded_mask_missing; lia.
    + rewrite Hsl, lookup_take_lt by lia. done.
Qed.

(** C31: of a load that stops at token [e], the blocks of the missing tokens are reported
    exactly when more tokens are missing than vLLM had past the last chunk boundary;
    otherwise nothing is reported, and the missing tokens pass for loaded. *)
Theorem failed_load_reported {E} `{!CacheEngine E} cfg m l sync (masked e n : nat) (s s1 : worker_state E) w :
  0 < wk_chunk_size cfg -> use_layerwise cfg = false ->
  rm_load_spec m = Some l -> can_load l = true ->
  masked_token_count cfg l = Z.of_nat masked -> lmcache_cached_tokens l = Z.of_nat n ->
  (masked <= e <= n)%nat -> (n <= length (rm_token_ids m))%nat ->
  length (rm_slot_mapping m) = length (rm_token_ids m) ->
  e_retrieve (load_request_args cfg m l) (engine s) = (Ok (loaded_mask masked e n), w) ->
  update_stats m s = (Ok tt, s1) ->
  exists s', load_request cfg m sync s = (Ok tt, s') /\ engine s' = w /\
    (if vllm_cached_tokens l mod wk_chunk_size cfg <? Z.of_nat (n - e) then
       forall b, b ∈ _invalid_block_ids s' <-> b ∈ _invalid_block_ids s \/
         exists i slot, (e <= i < n)%nat /\ rm_slot_mapping m !! i = Some slot /\ b = slot `div` wk_block_size cfg
     else _invalid_block_ids s' = _invalid_block_ids s).
Proof. apply load_request_run. Qed.

(** ** What a step saves *)

Inductive engine_event : Type :=
  | Unpinned (req_id : string)
  | Stored (a : store_args)
  | OtherCall.

(** An engine that records its calls and loads nothing *)
#[global] Instance recorder : CacheEngine (list engine_event) := {
  e_lookup_unpin id := st_modify (fun l => l ++ [Unpinned id]);
  e_store a := st_modify (fun l => l ++ [Stored a]);
  e_retrieve a := st_modify (fun l => l ++ [OtherCall]);; mret (replicate (length (la_tokens a)) false);
  e_store_layer _ _ := st_modify (fun l => l ++ [OtherCall]);; mret 0;
  e_retrieve_layer _ _ := st_modify (fun l => l ++ [OtherCall]);; mret 0;
  e_blend _ := st_modify (fun l => l ++ [OtherCall]);
  e_next _ := st_modify (fun l => l ++ [OtherCall]);; mret None;
}.

Section saving.
Context (cfg : worker_config).
Hypothesis Hchunk : 0 < wk_chunk_size cfg.
Implicit Types (s : worker_state (list engine_event)).

(** A store of a request's tokens: a prefix of them, each with its slot, masked up to an
    offset on a chunk boundary, complete but for the last partial chunk of an unfinished
    prefill *)
Definition stores_request (m : ReqMeta) (a : store_args) : Prop :=
  let n := lenZ (rm_token_ids m) in
  let stop := if rm_is_last_prefill m || enable_blending cfg then n else aligned cfg n in
  sa_req_id a = rm_req_id m /\
  sa_tokens a = take (Z.to_nat stop) (rm_token_ids m) /\
  sa_slots a = take (Z.to_nat stop) (rm_slot_mapping m) /\
  length (sa_slots a) = length (sa_tokens a) /\ length (sa_mask a) = length (sa_tokens a) /\
  sa_offset a mod wk_chunk_size cfg = 0 /\
  forall i b, sa_mask a !! i = Some b -> b = (sa_offset a <=? Z.of_nat i).

(** What the metadata needs for a save not to fail *)
Definition saveable s (m : ReqMeta) : Prop :=
  (exists sp, rm_save_spec m = Some sp /\ 0 <= skip_leading_tokens sp) /\
  forall r, rm_disagg_spec m = Some r -> (r < length (disaggs s))%nat.

Definition save_inv s : Prop :=
  Forall (saveable s) (metas s) /\ Forall (fun d => 0 <= num_transferred_tokens d) (disaggs s) /\
  forall i, i ∈ metadata_requests s -> (i < length (metas s))%nat.

(** Saving changes neither what a request saves nor the other fields of the connector. *)
Definition same_request (m m' : ReqMeta) : Prop :=
  rm_req_id m' = rm_req_id m /\ rm_token_ids m' = rm_token_ids m /\
  rm_slot_mapping m' = rm_slot_mapping m /\ rm_is_last_prefill m' = rm_is_last_prefill m.

Definition save_frame s s' : Prop :=
  (forall i m, metas s !! i = Some m -> exists m', metas s' !! i = Some m' /\ same_request m m') /\
  length (metas s') = length (metas s) /\ length (disaggs s') = length (disaggs s) /\
  kv_caches s' = kv_caches s /\ _cross_layers_kv_cache s' = _cross_layers_kv_cache s.

Lemma save_frame_refl s : save_frame s s.
Proof. split; [|done]. intros i m Hm. by exists m. Qed.

Lemma save_frame_trans s1 s2 s3 : save_frame s1 s2 -> save_frame s2 s3 -> save_frame s1 s3.
Proof.
  intros (H1 & N1 & L1 & K1 & C1) (H2 & N2 & L2 & K2 & C2). split; [|by rewrite N2, L2, K2, C2].
  intros i m Hm. destruct (H1 i m Hm) as (m1 & Hm1 & ? & ? & ? & ?).
  destruct (H2 i m1 Hm1) as (m2 & Hm2 & ? & ? & ? & ?).
  exists m2. split; [done|]. split_and!; congruence.
Qed.

Lemma ones_from_lookup n k i b :
  0 <= k -> ones_from n k !! i = Some b -> b = (k <=? Z.of_nat i) .
Proof.
  intros Hk. unfold ones_from, slice_bound. rewrite (proj2 (Z.ltb_ge _ _)) by lia.
  intros (x & [_ Hi]%lookup_replicate & ->)%list_lookup_imap_Some.
  apply eq_true_iff_eq. rewrite negb_true_iff, Nat.ltb_ge, Z.leb_le. lia.
Qed.

Lemma aligned_bounds n : 0 <= n -> 0 <= aligned cfg n <= n /\ aligned cfg n mod wk_chunk_size cfg = 0.
Proof.
  intros Hn. unfold aligned. split; [|by apply Z_mod_mult].
  assert (0 <= n `div` wk_chunk_size cfg) by (apply Z.div_pos; lia).
  rewrite Z.mul_comm. split; [|by apply Z.mul_div_le]. apply Z.mul_nonneg_nonneg; lia.
Qed.

(** The invariant only needs the requests' save specs and references. *)
Lemma save_inv_ext s s' :
  save_inv s -> metas s' = metas s -> disaggs s' = disaggs s -> metadata_requests s' = metadata_requests s ->
  save_inv s'.
Proof.
  intros (Hm & Hd & Hr) Em Ed Er. unfold save_inv, saveable. rewrite Em, Ed, Er. done.
Qed.

Lemma set_disagg_inv m f s :
  (forall d, 0 <= num_transferred_tokens d -> 0 <= num_transferred_tokens (f d)) -> save_inv s ->
  exists s', set_disagg m f s = (Ok tt, s') /\ save_inv s' /\ save_frame s s' /\
    metas s' = metas s /\ metadata_requests s' = metadata_requests s /\ engine s' = engine s.
Proof.
  intros Hf (Hm & Hd & Hr). unfold set_disagg. destruct (rm_disagg_spec m) as [r|].
  2: { exists s. split; [done|]. split; [done|]. split; [apply save_frame_refl|done]. }
  eexists. split; [done|]. split; [|split; [|done]].
  - split; [|split; [|done]]; cbn [metas disaggs wk_with_metas].
    + eapply Forall_impl; [|exact Hm]. intros x [Hs Hx]. split; [done|].
      intros r' Hr'. cbn [disaggs wk_with_metas]. rewrite length_alter. by apply Hx.
    + apply Forall_alter; [done|]. intros d ? Hin. by apply Hf.
  - split; [intros i x Hx; by exists x|]. split; [done|]. cbn [disaggs wk_with_metas]. by rewrite length_alter.
Qed.

Lemma set_skip_inv i n s :
  0 <= n -> save_inv s ->
  exists s', set_skip i n s = (Ok tt, s') /\ save_inv s' /\ save_frame s s' /\
    metadata_requests s' = metadata_requests s /\ engine s' = engine s.
Proof.
  intros Hn (Hm & Hd & Hr). eexists. split; [done|]. split; [|split; [|done]].
  - split; [|split; [done|]]; cbn [metas disaggs wk_with_metas metadata_requests].
    + apply Forall_alter; [done|]. intros m Hin [(sp & Hsp & _) Hx]. split; [|done].
      exists (MkSaveSpec n (can_save sp)). cbn [rm_save_spec]. rewrite Hsp. done.
    + intros j Hj. rewrite length_alter. by apply Hr.
  - split; [|cbn [metas wk_with_metas]; by rewrite length_alter].
    intros j m Hjm. cbn [metas wk_with_metas]. destruct (decide (i = j)) as [->|Hne].
    + rewrite list_lookup_alter_eq, Hjm. eexists. split; [done|]. done.
    + rewrite list_lookup_alter_ne by done. by exists m.
Qed.

Lemma get_disagg_ok m s :
  save_inv s -> saveable s m ->
  exists d, get_disagg m s = (Ok d, s) /\ forall x, d = Some x -> 0 <= num_transferred_tokens x.
Proof.
  intros (_ & Hd & _) [_ Hx]. unfold get_disagg. destruct (rm_disagg_spec m) as [r|]; [|by exists None].
  destruct (lookup_lt_is_Some_2 (disaggs s) r) as [d Hdr]; [by apply Hx|]. rewrite Hdr.
  exists (Some d). split; [done|]. intros x [= <-]. by eapply Forall_lookup_1 in Hd.
Qed.

(** The arguments [save_request] stores are a store of its request. *)
Lemma stored_arguments m skip d :
  0 <= skip -> length (rm_slot_mapping m) = length (rm_token_ids m) ->
  let n := lenZ (rm_token_ids m) in
  let stop := if rm_is_last_prefill m || enable_blending cfg then n else aligned cfg n in
  0 <= stop /\
  stores_request m (store_arguments m (py_slice (rm_token_ids m) 0 stop)
    (py_slice (ones_from (length (rm_token_ids m)) (aligned cfg skip)) 0 stop)
    (py_slice (rm_slot_mapping m) 0 stop) (aligned cfg skip) d).
Proof.
  intros Hs Hl. cbn zeta.
  set (stop := if rm_is_last_prefill m || enable_blending cfg then lenZ (rm_token_ids m)
               else aligned cfg (lenZ (rm_token_ids m))).
  assert (0 <= stop <= lenZ (rm_token_ids m)) as Hstop.
  { pose proof (lenZ_nonneg (rm_token_ids m)). unfold stop. destruct (_ || _); [lia|].
    by apply aligned_bounds. }
  destruct (aligned_bounds skip Hs) as [[Ha _] Hmod].
  assert (length (ones_from (length (rm_token_ids m)) (aligned cfg skip)) = length (rm_token_ids m)) as Hm.
  { unfold ones_from. by rewrite length_imap, length_replicate. }
  split; [lia|]. unfold stores_request, store_arguments. cbn zeta. fold stop.
  cbn [sa_req_id sa_tokens sa_slots sa_mask sa_offset].
  rewrite !py_slice_take by (unfold lenZ in *; lia).
  split_and!; [done|done|done|rewrite !length_take; lia|rewrite !length_take; lia|done|].
  intros i b. rewrite lookup_take_Some. intros [Hb _]. by eapply ones_from_lookup in Hb.
Qed.

Definition unpins (evs : list engine_event) : list string :=
  omap (fun e => match e with Unpinned id => Some id | _ => None end) evs.
Definition stores (evs : list engine_event) : list store_args :=
  omap (fun e => match e with Stored a => Some a | _ => None end) evs.
Definition request_ids s (l : list nat) : list string := omap (fun i => rm_req_id <$> metas s !! i) l.

(** What saving the requests [l] did to the engine: each is unpinned once, in some order;
    each is stored at most once, in order. *)
Definition saved_events s (l : list nat) (evs : list engine_event) : Prop :=
  unpins evs ≡ₚ request_ids s l /\ (sa_req_id <$> stores evs) `sublist_of` request_ids s l /\
  forall a, a ∈ stores evs -> exists i m, i ∈ l /\ metas s !! i = Some m /\ stores_request m a.

Lemma omap_app {A A'} (f : A -> option A') l k : omap f (l ++ k) = omap f l ++ omap f k.
Proof. induction l as [|x l IH]; [done|]. simpl. destruct (f x); [|done]. simpl. by f_equal. Qed.

Lemma omap_cons {A A'} (f : A -> option A') x l :
  omap f (x :: l) = match f x with Some y => y :: omap f l | None => omap f l end.
Proof. done. Qed.

Lemma saved_events_nil s : saved_events s [] [].
Proof. split; [done|]. split; [done|]. intros a ?%not_elem_of_nil. done. Qed.

Lemma stores_same m m' a : same_request m m' -> stores_request m' a -> stores_request m a.
Proof. intros (Hi & Ht & Hs & Hp). unfold stores_request. by rewrite Hi, Ht, Hs, Hp. Qed.

Lemma request_ids_frame s s' l : save_frame s s' -> request_ids s' l = request_ids s l.
Proof.
  intros (H & Hlen & _). unfold request_ids. induction l as [|i l IH]; [done|]. rewrite !omap_cons, IH.
  destruct (metas s !! i) as [m|] eqn:E.
  - destruct (H i m E) as (m' & -> & Hid & _). cbn. by rewrite Hid.
  - rewrite (proj2 (lookup_ge_None (metas s') i)); [done|]. rewrite Hlen. by apply lookup_ge_None.
Qed.

Lemma saved_events_app s s' i l evs evs' :
  save_frame s s' -> saved_events s [i] evs -> saved_events s' l evs' ->
  saved_events s (i :: l) (evs ++ evs').
Proof.
  intros Hf (Hu & Hs & Ha) (Hu' & Hs' & Ha'). pose proof (request_ids_frame s s' l Hf) as Hids.
  assert (request_ids s (i :: l) = request_ids s [i] ++ request_ids s l) as Hc by (apply (omap_app _ [i])).
  unfold saved_events, unpins, stores. rewrite !omap_app, Hc, <- Hids. split_and!.
  - by apply Permutation_app.
  - rewrite fmap_app. by apply sublist_app.
  - intros a [Hin|Hin]%elem_of_app.
    + destruct (Ha a Hin) as (j & m & ->%list_elem_of_singleton & Hm & Hst). exists i, m. split; [by left|done].
    + destruct (Ha' a Hin) as (j & m' & Hj & Hm' & Hst). pose proof Hf as (H & Hlen & _).
      destruct (metas s !! j) as [m|] eqn:E.
      * destruct (H j m E) as (m1 & Hm1 & Hsame). exists j, m. split; [by right|]. split; [done|].
        eapply stores_same; [exact Hsame|]. by replace m1 with m' by congruence.
      * apply lookup_ge_None in E. apply lookup_lt_Some in Hm'. lia.
Qed.

Lemma unpin_only s i m : metas s !! i = Some m -> saved_events s [i] [Unpinned (rm_req_id m)].
Proof.
  intros Hm. unfold saved_events, request_ids. simpl. rewrite Hm. split; [done|].
  split; [apply sublist_nil_l|]. intros a ?%not_elem_of_nil. done.
Qed.

Lemma unpin_store s i m a :
  metas s !! i = Some m -> stores_request m a -> saved_events s [i] [Unpinned (rm_req_id m); Stored a].
Proof.
  intros Hm Ha. unfold saved_events, request_ids. simpl. rewrite Hm. simpl. split; [done|]. split.
  - destruct Ha as [-> _]. done.
  - intros b ->%list_elem_of_singleton. exists i, m. split; [by left|done].
Qed.

Lemma save_request_step s i m :
  save_inv s -> metas s !! i = Some m ->
  exists s' evs, save_request cfg i s = (Ok tt, s') /\ save_inv s' /\ save_frame s s' /\
    metadata_requests s' = metadata_requests s /\ engine s' = engine s ++ evs /\ saved_events s [i] evs.
Proof.
  intros Hinv Hm. unfold save_request, mbind, ST_bind, get_request. rewrite Hm. cbn [result_of_option].
  set (s1 := wk_with_engine (engine s ++ [Unpinned (rm_req_id m)]) s).
  change (on_engine (e_lookup_unpin (rm_req_id m)) s) with (Ok tt, s1). cbn beta iota.
  assert (save_inv s1) as Hinv1 by (by apply (save_inv_ext s)).
  assert (save_frame s s1) as Hf1 by (split; [intros j x Hx; by exists x|done]).
  assert (saveable s1 m) as Hsave by (destruct Hinv as (H & _); by eapply Forall_lookup_1 in H).
  assert (exists s' evs, (Ok tt, s1) = (Ok tt, s') /\ save_inv s' /\ save_frame s s' /\
    metadata_requests s' = metadata_requests s /\ engine s' = engine s ++ evs /\ saved_events s [i] evs) as Hskip.
  { exists s1, [Unpinned (rm_req_id m)]. split_and!; try done. by apply unpin_only. }
  destruct (save_refused cfg m); [done|].
  destruct (Nat.eqb (length (rm_slot_mapping m)) (length (rm_token_ids m))) eqn:El; cbn [negb]; [|done].
  apply Nat.eqb_eq in El. pose proof Hsave as [(sp & Hsp & Hskip0) _]. rewrite Hsp.
  destruct (get_disagg_ok m s1 Hinv1 Hsave) as (d & -> & Hd). cbn beta iota zeta.
  set (skip := match d with Some d => _ | None => _ end).
  assert (0 <= skip) as Hsk.
  { unfold skip. destruct d as [d|]; [|done]. specialize (Hd d eq_refl). destruct (String.eqb _ _); lia. }
  destruct (skip =? lenZ (rm_token_ids m)); [done|].
  assert (exists s2, (if rm_is_last_prefill m then set_disagg m mark_last_prefill else mret tt) s1 = (Ok tt, s2) /\
    save_inv s2 /\ save_frame s1 s2 /\ metas s2 = metas s1 /\ metadata_requests s2 = metadata_requests s1 /\
    engine s2 = engine s1) as (s2 & -> & Hinv2 & Hf2 & Hm2 & Hr2 & He2).
  { destruct (rm_is_last_prefill m); [by apply set_disagg_inv|].
    exists s1. split; [done|]. split; [done|]. split; [apply save_frame_refl|done]. }
  cbn beta iota. destruct (get_disagg_ok m s2 Hinv2) as (d2 & -> & _).
  { pose proof Hinv2 as (H & _). eapply Forall_lookup_1; [exact H|]. by rewrite Hm2. }
  cbn beta iota. destruct (stored_arguments m skip d2 Hsk El) as [Hstop Hst]. cbn zeta in Hstop, Hst.
  set (a := store_arguments _ _ _ _ _ _) in *.
  set (s3 := wk_with_engine (engine s2 ++ [Stored a]) s2).
  change (on_engine (e_store a) s2) with (Ok tt, s3). cbn beta iota.
  assert (save_inv s3) as Hinv3 by (by apply (save_inv_ext s2)).
  assert (save_frame s s3) as Hf3.
  { apply (save_frame_trans s s1); [done|]. apply (save_frame_trans s1 s2); [done|].
    split; [intros j x Hx; by exists x|done]. }
  assert (engine s3 = engine s ++ [Unpinned (rm_req_id m); Stored a]) as He3.
  { cbn [engine s3 wk_with_engine]. rewrite He2. cbn [engine s1 wk_with_engine]. by rewrite <- app_assoc. }
  destruct (is_last_rank cfg).
  2: { eexists s3, _. split_and!; try done. by apply unpin_store. }
  destruct (set_skip_inv i _ s3 Hstop Hinv3) as (s4 & -> & Hinv4 & Hf4 & Hr4 & He4).
  destruct (set_disagg_inv m (mark_transferred (if rm_is_last_prefill m || enable_blending cfg
    then lenZ (rm_token_ids m) else aligned cfg (lenZ (rm_token_ids m)))) s4) as (s5 & -> & Hinv5 & Hf5 & _ & Hr5 & He5);
    [by intros|done|].
  eexists s5, _. split_and!; [done|done| |rewrite Hr5, Hr4; exact Hr2|rewrite He5, He4; exact He3|by apply unpin_store].
  apply (save_frame_trans s s3); [done|]. by apply (save_frame_trans s3 s4).
Qed.

Lemma save_requests_all l s :
  save_inv s -> (forall i, i ∈ l -> (i < length (metas s))%nat) ->
  exists s' evs, st_iter (save_request cfg) l s = (Ok tt, s') /\ save_inv s' /\ save_frame s s' /\
    metadata_requests s' = metadata_requests s /\ engine s' = engine s ++ evs /\ saved_events s l evs.
Proof.
  revert s. induction l as [|i l IH]; intros s Hinv Hl.
  { exists s, []. split_and!; try done; [apply save_frame_refl|by rewrite app_nil_r|apply saved_events_nil]. }
  destruct (lookup_lt_is_Some_2 (metas s) i) as [m Hm]; [apply Hl; by left|].
  destruct (save_request_step s i m Hinv Hm) as (s1 & evs & E & Hinv1 & Hf1 & Hr1 & He1 & Hev1).
  destruct (IH s1 Hinv1) as (s2 & evs2 & E2 & Hinv2 & Hf2 & Hr2 & He2 & Hev2).
  { intros j Hj. destruct Hf1 as (_ & -> & _). apply Hl. by right. }
  exists s2, (evs ++ evs2). cbn [st_iter]. unfold mbind, ST_bind. rewrite E, E2.
  split_and!; [done|done|by eapply save_frame_trans|congruence|by rewrite He2, He1, app_assoc|].
  by eapply saved_events_app.
Qed.

(** The requests the guard keeps and those it only unpins *)
Lemma filter_requests_all l s :
  save_inv s -> (forall i, i ∈ l -> (i < length (metas s))%nat) ->
  exists kept dropped evs,
    filter_requests l s = (Ok kept, wk_with_engine (engine s ++ evs) s) /\
    stores evs = [] /\ unpins evs = request_ids s dropped /\ kept `sublist_of` l /\ kept ++ dropped ≡ₚ l /\
    length kept = (length l - length dropped)%nat.
Proof.
  revert s. induction l as [|i l IH]; intros s Hinv Hl.
  { exists [], [], []. split_and!; try done. rewrite app_nil_r. by destruct s. }
  destruct (lookup_lt_is_Some_2 (metas s) i) as [m Hm]; [apply Hl; by left|].
  cbn [filter_requests]. unfold mbind, ST_bind, get_request. rewrite Hm. cbn [result_of_option].
  destruct (Nat.eqb _ _); cbn [negb].
  - destruct (IH s Hinv) as (kept & dropped & evs & -> & Hst & Hun & Hsub & Hp & Hlen); [intros j Hj; apply Hl; by right|].
    exists (i :: kept), dropped, evs. split_and!; try done; [by constructor|by rewrite <- Hp|].
    apply Permutation_length in Hp. rewrite length_app in Hp. simpl. lia.
  - set (s1 := wk_with_engine (engine s ++ [Unpinned (rm_req_id m)]) s).
    change (on_engine (e_lookup_unpin (rm_req_id m)) s) with (Ok tt, s1). cbn beta iota.
    destruct (IH s1) as (kept & dropped & evs & -> & Hst & Hun & Hsub & Hp & Hlen);
      [by apply (save_inv_ext s)|intros j Hj; apply Hl; by right|].
    exists kept, (i :: dropped), (Unpinned (rm_req_id m) :: evs). split_and!.
    + cbn [engine s1 wk_with_engine]. by rewrite <- app_assoc.
    + done.
    + unfold unpins, request_ids in *. rewrite !omap_cons, Hm, Hun. done.
    + by constructor.
    + by rewrite <- Hp, Permutation_middle.
    + simpl. done.
Qed.

Lemma request_ids_perm s l l' : l ≡ₚ l' -> request_ids s l ≡ₚ request_ids s l'.
Proof.
  unfold request_ids. induction 1 as [|i l l' _ IH|i j l|l1 l2 l3 _ IH1 _ IH2]; [done| | |by rewrite IH1].
  - rewrite !omap_cons. destruct (_ <$> _); by rewrite IH.
  - rewrite !omap_cons. destruct (_ <$> _), (_ <$> _); try done. constructor.
Qed.

Lemma request_ids_sublist s l l' : l `sublist_of` l' -> request_ids s l `sublist_of` request_ids s l'.
Proof.
  unfold request_ids. induction 1 as [|i l l' _ IH|i l l' _ IH]; [done| |]; rewrite !omap_cons.
  - destruct (_ <$> _); [by constructor|done].
  - destruct (_ <$> _); [by constructor|done].
Qed.

Lemma sublist_full {A} (l k : list A) : l `sublist_of` k -> length l = length k -> l = k.
Proof.
  induction 1 as [|x l k _ IH|x l k Hs _]; intros Hl; simpl in *; [done|f_equal; apply IH; lia|].
  apply sublist_length in Hs. lia.
Qed.

Lemma wait_for_save_all s :
  save_inv s -> use_layerwise cfg = false -> wk_role cfg <> "kv_consumer" ->
  (_cross_layers_kv_cache s = true \/ kv_caches s <> []) ->
  exists s' evs, wait_for_save cfg s = (Ok tt, s') /\ save_inv s' /\ save_frame s s' /\
    metadata_requests s' = metadata_requests s /\ engine s' = engine s ++ evs /\
    saved_events s (metadata_requests s) evs.
Proof.
  intros Hinv Hlw Hrole Hcache. unfold wait_for_save.
  destruct (String.eqb_spec (wk_role cfg) "kv_consumer"); [done|].
  rewrite Hlw. unfold _get_engine_kvcaches, mbind, ST_bind, st_get. cbn beta iota.
  assert ((if _cross_layers_kv_cache s then mret tt
    else st_lift (py_assert (negb (is_nil (kv_caches s))))) s = (Ok tt, s)) as ->.
  { destruct Hcache as [->|Hne]; [done|]. destruct (_cross_layers_kv_cache s); [done|]. by destruct (kv_caches s). }
  apply save_requests_all; [done|]. apply Hinv.
Qed.

(** Unpinning the dropped requests and then saving the kept ones is saving them all. *)
Lemma saved_events_filtered s s0 l kept dropped evs1 evs :
  metas s0 = metas s -> stores evs1 = [] -> unpins evs1 = request_ids s dropped ->
  kept `sublist_of` l -> kept ++ dropped ≡ₚ l -> saved_events s0 kept evs ->
  saved_events s l (evs1 ++ evs).
Proof.
  intros Hm Hst Hun Hsub Hp (Hu & Hs & Ha). unfold saved_events, unpins, stores in *.
  rewrite !omap_app, Hst, Hun.
  assert (forall l, request_ids s0 l = request_ids s l) as Hids by (intros k; unfold request_ids; by rewrite Hm).
  rewrite !Hids in *. split_and!.
  - rewrite Hu, <- (request_ids_perm s _ _ Hp). unfold request_ids. rewrite omap_app. by rewrite Permutation_app_comm.
  - simpl. etrans; [exact Hs|]. by apply request_ids_sublist.
  - intros a Hin. destruct (Ha a Hin) as (i & m & Hi & Hmi & Hsa). exists i, m. rewrite <- Hm.
    split; [|done]. by eapply sublist_subseteq.
Qed.

(** Whatever slot mappings a step's requests have, the guarded [wait_for_save] returns
    and restores the metadata; every request is unpinned exactly once, those with as many
    slots as tokens are stored at most once, in order, and each store is of the request's
    own tokens and slots, masked up to a chunk boundary. *)
Theorem guarded_save_total s :
  save_inv s -> use_layerwise cfg = false -> wk_role cfg <> "kv_consumer" ->
  (_cross_layers_kv_cache s = true \/ kv_caches s <> []) ->
  exists s' evs, _hcu_wait_for_save cfg s = (Ok tt, s') /\
    metadata_requests s' = metadata_requests s /\ save_inv s' /\
    engine s' = engine s ++ evs /\ saved_events s (metadata_requests s) evs.
Proof.
  intros Hinv Hlw Hrole Hcache.
  unfold _hcu_wait_for_save, mbind, ST_bind, st_get. cbn zeta beta iota.
  destruct (is_nil (metadata_requests s)).
  { destruct (wait_for_save_all s Hinv Hlw Hrole Hcache) as (s' & evs & -> & Hinv' & _ & Hr & He & Hev). by exists s', evs. }
  destruct (filter_requests_all (metadata_requests s) s Hinv) as (kept & dropped & evs1 & -> & Hst & Hun & Hsub & Hp & Hlen);
    [apply Hinv|].
  set (s1 := wk_with_engine (engine s ++ evs1) s).
  pose proof (Permutation_length Hp) as Hpl. rewrite length_app in Hpl.
  assert (forall s0 evs, metas s0 = metas s -> saved_events s0 kept evs ->
    saved_events s (metadata_requests s) (evs1 ++ evs)) as Hall
    by (intros s0 evs Hm; by apply saved_events_filtered with dropped).
  destruct (Nat.eqb (length kept) (length (metadata_requests s))) eqn:El.
  - apply Nat.eqb_eq in El. destruct (wait_for_save_all s1) as (s' & evs & -> & Hinv' & _ & Hr & He & Hev);
      [by apply (save_inv_ext s)|done|done|done|].
    exists s', (evs1 ++ evs). split_and!; try done.
    + rewrite He. cbn [engine s1 wk_with_engine]. by rewrite <- app_assoc.
    + apply (Hall s1); [done|]. cbn [metadata_requests s1 wk_with_engine] in Hev.
      replace kept with (metadata_requests s); [done|]. symmetry. by apply sublist_full.
  - unfold st_modify. set (s2 := wk_with_requests kept s1). unfold st_finally.
    destruct (wait_for_save_all s2) as (s' & evs & -> & Hinv' & Hf & Hr & He & Hev); [|done|done|done|].
    { destruct Hinv as (Hm & Hd & Hreq). split; [done|]. split; [done|]. intros i Hi.
      apply Hreq. by eapply sublist_subseteq. }
    exists (wk_with_requests (metadata_requests s) s'), (evs1 ++ evs). split_and!; try done.
    + destruct Hinv' as (Hm & Hd & _). split; [done|]. split; [done|]. intros i Hi.
      destruct Hf as (_ & Hlm & _). cbn [metas wk_with_requests]. rewrite Hlm. by apply Hinv.
    + cbn [engine wk_with_requests]. rewrite He. cbn [engine s2 s1 wk_with_requests wk_with_engine]. by rewrite <- app_assoc.
    + by apply (Hall s2).
Qed.

End saving.

(** ** A concrete step *)

Module WorkerExamples.

Definition config : worker_config := WorkerConfig "kv_both" false false 2 16 256 true.

(** 528 tokens in 33 blocks; vLLM has 304 of them, LMCache all *)
Definition meta (load : option LoadSpec) (slots : nat) : ReqMeta :=
  MkReqMeta "req" (rangeZ 0 528) (rangeZ 1600 slots) true (Some (MkSaveSpec 0 true)) load None None.

Definition start (ms : list ReqMeta) : worker_state (list engine_event) :=
  WorkerState _ ms [] (seq 0 (length ms)) [] ∅ 0 ∅ ["layer.0"] false 0 0 [].

Lemma failed_blocks_exact_witness :
  exists blocks, record_failed_blocks config [false; true; true; true] [false; true; false; false] [16; 17; 47; 48]
    = Ok blocks /\ 3 ∈ blocks /\ 2 ∈ blocks /\ ~ 1 ∈ blocks.
Proof.
  destruct (failed_blocks_exact config [false; true; true; true] [false; true; false; false] [16; 17; 47; 48]
    eq_refl ltac:(simpl; lia)) as (blocks & E & H).
  exists blocks. split; [exact E|]. split_and!.
  - apply H. by exists 3%nat, 48.
  - apply H. by exists 2%nat, 47.
  - intros (i & slot & He & Hr & Hs & Hb)%H.
    destruct i as [|[|[|[|i]]]]; try discriminate He; try discriminate Hr; try discriminate Hs;
      injection Hs as <-; by vm_compute in Hb.
Defined.

(** An engine that loads up to [e] *)
Definition loads_to (e : nat) : CacheEngine unit := {|
  e_lookup_unpin _ := mret tt;
  e_store _ := mret tt;
  e_retrieve a := mret (loaded_mask 256 e (length (la_tokens a)));
  e_store_layer _ _ := mret 0;
  e_retrieve_layer _ _ := mret 0;
  e_blend _ := mret tt;
  e_next _ := mret None;
|}.

Definition load : LoadSpec := MkLoadSpec 304 528 true.
Definition loading : worker_state unit :=
  WorkerState _ [meta (Some load) 528] [] [0%nat] [] ∅ 0 ∅ ["layer.0"] false 0 0 tt.

(** Loading stops at token 300: more than 48 tokens are missing. *)
Lemma failed_load_reported_witness :
  exists s', load_request (E := unit) (CacheEngine0 := loads_to 300) config (meta (Some load) 528) true loading = (Ok tt, s') /\
    132 ∈ _invalid_block_ids s'.
Proof.
  destruct (failed_load_reported (CacheEngine0 := loads_to 300) config (meta (Some load) 528) load true 256 300 528 loading
    (update_stats (meta (Some load) 528) loading).2 tt
    ltac:(done) eq_refl eq_refl eq_refl ltac:(by vm_compute) ltac:(by vm_compute) ltac:(lia)
    ltac:(cbn [meta rm_token_ids]; rewrite length_rangeZ; lia) ltac:(by vm_compute) ltac:(by vm_compute) eq_refl)
    as (s' & E & _ & Hb).
  exists s'. split; [exact E|]. apply Hb. right. exists 527%nat, 2127. split; [lia|]. split; [by vm_compute|done].
Defined.

(** Loading stops at the chunk boundary 512: the last 16 tokens were not loaded, and their
    block, 132, is not reported. *)
Example short_load_unnoticed :
  (fun s => (count_true (loaded_mask 256 512 528), bool_decide (132 ∈ _invalid_block_ids s)))
    (load_request (E := unit) (CacheEngine0 := loads_to 512) config (meta (Some load) 528) true loading).2
  = (256, false).
Proof. by vm_compute. Qed.

(** The second request has fewer slots than tokens: only the first is stored. *)
Lemma guarded_save_total_witness :
  let s := start [meta None 528; MkReqMeta "short" (rangeZ 0 528) (rangeZ 0 500) true
                    (Some (MkSaveSpec 0 true)) None None None] in
  exists s' evs, _hcu_wait_for_save config s = (Ok tt, s') /\ engine s' = evs /\
    unpins evs ≡ₚ ["req"; "short"] /\ (sa_req_id <$> stores evs) `sublist_of` ["req"; "short"].
Proof.
  cbn zeta. set (s := start _).
  destruct (guarded_save_total config ltac:(done) s) as (s' & evs & E & _ & _ & He & Hu & Hs & _).
  - split; [|split; [by constructor|]].
    + repeat constructor; try (eexists; split; [reflexivity|simpl; lia]); by intros r.
    + intros i Hi. apply elem_of_seq in Hi. simpl in *. lia.
  - done.
  - done.
  - by right.
  - exists s', evs. split; [exact E|]. split; [exact He|]. split; [exact Hu|exact Hs].
Defined.

Example short_request_dropped :
  sa_req_id <$> stores (engine (_hcu_wait_for_save config
    (start [meta None 528; MkReqMeta "short" (rangeZ 0 528) (rangeZ 0 500) true
              (Some (MkSaveSpec 0 true)) None None None])).2) = ["req"].
Proof. by vm_compute. Qed.

End WorkerExamples.
