(* ===== verification/EngineWorker.v ===== *)
(** * The engine behind the connector

    The engine of [Engine] as an instance of the interface [CacheEngine] that [Worker] calls,
    and a load followed from the connector's request down to the chunks that reach the GPU. *)

From S2P Require Import Prelude Tensor Codec BlockFirst DirectIO Dict StorageManager Scheduler EngineApi Engine EngineRetrieve Worker.

Open Scope string_scope.
Open Scope list_scope.
Open Scope Z_scope.

(** The engine and the generators it has given out *)
Record run_state {B K S : Type} := RunState {
  eng : engine_state B K S;
  generators : list (gen (engine_state B K S) (option yielded));
}.
Arguments run_state : clear implicits.

Section instance.
Context {B K O S MD : Type} `{!StorageBackend B K O S} `{!EngineParts B K O S MD} `{!EqDecision K}.
Context (cfg : engine_config) (md : LMCacheMetadata).
(** [LMCBlender.blend], of [lmcache] *)
Context (blend : load_args -> ST (engine_state B K S) unit).

Definition in_engine {A} (m : ST (engine_state B K S) A) : ST (run_state B K S) A := fun r =>
  let '(a, e) := m (eng r) in (a, RunState _ _ _ e (generators r)).

(** [next(generators[i])]; a generator that ended or raised is exhausted. *)
Definition next_value (i : Z) : ST (run_state B K S) (option yielded) := fun r =>
  match generators r !! Z.to_nat i with
  | None => (Raise TypeError, r)
  | Some g =>
      let '(a, e) := gen_next g (eng r) in
      match a with
      | Ok (Some (v, g')) => (Ok v, RunState _ _ _ e (<[Z.to_nat i := g']> (generators r)))
      | Ok None => (Raise StopIteration, RunState _ _ _ e (<[Z.to_nat i := gen_stop]> (generators r)))
      | Raise x => (Raise x, RunState _ _ _ e (<[Z.to_nat i := gen_stop]> (generators r)))
      end
  end.

Definition new_generator (g : gen (engine_state B K S) (option yielded)) : ST (run_state B K S) Z := fun r =>
  (Ok (lenZ (generators r)), RunState _ _ _ (eng r) (generators r ++ [g])).

(** The engine's arguments of a store and of a load *)
Definition store_query (a : store_args) : token_query :=
  TokenQuery (Some (sa_tokens a)) None None (Some (sa_mask a)) (sa_configs a).
Definition store_kwargs (a : store_args) (sync : option bool) : kwargs :=
  Kwargs (Some (sa_req_id a)) (Some (sa_slots a)) (Some (sa_offset a)) None (sa_transfer a) (sa_configs a) sync.
Definition load_query (a : load_args) : token_query :=
  TokenQuery (Some (la_tokens a)) None None (Some (la_mask a)) (la_configs a).
Definition load_kwargs (a : load_args) (sync : option bool) : kwargs :=
  Kwargs (Some (la_req_id a)) (Some (la_slots a)) None (Some (la_vllm_cached a)) None (la_configs a) sync.

#[global] Instance worker_engine : CacheEngine (run_state B K S) := {
  e_lookup_unpin id := in_engine (lookup_unpin id);
  e_store a := in_engine (store cfg md (store_query a) (store_kwargs a None));
  e_retrieve a := in_engine (retrieve cfg md (load_query a) (la_tokens a) (load_kwargs a None));
  e_store_layer a sync := new_generator (store_layer cfg md (store_query a) (store_kwargs a (Some sync)));
  e_retrieve_layer a sync :=
    new_generator (retrieve_layer cfg md (load_query a) (la_tokens a) (load_kwargs a (Some sync)));
  e_blend a := in_engine (blend a);
  e_next := next_value;
}.

(** ** A load that fails *)

Implicit Types (s : engine_state B K S).

(** The copy of some chunks to the GPU, and their release *)
Definition deliver (chunks : list (option K * O * Z * Z)) (kw : kwargs) : ST (engine_state B K S) unit :=
  (if is_nil chunks then mret tt
   else on_world (batched_to_gpu ((fun c => c.1.1.2) <$> chunks) ((fun c => c.1.2) <$> chunks) (snd <$> chunks) kw));;
  st_iter (finish_chunk cfg md) chunks.

Lemma retrieve_blocking q tokens kw s p s1 s2 :
  is_healthy s = (Ok true, s) -> has_gpu_connector cfg = true -> async_loading cfg = false ->
  save_only_first_rank cfg md = false ->
  _process_tokens_internal md q (replicate (length tokens) false) kw s = (Ok p, s1) ->
  deliver (reordered_chunks p) kw s1 = (Ok tt, s2) ->
  retrieve cfg md q tokens kw s = (Ok (ret_mask p), s2).
Proof.
  intros Hh Hgpu Ha Hf Hp Hd. unfold retrieve, mbind at 1, ST_bind at 1. rewrite Hh, Hgpu. cbn [negb].
  unfold _is_passive. rewrite Hf, Ha. cbn [andb]. unfold mbind, ST_bind, st_lift. cbn [py_assert raise_if negb].
  rewrite Hp. cbn [mret ST_ret]. unfold deliver, mbind, ST_bind in Hd.
  destruct (if is_nil _ then _ else _) as [[u|e] s3]; [|done]. by rewrite Hd.
Qed.

Lemma chunks_end_take a (blocks : list (K * Z * Z)) k :
  contiguous a blocks -> chunks_end a (take k blocks) <= chunks_end a blocks.
Proof.
  revert a k. induction blocks as [|[[key start] stop] blocks IH]; intros a k; [by destruct k|].
  intros Hc. destruct k as [|k]; [by apply chunks_end_ge|]. destruct Hc as (-> & Hlt & Hc). simpl. by apply IH.
Qed.

(** Chunks with objects end no later than the chunks they are of. *)
Lemma fetched_ends a (blocks : list (K * Z * Z)) direct (objs : list (option O)) :
  contiguous a blocks -> Forall (fun c => c.2 <= chunks_end a blocks) (fetched blocks direct objs).
Proof.
  revert a direct objs. induction blocks as [|[[key start] stop] blocks IH]; intros a [|[|] direct] objs; try constructor.
  - intros (-> & Hlt & Hc). simpl. by apply IH.
  - intros (-> & Hlt & Hc). simpl. destruct objs as [|[o|] objs]; constructor; [|by apply IH].
    simpl. by apply chunks_end_ge.
Qed.

(** The tokens of the first [k] of contiguous chunks *)
Lemma mask_is_loaded a (blocks : list (K * Z * Z)) k n (masked : nat) (m : list bool) :
  a = Z.of_nat masked -> contiguous a blocks -> chunks_end a blocks <= Z.of_nat n -> length m = n ->
  (forall i, (i < n)%nat -> m !! i = Some ((a <=? Z.of_nat i) && (Z.of_nat i <? chunks_end a (take k blocks)))) ->
  m = loaded_mask masked (Z.to_nat (chunks_end a (take k blocks))) n.
Proof.
  intros -> Hc Hn Hlen Hm. pose proof (chunks_end_take _ _ k Hc) as Hle. set (e := chunks_end _ (take k blocks)) in *.
  pose proof (chunks_end_ge _ _ (contiguous_take _ _ k Hc)) as Hge. fold e in Hge.
  apply list_eq_same_length with n; [unfold loaded_mask; rewrite !length_app, !length_replicate; lia|done|].
  intros i x y Hi Hx Hy. rewrite Hm in Hx by lia. injection Hx as <-. unfold loaded_mask in Hy.
  destruct (decide (i < masked)%nat).
  { rewrite lookup_app_l in Hy by (rewrite length_replicate; lia). apply lookup_replicate in Hy as [-> _].
    apply andb_false_iff. rewrite Z.leb_gt. lia. }
  rewrite lookup_app_r in Hy by (rewrite length_replicate; lia). rewrite length_replicate in Hy.
  destruct (decide (i < Z.to_nat e)%nat).
  - rewrite lookup_app_l in Hy by (rewrite length_replicate; lia). apply lookup_replicate in Hy as [-> _].
    apply andb_true_iff. rewrite Z.leb_le, Z.ltb_lt. lia.
  - rewrite lookup_app_r in Hy by (rewrite length_replicate; lia). apply lookup_replicate in Hy as [-> _].
    apply andb_false_iff. rewrite Z.ltb_ge. lia.
Qed.

Section load.
Context (wk : worker_config) (m : ReqMeta) (l : LoadSpec) (masked n : nat).
Context (location : string) (pins : list K) (infos : list (Z * Z * K)) (direct : list bool)
  (objs : list (option O)).
#[local] Abbreviation args := (load_request_args wk m l).
#[local] Abbreviation blocks := (to_blocks infos).
#[local] Abbreviation k := (served direct objs).

(** The request loads [n] tokens, of which the first [masked] are not needed. *)
Hypothesis Hchunk : 0 < wk_chunk_size wk.
Hypothesis Hlayer : use_layerwise wk = false.
Hypothesis Hspec : rm_load_spec m = Some l.
Hypothesis Hcan : can_load l = true.
Hypothesis Hmasked : masked_token_count wk l = Z.of_nat masked.
Hypothesis Hn : lmcache_cached_tokens l = Z.of_nat n.
Hypothesis Hle : (masked <= n <= length (rm_token_ids m))%nat.
Hypothesis Hslots : length (rm_slot_mapping m) = length (rm_token_ids m).

(** The engine loads blocking, on every rank. *)
Hypothesis Hgpu : has_gpu_connector cfg = true.
Hypothesis Hasync : async_loading cfg = false.
Hypothesis Hfirst : save_only_first_rank cfg md = false.
Hypothesis Hmd : metadata_ok (B := B) (K := K) (O := O) (S := S) (MD := MD) md.

(** The token database chunks the tokens to load. *)
Hypothesis Hinfos : process_tokens (load_query args) = (infos, None).
Hypothesis Hcont : contiguous (Z.of_nat masked) blocks.
Hypothesis Hend : chunks_end (Z.of_nat masked) blocks <= Z.of_nat n.

(** The chunks that are delivered *)
Definition delivered : list (option K * O * Z * Z) :=
  if Nat.eqb k (length blocks) then fetched blocks direct objs
  else fetched (take (k - 1) blocks) (take (k - 1) direct) objs.

Lemma length_load_tokens : length (la_tokens args) = n.
Proof.
  unfold load_request_args. cbn zeta. cbn [la_tokens]. rewrite Hn.
  pose proof (py_slice_length (rm_token_ids m) 0 (Z.of_nat n)) as H. unfold lenZ in H. lia.
Qed.

Lemma retrieve_run s s1 s2 s3 s4 :
  storage_manager s = true -> is_healthy s = (Ok true, s) ->
  lookup_pins s !! rm_req_id m = Some [(location, pins)] ->
  get_direct location blocks (load_kwargs args None) s = (Ok direct, s1) -> length direct = length blocks ->
  get_fallback location (fallback_blocks blocks direct) s1 = (Ok objs, s2) -> length objs = fallbacks direct ->
  release_left (left_over direct objs) s2 = (Ok tt, s3) ->
  deliver delivered (load_kwargs args None) s3 = (Ok tt, s4) ->
  retrieve cfg md (load_query args) (la_tokens args) (load_kwargs args None) s
  = (Ok (loaded_mask masked (Z.to_nat (chunks_end (Z.of_nat masked) (take k blocks))) n), s4).
Proof.
  intros Hsm Hh Hpins Hdir Hdl Hobj Hol Hrel Hdel.
  destruct (pinned_load_run md (load_query args) (load_kwargs args None) (rm_req_id m) location pins infos direct objs
    (Z.of_nat masked) n s s1 s2 s3) as (p & Hp & Hlen & Hmask & Hchunks); try done; [lia|].
  rewrite <- (mask_is_loaded (Z.of_nat masked) blocks k n masked (ret_mask p)); try done.
  apply (retrieve_blocking _ _ _ _ _ s3); try done; [by rewrite length_load_tokens|]. by rewrite Hchunks.
Qed.

(** C32: when the connector loads a request whose chunks one tier holds and the object of
    chunk [k] cannot be fetched, the load returns; chunk [k - 1], if it was not loaded
    directly, is neither delivered to the GPU nor are its blocks reported as invalid,
    unless a later token that is missing shares them. *)
Theorem lost_chunk_end_to_end (r : worker_state (run_state B K S)) s1 s2 s3 s4 :
  let s := eng (engine r) in
  storage_manager s = true -> is_healthy s = (Ok true, s) ->
  lookup_pins s !! rm_req_id m = Some [(location, pins)] ->
  get_direct location blocks (load_kwargs args None) s = (Ok direct, s1) -> length direct = length blocks ->
  get_fallback location (fallback_blocks blocks direct) s1 = (Ok objs, s2) -> length objs = fallbacks direct ->
  release_left (left_over direct objs) s2 = (Ok tt, s3) ->
  deliver delivered (load_kwargs args None) s3 = (Ok tt, s4) ->
  exists r', load_request wk m true r = (Ok tt, r') /\ eng (engine r') = s4 /\
    forall j key start stop, k = Datatypes.S j -> (k < length blocks)%nat ->
      blocks !! j = Some (key, start, stop) -> direct !! j = Some false ->
      Forall (fun c => c.2 <= start) delivered /\
      forall b, b ∈ _invalid_block_ids r' -> b ∈ _invalid_block_ids r \/
        exists i slot, (Z.to_nat stop <= i < n)%nat /\ rm_slot_mapping m !! i = Some slot /\
          b = slot `div` wk_block_size wk.
Proof.
  intros s Hsm Hh Hpins Hdir Hdl Hobj Hol Hrel Hdel.
  pose proof (retrieve_run s s1 s2 s3 s4 Hsm Hh Hpins Hdir Hdl Hobj Hol Hrel Hdel) as Hret.
  set (e := Z.to_nat (chunks_end (Z.of_nat masked) (take k blocks))) in *.
  pose proof (chunks_end_ge _ _ (contiguous_take _ _ k Hcont)) as Hge.
  pose proof (chunks_end_take _ _ k Hcont) as Hte.
  destruct (load_request_run wk m l true masked e n r (update_stats m r).2 (RunState _ _ _ s4 (generators (engine r))))
    as (r' & E & Heng & Hinv); try done.
  { unfold e. lia. }
  { lia. }
  { cbn [e_retrieve worker_engine]. unfold in_engine. cbn beta. fold s. by rewrite Hret. }
  { unfold update_stats. by rewrite Hspec. }
  exists r'. split; [done|]. split; [by rewrite Heng|]. intros j key start stop Hk Hlt Hj Hdj.
  destruct (contiguous_lookup _ _ _ _ _ _ Hcont Hj) as (Hstart & Hstop & _). split.
  - unfold delivered. rewrite (proj2 (Nat.eqb_neq _ _)) by lia.
    replace (k - 1)%nat with j by lia. rewrite Hstart. apply fetched_ends. by apply contiguous_take.
  - intros b Hb. destruct (_ <? _); [|by left; rewrite <- Hinv].
    apply Hinv in Hb as [Hb|(i & slot & Hi & Hs & ->)]; [by left|right].
    exists i, slot. split; [|done]. rewrite Hstop, <- Hk. exact Hi.
Qed.

End load.

End instance.
