(* ===== verification/EngineExamples.v ===== *)
(** * A concrete engine

    Two tiers, a token database of four-token chunks and a GPU that logs its copies: the
    interfaces of [Engine], [EngineRetrieve] and [EngineFacts] hold of them, and the
    engine's theorems are applied to them. *)

From S2P Require Import Prelude Tensor Codec BlockFirst DirectIO Dict StorageManager Scheduler EngineApi Engine EngineRetrieve EngineFacts EngineLayers Worker EngineWorker.

Open Scope string_scope.
Open Scope list_scope.
Open Scope Z_scope.

Module EngineExamples.

Inductive tier := Cpu | Disk.

#[global] Instance tier_eq_dec : EqDecision tier.
Proof. solve_decision. Defined.

(** Counts are logs of changes; the object of a key is its number, new objects count down
    from [-1]. *)
Record world := World {
  w_held : list (tier * Z);
  w_lost : list Z;                                     (* keys that cannot be fetched *)
  w_pins : list (tier * Z * Z);
  w_refs : list (Z * Z);
  w_events : gmap string (list (list (Z * Z)));
  w_allocated : nat;
  w_capacity : nat;
  w_gpu : list (list Z);                               (* objects copied to the GPU *)
  w_puts : list (tier * list Z * list Z);
}.

Definition change_pins (l : list (tier * Z * Z)) (w : world) := World (w_held w) (w_lost w) (w_pins w ++ l)
  (w_refs w) (w_events w) (w_allocated w) (w_capacity w) (w_gpu w) (w_puts w).
Definition change_refs (l : list (Z * Z)) (w : world) := World (w_held w) (w_lost w) (w_pins w)
  (w_refs w ++ l) (w_events w) (w_allocated w) (w_capacity w) (w_gpu w) (w_puts w).
Definition change_events (e : gmap string (list (list (Z * Z)))) (w : world) := World (w_held w) (w_lost w)
  (w_pins w) (w_refs w) e (w_allocated w) (w_capacity w) (w_gpu w) (w_puts w).
Definition copy_to_gpu (l : list Z) (w : world) := World (w_held w) (w_lost w) (w_pins w) (w_refs w)
  (w_events w) (w_allocated w) (w_capacity w) (w_gpu w ++ [l]) (w_puts w).
Definition add_put (p : tier * list Z * list Z) (w : world) := World (w_held w) (w_lost w) (w_pins w) (w_refs w)
  (w_events w) (w_allocated w) (w_capacity w) (w_gpu w) (w_puts w ++ [p]).

Definition allocate_object : ST world (option Z) := fun w =>
  if (w_capacity w <=? w_allocated w)%nat then (Ok None, w)
  else (Ok (Some (- 1 - Z.of_nat (w_allocated w))),
        World (w_held w) (w_lost w) (w_pins w) (w_refs w) (w_events w) (Datatypes.S (w_allocated w))
          (w_capacity w) (w_gpu w) (w_puts w)).

Definition held (w : world) (b : tier) (k : Z) : bool := bool_decide ((b, k) ∈ w_held w).
Definition pin_count (w : world) (b : tier) (k : Z) : Z :=
  sumZ ((fun e => if bool_decide (e.1 = (b, k)) then e.2 else 0) <$> w_pins w).
Definition ref_count (w : world) (o : Z) : Z :=
  sumZ ((fun e => if bool_decide (e.1 = o) then e.2 else 0) <$> w_refs w).

#[global] Instance tiers : StorageBackend tier Z Z world := {
  b_cname b := match b with Cpu => LocalCPUBackend | Disk => "LocalDiskBackend" end;
  b_get_allocator_backend _ := Cpu;
  b_contains b k _ := st_gets (fun w => held w b k);
  b_batched_contains b keys pin := fun w =>
    let prefix := prefix_while (held w b) keys in
    (Ok (lenZ prefix), if pin : bool then change_pins ((fun k => (b, k, 1)) <$> prefix) w else w);
  b_batched_async_contains b _ keys _ := st_gets (fun w => lenZ (prefix_while (held w b) keys));
  b_get_blocking b k := st_gets (fun w => if held w b k then Some k else None);
  b_batched_get_blocking b keys := st_gets (fun w =>
    (fun k => if held w b k && negb (bool_decide (k ∈ w_lost w)) then Some k else None) <$> keys);
  b_get_non_blocking _ _ := mret None;
  b_batched_get_non_blocking b _ keys _ := st_gets (fun w => filter (fun k => held w b k = true) keys);
  b_submit_put_task _ _ _ := mret tt;
  b_batched_submit_put_task b keys objs := st_modify (add_put (b, keys, objs));
  b_is_allocator b := bool_decide (b = Cpu);
  b_allocate _ _ := allocate_object;
  b_batched_allocate _ _ _ := mret None;
  b_get_shape _ := [2; 4; 8; 16];
  b_get_dtype _ := "float16";
  b_fmt _ := "KV_2LTD";
  b_copy_tensor _ _ := mret tt;
  b_ref_count_down o := st_modify (change_refs [(o, -1)]);
  b_has_tensor _ := true;
  b_direct_put _ := None;
  b_direct_get _ := None;
  b_supports_direct_io _ := None;
  b_direct_enabled _ := false;
  b_is_local_cpu b := bool_decide (b = Cpu);
  b_pd_sender _ := false;
  b_touch_cache _ := mret tt;
  b_remove _ _ := mret 0;
  b_batched_remove _ _ := mret 0;
  b_unpin b k := st_modify (change_pins [(b, k, -1)]);
  b_clear _ := None;
  b_use_hot _ := mret true;
  b_set_use_hot _ _ := mret tt;
  b_memcheck _ := None;
  b_close _ := mret tt;
}.

(** Four tokens a chunk, but the masked ones; chunk [i] has key [100 + i]. *)
Definition toy_chunks (q : token_query) : list (Z * Z * Z) :=
  let n := lenZ (default [] (tq_tokens q)) in
  let skip := match tq_mask q with Some m => lenZ m - count_true m | None => 0 end in
  (fun i => (4 * i, Z.min (4 * i + 4) n, 100 + i)) <$>
    filter (fun i => skip <= 4 * i) (rangeZ 0 (Z.to_nat ((n + 3) `div` 4))).

#[global] Instance parts : EngineParts tier Z Z world unit := {
  process_tokens q := (toy_chunks q, None);
  chunk_hash k := k;
  split_layers k n := (fun l => 1000 * k + l) <$> rangeZ 0 (Z.to_nat n);
  convert_tokens_to_list tokens start stop := py_slice tokens start stop;
  build_direct_io_plans _ _ _ _ := mret [];
  batched_from_gpu _ _ _ _ := mret tt;
  batched_to_gpu objs _ _ _ := st_modify (copy_to_gpu objs);
  get_shape n := [n; 8];
  layers_from_gpu _ _ _ _ _ := mret tt;
  layers_to_gpu _ _ _ _ _ := mret tt;
  dtype_size _ := 2;
  obj_size _ := 2048;
  obj_tokens _ := 4;
  obj_unpin _ := mret tt;
  obj_metadata _ := tt;
  obj_has_raw _ := true;
  serialize o := mret o;
  deserialize o := mret o;
  p2p_put _ _ _ _ _ := mret tt;
  monitor_is_healthy _ := true;
  get_event_status id w := if bool_decide (is_Some (w_events w !! id)) then DONE else NOT_FOUND;
  get_event_future id := fun w => (match w_events w !! id with Some l => Ok (Ok l) | None => Raise KeyError end, w);
  pop_event id := fun w => (match w_events w !! id with Some l => Ok (Ok l) | None => Raise KeyError end,
                            change_events (delete id (w_events w)) w);
  broadcast_object m := mret m;
  broadcast_tensor _ := mret tt;
  receive_tensor _ := mret 0;
  is_layerwise_connector := true;
  worker_close := None;
}.

Lemma ref_count_change l w o :
  ref_count (change_refs l w) o = ref_count w o + sumZ ((fun e => if bool_decide (e.1 = o) then e.2 else 0) <$> l).
Proof. unfold ref_count. cbn [w_refs change_refs]. by rewrite fmap_app, sumZ_app. Qed.

Lemma pin_count_change l w b k :
  pin_count (change_pins l w) b k
  = pin_count w b k + sumZ ((fun e => if bool_decide (e.1 = (b, k)) then e.2 else 0) <$> l).
Proof. unfold pin_count. cbn [w_pins change_pins]. by rewrite fmap_app, sumZ_app. Qed.

#[global] Program Instance refs_of_world : RefLaws tier Z Z world unit := {
  refs := ref_count;
  prefetched w id := w_events w !! id;
}.
Next Obligation.
  intros o w. eexists. split; [done|]. split; [|split; [|done]].
  - rewrite ref_count_change. simpl. rewrite bool_decide_true by done. lia.
  - intros o' Hne. rewrite ref_count_change. simpl. rewrite bool_decide_false by done. lia.
Qed.
Next Obligation. intros o w. by exists w. Qed.
Next Obligation. intros id l w H. exists w. simpl. by rewrite H. Qed.
Next Obligation. intros id l w H. simpl. by rewrite bool_decide_true by by exists l. Qed.
Next Obligation. intros id l w H. eexists. simpl. by rewrite H. Qed.
Next Obligation. intros objs starts ends kw w r w'. by intros [= <- <-]. Qed.

Lemma pinned_prefix (b b' : tier) (k : Z) (l : list Z) :
  sumZ ((fun e => if bool_decide (e.1 = (b', k)) then e.2 else 0) <$> ((fun k => (b, k, 1)) <$> l))
  = if bool_decide (b' = b) then uses k l else 0.
Proof.
  induction l as [|x l IH]; [by destruct (bool_decide _)|]. cbn [fmap list_fmap]. rewrite sumZ_cons, IH, uses_cons.
  cbn [fst snd]. destruct (decide (b' = b)) as [->|Hne].
  - rewrite (bool_decide_true (b = b)) by done. destruct (decide (x = k)) as [->|Hx]; [by rewrite bool_decide_true|].
    rewrite bool_decide_false by congruence. lia.
  - rewrite !bool_decide_false by congruence. lia.
Qed.

#[global] Program Instance pins_of_world : PinLaws tier Z Z world := {
  pins := pin_count;
  holds := held;
}.
Next Obligation.
  intros b keys pin w. eexists. split; [done|]. split; [by destruct pin|]. intros b' k. cbn beta zeta.
  destruct pin; cbn [andb]; [|by rewrite Z.add_0_r]. by rewrite pin_count_change, pinned_prefix.
Qed.
Next Obligation.
  intros b k w. eexists. split; [done|]. intros b' k'. rewrite pin_count_change. simpl. unfold uses, lenZ. simpl.
  destruct (decide (b' = b)) as [->|Hb].
  - rewrite (bool_decide_true (b = b)) by done. destruct (decide (k = k')) as [->|Hk].
    + rewrite bool_decide_true by done. rewrite filter_cons_True by done. simpl. lia.
    + rewrite bool_decide_false by congruence. rewrite filter_cons_False by done. simpl. lia.
  - rewrite !bool_decide_false by congruence. lia.
Qed.
Next Obligation. intros b w. by exists w. Qed.

(** ** An engine over these tiers *)

Definition config (async layerwise : bool) : engine_config :=
  EngineConfig None false async layerwise false true false "" (Some "LocalDiskBackend") None [] false true.
Definition metadata : LMCacheMetadata := MkMetadata 0 0 4 "float16" [2; 2; 4; 1; 8] false [].

Definition outside (lost : list Z) (held_keys : list (tier * Z)) (capacity : nat)
    (events : gmap string (list (list (Z * Z)))) : world :=
  World held_keys lost [] [] events 0 capacity [] [].

Definition engine_over (w : world) (is_frozen : bool) (pinned : gmap string (odict string (list Z)))
    : engine_state tier Z world :=
  EngineState _ _ _ true
    (SmState _ _ [(LocalCPUBackend, Cpu); ("LocalDiskBackend", Disk)] is_frozen ∅ (Some Cpu) (Some Cpu) [] [] ∅ w)
    pinned [] true false false.

Definition query (n skip : nat) : token_query :=
  TokenQuery (Some (rangeZ 0 n)) None None (Some (ones_from n (Z.of_nat skip))) None.
Definition keywords : kwargs := Kwargs (Some "req") None None None None None None.

Lemma metadata_good : metadata_ok (B := tier) (K := Z) (O := Z) (S := world) (MD := unit) metadata.
Proof. intros n. eexists. reflexivity. Qed.

(** Sixteen tokens on disk; the third chunk is lost: the mask claims two chunks, the GPU gets
    one. *)
Lemma pinned_load_outcome_witness :
  let s := engine_over (outside [102] [(Disk, 100); (Disk, 101); (Disk, 102); (Disk, 103)] 0 ∅) false
             {[ "req" := [("LocalDiskBackend", [100; 101; 102; 103])] ]} in
  exists p s3, _process_tokens_internal (B := tier) (O := Z) (MD := unit) metadata (query 16 0) (replicate 16 false) keywords s
    = (Ok p, s3) /\
  ret_mask p !! 7%nat = Some true /\ ret_mask p !! 8%nat = Some false /\
  reordered_chunks p = [(Some 100, 100, 0, 4)].
Proof.
  intros s.
  destruct (pinned_load_outcome (B := tier) (S := world) (MD := unit) metadata (query 16 0) keywords "req" "LocalDiskBackend" [100; 101; 102; 103]
    (toy_chunks (query 16 0)) [false; false; false; false] [Some 100; Some 101; None; Some 103] 0 16 s
    (get_direct (K := Z) (O := Z) (MD := unit) "LocalDiskBackend" (to_blocks (toy_chunks (query 16 0))) keywords s).2 s
    (release_left (K := Z) (O := Z) (B := tier) [Some 103] s).2
    metadata_good eq_refl eq_refl eq_refl ltac:(by vm_compute) ltac:(lia) ltac:(vm_compute; split_and!; done)
    ltac:(by vm_compute) eq_refl ltac:(by vm_compute) eq_refl ltac:(by vm_compute))
    as (p & E & _ & Hm & Hc).
  exists p, (release_left (K := Z) (O := Z) (B := tier) [Some 103] s).2. split; [exact E|].
  split; [rewrite Hm by lia; by vm_compute|]. split; [rewrite Hm by lia; by vm_compute|].
  rewrite Hc. by vm_compute.
Defined.

(** Four chunks were prefetched, the first is masked: it is released twice. *)
Lemma async_release_twice_witness :
  let s := engine_over (outside [] [] 0 {[ "req" := [[(100, 100); (101, 101)]; [(102, 102); (103, 103)]] ]}) false ∅ in
  exists s2, lookup_unpin (B := tier) (O := Z) (MD := unit) "req"
      (retrieve (B := tier) (K := Z) (O := Z) (MD := unit) (config true false) metadata (query 16 4) (rangeZ 0 16) keywords s).2
    = (Ok tt, s2) /\
  ref_count (backends_state (manager s2)) 100 = -2 /\ ref_count (backends_state (manager s2)) 101 = -1.
Proof.
  intros s.
  destruct (async_release_twice (B := tier) (K := Z) (O := Z) (MD := unit) (config true false) metadata (query 16 4)
    (rangeZ 0 16) keywords "req" [[(100, 100); (101, 101)]; [(102, 102); (103, 103)]] s
    (replicate 4 false ++ replicate 12 true)
    (retrieve (B := tier) (K := Z) (O := Z) (MD := unit) (config true false) metadata (query 16 4) (rangeZ 0 16) keywords s).2
    eq_refl eq_refl eq_refl eq_refl eq_refl eq_refl ltac:(by vm_compute) ltac:(by vm_compute)
    ltac:(by refine (bool_decide_unpack _ _); vm_compute) ltac:(by refine (bool_decide_unpack _ _); vm_compute)
    ltac:(by vm_compute)) as (p & s2 & Hp & _ & E & Hr).
  exists s2. split; [exact E|].
  assert (used_keys p = [101; 102; 103]) as Hu by (vm_compute in Hp; by injection Hp as <-).
  change (ref_count (backends_state (manager s2))) with (refs (RefLaws := refs_of_world) (backends_state (manager s2))).
  split; [rewrite (Hr 100 100)|rewrite (Hr 101 101)]; try (by rewrite Hu; vm_compute);
    by refine (bool_decide_unpack _ _); vm_compute.
Defined.

(** Two chunks in memory, one more on disk, the fourth nowhere *)
Lemma lookup_pins_released_witness :
  let s := engine_over (outside [] [(Cpu, 100); (Cpu, 101); (Disk, 102)] 0 ∅) false ∅ in
  exists s1 s2,
    lookup (O := Z) (MD := unit) (config false false) metadata (query 16 0) None (Some "id") true s = (Ok 12, s1) /\
    lookup_pins s1 !! "id" = Some [(LocalCPUBackend, [100; 101]); ("LocalDiskBackend", [102])] /\
    pin_count (backends_state (manager s1)) Disk 102 = 1 /\
    lookup_unpin (O := Z) (MD := unit) "id" s1 = (Ok tt, s2) /\ pin_count (backends_state (manager s2)) Disk 102 = 0.
Proof.
  intros s.
  destruct (lookup_pins_released (B := tier) (K := Z) (S := world) (O := Z) (MD := unit) (config false false) metadata (query 16 0) None "id" (toy_chunks (query 16 0)) s
    eq_refl ltac:(done) ltac:(done) ltac:(by vm_compute) ltac:(by eexists) ltac:(by vm_compute)
    ltac:(by refine (bool_decide_unpack _ _); vm_compute) ltac:(by refine (bool_decide_unpack _ _); vm_compute))
    as (s1 & E & Hp & Hpins & Hun).
  destruct Hun as (s2 & E2 & _ & Hp2); [by vm_compute|].
  exists s1, s2. split; [exact E|]. split; [exact Hpins|]. split; [exact (Hp Disk 102)|]. split; [exact E2|exact (Hp2 Disk 102)].
Defined.

(** Objects for two of the four chunks *)
Lemma store_outcome_witness :
  let s := engine_over (outside [] [] 2 ∅) false ∅ in
  let s' := (store (B := tier) (K := Z) (O := Z) (MD := unit) (config false false) metadata (query 16 0) keywords s).2 in
  w_puts (backends_state (manager s')) = [(Disk, [100; 101], [-1; -2])] /\
  exists (stored : list (Z * Z * Z * Z)) n, fst <$> stored = take n (toy_chunks (query 16 0)) /\ (n <= 4)%nat.
Proof.
  intros s s'. split; [by vm_compute|].
  destruct (store_outcome (B := tier) (K := Z) (O := Z) (MD := unit) (config false false) metadata (query 16 0) keywords s s' true false s
    eq_refl eq_refl ltac:(by vm_compute)) as (_ & _ & H).
  destruct (H eq_refl eq_refl eq_refl) as (infos & direct & stored & n & s1 & s2 & Hi & Hd & Hn & Hfst & _).
  vm_compute in Hi. injection Hi as <-. vm_compute in Hd. injection Hd as <- _.
  exists stored, n. split; [|exact Hn]. rewrite Hfst. simpl in Hn.
  destruct n as [|[|[|[|[|n]]]]]; [by vm_compute..|lia].
Defined.

Lemma store_layer_yields_witness :
  let s := engine_over (outside [] [] 2 ∅) true ∅ in
  exists s', drive 3 (store_layer (B := tier) (K := Z) (O := Z) (MD := unit) (config false true) metadata (query 16 0) keywords) s
    = ([None; None], Finished, s').
Proof.
  intros s.
  destruct (store_layer_yields (B := tier) (K := Z) (O := Z) (MD := unit) (config false true) metadata (query 16 0) keywords s true eq_refl)
    as (_ & H & _).
  exact (H eq_refl eq_refl eq_refl eq_refl).
Defined.

(** Nothing is found: the step that should give the mask raises. *)
Lemma retrieve_layer_yields_witness :
  let s := engine_over (outside [] [] 0 ∅) false ∅ in
  exists s', drive 4 (retrieve_layer (B := tier) (K := Z) (O := Z) (MD := unit) (config false true) metadata (query 16 0) (rangeZ 0 16) keywords) s
    = ([None; None; None], Raised UnboundLocalError, s').
Proof.
  intros s. eexists.
  refine (proj2 (retrieve_layer_yields (B := tier) (K := Z) (O := Z) (MD := unit) (config false true) metadata (query 16 0) (rangeZ 0 16)
    keywords s [] None (replicate 16 false) _ eq_refl eq_refl eq_refl _ _) eq_refl); [done|].
  vm_compute. reflexivity.
Defined.

(** ** The connector over this engine *)

Definition connector : worker_config := WorkerConfig "kv_both" false false 2 2 4 true.
Definition spec : LoadSpec := MkLoadSpec 0 16 true.
Definition request : ReqMeta :=
  MkReqMeta "req" (rangeZ 0 16) (rangeZ 40 16) true (Some (MkSaveSpec 0 true)) (Some spec) None None.
Definition no_blend (_ : load_args) : ST (engine_state tier Z world) unit := mret tt.
Definition connected (e : engine_state tier Z world) : worker_state (run_state tier Z world) :=
  WorkerState _ [request] [] [0%nat] [] ∅ 0 ∅ ["layer.0"] false 0 0 (RunState _ _ _ e []).

(** Chunk 2 is lost: the GPU gets chunk 0 only, and of the tokens 4 to 7, of the blocks 22
    and 23, nothing is reported. *)
Lemma lost_chunk_end_to_end_witness :
  let s := engine_over (outside [102] [(Disk, 100); (Disk, 101); (Disk, 102); (Disk, 103)] 0 ∅) false
             {[ "req" := [("LocalDiskBackend", [100; 101; 102; 103])] ]} in
  exists r', load_request (E := run_state tier Z world)
      (CacheEngine0 := worker_engine (O := Z) (MD := unit) (config false false) metadata no_blend) connector request true (connected s)
    = (Ok tt, r') /\
  w_gpu (backends_state (manager (eng (engine r')))) = [[100]] /\
  (22 ∉ _invalid_block_ids r') /\ 24 ∈ _invalid_block_ids r'.
Proof.
  intros s.
  set (kw := load_kwargs (load_request_args connector request spec) None).
  set (blocks := to_blocks (toy_chunks (query 16 0))).
  set (s3 := (release_left (K := Z) (O := Z) (B := tier) [Some 103] s).2).
  set (chunks := delivered (toy_chunks (query 16 0)) [false; false; false; false] [Some 100; Some 101; None; Some 103]).
  set (s4 := (deliver (MD := unit) (config false false) metadata chunks kw s3).2).
  destruct (lost_chunk_end_to_end (B := tier) (K := Z) (O := Z) (S := world) (MD := unit) (config false false) metadata no_blend
    connector request spec 0 16 "LocalDiskBackend" [100; 101; 102; 103] (toy_chunks (query 16 0))
    [false; false; false; false] [Some 100; Some 101; None; Some 103]
    ltac:(done) ltac:(done) ltac:(done) ltac:(done) ltac:(done) ltac:(done) ltac:(simpl; lia) ltac:(done)
    ltac:(done) ltac:(done) ltac:(done) metadata_good ltac:(by vm_compute) ltac:(vm_compute; split_and!; done)
    ltac:(by vm_compute) (connected s) s s s3 s4
    ltac:(done) ltac:(done) ltac:(by vm_compute) ltac:(by vm_compute) ltac:(done) ltac:(by vm_compute) ltac:(done)
    ltac:(by vm_compute) ltac:(by vm_compute)) as (r' & E & He & H).
  exists r'. split; [exact E|]. split; [rewrite He; by vm_compute|].
  destruct (H 1%nat 101 4 8 ltac:(by vm_compute) ltac:(vm_compute; lia) ltac:(by vm_compute) ltac:(done)) as [_ Hb].
  split.
  - intros [Hin|(i & slot & Hi & Hs & Heq)]%Hb; [by apply not_elem_of_empty in Hin|].
    change (Z.to_nat 8) with 8%nat in Hi.
    assert (rm_slot_mapping request !! i = Some (40 + Z.of_nat i)) as Hl by (apply lookup_rangeZ; lia).
    rewrite Hl in Hs. injection Hs as <-. change (wk_block_size connector) with 2 in Heq. div_lia.
  - assert (r' = (load_request (E := run_state tier Z world)
      (CacheEngine0 := worker_engine (O := Z) (MD := unit) (config false false) metadata no_blend) connector request true (connected s)).2)
      as -> by (by rewrite E).
    by refine (bool_decide_unpack _ _); vm_compute.
Defined.

(** A frozen engine's layerwise store ends a step before the connector's last call. *)
Example frozen_layerwise_save :
  let wk := WorkerConfig "kv_both" true false 2 2 4 true in
  let E := worker_engine (O := Z) (MD := unit) (config false true) metadata no_blend in
  let r0 := connected (engine_over (outside [] [] 0 ∅) true ∅) in
  let r1 := (save_kv_layer (E := run_state tier Z world) (CacheEngine0 := E) wk true r0).2 in
  let r2 := (save_kv_layer (E := run_state tier Z world) (CacheEngine0 := E) wk true r1).2 in
  (wait_for_save (E := run_state tier Z world) (CacheEngine0 := E) wk r2).1 = Raise StopIteration.
Proof. by vm_compute. Qed.

End EngineExamples.
