(* ===== verification/LocalDisk.v ===== *)
(** * The local disk backend

    [local_disk_backend.py]: the operations LMCache-HCU overrides in LMCache's
    [LocalDiskBackend], with their file operations on [World], the index [dict], the two
    usage counters, [disk_lock] and the reference counts and pins of memory objects. The
    inherited [insert_key], [_key_to_path], the disk worker's task list and the CPU
    backend's [allocate] are the interface [DiskParts]. *)

From S2P Require Import Prelude Tensor World Dict.

Open Scope string_scope.
Open Scope list_scope.
Open Scope Z_scope.

(** ** Data *)

(** [DiskCacheMetadata] *)
Record disk_meta {Dt F : Type} := DiskMeta {
  dm_path : string;
  dm_size : Z;
  dm_shape : option (list Z);
  dm_dtype : option Dt;
  dm_fmt : F;
  dm_cached_positions : option (list Z);
  dm_pins : Z;
}.
Arguments disk_meta : clear implicits.

(** A [MemoryObj]: its buffer, its tensor's presence, its metadata and counters *)
Record disk_obj {Dt F : Type} := DiskObj {
  byte_array : list Z;
  has_tensor : bool;
  physical_size : Z;
  do_shape : option (list Z);
  do_dtype : option Dt;
  do_fmt : F;
  do_cached_positions : option (list Z);
  do_refs : Z;
  do_pins : Z;
}.
Arguments disk_obj : clear implicits.

(** What goes through [batched_msg_sender], newest first *)
Inductive disk_msg := EvictMsg (chunk_hash : Z) | SenderClosed.

(** The backend: [env] is the state of the parts that are LMCache's (the worker's task
    list, the allocator), [stats] the usage last reported to the monitor *)
Record disk_state {K Dt F P X : Type} := DiskState {
  d_io : world;
  dict : odict K (disk_meta Dt F);
  disk_lock : bool;
  current_cache_size : Z;
  usage : Z;
  stats : option Z;
  d_policy : P;
  objs : gmap Z (disk_obj Dt F);
  msgs : list disk_msg;
  env : X;
}.
Arguments disk_state : clear implicits.

Record disk_config := DiskConfig {
  os_disk_bs : Z;
  use_odirect : bool;
  has_sender : bool;          (* batched_msg_sender is not None *)
}.

Section setters.
Context {K Dt F P X : Type}.
#[local] Abbreviation disk_state := (disk_state K Dt F P X).
Implicit Types s : disk_state.

Definition with_d_io w s : disk_state := DiskState _ _ _ _ _ w (dict s) (disk_lock s)
  (current_cache_size s) (usage s) (stats s) (d_policy s) (objs s) (msgs s) (env s).
Definition with_dict d s : disk_state := DiskState _ _ _ _ _ (d_io s) d (disk_lock s)
  (current_cache_size s) (usage s) (stats s) (d_policy s) (objs s) (msgs s) (env s).
Definition with_lock b s : disk_state := DiskState _ _ _ _ _ (d_io s) (dict s) b
  (current_cache_size s) (usage s) (stats s) (d_policy s) (objs s) (msgs s) (env s).
Definition with_cache_size n s : disk_state := DiskState _ _ _ _ _ (d_io s) (dict s)
  (disk_lock s) n (usage s) (stats s) (d_policy s) (objs s) (msgs s) (env s).
Definition with_usage n s : disk_state := DiskState _ _ _ _ _ (d_io s) (dict s) (disk_lock s)
  (current_cache_size s) n (stats s) (d_policy s) (objs s) (msgs s) (env s).
Definition with_stats n s : disk_state := DiskState _ _ _ _ _ (d_io s) (dict s) (disk_lock s)
  (current_cache_size s) (usage s) n (d_policy s) (objs s) (msgs s) (env s).
Definition with_d_policy p s : disk_state := DiskState _ _ _ _ _ (d_io s) (dict s) (disk_lock s)
  (current_cache_size s) (usage s) (stats s) p (objs s) (msgs s) (env s).
Definition with_objs o s : disk_state := DiskState _ _ _ _ _ (d_io s) (dict s) (disk_lock s)
  (current_cache_size s) (usage s) (stats s) (d_policy s) o (msgs s) (env s).
Definition with_msgs m s : disk_state := DiskState _ _ _ _ _ (d_io s) (dict s) (disk_lock s)
  (current_cache_size s) (usage s) (stats s) (d_policy s) (objs s) m (env s).
Definition with_env e s : disk_state := DiskState _ _ _ _ _ (d_io s) (dict s) (disk_lock s)
  (current_cache_size s) (usage s) (stats s) (d_policy s) (objs s) (msgs s) e.

(** A file operation *)
Definition on_disk {A} (m : ST world A) : ST disk_state A := fun s =>
  let '(r, w) := m (d_io s) in (r, with_d_io w s).

End setters.

Section memory.
Context {Dt F : Type}.
Implicit Types o : disk_obj Dt F.

Definition set_buffer (b : list Z) o : disk_obj Dt F := DiskObj _ _ b (has_tensor o)
  (physical_size o) (do_shape o) (do_dtype o) (do_fmt o) (do_cached_positions o) (do_refs o)
  (do_pins o).
Definition set_positions (p : option (list Z)) o : disk_obj Dt F := DiskObj _ _ (byte_array o)
  (has_tensor o) (physical_size o) (do_shape o) (do_dtype o) (do_fmt o) p (do_refs o)
  (do_pins o).
Definition add_refs (n : Z) o : disk_obj Dt F := DiskObj _ _ (byte_array o)
  (has_tensor o) (physical_size o) (do_shape o) (do_dtype o) (do_fmt o)
  (do_cached_positions o) (do_refs o + n) (do_pins o).
Definition add_pins (n : Z) o : disk_obj Dt F := DiskObj _ _ (byte_array o)
  (has_tensor o) (physical_size o) (do_shape o) (do_dtype o) (do_fmt o)
  (do_cached_positions o) (do_refs o) (do_pins o + n).

(** [data] read into the start of the buffer *)
Definition fill (data : list Z) o : disk_obj Dt F :=
  set_buffer (data ++ drop (length data) (byte_array o)) o.

Definition dm_add_pins (n : Z) (m : disk_meta Dt F) : disk_meta Dt F := DiskMeta _ _ (dm_path m)
  (dm_size m) (dm_shape m) (dm_dtype m) (dm_fmt m) (dm_cached_positions m) (dm_pins m + n).

End memory.

(** ** LMCache's part *)
Class DiskParts (K Dt F P X : Type) := {
  key_to_path : K -> string;
  chunk_hash : K -> Z;
  insert_key : K -> Z -> option (list Z) -> option Dt -> F -> option (list Z) ->
    ST (disk_state K Dt F P X) unit;
  worker_remove_put_task : K -> ST (disk_state K Dt F P X) unit;
  worker_close : ST (disk_state K Dt F P X) unit;
  cpu_allocate : option (list Z) -> option Dt -> F -> ST (disk_state K Dt F P X) (option Z);
}.

(** What the overridden methods rely on in the inherited ones: [insert_key] adds an entry for a
    key that has none and leaves the others alone, and [allocate] answers with a fresh object
    of the right size or with nothing. *)
Class DiskPartsLaws (K Dt F P X : Type) `{!EqDecision K, !TorchDtype Dt}
    `{!DiskParts K Dt F P X} := {
  insert_key_law : forall (key : K) size sh dt fmt cp (s : disk_state K Dt F P X),
    disk_lock s = false ->
    exists p d e, insert_key key size sh dt fmt cp s
      = (Ok tt, with_env e (with_d_policy p (with_dict d s)))
    /\ d ≡ₚ (if od_mem key (dict s) then dict s
             else dict s ++ [(key, DiskMeta _ _ (key_to_path key) size sh dt fmt cp 0)]);
  remove_put_task_law : forall (key : K) (s : disk_state K Dt F P X),
    exists e, worker_remove_put_task key s = (Ok tt, with_env e s);
  allocate_law : forall sh dt fmt (s : disk_state K Dt F P X),
    exists e, cpu_allocate sh dt fmt s = (Ok None, with_env e s)
    \/ exists o ob, cpu_allocate sh dt fmt s
          = (Ok (Some o), with_env e (with_objs (<[o := ob]> (objs s)) s))
        /\ objs s !! o = None /\ do_refs ob = 1 /\ do_pins ob = 0
        /\ forall n d, sh = Some n -> dt = Some d ->
             lenZ (byte_array ob) = prodZ n * itemsize d;
}.

Section ops.
Context {K Dt F P X : Type} `{!EqDecision K, !TorchDtype Dt}.
Context `{!CachePolicy K (disk_meta Dt F) P} `{!DiskParts K Dt F P X}.
Context (cfg : disk_config).
#[local] Abbreviation disk_state := (disk_state K Dt F P X).
Implicit Types (key : K) (o : Z) (path : string) (s : disk_state).

(** ** The lock

    Acquiring a held lock blocks for ever; nothing in the file runs concurrently in the
    model, so that is an error of its own. *)
Definition acquire_lock : ST disk_state unit :=
  s ← st_get;
  if disk_lock s then st_raise (RuntimeError "blocked on disk_lock") else st_put (with_lock true s).

Definition release_lock : ST disk_state unit := st_modify (with_lock false).

(** ** Memory objects *)

Definition get_obj o : ST disk_state (disk_obj Dt F) :=
  s ← st_get; st_lift (result_of_option AttributeError (objs s !! o)).

Definition alter_obj (f : disk_obj Dt F -> disk_obj Dt F) o : ST disk_state unit :=
  st_modify (fun s => with_objs (alter f o (objs s)) s).

Definition ref_count_down o : ST disk_state unit := alter_obj (add_refs (-1)) o.
Definition obj_unpin o : ST disk_state unit := alter_obj (add_pins (-1)) o.

(** ** Usage *)

Definition update_local_storage_usage : ST disk_state unit :=
  st_modify (fun s => with_stats (Some (usage s)) s).

Definition add_usage (n : Z) : ST disk_state unit :=
  st_modify (fun s => with_usage (usage s + n) s);;
  update_local_storage_usage.

(** [meta.shape.numel() * meta.dtype.itemsize], or the recorded size *)
Definition payload_size (m : disk_meta Dt F) : Z :=
  match dm_shape m, dm_dtype m with
  | Some sh, Some dt => prodZ sh * itemsize dt
  | _, _ => dm_size m
  end.

(** ** Removal *)

(** The part of [remove] under the lock: the entry's path *)
Definition remove_entry key (force : bool) : ST disk_state (option string) :=
  s ← st_get;
  match od_get key (dict s) with
  | None => mret None
  | Some m =>
      (if force
       then st_modify (fun s => with_cache_size (current_cache_size s - dm_size m) s)
       else mret tt);;
      add_usage (- payload_size m);;
      st_modify (fun s => with_dict (od_del key (dict s)) s);;
      mret (Some (dm_path m))
  end.

(** The [try ... finally] that holds the lock when [force] *)
Definition remove_locked key (force : bool) : ST disk_state (option string) :=
  (if force then acquire_lock else mret tt);;
  st_finally (remove_entry key force) (if force then release_lock else mret tt).

(** The rest of [remove]: the file, the policy, the controller *)
Definition remove_file key (force : bool) path : ST disk_state bool :=
  st_catch is_file_not_found (on_disk (os_remove path)) (fun _ => mret tt);;
  (if force
   then st_modify (fun s => with_d_policy (policy_force_evict key (d_policy s)) s)
   else mret tt);;
  (if has_sender cfg
   then st_modify (fun s => with_msgs (EvictMsg (chunk_hash key) :: msgs s) s)
   else mret tt);;
  mret true.

Definition remove key (force : bool) : ST disk_state bool :=
  found ← remove_locked key force;
  match found with
  | None => mret false
  | Some path => remove_file key force path
  end.

(** ** Reading *)

(** [f.readinto(buffer)] of a file opened for reading: a raw file makes one read, a
    buffered one reads until the buffer is full or the file ends; a failing read may have
    filled part of the buffer. *)
Definition readinto (raw : bool) (fd o : Z) : ST disk_state Z :=
  ob ← get_obj o;
  e ← on_disk next_event;
  s ← st_get;
  match fd_file (d_io s) fd with
  | None => st_raise (OSError "bad file descriptor")
  | Some (_, f) =>
      let avail := take (length (byte_array ob)) (bytes f) in
      let data := match e with
                  | IoDone => avail
                  | IoShort n => if raw then take n avail else avail
                  | IoFault n => take n avail
                  end in
      alter_obj (fill data) o;;
      match e with IoFault _ => st_raise (OSError "") | _ => mret (lenZ data) end
  end.

Definition fblock_aligned (size : Z) : bool := size mod os_disk_bs cfg =? 0.

(** The [try] block of [read_file] *)
Definition read_bytes o path (size : Z) : ST disk_state Z :=
  if negb (fblock_aligned size) || negb (use_odirect cfg) then
    fd ← on_disk (os_open path O_RDONLY);
    st_finally (readinto false fd o) (on_disk (os_close fd))
  else
    fd ← on_disk (os_open path O_RDONLY);
    st_catch any_exn (st_finally (readinto true fd o) (on_disk (os_close fd)))
      (fun e => st_catch is_os_error (on_disk (os_close fd)) (fun _ => mret tt);; st_raise e).

(** Each [except] clause of [read_file] drops the entry and answers [False]. *)
Definition read_file key o path : ST disk_state bool :=
  ob ← get_obj o;
  let size := lenZ (byte_array ob) in
  bytes_read ← st_catch any_exn (n ← read_bytes o path size; mret (Some n))
                 (fun _ => remove key true;; mret None);
  match bytes_read with
  | None => mret false
  | Some n => if negb (n =? size) then remove key true;; mret false else mret true
  end.

Definition load_bytes_from_disk key path (dtype : option Dt) (shape : option (list Z)) (fmt : F)
    : ST disk_state (option Z) :=
  memory_obj ← cpu_allocate shape dtype fmt;
  match memory_obj with
  | None => mret None
  | Some o =>
      ok ← read_file key o path;
      if ok : bool then mret (Some o) else ref_count_down o;; mret None
  end.

Definition update_on_hit key : ST disk_state unit :=
  s ← st_get;
  '(p, d) ← st_lift (policy_hit key (d_policy s) (dict s));
  st_put (with_d_policy p (with_dict d s)).

(** [get_blocking]; the two [assert]s run with the lock held. *)
Definition get_blocking key : ST disk_state (option Z) :=
  acquire_lock;;
  s ← st_get;
  if negb (od_mem key (dict s)) then release_lock;; mret None
  else
    update_on_hit key;;
    s ← st_get;
    m ← st_lift (result_of_option KeyError (od_get key (dict s)));
    st_lift (py_assert (bool_decide (is_Some (dm_dtype m))));;
    st_lift (py_assert (bool_decide (is_Some (dm_shape m))));;
    release_lock;;
    memory_obj ← load_bytes_from_disk key (dm_path m) (dm_dtype m) (dm_shape m) (dm_fmt m);
    match memory_obj with
    | Some o => alter_obj (set_positions (dm_cached_positions m)) o;; mret (Some o)
    | None => mret None
    end.

(** [with self.disk_lock: if (meta := self.dict.get(key)) is not None: meta.unpin()] *)
Definition unpin_if_present key : ST disk_state unit :=
  acquire_lock;;
  st_modify (fun s => with_dict (od_alter (dm_add_pins (-1)) key (dict s)) s);;
  release_lock.

(** [self.dict[key]] *)
Definition dict_getitem key : ST disk_state (disk_meta Dt F) :=
  s ← st_get; st_lift (result_of_option KeyError (od_get key (dict s))).

(** [self.dict[key].unpin()] between [acquire_lock] and [release_lock] *)
Definition unpin_entry key : ST disk_state unit :=
  acquire_lock;;
  dict_getitem key;;
  st_modify (fun s => with_dict (od_alter (dm_add_pins (-1)) key (dict s)) s);;
  release_lock.

Fixpoint load_each (failed : bool) (loaded : list Z) (items : list (string * K * Z))
    : ST disk_state (list Z) :=
  match items with
  | [] => mret loaded
  | (path, key, mem_obj) :: rest =>
      ok ← (if failed then mret false else read_file key mem_obj path);
      if negb ok then
        unpin_if_present key;;
        obj_unpin mem_obj;;
        ref_count_down mem_obj;;
        load_each true loaded rest
      else
        m ← dict_getitem key;
        alter_obj (set_positions (dm_cached_positions m)) mem_obj;;
        unpin_entry key;;
        load_each failed (loaded ++ [mem_obj]) rest
  end.

Definition batched_async_load_bytes_from_disk (paths : list string) (keys : list K)
    (memory_objs : list Z) : ST disk_state (list Z) :=
  load_each false [] (zip (zip paths keys) memory_objs).

(** ** Writing *)

Definition cleanup_partial_file path : ST world unit :=
  st_catch any_exn (os_remove path) (fun _ => mret tt).

(** [os.open]'s file is not truncated, and the count [os.write] returns is dropped. *)
Definition write_bytes (buffer : list Z) path : ST world unit :=
  if negb (fblock_aligned (lenZ buffer)) || negb (use_odirect cfg) then
    py_write_file path buffer;; mret tt
  else
    fd ← os_open path O_CREAT_WRONLY;
    st_finally (os_write fd buffer;; mret tt) (os_close fd).

Definition write_file (buffer : list Z) path : ST world bool :=
  st_catch any_exn (write_bytes buffer path;; mret true)
    (fun e => (if is_file_not_found e then mret tt else cleanup_partial_file path);; mret false).

(** The callback's exceptions are logged. *)
Definition on_complete (callback : option (K -> ST disk_state unit)) key : ST disk_state unit :=
  match callback with
  | Some cb => st_catch any_exn (cb key) (fun _ => mret tt)
  | None => mret tt
  end.

Definition async_save_bytes_to_disk key o (callback : option (K -> ST disk_state unit))
    : ST disk_state unit :=
  ob ← get_obj o;
  st_lift (py_assert (has_tensor ob));;
  let buffer := byte_array ob in
  let size := lenZ buffer in
  add_usage size;;
  ok ← on_disk (write_file buffer (key_to_path key));
  if negb ok then
    add_usage (- size);;
    ref_count_down o;;
    worker_remove_put_task key;;
    on_complete callback key
  else
    ob ← get_obj o;
    ref_count_down o;;
    insert_key key (physical_size ob) (do_shape ob) (do_dtype ob) (do_fmt ob)
      (do_cached_positions ob);;
    worker_remove_put_task key;;
    on_complete callback key.

Definition disk_close : ST disk_state unit :=
  worker_close;;
  if has_sender cfg then st_modify (fun s => with_msgs (SenderClosed :: msgs s) s) else mret tt.

End ops.
