(* ===== verification/LocalDiskIO.v ===== *)
(** * The local disk backend's file operations

    What [remove], [read_file] and [write_file] of [LocalDisk] do to files, buffers and the
    index, for every fault. *)

From S2P Require Import Prelude Tensor World WorldIO Dict LocalDisk.

Open Scope string_scope.
Open Scope list_scope.
Open Scope Z_scope.

(** ** Lemmas: buffers *)

Section facts.
Context {K Dt F P X : Type} `{!EqDecision K, !TorchDtype Dt}.
Context `{!CachePolicy K (disk_meta Dt F) P} `{!DiskParts K Dt F P X}.
Context (cfg : disk_config).
#[local] Abbreviation disk_state := (disk_state K Dt F P X).
Implicit Types (key : K) (o : Z) (path : string) (s : disk_state).

Lemma alter_fill_nil o (m : gmap Z (disk_obj Dt F)) : alter (fill []) o m = m.
Proof.
  apply map_eq. intros i. destruct (decide (i = o)) as [->|Hne];
    [rewrite lookup_alter_eq|by rewrite lookup_alter_ne].
  by destruct (m !! o) as [[]|].
Qed.

Lemma take_length_self {A} n (l : list A) : take n l = take (length (take n l)) l.
Proof.
  rewrite length_take. destruct (decide (n <= length l)%nat) as [H|H];
    [by rewrite Nat.min_l|]. by rewrite Nat.min_r, !take_ge by lia.
Qed.

Lemma on_disk_eq {A} (m : ST world A) s r w :
  m (d_io s) = (r, w) -> on_disk m s = (r, with_d_io w s).
Proof. intros H. unfold on_disk. by rewrite H. Qed.

Lemma get_obj_eq o s ob : objs s !! o = Some ob -> get_obj o s = (Ok ob, s).
Proof. intros H. unfold get_obj, mbind, ST_bind, st_get, st_lift. by rewrite H. Qed.

(** The bytes [data] of [path]'s file have arrived in [o]'s buffer; nothing else changed. *)
Definition reads o path (data : list Z) s s' : Prop :=
  (exists w', s' = with_objs (alter (fill data) o (objs s)) (with_d_io w' s)
    /\ quiet_io (d_io s) w')
  /\ (data = [] \/ exists f ob, files (d_io s) !! path = Some f /\ objs s !! o = Some ob
        /\ data = take (length data) (bytes f) /\ (length data <= length (byte_array ob))%nat).

Lemma reads_none o path s w' : quiet_io (d_io s) w' -> reads o path [] s (with_d_io w' s).
Proof.
  intros Hw. split; [|by left]. exists w'. split; [|done]. rewrite alter_fill_nil. by destruct s.
Qed.

Lemma readinto_spec raw fd o path s f h ob :
  fd_file (d_io s) fd = Some (h, f) -> files (d_io s) !! path = Some f ->
  objs s !! o = Some ob ->
  let '(r, s') := readinto raw fd o s in
  exists data, reads o path data s s'
    /\ match r with Ok n => n = lenZ data | Raise e => is_os_error e = true end.
Proof.
  intros Hfd Hf Ho. unfold readinto, mbind at 1, ST_bind at 1. rewrite (get_obj_eq _ _ _ Ho).
  destruct (next_event_quiet (d_io s)) as (e & w' & He & Hq).
  unfold mbind at 1, ST_bind at 1. rewrite (on_disk_eq _ _ _ _ He).
  unfold mbind at 1, ST_bind at 1, st_get at 1. cbv beta iota zeta.
  assert (fd_file w' fd = Some (h, f)) as Hfd'.
  { destruct Hq as (H1&_&H2&_). unfold fd_file in *. by rewrite H1, H2. }
  replace (d_io (with_d_io w' s)) with w' by done. rewrite Hfd'.
  set (avail := take (length (byte_array ob)) (bytes f)).
  set (data := match e with IoDone => avail | IoShort n => if raw then take n avail else avail
    | IoFault n => take n avail end).
  assert (exists k, data = take k avail) as (k & Hk).
  { exists (match e with IoDone => length avail
      | IoShort n => if raw then n else length avail | IoFault n => n end).
    unfold data. destruct e as [|n|n]; [|destruct raw|]; by rewrite ?firstn_all. }
  unfold mbind, ST_bind, alter_obj, st_modify. cbv beta iota zeta.
  assert (reads o path data s (with_objs (alter (fill data) o (objs (with_d_io w' s)))
    (with_d_io w' s))) as Hr.
  { split; [exists w'; by split|]. right. exists f, ob. split; [done|]. split; [done|].
    rewrite Hk. unfold avail. rewrite take_take. split; [apply take_length_self|].
    rewrite length_take. lia. }
  clearbody data. destruct e; exists data; by split.
Qed.

(** Reading with a descriptor opened for it, which is closed whatever happens *)
Lemma read_opened raw o path fd h s w f ob :
  files (d_io s) !! path = Some f -> objs s !! o = Some ob ->
  fd_file w fd = Some (h, f) -> files w = files (d_io s) ->
  quiet_io (d_io s) (with_fds w (delete fd (fds w))) ->
  let '(r, s') := st_finally (readinto raw fd o) (on_disk (os_close fd)) (with_d_io w s) in
  exists data, reads o path data s s'
    /\ match r with Ok n => n = lenZ data | Raise e => is_os_error e = true end.
Proof.
  intros Hf Ho Hfd Hfs Hq. unfold st_finally.
  pose proof (readinto_spec raw fd o path (with_d_io w s) f h ob Hfd) as Hr.
  simpl in Hr. rewrite Hfs in Hr. specialize (Hr Hf Ho).
  destruct (readinto raw fd o _) as [r s1]. destruct Hr as (data & ((w1 & -> & Hq1) & Hdata) & Hr).
  simpl in Hq1, Hdata. rewrite Hfs in Hdata.
  unfold on_disk. simpl. pose proof (os_close_quiet w1 fd) as Hc.
  destruct (os_close fd w1) as [rc w2]. destruct Hc as [Hc Hrc].
  assert (reads o path data s (with_d_io w2
    (with_objs (alter (fill data) o (objs (with_d_io w s))) (with_d_io w1 (with_d_io w s))))).
  { split; [|done]. exists w2. split; [done|].
    etrans; [exact Hq|]. etrans; [|exact Hc]. destruct Hq1 as (H1&H2&H3&H4).
    repeat split; simpl; first [congruence|lia]. }
  destruct rc; exists data; [done|]. by destruct Hrc.
Qed.

Lemma read_fresh raw o path s w fd ob :
  objs s !! o = Some ob -> fds_below (d_io s) -> os_open path O_RDONLY (d_io s) = (Ok fd, w) ->
  fds (d_io s) !! fd = None
  /\ let '(r, s') := st_finally (readinto raw fd o) (on_disk (os_close fd)) (with_d_io w s) in
     exists data, reads o path data s s'
       /\ match r with Ok n => n = lenZ data | Raise e => is_os_error e = true end.
Proof.
  intros Ho Hb E. pose proof (os_open_read (d_io s) path) as Hopen. rewrite E in Hopen.
  destruct Hopen as (-> & f & Hf & H1 & H2 & H3 & H4).
  assert (fds (d_io s) !! fresh (d_io s) = None) as Hnone.
  { destruct (fds (d_io s) !! fresh (d_io s)) eqn:E'; [|done].
    assert (fresh (d_io s) < fresh (d_io s)) by (apply Hb; by eexists). lia. }
  split; [done|].
  eapply (read_opened raw o path (fresh (d_io s)) _ s w f ob Hf Ho).
  - unfold fd_file. rewrite H4, lookup_insert_eq. simpl. rewrite H1, Hf. simpl.
    rewrite Z.eqb_refl. reflexivity.
  - done.
  - repeat split; simpl; [done|done| |lia]. rewrite H4. by rewrite delete_insert_id.
Qed.

(** Closing a descriptor that is not open changes nothing. *)
Lemma close_again o path data s s' fd :
  reads o path data s s' -> fds (d_io s) !! fd = None ->
  let '(r, s'') := st_catch is_os_error (on_disk (os_close fd)) (fun _ => mret tt) s' in
  reads o path data s s'' /\ r = Ok tt.
Proof.
  intros ((w' & -> & Hq) & Hd) Hfd. unfold st_catch, on_disk. simpl.
  pose proof (os_close_quiet w' fd) as Hc. destruct (os_close fd w') as [[[]|e] w2];
    destruct Hc as [Hc Hrc]; [|rewrite (proj1 Hrc)];
    (split; [|done]; split; [|done]; exists w2; split; [done|]; etrans; [exact Hq|];
     etrans; [|exact Hc]; destruct Hq as (_ & _ & H3 & _); repeat split; simpl; [|lia];
     rewrite delete_id; [done|by rewrite H3]).
Qed.

Lemma read_bytes_spec o path s ob size :
  objs s !! o = Some ob -> fds_below (d_io s) ->
  let '(r, s') := read_bytes cfg o path size s in
  exists data, reads o path data s s'
    /\ match r with Ok n => n = lenZ data | Raise e => is_os_error e = true end.
Proof.
  intros Ho Hb. unfold read_bytes. pose proof (os_open_read (d_io s) path) as Hopen.
  destruct (_ || _); unfold mbind at 1, ST_bind at 1; unfold on_disk at 1;
    destruct (os_open path O_RDONLY (d_io s)) as [[fd|e] w] eqn:E;
    [|by exists []; destruct Hopen as (He & Hq & _); split; [apply reads_none|]
     | |by exists []; destruct Hopen as (He & Hq & _); split; [apply reads_none|]].
  - by apply (read_fresh false o path s w fd ob).
  - destruct (read_fresh true o path s w fd ob Ho Hb E) as [Hfd Hr].
    unfold st_catch at 1. destruct (st_finally _ _ (with_d_io w s)) as [[n|e] s2]; [done|].
    destruct Hr as (data & Hr & He). cbn [any_exn]. unfold mbind, ST_bind.
    pose proof (close_again o path data s s2 fd Hr Hfd) as Hc.
    destruct (st_catch _ _ _ s2) as [r s3]. destruct Hc as [Hc ->]. by exists data.
Qed.

(** ** Removal *)

(** The entry of [key] is gone and debited; its file may be gone too. *)
Definition removed key (force : bool) s s' : Prop :=
  dict s' = od_del key (dict s)
  /\ usage s' = usage s - default 0 (payload_size <$> od_get key (dict s))
  /\ current_cache_size s' = current_cache_size s
       - (if force then default 0 (dm_size <$> od_get key (dict s)) else 0)
  /\ stats s' = (if od_mem key (dict s) then Some (usage s') else stats s)
  /\ disk_lock s' = disk_lock s /\ objs s' = objs s /\ env s' = env s
  /\ (quiet_io (d_io s) (d_io s')
      \/ exists m, od_get key (dict s) = Some m
           /\ quiet_io (with_files (d_io s) (delete (dm_path m) (files (d_io s)))) (d_io s')).

Lemma od_del_absent {V} k (d : odict K V) : od_get k d = None -> od_del k d = d.
Proof.
  induction d as [|[k2 v2] d IH]; simpl; [done|]. destruct (decide (k2 = k)); [done|].
  intros H. by rewrite IH.
Qed.

Lemma removed_absent key force s : od_get key (dict s) = None -> removed key force s s.
Proof.
  intros H. unfold removed, od_mem. rewrite H, od_del_absent by done. simpl.
  repeat split; try done; [lia|destruct force; lia|by left].
Qed.

(** The index after the part of [remove] under the lock *)
Definition debited key (force : bool) (m : disk_meta Dt F) s : disk_state :=
  let u := usage s + - payload_size m in
  DiskState _ _ _ _ _ (d_io s) (od_del key (dict s)) (disk_lock s)
    (current_cache_size s - (if force then dm_size m else 0)) u (Some u) (d_policy s) (objs s)
    (msgs s) (env s).

Lemma remove_locked_eq key force s :
  (force = true -> disk_lock s = false) ->
  remove_locked key force s =
    match od_get key (dict s) with
    | None => (Ok None, s)
    | Some m => (Ok (Some (dm_path m)), debited key force m s)
    end.
Proof.
  intros Hl. unfold remove_locked, remove_entry, acquire_lock, release_lock, st_finally, add_usage,
    update_local_storage_usage, mbind, ST_bind, st_get, debited. destruct s as [w d l c u st p o ms e]. simpl in *.
  destruct force; simpl; [rewrite (Hl eq_refl); simpl|]; destruct (od_get key d) eqn:E; simpl;
    rewrite ?Z.sub_0_r; done.
Qed.

(** The policy and the controller told of a removal *)
Definition told key (force : bool) s : disk_state :=
  with_msgs ((if has_sender cfg then [EvictMsg (chunk_hash key)] else []) ++ msgs s)
    (with_d_policy (if force then policy_force_evict key (d_policy s) else d_policy s) s).

Lemma remove_file_eq key force path s :
  remove_file cfg key force path s =
    match os_remove path (d_io s) with
    | (Ok _, w) => (Ok true, told key force (with_d_io w s))
    | (Raise e, w) => if is_file_not_found e then (Ok true, told key force (with_d_io w s))
                      else (Raise e, with_d_io w s)
    end.
Proof.
  unfold remove_file, st_catch, on_disk, st_modify, mbind, ST_bind, told.
  destruct (os_remove path (d_io s)) as [[[]|e] w]; [|destruct (is_file_not_found e)];
    try done; by destruct force, (has_sender cfg).
Qed.

Lemma debited_removed key force m s s' :
  od_get key (dict s) = Some m ->
  (quiet_io (d_io s) (d_io s')
   \/ quiet_io (with_files (d_io s) (delete (dm_path m) (files (d_io s)))) (d_io s')) ->
  s' = with_msgs (msgs s') (with_d_policy (d_policy s') (with_d_io (d_io s')
         (debited key force m s))) ->
  removed key force s s'.
Proof.
  intros E Hio ->. unfold removed, od_mem. rewrite E. split_and!; try done.
  destruct Hio; [by left|right; by exists m].
Qed.

(** What [remove] answers and leaves behind. When deleting the file fails, the entry is
    dropped and debited all the same, the policy and the controller are not told, and the
    error reaches the caller. *)
Lemma remove_spec key force s :
  (force = true -> disk_lock s = false) ->
  let '(r, s') := remove cfg key force s in
  removed key force s s'
  /\ match r with
     | Ok b => b = od_mem key (dict s)
         /\ (forall m, od_get key (dict s) = Some m -> files (d_io s') !! dm_path m = None)
         /\ msgs s' = (if b && has_sender cfg then [EvictMsg (chunk_hash key)] else []) ++ msgs s
     | Raise e => is_os_error e = true /\ is_file_not_found e = false /\ msgs s' = msgs s
         /\ exists m, od_get key (dict s) = Some m /\ is_Some (files (d_io s') !! dm_path m)
     end.
Proof.
  intros Hl. unfold remove, mbind, ST_bind. rewrite remove_locked_eq by done.
  destruct (od_get key (dict s)) as [m|] eqn:E.
  2:{ split; [by apply removed_absent|]. unfold od_mem. by rewrite E. }
  assert (od_mem key (dict s) = true) as -> by (apply od_mem_true; by rewrite E).
  rewrite remove_file_eq. pose proof (os_remove_cases (d_io s) (dm_path m)) as Hr.
  replace (d_io (debited key force m s)) with (d_io s) by done.
  destruct (os_remove (dm_path m) (d_io s)) as [[[]|e] w].
  - split; [apply (debited_removed key force m); [done|by right|done]|].
    split; [done|]. split; [|done]. intros m' [= <-]. simpl. destruct Hr as (-> & _). simpl.
    by rewrite lookup_delete_eq.
  - destruct Hr as (Hq & He & Hnf). destruct (is_file_not_found e) eqn:Hn.
    + split; [apply (debited_removed key force m); [done|by left|done]|].
      split; [done|]. split; [|done]. intros m' [= <-]. simpl. destruct Hq as (-> & _).
      by apply Hnf.
    + split; [apply (debited_removed key force m); [done|by left|done]|].
      split; [done|]. split; [done|]. split; [done|]. exists m. split; [done|]. simpl.
      destruct Hq as (-> & _). destruct (files (d_io s) !! dm_path m) eqn:Ef; [by eexists|].
      by specialize (proj2 Hnf eq_refl).
Qed.

Lemma removed_none key force s s' :
  NoDup (od_keys (dict s)) -> removed key force s s' -> od_get key (dict s') = None.
Proof. intros Hnd (-> & _). rewrite od_get_del by done. by rewrite decide_True. Qed.

(** ** Reading *)

(** After a failed read: the entry is dropped, or dropping its file failed too. *)
Definition read_failed key o path s (r : result unit) s' : Prop :=
  exists data s1, reads o path data s s1 /\ removed key true s1 s'
    /\ match r with
       | Ok _ => forall m, od_get key (dict s) = Some m -> files (d_io s') !! dm_path m = None
       | Raise e => is_os_error e = true /\ is_file_not_found e = false
           /\ exists m, od_get key (dict s) = Some m /\ is_Some (files (d_io s') !! dm_path m)
       end.

Lemma remove_after_read key o path data s s1 :
  reads o path data s s1 -> disk_lock s = false ->
  let '(r, s') := remove cfg key true s1 in
  read_failed key o path s (match r with Ok _ => Ok tt | Raise e => Raise e end) s'.
Proof.
  intros Hr Hl. assert (dict s1 = dict s /\ disk_lock s1 = false) as [Hd Hl1]
    by (by destruct Hr as ((w & -> & _) & _)).
  pose proof (remove_spec key true s1 ltac:(done)) as Hs. rewrite Hd in Hs.
  destruct (remove cfg key true s1) as [[b|e] s2]; exists data, s1.
  - destruct Hs as (H1 & _ & H2 & _). by split_and!.
  - destruct Hs as (H1 & He & Hn & _ & H2). by split_and!.
Qed.

(** A read that answers [True] has put the file's first bytes in the whole buffer and changed
    nothing else; any other read has dropped the entry. *)
Lemma read_file_spec key o path s ob :
  objs s !! o = Some ob -> fds_below (d_io s) -> disk_lock s = false ->
  match read_file cfg key o path s with
  | (Ok true, s') =>
      let data := take (length (byte_array ob)) (default [] (content (d_io s) path)) in
      length data = length (byte_array ob)
      /\ exists w, s' = with_objs (alter (set_buffer data) o (objs s)) (with_d_io w s)
           /\ quiet_io (d_io s) w
  | (Ok false, s') => read_failed key o path s (Ok tt) s'
  | (Raise e, s') => read_failed key o path s (Raise e) s'
  end.
Proof.
  intros Ho Hb Hl. unfold read_file, mbind at 1, ST_bind at 1. rewrite (get_obj_eq _ _ _ Ho).
  unfold mbind, ST_bind, st_catch.
  pose proof (read_bytes_spec o path s ob (lenZ (byte_array ob)) Ho Hb) as Hr.
  destruct (read_bytes cfg o path _ s) as [[n|e] s1]; destruct Hr as (data & Hr & Hn);
    pose proof (remove_after_read key o path data s s1 Hr Hl) as Hrem; cbn [mret ST_ret any_exn].
  2:{ by destruct (remove cfg key true s1) as [[b|e'] s2]. }
  destruct (n =? lenZ (byte_array ob)) eqn:En; cbn [negb];
    [|by destruct (remove cfg key true s1) as [[b|e'] s2]].
  assert (length data = length (byte_array ob)) as Hlen.
  { bool_prop. unfold lenZ in *. lia. }
  destruct Hr as ((w & -> & Hq) & Hdata).
  assert (data = take (length (byte_array ob)) (default [] (content (d_io s) path))) as Hd.
  { destruct Hdata as [->|(f & ob' & Hf & Ho' & Hd & _)];
      [by rewrite <- Hlen|]. unfold content. rewrite Hf. simpl. by rewrite <- Hlen. }
  rewrite <- Hd. split; [done|]. exists w. split; [|done]. f_equal. apply map_eq. intros i.
  destruct (decide (i = o)) as [->|Hne]; [|by rewrite !lookup_alter_ne].
  rewrite !lookup_alter_eq, Ho. simpl. unfold fill. by rewrite drop_ge, app_nil_r by lia.
Qed.

(** ** Writing *)

(** One [os.write], whose count is dropped *)
Lemma direct_write_cases path data w :
  fds_below w ->
  let '(r, w') := (fd ← os_open path O_CREAT_WRONLY;
    st_finally (os_write fd data;; mret tt) (os_close fd)) w in
  only_file path w w'
  /\ match r with
     | Ok _ => exists n, (n <= length data)%nat
         /\ content w' path = Some (write_at (default [] (content w path)) 0 (take n data))
         /\ (oracle w = [] -> n = length data)
     | Raise e => is_os_error e = true /\ oracle w <> []
     end.
Proof.
  intros Hb. pose proof (direct_write_count path data w Hb) as H. unfold mbind at 1, ST_bind at 1.
  unfold mbind at 1, ST_bind at 1 in H. destruct (os_open path O_CREAT_WRONLY w) as [[fd|e] w1]; [|done].
  unfold st_finally, mbind, ST_bind in *. destruct (os_write fd data w1) as [[c|e] w2]; cbn in *.
  - destruct (os_close fd w2) as [[u|e] w3]; [|done]. destruct H as [H (n & _ & Hn)].
    split; [done|]. by exists n.
  - by destruct (os_close fd w2) as [[u|e'] w3].
Qed.

Definition direct_mode (size : Z) : bool := fblock_aligned cfg size && use_odirect cfg.

Lemma write_bytes_cases buffer path w :
  fds_below w ->
  let '(r, w') := write_bytes cfg buffer path w in
  only_file path w w'
  /\ match r with
     | Ok _ =>
         if direct_mode (lenZ buffer)
         then exists n, (n <= length buffer)%nat
           /\ content w' path = Some (write_at (default [] (content w path)) 0 (take n buffer))
           /\ (oracle w = [] -> n = length buffer)
         else content w' path = Some buffer
     | Raise e => is_os_error e = true /\ oracle w <> []
     end.
Proof.
  intros Hb. unfold write_bytes, direct_mode. rewrite <- negb_andb.
  destruct (fblock_aligned cfg (lenZ buffer) && use_odirect cfg); cbn [negb].
  - apply (direct_write_cases path buffer w Hb).
  - unfold mbind, ST_bind. pose proof (py_write_file_cases path buffer w Hb) as Hw.
    by destruct (py_write_file path buffer w) as [[z|e] w'].
Qed.

Lemma cleanup_cases path w :
  exists w', cleanup_partial_file path w = (Ok tt, w') /\ only_file path w w'.
Proof.
  unfold cleanup_partial_file, st_catch. pose proof (os_remove_cases w path) as Hr.
  destruct (os_remove path w) as [[[]|e] w']; exists w'; (split; [done|]).
  - destruct Hr as (H1&H2&H3&H4). repeat split; try done. intros q Hq. rewrite H1. simpl.
    by rewrite lookup_delete_ne.
  - destruct Hr as (Hq & _). by apply quiet_only.
Qed.

(** Writing never raises and touches nothing but its file; what [True] guarantees depends on
    the way of writing. *)
Lemma write_file_spec buffer path w :
  fds_below w ->
  exists b w', write_file cfg buffer path w = (Ok b, w') /\ only_file path w w'
    /\ (oracle w = [] -> b = true)
    /\ (b = true ->
        if direct_mode (lenZ buffer)
        then exists n, (n <= length buffer)%nat
          /\ content w' path = Some (write_at (default [] (content w path)) 0 (take n buffer))
          /\ (oracle w = [] -> n = length buffer)
        else content w' path = Some buffer).
Proof.
  intros Hb. pose proof (write_bytes_cases buffer path w Hb) as Hw.
  unfold write_file, st_catch, mbind at 1, ST_bind at 1.
  destruct (write_bytes cfg buffer path w) as [[[]|e] w1]; destruct Hw as (Ho & Hr).
  - by exists true, w1.
  - cbn [any_exn]. destruct Hr as [He Hne]. unfold mbind, ST_bind.
    destruct (is_file_not_found e).
    + exists false, w1. by split_and!.
    + destruct (cleanup_cases path w1) as (w2 & -> & Hc).
      exists false, w2. split_and!; [done|by etrans|done|done].
Qed.

End facts.
