(* ===== verification/LocalDiskFacts.v ===== *)
(** * The local disk backend: saving, loading and accounting

    A save is found again with its bytes, [usage] follows the index over every run, and when
    an operation blocks on [disk_lock]. *)

From S2P Require Import Prelude Tensor World WorldIO Dict LocalDisk LocalDiskIO.

Open Scope string_scope.
Open Scope list_scope.
Open Scope Z_scope.

Section facts.
Context {K Dt F P X : Type} `{!EqDecision K, !TorchDtype Dt}.
Context `{!CachePolicy K (disk_meta Dt F) P} `{!DiskParts K Dt F P X}.
Context (cfg : disk_config).
Context `{!DiskPartsLaws K Dt F P X}.
Context {can_evict : disk_meta Dt F -> bool} `{!CachePolicyLaws K (disk_meta Dt F) P can_evict}.
#[local] Abbreviation disk_state := (disk_state K Dt F P X).
Implicit Types (key : K) (o : Z) (path : string) (s : disk_state).

(** ** A save *)

(** The entry [insert_key] makes for a saved object *)
Definition saved_entry key (ob : disk_obj Dt F) : disk_meta Dt F :=
  DiskMeta _ _ (key_to_path key) (physical_size ob) (do_shape ob) (do_dtype ob) (do_fmt ob)
    (do_cached_positions ob) 0.

(** The state after a save whose write answered [b] and left the files [w] *)
Definition saved key o (ob : disk_obj Dt F) (b : bool) w s s' : Prop :=
  exists p e d,
    let u := usage s + if b then lenZ (byte_array ob) else 0 in
    s' = with_env e (with_d_policy p (with_dict d (with_objs (alter (add_refs (-1)) o (objs s))
           (with_stats (Some u) (with_usage u (with_d_io w s))))))
    /\ d ≡ₚ (if b && negb (od_mem key (dict s)) then dict s ++ [(key, saved_entry key ob)]
             else dict s).

(** A callback that leaves the backend alone, whatever it answers *)
Definition quiet_callback (cb : option (K -> ST disk_state unit)) : Prop :=
  match cb with Some f => forall k s, (f k s).2 = s | None => True end.

Lemma on_complete_quiet cb key s : quiet_callback cb -> on_complete cb key s = (Ok tt, s).
Proof.
  destruct cb as [f|]; [|done]. intros Hf. simpl. unfold st_catch. specialize (Hf key s).
  destruct (f key s) as [[[]|e] s']; simpl in *; by subst.
Qed.

Lemma add_usage_eq n s :
  add_usage n s = (Ok tt, with_stats (Some (usage s + n)) (with_usage (usage s + n) s)).
Proof. done. Qed.

Lemma finish_save cb key s :
  quiet_callback cb ->
  exists e, (worker_remove_put_task key;; on_complete cb key) s = (Ok tt, with_env e s).
Proof.
  intros Hcb. unfold mbind, ST_bind.
  destruct (remove_put_task_law key s) as [e ->]. exists e. by apply on_complete_quiet.
Qed.

(** A save never raises: it releases the object once and either publishes the entry or undoes
    the usage. *)
Lemma async_save_spec key o cb s ob :
  objs s !! o = Some ob -> has_tensor ob = true -> fds_below (d_io s) -> disk_lock s = false ->
  quiet_callback cb ->
  exists b w s1, write_file cfg (byte_array ob) (key_to_path key) (d_io s) = (Ok b, w)
    /\ async_save_bytes_to_disk cfg key o cb s = (Ok tt, s1) /\ saved key o ob b w s s1.
Proof.
  intros Ho Ht Hb Hl Hcb.
  destruct (write_file_spec cfg (byte_array ob) (key_to_path key) (d_io s) Hb) as (b & w & Hw & _).
  unfold async_save_bytes_to_disk. unfold mbind at 1, ST_bind at 1. rewrite (get_obj_eq _ _ _ Ho).
  rewrite Ht. cbn [py_assert negb raise_if]. unfold mbind at 1, ST_bind at 1, st_lift at 1.
  unfold mbind at 1, ST_bind at 1. rewrite add_usage_eq.
  unfold mbind at 1, ST_bind at 1. unfold on_disk at 1. cbn [d_io with_stats with_usage]. rewrite Hw.
  set (s1 := with_d_io w _).
  destruct b; cbn [negb].
  - unfold mbind at 1, ST_bind at 1. rewrite (get_obj_eq _ s1 ob) by done.
    unfold mbind at 1, ST_bind at 1. unfold ref_count_down, alter_obj, st_modify.
    set (s2 := with_objs _ s1). unfold mbind at 1, ST_bind at 1.
    destruct (insert_key_law key (physical_size ob) (do_shape ob) (do_dtype ob) (do_fmt ob)
      (do_cached_positions ob) s2) as (p & d & e & -> & Hd); [done|].
    destruct (finish_save cb key (with_env e (with_d_policy p (with_dict d s2))) Hcb) as [e' ->].
    exists true, w. eexists. split; [done|]. split; [done|]. exists p, e', d. split; [done|].
    simpl in Hd. rewrite Hd. by destruct (od_mem key (dict s)).
  - exists false, w. unfold mbind at 1, ST_bind at 1. rewrite add_usage_eq.
    unfold mbind at 1, ST_bind at 1. unfold ref_count_down, alter_obj, st_modify.
    match goal with |- context [(_;; on_complete cb key) ?x] =>
      destruct (finish_save cb key x Hcb) as [e ->] end.
    eexists. split; [done|]. split; [done|]. exists (d_policy s), e, (dict s).
    split; [|done]. replace (usage s1 + - lenZ (byte_array ob)) with (usage s + 0)
      by (simpl; lia). by destruct s.
Qed.

(** ** A load *)

(** [get_blocking] of a key with a complete entry loads from the entry's file. *)
Lemma get_blocking_eq key s m :
  disk_lock s = false -> NoDup (od_keys (dict s)) -> od_get key (dict s) = Some m ->
  is_Some (dm_dtype m) -> is_Some (dm_shape m) ->
  exists p d, d ≡ₚ dict s /\ get_blocking cfg key s =
    (memory_obj ← load_bytes_from_disk cfg key (dm_path m) (dm_dtype m) (dm_shape m) (dm_fmt m);
     match memory_obj with
     | Some o => alter_obj (set_positions (dm_cached_positions m)) o;; mret (Some o)
     | None => mret None
     end) (with_d_policy p (with_dict d s)).
Proof.
  intros Hl Hnd Hm [dt Hdt] [sh Hsh].
  assert (od_mem key (dict s) = true) as Hmem by (apply od_mem_true; by rewrite Hm).
  destruct (hit_total key (d_policy s) (dict s) Hmem) as (p & d & Hhit).
  exists p, d. assert (d ≡ₚ dict s) as Hd by (by eapply hit_perm). split; [done|].
  assert (od_get key d = Some m) as Hm'.
  { rewrite <- Hm. symmetry. by apply od_get_perm. }
  unfold get_blocking. unfold mbind at 1, ST_bind at 1. unfold acquire_lock at 1.
  unfold mbind at 1, ST_bind at 1, st_get at 1. rewrite Hl. cbn [st_put].
  unfold mbind at 1, ST_bind at 1, st_get at 1. cbn [dict with_lock]. rewrite Hmem. cbn [negb].
  unfold mbind at 1, ST_bind at 1. unfold update_on_hit. unfold mbind at 1 2, ST_bind at 1 2, st_get at 1.
  cbn [d_policy dict with_lock]. unfold st_lift at 1. rewrite Hhit. cbn [st_put].
  unfold mbind at 1, ST_bind at 1, st_get at 1. cbn [dict with_dict with_d_policy].
  unfold mbind at 1, ST_bind at 1, st_lift at 1. rewrite Hm'. cbn [result_of_option].
  unfold mbind at 1, ST_bind at 1, st_lift at 1. rewrite Hdt. cbn.
  unfold mbind at 1, ST_bind at 1, st_lift at 1. rewrite Hsh. cbn.
  unfold mbind at 1, ST_bind at 1, release_lock, st_modify. f_equal. destruct s. simpl in *. by subst.
Qed.

Lemma read_failed_objs key o path s r s' o' :
  read_failed key o path s r s' ->
  exists data, objs s' = alter (fill data) o (objs s) /\ disk_lock s' = disk_lock s.
Proof.
  intros (data & s1 & ((w & -> & _) & _) & (_ & _ & _ & _ & Hl & Ho & _) & _). by exists data.
Qed.

(** What [load_bytes_from_disk] hands out: a fresh object with the file's bytes, or nothing,
    with the object released; when dropping the entry raises, the object is left with its
    reference. *)
Lemma load_bytes_spec key path dt sh fmt s :
  fds_below (d_io s) -> disk_lock s = false ->
  match load_bytes_from_disk cfg key path dt sh fmt s with
  | (Ok (Some o), s') => objs s !! o = None /\ exists ob w e,
      let data := take (length (byte_array ob)) (default [] (content (d_io s) path)) in
      length data = length (byte_array ob)
      /\ (forall n d, sh = Some n -> dt = Some d -> lenZ (byte_array ob) = prodZ n * itemsize d)
      /\ quiet_io (d_io s) w /\ do_refs ob = 1
      /\ s' = with_env e (with_objs (<[o := set_buffer data ob]> (objs s)) (with_d_io w s))
  | (Ok None, s') => (exists e, s' = with_env e s) \/ exists o s0 s1,
      objs s !! o = None /\ read_failed key o path s0 (Ok tt) s1 /\ dict s0 = dict s
      /\ s' = with_objs (alter (add_refs (-1)) o (objs s1)) s1
      /\ do_refs <$> objs s' !! o = Some 0
  | (Raise x, s') => exists o s0,
      objs s !! o = None /\ read_failed key o path s0 (Raise x) s' /\ dict s0 = dict s
      /\ do_refs <$> objs s' !! o = Some 1
  end.
Proof.
  intros Hb Hl. unfold load_bytes_from_disk, mbind at 1, ST_bind at 1.
  destruct (allocate_law sh dt fmt s) as [e [->|(o & ob & -> & Hnone & Hr & Hp & Hsz)]];
    [left; by exists e|].
  set (s0 := with_env e _). unfold mbind at 1, ST_bind at 1.
  assert (objs s0 !! o = Some ob) as Ho by apply lookup_insert_eq.
  pose proof (read_file_spec cfg key o path s0 ob Ho Hb Hl) as Hread.
  destruct (read_file cfg key o path s0) as [[[]|x] s1].
  - destruct Hread as (Hlen & w & -> & Hq). split; [done|]. exists ob, w, e.
    split; [done|]. split; [done|]. split; [done|]. split; [done|].
    unfold s0. cbn [objs with_env with_objs d_io]. rewrite alter_insert_eq. done.
  - right. exists o, s0, s1. split; [done|]. split; [done|]. split; [done|]. split; [done|].
    destruct (read_failed_objs _ _ _ _ _ _ o Hread) as (data & Hobjs & _).
    simpl. rewrite lookup_alter_eq, Hobjs, lookup_alter_eq, Ho. simpl. by rewrite Hr.
  - exists o, s0. split; [done|]. split; [done|]. split; [done|].
    destruct (read_failed_objs _ _ _ _ _ _ o Hread) as (data & -> & _). rewrite lookup_alter_eq, Ho. simpl. by rewrite Hr.
Qed.

Lemma get_blocking_absent key s :
  disk_lock s = false -> od_get key (dict s) = None -> get_blocking cfg key s = (Ok None, s).
Proof.
  intros Hl Hk. unfold get_blocking, acquire_lock, release_lock, mbind, ST_bind, st_get. rewrite Hl.
  unfold od_mem. cbn. rewrite Hk. cbn. destruct s. simpl in *. by subst.
Qed.

Lemma saved_dict key o ob b w s s' :
  saved key o ob b w s s' -> NoDup (od_keys (dict s)) -> od_get key (dict s) = None ->
  NoDup (od_keys (dict s'))
  /\ forall k, od_get k (dict s')
       = if b then od_get k (od_set key (saved_entry key ob) (dict s)) else od_get k (dict s).
Proof.
  intros (p & e & d & -> & Hd) Hnd Hk. simpl. unfold od_mem in Hd. rewrite Hk in Hd.
  rewrite bool_decide_false, andb_true_r in Hd by (by intros []).
  assert (dict s ++ [(key, saved_entry key ob)] = od_set key (saved_entry key ob) (dict s)) as Hset.
  { symmetry. apply od_set_fresh. rewrite od_keys_get, Hk. by intros []. }
  rewrite Hset in Hd.
  assert (NoDup (od_keys d)) as Hnd'.
  { unfold od_keys. rewrite Hd. destruct b; [by apply od_nodup_set|done]. }
  split; [done|]. intros k. rewrite (od_get_perm k d _ Hnd' Hd). by destruct b.
Qed.

Lemma write_at_nil data : write_at [] 0 data = data.
Proof. unfold write_at. simpl. by rewrite drop_nil, app_nil_r. Qed.

(** ** Accounting *)

Definition complete (m : disk_meta Dt F) : Prop := is_Some (dm_shape m) /\ is_Some (dm_dtype m).

(** [usage] is the payload of the indexed files, and what the monitor was told last; the lock
    is free; every entry can pass [get_blocking]'s assertions. *)
Definition disk_inv s : Prop :=
  NoDup (od_keys (dict s)) /\ disk_lock s = false /\ fds_below (d_io s)
  /\ usage s = od_sum payload_size (dict s)
  /\ (forall u, stats s = Some u -> u = usage s)
  /\ Forall (fun e => complete e.2) (dict s).

(** The parts of the state [disk_inv] reads *)
Lemma disk_inv_ext s s' :
  dict s' = dict s -> disk_lock s' = disk_lock s -> usage s' = usage s -> stats s' = stats s ->
  fds_below (d_io s') -> disk_inv s -> disk_inv s'.
Proof. unfold disk_inv. intros -> -> -> -> Hb (?&?&?&?&?&?). by split_and!. Qed.

Lemma disk_inv_dict d s :
  disk_inv s -> NoDup (od_keys d) -> od_sum payload_size d = od_sum payload_size (dict s) ->
  Forall (fun e => complete e.2) d -> disk_inv (with_dict d s).
Proof. intros (?&?&?&Hu&?&?) ? Hs ?. split_and!; simpl; try done. by rewrite Hs. Qed.

Lemma disk_inv_perm d s : d ≡ₚ dict s -> disk_inv s -> disk_inv (with_dict d s).
Proof.
  intros Hd Hi. pose proof Hi as (Hnd&_&_&_&_&Hc). apply disk_inv_dict; [done| | |].
  - unfold od_keys. by rewrite Hd.
  - by apply od_sum_perm.
  - by rewrite Hd.
Qed.

Lemma reads_inv o path data s s' : reads o path data s s' -> disk_inv s -> disk_inv s'.
Proof.
  intros ((w & -> & Hq) & _) Hi. apply (disk_inv_ext s); [done..| |exact Hi].
  destruct Hi as (_&_&Hb&_). simpl. eauto using quiet_io_below.
Qed.

Lemma removed_inv key force s s' : removed key force s s' -> disk_inv s -> disk_inv s'.
Proof.
  intros (Hd&Hu&_&Hst&Hl&_&_&Hio) (Hnd&Hlk&Hb&Hus&Hs&Hc). split_and!.
  - rewrite Hd. by apply od_nodup_del.
  - congruence.
  - destruct Hio as [Hq|(m & _ & Hq)]; [eauto using quiet_io_below|].
    eapply quiet_io_below; [exact Hq|]. exact Hb.
  - rewrite Hd, od_sum_del, Hu. lia.
  - intros u. rewrite Hst. destruct (od_mem key (dict s)) eqn:E; [by intros [= ->]|].
    intros H. rewrite Hu, (Hs u H). unfold od_mem in E. apply bool_decide_eq_false in E.
    destruct (od_get key (dict s)); [by destruct E|simpl; lia].
  - rewrite Hd. apply list.Forall_forall. intros x Hx%od_del_sub. by eapply list.Forall_forall in Hc.
Qed.

Lemma remove_inv key force : preserves disk_inv (remove cfg key force).
Proof.
  intros s Hi. pose proof Hi as (_&Hl&_). pose proof (remove_spec cfg key force s (fun _ => Hl)) as H.
  destruct (remove cfg key force s) as [r s']. destruct H as [H _]. by eapply removed_inv.
Qed.

Lemma read_failed_inv key o path s r s' : read_failed key o path s r s' -> disk_inv s -> disk_inv s'.
Proof. intros (data & s1 & Hr & Hm & _) Hi. eapply removed_inv, reads_inv; done. Qed.

Lemma read_file_inv key o path : preserves disk_inv (read_file cfg key o path).
Proof.
  intros s Hi. pose proof Hi as (_&Hl&Hb&_). destruct (objs s !! o) as [ob|] eqn:Ho.
  2:{ unfold read_file, get_obj, mbind, ST_bind, st_get, st_lift. by rewrite Ho. }
  pose proof (read_file_spec cfg key o path s ob Ho Hb Hl) as H.
  destruct (read_file cfg key o path s) as [[[]|e] s']; simpl.
  - destruct H as (_ & w & -> & Hq). apply (disk_inv_ext s); [done..| |exact Hi].
    simpl. eauto using quiet_io_below.
  - by eapply read_failed_inv.
  - by eapply read_failed_inv.
Qed.

Lemma alter_obj_inv f o : preserves disk_inv (alter_obj f o).
Proof. by apply preserves_modify. Qed.

(** One pin less on [key]'s entry *)
Definition unpinned key s : disk_state :=
  with_dict (od_alter (dm_add_pins (-1)) key (dict s)) s.

Lemma unpinned_inv key s : disk_inv s -> disk_inv (unpinned key s).
Proof.
  intros Hi. pose proof Hi as (Hnd&_&_&_&_&Hc). unfold unpinned, od_alter.
  destruct (od_get key (dict s)) as [m|] eqn:E; [|by destruct s].
  apply disk_inv_dict; [done|by apply od_nodup_set| |].
  - rewrite od_sum_set, E. unfold payload_size. simpl. lia.
  - apply list.Forall_forall. intros [k v] Hx. apply od_get_elem in Hx; [|by apply od_nodup_set].
    rewrite od_get_set in Hx. rewrite list.Forall_forall in Hc.
    destruct (decide (key = k)) as [->|].
    + injection Hx as <-. by apply (Hc (k, m)), od_get_elem.
    + by apply (Hc (k, v)), od_get_elem.
Qed.

Lemma unpin_if_present_eq key s :
  disk_lock s = false -> unpin_if_present key s = (Ok tt, unpinned key s).
Proof.
  intros Hl. destruct s. simpl in Hl. subst. reflexivity.
Qed.

Lemma unpin_entry_eq key s :
  disk_lock s = false -> is_Some (od_get key (dict s)) ->
  unpin_entry key s = (Ok tt, unpinned key s).
Proof.
  intros Hl [m Hm]. destruct s as [w d l c u st p os ms e]. simpl in *. subst.
  unfold unpin_entry, acquire_lock, dict_getitem, release_lock, unpinned, mbind, ST_bind, st_get.
  cbn. by rewrite Hm.
Qed.

Lemma load_each_inv failed loaded items : preserves disk_inv (load_each cfg failed loaded items).
Proof.
  revert failed loaded. induction items as [|[[path key] o] items IH]; intros failed loaded;
    [apply preserves_ret|]. cbn [load_each].
  apply preserves_bind; [destruct failed; [apply preserves_ret|apply read_file_inv]|].
  intros [] s Hi; cbn [negb].
  - unfold mbind at 1, ST_bind at 1, dict_getitem. unfold mbind at 1, ST_bind at 1, st_get, st_lift.
    destruct (od_get key (dict s)) as [m|] eqn:E; [|done]. cbn [result_of_option].
    unfold mbind at 1, ST_bind at 1, alter_obj, st_modify. cbv beta iota zeta.
    set (s1 := with_objs _ s). assert (disk_inv s1) as Hi1 by done.
    unfold mbind at 1, ST_bind at 1.
    rewrite unpin_entry_eq by first [apply Hi1|simpl; by rewrite E]. by apply IH, unpinned_inv.
  - unfold mbind at 1, ST_bind at 1. rewrite unpin_if_present_eq by apply Hi.
    unfold obj_unpin, ref_count_down, alter_obj, st_modify, mbind, ST_bind. cbv beta iota zeta.
    apply IH. by apply (unpinned_inv key s).
Qed.

Lemma load_bytes_inv key path dt sh fmt :
  preserves disk_inv (load_bytes_from_disk cfg key path dt sh fmt).
Proof.
  intros s Hi. unfold load_bytes_from_disk, mbind at 1, ST_bind at 1.
  destruct (allocate_law sh dt fmt s) as [e [->|(o & ob & -> & _)]]; [done|].
  set (s0 := with_env e _). assert (disk_inv s0) as Hi0 by done.
  apply preserves_bind; [apply read_file_inv| |done].
  intros []; [apply preserves_ret|]. apply preserves_bind; [apply alter_obj_inv|].
  intros _. apply preserves_ret.
Qed.

Lemma get_blocking_inv key : preserves disk_inv (get_blocking cfg key).
Proof.
  intros s Hi. pose proof Hi as (Hnd&Hl&_&_&_&Hc).
  destruct (od_get key (dict s)) as [m|] eqn:E; [|by rewrite get_blocking_absent].
  assert (complete m) as [Hsh Hdt].
  { rewrite list.Forall_forall in Hc. by apply (Hc (key, m)), od_get_elem. }
  destruct (get_blocking_eq key s m Hl Hnd E Hdt Hsh) as (p & d & Hd & ->).
  apply preserves_bind.
  - apply load_bytes_inv.
  - intros [o|]; [|apply preserves_ret]. apply preserves_bind; [apply alter_obj_inv|].
    intros _. apply preserves_ret.
  - by apply (disk_inv_perm d s).
Qed.

(** What a save needs: a live object with a tensor, whose buffer holds one value per element *)
Definition saveable o s : Prop := exists ob sh dt,
  objs s !! o = Some ob /\ has_tensor ob = true /\ do_shape ob = Some sh
  /\ do_dtype ob = Some dt /\ lenZ (byte_array ob) = prodZ sh * itemsize dt.

Lemma od_sum_snoc {V} (f : V -> Z) k v (d : odict K V) :
  od_sum f (d ++ [(k, v)]) = od_sum f d + f v.
Proof. unfold od_sum. rewrite fmap_app, sumZ_app. unfold sumZ. simpl. lia. Qed.

Lemma async_save_inv key o cb s :
  disk_inv s -> saveable o s -> od_get key (dict s) = None -> quiet_callback cb ->
  disk_inv (async_save_bytes_to_disk cfg key o cb s).2.
Proof.
  intros Hi (ob & sh & dt & Ho & Ht & Hsh & Hdt & Hsz) Hk Hcb. pose proof Hi as (Hnd&Hl&Hb&Hu&Hs&Hc).
  destruct (async_save_spec key o cb s ob Ho Ht Hb Hl Hcb) as (b & w & s1 & Hw & -> & Hsaved).
  destruct (write_file_spec cfg (byte_array ob) (key_to_path key) (d_io s) Hb)
    as (b' & w' & Hw' & (_&_&Hf&Hfr) & _). rewrite Hw in Hw'. injection Hw' as <- <-.
  destruct (saved_dict _ _ _ _ _ _ _ Hsaved Hnd Hk) as [Hnd1 _].
  destruct Hsaved as (p & e & d & -> & Hd). unfold od_mem in Hd. rewrite Hk in Hd.
  rewrite bool_decide_false, andb_true_r in Hd by (by intros []). split_and!; simpl; try done.
  - intros fd Hfd. rewrite Hf in Hfd. apply Hb in Hfd. lia.
  - rewrite (od_sum_perm _ _ _ Hd), Hu. destruct b; [|lia].
    assert (payload_size (saved_entry key ob) = lenZ (byte_array ob)) as Hpay
      by (unfold payload_size; simpl; by rewrite Hsh, Hdt).
    rewrite od_sum_snoc, Hpay. lia.
  - by intros u [= <-].
  - rewrite Hd. destruct b; [|done]. apply list.Forall_app. split; [done|].
    apply list.Forall_singleton. split; simpl; [by rewrite Hsh|by rewrite Hdt].
Qed.

(** *** Every run *)

Inductive disk_step : disk_state -> disk_state -> Prop :=
  | step_save key o cb s : saveable o s -> od_get key (dict s) = None -> quiet_callback cb ->
      disk_step s (async_save_bytes_to_disk cfg key o cb s).2
  | step_get key s : disk_step s (get_blocking cfg key s).2
  | step_batch paths keys mos s :
      disk_step s (batched_async_load_bytes_from_disk cfg paths keys mos s).2
  | step_remove key force s : disk_step s (remove cfg key force s).2.

Lemma disk_step_inv s s' : disk_step s s' -> disk_inv s -> disk_inv s'.
Proof.
  intros [key o cb s0 Hs Hk Hcb|key s0|paths keys mos s0|key force s0] Hi.
  - by apply async_save_inv.
  - by apply get_blocking_inv.
  - by apply load_each_inv.
  - by apply remove_inv.
Qed.

Lemma load_bytes_raises key path dt sh fmt s e s' :
  disk_inv s -> load_bytes_from_disk cfg key path dt sh fmt s = (Raise e, s') ->
  is_os_error e = true.
Proof.
  intros (_&Hl&Hb&_) He. pose proof (load_bytes_spec key path dt sh fmt s Hb Hl) as H.
  rewrite He in H. by destruct H as (o & s0 & _ & (data & s1 & _ & _ & Hx & _) & _).
Qed.

(** C36: Over any sequence of saves of new keys, loads, batched loads and removals, under any
    faults, [usage] is the payload of the indexed entries, and no [get_blocking] blocks on the
    lock or fails an assertion: the only error it can raise is the file system's, from deleting
    a file. What is saved has a shape and a dtype ([saveable]). *)
Theorem disk_usage_accounting s s' :
  disk_inv s -> rtc disk_step s s' ->
  usage s' = od_sum payload_size (dict s')
  /\ (forall u, stats s' = Some u -> u = usage s')
  /\ forall key e, (get_blocking cfg key s').1 = Raise e -> is_os_error e = true.
Proof.
  intros Hi Hsteps. assert (disk_inv s') as Hi' by (induction Hsteps; eauto using disk_step_inv).
  pose proof Hi' as (Hnd&Hl&_&Hu&Hs&Hc). split; [done|]. split; [done|]. intros key e He.
  destruct (od_get key (dict s')) as [m|] eqn:E; [|by rewrite get_blocking_absent in He].
  assert (complete m) as [Hsh Hdt].
  { rewrite list.Forall_forall in Hc. by apply (Hc (key, m)), od_get_elem. }
  destruct (get_blocking_eq key s' m Hl Hnd E Hdt Hsh) as (p & d & Hd & Heq).
  rewrite Heq in He. unfold mbind at 1, ST_bind at 1 in He.
  destruct (load_bytes_from_disk _ _ _ _ _ _ _) as [[[o|]|x] s1] eqn:El; [done|done|].
  simpl in He. injection He as ->. eapply load_bytes_raises; [|exact El].
  by apply (disk_inv_perm d s').
Qed.
(** *** Without faults *)

Lemma read_file_clean key o path s ob f :
  objs s !! o = Some ob -> oracle (d_io s) = [] -> files (d_io s) !! path = Some f ->
  (length (byte_array ob) <= length (bytes f))%nat -> (read_file cfg key o path s).1 = Ok true.
Proof.
  destruct s as [[fs fd n m orc h] d l c u st p os ms e]. simpl. intros Ho -> Hf Hle.
  assert ((lenZ (take (length (byte_array ob)) (bytes f)) =? lenZ (byte_array ob)) = true) as Hn.
  { apply Z.eqb_eq. unfold lenZ. rewrite length_take. lia. }
  unfold read_file, read_bytes, get_obj, readinto, get_obj, alter_obj, st_modify, st_catch,
    st_finally, on_disk, os_open, os_close, may_fail, next_event, mbind, ST_bind, st_get, st_lift.
  cbn [objs d_io]. rewrite Ho. cbn [result_of_option].
  destruct (_ || _); cbn; rewrite Hf; cbn; rewrite Ho; cbn; unfold fd_file; cbn;
    rewrite lookup_insert_eq; cbn; rewrite lookup_insert_eq; cbn; rewrite Z.eqb_refl; cbn;
    by rewrite Hn.
Qed.

Lemma write_file_clean buffer path w :
  oracle w = [] -> exists w', write_file cfg buffer path w = (Ok true, w') /\ oracle w' = [].
Proof.
  destruct w as [fs fd n m orc h]. simpl. intros ->.
  unfold write_file, write_bytes, py_write_file, os_write, st_modify, st_catch, st_finally,
    os_open, os_close, may_fail, next_event, mbind, ST_bind, st_get.
  destruct (_ || _); cbn; destruct (fs !! path); cbn; unfold fd_file; cbn;
    rewrite lookup_insert_eq; cbn; rewrite lookup_insert_eq; cbn; rewrite Z.eqb_refl; cbn;
    by eexists.
Qed.

(** An entry without shape or dtype makes [get_blocking] leave the lock held, and every later
    operation that takes it blocks. *)
Lemma incomplete_entry_blocks key s m :
  disk_lock s = false -> NoDup (od_keys (dict s)) -> od_get key (dict s) = Some m ->
  ~ complete m ->
  exists s', get_blocking cfg key s = (Raise AssertionError, s') /\ disk_lock s' = true
    /\ forall key', get_blocking cfg key' s' = (Raise (RuntimeError "blocked on disk_lock"), s')
         /\ remove cfg key' true s' = (Raise (RuntimeError "blocked on disk_lock"), s').
Proof.
  intros Hl Hnd Hm Hc.
  assert (od_mem key (dict s) = true) as Hmem by (apply od_mem_true; by rewrite Hm).
  destruct (hit_total key (d_policy s) (dict s) Hmem) as (p & d & Hhit).
  assert (od_get key d = Some m) as Hm'.
  { rewrite <- Hm. symmetry. apply od_get_perm; [done|]. symmetry. by eapply hit_perm. }
  assert (forall s', disk_lock s' = true -> forall key',
    get_blocking cfg key' s' = (Raise (RuntimeError "blocked on disk_lock"), s')
    /\ remove cfg key' true s' = (Raise (RuntimeError "blocked on disk_lock"), s')) as Hblock.
  { intros s' Hl' key'. unfold get_blocking, remove, remove_locked, acquire_lock, mbind, ST_bind, st_get.
    by rewrite Hl'. }
  exists (with_d_policy p (with_dict d (with_lock true s))). split; [|split; [done|by apply Hblock]].
  destruct s as [w d0 l c u st p0 os ms e]. simpl in *. subst l.
  unfold get_blocking, update_on_hit, acquire_lock, mbind, ST_bind, st_get, st_put, st_lift. cbn.
  rewrite Hmem. cbn. rewrite Hhit. cbn. rewrite Hm'. cbn. unfold complete in Hc.
  destruct (dm_dtype m) eqn:E1; cbn; [|done].
  destruct (dm_shape m) eqn:E2; cbn; [|done]. exfalso. apply Hc. by split.
Qed.

(** *** Saving, then loading *)

(** After a save of a new key: its entry if the write succeeded, and then a file of which a
    full read gives the saved bytes *)
Lemma saved_state key o cb s ob :
  objs s !! o = Some ob -> has_tensor ob = true -> fds_below (d_io s) -> disk_lock s = false ->
  quiet_callback cb -> NoDup (od_keys (dict s)) -> od_get key (dict s) = None ->
  (direct_mode cfg (lenZ (byte_array ob)) = true -> content (d_io s) (key_to_path key) = None) ->
  exists (b : bool) s1, async_save_bytes_to_disk cfg key o cb s = (Ok tt, s1)
    /\ disk_lock s1 = false /\ fds_below (d_io s1) /\ NoDup (od_keys (dict s1))
    /\ od_get key (dict s1) = (if b then Some (saved_entry key ob) else None)
    /\ (b = true -> exists c, content (d_io s1) (key_to_path key) = Some c
          /\ ((length (byte_array ob) <= length c)%nat -> take (length (byte_array ob)) c = byte_array ob)
          /\ (oracle (d_io s) = [] -> c = byte_array ob))
    /\ (oracle (d_io s) = [] -> b = true /\ oracle (d_io s1) = []).
Proof.
  intros Ho Ht Hb Hl Hcb Hnd Hk Hdir.
  destruct (async_save_spec key o cb s ob Ho Ht Hb Hl Hcb) as (b & w & s1 & Hw & Hs & Hsaved).
  destruct (saved_dict _ _ _ _ _ _ _ Hsaved Hnd Hk) as [Hnd1 Hget1]. specialize (Hget1 key).
  assert (disk_lock s1 = false /\ d_io s1 = w) as [Hl1 Hio1]
    by (by destruct Hsaved as (p & e & d & -> & _)).
  destruct (write_file_spec cfg (byte_array ob) (key_to_path key) (d_io s) Hb)
    as (b' & w' & Hw' & (_&_&Hf&Hfr) & Hclean & Hc). rewrite Hw in Hw'. injection Hw' as <- <-.
  exists b, s1. rewrite Hio1. split_and!; try done.
  - intros fd Hfd. rewrite Hf in Hfd. apply Hb in Hfd. lia.
  - rewrite Hget1. destruct b; [|done]. rewrite od_get_set. by rewrite decide_True.
  - intros ->. specialize (Hc eq_refl). destruct (direct_mode cfg (lenZ (byte_array ob))).
    + destruct Hc as (n & Hn & Hc & Hn0). rewrite Hc, (Hdir eq_refl). simpl. rewrite write_at_nil.
      eexists. split; [done|]. rewrite length_take. split.
      * intros Hle. rewrite take_take. apply take_ge. lia.
      * intros Hor. rewrite (Hn0 Hor). apply firstn_all.
    + exists (byte_array ob). split; [done|]. split; [|done]. intros _. apply firstn_all.
  - intros Hor. split; [by apply Hclean|].
    destruct (write_file_clean (byte_array ob) (key_to_path key) (d_io s) Hor) as (w2 & Hw2 & Hor2).
    rewrite Hw in Hw2. by injection Hw2 as _ <-.
Qed.

Lemma load_bytes_clean key path dt sh fmt s f :
  oracle (d_io s) = [] -> files (d_io s) !! path = Some f ->
  (forall n d, sh = Some n -> dt = Some d -> (Z.to_nat (prodZ n * itemsize d) <= length (bytes f))%nat) ->
  is_Some sh -> is_Some dt -> (cpu_allocate sh dt fmt s).1 <> Ok None ->
  exists o s', load_bytes_from_disk cfg key path dt sh fmt s = (Ok (Some o), s').
Proof.
  intros Hor Hf Hsz [n ->] [d ->] Hall. unfold load_bytes_from_disk, mbind at 1, ST_bind at 1.
  destruct (allocate_law (Some n) (Some d) fmt s) as [e [He|(o & ob & He & _ & _ & _ & Hlen)]];
    rewrite He in Hall |- *; [done|].
  set (s0 := with_env e _). assert (objs s0 !! o = Some ob) as Ho by apply lookup_insert_eq.
  pose proof (read_file_clean key o path s0 ob f Ho Hor Hf) as Hr.
  unfold mbind, ST_bind. destruct (read_file cfg key o path s0) as [r s1].
  simpl in Hr. rewrite Hr; [by eexists _, _|].
  specialize (Hlen n d eq_refl eq_refl). specialize (Hsz n d eq_refl eq_refl). unfold lenZ in Hlen. lia.
Qed.

(** C29: A save never raises, and a chunk that was saved and is then found has the saved bytes
    and its cached positions, whatever went wrong in between: a write that came up short or
    failed is never read back as the chunk. Without faults, and with room to load it, it is
    found. With direct I/O this needs the path to have had no file before. *)
Theorem save_then_get key o cb s ob sh dt :
  objs s !! o = Some ob -> has_tensor ob = true -> fds_below (d_io s) -> disk_lock s = false ->
  quiet_callback cb -> NoDup (od_keys (dict s)) -> od_get key (dict s) = None ->
  do_shape ob = Some sh -> do_dtype ob = Some dt ->
  lenZ (byte_array ob) = prodZ sh * itemsize dt ->
  (direct_mode cfg (lenZ (byte_array ob)) = true -> content (d_io s) (key_to_path key) = None) ->
  exists s1, async_save_bytes_to_disk cfg key o cb s = (Ok tt, s1)
  /\ (forall o' s2, get_blocking cfg key s1 = (Ok (Some o'), s2) ->
        exists ob', objs s2 !! o' = Some ob' /\ byte_array ob' = byte_array ob
          /\ do_cached_positions ob' = do_cached_positions ob)
  /\ (oracle (d_io s) = [] ->
      (forall s', objs s' = objs s1 -> env s' = env s1 ->
        (cpu_allocate (Some sh) (Some dt) (do_fmt ob) s').1 <> Ok None) ->
      exists o' s2, get_blocking cfg key s1 = (Ok (Some o'), s2)).
Proof.
  intros Ho Ht Hb Hl Hcb Hnd Hk Hsh Hdt Hsize Hdir.
  destruct (saved_state key o cb s ob Ho Ht Hb Hl Hcb Hnd Hk Hdir)
    as (b & s1 & Hs & Hl1 & Hb1 & Hnd1 & Hget & Hc & Hclean).
  exists s1. split; [done|]. destruct b.
  2:{ rewrite get_blocking_absent by done. split; [done|]. intros Hor. by destruct (Hclean Hor). }
  destruct (Hc eq_refl) as (c & Hcontent & Htake & Hfull).
  destruct (get_blocking_eq key s1 _ Hl1 Hnd1 Hget) as (p & d & _ & Heq);
    [simpl; by rewrite Hdt|simpl; by rewrite Hsh|]. rewrite Heq. simpl. rewrite Hsh, Hdt.
  set (s1' := with_d_policy p (with_dict d s1)). split.
  - intros o' s2 Hg. apply st_bind_Ok in Hg as (mo & s3 & Hload & Hg). destruct mo as [o2|]; [|done].
    pose proof (load_bytes_spec key (key_to_path key) (Some dt) (Some sh) (do_fmt ob) s1' Hb1 Hl1)
      as Hspec. rewrite Hload in Hspec.
    destruct Hspec as (Hn & ob2 & w2 & e & Hlen & Hsz & Hq & _ & Hs3).
    specialize (Hsz sh dt eq_refl eq_refl). replace (d_io s1') with (d_io s1) in * by done.
    rewrite Hcontent in Hlen, Hs3. simpl in Hlen, Hs3. rewrite length_take in Hlen.
    assert (length (byte_array ob2) = length (byte_array ob)) as Hlen2 by (unfold lenZ in *; lia).
    rewrite Hlen2 in *. rewrite Htake in Hs3 by lia.
    unfold alter_obj, st_modify, mbind, ST_bind in Hg. cbn in Hg. injection Hg as <- <-.
    rewrite Hs3. cbn [objs with_env with_objs]. rewrite lookup_alter_eq, lookup_insert_eq.
    by eexists.
  - intros Hor Hroom. destruct (Hclean Hor) as [_ Hor1]. specialize (Hfull Hor). subst c.
    unfold content in Hcontent. destruct (files (d_io s1) !! key_to_path key) as [f|] eqn:Ef; [|done].
    simpl in Hcontent. injection Hcontent as Hcontent.
    destruct (load_bytes_clean key (key_to_path key) (Some dt) (Some sh) (do_fmt ob) s1' f Hor1 Ef)
      as (o2 & s3 & Hload); [|by eexists..|by apply Hroom|].
    { intros n' d' [= <-] [= <-]. rewrite Hcontent. unfold lenZ in Hsize. lia. }
    unfold mbind at 1, ST_bind at 1. rewrite Hload. by eexists _, _.
Qed.

End facts.
