(* ===== verification/LocalDiskBatch.v ===== *)
(** * The local disk backend: a batched load

    Which objects [batched_async_load_bytes_from_disk] hands over and which it releases. *)

From S2P Require Import Prelude Tensor World WorldIO Dict LocalDisk LocalDiskIO LocalDiskFacts.

Open Scope string_scope.
Open Scope list_scope.
Open Scope Z_scope.

Section facts.
Context {K Dt F P X : Type} `{!EqDecision K, !TorchDtype Dt}.
Context `{!CachePolicy K (disk_meta Dt F) P} `{!DiskParts K Dt F P X}.
Context (cfg : disk_config).
Context `{!DiskPartsLaws K Dt F P X}.
Context {can_evict : disk_meta Dt F -> bool} `{!CachePolicyLaws K (disk_meta Dt F) P can_evict}.
#[local] Abbreviation disk_state := (disk_state K Dt F P X).
Implicit Types (key : K) (o : Z) (path : string) (s : disk_state).

(** *** A batched load *)

(** An object altered and its key unpinned once *)
Definition touch (g : disk_obj Dt F -> disk_obj Dt F) (it : string * K * Z) s : disk_state :=
  unpinned it.1.2 (with_objs (alter g it.2 (objs s)) s).

Definition put_back : disk_obj Dt F -> disk_obj Dt F := fun ob => add_refs (-1) (add_pins (-1) ob).

(** The object of [it] with the file's bytes and the entry's positions, as of state [s] *)
Definition delivered s (it : string * K * Z) (ob : disk_obj Dt F) : disk_obj Dt F :=
  set_positions (od_get it.1.2 (dict s) ≫= dm_cached_positions)
    (set_buffer (take (length (byte_array ob)) (default [] (content (d_io s) it.1.1))) ob).

Definition deliver_all s0 s (items : list (string * K * Z)) : disk_state :=
  foldl (fun s' it => touch (delivered s0 it) it s') s items.

Definition put_back_all s (items : list (string * K * Z)) : disk_state :=
  foldl (fun s' it => touch put_back it s') s items.

Lemma alter_alter {A} (f g : A -> A) (i : Z) (m : gmap Z A) :
  alter f i (alter g i m) = alter (fun x => f (g x)) i m.
Proof.
  apply map_eq. intros j. destruct (decide (j = i)) as [->|Hne]; [|by rewrite !lookup_alter_ne].
  rewrite !lookup_alter_eq. by destruct (m !! i).
Qed.

Lemma load_each_failed loaded items s :
  disk_lock s = false ->
  load_each cfg true loaded items s = (Ok loaded, put_back_all s items).
Proof.
  revert s. induction items as [|[[path key] o] items IH]; intros s Hl; [done|].
  cbn [load_each]. unfold put_back_all. cbn [foldl]. unfold mbind at 1, ST_bind at 1. cbn [mret ST_ret negb].
  unfold mbind at 1, ST_bind at 1. rewrite unpin_if_present_eq by done.
  unfold obj_unpin, ref_count_down, alter_obj, st_modify, mbind, ST_bind. cbv beta iota zeta.
  rewrite IH by done. unfold put_back_all. do 2 f_equal. unfold touch, unpinned, put_back. simpl.
  rewrite alter_alter. by destruct s.
Qed.

Lemma unpinned_positions key k s :
  od_get k (dict (unpinned key s)) ≫= dm_cached_positions = od_get k (dict s) ≫= dm_cached_positions.
Proof.
  unfold unpinned, od_alter. destruct (od_get key (dict s)) as [m|] eqn:E; [|done].
  simpl. rewrite od_get_set. destruct (decide (key = k)) as [->|]; [|done]. by rewrite E.
Qed.

Lemma unpinned_some key k s :
  is_Some (od_get k (dict (unpinned key s))) <-> is_Some (od_get k (dict s)).
Proof.
  unfold unpinned, od_alter. destruct (od_get key (dict s)) as [m|] eqn:E; [|done].
  simpl. rewrite od_get_set. destruct (decide (key = k)) as [->|]; [|done]. by rewrite E.
Qed.

(** [delivered] reads of the state only the files and the entries' positions. *)
Lemma deliver_all_ext s0 s0' s items :
  (forall k, od_get k (dict s0) ≫= dm_cached_positions = od_get k (dict s0') ≫= dm_cached_positions) ->
  files (d_io s0) = files (d_io s0') -> deliver_all s0 s items = deliver_all s0' s items.
Proof.
  intros Hp Hf. unfold deliver_all. revert s. induction items as [|it items IH]; intros s; [done|].
  cbn [foldl]. rewrite IH. do 2 f_equal. unfold delivered, content. by rewrite Hp, Hf.
Qed.

Lemma deliver_all_io s0 s w items :
  with_d_io w (deliver_all s0 s items) = deliver_all s0 (with_d_io w s) items.
Proof.
  unfold deliver_all. revert s. induction items as [|it items IH]; intros s; [done|].
  cbn [foldl]. by rewrite IH.
Qed.

(** The items whose entries and objects are there *)
Definition batch_ready s (items : list (string * K * Z)) : Prop :=
  Forall (fun it => is_Some (od_get it.1.2 (dict s)) /\ is_Some (objs s !! it.2)) items.

Lemma ready_touch g it s items : batch_ready s items -> batch_ready (touch g it s) items.
Proof.
  intros Hr. unfold batch_ready. eapply list.Forall_impl; [exact Hr|]. intros x [H1 H2]. unfold touch.
  split; [by apply unpinned_some|]. simpl.
  destruct (decide (x.2 = it.2)) as [E|Hne]; [|by rewrite lookup_alter_ne].
  rewrite E in H2 |- *. rewrite lookup_alter_eq. by apply fmap_is_Some.
Qed.

(** The file of [it] fills its object's buffer. *)
Definition full s (it : string * K * Z) : Prop := forall ob, objs s !! it.2 = Some ob ->
  (length (byte_array ob) <= length (default [] (content (d_io s) it.1.1)))%nat.

(** How a batched load ends: all delivered, or at the first item that cannot be read, with
    everything from there put back, or with an error and nothing put back *)
Definition batch_outcome (items : list (string * K * Z)) loaded s (r : result (list Z)) s' : Prop :=
  exists n w, quiet_io (d_io s) w /\ Forall (full s) (take n items) /\
  let s1 := deliver_all s (with_d_io w s) (take n items) in
  (n = length items /\ r = Ok (loaded ++ items.*2) /\ s' = s1)
  \/ exists path key o x s2, items !! n = Some (path, key, o)
     /\ read_failed key o path s1 x s2
     /\ match x with
        | Ok _ => r = Ok (loaded ++ (take n items).*2) /\ s' = put_back_all s2 (drop n items)
        | Raise e => r = Raise e /\ s' = s2
        end.

Lemma load_each_spec items loaded s :
  disk_inv s -> batch_ready s items ->
  let '(r, s') := load_each cfg false loaded items s in batch_outcome items loaded s r s'.
Proof.
  revert loaded s. induction items as [|[[path key] o] items IH]; intros loaded s Hi Hready.
  { exists 0%nat, (d_io s). split; [done|]. split; [constructor|]. left. split; [done|]. rewrite app_nil_r.
    split; [done|]. by destruct s. }
  apply list.Forall_cons in Hready as [[Hk [ob Ho]] Hready]. simpl in Hk, Ho.
  cbn [load_each]. pose proof Hi as (_&Hl&Hb&_).
  pose proof (read_file_spec cfg key o path s ob Ho Hb Hl) as Hread.
  unfold mbind at 1, ST_bind at 1. destruct (read_file cfg key o path s) as [[[]|e] s1]; cbn [negb].
  - destruct Hread as (Hlen & w & -> & Hq). destruct Hk as [m Hm].
    set (data := take _ _) in *. set (s1 := with_objs _ _).
    unfold mbind at 1, ST_bind at 1, dict_getitem. unfold mbind at 1, ST_bind at 1, st_get, st_lift.
    replace (dict s1) with (dict s) by done. rewrite Hm. cbn [result_of_option].
    unfold mbind at 1, ST_bind at 1, alter_obj, st_modify. cbv beta iota zeta.
    set (s2 := with_objs _ s1). unfold mbind at 1, ST_bind at 1.
    rewrite unpin_entry_eq by first [done|simpl; by rewrite Hm].
    assert (unpinned key s2 = touch (delivered s (path, key, o)) (path, key, o) (with_d_io w s))
      as Hs2.
    { unfold touch. f_equal. unfold s2, s1. simpl.
      replace (alter (set_positions (dm_cached_positions m)) o (alter (set_buffer data) o (objs s)))
        with (alter (delivered s (path, key, o)) o (objs s)); [done|].
      apply map_eq. intros i. destruct (decide (i = o)) as [->|Hne]; [|by rewrite !lookup_alter_ne].
      rewrite !lookup_alter_eq, Ho. simpl. unfold delivered. simpl. by rewrite Hm. }
    rewrite Hs2. set (s3 := touch _ _ _).
    assert (disk_inv s3) as Hi3.
    { unfold s3, touch. apply unpinned_inv. apply (disk_inv_ext s); [done..| |exact Hi].
      simpl. eauto using quiet_io_below. }
    specialize (IH (loaded ++ [o]) s3 Hi3 (ready_touch _ _ _ _ Hready)).
    destruct (load_each cfg false (loaded ++ [o]) items s3) as [r s'].
    destruct IH as (n & w' & Hq' & Hfull & Hout). exists (Datatypes.S n), w'.
    assert (quiet_io (d_io s) w') as Hq2 by (etrans; [exact Hq|exact Hq']).
    assert (length (byte_array ob) <= length (default [] (content (d_io s) path)))%nat as Hle.
    { unfold data in Hlen. rewrite length_take in Hlen. lia. }
    split; [done|]. cbn [take]. split.
    { constructor; [intros ob' Hob'; simpl in *; by simplify_eq|].
      eapply list.Forall_impl; [exact Hfull|]. intros it Hit ob' Hob'.
      assert (content (d_io s3) it.1.1 = content (d_io s) it.1.1) as Hc.
      { unfold content. simpl. by destruct Hq as (-> & _). }
      rewrite <- Hc. destruct (decide (it.2 = o)) as [E|Hne].
      - rewrite E, Ho in Hob'. injection Hob' as <-.
        specialize (Hit (delivered s (path, key, o) ob)). rewrite E in Hit. simpl in Hit.
        rewrite lookup_alter_eq, Ho in Hit. specialize (Hit eq_refl).
        rewrite <- Hlen. exact Hit.
      - apply Hit. simpl. by rewrite lookup_alter_ne. }
    assert (deliver_all s (with_d_io w' s) ((path, key, o) :: take n items)
      = deliver_all s3 (with_d_io w' s3) (take n items)) as ->.
    { rewrite (deliver_all_ext s3 s). 
      - done.
      - intros k. unfold s3, touch. rewrite unpinned_positions. done.
      - by destruct Hq. }
    destruct Hout as [(-> & -> & ->)|(path' & key' & o' & x & s4 & Hn & Hf & Hx)]; [left|right].
    + rewrite <- app_assoc. by split_and!.
    + exists path', key', o', x, s4. split; [done|]. split; [done|].
      destruct x; [|done]. by rewrite <- app_assoc in Hx.
  - change (let '(r, s') := load_each cfg true loaded ((path, key, o) :: items) s1 in
      batch_outcome ((path, key, o) :: items) loaded s r s').
    destruct (read_failed_objs _ _ _ _ _ _ o Hread) as (data & _ & Hl1).
    rewrite load_each_failed by congruence.
    exists 0%nat, (d_io s). split; [done|]. split; [constructor|]. right. exists path, key, o, (Ok tt), s1.
    split; [done|]. split; [by destruct s|]. simpl. by rewrite app_nil_r.
  - exists 0%nat, (d_io s). split; [done|]. split; [constructor|]. right. exists path, key, o, (Raise e), s1.
    split; [done|]. split; [by destruct s|]. done.
Qed.

Section touching.
Context (g : string * K * Z -> disk_obj Dt F -> disk_obj Dt F).
Let run s items := foldl (fun s' it => touch (g it) it s') s items.

Lemma touch_objs_other items s o : o ∉ items.*2 -> objs (run s items) !! o = objs s !! o.
Proof.
  unfold run. revert s. induction items as [|it items IH]; intros s; [done|].
  intros [Hne Hn]%not_elem_of_cons. cbn [foldl]. rewrite IH by done. simpl.
  by rewrite lookup_alter_ne.
Qed.

Lemma touch_objs items s it :
  NoDup items.*2 -> it ∈ items -> objs (run s items) !! it.2 = g it <$> objs s !! it.2.
Proof.
  unfold run. revert s. induction items as [|it' items IH]; intros s; [by intros _ ?%not_elem_of_nil|].
  intros [Hn Hnd]%list.NoDup_cons [->|Hin]%elem_of_cons; cbn [foldl].
  - rewrite touch_objs_other by done. simpl. by rewrite lookup_alter_eq.
  - rewrite IH by done. simpl. rewrite lookup_alter_ne; [done|].
    intros E. apply Hn. simpl in *. rewrite E. by apply list_elem_of_fmap_2.
Qed.

Lemma unpinned_get key k s :
  od_get k (dict (unpinned key s))
    = if decide (key = k) then dm_add_pins (-1) <$> od_get k (dict s) else od_get k (dict s).
Proof.
  unfold unpinned, od_alter. destruct (od_get key (dict s)) as [m|] eqn:E; simpl.
  - rewrite od_get_set. destruct (decide (key = k)) as [<-|]; [by rewrite E|done].
  - destruct (decide (key = k)) as [<-|]; [by rewrite E|done].
Qed.

Lemma touch_dict_other items s k :
  k ∉ items.*1.*2 -> od_get k (dict (run s items)) = od_get k (dict s).
Proof.
  unfold run. revert s. induction items as [|it items IH]; intros s; [done|].
  intros [Hne Hn]%not_elem_of_cons. cbn [foldl]. rewrite IH by done. unfold touch.
  rewrite unpinned_get. rewrite decide_False by done. done.
Qed.

Lemma touch_dict items s it :
  NoDup items.*1.*2 -> it ∈ items ->
  od_get it.1.2 (dict (run s items)) = dm_add_pins (-1) <$> od_get it.1.2 (dict s).
Proof.
  unfold run. revert s. induction items as [|it' items IH]; intros s; [by intros _ ?%not_elem_of_nil|].
  intros [Hn Hnd]%list.NoDup_cons [->|Hin]%elem_of_cons; cbn [foldl].
  - rewrite touch_dict_other by done. unfold touch. rewrite unpinned_get.
    by rewrite decide_True.
  - rewrite IH by done. unfold touch. rewrite unpinned_get, decide_False; [done|].
    intros E. apply Hn. simpl in *. rewrite E. by do 2 apply list_elem_of_fmap_2.
Qed.

End touching.

Lemma read_failed_get key o path s x s' k :
  NoDup (od_keys (dict s)) -> read_failed key o path s x s' ->
  od_get k (dict s') = if decide (key = k) then None else od_get k (dict s).
Proof.
  intros Hnd (data & s1 & ((w & -> & _) & _) & (Hd & _) & _). rewrite Hd. simpl.
  by apply od_get_del.
Qed.

(** Its object may hold part of the file; everything else about objects is as before. *)
Lemma read_failed_obj key o path s x s' o' :
  read_failed key o path s x s' ->
  exists data, objs s' !! o' = (if decide (o' = o) then fill data else id) <$> objs s !! o'.
Proof.
  intros H. destruct (read_failed_objs _ _ _ _ _ _ o' H) as (data & -> & _). exists data.
  destruct (decide (o' = o)) as [->|]; [by rewrite lookup_alter_eq|].
  rewrite lookup_alter_ne by done. by destruct (objs s !! o').
Qed.

Definition counters (ob : disk_obj Dt F) : Z * Z := (do_refs ob, do_pins ob).

Lemma fill_counters key o path s x s' o' :
  read_failed key o path s x s' -> counters <$> objs s' !! o' = counters <$> objs s !! o'.
Proof.
  intros H. destruct (read_failed_obj _ _ _ _ _ _ o' H) as (data & ->).
  destruct (decide (o' = o)); by destruct (objs s !! o').
Qed.

(** What became of item [it] *)
Definition handed_over s s' (it : string * K * Z) : Prop := exists ob m,
  objs s !! it.2 = Some ob /\ od_get it.1.2 (dict s) = Some m
  /\ (length (byte_array ob) <= length (default [] (content (d_io s) it.1.1)))%nat
  /\ objs s' !! it.2 = Some (delivered s it ob)
  /\ od_get it.1.2 (dict s') = Some (dm_add_pins (-1) m).

Definition let_go s s' (it : string * K * Z) : Prop := exists ob,
  objs s !! it.2 = Some ob
  /\ counters <$> objs s' !! it.2 = Some (do_refs ob - 1, do_pins ob - 1).

Definition still_held s s' (it : string * K * Z) : Prop :=
  counters <$> objs s' !! it.2 = counters <$> objs s !! it.2.

Lemma handed_over_frame s s1 s2 it :
  handed_over s s1 it -> objs s2 !! it.2 = objs s1 !! it.2 ->
  od_get it.1.2 (dict s2) = od_get it.1.2 (dict s1) -> handed_over s s2 it.
Proof. intros (ob & m & ? & ? & ? & Ho & Hd) E1 E2. exists ob, m. by rewrite E1, E2. Qed.

Lemma deliver_all_inv s0 s items : disk_inv s -> disk_inv (deliver_all s0 s items).
Proof.
  unfold deliver_all. revert s. induction items as [|it items IH]; intros s Hi; [done|].
  apply IH. unfold touch. by apply unpinned_inv.
Qed.

(** The state after the first [l1] of a batch *)
Lemma delivered_prefix s w l1 :
  NoDup l1.*2 -> NoDup l1.*1.*2 -> batch_ready s l1 -> Forall (full s) l1 ->
  let s1 := deliver_all s (with_d_io w s) l1 in
  Forall (handed_over s s1) l1
  /\ (forall o, o ∉ l1.*2 -> objs s1 !! o = objs s !! o)
  /\ (forall k, k ∉ l1.*1.*2 -> od_get k (dict s1) = od_get k (dict s)).
Proof.
  intros Hndo Hndk Hready Hfull s1. unfold batch_ready in Hready. rewrite list.Forall_forall in Hready, Hfull.
  split_and!; [|intros o Ho; exact (touch_objs_other (delivered s) l1 (with_d_io w s) o Ho)
    |intros k Hk; exact (touch_dict_other (delivered s) l1 (with_d_io w s) k Hk)].
  apply list.Forall_forall. intros it Hit. destruct (Hready it Hit) as [[m Hm] [ob Ho]].
  exists ob, m. split; [done|]. split; [done|]. split; [by apply (Hfull it Hit)|].
  unfold s1, deliver_all. split.
  - rewrite touch_objs by done. simpl. by rewrite Ho.
  - rewrite touch_dict by done. simpl. by rewrite Hm.
Qed.

(** The item that could not be read, and those after it *)
Lemma batch_stopped s w l1 path key o l2 x s2 :
  disk_inv s -> quiet_io (d_io s) w -> batch_ready s (l1 ++ (path, key, o) :: l2) ->
  NoDup (l1 ++ (path, key, o) :: l2).*2 -> NoDup (l1 ++ (path, key, o) :: l2).*1.*2 ->
  Forall (full s) l1 -> read_failed key o path (deliver_all s (with_d_io w s) l1) x s2 ->
  Forall (handed_over s s2) l1
  /\ (forall o', o' ∉ (l1 ++ (path, key, o) :: l2).*2 -> objs s2 !! o' = objs s !! o')
  /\ od_get key (dict s2) = None
  /\ Forall (still_held s s2) ((path, key, o) :: l2).
Proof.
  intros Hi Hq Hready Hndo Hndk Hfull Hf. set (s1 := deliver_all _ _ _) in *.
  assert (disk_inv s1) as Hi1.
  { apply deliver_all_inv, (disk_inv_ext s); [done..| |exact Hi].
    destruct Hi as (_&_&Hb&_). simpl. eauto using quiet_io_below. }
  rewrite !fmap_app in Hndo. rewrite !fmap_app in Hndk. rewrite fmap_app.
  apply list.NoDup_app in Hndo as (Hndo1 & Hdiso & Hndo2).
  apply list.NoDup_app in Hndk as (Hndk1 & Hdisk & Hndk2).
  unfold batch_ready in Hready. apply list.Forall_app in Hready as [Hready1 Hready2].
  destruct (delivered_prefix s w l1 Hndo1 Hndk1 Hready1 Hfull) as (Hh & Hobj & Hdict).
  fold s1 in Hh, Hobj, Hdict.
  assert (forall o', o' <> o -> objs s2 !! o' = objs s1 !! o') as Hfo.
  { intros o' Hne. destruct (read_failed_obj _ _ _ _ _ _ o' Hf) as (data & ->).
    rewrite decide_False by done. by destruct (objs s1 !! o'). }
  assert (forall k, od_get k (dict s2) = if decide (key = k) then None else od_get k (dict s1)) as Hfd
    by (intros k; eapply read_failed_get; [apply Hi1|exact Hf]).
  split_and!.
  - rewrite list.Forall_forall in Hh |- *. intros it Hit. apply (handed_over_frame s s1); [by apply Hh| |].
    + apply Hfo. intros E. apply (Hdiso it.2); [by apply list_elem_of_fmap_2|]. rewrite E. by left.
    + rewrite Hfd. apply decide_False. intros E. apply (Hdisk it.1.2);
        [by do 2 apply list_elem_of_fmap_2|]. rewrite <- E. by left.
  - intros o' [Ho1 Ho2]%not_elem_of_app. apply not_elem_of_cons in Ho2 as [Hne Ho2].
    rewrite Hfo by done. by apply Hobj.
  - rewrite Hfd. by apply decide_True.
  - apply list.Forall_forall. intros it Hit. unfold still_held.
    rewrite (fill_counters _ _ _ _ _ _ it.2 Hf), Hobj; [done|].
    intros Hin. apply (Hdiso it.2 Hin). by apply (list_elem_of_fmap_2 snd).
Qed.

Lemma put_back_lets_go s s2 l :
  NoDup l.*2 -> batch_ready s l -> Forall (still_held s s2) l ->
  Forall (let_go s (put_back_all s2 l)) l.
Proof.
  unfold batch_ready. rewrite !list.Forall_forall. intros Hnd Hready Hheld it Hin.
  destruct (Hready it Hin) as [_ [ob Ho]]. specialize (Hheld it Hin). unfold still_held in Hheld.
  exists ob. split; [done|]. unfold put_back_all.
  rewrite (touch_objs (fun _ => put_back)) by done. rewrite Ho in Hheld.
  destruct (objs s2 !! it.2) as [ob2|]; [|done]. simpl in Hheld. injection Hheld as H1 H2.
  simpl. unfold counters. simpl. do 2 f_equal; lia.
Qed.

(** A batched load hands over a prefix of the objects, each with its file's bytes, its
    entry's positions and its entry unpinned once; every object from the first that cannot be
    read is unpinned and released exactly once, and the unreadable entry is dropped. But when
    dropping that entry raises, nobody gets the prefix and the rest stays pinned. *)
Theorem batched_load_outcome paths keys mos s :
  let items := zip (zip paths keys) mos in
  disk_inv s -> batch_ready s items -> NoDup items.*2 -> NoDup items.*1.*2 ->
  let '(r, s') := batched_async_load_bytes_from_disk cfg paths keys mos s in
  exists n, (n <= length items)%nat
    /\ Forall (handed_over s s') (take n items)
    /\ (forall o, o ∉ items.*2 -> objs s' !! o = objs s !! o)
    /\ (forall it, items !! n = Some it -> od_get it.1.2 (dict s') = None)
    /\ match r with
       | Ok loaded => loaded = (take n items).*2 /\ Forall (let_go s s') (drop n items)
       | Raise e => is_os_error e = true /\ (n < length items)%nat
           /\ Forall (still_held s s') (drop n items)
       end.
Proof.
  intros items Hi Hready Hndo Hndk. unfold batched_async_load_bytes_from_disk. fold items.
  pose proof (load_each_spec items [] s Hi Hready) as H.
  destruct (load_each cfg false [] items s) as [r s'].
  destruct H as (n & w & Hq & Hfull & Hout). set (s1 := deliver_all _ _ _) in Hout.
  pose proof (take_drop n items) as Hsplit. set (l1 := take n items) in *. set (l2 := drop n items) in *.
  destruct Hout as [(-> & -> & ->)|(path & key & o & x & s2 & Hn & Hf & Hx)].
  - assert (l1 = items /\ l2 = []) as [E1 E2]
      by (unfold l1, l2; by rewrite firstn_all, drop_all).
    rewrite E1 in Hfull.
    destruct (delivered_prefix s w items Hndo Hndk Hready Hfull) as (Hh & Hobj & Hdict).
    exists (length items). fold l1 l2. unfold s1. rewrite E1, E2. split_and!; try done.
    intros it Hit%lookup_lt_Some. lia.
  - apply drop_S in Hn. fold l2 in Hn. set (l3 := drop _ items) in Hn.
    rewrite <- Hsplit, Hn in Hready, Hndo, Hndk.
    destruct (batch_stopped s w l1 path key o l3 x s2 Hi Hq Hready Hndo Hndk Hfull Hf)
      as (Hh & Hobj & Hkey & Hheld).
    rewrite <- Hn in *. assert (n < length items)%nat as Hlt.
    { apply (f_equal length) in Hn. unfold l2 in Hn. rewrite length_drop in Hn. simpl in Hn. lia. }
    assert (forall it, items !! n = Some it -> it = (path, key, o)) as Hit.
    { intros it Hit%drop_S. fold l2 in Hit. congruence. }
    rewrite Hsplit in Hobj. exists n. fold l1 l2. destruct x as [u|e]; destruct Hx as [-> ->].
    + assert (forall it, it ∈ l1 -> (it.2 ∉ l2.*2) /\ it.1.2 ∉ l2.*1.*2) as Hdis.
      { rewrite !fmap_app in Hndo. rewrite !fmap_app in Hndk.
        apply list.NoDup_app in Hndo as (_ & Ho & _). apply list.NoDup_app in Hndk as (_ & Hk & _).
        intros it Hin. split; [apply Ho|apply Hk]; by repeat apply list_elem_of_fmap_2. }
      split_and!.
      * lia.
      * rewrite list.Forall_forall in Hh |- *. intros it Hin. destruct (Hdis it Hin) as [H1 H2].
        apply (handed_over_frame s s2); [by apply Hh| |].
        -- exact (touch_objs_other (fun _ => put_back) l2 s2 _ H1).
        -- exact (touch_dict_other (fun _ => put_back) l2 s2 _ H2).
      * intros o' Ho'. rewrite <- Hobj by done.
        apply (touch_objs_other (fun _ => put_back) l2 s2). intros Hin. apply Ho'.
        rewrite <- Hsplit, fmap_app. by apply elem_of_app; right.
      * intros it ->%Hit. simpl.
        assert (NoDup l2.*1.*2) as Hnd2.
        { rewrite !fmap_app in Hndk. by apply list.NoDup_app in Hndk as (_ & _ & ?). }
        transitivity (dm_add_pins (-1) <$> od_get key (dict s2)); [|by rewrite Hkey].
        apply (touch_dict (fun _ => put_back) l2 s2 (path, key, o) Hnd2). rewrite Hn. by left.
      * done.
      * apply (put_back_lets_go s s2 l2); [|by apply list.Forall_app in Hready as [_ ?]|done].
        rewrite fmap_app in Hndo. by apply list.NoDup_app in Hndo as (_ & _ & ?).
    + destruct Hf as (data & sr & _ & _ & He & _). split_and!; try done; [lia|].
      by intros it ->%Hit.
Qed.

End facts.
