(* ===== verification/LocalDiskExamples.v ===== *)
(** * The local disk backend: a concrete instance

    A backend of three parts: paths named after their keys, an allocator that counts, and the
    least-recently-used policy; the theorems applied to it. *)

From S2P Require Import Prelude Tensor World WorldIO Dict LocalDisk LocalDiskIO LocalDiskFacts LocalDiskBatch.
Import Lru.

Open Scope string_scope.
Open Scope list_scope.
Open Scope Z_scope.

Module DiskExamples.

#[local] Abbreviation toy_state := (disk_state string ex_dtype unit unit Z).
#[local] Abbreviation toy_meta := (disk_meta ex_dtype unit).

Definition toy_insert (key : string) (size : Z) sh dt (fmt : unit) cp : ST toy_state unit :=
  st_modify (fun s => if od_mem key (dict s) then s else
    with_dict (dict s ++ [(key, DiskMeta _ _ ("/disk/" +:+ key) size sh dt fmt cp 0)]) s).

(** The next identifier is the environment; a negative size or a used identifier gets nothing. *)
Definition toy_allocate (sh : option (list Z)) (dt : option ex_dtype) (fmt : unit)
    : ST toy_state (option Z) := fun s =>
  let size := match sh, dt with Some n, Some d => prodZ n * itemsize d | _, _ => 0 end in
  if (size <? 0) || bool_decide (is_Some (objs s !! env s)) then (Ok None, s)
  else (Ok (Some (env s)), with_env (env s + 1) (with_objs (<[env s :=
    DiskObj _ _ (replicate (Z.to_nat size) 0) true size sh dt fmt None 1 0]> (objs s)) s)).

#[export] Instance toy_parts : DiskParts string ex_dtype unit unit Z := {
  key_to_path key := "/disk/" +:+ key;
  chunk_hash _ := 0;
  insert_key := toy_insert;
  worker_remove_put_task _ := mret tt;
  worker_close := mret tt;
  cpu_allocate := toy_allocate;
}.

#[export] Instance toy_laws : DiskPartsLaws string ex_dtype unit unit Z.
Proof.
  constructor.
  - intros key size sh dt fmt cp s _. cbn [insert_key toy_parts]. unfold toy_insert, st_modify.
    exists (d_policy s), (if od_mem key (dict s) then dict s
      else dict s ++ [(key, DiskMeta _ _ ("/disk/" +:+ key) size sh dt fmt cp 0)]), (env s).
    destruct (od_mem key (dict s)); by destruct s.
  - intros key s. exists (env s). by destruct s.
  - intros sh dt fmt s. cbn [cpu_allocate toy_parts]. unfold toy_allocate.
    set (size := match sh, dt with Some n, Some d => prodZ n * itemsize d | _, _ => 0 end).
    destruct (_ || _) eqn:E; [exists (env s); left; by destruct s|].
    apply orb_false_iff in E as [E1%Z.ltb_ge E2%bool_decide_eq_false].
    exists (env s + 1). right. eexists _, _. split; [done|]. split; [|split; [done|split; [done|]]].
    + destruct (objs s !! env s); [by destruct E2|done].
    + intros n d -> ->. unfold size in *. simpl in *. unfold lenZ. rewrite length_replicate. lia.
Qed.

#[export] Instance toy_policy : CachePolicy string toy_meta unit := lru_policy (fun _ => true).
#[export] Instance toy_policy_laws : CachePolicyLaws string toy_meta unit (fun _ => true) :=
  lru_laws (fun _ => true).

Definition toy_world (fs : gmap string file) (events : list io_event) : world :=
  World fs ∅ 10 (fun _ => 0) events (HipClass false false ∅ []).

Definition toy_obj (b : list Z) : disk_obj ex_dtype unit :=
  DiskObj _ _ b true 64 (Some [lenZ b `div` 2]) (Some Float16) tt (Some [1; 2]) 2 1.

Definition toy_disk (fs : gmap string file) events (d : odict string toy_meta)
    (os : gmap Z (disk_obj ex_dtype unit)) : toy_state :=
  DiskState _ _ _ _ _ (toy_world fs events) d false 0 (od_sum payload_size d) None tt os [] 100.

Definition buffered : disk_config := DiskConfig 4096 false true.
Definition odirect : disk_config := DiskConfig 4 true true.

(** A save with direct I/O whose write is cut short still answers that it succeeded; with an
    older file at its path, a load then mixes the two. *)
Example short_write_mixes :
  let s := toy_disk {[ "/disk/k" := File 1 [9; 9; 9; 9; 9; 9; 9; 9] ]} [IoDone; IoShort 4; IoDone] []
    {[ 1 := toy_obj [1; 2; 3; 4; 5; 6; 7; 8] ]} in
  let s1 := (async_save_bytes_to_disk odirect "k" 1 None s).2 in
  (od_mem "k" (dict s1), byte_array <$> (objs (get_blocking odirect "k" s1).2 !! 100))
  = (true, Some [1; 2; 3; 4; 9; 9; 9; 9]).
Proof. reflexivity. Qed.

Lemma save_then_get_witness :
  let s := toy_disk ∅ [] [] {[ 1 := toy_obj [1; 2; 3; 4] ]} in
  exists s1 o' s2 ob', async_save_bytes_to_disk odirect "k" 1 None s = (Ok tt, s1)
    /\ get_blocking odirect "k" s1 = (Ok (Some o'), s2)
    /\ objs s2 !! o' = Some ob' /\ byte_array ob' = [1; 2; 3; 4].
Proof.
  intros s.
  destruct (save_then_get (K := string) (Dt := ex_dtype) (F := unit) (P := unit) (X := Z) odirect
    (can_evict := fun _ => true) "k" 1 None s (toy_obj [1; 2; 3; 4]) [2] Float16
    eq_refl eq_refl ltac:(by intros fd []) eq_refl I ltac:(constructor) eq_refl eq_refl eq_refl
    eq_refl ltac:(done)) as (s1 & H1 & Hsound & Hfound).
  assert (objs s1 !! env s1 = None) as Hroom.
  { replace s1 with (async_save_bytes_to_disk odirect "k" 1 None s).2 by (by rewrite H1). done. }
  destruct (Hfound eq_refl) as (o' & s2 & H2).
  { intros s' Ho He. cbn [cpu_allocate toy_parts]. unfold toy_allocate.
    rewrite Ho, He, Hroom. by vm_compute. }
  destruct (Hsound o' s2 H2) as (ob' & Ho & Hb & _).
  by exists s1, o', s2, ob'.
Defined.

Definition entry (key : string) (cp : option (list Z)) : toy_meta :=
  DiskMeta _ _ ("/disk/" +:+ key) 4 (Some [2]) (Some Float16) tt cp 1.

(** Two entries, the file of the second too short *)
Definition two_files : toy_state := toy_disk
  {[ "/disk/a" := File 1 [1; 2; 3; 4]; "/disk/b" := File 2 [5; 6] ]} []
  [("a", entry "a" (Some [7])); ("b", entry "b" None)]
  {[ 1 := toy_obj [0; 0; 0; 0]; 2 := toy_obj [0; 0; 0; 0] ]}.

Lemma two_files_inv : disk_inv two_files.
Proof.
  split_and!; try done.
  - by refine (bool_decide_unpack _ _); vm_compute.
  - by intros fd [].
  - repeat constructor; by eexists.
Qed.

Lemma disk_usage_accounting_witness :
  let s' := (remove buffered "a" true (get_blocking buffered "b" two_files).2).2 in
  usage two_files = 8 /\ dict s' = [] /\ usage s' = 0 /\ stats s' = Some 0.
Proof.
  intros s'.
  destruct (disk_usage_accounting (K := string) (Dt := ex_dtype) (F := unit) (P := unit) (X := Z) buffered
    (can_evict := fun _ => true) two_files s' two_files_inv) as (Hu & _ & _).
  { eapply rtc_l; [apply (step_get buffered "b")|]. eapply rtc_l; [apply (step_remove buffered "a" true)|].
    apply rtc_refl. }
  split; [done|]. split; [done|]. split; [exact Hu|done].
Defined.

Lemma batched_load_outcome_witness :
  let s' := (batched_async_load_bytes_from_disk buffered ["/disk/a"; "/disk/b"] ["a"; "b"] [1; 2] two_files).2 in
  (batched_async_load_bytes_from_disk buffered ["/disk/a"; "/disk/b"] ["a"; "b"] [1; 2] two_files).1 = Ok [1]
  /\ handed_over two_files s' ("/disk/a", "a", 1) /\ let_go two_files s' ("/disk/b", "b", 2)
  /\ od_get "b" (dict s') = None.
Proof.
  intros s'.
  pose proof (batched_load_outcome (K := string) (Dt := ex_dtype) (F := unit) (P := unit) (X := Z) buffered
    ["/disk/a"; "/disk/b"] ["a"; "b"] [1; 2] two_files two_files_inv
    ltac:(repeat constructor; by eexists) ltac:(by refine (bool_decide_unpack _ _); vm_compute)
    ltac:(by refine (bool_decide_unpack _ _); vm_compute)) as H.
  unfold s'. destruct (batched_async_load_bytes_from_disk _ _ _ _ _) as [r s1] eqn:E.
  assert (r = Ok [1]) as -> by (change r with ((r, s1).1); rewrite <- E; done).
  destruct H as (n & Hn & Hover & _ & Hgone & Hl & Hlet).
  assert (n = 1%nat) as -> by (destruct n as [|[|[|n]]]; [done|done|done|simpl in Hn; lia]).
  simpl in Hover, Hlet. split; [done|].
  split; [by apply list.Forall_cons in Hover as [? _]|].
  split; [by apply list.Forall_cons in Hlet as [? _]|]. exact (Hgone _ eq_refl).
Defined.

End DiskExamples.
